(* ===== verification/_CoqProject ===== *)
-Q . S2P
Prelude.v
Skb.v
VmacDefs.v
Kernel.v
Tables.v
Tx.v
Dack.v
Rx.v
Netlink.v
Clean.v
DackSpec.v
TxSpec.v
NetlinkSpec.v
RxSpec.v
RetxSpec.v
DackFrame.v
DeliverySpec.v
System.v
Demo.v
Reliability.v
Defects.v
Delivery.v
Mem.v
Arc4.v
SecDefs.v
Wep.v
FragSpec.v
WepSpec.v
Michael.v
MichaelSpec.v
Tkip.v
TkipMix.v
TkipSpec.v
Aes.v
AesSpec.v
Ccmp.v
CcmpSpec.v
CcmpLink.v
Reorder.v
ReorderSpec.v
ReorderThms.v
Radiotap.v
RadiotapSpec.v
Monitor.v
MonitorSpec.v
MonitorLink.v
RecvFrame.v
RecvThms.v
Msdu.v
MsduSpec.v
RecvData.v
RecvMain.v
RecvDemo.v
RecvDataSpec.v
RecvMainSpec.v
RecvMainThms.v
XmitData.v
XmitFrame.v
XmitDemo.v
XmitSpec.v
AirLink.v
XmitThms.v
XmitQueue.v
XmitQueueDemo.v
XmitQueueSpec.v
XmitQueueOps.v
XmitQueueThms.v
Acl.v
Bitmap.v
Cam.v
CamSpec.v
CamThms.v
StaTable.v
StaSpec.v
StaIds.v
StaThms.v
SipHash.v
SipSpec.v
Usrsp.v
UsrspSpec.v
