(* ===== verification/Prelude.v ===== *)
(** * Verification of V-MAC 802.11ac

    V-MAC is a data-centric MAC layer in a Realtek 802.11ac driver: programs
    send and receive frames under names, a name is hashed to a 64-bit
    encoding, every station in range hears every frame, and receivers report
    losses with DACKs that make the sender transmit again.  This library
    models that path from program to program, the parts of the driver it runs
    through, and the software ciphers and receive machinery of the driver.

    ** The program and its models

    - userspace/csiphash.c: [SipHash] ([siphash24]); userspace/vmac-usrsp.c:
      [Usrsp] ([vmac_register], [send_vmac], a round of [recvvmac], the tables
      of names and rates).  The state is [vmac_lib_priv], the global
      [vmac_priv].
    - include/osdep_service_bsd.h and the kernel interface: [Skb] (the class
      [Kernel] of kernel facts, socket buffers), [Kernel] (the state [kstate]
      of the module and the monad [K] of its handlers).
    - core/vmac.h: [VmacDefs].  core/rtw_xmit.c: [Tables] (the two hash
      tables), [Netlink] ([nl_recv], [vmac_init], [exit_vmac]).  core/tx.c:
      [Tx] ([vmac_tx], [vmac_low_tx], [xmit_mo]).  core/rx.c: [Rx]
      ([vmac_rx], [nl_send]).  core/dack.c: [Dack] ([request_DACK],
      [prepDACK], [__sendDACK]).  core/clean.c: [Clean] ([process], the two
      timer functions).
    - core/rtw_recv.c: [Radiotap] and [Monitor] ([fill_radiotap_hdr],
      [vmac_override], [recv_frame_monitor] and the free queue of receive
      frames), [Reorder] (the block-ack window and its timer), [RecvFrame]
      (cursor operations of rtw_recv.h, reassembly, the Michael check), [Msdu]
      (splitting of A-MSDUs, conversion to Ethernet, [recv_process_mpdu]),
      [RecvData] ([validate_recv_frame] with its data branch), [RecvMain]
      ([recv_func], [decryptor], [portctrl], [rtw_recv_entry], the pool of
      receive frames); [RecvDemo] holds a concrete station.
    - core/rtw_xmit.c, the packets of the network stack: [XmitData]
      ([update_attrib] with its cipher, rate control and QoS parts),
      [XmitFrame] ([rtw_make_wlanhdr], [rtw_xmitframe_coalesce] with
      fragments, Michael code and software encryption), [XmitQueue] (the pools
      of transmit frames, the service and sleep queues of the stations, power
      saving, [rtw_xmit]; with [pre_xmitframe] of the USB HAL and the queue
      part of [rtw_free_stainfo]); [XmitDemo] and [XmitQueueDemo] hold a
      concrete access point.
    - Stations and keys: core/rtw_sta_mgt.c with parts of rtw_ap.c,
      rtw_mlme_ext.c, rtw_mlme.c and rtw_wlan_util.c: [StaTable] (the pool and
      the hash table of stations, [rtw_alloc_stainfo], [rtw_free_stainfo],
      macids, association identifiers, the lists of stations that authenticate and
      are associated, [OnDeAuth], [rtw_sta_flush], the expiry of stations that
      authenticate); rtw_wlan_util.c: [Bitmap], [Cam] (the key memory of the
      hardware, its cache, and the handlers [setkey_hdl], [set_stakey_hdl]);
      rtw_ap.c: [Acl] (the access list).  [StaTable] frees the queues of
      [XmitQueue].
    - core/rtw_security.c: [Mem] (buffers), [Arc4] (RC4 and the ICV), [SecDefs] (the
      attributes and the loop over fragments), [Wep], [Michael], [Tkip],
      [Aes], [Ccmp].

    A process calls [send_vmac]; the netlink message reaches [nl_recv], which
    copies it and calls [vmac_tx]; [xmit_mo] puts it on the air.  A receiving
    driver passes it to [recv_frame_monitor], whose [vmac_override] calls
    [vmac_rx]; [nl_send] sends a message that [recvvmac] hands to the
    callback.  [Dack] and [Clean] run from timers.  Outside monitor mode
    [recv_func] takes a frame through validation, decryption, reassembly, port
    control, the reorder window and the conversion to Ethernet; the other way
    [update_attrib] describes a packet and [rtw_xmitframe_coalesce] builds its
    frame.

    ** How the code is represented

    A w-bit unsigned integer is a [Z] with explicit wraps ([u8], [u16],
    [u32], [u64], [s32]); memory is a list of bytes, [le_enc] and [le_dec]
    convert integers on the little-endian hosts the driver supports.  Module
    code is a state monad: a kernel crash is [Crash], a memory error that
    execution survives is recorded in [k_log], and what the environment
    decides (allocations, locks, random words, freshly allocated memory)
    comes from the oracle in the state.  Pure buffer code returns [option];
    [None] is an access that leaves its buffer.  Handlers are the whole C
    functions, on every branch; concurrency is the order of the steps of
    [System.step] and [Reorder.ro_step].  Kernel facts that the source relies
    on are fields of the class [Kernel], instantiated by [demo_kernel].

    ** What is shown

    - Program to program: [UsrspSpec] ([user_end_to_end]), over [MonitorLink],
      [Delivery], [DeliverySpec], [NetlinkSpec], [TxSpec]; the hash is SipHash-2-4 ([SipSpec]).
    - Loss repair: [Reliability] over [DackSpec], [DackFrame], [RetxSpec],
      [RxSpec]: what a DACK reports, what it retransmits, pacing, the bound of
      20 frames for any DACK.
    - State: [System] and [Delivery.tables_reachable] (every reachable state,
      any messages, frames, timers and failures; what expiry frees).
    - Departures of the code from its comments: [Defects], the last theorems
      of [CcmpLink], [ReorderThms] and the examples of [RadiotapSpec],
      [RecvThms] and [UsrspSpec].
    - Monitor path: [RadiotapSpec] (round trip with a reader that follows the
      radiotap rules), [MonitorSpec] (filter, recycling).
    - Reorder window: [ReorderSpec], [ReorderThms] (refinement of a window on
      unbounded integers, order, conservation, losslessness, progress).
    - Reassembly: [RecvThms] (conservation of frames, the joined
      payload, the Michael check of the whole).
    - Ethernet packets: [MsduSpec] (A-MSDUs are split completely; what lies
      behind the frame, where the code reads the type of a short subframe, has no
      effect; the two conversions agree).
    - The receive path as a whole: [RecvDataSpec] (retransmissions and old
      packet numbers are refused), [RecvMainSpec] (every receive frame stays
      in one place, except exactly those [recv_lost] lists), [RecvMainThms] (from a
      sealed frame to one Ethernet packet and a window behind it; a leak; any
      forged group frame moves the packet number window).
    - The transmit path: [XmitSpec] (header and layout of a
      frame), [AirLink] (an Ethernet packet sent by an access point comes out
      of the receive path of the station as it went in), [XmitThms] (headers
      are read back; fragmented packets are lost; a blocked port, fresh packet
      numbers).
    - The transmit queues: [XmitQueueSpec] (the invariant), [XmitQueueOps]
      (every operation keeps it), [XmitQueueThms] (no frame is lost in any
      order of operations, none of them fails, a station that wakes up gets
      its frames in order; service by priority; the frames
      that a station with a large identifier loses).
    - Stations: [StaSpec] (a freed station has no frame queued; the table is
      a finite map), [StaIds] (macids and association identifiers), [StaThms]
      (any order of operations of an access point whose stations do not send
      from group addresses: no entry is lost, identifiers are unique and fit; what
      a group address and a large association identifier do).
    - Keys: [CamSpec] (the words of an entry, the searches, the invariant of
      cache and hardware, the handlers), [CamThms] (any order of
      handlers, installing and moving keys, a key that is overwritten);
      [Acl] (the access list is a set of at most 16 addresses).
    - Ciphers: [WepSpec], [TkipSpec], [TkipMix], [MichaelSpec], [AesSpec],
      [CcmpSpec], [CcmpLink] (AES is FIPS-197, CCMP is CCM, sealed fragments
      open, others are refused, RC4 keys are unique) over [FragSpec]; [Demo]
      holds concrete states.

    ** Where the theorems stop

    Some theorems exclude inputs for which the code fails, and each failure
    has a statement of its own: frame number 500 and the read below the window
    ([Defects]); transmit buffers whose fragments do not lie at the stride the
    ciphers walk by, as [rtw_xmitframe_coalesce] makes them for two or more
    fragments ([XmitThms]); received frames over 2048 bytes and four-address
    QoS headers ([CcmpLink]); radiotap headers with a misaligned timestamp
    ([RadiotapSpec]); group addresses as senders ([StaThms]).

    ** Fuel

    Loops whose recursion is not structural take fuel and are given enough:
    [advance] gets the distance to the new frame number, the hole search the
    width of the window, [secmic_zeroes] three rounds, [sip_loop] one more
    than the number of words, [frag_loop] the number of fragments,
    [fragment_loop] one more than the bytes of the packet, [clear_keys] one
    more than the entries of the key memory (for an address other than zero,
    for which the loop of the source never ends).  The theorems that give
    their results show that fuel never runs out.

    ** Not modelled

    The HAL, PHYDM, register tables and firmware; the Linux, ioctl and
    cfg80211 glue; management (scanning, joining, beacons, action frames, the
    command queue, the expiry of associated stations), which V-MAC runs
    without, beyond stations, keys and the access list; p2p, tdls, wapi, br_ext,
    power, efuse, mp and debug code; A-MSDUs, 802.11w and the pools of
    transmit buffers in rtw_xmit.c; of
    rtw_recv.c what management and control frames do, power saving of the
    stations of an access point, signal statistics and the debug code; of
    rtw_security.c the SHA, BIP and SMS4 code;
    [ieee80211_rx_vmac], which nothing calls; queue.c, which is not compiled;
    the test program stress-test.c except [getRate]. *)

From Stdlib Require Export ZArith Lia.
From stdpp Require Export base list list_numbers numbers gmap option.
#[export] Set Default Goal Selector "!".
#[global] Open Scope Z_scope.

(** ** Machine integers

    A C unsigned integer of width [w] is a [Z] in [0, 2^w); every operation
    that can leave the range is followed by an explicit wrap. *)

Definition wrap (w x : Z) : Z := x mod 2 ^ w.
Abbreviation u8 := (wrap 8).
Abbreviation u16 := (wrap 16).
Abbreviation u32 := (wrap 32).
Abbreviation u64 := (wrap 64).

Definition in_width (w x : Z) : Prop := 0 <= x < 2 ^ w.
Abbreviation is_u8 := (in_width 8).
Abbreviation is_u16 := (in_width 16).
Abbreviation is_u32 := (in_width 32).
Abbreviation is_u64 := (in_width 64).

Create HintDb vmac.
Create Rewrite HintDb vmac_bytes.

Lemma pow2_pos w : 0 <= w -> 0 < 2 ^ w.
Proof. intros; apply Z.pow_pos_nonneg; lia. Qed.

Lemma wrap_range w x : 0 <= w -> in_width w (wrap w x).
Proof. intros; apply Z.mod_pos_bound, pow2_pos; lia. Qed.

Lemma wrap_small w x : in_width w x -> wrap w x = x.
Proof. apply Z.mod_small. Qed.

Lemma wrap_wrap w x : 0 <= w -> wrap w (wrap w x) = wrap w x.
Proof. intros; apply wrap_small, wrap_range; lia. Qed.

Lemma wrap_land w x : 0 <= w -> wrap w x = Z.land x (Z.ones w).
Proof. intros; unfold wrap; rewrite Z.land_ones by lia; done. Qed.

#[export] Hint Resolve wrap_range : vmac.
#[export] Hint Extern 1 (0 <= _) => lia : vmac.

(** A value is in width [w] exactly when it has no bit at or above [w]. *)
Lemma in_width_bits w x :
  0 <= w -> in_width w x <-> (forall i, w <= i -> Z.testbit x i = false).
Proof.
  intros Hw; split.
  - intros Hx i Hi. destruct (Z.eq_dec x 0) as [->|Hnz]; [apply Z.bits_0|].
    unfold in_width in Hx. apply Z.bits_above_log2; [lia|].
    enough (Z.log2 x < w) by lia. apply Z.log2_lt_pow2; lia.
  - intros Hb. assert (x = wrap w x) as ->; [|by apply wrap_range].
    apply Z.bits_inj'; intros i Hi. unfold wrap.
    destruct (Z.lt_ge_cases i w).
    + by rewrite Z.mod_pow2_bits_low.
    + rewrite Z.mod_pow2_bits_high by lia. by apply Hb.
Qed.

Lemma lxor_in_width w x y :
  0 <= w -> in_width w x -> in_width w y -> in_width w (Z.lxor x y).
Proof.
  intros Hw Hx Hy. apply in_width_bits; [done|]. intros i Hi.
  rewrite Z.lxor_spec.
  by rewrite (proj1 (in_width_bits w x Hw) Hx), (proj1 (in_width_bits w y Hw) Hy).
Qed.

Lemma lor_in_width w x y :
  0 <= w -> in_width w x -> in_width w y -> in_width w (Z.lor x y).
Proof.
  intros Hw Hx Hy. apply in_width_bits; [done|]. intros i Hi.
  rewrite Z.lor_spec.
  by rewrite (proj1 (in_width_bits w x Hw) Hx), (proj1 (in_width_bits w y Hw) Hy).
Qed.

Lemma land_in_width_r w x y :
  0 <= w -> in_width w y -> in_width w (Z.land x y).
Proof.
  intros Hw Hy. apply in_width_bits; [done|]. intros i Hi.
  rewrite Z.land_spec, (proj1 (in_width_bits w y Hw) Hy) by done.
  apply andb_false_r.
Qed.

Lemma shiftr_in_width w x n :
  0 <= w -> 0 <= n -> in_width w x -> in_width w (Z.shiftr x n).
Proof.
  intros Hw Hn Hx. apply in_width_bits; [done|]. intros i Hi.
  unfold in_width in Hx. rewrite Z.shiftr_spec by lia.
  apply (proj1 (in_width_bits w x Hw) Hx). lia.
Qed.

#[export] Hint Resolve lxor_in_width lor_in_width land_in_width_r shiftr_in_width : vmac.

Lemma lxor_cancel_r x y : Z.lxor (Z.lxor x y) y = x.
Proof. by rewrite Z.lxor_assoc, Z.lxor_nilpotent, Z.lxor_0_r. Qed.

(** ** Little-endian byte strings

    A byte is a [Z] in [0, 256).  [le_enc n x] is the [n]-byte little-endian
    image of [x]; [le_dec] is its inverse.  The supported hosts of the driver
    are little-endian, so this is what a [memcpy] of an integer produces. *)

Abbreviation bytes := (Forall is_u8).

Fixpoint le_enc (n : nat) (x : Z) : list Z :=
  match n with
  | O => []
  | S n' => x mod 256 :: le_enc n' (x / 256)
  end.

Fixpoint le_dec (l : list Z) : Z :=
  match l with
  | [] => 0
  | b :: l' => b + 256 * le_dec l'
  end.

Lemma length_le_enc n x : length (le_enc n x) = n.
Proof. revert x; induction n; intros; cbn; [done|]. by rewrite IHn. Qed.

Lemma le_enc_bytes n x : bytes (le_enc n x).
Proof.
  revert x; induction n; intros; cbn; constructor; [|done].
  apply (wrap_range 8); lia.
Qed.

Lemma le_dec_enc n x : le_dec (le_enc n x) = wrap (8 * Z.of_nat n) x.
Proof.
  revert x; induction n as [|n IH]; intros x; cbn [le_enc le_dec].
  - unfold wrap. rewrite Z.mul_0_r, Z.mod_1_r. done.
  - rewrite IH. unfold wrap.
    replace (8 * Z.of_nat (S n)) with (8 + 8 * Z.of_nat n) by lia.
    rewrite Z.pow_add_r by lia. change (2 ^ 8) with 256.
    rewrite Z.rem_mul_r; [lia|lia|]. apply pow2_pos; lia.
Qed.

Lemma le_dec_range l : bytes l -> in_width (8 * Z.of_nat (length l)) (le_dec l).
Proof.
  unfold in_width. induction 1 as [|b l Hb Hl IH]; cbn [le_dec length]; [cbn; lia|].
  replace (8 * Z.of_nat (S (length l))) with (8 + 8 * Z.of_nat (length l)) by lia.
  rewrite Z.pow_add_r by lia. unfold in_width in Hb. change (2 ^ 8) with 256 in *. nia.
Qed.

Lemma le_enc_dec l : bytes l -> le_enc (length l) (le_dec l) = l.
Proof.
  induction 1 as [|b l Hb Hl IH]; cbn [le_dec le_enc length]; [done|].
  unfold in_width in Hb. change (2 ^ 8) with 256 in Hb.
  f_equal.
  - rewrite (Z.mul_comm 256), Z.mod_add by lia. apply Z.mod_small. lia.
  - rewrite (Z.mul_comm 256), Z.div_add, Z.div_small by lia. done.
Qed.

(** Decoding the little-endian field that starts a longer buffer. *)
Lemma le_dec_enc_small n x :
  in_width (8 * Z.of_nat n) x -> le_dec (le_enc n x) = x.
Proof. intros; rewrite le_dec_enc; by apply wrap_small. Qed.

Lemma take_le_enc_app n x l : take n (le_enc n x ++ l) = le_enc n x.
Proof. apply take_app_length'; by rewrite length_le_enc. Qed.

Lemma drop_le_enc_app n x l : drop n (le_enc n x ++ l) = l.
Proof. apply drop_app_length'; by rewrite length_le_enc. Qed.

#[export] Hint Rewrite length_le_enc take_le_enc_app drop_le_enc_app : vmac_bytes.

(** ** C arrays

    [arr_get]/[arr_set] are the in-range read and write of a C array; the
    callers model an out-of-range index explicitly, so the default value is
    never relied on. *)

Definition in_range {A} (l : list A) (i : Z) : Prop := 0 <= i < Z.of_nat (length l).

Definition arr_get (l : list Z) (i : Z) : Z := default 0 (l !! Z.to_nat i).
Definition arr_set {A} (l : list A) (i : Z) (v : A) : list A := <[Z.to_nat i := v]> l.

Lemma length_arr_set {A} (l : list A) i v : length (arr_set l i v) = length l.
Proof. apply length_insert. Qed.

Lemma arr_get_set_eq l i v : in_range l i -> arr_get (arr_set l i v) i = v.
Proof.
  unfold in_range, arr_get, arr_set; intros. rewrite list_lookup_insert_eq; [done|lia].
Qed.

Lemma arr_get_set_ne l i j v :
  0 <= i -> 0 <= j -> i <> j -> arr_get (arr_set l i v) j = arr_get l j.
Proof.
  unfold arr_get, arr_set; intros. rewrite list_lookup_insert_ne; [done|lia].
Qed.

#[export] Hint Rewrite @length_arr_set : vmac_bytes.

(** A filter only depends on the elements of the list. *)
Lemma filter_ext_in {A} (P Q : A -> Prop) `{!forall x, Decision (P x), !forall x, Decision (Q x)}
    (l : list A) :
  (forall x, x ∈ l -> P x <-> Q x) -> filter P l = filter Q l.
Proof.
  induction l as [|x l IH]; intros HPQ; [done|]. rewrite !filter_cons.
  rewrite IH by (intros y Hy; apply HPQ; by right).
  specialize (HPQ x (list_elem_of_here _ _)). do 2 case_decide; tauto.
Qed.

Lemma filter_none {A} (P : A -> Prop) `{!forall x, Decision (P x)} (l : list A) :
  (forall x, x ∈ l -> ~ P x) -> filter P l = [].
Proof.
  induction l as [|x l IH]; intros HP; [done|]. rewrite filter_cons, decide_False.
  - apply IH. intros y Hy. apply HP. by right.
  - apply HP. by left.
Qed.

(** Bytewise exclusive or, as the stream ciphers apply it. *)
Definition xor_bytes (l1 l2 : list Z) : list Z := zip_with Z.lxor l1 l2.

Lemma length_xor_bytes l1 l2 :
  length l1 = length l2 -> length (xor_bytes l1 l2) = length l1.
Proof. intros; unfold xor_bytes; rewrite length_zip_with; lia. Qed.

Lemma xor_bytes_involutive l k :
  length l = length k -> xor_bytes (xor_bytes l k) k = l.
Proof.
  revert k; induction l as [|x l IH]; intros [|y k] H; try done.
  cbn in *. rewrite lxor_cancel_r. f_equal. apply IH. lia.
Qed.

Lemma xor_bytes_bytes l k : bytes l -> bytes k -> bytes (xor_bytes l k).
Proof.
  intros Hl; revert k; induction Hl; intros k Hk; destruct Hk; cbn; constructor; auto with vmac.
Qed.

(** ** Tactics *)

(** Split every boolean test of the goal into its cases and turn the tests
    into (in)equalities over [Z]. *)
Ltac case_test :=
  match goal with
  | |- context [if (?a =? ?b)%Z then _ else _] => destruct (Z.eqb_spec a b)
  | |- context [if (?a <? ?b)%Z then _ else _] => destruct (Z.ltb_spec a b)
  | |- context [if (?a <=? ?b)%Z then _ else _] => destruct (Z.leb_spec a b)
  end.

Ltac case_tests := repeat (case_test; try lia).

(** Turn boolean hypotheses into propositions. *)
Ltac bool_hyps :=
  repeat match goal with
  | H : _ && _ = true |- _ => apply andb_true_iff in H as [? ?]
  | H : _ && _ = false |- _ => apply andb_false_iff in H
  | H : _ || _ = false |- _ => apply orb_false_iff in H as [? ?]
  | H : _ || _ = true |- _ => apply orb_true_iff in H
  | H : negb _ = true |- _ => apply negb_true_iff in H
  | H : negb _ = false |- _ => apply negb_false_iff in H
  | H : (_ =? _)%Z = true |- _ => apply Z.eqb_eq in H
  | H : (_ =? _)%Z = false |- _ => apply Z.eqb_neq in H
  | H : (_ <? _)%Z = true |- _ => apply Z.ltb_lt in H
  | H : (_ <? _)%Z = false |- _ => apply Z.ltb_ge in H
  | H : (_ <=? _)%Z = true |- _ => apply Z.leb_le in H
  | H : (_ <=? _)%Z = false |- _ => apply Z.leb_gt in H
  end.

(** Linear arithmetic that also knows the widths in the context. *)
Ltac width_lia :=
  unfold in_width in *;
  change (2 ^ 8) with 256 in *; change (2 ^ 16) with 65536 in *;
  change (2 ^ 32) with 4294967296 in *;
  change (2 ^ 64) with 18446744073709551616 in *; lia.

(** ** Record update

    [r <| f := v |>] is [r] with the field [f] replaced by [v], as a struct
    assignment [r->f = v].  A record declares its eta expansion as an instance
    of [Eta]; the setter of a field is found by abstracting the field in it. *)

Class Eta (R : Type) := eta : R -> R.
Class Setter {R T : Type} (f : R -> T) := set : (T -> T) -> R -> R.

Ltac derive_setter :=
  match goal with
  | |- @Setter ?R ?T ?f =>
      let inst := constr:(_ : Eta R) in
      let i := eval hnf in inst in
      let e := eval pattern f in i in
      match e with
      | ?g _ => exact (fun (upd : T -> T) (r : R) => g (fun r' => upd (f r')) r)
      end
  end.

#[export] Hint Extern 1 (Setter _) => derive_setter : typeclass_instances.

Notation "r <| f := v |>" := (@set _ _ f _ (fun _ => v) r)
  (at level 1, left associativity, f at level 9, v at level 200).
