(* ===== verification/Skb.v ===== *)
(** * Kernel services and socket buffers

    [Kernel] is the interface to the parts of the Linux kernel the module
    relies on and that are not in the repository; [skb] is a socket buffer
    with the accessors of [include/osdep_service_bsd.h] (the in-tree
    definition of [skb_put], [skb_pull] and [skb_reserve]) and [skb_push]. *)

From S2P Require Import Prelude.
(** ** The kernel interface

    - [hash_min key] is the bucket that <linux/hashtable.h> selects for a
      64-bit key in the 5-bit tables [rx_enc] and [tx_enc];
    - [msecs_to_jiffies] is the tick conversion of <linux/jiffies.h>;
    - [net_skb_pad] is the headroom [dev_alloc_skb] reserves;
    - [fresh_bytes n] is the (arbitrary) content of [n] bytes of memory that
      an allocation returned without clearing it;
    - [stack_u16 i] is the (arbitrary) content of an uninitialised automatic
      variable, [stack_bytes n] that of an uninitialised array;
    - [stack_addr] is the address of an automatic variable. *)
Class Kernel := {
  hash_min : Z -> Z;
  hash_min_range : forall key, 0 <= hash_min key < 32;
  msecs_to_jiffies : Z -> Z;
  msecs_to_jiffies_mono : forall a b, 0 <= a <= b ->
    0 <= msecs_to_jiffies a <= msecs_to_jiffies b;
  net_skb_pad : Z;
  net_skb_pad_pos : 32 <= net_skb_pad;
  fresh_bytes : nat -> list Z;
  fresh_bytes_length : forall n, length (fresh_bytes n) = n;
  fresh_bytes_ok : forall n, bytes (fresh_bytes n);
  stack_u16 : Z -> Z;
  stack_u16_range : forall i, is_u16 (stack_u16 i);
  stack_addr : Z
}.

(** A concrete kernel, with which the witnesses are evaluated: HZ = 100, a
    multiplicative hash on the low bits, cleared memory. *)
#[export] Program Instance demo_kernel : Kernel := {|
  hash_min key := key mod 32;
  msecs_to_jiffies m := m / 10;
  net_skb_pad := 64;
  fresh_bytes n := repeat 0 n;
  stack_u16 _ := 0;
  stack_addr := 51966
|}.
Next Obligation. intros; apply Z.mod_pos_bound; lia. Qed.
Next Obligation.
  intros; split; [apply Z.div_pos; lia|apply Z.div_le_mono; lia].
Qed.
Next Obligation. lia. Qed.
Next Obligation. intros; apply repeat_length. Qed.
Next Obligation. intros n; induction n; constructor; [width_lia|done]. Qed.
Next Obligation. intros; width_lia. Qed.

(** ** Socket buffers

    [sk_room] is the headroom in bytes, [sk_data] the [len] bytes at [data],
    and [sk_tail] the bytes of the buffer from [tail] to [end]. *)
Record skb := mk_skb {
  sk_room : Z;
  sk_data : list Z;
  sk_tail : list Z
}.

#[export] Instance skb_eta : Eta skb :=
  fun s => mk_skb (sk_room s) (sk_data s) (sk_tail s).

Definition skb_len (s : skb) : Z := Z.of_nat (length (sk_data s)).

(** [memcpy(skb_put(skb, n), src, n)]: [tail] advances over [n] bytes, which
    are overwritten with [src]; [None] is running past [end]
    ([skb_over_panic] in the Linux implementation). *)
Definition skb_put (s : skb) (src : list Z) : option skb :=
  if decide (length src <= length (sk_tail s))%nat
  then Some (mk_skb (sk_room s) (sk_data s ++ src) (drop (length src) (sk_tail s)))
  else None.

(** [memcpy(skb_push(skb, n), src, n)]: [data] moves back by [n] bytes into
    the headroom; [None] is running out of it ([skb_under_panic]). *)
Definition skb_push (s : skb) (src : list Z) : option skb :=
  if decide (Z.of_nat (length src) <= sk_room s)
  then Some (mk_skb (sk_room s - Z.of_nat (length src)) (src ++ sk_data s) (sk_tail s))
  else None.

(** [skb_pull(skb, n)]: refuses (returns NULL, changing nothing) when [n]
    exceeds [len]. *)
Definition skb_pull (s : skb) (n : nat) : skb :=
  if decide (length (sk_data s) < n)%nat then s
  else mk_skb (sk_room s + Z.of_nat n) (drop n (sk_data s)) (sk_tail s).

(** [skb_reserve(skb, n)] on an empty buffer. *)
Definition skb_reserve (s : skb) (n : nat) : skb :=
  mk_skb (sk_room s + Z.of_nat n) (sk_data s) (drop n (sk_tail s)).

(** The [n] bytes at offset [k] from [data].  C code that reads a header
    field through [skb->data] reads them whether or not they lie below
    [len]; the result is shorter than [n] when they lie past [end]. *)
Definition skb_peek (s : skb) (k n : nat) : list Z :=
  take n (drop k (sk_data s ++ sk_tail s)).

(** [dev_alloc_skb(size)] when the allocation succeeds. *)
Definition dev_alloc_skb `{Kernel} (size : Z) : skb :=
  mk_skb net_skb_pad [] (fresh_bytes (Z.to_nat size)).

(** ** Laws *)

Lemma skb_push_spec s src :
  Z.of_nat (length src) <= sk_room s ->
  skb_push s src =
    Some (mk_skb (sk_room s - Z.of_nat (length src)) (src ++ sk_data s) (sk_tail s)).
Proof. intros. unfold skb_push. by rewrite decide_True. Qed.

Lemma skb_put_spec s src :
  (length src <= length (sk_tail s))%nat ->
  skb_put s src =
    Some (mk_skb (sk_room s) (sk_data s ++ src) (drop (length src) (sk_tail s))).
Proof. intros. unfold skb_put. by rewrite decide_True. Qed.

(** A pull undoes a push of the same length. *)
Lemma skb_pull_push s src s' :
  skb_push s src = Some s' -> skb_pull s' (length src) = s.
Proof.
  unfold skb_push. case_decide; [|done]. intros [= <-].
  unfold skb_pull; cbn. rewrite decide_False by (rewrite length_app; lia).
  rewrite drop_app_length. destruct s; cbn. f_equal. lia.
Qed.

Lemma skb_pull_data s n :
  (n <= length (sk_data s))%nat -> sk_data (skb_pull s n) = drop n (sk_data s).
Proof. intros. unfold skb_pull. by rewrite decide_False by lia. Qed.

Lemma skb_pull_room s n : sk_room s <= sk_room (skb_pull s n).
Proof. unfold skb_pull. case_decide; cbn; lia. Qed.

Lemma skb_peek_data s k n :
  (k + n <= length (sk_data s))%nat -> skb_peek s k n = take n (drop k (sk_data s)).
Proof.
  intros. unfold skb_peek. rewrite drop_app_le by lia.
  rewrite take_app_le; [done|]. rewrite length_drop. lia.
Qed.
