(* ===== verification/VmacDefs.v ===== *)
(** * V-MAC constants, structures and wire formats ([kernel/core/vmac.h])

    Frame types, window sizes, the packed headers as byte strings, the
    per-encoding receive and transmit structures and the control block shared
    with userspace. *)

From S2P Require Import Prelude Skb.
(** ** Constants *)
Definition VMAC_HDR_INTEREST : Z := 0.
Definition VMAC_HDR_DATA : Z := 1.
Definition VMAC_HDR_DACK : Z := 2.
Definition VMAC_HDR_ANOUNCMENT : Z := 3.
Definition VMAC_HDR_INJECTED : Z := 5.
Definition V_MAC_OVERHEAR : Z := 6.

Definition WINDOW : Z := 700.
Definition WINDOW_TX : Z := 500.
Definition HOLES_MAX : Z := 40.
Definition BUFFER_ROOM : Z := 120.

Inductive clean_type := CLEAN_ENC_TX | CLEAN_ENC_RX.

#[export] Instance clean_type_eq_dec : EqDecision clean_type.
Proof. solve_decision. Defined.

(** ** Packed headers *)
Record vmac_hdr := mk_vmac_hdr { vh_enc : Z; vh_type : Z }.
Record vmac_data := mk_vmac_data { vd_seq : Z }.
Record vmac_DACK := mk_vmac_DACK { vD_holes : Z; vD_round : Z }.
Record vmac_hole := mk_vmac_hole { h_le : Z; h_re : Z }.

Definition sizeof_vmac_hdr : nat := 9.
Definition sizeof_vmac_data : nat := 2.
Definition sizeof_vmac_DACK : nat := 4.
Definition sizeof_vmac_hole : nat := 4.
Definition sizeof_ieee80211_hdr : nat := 30.
Definition sizeof_control : nat := 15.

(** The bytes a [memcpy] of the (packed, little-endian) struct produces. *)
Definition enc_vmac_hdr (h : vmac_hdr) : list Z := le_enc 8 (vh_enc h) ++ le_enc 1 (vh_type h).
Definition enc_vmac_data (d : vmac_data) : list Z := le_enc 2 (vd_seq d).
Definition enc_vmac_DACK (d : vmac_DACK) : list Z :=
  le_enc 2 (vD_holes d) ++ le_enc 2 (vD_round d).
Definition enc_vmac_hole (h : vmac_hole) : list Z := le_enc 2 (h_le h) ++ le_enc 2 (h_re h).

(** Reading the struct back through a cast of the buffer. *)
Definition dec_vmac_hdr (l : list Z) : vmac_hdr :=
  mk_vmac_hdr (le_dec (take 8 l)) (le_dec (take 1 (drop 8 l))).
Definition dec_vmac_data (l : list Z) : vmac_data := mk_vmac_data (le_dec (take 2 l)).
Definition dec_vmac_DACK (l : list Z) : vmac_DACK :=
  mk_vmac_DACK (le_dec (take 2 l)) (le_dec (take 2 (drop 2 l))).
Definition dec_vmac_hole (l : list Z) : vmac_hole :=
  mk_vmac_hole (le_dec (take 2 l)) (le_dec (take 2 (drop 2 l))).

(** ** Per-encoding structures

    Pointers to socket buffers are addresses, 0 being NULL.  The two timers
    embedded in a structure are the tick at which they are pending to fire,
    if they are.  [rx_window_pad] is the 16-bit word that lies immediately
    below [window] in the structure: the tail padding of [clean]. *)

Record dack_info := mk_dack_info {
  di_send : Z;
  di_dack_counter : Z;
  di_round : Z;
  di_dacksheard : Z;
  di_dack : Z
}.

Record encoding_rx := mk_encoding_rx {
  rx_key : Z;
  rx_clean_enc : Z;
  rx_clean_type : clean_type;
  rx_window_pad : Z;
  rx_window : list Z;
  rx_alpha : Z;
  rx_firstFrame : Z;
  rx_SecondFrame : Z;
  rx_lastin : Z;
  rx_latest : Z;
  rx_dac_info : dack_info;
  rx_round : Z;
  rx_dacksent : Z;
  rx_DACK : Z;
  rx_enc_timeout : option Z;
  rx_dack_timer : option Z
}.

Record encoding_tx := mk_encoding_tx {
  tx_key : Z;
  tx_clean_enc : Z;
  tx_clean_type : clean_type;
  tx_retransmission_buffer : list Z;
  tx_timer : list Z;
  tx_seq : Z;
  tx_prevtime : Z;
  tx_prevround : Z;
  tx_enc_timeout : option Z;
  tx_dackcounter : Z;
  tx_framecount : Z;
  tx_round_inc : list Z;
  tx_round_dec : list Z
}.

#[export] Instance dack_info_eta : Eta dack_info := fun d =>
  mk_dack_info (di_send d) (di_dack_counter d) (di_round d) (di_dacksheard d) (di_dack d).

#[export] Instance encoding_rx_eta : Eta encoding_rx := fun r =>
  mk_encoding_rx (rx_key r) (rx_clean_enc r) (rx_clean_type r) (rx_window_pad r)
    (rx_window r) (rx_alpha r) (rx_firstFrame r) (rx_SecondFrame r) (rx_lastin r)
    (rx_latest r) (rx_dac_info r) (rx_round r) (rx_dacksent r) (rx_DACK r)
    (rx_enc_timeout r) (rx_dack_timer r).

#[export] Instance encoding_tx_eta : Eta encoding_tx := fun t =>
  mk_encoding_tx (tx_key t) (tx_clean_enc t) (tx_clean_type t)
    (tx_retransmission_buffer t) (tx_timer t) (tx_seq t) (tx_prevtime t) (tx_prevround t)
    (tx_enc_timeout t) (tx_dackcounter t) (tx_framecount t) (tx_round_inc t)
    (tx_round_dec t).

(** ** The control block exchanged with userspace (the ABI) *)
Record control := mk_control {
  c_type : Z;
  c_enc : list Z;
  c_seq : list Z;
  c_rate : Z;
  c_bw : Z;
  c_sgi : Z;
  c_stream : Z
}.

Definition enc_control (c : control) : list Z :=
  [c_type c] ++ c_enc c ++ c_seq c ++ [c_rate c; c_bw c; c_sgi c; c_stream c].

Definition dec_control (l : list Z) : control :=
  mk_control (arr_get l 0) (take 8 (drop 1 l)) (take 2 (drop 9 l))
    (arr_get l 11) (arr_get l 12) (arr_get l 13) (arr_get l 14).

(** ** Lemmas on the wire formats *)

Lemma length_enc_vmac_hdr h : length (enc_vmac_hdr h) = sizeof_vmac_hdr.
Proof. unfold enc_vmac_hdr. by rewrite length_app, !length_le_enc. Qed.

Lemma length_enc_vmac_data d : length (enc_vmac_data d) = sizeof_vmac_data.
Proof. apply length_le_enc. Qed.

Lemma length_enc_vmac_DACK d : length (enc_vmac_DACK d) = sizeof_vmac_DACK.
Proof. unfold enc_vmac_DACK. by rewrite length_app, !length_le_enc. Qed.

Lemma length_enc_vmac_hole h : length (enc_vmac_hole h) = sizeof_vmac_hole.
Proof. unfold enc_vmac_hole. by rewrite length_app, !length_le_enc. Qed.

(** Replace the encoded lengths by numbers. *)
Ltac sizes :=
  rewrite ?length_app, ?length_enc_vmac_hdr, ?length_enc_vmac_data, ?length_enc_vmac_DACK,
    ?length_enc_vmac_hole, ?length_le_enc;
  unfold sizeof_vmac_hdr, sizeof_vmac_data, sizeof_vmac_DACK, sizeof_vmac_hole,
    sizeof_ieee80211_hdr, sizeof_control in *.

#[export] Hint Rewrite length_enc_vmac_hdr length_enc_vmac_data length_enc_vmac_DACK
  length_enc_vmac_hole : vmac_bytes.

(** Reading a header in front of a longer buffer gives back what was put. *)
Lemma dec_enc_vmac_hdr h l :
  is_u64 (vh_enc h) -> is_u8 (vh_type h) -> dec_vmac_hdr (enc_vmac_hdr h ++ l) = h.
Proof.
  intros He Ht. unfold dec_vmac_hdr, enc_vmac_hdr. rewrite <- app_assoc.
  rewrite take_le_enc_app, drop_le_enc_app, take_le_enc_app.
  rewrite !le_dec_enc_small by done. by destruct h.
Qed.

Lemma dec_enc_vmac_data d l :
  is_u16 (vd_seq d) -> dec_vmac_data (enc_vmac_data d ++ l) = d.
Proof.
  intros. unfold dec_vmac_data, enc_vmac_data.
  rewrite take_le_enc_app, le_dec_enc_small by done. by destruct d.
Qed.

Lemma dec_enc_vmac_DACK d l :
  is_u16 (vD_holes d) -> is_u16 (vD_round d) ->
  dec_vmac_DACK (enc_vmac_DACK d ++ l) = d.
Proof.
  intros. unfold dec_vmac_DACK, enc_vmac_DACK. rewrite <- app_assoc.
  rewrite take_le_enc_app, drop_le_enc_app, take_le_enc_app.
  rewrite !le_dec_enc_small by done. by destruct d.
Qed.

Lemma dec_enc_vmac_hole h l :
  is_u16 (h_le h) -> is_u16 (h_re h) -> dec_vmac_hole (enc_vmac_hole h ++ l) = h.
Proof.
  intros. unfold dec_vmac_hole, enc_vmac_hole. rewrite <- app_assoc.
  rewrite take_le_enc_app, drop_le_enc_app, take_le_enc_app.
  rewrite !le_dec_enc_small by done. by destruct h.
Qed.
