(* ===== verification/Kernel.v ===== *)
(** * The module's state and the monad its handlers run in

    [kstate] is everything the V-MAC code reads or writes: the live socket
    buffers, the [vmalloc]ed encoding structures, the two hash tables of
    [rtw_xmit.c], the clock, the registered process, the monitor adapter, what
    was put on the air and what was delivered to userspace.  A handler is a
    function of type [K A]; a kernel crash is the outcome [Crash], and a memory
    error that does not stop execution is recorded in [k_log]. *)

From S2P Require Import Prelude Skb VmacDefs.
Inductive fault :=
  | NullDeref       (** a NULL pointer is dereferenced *)
  | BadPointer      (** a pointer to no live object is dereferenced *)
  | DivByZero
  | SkbPanic        (** [skb_over_panic] or [skb_under_panic] *)
  | WildCopy        (** [memcpy] with a length that wrapped around *)
  | DoubleFree      (** a buffer that is not live is freed *)
  | UninitFree      (** an uninitialised pointer is freed *)
  | OutOfBounds.    (** an array is read outside its bounds *)

#[export] Instance fault_eq_dec : EqDecision fault.
Proof. solve_decision. Defined.

(** What [dump_mgntframe] hands to the hardware. *)
Record tx_frame := mk_tx_frame {
  tf_rate : Z; tf_bw : Z; tf_sgi : Z; tf_ldpc : Z; tf_stbc : Z;
  tf_seqnum : Z; tf_pktlen : Z; tf_bytes : list Z
}.

(** The fields of the monitor adapter that the V-MAC path changes. *)
Record adapter := mk_adapter { ad_mgnt_seq : Z; ad_tx_pkts : Z; ad_tx_bytes : Z }.

(** A netlink message unicast to the registered process. *)
Record nl_msg := mk_nl_msg { nm_pid : Z; nm_len : Z; nm_data : list Z }.

(** The outcomes of the calls whose result the environment decides: whether
    an allocation, a [spin_trylock] or an attempt to obtain a transmit frame
    succeeds (the head of the list; success once the list is exhausted), the
    random words, and the content of uncleared [vmalloc] memory. *)
Record oracle := mk_oracle {
  o_alloc : list bool;
  o_trylock : list bool;
  o_xmit : list bool;
  o_random : list Z;
  o_rx_mem : encoding_rx;
  o_tx_mem : encoding_tx
}.

(** A receive frame header ([union recv_frame]) owns the buffer [rf_pkt];
    [free_recv_queue] holds the free ones and [free_recvframe_cnt] is its
    declared length. *)
Record recv_priv := mk_recv_priv {
  rf_pkt : gmap Z Z;
  free_recv_queue : list Z;
  free_recvframe_cnt : Z
}.

Record kstate := mk_kstate {
  k_skbs : gmap Z skb;
  k_next : Z;
  k_rx_mem : gmap Z encoding_rx;
  k_tx_mem : gmap Z encoding_tx;
  k_rx_enc : gmap Z (list Z);
  k_tx_enc : gmap Z (list Z);
  k_jiffies : Z;
  k_pidt : Z;
  k_configured : bool;
  k_nl_sk : bool;
  k_mon : option adapter;
  k_recv : recv_priv;
  k_air : list tx_frame;
  k_user : list nl_msg;
  k_log : list fault;
  k_oracle : oracle
}.

#[export] Instance oracle_eta : Eta oracle := fun o =>
  mk_oracle (o_alloc o) (o_trylock o) (o_xmit o) (o_random o) (o_rx_mem o) (o_tx_mem o).

#[export] Instance recv_priv_eta : Eta recv_priv := fun r =>
  mk_recv_priv (rf_pkt r) (free_recv_queue r) (free_recvframe_cnt r).

#[export] Instance kstate_eta : Eta kstate := fun s =>
  mk_kstate (k_skbs s) (k_next s) (k_rx_mem s) (k_tx_mem s) (k_rx_enc s) (k_tx_enc s)
    (k_jiffies s) (k_pidt s) (k_configured s) (k_nl_sk s) (k_mon s) (k_recv s) (k_air s) (k_user s)
    (k_log s) (k_oracle s).

(** ** The monad *)

Inductive outcome (A : Type) :=
  | Done (a : A) (s : kstate)
  | Crash (f : fault) (s : kstate).
Arguments Done {A} a s.
Arguments Crash {A} f s.

Definition K (A : Type) : Type := kstate -> outcome A.

#[export] Instance K_ret : MRet K := fun A a s => Done a s.
#[export] Instance K_bind : MBind K := fun A B f m s =>
  match m s with
  | Done a s' => f a s'
  | Crash e s' => Crash e s'
  end.

Definition crash {A} (f : fault) : K A := fun s => Crash f s.
Definition get : K kstate := fun s => Done s s.
Definition gets {A} (f : kstate -> A) : K A := fun s => Done (f s) s.
Definition modify (f : kstate -> kstate) : K unit := fun s => Done tt (f s).
Definition log (f : fault) : K unit := modify (fun s => s <| k_log := k_log s ++ [f] |>).
Definition skip : K unit := mret tt.

(** The next outcome the environment has for a call; success (or the random
    word 0) once the list is exhausted. *)
Definition ask_alloc : K bool := fun s =>
  match o_alloc (k_oracle s) with
  | [] => Done true s
  | b :: l => Done b (s <| k_oracle := (k_oracle s) <| o_alloc := l |> |>)
  end.
Definition ask_trylock : K bool := fun s =>
  match o_trylock (k_oracle s) with
  | [] => Done true s
  | b :: l => Done b (s <| k_oracle := (k_oracle s) <| o_trylock := l |> |>)
  end.
Definition ask_xmit : K bool := fun s =>
  match o_xmit (k_oracle s) with
  | [] => Done true s
  | b :: l => Done b (s <| k_oracle := (k_oracle s) <| o_xmit := l |> |>)
  end.
Definition ask_random : K Z := fun s =>
  match o_random (k_oracle s) with
  | [] => Done 0 s
  | r :: l => Done r (s <| k_oracle := (k_oracle s) <| o_random := l |> |>)
  end.

(** ** Socket buffers in memory *)

(** A fresh live buffer. *)
Definition new_skb (b : skb) : K Z := fun s =>
  Done (k_next s) (s <| k_skbs := <[k_next s := b]> (k_skbs s) |> <| k_next := k_next s + 1 |>).

(** An allocation that may return NULL. *)
Definition alloc_skb (b : skb) : K Z :=
  ok ← ask_alloc;
  if (ok : bool) then new_skb b else mret 0.

Definition get_skb (p : Z) : K skb := fun s =>
  if decide (p = 0) then Crash NullDeref s
  else match k_skbs s !! p with
       | Some b => Done b s
       | None => Crash BadPointer s
       end.

Definition put_skb (p : Z) (b : skb) : K unit :=
  modify (fun s => s <| k_skbs := <[p := b]> (k_skbs s) |>).

(** [kfree_skb]: nothing for NULL. *)
Definition kfree_skb (p : Z) : K unit := fun s =>
  if decide (p = 0) then Done tt s
  else match k_skbs s !! p with
       | Some _ => Done tt (s <| k_skbs := delete p (k_skbs s) |>)
       | None => log DoubleFree s
       end.

(** [memcpy(skb_push(p, n), src, n)], [memcpy(skb_put(p, n), src, n)] and
    [skb_pull(p, n)] on a buffer in memory. *)
Definition push_skb (p : Z) (src : list Z) : K unit :=
  b ← get_skb p;
  match skb_push b src with Some b' => put_skb p b' | None => crash SkbPanic end.

Definition put_data_skb (p : Z) (src : list Z) : K unit :=
  b ← get_skb p;
  match skb_put b src with Some b' => put_skb p b' | None => crash SkbPanic end.

Definition pull_skb (p : Z) (n : nat) : K unit :=
  b ← get_skb p; put_skb p (skb_pull b n).

(** [skb_copy(p, GFP_KERNEL)]: a private copy of the buffer and its headroom;
    what lies beyond the data is not copied. *)
Definition skb_copy `{Kernel} (p : Z) : K Z :=
  b ← get_skb p;
  alloc_skb (mk_skb (sk_room b) (sk_data b) (fresh_bytes (length (sk_tail b)))).

(** ** Encoding structures in memory *)
Definition get_rx (p : Z) : K encoding_rx := fun s =>
  if decide (p = 0) then Crash NullDeref s
  else match k_rx_mem s !! p with
       | Some r => Done r s
       | None => Crash BadPointer s
       end.
Definition put_rx (p : Z) (r : encoding_rx) : K unit :=
  modify (fun s => s <| k_rx_mem := <[p := r]> (k_rx_mem s) |>).
Definition get_tx (p : Z) : K encoding_tx := fun s =>
  if decide (p = 0) then Crash NullDeref s
  else match k_tx_mem s !! p with
       | Some r => Done r s
       | None => Crash BadPointer s
       end.
Definition put_tx (p : Z) (r : encoding_tx) : K unit :=
  modify (fun s => s <| k_tx_mem := <[p := r]> (k_tx_mem s) |>).

(** [vmalloc] does not clear the memory it returns; NULL when it fails. *)
Definition new_rx : K Z := fun s =>
  Done (k_next s)
    (s <| k_rx_mem := <[k_next s := o_rx_mem (k_oracle s)]> (k_rx_mem s) |>
       <| k_next := k_next s + 1 |>).
Definition new_tx : K Z := fun s =>
  Done (k_next s)
    (s <| k_tx_mem := <[k_next s := o_tx_mem (k_oracle s)]> (k_tx_mem s) |>
       <| k_next := k_next s + 1 |>).
Definition vmalloc_rx : K Z :=
  ok ← ask_alloc;
  if (ok : bool) then new_rx else mret 0.
Definition vmalloc_tx : K Z :=
  ok ← ask_alloc;
  if (ok : bool) then new_tx else mret 0.
Definition vfree_rx (p : Z) : K unit :=
  modify (fun s => s <| k_rx_mem := delete p (k_rx_mem s) |>).
Definition vfree_tx (p : Z) : K unit :=
  modify (fun s => s <| k_tx_mem := delete p (k_tx_mem s) |>).

(** ** Symbolic execution *)

Lemma bind_done {A B} (m : K A) (f : A -> K B) s a s' :
  m s = Done a s' -> (m ≫= f) s = f a s'.
Proof. intros E. unfold mbind, K_bind. by rewrite E. Qed.

Lemma bind_crash {A B} (m : K A) (f : A -> K B) s e s' :
  m s = Crash e s' -> (m ≫= f) s = Crash e s'.
Proof. intros E. unfold mbind, K_bind. by rewrite E. Qed.

Lemma ret_done {A} (a : A) s : (mret a : K A) s = Done a s.
Proof. done. Qed.

Lemma get_skb_done p b s : p <> 0 -> k_skbs s !! p = Some b -> get_skb p s = Done b s.
Proof. intros ? E. unfold get_skb. by rewrite decide_False, E. Qed.

Lemma get_rx_done p r s : p <> 0 -> k_rx_mem s !! p = Some r -> get_rx p s = Done r s.
Proof. intros ? E. unfold get_rx. by rewrite decide_False, E. Qed.

Lemma get_tx_done p r s : p <> 0 -> k_tx_mem s !! p = Some r -> get_tx p s = Done r s.
Proof. intros ? E. unfold get_tx. by rewrite decide_False, E. Qed.

Lemma kfree_skb_done p b s :
  p <> 0 -> k_skbs s !! p = Some b ->
  kfree_skb p s = Done tt (s <| k_skbs := delete p (k_skbs s) |>).
Proof. intros ? E. unfold kfree_skb. by rewrite decide_False, E. Qed.

Lemma push_skb_done p b src s :
  p <> 0 -> k_skbs s !! p = Some b -> Z.of_nat (length src) <= sk_room b ->
  push_skb p src s =
    Done tt (s <| k_skbs := <[p := mk_skb (sk_room b - Z.of_nat (length src))
                                         (src ++ sk_data b) (sk_tail b)]> (k_skbs s) |>).
Proof.
  intros Hp E Hr. unfold push_skb.
  rewrite (bind_done _ _ _ _ _ (get_skb_done _ _ _ Hp E)), skb_push_spec by done.
  done.
Qed.

Lemma pull_skb_done p b n s :
  p <> 0 -> k_skbs s !! p = Some b ->
  pull_skb p n s = Done tt (s <| k_skbs := <[p := skb_pull b n]> (k_skbs s) |>).
Proof.
  intros Hp E. unfold pull_skb.
  by rewrite (bind_done _ _ _ _ _ (get_skb_done _ _ _ Hp E)).
Qed.

(** No allocation fails, no lock is contended, no transmit frame is refused. *)
Record calm (s : kstate) : Prop := {
  calm_alloc : o_alloc (k_oracle s) = [];
  calm_trylock : o_trylock (k_oracle s) = [];
  calm_xmit : o_xmit (k_oracle s) = []
}.

Lemma ask_alloc_done s : o_alloc (k_oracle s) = [] -> ask_alloc s = Done true s.
Proof. intros E. unfold ask_alloc. by rewrite E. Qed.
Lemma ask_trylock_done s : o_trylock (k_oracle s) = [] -> ask_trylock s = Done true s.
Proof. intros E. unfold ask_trylock. by rewrite E. Qed.
Lemma ask_xmit_done s : o_xmit (k_oracle s) = [] -> ask_xmit s = Done true s.
Proof. intros E. unfold ask_xmit. by rewrite E. Qed.

Lemma alloc_skb_done b s :
  o_alloc (k_oracle s) = [] ->
  alloc_skb b s = Done (k_next s)
    (s <| k_skbs := <[k_next s := b]> (k_skbs s) |> <| k_next := k_next s + 1 |>).
Proof. intros E. unfold alloc_skb. by rewrite (bind_done _ _ _ _ _ (ask_alloc_done s E)). Qed.

Lemma put_data_skb_done p b src s :
  p <> 0 -> k_skbs s !! p = Some b -> (length src <= length (sk_tail b))%nat ->
  put_data_skb p src s =
    Done tt (s <| k_skbs := <[p := mk_skb (sk_room b) (sk_data b ++ src)
                                     (drop (length src) (sk_tail b))]> (k_skbs s) |>).
Proof.
  intros Hp E Hr. unfold put_data_skb.
  rewrite (bind_done _ _ _ _ _ (get_skb_done _ _ _ Hp E)), skb_put_spec by done.
  done.
Qed.

Lemma skb_copy_done `{Kernel} p b s :
  p <> 0 -> k_skbs s !! p = Some b -> o_alloc (k_oracle s) = [] ->
  skb_copy p s = Done (k_next s)
    (s <| k_skbs := <[k_next s := mk_skb (sk_room b) (sk_data b)
                                    (fresh_bytes (length (sk_tail b)))]> (k_skbs s) |>
       <| k_next := k_next s + 1 |>).
Proof.
  intros Hp E Ha. unfold skb_copy.
  rewrite (bind_done _ _ _ _ _ (get_skb_done _ _ _ Hp E)). by apply alloc_skb_done.
Qed.

Lemma ret_bind {A B} (a : A) (k : A -> K B) s : ((mret a : K A) ≫= k) s = k a s.
Proof. done. Qed.
Lemma modify_bind {B} f (k : unit -> K B) s : (modify f ≫= k) s = k tt (f s).
Proof. done. Qed.
Lemma gets_bind {A B} (f : kstate -> A) (k : A -> K B) s : (gets f ≫= k) s = k (f s) s.
Proof. done. Qed.
Lemma skip_bind {B} (k : unit -> K B) s : (skip ≫= k) s = k tt s.
Proof. done. Qed.
Lemma bind_assoc {A B C} (m : K A) (f : A -> K B) (g : B -> K C) s :
  ((m ≫= f) ≫= g) s = (m ≫= (fun a => f a ≫= g)) s.
Proof. unfold mbind, K_bind. by destruct (m s). Qed.

(** Run the first command when it is a bookkeeping command, which cannot
    fail; otherwise with the equation [E]. *)
Ltac kstep :=
  cbv beta;
  first [rewrite skip_bind | rewrite modify_bind | rewrite gets_bind | rewrite ret_bind];
  cbv beta.
Ltac krun E := erewrite bind_done; [|eapply E]; cbv beta.

(** ** Properties of every outcome

    [post o Q E]: the outcome [o] is normal and satisfies [Q], or is a crash
    in a state that satisfies [E]. *)
Definition post {A} (o : outcome A) (Q : A -> kstate -> Prop) (E : kstate -> Prop) : Prop :=
  match o with Done a s => Q a s | Crash _ s => E s end.

Lemma post_bind {A B} (m : K A) (k : A -> K B) s Q E :
  post (m s) (fun a s' => post (k a s') Q E) E -> post ((m ≫= k) s) Q E.
Proof. unfold mbind, K_bind, post. by destruct (m s). Qed.

Lemma post_mono {A} (o : outcome A) (Q Q' : A -> kstate -> Prop) (E E' : kstate -> Prop) :
  post o Q E -> (forall a s, Q a s -> Q' a s) -> (forall s, E s -> E' s) -> post o Q' E'.
Proof. unfold post. destruct o; eauto. Qed.

(** The commands that only read. *)
Lemma post_get_skb p s (Q : skb -> kstate -> Prop) (E : kstate -> Prop) :
  E s -> (forall b, p <> 0 -> k_skbs s !! p = Some b -> Q b s) -> post (get_skb p s) Q E.
Proof.
  intros HE HQ. unfold get_skb. case_decide; [done|]. by destruct (k_skbs s !! p) eqn:?; cbn; auto.
Qed.
Lemma post_get_rx p s (Q : encoding_rx -> kstate -> Prop) (E : kstate -> Prop) :
  E s -> (forall r, k_rx_mem s !! p = Some r -> Q r s) -> post (get_rx p s) Q E.
Proof.
  intros HE HQ. unfold get_rx. case_decide; [done|]. by destruct (k_rx_mem s !! p) eqn:?; cbn; auto.
Qed.
Lemma post_get_tx p s (Q : encoding_tx -> kstate -> Prop) (E : kstate -> Prop) :
  E s -> (forall t, k_tx_mem s !! p = Some t -> Q t s) -> post (get_tx p s) Q E.
Proof.
  intros HE HQ. unfold get_tx. case_decide; [done|]. by destruct (k_tx_mem s !! p) eqn:?; cbn; auto.
Qed.
