(* ===== verification/Tables.v ===== *)
(** * The encoding tables of [kernel/core/rtw_xmit.c]

    [rx_enc] and [tx_enc] are Linux hash tables with 32 buckets.  A lookup
    walks the bucket of an encoding and returns the last node of it, without
    comparing keys.  The [Section]s below state what follows: as entries are
    only added when a lookup returned NULL, a bucket never holds more than one
    entry, so the lookup returns the one entry that shares the bucket. *)

From S2P Require Import Prelude Skb VmacDefs Kernel.
(** ** Buckets *)

Definition bucket (t : gmap Z (list Z)) (b : Z) : list Z := default [] (t !! b).

(** [hash_add]: the node becomes the head of its bucket. *)
Definition hash_add (t : gmap Z (list Z)) (b p : Z) : gmap Z (list Z) :=
  <[b := p :: bucket t b]> t.

(** [hash_del]: the node is unlinked from the bucket it is in. *)
Definition hash_del (t : gmap Z (list Z)) (p : Z) : gmap Z (list Z) :=
  filter (fun q => q <> p) <$> t.

(** [hash_for_each_possible (t, pos, node, key) { ret = pos; }] *)
Definition hash_last (t : gmap Z (list Z)) (b : Z) : Z :=
  default 0 (list.last (bucket t b)).

Section tables.
Context `{Kernel}.

Definition find_rx (enc : Z) : K Z := gets (fun s => hash_last (k_rx_enc s) (hash_min enc)).
Definition find_tx (enc : Z) : K Z := gets (fun s => hash_last (k_tx_enc s) (hash_min enc)).

Definition add_rx (vmacr : Z) : K unit :=
r ← get_rx vmacr;
modify (fun s => s <| k_rx_enc := hash_add (k_rx_enc s) (hash_min (rx_key r)) vmacr |>).
Definition add_tx (vmact : Z) : K unit :=
t ← get_tx vmact;
modify (fun s => s <| k_tx_enc := hash_add (k_tx_enc s) (hash_min (tx_key t)) vmact |>).

Definition hash_del_rx (vmacr : Z) : K unit :=
modify (fun s => s <| k_rx_enc := hash_del (k_rx_enc s) vmacr |>).
Definition hash_del_tx (vmact : Z) : K unit :=
modify (fun s => s <| k_tx_enc := hash_del (k_tx_enc s) vmact |>).

(** ** The table invariant

  [table_ok key mem t]: every bucket holds at most one node, and a node in
  a bucket is a live structure whose key hashes to that bucket; a live
  structure is in the bucket of its key. *)
Record table_ok {R} (key : R -> Z) (mem : gmap Z R) (t : gmap Z (list Z)) : Prop := {
table_single : forall b, (length (bucket t b) <= 1)%nat;
table_live : forall b p, p ∈ bucket t b ->
  p <> 0 /\ exists r, mem !! p = Some r /\ hash_min (key r) = b;
table_linked : forall p r, mem !! p = Some r -> p ∈ bucket t (hash_min (key r))
}.

Section laws.
Context {R : Type} (key : R -> Z).
Implicit Types (mem : gmap Z R) (t : gmap Z (list Z)).

Lemma bucket_empty b : bucket ∅ b = [].
Proof. unfold bucket. by rewrite lookup_empty. Qed.

Lemma table_ok_empty : table_ok key ∅ ∅.
Proof.
  split; intros.
  - rewrite bucket_empty. cbn. lia.
  - rewrite bucket_empty in *. by apply not_elem_of_nil in H0.
  - by rewrite lookup_empty in H0.
Qed.

Lemma bucket_hash_add t b p b' :
  bucket (hash_add t b p) b' = if decide (b = b') then p :: bucket t b' else bucket t b'.
Proof.
  unfold bucket, hash_add. rewrite lookup_insert. by repeat case_decide; subst.
Qed.

Lemma bucket_hash_del t p b : bucket (hash_del t p) b = filter (fun q => q <> p) (bucket t b).
Proof. unfold bucket, hash_del. rewrite lookup_fmap. by destruct (t !! b). Qed.

(** A lookup returns NULL exactly when the bucket is empty. *)
Lemma hash_last_null mem t b :
  table_ok key mem t -> hash_last t b = 0 <-> bucket t b = [].
Proof.
  intros Hok. unfold hash_last. split.
  - destruct (list.last (bucket t b)) as [p|] eqn:E; cbn.
    + intros ->. apply last_Some in E as [l E].
      destruct (table_live _ _ _ Hok b 0) as [? _]; [|done].
      rewrite E. apply elem_of_app. right. by apply list_elem_of_singleton.
    + intros _. by apply last_None in E.
  - by intros ->.
Qed.

(** A lookup that is not NULL returns the one node of the bucket. *)
Lemma hash_last_found mem t b :
  table_ok key mem t -> hash_last t b <> 0 ->
  bucket t b = [hash_last t b] /\
  exists r, mem !! hash_last t b = Some r /\ hash_min (key r) = b.
Proof.
  intros Hok Hnz. pose proof (table_single _ _ _ Hok b) as Hs.
  destruct (bucket t b) as [|p [|q l]] eqn:E; cbn in Hs; [|clear Hs|lia].
  - exfalso. apply Hnz. unfold hash_last. by rewrite E.
  - assert (hash_last t b = p) as -> by (unfold hash_last; by rewrite E).
    split; [done|].
    destruct (table_live _ _ _ Hok b p) as [_ ?]; [|done].
    rewrite E. by apply list_elem_of_singleton.
Qed.

(** The lookup of the key of a live structure returns that structure. *)
Lemma hash_last_live mem t p r :
  table_ok key mem t -> mem !! p = Some r ->
  hash_last t (hash_min (key r)) = p /\ p <> 0.
Proof.
  intros Hok Hp. pose proof (table_linked _ _ _ Hok p r Hp) as Hin.
  pose proof (table_single _ _ _ Hok (hash_min (key r))) as Hs.
  destruct (table_live _ _ _ Hok _ _ Hin) as [Hnz _]. split; [|done].
  destruct (bucket t (hash_min (key r))) as [|q [|q' l]] eqn:E; cbn in Hs; [|clear Hs|lia].
  - by apply not_elem_of_nil in Hin.
  - apply list_elem_of_singleton in Hin as ->. unfold hash_last. by rewrite E.
Qed.

(** Adding a fresh structure to an empty bucket keeps the invariant. *)
Lemma table_ok_add mem t p r :
  table_ok key mem t -> p <> 0 -> mem !! p = None -> bucket t (hash_min (key r)) = [] ->
  table_ok key (<[p := r]> mem) (hash_add t (hash_min (key r)) p).
Proof.
  intros Hok Hp Hfresh He.
  assert (forall b q, q ∈ bucket t b -> q <> p) as Hne.
  { intros b q Hq ->. destruct (table_live _ _ _ Hok b p Hq) as (_ & r' & Hr & _). congruence. }
  split.
  - intros b. rewrite bucket_hash_add. case_decide; [subst; rewrite He; done|].
    apply (table_single _ _ _ Hok).
  - intros b q. rewrite bucket_hash_add. case_decide as Hb.
    + rewrite <- Hb, He, list_elem_of_singleton. intros ->. split; [done|].
      exists r. by rewrite lookup_insert_eq.
    + intros Hq. destruct (table_live _ _ _ Hok b q Hq) as (? & r' & Hr & ?).
      split; [done|]. exists r'. rewrite lookup_insert_ne; [done|].
      intros ->. by apply (Hne b q).
  - intros q r'. rewrite lookup_insert. case_decide as Hq; [intros [= <-]; subst|intros Hr].
    + rewrite bucket_hash_add, decide_True by done. apply list_elem_of_here.
    + rewrite bucket_hash_add. pose proof (table_linked _ _ _ Hok q r' Hr).
      case_decide; [by apply list_elem_of_further|done].
Qed.

(** Unlinking and freeing a structure keeps the invariant. *)
Lemma table_ok_del mem t p :
  table_ok key mem t -> table_ok key (delete p mem) (hash_del t p).
Proof.
  intros Hok. split.
  - intros b. rewrite bucket_hash_del. pose proof (table_single _ _ _ Hok b).
    pose proof (length_filter (fun q => q <> p) (bucket t b)). lia.
  - intros b q. rewrite bucket_hash_del, list_elem_of_filter. intros [Hne Hq].
    destruct (table_live _ _ _ Hok b q Hq) as (? & r & Hr & ?). split; [done|].
    exists r. by rewrite lookup_delete_ne.
  - intros q r. rewrite lookup_delete. case_decide; [done|]. intros Hr.
    rewrite bucket_hash_del, list_elem_of_filter. split; [congruence|].
    by apply (table_linked _ _ _ Hok).
Qed.

(** Changing a structure in place, its key kept, keeps the invariant. *)
Lemma table_ok_update mem t p r r' :
  table_ok key mem t -> mem !! p = Some r -> key r' = key r ->
  table_ok key (<[p := r']> mem) t.
Proof.
  intros Hok Hp Hk. split.
  - apply (table_single _ _ _ Hok).
  - intros b q Hq. destruct (table_live _ _ _ Hok b q Hq) as (? & r0 & Hr & ?).
    split; [done|]. rewrite lookup_insert. case_decide; [|eauto].
    subst. exists r'. split; [done|]. congruence.
  - intros q r0. rewrite lookup_insert. case_decide; [intros [= <-]; subst|].
    + rewrite Hk. by apply (table_linked _ _ _ Hok).
    + apply (table_linked _ _ _ Hok).
Qed.
End laws.

End tables.
