(* ===== verification/Tx.v ===== *)
(** * The transmit path: [kernel/core/tx.c] and [vmac_send_hack]

    [vmac_tx] dispatches on the frame type, maintains the encoding tables and
    the retransmission buffer, and prepends the V-MAC headers; [vmac_low_tx]
    prepends the spoofed 802.11 header; [xmit_mo] copies the frame into a
    transmit buffer of the monitor adapter and hands it to the hardware. *)

From S2P Require Import Prelude Skb VmacDefs Kernel Tables.
(** ** Constants of the driver the path uses *)
Definition MGN_VHT1SS_MCS0 : Z := 160.
Definition MGN_VHT2SS_MCS0 : Z := 170.
Definition NETDEV_TX_OK : Z := 0.
Definition NETDEV_TX_BUSY : Z := 16.
Definition TXDESC_OFFSET : Z := 48.
Definition MAX_XMIT_EXTBUF_SZ : Z := 1536.
Definition IEEE80211_FTYPE_DATA : Z := 8.
Definition IEEE80211_STYPE_DATA : Z := 0.

Definition src_addr : list Z := [0x00; 0xc0; 0xca; 0xa8; 0xf2; 0xa2].
Definition dest_addr : list Z := [0xff; 0xff; 0xff; 0xff; 0xff; 0xff].
Definition bssid_addr : list Z := [0xfe; 0xfe; 0xfe; 0xfe; 0xfe; 0xfe].

(** [GetSequence(pbuf)]: the sequence number of the 802.11 header. *)
Definition GetSequence (pbuf : list Z) : Z := Z.shiftr (le_dec (take 2 (drop 22 pbuf))) 4.

Section tx.
Context `{Kernel}.

(** The 30 bytes of the automatic [struct ieee80211_hdr hdr] of
  [vmac_low_tx]: [duration_id], [seq_ctrl] and [addr4] are not assigned. *)
Definition vmac_ieee80211_hdr : list Z :=
le_enc 2 (Z.lor IEEE80211_FTYPE_DATA IEEE80211_STYPE_DATA) ++ le_enc 2 (stack_u16 0) ++
dest_addr ++ src_addr ++ bssid_addr ++ le_enc 2 (stack_u16 1) ++
le_enc 2 (stack_u16 2) ++ le_enc 2 (stack_u16 3) ++ le_enc 2 (stack_u16 4).

(** [monitor_alloc_mgtxmitframe]: one attempt and [tries] retries, waiting
  [delay] microseconds in between; whether a frame was obtained, and the
  total time waited. *)
Fixpoint monitor_alloc_loop (tries : nat) (delay waited : Z) : K (bool * Z) :=
ok ← ask_xmit;
if (ok : bool) then mret (true, waited)
else match tries with
     | O => mret (false, waited + delay)
     | S tries' => monitor_alloc_loop tries' (delay + delay / 2) (waited + delay)
     end.

Definition monitor_alloc_mgtxmitframe : K bool :=
r ← monitor_alloc_loop 3 300 0; mret (fst r).

(** What [xmit_mo] gives [dump_mgntframe] for the frame [pframe]. *)
Definition xmit_attrib (pframe : list Z) (rate bw sgi stream : Z) : tx_frame :=
mk_tx_frame
  (u8 ((if stream =? 0 then MGN_VHT1SS_MCS0 else MGN_VHT2SS_MCS0) + rate)) bw sgi 0 0
  (GetSequence pframe) (Z.of_nat (length pframe)) pframe.

Definition adapter_after (a : adapter) (pframe : list Z) : adapter :=
mk_adapter (u16 (GetSequence pframe + 1)) (u64 (ad_tx_pkts a + 1))
  (u64 (ad_tx_bytes a + Z.of_nat (length pframe))).

Definition xmit_mo (skb rate bw sgi stream : Z) : K Z :=
b ← get_skb skb;
mon ← gets k_mon;
match mon with
| None => crash NullDeref
| Some a =>
    ok ← monitor_alloc_mgtxmitframe;
    if (ok : bool) then
      (if decide (TXDESC_OFFSET + skb_len b <= MAX_XMIT_EXTBUF_SZ) then skip
       else log OutOfBounds) ;;
      modify (fun s =>
        s <| k_air := k_air s ++ [xmit_attrib (sk_data b) rate bw sgi stream] |>
          <| k_mon := Some (adapter_after a (sk_data b)) |>) ;;
      kfree_skb skb ;;
      mret NETDEV_TX_OK
    else mret NETDEV_TX_BUSY
end.

Definition vmac_low_tx (skb seq rate bw sgi stream : Z) : K unit :=
push_skb skb vmac_ieee80211_hdr ;;
ret ← xmit_mo skb rate bw sgi stream;
skip.

Definition vmac_send_hack (skb : Z) : K unit := vmac_low_tx skb 0 1 0 1 0.

(** ** The encoding tables on transmission *)

(** The assignments of [vmac_tx] to a new receive structure; the fields not
  listed keep what the memory contained. *)
Definition init_encoding_rx (m : encoding_rx) (enc : Z) : encoding_rx :=
m <| rx_clean_enc := enc |> <| rx_key := enc |> <| rx_clean_type := CLEAN_ENC_RX |>
  <| rx_dac_info := (rx_dac_info m) <| di_dack_counter := 0 |> <| di_send := 0 |> |>
  <| rx_alpha := 0 |> <| rx_firstFrame := 0 |> <| rx_SecondFrame := 0 |>
  <| rx_lastin := 0 |> <| rx_latest := 0 |> <| rx_round := 0 |> <| rx_dacksent := 0 |>
  <| rx_dack_timer := None |> <| rx_enc_timeout := None |>.

Definition init_encoding_tx (m : encoding_tx) (enc : Z) : encoding_tx :=
m <| tx_clean_enc := enc |> <| tx_clean_type := CLEAN_ENC_TX |> <| tx_framecount := 0 |>
  <| tx_seq := 0 |> <| tx_key := enc |> <| tx_dackcounter := 0 |> <| tx_prevround := 0 |>
  <| tx_prevtime := 0 |> <| tx_enc_timeout := None |>
  <| tx_round_inc := [0; 0; 0] |> <| tx_round_dec := [0; 0; 0] |>.

(** The entry of [enc] in [rx_enc], made if the lookup returned NULL. *)
Definition get_or_make_rx (enc : Z) : K Z :=
vmacr ← find_rx enc;
if decide (vmacr = 0) then
  vmacr ← vmalloc_rx;
  m ← get_rx vmacr;
  put_rx vmacr (init_encoding_rx m enc) ;;
  add_rx vmacr ;;
  now ← gets k_jiffies;
  r ← get_rx vmacr;
  put_rx vmacr (r <| rx_dack_timer := Some now |>) ;;
  mret vmacr
else mret vmacr.

Definition get_or_make_tx (enc : Z) : K Z :=
vmact ← find_tx enc;
if decide (vmact = 0) then
  vmact ← vmalloc_tx;
  m ← get_tx vmact;
  put_tx vmact (init_encoding_tx m enc) ;;
  add_tx vmact ;;
  mret vmact
else mret vmact.

(** [mod_timer(&x->enc_timeout, jiffies + msecs_to_jiffies(30000))] *)
Definition mod_enc_timeout_rx (vmacr : Z) : K unit :=
now ← gets k_jiffies;
r ← get_rx vmacr;
put_rx vmacr (r <| rx_enc_timeout := Some (now + msecs_to_jiffies 30000) |>).
Definition mod_enc_timeout_tx (vmact : Z) : K unit :=
now ← gets k_jiffies;
t ← get_tx vmact;
put_tx vmact (t <| tx_enc_timeout := Some (now + msecs_to_jiffies 30000) |>).

(** ** [vmac_tx], by frame type *)

Definition vmac_tx_interest (skb enc : Z) : K unit :=
vmacr ← get_or_make_rx enc;
mod_enc_timeout_rx vmacr ;;
push_skb skb (enc_vmac_hdr (mk_vmac_hdr enc VMAC_HDR_INTEREST)).

(** Taking the next sequence number, with the pacing slot cleared. *)
Definition next_seq (t : encoding_tx) : Z * encoding_tx :=
let seq := tx_seq t in
(seq, t <| tx_seq := u16 (seq + 1) |>
        <| tx_timer := arr_set (tx_timer t) (seq mod WINDOW_TX) 0 |>).

(** Keeping a copy [tmp1] of the frame [seq], and freeing the one it replaces. *)
Definition keep_copy (vmact seq tmp1 : Z) : K unit :=
t ← get_tx vmact;
let slot := seq mod WINDOW_TX in
let tmp2 := if WINDOW_TX <=? seq then arr_get (tx_retransmission_buffer t) slot else 0 in
(if decide (tmp1 = 0) then skip
 else put_tx vmact
   (t <| tx_retransmission_buffer := arr_set (tx_retransmission_buffer t) slot tmp1 |>)) ;;
kfree_skb tmp2.

Definition vmac_tx_data (skb enc : Z) : K unit :=
vmact ← get_or_make_tx enc;
mod_enc_timeout_tx vmact ;;
t ← get_tx vmact;
let '(seq, t') := next_seq t in
put_tx vmact t' ;;
push_skb skb (enc_vmac_data (mk_vmac_data seq)) ;;
push_skb skb (enc_vmac_hdr (mk_vmac_hdr enc VMAC_HDR_DATA)) ;;
tmp1 ← skb_copy skb;
keep_copy vmact seq tmp1.

Definition vmac_tx_announcement (skb enc : Z) : K unit :=
push_skb skb (enc_vmac_hdr (mk_vmac_hdr enc VMAC_HDR_ANOUNCMENT)).

Definition vmac_tx_injected (skb enc seqtmp : Z) : K unit :=
push_skb skb (enc_vmac_data (mk_vmac_data seqtmp)) ;;
push_skb skb (enc_vmac_hdr (mk_vmac_hdr enc VMAC_HDR_INJECTED)).

Definition vmac_tx (skb enc type seqtmp rate bw sgi stream : Z) : K unit :=
if type =? VMAC_HDR_INTEREST then
  vmac_tx_interest skb enc ;; vmac_low_tx skb 0 rate bw sgi stream
else if type =? VMAC_HDR_DATA then
  vmac_tx_data skb enc ;; vmac_low_tx skb 0 rate bw sgi stream
else if type =? VMAC_HDR_ANOUNCMENT then
  vmac_tx_announcement skb enc ;; vmac_low_tx skb 0 rate bw sgi stream
else if type =? VMAC_HDR_INJECTED then
  vmac_tx_injected skb enc seqtmp ;; vmac_low_tx skb 0 rate bw sgi stream
else kfree_skb skb.

End tx.
