(* ===== verification/Dack.v ===== *)
(** * DACK generation: [kernel/core/dack.c]

    A DACK reports, for one encoding, the frames lost in the receive window as
    a list of holes.  [scan_holes] is the search loop of [prepDACK] with its
    two inner loops; [prepDACK] builds the frame and hands it to the timer of
    the entry; [sendDACK] is the timer function. *)

From S2P Require Import Prelude Skb VmacDefs Kernel Tables Tx.
(** ** The search for holes *)

(** [window[j]]: the word below the array for [j = -1], which the first inner
    loop reads when [tmp] is a multiple of [WINDOW]. *)
Definition wread (r : encoding_rx) (j : Z) : Z :=
  if j <? 0 then rx_window_pad r else arr_get (rx_window r) j.

Definition scan_lower (lattmp : Z) : Z := if lattmp <? WINDOW then 0 else lattmp - WINDOW.

(** [while (window[tmp % WINDOW - 1] == 0 && tmp > 0 && lower < tmp - 1)
    { tmp--; loss++; }]; the flag records a read below the array. *)
Fixpoint extend_left (fuel : nat) (r : encoding_rx) (lattmp tmp loss : Z) (oob : bool)
  : Z * Z * bool :=
  let oob' := oob || (tmp mod WINDOW - 1 <? 0) in
  match fuel with
  | O => (tmp, loss, oob')
  | S f =>
      if (wread r (tmp mod WINDOW - 1) =? 0) && (0 <? tmp) && (scan_lower lattmp <? tmp - 1)
      then extend_left f r lattmp (tmp - 1) (u8 (loss + 1)) oob'
      else (tmp, loss, oob')
  end.

(** [while (window[i % WINDOW] == 0 && i < lattmp - 1) { i++; loss++; }] *)
Fixpoint extend_right (fuel : nat) (r : encoding_rx) (lattmp i loss : Z) : Z * Z :=
  match fuel with
  | O => (i, loss)
  | S f =>
      if (wread r (i mod WINDOW) =? 0) && (i <? lattmp - 1)
      then extend_right f r lattmp (u16 (i + 1)) (u8 (loss + 1))
      else (i, loss)
  end.

(** The state of the outer loop: the holes found (in order), the number of
    losses counted (a [u8]) and whether [window] was read out of bounds. *)
Record scan := mk_scan { sc_holes : list vmac_hole; sc_loss : Z; sc_oob : bool }.

(** One iteration of the loop body at [i]; the new value of [i] before [i++]. *)
Definition scan_step (r : encoding_rx) (lattmp i : Z) (sc : scan) : Z * scan :=
  if wread r (i mod WINDOW) =? 0 then
    let '(tmp, loss, oob) :=
      extend_left (Z.to_nat i) r lattmp i (sc_loss sc) (sc_oob sc) in
    let '(re, loss') := extend_right (Z.to_nat (lattmp - i)) r lattmp i loss in
    (re, mk_scan (sc_holes sc ++ [mk_vmac_hole (u16 tmp) re]) loss' oob)
  else (i, sc).

Fixpoint scan_loop (fuel : nat) (r : encoding_rx) (lattmp i : Z) (sc : scan) : scan :=
  match fuel with
  | O => sc
  | S f =>
      if (i <? lattmp) && (Z.of_nat (length (sc_holes sc)) <? HOLES_MAX) then
        let '(i', sc') := scan_step r lattmp i sc in
        scan_loop f r lattmp (u16 (i' + 1)) sc'
      else sc
  end.

Definition scan_holes (r : encoding_rx) (lattmp : Z) : scan :=
  scan_loop (S (Z.to_nat lattmp)) r lattmp (scan_lower lattmp) (mk_scan [] 0 false).

(** ** Building and scheduling the frame *)

(** [if (loss <= 5) loss = 5 - loss;] *)
Definition dack_loss (loss : Z) : Z := if loss <=? 5 then 5 - loss else loss.

(** [duration = 2 * alpha * (loss + rndm)], at least one tick when zero. *)
Definition dack_duration (alpha loss rndm : Z) : Z :=
  let d := u32 (2 * alpha) * (loss + rndm) in
  if d =? 0 then 1 else d.

Section dack.
Context `{Kernel}.

(** [skbsize] of [prepDACK] for a number of holes. *)
Definition dack_skbsize (holes : Z) : Z :=
Z.of_nat sizeof_ieee80211_hdr + Z.of_nat sizeof_vmac_hdr + Z.of_nat sizeof_vmac_DACK
+ holes * Z.of_nat sizeof_vmac_hole + BUFFER_ROOM.

Fixpoint put_holes (skb : Z) (hs : list vmac_hole) : K unit :=
match hs with
| [] => skip
| h :: hs' => put_data_skb skb (enc_vmac_hole h) ;; put_holes skb hs'
end.

(** Giving the DACK [skb] to the entry at [vmac]: replacing one that waits
  for the timer, or arming the timer.  The lock is not free when
  [spin_trylock] fails, and the DACK is dropped. *)
Definition submit_dack (vmac skb round duration rndm : Z) : K unit :=
locked ← ask_trylock;
if (locked : bool) then
  r ← get_rx vmac;
  let d := rx_dac_info r in
  let d' := d <| di_dack := skb |> <| di_send := 1 |> <| di_dacksheard := 0 |>
              <| di_round := u8 round |> in
  if di_send d =? 1 then
    put_rx vmac (r <| rx_DACK := skb |> <| rx_dac_info := d' |>) ;;
    (if decide (di_dack d = 0)
     then (if rndm =? 1 then kfree_skb 0 else skip)
     else kfree_skb (di_dack d))
  else
    now ← gets k_jiffies;
    let dur := if 100 <? duration then 10 else duration in
    put_rx vmac (r <| rx_DACK := skb |> <| rx_dac_info := d' |>
                   <| rx_dack_timer := Some (now + dur) |>) ;;
    (if rndm =? 1 then kfree_skb 0 else skip)
else kfree_skb skb.

Definition prepDACK (enc round : Z) : K unit :=
vmac ← find_rx enc;
rnd ← ask_random;
let rndm := Z.rem rnd 2 in
let lattmp := u16 (round * 5) in
r ← get_rx vmac;
let sc := scan_holes r lattmp in
(if sc_oob sc then log OutOfBounds else skip) ;;
let holes := Z.of_nat (length (sc_holes sc)) in
skb ← alloc_skb (dev_alloc_skb (dack_skbsize holes));
if decide (skb = 0) then skip
else
  put_data_skb skb (enc_vmac_DACK (mk_vmac_DACK holes round)) ;;
  put_holes skb (sc_holes sc) ;;
  push_skb skb (enc_vmac_hdr (mk_vmac_hdr enc VMAC_HDR_DACK)) ;;
  let loss := dack_loss (sc_loss sc) in
  let alpha := if 100 <=? rx_alpha r then 100 else rx_alpha r in
  put_rx vmac (r <| rx_alpha := alpha |>) ;;
  submit_dack vmac skb round (dack_duration alpha loss rndm) rndm.

Definition request_DACK (enc round : Z) : K unit := prepDACK enc round.

(** The timer function [__sendDACK] of the entry at [vmacr]. *)
Definition sendDACK (vmacr : Z) : K unit :=
r ← get_rx vmacr;
locked ← ask_trylock;
if (locked : bool) then
  let d := rx_dac_info r in
  if di_send d =? 1 then
    put_rx vmacr (r <| rx_dac_info := d <| di_send := 0 |> <| di_dack := 0 |> |>) ;;
    vmac_send_hack (di_dack d)
  else skip
else
  now ← gets k_jiffies;
  put_rx vmacr (r <| rx_dack_timer := Some (now + msecs_to_jiffies 100) |>).

End dack.
