(* ===== verification/Rx.v ===== *)
(** * The receive path: [kernel/core/rx.c]

    [vmac_rx] maintains the receive window of an encoding, asks for DACKs,
    answers DACKs with retransmissions and delivers frames to userspace with
    [nl_send]. *)

From S2P Require Import Prelude Skb VmacDefs Kernel Tables Tx Dack.
(** ** The receive window *)

(** [x >= WINDOW ? x % WINDOW : x] *)
Definition win_slot (x : Z) : Z := if WINDOW <=? x then x mod WINDOW else x.

(** [while (latest < seq) { latest++; window[latest ...] = 0; }] *)
Fixpoint advance (fuel : nat) (seq : Z) (r : encoding_rx) : encoding_rx :=
  match fuel with
  | O => r
  | S f =>
      if rx_latest r <? seq then
        let l := u16 (rx_latest r + 1) in
        advance f seq (r <| rx_latest := l |>
                         <| rx_window := arr_set (rx_window r) (win_slot l) 0 |>)
      else r
  end.

(** The duplicate test: [None] when the frame is dropped. *)
Definition rx_accept (r : encoding_rx) (seq : Z) : option encoding_rx :=
  if rx_latest r <? seq then Some (advance (Z.to_nat (seq - rx_latest r)) seq r)
  else if arr_get (rx_window r) (win_slot seq) =? 1 then None
  else Some r.

(** Marking the frame received. *)
Definition rx_mark (r : encoding_rx) (seq : Z) : encoding_rx :=
  if (if WINDOW <=? rx_latest r then rx_latest r mod WINDOW else 0) <=? seq
  then r <| rx_window := arr_set (rx_window r) (win_slot seq) 1 |>
  else r.

(** Measuring the inter-frame time [alpha] from the first two frames:
    [(jiffies - firstFrame) / (seq - lastin)] is an [unsigned long] division
    whose divisor was an [int]; [None] when it is zero. *)
Definition rx_measure (r : encoding_rx) (seq now : Z) : option encoding_rx :=
  if rx_firstFrame r =? 0 then Some (r <| rx_firstFrame := u32 now |>)
  else if rx_SecondFrame r =? 0 then
    if u64 (seq - rx_lastin r) =? 0 then None
    else Some (r <| rx_SecondFrame := u32 now |>
                 <| rx_alpha := u32 (u64 (now - rx_firstFrame r) / u64 (seq - rx_lastin r)) |>
                 <| rx_firstFrame := 0 |>)
  else Some r.

Section rx.
Context `{Kernel}.

(** Reading [n] bytes at [skb->data + k]. *)
Definition peek_skb (p : Z) (k n : nat) : K (list Z) :=
b ← get_skb p;
let l := skb_peek b k n in
(if decide (length l < n)%nat then log OutOfBounds else skip) ;;
mret l.

(** ** Delivery to userspace *)

(** The control block of [nl_send]; [rate], [bw], [sgi] and [stream] are
  not assigned. *)
Definition nl_control (enc type seq : Z) : control :=
mk_control (u8 type) (le_enc 8 enc) (le_enc 2 seq)
  (u8 (stack_u16 10)) (u8 (stack_u16 11)) (u8 (stack_u16 12)) (u8 (stack_u16 13)).

(** [nlmsg_len = skb->len - 4 + 100], at least 100, in 32 bits. *)
Definition nl_send_len (len : Z) : Z :=
let n := u32 (len - 4 + 100) in if n <? 100 then 100 else n.

(** [nlmsg_unicast] takes ownership of the message, delivered or not. *)
Definition nlmsg_unicast (skb_out pid len : Z) (data : list Z) : K unit :=
sk ← gets k_nl_sk;
if (sk : bool) then
  modify (fun s => s <| k_skbs := delete skb_out (k_skbs s) |>
                     <| k_user := k_user s ++ [mk_nl_msg pid len data] |>)
else crash BadPointer.

Definition nl_send (skb enc type seq : Z) : K unit :=
b ← get_skb skb;
pidt ← gets k_pidt;
if decide (pidt = -1) then
  kfree_skb skb ;; log UninitFree
else
  skb_out ← alloc_skb (dev_alloc_skb (skb_len b + 115));
  if decide (skb_out = 0) then skip
  else if skb_len b <? 4 then crash WildCopy
  else
    nlmsg_unicast skb_out pidt (nl_send_len (skb_len b))
      (enc_control (nl_control enc type seq) ++
       take (length (sk_data b) - 4) (sk_data b)) ;;
    kfree_skb skb ;;
    kfree_skb skb_out.

(** ** Data frames *)

(** The round bookkeeping: [Some round] when a DACK is requested. *)
Definition rx_round_due (r : encoding_rx) (seq : Z) : option Z :=
if rx_round r <=? seq - 5 then Some (seq / 5) else None.

Definition vmac_rx_data (skb enc : Z) : K unit :=
l ← peek_skb skb 0 sizeof_vmac_data;
let seq := vd_seq (dec_vmac_data l) in
vmacr ← find_rx enc;
if decide (vmacr = 0) then kfree_skb skb
else
  mod_enc_timeout_rx vmacr ;;
  r ← get_rx vmacr;
  match rx_accept r seq with
  | None => kfree_skb skb
  | Some r1 =>
      now ← gets k_jiffies;
      match rx_measure (rx_mark r1 seq) seq now with
      | None => crash DivByZero
      | Some r2 =>
          put_rx vmacr (r2 <| rx_lastin := seq |>) ;;
          (match rx_round_due r2 seq with
           | Some rd =>
               r3 ← get_rx vmacr;
               put_rx vmacr (r3 <| rx_round := rd |>) ;;
               request_DACK enc rd ;;
               r4 ← get_rx vmacr;
               put_rx vmacr (r4 <| rx_round := seq |>)
           | None => skip
           end) ;;
          pull_skb skb sizeof_vmac_data ;;
          nl_send skb enc VMAC_HDR_DATA seq
      end
  end.

(** ** DACK frames *)

Definition maxretx : Z := 20.

(** [x >= WINDOW_TX ? x % WINDOW_TX : x] *)
Definition tx_slot (x : Z) : Z := if WINDOW_TX <=? x then x mod WINDOW_TX else x.

(** [retransmission_buffer[le > WINDOW_TX ? le % WINDOW_TX : le]]: for
  [le = WINDOW_TX] the eight bytes after the array, which are [timer]. *)
Definition retx_test (t : encoding_tx) (le : Z) : Z :=
if WINDOW_TX <? le then arr_get (tx_retransmission_buffer t) (le mod WINDOW_TX)
else if le =? WINDOW_TX then le_dec (take 8 (tx_timer t))
else arr_get (tx_retransmission_buffer t) le.

(** The guard of a retransmission: its pacing has elapsed and the frame is
  still in the retransmission buffer. *)
Definition retx_due (t : encoding_tx) (le seq round : Z) : bool :=
(arr_get (tx_timer t) (tx_slot le) <=? round) &&
((if seq <? WINDOW_TX then 0 else seq - WINDOW_TX) <=? le).

(** The inner loop over the frames of one hole; [counter] and [skb2] are the
  function's variables, which survive from one hole to the next. *)
Fixpoint dack_frames (fuel : nat) (vmact le re seq round counter skb2 : Z) : K (Z * Z) :=
match fuel with
| O => mret (counter, skb2)
| S f =>
    if (le <? re) && (le <? seq) then
      t ← get_tx vmact;
      if retx_due t le seq round then
        if maxretx <=? counter then mret (counter, skb2)
        else
          (if (le =? WINDOW_TX) then log OutOfBounds else skip) ;;
          cs ← (if decide (retx_test t le = 0) then mret (counter, skb2)
                else
                  c ← skb_copy (arr_get (tx_retransmission_buffer t) (tx_slot le));
                  mret (counter + 1, c));
          put_tx vmact
            (t <| tx_timer := arr_set (tx_timer t) (le mod WINDOW_TX) (u8 (round + 6)) |>) ;;
          (if decide (snd cs = 0) then skip
           else
             vmac_send_hack (snd cs) ;;
             t' ← get_tx vmact;
             put_tx vmact (t' <| tx_framecount := u16 (tx_framecount t' + 1) |>)) ;;
          dack_frames f vmact (u16 (le + 1)) re seq round (fst cs) (snd cs)
      else dack_frames f vmact (u16 (le + 1)) re seq round counter skb2
    else mret (counter, skb2)
end.

(** The loop over the holes, [n] of which are left. *)
Fixpoint dack_holes (n : nat) (skb vmact seq round counter skb2 : Z) : K unit :=
match n with
| O => skip
| S n' =>
    l ← peek_skb skb 0 sizeof_vmac_hole;
    let h := dec_vmac_hole l in
    cs ← dack_frames (S (Z.to_nat (h_re h))) vmact (h_le h) (h_re h) seq round counter skb2;
    pull_skb skb sizeof_vmac_hole ;;
    dack_holes n' skb vmact seq round (fst cs) (snd cs)
end.

Definition vmac_rx_dack (skb enc : Z) : K unit :=
vmacr ← find_rx enc;
vmact ← find_tx enc;
l ← peek_skb skb 0 sizeof_vmac_DACK;
let ddr := dec_vmac_DACK l in
pull_skb skb sizeof_vmac_DACK ;;
(if decide (vmact = 0) then skip
 else
   t ← get_tx vmact;
   put_tx vmact (t <| tx_dackcounter := u16 (tx_dackcounter t + 1) |>) ;;
   dack_holes (Z.to_nat (vD_holes ddr)) skb vmact (tx_seq t) (vD_round ddr) 0 0) ;;
kfree_skb skb.

(** ** Dispatch *)

Definition vmac_rx (skb : Z) : K unit :=
l ← peek_skb skb 0 sizeof_vmac_hdr;
let hdr := dec_vmac_hdr l in
let type := vh_type hdr in
let enc := vh_enc hdr in
pull_skb skb sizeof_vmac_hdr ;;
if type =? VMAC_HDR_INTEREST then nl_send skb enc type 0
else if type =? VMAC_HDR_DATA then vmac_rx_data skb enc
else if type =? VMAC_HDR_DACK then vmac_rx_dack skb enc
else if type =? VMAC_HDR_ANOUNCMENT then nl_send skb enc type 0
else if type =? VMAC_HDR_INJECTED then
  l ← peek_skb skb 0 sizeof_vmac_data;
  let seq := vd_seq (dec_vmac_data l) in
  pull_skb skb sizeof_vmac_data ;;
  nl_send skb enc type seq
else kfree_skb skb.

End rx.
