(* ===== verification/Netlink.v ===== *)
(** * The netlink endpoint of [kernel/core/rtw_xmit.c]

    [nl_recv] receives the messages of the userspace library, registers the
    sender and passes frames to [vmac_tx]; [vmac_init] and [exit_vmac] create
    and release the socket. *)

From S2P Require Import Prelude Skb VmacDefs Kernel Tables Tx.
Definition VMAC_USER : Z := 29.

(** A netlink message: the fields of its header the code reads and the bytes
    that follow the header. *)
Record nlmsg := mk_nlmsg {
  nlmsg_len : Z;
  nlmsg_type : Z;
  nlmsg_pid : Z;
  nlmsg_data : list Z
}.

Section netlink.
Context `{Kernel}.

Definition getpidt : K Z := gets k_pidt.

Definition exit_vmac : K unit := modify (fun s => s <| k_nl_sk := false |>).

(** Copying the payload of a message into a new socket buffer with 100 bytes
  of extra headroom; NULL when the allocation fails. *)
Definition nl_copy_frame (m : nlmsg) : K Z :=
skb2 ← alloc_skb (dev_alloc_skb (u32 (nlmsg_len m + 100)));
if decide (skb2 = 0) then mret 0
else
  b ← get_skb skb2;
  put_skb skb2 (skb_reserve b 100) ;;
  let size := nlmsg_len m - 100 in
  if size <? 0 then crash SkbPanic
  else
    let src := take (Z.to_nat size) (drop sizeof_control (nlmsg_data m)) in
    (if decide (Z.of_nat (length src) < size) then log OutOfBounds else skip) ;;
    put_data_skb skb2 src ;;
    mret skb2.

Definition nl_recv (m : nlmsg) : K unit :=
let type := u8 (nlmsg_type m) in
modify (fun s => s <| k_pidt := nlmsg_pid m |>) ;;
if (type =? VMAC_HDR_INTEREST) || (type =? VMAC_HDR_DATA)
   || (type =? VMAC_HDR_ANOUNCMENT) || (type =? VMAC_HDR_INJECTED) then
  let rxc := dec_control (nlmsg_data m) in
  skb2 ← nl_copy_frame m;
  if decide (skb2 = 0) then skip
  else vmac_tx skb2 (le_dec (c_enc rxc)) type (u16 stack_addr)
         (c_rate rxc) (c_bw rxc) (c_sgi rxc) (c_stream rxc)
else if type =? 254 then exit_vmac
else skip.

(** [vmac_init]: 1 when already configured, -1 when the socket cannot be
  created, 0 otherwise. *)
Definition vmac_init : K Z :=
configured ← gets k_configured;
if (configured : bool) then mret 1
else
  modify (fun s => s <| k_pidt := -1 |>) ;;
  ok ← ask_alloc;
  if (ok : bool) then
    modify (fun s => s <| k_nl_sk := true |> <| k_configured := true |>) ;; mret 0
  else
    modify (fun s => s <| k_nl_sk := false |>) ;; mret (-1).

(** The first statements of [_rtw_init_xmit_priv]. *)
Definition rtw_init_xmit_priv_vmac (padapter : adapter) : K unit :=
modify (fun s => s <| k_mon := Some padapter |>) ;;
r ← vmac_init; skip.

End netlink.
