(* ===== verification/Clean.v ===== *)
(** * Expiry of encodings: [kernel/core/clean.c]

    Thirty seconds after its last use an entry is unlinked and freed, with the
    frames it keeps for retransmission. *)

From S2P Require Import Prelude Skb VmacDefs Kernel Tables.
(** [for (i = 0; i < n; i++) if (buffer[i]) kfree_skb(buffer[i]);] from [i]. *)
Fixpoint free_frames (n : nat) (i : Z) (buffer : list Z) : K unit :=
  match n with
  | O => skip
  | S n' => kfree_skb (arr_get buffer i) ;; free_frames n' (i + 1) buffer
  end.

(** The number of slots the cleanup looks at. *)
Definition used_slots (t : encoding_tx) : Z :=
  if tx_seq t <? WINDOW_TX then tx_seq t else WINDOW_TX.

Section clean.
Context `{Kernel}.

Definition process (type : clean_type) (enc : Z) : K unit :=
match type with
| CLEAN_ENC_RX =>
    vmacr ← find_rx enc;
    if decide (vmacr = 0) then skip
    else hash_del_rx vmacr ;; vfree_rx vmacr
| CLEAN_ENC_TX =>
    vmact ← find_tx enc;
    if decide (vmact = 0) then skip
    else
      t ← get_tx vmact;
      free_frames (Z.to_nat (used_slots t)) 0 (tx_retransmission_buffer t) ;;
      hash_del_tx vmact ;; vfree_tx vmact
end.

(** The timer functions: [from_timer] recovers the entry the timer is in. *)
Definition cleanup_rx (vmacr : Z) : K unit :=
r ← get_rx vmacr;
put_rx vmacr (r <| rx_clean_type := CLEAN_ENC_RX |>) ;;
process CLEAN_ENC_RX (rx_clean_enc r).

Definition cleanup_tx (vmact : Z) : K unit :=
t ← get_tx vmact;
put_tx vmact (t <| tx_clean_type := CLEAN_ENC_TX |>) ;;
process CLEAN_ENC_TX (tx_clean_enc t).

End clean.
