(* ===== verification/DackSpec.v ===== *)
(** * What a DACK reports

    The hole search of [prepDACK] against its specification: the holes are
    ordered, disjoint, lie inside the reported window, contain only lost
    frames and miss none of them up to the search limit. *)

From S2P Require Import Prelude Skb VmacDefs Kernel Tables Tx Dack.
(** Frame [n] is marked lost in the receive window. *)
Definition lost (r : encoding_rx) (n : Z) : Prop := wread r (n mod WINDOW) = 0.

#[export] Instance lost_dec r n : Decision (lost r n).
Proof. unfold lost. apply _. Defined.

(** Only frames below the first multiple of [WINDOW] are scanned, or the word
    below the window is not zero: the first inner loop then never reads a
    zero below the array. *)
Definition scan_clean (r : encoding_rx) (lattmp : Z) : Prop :=
  rx_window_pad r <> 0 \/ lattmp <= WINDOW.

Section scan_spec.
Context (r : encoding_rx) (lattmp : Z).
Hypothesis Hlat : is_u16 lattmp.
Hypothesis Hclean : scan_clean r lattmp.
Let lower := scan_lower lattmp.

Lemma scan_lower_range : 0 <= lower /\ (lower = 0 \/ 0 < lower < lattmp) /\ lower <= lattmp.
Proof. unfold lower, scan_lower, WINDOW, in_width in *. case_tests. Qed.

Lemma wread_pred i :
  0 < i -> i mod WINDOW <> 0 -> wread r (i mod WINDOW - 1) = wread r ((i - 1) mod WINDOW).
Proof.
  intros Hi Hm. f_equal. unfold WINDOW in *.
  pose proof (Z.mod_pos_bound i 700). pose proof (Z.div_mod i 700).
  apply Z.mod_unique with (q := i / 700); lia.
Qed.

Lemma extend_left_stays fuel i loss oob :
  lower <= i < lattmp -> (i = lower \/ ~ lost r (i - 1)) ->
  fst (extend_left fuel r lattmp i loss oob) = (i, loss).
Proof.
  intros Hi Hprev. destruct fuel; [done|]. cbn [extend_left].
  pose proof scan_lower_range as (Hl0 & _ & _).
  replace (_ && _) with false; [done|]. symmetry.
  destruct (Z.ltb_spec 0 i) as [Hpos|]; [|by rewrite andb_false_r].
  rewrite andb_true_r. fold lower. apply andb_false_iff.
  destruct (decide (i = lower)); [right; apply Z.ltb_ge; lia|].
  destruct Hprev as [|Hprev]; [done|]. left. apply Z.eqb_neq.
  destruct (decide (i mod WINDOW = 0)) as [E|E].
  - rewrite E. unfold wread; cbn [Z.sub Z.add Z.opp Z.ltb Z.compare].
    destruct Hclean as [|Hc]; [done|]. unfold WINDOW in *.
    apply Z.mod_divide in E as [q ->]; lia.
  - rewrite wread_pred by done. exact Hprev.
Qed.

Lemma extend_right_spec fuel i loss :
  0 <= i < lattmp -> (Z.to_nat (lattmp - 1 - i) <= fuel)%nat ->
  let e := fst (extend_right fuel r lattmp i loss) in
  i <= e < lattmp /\ (forall n, i <= n < e -> lost r n) /\
  (lost r e -> e = lattmp - 1).
Proof.
  revert i loss; induction fuel as [|f IH]; intros i loss Hi Hf; cbn [extend_right fst].
  - split_and!; [lia|lia|intros n; lia|lia].
  - destruct (Z.eqb_spec (wread r (i mod WINDOW)) 0) as [El|El]; cbn [andb].
    + destruct (Z.ltb_spec i (lattmp - 1)) as [Hlt|Hge]; cbn [fst].
      * assert (u16 (i + 1) = i + 1) as -> by (apply wrap_small; width_lia).
        destruct (IH (i + 1) (u8 (loss + 1))) as (? & Hin & ?); [lia|lia|].
        split_and!; try lia; [|done].
        intros n ?. destruct (decide (n = i)) as [->|]; [exact El|apply Hin; lia].
      * split_and!; [lia|lia|intros n; lia|lia].
    + cbn [fst]. split_and!; [lia|lia|intros n; lia|]. by intros ?.
Qed.

(** The holes found so far. *)
Definition holes_sound (hs : list vmac_hole) (hi : Z) : Prop :=
  forall k h, hs !! k = Some h ->
    lower <= h_le h <= h_re h /\ h_re h < hi /\
    (forall n, h_le h <= n < h_re h -> lost r n).

Definition holes_sorted (hs : list vmac_hole) : Prop :=
  forall j k h1 h2, hs !! j = Some h1 -> hs !! k = Some h2 -> (j < k)%nat ->
    h_re h1 < h_le h2.

Definition holes_cover (hs : list vmac_hole) (hi : Z) : Prop :=
  forall n, lower <= n < hi -> n < lattmp - 1 -> lost r n ->
    exists h, h ∈ hs /\ h_le h <= n < h_re h.

Definition scan_inv (i : Z) (hs : list vmac_hole) : Prop :=
  lower <= i <= lattmp /\ (length hs <= 40)%nat /\
  holes_sound hs i /\ holes_sorted hs /\ holes_cover hs i /\
  (i = lower \/ i = lattmp \/ ~ lost r (i - 1)) /\
  (forall h, list.last hs = Some h -> h_re h < i).

Lemma scan_inv_init : scan_inv lower [].
Proof.
  pose proof scan_lower_range. split_and!; try (cbn; lia); try done; [by left..|].
  intros n. lia.
Qed.

Lemma scan_inv_received i hs :
  scan_inv i hs -> i < lattmp -> ~ lost r i -> scan_inv (i + 1) hs.
Proof.
  intros (Hi & Hn & Hs & Ho & Hc & Hp & Hl) Hlt Hr. split_and!; try done; try lia.
  - intros k h Hk. destruct (Hs k h Hk) as (? & ? & ?). split_and!; try done; lia.
  - intros n ? ? Hlost. destruct (decide (n = i)) as [->|]; [done|].
    apply Hc; [lia|done|done].
  - right; right. by replace (i + 1 - 1) with i by lia.
  - intros h Hh. specialize (Hl h Hh). lia.
Qed.

Lemma scan_inv_hole i e hs :
  scan_inv i hs -> i <= e < lattmp -> (length hs < 40)%nat ->
  (forall n, i <= n < e -> lost r n) -> (lost r e -> e = lattmp - 1) ->
  scan_inv (e + 1) (hs ++ [mk_vmac_hole i e]).
Proof.
  intros (Hi & Hn & Hs & Ho & Hc & Hp & Hl) He Hlen Hin Hend. split_and!; try lia.
  - rewrite length_app. cbn. lia.
  - intros k h [Hk|[Hk1 Hk]]%lookup_app_Some.
    + destruct (Hs k h Hk) as (? & ? & ?). split_and!; try done; lia.
    + apply list_lookup_singleton_Some in Hk as [_ <-]. cbn. split_and!; try done; lia.
  - intros j k h1 h2 Hj Hk Hjk.
    apply lookup_app_Some in Hk as [Hk|[Hk1 Hk]].
    + apply lookup_app_Some in Hj as [Hj|[Hj1 _]]; [by eapply Ho|].
      apply lookup_lt_Some in Hk. lia.
    + apply list_lookup_singleton_Some in Hk as [Hk <-]. cbn.
      apply lookup_app_Some in Hj as [Hj|[Hj1 _]]; [|lia].
      destruct (Hs j h1 Hj) as (? & ? & _). lia.
  - intros n Hrange Hlast Hlost. destruct (Z.lt_ge_cases n i) as [Hni|Hni].
    + destruct (Hc n) as (h & Hh & ?); [lia|done|done|].
      exists h. split; [|done]. apply elem_of_app. by left.
    + exists (mk_vmac_hole i e). cbn. split.
      * apply elem_of_app. right. by apply list_elem_of_singleton.
      * destruct (decide (n = e)) as [->|]; [|lia]. specialize (Hend Hlost). lia.
  - destruct (decide (e = lattmp - 1)); [by right; left; lia|].
    right; right. replace (e + 1 - 1) with e by lia. tauto.
  - intros h. rewrite list.last_snoc. intros [= <-]. cbn. lia.
Qed.

Lemma scan_loop_inv fuel i sc :
  scan_inv i (sc_holes sc) -> (Z.to_nat (lattmp - i) < fuel)%nat ->
  exists f, scan_inv f (sc_holes (scan_loop fuel r lattmp i sc)) /\
    (f = lattmp \/ length (sc_holes (scan_loop fuel r lattmp i sc)) = 40%nat).
Proof.
  revert i sc; induction fuel as [|fu IH]; intros i sc Hinv Hfuel; [lia|].
  cbn [scan_loop]. pose proof Hinv as (Hi & Hn & _).
  pose proof scan_lower_range as (Hl0 & _ & _).
  destruct (Z.ltb_spec i lattmp) as [Hlt|Hge]; cbn [andb].
  2:{ exists i. split; [done|]. left. lia. }
  unfold HOLES_MAX. destruct (Z.ltb_spec (Z.of_nat (length (sc_holes sc))) 40) as [Hh|Hh].
  2:{ exists i. split; [done|]. right. lia. }
  unfold scan_step. destruct (Z.eqb_spec (wread r (i mod WINDOW)) 0) as [El|El].
  - pose proof (extend_left_stays (Z.to_nat i) i (sc_loss sc) (sc_oob sc)) as Hleft.
    destruct (extend_left _ _ _ _ _ _) as [[tmp loss] oob].
    destruct Hinv as (? & ? & ? & ? & ? & Hp & ?).
    cbn in Hleft. specialize (Hleft ltac:(lia)).
    assert (tmp = i /\ loss = sc_loss sc) as [-> ->].
    { destruct Hp as [|[|]]; [|lia|].
      - by injection (Hleft ltac:(by left)).
      - by injection (Hleft ltac:(by right)). }
    pose proof (extend_right_spec (Z.to_nat (lattmp - i)) i (sc_loss sc)) as Hright.
    destruct (extend_right _ _ _ _ _) as [e loss']. cbn in Hright.
    destruct Hright as (He & Hin & Hend); [lia|lia|].
    assert (u16 i = i) as -> by (apply wrap_small; width_lia).
    assert (u16 (e + 1) = e + 1) as -> by (apply wrap_small; width_lia).
    apply IH; [|lia]. apply scan_inv_hole; try done; lia.
  - assert (u16 (i + 1) = i + 1) as -> by (apply wrap_small; width_lia).
    apply IH; [|lia]. by apply scan_inv_received.
Qed.

Lemma scan_holes_inv :
  exists f, scan_inv f (sc_holes (scan_holes r lattmp)) /\
    (f = lattmp \/ length (sc_holes (scan_holes r lattmp)) = 40%nat).
Proof.
  apply scan_loop_inv; [apply scan_inv_init|].
  pose proof scan_lower_range. fold lower. lia.
Qed.
End scan_spec.
