(* ===== verification/TxSpec.v ===== *)
(** * What the transmit path does

    Functional lemmas for the hand-over to the hardware and for the
    sequencing and copying of data frames, and the theorems about [vmac_tx]
    built from them. *)

From S2P Require Import Prelude Skb VmacDefs Kernel Tables Tx.
Section tx_spec.
Context `{Kernel}.
Implicit Types (s : kstate) (b : skb) (a : adapter).

Lemma length_vmac_ieee80211_hdr : length vmac_ieee80211_hdr = sizeof_ieee80211_hdr.
Proof. unfold vmac_ieee80211_hdr. by rewrite !length_app, !length_le_enc. Qed.

(** The state after the live buffer [q] was transmitted as [pframe]. *)
Definition aired s (q : Z) a (pframe : list Z) (rate bw sgi stream : Z) : kstate :=
  s <| k_air := k_air s ++ [xmit_attrib pframe rate bw sgi stream] |>
    <| k_mon := Some (adapter_after a pframe) |>
    <| k_skbs := delete q (k_skbs s) |>.

(** A frame that fits the transmit buffer behind the descriptor. *)
Definition fits (len : Z) : Prop := TXDESC_OFFSET + len <= MAX_XMIT_EXTBUF_SZ.

Lemma monitor_alloc_done s :
  o_xmit (k_oracle s) = [] -> monitor_alloc_mgtxmitframe s = Done true s.
Proof.
  intros E. unfold monitor_alloc_mgtxmitframe, monitor_alloc_loop.
  unfold mbind, K_bind. by rewrite (ask_xmit_done s E).
Qed.

Lemma xmit_mo_done s q b a rate bw sgi stream :
  q <> 0 -> k_skbs s !! q = Some b -> k_mon s = Some a -> o_xmit (k_oracle s) = [] ->
  fits (skb_len b) ->
  xmit_mo q rate bw sgi stream s =
    Done NETDEV_TX_OK (aired s q a (sk_data b) rate bw sgi stream).
Proof.
  intros Hq Hb Hm Hx Hfit. unfold xmit_mo.
  rewrite (bind_done _ _ _ _ _ (get_skb_done _ _ _ Hq Hb)). kstep. rewrite Hm.
  rewrite (bind_done _ _ _ _ _ (monitor_alloc_done s Hx)).
  rewrite decide_True by done. do 2 kstep.
  erewrite bind_done; [|by eapply kfree_skb_done]. done.
Qed.

Lemma vmac_low_tx_done s q b a seq rate bw sgi stream :
  q <> 0 -> k_skbs s !! q = Some b -> k_mon s = Some a -> o_xmit (k_oracle s) = [] ->
  30 <= sk_room b -> fits (skb_len b + 30) ->
  vmac_low_tx q seq rate bw sgi stream s =
    Done tt (aired s q a (vmac_ieee80211_hdr ++ sk_data b) rate bw sgi stream).
Proof.
  intros Hq Hb Hm Hx Hr Hfit. unfold vmac_low_tx.
  pose proof length_vmac_ieee80211_hdr as Hl. unfold sizeof_ieee80211_hdr in Hl.
  erewrite bind_done; [|apply push_skb_done; [done|done|lia]].
  erewrite bind_done.
  2:{ eapply xmit_mo_done; [done|apply lookup_insert_eq|done|done|].
      unfold fits, skb_len in *. cbn [sk_data]. rewrite length_app. lia. }
  unfold aired; cbn. by rewrite delete_insert_eq.
Qed.

(** *** Entries *)

Lemma mod_enc_timeout_tx_done s p t :
  p <> 0 -> k_tx_mem s !! p = Some t ->
  mod_enc_timeout_tx p s = Done tt
    (s <| k_tx_mem := <[p := t <| tx_enc_timeout :=
            Some (k_jiffies s + msecs_to_jiffies 30000) |> ]> (k_tx_mem s) |>).
Proof.
  intros Hp Ht. unfold mod_enc_timeout_tx. kstep.
  by rewrite (bind_done _ _ _ _ _ (get_tx_done _ _ _ Hp Ht)).
Qed.

Lemma mod_enc_timeout_rx_done s p r :
  p <> 0 -> k_rx_mem s !! p = Some r ->
  mod_enc_timeout_rx p s = Done tt
    (s <| k_rx_mem := <[p := r <| rx_enc_timeout :=
            Some (k_jiffies s + msecs_to_jiffies 30000) |> ]> (k_rx_mem s) |>).
Proof.
  intros Hp Hr. unfold mod_enc_timeout_rx. kstep.
  by rewrite (bind_done _ _ _ _ _ (get_rx_done _ _ _ Hp Hr)).
Qed.

Lemma get_or_make_tx_found s enc :
  hash_last (k_tx_enc s) (hash_min enc) <> 0 ->
  get_or_make_tx enc s = Done (hash_last (k_tx_enc s) (hash_min enc)) s.
Proof.
  intros Hf. unfold get_or_make_tx, find_tx. kstep. by rewrite decide_False.
Qed.

Lemma get_or_make_rx_found s enc :
  hash_last (k_rx_enc s) (hash_min enc) <> 0 ->
  get_or_make_rx enc s = Done (hash_last (k_rx_enc s) (hash_min enc)) s.
Proof.
  intros Hf. unfold get_or_make_rx, find_rx. kstep. by rewrite decide_False.
Qed.

(** A new entry is initialised and linked into its bucket. *)
Lemma get_or_make_tx_new s enc :
  hash_last (k_tx_enc s) (hash_min enc) = 0 -> o_alloc (k_oracle s) = [] -> 0 < k_next s ->
  get_or_make_tx enc s = Done (k_next s)
    (s <| k_tx_mem := <[k_next s := init_encoding_tx (o_tx_mem (k_oracle s)) enc]> (k_tx_mem s) |>
       <| k_next := k_next s + 1 |>
       <| k_tx_enc := hash_add (k_tx_enc s) (hash_min enc) (k_next s) |>).
Proof.
  intros Hf Ha Hn. unfold get_or_make_tx, find_tx. kstep. rewrite decide_True by done.
  unfold vmalloc_tx. rewrite (bind_done _ _ s (k_next s)
    (s <| k_tx_mem := <[k_next s := o_tx_mem (k_oracle s)]> (k_tx_mem s) |>
       <| k_next := k_next s + 1 |>)).
  2:{ by rewrite (bind_done _ _ _ _ _ (ask_alloc_done s Ha)). }
  erewrite bind_done; [|apply get_tx_done; [lia|apply lookup_insert_eq]].
  unfold put_tx. kstep. unfold add_tx.
  erewrite bind_done.
  2:{ erewrite bind_done; [|apply get_tx_done; [lia|apply lookup_insert_eq]]. reflexivity. }
  cbn. by rewrite !insert_insert_eq.
Qed.

Lemma get_or_make_rx_new s enc :
  hash_last (k_rx_enc s) (hash_min enc) = 0 -> o_alloc (k_oracle s) = [] -> 0 < k_next s ->
  get_or_make_rx enc s = Done (k_next s)
    (s <| k_rx_mem := <[k_next s :=
            (init_encoding_rx (o_rx_mem (k_oracle s)) enc)
              <| rx_dack_timer := Some (k_jiffies s) |> ]> (k_rx_mem s) |>
       <| k_next := k_next s + 1 |>
       <| k_rx_enc := hash_add (k_rx_enc s) (hash_min enc) (k_next s) |>).
Proof.
  intros Hf Ha Hn. unfold get_or_make_rx, find_rx. kstep. rewrite decide_True by done.
  unfold vmalloc_rx. rewrite (bind_done _ _ s (k_next s)
    (s <| k_rx_mem := <[k_next s := o_rx_mem (k_oracle s)]> (k_rx_mem s) |>
       <| k_next := k_next s + 1 |>)).
  2:{ by rewrite (bind_done _ _ _ _ _ (ask_alloc_done s Ha)). }
  erewrite bind_done; [|apply get_rx_done; [lia|apply lookup_insert_eq]].
  unfold put_rx. kstep. unfold add_rx.
  erewrite bind_done.
  2:{ erewrite bind_done; [|apply get_rx_done; [lia|apply lookup_insert_eq]]. reflexivity. }
  kstep. erewrite bind_done; [|apply get_rx_done; [lia|apply lookup_insert_eq]]. kstep.
  cbn. by rewrite !insert_insert_eq.
Qed.

(** *** Data frames *)

(** The bytes of a data frame above the 802.11 header. *)
Definition data_frame (enc seq : Z) (payload : list Z) : list Z :=
  enc_vmac_hdr (mk_vmac_hdr enc VMAC_HDR_DATA) ++
  enc_vmac_data (mk_vmac_data seq) ++ payload.

Lemma length_data_frame enc seq payload :
  length (data_frame enc seq payload) = (11 + length payload)%nat.
Proof.
  unfold data_frame.
  by rewrite !length_app, length_enc_vmac_hdr, length_enc_vmac_data.
Qed.

(** The entry after the frame [seq = tx_seq t] was numbered at [now] and its
    copy kept at [c]. *)
Definition tx_after (t : encoding_tx) (now c : Z) : encoding_tx :=
  t <| tx_enc_timeout := Some (now + msecs_to_jiffies 30000) |>
    <| tx_seq := u16 (tx_seq t + 1) |>
    <| tx_timer := arr_set (tx_timer t) (tx_seq t mod WINDOW_TX) 0 |>
    <| tx_retransmission_buffer :=
         arr_set (tx_retransmission_buffer t) (tx_seq t mod WINDOW_TX) c |>.

(** The copy that the frame [tx_seq t] displaces, NULL for the first window. *)
Definition displaced (t : encoding_tx) : Z :=
  if WINDOW_TX <=? tx_seq t
  then arr_get (tx_retransmission_buffer t) (tx_seq t mod WINDOW_TX) else 0.

Definition release (q : Z) (m : gmap Z skb) : gmap Z skb :=
  if decide (q = 0) then m else delete q m.

Lemma vmac_tx_data_done s skb enc b p t :
  hash_last (k_tx_enc s) (hash_min enc) = p -> p <> 0 -> k_tx_mem s !! p = Some t ->
  skb <> 0 -> k_skbs s !! skb = Some b -> 11 <= sk_room b ->
  k_skbs s !! k_next s = None -> 0 < k_next s -> o_alloc (k_oracle s) = [] ->
  (displaced t = 0 \/ displaced t <> skb /\ is_Some (k_skbs s !! displaced t)) ->
  vmac_tx_data skb enc s = Done tt
    (s <| k_tx_mem := <[p := tx_after t (k_jiffies s) (k_next s)]> (k_tx_mem s) |>
       <| k_next := k_next s + 1 |>
       <| k_skbs := release (displaced t)
            (<[k_next s := mk_skb (sk_room b - 11) (data_frame enc (tx_seq t) (sk_data b))
                             (fresh_bytes (length (sk_tail b)))]>
             (<[skb := mk_skb (sk_room b - 11) (data_frame enc (tx_seq t) (sk_data b))
                          (sk_tail b)]> (k_skbs s))) |>).
Proof.
  intros Hp Hp0 Ht Hskb Hb Hroom Hfresh Hn Ha Hold. unfold vmac_tx_data.
  rewrite (bind_done _ _ s p s).
  2:{ rewrite <- Hp. apply get_or_make_tx_found. by rewrite Hp. }
  erewrite bind_done; [|by apply mod_enc_timeout_tx_done].
  erewrite bind_done; [|apply get_tx_done; [done|apply lookup_insert_eq]].
  unfold put_tx, next_seq. kstep.
  erewrite bind_done; [|apply push_skb_done; [done|exact Hb|sizes; lia]].
  erewrite bind_done.
  2:{ apply push_skb_done; [done|apply lookup_insert_eq|].
      cbn [sk_room]. sizes. lia. }
  erewrite bind_done.
  2:{ apply skb_copy_done; [done|apply lookup_insert_eq|exact Ha]. }
  unfold keep_copy, put_tx.
  erewrite bind_done; [|apply get_tx_done; [done|cbn; apply lookup_insert_eq]].
  rewrite decide_False by (cbn; lia). kstep.
  cbn -[Z.leb Z.modulo arr_set arr_get length_le_enc enc_vmac_hdr enc_vmac_data].
  rewrite length_enc_vmac_hdr, length_enc_vmac_data, !insert_insert_eq.
  fold (displaced t). replace (sk_room b - _ - _) with (sk_room b - 11) by (sizes; lia).
  unfold kfree_skb, release. case_decide as Hd; [done|].
  destruct Hold as [|[Hne [b' Hb']]]; [done|]. cbn.
  rewrite lookup_insert_ne by congruence. rewrite lookup_insert_ne by congruence.
  by rewrite Hb'.
Qed.

Lemma lookup_release q x (m : gmap Z skb) : q <> x -> release q m !! x = m !! x.
Proof. intros. unfold release. case_decide; [done|]. by rewrite lookup_delete_ne. Qed.

(** The state after the data frame in [skb] was sent through the entry [t]
    at [p] and handed to the hardware. *)
Definition sent_data s (skb enc p : Z) (t : encoding_tx) b a
    (rate bw sgi stream : Z) : kstate :=
  aired
    (s <| k_tx_mem := <[p := tx_after t (k_jiffies s) (k_next s)]> (k_tx_mem s) |>
       <| k_next := k_next s + 1 |>
       <| k_skbs := release (displaced t)
            (<[k_next s := mk_skb (sk_room b - 11) (data_frame enc (tx_seq t) (sk_data b))
                             (fresh_bytes (length (sk_tail b)))]>
             (<[skb := mk_skb (sk_room b - 11) (data_frame enc (tx_seq t) (sk_data b))
                          (sk_tail b)]> (k_skbs s))) |>)
    skb a (vmac_ieee80211_hdr ++ data_frame enc (tx_seq t) (sk_data b)) rate bw sgi stream.

Lemma vmac_tx_data_sent s skb enc b p t a seqtmp rate bw sgi stream :
  hash_last (k_tx_enc s) (hash_min enc) = p -> p <> 0 -> k_tx_mem s !! p = Some t ->
  skb <> 0 -> k_skbs s !! skb = Some b -> 41 <= sk_room b -> fits (skb_len b + 41) ->
  k_skbs s !! k_next s = None -> 0 < k_next s -> calm s -> k_mon s = Some a ->
  (displaced t = 0 \/ displaced t <> skb /\ is_Some (k_skbs s !! displaced t)) ->
  vmac_tx skb enc VMAC_HDR_DATA seqtmp rate bw sgi stream s =
    Done tt (sent_data s skb enc p t b a rate bw sgi stream).
Proof.
  intros Hp Hp0 Ht Hskb Hb Hroom Hfit Hfresh Hn Hcalm Hmon Hold. destruct Hcalm.
  unfold vmac_tx. change (VMAC_HDR_DATA =? VMAC_HDR_INTEREST) with false.
  change (VMAC_HDR_DATA =? VMAC_HDR_DATA) with true. cbv iota.
  erewrite bind_done; [|eapply vmac_tx_data_done; eauto; lia].
  unfold sent_data.
  assert (displaced t <> skb) by (destruct Hold as [->|[]]; done).
  eapply vmac_low_tx_done with
    (b := mk_skb (sk_room b - 11) (data_frame enc (tx_seq t) (sk_data b)) (sk_tail b));
    try done.
  - cbn -[data_frame]. rewrite lookup_release, lookup_insert_ne by congruence.
    apply lookup_insert_eq.
  - cbn [sk_room]. lia.
  - unfold fits, skb_len in *. cbn [sk_data]. rewrite length_data_frame. lia.
Qed.

(** *** The retransmission buffer over a whole stream *)

(** The memory allocator: everything live is below [k_next]. *)
Record mem_ok s : Prop := {
  mem_next : 0 < k_next s;
  mem_fresh : forall q, k_next s <= q -> k_skbs s !! q = None
}.

(** Frame [i] is still in the retransmission buffer when [n] were sent. *)
Definition kept (n : nat) (i : nat) : Prop := (i < n)%nat /\ (n <= i + 500)%nat.

(** The entry [t] at [p] has numbered the payloads [sent] from 0, and its
    buffer holds a live private copy of each of the last 500 frames. *)
Record buffer_ok s (p : Z) (t : encoding_tx) (enc : Z) (sent : list (list Z)) : Prop := {
  bo_find : hash_last (k_tx_enc s) (hash_min enc) = p;
  bo_ptr : p <> 0;
  bo_entry : k_tx_mem s !! p = Some t;
  bo_seq : tx_seq t = Z.of_nat (length sent);
  bo_buf : length (tx_retransmission_buffer t) = 500%nat;
  bo_timer : length (tx_timer t) = 500%nat;
  bo_copy : forall i payload, sent !! i = Some payload -> kept (length sent) i ->
    let q := arr_get (tx_retransmission_buffer t) (Z.of_nat i mod WINDOW_TX) in
    q <> 0 /\ exists b, k_skbs s !! q = Some b /\
      sk_data b = data_frame enc (Z.of_nat i) payload /\ 30 <= sk_room b;
  bo_distinct : forall i j, kept (length sent) i -> kept (length sent) j ->
    arr_get (tx_retransmission_buffer t) (Z.of_nat i mod WINDOW_TX) =
    arr_get (tx_retransmission_buffer t) (Z.of_nat j mod WINDOW_TX) -> i = j
}.

Lemma slot_distinct (n i j : nat) :
  kept n i -> kept n j -> Z.of_nat i mod WINDOW_TX = Z.of_nat j mod WINDOW_TX -> i = j.
Proof.
  unfold kept, WINDOW_TX. intros [? ?] [? ?] E.
  pose proof (Z.div_mod (Z.of_nat i) 500). pose proof (Z.div_mod (Z.of_nat j) 500). nia.
Qed.

Lemma slot_range (x : Z) : 0 <= x mod WINDOW_TX < 500.
Proof. unfold WINDOW_TX. pose proof (Z.mod_pos_bound x 500). lia. Qed.

(** What [displaced] is in a buffer that is in order. *)
Lemma displaced_ok s p t enc sent :
  buffer_ok s p t enc sent ->
  displaced t = 0 \/
  exists i payload, (i + 500 = length sent)%nat /\ sent !! i = Some payload /\
    displaced t = arr_get (tx_retransmission_buffer t) (Z.of_nat i mod WINDOW_TX).
Proof.
  intros Hok. unfold displaced. rewrite (bo_seq _ _ _ _ _ Hok).
  unfold WINDOW_TX. destruct (Z.leb_spec 500 (Z.of_nat (length sent))) as [Hle|]; [|by left].
  right. destruct (lookup_lt_is_Some_2 sent (length sent - 500)) as [payload Hpl]; [lia|].
  exists (length sent - 500)%nat, payload. split_and!; [lia|done|].
  f_equal. rewrite Nat2Z.inj_sub by lia. change (Z.of_nat 500) with 500.
  replace (Z.of_nat (length sent)) with (Z.of_nat (length sent) - 500 + 1 * 500) at 1 by lia.
  by rewrite Z.mod_add.
Qed.

Lemma kept_snoc n i : kept (S n) i -> i = n \/ kept n i.
Proof. unfold kept. lia. Qed.

Lemma buf_after_new t now c :
  length (tx_retransmission_buffer t) = 500%nat ->
  arr_get (tx_retransmission_buffer (tx_after t now c)) (tx_seq t mod WINDOW_TX) = c.
Proof.
  intros Hl. pose proof (slot_range (tx_seq t)). cbn -[Z.modulo].
  apply arr_get_set_eq. unfold in_range. lia.
Qed.

Lemma buf_after_old t now c n i :
  tx_seq t = Z.of_nat n -> kept (S n) i -> kept n i ->
  arr_get (tx_retransmission_buffer (tx_after t now c)) (Z.of_nat i mod WINDOW_TX) =
  arr_get (tx_retransmission_buffer t) (Z.of_nat i mod WINDOW_TX).
Proof.
  intros Hn Hk Hk'. pose proof (slot_range (tx_seq t)). pose proof (slot_range (Z.of_nat i)).
  cbn -[Z.modulo]. apply arr_get_set_ne; [lia|lia|]. rewrite Hn. intros E.
  assert (n = i) by (eapply (slot_distinct (S n)); [unfold kept; lia|done|done]).
  unfold kept in *. lia.
Qed.

(** A buffer that no slot of the stream refers to. *)
Definition not_kept (t : encoding_tx) (n : nat) (q : Z) : Prop :=
  forall i, kept n i -> arr_get (tx_retransmission_buffer t) (Z.of_nat i mod WINDOW_TX) <> q.

Lemma kept_fresh s p t enc sent q :
  buffer_ok s p t enc sent -> k_skbs s !! q = None -> not_kept t (length sent) q.
Proof.
  intros Hok Hq i Hi E. destruct (lookup_lt_is_Some_2 sent i) as [pl Hpl]; [apply Hi|].
  destruct (bo_copy _ _ _ _ _ Hok i pl Hpl Hi) as (_ & b & Hb & _). congruence.
Qed.

Lemma sent_data_lookup s skb enc p t b a rate bw sgi stream q :
  q <> skb -> q <> displaced t -> q <> k_next s ->
  k_skbs (sent_data s skb enc p t b a rate bw sgi stream) !! q = k_skbs s !! q.
Proof.
  intros. unfold sent_data, aired. cbn -[data_frame].
  rewrite lookup_delete_ne, lookup_release by done. by rewrite !lookup_insert_ne by done.
Qed.

Lemma sent_data_copy s skb enc p t b a rate bw sgi stream :
  skb <> k_next s -> displaced t <> k_next s ->
  k_skbs (sent_data s skb enc p t b a rate bw sgi stream) !! k_next s =
    Some (mk_skb (sk_room b - 11) (data_frame enc (tx_seq t) (sk_data b))
            (fresh_bytes (length (sk_tail b)))).
Proof.
  intros. unfold sent_data, aired. cbn -[data_frame].
  rewrite lookup_delete_ne, lookup_release by done. apply lookup_insert_eq.
Qed.

(** Sending one more frame keeps the buffer in order. *)
Lemma buffer_ok_sent s skb enc p t b a rate bw sgi stream sent :
  buffer_ok s p t enc sent -> Z.of_nat (length sent) < 65535 -> mem_ok s ->
  is_Some (k_skbs s !! skb) -> not_kept t (length sent) skb -> skb <> 0 ->
  41 <= sk_room b ->
  buffer_ok (sent_data s skb enc p t b a rate bw sgi stream) p
    (tx_after t (k_jiffies s) (k_next s)) enc (sent ++ [sk_data b]).
Proof.
  intros Hok Hlen [Hn Hfresh] Hskb Hnk Hskb0 Hroom.
  pose proof (Hfresh (k_next s) ltac:(lia)) as Hnext.
  pose proof (kept_fresh _ _ _ _ _ _ Hok Hnext) as Hnk'.
  assert (skb <> k_next s) as Hsn by (intros ->; rewrite Hnext in Hskb; by destruct Hskb).
  assert (displaced t <> k_next s) as Hdn.
  { destruct (displaced_ok _ _ _ _ _ Hok) as [E|(i & pl & Hi & _ & E)]; [lia|].
    rewrite E. apply Hnk'. unfold kept; lia. }
  pose proof (bo_seq _ _ _ _ _ Hok) as Hseq.
  assert (length (sent ++ [sk_data b]) = S (length sent)) as HS by (rewrite length_app; cbn; lia).
  split; rewrite ?HS.
  - apply (bo_find _ _ _ _ _ Hok).
  - apply (bo_ptr _ _ _ _ _ Hok).
  - cbn. apply lookup_insert_eq.
  - cbn. rewrite Hseq. unfold wrap. rewrite Z.mod_small; lia.
  - cbn -[Z.modulo]. rewrite length_arr_set. apply (bo_buf _ _ _ _ _ Hok).
  - cbn -[Z.modulo]. rewrite length_arr_set. apply (bo_timer _ _ _ _ _ Hok).
  - intros i payload Hi Hk.
    apply lookup_app_Some in Hi as [Hi|[Hge Hi]].
    + assert (kept (length sent) i) as Hk'.
      { apply lookup_lt_Some in Hi. unfold kept in *. lia. }
      rewrite (buf_after_old _ _ _ _ _ Hseq Hk Hk').
      destruct (bo_copy _ _ _ _ _ Hok i payload Hi Hk') as (Hq0 & b' & Hb' & ? & ?).
      split; [done|]. exists b'. split; [|done].
      rewrite sent_data_lookup; [done|by apply Hnk| |by apply Hnk'].
      destruct (displaced_ok _ _ _ _ _ Hok) as [E|(j & pl & Hj & _ & E)]; rewrite E; [done|].
      intros Eq. assert (i = j); [|unfold kept in *; lia].
      eapply (bo_distinct _ _ _ _ _ Hok); [done|unfold kept; lia|done].
    + apply list_lookup_singleton_Some in Hi as [Hi <-].
      assert (i = length sent) as -> by lia. cbv zeta. rewrite <- Hseq.
      rewrite buf_after_new by apply (bo_buf _ _ _ _ _ Hok). split; [lia|].
      rewrite sent_data_copy by done. eexists. split; [done|].
      cbn [sk_data sk_room]. rewrite Hseq. split; [done|lia].
  - intros i j Hi Hj E.
    apply kept_snoc in Hi as Hi'. apply kept_snoc in Hj as Hj'.
    destruct Hi' as [->|Hi'], Hj' as [->|Hj']; [done| | |].
    + rewrite <- Hseq, buf_after_new in E by apply (bo_buf _ _ _ _ _ Hok).
      rewrite (buf_after_old _ _ _ _ _ Hseq Hj Hj') in E. by destruct (Hnk' j Hj').
    + rewrite <- Hseq, buf_after_new in E by apply (bo_buf _ _ _ _ _ Hok).
      rewrite (buf_after_old _ _ _ _ _ Hseq Hi Hi') in E. by destruct (Hnk' i Hi').
    + rewrite (buf_after_old _ _ _ _ _ Hseq Hi Hi') in E.
      rewrite (buf_after_old _ _ _ _ _ Hseq Hj Hj') in E.
      by eapply (bo_distinct _ _ _ _ _ Hok).
Qed.

Lemma sent_data_mem_ok s skb enc p t b a rate bw sgi stream :
  mem_ok s -> mem_ok (sent_data s skb enc p t b a rate bw sgi stream).
Proof.
  intros [Hn Hf]. split; [cbn; lia|]. intros q Hq. cbn in Hq.
  unfold sent_data, aired. cbn -[data_frame].
  destruct (decide (q = skb)) as [->|]; [apply lookup_delete_eq|].
  rewrite lookup_delete_ne by done. unfold release. case_decide.
  - rewrite lookup_insert_ne by lia. rewrite lookup_insert_ne by done. apply Hf. lia.
  - destruct (decide (q = displaced t)) as [->|]; [apply lookup_delete_eq|].
    rewrite lookup_delete_ne by done.
    rewrite lookup_insert_ne by lia. rewrite lookup_insert_ne by done. apply Hf. lia.
Qed.
End tx_spec.
