(* ===== verification/NetlinkSpec.v ===== *)
(** * From a userspace message to the air

    A stream of data messages for one encoding, run through [nl_recv],
    [vmac_tx] and [xmit_mo]: the frames put on the air, the numbering and the
    retransmission buffer. *)

From S2P Require Import Prelude Skb VmacDefs Kernel Tables Tx Netlink TxSpec.
Section netlink_spec.
Context `{Kernel}.
Implicit Types (s : kstate).

(** A message whose declared length covers the 100 bytes of overhead and is
    backed by its data. *)
Record msg_ok (m : nlmsg) (payload : list Z) : Prop := {
  msg_len : nlmsg_len m = Z.of_nat (length payload) + 100;
  msg_small : Z.of_nat (length payload) <= 1447;
  msg_payload : exists junk, drop sizeof_control (nlmsg_data m) = payload ++ junk
}.

Lemma msg_take m payload :
  msg_ok m payload ->
  take (Z.to_nat (nlmsg_len m - 100)) (drop sizeof_control (nlmsg_data m)) = payload.
Proof.
  intros [Hl _ [junk ->]]. rewrite Hl.
  replace (Z.to_nat _) with (length payload) by lia. apply take_app_length.
Qed.

(** The buffer [nl_recv] makes: room for every header still to come. *)
Lemma nl_copy_frame_done s m payload :
  msg_ok m payload -> mem_ok s -> o_alloc (k_oracle s) = [] ->
  exists tail, nl_copy_frame m s = Done (k_next s)
    (s <| k_skbs := <[k_next s := mk_skb (net_skb_pad + 100) payload tail]> (k_skbs s) |>
       <| k_next := k_next s + 1 |>).
Proof.
  intros Hm [Hn _] Ha. pose proof (msg_take _ _ Hm) as Ht. destruct Hm as [Hl Hs _].
  eexists. unfold nl_copy_frame.
  erewrite bind_done; [|by apply alloc_skb_done]. rewrite decide_False by lia.
  erewrite bind_done; [|apply get_skb_done; [lia|apply lookup_insert_eq]].
  unfold put_skb. kstep. cbv zeta.
  destruct (Z.ltb_spec (nlmsg_len m - 100) 0); [lia|].
  rewrite Ht, decide_False by lia. kstep.
  erewrite bind_done.
  2:{ apply put_data_skb_done; [lia|apply lookup_insert_eq|].
      cbn [sk_tail skb_reserve dev_alloc_skb]. rewrite length_drop, fresh_bytes_length.
      rewrite wrap_small by width_lia. lia. }
  unfold mret, K_ret. cbn [sk_room sk_data skb_reserve dev_alloc_skb app].
  cbn. rewrite !insert_insert_eq. change (Z.of_nat 100) with 100. reflexivity.
Qed.

(** *** One encoding's stream *)

(** No structure exists for the encoding yet, and [vmalloc] returns memory of
    the size of one. *)
Definition no_stream s (enc : Z) : Prop :=
  hash_last (k_tx_enc s) (hash_min enc) = 0 /\
  length (tx_retransmission_buffer (o_tx_mem (k_oracle s))) = 500%nat /\
  length (tx_timer (o_tx_mem (k_oracle s))) = 500%nat.

(** The payloads [sent] are what the encoding's stream consists of so far. *)
Definition stream_ok s (enc : Z) (sent : list (list Z)) : Prop :=
  (sent = [] /\ no_stream s enc /\ table_ok tx_key (k_tx_mem s) (k_tx_enc s))
  \/ exists p t, buffer_ok s p t enc sent.

Lemma hash_last_add t b p :
  bucket t b = [] -> hash_last (hash_add t b p) b = p.
Proof.
  intros E. unfold hash_last. rewrite bucket_hash_add, decide_True, E by done. done.
Qed.

Lemma buffer_ok_new s enc :
  no_stream s enc -> table_ok tx_key (k_tx_mem s) (k_tx_enc s) -> 0 < k_next s ->
  o_alloc (k_oracle s) = [] ->
  exists s1, get_or_make_tx enc s = Done (k_next s) s1 /\
    buffer_ok s1 (k_next s) (init_encoding_tx (o_tx_mem (k_oracle s)) enc) enc [] /\
    k_skbs s1 = k_skbs s /\ k_next s1 = k_next s + 1 /\ k_mon s1 = k_mon s /\
    k_oracle s1 = k_oracle s /\ k_air s1 = k_air s /\ k_log s1 = k_log s.
Proof.
  intros (Hnone & Hb & Ht) Htab Hn Ha. eexists.
  split; [by apply get_or_make_tx_new|].
  apply (hash_last_null tx_key (k_tx_mem s)) in Hnone; [|done].
  split; [|done]. split; try done.
  - cbn. by apply hash_last_add.
  - lia.
  - cbn. apply lookup_insert_eq.
  - intros i j [Hi _]. cbn in Hi. lia.
Qed.

Lemma bind_idem {A B} (m : K A) (f : A -> K B) s a s1 :
  m s = Done a s1 -> m s1 = Done a s1 -> (m ≫= f) s = (m ≫= f) s1.
Proof. intros E1 E2. unfold mbind, K_bind. by rewrite E1, E2. Qed.

(** What one more frame of the stream does to the rest of the state. *)
Record sent_one s s' (enc seq rate bw sgi stream : Z) (payload : list Z) : Prop := {
  so_air : k_air s' = k_air s ++
    [xmit_attrib (vmac_ieee80211_hdr ++ data_frame enc seq payload) rate bw sgi stream];
  so_log : k_log s' = k_log s;
  so_oracle : k_oracle s' = k_oracle s;
  so_mon : is_Some (k_mon s');
  so_mem : mem_ok s'
}.

Lemma stream_step s enc sent skb b seqtmp rate bw sgi stream :
  stream_ok s enc sent -> mem_ok s -> calm s -> is_Some (k_mon s) ->
  Z.of_nat (length sent) < 65535 ->
  skb <> 0 -> k_skbs s !! skb = Some b -> 41 <= sk_room b -> fits (skb_len b + 41) ->
  (forall p t, buffer_ok s p t enc sent -> not_kept t (length sent) skb) ->
  exists s', vmac_tx skb enc VMAC_HDR_DATA seqtmp rate bw sgi stream s = Done tt s' /\
    stream_ok s' enc (sent ++ [sk_data b]) /\
    sent_one s s' enc (Z.of_nat (length sent)) rate bw sgi stream (sk_data b).
Proof.
  intros Hst Hmem Hcalm [a Hmon] Hlen Hskb Hb Hroom Hfit Hnk.
  assert (exists s1 p t,
    vmac_tx skb enc VMAC_HDR_DATA seqtmp rate bw sgi stream s =
      vmac_tx skb enc VMAC_HDR_DATA seqtmp rate bw sgi stream s1 /\
    buffer_ok s1 p t enc sent /\ not_kept t (length sent) skb /\
    k_skbs s1 = k_skbs s /\ k_next s <= k_next s1 /\ k_mon s1 = k_mon s /\
    k_oracle s1 = k_oracle s /\ k_air s1 = k_air s /\ k_log s1 = k_log s)
    as (s1 & p & t & -> & Hok & Hnk1 & Es & Hn1 & Em & Eo & Ea & El).
  { destruct Hst as [(-> & Hno & Htab)|(p & t & Hok)].
    - destruct (buffer_ok_new s enc Hno Htab) as (s1 & E1 & Hok & ? & ? & ? & ? & ? & ?);
        [apply Hmem|apply Hcalm|].
      exists s1, (k_next s), (init_encoding_tx (o_tx_mem (k_oracle s)) enc).
      split_and!; try done; try lia.
      + unfold vmac_tx. change (VMAC_HDR_DATA =? VMAC_HDR_INTEREST) with false.
        change (VMAC_HDR_DATA =? VMAC_HDR_DATA) with true. cbv iota.
        unfold vmac_tx_data. rewrite !bind_assoc. eapply bind_idem; [exact E1|].
        pose proof (bo_find _ _ _ _ _ Hok) as Hf. rewrite <- Hf.
        apply get_or_make_tx_found. rewrite Hf. apply (bo_ptr _ _ _ _ _ Hok).
      + intros i [Hi _]. cbn in Hi. lia.
    - exists s, p, t. split_and!; try done. by eapply Hnk. }
  assert (mem_ok s1) as Hmem1.
  { destruct Hmem as [? Hf]. split; [lia|]. intros q Hq. rewrite Es. apply Hf. lia. }
  assert (calm s1) as Hcalm1 by (destruct Hcalm; split; by rewrite Eo).
  eexists. split.
  { eapply vmac_tx_data_sent with (a := a) (b := b) (p := p); try done;
      rewrite ?Es, ?Em; try done.
    - apply (bo_find _ _ _ _ _ Hok).
    - apply (bo_ptr _ _ _ _ _ Hok).
    - apply (bo_entry _ _ _ _ _ Hok).
    - rewrite <- Es. apply Hmem1. lia.
    - apply Hmem1.
    - destruct (displaced_ok _ _ _ _ _ Hok) as [|(i & pl & Hi & Hpl & E)]; [by left|right].
      assert (kept (length sent) i) as Hk by (unfold kept; lia). rewrite E.
      split; [by apply Hnk1|]. rewrite <- Es.
      destruct (bo_copy _ _ _ _ _ Hok i pl Hpl Hk) as (_ & b' & -> & _). done. }
  split.
  - right. exists p. eexists. apply buffer_ok_sent; try done. by rewrite Es, Hb.
  - split; try done.
    + cbn -[data_frame vmac_ieee80211_hdr].
      by rewrite Ea, (bo_seq _ _ _ _ _ Hok).
    + by apply sent_data_mem_ok.
Qed.

(** *** Messages *)

(** A data message for the encoding [enc] with the given payload. *)
Record data_msg (m : nlmsg) (enc : Z) (payload : list Z) : Prop := {
  dm_ok : msg_ok m payload;
  dm_type : nlmsg_type m = VMAC_HDR_DATA;
  dm_enc : le_dec (c_enc (dec_control (nlmsg_data m))) = enc
}.

Lemma mem_ok_new s b :
  mem_ok s -> mem_ok (s <| k_skbs := <[k_next s := b]> (k_skbs s) |> <| k_next := k_next s + 1 |>).
Proof.
  intros [Hn Hf]. split; [cbn; lia|]. intros q Hq. cbn in *.
  rewrite lookup_insert_ne by lia. apply Hf. lia.
Qed.

(** The part of a state that neither the registration of a process nor a new
    buffer changes. *)
Lemma stream_ok_new s enc sent b pid :
  stream_ok s enc sent -> mem_ok s ->
  stream_ok (s <| k_pidt := pid |> <| k_skbs := <[k_next s := b]> (k_skbs s) |>
               <| k_next := k_next s + 1 |>) enc sent.
Proof.
  intros [(? & [? ?] & ?)|(p & t & Hok)] [_ Hf]; [by left|right].
  exists p, t. split; try apply Hok. intros i pl Hi Hk.
  destruct (bo_copy _ _ _ _ _ Hok i pl Hi Hk) as (? & b' & Hb & ?). split; [done|].
  exists b'. split; [|done]. cbn. rewrite lookup_insert_ne; [done|].
  intros E. rewrite <- E, Hf in Hb by lia. done.
Qed.

(** One data message puts one frame on the air. *)
Lemma nl_recv_data s m enc payload sent :
  data_msg m enc payload -> stream_ok s enc sent -> mem_ok s -> calm s -> is_Some (k_mon s) ->
  Z.of_nat (length sent) < 65535 ->
  let c := dec_control (nlmsg_data m) in
  exists s', nl_recv m s = Done tt s' /\ stream_ok s' enc (sent ++ [payload]) /\
    sent_one s s' enc (Z.of_nat (length sent)) (c_rate c) (c_bw c) (c_sgi c) (c_stream c) payload.
Proof.
  intros [Hok Ht He] Hst Hmem Hcalm Hmon Hlen c.
  set (s0 := s <| k_pidt := nlmsg_pid m |>).
  assert (mem_ok s0) as Hmem0 by (by destruct Hmem).
  destruct (nl_copy_frame_done s0 m payload Hok Hmem0) as [tail E]; [apply Hcalm|].
  cbn [k_skbs k_next s0] in E.
  set (b := mk_skb (net_skb_pad + 100) payload tail) in E.
  set (s1 := s0 <| k_skbs := _ |> <| k_next := _ |>) in E.
  pose proof net_skb_pad_pos as Hpad.
  destruct (stream_step s1 enc sent (k_next s) b (u16 stack_addr) (c_rate c) (c_bw c)
    (c_sgi c) (c_stream c)) as (s' & Es & Hst' & Hone); try done.
  - exact (stream_ok_new s enc sent b (nlmsg_pid m) Hst Hmem).
  - exact (mem_ok_new s0 b Hmem0).
  - destruct Hcalm. by split.
  - destruct Hmem. lia.
  - apply lookup_insert_eq.
  - cbn. lia.
  - unfold fits, skb_len, TXDESC_OFFSET, MAX_XMIT_EXTBUF_SZ. cbn [sk_data b].
    destruct Hok. lia.
  - intros p t Hbo i Hi Eq. destruct Hst as [(-> & _)|(p' & t' & Hbo')].
    { unfold kept in Hi. cbn in Hi. lia. }
    assert (t' = t) as ->.
    { pose proof (bo_entry _ _ _ _ _ Hbo) as E1. pose proof (bo_entry _ _ _ _ _ Hbo') as E2.
      rewrite <- (bo_find _ _ _ _ _ Hbo) in E1. rewrite <- (bo_find _ _ _ _ _ Hbo') in E2.
      cbn in E1. congruence. }
    eapply (kept_fresh _ _ _ _ _ _ Hbo'); [|exact Hi|exact Eq]. apply Hmem. lia.
  - exists s'. split_and!; [|done|destruct Hone; by split].
    unfold nl_recv. cbv zeta. rewrite Ht. kstep.
    change (u8 VMAC_HDR_DATA) with VMAC_HDR_DATA.
    change ((VMAC_HDR_DATA =? VMAC_HDR_INTEREST) || (VMAC_HDR_DATA =? VMAC_HDR_DATA)
            || (VMAC_HDR_DATA =? VMAC_HDR_ANOUNCMENT) || (VMAC_HDR_DATA =? VMAC_HDR_INJECTED))
      with true. cbv iota.
    erewrite bind_done; [|exact E]. cbv beta.
    rewrite decide_False by (destruct Hmem; cbn; lia). rewrite He. exact Es.
Qed.

(** The messages of one process, in order. *)
Fixpoint nl_recv_all (ms : list nlmsg) : K unit :=
  match ms with
  | [] => skip
  | m :: ms' => nl_recv m ;; nl_recv_all ms'
  end.

(** The frames the stream [ms] puts on the air, numbered from [n]. *)
Fixpoint stream_air (enc : Z) (n : nat) (ms : list (nlmsg * list Z)) : list tx_frame :=
  match ms with
  | [] => []
  | (m, payload) :: ms' =>
      let c := dec_control (nlmsg_data m) in
      xmit_attrib (vmac_ieee80211_hdr ++ data_frame enc (Z.of_nat n) payload)
        (c_rate c) (c_bw c) (c_sgi c) (c_stream c) :: stream_air enc (S n) ms'
  end.

Lemma nl_recv_stream ms : forall s enc sent,
  Forall (fun mp => data_msg mp.1 enc mp.2) ms ->
  stream_ok s enc sent -> mem_ok s -> calm s -> is_Some (k_mon s) ->
  Z.of_nat (length sent + length ms) <= 65535 ->
  exists s', nl_recv_all ms.*1 s = Done tt s' /\
    k_air s' = k_air s ++ stream_air enc (length sent) ms /\
    stream_ok s' enc (sent ++ ms.*2) /\ k_log s' = k_log s /\ mem_ok s'.
Proof.
  induction ms as [|[m payload] ms IH]; intros s enc sent Hms Hst Hmem Hcalm Hmon Hlen.
  - exists s. cbn. rewrite !app_nil_r. done.
  - inversion Hms as [|? ? Hm Hms']; subst. cbn in Hm, Hlen.
    destruct (nl_recv_data s m enc payload sent) as (s1 & E1 & Hst1 & Hone); try done; [lia|].
    destruct (IH s1 enc (sent ++ [payload])) as (s' & E & Ha & Hst' & Hlog & Hmem'); try done.
    + apply Hone.
    + destruct Hcalm. split; rewrite (so_oracle _ _ _ _ _ _ _ _ _ Hone); done.
    + apply Hone.
    + rewrite length_app. cbn. lia.
    + exists s'. split_and!; try done.
      * cbn. by rewrite (bind_done _ _ _ _ _ E1).
      * rewrite Ha, (so_air _ _ _ _ _ _ _ _ _ Hone), <- app_assoc. cbn. by rewrite length_app, Nat.add_1_r.
      * cbn. by rewrite <- app_assoc in Hst'.
      * by rewrite Hlog, (so_log _ _ _ _ _ _ _ _ _ Hone).
Qed.
End netlink_spec.
