(* ===== verification/RxSpec.v ===== *)
(** * The receive window

    What the window of an entry records of the frames received, over any
    sequence of arrivals; which frames are delivered and which are dropped as
    duplicates; and what a DACK built from the window says about them. *)

From S2P Require Import Prelude Skb VmacDefs Kernel Tables Tx Dack Rx DackSpec.
(** ** The window against the set of frames received *)

(** [window_ok r got]: within [WINDOW] frames of the latest, the slot of a
    frame is 1 when it is in [got] and 0 otherwise. *)
Record window_ok (r : encoding_rx) (got : list Z) : Prop := {
  wo_length : length (rx_window r) = 700%nat;
  wo_latest : is_u16 (rx_latest r);
  wo_slots : forall n, 0 <= n <= rx_latest r -> rx_latest r - WINDOW < n ->
    arr_get (rx_window r) (n mod WINDOW) = if decide (n ∈ got) then 1 else 0;
  wo_got : forall n, n ∈ got -> 0 <= n <= rx_latest r
}.

(** A new entry whose memory has a zero first slot has received nothing. *)
Lemma window_ok_init m enc :
  length (rx_window m) = 700%nat -> arr_get (rx_window m) 0 = 0 ->
  window_ok (init_encoding_rx m enc) [].
Proof.
  intros Hl Hz. split; try done.
  - intros n. cbn. intros Hn _. assert (n = 0) as -> by lia. done.
  - intros n Hn. by apply not_elem_of_nil in Hn.
Qed.

(** The window invariant depends on the window only. *)
Lemma window_ok_same r r' got :
  rx_window r' = rx_window r -> rx_latest r' = rx_latest r ->
  window_ok r got -> window_ok r' got.
Proof. intros E1 E2 []. split; rewrite ?E1, ?E2; done. Qed.

Lemma win_slot_mod x : 0 <= x -> win_slot x = x mod WINDOW.
Proof.
  intros. unfold win_slot. case_test; [done|].
  rewrite Z.mod_small; [done|]. unfold WINDOW in *. lia.
Qed.

Lemma window_slot_range x : 0 <= x mod WINDOW < 700.
Proof. unfold WINDOW. pose proof (Z.mod_pos_bound x 700). lia. Qed.

Lemma window_slot_ne latest n m :
  latest - WINDOW < n <= latest -> latest - WINDOW < m <= latest -> n <> m ->
  n mod WINDOW <> m mod WINDOW.
Proof.
  unfold WINDOW. intros Hn Hm Hne E. apply Hne.
  pose proof (Z.div_mod n 700). pose proof (Z.div_mod m 700). nia.
Qed.

(** One step of the loop that moves the window forward. *)
Lemma window_ok_step r got :
  window_ok r got -> rx_latest r < 65535 ->
  window_ok (r <| rx_latest := u16 (rx_latest r + 1) |>
               <| rx_window := arr_set (rx_window r) (win_slot (u16 (rx_latest r + 1))) 0 |>) got.
Proof.
  intros [Hl Hr Hs Hg] Hlt.
  assert (u16 (rx_latest r + 1) = rx_latest r + 1) as -> by (apply wrap_small; width_lia).
  assert (0 <= rx_latest r) by width_lia. rewrite win_slot_mod by lia.
  pose proof (window_slot_range (rx_latest r + 1)). split; cbn -[Z.modulo].
  - by rewrite length_arr_set.
  - width_lia.
  - intros n Hn Hw. destruct (decide (n = rx_latest r + 1)) as [->|Hne].
    + rewrite arr_get_set_eq by (unfold in_range; lia).
      rewrite decide_False; [done|]. intros Hin. apply Hg in Hin. lia.
    + pose proof (window_slot_range n).
      rewrite arr_get_set_ne; [apply Hs; lia|lia|lia|].
      apply window_slot_ne with (rx_latest r + 1); unfold WINDOW in *; lia.
  - intros n Hn. apply Hg in Hn. lia.
Qed.

Lemma advance_ok fuel seq r got :
  window_ok r got -> is_u16 seq -> rx_latest r <= seq ->
  (Z.to_nat (seq - rx_latest r) <= fuel)%nat ->
  window_ok (advance fuel seq r) got /\ rx_latest (advance fuel seq r) = seq.
Proof.
  revert r; induction fuel as [|f IH]; intros r Hok Hseq Hle Hf; cbn [advance].
  - split; [done|]. lia.
  - destruct (Z.ltb_spec (rx_latest r) seq) as [Hlt|]; [|split; [done|lia]].
    pose proof (wo_latest _ _ Hok).
    assert (u16 (rx_latest r + 1) = rx_latest r + 1) as E by (apply wrap_small; width_lia).
    apply IH; [apply window_ok_step; [done|width_lia]|done|cbn; lia|cbn; lia].
Qed.

(** The duplicate test on a frame within the window. *)
Lemma rx_accept_ok r got seq :
  window_ok r got -> is_u16 seq -> rx_latest r - WINDOW < seq ->
  match rx_accept r seq with
  | Some r1 => (seq ∉ got) /\ window_ok r1 got /\ rx_latest r1 = Z.max (rx_latest r) seq
  | None => seq ∈ got
  end.
Proof.
  intros Hok Hseq Hw. unfold rx_accept.
  assert (0 <= seq) by width_lia.
  destruct (Z.ltb_spec (rx_latest r) seq) as [Hlt|Hge].
  - destruct (advance_ok (Z.to_nat (seq - rx_latest r)) seq r got) as [? ?]; [done|done|lia|lia|].
    split_and!; [|done|lia]. intros Hin. apply (wo_got _ _ Hok) in Hin. lia.
  - rewrite win_slot_mod, (wo_slots _ _ Hok) by lia. case_decide as Hin; cbn [Z.eqb].
    + done.
    + split_and!; [done|done|lia].
Qed.

(** Marking a frame that is within the window. *)
Lemma rx_mark_ok r got seq :
  window_ok r got -> 0 <= seq <= rx_latest r -> rx_latest r - WINDOW < seq ->
  window_ok (rx_mark r seq) (seq :: got) /\ rx_latest (rx_mark r seq) = rx_latest r.
Proof.
  intros [Hl Hr Hs Hg] Hseq Hw. unfold rx_mark.
  replace (_ <=? seq) with true.
  2:{ symmetry. apply Z.leb_le. unfold WINDOW in *. case_tests.
      pose proof (Z.div_mod (rx_latest r) 700). pose proof (Z.mod_pos_bound (rx_latest r) 700).
      nia. }
  split; [|done]. rewrite win_slot_mod by lia.
  pose proof (window_slot_range seq). split; cbn -[Z.modulo].
  - by rewrite length_arr_set.
  - done.
  - intros n Hn Hwn. pose proof (window_slot_range n).
    destruct (decide (n = seq)) as [->|Hne].
    + rewrite arr_get_set_eq by (unfold in_range; lia).
      rewrite decide_True; [done|]. apply list_elem_of_here.
    + rewrite arr_get_set_ne; [|lia|lia|].
      2:{ apply window_slot_ne with (rx_latest r); lia. }
      rewrite Hs by lia. apply decide_ext. rewrite elem_of_cons. tauto.
  - intros n [->|Hn]%elem_of_cons; [lia|]. by apply Hg.
Qed.

(** ** A run of arrivals *)

(** Accepting and marking one frame, as [vmac_rx] does. *)
Definition rx_frame (r : encoding_rx) (seq : Z) : option encoding_rx :=
  r1 ← rx_accept r seq; Some (rx_mark r1 seq).

(** The entry after the arrivals [seqs], and the frames accepted. *)
Fixpoint rx_run (r : encoding_rx) (seqs : list Z) : encoding_rx * list Z :=
  match seqs with
  | [] => (r, [])
  | seq :: seqs' =>
      match rx_frame r seq with
      | Some r' => let '(r'', d) := rx_run r' seqs' in (r'', seq :: d)
      | None => rx_run r seqs'
      end
  end.

(** Every arrival is less than [WINDOW] behind the latest before it. *)
Fixpoint bounded_reorder (latest : Z) (seqs : list Z) : bool :=
  match seqs with
  | [] => true
  | seq :: seqs' =>
      (0 <=? seq) && (seq <? 65536) && (latest - WINDOW <? seq) &&
      bounded_reorder (Z.max latest seq) seqs'
  end.

Lemma rx_run_ok seqs : forall r got,
  window_ok r got -> bounded_reorder (rx_latest r) seqs = true ->
  let '(r', d) := rx_run r seqs in
  NoDup d /\ (forall n, n ∈ d <-> n ∈ seqs /\ n ∉ got) /\ d `sublist_of` seqs /\
  window_ok r' (reverse d ++ got).
Proof.
  induction seqs as [|seq seqs IH]; intros r got Hok Hb; cbn [rx_run].
  - split_and!; [constructor| |done|done].
    intros n. pose proof (not_elem_of_nil n). tauto.
  - cbn in Hb. bool_hyps. assert (is_u16 seq) as Hseq by width_lia.
    pose proof (rx_accept_ok r got seq Hok Hseq ltac:(done)) as Ha.
    unfold rx_frame. destruct (rx_accept r seq) as [r1|]; cbn.
    + destruct Ha as (Hnew & Hok1 & Hl1).
      destruct (rx_mark_ok r1 got seq) as [Hok2 Hl2]; [done|width_lia|unfold WINDOW in *; lia|].
      specialize (IH (rx_mark r1 seq) (seq :: got) Hok2).
      destruct (rx_run (rx_mark r1 seq) seqs) as [r'' d].
      destruct IH as (Hnd & Hin & Hsub & Hw); [by rewrite Hl2, Hl1|]. split_and!.
      * constructor; [|done]. intros Hd. apply Hin in Hd as [_ Hd]. apply Hd, list_elem_of_here.
      * intros n. rewrite !elem_of_cons, Hin, elem_of_cons.
        destruct (decide (n = seq)) as [->|]; tauto.
      * by apply sublist_skip.
      * by rewrite reverse_cons, <- app_assoc.
    + specialize (IH r got Hok). replace (Z.max (rx_latest r) seq) with (rx_latest r) in *.
      2:{ pose proof (wo_got _ _ Hok _ Ha). lia. }
      destruct (rx_run r seqs) as [r' d]. destruct IH as (Hnd & Hin & Hsub & Hw); [done|].
      split_and!; [done| |by apply sublist_cons|done].
      intros n. rewrite Hin, elem_of_cons. destruct (decide (n = seq)) as [->|]; tauto.
Qed.

(** ** Losses and the frames received *)

Lemma window_ok_lost r got n :
  window_ok r got -> 0 <= n <= rx_latest r -> rx_latest r - WINDOW < n ->
  lost r n <-> n ∉ got.
Proof.
  intros Hok Hn Hw. unfold lost, wread. pose proof (window_slot_range n).
  destruct (Z.ltb_spec (n mod WINDOW) 0); [lia|].
  rewrite (wo_slots _ _ Hok) by lia. case_decide; split; done || tauto.
Qed.
