(* ===== verification/RetxSpec.v ===== *)
(** * Retransmission: what a DACK makes the transmitter do

    For any DACK, however malformed, at most [maxretx] frames are put on the
    air; for a DACK whose holes are disjoint, exactly the frames that were
    reported lost, are still in the retransmission buffer and are not being
    paced, in order. *)

From S2P Require Import Prelude Skb VmacDefs Kernel Tables Tx Dack Rx TxSpec.
(** ** The bound for any DACK *)

Section bound.
Context `{Kernel}.
Implicit Types (s : kstate).

(** The frames on the air, and one more for a copy that can still be sent. *)
Definition owed s (c : Z) : nat := if decide (c = 0) then 0 else
  match k_skbs s !! c with Some _ => 1 | None => 0 end.
Definition airs s (c : Z) : nat := (length (k_air s) + owed s c)%nat.

Lemma owed_le s c : (owed s c <= 1)%nat.
Proof. unfold owed. case_decide; [lia|]. destruct (k_skbs s !! c); lia. Qed.

Lemma owed_put s c p b :
  is_Some (k_skbs s !! p) -> owed (s <| k_skbs := <[p := b]> (k_skbs s) |>) c = owed s c.
Proof.
  intros [b' Hb]. unfold owed. cbn. rewrite lookup_insert. case_decide; [done|].
  case_decide; [|done]. subst. by rewrite Hb.
Qed.

Lemma push_skb_airs c src s :
  post (push_skb c src s) (fun _ s' => airs s' c = airs s c) (fun s' => airs s' c = airs s c).
Proof.
  unfold push_skb. apply post_bind, post_get_skb; [done|]. intros b Hc Hb.
  destruct (skb_push b src); [|done]. unfold airs. cbn.
  f_equal. by apply owed_put.
Qed.

Lemma monitor_alloc_airs s :
  post (monitor_alloc_mgtxmitframe s) (fun _ s' => k_skbs s' = k_skbs s /\ k_air s' = k_air s)
    (fun _ => False).
Proof.
  unfold monitor_alloc_mgtxmitframe. apply post_bind.
  generalize 300 at 1. generalize 0. generalize 3%nat. intros n. revert s.
  induction n as [|n IH]; intros s w d; cbn [monitor_alloc_loop]; apply post_bind;
    unfold ask_xmit; destruct (o_xmit (k_oracle s)) as [|[] l]; cbn; try done.
Qed.

Lemma xmit_mo_airs c rate bw sgi stream s :
  post (xmit_mo c rate bw sgi stream s)
    (fun _ s' => (airs s' c <= airs s c)%nat) (fun s' => (airs s' c <= airs s c)%nat).
Proof.
  unfold xmit_mo. apply post_bind, post_get_skb; [done|]. intros b Hc Hb.
  apply post_bind. cbn. destruct (k_mon s) as [a|]; [|cbn; lia].
  apply post_bind. eapply post_mono; [by apply monitor_alloc_airs| |by intros ? []].
  intros [] s' [Es Ea]; cbn.
  2:{ unfold airs, owed. by rewrite Es, Ea. }
  assert (forall s2, k_skbs s2 = k_skbs s' -> k_air s2 = k_air s' ++ [xmit_attrib (sk_data b) rate bw sgi stream] ->
    post (kfree_skb c s2) (fun _ s3 => (airs s3 c <= airs s c)%nat) (fun _ => False)) as Hfree.
  { intros s2 Es2 Ea2. rewrite (kfree_skb_done c b) by (done || congruence). cbn.
    unfold airs, owed. rewrite !decide_False by done. cbn.
    rewrite lookup_delete_eq, Hb, Ea2, Ea, length_app. cbn. lia. }
  apply post_bind. case_decide; cbn; apply post_bind; cbn; apply post_bind;
    (eapply post_mono; [by apply Hfree|done|by intros ? []]).
Qed.

Lemma vmac_send_hack_airs c s :
  post (vmac_send_hack c s)
    (fun _ s' => (airs s' c <= airs s c)%nat) (fun s' => (airs s' c <= airs s c)%nat).
Proof.
  unfold vmac_send_hack, vmac_low_tx. apply post_bind.
  eapply post_mono; [apply push_skb_airs| |cbn; intros; lia].
  intros [] s1 E. cbn in E. apply post_bind.
  eapply post_mono; [apply xmit_mo_airs| |]; cbn; intros; lia.
Qed.

Lemma skb_copy_airs p s :
  post (skb_copy p s) (fun c s' => k_air s' = k_air s) (fun s' => k_air s' = k_air s).
Proof.
  unfold skb_copy. apply post_bind, post_get_skb; [done|]. intros b _ _.
  unfold alloc_skb. apply post_bind. unfold ask_alloc.
  destruct (o_alloc (k_oracle s)) as [|[] l]; done.
Qed.

Lemma dack_frames_bound fuel vmact re seq round base : forall le counter skb2 s,
  0 <= counter <= maxretx -> Z.of_nat (airs s skb2) <= base + counter ->
  post (dack_frames fuel vmact le re seq round counter skb2 s)
    (fun cs s' => 0 <= fst cs <= maxretx /\ Z.of_nat (airs s' (snd cs)) <= base + fst cs)
    (fun s' => Z.of_nat (length (k_air s')) <= base + maxretx).
Proof.
  induction fuel as [|f IH]; intros le counter skb2 s Hc Hs; cbn [dack_frames].
  { done. }
  assert (Z.of_nat (length (k_air s)) <= base + maxretx) as Hcrash.
  { unfold airs in Hs. lia. }
  destruct ((le <? re) && (le <? seq)); [|done].
  apply post_bind, post_get_tx; [done|]. intros t _.
  destruct (retx_due t le seq round); [|by apply IH].
  destruct (Z.leb_spec maxretx counter) as [|Hlt]; [done|].
  apply post_bind.
  apply (post_mono _ (fun _ s1 => k_air s1 = k_air s /\ k_skbs s1 = k_skbs s) _ (fun _ => False));
    [by destruct (le =? WINDOW_TX)| |done].
  intros _ s1 [Ea Es]. apply post_bind.
  apply (post_mono _ (fun cs s2 => 0 <= fst cs <= maxretx /\
           Z.of_nat (airs s2 (snd cs)) <= base + fst cs) _ (fun s2 => k_air s2 = k_air s)).
  - case_decide as Ht; cbn.
    + unfold airs, owed in *. rewrite Es, Ea. lia.
    + apply post_bind. eapply post_mono; [apply skb_copy_airs| |intros; congruence].
      intros c s2 E. cbn. pose proof (owed_le s2 c). unfold airs. rewrite E, Ea.
      unfold airs in Hs. lia.
  - intros [counter' skb2'] s2 [Hc' Hs']. cbn [fst snd] in *. apply post_bind. cbn.
    set (s3 := s2 <| k_tx_mem := _ |>).
    assert (airs s3 skb2' = airs s2 skb2') as E3 by done.
    apply post_bind. case_decide as Hz; cbn.
    + apply IH; [done|]. by rewrite E3.
    + apply post_bind. eapply post_mono; [apply vmac_send_hack_airs| |].
      * intros [] s4 Hle. cbv beta in Hle. rewrite E3 in Hle. apply post_bind, post_get_tx.
        { unfold airs in *. lia. }
        intros t' _. cbn. apply IH; [done|].
        change (Z.of_nat (airs s4 skb2') <= base + counter'). lia.
      * intros s4 Hle. cbv beta in Hle. rewrite E3 in Hle. unfold airs in *. lia.
  - intros s2 ->. done.
Qed.

Lemma peek_skb_airs p k n s :
  post (peek_skb p k n s) (fun _ s' => k_air s' = k_air s /\ k_skbs s' = k_skbs s)
    (fun s' => k_air s' = k_air s /\ k_skbs s' = k_skbs s).
Proof.
  unfold peek_skb. apply post_bind, post_get_skb; [done|]. intros b _ _.
  apply post_bind. by case_decide.
Qed.

#[local] Arguments dack_frames : simpl never.

Lemma dack_holes_bound n skb vmact seq round base : forall counter skb2 s,
  0 <= counter <= maxretx -> Z.of_nat (airs s skb2) <= base + counter ->
  post (dack_holes n skb vmact seq round counter skb2 s)
    (fun _ s' => Z.of_nat (length (k_air s')) <= base + maxretx)
    (fun s' => Z.of_nat (length (k_air s')) <= base + maxretx).
Proof.
  induction n as [|n IH]; intros counter skb2 s Hc Hs; cbn [dack_holes].
  { cbn. unfold airs in Hs. lia. }
  apply post_bind. eapply post_mono; [apply peek_skb_airs| |].
  2:{ cbn. intros s' [-> _]. unfold airs in Hs. lia. }
  cbn. intros l s1 [Ea Es]. apply post_bind.
  eapply post_mono; [apply dack_frames_bound with (base := base); [done|]| |done].
  { unfold airs, owed in *. by rewrite Ea, Es. }
  cbn. intros [counter' skb2'] s2 [Hc' Hs']. cbn [fst snd] in *. apply post_bind.
  unfold pull_skb. apply post_bind, post_get_skb.
  { unfold airs in Hs'. lia. }
  intros b _ Hb. cbn. apply IH; [done|]. unfold airs in *. cbn. by rewrite owed_put.
Qed.

Lemma vmac_rx_dack_bound skb enc s :
  post (vmac_rx_dack skb enc s)
    (fun _ s' => (length (k_air s') <= length (k_air s) + 20)%nat)
    (fun s' => (length (k_air s') <= length (k_air s) + 20)%nat).
Proof.
  unfold vmac_rx_dack, find_rx, find_tx. do 2 (apply post_bind; cbn).
  apply post_bind. eapply post_mono; [apply peek_skb_airs| |].
  2:{ cbn. intros s' [-> _]. lia. }
  cbn. intros l s1 [Ea _]. apply post_bind. unfold pull_skb.
  apply post_bind, post_get_skb; [rewrite Ea; lia|]. intros b _ _. cbn.
  apply post_bind. case_decide; cbn.
  - unfold kfree_skb. case_decide; cbn; [rewrite Ea; lia|]. case_match; cbn; rewrite Ea; lia.
  - apply post_bind, post_get_tx; [cbn; rewrite Ea; lia|]. intros t _. apply post_bind. cbn.
    eapply post_mono; [apply dack_holes_bound with (base := Z.of_nat (length (k_air s)))| |].
    + unfold maxretx. lia.
    + unfold airs, owed. rewrite decide_True by done. cbn. rewrite Ea. lia.
    + intros [] s2 Hb. cbv beta in Hb. unfold kfree_skb. case_decide; [cbn; unfold maxretx in *; lia|].
      case_match; cbn; unfold maxretx in *; lia.
    + cbn. unfold maxretx. intros. lia.
Qed.
End bound.

(** ** What is retransmitted *)

(** The frames of the holes, in the order the DACK lists them. *)
Definition hole_frames (h : vmac_hole) : list Z := seqZ (h_le h) (h_re h - h_le h).
Definition dack_lost (hs : list vmac_hole) : list Z := hs ≫= hole_frames.

(** Frame [n] was sent, is still in the buffer, and its pacing has elapsed. *)
Definition due (t : encoding_tx) (round n : Z) : bool :=
  (n <? tx_seq t) && retx_due t n (tx_seq t) round.

(** The entry after the retransmission of frame [n], and of the frames [ns]. *)
Definition retx_entry (round : Z) (t : encoding_tx) (n : Z) : encoding_tx :=
  t <| tx_timer := arr_set (tx_timer t) (n mod WINDOW_TX) (u8 (round + 6)) |>
    <| tx_framecount := u16 (tx_framecount t + 1) |>.
Definition retx_entries (round : Z) (t : encoding_tx) (ns : list Z) : encoding_tx :=
  foldl (retx_entry round) t ns.

Lemma tx_slot_mod x : 0 <= x -> tx_slot x = x mod WINDOW_TX.
Proof.
  intros. unfold tx_slot. case_test; [done|].
  rewrite Z.mod_small; [done|]. unfold WINDOW_TX in *. lia.
Qed.

Lemma retx_entry_same round t n :
  tx_seq (retx_entry round t n) = tx_seq t /\
  tx_retransmission_buffer (retx_entry round t n) = tx_retransmission_buffer t /\
  length (tx_timer (retx_entry round t n)) = length (tx_timer t).
Proof. cbn -[Z.modulo]. by rewrite length_arr_set. Qed.

Lemma retx_entries_same round t ns :
  tx_seq (retx_entries round t ns) = tx_seq t /\
  tx_retransmission_buffer (retx_entries round t ns) = tx_retransmission_buffer t /\
  length (tx_timer (retx_entries round t ns)) = length (tx_timer t).
Proof.
  revert t; induction ns as [|n ns IH]; intros t; [done|].
  change (retx_entries round t (n :: ns)) with (retx_entries round (retx_entry round t n) ns).
  destruct (IH (retx_entry round t n)) as (-> & -> & ->). apply retx_entry_same.
Qed.

(** A due frame is one of the last 500 sent. *)
Lemma due_kept t round n :
  0 <= n -> due t round n = true -> n < tx_seq t /\ tx_seq t <= n + 500.
Proof.
  intros Hn Hd. unfold due, retx_due, WINDOW_TX in *. bool_hyps.
  split; [done|]. match goal with H : (if _ then _ else _) <= _ |- _ => revert H end.
  case_tests.
Qed.

(** Retransmitting a frame does not change whether another is due. *)
Lemma due_retx_entry t round n m :
  0 <= n -> 0 <= m -> n <> m -> due t round n = true ->
  due (retx_entry round t n) round m = due t round m.
Proof.
  intros Hn Hm Hne Hd. pose proof (due_kept _ _ _ Hn Hd) as [? ?].
  unfold due, retx_due. destruct (retx_entry_same round t n) as (-> & _ & _).
  destruct (Z.ltb_spec m (tx_seq t)) as [Hlt|]; [cbn [andb]|done].
  destruct (Z.leb_spec (if tx_seq t <? WINDOW_TX then 0 else tx_seq t - WINDOW_TX) m) as [Hw|];
    [|by rewrite !andb_false_r].
  rewrite !andb_true_r. cbn -[Z.modulo]. rewrite !tx_slot_mod by done.
  pose proof (slot_range n). pose proof (slot_range m).
  rewrite arr_get_set_ne; [done|lia|lia|]. intros E. apply Hne.
  revert Hw. unfold WINDOW_TX in *.
  pose proof (Z.div_mod n 500). pose proof (Z.div_mod m 500). case_tests; nia.
Qed.

Lemma due_retx_entries round ns : forall t m,
  Forall (fun n => 0 <= n /\ due t round n = true) ns -> NoDup ns -> 0 <= m -> m ∉ ns ->
  due (retx_entries round t ns) round m = due t round m.
Proof.
  induction ns as [|n ns IH]; intros t m Hns Hnd Hm Hin; [done|].
  inversion Hns as [|? ? [Hn Hd] Hns']; subst. inversion Hnd as [|? ? Hnin Hnd']; subst.
  rewrite not_elem_of_cons in Hin. destruct Hin as [Hne Hin].
  change (retx_entries round t (n :: ns)) with (retx_entries round (retx_entry round t n) ns).
  rewrite IH; [apply due_retx_entry; congruence| |done|done|done].
  rewrite list.Forall_forall in *. intros x Hx. destruct (Hns' x Hx). split; [done|].
  rewrite due_retx_entry; [done..| |done]. intros E. apply Hnin. by rewrite E.
Qed.

(** The frames that a DACK makes the transmitter send when [k] more are
    allowed: the first [k] of those that are due. *)
Definition retx_plan (t : encoding_tx) (round k : Z) (ns : list Z) : list Z :=
  take (Z.to_nat k) (filter (fun n => due t round n = true) ns).

Lemma retx_plan_due t round k ns :
  Forall (fun n => 0 <= n) ns ->
  Forall (fun n => 0 <= n /\ due t round n = true) (retx_plan t round k ns).
Proof.
  rewrite !list.Forall_forall. intros Hns n Hn.
  assert (n ∈ filter (fun n => due t round n = true) ns) as Hf.
  { unfold retx_plan in Hn. apply list_elem_of_lookup in Hn as [i Hi].
    apply lookup_take_Some in Hi as [Hi _]. by eapply list_elem_of_lookup_2. }
  apply list_elem_of_filter in Hf as [? ?]. split; [by apply Hns|done].
Qed.

Section functional.
Context `{Kernel}.
Implicit Types (s : kstate).

(** Frame [n] of the stream [sent], as a retransmission puts it on the air. *)
Definition retx_frame (enc : Z) (sent : list (list Z)) (n : Z) : tx_frame :=
  xmit_attrib (vmac_ieee80211_hdr ++ data_frame enc n (default [] (sent !! Z.to_nat n))) 1 0 1 0.

(** What retransmitting the frames [ns] through the entry [t] at [p] does. *)
Record retx_done s s' (p : Z) (t : encoding_tx) (enc : Z) (sent : list (list Z))
    (round : Z) (ns : list Z) : Prop := {
  rd_tx : k_tx_mem s' = <[p := retx_entries round t ns]> (k_tx_mem s);
  rd_skbs : k_skbs s' = k_skbs s;
  rd_air : k_air s' = k_air s ++ map (retx_frame enc sent) ns;
  rd_mon : is_Some (k_mon s');
  rd_oracle : k_oracle s' = k_oracle s;
  rd_log : k_log s' = k_log s;
  rd_next : k_next s <= k_next s';
  rd_enc : k_tx_enc s' = k_tx_enc s;
  rd_rx : k_rx_enc s' = k_rx_enc s /\ k_rx_mem s' = k_rx_mem s;
  rd_user : k_user s' = k_user s
}.

Lemma retx_done_nil s p t enc sent round :
  k_tx_mem s !! p = Some t -> is_Some (k_mon s) -> retx_done s s p t enc sent round [].
Proof.
  intros Ht Hm. split; try done.
  - cbn. by rewrite insert_id.
  - cbn. by rewrite app_nil_r.
Qed.

Lemma retx_done_trans s s1 s2 p t enc sent round ns ms :
  retx_done s s1 p t enc sent round ns ->
  retx_done s1 s2 p (retx_entries round t ns) enc sent round ms ->
  retx_done s s2 p t enc sent round (ns ++ ms).
Proof.
  intros [T1 S1 A1 M1 O1 L1 N1 E1 R1 U1] [T2 S2 A2 M2 O2 L2 N2 E2 R2 U2].
  split; try congruence.
  - rewrite T2, T1, insert_insert_eq. unfold retx_entries. by rewrite foldl_app.
  - rewrite A2, A1, map_app. by rewrite app_assoc.
  - lia.
  - destruct R1, R2. split; congruence.
Qed.

(** Only the timers of the entry and the memory allocator have changed. *)
Lemma buffer_ok_retx s s' p t enc sent round ns :
  buffer_ok s p t enc sent -> retx_done s s' p t enc sent round ns ->
  buffer_ok s' p (retx_entries round t ns) enc sent.
Proof.
  intros Hok Hd. destruct (retx_entries_same round t ns) as (Es & Eb & El).
  split; rewrite ?Es, ?Eb, ?El; try apply Hok.
  - rewrite (rd_enc _ _ _ _ _ _ _ _ Hd). apply Hok.
  - rewrite (rd_tx _ _ _ _ _ _ _ _ Hd). apply lookup_insert_eq.
  - rewrite (rd_skbs _ _ _ _ _ _ _ _ Hd). apply Hok.
Qed.

Lemma mem_ok_retx s s' p t enc sent round ns :
  mem_ok s -> retx_done s s' p t enc sent round ns -> mem_ok s'.
Proof.
  intros [Hn Hf] Hd. pose proof (rd_next _ _ _ _ _ _ _ _ Hd). split; [lia|].
  intros q Hq. rewrite (rd_skbs _ _ _ _ _ _ _ _ Hd). apply Hf. lia.
Qed.

Lemma calm_retx s s' p t enc sent round ns :
  calm s -> retx_done s s' p t enc sent round ns -> calm s'.
Proof. intros [] Hd. split; by rewrite (rd_oracle _ _ _ _ _ _ _ _ Hd). Qed.

(** Every frame sent fits the transmit buffer with its headers. *)
Definition frames_fit (sent : list (list Z)) : Prop :=
  Forall (fun payload => Z.of_nat (length payload) <= 1447) sent.

(** One retransmission: the frame is copied, the copy sent and freed. *)
Lemma dack_frames_send s p t enc sent round f n re counter skb2 :
  buffer_ok s p t enc sent -> mem_ok s -> calm s -> is_Some (k_mon s) -> frames_fit sent ->
  0 <= n < re -> due t round n = true -> n <> 500 -> counter < maxretx ->
  exists s' c,
    dack_frames (S f) p n re (tx_seq t) round counter skb2 s =
      dack_frames f p (u16 (n + 1)) re (tx_seq t) round (counter + 1) c s' /\
    retx_done s s' p t enc sent round [n].
Proof.
  intros Hok [Hn Hf] [Ha _ Hx] [a Hmon] Hfits Hn0 Hdue H500 Hc.
  pose proof (Hf (k_next s) ltac:(lia)) as Hfresh.
  destruct (due_kept t round n) as [Hlt Hold]; [lia|done|].
  rewrite (bo_seq _ _ _ _ _ Hok) in Hlt, Hold.
  destruct (lookup_lt_is_Some_2 sent (Z.to_nat n)) as [payload Hpl]; [lia|].
  destruct (bo_copy _ _ _ _ _ Hok (Z.to_nat n) payload Hpl) as (Hq & b & Hb & Hdata & Hroom).
  { unfold kept. lia. }
  rewrite Z2Nat.id in Hq, Hb, Hdata by lia.
  set (q := arr_get _ _) in *.
  assert (fits (skb_len b + 30)) as Hfit.
  { unfold frames_fit in Hfits. rewrite Forall_lookup in Hfits. specialize (Hfits _ _ Hpl).
    unfold fits, skb_len, TXDESC_OFFSET, MAX_XMIT_EXTBUF_SZ.
    rewrite Hdata, length_data_frame. lia. }
  eexists _, (k_next s). split.
  { cbn [dack_frames]. destruct (Z.ltb_spec n re); [|lia].
    unfold due in Hdue. apply andb_true_iff in Hdue as [-> Hdue]. cbn [andb].
    erewrite bind_done.
    2:{ apply get_tx_done; [apply (bo_ptr _ _ _ _ _ Hok)|apply (bo_entry _ _ _ _ _ Hok)]. }
    rewrite Hdue. destruct (Z.leb_spec maxretx counter); [lia|].
    destruct (Z.eqb_spec n WINDOW_TX) as [E|_]; [by unfold WINDOW_TX in E|]. kstep.
    rewrite decide_False.
    2:{ unfold retx_test. destruct (Z.ltb_spec WINDOW_TX n) as [|Hle]; [done|].
        destruct (Z.eqb_spec n WINDOW_TX) as [E|_]; [by unfold WINDOW_TX in E|].
        subst q. rewrite Z.mod_small in Hq; [done|]. unfold WINDOW_TX in *. lia. }
    rewrite tx_slot_mod by lia. fold q.
    rewrite bind_assoc. erewrite bind_done; [|by eapply skb_copy_done]. kstep.
    unfold put_tx. kstep. cbn [fst snd]. rewrite decide_False by lia.
    rewrite bind_assoc. unfold vmac_send_hack. erewrite bind_done.
    2:{ eapply vmac_low_tx_done; [lia|apply lookup_insert_eq|done|done|done|done]. }
    rewrite bind_assoc. erewrite bind_done.
    2:{ apply get_tx_done; [apply (bo_ptr _ _ _ _ _ Hok)|cbn; apply lookup_insert_eq]. }
    kstep. reflexivity. }
  split; try done.
  - cbn -[Z.modulo]. by rewrite insert_insert_eq.
  - cbn. by rewrite delete_insert_id.
  - cbn -[data_frame vmac_ieee80211_hdr]. unfold retx_frame. by rewrite Hpl, Hdata.
  - cbn. lia.
Qed.

(** The loop over one hole. *)
Lemma dack_frames_done p enc sent round re fuel : forall n counter skb2 s t,
  buffer_ok s p t enc sent -> mem_ok s -> calm s -> is_Some (k_mon s) -> frames_fit sent ->
  0 <= n -> is_u16 re -> 0 <= counter <= maxretx -> (Z.to_nat (re - n) < fuel)%nat ->
  let ns := retx_plan t round (maxretx - counter) (seqZ n (re - n)) in
  500 ∉ ns ->
  exists s' c,
    dack_frames fuel p n re (tx_seq t) round counter skb2 s =
      Done (counter + Z.of_nat (length ns), c) s' /\
    retx_done s s' p t enc sent round ns.
Proof.
  induction fuel as [|f IH]; intros n counter skb2 s t Hok Hmem Hcalm Hmon Hfits Hn Hre Hc Hf
    ns H500; [lia|].
  assert (ns = [] -> exists s' c,
    (mret (counter, skb2) : K (Z * Z)) s = Done (counter + Z.of_nat (length ns), c) s' /\
    retx_done s s' p t enc sent round ns) as Hstop.
  { intros ->. exists s, skb2. cbn. rewrite Z.add_0_r. split; [done|].
    apply retx_done_nil; [apply Hok|done]. }
  cbn [dack_frames]. destruct (Z.ltb_spec n re) as [Hlt|Hge].
  2:{ apply Hstop. unfold ns, retx_plan. rewrite seqZ_nil by lia. apply take_nil. }
  destruct (Z.ltb_spec n (tx_seq t)) as [Hseq|Hseq]; cbn [andb].
  2:{ apply Hstop. unfold ns, retx_plan. rewrite filter_none; [apply take_nil|].
      intros m Hm Hd. apply elem_of_seqZ in Hm. apply due_kept in Hd; lia. }
  assert (u16 (n + 1) = n + 1) as Hn1 by (apply wrap_small; width_lia).
  assert (seqZ n (re - n) = n :: seqZ (n + 1) (re - (n + 1))) as Eseq.
  { rewrite seqZ_cons by lia. f_equal. f_equal; lia. }
  destruct (due t round n) eqn:Hdue.
  - destruct (Z.leb_spec maxretx counter) as [Hfull|Hlim].
    { erewrite bind_done by (apply get_tx_done; apply Hok).
      unfold due in Hdue. apply andb_true_iff in Hdue as [_ ->].
      destruct (Z.leb_spec maxretx counter); [|lia].
      apply Hstop. unfold ns, retx_plan. by replace (Z.to_nat _) with 0%nat by lia. }
    assert (ns = n :: retx_plan (retx_entry round t n) round (maxretx - (counter + 1))
                        (seqZ (n + 1) (re - (n + 1)))) as Ens.
    { unfold ns, retx_plan. rewrite Eseq, filter_cons, decide_True by done.
      replace (Z.to_nat (maxretx - counter)) with (S (Z.to_nat (maxretx - (counter + 1)))) by lia.
      cbn [take]. f_equal. f_equal. apply filter_ext_in. intros m Hm.
      apply elem_of_seqZ in Hm. rewrite due_retx_entry; [done|lia|lia|lia|done]. }
    destruct (dack_frames_send s p t enc sent round f n re counter skb2) as (s1 & c & E & Hd);
      try done; [intros ->; apply H500; rewrite Ens; by left|].
    cbn [dack_frames] in E.
    rewrite (proj2 (Z.ltb_lt n re) Hlt), (proj2 (Z.ltb_lt n (tx_seq t)) Hseq) in E.
    rewrite (proj2 (Z.leb_gt maxretx counter) Hlim) in E. cbn [andb] in E. rewrite E.
    destruct (IH (n + 1) (counter + 1) c s1 (retx_entry round t n)) as (s' & c' & E' & Hd');
      try done; try lia.
    + exact (buffer_ok_retx _ _ _ _ _ _ _ _ Hok Hd).
    + by eapply mem_ok_retx.
    + by eapply calm_retx.
    + apply Hd.
    + intros Hin. apply H500. rewrite Ens. by right.
    + exists s', c'. rewrite Ens. cbn [length]. rewrite Hn1. split.
      * destruct (retx_entry_same round t n) as (Es & _). rewrite Es in E'. rewrite E'.
        f_equal. f_equal. lia.
      * exact (retx_done_trans _ _ _ _ _ _ _ _ [n] _ Hd Hd').
  - erewrite bind_done by (apply get_tx_done; apply Hok).
    assert (retx_due t n (tx_seq t) round = false) as ->.
    { unfold due in Hdue. destruct (Z.ltb_spec n (tx_seq t)); [done|lia]. }
    assert (ns = retx_plan t round (maxretx - counter) (seqZ (n + 1) (re - (n + 1)))) as Ens.
    { unfold ns, retx_plan. rewrite Eseq, filter_cons, decide_False by congruence. done. }
    rewrite Hn1, Ens. apply IH; try done; [lia|lia|]. by rewrite <- Ens.
Qed.

(** *** The whole DACK *)

Lemma peek_skb_done s p b k n :
  p <> 0 -> k_skbs s !! p = Some b -> (k + n <= length (sk_data b))%nat ->
  peek_skb p k n s = Done (take n (drop k (sk_data b))) s.
Proof.
  intros Hp Hb Hl. unfold peek_skb.
  rewrite (bind_done _ _ _ _ _ (get_skb_done _ _ _ Hp Hb)).
  rewrite skb_peek_data by done. rewrite decide_False; [done|].
  rewrite length_take, length_drop. lia.
Qed.

Lemma not_kept_retx_entries round t ns n q :
  not_kept t n q -> not_kept (retx_entries round t ns) n q.
Proof.
  intros Hq i Hi. destruct (retx_entries_same round t ns) as (_ & -> & _). by apply Hq.
Qed.

(** Changing a buffer that the stream does not keep. *)
Lemma buffer_ok_put s p t enc sent q b :
  buffer_ok s p t enc sent -> not_kept t (length sent) q ->
  buffer_ok (s <| k_skbs := <[q := b]> (k_skbs s) |>) p t enc sent.
Proof.
  intros Hok Hq. split; try apply Hok. intros i payload Hi Hk.
  destruct (bo_copy _ _ _ _ _ Hok i payload Hi Hk) as (? & b' & Hb & ?). split; [done|].
  exists b'. split; [|done]. cbn. rewrite lookup_insert_ne; [done|].
  intros E. symmetry in E. by apply (Hq i).
Qed.

Lemma mem_ok_put s q b :
  mem_ok s -> is_Some (k_skbs s !! q) ->
  mem_ok (s <| k_skbs := <[q := b]> (k_skbs s) |>).
Proof.
  intros [Hn Hf] [b' Hb]. split; [done|]. intros x Hx. cbn in *.
  rewrite lookup_insert_ne; [by apply Hf|]. intros ->. by rewrite Hf in Hb.
Qed.

Lemma retx_done_put s s' p t enc sent round ns q b :
  retx_done s s' p t enc sent round ns ->
  retx_done (s <| k_skbs := <[q := b]> (k_skbs s) |>)
    (s' <| k_skbs := <[q := b]> (k_skbs s') |>) p t enc sent round ns.
Proof.
  intros Hd. split; try apply Hd. cbn. by rewrite (rd_skbs _ _ _ _ _ _ _ _ Hd).
Qed.

Lemma retx_plan_app t round k l1 l2 :
  retx_plan t round k (l1 ++ l2) =
  retx_plan t round k l1 ++
  retx_plan t round (k - Z.of_nat (length (retx_plan t round k l1))) l2.
Proof.
  unfold retx_plan. rewrite list.filter_app, take_app. f_equal.
  destruct (decide (length (filter (fun n => due t round n = true) l1) <= Z.to_nat k)%nat).
  - rewrite length_take. f_equal. lia.
  - rewrite length_take. replace (Z.to_nat k - _)%nat with 0%nat by lia.
    by replace (Z.to_nat (k - _)) with 0%nat by lia.
Qed.

Lemma retx_plan_subseteq t round k l n :
  n ∈ retx_plan t round k l -> n ∈ l /\ due t round n = true.
Proof.
  unfold retx_plan. intros [i Hi]%list_elem_of_lookup.
  apply lookup_take_Some in Hi as [Hi _].
  apply list_elem_of_lookup_2, list_elem_of_filter in Hi. tauto.
Qed.

Lemma retx_plan_NoDup t round k l : NoDup l -> NoDup (retx_plan t round k l).
Proof.
  intros Hl. unfold retx_plan. eapply sublist_NoDup; [|apply sublist_take].
  by apply list.NoDup_filter.
Qed.

(** The holes of a DACK as the transmitter can act on them. *)
Definition holes_ok (hs : list vmac_hole) : Prop :=
  Forall (fun h => is_u16 (h_le h) /\ is_u16 (h_re h)) hs /\ NoDup (dack_lost hs).

Lemma holes_ok_cons h hs :
  holes_ok (h :: hs) ->
  is_u16 (h_le h) /\ is_u16 (h_re h) /\ holes_ok hs /\ NoDup (hole_frames h) /\
  (forall n, n ∈ hole_frames h -> n ∉ dack_lost hs).
Proof.
  intros [Hf Hnd]. inversion Hf as [|? ? [? ?] ?]; subst. cbn in Hnd.
  apply list.NoDup_app in Hnd as (? & ? & ?). split_and!; try done.
Qed.

Lemma hole_frames_nonneg h n : is_u16 (h_le h) -> n ∈ hole_frames h -> 0 <= n.
Proof. unfold hole_frames. intros ? Hn%elem_of_seqZ. width_lia. Qed.

Lemma dack_lost_nonneg hs n : holes_ok hs -> n ∈ dack_lost hs -> 0 <= n.
Proof.
  intros [Hf _] Hn. unfold dack_lost in Hn. apply list_elem_of_bind in Hn as (h & Hn & Hh).
  rewrite list.Forall_forall in Hf. eapply hole_frames_nonneg; [|done]. by apply Hf.
Qed.

Definition enc_holes (hs : list vmac_hole) : list Z := hs ≫= enc_vmac_hole.

Lemma dack_holes_done skb p enc sent round hs : forall s t b rest counter skb2,
  buffer_ok s p t enc sent -> mem_ok s -> calm s -> is_Some (k_mon s) -> frames_fit sent ->
  skb <> 0 -> k_skbs s !! skb = Some b -> sk_data b = enc_holes hs ++ rest ->
  not_kept t (length sent) skb -> holes_ok hs -> 0 <= counter <= maxretx ->
  let ns := retx_plan t round (maxretx - counter) (dack_lost hs) in
  500 ∉ ns ->
  exists s' b',
    dack_holes (length hs) skb p (tx_seq t) round counter skb2 s = Done tt s' /\
    retx_done (s <| k_skbs := <[skb := b']> (k_skbs s) |>) s' p t enc sent round ns.
Proof.
  induction hs as [|h hs IH]; intros s t b rest counter skb2 Hok Hmem Hcalm Hmon Hfits
    Hskb Hb Hdata Hnk Hhs Hc ns H500.
  - exists s, b. split; [done|]. rewrite insert_id by done. unfold ns, retx_plan.
    change (dack_lost []) with (@nil Z). rewrite filter_nil, take_nil.
    replace (s <| k_skbs := k_skbs s |>) with s by (by destruct s).
    apply retx_done_nil; [apply Hok|done].
  - destruct (holes_ok_cons _ _ Hhs) as (Hle & Hre & Hhs' & Hnd & Hdisj).
    cbn [enc_holes mbind list_bind] in Hdata. fold (enc_holes hs) in Hdata.
    rewrite <- app_assoc in Hdata.
    assert (dack_lost (h :: hs) = hole_frames h ++ dack_lost hs) as El by done.
    unfold ns in *. rewrite El, retx_plan_app in H500 |- *.
    set (ns1 := retx_plan t round (maxretx - counter) (hole_frames h)) in *.
    assert (length ns1 <= Z.to_nat (maxretx - counter))%nat as Hn1.
    { unfold ns1, retx_plan. rewrite length_take. lia. }
    cbn [length dack_holes].
    erewrite bind_done.
    2:{ apply peek_skb_done; [done|exact Hb|]. rewrite Hdata. sizes. lia. }
    rewrite Hdata, drop_0, take_app_length'.
    2:{ by rewrite length_enc_vmac_hole. }
    rewrite <- (app_nil_r (enc_vmac_hole h)), dec_enc_vmac_hole by done.
    destruct (dack_frames_done p enc sent round (h_re h) (S (Z.to_nat (h_re h))) (h_le h)
      counter skb2 s t) as (s1 & c & E & Hd); try done; try width_lia.
    { intros Hin. apply H500. apply elem_of_app. by left. }
    change (seqZ (h_le h) (h_re h - h_le h)) with (hole_frames h) in E, Hd. fold ns1 in E, Hd.
    erewrite bind_done; [|exact E]. cbn [fst snd].
    assert (k_skbs s1 !! skb = Some b) as Hb1.
    { by rewrite (rd_skbs _ _ _ _ _ _ _ _ Hd). }
    erewrite bind_done; [|by apply pull_skb_done].
    destruct (retx_entries_same round t ns1) as (Es & _).
    set (b1 := skb_pull b sizeof_vmac_hole).
    set (s2 := s1 <| k_skbs := <[skb := b1]> (k_skbs s1) |>).
    assert (not_kept (retx_entries round t ns1) (length sent) skb) as Hnk1.
    { by apply not_kept_retx_entries. }
    assert (retx_plan (retx_entries round t ns1) round
              (maxretx - (counter + Z.of_nat (length ns1))) (dack_lost hs) =
            retx_plan t round (maxretx - counter - Z.of_nat (length ns1)) (dack_lost hs)) as Ens.
    { unfold retx_plan. f_equal; [lia|]. apply filter_ext_in. intros m Hm.
      rewrite due_retx_entries; [done| | |by eapply dack_lost_nonneg|].
      - apply retx_plan_due. rewrite list.Forall_forall. intros x Hx.
        by eapply hole_frames_nonneg.
      - by apply retx_plan_NoDup.
      - intros Hin. apply retx_plan_subseteq in Hin as [Hin _]. by eapply Hdisj. }
    destruct (IH s2 (retx_entries round t ns1) b1 rest (counter + Z.of_nat (length ns1)) c)
      as (s' & b' & E' & Hd'); try done; try lia.
    + apply buffer_ok_put; [|done]. by eapply buffer_ok_retx.
    + apply mem_ok_put; [by eapply mem_ok_retx|by rewrite Hb1].
    + destruct (calm_retx _ _ _ _ _ _ _ _ Hcalm Hd). by split.
    + apply Hd.
    + apply lookup_insert_eq.
    + unfold b1. rewrite skb_pull_data by (rewrite Hdata; sizes; lia).
      rewrite Hdata. apply drop_app_length'. by rewrite length_enc_vmac_hole.
    + rewrite Ens. intros Hin. apply H500. apply elem_of_app. by right.
    + exists s', b'. rewrite <- Es. split; [exact E'|].
      rewrite Ens in Hd'. eapply retx_done_trans; [by apply retx_done_put|].
      unfold s2 in Hd'. cbn [k_skbs] in Hd'.
      replace (_ <| k_skbs := <[skb:=b']> (k_skbs s1) |>) with
        (s2 <| k_skbs := <[skb:=b']> (k_skbs s2) |>); [exact Hd'|].
      unfold s2. cbn. by rewrite insert_insert_eq.
Qed.
End functional.
