(* ===== verification/DackFrame.v ===== *)
(** * The DACK frame: building, scheduling, sending, and what it makes the
      transmitter do

    Functional lemmas for [prepDACK], the timer function [sendDACK] and the
    DACK branch of [vmac_rx]. *)

From S2P Require Import Prelude Skb VmacDefs Kernel Tables Tx Dack Rx TxSpec RetxSpec.
Section dack_frame.
Context `{Kernel}.
Implicit Types (s : kstate).
#[local] Arguments enc_vmac_hdr : simpl never.
#[local] Arguments enc_vmac_DACK : simpl never.
#[local] Arguments enc_vmac_hole : simpl never.
#[local] Arguments release : simpl never.
#[local] Arguments Nat.mul : simpl never.

(** The bytes of a DACK above the 802.11 header. *)
Definition dack_frame (enc round : Z) (hs : list vmac_hole) : list Z :=
  enc_vmac_hdr (mk_vmac_hdr enc VMAC_HDR_DACK) ++
  enc_vmac_DACK (mk_vmac_DACK (Z.of_nat (length hs)) round) ++ enc_holes hs.

Lemma length_enc_holes hs : length (enc_holes hs) = (4 * length hs)%nat.
Proof.
  induction hs as [|h hs IH]; [done|]. cbn [enc_holes mbind list_bind].
  fold (enc_holes hs). rewrite length_app, IH. sizes. cbn [length]. lia.
Qed.

Lemma length_dack_frame enc round hs : length (dack_frame enc round hs) = (13 + 4 * length hs)%nat.
Proof. unfold dack_frame. rewrite !length_app, length_enc_holes. sizes. lia. Qed.

Lemma put_holes_done q hs : forall s b,
  q <> 0 -> k_skbs s !! q = Some b -> (4 * length hs <= length (sk_tail b))%nat ->
  put_holes q hs s = Done tt (s <| k_skbs :=
    <[q := mk_skb (sk_room b) (sk_data b ++ enc_holes hs)
             (drop (4 * length hs) (sk_tail b))]> (k_skbs s) |>).
Proof.
  induction hs as [|h hs IH]; intros s b Hq Hb Ht; cbn [put_holes].
  - cbn [enc_holes mbind list_bind]. rewrite app_nil_r. change (4 * length _)%nat with 0%nat.
    rewrite drop_0. unfold skip, mret, K_ret. f_equal.
    replace (mk_skb _ _ _) with b by (by destruct b). rewrite insert_id by done. by destruct s.
  - cbn [length] in Ht. erewrite bind_done.
    2:{ apply put_data_skb_done; [done|exact Hb|]. sizes. lia. }
    erewrite IH; [|done|apply lookup_insert_eq|].
    2:{ cbn [sk_tail]. rewrite length_drop. sizes. lia. }
    cbn [sk_tail sk_data sk_room enc_holes mbind list_bind]. fold (enc_holes hs).
    rewrite drop_drop, app_assoc, length_enc_vmac_hole. cbn -[enc_vmac_hole Nat.mul].
    rewrite insert_insert_eq.
    replace (4 * S (length hs))%nat with (sizeof_vmac_hole + 4 * length hs)%nat
      by (unfold sizeof_vmac_hole; lia).
    reflexivity.
Qed.

(** The state of an entry to which the DACK [q] of round [round] was given. *)
Definition dack_given (r : encoding_rx) (q round : Z) : encoding_rx :=
  r <| rx_alpha := (if 100 <=? rx_alpha r then 100 else rx_alpha r) |>
    <| rx_DACK := q |>
    <| rx_dac_info := (rx_dac_info r) <| di_dack := q |> <| di_send := 1 |>
                        <| di_dacksheard := 0 |> <| di_round := u8 round |> |>.

(** What building a DACK at round [round] did. *)
Record dack_built s s' (enc round p : Z) (r' : encoding_rx) (sc : scan) (q : Z) : Prop := {
  db_frame : exists b, k_skbs s' !! q = Some b /\
    sk_data b = dack_frame enc round (sc_holes sc) /\ sk_room b = net_skb_pad - 9;
  db_rx : k_rx_mem s' = <[p := r']> (k_rx_mem s);
  db_tables : k_rx_enc s' = k_rx_enc s /\ k_tx_enc s' = k_tx_enc s /\ k_tx_mem s' = k_tx_mem s;
  db_log : k_log s' = k_log s ++ (if sc_oob sc then [OutOfBounds] else []);
  db_io : k_air s' = k_air s /\ k_user s' = k_user s /\ k_mon s' = k_mon s /\
          k_pidt s' = k_pidt s /\ k_nl_sk s' = k_nl_sk s /\ k_jiffies s' = k_jiffies s;
  db_mem : mem_ok s';
  db_calm : calm s';
  db_new : k_next s <= q < k_next s'
}.

(** A live DACK that waits for the timer, or none. *)
Definition pending_ok s (r : encoding_rx) : Prop :=
  di_send (rx_dac_info r) = 1 ->
  di_dack (rx_dac_info r) = 0 \/ is_Some (k_skbs s !! di_dack (rx_dac_info r)).

(** The buffers after the DACK [q] was given to the entry [r]: the one it
    replaces is freed. *)
Definition replaced (r : encoding_rx) : Z :=
  if di_send (rx_dac_info r) =? 1 then di_dack (rx_dac_info r) else 0.

Lemma kfree_skb_release s q :
  q = 0 \/ is_Some (k_skbs s !! q) ->
  kfree_skb q s = Done tt (s <| k_skbs := release q (k_skbs s) |>).
Proof.
  intros Hq. unfold kfree_skb, release. case_decide; [by destruct s|].
  destruct Hq as [|[b ->]]; done.
Qed.

Lemma ask_random_done s : exists rest,
  ask_random s = Done (hd 0 (o_random (k_oracle s)))
    (s <| k_oracle := (k_oracle s) <| o_random := rest |> |>).
Proof.
  unfold ask_random. destruct (o_random (k_oracle s)) as [|x l] eqn:E.
  - exists []. cbn. f_equal. destruct s as [? ? ? ? ? ? ? ? ? ? ? ? ? ? ? o].
    cbn in *. destruct o. cbn in *. by rewrite E.
  - by exists l.
Qed.

(** The entry when the timer is armed for the DACK it was given. *)
Definition dack_armed (r : encoding_rx) (q round now duration : Z) : encoding_rx :=
  if di_send (rx_dac_info r) =? 1 then dack_given r q round
  else (dack_given r q round)
         <| rx_dack_timer := Some (now + if 100 <? duration then 10 else duration) |>.

Lemma free_none_done s rndm :
  (if rndm =? 1 then kfree_skb 0 else skip) s = Done tt s.
Proof. by destruct (rndm =? 1). Qed.

Lemma submit_dack_done s p q r round duration rndm :
  p <> 0 -> k_rx_mem s !! p = Some r -> o_trylock (k_oracle s) = [] -> pending_ok s r ->
  rx_alpha r <= 100 ->
  submit_dack p q round duration rndm s = Done tt
    (s <| k_rx_mem := <[p := dack_armed r q round (k_jiffies s) duration]> (k_rx_mem s) |>
       <| k_skbs := release (replaced r) (k_skbs s) |>).
Proof.
  intros Hp Hr Ht Hpend Halpha. unfold submit_dack.
  erewrite bind_done; [|by apply ask_trylock_done]. cbv iota.
  erewrite bind_done; [|by apply get_rx_done]. cbv zeta.
  assert ((if 100 <=? rx_alpha r then 100 else rx_alpha r) = rx_alpha r) as Ealpha.
  { case_tests. }
  unfold dack_armed, replaced, dack_given, put_rx. rewrite Ealpha.
  destruct (Z.eqb_spec (di_send (rx_dac_info r)) 1) as [E|E].
  - kstep. replace (r <| rx_alpha := rx_alpha r |>) with r by (by destruct r).
    case_decide as Hd.
    + rewrite free_none_done, Hd. unfold release. by rewrite decide_True.
    + destruct (Hpend E) as [|[b Hb]]; [done|]. erewrite kfree_skb_done by done.
      unfold release. by rewrite decide_False.
  - do 2 kstep. rewrite free_none_done.
    replace (r <| rx_alpha := rx_alpha r |>) with r by (by destruct r).
    unfold release. by rewrite decide_True.
Qed.

Lemma prepDACK_done s enc round p r :
  hash_last (k_rx_enc s) (hash_min enc) = p -> p <> 0 -> k_rx_mem s !! p = Some r ->
  mem_ok s -> calm s -> pending_ok s r ->
  let sc := scan_holes r (u16 (round * 5)) in
  let rndm := Z.rem (hd 0 (o_random (k_oracle s))) 2 in
  let alpha := if 100 <=? rx_alpha r then 100 else rx_alpha r in
  let r' := dack_armed r (k_next s) round (k_jiffies s)
              (dack_duration alpha (dack_loss (sc_loss sc)) rndm) in
  exists s', prepDACK enc round s = Done tt s' /\
    dack_built s s' enc round p r' sc (k_next s) /\
    (forall x, x <> k_next s -> x <> replaced r -> k_skbs s' !! x = k_skbs s !! x).
Proof.
  intros Hp Hp0 Hr [Hn Hf] [Ha Hl Hx] Hpend sc rndm alpha r'.
  set (hs := sc_holes sc). set (q := k_next s).
  pose proof net_skb_pad_pos as Hpad. pose proof (Hf q ltac:(lia)) as Hfresh.
  destruct (ask_random_done s) as [rest Hrand]. fold rndm in Hrand.
  set (s0 := s <| k_oracle := _ |>) in Hrand.
  set (s1 := s0 <| k_log := k_log s ++ (if sc_oob sc then [OutOfBounds] else []) |>).
  assert ((if sc_oob sc then log OutOfBounds else skip) s0 = Done tt s1) as Elog.
  { subst s1. destruct (sc_oob sc); [done|]. unfold skip, mret, K_ret. rewrite app_nil_r.
    by destruct s. }
  assert (replaced r <> q) as Hrq.
  { unfold replaced. destruct (Z.eqb_spec (di_send (rx_dac_info r)) 1) as [E|]; [|lia].
    intros Eq. destruct (Hpend E) as [|[b Hb]]; [lia|congruence]. }
  eexists. split.
  { unfold prepDACK, find_rx. kstep. rewrite Hp. erewrite bind_done; [|exact Hrand].
    erewrite bind_done; [|by apply get_rx_done]. cbv zeta. fold sc. fold hs.
    erewrite bind_done; [|exact Elog].
    erewrite bind_done; [|by apply alloc_skb_done]. change (k_next s1) with q.
    rewrite decide_False by lia.
    erewrite bind_done.
    2:{ apply put_data_skb_done; [lia|apply lookup_insert_eq|].
        cbn [sk_tail dev_alloc_skb]. rewrite fresh_bytes_length.
        unfold dack_skbsize, BUFFER_ROOM. sizes. lia. }
    erewrite bind_done.
    2:{ apply put_holes_done; [lia|apply lookup_insert_eq|].
        cbn [sk_tail dev_alloc_skb]. rewrite length_drop, fresh_bytes_length.
        unfold dack_skbsize, BUFFER_ROOM. sizes. lia. }
    erewrite bind_done.
    2:{ apply push_skb_done; [lia|apply lookup_insert_eq|].
        cbn [sk_room dev_alloc_skb]. sizes. lia. }
    unfold put_rx. kstep.
    apply submit_dack_done; [done|cbn; apply lookup_insert_eq|done| |cbn; case_tests].
    intros E. destruct (Hpend E) as [|[b Hb]]; [by left|right]. cbn.
    exists b. rewrite !lookup_insert_ne; [done|..]; intros E'; rewrite <- E' in Hb; congruence. }
  change (replaced (r <| rx_alpha := _ |>)) with (replaced r).
  split; [split|]; try done.
  - eexists. split.
    + cbn -[release]. rewrite lookup_release by done. apply lookup_insert_eq.
    + cbn [sk_data sk_room dev_alloc_skb app]. split; [done|]. done.
  - cbn. rewrite insert_insert_eq. f_equal.
    unfold r', dack_armed, dack_given. cbn. fold alpha.
    replace (if 100 <=? alpha then 100 else alpha) with alpha by (subst alpha; case_tests).
    destruct (di_send (rx_dac_info r) =? 1); done.
  - split; [cbn; lia|]. intros x Hx'. change (q + 1 <= x) in Hx'. cbn.
    destruct (decide (replaced r = x)) as [<-|].
    + unfold release. case_decide; [lia|]. apply lookup_delete_eq.
    + rewrite lookup_release by done. rewrite !lookup_insert_ne by lia. apply Hf. lia.
  - cbn. lia.
  - intros x Hxq Hxr. cbn -[release]. rewrite lookup_release by congruence.
    by rewrite !lookup_insert_ne by congruence.
Qed.

(** The timer function transmits the DACK that waits, once. *)
Lemma sendDACK_done s p r b a :
  p <> 0 -> k_rx_mem s !! p = Some r -> calm s -> k_mon s = Some a ->
  di_send (rx_dac_info r) = 1 -> di_dack (rx_dac_info r) <> 0 ->
  k_skbs s !! di_dack (rx_dac_info r) = Some b -> 30 <= sk_room b -> fits (skb_len b + 30) ->
  sendDACK p s = Done tt
    (aired (s <| k_rx_mem := <[p := r <| rx_dac_info :=
              (rx_dac_info r) <| di_send := 0 |> <| di_dack := 0 |> |>]> (k_rx_mem s) |>)
       (di_dack (rx_dac_info r)) a (vmac_ieee80211_hdr ++ sk_data b) 1 0 1 0).
Proof.
  intros Hp Hr [] Hmon Hsend Hq Hb Hroom Hfit. unfold sendDACK.
  erewrite bind_done; [|by apply get_rx_done].
  erewrite bind_done; [|by apply ask_trylock_done]. cbv iota zeta.
  rewrite Hsend. change (1 =? 1) with true. cbv iota. unfold put_rx. kstep.
  unfold vmac_send_hack. by eapply vmac_low_tx_done.
Qed.

(** The timer function does nothing when no DACK waits. *)
Lemma sendDACK_idle s p r :
  p <> 0 -> k_rx_mem s !! p = Some r -> calm s -> di_send (rx_dac_info r) <> 1 ->
  sendDACK p s = Done tt s.
Proof.
  intros Hp Hr [] Hsend. unfold sendDACK.
  erewrite bind_done; [|by apply get_rx_done].
  erewrite bind_done; [|by apply ask_trylock_done]. cbv iota zeta.
  by destruct (Z.eqb_spec (di_send (rx_dac_info r)) 1).
Qed.

(** *** Receiving a DACK *)

(** What answering a DACK with the retransmission of [ns] did. *)
Record dack_answered s s' (skb p : Z) (t : encoding_tx) (enc : Z) (sent : list (list Z))
    (round : Z) (ns : list Z) : Prop := {
  da_air : k_air s' = k_air s ++ map (retx_frame enc sent) ns;
  da_skbs : k_skbs s' = delete skb (k_skbs s);
  da_log : k_log s' = k_log s;
  da_user : k_user s' = k_user s;
  da_rx : k_rx_enc s' = k_rx_enc s /\ k_rx_mem s' = k_rx_mem s;
  da_buffer : buffer_ok s' p
    (retx_entries round (t <| tx_dackcounter := u16 (tx_dackcounter t + 1) |>) ns) enc sent;
  da_mem : mem_ok s';
  da_calm : calm s';
  da_mon : is_Some (k_mon s')
}.

Lemma mem_ok_delete s q : mem_ok s -> mem_ok (s <| k_skbs := delete q (k_skbs s) |>).
Proof.
  intros [Hn Hf]. split; [done|]. intros x Hx. cbn.
  rewrite lookup_delete. case_decide; [done|]. by apply Hf.
Qed.

Lemma buffer_ok_delete s p t enc sent q :
  buffer_ok s p t enc sent -> not_kept t (length sent) q ->
  buffer_ok (s <| k_skbs := delete q (k_skbs s) |>) p t enc sent.
Proof.
  intros Hok Hq. split; try apply Hok. intros i payload Hi Hk.
  destruct (bo_copy _ _ _ _ _ Hok i payload Hi Hk) as (? & b' & Hb & ?). split; [done|].
  exists b'. split; [|done]. cbn. rewrite lookup_delete_ne; [done|].
  intros E. symmetry in E. by apply (Hq i).
Qed.

Lemma buffer_ok_entry s p t t' enc sent :
  buffer_ok s p t enc sent -> tx_seq t' = tx_seq t -> tx_timer t' = tx_timer t ->
  tx_retransmission_buffer t' = tx_retransmission_buffer t ->
  buffer_ok (s <| k_tx_mem := <[p := t']> (k_tx_mem s) |>) p t' enc sent.
Proof.
  intros Hok Es Et Eb. split; rewrite ?Es, ?Et, ?Eb; try apply Hok.
  cbn. apply lookup_insert_eq.
Qed.

Lemma vmac_rx_dack_done s skb b p t enc sent round hs rest :
  buffer_ok s p t enc sent -> mem_ok s -> calm s -> is_Some (k_mon s) -> frames_fit sent ->
  skb <> 0 -> k_skbs s !! skb = Some b -> not_kept t (length sent) skb ->
  sk_data b = dack_frame enc round hs ++ rest ->
  is_u64 enc -> is_u16 round -> Z.of_nat (length hs) <= 40 -> holes_ok hs ->
  let ns := retx_plan t round maxretx (dack_lost hs) in
  500 ∉ ns ->
  exists s', vmac_rx skb s = Done tt s' /\ dack_answered s s' skb p t enc sent round ns.
Proof.
  intros Hok Hmem Hcalm Hmon Hfits Hskb Hb Hnk Hdata Henc Hround Hlen Hhs ns H500.
  unfold dack_frame in Hdata. rewrite <- !app_assoc in Hdata.
  set (t0 := t <| tx_dackcounter := u16 (tx_dackcounter t + 1) |>).
  set (b1 := skb_pull b sizeof_vmac_hdr). set (b2 := skb_pull b1 sizeof_vmac_DACK).
  assert (sk_data b1 = enc_vmac_DACK (mk_vmac_DACK (Z.of_nat (length hs)) round) ++
            enc_holes hs ++ rest) as Hb1.
  { unfold b1. rewrite skb_pull_data by (rewrite Hdata; sizes; lia).
    rewrite Hdata. apply drop_app_length'. by rewrite length_enc_vmac_hdr. }
  assert (sk_data b2 = enc_holes hs ++ rest) as Hb2.
  { unfold b2. rewrite skb_pull_data by (rewrite Hb1; sizes; lia).
    rewrite Hb1. apply drop_app_length'. by rewrite length_enc_vmac_DACK. }
  set (s1 := s <| k_skbs := <[skb := b1]> (k_skbs s) |>).
  set (s2 := s1 <| k_skbs := <[skb := b2]> (k_skbs s1) |>).
  assert (buffer_ok s2 p t enc sent) as Hok2 by (do 2 (apply buffer_ok_put; [|done]); done).
  assert (mem_ok s2) as Hmem2.
  { apply mem_ok_put; [|eexists; apply lookup_insert_eq]. apply mem_ok_put; [done|by rewrite Hb]. }
  set (s3 := s2 <| k_tx_mem := <[p := t0]> (k_tx_mem s2) |>).
  destruct (dack_holes_done skb p enc sent round hs s3 t0 b2 rest 0 0)
    as (s4 & b3 & E & Hd); try done.
  { by apply (buffer_ok_entry _ _ t). }
  { by destruct Hmem2. }
  { by destruct Hcalm. }
  { apply lookup_insert_eq. }
  change (retx_plan t0 round (maxretx - 0) (dack_lost hs)) with ns in Hd.
  assert (k_skbs s4 !! skb = Some b3) as Hb4.
  { rewrite (rd_skbs _ _ _ _ _ _ _ _ Hd). apply lookup_insert_eq. }
  exists (s4 <| k_skbs := delete skb (k_skbs s4) |>). split.
  - unfold vmac_rx.
    erewrite bind_done.
    2:{ apply peek_skb_done; [done|exact Hb|]. rewrite Hdata. sizes. lia. }
    rewrite Hdata, drop_0, take_app_length' by (by rewrite length_enc_vmac_hdr).
    rewrite <- (app_nil_r (enc_vmac_hdr _)), dec_enc_vmac_hdr by done. cbv zeta.
    cbn [vh_type vh_enc].
    erewrite bind_done; [|by apply pull_skb_done]. fold b1. fold s1.
    change (VMAC_HDR_DACK =? VMAC_HDR_INTEREST) with false.
    change (VMAC_HDR_DACK =? VMAC_HDR_DATA) with false.
    change (VMAC_HDR_DACK =? VMAC_HDR_DACK) with true. cbv iota.
    unfold vmac_rx_dack, find_rx, find_tx. do 2 kstep.
    change (k_tx_enc s1) with (k_tx_enc s). rewrite (bo_find _ _ _ _ _ Hok).
    erewrite bind_done.
    2:{ apply peek_skb_done; [done|apply lookup_insert_eq|]. rewrite Hb1. sizes. lia. }
    rewrite Hb1, drop_0, take_app_length' by (by rewrite length_enc_vmac_DACK).
    rewrite <- (app_nil_r (enc_vmac_DACK _)), dec_enc_vmac_DACK by (cbn; done || width_lia).
    cbv zeta. cbn [vD_holes vD_round].
    erewrite bind_done; [|by apply pull_skb_done; [|apply lookup_insert_eq]]. fold b2. fold s2.
    rewrite decide_False by apply (bo_ptr _ _ _ _ _ Hok).
    rewrite bind_assoc. erewrite bind_done.
    2:{ apply get_tx_done; [apply (bo_ptr _ _ _ _ _ Hok)|apply (bo_entry _ _ _ _ _ Hok2)]. }
    rewrite bind_assoc. unfold put_tx. kstep. fold t0. fold s3. rewrite Nat2Z.id.
    erewrite bind_done; [|exact E]. by eapply kfree_skb_done.
  - assert (not_kept (retx_entries round t0 ns) (length sent) skb) as Hnk'.
    { by apply not_kept_retx_entries. }
    split; cbn.
    + by rewrite (rd_air _ _ _ _ _ _ _ _ Hd).
    + rewrite (rd_skbs _ _ _ _ _ _ _ _ Hd). cbn. by rewrite !delete_insert_eq.
    + by rewrite (rd_log _ _ _ _ _ _ _ _ Hd).
    + by rewrite (rd_user _ _ _ _ _ _ _ _ Hd).
    + by destruct (rd_rx _ _ _ _ _ _ _ _ Hd) as [-> ->].
    + apply buffer_ok_delete; [|done]. eapply buffer_ok_retx; [|exact Hd].
      apply buffer_ok_put; [|done]. by apply (buffer_ok_entry _ _ t).
    + apply mem_ok_delete. eapply mem_ok_retx; [|exact Hd].
      apply mem_ok_put; [by destruct Hmem2|eexists; apply lookup_insert_eq].
    + destruct Hcalm. split; cbn; by rewrite (rd_oracle _ _ _ _ _ _ _ _ Hd).
    + apply Hd.
Qed.
End dack_frame.
