(* ===== verification/DeliverySpec.v ===== *)
(** * Delivery of received data frames

    From a data frame in a socket buffer to the message that the registered
    process gets: the handler on each branch, and a whole run of arrivals. *)

From S2P Require Import Prelude Skb VmacDefs Kernel Tables Tx Dack Rx DackSpec TxSpec RxSpec RetxSpec DackFrame.
Section delivery.
Context `{Kernel}.
Implicit Types (s : kstate).
#[local] Arguments enc_vmac_hdr : simpl never.
#[local] Arguments enc_vmac_data : simpl never.
#[local] Arguments enc_control : simpl never.
#[local] Arguments release : simpl never.

(** ** [nl_send] *)

(** A process is registered and the socket exists. *)
Definition user_ok s : Prop := k_pidt s <> -1 /\ k_nl_sk s = true.

(** The message for a frame whose bytes, check sequence included, are
    [data]. *)
Definition user_msg (pid enc type seq : Z) (data : list Z) : nl_msg :=
  mk_nl_msg pid (nl_send_len (Z.of_nat (length data)))
    (enc_control (nl_control enc type seq) ++ take (length data - 4) data).

Lemma nl_send_done s skb b enc type seq :
  mem_ok s -> calm s -> user_ok s -> skb <> 0 -> k_skbs s !! skb = Some b -> 4 <= skb_len b ->
  nl_send skb enc type seq s = Done tt
    (s <| k_skbs := delete skb (k_skbs s) |> <| k_next := k_next s + 1 |>
       <| k_user := k_user s ++ [user_msg (k_pidt s) enc type seq (sk_data b)] |>
       <| k_log := k_log s ++ [DoubleFree] |>).
Proof.
  intros [Hn Hf] [Ha _ _] [Hpid Hsk] Hskb Hb Hlen.
  pose proof (Hf (k_next s) ltac:(lia)) as Hfresh.
  assert (skb <> k_next s) as Hne by congruence.
  unfold nl_send. erewrite bind_done; [|by apply get_skb_done]. kstep.
  rewrite decide_False by done.
  erewrite bind_done; [|by apply alloc_skb_done]. rewrite decide_False by lia.
  destruct (Z.ltb_spec (skb_len b) 4); [lia|].
  unfold nlmsg_unicast. rewrite bind_assoc. kstep. cbn [k_nl_sk set]. cbn. rewrite Hsk.
  kstep. cbn. rewrite delete_insert_id by done.
  erewrite bind_done; [|by eapply kfree_skb_done].
  unfold kfree_skb. rewrite decide_False by lia. cbn. rewrite lookup_delete_ne by done.
  by rewrite Hfresh.
Qed.

(** Without a registered process the frame is freed and an uninitialised
    pointer is passed to [nlmsg_free]. *)
Lemma nl_send_unregistered s skb b enc type seq :
  k_pidt s = -1 -> skb <> 0 -> k_skbs s !! skb = Some b ->
  nl_send skb enc type seq s = Done tt
    (s <| k_skbs := delete skb (k_skbs s) |> <| k_log := k_log s ++ [UninitFree] |>).
Proof.
  intros Hpid Hskb Hb. unfold nl_send. erewrite bind_done; [|by apply get_skb_done]. kstep.
  rewrite decide_True by done. erewrite bind_done; [|by eapply kfree_skb_done]. done.
Qed.

(** ** The state of a receiving encoding *)

(** The entry [r] at [p] of [enc] has received the frames [got]. *)
Record rx_ok s (p : Z) (r : encoding_rx) (enc : Z) (got : list Z) : Prop := {
  ro_find : hash_last (k_rx_enc s) (hash_min enc) = p;
  ro_ptr : p <> 0;
  ro_entry : k_rx_mem s !! p = Some r;
  ro_window : window_ok r got;
  ro_lastin : rx_firstFrame r = 0 \/ rx_lastin r ∈ got;
  ro_pending : pending_ok s r;
  ro_mem : mem_ok s;
  ro_calm : calm s;
  ro_user : user_ok s
}.

(** The measurement changes neither the window nor the DACK state, and never
    divides by zero for a frame that was not received before. *)
Lemma rx_measure_ok r seq now :
  is_u16 seq -> rx_firstFrame r = 0 \/ is_u16 (rx_lastin r) /\ rx_lastin r <> seq ->
  exists r', rx_measure r seq now = Some r' /\
    rx_window r' = rx_window r /\ rx_latest r' = rx_latest r /\
    rx_dac_info r' = rx_dac_info r.
Proof.
  intros Hseq Hne. unfold rx_measure.
  destruct (Z.eqb_spec (rx_firstFrame r) 0) as [|Hff]; [by eexists|].
  destruct (Z.eqb_spec (rx_SecondFrame r) 0) as [|]; [|by eexists].
  destruct (Z.eqb_spec (u64 (seq - rx_lastin r)) 0) as [E|]; [|by eexists].
  exfalso. destruct Hne as [|[Hl Hne]]; [done|]. unfold wrap in E.
  apply Z.mod_divide in E as [k Hk]; [|lia]. width_lia.
Qed.

(** A data frame as it arrives: the bytes above the 802.11 header. *)
Definition data_arrival (enc seq : Z) (data : list Z) : list Z := data_frame enc seq data.

(** [vmac_rx] up to the branch for data frames. *)
Lemma vmac_rx_data_dispatch s skb b enc seq data :
  skb <> 0 -> k_skbs s !! skb = Some b -> is_u64 enc ->
  sk_data b = data_arrival enc seq data ->
  vmac_rx skb s = vmac_rx_data skb enc
    (s <| k_skbs := <[skb := skb_pull b sizeof_vmac_hdr]> (k_skbs s) |>).
Proof.
  intros Hskb Hb Henc Hdata. unfold data_arrival, data_frame in Hdata. unfold vmac_rx.
  erewrite bind_done.
  2:{ apply peek_skb_done; [done|exact Hb|]. rewrite Hdata. sizes. lia. }
  rewrite Hdata, drop_0, take_app_length' by (by rewrite length_enc_vmac_hdr).
  rewrite <- (app_nil_r (enc_vmac_hdr _)), dec_enc_vmac_hdr by done. cbv zeta.
  cbn [vh_type vh_enc].
  erewrite bind_done; [|by apply pull_skb_done]. done.
Qed.

(** A duplicate, within the window, is freed and changes nothing else but
    the expiry of the entry. *)
Lemma vmac_rx_data_dup s skb b p r enc got seq data :
  rx_ok s p r enc got -> skb <> 0 -> k_skbs s !! skb = Some b -> is_u16 seq ->
  sk_data b = enc_vmac_data (mk_vmac_data seq) ++ data ->
  rx_latest r - WINDOW < seq -> seq ∈ got ->
  vmac_rx_data skb enc s = Done tt
    (s <| k_rx_mem := <[p := r <| rx_enc_timeout :=
            Some (k_jiffies s + msecs_to_jiffies 30000) |> ]> (k_rx_mem s) |>
       <| k_skbs := delete skb (k_skbs s) |>).
Proof.
  intros Hok Hskb Hb Hseq Hdata Hw Hin. unfold vmac_rx_data.
  erewrite bind_done.
  2:{ apply peek_skb_done; [done|exact Hb|]. rewrite Hdata. sizes. lia. }
  rewrite Hdata, drop_0, take_app_length' by (by rewrite length_enc_vmac_data).
  rewrite <- (app_nil_r (enc_vmac_data _)), dec_enc_vmac_data by done. cbv zeta.
  cbn [vd_seq]. unfold find_rx. kstep. rewrite (ro_find _ _ _ _ _ Hok).
  rewrite decide_False by apply (ro_ptr _ _ _ _ _ Hok).
  erewrite bind_done.
  2:{ apply mod_enc_timeout_rx_done; [apply (ro_ptr _ _ _ _ _ Hok)|apply (ro_entry _ _ _ _ _ Hok)]. }
  erewrite bind_done.
  2:{ apply get_rx_done; [apply (ro_ptr _ _ _ _ _ Hok)|apply lookup_insert_eq]. }
  assert (window_ok (r <| rx_enc_timeout := Some (k_jiffies s + msecs_to_jiffies 30000) |>) got)
    as Hwin by (by destruct (ro_window _ _ _ _ _ Hok)).
  pose proof (rx_accept_ok _ _ seq Hwin Hseq Hw) as Ha.
  destruct (rx_accept _ seq); [by destruct Ha|]. by rewrite (kfree_skb_done skb b).
Qed.

(** The DACK request of an accepted frame leaves the entry in order. *)
Definition dack_request (vmacr enc seq : Z) (due : option Z) : K unit :=
  match due with
  | Some rd =>
      r3 ← get_rx vmacr;
      put_rx vmacr (r3 <| rx_round := rd |>) ;;
      request_DACK enc rd ;;
      r4 ← get_rx vmacr;
      put_rx vmacr (r4 <| rx_round := seq |>)
  | None => skip
  end.

(** Changing an entry without touching what [rx_ok] is about. *)
Lemma rx_ok_update s p r r' enc got :
  rx_ok s p r enc got -> rx_window r' = rx_window r -> rx_latest r' = rx_latest r ->
  rx_dac_info r' = rx_dac_info r ->
  (rx_firstFrame r' = 0 \/ rx_lastin r' ∈ got) ->
  rx_ok (s <| k_rx_mem := <[p := r']> (k_rx_mem s) |>) p r' enc got.
Proof.
  intros Hok E1 E2 E3 Hl. split; try apply Hok; try done.
  - cbn. apply lookup_insert_eq.
  - by eapply window_ok_same, Hok.
  - unfold pending_ok. rewrite E3. apply Hok.
  - by destruct (ro_mem _ _ _ _ _ Hok).
  - by destruct (ro_calm _ _ _ _ _ Hok).
Qed.

Lemma dack_armed_same r q round now dur :
  rx_window (dack_armed r q round now dur) = rx_window r /\
  rx_latest (dack_armed r q round now dur) = rx_latest r /\
  rx_firstFrame (dack_armed r q round now dur) = rx_firstFrame r /\
  rx_lastin (dack_armed r q round now dur) = rx_lastin r /\
  di_dack (rx_dac_info (dack_armed r q round now dur)) = q.
Proof. unfold dack_armed. by destruct (_ =? 1). Qed.

(** [skb] is not the DACK that waits for the timer. *)
Definition not_pending (r : encoding_rx) (skb : Z) : Prop :=
  di_send (rx_dac_info r) = 1 -> di_dack (rx_dac_info r) <> skb.

(** What a step changed, from the point of view of the frame in [skb]. *)
Record step_ok s s' (p : Z) (r r' : encoding_rx) (enc : Z) (got : list Z) (skb : Z) (b : Skb.skb)
  : Prop := {
  st_rx : rx_ok s' p r' enc got;
  st_latest : rx_latest r' = rx_latest r;
  st_skb : k_skbs s' !! skb = Some b;
  st_dack : not_pending r' skb;
  st_user : k_user s' = k_user s;
  st_pid : k_pidt s' = k_pidt s;
  st_air : k_air s' = k_air s
}.

Lemma prepDACK_step s p r enc got round skb b :
  rx_ok s p r enc got -> k_skbs s !! skb = Some b -> skb <> 0 ->
  not_pending r skb ->
  exists s' r', request_DACK enc round s = Done tt s' /\
    step_ok s s' p r r' enc got skb b.
Proof.
  intros Hok Hb Hskb Hd.
  destruct (prepDACK_done s enc round p r) as (s' & E & Hbuilt & Hsame); try apply Hok.
  set (r' := dack_armed _ _ _ _ _) in *. exists s', r'. split; [exact E|].
  destruct (dack_armed_same r (k_next s) round (k_jiffies s)
    (dack_duration (if 100 <=? rx_alpha r then 100 else rx_alpha r)
       (dack_loss (sc_loss (scan_holes r (u16 (round * 5)))))
       (Z.rem (hd 0 (o_random (k_oracle s))) 2))) as (E1 & E2 & E3 & E4 & E5).
  fold r' in E1, E2, E3, E4, E5.
  assert (skb <> k_next s) as Hne.
  { intros ->. rewrite (mem_fresh _ (ro_mem _ _ _ _ _ Hok)) in Hb by lia. done. }
  destruct (db_tables _ _ _ _ _ _ _ _ Hbuilt) as (T1 & _ & _).
  destruct (db_io _ _ _ _ _ _ _ _ Hbuilt) as (I1 & I2 & _ & I4 & I5 & _).
  split; try done; try congruence.
  - split; try apply Hbuilt; try apply Hok.
    + rewrite T1. apply Hok.
    + rewrite (db_rx _ _ _ _ _ _ _ _ Hbuilt). apply lookup_insert_eq.
    + eapply window_ok_same; [exact E1|exact E2|apply Hok].
    + rewrite E3, E4. apply Hok.
    + intros _. right. rewrite E5.
      destruct (db_frame _ _ _ _ _ _ _ _ Hbuilt) as (b' & Hb' & _). by rewrite Hb'.
    + unfold user_ok. rewrite I4, I5. apply Hok.
  - rewrite Hsame; [done|done|]. unfold replaced.
    destruct (Z.eqb_spec (di_send (rx_dac_info r)) 1) as [Es|]; [|done]. intros Eq.
    by apply (Hd Es).
Qed.

Lemma dack_request_done s p r enc got seq due skb b :
  rx_ok s p r enc got -> k_skbs s !! skb = Some b -> skb <> 0 ->
  not_pending r skb ->
  exists s' r', dack_request p enc seq due s = Done tt s' /\
    step_ok s s' p r r' enc got skb b.
Proof.
  intros Hok Hb Hskb Hd. destruct due as [rd|].
  2:{ exists s, r. by split. }
  unfold dack_request, put_rx.
  erewrite bind_done; [|apply get_rx_done; apply Hok]. kstep.
  set (s1 := s <| k_rx_mem := _ |>).
  assert (rx_ok s1 p (r <| rx_round := rd |>) enc got) as Hok1.
  { by apply (rx_ok_update s p r); try apply Hok. }
  destruct (prepDACK_step s1 p (r <| rx_round := rd |>) enc got rd skb b)
    as (s2 & r2 & E & Hstep); [done..|].
  erewrite bind_done; [|exact E].
  erewrite bind_done; [|apply get_rx_done; apply Hstep].
  eexists _, (r2 <| rx_round := seq |>). split; [reflexivity|].
  destruct Hstep as [Hrx ? ? ? ? ? ?]. split; try done.
  by apply (rx_ok_update s2 p r2); try apply Hrx.
Qed.
(** What the delivery of the frame [seq] with the bytes [data] did. *)
Record delivered s s' (p enc seq : Z) (data : list Z) (got : list Z) (latest : Z) : Prop := {
  dl_user : k_user s' = k_user s ++ [user_msg (k_pidt s) enc VMAC_HDR_DATA seq data];
  dl_pid : k_pidt s' = k_pidt s;
  dl_air : k_air s' = k_air s;
  dl_rx : exists r', rx_ok s' p r' enc (seq :: got) /\ rx_latest r' = latest
}.

Lemma advance_same fuel seq r :
  rx_dac_info (advance fuel seq r) = rx_dac_info r /\
  rx_firstFrame (advance fuel seq r) = rx_firstFrame r /\
  rx_lastin (advance fuel seq r) = rx_lastin r.
Proof.
  revert r; induction fuel as [|f IH]; intros r; cbn [advance]; [done|].
  destruct (rx_latest r <? seq); [|done]. cbv zeta.
  match goal with |- context [advance f seq ?r'] => destruct (IH r') as (-> & -> & ->) end. done.
Qed.

Lemma rx_accept_same r seq r1 :
  rx_accept r seq = Some r1 ->
  rx_dac_info r1 = rx_dac_info r /\ rx_firstFrame r1 = rx_firstFrame r /\
  rx_lastin r1 = rx_lastin r.
Proof.
  unfold rx_accept. case_match; [|case_match]; intros [= <-]; [apply advance_same|done].
Qed.

Lemma rx_mark_same r seq :
  rx_dac_info (rx_mark r seq) = rx_dac_info r /\
  rx_firstFrame (rx_mark r seq) = rx_firstFrame r /\
  rx_lastin (rx_mark r seq) = rx_lastin r.
Proof. unfold rx_mark. by destruct (_ <=? seq). Qed.

(** A frame that was not received before, within the window, is delivered. *)
Lemma vmac_rx_data_new s skb b p r enc got seq data :
  rx_ok s p r enc got -> skb <> 0 -> k_skbs s !! skb = Some b -> is_u16 seq ->
  sk_data b = enc_vmac_data (mk_vmac_data seq) ++ data -> (4 <= length data)%nat ->
  rx_latest r - WINDOW < seq -> seq ∉ got -> not_pending r skb ->
  exists s', vmac_rx_data skb enc s = Done tt s' /\
    delivered s s' p enc seq data got (Z.max (rx_latest r) seq).
Proof.
  intros Hok Hskb Hb Hseq Hdata Hlen Hw Hin Hd. unfold vmac_rx_data.
  set (r0 := r <| rx_enc_timeout := Some (k_jiffies s + msecs_to_jiffies 30000) |>).
  assert (window_ok r0 got) as Hwin by (by eapply window_ok_same, Hok).
  pose proof (rx_accept_ok _ _ seq Hwin Hseq Hw) as Ha.
  destruct (rx_accept r0 seq) as [r1|] eqn:Eacc; [|done].
  destruct Ha as (_ & Hw1 & Hl1). change (rx_latest r0) with (rx_latest r) in Hl1.
  destruct (rx_accept_same _ _ _ Eacc) as (A1 & A2 & A3).
  destruct (rx_mark_ok r1 got seq) as [Hw2 Hl2]; [done|width_lia|unfold WINDOW in *; lia|].
  destruct (rx_mark_same r1 seq) as (M1 & M2 & M3).
  destruct (rx_measure_ok (rx_mark r1 seq) seq (k_jiffies s)) as (r2 & Em & N1 & N2 & N3);
    [done| |].
  { rewrite M2, A2, M3, A3. destruct (ro_lastin _ _ _ _ _ Hok) as [|Hl]; [by left|right].
    split; [|by intros E; rewrite <- E in Hin].
    pose proof (wo_got _ _ (ro_window _ _ _ _ _ Hok) _ Hl).
    pose proof (wo_latest _ _ (ro_window _ _ _ _ _ Hok)). cbn in *. width_lia. }
  set (s1 := s <| k_rx_mem := <[p := r2 <| rx_lastin := seq |> ]> (k_rx_mem s) |>).
  assert (rx_ok s1 p (r2 <| rx_lastin := seq |>) enc (seq :: got)) as Hok1.
  { split; try apply Hok; try done.
    - cbn. apply lookup_insert_eq.
    - by eapply window_ok_same, Hw2.
    - right. by left.
    - unfold pending_ok. cbn. rewrite N3, M1, A1. apply Hok.
    - by destruct (ro_mem _ _ _ _ _ Hok).
    - by destruct (ro_calm _ _ _ _ _ Hok). }
  destruct (dack_request_done s1 p (r2 <| rx_lastin := seq |>) enc (seq :: got) seq
    (rx_round_due r2 seq) skb b) as (s2 & r3 & E & Hstep); try done.
  { unfold not_pending. cbn. rewrite N3, M1, A1. done. }
  destruct Hstep as [Hrx Hlat Hskb2 Hdk Hus Hpid Hair].
  set (b1 := skb_pull b sizeof_vmac_data).
  assert (sk_data b1 = data) as Hb1.
  { unfold b1. rewrite skb_pull_data by (rewrite Hdata; sizes; lia).
    rewrite Hdata. apply drop_app_length'. by rewrite length_enc_vmac_data. }
  set (s3 := s2 <| k_skbs := <[skb := b1]> (k_skbs s2) |>).
  assert (mem_ok s3) as Hmem3 by (apply mem_ok_put; [apply Hrx|by rewrite Hskb2]).
  eexists. split.
  - erewrite bind_done.
    2:{ apply peek_skb_done; [done|exact Hb|]. rewrite Hdata. sizes. lia. }
    rewrite Hdata, drop_0, take_app_length' by (by rewrite length_enc_vmac_data).
    rewrite <- (app_nil_r (enc_vmac_data _)), dec_enc_vmac_data by done. cbv zeta.
    cbn [vd_seq]. unfold find_rx. kstep. rewrite (ro_find _ _ _ _ _ Hok).
    rewrite decide_False by apply (ro_ptr _ _ _ _ _ Hok).
    erewrite bind_done by (apply mod_enc_timeout_rx_done; apply Hok). fold r0.
    erewrite bind_done.
    2:{ apply get_rx_done; [apply (ro_ptr _ _ _ _ _ Hok)|apply lookup_insert_eq]. }
    rewrite Eacc. kstep.
    set (s0 := s <| k_rx_mem := <[p := r0]> (k_rx_mem s) |>).
    change (k_jiffies s0) with (k_jiffies s). rewrite Em. cbv iota.
    erewrite bind_done; [|reflexivity].
    replace (s0 <| k_rx_mem := _ |>) with s1 by (subst s1 s0; cbn; by rewrite insert_insert_eq).
    erewrite bind_done; [|exact E].
    erewrite bind_done; [|by apply pull_skb_done]. fold b1. fold s3.
    apply (nl_send_done s3 skb b1); try done;
      [by destruct (ro_calm _ _ _ _ _ Hrx)|apply (ro_user _ _ _ _ _ Hrx)|apply lookup_insert_eq|].
    unfold skb_len. rewrite Hb1. lia.
  - split.
    + cbn -[user_msg]. by rewrite Hus, Hpid, Hb1.
    + exact Hpid.
    + exact Hair.
    + exists r3. split; [|rewrite Hlat; cbn; lia].
      split; try apply Hrx.
      * unfold pending_ok. cbn. intros Hs1. destruct (ro_pending _ _ _ _ _ Hrx Hs1) as [|Hl].
        { by left. }
        right. specialize (Hdk Hs1). rewrite lookup_delete_ne, lookup_insert_ne by done. exact Hl.
      * destruct Hmem3 as [Hn Hf]. split; [cbn in *; lia|]. intros x Hx. cbn in Hx. cbn.
        rewrite lookup_delete. case_decide; [done|]. apply Hf. cbn. lia.
      * by destruct (ro_calm _ _ _ _ _ Hrx).
Qed.

(** ** A run of arrivals *)

(** A frame arrives in a buffer of its own. *)
Definition arrive (b : skb) : K unit := skb ← new_skb b; vmac_rx skb.
Fixpoint arrive_all (bs : list skb) : K unit :=
  match bs with
  | [] => skip
  | b :: bs' => arrive b ;; arrive_all bs'
  end.

(** The buffer holds the data frame [fst f] of [enc] with the bytes [snd f],
    of which the last four are the check sequence. *)
Definition arrival_ok (enc : Z) (b : skb) (f : Z * list Z) : Prop :=
  sk_data b = data_frame enc (fst f) (snd f) /\ (4 <= length (snd f))%nat.

(** The first arrival of each frame that is not in [got]. *)
Fixpoint first_received (got : list Z) (fs : list (Z * list Z)) : list (Z * list Z) :=
  match fs with
  | [] => []
  | f :: fs' =>
      if decide (fst f ∈ got) then first_received got fs'
      else f :: first_received (fst f :: got) fs'
  end.

Lemma rx_ok_skbs s s' p r enc got :
  rx_ok s p r enc got -> mem_ok s' ->
  k_rx_enc s' = k_rx_enc s -> k_rx_mem s' = k_rx_mem s -> k_oracle s' = k_oracle s ->
  k_pidt s' = k_pidt s -> k_nl_sk s' = k_nl_sk s ->
  (forall q, is_Some (k_skbs s !! q) -> is_Some (k_skbs s' !! q)) ->
  rx_ok s' p r enc got.
Proof.
  intros [? ? ? ? ? Hp ? [] []] Hm E1 E2 E3 E4 E5 Hs. split; try done.
  - by rewrite E1.
  - by rewrite E2.
  - intros Hsend. destruct (Hp Hsend); [by left|right]. by apply Hs.
  - by split; rewrite E3.
  - by split; rewrite ?E4, ?E5.
Qed.

Lemma lookup_insert_live (m : gmap Z Skb.skb) q b x :
  is_Some (m !! x) -> is_Some (<[q := b]> m !! x).
Proof. intros Hx. rewrite lookup_insert. case_decide; [by eexists|done]. Qed.

Lemma arrive_one s p r enc got b seq data :
  rx_ok s p r enc got -> arrival_ok enc b (seq, data) -> is_u64 enc -> is_u16 seq ->
  rx_latest r - WINDOW < seq ->
  exists s', arrive b s = Done tt s' /\ k_pidt s' = k_pidt s /\ k_air s' = k_air s /\
    if decide (seq ∈ got) then
      k_user s' = k_user s /\ exists r', rx_ok s' p r' enc got /\ rx_latest r' = rx_latest r
    else
      k_user s' = k_user s ++ [user_msg (k_pidt s) enc VMAC_HDR_DATA seq data] /\
      exists r', rx_ok s' p r' enc (seq :: got) /\ rx_latest r' = Z.max (rx_latest r) seq.
Proof.
  intros Hok [Hdata Hlen] Henc Hseq Hw. cbn [fst snd] in *.
  destruct (ro_mem _ _ _ _ _ Hok) as [Hn Hf].
  set (q := k_next s). set (b1 := skb_pull b sizeof_vmac_hdr).
  set (s0 := s <| k_skbs := <[q := b]> (k_skbs s) |> <| k_next := q + 1 |>).
  set (s1 := s0 <| k_skbs := <[q := b1]> (k_skbs s0) |>).
  assert (mem_ok s1) as Hmem1.
  { apply mem_ok_put; [|eexists; apply lookup_insert_eq]. split; [cbn; lia|].
    intros x Hx. cbn in *. rewrite lookup_insert_ne by lia. apply Hf. lia. }
  assert (rx_ok s1 p r enc got) as Hok1.
  { eapply rx_ok_skbs; [exact Hok|done..|]. intros x Hx. cbn.
    by do 2 apply lookup_insert_live. }
  assert (sk_data b1 = enc_vmac_data (mk_vmac_data seq) ++ data) as Hb1.
  { unfold b1. rewrite skb_pull_data by (rewrite Hdata, length_data_frame; sizes; lia).
    rewrite Hdata. apply drop_app_length'. by rewrite length_enc_vmac_hdr. }
  assert (not_pending r q) as Hnp.
  { intros Hs1 E. destruct (ro_pending _ _ _ _ _ Hok Hs1) as [|[b' Hb']]; [lia|].
    rewrite E, Hf in Hb' by lia. done. }
  assert (arrive b s = vmac_rx_data q enc s1) as Earr.
  { unfold arrive. erewrite bind_done; [|reflexivity].
    eapply vmac_rx_data_dispatch; [lia|apply lookup_insert_eq|done|done]. }
  assert (k_skbs s1 !! q = Some b1) as Hq by apply lookup_insert_eq.
  case_decide as Hin.
  - eexists. split; [rewrite Earr; eapply (vmac_rx_data_dup s1 q b1); try done; lia|].
    split_and!; [done..|].
    set (rt := r <| rx_enc_timeout := _ |>). exists rt. split; [|reflexivity].
    assert (rx_ok (s1 <| k_rx_mem := <[p := rt]> (k_rx_mem s1) |>) p rt enc got) as Hok2.
    { by apply (rx_ok_update s1 p r); try apply Hok. }
    split; try apply Hok2.
    + intros Hs1. destruct (ro_pending _ _ _ _ _ Hok1 Hs1) as [|Hl]; [by left|right].
      cbn. rewrite lookup_delete_ne; [exact Hl|]. intros E. by apply (Hnp Hs1).
    + destruct Hmem1 as [? Hf1]. split; [done|]. intros x Hx. cbn.
      rewrite lookup_delete. case_decide; [done|]. by apply Hf1.
    + by destruct (ro_calm _ _ _ _ _ Hok).
  - destruct (vmac_rx_data_new s1 q b1 p r enc got seq data) as (s' & E & [U P A R]);
      try done; [lia|].
    exists s'. by rewrite Earr.
Qed.

Lemma arrive_all_done enc fs : forall bs s p r got,
  rx_ok s p r enc got -> Forall2 (arrival_ok enc) bs fs -> is_u64 enc ->
  bounded_reorder (rx_latest r) (map fst fs) = true ->
  exists s' r' got', arrive_all bs s = Done tt s' /\
    k_user s' = k_user s ++
      map (fun f => user_msg (k_pidt s) enc VMAC_HDR_DATA (fst f) (snd f)) (first_received got fs) /\
    k_air s' = k_air s /\ rx_ok s' p r' enc got' /\
    (forall n, n ∈ got' <-> n ∈ got \/ n ∈ map fst fs).
Proof.
  induction fs as [|[seq data] fs IH]; intros bs s p r got Hok Hbs Henc Hb.
  - inversion Hbs; subst. exists s, r, got. cbn. rewrite app_nil_r. split_and!; try done.
    intros n. pose proof (not_elem_of_nil n). tauto.
  - inversion Hbs as [|b ? bs' ? Ha Hbs']; subst. cbn [map fst bounded_reorder] in Hb. bool_hyps.
    destruct (arrive_one s p r enc got b seq data) as (s1 & E & Hpid & Hair & Hcase); try done.
    cbn [arrive_all first_received fst]. case_decide as Hin.
    + destruct Hcase as (Hu & r1 & Hok1 & Hl1).
      destruct (IH bs' s1 p r1 got) as (s' & r' & got' & E' & U & A & R & G); try done.
      { replace (Z.max (rx_latest r) seq) with (rx_latest r) in * by
          (pose proof (wo_got _ _ (ro_window _ _ _ _ _ Hok) _ Hin); lia). by rewrite Hl1. }
      exists s', r', got'. split_and!; try done.
      * by rewrite (bind_done _ _ _ _ _ E).
      * by rewrite U, Hu, Hpid.
      * congruence.
      * intros n. rewrite G. cbn [map fst]. rewrite elem_of_cons.
        destruct (decide (n = seq)) as [->|]; tauto.
    + destruct Hcase as (Hu & r1 & Hok1 & Hl1).
      destruct (IH bs' s1 p r1 (seq :: got)) as (s' & r' & got' & E' & U & A & R & G); try done.
      { by rewrite Hl1. }
      exists s', r', got'. split_and!; try done.
      * by rewrite (bind_done _ _ _ _ _ E).
      * rewrite U, Hu, Hpid, <- app_assoc. done.
      * congruence.
      * intros n. rewrite G. cbn [map fst]. rewrite !elem_of_cons. tauto.
Qed.
End delivery.
