(* ===== verification/System.v ===== *)
(** * The module as a transition system

    What the cleanup of a transmit entry frees, the events that reach the
    module, and the invariants that hold in every reachable state. *)

From S2P Require Import Prelude Skb VmacDefs Kernel Tables Tx Dack Rx Netlink Clean TxSpec.
Section clean_spec.
Context `{Kernel}.
Implicit Types (s : kstate).

(** The buffers in the slots [i, i + n). *)
Definition slots (buf : list Z) (i : Z) (n : nat) : list Z := arr_get buf <$> seqZ i (Z.of_nat n).

Lemma slots_S buf i n : slots buf i (S n) = arr_get buf i :: slots buf (i + 1) n.
Proof.
  unfold slots. rewrite seqZ_cons by lia. cbn [fmap list_fmap]. f_equal. f_equal. f_equal; lia.
Qed.

Lemma free_frames_done n : forall i buf s,
  NoDup (slots buf i n) ->
  (forall q, q ∈ slots buf i n -> q <> 0 /\ is_Some (k_skbs s !! q)) ->
  exists m, free_frames n i buf s = Done tt (s <| k_skbs := m |>) /\
    (forall q, q ∈ slots buf i n -> m !! q = None) /\
    (forall q, q ∉ slots buf i n -> m !! q = k_skbs s !! q).
Proof.
  induction n as [|n IH]; intros i buf s Hnd Hlive; cbn [free_frames].
  - exists (k_skbs s). split; [by destruct s|]. split; [|done].
    intros q Hq. by apply not_elem_of_nil in Hq.
  - rewrite slots_S in *. inversion Hnd as [|? ? Hni Hnd']; subst.
    destruct (Hlive (arr_get buf i)) as [Hz [b Hb]]; [by left|].
    set (q0 := arr_get buf i) in *.
    destruct (IH (i + 1) buf (s <| k_skbs := delete q0 (k_skbs s) |>)) as (m & E & Hin & Hout).
    { done. }
    { intros q Hq. destruct (Hlive q) as [? ?]; [by right|]. split; [done|]. cbn.
      rewrite lookup_delete_ne; [done|]. by intros ->. }
    exists m. split_and!.
    + erewrite bind_done; [|by eapply kfree_skb_done]. exact E.
    + intros q [->|Hq]%elem_of_cons; [|by apply Hin].
      rewrite Hout by done. apply lookup_delete_eq.
    + intros q Hq. rewrite not_elem_of_cons in Hq. destruct Hq as [Hne Hq].
      rewrite Hout by done. cbn. by rewrite lookup_delete_ne.
Qed.

(** Each used slot holds the copy of exactly one kept frame. *)
Lemma used_slot_frame s p t enc sent j :
  buffer_ok s p t enc sent -> 0 <= j < used_slots t ->
  exists i, kept (length sent) i /\ Z.of_nat i mod WINDOW_TX = j.
Proof.
  intros Hok Hj. unfold used_slots in Hj. rewrite (bo_seq _ _ _ _ _ Hok) in Hj.
  unfold kept, WINDOW_TX in *.
  destruct (Z.ltb_spec (Z.of_nat (length sent)) 500) as [Hlt|Hge].
  - exists (Z.to_nat j). rewrite Z2Nat.id by lia. rewrite Z.mod_small by lia. lia.
  - set (n := Z.of_nat (length sent)) in *.
    pose proof (Z.mod_pos_bound (j - n) 500). pose proof (Z.div_mod (j - n) 500).
    exists (Z.to_nat (n - 500 + (j - n) mod 500)). rewrite Z2Nat.id by lia. split; [lia|].
    symmetry. apply Z.mod_unique with (- 1 - (j - n) / 500); lia.
Qed.

Lemma slots_kept s p t enc sent :
  buffer_ok s p t enc sent ->
  NoDup (slots (tx_retransmission_buffer t) 0 (Z.to_nat (used_slots t))) /\
  (forall q, q ∈ slots (tx_retransmission_buffer t) 0 (Z.to_nat (used_slots t)) <->
     exists i, kept (length sent) i /\
       arr_get (tx_retransmission_buffer t) (Z.of_nat i mod WINDOW_TX) = q).
Proof.
  intros Hok.
  assert (0 <= used_slots t) as Hu.
  { unfold used_slots, WINDOW_TX. rewrite (bo_seq _ _ _ _ _ Hok). case_tests. }
  unfold slots. rewrite Z2Nat.id by done. split.
  - apply NoDup_fmap_2_strong; [|apply NoDup_seqZ].
    intros j1 j2 [? ?]%elem_of_seqZ [? ?]%elem_of_seqZ E.
    destruct (used_slot_frame _ _ _ _ _ j1 Hok) as (i1 & K1 & E1); [lia|].
    destruct (used_slot_frame _ _ _ _ _ j2 Hok) as (i2 & K2 & E2); [lia|].
    rewrite <- E1, <- E2 in E |- *.
    by rewrite (bo_distinct _ _ _ _ _ Hok i1 i2 K1 K2 E).
  - intros q. rewrite list_elem_of_fmap. split.
    + intros (j & -> & Hj). apply elem_of_seqZ in Hj.
      destruct (used_slot_frame _ _ _ _ _ j Hok) as (i & Hi & <-); [lia|]. by exists i.
    + intros (i & Hi & <-). exists (Z.of_nat i mod WINDOW_TX). split; [done|].
      apply elem_of_seqZ. pose proof (slot_range (Z.of_nat i)).
      unfold used_slots, kept, WINDOW_TX in *. rewrite (bo_seq _ _ _ _ _ Hok).
      case_test; [|lia]. rewrite Z.mod_small; lia.
Qed.

(** The cleanup of the transmit entry of a stream. *)
Lemma cleanup_tx_done s p t enc sent :
  buffer_ok s p t enc sent -> table_ok tx_key (k_tx_mem s) (k_tx_enc s) ->
  tx_key t = enc -> tx_clean_enc t = enc ->
  exists s', cleanup_tx p s = Done tt s' /\ k_log s' = k_log s /\
    k_tx_mem s' = delete p (k_tx_mem s) /\
    hash_last (k_tx_enc s') (hash_min enc) = 0 /\
    (forall q, not_kept t (length sent) q -> k_skbs s' !! q = k_skbs s !! q) /\
    (forall i, kept (length sent) i ->
       k_skbs s' !! arr_get (tx_retransmission_buffer t) (Z.of_nat i mod WINDOW_TX) = None).
Proof.
  intros Hok Htab Hkey Hclean.
  set (t1 := t <| tx_clean_type := CLEAN_ENC_TX |>).
  set (s1 := s <| k_tx_mem := <[p := t1]> (k_tx_mem s) |>).
  destruct (slots_kept s p t enc sent Hok) as [Hnd Hin].
  destruct (free_frames_done (Z.to_nat (used_slots t)) 0 (tx_retransmission_buffer t) s1)
    as (m & E & Hgone & Hrest); [done| |].
  { intros q Hq. apply Hin in Hq as (i & Hi & <-).
    destruct (lookup_lt_is_Some_2 sent i) as [payload Hpl]; [apply Hi|].
    destruct (bo_copy _ _ _ _ _ Hok i payload Hpl Hi) as (? & b & Hb & _).
    split; [done|]. by exists b. }
  exists (s1 <| k_skbs := m |> <| k_tx_enc := hash_del (k_tx_enc s) p |>
             <| k_tx_mem := delete p (k_tx_mem s1) |>).
  split_and!; try done.
  - unfold cleanup_tx. erewrite bind_done by (apply get_tx_done; apply Hok).
    erewrite bind_done; [|reflexivity]. fold t1. fold s1. rewrite Hclean.
    unfold process, find_tx. kstep. change (k_tx_enc s1) with (k_tx_enc s).
    rewrite (bo_find _ _ _ _ _ Hok), decide_False by apply Hok.
    erewrite bind_done.
    2:{ apply get_tx_done; [apply Hok|apply lookup_insert_eq]. }
    change (used_slots t1) with (used_slots t).
    erewrite bind_done; [|exact E]. unfold hash_del_tx, vfree_tx. kstep. reflexivity.
  - cbn. apply delete_insert_eq.
  - cbn.
    pose proof (table_ok_del tx_key _ _ p Htab) as Hd.
    apply (hash_last_null tx_key _ _ _ Hd). rewrite bucket_hash_del.
    destruct (hash_last_found tx_key _ _ (hash_min enc) Htab) as [Eb _].
    { rewrite (bo_find _ _ _ _ _ Hok). apply Hok. }
    rewrite Eb, (bo_find _ _ _ _ _ Hok), filter_cons, decide_False by tauto. done.
  - intros q Hq. apply Hrest. intros Hin'. apply Hin in Hin' as (i & Hi & E').
    by apply (Hq i).
  - intros i Hi. apply Hgone. apply Hin. by exists i.
Qed.
End clean_spec.

(** ** The module as a transition system

    The events that reach the module (a netlink message, a frame, a timer,
    the clock), and the invariants that hold in every reachable state,
    whatever the messages, the frames and the failures of the kernel calls. *)

Section system.
Context `{Kernel}.
Implicit Types (s : kstate).

(** ** The invariant of the encoding tables *)

Record sys_inv s : Prop := {
  si_rx : table_ok rx_key (k_rx_mem s) (k_rx_enc s);
  si_tx : table_ok tx_key (k_tx_mem s) (k_tx_enc s);
  si_next : 0 < k_next s;
  si_rx_fresh : forall p, k_next s <= p -> k_rx_mem s !! p = None;
  si_tx_fresh : forall p, k_next s <= p -> k_tx_mem s !! p = None
}.

(** Entries stay where they are and keep their keys. *)
Record evolves s s' : Prop := {
  ev_rx : forall p r, k_rx_mem s !! p = Some r ->
    exists r', k_rx_mem s' !! p = Some r' /\ rx_key r' = rx_key r;
  ev_tx : forall p t, k_tx_mem s !! p = Some t ->
    exists t', k_tx_mem s' !! p = Some t' /\ tx_key t' = tx_key t
}.

#[export] Instance evolves_po : PreOrder evolves.
Proof.
  split.
  - intros s. split; eauto.
  - intros s1 s2 s3 [R1 T1] [R2 T2]. split.
    + intros p r Hr. destruct (R1 p r Hr) as (r' & Hr' & <-). by apply R2.
    + intros p t Ht. destruct (T1 p t Ht) as (t' & Ht' & <-). by apply T2.
Qed.

(** A command that keeps the invariant and the entries, crash or not. *)
Definition keeps {A} (m : K A) : Prop := forall s, sys_inv s ->
  post (m s) (fun _ s' => sys_inv s' /\ evolves s s') sys_inv.

(** A command that does not touch the tables or the entries. *)
Definition tables s := (k_rx_mem s, k_tx_mem s, k_rx_enc s, k_tx_enc s).
Definition quiet {A} (m : K A) : Prop := forall s,
  post (m s) (fun _ s' => tables s' = tables s /\ k_next s <= k_next s')
    (fun s' => tables s' = tables s /\ k_next s <= k_next s').

Lemma sys_inv_tables s s' :
  tables s' = tables s -> k_next s <= k_next s' -> sys_inv s -> sys_inv s' /\ evolves s s'.
Proof.
  intros [= E1 E2 E3 E4] Hn []. split; split; rewrite ?E1, ?E2, ?E3, ?E4; try done; eauto; try lia.
  - intros p Hp. apply si_rx_fresh0. lia.
  - intros p Hp. apply si_tx_fresh0. lia.
Qed.

Lemma quiet_keeps {A} (m : K A) : quiet m -> keeps m.
Proof.
  intros Hq s Hs. eapply post_mono; [apply Hq| |].
  - intros _ s' [? ?]. by apply sys_inv_tables.
  - intros s' [? ?]. by apply (sys_inv_tables s).
Qed.

Lemma quiet_bind {A B} (m : K A) (k : A -> K B) :
  quiet m -> (forall a, quiet (k a)) -> quiet (m ≫= k).
Proof.
  intros Hm Hk s. apply post_bind. eapply post_mono; [apply Hm| |done].
  intros a s1 [E1 N1]. eapply post_mono; [apply Hk| |]; cbn.
  - intros _ s2 [E2 N2]. split; [congruence|lia].
  - intros s2 [E2 N2]. split; [congruence|lia].
Qed.

Lemma keeps_bind {A B} (m : K A) (k : A -> K B) :
  keeps m -> (forall a, keeps (k a)) -> keeps (m ≫= k).
Proof.
  intros Hm Hk s Hs. apply post_bind. eapply post_mono; [by apply Hm| |done].
  intros a s1 [Hs1 E1]. eapply post_mono; [by apply Hk| |done].
  intros _ s2 [Hs2 E2]. split; [done|by etrans].
Qed.

(** The basic commands. *)
Lemma quiet_mret {A} (a : A) : quiet (mret a).
Proof. done. Qed.
Lemma quiet_gets {A} (f : kstate -> A) : quiet (gets f).
Proof. done. Qed.
Lemma quiet_crash {A} (f : fault) : quiet (@crash A f).
Proof. done. Qed.
Lemma quiet_modify f : (forall s, tables (f s) = tables s /\ k_next s <= k_next (f s)) -> quiet (modify f).
Proof. intros Hf s. apply Hf. Qed.
Lemma quiet_log f : quiet (log f).
Proof. apply quiet_modify. done. Qed.
Lemma quiet_ask_alloc : quiet ask_alloc.
Proof. intros s. unfold ask_alloc. by destruct (o_alloc (k_oracle s)). Qed.
Lemma quiet_ask_trylock : quiet ask_trylock.
Proof. intros s. unfold ask_trylock. by destruct (o_trylock (k_oracle s)). Qed.
Lemma quiet_ask_xmit : quiet ask_xmit.
Proof. intros s. unfold ask_xmit. by destruct (o_xmit (k_oracle s)). Qed.
Lemma quiet_ask_random : quiet ask_random.
Proof. intros s. unfold ask_random. by destruct (o_random (k_oracle s)). Qed.
Lemma quiet_new_skb b : quiet (new_skb b).
Proof. intros s. cbn. split; [done|lia]. Qed.
Lemma quiet_get_skb p : quiet (get_skb p).
Proof. intros s. unfold get_skb. case_decide; [done|]. by destruct (k_skbs s !! p). Qed.
Lemma quiet_put_skb p b : quiet (put_skb p b).
Proof. by apply quiet_modify. Qed.
Lemma quiet_kfree_skb p : quiet (kfree_skb p).
Proof. intros s. unfold kfree_skb. case_decide; [done|]. by destruct (k_skbs s !! p). Qed.
Lemma quiet_get_rx p : quiet (get_rx p).
Proof. intros s. unfold get_rx. case_decide; [done|]. by destruct (k_rx_mem s !! p). Qed.
Lemma quiet_get_tx p : quiet (get_tx p).
Proof. intros s. unfold get_tx. case_decide; [done|]. by destruct (k_tx_mem s !! p). Qed.
End system.

Create HintDb quiet.

#[export] Hint Resolve quiet_mret quiet_gets quiet_crash quiet_log quiet_ask_alloc
  quiet_ask_trylock quiet_ask_xmit quiet_ask_random quiet_new_skb quiet_get_skb quiet_put_skb
  quiet_kfree_skb quiet_get_rx quiet_get_tx : quiet.

(** Walk through a command: its first step by a hint, the rest recursively. *)
Ltac quiet_step :=
  match goal with
  | |- quiet (_ ≫= _) => apply quiet_bind; [|intros]
  | |- quiet skip => apply quiet_mret
  | |- quiet (modify _) => by apply quiet_modify
  | |- quiet (if decide ?P then _ else _) => destruct (decide P)
  | |- quiet (if ?b then _ else _) => destruct b
  | |- quiet (match ?x with _ => _ end) => destruct x
  | |- quiet _ => solve [eauto with quiet]
  end.
Ltac quiet_tac := repeat (cbv zeta; quiet_step).

Section quiet_commands.
Context `{Kernel}.

Lemma quiet_alloc_skb b : quiet (alloc_skb b).
Proof. unfold alloc_skb. quiet_tac. Qed.
Hint Resolve quiet_alloc_skb : quiet.
Lemma quiet_push_skb p src : quiet (push_skb p src).
Proof. unfold push_skb. quiet_tac. Qed.
Lemma quiet_put_data_skb p src : quiet (put_data_skb p src).
Proof. unfold put_data_skb. quiet_tac. Qed.
Lemma quiet_pull_skb p n : quiet (pull_skb p n).
Proof. unfold pull_skb. quiet_tac. Qed.
Lemma quiet_skb_copy p : quiet (skb_copy p).
Proof. unfold skb_copy. quiet_tac. Qed.
Hint Resolve quiet_push_skb quiet_put_data_skb quiet_pull_skb quiet_skb_copy : quiet.
Lemma quiet_peek_skb p k n : quiet (peek_skb p k n).
Proof. unfold peek_skb. quiet_tac. Qed.
Lemma quiet_monitor_alloc n d w : quiet (monitor_alloc_loop n d w).
Proof. revert d w. induction n as [|n IH]; intros d w; cbn [monitor_alloc_loop]; quiet_tac. Qed.
Hint Resolve quiet_peek_skb quiet_monitor_alloc : quiet.
Lemma quiet_xmit_mo skb rate bw sgi stream : quiet (xmit_mo skb rate bw sgi stream).
Proof. unfold xmit_mo, monitor_alloc_mgtxmitframe. quiet_tac. Qed.
Hint Resolve quiet_xmit_mo : quiet.
Lemma quiet_vmac_low_tx skb seq rate bw sgi stream : quiet (vmac_low_tx skb seq rate bw sgi stream).
Proof. unfold vmac_low_tx. quiet_tac. Qed.
Hint Resolve quiet_vmac_low_tx : quiet.
Lemma quiet_vmac_send_hack skb : quiet (vmac_send_hack skb).
Proof. unfold vmac_send_hack. quiet_tac. Qed.
Lemma quiet_put_holes q hs : quiet (put_holes q hs).
Proof. induction hs as [|h hs IH]; cbn [put_holes]; quiet_tac. Qed.
Lemma quiet_nl_copy_frame m : quiet (nl_copy_frame m).
Proof. unfold nl_copy_frame. quiet_tac. Qed.
Lemma quiet_nl_send skb enc type seq : quiet (nl_send skb enc type seq).
Proof. unfold nl_send, nlmsg_unicast. quiet_tac. Qed.
Lemma quiet_free_frames n i buffer : quiet (free_frames n i buffer).
Proof. revert i. induction n as [|n IH]; intros i; cbn [free_frames]; quiet_tac. Qed.
End quiet_commands.

#[export] Hint Resolve quiet_alloc_skb quiet_push_skb quiet_put_data_skb quiet_pull_skb
  quiet_skb_copy quiet_peek_skb quiet_monitor_alloc quiet_xmit_mo quiet_vmac_low_tx
  quiet_vmac_send_hack quiet_put_holes quiet_nl_copy_frame quiet_nl_send quiet_free_frames : quiet.

(** ** Commands that update entries

    [keeps_in G m]: from a state with the invariant in which [G] holds, [m]
    keeps the invariant and the entries.  [G] records which entries are known
    to be live; it survives every command that keeps the entries. *)

Section keeps.
Context `{Kernel}.
Implicit Types (s : kstate) (G : kstate -> Prop).

Definition has_rx (p key : Z) s : Prop := exists r, k_rx_mem s !! p = Some r /\ rx_key r = key.
Definition has_tx (p key : Z) s : Prop := exists t, k_tx_mem s !! p = Some t /\ tx_key t = key.
Definition anywhere s : Prop := True.

Definition stable G : Prop := forall s s', evolves s s' -> G s -> G s'.
Definition keeps_in {A} G (m : K A) : Prop := forall s, sys_inv s -> G s ->
  post (m s) (fun _ s' => sys_inv s' /\ evolves s s') sys_inv.

Lemma stable_anywhere : stable anywhere.
Proof. done. Qed.
Lemma stable_rx G p key : stable G -> stable (fun s => G s /\ has_rx p key s).
Proof.
  intros HG s s' He [? (r & Hr & <-)]. split; [by eapply HG|].
  destruct (ev_rx _ _ He p r Hr) as (r' & ? & ?). by exists r'.
Qed.
Lemma stable_tx G p key : stable G -> stable (fun s => G s /\ has_tx p key s).
Proof.
  intros HG s s' He [? (t & Ht & <-)]. split; [by eapply HG|].
  destruct (ev_tx _ _ He p t Ht) as (t' & ? & ?). by exists t'.
Qed.

Lemma keeps_anywhere {A} (m : K A) : keeps_in anywhere m -> keeps m.
Proof. intros Hm s Hs. by apply Hm. Qed.
Lemma keeps_weaken {A} G (m : K A) : keeps m -> keeps_in G m.
Proof. intros Hm s Hs _. by apply Hm. Qed.
Lemma keeps_in_quiet {A} G (m : K A) : quiet m -> keeps_in G m.
Proof. intros. by apply keeps_weaken, quiet_keeps. Qed.

Lemma keeps_in_bind {A B} G (m : K A) (k : A -> K B) :
  stable G -> keeps_in G m -> (forall a, keeps_in G (k a)) -> keeps_in G (m ≫= k).
Proof.
  intros HG Hm Hk s Hs HGs. apply post_bind. eapply post_mono; [by apply Hm| |done].
  intros a s1 [Hs1 E1]. eapply post_mono; [apply Hk; [done|by eapply HG]| |done].
  intros _ s2 [Hs2 E2]. split; [done|by etrans].
Qed.

Lemma keeps_in_get_rx {B} G p (k : encoding_rx -> K B) :
  (forall r, keeps_in (fun s => G s /\ has_rx p (rx_key r) s) (k r)) -> keeps_in G (get_rx p ≫= k).
Proof.
  intros Hk s Hs HG. apply post_bind, post_get_rx; [done|]. intros r Hr.
  apply Hk; [done|]. split; [done|]. by exists r.
Qed.
Lemma keeps_in_get_tx {B} G p (k : encoding_tx -> K B) :
  (forall t, keeps_in (fun s => G s /\ has_tx p (tx_key t) s) (k t)) -> keeps_in G (get_tx p ≫= k).
Proof.
  intros Hk s Hs HG. apply post_bind, post_get_tx; [done|]. intros t Ht.
  apply Hk; [done|]. split; [done|]. by exists t.
Qed.

Lemma lookup_insert_key {R} (key : R -> Z) (m : gmap Z R) p r r' :
  m !! p = Some r -> key r' = key r ->
  forall q x, m !! q = Some x -> exists x', <[p := r']> m !! q = Some x' /\ key x' = key x.
Proof.
  intros Hr E q x Hx. rewrite lookup_insert. case_decide; [subst|eauto].
  exists r'. split; [done|]. congruence.
Qed.

Lemma keeps_in_put_rx G p r' :
  (forall s, G s -> has_rx p (rx_key r') s) -> keeps_in G (put_rx p r').
Proof.
  intros HG s [Hrx Htx Hn Hfr Hft] HGs. destruct (HG s HGs) as (r & Hr & Hk).
  assert (sys_inv (s <| k_rx_mem := <[p := r']> (k_rx_mem s) |>)) as Hinv.
  { split; try done; cbn.
    - by eapply table_ok_update.
    - intros q Hq. rewrite lookup_insert_ne; [by apply Hfr|]. intros ->.
      by rewrite Hfr in Hr. }
  split; [exact Hinv|]. split; cbn; [|eauto]. by apply (lookup_insert_key rx_key _ _ r).
Qed.
Lemma keeps_in_put_tx G p t' :
  (forall s, G s -> has_tx p (tx_key t') s) -> keeps_in G (put_tx p t').
Proof.
  intros HG s [Hrx Htx Hn Hfr Hft] HGs. destruct (HG s HGs) as (t & Ht & Hk).
  assert (sys_inv (s <| k_tx_mem := <[p := t']> (k_tx_mem s) |>)) as Hinv.
  { split; try done; cbn.
    - by eapply table_ok_update.
    - intros q Hq. rewrite lookup_insert_ne; [by apply Hft|]. intros ->.
      by rewrite Hft in Ht. }
  split; [exact Hinv|]. split; cbn; [eauto|]. by apply (lookup_insert_key tx_key _ _ t).
Qed.
End keeps.

Create HintDb keeps.
#[export] Hint Resolve stable_anywhere stable_rx stable_tx : keeps.

(** The entry of an update is one of those known to be live. *)
Ltac known_entry :=
  let s := fresh "s" in let HG := fresh "HG" in
  intros s HG; repeat match goal with H : _ /\ _ |- _ => destruct H end; assumption.

Ltac keeps_step :=
  match goal with
  | |- keeps _ => apply keeps_anywhere
  | |- keeps_in _ (get_rx _ ≫= _) => apply keeps_in_get_rx; intros
  | |- keeps_in _ (get_tx _ ≫= _) => apply keeps_in_get_tx; intros
  | |- keeps_in _ (_ ≫= _) => apply keeps_in_bind; [solve [eauto with keeps]| |intros]
  | |- keeps_in _ (put_rx _ _) => apply keeps_in_put_rx; known_entry
  | |- keeps_in _ (put_tx _ _) => apply keeps_in_put_tx; known_entry
  | |- keeps_in _ skip => apply keeps_in_quiet, quiet_mret
  | |- keeps_in _ (modify _) => by apply keeps_in_quiet, quiet_modify
  | |- keeps_in _ (if decide ?P then _ else _) => destruct (decide P)
  | |- keeps_in _ (if ?b then _ else _) => destruct b
  | |- keeps_in _ (match ?x with _ => _ end) => destruct x eqn:?
  | |- keeps_in _ _ => solve [apply keeps_in_quiet; eauto with quiet | apply keeps_weaken; eauto with keeps]
  end.
Ltac keeps_tac := repeat (cbv zeta; keeps_step).

Section handlers.
Context `{Kernel}.
Implicit Types (s : kstate).

(** *** Making entries *)

Lemma table_ok_init {R} (key : R -> Z) (mem : gmap Z R) t p r :
  table_ok key mem t -> p <> 0 -> mem !! p = None -> hash_last t (hash_min (key r)) = 0 ->
  table_ok key (<[p := r]> mem) (hash_add t (hash_min (key r)) p).
Proof.
  intros Hok Hp Hf Hz. apply table_ok_add; try done. by apply (hash_last_null key mem).
Qed.

Lemma lookup_insert_fresh {R} (key : R -> Z) (m : gmap Z R) p r :
  m !! p = None ->
  forall q x, m !! q = Some x -> exists x', <[p := r]> m !! q = Some x' /\ key x' = key x.
Proof.
  intros Hf q x Hx. exists x. split; [|done]. rewrite lookup_insert_ne; [done|congruence].
Qed.

Lemma get_or_make_rx_keeps enc : keeps (get_or_make_rx enc).
Proof.
  intros s Hs. pose proof Hs as [Hrx Htx Hn Hfr Hft].
  destruct (decide (hash_last (k_rx_enc s) (hash_min enc) = 0)) as [Hz|Hz].
  2:{ rewrite get_or_make_rx_found by done. cbn. split; [done|reflexivity]. }
  unfold get_or_make_rx, find_rx. rewrite gets_bind, decide_True by done.
  unfold vmalloc_rx. rewrite bind_assoc. apply post_bind.
  assert (forall s1, tables s1 = tables s -> k_next s1 = k_next s ->
    k_rx_mem s1 !! k_next s1 = None) as Hfresh.
  { intros s1 [= E1 _ _ _] E2. rewrite E1, E2. apply Hfr. lia. }
  apply (post_mono _ (fun _ s1 => tables s1 = tables s /\ k_next s1 = k_next s) _ (fun _ => False)).
  { unfold ask_alloc. by destruct (o_alloc (k_oracle s)). }
  2:{ by intros ? []. }
  intros [] s1 [Et En]; cycle 1.
  { destruct (sys_inv_tables s s1 Et) as [Hi _]; [lia|done|]. exact Hi. }
  specialize (Hfresh s1 Et En). injection Et as E1 E2 E3 E4.
  erewrite bind_done; [|reflexivity].
  erewrite bind_done; [|apply get_rx_done; [lia|apply lookup_insert_eq]].
  erewrite bind_done; [|reflexivity]. unfold add_rx. rewrite bind_assoc.
  erewrite bind_done; [|apply get_rx_done; [lia|apply lookup_insert_eq]].
  rewrite modify_bind, gets_bind.
  erewrite bind_done; [|apply get_rx_done; [lia|apply lookup_insert_eq]].
  assert (k_next s <> 0) as Hn0 by lia.
  cbn. split; split; cbn; rewrite ?insert_insert_eq, ?E1, ?E2, ?E3, ?E4, ?En; try done; try lia.
  - exact (table_ok_init rx_key _ _ (k_next s) ((init_encoding_rx (o_rx_mem (k_oracle s1)) enc)
             <| rx_dack_timer := Some (k_jiffies s1) |>) Hrx Hn0 (Hfr _ (Z.le_refl _)) Hz).
  - intros q Hq. rewrite lookup_insert_ne by lia. apply Hfr. lia.
  - intros q Hq. apply Hft. lia.
  - apply (lookup_insert_fresh rx_key). apply Hfr. lia.
  - eauto.
Qed.

Lemma get_or_make_tx_keeps enc : keeps (get_or_make_tx enc).
Proof.
  intros s Hs. pose proof Hs as [Hrx Htx Hn Hfr Hft].
  destruct (decide (hash_last (k_tx_enc s) (hash_min enc) = 0)) as [Hz|Hz].
  2:{ rewrite get_or_make_tx_found by done. cbn. split; [done|reflexivity]. }
  unfold get_or_make_tx, find_tx. rewrite gets_bind, decide_True by done.
  unfold vmalloc_tx. rewrite bind_assoc. apply post_bind.
  assert (forall s1, tables s1 = tables s -> k_next s1 = k_next s ->
    k_tx_mem s1 !! k_next s1 = None) as Hfresh.
  { intros s1 [= _ E1 _ _] E2. rewrite E1, E2. apply Hft. lia. }
  apply (post_mono _ (fun _ s1 => tables s1 = tables s /\ k_next s1 = k_next s) _ (fun _ => False)).
  { unfold ask_alloc. by destruct (o_alloc (k_oracle s)). }
  2:{ by intros ? []. }
  intros [] s1 [Et En]; cycle 1.
  { destruct (sys_inv_tables s s1 Et) as [Hi _]; [lia|done|]. exact Hi. }
  specialize (Hfresh s1 Et En). injection Et as E1 E2 E3 E4.
  erewrite bind_done; [|reflexivity].
  erewrite bind_done; [|apply get_tx_done; [lia|apply lookup_insert_eq]].
  erewrite bind_done; [|reflexivity]. unfold add_tx. rewrite bind_assoc.
  erewrite bind_done; [|apply get_tx_done; [lia|apply lookup_insert_eq]].
  rewrite modify_bind.
  assert (k_next s <> 0) as Hn0 by lia.
  cbn. split; split; cbn; rewrite ?insert_insert_eq, ?E1, ?E2, ?E3, ?E4, ?En; try done; try lia.
  - exact (table_ok_init tx_key _ _ (k_next s) (init_encoding_tx (o_tx_mem (k_oracle s1)) enc)
             Htx Hn0 (Hft _ (Z.le_refl _)) Hz).
  - intros q Hq. apply Hfr. lia.
  - intros q Hq. rewrite lookup_insert_ne by lia. apply Hft. lia.
  - eauto.
  - apply (lookup_insert_fresh tx_key). apply Hft. lia.
Qed.

#[local] Hint Resolve get_or_make_rx_keeps get_or_make_tx_keeps : keeps.

(** *** The handlers *)

Lemma mod_enc_timeout_rx_keeps p : keeps (mod_enc_timeout_rx p).
Proof. unfold mod_enc_timeout_rx. keeps_tac. Qed.
Lemma mod_enc_timeout_tx_keeps p : keeps (mod_enc_timeout_tx p).
Proof. unfold mod_enc_timeout_tx. keeps_tac. Qed.
Lemma keep_copy_keeps p seq c : keeps (keep_copy p seq c).
Proof. unfold keep_copy. keeps_tac. Qed.
#[local] Hint Resolve mod_enc_timeout_rx_keeps mod_enc_timeout_tx_keeps keep_copy_keeps : keeps.

Lemma vmac_tx_keeps skb enc type seqtmp rate bw sgi stream :
  keeps (vmac_tx skb enc type seqtmp rate bw sgi stream).
Proof.
  unfold vmac_tx, vmac_tx_interest, vmac_tx_data, vmac_tx_announcement, vmac_tx_injected, next_seq.
  keeps_tac.
Qed.
#[local] Hint Resolve vmac_tx_keeps : keeps.

Lemma nl_recv_keeps m : keeps (nl_recv m).
Proof. unfold nl_recv, exit_vmac. keeps_tac. Qed.

Lemma submit_dack_keeps p q round duration rndm : keeps (submit_dack p q round duration rndm).
Proof. unfold submit_dack. keeps_tac. Qed.
#[local] Hint Resolve submit_dack_keeps : keeps.
Lemma prepDACK_keeps enc round : keeps (prepDACK enc round).
Proof. unfold prepDACK, find_rx. keeps_tac. Qed.
Lemma request_DACK_keeps enc round : keeps (request_DACK enc round).
Proof. apply prepDACK_keeps. Qed.
#[local] Hint Resolve request_DACK_keeps : keeps.

Lemma sendDACK_keeps p : keeps (sendDACK p).
Proof. unfold sendDACK. keeps_tac. Qed.

Lemma dack_frames_keeps fuel p le re seq round counter skb2 :
  keeps (dack_frames fuel p le re seq round counter skb2).
Proof.
  revert le counter skb2. induction fuel as [|f IH]; intros; cbn [dack_frames]; keeps_tac.
Qed.
#[local] Hint Resolve dack_frames_keeps : keeps.
Lemma dack_holes_keeps n skb p seq round counter skb2 :
  keeps (dack_holes n skb p seq round counter skb2).
Proof.
  revert counter skb2. induction n as [|n IH]; intros; cbn [dack_holes]; keeps_tac.
Qed.
#[local] Hint Resolve dack_holes_keeps : keeps.
Lemma vmac_rx_dack_keeps skb enc : keeps (vmac_rx_dack skb enc).
Proof. unfold vmac_rx_dack, find_rx, find_tx. keeps_tac. Qed.
#[local] Hint Resolve vmac_rx_dack_keeps : keeps.

Lemma advance_key fuel seq r : rx_key (advance fuel seq r) = rx_key r.
Proof.
  revert r; induction fuel as [|f IH]; intros r; cbn [advance]; [done|].
  destruct (rx_latest r <? seq); [|done]. by rewrite IH.
Qed.
Lemma rx_frame_key r seq now r1 r2 :
  rx_accept r seq = Some r1 -> rx_measure (rx_mark r1 seq) seq now = Some r2 ->
  rx_key r2 = rx_key r.
Proof.
  intros Ha Hm. assert (rx_key r1 = rx_key r) as <-.
  { revert Ha. unfold rx_accept. case_match; [|case_match]; intros [= <-]; [apply advance_key|done]. }
  revert Hm. unfold rx_measure.
  assert (rx_key (rx_mark r1 seq) = rx_key r1) as <- by (unfold rx_mark; by destruct (_ <=? seq)).
  repeat case_match; intros [= <-]; done.
Qed.

Lemma vmac_rx_data_keeps skb enc : keeps (vmac_rx_data skb enc).
Proof.
  unfold vmac_rx_data, find_rx. keeps_tac.
  apply keeps_in_put_rx. intros s0 [_ Hkey].
  match goal with Ha : rx_accept _ _ = Some _, Hm : rx_measure _ _ _ = Some _ |- _ =>
    cbn; by rewrite (rx_frame_key _ _ _ _ _ Ha Hm) end.
Qed.
#[local] Hint Resolve vmac_rx_data_keeps : keeps.

Lemma vmac_rx_keeps skb : keeps (vmac_rx skb).
Proof. unfold vmac_rx. keeps_tac. Qed.

(** *** Expiry *)

Lemma sys_inv_del_rx s p :
  sys_inv s ->
  sys_inv (s <| k_rx_mem := delete p (k_rx_mem s) |> <| k_rx_enc := hash_del (k_rx_enc s) p |>).
Proof.
  intros []. split; try done; cbn.
  - by apply table_ok_del.
  - intros q Hq. rewrite lookup_delete. case_decide; [done|]. by apply si_rx_fresh0.
Qed.
Lemma sys_inv_del_tx s p :
  sys_inv s ->
  sys_inv (s <| k_tx_mem := delete p (k_tx_mem s) |> <| k_tx_enc := hash_del (k_tx_enc s) p |>).
Proof.
  intros []. split; try done; cbn.
  - by apply table_ok_del.
  - intros q Hq. rewrite lookup_delete. case_decide; [done|]. by apply si_tx_fresh0.
Qed.

Definition preserves {A} (m : K A) : Prop := forall s, sys_inv s ->
  post (m s) (fun _ s' => sys_inv s') sys_inv.

Lemma keeps_preserves {A} (m : K A) : keeps m -> preserves m.
Proof. intros Hm s Hs. eapply post_mono; [by apply Hm| |done]. by intros _ s' [? _]. Qed.
Lemma preserves_bind {A B} (m : K A) (k : A -> K B) :
  preserves m -> (forall a, preserves (k a)) -> preserves (m ≫= k).
Proof.
  intros Hm Hk s Hs. apply post_bind. eapply post_mono; [by apply Hm| |done].
  intros a s1 Hs1. by apply Hk.
Qed.

Lemma process_preserves type enc : preserves (process type enc).
Proof.
  destruct type; unfold process, find_rx, find_tx; apply preserves_bind;
    try (apply keeps_preserves, quiet_keeps, quiet_gets); intros p; case_decide;
    try (apply keeps_preserves, quiet_keeps, quiet_mret).
  - apply preserves_bind; [apply keeps_preserves, quiet_keeps, quiet_get_tx|]. intros t.
    apply preserves_bind; [apply keeps_preserves, quiet_keeps, quiet_free_frames|]. intros _ s Hs.
    unfold hash_del_tx, vfree_tx. rewrite modify_bind. by apply (sys_inv_del_tx s p).
  - intros s Hs.
    unfold hash_del_rx, vfree_rx. rewrite modify_bind. by apply (sys_inv_del_rx s p).
Qed.

Lemma cleanup_rx_preserves p : preserves (cleanup_rx p).
Proof.
  intros s Hs. unfold cleanup_rx. apply post_bind, post_get_rx; [done|]. intros r Hr.
  apply post_bind. eapply post_mono.
  - apply (keeps_in_put_rx (has_rx p (rx_key r))); [done|done|by exists r].
  - intros _ s1 [Hs1 _]. by apply process_preserves.
  - done.
Qed.

Lemma cleanup_tx_preserves p : preserves (cleanup_tx p).
Proof.
  intros s Hs. unfold cleanup_tx. apply post_bind, post_get_tx; [done|]. intros t Ht.
  apply post_bind. eapply post_mono.
  - apply (keeps_in_put_tx (has_tx p (tx_key t))); [done|done|by exists t].
  - intros _ s1 [Hs1 _]. by apply process_preserves.
  - done.
Qed.

(** ** Events *)

(** A timer that fires is no longer pending. *)
Definition fire_dack (p : Z) : K unit :=
  r ← get_rx p; put_rx p (r <| rx_dack_timer := None |>) ;; sendDACK p.

Definition frame_arrives (b : skb) : K unit := skb ← new_skb b; vmac_rx skb.

Inductive event :=
  | ENetlink (m : nlmsg)        (** a message from a process *)
  | EArrive (b : skb)           (** a frame, above its 802.11 header *)
  | EDackTimer (p : Z)          (** the DACK timer of a receive entry *)
  | ECleanRx (p : Z)            (** the expiry of a receive entry *)
  | ECleanTx (p : Z)            (** the expiry of a transmit entry *)
  | ETick                       (** the clock *)
  | EEnv (o : oracle) (mon : option adapter).   (** the kernel and the adapter *)

Definition handle (e : event) : K unit :=
  match e with
  | ENetlink m => nl_recv m
  | EArrive b => frame_arrives b
  | EDackTimer p => fire_dack p
  | ECleanRx p => cleanup_rx p
  | ECleanTx p => cleanup_tx p
  | ETick => modify (fun s => s <| k_jiffies := k_jiffies s + 1 |>)
  | EEnv o mon => modify (fun s => s <| k_oracle := o |> <| k_mon := mon |>)
  end.

(** A timer event needs a live entry whose timer is due. *)
Definition enabled s (e : event) : Prop :=
  match e with
  | EDackTimer p => exists r t,
      k_rx_mem s !! p = Some r /\ rx_dack_timer r = Some t /\ t <= k_jiffies s
  | ECleanRx p => exists r t,
      k_rx_mem s !! p = Some r /\ rx_enc_timeout r = Some t /\ t <= k_jiffies s
  | ECleanTx p => exists x t,
      k_tx_mem s !! p = Some x /\ tx_enc_timeout x = Some t /\ t <= k_jiffies s
  | _ => True
  end.

(** The state after the module was loaded. *)
Record initial s : Prop := {
  in_rx : k_rx_mem s = ∅ /\ k_rx_enc s = ∅;
  in_tx : k_tx_mem s = ∅ /\ k_tx_enc s = ∅;
  in_next : 0 < k_next s
}.

Inductive step s : kstate -> Prop :=
  | step_event e s' : enabled s e -> handle e s = Done tt s' -> step s s'.

Inductive reachable : kstate -> Prop :=
  | reach_init s : initial s -> reachable s
  | reach_step s s' : reachable s -> step s s' -> reachable s'.

Lemma handle_preserves e : preserves (handle e).
Proof.
  destruct e; cbn [handle];
    try (apply keeps_preserves; unfold frame_arrives, fire_dack;
         solve [apply nl_recv_keeps | by apply quiet_keeps, quiet_modify]).
  - apply keeps_preserves, keeps_bind; [apply quiet_keeps, quiet_new_skb|].
    intros. apply vmac_rx_keeps.
  - apply keeps_preserves, keeps_anywhere. unfold fire_dack. apply keeps_in_get_rx. intros r.
    apply keeps_in_bind; [eauto with keeps|apply keeps_in_put_rx; known_entry|].
    intros _. apply keeps_weaken, sendDACK_keeps.
  - apply cleanup_rx_preserves.
  - apply cleanup_tx_preserves.
Qed.

Lemma initial_inv s : initial s -> sys_inv s.
Proof.
  intros [[E1 E2] [E3 E4] Hn]. split; rewrite ?E1, ?E2, ?E3, ?E4; try done.
  - apply table_ok_empty.
  - apply table_ok_empty.
Qed.

Lemma reachable_inv s : reachable s -> sys_inv s.
Proof.
  induction 1 as [s Hs|s s1 _ IH [e s2 _ E]]; [by apply initial_inv|].
  pose proof (handle_preserves e s IH) as Hp. by rewrite E in Hp.
Qed.

(** *** At most one entry per bucket *)

Lemma entries_bound {R} (key : R -> Z) (mem : gmap Z R) t :
  table_ok key mem t -> (size mem <= 32)%nat.
Proof.
  intros Hok. rewrite <- length_map_to_list.
  set (l := map_to_list mem).
  set (bs := (fun pr => hash_min (key (snd pr))) <$> l).
  assert (length bs <= length (seqZ 0 32))%nat as Hl.
  { apply submseteq_length, NoDup_submseteq.
    - unfold bs. apply NoDup_fmap_2_strong; [|apply NoDup_map_to_list].
      intros [p r] [q x] Hp Hq Eb. cbn in Eb.
      apply elem_of_map_to_list in Hp, Hq.
      pose proof (hash_last_live key mem t p r Hok Hp) as [Ep _].
      pose proof (hash_last_live key mem t q x Hok Hq) as [Eq _].
      rewrite Eb, Eq in Ep. subst q. congruence.
    - intros b Hb. unfold bs in Hb. apply list_elem_of_fmap in Hb as ([p r] & -> & _).
      apply elem_of_seqZ. pose proof (hash_min_range (key r)). cbn. lia. }
  unfold bs in Hl. rewrite length_fmap, length_seqZ in Hl. exact Hl.
Qed.
End handlers.
