(* ===== verification/Demo.v ===== *)
(** * Concrete states

    A receiver that knows one encoding and a transmitter that sent three
    frames of it, on which the theorems are instantiated. *)

From S2P Require Import Prelude Skb VmacDefs Kernel Tables Tx Dack Rx Netlink TxSpec NetlinkSpec RxSpec RetxSpec DackFrame DeliverySpec.
Definition demo_rx_mem : encoding_rx :=
  mk_encoding_rx 0 0 CLEAN_ENC_RX 1 (repeat 0 700) 0 0 0 0 0 (mk_dack_info 0 0 0 0 0)
    0 0 0 None None.
Definition demo_tx_mem : encoding_tx :=
  mk_encoding_tx 0 0 CLEAN_ENC_TX (repeat 0 500) (repeat 0 500) 0 0 0 None 0 0 [] [].
Definition demo_oracle : oracle := mk_oracle [] [] [] [] demo_rx_mem demo_tx_mem.

Definition demo_state : kstate :=
  mk_kstate ∅ 1 ∅ ∅ ∅ ∅ 1000 42 true true (Some (mk_adapter 0 0 0)) (mk_recv_priv ∅ [] 0)
    [] [] [] demo_oracle.

(** The receiver: encoding 7 at address 1, nothing received. *)
Definition demo_rx : encoding_rx := init_encoding_rx demo_rx_mem 7.
Definition demo_rx_state : kstate :=
  demo_state <| k_rx_mem := {[1 := demo_rx]} |> <| k_rx_enc := {[7 := [1]]} |> <| k_next := 2 |>.

(** The receiver after frames 0, 1, 4 and 6. *)
Definition demo_got : list Z := [6; 4; 1; 0].
Definition demo_rx_lossy : encoding_rx :=
  demo_rx <| rx_latest := 6 |> <| rx_lastin := 6 |>
          <| rx_window := [1; 1; 0; 0; 1; 0; 1] ++ repeat 0 693 |>.
Definition demo_lossy_state : kstate :=
  demo_rx_state <| k_rx_mem := {[1 := demo_rx_lossy]} |>.

(** The transmitter: encoding 7 at address 1, frames 0, 1 and 2 kept at 2, 3
    and 4, an incoming DACK at 5. *)
Definition demo_sent : list (list Z) := [[10]; [11; 12]; [13]].
Definition demo_tx : encoding_tx :=
  (init_encoding_tx demo_tx_mem 7) <| tx_seq := 3 |>
    <| tx_retransmission_buffer := [2; 3; 4] ++ repeat 0 497 |>.
Definition demo_copy (n : Z) (payload : list Z) : skb := mk_skb 100 (data_frame 7 n payload) [].
Definition demo_tx_state (dack : skb) : kstate :=
  demo_state <| k_tx_mem := {[1 := demo_tx]} |> <| k_tx_enc := {[7 := [1]]} |> <| k_next := 6 |>
    <| k_skbs := <[2 := demo_copy 0 [10]]> (<[3 := demo_copy 1 [11; 12]]>
                 (<[4 := demo_copy 2 [13]]> {[5 := dack]})) |>.

(** ** They satisfy the invariants *)

Lemma demo_mem_ok : mem_ok demo_state.
Proof. split; [done|]. intros. apply lookup_empty. Qed.

Lemma demo_calm : calm demo_state.
Proof. done. Qed.

Lemma demo_stream : stream_ok demo_state 7 [].
Proof. left. split; [done|]. split; [by vm_compute|]. apply table_ok_empty. Qed.

Lemma demo_lookup_singleton {A} (x : A) q k : 2 <= q -> k < 2 -> ({[k := x]} : gmap Z A) !! q = None.
Proof. intros. apply lookup_singleton_ne. lia. Qed.

Lemma demo_rx_ok : rx_ok demo_rx_state 1 demo_rx 7 [].
Proof.
  split; try done.
  - by apply window_ok_init.
  - by left.
Qed.

Lemma demo_lossy_window : window_ok demo_rx_lossy demo_got.
Proof.
  split; try done.
  - intros n Hn _. cbn in Hn.
    assert (n = 0 \/ n = 1 \/ n = 2 \/ n = 3 \/ n = 4 \/ n = 5 \/ n = 6) as Hcases by lia.
    repeat (destruct Hcases as [ -> |Hcases]; [by vm_compute|]). by subst.
  - intros n Hn. unfold demo_got in Hn. cbn. rewrite !elem_of_cons, elem_of_nil in Hn. lia.
Qed.

Lemma demo_lossy_ok : rx_ok demo_lossy_state 1 demo_rx_lossy 7 demo_got.
Proof.
  split; try done.
  - apply demo_lossy_window.
  - by left.
Qed.

Lemma demo_kept i : kept 3 i <-> i = 0%nat \/ i = 1%nat \/ i = 2%nat.
Proof. unfold kept. lia. Qed.

Lemma demo_buffer_ok dack : buffer_ok (demo_tx_state dack) 1 demo_tx 7 demo_sent.
Proof.
  split; try done.
  - intros i payload Hi Hk. apply demo_kept in Hk.
    destruct Hk as [ -> |[ -> | -> ]]; injection Hi as <-; (split; [done|]); eexists; by split_and!.
  - intros i j Hi Hj. apply demo_kept in Hi, Hj.
    destruct Hi as [ -> |[ -> | -> ]], Hj as [ -> |[ -> | -> ]]; cbn; done.
Qed.

Lemma demo_tx_mem_ok dack : mem_ok (demo_tx_state dack).
Proof.
  split; [done|]. intros q Hq. cbn in *. rewrite !lookup_insert_ne by lia.
  apply lookup_singleton_ne. lia.
Qed.

Lemma demo_not_kept : not_kept demo_tx 3 5.
Proof. intros i Hi. apply demo_kept in Hi. by destruct Hi as [ -> |[ -> | -> ]]. Qed.

Lemma demo_frames_fit : frames_fit demo_sent.
Proof. repeat constructor; done. Qed.
