(* ===== verification/Reliability.v ===== *)
(** * Reliability: losses, DACKs and retransmissions

    The theorems about loss repair: what a DACK reports, what the transmitter
    does with it, the whole round from a lost frame to its retransmission, and
    the bound on what one DACK can cause. *)

From S2P Require Import Prelude Skb VmacDefs Kernel Tables Tx Dack Rx DackSpec TxSpec RxSpec RetxSpec DackFrame DeliverySpec Demo.
(** ** The holes of a scan *)

(** The holes a DACK of round [round] lists for the entry [r]. *)
Definition dack_holes_of (r : encoding_rx) (round : Z) : list vmac_hole :=
  sc_holes (scan_holes r (u16 (round * 5))).

Section scan_facts.
Context (r : encoding_rx) (lattmp : Z).
Hypothesis Hlat : is_u16 lattmp.
Hypothesis Hclean : scan_clean r lattmp.
Let hs := sc_holes (scan_holes r lattmp).

Lemma scan_holes_range h : h ∈ hs ->
  scan_lower lattmp <= h_le h <= h_re h /\ h_re h < lattmp.
Proof.
  intros Hh. destruct (scan_holes_inv r lattmp Hlat Hclean) as (f & (Hi & _ & Hs & _) & _).
  apply list_elem_of_lookup in Hh as [k Hk]. destruct (Hs k h Hk) as (? & ? & _). lia.
Qed.

Lemma scan_holes_NoDup : NoDup (dack_lost hs).
Proof.
  destruct (scan_holes_inv r lattmp Hlat Hclean) as (f & (_ & _ & Hs & Ho & _) & _).
  fold hs in Hs, Ho. apply NoDup_bind.
  - intros h1 h2 n H1 H2 Hn1 Hn2. unfold hole_frames in *. apply elem_of_seqZ in Hn1, Hn2.
    apply list_elem_of_lookup in H1 as [j Hj], H2 as [k Hk].
    destruct (Nat.lt_trichotomy j k) as [Hlt|[->|Hlt]]; [|congruence|].
    + pose proof (Ho j k h1 h2 Hj Hk Hlt). lia.
    + pose proof (Ho k j h2 h1 Hk Hj Hlt). lia.
  - intros h _. apply NoDup_seqZ.
  - apply NoDup_alt. intros j k h Hj Hk. destruct (Nat.lt_trichotomy j k) as [Hlt|[->|Hlt]]; [|done|].
    + pose proof (Ho j k h h Hj Hk Hlt). destruct (Hs j h Hj). lia.
    + pose proof (Ho k j h h Hk Hj Hlt). destruct (Hs j h Hj). lia.
Qed.

Lemma scan_holes_ok : holes_ok hs.
Proof.
  split; [|apply scan_holes_NoDup]. rewrite list.Forall_forall. intros h Hh.
  pose proof (scan_holes_range h Hh).
  assert (0 <= scan_lower lattmp) by (unfold scan_lower, WINDOW; case_tests). width_lia.
Qed.

Lemma scan_holes_length : (length hs <= 40)%nat.
Proof. destruct (scan_holes_inv r lattmp Hlat Hclean) as (f & (_ & Hl & _) & _). done. Qed.

Lemma dack_lost_sound n : n ∈ dack_lost hs -> scan_lower lattmp <= n < lattmp - 1 /\ lost r n.
Proof.
  destruct (scan_holes_inv r lattmp Hlat Hclean) as (f & (_ & _ & Hs & _) & _).
  intros Hn. apply list_elem_of_bind in Hn as (h & Hn & Hh).
  pose proof (scan_holes_range h Hh). unfold hole_frames in Hn. apply elem_of_seqZ in Hn.
  apply list_elem_of_lookup in Hh as [k Hk]. destruct (Hs k h Hk) as (_ & _ & Hin).
  split; [lia|]. apply Hin. lia.
Qed.

Lemma dack_lost_complete n :
  (length hs < 40)%nat -> scan_lower lattmp <= n < lattmp - 1 -> lost r n -> n ∈ dack_lost hs.
Proof.
  destruct (scan_holes_inv r lattmp Hlat Hclean) as (f & (_ & _ & _ & _ & Hc & _) & Hf).
  intros Hl Hn Hlost. destruct Hf as [->|Hf]; [|fold hs in Hf; lia].
  destruct (Hc n) as (h & Hh & ?); [lia|lia|done|]. apply list_elem_of_bind.
  exists h. split; [|done]. apply elem_of_seqZ. lia.
Qed.
End scan_facts.

(** ** What a DACK says *)

(** C4. The holes of a DACK for a round within 16 bits are disjoint
    intervals of the reported part of the window, at most 40 of them. Of the
    last WINDOW frames up to the newest one received, every frame in a hole
    was not received; and when there are fewer than 40 holes, every frame of
    the reported part that was not received is in a hole, except the last
    frame of that part, which is never reported. The search must not read a
    zero below the window ([scan_clean]), a read that the source makes when
    it starts at a multiple of WINDOW. *)
Theorem dack_reports_losses (r : encoding_rx) (got : list Z) (round : Z) :
  window_ok r got -> 0 <= round -> round * 5 <= rx_latest r + 1 -> round * 5 < 65536 ->
  scan_clean r (round * 5) ->
  let hs := dack_holes_of r round in
  let reported n := scan_lower (round * 5) <= n < round * 5 - 1 in
  (length hs <= 40)%nat /\ NoDup (dack_lost hs) /\
  (forall n, n ∈ dack_lost hs -> reported n /\ (rx_latest r - WINDOW < n -> n ∉ got)) /\
  ((length hs < 40)%nat -> forall n, reported n -> rx_latest r - WINDOW < n -> n ∉ got ->
     n ∈ dack_lost hs).
Proof.
  intros Hok Hr Hlat H16 Hclean hs reported.
  assert (u16 (round * 5) = round * 5) as E by (apply wrap_small; width_lia).
  assert (is_u16 (round * 5)) as Hu by width_lia.
  assert (0 <= scan_lower (round * 5)) as Hlow by (unfold scan_lower, WINDOW; case_tests).
  unfold hs, dack_holes_of. rewrite E. split_and!.
  - by apply scan_holes_length.
  - by apply scan_holes_NoDup.
  - intros n Hn. destruct (dack_lost_sound r _ Hu Hclean n Hn) as [? Hlost]. split; [done|].
    intros Hw. apply (window_ok_lost r got n); [done|lia|done|done].
  - intros Hl n Hn Hw Hnot. apply dack_lost_complete; try done.
    unfold reported in Hn. apply (window_ok_lost r got n); [done|lia|done|done].
Qed.

Lemma dack_reports_losses_witness :
  dack_lost (dack_holes_of demo_rx_lossy 1) = [2; 3] /\
  (forall n, n ∈ dack_lost (dack_holes_of demo_rx_lossy 1) ->
     (scan_lower 5 <= n < 4) /\ (6 - WINDOW < n -> n ∉ demo_got)).
Proof.
  split; [by vm_compute|].
  apply (dack_reports_losses demo_rx_lossy demo_got 1 demo_lossy_window);
    [lia|vm_compute; done|lia|by left].
Defined.

(** ** The repair of a loss *)

Section repair.
Context `{Kernel}.

(** C1. A lost frame is repaired. The DACK that a receiver prepares for a
    round within 16 bits is transmitted by its timer, once, as one frame. A
    transmitter that hears it answers with retransmissions of the original
    frames, in order, and nothing else: of the first at most 20 reported
    frames that are due ([retx_plan]), which means sent, among the last 500,
    and not being paced. All of them were reported lost, and when at most 20
    reported frames are due all of those are retransmitted. Two reads
    outside arrays are excluded: the search for holes does not read a zero
    below its window ([scan_clean]: the byte below it is not zero or the
    search starts within the first window), and frame number 500, whose test
    reads behind the retransmission buffer, is not among those to send. *)
Theorem loss_repaired (enc p round : Z) (r : encoding_rx) (got : list Z) (sr : kstate) :
rx_ok sr p r enc got -> is_Some (k_mon sr) -> 39 <= net_skb_pad ->
is_u64 enc -> 0 <= round -> round * 5 < 65536 -> scan_clean r (round * 5) ->
exists sr1 sr2 f,
  prepDACK enc round sr = Done tt sr1 /\ sendDACK p sr1 = Done tt sr2 /\
  k_air sr2 = k_air sr ++ [f] /\
  forall st pt t sent skb b fcs,
    buffer_ok st pt t enc sent -> mem_ok st -> calm st -> is_Some (k_mon st) ->
    frames_fit sent -> skb <> 0 -> k_skbs st !! skb = Some b ->
    not_kept t (length sent) skb -> sk_data b = drop 30 (tf_bytes f) ++ fcs ->
    let reported := dack_lost (dack_holes_of r round) in
    let ns := retx_plan t round maxretx reported in
    500 ∉ ns ->
    exists st', vmac_rx skb st = Done tt st' /\
      k_air st' = k_air st ++ map (retx_frame enc sent) ns /\
      k_log st' = k_log st /\
      (forall n, n ∈ ns -> n ∈ reported) /\
      ((length (filter (fun n => due t round n = true) reported) <= 20)%nat ->
       forall n, n ∈ reported -> due t round n = true -> n ∈ ns).
Proof.
intros Hok Hmon Hpad Henc Hr H16 Hclean.
assert (u16 (round * 5) = round * 5) as E16 by (apply wrap_small; width_lia).
assert (is_u16 (round * 5)) as Hu by width_lia.
destruct (prepDACK_done sr enc round p r) as (sr1 & E1 & Hb & _); try apply Hok.
rewrite E16 in Hb. set (r' := dack_armed _ _ _ _ _) in Hb.
set (hs := sc_holes (scan_holes r (round * 5))).
destruct (db_frame _ _ _ _ _ _ _ _ Hb) as (b & Hbq & Hdata & Hroom). fold hs in Hdata.
pose proof (scan_holes_length r _ Hu Hclean) as Hlen. fold hs in Hlen.
assert (di_send (rx_dac_info r') = 1 /\ di_dack (rx_dac_info r') = k_next sr) as [Hs Hd].
{ unfold r', dack_armed. by destruct (_ =? 1). }
destruct (db_io _ _ _ _ _ _ _ _ Hb) as (Hair & _ & Em & _).
destruct Hmon as [a Ha]. destruct (ro_mem _ _ _ _ _ Hok) as [Hn _].
eexists sr1, _, _. split_and!; [exact E1| | |].
- eapply sendDACK_done with (r := r') (b := b); rewrite ?Hd; try done; try apply Hok.
  + rewrite (db_rx _ _ _ _ _ _ _ _ Hb). apply lookup_insert_eq.
  + apply Hb.
  + by rewrite Em.
  + lia.
  + lia.
  + unfold fits, skb_len, TXDESC_OFFSET, MAX_XMIT_EXTBUF_SZ.
    rewrite Hdata, length_dack_frame. lia.
- cbn -[vmac_ieee80211_hdr]. rewrite Hair. reflexivity.
- intros st pt t sent skb bt fcs Hbuf Hmem Hcalm Hmon Hfits Hskb Hbt Hnk Hbytes reported ns H500.
  cbn -[vmac_ieee80211_hdr] in Hbytes.
  rewrite drop_app_length' in Hbytes by (by rewrite length_vmac_ieee80211_hdr).
  rewrite Hdata in Hbytes.
  assert (reported = dack_lost hs) as Er by (unfold reported, dack_holes_of; by rewrite E16).
  unfold ns in *. rewrite Er in *.
  destruct (vmac_rx_dack_done st skb bt pt t enc sent round hs fcs) as (st' & E & Hans);
    try done; [width_lia|lia|by apply scan_holes_ok|].
  exists st'. split_and!; [exact E|apply Hans|apply Hans| |].
  + intros n Hin. by apply retx_plan_subseteq in Hin as [? _].
  + intros Hfew n Hin Hdue. unfold retx_plan. rewrite firstn_all2.
    * apply list_elem_of_filter. done.
    * unfold maxretx. lia.
Qed.

(** C5. No DACK, however malformed, makes a transmitter put more than 20 frames
  on the air: from any state, whether the handler returns or crashes. *)
Theorem dack_amplification (skb enc : Z) (s : kstate) :
match vmac_rx_dack skb enc s with
| Done _ s' | Crash _ s' => (length (k_air s') <= length (k_air s) + 20)%nat
end.
Proof. pose proof (vmac_rx_dack_bound skb enc s) as Hb. by destruct (vmac_rx_dack skb enc s). Qed.

(** A retransmitted frame is paced: until round [round + 6] no DACK makes the
  transmitter send it again, provided the pacing value fits its byte. *)
Theorem retransmission_paced (t : encoding_tx) (round round' n : Z) :
length (tx_timer t) = 500%nat -> 0 <= n -> 0 <= round -> round + 6 < 256 ->
round' < round + 6 ->
due (retx_entry round t n) round' n = false.
Proof.
intros Hl Hn Hr H256 Hlt. unfold due, retx_due. cbn -[Z.modulo].
rewrite tx_slot_mod by done. pose proof (slot_range n).
rewrite arr_get_set_eq by (unfold in_range; lia).
assert (u8 (round + 6) = round + 6) as -> by (apply wrap_small; width_lia).
destruct (Z.leb_spec (round + 6) round'); [lia|]. cbn [andb]. apply andb_false_r.
Qed.

(** The pacing byte wraps: from round 250 on, the frame just retransmitted
  is due again in the very same round. *)
Theorem pacing_lost (t : encoding_tx) (round n : Z) :
length (tx_timer t) = 500%nat -> 0 <= n -> 250 <= round < 506 ->
due t round n = true -> due (retx_entry round t n) round n = true.
Proof.
intros Hl Hn Hr Hd. unfold due, retx_due in *. cbn -[Z.modulo].
rewrite tx_slot_mod in * by done. pose proof (slot_range n).
rewrite arr_get_set_eq by (unfold in_range; lia).
assert (u8 (round + 6) = round + 6 - 256) as ->.
{ unfold wrap. change (2 ^ 8) with 256. symmetry. apply Z.mod_unique with 1; lia. }
apply andb_true_iff in Hd as [-> Hd]. apply andb_true_iff in Hd as [_ ->].
destruct (Z.leb_spec (round + 6 - 256) round); [done|lia].
Qed.
End repair.

Lemma loss_repaired_witness : exists f st',
  (exists sr1 sr2, prepDACK 7 1 demo_lossy_state = Done tt sr1 /\
     sendDACK 1 sr1 = Done tt sr2 /\ k_air sr2 = [f]) /\
  vmac_rx 5 (demo_tx_state (mk_skb 100 (drop 30 (tf_bytes f) ++ [0; 0; 0; 0]) [])) = Done tt st' /\
  k_air st' = [retx_frame 7 demo_sent 2].
Proof.
  destruct (loss_repaired 7 1 1 demo_rx_lossy demo_got demo_lossy_state demo_lossy_ok)
    as (sr1 & sr2 & f & E1 & E2 & Ea & Htx);
    [by eexists|done|width_lia|lia|lia|by left|].
  set (dack := mk_skb 100 (drop 30 (tf_bytes f) ++ [0; 0; 0; 0]) []).
  assert (retx_plan demo_tx 1 maxretx (dack_lost (dack_holes_of demo_rx_lossy 1)) = [2]) as Ens
    by (vm_compute; reflexivity).
  destruct (Htx (demo_tx_state dack) 1 demo_tx demo_sent 5 dack [0; 0; 0; 0]) as (st' & E & A & _);
    [apply demo_buffer_ok|apply demo_tx_mem_ok|done|by eexists|apply demo_frames_fit|done
    |done|apply demo_not_kept|done|rewrite Ens; intros Hin; apply list_elem_of_singleton in Hin; lia|].
  rewrite Ens in A. exists f, st'. split; [by exists sr1, sr2|]. by split.
Defined.

Lemma retransmission_paced_witness : due (retx_entry 5 demo_tx 1) 10 1 = false.
Proof. apply (retransmission_paced demo_tx 5 10 1); (done || lia). Defined.

Lemma pacing_lost_witness : due (retx_entry 250 demo_tx 1) 250 1 = true.
Proof. apply (pacing_lost demo_tx 250 1); (done || lia). Defined.
