(* ===== verification/Defects.v ===== *)
(** * Behaviours of the code that its comments do not promise

    Each theorem states, for every state that satisfies its hypotheses, what
    the handler does where the code departs from its documentation. *)

From S2P Require Import Prelude Skb VmacDefs Kernel Tables Tx Dack Rx Netlink Clean DackSpec TxSpec RxSpec RetxSpec DackFrame DeliverySpec Demo.
Section defects.
Context `{Kernel}.

(** Frame number 500 and the stale pointer: when the eight bytes behind the
  retransmission buffer (the first pacing slots) are zero, a DACK that asks
  for frame 500 after another frame of the same DACK was retransmitted makes
  the transmitter push headers onto the copy it has already freed. *)
Theorem frame_500_use_after_free (f : nat) (p re round counter skb2 : Z) (t : encoding_tx)
  (s : kstate) :
p <> 0 -> k_tx_mem s !! p = Some t -> le_dec (take 8 (tx_timer t)) = 0 ->
due t round 500 = true -> 500 < re -> counter < maxretx ->
skb2 <> 0 -> k_skbs s !! skb2 = None ->
exists s', dack_frames (S f) p 500 re (tx_seq t) round counter skb2 s = Crash BadPointer s'.
Proof.
intros Hp Ht Hz Hdue Hre Hc Hskb2 Hfree. eexists. cbn [dack_frames].
destruct (Z.ltb_spec 500 re); [|lia].
unfold due in Hdue. apply andb_true_iff in Hdue as [-> Hdue]. cbn [andb].
erewrite bind_done; [|by apply get_tx_done]. rewrite Hdue.
destruct (Z.leb_spec maxretx counter); [lia|].
change (500 =? WINDOW_TX) with true. cbv iota. unfold log. kstep.
rewrite decide_True by exact Hz. kstep. unfold put_tx. kstep. cbn [fst snd].
rewrite decide_False by done. apply bind_crash, bind_crash.
unfold vmac_send_hack, vmac_low_tx. apply bind_crash. unfold push_skb. apply bind_crash.
unfold get_skb. rewrite decide_False by done. cbn. by rewrite Hfree.
Qed.

(** Names are not compared: a data frame of an encoding that falls into the
  bucket of another one is numbered by the counter of that other encoding and
  takes a place in its retransmission buffer. *)
Theorem names_alias (s : kstate) (enc1 enc2 p skb seqtmp rate bw sgi stream : Z) (t : encoding_tx)
  (sent : list (list Z)) (b : Skb.skb) :
buffer_ok s p t enc1 sent -> mem_ok s -> calm s -> is_Some (k_mon s) ->
hash_min enc2 = hash_min enc1 -> (length sent < 500)%nat ->
skb <> 0 -> k_skbs s !! skb = Some b -> 41 <= sk_room b -> fits (skb_len b + 41) ->
exists s' t', vmac_tx skb enc2 VMAC_HDR_DATA seqtmp rate bw sgi stream s = Done tt s' /\
  k_air s' = k_air s ++ [xmit_attrib
    (vmac_ieee80211_hdr ++ data_frame enc2 (Z.of_nat (length sent)) (sk_data b))
    rate bw sgi stream] /\
  k_tx_mem s' = <[p := t']> (k_tx_mem s) /\ tx_key t' = tx_key t /\
  tx_seq t' = Z.of_nat (length sent) + 1.
Proof.
intros Hok [Hn Hf] Hcalm [a Hmon] Eh Hlen Hskb Hb Hroom Hfit.
pose proof (bo_seq _ _ _ _ _ Hok) as Hseq.
eexists _, _. split_and!.
- eapply vmac_tx_data_sent with (p := p); try done; try apply Hok.
  + rewrite Eh. apply Hok.
  + apply Hf. lia.
  + left. unfold displaced, WINDOW_TX. rewrite Hseq. case_tests.
- cbn -[data_frame vmac_ieee80211_hdr]. by rewrite Hseq.
- reflexivity.
- done.
- cbn. rewrite Hseq. unfold wrap. rewrite Z.mod_small; lia.
Qed.

(** With no process registered, [nl_send] frees an uninitialised pointer;
  with one registered, it frees the message that [nlmsg_unicast] consumed. *)
Theorem nl_send_bad_free (skb enc type seq : Z) (b : Skb.skb) (s : kstate) :
mem_ok s -> calm s -> k_nl_sk s = true -> skb <> 0 -> k_skbs s !! skb = Some b -> 4 <= skb_len b ->
exists s', nl_send skb enc type seq s = Done tt s' /\
  k_log s' = k_log s ++ [if decide (k_pidt s = -1) then UninitFree else DoubleFree].
Proof.
intros Hmem Hcalm Hsk Hskb Hb Hlen. case_decide as Hp.
- eexists. split; [by eapply nl_send_unregistered|]. done.
- eexists. split; [by eapply nl_send_done|]. done.
Qed.

(** Once frame 65535 was received, every later frame of the encoding whose
  number wrapped around within the window is dropped as a duplicate. *)
Theorem wrapped_frames_dropped (r : encoding_rx) (got : list Z) (seq : Z) :
window_ok r got -> rx_latest r = 65535 -> 0 <= seq <= 65535 - 700 ->
(forall n, 65535 - 700 < n <= 65535 -> n ∈ got) ->
rx_accept r seq = None.
Proof.
intros Hok Hlat Hseq Hall. unfold rx_accept. rewrite Hlat.
destruct (Z.ltb_spec 65535 seq); [lia|]. rewrite win_slot_mod by lia.
set (n := 65535 - (65535 - seq) mod 700).
pose proof (Z.mod_pos_bound (65535 - seq) 700). pose proof (Z.div_mod (65535 - seq) 700).
assert (seq mod WINDOW = n mod WINDOW) as ->.
{ unfold WINDOW, n. replace (65535 - (65535 - seq) mod 700) with
    (seq + (65535 - seq) / 700 * 700) by lia. by rewrite Z.mod_add. }
rewrite (wo_slots _ _ Hok) by (unfold WINDOW, n; lia).
rewrite decide_True; [done|]. apply Hall. unfold n. lia.
Qed.

(** A DACK timer can be set in the past: with a negative random word and no
  counted loss to compensate it, the delay is negative. *)
Theorem dack_delay_negative (alpha : Z) :
0 < alpha <= 100 -> dack_duration alpha (dack_loss 5) (Z.rem (-1) 2) = - (2 * alpha).
Proof.
intros Ha. unfold dack_duration. change (dack_loss 5) with 0. change (Z.rem (-1) 2) with (-1).
rewrite wrap_small by width_lia. destruct (Z.eqb_spec (2 * alpha * (0 + -1)) 0); lia.
Qed.
End defects.

Lemma frame_500_use_after_free_witness :
  let t := demo_tx <| tx_seq := 501 |> in
  let s := demo_state <| k_tx_mem := {[1 := t]} |> in
  exists s', dack_frames 3 1 500 501 501 0 1 9 s = Crash BadPointer s'.
Proof.
  intros t s. apply (frame_500_use_after_free 2 1 501 0 1 9 t s);
    (done || lia || by vm_compute).
Defined.

Lemma names_alias_witness :
  let dack := mk_skb 100 [1; 2] [] in
  exists s' t', vmac_tx 5 39 VMAC_HDR_DATA 0 0 0 0 0 (demo_tx_state dack) = Done tt s' /\
    k_air s' = [xmit_attrib (vmac_ieee80211_hdr ++ data_frame 39 3 [1; 2]) 0 0 0 0] /\
    k_tx_mem s' = <[1 := t']> (k_tx_mem (demo_tx_state dack)) /\ tx_key t' = 7 /\ tx_seq t' = 4.
Proof.
  apply (names_alias (demo_tx_state (mk_skb 100 [1; 2] [])) 7 39 1 5 0 0 0 0 0 demo_tx demo_sent
    (mk_skb 100 [1; 2] [])); try done.
  - apply demo_buffer_ok.
  - apply demo_tx_mem_ok.
  - cbn. lia.
Defined.

Lemma nl_send_bad_free_witness :
  exists s', nl_send 5 7 1 0 (demo_tx_state (mk_skb 100 [1; 2; 3; 4; 5] [])) = Done tt s' /\
    k_log s' = [DoubleFree].
Proof.
  apply (nl_send_bad_free 5 7 1 0 (mk_skb 100 [1; 2; 3; 4; 5] [])); try done.
  apply demo_tx_mem_ok.
Defined.

Definition demo_full : encoding_rx :=
  demo_rx <| rx_latest := 65535 |> <| rx_window := repeat 1 700 |>.

Lemma wrapped_frames_dropped_witness : rx_accept demo_full 0 = None.
Proof.
  apply (wrapped_frames_dropped demo_full (seqZ 64836 700)); [|done|lia|].
  - split; [done|vm_compute; done| |].
    + cbn. unfold WINDOW. intros n Hn Hw. rewrite decide_True by (apply elem_of_seqZ; lia).
      unfold arr_get. pose proof (Z.mod_pos_bound n 700).
      change (default 0 (replicate 700 1 !! Z.to_nat (n mod 700)) = 1).
      rewrite lookup_replicate_2; [done|lia].
    + intros n Hn. apply elem_of_seqZ in Hn. cbn. lia.
  - intros n Hn. apply elem_of_seqZ. lia.
Defined.

Lemma dack_delay_negative_witness : dack_duration 3 (dack_loss 5) (Z.rem (-1) 2) = -6.
Proof. apply (dack_delay_negative 3). lia. Defined.

(** Frame 700 was lost, frames 701 to 704 were received, and the word below the
    window is zero: the DACK claims that five frames before it were lost. *)
Definition demo_pad_zero : encoding_rx :=
  demo_rx <| rx_window_pad := 0 |> <| rx_latest := 705 |>
          <| rx_window := [0] ++ repeat 1 699 |>.

(** The word below the window: a DACK reports frame 699, which was received,
    because the search reads the word below the window for the predecessor of
    frame 700. *)
Theorem scan_reads_below_window :
  lost demo_pad_zero 700 /\ ~ lost demo_pad_zero 699 /\
  699 ∈ dack_lost (sc_holes (scan_holes demo_pad_zero 705)) /\
  sc_oob (scan_holes demo_pad_zero 705) = true.
Proof. split_and!; [done|done| |by vm_compute]. vm_compute. by left. Qed.
