(* ===== verification/Delivery.v ===== *)
(** * Delivery: from one process to another

    The theorems about data: what a stream of messages puts on the air, what a
    run of arrivals delivers, and the two composed; the life of the encoding
    entries. *)

From S2P Require Import Prelude Skb VmacDefs Kernel Tables Tx Dack Rx Netlink Clean DackSpec TxSpec NetlinkSpec RxSpec RetxSpec DackFrame DeliverySpec System Demo.
(** The first occurrence of each element. *)
Fixpoint firsts {A} `{EqDecision A} (seen l : list A) : list A :=
  match l with
  | [] => []
  | x :: l' => if decide (x ∈ seen) then firsts seen l' else x :: firsts (x :: seen) l'
  end.

Section delivery_theorems.
Context `{Kernel}.

(** Transmission of a stream: the data messages of a process for one
  encoding are put on the air one frame each, in order, numbered from where
  the stream stood, with their payloads and the rate, bandwidth, guard
  interval and stream of the message; the retransmission buffer then holds
  the last 500 of them, and no memory error occurred. *)
Theorem stream_transmitted (s : kstate) (enc : Z) (sent : list (list Z))
  (ms : list (nlmsg * list Z)) :
Forall (fun mp => data_msg mp.1 enc mp.2) ms ->
stream_ok s enc sent -> mem_ok s -> calm s -> is_Some (k_mon s) ->
Z.of_nat (length sent + length ms) <= 65535 ->
exists s', nl_recv_all ms.*1 s = Done tt s' /\
  k_air s' = k_air s ++ stream_air enc (length sent) ms /\
  stream_ok s' enc (sent ++ ms.*2) /\ k_log s' = k_log s /\ mem_ok s'.
Proof. apply nl_recv_stream. Qed.

(** C7. Delivery of a run of arrivals: whatever the order, the losses and the
  repetitions, as long as no frame is more than a window behind the latest,
  the process gets the first arrival of each frame, once, with its number
  and its bytes but for the check sequence, in the order of arrival. *)
Theorem arrivals_delivered_once (s : kstate) (p enc : Z) (r : encoding_rx) (got : list Z)
  (bs : list skb) (fs : list (Z * list Z)) :
rx_ok s p r enc got -> Forall2 (arrival_ok enc) bs fs -> is_u64 enc ->
bounded_reorder (rx_latest r) (map fst fs) = true ->
exists s' r' got', arrive_all bs s = Done tt s' /\
  k_user s' = k_user s ++
    map (fun f => user_msg (k_pidt s) enc VMAC_HDR_DATA (fst f) (snd f)) (first_received got fs) /\
  rx_ok s' p r' enc got' /\ (forall n, n ∈ got' <-> n ∈ got \/ n ∈ map fst fs).
Proof.
intros Hok Hbs Henc Hb.
destruct (arrive_all_done enc fs bs s p r got Hok Hbs Henc Hb)
  as (s' & r' & got' & E & U & _ & R & G). by exists s', r', got'.
Qed.

(** The bytes a receiver hears of a transmitted frame, above the 802.11 header,
  with the check sequence. *)
Definition heard_bytes (f : tx_frame) (fcs : list Z) : list Z := drop 30 (tf_bytes f) ++ fcs.

Lemma stream_air_lookup enc ms : forall n i f,
stream_air enc n ms !! i = Some f ->
exists payload, ms.*2 !! i = Some payload /\
  tf_bytes f = vmac_ieee80211_hdr ++ data_frame enc (Z.of_nat (n + i)) payload.
Proof.
induction ms as [|[m payload] ms IH]; intros n i f Hf; [done|]. cbn [stream_air] in Hf.
destruct i as [|i].
- injection Hf as <-. exists payload. split; [done|]. by rewrite Nat.add_0_r.
- destruct (IH (S n) i f Hf) as (pl & Hpl & E). exists pl. split; [done|].
  rewrite E. do 3 f_equal. lia.
Qed.

Lemma first_received_firsts {B} (u : Z * list Z -> B) (v : nat -> B) fs heard :
Forall2 (fun f i => fst f = Z.of_nat i /\ u f = v i) fs heard ->
forall seen got, (forall i, Z.of_nat i ∈ got <-> i ∈ seen) ->
map u (first_received got fs) = map v (firsts seen heard).
Proof.
induction 1 as [|f i fs heard [Ef Eu] _ IH]; intros seen got Hs; [done|].
cbn [first_received firsts]. rewrite Ef. destruct (decide (i ∈ seen)) as [Hi|Hi].
- rewrite decide_True by (by apply Hs). by apply IH.
- rewrite decide_False by (by rewrite Hs). cbn [map]. rewrite Eu. f_equal. apply IH.
  intros j. rewrite !elem_of_cons, Hs. split; intros [|]; auto; left; lia.
Qed.

(** The frames heard of a stream, as arrivals of its data frames. *)
Lemma heard_arrivals (pid enc : Z) (ms : list (nlmsg * list Z)) (heard : list nat) (bs : list skb) :
Forall (fun mp => data_msg mp.1 enc mp.2) ms ->
Forall2 (fun b i => exists f fcs, stream_air enc 0 ms !! i = Some f /\ length fcs = 4%nat /\
           sk_data b = heard_bytes f fcs) bs heard ->
let payload i := default [] (ms.*2 !! i) in
exists fs, Forall2 (arrival_ok enc) bs fs /\ map fst fs = map Z.of_nat heard /\
  Forall2 (fun f i => fst f = Z.of_nat i /\
    user_msg pid enc VMAC_HDR_DATA (fst f) (snd f) =
    mk_nl_msg pid (Z.of_nat (length (payload i)) + 100)
      (enc_control (nl_control enc VMAC_HDR_DATA (Z.of_nat i)) ++ payload i)) fs heard.
Proof.
intros Hms Hheard payload. induction Hheard as [|b i bs heard (f & fcs & Hf & Hfcs & Hbd) _ IH].
- exists []. split_and!; constructor.
- destruct IH as (fs & F1 & F2 & F3).
  destruct (stream_air_lookup _ _ _ _ _ Hf) as (pl & Hpl & Ef).
  assert (payload i = pl) as Epl by (unfold payload; by rewrite Hpl).
  assert (length pl <= 1447)%nat as Hsmall.
  { rewrite list_lookup_fmap in Hpl. destruct (ms !! i) as [mp|] eqn:Emp; [|done].
    injection Hpl as <-. rewrite list.Forall_forall in Hms.
    destruct (Hms mp) as [[_ Hs _] _ _]; [by eapply list_elem_of_lookup_2|]. lia. }
  exists ((Z.of_nat i, pl ++ fcs) :: fs). split_and!.
  + constructor; [|done]. split; cbn [fst snd]; [|rewrite length_app; lia].
    rewrite Hbd. unfold heard_bytes. rewrite Ef, drop_app_length'
      by (by rewrite length_vmac_ieee80211_hdr). unfold data_frame.
    by rewrite <- !app_assoc.
  + cbn [map fst]. by rewrite F2.
  + constructor; [|done]. cbn [fst snd]. split; [done|]. rewrite Epl.
    unfold user_msg, nl_send_len. rewrite length_app, Hfcs.
    replace (length pl + 4 - 4)%nat with (length pl) by lia. rewrite take_app_length.
    rewrite (wrap_small 32) by width_lia. case_test; [lia|]. f_equal. lia.
Qed.

(** From a process to another process: the data messages of a stream that
  starts are transmitted; a receiver that hears the frames [heard] (indices
  into the stream, in any order, with losses and repetitions, each less than
  a window behind the latest heard before it) delivers to its process each
  frame heard, once, as a message with the payload of the original message,
  its length plus 100 in the header, and its number. *)
Theorem end_to_end_delivery (st sr : kstate) (p enc : Z) (r : encoding_rx)
  (ms : list (nlmsg * list Z)) (heard : list nat) (bs : list skb) :
Forall (fun mp => data_msg mp.1 enc mp.2) ms ->
stream_ok st enc [] -> mem_ok st -> calm st -> is_Some (k_mon st) ->
Z.of_nat (length ms) <= 65535 -> is_u64 enc ->
rx_ok sr p r enc [] -> rx_latest r = 0 ->
Forall2 (fun b i => exists f fcs, stream_air enc 0 ms !! i = Some f /\ length fcs = 4%nat /\
           sk_data b = heard_bytes f fcs) bs heard ->
bounded_reorder 0 (map Z.of_nat heard) = true ->
exists st' sr', nl_recv_all ms.*1 st = Done tt st' /\
  k_air st' = k_air st ++ stream_air enc 0 ms /\
  arrive_all bs sr = Done tt sr' /\
  k_user sr' = k_user sr ++ map (fun i =>
    let payload := default [] (ms.*2 !! i) in
    mk_nl_msg (k_pidt sr) (Z.of_nat (length payload) + 100)
      (enc_control (nl_control enc VMAC_HDR_DATA (Z.of_nat i)) ++ payload)) (firsts [] heard).
Proof.
intros Hms Hst Hmem Hcalm Hmon Hlen Henc Hrx Hlat Hheard Hb.
destruct (nl_recv_stream ms st enc [] Hms Hst Hmem Hcalm Hmon Hlen) as (st' & E & A & _).
destruct (heard_arrivals (k_pidt sr) enc ms heard bs Hms Hheard) as (fs & Hbs & Hfst & Hsnd).
destruct (arrive_all_done enc fs bs sr p r []) as (sr' & r' & got' & E' & U & _); try done.
{ by rewrite Hlat, Hfst. }
exists st', sr'. split_and!; try done. rewrite U. f_equal.
apply first_received_firsts with (seen := []) (got := []); [exact Hsnd|].
intros i. split; intros Hi; by apply not_elem_of_nil in Hi.
Qed.

(** Expiry of a transmit entry: thirty seconds after the last use, the
  cleanup frees every frame the entry keeps exactly once and no other buffer,
  removes the entry from its bucket and frees it; there is no double free. *)
Theorem cleanup_frees_kept_frames (s : kstate) (p enc : Z) (t : encoding_tx)
  (sent : list (list Z)) :
buffer_ok s p t enc sent -> table_ok tx_key (k_tx_mem s) (k_tx_enc s) ->
tx_key t = enc -> tx_clean_enc t = enc ->
exists s', cleanup_tx p s = Done tt s' /\ k_log s' = k_log s /\
  k_tx_mem s' = delete p (k_tx_mem s) /\ hash_last (k_tx_enc s') (hash_min enc) = 0 /\
  (forall q, not_kept t (length sent) q -> k_skbs s' !! q = k_skbs s !! q) /\
  (forall i, kept (length sent) i ->
     k_skbs s' !! arr_get (tx_retransmission_buffer t) (Z.of_nat i mod WINDOW_TX) = None).
Proof. apply cleanup_tx_done. Qed.

(** C6. The encoding tables in every reachable state, after any messages, frames,
  timers and failures of kernel calls: a bucket holds at most one entry, so
  there are at most 32 of either kind; a lookup that does not return NULL
  returns a live entry whose key has the same hash; and the lookup of the key
  of a live entry returns that entry. *)
Theorem tables_reachable (s : kstate) :
reachable s ->
((size (k_rx_mem s) <= 32)%nat /\ (size (k_tx_mem s) <= 32)%nat) /\
(forall enc, hash_last (k_tx_enc s) (hash_min enc) <> 0 ->
   exists t, k_tx_mem s !! hash_last (k_tx_enc s) (hash_min enc) = Some t /\
     hash_min (tx_key t) = hash_min enc) /\
(forall enc, hash_last (k_rx_enc s) (hash_min enc) <> 0 ->
   exists r, k_rx_mem s !! hash_last (k_rx_enc s) (hash_min enc) = Some r /\
     hash_min (rx_key r) = hash_min enc) /\
(forall p t, k_tx_mem s !! p = Some t -> hash_last (k_tx_enc s) (hash_min (tx_key t)) = p) /\
(forall p r, k_rx_mem s !! p = Some r -> hash_last (k_rx_enc s) (hash_min (rx_key r)) = p).
Proof.
intros Hs. destruct (reachable_inv s Hs) as [Hrx Htx _ _ _]. split_and!.
- by eapply entries_bound.
- by eapply entries_bound.
- intros enc Hnz. by eapply (hash_last_found tx_key).
- intros enc Hnz. by eapply (hash_last_found rx_key).
- intros p t Ht. by eapply hash_last_live.
- intros p r Hr. by eapply hash_last_live.
Qed.

End delivery_theorems.

(** ** Instances *)

Definition demo_msg (type : Z) (payload : list Z) : nlmsg :=
  mk_nlmsg (Z.of_nat (length payload) + 100) type 42
    (enc_control (mk_control type (le_enc 8 7) [0; 0] 5 0 0 0) ++ payload).
Definition demo_stream_msgs : list (nlmsg * list Z) :=
  [(demo_msg 1 [10], [10]); (demo_msg 1 [11; 12], [11; 12]); (demo_msg 1 [13], [13])].

Lemma demo_msgs_ok : Forall (fun mp => data_msg mp.1 7 mp.2) demo_stream_msgs.
Proof. repeat constructor; cbn; try lia; try done; by exists []. Qed.

Lemma stream_transmitted_witness : exists s',
  nl_recv_all demo_stream_msgs.*1 demo_state = Done tt s' /\
  k_air s' = stream_air 7 0 demo_stream_msgs /\ k_log s' = [].
Proof.
  destruct (stream_transmitted demo_state 7 [] demo_stream_msgs demo_msgs_ok demo_stream
    demo_mem_ok demo_calm) as (s' & E & A & _ & L & _); [by eexists|vm_compute; done|].
  exists s'. split; [exact E|]. split; [exact A|exact L].
Defined.

Definition demo_arrival (n : Z) (payload : list Z) : skb :=
  mk_skb 100 (data_frame 7 n (payload ++ [0; 0; 0; 0])) [].

Lemma arrivals_delivered_once_witness : exists s',
  arrive_all [demo_arrival 2 [13]; demo_arrival 0 [10]; demo_arrival 2 [13]] demo_rx_state
    = Done tt s' /\
  k_user s' = [user_msg 42 7 1 2 [13; 0; 0; 0; 0]; user_msg 42 7 1 0 [10; 0; 0; 0; 0]].
Proof.
  destruct (arrivals_delivered_once demo_rx_state 1 7 demo_rx []
    [demo_arrival 2 [13]; demo_arrival 0 [10]; demo_arrival 2 [13]]
    [(2, [13; 0; 0; 0; 0]); (0, [10; 0; 0; 0; 0]); (2, [13; 0; 0; 0; 0])] demo_rx_ok)
    as (s' & _ & _ & E & U & _).
  - repeat constructor; cbn; lia.
  - width_lia.
  - by vm_compute.
  - exists s'. split; [exact E|]. rewrite U. by vm_compute.
Defined.

Lemma end_to_end_delivery_witness : exists st' sr',
  nl_recv_all demo_stream_msgs.*1 demo_state = Done tt st' /\
  k_air st' = stream_air 7 0 demo_stream_msgs /\
  arrive_all [demo_arrival 2 [13]; demo_arrival 0 [10]; demo_arrival 2 [13]] demo_rx_state
    = Done tt sr' /\
  k_user sr' = [mk_nl_msg 42 101 (enc_control (nl_control 7 1 2) ++ [13]);
                mk_nl_msg 42 101 (enc_control (nl_control 7 1 0) ++ [10])].
Proof.
  destruct (end_to_end_delivery demo_state demo_rx_state 1 7 demo_rx demo_stream_msgs
    [2; 0; 2]%nat [demo_arrival 2 [13]; demo_arrival 0 [10]; demo_arrival 2 [13]]
    demo_msgs_ok demo_stream demo_mem_ok demo_calm) as (st' & sr' & E1 & A & E2 & U).
  - by eexists.
  - vm_compute. done.
  - width_lia.
  - apply demo_rx_ok.
  - done.
  - repeat constructor; (eexists; exists [0; 0; 0; 0]; split; [reflexivity|]; split; [done|by vm_compute]).
  - by vm_compute.
  - exists st', sr'. split_and!; [exact E1|exact A|exact E2|]. rewrite U. by vm_compute.
Defined.

Lemma cleanup_frees_kept_frames_witness : exists s',
  cleanup_tx 1 (demo_tx_state (mk_skb 100 [1] [])) = Done tt s' /\ k_log s' = [] /\
  k_skbs s' !! 5 = Some (mk_skb 100 [1] []) /\ k_skbs s' !! 3 = None.
Proof.
  destruct (cleanup_frees_kept_frames (demo_tx_state (mk_skb 100 [1] [])) 1 7 demo_tx demo_sent)
    as (s' & E & L & _ & _ & Hrest & Hgone); [apply demo_buffer_ok| |done|done|].
  - split.
    + intros b. unfold bucket. cbn. rewrite lookup_singleton. case_decide; cbn; lia.
    + intros b p. unfold bucket. cbn. rewrite lookup_singleton. case_decide; cbn.
      * intros ->%list_elem_of_singleton. split; [done|]. by eexists.
      * intros Hp. by apply not_elem_of_nil in Hp.
    + intros p r. cbn. rewrite lookup_singleton. case_decide; [|done]. subst.
      intros [= <-]. by apply list_elem_of_singleton.
  - exists s'. split_and!; [exact E|exact L| |].
    + rewrite (Hrest 5 demo_not_kept). done.
    + apply (Hgone 1%nat). unfold kept. cbn. lia.
Defined.

Definition demo_after_interest : kstate :=
  match nl_recv (demo_msg 0 [1]) demo_state with Done _ s | Crash _ s => s end.

Lemma tables_reachable_witness :
  (size (k_rx_mem demo_after_interest) <= 32)%nat /\
  exists r, k_rx_mem demo_after_interest !! hash_last (k_rx_enc demo_after_interest) 7 = Some r.
Proof.
  destruct (tables_reachable demo_after_interest) as ([Hs _] & _ & Hfound & _).
  - apply (reach_step demo_state); [apply reach_init; by split|].
    apply (step_event _ (ENetlink (demo_msg 0 [1]))); [done|]. by vm_compute.
  - split; [exact Hs|]. destruct (Hfound 7) as (r & Hr & _); [by vm_compute|]. by exists r.
Defined.
