(* ===== verification/Mem.v ===== *)
(** * Frame memory of the security routines

    The routines of core/rtw_security.c work in place on a frame in a byte
    buffer.  A buffer is a list of bytes; a read or a write that leaves it is
    [None], so every theorem that yields [Some] also shows that the accesses
    stay inside the buffer. *)

From S2P Require Import Prelude.
(** Two's complement reading of a 32-bit word, the type [sint]. *)
Definition s32 (x : Z) : Z := (x + 2 ^ 31) mod 2 ^ 32 - 2 ^ 31.

Definition mem_len (buf : list Z) : Z := Z.of_nat (length buf).

(** [n] bytes at offset [off], as [memcpy] from the buffer reads them. *)
Definition rdn (buf : list Z) (off n : Z) : option (list Z) :=
  if (0 <=? off) && (0 <=? n) && (off + n <=? mem_len buf)
  then Some (take (Z.to_nat n) (drop (Z.to_nat off) buf)) else None.

(** The bytes [bs] stored at offset [off]. *)
Definition wrn (buf : list Z) (off : Z) (bs : list Z) : option (list Z) :=
  if (0 <=? off) && (off + mem_len bs <=? mem_len buf)
  then Some (take (Z.to_nat off) buf ++ bs ++ drop (Z.to_nat off + length bs) buf) else None.

(** One byte. *)
Definition rd8 (buf : list Z) (off : Z) : option Z :=
  if 0 <=? off then buf !! Z.to_nat off else None.

Lemma mem_len_app a b : mem_len (a ++ b) = mem_len a + mem_len b.
Proof. unfold mem_len. rewrite length_app. lia. Qed.

Lemma mem_len_nonneg a : 0 <= mem_len a.
Proof. unfold mem_len. lia. Qed.

Lemma rdn_app a b c off n :
  off = mem_len a -> n = mem_len b -> rdn (a ++ b ++ c) off n = Some b.
Proof.
  intros -> ->. unfold rdn. rewrite !mem_len_app.
  pose proof (mem_len_nonneg a); pose proof (mem_len_nonneg b); pose proof (mem_len_nonneg c).
  rewrite !(proj2 (Z.leb_le _ _)) by lia. cbn [andb]. unfold mem_len. rewrite !Nat2Z.id.
  by rewrite drop_app_length, take_app_length.
Qed.

Lemma wrn_app a b c off bs :
  off = mem_len a -> length bs = length b -> wrn (a ++ b ++ c) off bs = Some (a ++ bs ++ c).
Proof.
  intros -> Hlen. unfold wrn. rewrite !mem_len_app.
  assert (mem_len bs = mem_len b) as -> by (unfold mem_len; lia).
  pose proof (mem_len_nonneg a); pose proof (mem_len_nonneg b); pose proof (mem_len_nonneg c).
  rewrite !(proj2 (Z.leb_le _ _)) by lia. cbn [andb]. unfold mem_len. rewrite !Nat2Z.id, Hlen.
  rewrite take_app_length, <- (length_app a b), (app_assoc a b c), drop_app_length. done.
Qed.

Lemma rd8_app a x c off : off = mem_len a -> rd8 (a ++ x :: c) off = Some x.
Proof.
  intros ->. unfold rd8. rewrite (proj2 (Z.leb_le _ _)) by apply mem_len_nonneg.
  unfold mem_len. rewrite Nat2Z.id, lookup_app_r by lia. by rewrite Nat.sub_diag.
Qed.

(** A read that succeeds only depends on the bytes it covers. *)
Lemma rdn_prefix a b c off n :
  off + n <= mem_len a -> rdn (a ++ b) off n = rdn (a ++ c) off n.
Proof.
  intros Hle. unfold rdn. rewrite !mem_len_app.
  pose proof (mem_len_nonneg b); pose proof (mem_len_nonneg c).
  destruct (Z.leb_spec 0 off), (Z.leb_spec 0 n); cbn; try done.
  rewrite !(proj2 (Z.leb_le _ _)) by lia. f_equal. unfold mem_len in *.
  rewrite !drop_app_le, !take_app_le by (rewrite ?length_drop; lia). done.
Qed.

Lemma rd8_prefix a b c off :
  off < mem_len a -> rd8 (a ++ b) off = rd8 (a ++ c) off.
Proof.
  intros Hle. unfold rd8, mem_len in *. destruct (Z.leb_spec 0 off); [|done].
  rewrite !lookup_app_l by lia. done.
Qed.

Lemma wrn_length buf off bs buf' : wrn buf off bs = Some buf' -> length buf' = length buf.
Proof.
  unfold wrn. destruct (_ && _) eqn:E; intros [= <-]. bool_hyps. unfold mem_len in *.
  rewrite !length_app, length_take, length_drop. lia.
Qed.

Lemma rdn_length buf off n bs : rdn buf off n = Some bs -> mem_len bs = n.
Proof.
  unfold rdn. destruct (_ && _) eqn:E; intros [= <-]. bool_hyps. unfold mem_len in *.
  rewrite length_take, length_drop. lia.
Qed.

Lemma s32_small x : - 2 ^ 31 <= x < 2 ^ 31 -> s32 x = x.
Proof. intros. unfold s32. rewrite Z.mod_small; lia. Qed.

(** Deciding that a concrete buffer holds bytes. *)
Definition bytesb (l : list Z) : bool := forallb (fun b => (0 <=? b) && (b <? 256)) l.

Lemma bytesb_bytes l : bytesb l = true -> bytes l.
Proof.
  induction l as [|b l IH]; intros H; [constructor|]. cbn in H. bool_hyps.
  constructor; [unfold in_width; lia|by apply IH].
Qed.

Lemma le_dec_inj l1 l2 : bytes l1 -> bytes l2 -> length l1 = length l2 -> le_dec l1 = le_dec l2 -> l1 = l2.
Proof.
  intros H1 H2 Hlen H. by rewrite <- (le_enc_dec l1 H1), <- (le_enc_dec l2 H2), Hlen, H.
Qed.

Lemma bytes_repeat n x : is_u8 x -> bytes (repeat x n).
Proof. intros; induction n; constructor; done. Qed.

(** Bits placed above the bits already there. *)
Lemma land_shiftl_0 x b n : 0 <= n -> in_width n x -> Z.land x (Z.shiftl b n) = 0.
Proof.
  intros Hn Hx. apply Z.bits_inj'; intros i Hi. rewrite Z.land_spec, Z.bits_0.
  destruct (Z.lt_ge_cases i n).
  - rewrite Z.shiftl_spec_low by lia. apply andb_false_r.
  - by rewrite (proj1 (in_width_bits n x Hn) Hx).
Qed.

Lemma lor_shiftl_add x b n : 0 <= n -> in_width n x -> Z.lor x (Z.shiftl b n) = x + 2 ^ n * b.
Proof.
  intros Hn Hx. rewrite <- Z.add_nocarry_lor by (by apply land_shiftl_0).
  rewrite Z.shiftl_mul_pow2 by lia. lia.
Qed.

Lemma lxor_shiftl_add x b n : 0 <= n -> in_width n x -> Z.lxor x (Z.shiftl b n) = x + 2 ^ n * b.
Proof.
  intros. rewrite Z.lxor_lor by (by apply land_shiftl_0). by apply lor_shiftl_add.
Qed.

(** Reading a table that lists the values of a function. *)
Lemma arr_get_seqZ (f : Z -> Z) n i : 0 <= i < n -> arr_get (map f (seqZ 0 n)) i = f i.
Proof.
  intros Hi. unfold arr_get. change (map f) with (fmap (M := list) f). rewrite list_lookup_fmap.
  rewrite lookup_seqZ_lt by lia. cbn. f_equal; lia.
Qed.


Lemma lookup_map {A B} (f : A -> B) (l : list A) i : map f l !! i = f <$> (l !! i).
Proof. exact (list_lookup_fmap f l i). Qed.

(** Testing one bit with a mask. *)
Lemma land_bit x i : 0 <= i -> negb (Z.land x (2 ^ i) =? 0) = Z.testbit x i.
Proof.
  intros Hi. destruct (Z.testbit x i) eqn:E.
  - apply negb_true_iff, Z.eqb_neq. intros H.
    assert (Z.testbit (Z.land x (2 ^ i)) i = true) as H'
      by (rewrite Z.land_spec, E, Z.pow2_bits_true by lia; done).
    by rewrite H, Z.bits_0 in H'.
  - apply negb_false_iff, Z.eqb_eq. apply Z.bits_inj'; intros j Hj.
    rewrite Z.land_spec, Z.bits_0. destruct (Z.eq_dec i j) as [<-|Hne].
    + by rewrite E.
    + rewrite Z.pow2_bits_false by lia. apply andb_false_r.
Qed.

