(* ===== verification/Arc4.v ===== *)
(** * The ICV and RC4 (core/rtw_security.c, [getcrc32] and [struct arc4context])

    The table of the checksum is filled on first use, from a non-reflected
    shift register whose bits are reversed bytewise; the reference is the
    reflected bitwise CRC-32 of IEEE 802.3. *)

From S2P Require Import Prelude Mem.
Definition CRC32_POLY : Z := 0x04c11db7.

Definition crc32_reverseBit (data : Z) : Z :=
  Z.lor (u8 (Z.land (Z.shiftl data 7) 0x80)) (Z.lor (Z.land (Z.shiftl data 5) 0x40)
  (Z.lor (Z.land (Z.shiftl data 3) 0x20) (Z.lor (Z.land (Z.shiftl data 1) 0x10)
  (Z.lor (Z.land (Z.shiftr data 1) 0x08) (Z.lor (Z.land (Z.shiftr data 3) 0x04)
  (Z.lor (Z.land (Z.shiftr data 5) 0x02) (Z.land (Z.shiftr data 7) 0x01))))))).

(** The static variables [bcrc32initialized] and [crc32_table]. *)
Record crc_state := mk_crc_state { bcrc32initialized : Z; crc32_table : list Z }.

(** One round of the inner loop: shift the register left, add the polynomial. *)
Definition crc32_shift (c : Z) : Z :=
  if Z.land c 0x80000000 =? 0 then u32 (Z.shiftl c 1)
  else Z.lxor (u32 (Z.shiftl c 1)) CRC32_POLY.

(** The entry stored for [i]: the bytes of [c], reversed and in reverse order. *)
Definition crc32_entry (i : Z) : Z :=
  let k := crc32_reverseBit i in
  let p := le_enc 4 (Nat.iter 8 crc32_shift (Z.shiftl k 24)) in
  le_dec [crc32_reverseBit (arr_get p 3); crc32_reverseBit (arr_get p 2);
          crc32_reverseBit (arr_get p 1); crc32_reverseBit (arr_get p 0)].

Definition crc32_init (s : crc_state) : crc_state :=
  if bcrc32initialized s =? 1 then s
  else mk_crc_state 1 (map crc32_entry (seqZ 0 256)).

Definition crc32_step (tab : list Z) (crc b : Z) : Z :=
  Z.lxor (arr_get tab (Z.land (Z.lxor crc b) 0xff)) (Z.shiftr crc 8).

(** [getcrc32(buf, len)] on the [len] bytes of [buf]. *)
Definition getcrc32 (s : crc_state) (buf : list Z) : Z * crc_state :=
  let s := if bcrc32initialized s =? 0 then crc32_init s else s in
  (Z.lxor (foldl (crc32_step (crc32_table s)) 0xffffffff buf) 0xffffffff, s).

(** The loop [for (p = buf; len > 0; ++p, --len)] reads nothing for a
    negative [len]. *)
Definition getcrc32_at (s : crc_state) (buf : list Z) (off len : Z) : option (Z * crc_state) :=
  bs ← rdn buf off (Z.max 0 len); Some (getcrc32 s bs).

(** ** Reference: the reflected shift register, one bit at a time *)

Definition crc_bit (c : Z) : Z :=
  Z.lxor (Z.shiftr c 1) (if Z.odd c then 0xedb88320 else 0).

Definition crc_bits (n : nat) (c : Z) : Z := Nat.iter n crc_bit c.

Definition crc_byte (c b : Z) : Z := crc_bits 8 (Z.lxor c b).

Definition crc32_spec (buf : list Z) : Z :=
  Z.lxor (foldl crc_byte 0xffffffff buf) 0xffffffff.

(** The static state before the first call, and after it. *)
Definition crc_ok (s : crc_state) : Prop :=
  bcrc32initialized s = 0 \/
  (bcrc32initialized s = 1 /\ crc32_table s = map crc32_entry (seqZ 0 256)).

Lemma crc_bit_lxor a b : crc_bit (Z.lxor a b) = Z.lxor (crc_bit a) (crc_bit b).
Proof.
  unfold crc_bit. rewrite Z.shiftr_lxor.
  assert (Z.odd (Z.lxor a b) = xorb (Z.odd a) (Z.odd b)) as ->
    by (rewrite <- !Z.bit0_odd; apply Z.lxor_spec).
  apply Z.bits_inj'; intros i Hi. rewrite !Z.lxor_spec.
  destruct (Z.odd a), (Z.odd b); cbn [xorb]; rewrite ?Z.bits_0;
    repeat match goal with |- context [Z.testbit ?x i] => destruct (Z.testbit x i) end; done.
Qed.

Lemma crc_bits_S n c : crc_bits (S n) c = crc_bit (crc_bits n c).
Proof. done. Qed.

Lemma crc_bits_lxor n a b : crc_bits n (Z.lxor a b) = Z.lxor (crc_bits n a) (crc_bits n b).
Proof. induction n; [done|]. by rewrite !crc_bits_S, IHn, crc_bit_lxor. Qed.

Lemma crc_bits_add m n c : crc_bits (m + n) c = crc_bits m (crc_bits n c).
Proof. apply Nat.iter_add. Qed.

Lemma crc_bit_double y : crc_bit (2 * y) = y.
Proof.
  unfold crc_bit. rewrite Z.odd_mul. cbn [Z.odd andb]. rewrite Z.lxor_0_r, Z.shiftr_div_pow2 by lia.
  change (2 ^ 1) with 2. rewrite Z.mul_comm. by apply Z.div_mul.
Qed.

Lemma crc_bits_shift n y : crc_bits n (2 ^ Z.of_nat n * y) = y.
Proof.
  revert y. induction n as [|n IH]; intros y.
  - change (2 ^ Z.of_nat 0) with 1. by rewrite Z.mul_1_l.
  - rewrite crc_bits_S, Nat2Z.inj_succ, Z.pow_succ_r by lia.
    rewrite (Z.mul_comm 2), <- Z.mul_assoc, IH. apply crc_bit_double.
Qed.

(** The low bits and the rest of a word, as an exclusive or. *)
Lemma lxor_split x n : 0 <= n -> x = Z.lxor (Z.land x (Z.ones n)) (2 ^ n * Z.shiftr x n).
Proof.
  intros Hn. apply Z.bits_inj'; intros i Hi.
  rewrite Z.lxor_spec, Z.land_spec, (Z.mul_comm (2 ^ n)), <- Z.shiftl_mul_pow2 by lia.
  destruct (Z.lt_ge_cases i n).
  - rewrite Z.ones_spec_low, Z.shiftl_spec_low by lia.
    by rewrite andb_true_r, xorb_false_r.
  - rewrite Z.ones_spec_high, Z.shiftl_spec_high, Z.shiftr_spec by lia.
    rewrite andb_false_r, xorb_false_l. f_equal; lia.
Qed.

Lemma table_entries : forall i, 0 <= i < 256 ->
  arr_get (map crc32_entry (seqZ 0 256)) i = crc_bits 8 i.
Proof.
  intros i Hi.
  assert (map crc32_entry (seqZ 0 256) = map (crc_bits 8) (seqZ 0 256)) as -> by (vm_compute; done).
  by apply arr_get_seqZ.
Qed.

Lemma shiftr_byte c b : in_width 8 b -> Z.shiftr (Z.lxor c b) 8 = Z.shiftr c 8.
Proof.
  intros Hb. rewrite Z.shiftr_lxor.
  assert (Z.shiftr b 8 = 0) as ->; [|apply Z.lxor_0_r].
  rewrite Z.shiftr_div_pow2 by lia. by apply Z.div_small.
Qed.

Lemma crc32_step_byte c b :
  in_width 8 b -> crc32_step (map crc32_entry (seqZ 0 256)) c b = crc_byte c b.
Proof.
  intros Hb. unfold crc32_step, crc_byte.
  rewrite (lxor_split (Z.lxor c b) 8) at 2 by lia.
  rewrite crc_bits_lxor. change (2 ^ 8) with (2 ^ Z.of_nat 8). rewrite crc_bits_shift.
  change 255 with (Z.ones 8).
  rewrite table_entries by (rewrite Z.land_ones by lia; apply Z.mod_pos_bound; lia).
  by rewrite shiftr_byte.
Qed.

Lemma getcrc32_spec s buf :
  crc_ok s -> bytes buf ->
  exists s', getcrc32 s buf = (crc32_spec buf, s') /\ crc_ok s' /\ bcrc32initialized s' = 1.
Proof.
  intros Hs Hbuf.
  assert (forall c, foldl (crc32_step (map crc32_entry (seqZ 0 256))) c buf = foldl crc_byte c buf) as Hf.
  { clear Hs. induction Hbuf as [|b l Hb Hl IH]; intros c; [done|]. cbn [foldl].
    by rewrite crc32_step_byte, IH. }
  unfold getcrc32, crc32_init, crc32_spec. destruct Hs as [E|[E Et]].
  - rewrite E. cbn [Z.eqb]. eexists. cbn [crc32_table bcrc32initialized].
    rewrite Hf. split_and!; [done| |done]. by right.
  - rewrite E. cbn [Z.eqb]. rewrite Et, Hf. eexists. split_and!; [done| |done]. by right.
Qed.

(** ** The register is 32 bits wide and loses no information *)

Lemma crc_bit_width c : is_u32 c -> is_u32 (crc_bit c).
Proof.
  intros Hc. unfold crc_bit. apply lxor_in_width; [lia| |].
  - by apply shiftr_in_width.
  - destruct (Z.odd c); unfold in_width; lia.
Qed.

Lemma crc_bits_width n c : is_u32 c -> is_u32 (crc_bits n c).
Proof. intros; induction n; [done|]. rewrite crc_bits_S. by apply crc_bit_width. Qed.

Lemma crc_byte_width c b : is_u32 c -> is_u8 b -> is_u32 (crc_byte c b).
Proof.
  intros. apply crc_bits_width, lxor_in_width; [lia|done|]. width_lia.
Qed.

Lemma crc_fold_width l c : is_u32 c -> bytes l -> is_u32 (foldl crc_byte c l).
Proof.
  intros Hc Hl; revert c Hc; induction Hl as [|b l Hb Hl IH]; intros c Hc; [done|].
  apply IH. by apply crc_byte_width.
Qed.

Lemma crc32_spec_width buf : bytes buf -> is_u32 (crc32_spec buf).
Proof.
  intros. apply lxor_in_width; [lia| |unfold in_width; lia].
  apply crc_fold_width; [unfold in_width; lia|done].
Qed.

Lemma crc_bit_zero c : is_u32 c -> crc_bit c = 0 -> c = 0.
Proof.
  intros Hc H0.
  assert (Z.testbit (crc_bit c) 31 = Z.odd c) as Hb.
  { unfold crc_bit. rewrite Z.lxor_spec, Z.shiftr_spec by lia.
    rewrite (proj1 (in_width_bits 32 c ltac:(lia)) Hc) by lia. by destruct (Z.odd c). }
  rewrite H0, Z.bits_0 in Hb. unfold crc_bit in H0. rewrite <- Hb, Z.lxor_0_r in H0.
  rewrite <- Z.div2_spec in H0. rewrite (Z.div2_odd c), H0, <- Hb. done.
Qed.

Lemma crc_bits_zero n c : is_u32 c -> crc_bits n c = 0 -> c = 0.
Proof.
  intros Hc. induction n as [|n IH]; [done|]. rewrite crc_bits_S. intros H.
  apply crc_bit_zero in H; [by apply IH|by apply crc_bits_width].
Qed.

(** Feeding bytes is the same as shifting them through in one go. *)
Lemma crc_fold_bits l c : bytes l -> foldl crc_byte c l = crc_bits (8 * length l) (Z.lxor c (le_dec l)).
Proof.
  intros Hl; revert c; induction Hl as [|b l Hb Hl IH]; intros c; cbn [foldl length le_dec].
  - cbn. by rewrite Z.lxor_0_r.
  - rewrite IH. unfold crc_byte.
    assert (b + 256 * le_dec l = Z.lxor b (256 * le_dec l)) as ->.
    { rewrite (lxor_split (b + 256 * le_dec l) 8) by lia.
      rewrite Z.land_ones, Z.shiftr_div_pow2 by lia.
      change (2 ^ 8) with 256. rewrite (Z.mul_comm 256 (le_dec l)), Z.mod_add, Z.div_add by lia.
      rewrite Z.mod_small, Z.div_small by width_lia. f_equal; lia. }
    rewrite <- Z.lxor_assoc.
    replace (8 * S (length l))%nat with (8 * length l + 8)%nat by lia.
    rewrite crc_bits_add, (crc_bits_lxor 8 (Z.lxor c b)). do 2 f_equal. symmetry.
    change 256 with (2 ^ Z.of_nat 8). apply crc_bits_shift.
Qed.

(** The difference of two runs of the register from different states. *)
Lemma crc_fold_lxor l c c' :
  bytes l -> Z.lxor (foldl crc_byte c l) (foldl crc_byte c' l) = crc_bits (8 * length l) (Z.lxor c c').
Proof.
  intros. rewrite !crc_fold_bits by done. rewrite <- crc_bits_lxor. f_equal.
  rewrite (Z.lxor_comm c'), Z.lxor_assoc, <- (Z.lxor_assoc (le_dec l)), Z.lxor_nilpotent, Z.lxor_0_l.
  done.
Qed.

(** A change confined to four consecutive bytes always changes the checksum. *)
Lemma crc32_burst p d1 d2 t :
  bytes p -> bytes d1 -> bytes d2 -> bytes t ->
  length d1 = length d2 -> (length d1 <= 4)%nat -> d1 <> d2 ->
  crc32_spec (p ++ d1 ++ t) <> crc32_spec (p ++ d2 ++ t).
Proof.
  intros Hp H1 H2 Ht Hlen H4 Hne Heq. apply Hne, le_dec_inj; [done..|].
  unfold crc32_spec in Heq. rewrite !foldl_app in Heq.
  apply (f_equal (fun x => Z.lxor x 0xffffffff)) in Heq. rewrite !lxor_cancel_r in Heq.
  set (c := foldl crc_byte 4294967295 p) in *.
  apply Z.lxor_eq. apply Z.lxor_eq_0_iff in Heq. rewrite crc_fold_lxor in Heq by done.
  assert (forall l, bytes l -> (length l <= 4)%nat -> is_u32 (le_dec l)) as Hw.
  { intros l Hl H. pose proof (le_dec_range l Hl) as Hr. unfold in_width in *.
    assert (2 ^ (8 * Z.of_nat (length l)) <= 2 ^ 32) by (apply Z.pow_le_mono_r; lia). lia. }
  assert (is_u32 c) as Hc by (apply crc_fold_width; [unfold in_width; lia|done]).
  apply crc_bits_zero in Heq.
  - rewrite !crc_fold_bits, <- Hlen, <- crc_bits_lxor in Heq by done.
    apply crc_bits_zero in Heq.
    + rewrite (Z.lxor_comm c), Z.lxor_assoc, <- (Z.lxor_assoc c), Z.lxor_nilpotent, Z.lxor_0_l in Heq.
      done.
    + rewrite (Z.lxor_comm c), Z.lxor_assoc, <- (Z.lxor_assoc c), Z.lxor_nilpotent, Z.lxor_0_l.
      apply lxor_in_width; [lia|apply Hw; [done|lia]..].
  - apply lxor_in_width; [lia| |]; by apply crc_fold_width.
Qed.

(** ** The RC4 stream cipher (core/rtw_security.c, [struct arc4context])

    Key schedule, keystream byte and the in-place encryption of a buffer,
    with the invariant that the state stays a permutation of the 256 bytes
    and the laws the WEP and TKIP routines rely on. *)

Record arc4context := mk_arc4 { arc_x : Z; arc_y : Z; arc_state : list Z }.

(** The second loop of [arcfour_init], [n] rounds from [counter] on. *)
Fixpoint arcfour_schedule (n : nat) (counter keyindex stateindex : Z)
    (key : list Z) (key_len : Z) (state : list Z) : list Z :=
  match n with
  | O => state
  | S n =>
      let t := arr_get state counter in
      let stateindex := Z.land (u32 (stateindex + arr_get key keyindex + t)) 0xff in
      let u := arr_get state stateindex in
      let state := arr_set (arr_set state stateindex (u8 t)) counter (u8 u) in
      let keyindex := if key_len <=? keyindex + 1 then 0 else keyindex + 1 in
      arcfour_schedule n (counter + 1) keyindex stateindex key key_len state
  end.

Definition arcfour_init (key : list Z) (key_len : Z) : arc4context :=
  mk_arc4 0 0 (arcfour_schedule 256 0 0 0 key key_len (seqZ 0 256)).

Definition arcfour_byte (c : arc4context) : Z * arc4context :=
  let x := Z.land (arc_x c + 1) 0xff in
  let sx := arr_get (arc_state c) x in
  let y := Z.land (sx + arc_y c) 0xff in
  let sy := arr_get (arc_state c) y in
  let state := arr_set (arr_set (arc_state c) y (u8 sx)) x (u8 sy) in
  (arr_get state (Z.land (sx + sy) 0xff), mk_arc4 x y state).

(** [arcfour_encrypt] with [dest = src]: the bytes written back, and the
    context after them. *)
Fixpoint arcfour_encrypt (c : arc4context) (src : list Z) : list Z * arc4context :=
  match src with
  | [] => ([], c)
  | b :: src =>
      let '(k, c) := arcfour_byte c in
      let '(dest, c) := arcfour_encrypt c src in
      (Z.lxor b (u8 k) :: dest, c)
  end.

(** ** Invariant *)

Definition arc4_ok (c : arc4context) : Prop := arc_state c ≡ₚ seqZ 0 256.

Lemma land_255_range x : 0 <= Z.land x 255 < 256.
Proof. change 255 with (Z.ones 8). rewrite Z.land_ones by lia. apply Z.mod_pos_bound. lia. Qed.

Lemma perm_256_get l i : l ≡ₚ seqZ 0 256 -> 0 <= i < 256 -> l !! Z.to_nat i = Some (arr_get l i).
Proof.
  intros Hl Hi. unfold arr_get.
  destruct (lookup_lt_is_Some_2 l (Z.to_nat i)) as [x Hx]; [|by rewrite Hx].
  rewrite Hl, length_seqZ. lia.
Qed.

Lemma perm_256_byte l i : l ≡ₚ seqZ 0 256 -> 0 <= i < 256 -> is_u8 (arr_get l i).
Proof.
  intros Hl Hi. pose proof (perm_256_get l i Hl Hi) as H.
  apply list_elem_of_lookup_2 in H. revert H. generalize (arr_get l i); intros x H.
  rewrite Hl in H. apply elem_of_seqZ in H. unfold in_width. lia.
Qed.

(** The exchange of two entries, as both loops do it. *)
Lemma perm_256_swap l i j :
  l ≡ₚ seqZ 0 256 -> 0 <= i < 256 -> 0 <= j < 256 ->
  arr_set (arr_set l j (u8 (arr_get l i))) i (u8 (arr_get l j)) ≡ₚ seqZ 0 256.
Proof.
  intros Hl Hi Hj. rewrite !wrap_small by (by apply perm_256_byte).
  unfold arr_set. etrans; [|exact Hl].
  apply Permutation_insert_swap; by apply perm_256_get.
Qed.

Lemma arcfour_schedule_ok n counter ki si key kl l :
  l ≡ₚ seqZ 0 256 -> 0 <= counter -> counter + Z.of_nat n <= 256 ->
  arcfour_schedule n counter ki si key kl l ≡ₚ seqZ 0 256.
Proof.
  revert counter ki si l; induction n as [|n IH]; intros counter ki si l Hl H0 Hn; [done|].
  cbn [arcfour_schedule]. apply IH; [|lia|lia].
  apply perm_256_swap; [done|lia|apply land_255_range].
Qed.

Lemma arcfour_init_ok key kl : arc4_ok (arcfour_init key kl).
Proof. apply arcfour_schedule_ok; [done|lia|done]. Qed.

Lemma arcfour_byte_ok c : arc4_ok c -> arc4_ok (arcfour_byte c).2 /\ is_u8 (arcfour_byte c).1.
Proof.
  intros Hc. cbn [arcfour_byte fst snd arc_state].
  assert (arc4_ok (arcfour_byte c).2) as H.
  { unfold arc4_ok, arcfour_byte. cbn [snd arc_state].
    apply perm_256_swap; [done|apply land_255_range..]. }
  split; [done|]. apply (perm_256_byte _ _ H), land_255_range.
Qed.

Lemma arcfour_encrypt_ok c src : arc4_ok c -> arc4_ok (arcfour_encrypt c src).2.
Proof.
  revert c; induction src as [|b src IH]; intros c Hc; [done|]. cbn [arcfour_encrypt].
  pose proof (proj1 (arcfour_byte_ok c Hc)) as Hk. destruct (arcfour_byte c) as [k c'].
  specialize (IH c' Hk). by destruct (arcfour_encrypt c' src).
Qed.

(** ** Stream-cipher laws *)

(** The keystream does not depend on the data. *)
Fixpoint arcfour_stream (n : nat) (c : arc4context) : list Z :=
  match n with
  | O => []
  | S n => let '(k, c) := arcfour_byte c in u8 k :: arcfour_stream n c
  end.

Lemma length_arcfour_stream n c : length (arcfour_stream n c) = n.
Proof.
  revert c; induction n as [|n IH]; intros c; [done|]. cbn [arcfour_stream].
  destruct (arcfour_byte c). cbn. by rewrite IH.
Qed.

Lemma arcfour_stream_bytes n c : bytes (arcfour_stream n c).
Proof.
  revert c; induction n as [|n IH]; intros c; [constructor|]. cbn [arcfour_stream].
  destruct (arcfour_byte c). constructor; [apply wrap_range; lia|apply IH].
Qed.

Lemma arcfour_encrypt_xor c src :
  (arcfour_encrypt c src).1 = xor_bytes src (arcfour_stream (length src) c).
Proof.
  revert c; induction src as [|b src IH]; intros c; [done|]. cbn [arcfour_encrypt length arcfour_stream].
  destruct (arcfour_byte c) as [k c']. specialize (IH c').
  destruct (arcfour_encrypt c' src) as [d c'']. cbn in *. by rewrite IH.
Qed.

Lemma length_arcfour_encrypt c src : length (arcfour_encrypt c src).1 = length src.
Proof. rewrite arcfour_encrypt_xor, length_xor_bytes; [done|]. by rewrite length_arcfour_stream. Qed.

Lemma arcfour_encrypt_bytes c src : bytes src -> bytes (arcfour_encrypt c src).1.
Proof. intros. rewrite arcfour_encrypt_xor. apply xor_bytes_bytes; [done|apply arcfour_stream_bytes]. Qed.

(** Encrypting twice from the same context gives the data back. *)
Lemma arcfour_encrypt_involutive c src :
  (arcfour_encrypt c (arcfour_encrypt c src).1).1 = src.
Proof.
  rewrite !arcfour_encrypt_xor, length_xor_bytes by (by rewrite length_arcfour_stream).
  apply xor_bytes_involutive. by rewrite length_arcfour_stream.
Qed.

(** Encrypting two pieces in sequence is encrypting their concatenation. *)
Lemma arcfour_encrypt_app c a b :
  arcfour_encrypt c (a ++ b) =
  let '(da, c1) := arcfour_encrypt c a in
  let '(db, c2) := arcfour_encrypt c1 b in (da ++ db, c2).
Proof.
  revert c; induction a as [|x a IH]; intros c; cbn [arcfour_encrypt app].
  - by destruct (arcfour_encrypt c b).
  - destruct (arcfour_byte c) as [k c']. rewrite IH.
    destruct (arcfour_encrypt c' a) as [da c1]. by destruct (arcfour_encrypt c1 b).
Qed.

(** A published vector: key [Key], text [Plaintext]. *)
Example arcfour_vector :
  (arcfour_encrypt (arcfour_init [0x4b; 0x65; 0x79] 3)
     [0x50; 0x6c; 0x61; 0x69; 0x6e; 0x74; 0x65; 0x78; 0x74]).1 =
  [0xbb; 0xf3; 0x16; 0xe8; 0xd9; 0x40; 0xaf; 0x0a; 0xd3].
Proof. by vm_compute. Qed.
