(* ===== verification/SecDefs.v ===== *)
(** * Data of the software cipher routines

    The fields of [struct pkt_attrib], [struct xmit_frame],
    [struct security_priv], [struct rx_pkt_attrib] and [union recv_frame] that
    core/rtw_security.c reads, and the loop over the fragments of a transmit
    buffer that its three encryption routines share.  The status codes and the
    numbers of the ciphers are those of all files of the driver. *)

From S2P Require Import Prelude Mem Arc4.
Definition _FAIL : Z := 0.
Definition _SUCCESS : Z := 1.
Definition RTW_RX_HANDLED : Z := 2.
Definition WIFI_FW_ASSOC_STATE : Z := 0x2000.
Definition WIFI_FW_ASSOC_SUCCESS : Z := 0x4000.
Definition _NO_PRIVACY_ : Z := 0.
Definition _WEP40_ : Z := 1.
Definition _TKIP_ : Z := 2.
Definition _AES_ : Z := 4.
Definition _WEP104_ : Z := 5.
Definition TXDESC_SIZE : Z := 40.
Definition PACKET_OFFSET_SZ : Z := 8.

Record pkt_attrib := mk_pkt_attrib {
  pa_encrypt : Z; pa_hdrlen : Z; pa_iv_len : Z; pa_icv_len : Z;
  pa_nr_frags : Z; pa_last_txcmdsz : Z;
  pa_ra : list Z; pa_ta : list Z; pa_UncstKey : list Z }.

(** [xf_buf] is the memory at [buf_addr]; address 0 is [NULL]. *)
Record xmit_frame := mk_xmit_frame {
  xf_attrib : pkt_attrib; xf_pkt_offset : Z; xf_buf_addr : Z; xf_buf : list Z }.

Record security_priv := mk_security_priv {
  dot11PrivacyKeyIndex : Z; dot11DefKey : list (list Z); dot11DefKeylen : list Z;
  dot118021XGrpKeyid : Z; dot118021XGrpKey : list (list Z); binstallGrpkey : Z }.

Record rx_pkt_attrib := mk_rx_pkt_attrib {
  rxa_encrypt : Z; rxa_hdrlen : Z; rxa_iv_len : Z; rxa_key_index : Z;
  rxa_ra : list Z; rxa_ta : list Z }.

(** [rv_data] is the memory from [rx_data] on, [rv_len] the field [len]. *)
Record recv_frame := mk_recv_frame {
  rv_attrib : rx_pkt_attrib; rv_len : Z; rv_data : list Z }.

(** An element of one of the four-entry key arrays; other indices are outside
    the array. *)
Definition key_at {A} (l : list A) (i : Z) : option A :=
  if 0 <=? i then l !! Z.to_nat i else None.

Definition IS_MCAST (da : list Z) : bool := negb (Z.land (arr_get da 0) 1 =? 0).

Definition RND4 (x : Z) : Z :=
  Z.shiftl (Z.shiftr x 2 + (if Z.land x 3 =? 0 then 0 else 1)) 2.

(** Offset of the 802.11 header in the buffer (CONFIG_USB_TX_AGGREGATION). *)
Definition hw_hdr_offset (x : xmit_frame) : Z :=
  u8 (TXDESC_SIZE + xf_pkt_offset x * PACKET_OFFSET_SZ).

Section frags.
Context {St : Type} (body : St -> list Z -> Z -> Z -> option (St * list Z)).
Context (a : pkt_attrib) (frag_len buf_addr : Z).

(** The loop [for (curfragnum = 0; curfragnum < nr_frags; curfragnum++)]:
    [body] treats one fragment at offset [pframe]; every fragment but the last
    has [frag_len] bytes and the next one starts at a multiple of four. *)
Fixpoint frag_loop (n : nat) (curfragnum : Z) (s : St) (buf : list Z) (pframe : Z) : option (St * list Z) :=
  match n with
  | O => Some (s, buf)
  | S n =>
      let over := pa_hdrlen a + pa_iv_len a + pa_icv_len a in
      if curfragnum + 1 =? pa_nr_frags a then
        '(s, buf) ← body s buf pframe (s32 (pa_last_txcmdsz a - over));
        frag_loop n (curfragnum + 1) s buf pframe
      else
        '(s, buf) ← body s buf pframe (s32 (frag_len - over));
        frag_loop n (curfragnum + 1) s buf (RND4 (buf_addr + pframe + frag_len) - buf_addr)
  end.
End frags.

(** ** RC4 with a trailing ICV, as WEP and TKIP both apply it *)

(** Checksum the payload, encrypt it in place and the checksum behind it. *)
Definition arc4_seal (s : crc_state) (key : list Z) (keylen : Z)
    (buf : list Z) (payload length : Z) : option (crc_state * list Z) :=
  '(crc, s) ← getcrc32_at s buf payload length;
  data ← rdn buf payload length;
  let '(dest, ctx) := arcfour_encrypt (arcfour_init key keylen) data in
  buf ← wrn buf payload dest;
  let '(icv, _) := arcfour_encrypt ctx (le_enc 4 crc) in
  buf ← wrn buf (payload + length) icv;
  Some (s, buf).

(** Decrypt payload and ICV in place, then checksum the payload: the buffer
    and the computed ICV. *)
Definition arc4_open (s : crc_state) (key : list Z) (keylen : Z)
    (buf : list Z) (payload length : Z) : option (crc_state * list Z * list Z) :=
  data ← rdn buf payload length;
  buf ← wrn buf payload (arcfour_encrypt (arcfour_init key keylen) data).1;
  '(crc, s) ← getcrc32_at s buf payload (length - 4);
  Some (s, buf, le_enc 4 crc).

(** ** Specification: the payload and its CRC under one keystream *)

Definition icv (data : list Z) : list Z := le_enc 4 (crc32_spec data).

Definition arc4_box (key : list Z) (keylen : Z) (data : list Z) : list Z :=
  (arcfour_encrypt (arcfour_init key keylen) data).1.

Lemma length_icv data : length (icv data) = 4%nat.
Proof. apply length_le_enc. Qed.

Lemma length_arc4_box key kl data : length (arc4_box key kl data) = length data.
Proof. apply length_arcfour_encrypt. Qed.

Lemma arc4_box_involutive key kl data : arc4_box key kl (arc4_box key kl data) = data.
Proof. apply arcfour_encrypt_involutive. Qed.

Lemma icv_bytes data : bytes (icv data).
Proof. apply le_enc_bytes. Qed.

Lemma icv_inj d1 d2 : bytes d1 -> bytes d2 -> icv d1 = icv d2 -> crc32_spec d1 = crc32_spec d2.
Proof.
  intros H1 H2 H. apply (f_equal le_dec) in H. unfold icv in H.
  rewrite !le_dec_enc_small in H by (by apply crc32_spec_width). done.
Qed.

Lemma getcrc32_at_app s a b c off len :
  crc_ok s -> bytes b -> off = mem_len a -> len = mem_len b ->
  exists s', getcrc32_at s (a ++ b ++ c) off len = Some (crc32_spec b, s') /\ crc_ok s'.
Proof.
  intros Hs Hb -> ->. unfold getcrc32_at. rewrite Z.max_r by apply mem_len_nonneg.
  rewrite (rdn_app a b c) by done. cbn.
  destruct (getcrc32_spec s b Hs Hb) as (s' & -> & H & _). by exists s'.
Qed.

(** Sealing a payload followed by four bytes of room. *)
Lemma arc4_seal_done s key kl a data room c payload len :
  crc_ok s -> bytes data -> length room = 4%nat ->
  payload = mem_len a -> len = mem_len data ->
  exists s', arc4_seal s key kl (a ++ (data ++ room) ++ c) payload len =
               Some (s', a ++ arc4_box key kl (data ++ icv data) ++ c) /\ crc_ok s'.
Proof.
  intros Hs Hb Hroom -> ->. rewrite <- (app_assoc data). unfold arc4_seal.
  destruct (getcrc32_at_app s a data (room ++ c) _ _ Hs Hb eq_refl eq_refl) as (s' & -> & Hs').
  cbn [mbind option_bind]. rewrite (rdn_app a data (room ++ c)) by done. cbn [mbind option_bind].
  unfold arc4_box. rewrite arcfour_encrypt_app. fold (icv data).
  pose proof (length_arcfour_encrypt (arcfour_init key kl) data) as Hl.
  destruct (arcfour_encrypt (arcfour_init key kl) data) as [d ctx]. cbn [fst] in Hl.
  rewrite (wrn_app a data (room ++ c)) by done. cbn [mbind option_bind].
  pose proof (length_arcfour_encrypt ctx (icv data)) as Hi. rewrite length_icv in Hi.
  destruct (arcfour_encrypt ctx (icv data)) as [i ctx']. cbn [fst] in *.
  rewrite (app_assoc a d), (wrn_app (a ++ d) room c).
  - cbn. exists s'. split; [by rewrite <- !app_assoc|done].
  - rewrite mem_len_app. unfold mem_len. by rewrite Hl.
  - by rewrite Hi.
Qed.

(** Opening an encrypted payload: the plain text in place, the ICV of all but
    its last four bytes computed. *)
Lemma arc4_open_done s key kl a data tail c payload len :
  crc_ok s -> bytes data -> length tail = 4%nat ->
  payload = mem_len a -> len = mem_len data + 4 ->
  exists s', arc4_open s key kl (a ++ arc4_box key kl (data ++ tail) ++ c) payload len =
               Some (s', a ++ (data ++ tail) ++ c, icv data) /\ crc_ok s'.
Proof.
  intros Hs Hb Htail -> ->. unfold arc4_open.
  assert (mem_len data + 4 = mem_len (arc4_box key kl (data ++ tail))) as E.
  { unfold mem_len. rewrite length_arc4_box, length_app. lia. }
  rewrite (rdn_app a _ c) by done. cbn [mbind option_bind].
  fold (arc4_box key kl (arc4_box key kl (data ++ tail))). rewrite arc4_box_involutive.
  rewrite (wrn_app a _ c) by (by rewrite ?length_arc4_box). cbn [mbind option_bind].
  rewrite <- (app_assoc data).
  destruct (getcrc32_at_app s a data (tail ++ c) (mem_len a) (mem_len data + 4 - 4) Hs Hb eq_refl
    ltac:(lia)) as (s' & -> & Hs').
  cbn. by exists s'.
Qed.

(** ** The fragment loop on a single fragment *)

Lemma frag_loop_last {St} (body : St -> list Z -> Z -> Z -> option (St * list Z)) a fl ba s buf pframe :
  pa_nr_frags a = 1 ->
  frag_loop body a fl ba 1 0 s buf pframe =
  body s buf pframe (s32 (pa_last_txcmdsz a - (pa_hdrlen a + pa_iv_len a + pa_icv_len a))).
Proof.
  intros E. cbn [frag_loop]. rewrite E. cbn [Z.add Z.eqb].
  rewrite (proj2 (Z.eqb_eq _ _)) by done. destruct (body _ _ _ _) as [[? ?]|]; done.
Qed.

Lemma RND4_spec x : x <= RND4 x < x + 4 /\ (RND4 x) mod 4 = 0.
Proof.
  unfold RND4. rewrite Z.shiftl_mul_pow2, Z.shiftr_div_pow2 by lia.
  change 3 with (Z.ones 2). rewrite Z.land_ones by lia. change (2 ^ 2) with 4.
  rewrite Z.mod_mul by lia.
  pose proof (Z.div_mod x 4). pose proof (Z.mod_pos_bound x 4). case_tests; lia.
Qed.
