(* ===== verification/Wep.v ===== *)
(** * WEP (core/rtw_security.c, [rtw_wep_encrypt] and [rtw_wep_decrypt]) *)

From S2P Require Import Prelude Mem Arc4 SecDefs.
Definition is_wep (encrypt : Z) : bool := (encrypt =? _WEP40_) || (encrypt =? _WEP104_).

(** [wepkey]: three bytes of IV and [keylength] bytes of the key; a longer key
    overruns the 16-byte array. *)
Definition wepkey (iv skey : list Z) (keylength : Z) : option (list Z) :=
  k ← rdn skey 0 keylength;
  if 3 + keylength <=? 16 then Some (iv ++ k) else None.

(** One turn of the fragment loop. *)
Definition wep_frag (a : pkt_attrib) (skey : list Z) (keylength : Z)
    (s : crc_state) (buf : list Z) (pframe length : Z) : option (crc_state * list Z) :=
  iv ← rdn buf (pframe + pa_hdrlen a) 3;
  key ← wepkey iv skey keylength;
  arc4_seal s key (3 + keylength) buf (pframe + pa_iv_len a + pa_hdrlen a) length.

Definition rtw_wep_encrypt (sec : security_priv) (frag_len : Z) (s : crc_state) (x : xmit_frame)
    : option (crc_state * xmit_frame) :=
  let a := xf_attrib x in
  if xf_buf_addr x =? 0 then Some (s, x)
  else if is_wep (pa_encrypt a) then
    keylength ← key_at (dot11DefKeylen sec) (dot11PrivacyKeyIndex sec);
    skey ← key_at (dot11DefKey sec) (dot11PrivacyKeyIndex sec);
    '(s, buf) ← frag_loop (wep_frag a skey keylength) a frag_len (xf_buf_addr x)
                  (Z.to_nat (pa_nr_frags a)) 0 s (xf_buf x) (hw_hdr_offset x);
    Some (s, mk_xmit_frame a (xf_pkt_offset x) (xf_buf_addr x) buf)
  else Some (s, x).

(** The computed ICV ends in the local array [crc] and is not looked at. *)
Definition rtw_wep_decrypt (sec : security_priv) (s : crc_state) (r : recv_frame)
    : option (crc_state * recv_frame) :=
  let a := rv_attrib r in
  if is_wep (rxa_encrypt a) then
    iv ← rdn (rv_data r) (rxa_hdrlen a) 3;
    keylength ← key_at (dot11DefKeylen sec) (rxa_key_index a);
    skey ← key_at (dot11DefKey sec) (rxa_key_index a);
    key ← wepkey iv skey keylength;
    let length := s32 (rv_len r - rxa_hdrlen a - rxa_iv_len a) in
    '(s, buf, crc) ← arc4_open s key (3 + keylength) (rv_data r) (rxa_iv_len a + rxa_hdrlen a) length;
    Some (s, mk_recv_frame a (rv_len r) buf)
  else Some (s, r).
