(* ===== verification/FragSpec.v ===== *)
(** * Fragments in a transmit buffer, and a concrete secured exchange

    The layout that the fragment loop of the encryption routines walks over,
    the lemma that lifts the effect of one turn to the whole buffer, and the
    keys and fragments of the examples. *)

From S2P Require Import Prelude Mem Arc4 SecDefs.
(** A fragment: 802.11 header, IV, payload with the room for the ICV, and the
    padding up to the next fragment. *)
Record frag := mk_frag { fr_hdr : list Z; fr_iv : list Z; fr_body : list Z; fr_pad : list Z }.

Definition frag_bytes (f : frag) : list Z := fr_hdr f ++ fr_iv f ++ fr_body f.

Definition frags_bytes (fs : list frag) : list Z :=
  concat (map (fun f => frag_bytes f ++ fr_pad f) fs).

(** The payload of a fragment, without the room for the ICV. *)
Definition fr_data (icv_len : Z) (f : frag) : list Z :=
  take (length (fr_body f) - Z.to_nat icv_len) (fr_body f).

Record frag_ok (a : pkt_attrib) (f : frag) : Prop := {
  fo_hdr : mem_len (fr_hdr f) = pa_hdrlen a;
  fo_iv : mem_len (fr_iv f) = pa_iv_len a;
  fo_body : 0 <= pa_icv_len a <= mem_len (fr_body f);
  fo_bytes : bytes (fr_body f);
  fo_size : mem_len (frag_bytes f) < 2 ^ 31 }.

(** Fragments [fs] lie from offset [off] on, the first of them having number
    [cur]: all but the last are [frag_len] bytes long, each next one starts at
    the next address that is a multiple of four. *)
Fixpoint frags_laid (a : pkt_attrib) (frag_len addr off cur : Z) (fs : list frag) : Prop :=
  match fs with
  | [] => False
  | [f] => cur + 1 = pa_nr_frags a /\ mem_len (frag_bytes f) = pa_last_txcmdsz a
  | f :: fs =>
      cur + 1 <> pa_nr_frags a /\ mem_len (frag_bytes f) = frag_len /\
      RND4 (addr + off + frag_len) = addr + off + frag_len + mem_len (fr_pad f) /\
      frags_laid a frag_len addr (off + mem_len (frag_bytes f ++ fr_pad f)) (cur + 1) fs
  end.

Lemma frags_laid_nr a fl addr off cur fs :
  frags_laid a fl addr off cur fs -> pa_nr_frags a = cur + Z.of_nat (length fs).
Proof.
  revert off cur; induction fs as [|f [|f' fs] IH]; intros off cur H; [done| |].
  - destruct H as [H _]. cbn. lia.
  - destruct H as (_ & _ & _ & H). apply IH in H. cbn [length] in *. lia.
Qed.

(** Payload and ICV room of a fragment's body. *)
Lemma fr_body_room a f :
  frag_ok a f ->
  exists room, fr_body f = fr_data (pa_icv_len a) f ++ room /\ length room = Z.to_nat (pa_icv_len a) /\
    bytes (fr_data (pa_icv_len a) f) /\
    mem_len (fr_data (pa_icv_len a) f) = mem_len (fr_body f) - pa_icv_len a.
Proof.
  intros [_ _ Hb Hby _]. unfold fr_data, mem_len in *.
  exists (drop (length (fr_body f) - Z.to_nat (pa_icv_len a)) (fr_body f)).
  rewrite take_drop, length_drop, length_take.
  split_and!; [done|lia| |lia]. by apply Forall_take.
Qed.

Lemma frag_length a f :
  frag_ok a f ->
  s32 (mem_len (frag_bytes f) - (pa_hdrlen a + pa_iv_len a + pa_icv_len a)) =
  mem_len (fr_body f) - pa_icv_len a.
Proof.
  intros [Hh Hi Hb _ Hs]. unfold frag_bytes in *. rewrite !mem_len_app in *.
  pose proof (mem_len_nonneg (fr_hdr f)); pose proof (mem_len_nonneg (fr_iv f)).
  rewrite s32_small; lia.
Qed.

Lemma frags_bytes_cons f fs : frags_bytes (f :: fs) = frag_bytes f ++ fr_pad f ++ frags_bytes fs.
Proof. unfold frags_bytes. cbn [map concat]. by rewrite <- app_assoc. Qed.

Section lift.
Context {St : Type} (body : St -> list Z -> Z -> Z -> option (St * list Z)).
Context (a : pkt_attrib) (frag_len addr : Z) (Inv : St -> Prop) (g : frag -> frag).

Definition lifts (f : frag) : Prop :=
  forall s pre post, Inv s ->
  exists s', body s (pre ++ frag_bytes f ++ post) (mem_len pre) (mem_len (fr_body f) - pa_icv_len a) =
               Some (s', pre ++ frag_bytes (g f) ++ post) /\ Inv s'.

Hypothesis g_size : forall f, frag_ok a f -> length (frag_bytes (g f)) = length (frag_bytes f).
Hypothesis g_pad : forall f, fr_pad (g f) = fr_pad f.

Lemma frag_loop_all fs : forall pre post cur s,
  Forall (frag_ok a) fs -> Forall lifts fs ->
  frags_laid a frag_len addr (mem_len pre) cur fs -> Inv s ->
  exists s', frag_loop body a frag_len addr (length fs) cur s (pre ++ frags_bytes fs ++ post) (mem_len pre) =
               Some (s', pre ++ frags_bytes (map g fs) ++ post) /\ Inv s'.
Proof.
  induction fs as [|f [|f' fs] IH]; intros pre post cur s Hok Hlift Hlaid Hs; [done| |].
  - destruct Hlaid as [Hcur Hlen]. inv Hok. inv Hlift.
    cbn [frag_loop length]. rewrite (proj2 (Z.eqb_eq _ _) Hcur), <- Hlen, frag_length by done.
    cbn [frags_bytes map concat]. rewrite g_pad, !app_nil_r, <- !(app_assoc _ (fr_pad f)).
    destruct (H3 s pre (fr_pad f ++ post) Hs) as (s' & -> & Hs'). by exists s'.
  - destruct Hlaid as (Hcur & Hlen & Hpad & Hlaid). inversion_clear Hok as [|?? Hf Hok'].
    inversion_clear Hlift as [|?? Hl Hlift'].
    cbn [length]. set (n := S (length fs)). cbn [frag_loop].
    rewrite (proj2 (Z.eqb_neq _ _) Hcur), <- Hlen, frag_length by done.
    rewrite (map_cons g f), (frags_bytes_cons f), (frags_bytes_cons (g f)), <- !app_assoc.
    destruct (Hl s pre (fr_pad f ++ frags_bytes (f' :: fs) ++ post) Hs) as (s' & -> & Hs').
    cbn [mbind option_bind]. rewrite Hlen, Hpad.
    assert (mem_len (pre ++ frag_bytes (g f) ++ fr_pad f) =
            mem_len pre + mem_len (frag_bytes f ++ fr_pad f)) as EL.
    { rewrite !mem_len_app. unfold mem_len in *. rewrite g_size by done. lia. }
    replace (addr + mem_len pre + frag_len + mem_len (fr_pad f) - addr)
      with (mem_len (pre ++ frag_bytes (g f) ++ fr_pad f)) by (rewrite EL, mem_len_app; lia).
    replace (pre ++ frag_bytes (g f) ++ fr_pad f ++ frags_bytes (f' :: fs) ++ post)
      with ((pre ++ frag_bytes (g f) ++ fr_pad f) ++ frags_bytes (f' :: fs) ++ post)
      by (by rewrite <- !app_assoc).
    destruct (IH (pre ++ frag_bytes (g f) ++ fr_pad f) post (cur + 1) s' Hok' Hlift') as (s'' & E & Hs'').
    + by rewrite EL.
    + done.
    + exists s''. split; [|done]. etrans; [exact E|]. f_equal. f_equal.
      by rewrite g_pad, <- !app_assoc.
Qed.
End lift.

(** ** A concrete secured exchange

    Keys, attributes and two fragments on which the theorems about the cipher
    routines are instantiated. *)

Definition sec_crc : crc_state := mk_crc_state 0 [].

Definition sec_key : list Z :=
  [0x10; 0x21; 0x32; 0x43; 0x54; 0x65; 0x76; 0x87; 0x98; 0xa9; 0xba; 0xcb; 0xdc; 0xed; 0xfe; 0x0f].

Definition sec_priv : security_priv :=
  mk_security_priv 1 [sec_key; sec_key; sec_key; sec_key] [5; 13; 5; 5] 1
    [sec_key; sec_key; sec_key; sec_key] 1.

(** A data frame, three addresses, no QoS. *)
Definition sec_hdr : list Z :=
  [0x08; 0x41; 0; 0; 0x02; 0x11; 0x22; 0x33; 0x44; 0x55; 0x02; 0xaa; 0xbb; 0xcc; 0xdd; 0xee;
   0x02; 0x66; 0x77; 0x88; 0x99; 0x00; 0x10; 0].

Definition sec_attrib (encrypt iv_len icv_len nr last : Z) : pkt_attrib :=
  mk_pkt_attrib encrypt 24 iv_len icv_len nr last
    [0x02; 0x11; 0x22; 0x33; 0x44; 0x55] [0x02; 0xaa; 0xbb; 0xcc; 0xdd; 0xee] sec_key.

Definition sec_rx_attrib (encrypt iv_len : Z) : rx_pkt_attrib :=
  mk_rx_pkt_attrib encrypt 24 iv_len 1 [0x02; 0x11; 0x22; 0x33; 0x44; 0x55] [0x02; 0xaa; 0xbb; 0xcc; 0xdd; 0xee].

Definition sec_iv (n : nat) : list Z := take n [0x01; 0x21; 0x02; 0x60; 0x03; 0x04; 0x05; 0x06].

(** Two fragments: five bytes of payload with three bytes of padding, and two
    bytes of payload. *)
Definition sec_frags (iv_len icv_len : nat) : list frag :=
  [mk_frag sec_hdr (sec_iv iv_len) ([0x68; 0x65; 0x6c; 0x6c; 0x6f] ++ repeat 0 icv_len) [0; 0; 0];
   mk_frag sec_hdr (sec_iv iv_len) ([0x21; 0x0a] ++ repeat 0 icv_len) []].

Definition sec_desc : list Z := repeat 0 40.

Definition sec_xmit (encrypt : Z) (iv_len icv_len : nat) : xmit_frame :=
  mk_xmit_frame
    (sec_attrib encrypt (Z.of_nat iv_len) (Z.of_nat icv_len) 2 (24 + Z.of_nat iv_len + 2 + Z.of_nat icv_len))
    0 4096 (sec_desc ++ frags_bytes (sec_frags iv_len icv_len) ++ []).

Definition sec_frag_len (iv_len icv_len : nat) : Z := 24 + Z.of_nat iv_len + 5 + Z.of_nat icv_len.

Lemma sec_crc_ok : crc_ok sec_crc.
Proof. by left. Qed.

Lemma sec_frags_ok encrypt iv_len icv_len nr last :
  (iv_len = 4 \/ iv_len = 8)%nat -> (icv_len = 4 \/ icv_len = 8)%nat ->
  Forall (frag_ok (sec_attrib encrypt (Z.of_nat iv_len) (Z.of_nat icv_len) nr last)) (sec_frags iv_len icv_len).
Proof.
  intros [-> | ->] [-> | ->]; repeat constructor; try (by apply bytesb_bytes); by vm_compute.
Qed.
