(* ===== verification/WepSpec.v ===== *)
(** * WEP: what a sealed fragment is, and that it opens again *)

From S2P Require Import Prelude Mem Arc4 SecDefs Wep FragSpec.
(** The per-packet key: the first three bytes of the IV, then the WEP key. *)
Definition wep_key (skey : list Z) (kl : Z) (iv : list Z) : list Z :=
  take 3 iv ++ take (Z.to_nat kl) skey.

Definition wep_sealed (skey : list Z) (kl : Z) (f : frag) : frag :=
  let data := fr_data 4 f in
  mk_frag (fr_hdr f) (fr_iv f) (arc4_box (wep_key skey kl (fr_iv f)) (3 + kl) (data ++ icv data)) (fr_pad f).

Lemma rdn_iv hdr iv rest n :
  0 <= n <= mem_len iv -> rdn (hdr ++ iv ++ rest) (mem_len hdr) n = Some (take (Z.to_nat n) iv).
Proof.
  intros Hn. rewrite <- (take_drop (Z.to_nat n) iv) at 1. rewrite <- app_assoc.
  apply rdn_app; [done|]. unfold mem_len in *. rewrite length_take. lia.
Qed.

Lemma wepkey_done skey kl iv :
  length skey = 16%nat -> 0 <= kl <= 13 -> length iv = 3%nat ->
  wepkey iv skey kl = Some (iv ++ take (Z.to_nat kl) skey).
Proof.
  intros Hs Hk Hi. unfold wepkey.
  pose proof (rdn_iv [] skey [] kl) as H. rewrite app_nil_r in H. change (mem_len []) with 0 in H. cbn [app] in H.
  rewrite H by (unfold mem_len; lia). cbn. by rewrite (proj2 (Z.leb_le _ _)) by lia.
Qed.

(** The four-byte ICV of the RC4 ciphers. *)
Lemma fr_body_split a f :
  frag_ok a f -> pa_icv_len a = 4 ->
  exists room, fr_body f = fr_data 4 f ++ room /\ length room = 4%nat /\ bytes (fr_data 4 f) /\
    mem_len (fr_data 4 f) = mem_len (fr_body f) - 4.
Proof. intros Hf E. pose proof (fr_body_room a f Hf) as H. by rewrite E in H. Qed.

Lemma wep_sealed_size a skey kl f :
  frag_ok a f -> pa_icv_len a = 4 ->
  length (frag_bytes (wep_sealed skey kl f)) = length (frag_bytes f).
Proof.
  intros Hf E. destruct (fr_body_split a f Hf E) as (room & Hb & Hr & _ & _).
  unfold frag_bytes. cbn [wep_sealed fr_hdr fr_iv fr_body]. rewrite !length_app, length_arc4_box.
  apply (f_equal length) in Hb. rewrite length_app in Hb. rewrite length_app, length_icv. lia.
Qed.

Section wep.
Context (sec : security_priv) (a : pkt_attrib) (skey : list Z) (kl : Z).
Hypothesis Hskey : length skey = 16%nat.
Hypothesis Hkl : 0 <= kl <= 13.
Hypothesis Hivl : 3 <= pa_iv_len a.
Hypothesis Hicv : pa_icv_len a = 4.

Lemma wep_frag_done f :
  frag_ok a f -> lifts (wep_frag a skey kl) a crc_ok (wep_sealed skey kl) f.
Proof.
  intros Hf s pre post Hs. destruct (fr_body_split a f Hf Hicv) as (room & Hb & Hr & Hby & Hlen).
  destruct Hf as [Hh Hi _ _ _]. unfold frag_bytes. cbn [wep_sealed fr_hdr fr_iv fr_body].
  unfold wep_frag. rewrite Hicv.
  assert (pre ++ (fr_hdr f ++ fr_iv f ++ fr_body f) ++ post =
          (pre ++ fr_hdr f) ++ fr_iv f ++ fr_body f ++ post) as -> by (by rewrite <- !app_assoc).
  rewrite <- Hh, <- mem_len_app, rdn_iv by lia. cbn [mbind option_bind].
  rewrite wepkey_done by (rewrite ?length_take; unfold mem_len in *; lia). cbn [mbind option_bind].
  change (Z.to_nat 3) with 3%nat. fold (wep_key skey kl (fr_iv f)). rewrite Hb.
  destruct (arc4_seal_done s (wep_key skey kl (fr_iv f)) (3 + kl) ((pre ++ fr_hdr f) ++ fr_iv f)
    (fr_data 4 f) room post (mem_len pre + pa_iv_len a + mem_len (fr_hdr f)) (mem_len (fr_data 4 f))
    Hs Hby Hr) as (s' & E & Hs'); [rewrite !mem_len_app; lia|done|].
  exists s'. split; [|done]. rewrite <- Hb, <- Hlen, Hb, <- (app_assoc _ (fr_iv f)) in *.
  etrans; [|etrans; [exact E|]]; [by rewrite <- !app_assoc|].
  by rewrite <- !app_assoc.
Qed.
End wep.

(** A received fragment: the sealed bytes, whatever lies behind them in the
    receive buffer, and the attributes the receive path found. *)
Definition received (ra : rx_pkt_attrib) (f : frag) (slack : list Z) : recv_frame :=
  mk_recv_frame ra (mem_len (frag_bytes f)) (frag_bytes f ++ slack).

(** The fragment in the clear, its ICV behind the payload. *)
Definition opened (f : frag) : frag :=
  mk_frag (fr_hdr f) (fr_iv f) (fr_data 4 f ++ icv (fr_data 4 f)) (fr_pad f).

(** The receive attributes agree with the transmit attributes. *)
Definition rx_agrees (a : pkt_attrib) (ra : rx_pkt_attrib) : Prop :=
  rxa_hdrlen ra = pa_hdrlen a /\ rxa_iv_len ra = pa_iv_len a.

Section roundtrip.
Context (sec : security_priv) (a : pkt_attrib) (skey : list Z) (kl : Z).
Hypothesis Hskey : length skey = 16%nat.
Hypothesis Hkl : 0 <= kl <= 13.
Hypothesis Hivl : 3 <= pa_iv_len a.
Hypothesis Hicv : pa_icv_len a = 4.

Lemma sealed_len f : frag_ok a f ->
  s32 (mem_len (frag_bytes (wep_sealed skey kl f)) - pa_hdrlen a - pa_iv_len a) = mem_len (fr_data 4 f) + 4.
Proof.
  intros Hf. destruct (fr_body_split a f Hf Hicv) as (room & Hb & Hr & Hby & Hlen).
  assert (mem_len (frag_bytes (wep_sealed skey kl f)) = mem_len (frag_bytes f)) as ->
    by (unfold mem_len; by rewrite (wep_sealed_size a)).
  rewrite Hlen. destruct Hf as [Hh Hi [? Hbl] _ Hs]. unfold frag_bytes in *. rewrite !mem_len_app in *.
  pose proof (mem_len_nonneg (fr_hdr f)); pose proof (mem_len_nonneg (fr_iv f)).
  rewrite s32_small; lia.
Qed.

Lemma wep_decrypt_done f ra s slack :
  frag_ok a f -> crc_ok s -> rx_agrees a ra -> is_wep (rxa_encrypt ra) = true ->
  key_at (dot11DefKeylen sec) (rxa_key_index ra) = Some kl ->
  key_at (dot11DefKey sec) (rxa_key_index ra) = Some skey ->
  exists s', rtw_wep_decrypt sec s (received ra (wep_sealed skey kl f) slack) =
    Some (s', mk_recv_frame ra (mem_len (frag_bytes (wep_sealed skey kl f))) (frag_bytes (opened f) ++ slack))
    /\ crc_ok s'.
Proof.
  intros Hf Hs [Eh Ei] Hw Ekl Esk. unfold rtw_wep_decrypt, received. cbn [rv_attrib rv_data rv_len].
  rewrite Hw, Ekl, Esk, Eh, Ei, sealed_len by done.
  unfold frag_bytes. cbn [wep_sealed opened fr_hdr fr_iv fr_body].
  destruct (fr_body_split a f Hf Hicv) as (room & Hb & Hr & Hby & Hlen).
  destruct Hf as [Hh Hi _ _ _].
  rewrite <- !app_assoc, <- Hh, rdn_iv by lia. cbn [mbind option_bind].
  rewrite wepkey_done by (rewrite ?length_take; unfold mem_len in *; lia). cbn [mbind option_bind].
  change (Z.to_nat 3) with 3%nat. fold (wep_key skey kl (fr_iv f)).
  destruct (arc4_open_done s (wep_key skey kl (fr_iv f)) (3 + kl) (fr_hdr f ++ fr_iv f)
    (fr_data 4 f) (icv (fr_data 4 f)) slack (pa_iv_len a + mem_len (fr_hdr f)) (mem_len (fr_data 4 f) + 4)
    Hs Hby (length_icv _)) as (s' & E & Hs'); [rewrite !mem_len_app; lia|done|].
  rewrite <- !app_assoc in E. rewrite E. by exists s'.
Qed.
End roundtrip.

(** WEP carries every fragment: for a transmit buffer laid out in any
    number of fragments, rtw_wep_encrypt succeeds, leaves headers, IVs and
    padding alone, and rtw_wep_decrypt with the same key gives back each
    fragment's payload with its CRC-32 behind it. *)
Theorem wep_roundtrip sec frag_len s x fs desc tail skey kl :
  let a := xf_attrib x in
  crc_ok s -> xf_buf_addr x <> 0 -> is_wep (pa_encrypt a) = true ->
  key_at (dot11DefKeylen sec) (dot11PrivacyKeyIndex sec) = Some kl ->
  key_at (dot11DefKey sec) (dot11PrivacyKeyIndex sec) = Some skey ->
  length skey = 16%nat -> 0 <= kl <= 13 -> 3 <= pa_iv_len a -> pa_icv_len a = 4 ->
  xf_buf x = desc ++ frags_bytes fs ++ tail -> mem_len desc = hw_hdr_offset x ->
  Forall (frag_ok a) fs -> frags_laid a frag_len (xf_buf_addr x) (hw_hdr_offset x) 0 fs ->
  (exists s', rtw_wep_encrypt sec frag_len s x =
     Some (s', mk_xmit_frame a (xf_pkt_offset x) (xf_buf_addr x)
                 (desc ++ frags_bytes (map (wep_sealed skey kl) fs) ++ tail))) /\
  forall f ra s slack, f ∈ fs -> crc_ok s -> rx_agrees a ra -> is_wep (rxa_encrypt ra) = true ->
    rxa_key_index ra = dot11PrivacyKeyIndex sec ->
    exists s', rtw_wep_decrypt sec s (received ra (wep_sealed skey kl f) slack) =
      Some (s', mk_recv_frame ra (mem_len (frag_bytes (wep_sealed skey kl f))) (frag_bytes (opened f) ++ slack)).
Proof.
  intros a Hs Haddr Hw Ekl Esk Hsk Hkl Hiv Hicv Hbuf Hdesc Hok Hlaid. split.
  - unfold rtw_wep_encrypt. fold a. rewrite (proj2 (Z.eqb_neq _ _) Haddr), Hw, Ekl, Esk.
    cbn [mbind option_bind].
    rewrite (frags_laid_nr _ _ _ _ _ _ Hlaid), Z.add_0_l, Nat2Z.id, Hbuf, <- Hdesc.
    rewrite <- Hdesc in Hlaid.
    destruct (frag_loop_all (wep_frag a skey kl) a frag_len (xf_buf_addr x) crc_ok (wep_sealed skey kl)
      ltac:(intros; by apply (wep_sealed_size a)) ltac:(done) fs desc tail 0 s Hok) as (s' & E & _).
    + apply (list.Forall_impl _ _ _ Hok). intros f Hf. by apply wep_frag_done.
    + done.
    + done.
    + rewrite E. by exists s'.
  - intros f ra s1 slack Hf Hs1 Hra Hw1 Hidx.
    destruct (wep_decrypt_done sec a skey kl Hsk Hkl Hiv Hicv f ra s1 slack) as (s' & E & _);
      [by eapply list.Forall_forall|done..|by rewrite Hidx|by rewrite Hidx|].
    by exists s'.
Qed.

Lemma wep_roundtrip_witness :
  exists s', rtw_wep_encrypt sec_priv (sec_frag_len 4 4) sec_crc (sec_xmit _WEP104_ 4 4) =
    Some (s', mk_xmit_frame (xf_attrib (sec_xmit _WEP104_ 4 4)) 0 4096
                (sec_desc ++ frags_bytes (map (wep_sealed sec_key 13) (sec_frags 4 4)) ++ [])).
Proof.
  refine (proj1 (wep_roundtrip sec_priv (sec_frag_len 4 4) sec_crc (sec_xmit _WEP104_ 4 4)
    (sec_frags 4 4) sec_desc [] sec_key 13 sec_crc_ok _ _ _ _ _ _ _ _ _ _ _ _)); try done.
  apply sec_frags_ok; tauto.
Defined.
