(* ===== verification/Michael.v ===== *)
(** * The Michael MIC of TKIP (core/rtw_security.c, [rtw_secmic...])

    The byte-at-a-time accumulator, and the reference that folds the block
    function over the little-endian words of the padded message. *)

From S2P Require Import Prelude Mem.
Record mic_data := mk_mic_data {
  mic_K0 : Z; mic_K1 : Z; mic_L : Z; mic_R : Z; mic_M : Z; nBytesInM : Z }.

Definition ROL32 (A n : Z) : Z :=
  u32 (Z.lor (Z.shiftl A n) (Z.land (Z.shiftr A (32 - n)) (Z.shiftl 1 n - 1))).
Definition ROR32 (A n : Z) : Z := ROL32 A (32 - n).

(** [secmicgetuint32]: [res |= (u32)*p++ << (8 * i)]. *)
Definition secmicgetuint32 (p : list Z) : Z :=
  foldl (fun res i => Z.lor res (u32 (Z.shiftl (arr_get p i) (8 * i)))) 0 (seqZ 0 4).

Fixpoint secmicputuint32_loop (n : nat) (val : Z) : list Z :=
  match n with
  | O => []
  | S n => u8 (Z.land val 0xff) :: secmicputuint32_loop n (Z.shiftr val 8)
  end.
Definition secmicputuint32 (val : Z) : list Z := secmicputuint32_loop 4 val.

Definition secmicclear (d : mic_data) : mic_data :=
  mk_mic_data (mic_K0 d) (mic_K1 d) (mic_K0 d) (mic_K1 d) 0 0.

Definition rtw_secmicsetkey (key : list Z) : mic_data :=
  secmicclear (mk_mic_data (secmicgetuint32 key) (secmicgetuint32 (drop 4 key)) 0 0 0 0).

(** The mixing of a full word into [L] and [R]. *)
Definition mic_block (LR : Z * Z) (M : Z) : Z * Z :=
  let '(L, R) := LR in
  let L := Z.lxor L M in
  let R := Z.lxor R (ROL32 L 17) in
  let L := u32 (L + R) in
  let R := Z.lxor R (Z.lor (Z.shiftr (Z.land L 0xff00ff00) 8) (u32 (Z.shiftl (Z.land L 0x00ff00ff) 8))) in
  let L := u32 (L + R) in
  let R := Z.lxor R (ROL32 L 3) in
  let L := u32 (L + R) in
  let R := Z.lxor R (ROR32 L 2) in
  let L := u32 (L + R) in
  (L, R).

Definition rtw_secmicappendbyte (d : mic_data) (b : Z) : mic_data :=
  let M := u32 (Z.lor (mic_M d) (Z.shiftl b (8 * nBytesInM d))) in
  let n := nBytesInM d + 1 in
  if 4 <=? n then
    let '(L, R) := mic_block (mic_L d, mic_R d) M in
    mk_mic_data (mic_K0 d) (mic_K1 d) L R 0 0
  else mk_mic_data (mic_K0 d) (mic_K1 d) (mic_L d) (mic_R d) M n.

Definition rtw_secmicappend (d : mic_data) (src : list Z) : mic_data :=
  foldl rtw_secmicappendbyte d src.

(** [while (nBytesInM != 0)]; three rounds always suffice. *)
Fixpoint secmic_zeroes (fuel : nat) (d : mic_data) : mic_data :=
  match fuel with
  | O => d
  | S fuel => if nBytesInM d =? 0 then d else secmic_zeroes fuel (rtw_secmicappendbyte d 0)
  end.

Definition rtw_secgetmic (d : mic_data) : list Z * mic_data :=
  let d := rtw_secmicappendbyte d 0x5a in
  let d := rtw_secmicappendbyte d 0 in
  let d := rtw_secmicappendbyte d 0 in
  let d := rtw_secmicappendbyte d 0 in
  let d := rtw_secmicappendbyte d 0 in
  let d := secmic_zeroes 3 d in
  (secmicputuint32 (mic_L d) ++ secmicputuint32 (mic_R d), secmicclear d).

Definition rtw_seccalctkipmic (key header data : list Z) (data_len pri : Z) : option (list Z) :=
  let d := rtw_secmicsetkey key in
  ds ← rd8 header 1;
  let toDS := negb (Z.land ds 1 =? 0) in
  let fromDS := negb (Z.land ds 2 =? 0) in
  DA ← rdn header (if toDS then 16 else 4) 6;
  SA ← rdn header (if toDS then (if fromDS then 24 else 10) else (if fromDS then 16 else 10)) 6;
  let d := rtw_secmicappend d DA in
  let d := rtw_secmicappend d SA in
  let d := rtw_secmicappend d [pri; 0; 0; 0] in
  bs ← rdn data 0 data_len;
  let d := rtw_secmicappend d bs in
  Some (rtw_secgetmic d).1.

(** ** Reference *)

Fixpoint words (l : list Z) : list Z :=
  match l with
  | a :: b :: c :: d :: l => le_dec [a; b; c; d] :: words l
  | _ => []
  end.

Definition mic_padding (len : nat) : list Z :=
  [0x5a; 0; 0; 0; 0] ++ repeat 0 (3 - (len + 4) mod 4)%nat.

Definition michael_words (k0 k1 : Z) (ws : list Z) : Z * Z := foldl mic_block (k0, k1) ws.

Definition michael (key msg : list Z) : list Z :=
  let '(L, R) := michael_words (le_dec (take 4 key)) (le_dec (take 4 (drop 4 key)))
                   (words (msg ++ mic_padding (length msg))) in
  le_enc 4 L ++ le_enc 4 R.

(** The Michael test vectors of IEEE 802.11. *)
Example michael_vector_0 :
  michael [0; 0; 0; 0; 0; 0; 0; 0] [] = [0x82; 0x92; 0x5c; 0x1c; 0xa1; 0xd1; 0x30; 0xb8].
Proof. by vm_compute. Qed.
Example michael_vector_1 :
  michael [0x82; 0x92; 0x5c; 0x1c; 0xa1; 0xd1; 0x30; 0xb8] [0x4d] =
  [0x43; 0x47; 0x21; 0xca; 0x40; 0x63; 0x9b; 0x3f].
Proof. by vm_compute. Qed.
Example michael_vector_2 :
  michael [0x43; 0x47; 0x21; 0xca; 0x40; 0x63; 0x9b; 0x3f] [0x4d; 0x69] =
  [0xe8; 0xf9; 0xbe; 0xca; 0xe9; 0x7e; 0x5d; 0x29].
Proof. by vm_compute. Qed.
