(* ===== verification/MichaelSpec.v ===== *)
(** * The byte-wise Michael accumulator computes the word-wise MIC *)

From S2P Require Import Prelude Mem Michael.
(** The bytes after the last full word. *)
Fixpoint rest (l : list Z) : list Z :=
  match l with
  | a :: b :: c :: d :: l => rest l
  | l => l
  end.

(** Induction in steps of a word. *)
Lemma word_ind (P : list Z -> Prop) :
  (forall l, (length l < 4)%nat -> P l) ->
  (forall a b c d l, P l -> P (a :: b :: c :: d :: l)) -> forall l, P l.
Proof.
  intros Hs Hw. fix IH 1. intros [|a [|b [|c [|d l]]]]; [apply Hs; cbn; lia..|].
  apply Hw, IH.
Qed.

Lemma rest_length l : (length (rest l) < 4)%nat /\ (length (rest l) = length l mod 4)%nat.
Proof.
  induction l as [l Hl|a b c d l IH] using word_ind.
  - destruct l as [|a [|b [|c [|d l]]]]; cbn in *; try lia; split; (lia || done).
  - cbn [rest length]. destruct IH as [IH1 IH2]. split; [done|]. rewrite IH2.
    replace (S (S (S (S (length l))))) with (length l + 1 * 4)%nat by lia.
    by rewrite Nat.Div0.mod_add.
Qed.

Lemma words_app l1 l2 : words (l1 ++ l2) = words l1 ++ words (rest l1 ++ l2).
Proof.
  induction l1 as [l Hl|a b c d l IH] using word_ind.
  - destruct l as [|a [|b [|c [|d l]]]]; cbn in Hl; try lia; done.
  - cbn [app words rest]. by rewrite IH.
Qed.

Lemma rest_app l1 l2 : rest (l1 ++ l2) = rest (rest l1 ++ l2).
Proof.
  induction l1 as [l Hl|a b c d l IH] using word_ind.
  - destruct l as [|a [|b [|c [|d l]]]]; cbn in Hl; try lia; done.
  - cbn [app rest]. by rewrite IH.
Qed.

Lemma le_dec_app l1 l2 : le_dec (l1 ++ l2) = le_dec l1 + 2 ^ (8 * Z.of_nat (length l1)) * le_dec l2.
Proof.
  induction l1 as [|b l IH]; cbn [app le_dec length]; [change (2 ^ _) with 1; lia|].
  rewrite IH, Nat2Z.inj_succ.
  replace (8 * Z.succ (Z.of_nat (length l))) with (8 + 8 * Z.of_nat (length l)) by lia.
  rewrite Z.pow_add_r by lia. change (2 ^ 8) with 256. lia.
Qed.

Lemma le_dec_snoc p b : bytes p ->
  Z.lor (le_dec p) (Z.shiftl b (8 * Z.of_nat (length p))) = le_dec (p ++ [b]).
Proof.
  intros Hp. rewrite le_dec_app, lor_shiftl_add by (lia || by apply le_dec_range).
  cbn [le_dec]. lia.
Qed.

(** ** The accumulator after the bytes [msg] *)

Record absorbed (k0 k1 : Z) (d : mic_data) (msg : list Z) : Prop := {
  ab_k0 : mic_K0 d = k0;
  ab_k1 : mic_K1 d = k1;
  ab_LR : (mic_L d, mic_R d) = michael_words k0 k1 (words msg);
  ab_M : mic_M d = le_dec (rest msg);
  ab_n : nBytesInM d = Z.of_nat (length (rest msg)) }.

Lemma rest_bytes l : bytes l -> bytes (rest l).
Proof.
  induction l as [l Hl|a b c d l IH] using word_ind; intros H.
  - destruct l as [|a [|b [|c [|d l]]]]; cbn in Hl; try lia; done.
  - cbn [rest]. apply IH. by repeat (apply Forall_inv_tail in H).
Qed.

Lemma absorbed_byte k0 k1 d msg b :
  bytes msg -> is_u8 b -> absorbed k0 k1 d msg ->
  absorbed k0 k1 (rtw_secmicappendbyte d b) (msg ++ [b]).
Proof.
  intros Hm Hb [H0 H1 HLR HM Hn]. unfold rtw_secmicappendbyte.
  pose proof (rest_bytes msg Hm) as Hr. destruct (rest_length msg) as [Hlt _].
  rewrite HM, Hn, le_dec_snoc by done.
  assert (bytes (rest msg ++ [b])) as Hp by (apply Forall_app; auto).
  rewrite wrap_small.
  2: { pose proof (le_dec_range _ Hp) as Hw. unfold in_width in *. split; [lia|].
       eapply Z.lt_le_trans; [apply Hw|]. apply Z.pow_le_mono_r; [lia|]. rewrite length_app. cbn. lia. }
  pose proof (words_app msg [b]) as Ew. pose proof (rest_app msg [b]) as Er.
  destruct (rest msg) as [|x [|y [|z [|w p]]]]; cbn [length] in *; try lia; cbn [app words rest] in Ew, Er;
    cbn [Z.of_nat Pos.of_succ_nat Pos.succ Z.add Pos.add Z.leb Z.compare Pos.compare Pos.compare_cont].
  4: { rewrite HLR. destruct (mic_block _ _) as [L R] eqn:EB. split; cbn [mic_K0 mic_K1 mic_L mic_R mic_M nBytesInM];
       [done|done| |by rewrite Er|by rewrite Er].
       rewrite Ew. unfold michael_words. rewrite foldl_app. symmetry. exact EB. }
  all: split; cbn [mic_K0 mic_K1 mic_L mic_R mic_M nBytesInM]; rewrite ?Ew, ?app_nil_r; try done; by rewrite Er.
Qed.

Lemma absorbed_list k0 k1 l : forall d msg,
  bytes msg -> bytes l -> absorbed k0 k1 d msg -> absorbed k0 k1 (rtw_secmicappend d l) (msg ++ l).
Proof.
  induction l as [|b l IH]; intros d msg Hm Hl Hd; [by rewrite app_nil_r|].
  inversion_clear Hl. change (b :: l) with ([b] ++ l). rewrite app_assoc.
  apply IH; [apply Forall_app; auto|done|]. by apply absorbed_byte.
Qed.

Lemma secmicgetuint32_spec key : bytes key -> (4 <= length key)%nat -> secmicgetuint32 key = le_dec (take 4 key).
Proof.
  intros Hk Hl. destruct key as [|a [|b [|c [|d l]]]]; cbn in Hl; try lia.
  inversion_clear Hk as [|?? Ha Hk']. inversion_clear Hk' as [|?? Hb Hk]. inversion_clear Hk as [|?? Hc Hk'].
  inversion_clear Hk' as [|?? Hd _].
  unfold secmicgetuint32. change (seqZ 0 4) with [0; 1; 2; 3]. cbn [foldl].
  change (8 * 0) with 0. change (8 * 1) with 8. change (8 * 2) with 16. change (8 * 3) with 24.
  change (arr_get (a :: b :: c :: d :: l) 0) with a. change (arr_get (a :: b :: c :: d :: l) 1) with b.
  change (arr_get (a :: b :: c :: d :: l) 2) with c. change (arr_get (a :: b :: c :: d :: l) 3) with d.
  change (take 4 (a :: b :: c :: d :: l)) with [a; b; c; d].
  rewrite Z.shiftl_0_r, Z.lor_0_l.
  rewrite (wrap_small 32 a) by width_lia.
  rewrite !(wrap_small 32 (Z.shiftl _ _)) by (rewrite Z.shiftl_mul_pow2 by lia; change (2 ^ 8) with 256 in *;
    change (2 ^ 16) with 65536; change (2 ^ 24) with 16777216; width_lia).
  assert (bytes [a] /\ bytes [a; b] /\ bytes [a; b; c]) as (H1 & H2 & H3) by (repeat constructor; apply Ha || apply Hb || apply Hc).
  pose proof (le_dec_snoc [a] b H1) as E1. pose proof (le_dec_snoc [a; b] c H2) as E2.
  pose proof (le_dec_snoc [a; b; c] d H3) as E3. cbn [length app] in *.
  change (8 * Z.of_nat 1) with 8 in E1. change (8 * Z.of_nat 2) with 16 in E2.
  change (8 * Z.of_nat 3) with 24 in E3.
  replace a with (le_dec [a]) at 1 by (cbn [le_dec]; lia).
  by rewrite E1, E2, E3.
Qed.

Lemma secmicputuint32_spec val : secmicputuint32 val = le_enc 4 val.
Proof.
  unfold secmicputuint32. generalize 4%nat. intros n. revert val.
  induction n as [|n IH]; intros val; [done|]. cbn [secmicputuint32_loop le_enc].
  change 255 with (Z.ones 8). rewrite <- wrap_land, wrap_wrap, Z.shiftr_div_pow2 by lia.
  by rewrite IH.
Qed.

Lemma absorbed_key key : bytes key -> length key = 8%nat ->
  absorbed (le_dec (take 4 key)) (le_dec (take 4 (drop 4 key))) (rtw_secmicsetkey key) [].
Proof.
  intros Hk Hl. unfold rtw_secmicsetkey.
  rewrite !secmicgetuint32_spec by (done || lia || (apply Forall_drop; done) || (rewrite length_drop; lia)).
  by split.
Qed.

(** The loop of [rtw_secgetmic] ends with an empty accumulator. *)
Lemma secmic_zeroes_done k0 k1 fuel : forall d msg,
  bytes msg -> absorbed k0 k1 d msg -> ((4 - length (rest msg)) mod 4 <= fuel)%nat ->
  absorbed k0 k1 (secmic_zeroes fuel d) (msg ++ repeat 0 ((4 - length (rest msg)) mod 4)%nat).
Proof.
  induction fuel as [|fuel IH]; intros d msg Hm Hd Hf; cbn [secmic_zeroes].
  - replace ((4 - length (rest msg)) mod 4)%nat with 0%nat by lia. by rewrite app_nil_r.
  - destruct (rest_length msg) as [Hlt _]. rewrite (ab_n _ _ _ _ Hd).
    assert (is_u8 0) as H0 by (unfold in_width; lia).
    pose proof (absorbed_byte k0 k1 d msg 0 Hm H0 Hd) as Hd'.
    assert (bytes (msg ++ [0])) as Hm' by (apply Forall_app; auto).
    specialize (IH _ _ Hm' Hd'). rewrite rest_app in IH.
    destruct (rest msg) as [|x [|y [|z [|w p]]]]; cbn [length] in *; try lia; cbn in Hf; cbn in IH |- *.
    + by rewrite app_nil_r.
    + rewrite <- app_assoc in IH. apply IH. lia.
    + rewrite <- app_assoc in IH. apply IH. lia.
    + rewrite <- app_assoc in IH. apply IH. lia.
Qed.

Lemma secgetmic_done key d msg :
  bytes msg -> absorbed (le_dec (take 4 key)) (le_dec (take 4 (drop 4 key))) d msg ->
  (rtw_secgetmic d).1 = michael key msg.
Proof.
  intros Hm Hd. unfold rtw_secgetmic. cbn [fst].
  assert (bytes [0x5a; 0; 0; 0; 0]) as Hpad by (by apply bytesb_bytes).
  pose proof (absorbed_list _ _ _ _ _ Hm Hpad Hd) as Hd'.
  assert (bytes (msg ++ [0x5a; 0; 0; 0; 0])) as Hm' by (apply Forall_app; auto).
  pose proof (secmic_zeroes_done _ _ 3 _ _ Hm' Hd' ltac:(pose proof (Nat.mod_upper_bound
    (4 - length (rest (msg ++ [90; 0; 0; 0; 0]))) 4); lia)) as [_ _ HLR _ _].
  unfold rtw_secmicappend in HLR. cbn [foldl] in HLR.
  rewrite !secmicputuint32_spec. unfold michael.
  replace (mic_padding (length msg)) with ([0x5a; 0; 0; 0; 0] ++
    repeat 0 ((4 - length (rest (msg ++ [90; 0; 0; 0; 0]))) mod 4)).
  - rewrite app_assoc, <- HLR. done.
  - unfold mic_padding. do 2 f_equal. rewrite (proj2 (rest_length _)), length_app. cbn [length].
    replace (length msg + 5)%nat with (length msg + 4 + 1)%nat by lia.
    rewrite <- (Nat.Div0.add_mod_idemp_l (length msg + 4)).
    pose proof (Nat.mod_upper_bound (length msg + 4) 4).
    destruct ((length msg + 4) mod 4)%nat as [|[|[|[|n]]]]; (lia || done).
Qed.

(** ** The pseudo header *)

Definition field (off : nat) (hdr : list Z) : list Z := take 6 (drop off hdr).
Definition to_ds (hdr : list Z) : bool := Z.testbit (arr_get hdr 1) 0.
Definition from_ds (hdr : list Z) : bool := Z.testbit (arr_get hdr 1) 1.
(** Destination and source address of an 802.11 data frame. *)
Definition mic_DA (hdr : list Z) : list Z := if to_ds hdr then field 16 hdr else field 4 hdr.
Definition mic_SA (hdr : list Z) : list Z :=
  if from_ds hdr then (if to_ds hdr then field 24 hdr else field 16 hdr) else field 10 hdr.

Lemma rdn_field hdr (off : nat) :
  (off + 6 <= length hdr)%nat -> rdn hdr (Z.of_nat off) 6 = Some (field off hdr).
Proof.
  intros H. unfold rdn, mem_len. rewrite !(proj2 (Z.leb_le _ _)) by lia. cbn [andb].
  by rewrite Nat2Z.id.
Qed.

Lemma field_bytes off hdr : bytes hdr -> bytes (field off hdr).
Proof. intros. by apply Forall_take, Forall_drop. Qed.

Lemma calctkipmic_done key header data data_len pri :
  bytes key -> length key = 8%nat -> bytes header -> bytes data -> is_u8 pri ->
  ((if to_ds header && from_ds header then 30 else 24) <= length header)%nat -> 0 <= data_len <= mem_len data ->
  rtw_seccalctkipmic key header data data_len pri =
  Some (michael key (mic_DA header ++ mic_SA header ++ [pri; 0; 0; 0] ++ take (Z.to_nat data_len) data)).
Proof.
  intros Hk Hkl Hh Hd Hp Hhl Hlen. unfold rtw_seccalctkipmic.
  assert (rd8 header 1 = Some (arr_get header 1)) as ->.
  { unfold rd8, arr_get. cbn. assert (24 <= length header)%nat by (destruct (_ && _); lia).
    destruct header as [|? [|? ?]]; cbn in *; (lia || done). }
  cbn [mbind option_bind].
  pose proof (land_bit (arr_get header 1) 0 ltac:(lia)) as E0. change (2 ^ 0) with 1 in E0.
  pose proof (land_bit (arr_get header 1) 1 ltac:(lia)) as E1. change (2 ^ 1) with 2 in E1.
  rewrite E0, E1. fold (to_ds header) (from_ds header).
  assert (rdn header (if to_ds header then 16 else 4) 6 = Some (mic_DA header)) as ->.
  { unfold mic_DA. destruct (to_ds header), (from_ds header); cbn in Hhl.
    - apply (rdn_field header 16); lia.
    - apply (rdn_field header 16); lia.
    - apply (rdn_field header 4); lia.
    - apply (rdn_field header 4); lia. }
  cbn [mbind option_bind].
  assert (rdn header (if to_ds header then if from_ds header then 24 else 10
                      else if from_ds header then 16 else 10) 6 = Some (mic_SA header)) as ->.
  { unfold mic_SA. destruct (from_ds header), (to_ds header); cbn in Hhl.
    - apply (rdn_field header 24); lia.
    - apply (rdn_field header 16); lia.
    - apply (rdn_field header 10); lia.
    - apply (rdn_field header 10); lia. }
  cbn [mbind option_bind].
  assert (rdn data 0 data_len = Some (take (Z.to_nat data_len) data)) as ->.
  { unfold rdn. rewrite !(proj2 (Z.leb_le _ _)) by lia. by rewrite drop_0. }
  cbn [mbind option_bind]. f_equal. unfold rtw_secmicappend. rewrite <- !foldl_app.
  change (foldl rtw_secmicappendbyte) with rtw_secmicappend.
  assert (bytes (((mic_DA header ++ mic_SA header) ++ [pri; 0; 0; 0]) ++ take (Z.to_nat data_len) data)) as Hb.
  { repeat (apply Forall_app; split).
    - unfold mic_DA. destruct (to_ds header); by apply field_bytes.
    - unfold mic_SA. destruct (to_ds header), (from_ds header); by apply field_bytes.
    - repeat constructor; (apply Hp || (unfold in_width; lia)).
    - by apply Forall_take. }
  rewrite (secgetmic_done key _ _ Hb).
  - by rewrite <- !app_assoc.
  - rewrite <- !app_assoc in *. apply (absorbed_list _ _ _ _ []); [constructor|done|]. by apply absorbed_key.
Qed.

(** C14. rtw_seccalctkipmic computes the Michael MIC of IEEE 802.11 of
    destination, source, priority, three zeros and data: the byte-wise
    accumulator with its padding loop equals the block function folded over
    the words of the padded message, for every header format and length. *)
Theorem michael_mic key header data data_len pri :
  bytes key -> length key = 8%nat -> bytes header -> bytes data -> is_u8 pri ->
  ((if to_ds header && from_ds header then 30 else 24) <= length header)%nat -> 0 <= data_len <= mem_len data ->
  rtw_seccalctkipmic key header data data_len pri =
  Some (michael key (mic_DA header ++ mic_SA header ++ [pri; 0; 0; 0] ++ take (Z.to_nat data_len) data)).
Proof. apply calctkipmic_done. Qed.

(** ** What the MIC detects *)

Lemma add32_cancel a b c : is_u32 a -> is_u32 b -> u32 (a + c) = u32 (b + c) -> a = b.
Proof.
  unfold wrap. intros Ha Hb H.
  assert ((a + c - c) mod 2 ^ 32 = (b + c - c) mod 2 ^ 32) as H'
    by (rewrite Zminus_mod, H, <- Zminus_mod; done).
  rewrite !Z.add_simpl_r, !Z.mod_small in H' by done. done.
Qed.

Lemma lxor_cancel_eq a b c : Z.lxor a c = Z.lxor b c -> a = b.
Proof. intros H. by rewrite <- (lxor_cancel_r a c), H, lxor_cancel_r. Qed.

Lemma mic_block_width LR M : is_u32 LR.1 -> is_u32 LR.2 -> is_u32 (mic_block LR M).1 /\ is_u32 (mic_block LR M).2.
Proof.
  destruct LR as [L R]. cbn [fst snd mic_block]. intros HL HR. split; [apply wrap_range; lia|].
  assert (forall A n, is_u32 (ROL32 A n)) as Hrol by (intros; apply wrap_range; lia).
  unfold ROR32. repeat (apply lxor_in_width; [lia| |apply Hrol]).
  apply lxor_in_width; [lia|apply lxor_in_width; [lia|done|apply Hrol]|].
  apply lor_in_width; [lia|apply shiftr_in_width; [lia|lia|]|apply wrap_range; lia].
  apply land_in_width_r; [lia|]. unfold in_width; lia.
Qed.

(** The block function can be run backwards: it loses nothing of the state,
    and nothing of the word. *)
Lemma mic_block_inj L R L' R' M M' :
  is_u32 L -> is_u32 L' -> is_u32 M -> is_u32 M' ->
  mic_block (L, R) M = mic_block (L', R') M' -> Z.lxor L M = Z.lxor L' M' /\ R = R'.
Proof.
  intros HL HL' HM HM'. cbn [mic_block].
  assert (is_u32 (Z.lxor L M)) as H0 by (by apply lxor_in_width).
  assert (is_u32 (Z.lxor L' M')) as H0' by (by apply lxor_in_width).
  revert H0 H0'. generalize (Z.lxor L M) (Z.lxor L' M'). intros l l' H0 H0'.
  set (r1 := Z.lxor R _); set (r1' := Z.lxor R' _).
  set (l1 := u32 (l + r1)); set (l1' := u32 (l' + r1')).
  set (r2 := Z.lxor r1 _); set (r2' := Z.lxor r1' _).
  set (l2 := u32 (l1 + r2)); set (l2' := u32 (l1' + r2')).
  set (r3 := Z.lxor r2 _); set (r3' := Z.lxor r2' _).
  set (l3 := u32 (l2 + r3)); set (l3' := u32 (l2' + r3')).
  set (r4 := Z.lxor r3 _); set (r4' := Z.lxor r3' _).
  intros [= HLe HRe].
  assert (forall x, is_u32 (u32 x)) as Hw by (intros; apply wrap_range; lia).
  rewrite HRe in HLe. apply add32_cancel in HLe; [|apply Hw..].
  assert (r3 = r3') as E3 by (unfold r4, r4' in HRe; rewrite HLe in HRe; by apply lxor_cancel_eq in HRe).
  unfold l3, l3' in HLe. rewrite E3 in HLe. apply add32_cancel in HLe; [|apply Hw..].
  assert (r2 = r2') as E2 by (unfold r3, r3' in E3; rewrite HLe in E3; by apply lxor_cancel_eq in E3).
  unfold l2, l2' in HLe. rewrite E2 in HLe. apply add32_cancel in HLe; [|apply Hw..].
  assert (r1 = r1') as E1 by (unfold r2, r2' in E2; rewrite HLe in E2; by apply lxor_cancel_eq in E2).
  unfold l1, l1' in HLe. rewrite E1 in HLe. apply add32_cancel in HLe; [|done..].
  split; [done|]. unfold r1, r1' in E1. rewrite HLe in E1. by apply lxor_cancel_eq in E1.
Qed.

Lemma michael_words_width ws : forall k0 k1, is_u32 k0 -> is_u32 k1 ->
  is_u32 (michael_words k0 k1 ws).1 /\ is_u32 (michael_words k0 k1 ws).2.
Proof.
  unfold michael_words. induction ws as [|w ws IH]; intros k0 k1 H0 H1; [done|]. cbn [foldl].
  pose proof (mic_block_width (k0, k1) w H0 H1) as [H0' H1'].
  destruct (mic_block (k0, k1) w) as [L R]. by apply IH.
Qed.

Lemma michael_words_inj ws : forall L R L' R',
  is_u32 L -> is_u32 R -> is_u32 L' -> is_u32 R' -> Forall is_u32 ws ->
  michael_words L R ws = michael_words L' R' ws -> L = L' /\ R = R'.
Proof.
  unfold michael_words. induction ws as [|w ws IH]; intros L R L' R' HL HR HL' HR' Hws H.
  - cbn in H. by injection H.
  - inversion_clear Hws as [|?? Hw Hws']. cbn [foldl] in H.
    pose proof (mic_block_width (L, R) w HL HR) as [H1 H2].
    pose proof (mic_block_width (L', R') w HL' HR') as [H1' H2'].
    destruct (mic_block (L, R) w) as [l r] eqn:E. destruct (mic_block (L', R') w) as [l' r'] eqn:E'.
    apply IH in H as [-> ->]; [|done..].
    rewrite <- E' in E. apply mic_block_inj in E as [Ex ->]; [|done..].
    split; [|done]. by apply lxor_cancel_eq in Ex.
Qed.

Lemma words_width l : bytes l -> Forall is_u32 (words l).
Proof.
  induction l as [l Hl|a b c d l IH] using word_ind; intros H.
  - destruct l as [|a [|b [|c [|d l]]]]; cbn in Hl; try lia; constructor.
  - cbn [words]. constructor.
    + apply (le_dec_range [a; b; c; d]). apply (Forall_take _ 4%nat) in H. exact H.
    + apply IH. by repeat (apply Forall_inv_tail in H).
Qed.

Lemma mic_padding_bytes n : bytes (mic_padding n).
Proof. apply Forall_app; split; [by apply bytesb_bytes|]. apply bytes_repeat. unfold in_width; lia. Qed.

(** A change of one aligned word of the message changes the MIC: two
    messages of the same length that differ in exactly one of their 32-bit
    words never have the same Michael MIC, whatever the key. *)
Theorem michael_word_change key p w1 w2 t :
  bytes key -> length key = 8%nat -> bytes p -> bytes w1 -> bytes w2 -> bytes t ->
  (length p mod 4 = 0)%nat -> length w1 = 4%nat -> length w2 = 4%nat -> w1 <> w2 ->
  michael key (p ++ w1 ++ t) <> michael key (p ++ w2 ++ t).
Proof.
  intros Hk Hkl Hp H1 H2 Ht Hmod Hl1 Hl2 Hne Heq. apply Hne, (le_dec_inj _ _ H1 H2); [lia|].
  unfold michael in Heq. rewrite !length_app, Hl1, Hl2 in Heq.
  set (pad := mic_padding _) in Heq.
  assert (bytes (t ++ pad)) as Htp by (apply Forall_app; split; [done|apply mic_padding_bytes]).
  assert (forall w, length w = 4%nat -> words ((p ++ w ++ t) ++ pad) = words p ++ le_dec w :: words (t ++ pad)) as Hw.
  { intros w Hwl. rewrite <- !app_assoc, words_app.
    assert (rest p = []) as ->.
    { destruct (rest_length p) as [_ Hr]. rewrite Hmod in Hr. by destruct (rest p). }
    destruct w as [|a [|b [|c [|d [|e w]]]]]; cbn in Hwl; try lia. done. }
  rewrite (Hw _ Hl1), (Hw _ Hl2) in Heq. unfold michael_words in Heq.
  rewrite !foldl_app in Heq. cbn [foldl] in Heq.
  assert (is_u32 (le_dec (take 4 key)) /\ is_u32 (le_dec (take 4 (drop 4 key)))) as [Hk0 Hk1].
  { split; [pose proof (le_dec_range (take 4 key)) as H|pose proof (le_dec_range (take 4 (drop 4 key))) as H];
      rewrite !length_take, ?length_drop, Hkl in H; apply H; auto using Forall_take, Forall_drop. }
  assert (forall w, bytes w -> length w = 4%nat -> is_u32 (le_dec w)) as Hwr
    by (intros w Hb Hl; pose proof (le_dec_range w Hb) as H; by rewrite Hl in H).
  pose proof (michael_words_width (words p) _ _ Hk0 Hk1) as [HL HR].
  fold (michael_words (le_dec (take 4 key)) (le_dec (take 4 (drop 4 key))) (words p)) in Heq.
  destruct (michael_words _ _ (words p)) as [L R]. cbn [fst snd] in HL, HR.
  pose proof (mic_block_width (L, R) (le_dec w1) HL HR) as [Ha Hb].
  pose proof (mic_block_width (L, R) (le_dec w2) HL HR) as [Hc Hd].
  destruct (mic_block (L, R) (le_dec w1)) as [l1 r1] eqn:E1.
  destruct (mic_block (L, R) (le_dec w2)) as [l2 r2] eqn:E2. cbn [fst snd] in *.
  fold (michael_words l1 r1 (words (t ++ pad))) (michael_words l2 r2 (words (t ++ pad))) in Heq.
  pose proof (michael_words_width (words (t ++ pad)) _ _ Ha Hb) as [Hx1 Hy1].
  pose proof (michael_words_width (words (t ++ pad)) _ _ Hc Hd) as [Hx2 Hy2].
  assert (michael_words l1 r1 (words (t ++ pad)) = michael_words l2 r2 (words (t ++ pad))) as H.
  { destruct (michael_words l1 r1 _), (michael_words l2 r2 _). cbn [fst snd] in *.
    apply app_inj_1 in Heq as [Ex Ey]; [|by rewrite !length_le_enc].
    apply (f_equal le_dec) in Ex, Ey. rewrite !le_dec_enc_small in Ex by assumption.
    rewrite !le_dec_enc_small in Ey by assumption. by rewrite Ex, Ey. }
  apply michael_words_inj in H as [-> ->]; [|done..|by apply words_width].
  rewrite <- E2 in E1. destruct (mic_block_inj L R L R _ _ HL HL (Hwr w1 H1 Hl1) (Hwr w2 H2 Hl2) E1) as [Ex _].
  rewrite (Z.lxor_comm L), (Z.lxor_comm L) in Ex. by apply lxor_cancel_eq in Ex.
Qed.

Lemma michael_mic_witness :
  rtw_seccalctkipmic [0x82; 0x92; 0x5c; 0x1c; 0xa1; 0xd1; 0x30; 0xb8]
    (0x08 :: 0x03 :: repeat 7 28) [1; 2; 3; 4; 5] 5 6 =
  Some (michael [0x82; 0x92; 0x5c; 0x1c; 0xa1; 0xd1; 0x30; 0xb8]
         (repeat 7 12 ++ [6; 0; 0; 0] ++ [1; 2; 3; 4; 5])).
Proof.
  apply (michael_mic [0x82; 0x92; 0x5c; 0x1c; 0xa1; 0xd1; 0x30; 0xb8]
    (0x08 :: 0x03 :: repeat 7 28) [1; 2; 3; 4; 5] 5 6); try done; try (by apply bytesb_bytes).
Defined.

Lemma michael_word_change_witness :
  michael [0; 1; 2; 3; 4; 5; 6; 7] ([9; 9; 9; 9] ++ [1; 2; 3; 4] ++ [5; 6]) <>
  michael [0; 1; 2; 3; 4; 5; 6; 7] ([9; 9; 9; 9] ++ [1; 2; 3; 5] ++ [5; 6]).
Proof. apply michael_word_change; (by apply bytesb_bytes) || done. Defined.
