(* ===== verification/TkipMix.v ===== *)
(** * The TKIP key mixing is injective

    The comment above [phase2] promises that for a given temporal key the RC4
    key is unique across the values of transmitter address and IV.  Both
    phases are compositions of steps that add to one word a function of
    another, and each such step can be undone. *)

From S2P Require Import Prelude Mem Arc4 SecDefs Tkip.
(** The key-mixing test vector of IEEE 802.11. *)
Example phase_vector :
  let tk := seqZ 0 16 in
  let p1k := phase1 tk [0x10; 0x22; 0x33; 0x44; 0x55; 0x66] 0 in
  p1k = [0x3dd2; 0x016e; 0x76f4; 0x8697; 0xb2e8] /\
  phase2 tk p1k 0 = [0x00; 0x20; 0x00; 0x33; 0xea; 0x8d; 0x2f; 0x60; 0xca; 0x6d; 0x13; 0x74; 0x23; 0x4a; 0x66; 0x0b].
Proof. split; by vm_compute. Qed.

Definition words16 (n : nat) (p : list Z) : Prop := length p = n /\ Forall is_u16 p.

(** [p[i] += F(p[j])]. *)
Definition mix_step (i j : Z) (F : Z -> Z) (p : list Z) : list Z := add16 p i (F (arr_get p j)).

Definition mix_steps (steps : list (list Z -> list Z)) (p : list Z) : list Z :=
  foldl (fun p f => f p) p steps.

(** A transformation of [n] words that loses nothing. *)
Definition mixes (n : nat) (f : list Z -> list Z) : Prop :=
  (forall p, words16 n p -> words16 n (f p)) /\
  (forall p q, words16 n p -> words16 n q -> f p = f q -> p = q).

Lemma words16_get n p i : words16 n p -> 0 <= i < Z.of_nat n -> p !! Z.to_nat i = Some (arr_get p i) /\ is_u16 (arr_get p i).
Proof.
  intros [Hl Hp] Hi. unfold arr_get.
  destruct (lookup_lt_is_Some_2 p (Z.to_nat i)) as [x Hx]; [lia|]. rewrite Hx. split; [done|].
  by eapply Forall_lookup_1.
Qed.

Lemma add16_cancel a b c : is_u16 a -> is_u16 b -> u16 (a + c) = u16 (b + c) -> a = b.
Proof.
  unfold wrap. intros Ha Hb H.
  assert ((a + c - c) mod 2 ^ 16 = (b + c - c) mod 2 ^ 16) as H'
    by (rewrite Zminus_mod, H, <- Zminus_mod; done).
  rewrite !Z.add_simpl_r, !Z.mod_small in H' by done. done.
Qed.

Lemma mix_step_mixes n i j F :
  0 <= i < Z.of_nat n -> 0 <= j < Z.of_nat n -> i <> j -> mixes n (mix_step i j F).
Proof.
  intros Hi Hj Hij. split.
  - intros p [Hl Hp]. unfold mix_step, add16, arr_set. split; [by rewrite length_insert|].
    apply Forall_insert; [done|]. apply wrap_range; lia.
  - intros p q Hp Hq H. unfold mix_step, add16 in H.
    assert (forall k, 0 <= k -> k <> i -> p !! Z.to_nat k = q !! Z.to_nat k) as Hk.
    { intros k Hk Hki. apply (f_equal (lookup (Z.to_nat k))) in H. unfold arr_set in H.
      rewrite !list_lookup_insert_ne in H by lia. done. }
    destruct (words16_get n p i Hp Hi) as [Ep Wp]. destruct (words16_get n q i Hq Hi) as [Eq Wq].
    assert (arr_get p j = arr_get q j) as Ej by (unfold arr_get; by rewrite Hk by lia).
    rewrite Ej in H. apply (f_equal (fun l => arr_get l i)) in H.
    rewrite !arr_get_set_eq in H by (unfold in_range; destruct Hp, Hq; lia).
    apply add16_cancel in H; [|done..].
    apply list_eq. intros k. destruct (decide (Z.of_nat k = i)) as [<-|Hne].
    + rewrite Nat2Z.id in Ep, Eq. by rewrite Ep, Eq, H.
    + specialize (Hk (Z.of_nat k) ltac:(lia) Hne). by rewrite Nat2Z.id in Hk.
Qed.

Lemma mix_steps_mixes n fs : Forall (mixes n) fs -> mixes n (mix_steps fs).
Proof.
  unfold mix_steps. induction 1 as [|f fs [Hf1 Hf2] _ [IH1 IH2]]; [by split|]. split.
  - intros p Hp. cbn [foldl]. by apply IH1, Hf1.
  - intros p q Hp Hq H. cbn [foldl] in H. apply Hf2, IH2; auto.
Qed.

Ltac mix_tac :=
  apply mix_steps_mixes; repeat (apply Forall_cons; [apply mix_step_mixes; lia|]); constructor.

Definition phase1_steps (tk : list Z) (i : Z) : list (list Z -> list Z) :=
  [mix_step 0 4 (fun x => _S_ (Z.lxor x (TK16 tk (Z.land i 1 + 0))));
   mix_step 1 0 (fun x => _S_ (Z.lxor x (TK16 tk (Z.land i 1 + 2))));
   mix_step 2 1 (fun x => _S_ (Z.lxor x (TK16 tk (Z.land i 1 + 4))));
   mix_step 3 2 (fun x => _S_ (Z.lxor x (TK16 tk (Z.land i 1 + 6))));
   mix_step 4 3 (fun x => _S_ (Z.lxor x (TK16 tk (Z.land i 1 + 0))));
   mix_step 4 0 (fun _ => u16 i)].

Lemma phase1_round_mixes tk i : mixes 5 (fun p => phase1_round tk p i).
Proof. change (mixes 5 (mix_steps (phase1_steps tk i))). mix_tac. Qed.

#[local] Opaque phase1_round.

Lemma phase1_loop_mixes tk l : mixes 5 (fun p => foldl (phase1_round tk) p l).
Proof.
  induction l as [|i l [IH1 IH2]]; [by split|].
  destruct (phase1_round_mixes tk i) as [H1 H2]. split.
  - intros p Hp. cbn [foldl]. by apply IH1, H1.
  - intros p q Hp Hq H. cbn [foldl] in H. apply H2, IH2; auto.
Qed.

Definition phase2_round_steps (tk : list Z) : list (list Z -> list Z) :=
  [mix_step 0 5 (fun x => _S_ (Z.lxor x (TK16 tk 0)));
   mix_step 1 0 (fun x => _S_ (Z.lxor x (TK16 tk 1)));
   mix_step 2 1 (fun x => _S_ (Z.lxor x (TK16 tk 2)));
   mix_step 3 2 (fun x => _S_ (Z.lxor x (TK16 tk 3)));
   mix_step 4 3 (fun x => _S_ (Z.lxor x (TK16 tk 4)));
   mix_step 5 4 (fun x => _S_ (Z.lxor x (TK16 tk 5)))].

Definition phase2_sweep_steps (tk : list Z) : list (list Z -> list Z) :=
  [mix_step 0 5 (fun x => RotR1 (Z.lxor x (TK16 tk 6)));
   mix_step 1 0 (fun x => RotR1 (Z.lxor x (TK16 tk 7)));
   mix_step 2 1 RotR1; mix_step 3 2 RotR1; mix_step 4 3 RotR1; mix_step 5 4 RotR1].

Lemma phase2_rounds_mixes tk : mixes 6 (phase2_rounds tk).
Proof. change (mixes 6 (mix_steps (phase2_round_steps tk))). mix_tac. Qed.

Lemma phase2_sweep_mixes tk : mixes 6 (phase2_sweep tk).
Proof. change (mixes 6 (mix_steps (phase2_sweep_steps tk))). mix_tac. Qed.

#[local] Opaque phase2_rounds phase2_sweep.

(** ** Splitting words into bytes *)

Lemma Mk16_spec hi lo : is_u8 hi -> is_u8 lo -> Mk16 hi lo = lo + 256 * hi.
Proof.
  intros Hh Hl. unfold Mk16. rewrite wrap_small by width_lia. by rewrite lxor_shiftl_add.
Qed.

Lemma Mk16_inj h l h' l' :
  is_u8 h -> is_u8 l -> is_u8 h' -> is_u8 l' -> Mk16 h l = Mk16 h' l' -> h = h' /\ l = l'.
Proof. intros. rewrite !Mk16_spec in * by done. width_lia. Qed.

Lemma Mk16_width h l : is_u8 h -> is_u8 l -> is_u16 (Mk16 h l).
Proof. intros. rewrite Mk16_spec by done. width_lia. Qed.

Lemma Lo8_spec x : Lo8 x = x mod 256.
Proof.
  unfold Lo8. change 255 with (Z.ones 8). rewrite <- wrap_land by lia. apply wrap_wrap. lia.
Qed.

Lemma Hi8_spec x : Hi8 x = (x / 256) mod 256.
Proof.
  unfold Hi8. change 255 with (Z.ones 8). rewrite <- wrap_land, wrap_wrap, Z.shiftr_div_pow2 by lia. done.
Qed.

Lemma LoHi8_inj x y : is_u16 x -> is_u16 y -> Lo8 x = Lo8 y -> Hi8 x = Hi8 y -> x = y.
Proof.
  rewrite !Lo8_spec, !Hi8_spec. intros Hx Hy Hl Hh.
  rewrite (Z.mod_small (x / 256)), (Z.mod_small (y / 256)) in Hh
    by (split; [apply Z.div_pos|apply Z.div_lt_upper_bound]; width_lia).
  rewrite (Z.div_mod x 256), (Z.div_mod y 256) by lia. by rewrite Hl, Hh.
Qed.

Lemma LoHi16_inj x y : is_u32 x -> is_u32 y -> Lo16 x = Lo16 y -> Hi16 x = Hi16 y -> x = y.
Proof.
  unfold Lo16, Hi16. change 65535 with (Z.ones 16). rewrite <- !wrap_land, !wrap_wrap by lia.
  unfold wrap. rewrite !Z.shiftr_div_pow2 by lia. change (2 ^ 16) with 65536. intros Hx Hy Hl Hh.
  rewrite (Z.mod_small (x / 65536)), (Z.mod_small (y / 65536)) in Hh
    by (split; [apply Z.div_pos|apply Z.div_lt_upper_bound]; width_lia).
  rewrite (Z.div_mod x 65536), (Z.div_mod y 65536) by lia. by rewrite Hl, Hh.
Qed.

(** ** Injectivity of the two phases *)

Lemma six_bytes ta : bytes ta -> length ta = 6%nat ->
  exists a b c d e f, ta = [a; b; c; d; e; f] /\ is_u8 a /\ is_u8 b /\ is_u8 c /\ is_u8 d /\ is_u8 e /\ is_u8 f.
Proof.
  intros Hb Hl. destruct ta as [|a [|b [|c [|d [|e [|f [|g ta]]]]]]]; cbn in Hl; try lia.
  exists a, b, c, d, e, f. repeat (apply list.Forall_cons in Hb as [? Hb]). done.
Qed.

Definition phase1_start (ta : list Z) (iv32 : Z) : list Z :=
  [Lo16 iv32; Hi16 iv32; Mk16 (arr_get ta 1) (arr_get ta 0);
   Mk16 (arr_get ta 3) (arr_get ta 2); Mk16 (arr_get ta 5) (arr_get ta 4)].

Lemma phase1_start_words ta iv32 : bytes ta -> length ta = 6%nat -> words16 5 (phase1_start ta iv32).
Proof.
  intros Hb Hl. destruct (six_bytes ta Hb Hl) as (a & b & c & d & e & f & -> & ? & ? & ? & ? & ? & ?).
  split; [done|]. unfold phase1_start, arr_get.
  do 2 (apply List.Forall_cons; [apply wrap_range; lia|]).
  do 3 (apply List.Forall_cons; [by apply Mk16_width|]). constructor.
Qed.

Lemma phase1_start_inj ta ta' iv32 iv32' :
  bytes ta -> length ta = 6%nat -> bytes ta' -> length ta' = 6%nat -> is_u32 iv32 -> is_u32 iv32' ->
  phase1_start ta iv32 = phase1_start ta' iv32' -> ta = ta' /\ iv32 = iv32'.
Proof.
  intros Hb Hl Hb' Hl' Hi Hi'.
  destruct (six_bytes ta Hb Hl) as (a & b & c & d & e & f & -> & ? & ? & ? & ? & ? & ?).
  destruct (six_bytes ta' Hb' Hl') as (a' & b' & c' & d' & e' & f' & -> & ? & ? & ? & ? & ? & ?).
  unfold phase1_start, arr_get. cbn [lookup list_lookup Z.to_nat Pos.to_nat Pos.iter_op Nat.add].
  intros [= E1 E2 E3 E4 E5].
  apply Mk16_inj in E3 as [-> ->], E4 as [-> ->], E5 as [-> ->]; [|done..].
  split; [done|]. by apply LoHi16_inj.
Qed.

Lemma phase1_eq tk ta iv32 :
  phase1 tk ta iv32 = foldl (phase1_round tk) (phase1_start ta iv32) (seqZ 0 (Z.of_nat PHASE1_LOOP_CNT)).
Proof. reflexivity. Qed.

Lemma phase1_words tk ta iv32 : bytes ta -> length ta = 6%nat -> words16 5 (phase1 tk ta iv32).
Proof.
  intros. rewrite phase1_eq. generalize (phase1_start_words ta iv32 H H0). generalize (phase1_start ta iv32).
  intros p Hp.
  destruct (phase1_loop_mixes tk (seqZ 0 (Z.of_nat PHASE1_LOOP_CNT))) as [Hm _].
  by apply (Hm p).
Qed.

Lemma phase1_inj tk ta ta' iv32 iv32' :
  bytes ta -> length ta = 6%nat -> bytes ta' -> length ta' = 6%nat -> is_u32 iv32 -> is_u32 iv32' ->
  phase1 tk ta iv32 = phase1 tk ta' iv32' -> ta = ta' /\ iv32 = iv32'.
Proof.
  intros Hb Hl Hb' Hl' Hi Hi' H. apply phase1_start_inj; [done..|].
  rewrite !phase1_eq in H.
  destruct (phase1_loop_mixes tk (seqZ 0 (Z.of_nat PHASE1_LOOP_CNT))) as [_ Hm].
  exact (Hm _ _ (phase1_start_words ta iv32 Hb Hl) (phase1_start_words ta' iv32' Hb' Hl') H).
Qed.

Lemma phase2_start_words p iv : words16 5 p -> words16 6 (take 5 p ++ [u16 (arr_get p 4 + iv)]).
Proof.
  intros [Hl Hp]. split; [rewrite length_app, length_take, Hl; done|].
  apply Forall_app; split; [by apply Forall_take|]. constructor; [apply wrap_range; lia|done].
Qed.

Lemma rc4key_bytes_inj p q : words16 6 p -> words16 6 q ->
  concat (map (fun i => [Lo8 (arr_get p i); Hi8 (arr_get p i)]) (seqZ 0 6)) =
  concat (map (fun i => [Lo8 (arr_get q i); Hi8 (arr_get q i)]) (seqZ 0 6)) -> p = q.
Proof.
  intros [Hl Hp] [Hl' Hq].
  destruct p as [|p0 [|p1 [|p2 [|p3 [|p4 [|p5 [|? p]]]]]]]; cbn in Hl; try lia.
  destruct q as [|q0 [|q1 [|q2 [|q3 [|q4 [|q5 [|? q]]]]]]]; cbn in Hl'; try lia.
  repeat (apply list.Forall_cons in Hp as [? Hp]). repeat (apply list.Forall_cons in Hq as [? Hq]).
  change (seqZ 0 6) with [0; 1; 2; 3; 4; 5]. cbn [map concat app]. unfold arr_get.
  intros [= ? ? ? ? ? ? ? ? ? ? ? ?]. repeat f_equal; by apply LoHi8_inj.
Qed.

Lemma phase2_inj tk p q iv iv' :
  words16 5 p -> words16 5 q -> is_u16 iv -> is_u16 iv' -> phase2 tk p iv = phase2 tk q iv' -> p = q /\ iv = iv'.
Proof.
  intros Hp Hq Hi Hi' H. unfold phase2 in H. apply app_inj_1 in H as [_ H]; [|done].
  unfold phase2_mix in H. destruct (phase2_rounds_mixes tk) as [H1 H2], (phase2_sweep_mixes tk) as [H3 H4].
  pose proof (phase2_start_words p iv Hp) as Wp. pose proof (phase2_start_words q iv' Hq) as Wq.
  apply rc4key_bytes_inj in H; [|by apply H3, H1..].
  apply H4, H2 in H; [|auto..]. apply app_inj_2 in H as [E E']; [|done].
  assert (p = q) as ->.
  { rewrite !take_ge in E by (destruct Hp, Hq; lia). done. }
  split; [done|]. injection E' as E'. rewrite (Z.add_comm _ iv), (Z.add_comm _ iv') in E'.
  by apply add16_cancel in E'.
Qed.

(** C12. No RC4 key repeats: under one temporal key, two packets that differ in
    transmitter address, upper IV or lower IV never get the same RC4 key from
    phase1 and phase2, which is what the comment above phase2 promises. *)
Theorem rc4key_unique tk ta ta' iv32 iv32' iv16 iv16' :
  bytes ta -> length ta = 6%nat -> bytes ta' -> length ta' = 6%nat ->
  is_u32 iv32 -> is_u32 iv32' -> is_u16 iv16 -> is_u16 iv16' ->
  (ta, iv32, iv16) <> (ta', iv32', iv16') ->
  phase2 tk (phase1 tk ta iv32) iv16 <> phase2 tk (phase1 tk ta' iv32') iv16'.
Proof.
  intros Hb Hl Hb' Hl' H32 H32' H16 H16' Hne H. apply Hne.
  apply phase2_inj in H as [H ->]; [|by apply phase1_words..|done|done].
  by apply phase1_inj in H as [-> ->].
Qed.

Lemma rc4key_unique_witness :
  phase2 (seqZ 0 16) (phase1 (seqZ 0 16) [1; 2; 3; 4; 5; 6] 7) 65535 <>
  phase2 (seqZ 0 16) (phase1 (seqZ 0 16) [1; 2; 3; 4; 5; 6] 8) 0.
Proof.
  apply (rc4key_unique (seqZ 0 16) [1; 2; 3; 4; 5; 6] [1; 2; 3; 4; 5; 6] 7 8 65535 0);
    (by apply bytesb_bytes) || done.
Defined.
