(* ===== verification/TkipSpec.v ===== *)
(** * TKIP: sealed fragments open again, damaged ones are refused *)

From S2P Require Import Prelude Mem Arc4 SecDefs Wep FragSpec WepSpec Tkip.
Definition tkip_sealed (prwskey ta : list Z) (f : frag) : frag :=
  let data := fr_data 4 f in
  mk_frag (fr_hdr f) (fr_iv f)
    (arc4_box (tkip_rc4key prwskey ta (take 8 (fr_iv f))) 16 (data ++ icv data)) (fr_pad f).

#[local] Opaque tkip_rc4key.

Lemma tkip_sealed_size a prwskey ta f :
  frag_ok a f -> pa_icv_len a = 4 ->
  length (frag_bytes (tkip_sealed prwskey ta f)) = length (frag_bytes f).
Proof.
  intros Hf E. destruct (fr_body_split a f Hf E) as (room & Hb & Hr & _ & _).
  unfold frag_bytes. cbn [tkip_sealed fr_hdr fr_iv fr_body]. rewrite !length_app, length_arc4_box.
  apply (f_equal length) in Hb. rewrite length_app in Hb. rewrite length_app, length_icv. lia.
Qed.

Section tkip.
Context (a : pkt_attrib) (prwskey : list Z).
Hypothesis Hivl : pa_iv_len a = 8.
Hypothesis Hicv : pa_icv_len a = 4.

Lemma tkip_frag_done f :
  frag_ok a f -> lifts (tkip_frag a prwskey) a crc_ok (tkip_sealed prwskey (pa_ta a)) f.
Proof.
  intros Hf s pre post Hs. destruct (fr_body_split a f Hf Hicv) as (room & Hb & Hr & Hby & Hlen).
  destruct Hf as [Hh Hi _ _ _]. unfold frag_bytes. cbn [tkip_sealed fr_hdr fr_iv fr_body].
  unfold tkip_frag. rewrite Hicv.
  assert (pre ++ (fr_hdr f ++ fr_iv f ++ fr_body f) ++ post =
          (pre ++ fr_hdr f) ++ fr_iv f ++ fr_body f ++ post) as -> by (by rewrite <- !app_assoc).
  rewrite <- Hh, <- mem_len_app, rdn_iv by lia. cbn [mbind option_bind].
  change (Z.to_nat 8) with 8%nat. rewrite Hb. set (key := tkip_rc4key _ _ _).
  destruct (arc4_seal_done s key 16 ((pre ++ fr_hdr f) ++ fr_iv f)
    (fr_data 4 f) room post (mem_len pre + pa_iv_len a + mem_len (fr_hdr f)) (mem_len (fr_data 4 f))
    Hs Hby Hr) as (s' & E & Hs'); [rewrite !mem_len_app; lia|done|].
  exists s'. split; [|done]. rewrite <- Hb, <- Hlen, Hb, <- (app_assoc _ (fr_iv f)) in *.
  etrans; [|etrans; [exact E|]]; by rewrite <- !app_assoc.
Qed.
End tkip.

(** ** Decryption of any frame *)

(** A received frame: header, extended IV and an encrypted body. *)
Definition tkip_frame (ra : rx_pkt_attrib) (hdr iv body slack : list Z) : recv_frame :=
  mk_recv_frame ra (mem_len (hdr ++ iv ++ body)) (hdr ++ iv ++ body ++ slack).

(** The verdict on a decrypted body: its last four bytes are the ICV of the
    others. *)
Definition icv_valid (m : list Z) : Prop :=
  drop (length m - 4) m = icv (take (length m - 4) m).

#[export] Instance icv_valid_dec m : Decision (icv_valid m).
Proof. unfold icv_valid. apply _. Defined.

Section decrypt.
Context (rtw_get_stainfo : list Z -> option (list Z)).

Lemma tkip_decrypt_done sec ra prwskey hdr iv body slack s :
  crc_ok s -> rxa_encrypt ra = _TKIP_ -> tkip_rx_key rtw_get_stainfo sec ra = Some (Some prwskey) ->
  mem_len hdr = rxa_hdrlen ra -> length iv = 8%nat -> rxa_iv_len ra = 8 ->
  bytes body -> (4 <= length body)%nat -> mem_len (hdr ++ iv ++ body) < 2 ^ 31 ->
  let m := arc4_box (tkip_rc4key prwskey (rxa_ta ra) iv) 16 body in
  exists s', rtw_tkip_decrypt rtw_get_stainfo sec s (tkip_frame ra hdr iv body slack) =
    Some (if decide (icv_valid m) then _SUCCESS else _FAIL, s',
          mk_recv_frame ra (mem_len (hdr ++ iv ++ body)) (hdr ++ iv ++ m ++ slack)) /\ crc_ok s'.
Proof.
  intros Hs He Hkey Hh Hi Hil Hb Hlen Hsz. unfold rtw_tkip_decrypt, tkip_frame. cbn [rv_attrib rv_data rv_len].
  rewrite He, Hkey. cbn [Z.eqb _TKIP_ Pos.eqb mbind option_bind]. rewrite <- Hh, Hil.
  rewrite rdn_iv by (unfold mem_len; lia). cbn [mbind option_bind].
  rewrite (take_ge iv) by (rewrite Hi; done). set (key := tkip_rc4key _ _ _).
  set (m := arc4_box key 16 body).
  assert (body = arc4_box key 16 (take (length body - 4) m ++ drop (length body - 4) m)) as Hbody
    by (rewrite take_drop; unfold m; by rewrite arc4_box_involutive).
  assert (length m = length body) as Hm by apply length_arc4_box.
  assert (s32 (mem_len (hdr ++ iv ++ body) - mem_len hdr - 8) = mem_len body) as ->.
  { rewrite !mem_len_app in *. pose proof (mem_len_nonneg hdr). pose proof (mem_len_nonneg body).
    assert (mem_len iv = 8) as Ei by (unfold mem_len; lia). rewrite s32_small; lia. }
  destruct (arc4_open_done s key 16 (hdr ++ iv) (take (length body - 4) m) (drop (length body - 4) m)
    slack (8 + mem_len hdr) (mem_len body) Hs) as (s' & E & Hs').
  { apply Forall_take. by apply arcfour_encrypt_bytes. }
  { rewrite length_drop. lia. }
  { rewrite mem_len_app. unfold mem_len. lia. }
  { unfold mem_len. rewrite length_take. lia. }
  rewrite <- Hbody, take_drop, <- !app_assoc in E. rewrite E. cbn [mbind option_bind].
  assert (rdn (hdr ++ iv ++ m ++ slack) (8 + mem_len hdr + mem_len body - 4) 4 =
          Some (drop (length body - 4) m)) as ->.
  { rewrite <- (take_drop (length body - 4) m) at 1.
    assert (hdr ++ iv ++ (take (length body - 4) m ++ drop (length body - 4) m) ++ slack =
            (hdr ++ iv ++ take (length body - 4) m) ++ drop (length body - 4) m ++ slack) as ->
      by (by rewrite <- !app_assoc).
    apply rdn_app; rewrite ?mem_len_app; unfold mem_len; rewrite ?length_take, ?length_drop; lia. }
  cbn [mbind option_bind]. exists s'. split; [|done].
  assert (icv_valid m <-> icv (take (length body - 4) m) = drop (length body - 4) m) as Hv
    by (unfold icv_valid; rewrite Hm; split; congruence).
  do 3 f_equal. destruct (decide _), (decide _); tauto.
Qed.
End decrypt.

(** ** Properties *)

Lemma icv_valid_app data : icv_valid (data ++ icv data).
Proof.
  unfold icv_valid. rewrite length_app, length_icv, Nat.add_sub.
  by rewrite drop_app_length, take_app_length.
Qed.

(** The clear fragment, ICV included. *)
Definition tkip_opened (f : frag) : list Z := fr_data 4 f ++ icv (fr_data 4 f).

(** C11. TKIP carries every fragment of a buffer laid out as the routine
    walks it: rtw_tkip_encrypt succeeds on a transmit buffer in which each
    fragment but the last is frag_len bytes long and the next one starts at
    the next multiple of four ([frags_laid]; always so for one fragment, but
    not for the buffers rtw_xmitframe_coalesce makes of two or more), and
    rtw_tkip_decrypt with the same key accepts each sealed fragment and
    restores its payload with the ICV. *)
Theorem tkip_roundtrip st sec frag_len s x fs desc tail prwskey :
  let a := xf_attrib x in
  crc_ok s -> xf_buf_addr x <> 0 -> pa_encrypt a = _TKIP_ -> tx_key sec a = Some prwskey ->
  pa_iv_len a = 8 -> pa_icv_len a = 4 ->
  xf_buf x = desc ++ frags_bytes fs ++ tail -> mem_len desc = hw_hdr_offset x ->
  Forall (frag_ok a) fs -> frags_laid a frag_len (xf_buf_addr x) (hw_hdr_offset x) 0 fs ->
  (exists s', rtw_tkip_encrypt sec frag_len s x =
     Some (_SUCCESS, s', mk_xmit_frame a (xf_pkt_offset x) (xf_buf_addr x)
                 (desc ++ frags_bytes (map (tkip_sealed prwskey (pa_ta a)) fs) ++ tail))) /\
  forall f ra s slack, f ∈ fs -> crc_ok s -> rx_agrees a ra -> rxa_encrypt ra = _TKIP_ ->
    rxa_ta ra = pa_ta a -> tkip_rx_key st sec ra = Some (Some prwskey) ->
    exists s', rtw_tkip_decrypt st sec s
        (tkip_frame ra (fr_hdr f) (fr_iv f) (fr_body (tkip_sealed prwskey (pa_ta a) f)) slack) =
      Some (_SUCCESS, s', mk_recv_frame ra (mem_len (frag_bytes (tkip_sealed prwskey (pa_ta a) f)))
              (fr_hdr f ++ fr_iv f ++ tkip_opened f ++ slack)).
Proof.
  intros a Hs Haddr He Hkey Hiv Hicv Hbuf Hdesc Hok Hlaid. split.
  - unfold rtw_tkip_encrypt. fold a. rewrite (proj2 (Z.eqb_neq _ _) Haddr), He, Hkey.
    cbn [mbind option_bind Z.eqb _TKIP_ Pos.eqb].
    rewrite (frags_laid_nr _ _ _ _ _ _ Hlaid), Z.add_0_l, Nat2Z.id, Hbuf, <- Hdesc.
    rewrite <- Hdesc in Hlaid.
    destruct (frag_loop_all (tkip_frag a prwskey) a frag_len (xf_buf_addr x) crc_ok (tkip_sealed prwskey (pa_ta a))
      ltac:(intros; by apply (tkip_sealed_size a)) ltac:(done) fs desc tail 0 s Hok) as (s' & E & _).
    + apply (list.Forall_impl _ _ _ Hok). intros f Hf. by apply tkip_frag_done.
    + done.
    + done.
    + rewrite E. by exists s'.
  - intros f ra s1 slack Hf Hs1 [Eh Ei] Her Eta Ekey.
    pose proof (proj1 (list.Forall_forall _ _) Hok f Hf) as Hfok.
    pose proof (tkip_sealed_size a prwskey (pa_ta a) f Hfok Hicv) as Hsize.
    destruct (fr_body_split a f Hfok Hicv) as (room & Hb & Hr & Hby & Hlen).
    destruct Hfok as [Hh Hi _ _ Hsz]. unfold frag_bytes in Hsize, Hsz.
    cbn [tkip_sealed fr_hdr fr_iv fr_body] in *.
    assert (length (fr_iv f) = 8%nat) as Hi8 by (unfold mem_len in Hi; lia).
    rewrite take_ge in * by (rewrite Hi8; done).
    destruct (tkip_decrypt_done st sec ra prwskey (fr_hdr f) (fr_iv f)
      (arc4_box (tkip_rc4key prwskey (pa_ta a) (fr_iv f)) 16 (fr_data 4 f ++ icv (fr_data 4 f))) slack s1)
      as (s' & E & _); try done.
    + congruence.
    + lia.
    + apply arcfour_encrypt_bytes, Forall_app. split; [done|apply icv_bytes].
    + rewrite length_arc4_box, length_app, length_icv. lia.
    + unfold mem_len in *. rewrite Hsize. lia.
    + rewrite Eta, arc4_box_involutive in E. exists s'. rewrite decide_True in E by apply icv_valid_app.
      etrans; [exact E|]. unfold frag_bytes. cbn [tkip_sealed fr_hdr fr_iv fr_body].
      by rewrite (take_ge (fr_iv f)) by (rewrite Hi8; done).
Qed.

(** ** Damage *)

Lemma xor_bytes_app a b k k' : length a = length k -> xor_bytes (a ++ b) (k ++ k') = xor_bytes a k ++ xor_bytes b k'.
Proof. intros. unfold xor_bytes. by apply zip_with_app. Qed.

Lemma xor_bytes_inj a b k : length a = length k -> length b = length k -> xor_bytes a k = xor_bytes b k -> a = b.
Proof.
  intros Ha Hb H. by rewrite <- (xor_bytes_involutive a k Ha), <- (xor_bytes_involutive b k Hb), H.
Qed.


Lemma xor_bytes_replace x y y' z k :
  length y = length y' -> length k = length (x ++ y ++ z) -> y <> y' ->
  bytes x -> bytes y -> bytes y' -> bytes z -> bytes k ->
  exists X Y Y' Z, xor_bytes (x ++ y ++ z) k = X ++ Y ++ Z /\ xor_bytes (x ++ y' ++ z) k = X ++ Y' ++ Z /\
    length X = length x /\ length Y = length y /\ length Y' = length y /\ Y <> Y' /\
    bytes X /\ bytes Y /\ bytes Y' /\ bytes Z.
Proof.
  intros Hl Hk Hne Hx Hy Hy' Hz Hb. rewrite !length_app in Hk.
  pose proof (take_drop (length x) k) as E1. pose proof (take_drop (length y) (drop (length x) k)) as E2.
  assert (length (take (length x) k) = length x) as L1 by (rewrite length_take; lia).
  assert (length (take (length y) (drop (length x) k)) = length y) as L2 by (rewrite length_take, length_drop; lia).
  pose proof (Forall_take _ (length x) k Hb) as B1.
  pose proof (Forall_take _ (length y) _ (Forall_drop _ (length x) k Hb)) as B2.
  pose proof (Forall_drop _ (length y) _ (Forall_drop _ (length x) k Hb)) as B3.
  revert E1 E2 L1 L2 B1 B2 B3.
  generalize (take (length x) k) (take (length y) (drop (length x) k)) (drop (length y) (drop (length x) k)).
  intros k1 k2 k3 E1 E2 L1 L2 B1 B2 B3. rewrite <- E2 in E1. rewrite <- E1.
  exists (xor_bytes x k1), (xor_bytes y k2), (xor_bytes y' k2), (xor_bytes z k3).
  rewrite !xor_bytes_app by lia. split_and!; try (by rewrite length_xor_bytes; lia); try (by apply xor_bytes_bytes);
    try done.
  intros H. apply Hne. eapply xor_bytes_inj; [| |exact H]; lia.
Qed.

(** TKIP refuses damaged payloads: if up to four consecutive bytes of the
    encrypted payload of a sealed fragment are changed, rtw_tkip_decrypt
    returns _FAIL, whatever the key. *)
Theorem tkip_damage_refused st sec ra prwskey hdr iv data x y y' z slack s :
  crc_ok s -> rxa_encrypt ra = _TKIP_ -> tkip_rx_key st sec ra = Some (Some prwskey) ->
  mem_len hdr = rxa_hdrlen ra -> length iv = 8%nat -> rxa_iv_len ra = 8 ->
  bytes data -> bytes y' ->
  arc4_box (tkip_rc4key prwskey (rxa_ta ra) iv) 16 (data ++ icv data) = x ++ y ++ z ->
  (length (x ++ y) <= length data)%nat -> length y = length y' -> (length y <= 4)%nat -> y <> y' ->
  mem_len (hdr ++ iv ++ x ++ y' ++ z) < 2 ^ 31 ->
  exists s' r, rtw_tkip_decrypt st sec s (tkip_frame ra hdr iv (x ++ y' ++ z) slack) = Some (_FAIL, s', r).
Proof.
  intros Hs He Hkey Hh Hi Hil Hd Hy' Hbox Hxy Hl H4 Hne Hsz.
  set (key := tkip_rc4key _ _ _) in *.
  assert (bytes (x ++ y ++ z)) as Hb.
  { rewrite <- Hbox. apply arcfour_encrypt_bytes, Forall_app. split; [done|apply icv_bytes]. }
  assert (length (x ++ y ++ z) = (length data + 4)%nat) as Hlen
    by (rewrite <- Hbox, length_arc4_box, length_app, length_icv; done).
  apply Forall_app in Hb as [Hx Hb]. apply Forall_app in Hb as [Hy Hz].
  destruct (tkip_decrypt_done st sec ra prwskey hdr iv (x ++ y' ++ z) slack s) as (s' & E & _); try done.
  { rewrite !Forall_app. done. }
  { rewrite !length_app in *. lia. }
  exists s'. eexists. rewrite E, decide_False; [done|]. clear E. fold key.
  assert (data ++ icv data = arc4_box key 16 (x ++ y ++ z)) as Hm by (by rewrite <- Hbox, arc4_box_involutive).
  revert Hm. unfold arc4_box. rewrite !arcfour_encrypt_xor.
  assert (length (x ++ y' ++ z) = length (x ++ y ++ z)) as -> by (rewrite !length_app; lia).
  destruct (xor_bytes_replace x y y' z (arcfour_stream (length (x ++ y ++ z)) (arcfour_init key 16)) Hl)
    as (X & Y & Y' & Z & -> & -> & LX & LY & LY' & HYne & BX & BY & BY' & BZ);
    [apply length_arcfour_stream|done..|apply arcfour_stream_bytes|].
  intros Hm Hv. unfold icv_valid in Hv.
  pose proof (f_equal length Hm) as HL. rewrite !length_app, length_icv in HL. rewrite !length_app in Hxy.
  assert (data = X ++ Y ++ take (length Z - 4) Z /\ icv data = drop (length Z - 4) Z) as [Ed Ei].
  { apply app_inj_1; [rewrite !length_app, length_take; lia|].
    by rewrite <- !app_assoc, take_drop. }
  replace (length (X ++ Y' ++ Z) - 4)%nat with (length X + (length Y' + (length Z - 4)))%nat in Hv
    by (rewrite !length_app; lia).
  rewrite !drop_app_add, !take_app_add, <- Ei in Hv.
  apply icv_inj in Hv; [|done|rewrite !Forall_app; split_and!; [done|done|by apply Forall_take]].
  revert Hv. rewrite Ed at 1. apply crc32_burst; try done; [by apply Forall_take|lia..].
Qed.

Definition demo_stainfo (_ : list Z) : option (list Z) := Some sec_key.

Lemma tkip_roundtrip_witness :
  exists s', rtw_tkip_encrypt sec_priv (sec_frag_len 8 4) sec_crc (sec_xmit _TKIP_ 8 4) =
    Some (_SUCCESS, s', mk_xmit_frame (xf_attrib (sec_xmit _TKIP_ 8 4)) 0 4096
      (sec_desc ++ frags_bytes (map (tkip_sealed sec_key [0x02; 0xaa; 0xbb; 0xcc; 0xdd; 0xee]) (sec_frags 8 4)) ++ [])).
Proof.
  refine (proj1 (tkip_roundtrip demo_stainfo sec_priv (sec_frag_len 8 4) sec_crc (sec_xmit _TKIP_ 8 4)
    (sec_frags 8 4) sec_desc [] sec_key sec_crc_ok _ _ _ _ _ _ _ _ _)); try done.
  apply sec_frags_ok; tauto.
Defined.

Definition demo_body : list Z :=
  Eval vm_compute in arc4_box (tkip_rc4key sec_key [0x02; 0xaa; 0xbb; 0xcc; 0xdd; 0xee] (sec_iv 8)) 16
    ([1; 2; 3; 4; 5; 6] ++ icv [1; 2; 3; 4; 5; 6]).

Lemma tkip_damage_refused_witness :
  exists s' r, rtw_tkip_decrypt demo_stainfo sec_priv sec_crc
    (tkip_frame (sec_rx_attrib _TKIP_ 8) sec_hdr (sec_iv 8)
      (take 1 demo_body ++ [0; 0; 0; 1] ++ drop 5 demo_body) []) = Some (_FAIL, s', r).
Proof.
  apply (tkip_damage_refused demo_stainfo sec_priv (sec_rx_attrib _TKIP_ 8) sec_key sec_hdr (sec_iv 8)
    [1; 2; 3; 4; 5; 6] (take 1 demo_body) (take 4 (drop 1 demo_body)) [0; 0; 0; 1] (drop 5 demo_body) [] sec_crc);
    try exact sec_crc_ok; try (by apply bytesb_bytes); try (by vm_compute); cbn; lia.
Defined.
