(* ===== verification/Aes.v ===== *)
(** * AES-128 (core/rtw_security.c, [aes128k128d] and its helpers)

    Blocks and keys are lists of 16 bytes, columns lists of 4. *)

From S2P Require Import Prelude Mem.
Definition sbox_table : list Z :=
  [0x63; 0x7c; 0x77; 0x7b; 0xf2; 0x6b; 0x6f; 0xc5; 0x30; 0x01; 0x67; 0x2b; 0xfe; 0xd7; 0xab; 0x76;
   0xca; 0x82; 0xc9; 0x7d; 0xfa; 0x59; 0x47; 0xf0; 0xad; 0xd4; 0xa2; 0xaf; 0x9c; 0xa4; 0x72; 0xc0;
   0xb7; 0xfd; 0x93; 0x26; 0x36; 0x3f; 0xf7; 0xcc; 0x34; 0xa5; 0xe5; 0xf1; 0x71; 0xd8; 0x31; 0x15;
   0x04; 0xc7; 0x23; 0xc3; 0x18; 0x96; 0x05; 0x9a; 0x07; 0x12; 0x80; 0xe2; 0xeb; 0x27; 0xb2; 0x75;
   0x09; 0x83; 0x2c; 0x1a; 0x1b; 0x6e; 0x5a; 0xa0; 0x52; 0x3b; 0xd6; 0xb3; 0x29; 0xe3; 0x2f; 0x84;
   0x53; 0xd1; 0x00; 0xed; 0x20; 0xfc; 0xb1; 0x5b; 0x6a; 0xcb; 0xbe; 0x39; 0x4a; 0x4c; 0x58; 0xcf;
   0xd0; 0xef; 0xaa; 0xfb; 0x43; 0x4d; 0x33; 0x85; 0x45; 0xf9; 0x02; 0x7f; 0x50; 0x3c; 0x9f; 0xa8;
   0x51; 0xa3; 0x40; 0x8f; 0x92; 0x9d; 0x38; 0xf5; 0xbc; 0xb6; 0xda; 0x21; 0x10; 0xff; 0xf3; 0xd2;
   0xcd; 0x0c; 0x13; 0xec; 0x5f; 0x97; 0x44; 0x17; 0xc4; 0xa7; 0x7e; 0x3d; 0x64; 0x5d; 0x19; 0x73;
   0x60; 0x81; 0x4f; 0xdc; 0x22; 0x2a; 0x90; 0x88; 0x46; 0xee; 0xb8; 0x14; 0xde; 0x5e; 0x0b; 0xdb;
   0xe0; 0x32; 0x3a; 0x0a; 0x49; 0x06; 0x24; 0x5c; 0xc2; 0xd3; 0xac; 0x62; 0x91; 0x95; 0xe4; 0x79;
   0xe7; 0xc8; 0x37; 0x6d; 0x8d; 0xd5; 0x4e; 0xa9; 0x6c; 0x56; 0xf4; 0xea; 0x65; 0x7a; 0xae; 0x08;
   0xba; 0x78; 0x25; 0x2e; 0x1c; 0xa6; 0xb4; 0xc6; 0xe8; 0xdd; 0x74; 0x1f; 0x4b; 0xbd; 0x8b; 0x8a;
   0x70; 0x3e; 0xb5; 0x66; 0x48; 0x03; 0xf6; 0x0e; 0x61; 0x35; 0x57; 0xb9; 0x86; 0xc1; 0x1d; 0x9e;
   0xe1; 0xf8; 0x98; 0x11; 0x69; 0xd9; 0x8e; 0x94; 0x9b; 0x1e; 0x87; 0xe9; 0xce; 0x55; 0x28; 0xdf;
   0x8c; 0xa1; 0x89; 0x0d; 0xbf; 0xe6; 0x42; 0x68; 0x41; 0x99; 0x2d; 0x0f; 0xb0; 0x54; 0xbb; 0x16].

(** [out[i] = a[i] ^ b[i]] for the first [n] bytes. *)
Definition xor_n (n : Z) (a b : list Z) : list Z :=
  map (fun i => Z.lxor (arr_get a i) (arr_get b i)) (seqZ 0 n).
Definition xor_128 : list Z -> list Z -> list Z := xor_n 16.
Definition xor_32 : list Z -> list Z -> list Z := xor_n 4.
Definition bitwise_xor : list Z -> list Z -> list Z := xor_n 16.

Definition sbox (a : Z) : Z := arr_get sbox_table a.

Definition rcon_table : list Z :=
  [0x01; 0x02; 0x04; 0x08; 0x10; 0x20; 0x40; 0x80; 0x1b; 0x36; 0x36; 0x36].

(** Four bytes of a block, the array [&b[off]]. *)
Definition col (off : nat) (b : list Z) : list Z := take 4 (drop off b).

Definition next_key (key : list Z) (round : Z) : list Z :=
  let sbox_key := [sbox (arr_get key 13); sbox (arr_get key 14); sbox (arr_get key 15); sbox (arr_get key 12)] in
  let rcon := arr_get rcon_table round in
  let k0 := xor_32 (col 0 key) sbox_key in
  let k0 := arr_set k0 0 (Z.lxor (arr_get k0 0) rcon) in
  let k4 := xor_32 (col 4 key) k0 in
  let k8 := xor_32 (col 8 key) k4 in
  let k12 := xor_32 (col 12 key) k8 in
  k0 ++ k4 ++ k8 ++ k12.

Definition byte_sub (b : list Z) : list Z := map (fun i => sbox (arr_get b i)) (seqZ 0 16).

Definition shift_row (b : list Z) : list Z :=
  map (arr_get b) [0; 5; 10; 15; 4; 9; 14; 3; 8; 13; 2; 7; 12; 1; 6; 11].

(** The loop [for (i = 3; i > 0; i--)] that shifts [andf7] left by one bit. *)
Definition shl_step (andf7 : list Z) (i : Z) : list Z :=
  let andf7 := arr_set andf7 i (u8 (Z.shiftl (arr_get andf7 i) 1)) in
  if Z.land (arr_get andf7 (i - 1)) 0x80 =? 0x80
  then arr_set andf7 i (Z.lor (arr_get andf7 i) 0x01) else andf7.

Definition mix_column (b : list Z) : list Z :=
  let add1b := map (fun i => if Z.land (arr_get b i) 0x80 =? 0x80 then 0x1b else 0x00) (seqZ 0 4) in
  let swap_halfs := [arr_get b 2; arr_get b 3; arr_get b 0; arr_get b 1] in
  let rotl := [arr_get b 3; arr_get b 0; arr_get b 1; arr_get b 2] in
  let andf7 := map (fun i => Z.land (arr_get b i) 0x7f) [0; 1; 2; 3] in
  let andf7 := foldl shl_step andf7 [3; 2; 1] in
  let andf7 := arr_set andf7 0 (u8 (Z.shiftl (arr_get andf7 0) 1)) in
  let andf7 := arr_set andf7 0 (Z.land (arr_get andf7 0) 0xfe) in
  let add1bf7 := xor_32 add1b andf7 in
  let rotr := xor_32 b add1bf7 in
  let rotr := [arr_get rotr 1; arr_get rotr 2; arr_get rotr 3; arr_get rotr 0] in
  let temp := xor_32 add1bf7 rotr in
  let tempb := xor_32 swap_halfs rotl in
  xor_32 temp tempb.

(** One turn of the round loop on [ciphertext] and [round_key]. *)
Definition aes_round (data : list Z) (st : list Z * list Z) (round : Z) : list Z * list Z :=
  let '(ciphertext, round_key) := st in
  if round =? 0 then (xor_128 round_key data, next_key round_key round)
  else if round =? 10 then
    let intermediateb := shift_row (byte_sub ciphertext) in
    (xor_128 intermediateb round_key, round_key)
  else
    let intermediateb := shift_row (byte_sub ciphertext) in
    let intermediatea := mix_column (col 0 intermediateb) ++ mix_column (col 4 intermediateb) ++
                         mix_column (col 8 intermediateb) ++ mix_column (col 12 intermediateb) in
    (xor_128 intermediatea round_key, next_key round_key round).

Definition aes128k128d (key data : list Z) : list Z :=
  (foldl (aes_round data) ([], map (arr_get key) (seqZ 0 16)) (seqZ 0 11)).1.

(** ** FIPS-197 *)

(** Multiplication by [x] and in the field of the Rijndael polynomial. *)
Definition xtime (a : Z) : Z := if a <? 128 then 2 * a else Z.lxor (2 * a) 0x11b.

Fixpoint gmul_loop (n : nat) (a b acc : Z) : Z :=
  match n with
  | O => acc
  | S n => gmul_loop n (xtime a) (Z.shiftr b 1) (if Z.odd b then Z.lxor acc a else acc)
  end.
Definition gmul (a b : Z) : Z := gmul_loop 8 a b 0.

Definition gpow (a : Z) (n : nat) : Z := Nat.iter n (gmul a) 1.

(** The multiplicative inverse, 0 for 0. *)
Definition ginv (a : Z) : Z := gpow a 254.

Definition rotl8 (x n : Z) : Z := Z.lor (u8 (Z.shiftl x n)) (Z.shiftr x (8 - n)).

Definition SubByte (a : Z) : Z :=
  let b := ginv a in
  Z.lxor b (Z.lxor (rotl8 b 1) (Z.lxor (rotl8 b 2) (Z.lxor (rotl8 b 3) (Z.lxor (rotl8 b 4) 0x63)))).

Definition SubBytes (s : list Z) : list Z := map SubByte s.

(** Byte [r + 4 c] of the state is row [r], column [c]. *)
Definition ShiftRows (s : list Z) : list Z :=
  map (fun i => let r := i mod 4 in let c := i / 4 in arr_get s (r + 4 * ((c + r) mod 4))) (seqZ 0 16).

Definition MixColumn (s : list Z) : list Z :=
  map (fun r =>
    Z.lxor (gmul 2 (arr_get s r)) (Z.lxor (gmul 3 (arr_get s ((r + 1) mod 4)))
      (Z.lxor (arr_get s ((r + 2) mod 4)) (arr_get s ((r + 3) mod 4))))) (seqZ 0 4).

Definition MixColumns (s : list Z) : list Z :=
  MixColumn (col 0 s) ++ MixColumn (col 4 s) ++ MixColumn (col 8 s) ++ MixColumn (col 12 s).

Definition SubWord (w : list Z) : list Z := map SubByte w.
Definition RotWord (w : list Z) : list Z := drop 1 w ++ take 1 w.
Definition Rcon (i : nat) : list Z := [gpow 2 (i - 1); 0; 0; 0].

(** Word [i] of the expanded key from the words before it. *)
Definition next_word (i : nat) (w : nat -> list Z) : list Z :=
  let temp := w (i - 1)%nat in
  let temp := if decide (i mod 4 = 0)%nat then xor_bytes (SubWord (RotWord temp)) (Rcon (i / 4)) else temp in
  xor_bytes (w (i - 4)%nat) temp.

Fixpoint expand (n : nat) (ws : list (list Z)) : list (list Z) :=
  match n with
  | O => ws
  | S n => expand n (ws ++ [next_word (length ws) (fun k => default [] (ws !! k))])
  end.

Definition KeyExpansion (key : list Z) : list (list Z) :=
  expand 40 [col 0 key; col 4 key; col 8 key; col 12 key].

Definition RoundKey (w : list (list Z)) (r : nat) : list Z := concat (take 4 (drop (4 * r) w)).

Definition Cipher (data : list Z) (w : list (list Z)) : list Z :=
  let s := xor_bytes data (RoundKey w 0) in
  let s := foldl (fun s r => xor_bytes (MixColumns (ShiftRows (SubBytes s))) (RoundKey w r)) s (seq 1 9) in
  xor_bytes (ShiftRows (SubBytes s)) (RoundKey w 10).

(** The example of FIPS-197, appendix C.1, by the code and by the standard. *)
Example aes_vector :
  aes128k128d (seqZ 0 16) (map (fun i => 17 * i) (seqZ 0 16)) =
  [0x69; 0xc4; 0xe0; 0xd8; 0x6a; 0x7b; 0x04; 0x30; 0xd8; 0xcd; 0xb7; 0x80; 0x70; 0xb4; 0xc5; 0x5a].
Proof. by vm_compute. Qed.

Example fips_vector :
  Cipher (map (fun i => 17 * i) (seqZ 0 16)) (KeyExpansion (seqZ 0 16)) =
  [0x69; 0xc4; 0xe0; 0xd8; 0x6a; 0x7b; 0x04; 0x30; 0xd8; 0xcd; 0xb7; 0x80; 0x70; 0xb4; 0xc5; 0x5a].
Proof. by vm_compute. Qed.
