(* ===== verification/AesSpec.v ===== *)
(** * The block cipher is AES-128 of FIPS-197 *)

From S2P Require Import Prelude Mem Aes.
(** ** Bytes and tables *)

Lemma bytes_get l i : bytes l -> 0 <= i < mem_len l -> is_u8 (arr_get l i).
Proof.
  intros Hl Hi. unfold arr_get. unfold mem_len in Hi.
  destruct (lookup_lt_is_Some_2 l (Z.to_nat i)) as [x Hx]; [lia|]. rewrite Hx.
  by eapply Forall_lookup_1.
Qed.

Lemma sbox_SubByte a : is_u8 a -> sbox a = SubByte a.
Proof.
  intros Ha. unfold sbox.
  assert (sbox_table = map SubByte (seqZ 0 256)) as -> by (vm_compute; done).
  apply arr_get_seqZ. exact Ha.
Qed.

(** A property of all bytes, by computation. *)
Lemma for_bytes (f g : Z -> Z) :
  forallb (fun a => f a =? g a) (seqZ 0 256) = true -> forall a, is_u8 a -> f a = g a.
Proof.
  intros H a Ha. rewrite forallb_forall in H. apply Z.eqb_eq, H, list_elem_of_In, elem_of_seqZ. exact Ha.
Qed.

Lemma gmul_2 a : is_u8 a -> gmul 2 a = xtime a.
Proof. apply (for_bytes (gmul 2) xtime). by vm_compute. Qed.

Lemma gmul_3 a : is_u8 a -> gmul 3 a = Z.lxor (xtime a) a.
Proof. apply (for_bytes (gmul 3) (fun a => Z.lxor (xtime a) a)). by vm_compute. Qed.

Lemma SubByte_byte a : is_u8 a -> is_u8 (SubByte a).
Proof.
  intros Ha. rewrite <- sbox_SubByte by done. unfold sbox. apply bytes_get; [|exact Ha].
  apply bytesb_bytes. by vm_compute.
Qed.

Lemma xtime_byte a : is_u8 a -> is_u8 (xtime a).
Proof.
  intros Ha. assert (xtime a = u8 (xtime a)) as ->; [|apply wrap_range; lia].
  revert a Ha. apply (for_bytes xtime (fun a => u8 (xtime a))). by vm_compute.
Qed.

(** The shift, mask and feedback of [mix_column] on one byte. *)
Lemma feedback_xtime a : is_u8 a ->
  Z.lxor (if Z.land a 128 =? 128 then 27 else 0) (u8 (Z.shiftl (Z.land a 127) 1)) = xtime a.
Proof.
  apply (for_bytes (fun a => Z.lxor (if Z.land a 128 =? 128 then 27 else 0) (u8 (Z.shiftl (Z.land a 127) 1))) xtime).
  by vm_compute.
Qed.

Lemma feedback_xtime_0 a : is_u8 a ->
  Z.lxor (if Z.land a 128 =? 128 then 27 else 0) (Z.land (u8 (Z.shiftl (Z.land a 127) 1)) 254) = xtime a.
Proof.
  apply (for_bytes (fun a => Z.lxor (if Z.land a 128 =? 128 then 27 else 0)
    (Z.land (u8 (Z.shiftl (Z.land a 127) 1)) 254)) xtime).
  by vm_compute.
Qed.

Lemma no_carry a : (Z.land (Z.land a 127) 128 =? 128) = false.
Proof. rewrite <- Z.land_assoc. change (Z.land 127 128) with 0. by rewrite Z.land_0_r. Qed.

Ltac lxor_ac :=
  apply Z.bits_inj'; intros ?i ?Hi; rewrite ?Z.lxor_spec;
  repeat match goal with |- context [Z.testbit ?x ?i] => destruct (Z.testbit x i) end; reflexivity.

Lemma mix_column_spec a b c d :
  is_u8 a -> is_u8 b -> is_u8 c -> is_u8 d -> mix_column [a; b; c; d] = MixColumn [a; b; c; d].
Proof.
  intros Ha Hb Hc Hd.
  cbv -[Z.land Z.lxor Z.lor Z.shiftl Z.eqb wrap gmul].
  rewrite !no_carry, feedback_xtime_0, !feedback_xtime, !gmul_2, !gmul_3 by done.
  repeat (apply (f_equal2 cons); [lxor_ac|]). reflexivity.
Qed.

Lemma shift_row_spec s : shift_row s = ShiftRows s.
Proof. reflexivity. Qed.

(** ** Blocks of sixteen bytes *)

Definition block (n : nat) (b : list Z) : Prop := length b = n /\ bytes b.

Lemma xor_n_xor_bytes n a b :
  length a = n -> length b = n -> xor_n (Z.of_nat n) a b = xor_bytes a b.
Proof.
  intros Ha Hb. unfold xor_n, xor_bytes.
  apply list_eq_same_length with n.
  - rewrite length_zip_with. lia.
  - by rewrite length_map, length_seqZ, Nat2Z.id.
  - intros i x y Hi. rewrite lookup_map, lookup_seqZ_lt by lia. cbn [fmap option_fmap option_map].
    rewrite lookup_zip_with_Some. intros [= <-] (u & v & -> & Hu & Hv). unfold arr_get.
    rewrite Z.add_0_l, Nat2Z.id, Hu, Hv. done.
Qed.

Lemma col_block off b : block 16 b -> (off + 4 <= 16)%nat -> block 4 (col off b).
Proof.
  intros [Hl Hb] Ho. unfold col. split; [rewrite length_take, length_drop; lia|].
  by apply Forall_take, Forall_drop.
Qed.

Lemma block_app m n a b : block m a -> block n b -> block (m + n) (a ++ b).
Proof. intros [Ha Ba] [Hb Bb]. split; [rewrite length_app; lia|apply Forall_app; done]. Qed.

Lemma xor_block n a b : block n a -> block n b -> block n (xor_bytes a b).
Proof.
  intros [Ha Ba] [Hb Bb]. split; [rewrite length_xor_bytes; lia|by apply xor_bytes_bytes].
Qed.

Lemma block_4 b : block 4 b -> exists w x y z, b = [w; x; y; z] /\ is_u8 w /\ is_u8 x /\ is_u8 y /\ is_u8 z.
Proof.
  intros [Hl Hb]. destruct b as [|w [|x [|y [|z [|? b]]]]]; cbn in Hl; try lia.
  exists w, x, y, z. repeat (apply list.Forall_cons in Hb as [? Hb]). done.
Qed.

Lemma MixColumn_block b : block 4 b -> block 4 (MixColumn b).
Proof.
  intros Hb. destruct (block_4 b Hb) as (w & x & y & z & -> & Hw & Hx & Hy & Hz). split; [done|].
  cbv -[Z.lxor gmul in_width Z.le Z.lt Z.pow].
  rewrite !gmul_2, !gmul_3 by done.
  repeat (apply List.Forall_cons; [repeat (apply lxor_in_width; [lia| |]); (done || by apply xtime_byte)|]).
  constructor.
Qed.

Lemma mix_column_col off b : block 16 b -> (off + 4 <= 16)%nat -> mix_column (col off b) = MixColumn (col off b).
Proof.
  intros Hb Ho. destruct (block_4 _ (col_block off b Hb Ho)) as (w & x & y & z & -> & ? & ? & ? & ?).
  by apply mix_column_spec.
Qed.

Lemma MixColumns_block b : block 16 b -> block 16 (MixColumns b).
Proof.
  intros Hb. unfold MixColumns. do 3 (apply (block_app 4); [apply MixColumn_block, col_block; [done|lia]|]).
  apply MixColumn_block, col_block; [done|lia].
Qed.

Lemma ShiftRows_block b : block 16 b -> block 16 (ShiftRows b).
Proof.
  intros [Hl Hb]. rewrite <- shift_row_spec. split; [done|]. unfold shift_row. cbn [map].
  repeat (apply List.Forall_cons; [apply bytes_get; [done|unfold mem_len; lia]|]). constructor.
Qed.

Lemma SubBytes_block b : block 16 b -> block 16 (SubBytes b).
Proof.
  intros [Hl Hb]. split; [unfold SubBytes; by rewrite length_map|].
  unfold SubBytes. clear Hl. induction Hb as [|a b Ha Hb IH]; constructor; [by apply SubByte_byte|done].
Qed.

Lemma byte_sub_spec b : block 16 b -> byte_sub b = SubBytes b.
Proof.
  intros [Hl Hb]. unfold byte_sub, SubBytes.
  apply list_eq_same_length with 16%nat; [by rewrite length_map|by rewrite length_map|].
  intros i x y Hi. rewrite !lookup_map, lookup_seqZ_lt by lia. cbn [fmap option_fmap option_map].
  rewrite Z.add_0_l. intros [= <-] Hy. apply fmap_Some in Hy as (u & Hu & ->).
  unfold arr_get. rewrite Nat2Z.id, Hu. cbn. apply sbox_SubByte. by eapply Forall_lookup_1.
Qed.

(** ** Key schedule *)

Lemma expand_prefix n : forall ws, exists tail, expand n ws = ws ++ tail /\ length tail = n.
Proof.
  induction n as [|n IH]; intros ws; cbn [expand]; [exists []; by rewrite app_nil_r|].
  destruct (IH (ws ++ [next_word (length ws) (fun k => default [] (ws !! k))])) as (t & -> & Ht).
  eexists. rewrite <- app_assoc. split; [reflexivity|]. cbn. by rewrite Ht.
Qed.

Lemma next_word_ext i (w w' : nat -> list Z) :
  w (i - 1)%nat = w' (i - 1)%nat -> w (i - 4)%nat = w' (i - 4)%nat -> next_word i w = next_word i w'.
Proof. intros E1 E4. unfold next_word. by rewrite E1, E4. Qed.

(** Every word after the first four satisfies the recurrence. *)
Lemma expand_next n i : forall ws,
  (4 <= length ws)%nat -> (length ws <= i < length ws + n)%nat ->
  expand n ws !! i = Some (next_word i (fun k => default [] (expand n ws !! k))).
Proof.
  induction n as [|n IH]; intros ws H4 Hi; [lia|]. cbn [expand].
  set (x := next_word _ _). destruct (decide (i = length ws)) as [->|Hne].
  - destruct (expand_prefix n (ws ++ [x])) as (t & E & _).
    assert (forall k, (k < length ws)%nat -> ws !! k = expand n (ws ++ [x]) !! k) as Hk.
    { intros k Hk. rewrite E, <- app_assoc. by rewrite lookup_app_l. }
    rewrite E at 1. rewrite <- app_assoc, lookup_app_r, Nat.sub_diag by lia. cbn [app lookup list_lookup].
    f_equal. unfold x. apply next_word_ext; by rewrite Hk by lia.
  - apply IH; rewrite length_app; cbn [length]; lia.
Qed.

Definition W (key : list Z) (i : nat) : list Z := default [] (KeyExpansion key !! i).

Lemma KeyExpansion_length key : length (KeyExpansion key) = 44%nat.
Proof.
  unfold KeyExpansion. destruct (expand_prefix 40 [col 0 key; col 4 key; col 8 key; col 12 key]) as (t & -> & Ht).
  rewrite length_app, Ht. done.
Qed.

Lemma W_next key i : (4 <= i < 44)%nat -> W key i = next_word i (W key).
Proof.
  intros Hi.
  assert (KeyExpansion key !! i = Some (next_word i (W key))) as E
    by (apply (expand_next 40 i [col 0 key; col 4 key; col 8 key; col 12 key]); cbn [length]; lia).
  unfold W at 1. by rewrite E.
Qed.

Lemma W_start key i : (i < 4)%nat -> W key i = col (4 * i) key.
Proof.
  intros Hi. unfold W, KeyExpansion.
  destruct (expand_prefix 40 [col 0 key; col 4 key; col 8 key; col 12 key]) as (t & -> & _).
  destruct i as [|[|[|[|i]]]]; (done || lia).
Qed.

Lemma RoundKey_W key r : (r <= 10)%nat ->
  RoundKey (KeyExpansion key) r = W key (4 * r) ++ W key (4 * r + 1) ++ W key (4 * r + 2) ++ W key (4 * r + 3).
Proof.
  intros Hr. unfold RoundKey, W. pose proof (KeyExpansion_length key) as Hl.
  generalize dependent (KeyExpansion key). intros w Hl.
  assert (forall k, (k < 4)%nat -> drop (4 * r) w !! k = w !! (4 * r + k)%nat) as Hk by (intros; apply lookup_drop).
  assert (forall k, (k < 4)%nat -> is_Some (drop (4 * r) w !! k)) as Hs
    by (intros k H; apply lookup_lt_is_Some; rewrite length_drop; lia).
  rewrite <- (Hk 1%nat), <- (Hk 2%nat), <- (Hk 3%nat) by lia.
  pose proof (Hk 0%nat ltac:(lia)) as H0. rewrite Nat.add_0_r in H0. rewrite <- H0.
  destruct (drop (4 * r) w) as [|a [|b [|c [|d l]]]].
  - by destruct (Hs 0%nat ltac:(lia)).
  - by destruct (Hs 1%nat ltac:(lia)).
  - by destruct (Hs 2%nat ltac:(lia)).
  - by destruct (Hs 3%nat ltac:(lia)).
  - cbn. by rewrite app_nil_r.
Qed.

#[local] Opaque W KeyExpansion.

Lemma rcon_gpow r : (r < 10)%nat -> arr_get rcon_table (Z.of_nat r) = gpow 2 r.
Proof. intros. do 10 (destruct r as [|r]; [by vm_compute|]). lia. Qed.

(** [next_key] computes the four words of the next round key. *)
Lemma next_key_words a b c d r :
  block 4 a -> block 4 b -> block 4 c -> block 4 d -> (r < 10)%nat ->
  next_key (a ++ b ++ c ++ d) (Z.of_nat r) =
  let a' := xor_bytes a (xor_bytes (SubWord (RotWord d)) (Rcon (S r))) in
  let b' := xor_bytes b a' in let c' := xor_bytes c b' in let d' := xor_bytes d c' in
  a' ++ b' ++ c' ++ d'.
Proof.
  intros Ha Hb Hc Hd Hr.
  destruct (block_4 a Ha) as (a0 & a1 & a2 & a3 & -> & ? & ? & ? & ?).
  destruct (block_4 b Hb) as (b0 & b1 & b2 & b3 & -> & ? & ? & ? & ?).
  destruct (block_4 c Hc) as (c0 & c1 & c2 & c3 & -> & ? & ? & ? & ?).
  destruct (block_4 d Hd) as (d0 & d1 & d2 & d3 & -> & ? & ? & ? & ?).
  unfold next_key. rewrite rcon_gpow by done. unfold Rcon, SubWord. rewrite Nat.sub_succ, Nat.sub_0_r.
  generalize (gpow 2 r). intros x.
  cbv -[Z.lxor sbox SubByte]. rewrite <- !sbox_SubByte, !Z.lxor_0_r by done. by rewrite !Z.lxor_assoc.
Qed.

Lemma W_block key i : block 16 key -> (i < 44)%nat -> block 4 (W key i).
Proof.
  intros Hk. induction i as [i IH] using lt_wf_ind. intros Hi.
  destruct (decide (i < 4)%nat) as [H4|H4].
  - rewrite W_start by done. apply col_block; [done|lia].
  - rewrite W_next by lia. unfold next_word.
    pose proof (IH (i - 1)%nat ltac:(lia) ltac:(lia)) as H1. pose proof (IH (i - 4)%nat ltac:(lia) ltac:(lia)) as H3.
    apply xor_block; [exact H3|]. destruct (decide (i mod 4 = 0)%nat); [|exact H1]. apply xor_block.
    + destruct (block_4 _ H1) as (w & x & y & z & -> & ? & ? & ? & ?). split; [done|].
      repeat (apply List.Forall_cons; [by apply SubByte_byte|]). constructor.
    + split; [done|]. unfold Rcon. apply List.Forall_cons; [|by apply bytesb_bytes].
      assert (exists r, (r < 11)%nat /\ i / 4 - 1 = r)%nat as (r & Hr & ->).
      { eexists. split; [|reflexivity]. pose proof (Nat.Div0.div_le_mono i 43 4). cbn in *. lia. }
      do 11 (destruct r as [|r]; [vm_compute; split; congruence|]). lia.
Qed.

Lemma next_key_RoundKey key r : block 16 key -> (r < 10)%nat ->
  next_key (RoundKey (KeyExpansion key) r) (Z.of_nat r) = RoundKey (KeyExpansion key) (S r).
Proof.
  intros Hk Hr. rewrite !RoundKey_W by lia.
  rewrite next_key_words; [|apply W_block; [done|lia]..|done]. cbv zeta.
  replace (4 * S r)%nat with (4 * r + 4)%nat by lia.
  assert (forall j, (j < 4)%nat -> W key (4 * r + 4 + j) =
    xor_bytes (W key (4 * r + j)) (if decide (j = 0)%nat
      then xor_bytes (SubWord (RotWord (W key (4 * r + 3)))) (Rcon (S r))
      else W key (4 * r + 4 + (j - 1)))) as HW.
  { intros j Hj. rewrite W_next by lia. unfold next_word.
    replace (4 * r + 4 + j - 4)%nat with (4 * r + j)%nat by lia. f_equal.
    assert ((4 * r + 4 + j) mod 4 = j)%nat as Em.
    { replace (4 * r + 4 + j)%nat with (j + (r + 1) * 4)%nat by lia.
      rewrite Nat.Div0.mod_add. by apply Nat.mod_small. }
    rewrite Em. destruct (decide (j = 0)%nat) as [->|Hne].
    - replace (4 * r + 4 + 0 - 1)%nat with (4 * r + 3)%nat by lia.
      replace ((4 * r + 4 + 0) / 4)%nat with (S r); [done|].
      replace (4 * r + 4 + 0)%nat with (S r * 4)%nat by lia. symmetry. by apply Nat.div_mul.
    - f_equal. lia. }
  pose proof (HW 0%nat ltac:(lia)) as E0. pose proof (HW 1%nat ltac:(lia)) as E1.
  pose proof (HW 2%nat ltac:(lia)) as E2. pose proof (HW 3%nat ltac:(lia)) as E3.
  cbn [decide decide_rel Nat.eq_dec nat_rect nat_rec Nat.sub] in E0, E1, E2, E3.
  rewrite !Nat.add_0_r in *. rewrite E3, E2, E1, E0. done.
Qed.

(** ** The rounds *)

Lemma RoundKey_block key r : block 16 key -> (r <= 10)%nat -> block 16 (RoundKey (KeyExpansion key) r).
Proof.
  intros Hk Hr. rewrite RoundKey_W by done.
  do 3 (apply (block_app 4); [apply W_block; [done|lia]|]). apply W_block; [done|lia].
Qed.

Lemma RoundKey_0 key : block 16 key -> RoundKey (KeyExpansion key) 0 = map (arr_get key) (seqZ 0 16).
Proof.
  intros [Hl _]. rewrite RoundKey_W by lia. change (4 * 0 + 1)%nat with 1%nat.
  change (4 * 0 + 2)%nat with 2%nat. change (4 * 0 + 3)%nat with 3%nat. change (4 * 0)%nat with 0%nat.
  rewrite !W_start by lia. unfold col, arr_get.
  do 17 (destruct key as [|? key]; [cbn in Hl; try lia; reflexivity|]). cbn in Hl. lia.
Qed.

Definition round_fips (w : list (list Z)) (s : list Z) (r : nat) : list Z :=
  xor_bytes (MixColumns (ShiftRows (SubBytes s))) (RoundKey w r).

Lemma round_fips_block key s r : block 16 key -> block 16 s -> (r <= 10)%nat ->
  block 16 (round_fips (KeyExpansion key) s r).
Proof.
  intros. apply xor_block; [|by apply RoundKey_block].
  by apply MixColumns_block, ShiftRows_block, SubBytes_block.
Qed.

Lemma aes_round_middle key data s r :
  block 16 key -> block 16 s -> (1 <= r <= 9)%nat ->
  aes_round data (s, RoundKey (KeyExpansion key) r) (Z.of_nat r) =
  (round_fips (KeyExpansion key) s r, RoundKey (KeyExpansion key) (S r)).
Proof.
  intros Hk Hs Hr. unfold aes_round. rewrite !(proj2 (Z.eqb_neq _ _)) by lia.
  rewrite next_key_RoundKey by (done || lia). f_equal.
  rewrite byte_sub_spec, shift_row_spec by done.
  pose proof (ShiftRows_block _ (SubBytes_block _ Hs)) as Hb.
  rewrite !mix_column_col by (done || lia). unfold round_fips, xor_128.
  change 16 with (Z.of_nat 16). apply xor_n_xor_bytes.
  - by apply MixColumns_block.
  - apply RoundKey_block; [done|lia].
Qed.

Lemma aes_rounds_middle key data n : forall s r,
  block 16 key -> block 16 s -> (1 <= r)%nat -> (r + n <= 10)%nat ->
  foldl (aes_round data) (s, RoundKey (KeyExpansion key) r) (map Z.of_nat (seq r n)) =
  (foldl (round_fips (KeyExpansion key)) s (seq r n), RoundKey (KeyExpansion key) (r + n)).
Proof.
  induction n as [|n IH]; intros s r Hk Hs H1 Hn; [by rewrite Nat.add_0_r|].
  cbn [seq map foldl]. rewrite aes_round_middle by (done || lia).
  rewrite IH by (lia || done || apply round_fips_block; (done || lia)).
  by rewrite Nat.add_succ_r.
Qed.

Lemma rounds_block key n : forall s r, block 16 key -> block 16 s -> (r + n <= 11)%nat ->
  block 16 (foldl (round_fips (KeyExpansion key)) s (seq r n)).
Proof.
  induction n as [|n IH]; intros s r Hk Hs Hn; [done|]. cbn [seq foldl].
  apply IH; [done| |lia]. apply round_fips_block; [done|done|lia].
Qed.

(** C10. aes128k128d is the AES-128 cipher of FIPS-197: the table lookups, the
    byte shuffles, the shift-and-feedback column mixing and the key schedule
    computed on the fly give, for every key and block, the standard's Cipher
    with its field arithmetic and its expanded key. *)
Theorem aes_refines_fips key data :
  length key = 16%nat -> bytes key -> length data = 16%nat -> bytes data ->
  aes128k128d key data = Cipher data (KeyExpansion key).
Proof.
  intros Hkl Hkb Hdl Hdb.
  assert (block 16 key) as Hk by done. assert (block 16 data) as Hd by done.
  unfold aes128k128d. rewrite <- RoundKey_0 by done.
  change (seqZ 0 11) with ([0] ++ map Z.of_nat (seq 1 9) ++ [10]). rewrite !foldl_app. cbn [foldl].
  assert (aes_round data ([], RoundKey (KeyExpansion key) 0) 0 =
    (xor_bytes data (RoundKey (KeyExpansion key) 0), RoundKey (KeyExpansion key) 1)) as ->.
  { unfold aes_round. cbn [Z.eqb].
    pose proof (next_key_RoundKey key 0 Hk ltac:(lia)) as E. change (Z.of_nat 0) with 0 in E. rewrite E. f_equal. unfold xor_128. change 16 with (Z.of_nat 16).
    rewrite xor_n_xor_bytes; [|by apply RoundKey_block; [done|lia]|done].
    unfold xor_bytes. rewrite <- zip_with_flip. apply zip_with_ext; [|done|done]. intros; apply Z.lxor_comm. }
  assert (block 16 (xor_bytes data (RoundKey (KeyExpansion key) 0))) as Hs
    by (apply xor_block; [done|apply RoundKey_block; [done|lia]]).
  rewrite aes_rounds_middle by (done || lia). cbn [Nat.add].
  pose proof (rounds_block key 9 _ 1 Hk Hs ltac:(lia)) as Hm.
  unfold aes_round. cbn [Z.eqb Pos.eqb fst]. rewrite byte_sub_spec, shift_row_spec by done.
  unfold Cipher, xor_128. change 16 with (Z.of_nat 16). apply xor_n_xor_bytes.
  - by apply ShiftRows_block, SubBytes_block.
  - apply RoundKey_block; [done|lia].
Qed.

Lemma aes_refines_fips_witness :
  aes128k128d (seqZ 0 16) (repeat 255 16) = Cipher (repeat 255 16) (KeyExpansion (seqZ 0 16)).
Proof. apply aes_refines_fips; (by apply bytesb_bytes) || done. Defined.

Lemma length_aes key data : length (aes128k128d key data) = 16%nat.
Proof. reflexivity. Qed.
