(* ===== verification/Ccmp.v ===== *)
(** * CCMP (core/rtw_security.c, [aes_cipher], [aes_decipher] and callers)

    Built without CONFIG_IEEE80211W and CONSISTENT_PN_ORDER, as the Makefile
    does by default. *)

From S2P Require Import Prelude Mem Arc4 SecDefs Tkip Aes.
Definition WLAN_HDR_A3_LEN : Z := 24.
Definition WLAN_HDR_A3_QOS_LEN : Z := 26.
Definition MAX_MSG_SIZE : Z := 2048.
Definition WIFI_DATA : Z := 0x08.
Definition WIFI_DATA_CFACK : Z := 0x18.
Definition WIFI_DATA_CFPOLL : Z := 0x28.
Definition WIFI_DATA_CFACKPOLL : Z := 0x38.

Definition GetFrameType (pbuf : list Z) : Z := Z.land (le_dec (take 2 pbuf)) 0x0c.
Definition get_frame_sub_type (pbuf : list Z) : Z := Z.land (le_dec (take 2 pbuf)) 0xfc.

(** ** Nonce, header blocks and counter block *)

Definition construct_mic_iv (qc a4 : bool) (mpdu : list Z) (payload_length : Z) (pn : list Z) : list Z :=
  [0x59; if qc then Z.land (arr_get mpdu (if a4 then 30 else 24)) 0x0f else 0x00] ++
  map (fun i => arr_get mpdu (i + 8)) (seqZ 2 6) ++
  map (fun i => arr_get pn (13 - i)) (seqZ 8 6) ++
  [u8 (payload_length / 256); u8 (payload_length mod 256)].

Definition construct_mic_header1 (header_length : Z) (mpdu : list Z) : list Z :=
  [u8 ((header_length - 2) / 256); u8 ((header_length - 2) mod 256);
   Z.land (arr_get mpdu 0) 0xcf; Z.land (arr_get mpdu 1) 0xc7] ++
  map (arr_get mpdu) (seqZ 4 12).

Definition construct_mic_header2 (mpdu : list Z) (a4 qc : bool) : list Z :=
  map (arr_get mpdu) (seqZ 16 6) ++ [0x00; 0x00] ++
  match qc, a4 with
  | false, true => map (arr_get mpdu) (seqZ 24 6) ++ [0; 0]
  | true, false => [Z.land (arr_get mpdu 24) 0x0f; Z.land (arr_get mpdu 25) 0x00; 0; 0; 0; 0; 0; 0]
  | true, true =>
      map (arr_get mpdu) (seqZ 24 6) ++ [Z.land (arr_get mpdu 30) 0x0f; Z.land (arr_get mpdu 31) 0x00]
  | false, false => [0; 0; 0; 0; 0; 0; 0; 0]
  end.

Definition construct_ctr_preload (a4 qc : bool) (mpdu pn : list Z) (c : Z) : list Z :=
  [0x01; if qc then Z.land (arr_get mpdu (if a4 then 30 else 24)) 0x0f else 0x00] ++
  map (fun i => arr_get mpdu (i + 8)) (seqZ 2 6) ++
  map (fun i => arr_get pn (13 - i)) (seqZ 8 6) ++
  [u8 (c / 256); u8 (c mod 256)].

(** ** The parts both directions share *)

(** [a4_exists]. *)
Definition a4_exists (hdrlen : Z) : bool := negb ((hdrlen =? WLAN_HDR_A3_LEN) || (hdrlen =? WLAN_HDR_A3_QOS_LEN)).

(** [qc_exists] and the adjusted [hdrlen]. *)
Definition qc_hdrlen (frame : list Z) (hdrlen : Z) : bool * Z :=
  let frtype := GetFrameType frame in
  let frsubtype := Z.shiftr (get_frame_sub_type frame) 4 in
  let adj := if negb (hdrlen =? WLAN_HDR_A3_QOS_LEN) then hdrlen + 2 else hdrlen in
  if (Z.lor frtype frsubtype =? WIFI_DATA_CFACK) || (Z.lor frtype frsubtype =? WIFI_DATA_CFPOLL) ||
     (Z.lor frtype frsubtype =? WIFI_DATA_CFACKPOLL) then (true, adj)
  else if (frtype =? WIFI_DATA) &&
     ((frsubtype =? 0x08) || (frsubtype =? 0x09) || (frsubtype =? 0x0a) || (frsubtype =? 0x0b)) then (true, adj)
  else (false, hdrlen).

(** [pn_vector], from the extended IV at [hdrlen]. *)
Definition pn_vector (frame : list Z) (hdrlen : Z) : option (list Z) :=
  iv ← rdn frame hdrlen 8;
  Some [arr_get iv 0; arr_get iv 1; arr_get iv 4; arr_get iv 5; arr_get iv 6; arr_get iv 7].

(** A short final block, zero padded. *)
Definition padded_buffer (b : list Z) : list Z := b ++ repeat 0 (16 - length b).

Section ccm.
Context (key : list Z) (a4 qc : bool).

(** [for (i = 0; i < num_blocks; i++)] of the MIC computation. *)
Fixpoint mic_blocks (n : nat) (msg : list Z) (payload_index : Z) (aes_out : list Z) : option (list Z * Z) :=
  match n with
  | O => Some (aes_out, payload_index)
  | S n =>
      b ← rdn msg payload_index 16;
      mic_blocks n msg (payload_index + 16) (aes128k128d key (bitwise_xor aes_out b))
  end.

(** The MIC of the [plen] bytes of payload behind header and IV, and the index
    behind them. *)
Definition ccm_mic (msg : list Z) (hdrlen plen : Z) (pn : list Z) : option (list Z * Z) :=
  let aes_out := aes128k128d key (construct_mic_iv qc a4 msg plen pn) in
  let aes_out := aes128k128d key (bitwise_xor aes_out (construct_mic_header1 hdrlen msg)) in
  let aes_out := aes128k128d key (bitwise_xor aes_out (construct_mic_header2 msg a4 qc)) in
  '(aes_out, payload_index) ← mic_blocks (Z.to_nat (plen / 16)) msg (hdrlen + 8) aes_out;
  let payload_remainder := plen mod 16 in
  if 0 <? payload_remainder then
    b ← rdn msg payload_index payload_remainder;
    Some (take 8 (aes128k128d key (bitwise_xor aes_out (padded_buffer b))), payload_index + payload_remainder)
  else Some (take 8 aes_out, payload_index).

(** The counter-mode loop over the full blocks. *)
Fixpoint ctr_blocks (n : nat) (i : Z) (buf : list Z) (payload_index : Z) (pn : list Z) : option (list Z * Z) :=
  match n with
  | O => Some (buf, payload_index)
  | S n =>
      let aes_out := aes128k128d key (construct_ctr_preload a4 qc buf pn (i + 1)) in
      b ← rdn buf payload_index 16;
      buf ← wrn buf payload_index (bitwise_xor aes_out b);
      ctr_blocks n (i + 1) buf (payload_index + 16) pn
  end.

(** Counter mode on [plen] bytes of payload, the short final block included. *)
Definition ccm_ctr (buf : list Z) (hdrlen plen : Z) (pn : list Z) : option (list Z * Z) :=
  let num_blocks := plen / 16 in
  let payload_remainder := plen mod 16 in
  '(buf, payload_index) ← ctr_blocks (Z.to_nat num_blocks) 0 buf (hdrlen + 8) pn;
  if 0 <? payload_remainder then
    let preload := construct_ctr_preload a4 qc buf pn (num_blocks + 1) in
    b ← rdn buf payload_index payload_remainder;
    let chain_buffer := bitwise_xor (aes128k128d key preload) (padded_buffer b) in
    buf ← wrn buf payload_index (take (Z.to_nat payload_remainder) chain_buffer);
    Some (buf, payload_index + payload_remainder)
  else Some (buf, payload_index).

(** Encrypt the MIC at [mic_index], store it at [payload_index]. *)
Definition ccm_ctr_mic (buf : list Z) (mic_index payload_index : Z) (pn : list Z) : option (list Z) :=
  let preload := construct_ctr_preload a4 qc buf pn 0 in
  b ← rdn buf mic_index 8;
  let chain_buffer := bitwise_xor (aes128k128d key preload) (padded_buffer b) in
  wrn buf payload_index (take 8 chain_buffer).
End ccm.

(** ** Encryption *)

(** [aes_cipher]; the frame must hold the bytes the header blocks read. *)
Definition aes_cipher (key : list Z) (hdrlen : Z) (pframe : list Z) (plen : Z) : option (Z * list Z) :=
  let a4 := a4_exists hdrlen in
  _ ← rdn pframe 0 32;
  let '(qc, hdrlen) := qc_hdrlen pframe hdrlen in
  pn ← pn_vector pframe hdrlen;
  '(mic, payload_index) ← ccm_mic key a4 qc pframe hdrlen plen pn;
  pframe ← wrn pframe payload_index mic;
  '(pframe, payload_index) ← ccm_ctr key a4 qc pframe hdrlen plen pn;
  pframe ← ccm_ctr_mic key a4 qc pframe (hdrlen + 8 + plen) payload_index pn;
  Some (_SUCCESS, pframe).

(** One turn of the fragment loop: [aes_cipher] on the buffer from [pframe]. *)
Definition aes_frag (a : pkt_attrib) (prwskey : list Z)
    (s : unit) (buf : list Z) (pframe length : Z) : option (unit * list Z) :=
  '(_, f) ← aes_cipher prwskey (pa_hdrlen a) (drop (Z.to_nat pframe) buf) (u32 length);
  Some (s, take (Z.to_nat pframe) buf ++ f).

Definition rtw_aes_encrypt (sec : security_priv) (frag_len : Z) (x : xmit_frame) : option (Z * xmit_frame) :=
  let a := xf_attrib x in
  if xf_buf_addr x =? 0 then Some (_FAIL, x)
  else if pa_encrypt a =? _AES_ then
    prwskey ← tx_key sec a;
    '(_, buf) ← frag_loop (aes_frag a prwskey) a frag_len (xf_buf_addr x)
                  (Z.to_nat (pa_nr_frags a)) 0 tt (xf_buf x) (hw_hdr_offset x);
    Some (_SUCCESS, mk_xmit_frame a (xf_pkt_offset x) (xf_buf_addr x) buf)
  else Some (_SUCCESS, x).

(** ** Decryption *)

(** The second half of [aes_decipher]: copy the decrypted frame to the static
    array [message], compute and encrypt its MIC there and compare. *)
Definition decipher_mic (key : list Z) (a4 qc : bool) (hdrlen : Z) (pframe : list Z) (plen : Z)
    (message : list Z) : option (Z * list Z) :=
  let mlen := u32 (plen - 8) in
  message ← (if hdrlen + plen + 8 <=? MAX_MSG_SIZE
             then m ← rdn pframe 0 (hdrlen + plen + 8); wrn message 0 m
             else Some message);
  pn ← pn_vector pframe hdrlen;
  '(mic, payload_index) ← ccm_mic key a4 qc message hdrlen mlen pn;
  message ← wrn message payload_index mic;
  '(message, payload_index) ← ccm_ctr key a4 qc message hdrlen mlen pn;
  message ← ccm_ctr_mic key a4 qc message (hdrlen + 8 + plen - 8) payload_index pn;
  received ← rdn pframe (hdrlen + 8 + plen - 8) 8;
  computed ← rdn message (hdrlen + 8 + plen - 8) 8;
  Some (if decide (received = computed) then _SUCCESS else _FAIL, message).

(** [aes_decipher]; [message] is its static array of MAX_MSG_SIZE bytes.
    The packet number is read before [hdrlen] is adjusted, and again after
    the payload is decrypted. *)
Definition aes_decipher (key : list Z) (hdrlen : Z) (pframe : list Z) (plen : Z) (message : list Z)
    : option (Z * list Z * list Z) :=
  let mlen := u32 (plen - 8) in
  pn ← pn_vector pframe hdrlen;
  let a4 := a4_exists hdrlen in
  _ ← rdn pframe 0 32;
  let '(qc, hdrlen) := qc_hdrlen pframe hdrlen in
  '(pframe, _) ← ccm_ctr key a4 qc pframe hdrlen mlen pn;
  '(res, message) ← decipher_mic key a4 qc hdrlen pframe plen message;
  Some (res, pframe, message).

Section decrypt.
(** [rtw_get_stainfo], with the pairwise key of the station. *)
Context (rtw_get_stainfo : list Z -> option (list Z)).

(** The key for a received frame; the group key only if its index is the
    installed one. *)
Definition aes_rx_key (sec : security_priv) (a : rx_pkt_attrib) : option (option (list Z)) :=
  match rtw_get_stainfo (rxa_ta a) with
  | None => Some None
  | Some unicast =>
      if IS_MCAST (rxa_ra a) then
        if binstallGrpkey sec =? 0 then Some None
        else k ← key_at (dot118021XGrpKey sec) (rxa_key_index a);
             Some (if dot118021XGrpKeyid sec =? rxa_key_index a then Some k else None)
      else Some (Some unicast)
  end.

Definition rtw_aes_decrypt (sec : security_priv) (message : list Z) (r : recv_frame)
    : option (Z * list Z * recv_frame) :=
  let a := rv_attrib r in
  if rxa_encrypt a =? _AES_ then
    key ← aes_rx_key sec a;
    match key with
    | None => Some (_FAIL, message, r)
    | Some prwskey =>
        let length := s32 (rv_len r - rxa_hdrlen a - rxa_iv_len a) in
        '(res, buf, message) ← aes_decipher prwskey (rxa_hdrlen a) (rv_data r) (u32 length) message;
        Some (res, message, mk_recv_frame a (rv_len r) buf)
    end
  else Some (_SUCCESS, message, r).
End decrypt.
