(* ===== verification/CcmpSpec.v ===== *)
(** * CCMP computes CCM: the in-place loops against a list specification *)

From S2P Require Import Prelude Mem Arc4 SecDefs Tkip Aes AesSpec Ccmp.
#[local] Opaque aes128k128d.

(** ** Header blocks only read the first 32 bytes *)

Lemma arr_get_app_l a b i : 0 <= i < mem_len a -> arr_get (a ++ b) i = arr_get a i.
Proof. intros Hi. unfold arr_get, mem_len in *. rewrite lookup_app_l by lia. done. Qed.

Section prefix.
Context (P b : list Z) (HP : 32 <= mem_len P).

Lemma prefix_get i : 0 <= i < 32 -> arr_get (P ++ b) i = arr_get P i.
Proof. intros. apply arr_get_app_l. lia. Qed.

Lemma ctr_preload_prefix a4 qc pn c : construct_ctr_preload a4 qc (P ++ b) pn c = construct_ctr_preload a4 qc P pn c.
Proof.
  unfold construct_ctr_preload. change (seqZ 2 6) with [2; 3; 4; 5; 6; 7]. cbn [map].
  rewrite !prefix_get by (destruct a4; lia). done.
Qed.

Lemma mic_iv_prefix a4 qc n pn : construct_mic_iv qc a4 (P ++ b) n pn = construct_mic_iv qc a4 P n pn.
Proof.
  unfold construct_mic_iv. change (seqZ 2 6) with [2; 3; 4; 5; 6; 7]. cbn [map].
  rewrite !prefix_get by (destruct a4; lia). done.
Qed.

Lemma mic_header1_prefix n : construct_mic_header1 n (P ++ b) = construct_mic_header1 n P.
Proof.
  unfold construct_mic_header1. change (seqZ 4 12) with [4; 5; 6; 7; 8; 9; 10; 11; 12; 13; 14; 15]. cbn [map].
  rewrite !prefix_get by lia. done.
Qed.

Lemma mic_header2_prefix a4 qc : construct_mic_header2 (P ++ b) a4 qc = construct_mic_header2 P a4 qc.
Proof.
  unfold construct_mic_header2. change (seqZ 16 6) with [16; 17; 18; 19; 20; 21].
  change (seqZ 24 6) with [24; 25; 26; 27; 28; 29]. cbn [map].
  rewrite !prefix_get by lia. done.
Qed.

Lemma frame_type_prefix : GetFrameType (P ++ b) = GetFrameType P /\ get_frame_sub_type (P ++ b) = get_frame_sub_type P.
Proof. unfold GetFrameType, get_frame_sub_type. rewrite take_app_le by (unfold mem_len in HP; lia). done. Qed.

Lemma qc_hdrlen_prefix hdrlen : qc_hdrlen (P ++ b) hdrlen = qc_hdrlen P hdrlen.
Proof. unfold qc_hdrlen. destruct frame_type_prefix as [-> ->]. done. Qed.
End prefix.

(** ** Exclusive or with a key block *)

Lemma xor_key_involutive k l : length k = length l -> xor_bytes k (xor_bytes k l) = l.
Proof.
  revert l; induction k as [|x k IH]; intros [|y l] H; try done. cbn in *.
  rewrite <- Z.lxor_assoc, Z.lxor_nilpotent, Z.lxor_0_l. f_equal. apply IH. lia.
Qed.

Lemma bitwise_xor_block a b : length a = 16%nat -> length b = 16%nat -> bitwise_xor a b = xor_bytes a b.
Proof. apply (xor_n_xor_bytes 16). Qed.

Lemma take_xor n a b : take n (xor_bytes a b) = xor_bytes (take n a) (take n b).
Proof.
  revert n b; induction a as [|x a IH]; intros [|n] [|y b]; try done. cbn. f_equal. apply IH.
Qed.

Lemma length_padded b : (length b <= 16)%nat -> length (padded_buffer b) = 16%nat.
Proof. intros. unfold padded_buffer. rewrite length_app, repeat_length. lia. Qed.

Lemma bitwise_xor_padded a b :
  length a = 16%nat -> (length b <= 16)%nat ->
  take (length b) (bitwise_xor a (padded_buffer b)) = xor_bytes (take (length b) a) b.
Proof.
  intros Ha Hb. rewrite bitwise_xor_block by (done || by apply length_padded).
  rewrite take_xor. unfold padded_buffer. by rewrite take_app_length.
Qed.

(** ** CCM over lists *)

Section ccm.
Context (key : list Z) (a4 qc : bool) (P pn : list Z) (HP : 32 <= mem_len P).

(** Key block number [c]. *)
Definition ctr_key (c : Z) : list Z := aes128k128d key (construct_ctr_preload a4 qc P pn c).

Fixpoint ctr_full (n : nat) (i : Z) (l : list Z) : list Z :=
  match n with
  | O => []
  | S n => xor_bytes (ctr_key (i + 1)) (take 16 l) ++ ctr_full n (i + 1) (drop 16 l)
  end.

(** Counter mode: block [i] of the data under key block [i + 1]. *)
Definition ctr_crypt (data : list Z) : list Z :=
  let n := (length data / 16)%nat in
  let tl := drop (16 * n) data in
  ctr_full n 0 (take (16 * n) data) ++ xor_bytes (take (length tl) (ctr_key (Z.of_nat n + 1))) tl.

Fixpoint cbc_full (n : nat) (x : list Z) (l : list Z) : list Z :=
  match n with
  | O => x
  | S n => cbc_full n (aes128k128d key (xor_bytes x (take 16 l))) (drop 16 l)
  end.

(** CBC-MAC of nonce block, two header blocks and the zero-padded data. *)
Definition ccm_tag (hdrlen : Z) (data : list Z) : list Z :=
  let x := aes128k128d key (construct_mic_iv qc a4 P (mem_len data) pn) in
  let x := aes128k128d key (xor_bytes x (construct_mic_header1 hdrlen P)) in
  let x := aes128k128d key (xor_bytes x (construct_mic_header2 P a4 qc)) in
  let n := (length data / 16)%nat in
  let x := cbc_full n x (take (16 * n) data) in
  let tl := drop (16 * n) data in
  take 8 (if decide (tl = []) then x else aes128k128d key (xor_bytes x (padded_buffer tl))).

Definition tag_crypt (t : list Z) : list Z := xor_bytes (take 8 (ctr_key 0)) t.

Lemma length_ctr_key c : length (ctr_key c) = 16%nat.
Proof. apply length_aes. Qed.

Lemma length_ctr_full n : forall i l, length l = (16 * n)%nat -> length (ctr_full n i l) = length l.
Proof.
  induction n as [|n IH]; intros i l Hl; cbn [ctr_full]; [by destruct l|].
  rewrite length_app, length_xor_bytes by (rewrite length_ctr_key, length_take; lia).
  rewrite length_ctr_key, IH by (rewrite length_drop; lia). rewrite length_drop. lia.
Qed.

Lemma ctr_full_involutive n : forall i l, length l = (16 * n)%nat -> ctr_full n i (ctr_full n i l) = l.
Proof.
  induction n as [|n IH]; intros i l Hl; cbn [ctr_full]; [by destruct l|].
  assert (length (xor_bytes (ctr_key (i + 1)) (take 16 l)) = 16%nat) as Hx
    by (rewrite length_xor_bytes; rewrite length_ctr_key, ?length_take; lia).
  rewrite take_app_length', drop_app_length' by done.
  rewrite xor_key_involutive by (rewrite length_ctr_key, length_take; lia).
  rewrite IH by (rewrite length_drop; lia). apply take_drop.
Qed.

(** The length of the data in full blocks and a rest. *)
Lemma split_16 (data : list Z) :
  let n := (length data / 16)%nat in
  length (take (16 * n) data) = (16 * n)%nat /\ (length (drop (16 * n) data) = length data mod 16)%nat /\
  (length data mod 16 < 16)%nat.
Proof.
  cbv zeta. pose proof (Nat.div_mod_eq (length data) 16). pose proof (Nat.mod_upper_bound (length data) 16 ltac:(lia)).
  rewrite length_take, length_drop. lia.
Qed.

Lemma length_ctr_crypt data : length (ctr_crypt data) = length data.
Proof.
  unfold ctr_crypt. destruct (split_16 data) as (Hf & Ht & Hm). cbv zeta in *.
  rewrite length_app, length_ctr_full, Hf by done.
  rewrite length_xor_bytes by (rewrite length_take, length_ctr_key; lia).
  rewrite length_take, length_ctr_key, Ht. pose proof (Nat.div_mod_eq (length data) 16). lia.
Qed.

Lemma ctr_crypt_involutive data : ctr_crypt (ctr_crypt data) = data.
Proof.
  pose proof (length_ctr_crypt data) as Hl. unfold ctr_crypt at 1. rewrite Hl.
  destruct (split_16 data) as (Hf & Ht & Hm). cbv zeta in *. unfold ctr_crypt.
  rewrite take_app_length', drop_app_length' by (rewrite length_ctr_full by done; lia).
  rewrite ctr_full_involutive by done.
  rewrite length_xor_bytes by (rewrite length_take, length_ctr_key; lia).
  rewrite length_take, length_ctr_key, Ht.
  replace (Nat.min (length data mod 16) 16) with (length data mod 16)%nat by lia.
  rewrite xor_key_involutive by (rewrite length_take, length_ctr_key, Ht; lia). apply take_drop.
Qed.

Lemma tag_crypt_involutive t : length t = 8%nat -> tag_crypt (tag_crypt t) = t.
Proof. intros. apply xor_key_involutive. rewrite length_take, length_ctr_key. lia. Qed.

Lemma length_tag_crypt t : length t = 8%nat -> length (tag_crypt t) = 8%nat.
Proof. intros. unfold tag_crypt. rewrite length_xor_bytes; rewrite length_take, length_ctr_key; lia. Qed.

(** ** The loops *)

Lemma ctr_key_prefix b c : aes128k128d key (construct_ctr_preload a4 qc (P ++ b) pn c) = ctr_key c.
Proof. by rewrite ctr_preload_prefix. Qed.

Lemma split_block n (l : list Z) : length l = (16 * S n)%nat ->
  exists b l', l = b ++ l' /\ length b = 16%nat /\ length l' = (16 * n)%nat.
Proof.
  intros Hl. exists (take 16 l), (drop 16 l). rewrite take_drop, length_take, length_drop. split; [done|lia].
Qed.

Lemma ctr_blocks_done n : forall i D l post,
  length l = (16 * n)%nat ->
  ctr_blocks key a4 qc n i (P ++ D ++ l ++ post) (mem_len (P ++ D)) pn =
  Some (P ++ D ++ ctr_full n i l ++ post, mem_len (P ++ D ++ l)).
Proof.
  induction n as [|n IH]; intros i D l post Hl; cbn [ctr_blocks ctr_full].
  - destruct l; [|done]. by rewrite app_nil_r.
  - rewrite ctr_key_prefix. destruct (split_block n l Hl) as (b & l' & -> & Ht & Hd).
    rewrite take_app_length', drop_app_length' by done.
    rewrite (app_assoc P D), <- (app_assoc b), rdn_app by (done || (unfold mem_len; lia)).
    cbn [mbind option_bind]. rewrite bitwise_xor_block by (done || apply length_ctr_key).
    assert (length (xor_bytes (ctr_key (i + 1)) b) = 16%nat) as Hx
      by (rewrite length_xor_bytes; rewrite length_ctr_key; lia).
    rewrite wrn_app by (done || lia). cbn [mbind option_bind].
    specialize (IH (i + 1) (D ++ xor_bytes (ctr_key (i + 1)) b) l' post Hd).
    rewrite <- !app_assoc in *.
    assert (mem_len (P ++ D) + 16 = mem_len (P ++ D ++ xor_bytes (ctr_key (i + 1)) b)) as ->
      by (unfold mem_len; rewrite !length_app; lia).
    rewrite IH. f_equal. f_equal. unfold mem_len. rewrite !length_app. lia.
Qed.
Lemma mic_blocks_done n : forall x pre l post,
  length x = 16%nat -> length l = (16 * n)%nat ->
  mic_blocks key n (pre ++ l ++ post) (mem_len pre) x = Some (cbc_full n x l, mem_len (pre ++ l)).
Proof.
  induction n as [|n IH]; intros x pre l post Hx Hl; cbn [mic_blocks cbc_full].
  - destruct l; [|done]. by rewrite app_nil_r.
  - destruct (split_block n l Hl) as (b & l' & -> & Ht & Hd).
    rewrite take_app_length', drop_app_length' by done.
    rewrite <- (app_assoc b), rdn_app by (done || (unfold mem_len; lia)). cbn [mbind option_bind].
    rewrite bitwise_xor_block by done.
    specialize (IH (aes128k128d key (xor_bytes x b)) (pre ++ b) l' post (length_aes _ _) Hd).
    rewrite <- !app_assoc in IH.
    assert (mem_len pre + 16 = mem_len (pre ++ b)) as -> by (unfold mem_len; rewrite length_app; lia).
    done.
Qed.

Lemma div_mod_16 (l : list Z) :
  Z.to_nat (mem_len l / 16) = (length l / 16)%nat /\ mem_len l mod 16 = Z.of_nat (length l mod 16) /\
  mem_len l / 16 = Z.of_nat (length l / 16).
Proof.
  unfold mem_len. change 16 with (Z.of_nat 16). rewrite <- Nat2Z.inj_div, <- Nat2Z.inj_mod, Nat2Z.id. done.
Qed.

Lemma ccm_ctr_done hdrlen data post :
  hdrlen + 8 = mem_len P ->
  ccm_ctr key a4 qc (P ++ data ++ post) hdrlen (mem_len data) pn =
  Some (P ++ ctr_crypt data ++ post, mem_len P + mem_len data).
Proof.
  intros Hh. unfold ccm_ctr. destruct (div_mod_16 data) as (-> & -> & ->). rewrite Hh.
  destruct (split_16 data) as (Hf & Ht & Hm). cbv zeta in *. unfold ctr_crypt.
  pose proof (take_drop (16 * (length data / 16)) data) as E.
  revert Hf Ht E. generalize (take (16 * (length data / 16)) data) (drop (16 * (length data / 16)) data).
  set (n := (length data / 16)%nat) in *. intros fl tl Hf Ht E. rewrite <- E at 1.
  pose proof (ctr_blocks_done n 0 [] fl (tl ++ post) Hf) as EB. cbn [app] in EB.
  rewrite app_nil_r in EB. rewrite <- app_assoc, EB. cbn [mbind option_bind].
  assert (mem_len data = mem_len fl + mem_len tl) as El by (rewrite <- E; apply mem_len_app).
  pose proof (length_ctr_full n 0 fl Hf) as Hlf.
  case_test.
  - rewrite ctr_key_prefix. rewrite (app_assoc P), rdn_app.
    2: { unfold mem_len. rewrite !length_app. lia. }
    2: { unfold mem_len. lia. }
    cbn [mbind option_bind]. rewrite <- Ht, Nat2Z.id, bitwise_xor_padded by (lia || apply length_ctr_key).
    rewrite wrn_app.
    + cbn [mbind option_bind]. rewrite <- !app_assoc. f_equal. f_equal.
      rewrite mem_len_app. unfold mem_len in *. lia.
    + unfold mem_len. rewrite !length_app. lia.
    + rewrite length_xor_bytes; rewrite length_take, length_ctr_key; lia.
  - assert (tl = []) as -> by (apply length_zero_iff_nil; lia). cbn [length take xor_bytes zip_with app].
    rewrite app_nil_r. f_equal. f_equal. rewrite mem_len_app. cbn in El. unfold mem_len in *. cbn in El. lia.
Qed.

Lemma ccm_mic_done hdrlen data post :
  hdrlen + 8 = mem_len P ->
  ccm_mic key a4 qc (P ++ data ++ post) hdrlen (mem_len data) pn =
  Some (ccm_tag hdrlen data, mem_len P + mem_len data).
Proof.
  intros Hh. unfold ccm_mic, ccm_tag. rewrite mic_iv_prefix, mic_header1_prefix, mic_header2_prefix by done.
  destruct (div_mod_16 data) as (-> & -> & _). rewrite Hh.
  assert (length (construct_mic_header1 hdrlen P) = 16%nat) as H1 by reflexivity.
  assert (length (construct_mic_header2 P a4 qc) = 16%nat) as H2 by (destruct a4, qc; reflexivity).
  rewrite !bitwise_xor_block by (done || apply length_aes).
  set (x := aes128k128d key (xor_bytes _ (construct_mic_header2 _ _ _))).
  assert (length x = 16%nat) as Hx by apply length_aes. clearbody x.
  destruct (split_16 data) as (Hf & Ht & Hm). cbv zeta in *.
  pose proof (take_drop (16 * (length data / 16)) data) as E.
  revert Hf Ht E. generalize (take (16 * (length data / 16)) data) (drop (16 * (length data / 16)) data).
  set (n := (length data / 16)%nat) in *. intros fl tl Hf Ht E.
  assert (P ++ data ++ post = P ++ fl ++ tl ++ post) as -> by (by rewrite <- E, <- app_assoc).
  rewrite mic_blocks_done by done. cbn [mbind option_bind].
  assert (mem_len data = mem_len fl + mem_len tl) as El by (rewrite <- E; apply mem_len_app).
  assert (length (cbc_full n x fl) = 16%nat) as Hc.
  { clear - Hx. revert x fl Hx. induction n as [|n IH]; intros x fl Hx; [done|]. cbn. apply IH, length_aes. }
  case_test.
  - rewrite decide_False by (intros ->; change (length []) with 0%nat in Ht; lia).
    rewrite (app_assoc P), rdn_app by (done || (unfold mem_len; lia)). cbn [mbind option_bind].
    rewrite bitwise_xor_block by (done || (apply length_padded; lia)).
    f_equal. f_equal. rewrite mem_len_app. unfold mem_len in *. lia.
  - assert (tl = []) as -> by (apply length_zero_iff_nil; lia). rewrite decide_True by done.
    f_equal. f_equal. rewrite mem_len_app. unfold mem_len in *. cbn in El. lia.
Qed.

Lemma length_ccm_tag hdrlen data : length (ccm_tag hdrlen data) = 8%nat.
Proof.
  unfold ccm_tag. rewrite length_take. case_decide; [|by rewrite length_aes].
  set (x := aes128k128d key (xor_bytes _ (construct_mic_header2 _ _ _))).
  assert (length x = 16%nat) as Hx by apply length_aes. clearbody x.
  enough (length (cbc_full (length data / 16) x (take (16 * (length data / 16)) data)) = 16%nat) as -> by done.
  generalize (length data / 16)%nat (take (16 * (length data / 16)) data). intros n.
  revert x Hx. induction n as [|n IH]; intros x Hx l; [done|]. cbn. apply IH, length_aes.
Qed.

Lemma ccm_ctr_mic_done pre t post at_ :
  length t = 8%nat -> at_ = mem_len (P ++ pre) ->
  ccm_ctr_mic key a4 qc (P ++ pre ++ t ++ post) at_ at_ pn = Some (P ++ pre ++ tag_crypt t ++ post).
Proof.
  intros Ht ->. unfold ccm_ctr_mic. rewrite ctr_key_prefix, (app_assoc P).
  rewrite rdn_app by (done || (unfold mem_len; lia)). cbn [mbind option_bind].
  pose proof (bitwise_xor_padded (ctr_key 0) t (length_ctr_key 0) ltac:(lia)) as E. rewrite Ht in E.
  rewrite E. fold (tag_crypt t). rewrite wrn_app by (done || by rewrite length_tag_crypt).
  by rewrite <- app_assoc.
Qed.
End ccm.

(** ** The two directions *)

(** The packet number in an extended IV. *)
Definition pn_of (iv : list Z) : list Z :=
  [arr_get iv 0; arr_get iv 1; arr_get iv 4; arr_get iv 5; arr_get iv 6; arr_get iv 7].

Lemma pn_vector_done hdr iv post : length iv = 8%nat -> pn_vector (hdr ++ iv ++ post) (mem_len hdr) = Some (pn_of iv).
Proof. intros Hi. unfold pn_vector. by rewrite rdn_app by (done || (unfold mem_len; lia)). Qed.

(** A header of the length the routines were called with: they keep it. *)
Definition header_ok (hdr : list Z) (qc : bool) : Prop :=
  24 <= mem_len hdr /\ qc_hdrlen hdr (mem_len hdr) = (qc, mem_len hdr).

(** Payload and MIC under CCM with this header and IV. *)
Definition ccmp_ctr (key hdr iv : list Z) (qc : bool) : list Z -> list Z :=
  ctr_crypt key (a4_exists (mem_len hdr)) qc (hdr ++ iv) (pn_of iv).
Definition ccmp_tag (key hdr iv : list Z) (qc : bool) (data : list Z) : list Z :=
  tag_crypt key (a4_exists (mem_len hdr)) qc (hdr ++ iv) (pn_of iv)
    (ccm_tag key (a4_exists (mem_len hdr)) qc (hdr ++ iv) (pn_of iv) (mem_len hdr) data).

Lemma guard_32 a b c : 24 <= mem_len a -> length b = 8%nat -> exists x, rdn (a ++ b ++ c) 0 32 = Some x.
Proof.
  intros Ha Hb. unfold rdn. rewrite !mem_len_app. pose proof (mem_len_nonneg c).
  assert (mem_len b = 8) as -> by (unfold mem_len; lia).
  rewrite !(proj2 (Z.leb_le _ _)) by lia. by eexists.
Qed.

(** aes_cipher turns payload and eight bytes of room into CCM cipher text and
    encrypted MIC. *)
Lemma aes_cipher_done key hdr iv qc data room post :
  header_ok hdr qc -> length iv = 8%nat -> length room = 8%nat ->
  aes_cipher key (mem_len hdr) (hdr ++ iv ++ data ++ room ++ post) (mem_len data) =
  Some (_SUCCESS, hdr ++ iv ++ ccmp_ctr key hdr iv qc data ++ ccmp_tag key hdr iv qc data ++ post).
Proof.
  intros [Hh Hq] Hi Hr. unfold aes_cipher.
  destruct (guard_32 hdr iv (data ++ room ++ post) Hh Hi) as [x ->]. cbn [mbind option_bind].
  assert (32 <= mem_len (hdr ++ iv)) as HP by (rewrite mem_len_app; unfold mem_len in *; lia).
  assert (qc_hdrlen (hdr ++ iv ++ data ++ room ++ post) (mem_len hdr) = (qc, mem_len hdr)) as ->.
  { unfold qc_hdrlen, GetFrameType, get_frame_sub_type in *.
    rewrite take_app_le by (unfold mem_len in Hh; lia). exact Hq. }
  rewrite pn_vector_done by done. cbn [mbind option_bind].
  assert (mem_len hdr + 8 = mem_len (hdr ++ iv)) as Eh by (rewrite mem_len_app; unfold mem_len; lia).
  rewrite (app_assoc hdr iv), ccm_mic_done by done. cbn [mbind option_bind].
  rewrite (app_assoc (hdr ++ iv) data), wrn_app by (rewrite ?mem_len_app, ?length_ccm_tag; lia).
  cbn [mbind option_bind]. rewrite <- (app_assoc (hdr ++ iv) data), ccm_ctr_done by done.
  cbn [mbind option_bind]. rewrite Eh, ccm_ctr_mic_done.
  - cbn. by rewrite <- !app_assoc.
  - done.
  - apply length_ccm_tag.
  - rewrite (mem_len_app (hdr ++ iv)). unfold mem_len. by rewrite length_ctr_crypt.
Qed.
