(* ===== verification/CcmpLink.v ===== *)
(** * CCMP: sealed fragments open again, other frames are refused *)

From S2P Require Import Prelude Mem Arc4 SecDefs Wep FragSpec WepSpec Tkip Aes AesSpec Ccmp CcmpSpec.
#[local] Opaque aes128k128d.

(** The frame with its payload decrypted, and the verdict on its MIC. *)
Lemma aes_decipher_done key hdr iv qc c t post message :
  header_ok hdr qc -> length iv = 8%nat -> length t = 8%nat ->
  mem_len hdr + (mem_len c + 8) + 8 <= MAX_MSG_SIZE -> mem_len message = MAX_MSG_SIZE ->
  let d := ccmp_ctr key hdr iv qc c in
  exists message',
    aes_decipher key (mem_len hdr) (hdr ++ iv ++ c ++ t ++ post) (mem_len c + 8) message =
    Some (if decide (t = ccmp_tag key hdr iv qc d) then _SUCCESS else _FAIL,
          hdr ++ iv ++ d ++ t ++ post, message') /\ mem_len message' = MAX_MSG_SIZE.
Proof.
  intros [Hh Hq] Hi Ht Hsz Hm d. unfold aes_decipher, decipher_mic, MAX_MSG_SIZE in *.
  pose proof (mem_len_nonneg c) as Hc.
  assert (u32 (mem_len c + 8 - 8) = mem_len c) as ->.
  { rewrite Z.add_simpl_r. apply wrap_small. unfold in_width. lia. }
  rewrite pn_vector_done by done. cbn [mbind option_bind].
  destruct (guard_32 hdr iv (c ++ t ++ post) Hh Hi) as [x ->]. cbn [mbind option_bind].
  assert (32 <= mem_len (hdr ++ iv)) as HP by (rewrite mem_len_app; unfold mem_len in *; lia).
  assert (qc_hdrlen (hdr ++ iv ++ c ++ t ++ post) (mem_len hdr) = (qc, mem_len hdr)) as ->.
  { unfold qc_hdrlen, GetFrameType, get_frame_sub_type in *.
    rewrite take_app_le by (unfold mem_len in Hh; lia). exact Hq. }
  assert (mem_len hdr + 8 = mem_len (hdr ++ iv)) as Eh by (rewrite mem_len_app; unfold mem_len; lia).
  rewrite (app_assoc hdr iv), ccm_ctr_done by done. cbn [mbind option_bind].
  fold (ccmp_ctr key hdr iv qc c). fold d.
  assert (mem_len d = mem_len c) as Hd by (unfold mem_len, d, ccmp_ctr; by rewrite length_ctr_crypt).
  rewrite (proj2 (Z.leb_le _ _)) by lia.
  assert (mem_len hdr + (mem_len c + 8) + 8 = mem_len (hdr ++ iv ++ d ++ t)) as En.
  { rewrite !mem_len_app in *. unfold mem_len in *. lia. }
  rewrite En.
  assert (rdn ((hdr ++ iv) ++ d ++ t ++ post) 0 (mem_len (hdr ++ iv ++ d ++ t)) = Some (hdr ++ iv ++ d ++ t)) as ->.
  { pose proof (rdn_app [] (hdr ++ iv ++ d ++ t) post 0 _ eq_refl eq_refl) as ER.
    cbn [app] in ER. rewrite <- ER. by rewrite <- !app_assoc. }
  cbn [mbind option_bind].
  pose proof (wrn_app [] (take (length (hdr ++ iv ++ d ++ t)) message) (drop (length (hdr ++ iv ++ d ++ t)) message)
    0 (hdr ++ iv ++ d ++ t) eq_refl) as EW. cbn [app] in EW. rewrite take_drop in EW.
  rewrite EW.
  2: { rewrite length_take. unfold mem_len in *. rewrite !length_app in *. lia. }
  cbn [mbind option_bind]. clear EW. set (rest := drop (length (hdr ++ iv ++ d ++ t)) message).
  rewrite <- !app_assoc, pn_vector_done by done. cbn [mbind option_bind].
  rewrite (app_assoc hdr iv (d ++ t ++ rest)), <- Hd, ccm_mic_done by done. cbn [mbind option_bind].
  set (P := hdr ++ iv) in *. set (tag := ccm_tag _ _ _ _ _ _ _).
  assert (length tag = 8%nat) as Htag by apply length_ccm_tag.
  rewrite (app_assoc P d), wrn_app by (rewrite ?mem_len_app; lia).
  cbn [mbind option_bind]. rewrite <- (app_assoc P d), ccm_ctr_done by done. cbn [mbind option_bind].
  set (e := ctr_crypt _ _ _ _ _ d).
  assert (mem_len e = mem_len d) as He by (unfold mem_len, e; by rewrite length_ctr_crypt).
  assert (mem_len hdr + 8 + (mem_len d + 8) - 8 = mem_len P + mem_len d) as -> by lia.
  rewrite ccm_ctr_mic_done by (done || rewrite mem_len_app; lia). cbn [mbind option_bind].
  assert (hdr ++ iv ++ d ++ t ++ post = (P ++ d) ++ t ++ post) as -> by (unfold P; by rewrite <- !app_assoc).
  rewrite (rdn_app (P ++ d) t post) by (rewrite ?mem_len_app; unfold mem_len in *; lia). cbn [mbind option_bind].
  rewrite (app_assoc P e), (rdn_app (P ++ e)).
  2: { rewrite mem_len_app. lia. }
  2: { unfold mem_len. rewrite length_tag_crypt; done. }
  cbn [mbind option_bind]. eexists. split.
  - unfold ccmp_tag. fold P. fold tag. unfold P. by rewrite <- !app_assoc.
  - rewrite !mem_len_app in *. unfold mem_len in *. rewrite length_tag_crypt by done.
    unfold rest. rewrite length_drop, !length_app. unfold P in *. rewrite length_app in *. lia.
Qed.

(** ** Fragments *)

Definition qc_of (hdr : list Z) : bool := (qc_hdrlen hdr (mem_len hdr)).1.

Definition ccmp_sealed (key : list Z) (f : frag) : frag :=
  let data := fr_data 8 f in
  mk_frag (fr_hdr f) (fr_iv f)
    (ccmp_ctr key (fr_hdr f) (fr_iv f) (qc_of (fr_hdr f)) data ++
     ccmp_tag key (fr_hdr f) (fr_iv f) (qc_of (fr_hdr f)) data) (fr_pad f).

Lemma length_ccmp_ctr key hdr iv qc d : length (ccmp_ctr key hdr iv qc d) = length d.
Proof. unfold ccmp_ctr. apply length_ctr_crypt. Qed.

Lemma length_ccmp_tag key hdr iv qc d : length (ccmp_tag key hdr iv qc d) = 8%nat.
Proof. unfold ccmp_tag. apply length_tag_crypt, length_ccm_tag. Qed.

Lemma ccmp_ctr_involutive key hdr iv qc d : ccmp_ctr key hdr iv qc (ccmp_ctr key hdr iv qc d) = d.
Proof. unfold ccmp_ctr. apply ctr_crypt_involutive. Qed.

#[local] Opaque ccmp_ctr ccmp_tag.

(** Fragments whose header has the length CCMP assumes. *)
Definition ccmp_hdr (f : frag) : Prop := header_ok (fr_hdr f) (qc_of (fr_hdr f)).

Section ccmp.
Context (a : pkt_attrib) (prwskey : list Z).
Hypothesis Hivl : pa_iv_len a = 8.
Hypothesis Hicv : pa_icv_len a = 8.

Lemma ccmp_body f : frag_ok a f ->
  exists room, fr_body f = fr_data 8 f ++ room /\ length room = 8%nat /\
    mem_len (fr_data 8 f) = mem_len (fr_body f) - 8 /\ length (fr_iv f) = 8%nat.
Proof.
  intros Hf. pose proof (fr_body_room a f Hf) as (room & Hb & Hr & _ & Hl). rewrite Hicv in *.
  exists room. split_and!; [done|done|done|]. destruct Hf as [_ Hi _ _ _]. unfold mem_len in Hi. lia.
Qed.

Lemma ccmp_sealed_size f : frag_ok a f -> length (frag_bytes (ccmp_sealed prwskey f)) = length (frag_bytes f).
Proof.
  intros Hf. destruct (ccmp_body f Hf) as (room & Hb & Hr & _ & _).
  unfold frag_bytes. cbn [ccmp_sealed fr_hdr fr_iv fr_body].
  rewrite !length_app, length_ccmp_ctr, length_ccmp_tag.
  apply (f_equal length) in Hb. rewrite length_app in Hb. lia.
Qed.

Lemma aes_frag_done f : frag_ok a f -> ccmp_hdr f ->
  lifts (aes_frag a prwskey) a (fun _ => True) (ccmp_sealed prwskey) f.
Proof.
  intros Hf Hq s pre post _. destruct (ccmp_body f Hf) as (room & Hb & Hr & Hl & Hi).
  exists s. split; [|done]. unfold aes_frag. rewrite Hicv, <- Hl.
  assert (Z.to_nat (mem_len pre) = length pre) as -> by (unfold mem_len; lia).
  rewrite drop_app_length, take_app_length.
  destruct Hf as [Hh _ _ _ Hs]. rewrite wrap_small.
  2: { unfold frag_bytes in Hs. rewrite Hb, !mem_len_app in Hs. pose proof (mem_len_nonneg (fr_data 8 f)).
       pose proof (mem_len_nonneg (fr_hdr f)). pose proof (mem_len_nonneg (fr_iv f)).
       pose proof (mem_len_nonneg room). unfold in_width. lia. }
  rewrite <- Hh. unfold frag_bytes. rewrite Hb, <- !app_assoc.
  rewrite (aes_cipher_done _ _ _ (qc_of (fr_hdr f))) by done. cbn. by rewrite <- !app_assoc.
Qed.
End ccmp.

(** ** Properties *)

Section receive.
Context (st : list Z -> option (list Z)) (sec : security_priv).

(** A received CCMP frame: header, extended IV, encrypted payload, MIC. *)
Definition ccmp_frame (ra : rx_pkt_attrib) (hdr iv c t slack : list Z) : recv_frame :=
  mk_recv_frame ra (mem_len (hdr ++ iv ++ c ++ t)) (hdr ++ iv ++ c ++ t ++ slack).

Lemma aes_decrypt_done ra key hdr iv c t slack message :
  rxa_encrypt ra = _AES_ -> aes_rx_key st sec ra = Some (Some key) ->
  ccmp_hdr (mk_frag hdr iv [] []) -> mem_len hdr = rxa_hdrlen ra -> rxa_iv_len ra = 8 ->
  length iv = 8%nat -> length t = 8%nat -> mem_len message = MAX_MSG_SIZE ->
  mem_len (hdr ++ iv ++ c ++ t) <= MAX_MSG_SIZE ->
  let d := ccmp_ctr key hdr iv (qc_of hdr) c in
  exists message',
    rtw_aes_decrypt st sec message (ccmp_frame ra hdr iv c t slack) =
    Some (if decide (t = ccmp_tag key hdr iv (qc_of hdr) d) then _SUCCESS else _FAIL, message',
          mk_recv_frame ra (mem_len (hdr ++ iv ++ c ++ t)) (hdr ++ iv ++ d ++ t ++ slack)) /\
    mem_len message' = MAX_MSG_SIZE.
Proof.
  intros He Hkey Hq Hh Hil Hi Ht Hm Hsz d. unfold rtw_aes_decrypt, ccmp_frame. cbn [rv_attrib rv_data rv_len].
  rewrite He, Hkey. cbn [Z.eqb _AES_ Pos.eqb mbind option_bind]. rewrite <- Hh, Hil.
  unfold MAX_MSG_SIZE in *.
  assert (u32 (s32 (mem_len (hdr ++ iv ++ c ++ t) - mem_len hdr - 8)) = mem_len c + 8) as ->.
  { rewrite !mem_len_app in *. pose proof (mem_len_nonneg hdr). pose proof (mem_len_nonneg c).
    assert (mem_len iv = 8) as Ei by (unfold mem_len; lia).
    assert (mem_len t = 8) as Et by (unfold mem_len; lia).
    rewrite s32_small by lia. rewrite wrap_small by (unfold in_width; lia). lia. }
  destruct (aes_decipher_done key hdr iv (qc_of hdr) c t slack message) as (m' & E & Hm'); try done.
  { unfold MAX_MSG_SIZE. rewrite !mem_len_app in Hsz.
    assert (mem_len iv = 8) by (unfold mem_len; lia). assert (mem_len t = 8) by (unfold mem_len; lia). lia. }
  fold d in E. rewrite E. cbn. by exists m'.
Qed.
End receive.

(** Every fragment of a transmit buffer is sealed. *)
Lemma aes_encrypt_done sec frag_len x fs desc tail prwskey :
  let a := xf_attrib x in
  xf_buf_addr x <> 0 -> pa_encrypt a = _AES_ -> tx_key sec a = Some prwskey ->
  pa_iv_len a = 8 -> pa_icv_len a = 8 ->
  xf_buf x = desc ++ frags_bytes fs ++ tail -> mem_len desc = hw_hdr_offset x ->
  Forall (frag_ok a) fs -> Forall ccmp_hdr fs ->
  frags_laid a frag_len (xf_buf_addr x) (hw_hdr_offset x) 0 fs ->
  rtw_aes_encrypt sec frag_len x =
    Some (_SUCCESS, mk_xmit_frame a (xf_pkt_offset x) (xf_buf_addr x)
                 (desc ++ frags_bytes (map (ccmp_sealed prwskey) fs) ++ tail)).
Proof.
  intros a Haddr He Hkey Hiv Hicv Hbuf Hdesc Hok Hq Hlaid.
  unfold rtw_aes_encrypt. fold a. rewrite (proj2 (Z.eqb_neq _ _) Haddr), He, Hkey.
  cbn [mbind option_bind Z.eqb _AES_ Pos.eqb].
  rewrite (frags_laid_nr _ _ _ _ _ _ Hlaid), Z.add_0_l, Nat2Z.id, Hbuf, <- Hdesc.
  rewrite <- Hdesc in Hlaid.
  destruct (frag_loop_all (aes_frag a prwskey) a frag_len (xf_buf_addr x) (fun _ => True) (ccmp_sealed prwskey)
    ltac:(intros; by apply (ccmp_sealed_size a)) ltac:(done) fs desc tail 0 tt Hok) as (s' & E & _).
  - apply list.Forall_forall. intros f Hf. apply aes_frag_done; [done|done|..];
      [by eapply (proj1 (list.Forall_forall _ _) Hok)|by eapply (proj1 (list.Forall_forall _ _) Hq)].
  - done.
  - done.
  - by rewrite E.
Qed.

(** C8. CCMP carries every fragment of a buffer laid out as the routine
    walks it: rtw_aes_encrypt succeeds on a transmit buffer in which each
    fragment but the last is frag_len bytes long and the next one starts at
    the next multiple of four ([frags_laid]; always so for one fragment, but
    not for the buffers rtw_xmitframe_coalesce makes of two or more), and
    rtw_aes_decrypt with the same key accepts each sealed fragment of at
    most MAX_MSG_SIZE bytes and restores its payload. The headers have the
    length that CCMP computes from them ([ccmp_hdr]), so four-address QoS
    headers are excluded. *)
Theorem ccmp_roundtrip st sec frag_len x fs desc tail prwskey :
  let a := xf_attrib x in
  xf_buf_addr x <> 0 -> pa_encrypt a = _AES_ -> tx_key sec a = Some prwskey ->
  pa_iv_len a = 8 -> pa_icv_len a = 8 ->
  xf_buf x = desc ++ frags_bytes fs ++ tail -> mem_len desc = hw_hdr_offset x ->
  Forall (frag_ok a) fs -> Forall ccmp_hdr fs ->
  frags_laid a frag_len (xf_buf_addr x) (hw_hdr_offset x) 0 fs ->
  rtw_aes_encrypt sec frag_len x =
    Some (_SUCCESS, mk_xmit_frame a (xf_pkt_offset x) (xf_buf_addr x)
                 (desc ++ frags_bytes (map (ccmp_sealed prwskey) fs) ++ tail)) /\
  forall f ra slack message, f ∈ fs -> rx_agrees a ra -> rxa_encrypt ra = _AES_ ->
    aes_rx_key st sec ra = Some (Some prwskey) -> mem_len message = MAX_MSG_SIZE ->
    mem_len (frag_bytes f) <= MAX_MSG_SIZE ->
    let d := fr_data 8 f in let qc := qc_of (fr_hdr f) in
    exists message', rtw_aes_decrypt st sec message
        (ccmp_frame ra (fr_hdr f) (fr_iv f) (ccmp_ctr prwskey (fr_hdr f) (fr_iv f) qc d)
           (ccmp_tag prwskey (fr_hdr f) (fr_iv f) qc d) slack) =
      Some (_SUCCESS, message', mk_recv_frame ra (mem_len (frag_bytes f))
              (fr_hdr f ++ fr_iv f ++ d ++ ccmp_tag prwskey (fr_hdr f) (fr_iv f) qc d ++ slack)).
Proof.
  intros a Haddr He Hkey Hiv Hicv Hbuf Hdesc Hok Hq Hlaid. split.
  - by apply aes_encrypt_done.
  - intros f ra slack message Hf [Eh Ei] Her Ekey Hm Hsz d qc.
    pose proof (proj1 (list.Forall_forall _ _) Hok f Hf) as Hfok.
    pose proof (proj1 (list.Forall_forall _ _) Hq f Hf) as Hfq.
    pose proof (ccmp_sealed_size a prwskey Hiv Hicv f Hfok) as Hsize.
    destruct (ccmp_body a Hiv Hicv f Hfok) as (room & Hb & Hr & Hl & Hi). destruct Hfok as [Hh _ _ _ _].
    assert (mem_len (frag_bytes f) = mem_len (fr_hdr f ++ fr_iv f ++
      ccmp_ctr prwskey (fr_hdr f) (fr_iv f) qc d ++ ccmp_tag prwskey (fr_hdr f) (fr_iv f) qc d)) as El
      by (unfold mem_len; by rewrite <- Hsize).
    destruct (aes_decrypt_done st sec ra prwskey (fr_hdr f) (fr_iv f)
      (ccmp_ctr prwskey (fr_hdr f) (fr_iv f) qc d) (ccmp_tag prwskey (fr_hdr f) (fr_iv f) qc d) slack message)
      as (m' & E & _); try done; [congruence|lia|by apply length_ccmp_tag|lia|].
    exists m'. fold qc in E. rewrite ccmp_ctr_involutive, decide_True in E by done.
    etrans; [exact E|]. by rewrite El.
Qed.

(** C9. CCMP accepts exactly the authentic frames: for any received frame of
    at most MAX_MSG_SIZE bytes whose header has the length CCMP computes
    from it ([ccmp_hdr]: every header but that of a four-address QoS frame,
    which [qos_four_address_refused] shows is refused), rtw_aes_decrypt
    decrypts the payload in place and returns _SUCCESS if and only if the
    received MIC is the encrypted CBC-MAC of nonce, header and decrypted
    payload. Longer frames overrun an array ([message_overrun]). *)
Theorem ccmp_accepts_exactly st sec ra key hdr iv c t slack message :
  rxa_encrypt ra = _AES_ -> aes_rx_key st sec ra = Some (Some key) ->
  ccmp_hdr (mk_frag hdr iv [] []) -> mem_len hdr = rxa_hdrlen ra -> rxa_iv_len ra = 8 ->
  length iv = 8%nat -> length t = 8%nat -> mem_len message = MAX_MSG_SIZE ->
  mem_len (hdr ++ iv ++ c ++ t) <= MAX_MSG_SIZE ->
  let d := ccmp_ctr key hdr iv (qc_of hdr) c in
  exists res message',
    rtw_aes_decrypt st sec message (ccmp_frame ra hdr iv c t slack) =
      Some (res, message', mk_recv_frame ra (mem_len (hdr ++ iv ++ c ++ t)) (hdr ++ iv ++ d ++ t ++ slack)) /\
    (res = _SUCCESS <-> t = ccmp_tag key hdr iv (qc_of hdr) d).
Proof.
  intros He Hkey Hq Hh Hil Hi Ht Hm Hsz d.
  destruct (aes_decrypt_done st sec ra key hdr iv c t slack message) as (m' & E & _); try done.
  eexists _, m'. split; [exact E|]. fold d. destruct (decide _) as [Et|Et]; (split; [|tauto]); done.
Qed.

(** ** Where it fails *)

Lemma mic_blocks_index key n : forall msg i x y j,
  length x = 16%nat -> mic_blocks key n msg i x = Some (y, j) -> j = i + 16 * Z.of_nat n /\ length y = 16%nat.
Proof.
  induction n as [|n IH]; intros msg i x y j Hx H; cbn [mic_blocks] in H.
  - injection H as <- <-. split; [lia|done].
  - apply bind_Some in H as (b & _ & H). apply IH in H as [-> Hy]; [|apply length_aes]. split; [lia|done].
Qed.

Lemma ccm_mic_index key a4 qc msg hdrlen plen pn mic i :
  0 <= plen -> ccm_mic key a4 qc msg hdrlen plen pn = Some (mic, i) -> i = hdrlen + 8 + plen /\ length mic = 8%nat.
Proof.
  intros Hp H. unfold ccm_mic in H. apply bind_Some in H as ([y j] & Hb & H).
  apply mic_blocks_index in Hb as [-> Hy]; [|apply length_aes].
  rewrite Z2Nat.id in H by (apply Z.div_pos; lia). pose proof (Z.div_mod plen 16 ltac:(lia)).
  pose proof (Z.mod_pos_bound plen 16 ltac:(lia)). destruct (Z.ltb_spec 0 (plen mod 16)).
  - apply bind_Some in H as (b & _ & H). apply (inj Some), pair_equal_spec in H as [<- <-].
    split; [lia|]. rewrite length_take, length_aes. done.
  - apply (inj Some), pair_equal_spec in H as [<- <-]. split; [lia|]. rewrite length_take, Hy. done.
Qed.

Lemma qc_hdrlen_ge frame hdrlen qc h : qc_hdrlen frame hdrlen = (qc, h) -> hdrlen <= h.
Proof.
  unfold qc_hdrlen. intros H.
  repeat match type of H with context [if ?b then _ else _] => destruct b end; injection H as <- <-; lia.
Qed.

(** Frames that do not fit MAX_MSG_SIZE overrun the static array message:
    aes_decipher skips the copy for them but still works on message, so for
    every frame longer than the array it leaves the array's bounds. *)
Theorem message_overrun key hdrlen pframe plen message :
  mem_len message = MAX_MSG_SIZE -> 8 <= plen < 2 ^ 32 -> MAX_MSG_SIZE < hdrlen + plen + 8 ->
  aes_decipher key hdrlen pframe plen message = None.
Proof.
  intros Hm Hp Hsz. unfold aes_decipher, decipher_mic. rewrite wrap_small by (unfold in_width; lia).
  destruct (pn_vector pframe hdrlen) as [pn|]; [|done]. cbn [mbind option_bind].
  destruct (rdn pframe 0 32); [|done]. cbn [mbind option_bind].
  destruct (qc_hdrlen pframe hdrlen) as [qc h] eqn:Eq. apply qc_hdrlen_ge in Eq.
  destruct (ccm_ctr _ _ _ pframe _ _ _) as [[f i]|]; [|done]. cbn [mbind option_bind].
  rewrite (proj2 (Z.leb_gt _ _)) by lia. cbn [mbind option_bind].
  destruct (pn_vector f h) as [pn'|]; [|done]. cbn [mbind option_bind].
  destruct (ccm_mic _ _ _ message _ _ _) as [[mic i']|] eqn:Em; [|done]. cbn [mbind option_bind].
  apply ccm_mic_index in Em as [-> Hmic]; [|lia].
  unfold wrn. rewrite Hm, (proj2 (Z.leb_gt (_ + _) _)); [by rewrite andb_false_r|].
  unfold mem_len. rewrite Hmic. lia.
Qed.

Definition qos_a4_hdr : list Z := 0x88 :: 0x03 :: repeat 2 28 ++ [5; 0].
Definition demo_ccmp_iv : list Z := [1; 0; 0; 0x20; 2; 3; 4; 5].

(** Encrypt, then decrypt what was sent: the verdict. *)
Definition ccmp_loop (hdrlen : Z) (hdr data : list Z) : option Z :=
  '(_, f) ← aes_cipher sec_key hdrlen (hdr ++ demo_ccmp_iv ++ data ++ repeat 0 16) (mem_len data);
  '(res, _, _) ← aes_decipher sec_key hdrlen f (mem_len data + 8) (repeat 0 2048);
  Some res.

(** Four-address QoS frames cannot be received: both routines lengthen
    their 32-byte header by two, which already includes the QoS field, and
    aes_decipher takes the packet number from the unadjusted place, so the
    frame aes_cipher made is refused, while a three-address frame passes. *)
Theorem qos_four_address_refused :
  ccmp_loop 32 qos_a4_hdr [1; 2; 3; 4] = Some _FAIL /\ ccmp_loop 24 sec_hdr [1; 2; 3; 4] = Some _SUCCESS.
Proof. split; by vm_compute. Qed.

Definition demo_rx_key (_ : list Z) : option (list Z) := Some sec_key.

Lemma ccmp_roundtrip_witness :
  rtw_aes_encrypt sec_priv (sec_frag_len 8 8) (sec_xmit _AES_ 8 8) =
    Some (_SUCCESS, mk_xmit_frame (xf_attrib (sec_xmit _AES_ 8 8)) 0 4096
      (sec_desc ++ frags_bytes (map (ccmp_sealed sec_key) (sec_frags 8 8)) ++ [])).
Proof.
  refine (proj1 (ccmp_roundtrip demo_rx_key sec_priv (sec_frag_len 8 8) (sec_xmit _AES_ 8 8)
    (sec_frags 8 8) sec_desc [] sec_key _ _ _ _ _ _ _ _ _ _)); try done.
  - apply sec_frags_ok; tauto.
  - repeat constructor; by vm_compute.
Defined.

Lemma ccmp_accepts_exactly_witness :
  exists res message',
    rtw_aes_decrypt demo_rx_key sec_priv (repeat 0 2048)
      (ccmp_frame (sec_rx_attrib _AES_ 8) sec_hdr demo_ccmp_iv [1; 2; 3] [4; 5; 6; 7; 8; 9; 10; 11] []) =
      Some (res, message', mk_recv_frame (sec_rx_attrib _AES_ 8) 43
        (sec_hdr ++ demo_ccmp_iv ++ ccmp_ctr sec_key sec_hdr demo_ccmp_iv (qc_of sec_hdr) [1; 2; 3] ++
         [4; 5; 6; 7; 8; 9; 10; 11] ++ [])) /\
    (res = _SUCCESS <-> [4; 5; 6; 7; 8; 9; 10; 11] =
       ccmp_tag sec_key sec_hdr demo_ccmp_iv (qc_of sec_hdr)
         (ccmp_ctr sec_key sec_hdr demo_ccmp_iv (qc_of sec_hdr) [1; 2; 3])).
Proof.
  apply (ccmp_accepts_exactly demo_rx_key sec_priv (sec_rx_attrib _AES_ 8) sec_key sec_hdr demo_ccmp_iv
    [1; 2; 3] [4; 5; 6; 7; 8; 9; 10; 11] [] (repeat 0 2048)); done.
Defined.

Lemma message_overrun_witness :
  aes_decipher sec_key 24 (repeat 0 3000) 2100 (repeat 0 2048) = None.
Proof. apply message_overrun; [by vm_compute|lia|by vm_compute]. Defined.
