(* ===== verification/Reorder.v ===== *)
(** * The block-ack reorder window (core/rtw_recv.c)

    [check_indicate_seq], [enqueue_reorder_recvframe],
    [recv_indicatepkts_in_order], [recv_indicatepkt_reorder] and
    [rtw_reordering_ctrl_timeout_handler], built with CONFIG_80211N_HT and
    CONFIG_RECV_REORDERING_CTRL.  Both entry points work under the queue's lock;
    only the cancellation of the timer comes after the unlock, so it is a step
    of its own: [recv_indicatepkt_reorder] is [reorder_locked] followed by
    [cancel_reorder_timer], and [ro_step] lets other steps come between. *)

From S2P Require Import Prelude SecDefs.
Definition RX_SUCCESS : Z := 1.
Definition RX_FAIL : Z := 0.

(** Comparison of 12-bit sequence numbers. *)
Definition SN_LESS (a b : Z) : bool := negb (Z.land (a - b) 0x800 =? 0).
Definition SN_EQUAL (a b : Z) : bool := a =? b.

(** A received MPDU: sequence number, QoS flag, whether it has a reorder
    control block, and its identity. *)
Record rx_mpdu := mk_rx_mpdu { mp_seq : Z; mp_qos : bool; mp_ctrl : bool; mp_id : Z }.

(** [struct recv_reorder_ctrl]; [ro_timer] tells whether
    [reordering_ctrl_timer] is armed. *)
Record recv_reorder_ctrl := mk_reorder_ctrl {
  ro_enable : bool; indicate_seq : Z; wsize_b : Z; pending : list rx_mpdu;
  bReorderWaiting : bool; ro_timer : bool }.

#[export] Instance eta_reorder_ctrl : Eta recv_reorder_ctrl := fun r =>
  mk_reorder_ctrl (ro_enable r) (indicate_seq r) (wsize_b r) (pending r) (bReorderWaiting r) (ro_timer r).

(** The counters of [struct recv_priv] this code moves. *)
Record rx_counters := mk_rx_counters {
  window_shift_cnt : Z; ampdu_drop_count : Z; forced_indicate_count : Z;
  ampdu_loss_count : Z; rx_drop : Z; rx_drop_count : Z }.

#[export] Instance eta_rx_counters : Eta rx_counters := fun r =>
  mk_rx_counters (window_shift_cnt r) (ampdu_drop_count r) (forced_indicate_count r)
    (ampdu_loss_count r) (rx_drop r) (rx_drop_count r).

(** The control block, the counters and the MPDUs handed to
    [recv_process_mpdu] so far. *)
Record reorder_state := mk_reorder_state {
  rs_ctrl : recv_reorder_ctrl; rs_cnt : rx_counters; rs_indicated : list rx_mpdu }.

#[export] Instance eta_reorder_state : Eta reorder_state := fun r =>
  mk_reorder_state (rs_ctrl r) (rs_cnt r) (rs_indicated r).

(** The result, the control block and whether the window jumped. *)
Definition check_indicate_seq (c : recv_reorder_ctrl) (seq_num : Z) : bool * recv_reorder_ctrl * bool :=
  let wsize := wsize_b c in
  let wend := Z.land (u16 (indicate_seq c + wsize - 1)) 0xfff in
  let c := if indicate_seq c =? 0xffff then c <| indicate_seq := seq_num |> else c in
  if SN_LESS seq_num (indicate_seq c) then (false, c, false)
  else if SN_EQUAL seq_num (indicate_seq c) then
    (true, c <| indicate_seq := Z.land (indicate_seq c + 1) 0xfff |>, false)
  else if SN_LESS wend seq_num then
    let start := if wsize - 1 <=? seq_num then seq_num + 1 - wsize
                 else 0xfff - (wsize - (seq_num + 1)) + 1 in
    (true, c <| indicate_seq := u16 start |>, true)
  else (true, c, false).

(** Insert behind all smaller sequence numbers; [None] for a duplicate. *)
Fixpoint enqueue_reorder_recvframe (q : list rx_mpdu) (f : rx_mpdu) : option (list rx_mpdu) :=
  match q with
  | [] => Some [f]
  | g :: q' =>
      if SN_LESS (mp_seq g) (mp_seq f) then cons g <$> enqueue_reorder_recvframe q' f
      else if SN_EQUAL (mp_seq g) (mp_seq f) then None
      else Some (f :: q)
  end.

(** [prev_seq] and [current_seq] are widened to 64 bits. *)
Definition recv_indicatepkts_pkt_loss_cnt (k : rx_counters) (prev_seq current_seq : Z) : rx_counters :=
  let n := if current_seq <? prev_seq then u64 (4096 + current_seq - prev_seq) else u64 (current_seq - prev_seq) in
  k <| ampdu_loss_count := u64 (ampdu_loss_count k + n) |> <| rx_drop := u64 (rx_drop k + n) |>.

Section reorder.
(** Whether [recv_process_mpdu] succeeds on an MPDU. *)
Context (recv_process_mpdu : rx_mpdu -> bool).

(** The loop of [recv_indicatepkts_in_order] over the pending queue: new
    window start, what stays queued, what was indicated, [bPktInBuf]. *)
Fixpoint indicate_loop (q : list rx_mpdu) (iseq : Z) (k : rx_counters)
    : Z * list rx_mpdu * list rx_mpdu * rx_counters * bool :=
  match q with
  | [] => (iseq, [], [], k, false)
  | f :: q' =>
      if negb (SN_LESS iseq (mp_seq f)) then
        let iseq := if SN_EQUAL iseq (mp_seq f) then Z.land (iseq + 1) 0xfff else iseq in
        let k := if recv_process_mpdu f then k else k <| rx_drop_count := u64 (rx_drop_count k + 1) |> in
        let '(iseq, rest, out, k, inbuf) := indicate_loop q' iseq k in
        (iseq, rest, f :: out, k, inbuf)
      else (iseq, q, [], k, true)
  end.

Definition recv_indicatepkts_in_order (s : reorder_state) (bforced : bool) : bool * reorder_state :=
  let run (s : reorder_state) :=
    let c := rs_ctrl s in
    let '(iseq, rest, out, k, inbuf) := indicate_loop (pending c) (indicate_seq c) (rs_cnt s) in
    (inbuf, mk_reorder_state (c <| indicate_seq := iseq |> <| pending := rest |>) k (rs_indicated s ++ out)) in
  if bforced then
    let k := rs_cnt s in
    let s := s <| rs_cnt := k <| forced_indicate_count := u64 (forced_indicate_count k + 1) |> |> in
    match pending (rs_ctrl s) with
    | [] => (true, s)
    | f :: _ =>
        let c := rs_ctrl s in
        let s := s <| rs_cnt := recv_indicatepkts_pkt_loss_cnt (rs_cnt s) (indicate_seq c) (mp_seq f) |>
                   <| rs_ctrl := c <| indicate_seq := mp_seq f |> |> in
        run s
    end
  else run s.

(** Up to the unlock: verdict, whether the timer is cancelled afterwards. *)
Definition reorder_locked (s : reorder_state) (f : rx_mpdu) : Z * bool * reorder_state :=
  if negb (mp_qos f) || negb (mp_ctrl f) || negb (ro_enable (rs_ctrl s)) then (RX_SUCCESS, false, s)
  else
    let '(ok, c, jumped) := check_indicate_seq (rs_ctrl s) (mp_seq f) in
    let k := rs_cnt s in
    let k := if jumped then k <| window_shift_cnt := u64 (window_shift_cnt k + 1) |> else k in
    if negb ok then
      (RX_FAIL, false, s <| rs_ctrl := c |> <| rs_cnt := k <| ampdu_drop_count := u64 (ampdu_drop_count k + 1) |> |>)
    else
      match enqueue_reorder_recvframe (pending c) f with
      | None => (RX_FAIL, false, s <| rs_ctrl := c |> <| rs_cnt := k |>)
      | Some q =>
          let '(inbuf, s) := recv_indicatepkts_in_order (s <| rs_ctrl := c <| pending := q |> |> <| rs_cnt := k |>) false in
          let c := rs_ctrl s in
          let c := if inbuf then
                     if negb (bReorderWaiting c) then c <| bReorderWaiting := true |> <| ro_timer := true |> else c
                   else c <| bReorderWaiting := false |> in
          (RTW_RX_HANDLED, negb inbuf, s <| rs_ctrl := c |>)
      end.

Definition cancel_reorder_timer (s : reorder_state) : reorder_state :=
  s <| rs_ctrl := (rs_ctrl s) <| ro_timer := false |> |>.

Definition recv_indicatepkt_reorder (s : reorder_state) (f : rx_mpdu) : Z * reorder_state :=
  let '(r, cancel, s) := reorder_locked s f in (r, if cancel then cancel_reorder_timer s else s).

Definition rtw_reordering_ctrl_timeout_handler (cannot_run : bool) (s : reorder_state) : reorder_state :=
  if cannot_run then s
  else
    let s := s <| rs_ctrl := (rs_ctrl s) <| bReorderWaiting := false |> |> in
    let '(inbuf, s) := recv_indicatepkts_in_order s true in
    if inbuf then s <| rs_ctrl := (rs_ctrl s) <| ro_timer := true |> |> else s.

(** A timer that expires is not armed any more when its handler runs. *)
Definition reorder_timeout (s : reorder_state) : reorder_state :=
  rtw_reordering_ctrl_timeout_handler false (cancel_reorder_timer s).

(** ** Arrivals, cancellations and timeouts, interleaved *)

(** [ri_cancels]: arrivals between the unlock and the cancellation;
    [ri_fired]: the timer expired, its handler has not got the lock yet. *)
Record reorder_sys := mk_reorder_sys { ri_state : reorder_state; ri_cancels : nat; ri_fired : bool }.

Inductive ro_event := Arrive (f : rx_mpdu) | Cancel | Expire | Handler.

(** [None] when the event cannot happen.  The cancellation waits for a
    running handler (del_timer_sync).  [serial]: one receive context, so the
    next arrival comes after the cancellation. *)
Definition ro_step (serial : bool) (x : reorder_sys) (e : ro_event) : option reorder_sys :=
  let s := ri_state x in
  match e with
  | Arrive f =>
      if serial && negb (ri_cancels x =? 0)%nat then None
      else let '(_, cancel, s') := reorder_locked s f in
           Some (mk_reorder_sys s' (if cancel then S (ri_cancels x) else ri_cancels x) (ri_fired x))
  | Cancel =>
      match ri_cancels x with
      | S n => if ri_fired x then None else Some (mk_reorder_sys (cancel_reorder_timer s) n false)
      | O => None
      end
  | Expire => if ro_timer (rs_ctrl s) && negb (ri_fired x)
              then Some (mk_reorder_sys (cancel_reorder_timer s) (ri_cancels x) true) else None
  | Handler => if ri_fired x
               then Some (mk_reorder_sys (rtw_reordering_ctrl_timeout_handler false s) (ri_cancels x) false) else None
  end.

Fixpoint ro_run (serial : bool) (x : reorder_sys) (es : list ro_event) : option reorder_sys :=
  match es with [] => Some x | e :: es => ro_step serial x e ≫= fun x => ro_run serial x es end.
End reorder.

(** ** The same window over unbounded sequence numbers *)

Section spec.
Context (abs : rx_mpdu -> Z).

Record abs_win := mk_abs_win { aw_start : option Z; aw_queue : list rx_mpdu }.

Fixpoint abs_insert (q : list rx_mpdu) (f : rx_mpdu) : option (list rx_mpdu) :=
  match q with
  | [] => Some [f]
  | g :: q' =>
      if abs g <? abs f then cons g <$> abs_insert q' f
      else if abs g =? abs f then None else Some (f :: q)
  end.

(** Hand up the head of the queue while it lies before or at the window start. *)
Fixpoint abs_flush (q : list rx_mpdu) (w : Z) : Z * list rx_mpdu * list rx_mpdu :=
  match q with
  | [] => (w, [], [])
  | f :: q' =>
      if abs f <=? w then
        let '(w, rest, out) := abs_flush q' (if abs f =? w then w + 1 else w) in (w, rest, f :: out)
      else (w, q, [])
  end.

(** Where the window starts once [f] has been seen; [None] for a late frame. *)
Definition abs_shift (wsize : Z) (w : option Z) (f : rx_mpdu) : option Z :=
  match w with
  | None => Some (abs f + 1)
  | Some w =>
      if abs f <? w then None
      else if abs f =? w then Some (w + 1)
      else if w + wsize - 1 <? abs f then Some (abs f + 1 - wsize) else Some w
  end.

(** Arrival: verdict, window, frames handed up. *)
Definition abs_arrive (wsize : Z) (a : abs_win) (f : rx_mpdu) : Z * abs_win * list rx_mpdu :=
  match abs_shift wsize (aw_start a) f with
  | None => (RX_FAIL, a, [])
  | Some w =>
      match abs_insert (aw_queue a) f with
      | None => (RX_FAIL, mk_abs_win (Some w) (aw_queue a), [])
      | Some q => let '(w, q, out) := abs_flush q w in (RTW_RX_HANDLED, mk_abs_win (Some w) q, out)
      end
  end.

(** Timeout: the window jumps to the first queued frame. *)
Definition abs_timeout (a : abs_win) : abs_win * list rx_mpdu :=
  match aw_queue a with
  | [] => (a, [])
  | f :: q => let '(w, q, out) := abs_flush (f :: q) (abs f) in (mk_abs_win (Some w) q, out)
  end.
End spec.
