(* ===== verification/ReorderSpec.v ===== *)
(** * The reorder window on 12-bit numbers is the window on the integers

    Modular comparison agrees with comparison of unbounded numbers as long as
    a frame is less than half the number space away from the window start. *)

From S2P Require Import Prelude SecDefs Mem Reorder.
From Stdlib Require Import Sorting.Sorted.

(** ** Modular comparison *)

Lemma testbit_11 y : 0 <= y < 4096 -> Z.testbit y 11 = (2048 <=? y).
Proof.
  intros Hy. destruct (Z.leb_spec 2048 y).
  - apply Z.testbit_true; [lia|]. change (2 ^ 11) with 2048.
    rewrite <- (Z.div_unique y 2048 1 (y - 2048)); (done || lia).
  - apply Z.testbit_false; [lia|]. change (2 ^ 11) with 2048. rewrite Z.div_small by lia. done.
Qed.

Lemma SN_LESS_spec A B : - 2048 <= A - B < 2048 -> SN_LESS (A mod 4096) (B mod 4096) = (A <? B).
Proof.
  intros H. unfold SN_LESS. change 2048 with (2 ^ 11) at 1. rewrite land_bit by lia.
  rewrite <- (Z.mod_pow2_bits_low _ 12) by lia. change (2 ^ 12) with 4096.
  rewrite <- Zminus_mod. rewrite testbit_11 by (apply Z.mod_pos_bound; lia).
  destruct (Z.ltb_spec A B).
  - assert ((A - B) mod 4096 = A - B + 4096) as ->
      by (symmetry; apply Z.mod_unique with (-1); lia). apply Z.leb_le. lia.
  - rewrite Z.mod_small by lia. apply Z.leb_gt. lia.
Qed.

Lemma SN_EQUAL_spec A B : - 4096 < A - B < 4096 -> SN_EQUAL (A mod 4096) (B mod 4096) = (A =? B).
Proof.
  intros H. unfold SN_EQUAL. destruct (Z.eqb_spec A B) as [->|Hne]; [apply Z.eqb_refl|].
  apply Z.eqb_neq. intros E. apply Hne.
  pose proof (Z.div_mod A 4096 ltac:(lia)). pose proof (Z.div_mod B 4096 ltac:(lia)). nia.
Qed.

Lemma land_fff x : Z.land x 0xfff = x mod 4096.
Proof. change 0xfff with (Z.ones 12). by rewrite Z.land_ones. Qed.

Lemma succ_mod w : Z.land (w mod 4096 + 1) 0xfff = (w + 1) mod 4096.
Proof. rewrite land_fff, Zplus_mod_idemp_l. done. Qed.

Section sim.
Context (abs : rx_mpdu -> Z) (mpdu_ok : rx_mpdu -> bool) (wsize : Z).

(** A frame's number is the low 12 bits of its unbounded number. *)
Definition numbered (f : rx_mpdu) : Prop := mp_seq f = abs f mod 4096.

Definition ascending (q : list rx_mpdu) : Prop := StronglySorted (fun f g => abs f < abs g) q.

(** ** Queue operations *)

Lemma enqueue_spec q f :
  numbered f -> Forall numbered q -> Forall (fun g => - 2048 <= abs g - abs f < 2048) q ->
  enqueue_reorder_recvframe q f = abs_insert abs q f.
Proof.
  intros Hf Hq Hd. induction q as [|g q IH]; [done|]. inversion_clear Hq as [|?? Hg Hq'].
  inversion_clear Hd as [|?? Hgd Hd']. cbn [enqueue_reorder_recvframe abs_insert].
  rewrite Hf, Hg, SN_LESS_spec, SN_EQUAL_spec by lia. by rewrite IH.
Qed.

Lemma insert_perm q f q' : abs_insert abs q f = Some q' -> q' ≡ₚ f :: q.
Proof.
  revert q'; induction q as [|g q IH]; intros q'; cbn [abs_insert]; [by intros [= <-]|].
  destruct (abs g <? abs f).
  - intros H. apply fmap_Some in H as (r & Hr & ->). rewrite (IH r Hr). apply Permutation_swap.
  - destruct (abs g =? abs f); [done|]. by intros [= <-].
Qed.

Lemma insert_ascending q f q' : ascending q -> abs_insert abs q f = Some q' -> ascending q'.
Proof.
  unfold ascending. revert q'; induction q as [|g q IH]; intros q' Hs; cbn [abs_insert].
  - intros [= <-]. by repeat constructor.
  - inversion_clear Hs as [|?? Hs' Hg]. destruct (Z.ltb_spec (abs g) (abs f)) as [Hlt|Hle].
    + intros H. apply fmap_Some in H as (r & Hr & ->). constructor; [by apply IH|].
      rewrite (insert_perm q f r Hr). by constructor.
    + destruct (Z.eqb_spec (abs g) (abs f)) as [|Hne]; [done|]. intros [= <-].
      constructor; [by constructor|]. constructor; [lia|].
      apply (list.Forall_impl _ _ _ Hg). cbn. lia.
Qed.

(** What the flush does: it splits the queue, hands up what lies before the
    final window start and nothing else. *)
Lemma flush_spec q : forall w w' rest out,
  ascending q -> abs_flush abs q w = (w', rest, out) ->
  q = out ++ rest /\ w <= w' /\ Forall (fun f => abs f < w') out /\ Forall (fun f => w' < abs f) rest.
Proof.
  unfold ascending. induction q as [|f q IH]; intros w w' rest out Hs H; cbn [abs_flush] in H.
  - injection H as <- <- <-. split_and!; (done || lia).
  - inversion_clear Hs as [|?? Hs' Hf]. destruct (Z.leb_spec (abs f) w) as [Hle|Hgt].
    + destruct (abs_flush abs q _) as [[w1 r1] o1] eqn:E. injection H as <- <- <-.
      destruct (IH _ _ _ _ Hs' E) as (-> & Hw & Ho & Hr). split; [done|].
      destruct (Z.eqb_spec (abs f) w); (split; [lia|split; [constructor; [lia|done]|done]]).
    + injection H as <- <- <-. split_and!; [done|lia|done|]. constructor; [lia|].
      apply (list.Forall_impl _ _ _ Hf). cbn. lia.
Qed.

Lemma flush_sim q : forall w k,
  ascending q -> Forall numbered q -> Forall (fun f => - 2048 <= w - abs f < 2048) q ->
  exists k' inbuf, indicate_loop mpdu_ok q (w mod 4096) k =
    (let '(w', rest, out) := abs_flush abs q w in (w' mod 4096, rest, out, k', inbuf)) /\
    (inbuf = true <-> (abs_flush abs q w).1.2 <> []).
Proof.
  unfold ascending. induction q as [|f q IH]; intros w k Hs Hn Hd; cbn [indicate_loop abs_flush].
  - exists k, false. split; [done|]. cbn. split; [done|]. by intros [].
  - inversion_clear Hs as [|?? Hs' Hf]. inversion_clear Hn as [|?? Hnf Hn']. inversion_clear Hd as [|?? Hdf Hd'].
    rewrite Hnf, SN_LESS_spec, SN_EQUAL_spec by lia.
    destruct (Z.leb_spec (abs f) w) as [Hle|Hgt].
    + rewrite (proj2 (Z.ltb_ge _ _)) by lia. cbn [negb].
      set (k1 := if mpdu_ok f then _ else _).
      assert ((if w =? abs f then Z.land (w mod 4096 + 1) 4095 else w mod 4096) =
              (if abs f =? w then w + 1 else w) mod 4096) as ->
        by (rewrite (Z.eqb_sym (abs f)), succ_mod; by destruct (w =? abs f)).
      destruct (IH (if abs f =? w then w + 1 else w) k1 Hs' Hn') as (k' & b & E & Hb).
      { apply list.Forall_forall. intros g Hg. rewrite list.Forall_forall in Hf, Hd'.
        specialize (Hf g Hg). specialize (Hd' g Hg). cbn in Hf. destruct (Z.eqb_spec (abs f) w); lia. }
      rewrite E. destruct (abs_flush abs q _) as [[w1 r1] o1]. exists k', b. done.
    + rewrite (proj2 (Z.ltb_lt _ _)) by lia. cbn [negb]. exists k, true. done.
Qed.
Lemma insert_none q f : abs_insert abs q f = None -> exists g, g ∈ q /\ abs g = abs f.
Proof.
  induction q as [|g q IH]; cbn [abs_insert]; [done|]. destruct (abs g <? abs f).
  - intros H. destruct (abs_insert abs q f); [done|]. destruct (IH eq_refl) as (h & Hh & E).
    exists h. split; [by right|done].
  - destruct (Z.eqb_spec (abs g) (abs f)); [|done]. intros _. exists g. split; [by left|done].
Qed.

(** ** The relation and the invariant *)

Definition win_of (w : option Z) : Z := match w with None => 0xffff | Some w => w mod 4096 end.

Record related (s : reorder_state) (a : abs_win) : Prop := {
  rel_enable : ro_enable (rs_ctrl s) = true;
  rel_size : wsize_b (rs_ctrl s) = wsize;
  rel_seq : indicate_seq (rs_ctrl s) = win_of (aw_start a);
  rel_queue : pending (rs_ctrl s) = aw_queue a;
  rel_num : Forall numbered (aw_queue a) }.

(** What waits lies strictly inside the window, in order. *)
Record win_inv (a : abs_win) : Prop := {
  wi_sorted : ascending (aw_queue a);
  wi_none : aw_start a = None -> aw_queue a = [];
  wi_range : forall w, aw_start a = Some w -> Forall (fun f => w < abs f <= w + wsize - 1) (aw_queue a) }.

(** A frame the window can place: under half the number space away. *)
Record horizon (a : abs_win) (f : rx_mpdu) : Prop := {
  hz_num : numbered f;
  hz_qos : mp_qos f = true;
  hz_ctrl : mp_ctrl f = true;
  hz_range : forall w, aw_start a = Some w -> w - 2048 <= abs f < w + 2048 }.

Hypothesis wsize_ok : 1 <= wsize <= 255.

Lemma check_spec c a f :
  indicate_seq c = win_of (aw_start a) -> wsize_b c = wsize -> horizon a f ->
  exists j, check_indicate_seq c (mp_seq f) =
    match abs_shift abs wsize (aw_start a) f with
    | None => (false, c, j)
    | Some w => (true, c <| indicate_seq := w mod 4096 |>, j)
    end.
Proof.
  intros Hi Hw [Hn _ _ Hz]. destruct c as [en sq ws q wt tm]. cbn [indicate_seq wsize_b] in *. subst sq ws.
  unfold check_indicate_seq. cbn [indicate_seq wsize_b]. rewrite Hn.
  destruct (aw_start a) as [w|]; cbn [win_of abs_shift].
  - specialize (Hz w eq_refl). pose proof (Z.mod_pos_bound w 4096 ltac:(lia)) as Hwm.
    rewrite (proj2 (Z.eqb_neq (w mod 4096) 65535)) by lia. cbn [indicate_seq].
    rewrite SN_LESS_spec, SN_EQUAL_spec by lia.
    destruct (Z.ltb_spec (abs f) w) as [Hlt|Hge]; [by eexists|].
    destruct (Z.eqb_spec (abs f) w) as [He|Hne]; [rewrite succ_mod; by eexists|].
    rewrite (wrap_small 16) by width_lia. rewrite land_fff.
    replace (w mod 4096 + wsize - 1) with (w mod 4096 + (wsize - 1)) by lia.
    rewrite Zplus_mod_idemp_l, SN_LESS_spec by lia.
    replace (w + (wsize - 1)) with (w + wsize - 1) by lia.
    destruct (Z.ltb_spec (w + wsize - 1) (abs f)); [|by eexists].
    exists true. do 2 f_equal. change (?x <| indicate_seq := ?v |>) with (mk_reorder_ctrl en v wsize q wt tm).
    f_equal. pose proof (Z.mod_pos_bound (abs f) 4096 ltac:(lia)) as Hm.
    assert ((abs f + 1 - wsize) mod 4096 = (abs f mod 4096 + (1 - wsize)) mod 4096) as ->
      by (rewrite Zplus_mod_idemp_l; f_equal; lia).
    revert Hm. generalize (abs f mod 4096). intros m Hm. destruct (Z.leb_spec (wsize - 1) m).
    + rewrite wrap_small by width_lia. rewrite Z.mod_small by lia. lia.
    + rewrite wrap_small by width_lia. apply Z.mod_unique with (-1); lia.
  - exists false. cbn. pose proof (Z.mod_pos_bound (abs f) 4096 ltac:(lia)).
    rewrite SN_LESS_spec, SN_EQUAL_spec by lia. rewrite Z.ltb_irrefl, Z.eqb_refl. by rewrite succ_mod.
Qed.

(** The window start and the frame after [check_indicate_seq]. *)
Lemma shift_range a f w' :
  horizon a f -> abs_shift abs wsize (aw_start a) f = Some w' ->
  w' - 1 <= abs f <= w' + wsize - 1 /\
  forall w, aw_start a = Some w -> w <= w' < w + 2048 /\ w <= abs f.
Proof.
  intros [_ _ _ Hz] H. destruct (aw_start a) as [w|]; cbn [abs_shift] in H.
  - specialize (Hz w eq_refl). revert H. case_tests; intros [= <-]; (split; [lia|intros ? [= <-]; lia]).
  - injection H as <-. split; [lia|done].
Qed.

Lemma in_order_sim s a w :
  related s a -> aw_start a = Some w -> ascending (aw_queue a) ->
  Forall (fun f => - 2048 <= w - abs f < 2048) (aw_queue a) ->
  let '(w', rest, out) := abs_flush abs (aw_queue a) w in
  exists s' b, recv_indicatepkts_in_order mpdu_ok s false = (b, s') /\
    related s' (mk_abs_win (Some w') rest) /\ rs_indicated s' = rs_indicated s ++ out.
Proof.
  intros [He Hw Hi Hq Hn] Ea Hs Hd. destruct (flush_sim (aw_queue a) w (rs_cnt s) Hs Hn Hd) as (k & b & E & Hb).
  pose proof (flush_spec (aw_queue a) w) as Hf.
  destruct (abs_flush abs (aw_queue a) w) as [[w' rest] out] eqn:Ef.
  destruct (Hf _ _ _ Hs eq_refl) as (Eq & _ & _ & _). unfold recv_indicatepkts_in_order.
  rewrite Hq, Hi, Ea. cbn [win_of]. rewrite E. eexists _, b. split; [reflexivity|].
  split; [|done]. split; cbn; try done. rewrite Eq in Hn. by apply Forall_app in Hn as [_ Hn].
Qed.

Lemma ascending_app out rest : ascending (out ++ rest) -> ascending rest.
Proof. unfold ascending. induction out as [|x out IH]; [done|]. intros H. apply IH. by inversion H. Qed.

(** The invariant holds again once a queue inside the window is flushed. *)
Lemma win_inv_rest q out rest w :
  q = out ++ rest -> ascending q -> Forall (fun g => abs g <= w + wsize - 1) q ->
  Forall (fun g => w < abs g) rest -> win_inv (mk_abs_win (Some w) rest).
Proof.
  intros -> Hs Hq Hr. apply Forall_app in Hq as [_ Hq]. split; cbn [aw_queue aw_start]; [by apply ascending_app in Hs|done|].
  intros ? [= <-]. apply list.Forall_forall. intros g Hg. rewrite list.Forall_forall in Hq, Hr.
  specialize (Hq g Hg). specialize (Hr g Hg). cbn in *. lia.
Qed.

(** Frames are placed, dropped and handed up as on the integers. *)
Lemma arrive_sim s a f :
  related s a -> win_inv a -> horizon a f ->
  let '(r, a', out) := abs_arrive abs wsize a f in
  exists s', recv_indicatepkt_reorder mpdu_ok s f = (r, s') /\ related s' a' /\ win_inv a' /\
    (rs_indicated s' = rs_indicated s ++ out).
Proof.
  intros Hr Hinv Hz. destruct Hr as [He Hw Hi Hq Hn]. unfold recv_indicatepkt_reorder, reorder_locked.
  rewrite (hz_qos _ _ Hz), (hz_ctrl _ _ Hz), He. cbn [negb orb].
  destruct (check_spec (rs_ctrl s) a f Hi Hw Hz) as (j & ->). unfold abs_arrive.
  destruct (abs_shift abs wsize (aw_start a) f) as [w'|] eqn:Es; cbn [negb].
  2: { eexists. split; [reflexivity|]. split; [by split|]. split; [done|]. by rewrite app_nil_r. }
  destruct (shift_range a f w' Hz Es) as [Hf Hw'].
  assert (Forall (fun g => w' - 2048 < abs g <= w' + wsize - 1 /\ - 2048 <= abs g - abs f < 2048) (aw_queue a)) as Hold.
  { destruct (aw_start a) as [w|] eqn:Ea; [|by rewrite (wi_none _ Hinv Ea)].
    destruct (Hw' w eq_refl). pose proof (hz_range _ _ Hz w Ea).
    apply (list.Forall_impl _ _ _ (wi_range _ Hinv w Ea)). cbn. lia. }
  change (pending ((rs_ctrl s) <| indicate_seq := w' mod 4096 |>)) with (pending (rs_ctrl s)).
  rewrite Hq, enqueue_spec; [|exact (hz_num _ _ Hz)|done|].
  2: { apply (list.Forall_impl _ _ _ Hold). cbn. lia. }
  destruct (abs_insert abs (aw_queue a) f) as [q|] eqn:Eq.
  - set (s1 := s <| rs_ctrl := _ |> <| rs_cnt := _ |>).
    assert (related s1 (mk_abs_win (Some w') q)) as Hr1.
    { split; cbn; try done. rewrite (insert_perm _ _ _ Eq). constructor; [exact (hz_num _ _ Hz)|done]. }
    pose proof (insert_ascending _ _ _ (wi_sorted _ Hinv) Eq) as Hasc.
    assert (Forall (fun g => w' - 2048 < abs g <= w' + wsize - 1) q) as Hq1.
    { rewrite (insert_perm _ _ _ Eq). constructor; [lia|]. apply (list.Forall_impl _ _ _ Hold). cbn. lia. }
    pose proof (in_order_sim s1 (mk_abs_win (Some w') q) w' Hr1 eq_refl Hasc) as Hsim. cbn [aw_queue] in Hsim.
    specialize (Hsim ltac:(apply (list.Forall_impl _ _ _ Hq1); cbn; lia)).
    pose proof (flush_spec q w') as Hfl. destruct (abs_flush abs q w') as [[w2 rest] out] eqn:Ef.
    destruct (Hfl _ _ _ Hasc eq_refl) as (E & Hle & _ & Hrest).
    destruct Hsim as (s2 & b & -> & Hr2 & Hout). eexists. split; [reflexivity|]. split; [|split].
    + destruct Hr2 as [? ? ? ? ?]. destruct b; [destruct (bReorderWaiting (rs_ctrl s2))|]; by split.
    + apply (win_inv_rest q out rest w2 E Hasc); [|done]. apply (list.Forall_impl _ _ _ Hq1). cbn. lia.
    + by destruct b; [destruct (bReorderWaiting (rs_ctrl s2))|].
  - eexists. split; [reflexivity|]. split; [by split|]. split; [|by rewrite app_nil_r].
    destruct (insert_none _ _ Eq) as (g & Hg & Eg).
    assert (aw_start a = Some w') as Ea.
    { destruct (aw_start a) as [w|] eqn:Ea; [|rewrite (wi_none _ Hinv Ea) in Hg; by apply not_elem_of_nil in Hg].
      pose proof (wi_range _ Hinv w Ea) as Hr. rewrite list.Forall_forall in Hr. specialize (Hr g Hg). cbn in Hr.
      cbn [abs_shift] in Es. revert Es. case_tests; intros [= <-]. done. }
    rewrite <- Ea. by destruct a.
Qed.
End sim.

(** ** Runs of the reorder window: refinement, order, loss, timers *)

Section runs.
Context (abs : rx_mpdu -> Z) (mpdu_ok : rx_mpdu -> bool) (wsize : Z).
Hypothesis wsize_ok : 1 <= wsize <= 255.

(** ** Timeouts *)

Lemma timeout_sim s a :
  related abs wsize s a -> win_inv abs wsize a ->
  let '(a', out) := abs_timeout abs a in
  related abs wsize (reorder_timeout mpdu_ok s) a' /\ win_inv abs wsize a' /\
  rs_indicated (reorder_timeout mpdu_ok s) = rs_indicated s ++ out.
Proof.
  intros Hr Hinv. destruct a as [st q]. pose proof Hr as [He Hw Hi Hq Hn]. cbn [aw_queue aw_start] in *.
  unfold abs_timeout, reorder_timeout, rtw_reordering_ctrl_timeout_handler. cbn [aw_queue].
  set (s0 := (cancel_reorder_timer s) <| rs_ctrl := _ |>).
  assert (pending (rs_ctrl s0) = q) as Hp0 by exact Hq.
  destruct q as [|f q].
  - unfold recv_indicatepkts_in_order. cbn [pending rs_ctrl set]. cbv [set]. cbn. rewrite Hq.
    rewrite app_nil_r. split; [by split|]. done.
  - destruct st as [w|]; [|by pose proof (wi_none _ _ _ Hinv eq_refl)].
    pose proof (wi_range _ _ _ Hinv w eq_refl) as Hrg. cbn [aw_queue] in Hrg.
    pose proof (wi_sorted _ _ _ Hinv) as Hs. cbn [aw_queue] in Hs.
    set (s1 := s0 <| rs_cnt := recv_indicatepkts_pkt_loss_cnt
                       ((rs_cnt s0) <| forced_indicate_count := u64 (forced_indicate_count (rs_cnt s0) + 1) |>)
                       (indicate_seq (rs_ctrl s0)) (mp_seq f) |>
                  <| rs_ctrl := (rs_ctrl s0) <| indicate_seq := mp_seq f |> |>).
    assert (recv_indicatepkts_in_order mpdu_ok s0 true = recv_indicatepkts_in_order mpdu_ok s1 false) as ->.
    { unfold recv_indicatepkts_in_order at 1.
      change (pending (rs_ctrl (s0 <| rs_cnt := _ |>))) with (pending (rs_ctrl s0)). rewrite Hp0. reflexivity. }
    assert (related abs wsize s1 (mk_abs_win (Some (abs f)) (f :: q))) as Hr1.
    { split; try done. cbn. inversion_clear Hn. done. }
    inversion_clear Hrg as [|?? Hf Hrq].
    pose proof (in_order_sim abs mpdu_ok wsize s1 _ (abs f) Hr1 eq_refl Hs) as Hsim. cbn [aw_queue] in Hsim.
    specialize (Hsim ltac:(constructor; [lia|apply (list.Forall_impl _ _ _ Hrq); cbn; lia])).
    pose proof (flush_spec abs (f :: q) (abs f)) as Hfl.
    destruct (abs_flush abs (f :: q) (abs f)) as [[w2 rest] out] eqn:Ef.
    destruct (Hfl _ _ _ Hs eq_refl) as (E & Hle & _ & Hrest).
    destruct Hsim as (s2 & b & -> & Hr2 & Hout). split; [|split].
    + destruct Hr2. destruct b; by split.
    + apply (win_inv_rest abs wsize (f :: q) out rest w2 E Hs); [|done].
      constructor; [lia|]. apply (list.Forall_impl _ _ _ Hrq). cbn. lia.
    + by destruct b.
Qed.

(** ** Runs of arrivals and timeouts *)

Inductive win_event := Frame (f : rx_mpdu) | Timeout.

(** The verdicts on the frames, in order, and the final state. *)
Fixpoint win_run (s : reorder_state) (es : list win_event) : list (rx_mpdu * Z) * reorder_state :=
  match es with
  | [] => ([], s)
  | Frame f :: es => let '(r, s) := recv_indicatepkt_reorder mpdu_ok s f in
                     let '(vs, s) := win_run s es in ((f, r) :: vs, s)
  | Timeout :: es => win_run (reorder_timeout mpdu_ok s) es
  end.

(** The same on the integers, with what is handed up. *)
Fixpoint abs_run (a : abs_win) (es : list win_event) : list (rx_mpdu * Z) * abs_win * list rx_mpdu :=
  match es with
  | [] => ([], a, [])
  | Frame f :: es => let '(r, a, o) := abs_arrive abs wsize a f in
                     let '(vs, a, os) := abs_run a es in ((f, r) :: vs, a, o ++ os)
  | Timeout :: es => let '(a, o) := abs_timeout abs a in
                     let '(vs, a, os) := abs_run a es in (vs, a, o ++ os)
  end.

(** Every frame lies less than half the number space away from the window. *)
Fixpoint in_reach (a : abs_win) (es : list win_event) : Prop :=
  match es with
  | [] => True
  | Frame f :: es => horizon abs a f /\ in_reach (abs_arrive abs wsize a f).1.2 es
  | Timeout :: es => in_reach (abs_timeout abs a).1 es
  end.

Lemma run_sim es : forall s a,
  related abs wsize s a -> win_inv abs wsize a -> in_reach a es ->
  let '(vs, a', out) := abs_run a es in
  (win_run s es).1 = vs /\ related abs wsize (win_run s es).2 a' /\ win_inv abs wsize a' /\
  rs_indicated (win_run s es).2 = rs_indicated s ++ out.
Proof.
  induction es as [|[f|] es IH]; intros s a Hr Hi Hh; cbn [win_run abs_run].
  - rewrite app_nil_r. done.
  - destruct Hh as [Hf Hh]. pose proof (arrive_sim abs mpdu_ok wsize wsize_ok s a f Hr Hi Hf) as H.
    destruct (abs_arrive abs wsize a f) as [[r a1] o]. destruct H as (s1 & -> & Hr1 & Hi1 & Ho).
    specialize (IH s1 a1 Hr1 Hi1 Hh). destruct (abs_run a1 es) as [[vs a2] os].
    destruct (win_run s1 es) as [vs' s2]. cbn in *. destruct IH as (-> & ? & ? & Ho2).
    split_and!; try done. rewrite Ho2, Ho, app_assoc. done.
  - cbn in Hh. pose proof (timeout_sim s a Hr Hi) as H. destruct (abs_timeout abs a) as [a1 o].
    destruct H as (Hr1 & Hi1 & Ho). specialize (IH _ a1 Hr1 Hi1 Hh).
    destruct (abs_run a1 es) as [[vs a2] os]. destruct IH as (? & ? & ? & Ho2).
    split_and!; try done. rewrite Ho2, Ho, app_assoc. done.
Qed.

(** ** What a run hands up *)

Definition accepted (vs : list (rx_mpdu * Z)) : list rx_mpdu :=
  (filter (fun v : rx_mpdu * Z => v.2 = RTW_RX_HANDLED) vs).*1.

Lemma accepted_cons v vs : accepted (v :: vs) = accepted [v] ++ accepted vs.
Proof. unfold accepted. rewrite !filter_cons. by destruct (decide _). Qed.

(** Handed up in order, all before the window start. *)
Definition delivered (a : abs_win) (out : list rx_mpdu) : Prop :=
  ascending abs (out ++ aw_queue a) /\
  (aw_start a = None -> out = []) /\
  forall w, aw_start a = Some w -> Forall (fun f => abs f < w) out.

Lemma ascending_join l r w :
  ascending abs l -> ascending abs r -> Forall (fun f => abs f < w) l -> Forall (fun f => w <= abs f) r ->
  ascending abs (l ++ r).
Proof.
  unfold ascending. intros Hl Hr Hlw Hrw. induction l as [|f l IH]; [done|].
  inversion_clear Hl as [|?? Hl' Hf]. inversion_clear Hlw as [|?? Hfw Hlw']. cbn [app].
  constructor; [by apply IH|]. apply Forall_app. split; [done|].
  apply (list.Forall_impl _ _ _ Hrw). cbn. lia.
Qed.

Lemma ascending_app_l l r : ascending abs (l ++ r) -> ascending abs l.
Proof.
  unfold ascending. induction l as [|f l IH]; [constructor|]. cbn [app]. intros H. inversion_clear H as [|?? H' Hf].
  constructor; [by apply IH|]. by apply Forall_app in Hf as [Hf _].
Qed.

(** Flushing a queue that starts at or after everything handed up. *)
Lemma flush_delivered out q w w' rest o w0 :
  ascending abs out -> ascending abs q -> Forall (fun f => abs f < w0) out -> Forall (fun f => w0 <= abs f) q ->
  w0 <= w -> abs_flush abs q w = (w', rest, o) ->
  delivered (mk_abs_win (Some w') rest) (out ++ o) /\ o ++ rest = q.
Proof.
  intros Ho Hq Hout Hqw Hw E. destruct (flush_spec abs q w w' rest o Hq E) as (-> & Hle & Hlo & Hr).
  split; [|done]. split; [|split; [done|]]; cbn [aw_queue aw_start].
  - rewrite <- app_assoc. by apply (ascending_join _ _ w0).
  - intros ? [= <-]. apply Forall_app. split; [|done]. apply (list.Forall_impl _ _ _ Hout). cbn. lia.
Qed.

Lemma arrive_delivered a f out :
  win_inv abs wsize a -> horizon abs a f -> delivered a out ->
  let '(r, a', o) := abs_arrive abs wsize a f in
  delivered a' (out ++ o) /\
  (o ++ aw_queue a' ≡ₚ accepted [(f, r)] ++ aw_queue a).
Proof.
  intros Hi Hz (Hs & Hn & Ho). unfold abs_arrive.
  destruct (abs_shift abs wsize (aw_start a) f) as [w'|] eqn:Es.
  2: { rewrite app_nil_r. done. }
  destruct (shift_range abs wsize wsize_ok a f w' Hz Es) as [Hf Hw'].
  assert (exists w0, w0 <= w' /\ w0 <= abs f /\ Forall (fun g => abs g < w0) out /\
                     Forall (fun g => w0 <= abs g) (aw_queue a)) as (w0 & ? & ? & Hout & Hq).
  { destruct (aw_start a) as [w|] eqn:Ea.
    - destruct (Hw' w eq_refl). exists w. split_and!; [lia|lia|by apply Ho|].
      apply (list.Forall_impl _ _ _ (wi_range _ _ _ Hi w Ea)). cbn. lia.
    - exists (abs f). rewrite (Hn eq_refl), (wi_none _ _ _ Hi Ea). split_and!; try done; try lia.
      cbn in Es. injection Es as <-. lia. }
  destruct (abs_insert abs (aw_queue a) f) as [q|] eqn:Eq.
  - pose proof (insert_perm _ _ _ _ Eq) as Hp.
    pose proof (insert_ascending _ _ _ _ (wi_sorted _ _ _ Hi) Eq) as Hasc.
    destruct (abs_flush abs q w') as [[w2 rest] o] eqn:Ef.
    destruct (flush_delivered out q w' w2 rest o w0) as [Hd E]; try done.
    { by apply ascending_app_l in Hs. }
    { rewrite Hp. by constructor. }
    split; [done|]. cbn [aw_queue]. rewrite E. exact Hp.
  - rewrite app_nil_r. split; [|done]. split; [done|]. cbn [aw_start aw_queue]. split; [done|].
    intros ? [= <-]. apply (list.Forall_impl _ _ _ Hout). cbn. lia.
Qed.

Lemma timeout_delivered a out :
  win_inv abs wsize a -> delivered a out ->
  let '(a', o) := abs_timeout abs a in
  delivered a' (out ++ o) /\ o ++ aw_queue a' = aw_queue a.
Proof.
  intros Hi (Hs & Hn & Ho). unfold abs_timeout. destruct a as [st q]. cbn [aw_queue aw_start] in *.
  destruct q as [|f q]; [by rewrite app_nil_r|].
  destruct st as [w|]; [|by pose proof (wi_none _ _ _ Hi eq_refl)].
  pose proof (wi_range _ _ _ Hi w eq_refl) as Hr. pose proof (wi_sorted _ _ _ Hi) as Hq. cbn [aw_queue] in *.
  destruct (abs_flush abs (f :: q) (abs f)) as [[w2 rest] o] eqn:Ef.
  apply (flush_delivered out (f :: q) (abs f) w2 rest o w); try done.
  - by apply ascending_app_l in Hs.
  - by apply Ho.
  - apply (list.Forall_impl _ _ _ Hr). cbn. lia.
  - inversion_clear Hr. lia.
Qed.

Lemma run_delivered es : forall s a out,
  related abs wsize s a -> win_inv abs wsize a -> in_reach a es -> delivered a out ->
  let '(vs, a', o) := abs_run a es in
  delivered a' (out ++ o) /\ o ++ aw_queue a' ≡ₚ accepted vs ++ aw_queue a.
Proof.
  induction es as [|[f|] es IH]; intros s a out Hr Hi Hh Hd; cbn [abs_run].
  - by rewrite app_nil_r.
  - destruct Hh as [Hf Hh]. pose proof (arrive_sim abs mpdu_ok wsize wsize_ok s a f Hr Hi Hf) as H.
    pose proof (arrive_delivered a f out Hi Hf Hd) as Hd1.
    destruct (abs_arrive abs wsize a f) as [[r a1] o]. destruct H as (s1 & _ & Hr1 & Hi1 & _).
    destruct Hd1 as [Hd1 Hp1]. specialize (IH s1 a1 (out ++ o) Hr1 Hi1 Hh Hd1).
    destruct (abs_run a1 es) as [[vs a2] os]. destruct IH as [Hd2 Hp2]. rewrite app_assoc. split; [done|].
    rewrite accepted_cons.
    rewrite <- app_assoc, Hp2. rewrite (Permutation_app_comm _ (aw_queue a1)), app_assoc, Hp1.
    rewrite <- !app_assoc. apply Permutation_app_head, Permutation_app_comm.
  - cbn in Hh. pose proof (timeout_sim s a Hr Hi) as H. pose proof (timeout_delivered a out Hi Hd) as Hd1.
    destruct (abs_timeout abs a) as [a1 o]. destruct H as (Hr1 & Hi1 & _). destruct Hd1 as [Hd1 E1].
    specialize (IH _ a1 (out ++ o) Hr1 Hi1 Hh Hd1). destruct (abs_run a1 es) as [[vs a2] os].
    destruct IH as [Hd2 Hp2]. rewrite app_assoc. split; [done|].
    rewrite <- app_assoc, Hp2, <- E1. rewrite !app_assoc. apply Permutation_app_tail, Permutation_app_comm.
Qed.
End runs.
