(* ===== verification/ReorderThms.v ===== *)
(** * What the reorder window guarantees

    Order and conservation of the frames handed up, lossless delivery while
    no frame overtakes another by a whole window, and the timer. *)

From S2P Require Import Prelude SecDefs Mem Reorder ReorderSpec.
(** A control block after ADDBA was accepted, nothing received yet. *)
Definition reorder_init (wsize : Z) (k : rx_counters) : reorder_state :=
  mk_reorder_state (mk_reorder_ctrl true 0xffff wsize [] false false) k [].

Lemma seqZ_split a b m : 0 <= b - a <= m -> seqZ a m = seqZ a (b - a) ++ seqZ b (m - (b - a)).
Proof.
  intros H. pose proof (seqZ_app a (b - a) (m - (b - a)) ltac:(lia) ltac:(lia)) as E.
  replace (b - a + (m - (b - a))) with m in E by lia. by replace (a + (b - a)) with b in E by lia.
Qed.

Section lossless.
Context (abs : rx_mpdu -> Z) (wsize : Z).
Hypothesis wsize_ok : 1 <= wsize <= 255.

Lemma flush_contiguous q : forall w w' rest out,
  ascending abs q -> Forall (fun f => w <= abs f) q -> abs_flush abs q w = (w', rest, out) ->
  w <= w' /\ abs <$> out = seqZ w (w' - w).
Proof.
  unfold ascending. induction q as [|f q IH]; intros w w' rest out Hs Hw H; cbn [abs_flush] in H.
  - injection H as <- <- <-. rewrite Z.sub_diag. by split.
  - inversion_clear Hs as [|?? Hs' Hf]. inversion_clear Hw as [|?? Hfw Hw'].
    destruct (Z.leb_spec (abs f) w) as [Hle|]; [|injection H as <- <- <-; rewrite Z.sub_diag; by split].
    rewrite (proj2 (Z.eqb_eq (abs f) w)) in H by lia.
    destruct (abs_flush abs q (w + 1)) as [[w1 r1] o1] eqn:E. injection H as <- <- <-.
    destruct (IH (w + 1) _ _ _ Hs' ltac:(apply (list.Forall_impl _ _ _ Hf); cbn in *; lia) E) as [Hle1 Eo].
    split; [lia|]. rewrite fmap_cons, Eo. rewrite (seqZ_cons w) by lia.
    replace (abs f) with w by lia. do 2 f_equal; lia.
Qed.

(** One arrival of a frame the numbers up to [w] have not covered yet. *)
Lemma lossless_step a w f l m :
  aw_start a = Some w -> win_inv abs wsize a ->
  (abs <$> aw_queue a) ++ (abs <$> f :: l) ≡ₚ seqZ w m ->
  Forall (fun g => abs f < abs g + wsize) l ->
  exists w' rest out, abs_arrive abs wsize a f = (RTW_RX_HANDLED, mk_abs_win (Some w') rest, out) /\
    abs <$> out = seqZ w (w' - w) /\ w <= w' /\ w' - w <= m /\
    (abs <$> rest) ++ (abs <$> l) ≡ₚ seqZ w' (m - (w' - w)) /\
    w <= abs f < w + wsize.
Proof.
  intros Ew Hi Hp Hl. destruct a as [st q]. cbn [aw_start aw_queue] in *. subst st.
  pose proof (wi_range _ _ _ Hi w eq_refl) as Hq. cbn [aw_queue] in Hq.
  assert (abs f ∈ seqZ w m) as Hfm by (rewrite <- Hp, elem_of_app, fmap_cons, elem_of_cons; tauto). apply elem_of_seqZ in Hfm.
  assert (NoDup ((abs <$> q) ++ (abs <$> f :: l))) as Hnd by (rewrite Hp; apply NoDup_seqZ).
  assert (abs f < w + wsize) as Hfw.
  { destruct (Z.eq_dec (abs f) w); [lia|].
    assert (w ∈ (abs <$> q) ++ (abs <$> f :: l)) as Hin by (rewrite Hp; apply elem_of_seqZ; lia).
    rewrite elem_of_app, fmap_cons, elem_of_cons, !list_elem_of_fmap in Hin.
    rewrite list.Forall_forall in Hq, Hl.
    destruct Hin as [(g & E & Hg)|[|(g & E & Hg)]]; [specialize (Hq g Hg); cbn in Hq; lia|lia|].
    specialize (Hl g Hg). lia. }
  assert (abs_shift abs wsize (Some w) f = Some (if abs f =? w then w + 1 else w)) as Es.
  { cbn [abs_shift]. rewrite (proj2 (Z.ltb_ge _ _)) by lia. destruct (Z.eqb_spec (abs f) w); [done|].
    rewrite (proj2 (Z.ltb_ge _ _)) by lia. done. }
  unfold abs_arrive. cbn [aw_start aw_queue]. rewrite Es.
  destruct (abs_insert abs q f) as [q'|] eqn:Eq.
  2: { destruct (insert_none _ _ _ Eq) as (g & Hg & E). exfalso. apply list.NoDup_app in Hnd as (_ & Hnd & _).
       apply (Hnd (abs f)); [|rewrite fmap_cons, elem_of_cons; tauto]. apply list_elem_of_fmap. by exists g. }
  pose proof (insert_perm _ _ _ _ Eq) as Hp'. pose proof (insert_ascending _ _ _ _ (wi_sorted _ _ _ Hi) Eq) as Hs'.
  assert (Forall (fun g => w <= abs g) q') as Hw'.
  { rewrite Hp'. constructor; [lia|]. apply (list.Forall_impl _ _ _ Hq). cbn. lia. }
  assert (abs_flush abs q' (if abs f =? w then w + 1 else w) = abs_flush abs q' w) as ->.
  { destruct (Z.eqb_spec (abs f) w) as [E|]; [|done].
    assert (q' = f :: q) as ->.
    { destruct q as [|g q0]; cbn [abs_insert] in Eq; [by injection Eq as <-|]. inversion_clear Hq.
      rewrite (proj2 (Z.ltb_ge _ _)), (proj2 (Z.eqb_neq _ _)) in Eq by lia. by injection Eq as <-. }
    cbn [abs_flush]. rewrite !(proj2 (Z.leb_le _ _)), (proj2 (Z.eqb_neq _ (w + 1))), (proj2 (Z.eqb_eq _ w)) by lia. done. }
  destruct (abs_flush abs q' w) as [[w2 rest] out] eqn:Ef.
  destruct (flush_spec _ _ _ _ _ _ Hs' Ef) as (E' & _).
  destruct (flush_contiguous _ _ _ _ _ Hs' Hw' Ef) as [Hle Eo].
  exists w2, rest, out. split; [done|]. split; [done|]. split; [done|].
  assert ((abs <$> out) ++ (abs <$> rest) ++ (abs <$> l) ≡ₚ seqZ w m) as HP.
  { rewrite <- Hp, app_assoc, <- fmap_app, <- E', Hp', !fmap_cons. apply Permutation_middle. }
  assert (w2 - w <= m) as Hm.
  { apply Permutation_length in HP. rewrite Eo, !length_app, !length_seqZ in HP. lia. }
  split; [done|]. split; [|lia]. apply (Permutation_app_inv_l (seqZ w (w2 - w))).
  rewrite <- Eo, HP, Eo. by rewrite (seqZ_split w w2 m) by lia.
Qed.

(** No frame comes before one that precedes it by a whole window. *)
Definition overtaking_bounded (l : list rx_mpdu) : Prop :=
  forall l1 f l2, l = l1 ++ f :: l2 -> Forall (fun g => abs f < abs g + wsize) l2.

(** QoS frames of a block-ack session, numbered modulo 4096. *)
Definition session (f : rx_mpdu) : Prop := numbered abs f /\ mp_qos f = true /\ mp_ctrl f = true.

Lemma lossless_run mpdu_ok l : forall s a w m,
  related abs wsize s a -> win_inv abs wsize a -> aw_start a = Some w ->
  (abs <$> aw_queue a) ++ (abs <$> l) ≡ₚ seqZ w m -> 0 <= m ->
  Forall session l -> overtaking_bounded l ->
  let '(vs, s') := win_run mpdu_ok s (Frame <$> l) in
  exists out, rs_indicated s' = rs_indicated s ++ out /\ abs <$> out = seqZ w m /\
    pending (rs_ctrl s') = [] /\ Forall (fun v => v.2 = RTW_RX_HANDLED) vs.
Proof.
  induction l as [|f l IH]; intros s a w m Hr Hi Ew Hp Hm Hses Hov; cbn [fmap list_fmap win_run].
  - rewrite app_nil_r in Hp. pose proof Hr as [_ _ _ Hq _]. exists [].
    assert (m = 0) as ->.
    { destruct (Z.eq_dec m 0); [done|]. pose proof (wi_range _ _ _ Hi w Ew) as Hrg.
      assert (w ∈ abs <$> aw_queue a) as Hin by (rewrite Hp; apply elem_of_seqZ; lia).
      apply list_elem_of_fmap in Hin as (g & E & Hg). rewrite list.Forall_forall in Hrg.
      specialize (Hrg g Hg). cbn in Hrg. lia. }
    apply Permutation_nil_r, fmap_nil_inv in Hp. rewrite app_nil_r, Hq, Hp. done.
  - inversion_clear Hses as [|?? Hf Hses'].
    destruct (lossless_step a w f l m Ew Hi Hp (Hov [] f l eq_refl)) as (w2 & rest & o & E & Eo & Hw & Hwm & Hp2 & Hfr).
    assert (horizon abs a f) as Hz.
    { destruct Hf as (? & ? & ?). split; try done. intros w1 Ew1. rewrite Ew1 in Ew. injection Ew as ->. lia. }
    pose proof (arrive_sim abs mpdu_ok wsize wsize_ok s a f Hr Hi Hz) as H. rewrite E in H.
    destruct H as (s1 & -> & Hr1 & Hi1 & Ho).
    specialize (IH s1 _ w2 (m - (w2 - w)) Hr1 Hi1 eq_refl Hp2 ltac:(lia) Hses').
    specialize (IH ltac:(intros l1 g l2 ->; exact (Hov (f :: l1) g l2 eq_refl))).
    destruct (win_run mpdu_ok s1 (Frame <$> l)) as [vs s2].
    destruct IH as (out & Ho2 & Eo2 & Hpend & Hvs). exists (o ++ out). split_and!; [|..|done|by constructor].
    + by rewrite Ho2, Ho, app_assoc.
    + rewrite fmap_app, Eo, Eo2. by rewrite (seqZ_split w w2 m) by lia.
Qed.
End lossless.

(** ** Runs from the start of a session *)

Lemma init_related abs wsize k : related abs wsize (reorder_init wsize k) (mk_abs_win None []).
Proof. by split. Qed.

Lemma init_inv abs wsize : win_inv abs wsize (mk_abs_win None []).
Proof. split; [constructor|done|done]. Qed.

(** C33. The driver's window on 12-bit numbers takes the decisions of a window
    on unbounded integers: over any run of arrivals and timeouts in which each
    frame is less than half the number space from the window, every verdict,
    the frames handed up and the frames left waiting are those of [abs_run]. *)
Theorem reorder_refines abs mpdu_ok wsize k es :
  1 <= wsize <= 255 -> in_reach abs wsize (mk_abs_win None []) es ->
  let '(vs, a, out) := abs_run abs wsize (mk_abs_win None []) es in
  let '(vs', s) := win_run mpdu_ok (reorder_init wsize k) es in
  vs' = vs /\ rs_indicated s = out /\ pending (rs_ctrl s) = aw_queue a /\
  indicate_seq (rs_ctrl s) = win_of (aw_start a).
Proof.
  intros Hw Hh. pose proof (run_sim abs mpdu_ok wsize Hw es _ _ (init_related abs wsize k) (init_inv abs wsize) Hh) as H.
  destruct (abs_run abs wsize _ es) as [[vs a] out]. destruct (win_run mpdu_ok _ es) as [vs' s].
  destruct H as (? & [? ? ? ? ?] & _ & ?). done.
Qed.

(** Over any such run the frames handed up followed by the frames still
    waiting are exactly the accepted frames, each once, in strictly increasing
    order of their unbounded numbers. *)
Theorem reorder_delivers_in_order abs mpdu_ok wsize k es :
  1 <= wsize <= 255 -> in_reach abs wsize (mk_abs_win None []) es ->
  let '(vs, s) := win_run mpdu_ok (reorder_init wsize k) es in
  let all := rs_indicated s ++ pending (rs_ctrl s) in
  all ≡ₚ accepted vs /\ Sorted.StronglySorted (fun f g => abs f < abs g) all.
Proof.
  intros Hw Hh. pose proof (init_related abs wsize k) as Hr. pose proof (init_inv abs wsize) as Hi.
  pose proof (run_sim abs mpdu_ok wsize Hw es _ _ Hr Hi Hh) as H.
  pose proof (run_delivered abs mpdu_ok wsize Hw es _ _ [] Hr Hi Hh) as Hd.
  destruct (abs_run abs wsize _ es) as [[vs a] out]. destruct (win_run mpdu_ok _ es) as [vs' s].
  destruct H as (<- & [_ _ _ Hq _] & _ & Ho). cbn in Hq, Ho. rewrite Hq, Ho.
  destruct Hd as [[Hs _] Hp].
  { split; [constructor|]. by split. }
  rewrite app_nil_r in Hp. split; [exact Hp|exact Hs].
Qed.

(** C34. In an established session no frame is lost or held back: when the
    arriving frames carry a contiguous block of numbers in any order in which
    none overtakes another by a whole window, every one is accepted, all are
    handed up in order and none is left waiting. *)
Theorem reorder_lossless abs mpdu_ok wsize s w n l :
  1 <= wsize <= 255 -> 0 <= n -> related abs wsize s (mk_abs_win (Some w) []) ->
  abs <$> l ≡ₚ seqZ w n -> Forall (session abs) l -> overtaking_bounded abs wsize l ->
  let '(vs, s') := win_run mpdu_ok s (Frame <$> l) in
  exists out, rs_indicated s' = rs_indicated s ++ out /\ abs <$> out = seqZ w n /\
    pending (rs_ctrl s') = [] /\ Forall (fun v => v.2 = RTW_RX_HANDLED) vs.
Proof.
  intros Hw Hn Hr Hp Hs Ho. apply (lossless_run abs wsize Hw mpdu_ok l s (mk_abs_win (Some w) []) w n); try done.
  split; cbn; [constructor|done|]. intros. constructor.
Qed.

(** ** Concrete runs across the wrap of the sequence numbers *)

Definition demo_mpdu (n : Z) : rx_mpdu := mk_rx_mpdu (n mod 4096) true true n.
Definition demo_counters : rx_counters := mk_rx_counters 0 0 0 0 0 0.

(** A swap at the wrap, a duplicate, a gap closed by a timeout, a late frame. *)
Definition demo_events : list win_event :=
  (Frame ∘ demo_mpdu <$> [4094; 4096; 4095; 4095; 4098; 4099]) ++ [Timeout; Frame (demo_mpdu 4097)].

Definition demo_order : list rx_mpdu := demo_mpdu <$> [4097; 4095; 4096; 4100; 4098; 4099].

(** The session above after frame 4094. *)
Definition demo_session : reorder_state :=
  (win_run (fun _ => true) (reorder_init 64 demo_counters) [Frame (demo_mpdu 4094)]).2.

Ltac solve_reach :=
  repeat match goal with
  | |- _ /\ _ => split
  | |- in_reach _ _ _ (_ :: _) => cbn [in_reach]
  | |- True => exact I
  | |- horizon _ _ _ => split; [reflexivity|reflexivity|reflexivity|]; intros ? E; vm_compute in E;
                        try discriminate E; injection E as <-; vm_compute; split; congruence
  end.

Lemma demo_reach : in_reach mp_id 64 (mk_abs_win None []) demo_events.
Proof.
  change demo_events with (Frame (demo_mpdu 4094) :: Frame (demo_mpdu 4096) :: Frame (demo_mpdu 4095) ::
    Frame (demo_mpdu 4095) :: Frame (demo_mpdu 4098) :: Frame (demo_mpdu 4099) :: Timeout :: Frame (demo_mpdu 4097) :: []).
  solve_reach.
Qed.

Lemma reorder_refines_witness :
  in_reach mp_id 64 (mk_abs_win None []) demo_events /\
  let '(vs, a, out) := abs_run mp_id 64 (mk_abs_win None []) demo_events in
  let '(vs', s) := win_run (fun _ => true) (reorder_init 64 demo_counters) demo_events in
  vs' = vs /\ rs_indicated s = out /\ pending (rs_ctrl s) = aw_queue a /\
  indicate_seq (rs_ctrl s) = win_of (aw_start a).
Proof.
  split; [exact demo_reach|]. apply (reorder_refines mp_id (fun _ => true) 64 demo_counters demo_events); [lia|exact demo_reach].
Defined.

Lemma reorder_delivers_in_order_witness :
  let '(vs, s) := win_run (fun _ => true) (reorder_init 64 demo_counters) demo_events in
  let all := rs_indicated s ++ pending (rs_ctrl s) in
  all ≡ₚ accepted vs /\ Sorted.StronglySorted (fun f g => mp_id f < mp_id g) all.
Proof.
  apply (reorder_delivers_in_order mp_id (fun _ => true) 64 demo_counters demo_events); [lia|exact demo_reach].
Defined.

Lemma demo_overtaking : overtaking_bounded mp_id 64 demo_order.
Proof.
  assert (forall f g, f ∈ demo_order -> g ∈ demo_order -> mp_id f < mp_id g + 64) as H.
  { intros f g Hf Hg. unfold demo_order in *. apply list_elem_of_fmap in Hf as (n & -> & Hn), Hg as (m & -> & Hm).
    assert (Forall (fun n => 4095 <= n <= 4100) [4097; 4095; 4096; 4100; 4098; 4099]) as Hr by (repeat constructor; lia).
    rewrite list.Forall_forall in Hr. pose proof (Hr n Hn). pose proof (Hr m Hm). cbn in *. lia. }
  intros l1 f l2 E. apply list.Forall_forall. intros g Hg. apply H; rewrite E; set_solver.
Qed.

Lemma reorder_lossless_witness :
  related mp_id 64 demo_session (mk_abs_win (Some 4095) []) /\
  let '(vs, s') := win_run (fun _ => true) demo_session (Frame <$> demo_order) in
  exists out, rs_indicated s' = rs_indicated demo_session ++ out /\ mp_id <$> out = seqZ 4095 6 /\
    pending (rs_ctrl s') = [] /\ Forall (fun v => v.2 = RTW_RX_HANDLED) vs.
Proof.
  assert (related mp_id 64 demo_session (mk_abs_win (Some 4095) [])) as H by (split; try reflexivity; constructor).
  split; [exact H|]. apply (reorder_lossless mp_id (fun _ => true) 64 demo_session 4095 6 demo_order); try lia; try exact H.
  - change (mp_id <$> demo_order) with [4097; 4095; 4096; 4100; 4098; 4099].
    change (seqZ 4095 6) with [4095; 4096; 4097; 4098; 4099; 4100]. apply (bool_decide_unpack _). vm_compute. exact I.
  - repeat constructor.
  - exact demo_overtaking.
Defined.

(** ** The reorder timer

    With one receive context a waiting frame always has a timer running or a
    handler about to run, and handlers drain the queue.  With two, the
    cancellation after the unlock can kill the timer of a later arrival. *)

Section timer.
Context (mpdu_ok : rx_mpdu -> bool).

Lemma loop_inbuf q : forall iseq k,
  let '(_, rest, _, _, inbuf) := indicate_loop mpdu_ok q iseq k in inbuf = true <-> rest <> [].
Proof.
  induction q as [|f q IH]; intros iseq k; cbn [indicate_loop]; [done|].
  destruct (negb (SN_LESS iseq (mp_seq f))); [|done].
  match goal with |- context [indicate_loop mpdu_ok q ?i ?k] => specialize (IH i k); destruct (indicate_loop mpdu_ok q i k) as [[[[? ?] ?] ?] ?] end.
  exact IH.
Qed.

(** What a pass of [recv_indicatepkts_in_order] reports and keeps. *)
Lemma in_order_inbuf s b s' :
  recv_indicatepkts_in_order mpdu_ok s false = (b, s') ->
  (b = true <-> pending (rs_ctrl s') <> []) /\
  bReorderWaiting (rs_ctrl s') = bReorderWaiting (rs_ctrl s) /\ ro_timer (rs_ctrl s') = ro_timer (rs_ctrl s).
Proof.
  unfold recv_indicatepkts_in_order. pose proof (loop_inbuf (pending (rs_ctrl s)) (indicate_seq (rs_ctrl s)) (rs_cnt s)) as H.
  destruct (indicate_loop _ _ _ _) as [[[[? ?] ?] ?] ?]. intros E. injection E as <- <-. done.
Qed.

(** A loop entered at the number of the first frame hands that frame up. *)
Lemma loop_first f q k :
  let '(_, rest, out, _, _) := indicate_loop mpdu_ok (f :: q) (mp_seq f) k in
  f :: q = out ++ rest /\ (length rest <= length q)%nat.
Proof.
  assert (forall q iseq k, let '(_, rest, out, _, _) := indicate_loop mpdu_ok q iseq k in q = out ++ rest) as Hs.
  { clear f q k. induction q as [|f q IH]; intros iseq k; cbn [indicate_loop]; [done|].
    destruct (negb (SN_LESS iseq (mp_seq f))); [|done].
    match goal with |- context [indicate_loop mpdu_ok q ?i ?k] => specialize (IH i k); destruct (indicate_loop mpdu_ok q i k) as [[[[? ?] ?] ?] ?] end.
    cbn. by f_equal. }
  cbn [indicate_loop]. unfold SN_LESS at 1. rewrite Z.sub_diag, Z.land_0_l. cbn [negb Z.eqb].
  match goal with |- context [indicate_loop mpdu_ok q ?i ?k] => specialize (Hs q i k); destruct (indicate_loop mpdu_ok q i k) as [[[[? ?] ?] ?] ?] end.
  split; [cbn; by f_equal|]. rewrite Hs, length_app. lia.
Qed.

Lemma handler_spec s :
  let s' := rtw_reordering_ctrl_timeout_handler mpdu_ok false s in
  (length (pending (rs_ctrl s')) <= Nat.pred (length (pending (rs_ctrl s))))%nat /\
  rs_indicated s' ++ pending (rs_ctrl s') = rs_indicated s ++ pending (rs_ctrl s) /\
  bReorderWaiting (rs_ctrl s') = false /\
  (pending (rs_ctrl s') <> [] -> ro_timer (rs_ctrl s') = true).
Proof.
  destruct s as [c k o]. unfold rtw_reordering_ctrl_timeout_handler, recv_indicatepkts_in_order. cbn [rs_ctrl].
  destruct c as [en sq ws q wt tm]. cbn -[indicate_loop]. destruct q as [|f q]; cbn -[indicate_loop]; [by split_and!|].
  match goal with |- context [indicate_loop mpdu_ok (f :: q) (mp_seq f) ?k] => set (k0 := k) end.
  pose proof (loop_first f q k0) as Hf. pose proof (loop_inbuf (f :: q) (mp_seq f) k0) as Hb.
  destruct (indicate_loop mpdu_ok (f :: q) (mp_seq f) k0) as [[[[i r] o'] k'] b]. destruct Hf as [-> Hl].
  destruct b; cbn -[length app]; rewrite <- app_assoc; split_and!; try done. intros Hr. by apply Hb in Hr.
Qed.

(** What the locked part of an arrival does to queue, flag and timer. *)
Lemma locked_spec s f :
  let '(_, cancel, s') := reorder_locked mpdu_ok s f in
  let c := rs_ctrl s in let c' := rs_ctrl s' in
  (cancel = true /\ pending c' = [] /\ bReorderWaiting c' = false /\ ro_timer c' = ro_timer c) \/
  (cancel = false /\ pending c' <> [] /\ bReorderWaiting c' = true /\
     (ro_timer c' = true \/ bReorderWaiting c = true /\ ro_timer c' = ro_timer c)) \/
  (cancel = false /\ pending c' = pending c /\ bReorderWaiting c' = bReorderWaiting c /\ ro_timer c' = ro_timer c).
Proof.
  unfold reorder_locked. destruct (_ || _ || _); [by right; right|].
  destruct (check_indicate_seq (rs_ctrl s) (mp_seq f)) as [[ok c] j] eqn:Ec.
  assert (pending c = pending (rs_ctrl s) /\ bReorderWaiting c = bReorderWaiting (rs_ctrl s) /\
          ro_timer c = ro_timer (rs_ctrl s)) as (Hp & Hw & Ht).
  { revert Ec. unfold check_indicate_seq. repeat match goal with |- context [if ?t then _ else _] => destruct t end;
      intros E; injection E as <- <- <-; done. }
  destruct ok; cbn [negb]; [|by right; right].
  destruct (enqueue_reorder_recvframe (pending c) f) as [q|]; [|by right; right].
  destruct (recv_indicatepkts_in_order mpdu_ok _ false) as [b s1] eqn:E.
  destruct (in_order_inbuf _ _ _ E) as (Hb & Hw1 & Ht1). cbn in Hw1, Ht1.
  destruct b; cbn [negb].
  - right; left. split; [done|]. destruct (bReorderWaiting (rs_ctrl s1)) eqn:Eb; cbn.
    + split_and!; [by apply Hb|done|]. right. split; [congruence|]. congruence.
    + split_and!; [by apply Hb|done|by left].
  - left. cbn. split_and!; [done| |done|congruence].
    destruct (pending (rs_ctrl s1)); [done|]. exfalso. assert (false = true) by (by apply Hb). done.
Qed.

(** ** One receive context *)

Definition not_stuck (x : reorder_sys) : Prop :=
  let c := rs_ctrl (ri_state x) in
  (pending c <> [] -> ri_cancels x = 0%nat /\ (ro_timer c = true \/ ri_fired x = true)) /\
  (bReorderWaiting c = true -> pending c <> []).

Lemma step_not_stuck x e x' : not_stuck x -> ro_step mpdu_ok true x e = Some x' -> not_stuck x'.
Proof.
  destruct x as [s n fd]. unfold not_stuck. cbn [ri_state ri_cancels ri_fired]. intros [Hp Hw].
  destruct e as [f| | |]; cbn [ro_step ri_state ri_cancels ri_fired].
  - destruct (Nat.eqb_spec n 0) as [->|]; cbn [negb andb]; [|done].
    pose proof (locked_spec s f) as H. destruct (reorder_locked mpdu_ok s f) as [[r cc] s1].
    intros E. injection E as <-. cbn [ri_state ri_cancels ri_fired]; cbv zeta.
    destruct H as [(-> & H1 & H2 & H3)|[(-> & H1 & H2 & H3)|(-> & H1 & H2 & H3)]]; rewrite ?H1, ?H2, ?H3.
    + by split.
    + split; [|done]. intros _. split; [done|]. destruct H3 as [H3|[H3 H4]]; [by left|].
      rewrite H4. apply Hp. by apply Hw.
    + by split.
  - destruct n as [|n]; [done|]. destruct fd; [done|]. intros E. injection E as <-. cbn.
    split; [|done]. intros Hq. by destruct (Hp Hq).
  - destruct (ro_timer (rs_ctrl s) && negb fd); [|done]. intros E. injection E as <-. cbn.
    split; [|done]. intros Hq. split; [|by right]. by apply Hp.
  - destruct fd; [|done]. intros E. apply (inj Some) in E. subst x'. cbn [ri_state ri_cancels ri_fired]; cbv zeta.
    destruct (handler_spec s) as (Hl & _ & -> & Ht). split; [|done]. intros Hq. split; [|left; by apply Ht].
    apply Hp. intros Hn. rewrite Hn in Hl. apply Hq, length_zero_iff_nil. cbn [length Nat.pred] in Hl. lia.
Qed.

(** While arrivals are processed one after another, in every reachable
    state a waiting frame has the timer armed or a handler about to run, so it
    will be handed up even if no further frame arrives. *)
Theorem reorder_never_stuck k wsize es x :
  ro_run mpdu_ok true (mk_reorder_sys (reorder_init wsize k) 0 false) es = Some x ->
  pending (rs_ctrl (ri_state x)) <> [] ->
  ro_timer (rs_ctrl (ri_state x)) = true \/ ri_fired x = true.
Proof.
  assert (forall y, not_stuck y -> ro_run mpdu_ok true y es = Some x -> not_stuck x) as H.
  { induction es as [|e es IH]; intros y Hy; cbn [ro_run]; [by intros [= <-]|].
    destruct (ro_step mpdu_ok true y e) as [y'|] eqn:E; [|done]. cbn. apply IH. by apply (step_not_stuck y e). }
  intros Hr Hq. destruct (H (mk_reorder_sys (reorder_init wsize k) 0 false)) as [Hx _]; [by split|done|].
  by apply Hx.
Qed.

(** ** Draining *)

Definition is_handler (e : ro_event) : bool := match e with Handler => true | _ => false end.
Definition no_arrival (e : ro_event) : Prop := match e with Arrive _ => False | _ => True end.

(** C35. Liveness: whatever the state, once as many timeout handlers have run
    as frames were waiting, with no arrival in between, the queue is empty and
    the frames were handed up in the order they were queued. *)
Theorem reorder_drains serial es x x' :
  ro_run mpdu_ok serial x es = Some x' -> Forall no_arrival es ->
  let c := rs_ctrl (ri_state x) in
  (length (pending c) <= length (List.filter is_handler es))%nat ->
  pending (rs_ctrl (ri_state x')) = [] /\
  rs_indicated (ri_state x') = rs_indicated (ri_state x) ++ pending c.
Proof.
  revert x. induction es as [|e es IH]; intros x Hr Hes c Hl.
  - cbn in Hr, Hl. injection Hr as <-. subst c. destruct (pending _); [by rewrite app_nil_r|cbn in Hl; lia].
  - inversion_clear Hes as [|?? He Hes']. cbn [ro_run] in Hr.
    destruct (ro_step mpdu_ok serial x e) as [y|] eqn:E; [|done]. cbn in Hr. specialize (IH y Hr Hes').
    subst c. destruct x as [s n fd]. cbn [ri_state] in *. destruct e; [done| | |]; cbn [ro_step ri_state ri_cancels ri_fired] in E.
    + destruct n; [done|]. destruct fd; [done|]. injection E as <-. by apply IH.
    + destruct (_ && _); [|done]. injection E as <-. by apply IH.
    + destruct fd; [|done]. apply (inj Some) in E. subst y. destruct (handler_spec s) as (Hl' & Ho & _).
      cbn [ri_state] in *. cbn [List.filter is_handler length] in Hl. destruct IH as [-> Hi]; [lia|].
      split; [done|]. by rewrite Hi.
Qed.
End timer.

(** ** Two receive contexts *)

(** If a second arrival may come between the unlock and the cancellation
    of the timer, the cancellation can hit the timer the second arrival armed:
    a frame then waits with no timer, no handler and no cancellation left, and
    further frames inside the window do not arm it again. *)
Theorem concurrent_cancel_loses_timer :
  exists es x,
    ro_run (fun _ => true) false (mk_reorder_sys (reorder_init 64 demo_counters) 0 false) es = Some x /\
    pending (rs_ctrl (ri_state x)) = [demo_mpdu 8] /\
    ro_step (fun _ => true) false x Cancel = None /\ ro_step (fun _ => true) false x Expire = None /\
    ro_step (fun _ => true) false x Handler = None /\
    exists y, ro_step (fun _ => true) false x (Arrive (demo_mpdu 9)) = Some y /\
      pending (rs_ctrl (ri_state y)) = [demo_mpdu 8; demo_mpdu 9] /\ ro_timer (rs_ctrl (ri_state y)) = false.
Proof.
  eexists [Arrive (demo_mpdu 4); Cancel; Arrive (demo_mpdu 6); Arrive (demo_mpdu 5); Arrive (demo_mpdu 8); Cancel], _.
  split; [vm_compute; reflexivity|]. do 4 (split; [vm_compute; reflexivity|]).
  eexists. split; [vm_compute; reflexivity|]. split; vm_compute; reflexivity.
Qed.

Lemma reorder_never_stuck_witness :
  exists x, ro_run (fun _ => true) true (mk_reorder_sys (reorder_init 64 demo_counters) 0 false)
              [Arrive (demo_mpdu 4); Cancel; Arrive (demo_mpdu 6); Expire] = Some x /\
    (ro_timer (rs_ctrl (ri_state x)) = true \/ ri_fired x = true).
Proof.
  eexists. split; [vm_compute; reflexivity|].
  apply (reorder_never_stuck (fun _ => true) demo_counters 64 [Arrive (demo_mpdu 4); Cancel; Arrive (demo_mpdu 6); Expire]);
    [vm_compute; reflexivity|discriminate].
Defined.

Lemma reorder_drains_witness :
  exists x x', ro_run (fun _ => true) true (mk_reorder_sys (reorder_init 64 demo_counters) 0 false)
                 [Arrive (demo_mpdu 4); Cancel; Arrive (demo_mpdu 6); Arrive (demo_mpdu 8)] = Some x /\
    ro_run (fun _ => true) true x [Expire; Handler; Expire; Handler] = Some x' /\
    pending (rs_ctrl (ri_state x')) = [] /\
    rs_indicated (ri_state x') = rs_indicated (ri_state x) ++ pending (rs_ctrl (ri_state x)).
Proof.
  eexists _, _. split; [vm_compute; reflexivity|]. split; [vm_compute; reflexivity|].
  eapply (reorder_drains (fun _ => true) true [Expire; Handler; Expire; Handler]);
    [vm_compute; reflexivity|repeat constructor|vm_compute; lia].
Defined.
