(* ===== verification/Radiotap.v ===== *)
(** * The radiotap header of received frames (core/rtw_recv.c)

    [fill_radiotap_hdr] up to the hand-over to the socket buffer, built
    without CONFIG_RADIOTAP_WITH_RXDESC.  The header is written at a cursor
    into the zeroed array [hdr_buf] of 64 bytes; a write that leaves the array
    is [None].  The bit numbers and flag values are those of
    <net/ieee80211_radiotap.h> and <net/cfg80211.h>. *)

From S2P Require Import Prelude Mem.
Definition RADIOTAP_TSFT : Z := 0.
Definition RADIOTAP_FLAGS : Z := 1.
Definition RADIOTAP_RATE : Z := 2.
Definition RADIOTAP_CHANNEL : Z := 3.
Definition RADIOTAP_DBM_ANTSIGNAL : Z := 5.
Definition RADIOTAP_LOCK_QUALITY : Z := 7.
Definition RADIOTAP_ANTENNA : Z := 11.
Definition RADIOTAP_RX_FLAGS : Z := 14.
Definition RADIOTAP_MCS : Z := 19.
Definition RADIOTAP_VHT : Z := 21.
Definition RADIOTAP_NAMESPACE : Z := 29.
Definition RADIOTAP_EXT : Z := 31.

Definition F_WEP : Z := 0x04.
Definition F_FRAG : Z := 0x08.
Definition F_FCS : Z := 0x10.
Definition F_BADFCS : Z := 0x40.
Definition CHAN_CCK : Z := 0x20.
Definition CHAN_OFDM : Z := 0x40.
Definition CHAN_2GHZ : Z := 0x80.
Definition CHAN_5GHZ : Z := 0x100.
Definition CHAN_DYN : Z := 0x400.

Definition CHAN2FREQ (a : Z) : Z := if a <? 14 then 2407 + 5 * a else 5000 + 5 * a.

(** The fields of [struct rx_pkt_attrib] the header reports. *)
Record radio_attrib := mk_radio_attrib {
  ra_tsfl : Z; ra_encrypt : Z; ra_mfrag : Z; ra_crc_err : Z; ra_sgi : Z; ra_data_rate : Z;
  ra_physt : Z; ra_recv_signal_power : Z; ra_signal_quality : Z; ra_bw : Z; ra_stbc : Z; ra_ldpc : Z;
  ra_rx_pwr : list Z }.

(** The adapter: [NumTotalRFPath], [current_band_type], [rtw_get_oper_ch]. *)
Record radio_hal := mk_radio_hal { rh_paths : Z; rh_band : Z; rh_oper_ch : Z }.

(** [data_rate[]]: rate in 500 kb/s for CCK and OFDM, then MCS indices. *)
Definition data_rate : list Z :=
  [2; 4; 11; 22; 12; 18; 24; 36; 48; 72; 93; 108] ++ seqZ 0 32 ++
  seqZ 0 10 ++ seqZ 0 10 ++ seqZ 0 10 ++ seqZ 0 10.

(** [hdr_buf], [rt_len] and [it_present]. *)
Record rtap := mk_rtap { hdr_buf : list Z; rt_len : Z; it_present : Z }.

#[export] Instance eta_rtap : Eta rtap := fun r => mk_rtap (hdr_buf r) (rt_len r) (it_present r).

(** [rtap_hdr->it_present |= 1 << bit] *)
Definition present (bit : Z) (r : rtap) : rtap := r <| it_present := Z.lor (it_present r) (2 ^ bit) |>.

(** [memcpy(&hdr_buf[rt_len + k], bs, n)] *)
Definition poke (k : Z) (bs : list Z) (r : rtap) : option rtap :=
  b ← wrn (hdr_buf r) (rt_len r + k) bs; Some (r <| hdr_buf := b |>).

(** [hdr_buf[rt_len + k] |= v] *)
Definition or_at (k v : Z) (r : rtap) : option rtap :=
  x ← rd8 (hdr_buf r) (rt_len r + k); poke k [u8 (Z.lor x v)] r.

(** [rt_len += n] *)
Definition adv (n : Z) (r : rtap) : rtap := r <| rt_len := u16 (rt_len r + n) |>.

Definition u32_le (x : Z) : list Z := le_enc 4 x.
Definition u16_le (x : Z) : list Z := le_enc 2 x.

(** The further present words, one per antenna. *)
Fixpoint ext_words (n : nat) (r : rtap) : option rtap :=
  match n with
  | O => Some r
  | S n =>
      r ← poke 0 (u32_le (Z.lor (Z.lor (2 ^ RADIOTAP_ANTENNA) (2 ^ RADIOTAP_DBM_ANTSIGNAL))
                                (Z.lor (2 ^ RADIOTAP_EXT) (2 ^ RADIOTAP_NAMESPACE)))) r;
      ext_words n (adv 4 r)
  end.

Definition fill_present (h : radio_hal) (a : radio_attrib) (r : rtap) : option rtap :=
  if (0 <? rh_paths h) && negb (ra_physt a =? 0) then
    let r := present RADIOTAP_NAMESPACE (present RADIOTAP_EXT r) in
    r ← (if 1 <? rh_paths h then ext_words (Z.to_nat (rh_paths h - 1)) r else Some r);
    r ← poke 0 (u32_le (Z.lor (2 ^ RADIOTAP_ANTENNA) (2 ^ RADIOTAP_DBM_ANTSIGNAL))) r;
    Some (adv 4 r)
  else Some r.

Definition fill_tsft (a : radio_attrib) (r : rtap) : option rtap :=
  if negb (ra_tsfl a =? 0) then
    r ← poke 0 (le_enc 8 (ra_tsfl a)) (present RADIOTAP_TSFT r); Some (adv 8 r)
  else Some r.

Definition fill_flags (a : radio_attrib) (r : rtap) : option rtap :=
  let r := present RADIOTAP_FLAGS r in
  r ← (if (ra_encrypt a =? 1) || (ra_encrypt a =? 5) then or_at 0 F_WEP r else Some r);
  r ← (if negb (ra_mfrag a =? 0) then or_at 0 F_FRAG r else Some r);
  r ← or_at 0 F_FCS r;
  r ← (if negb (ra_crc_err a =? 0) then or_at 0 F_BADFCS r else Some r);
  r ← (if negb (ra_sgi a =? 0) then or_at 0 0x80 r else Some r);
  Some (adv 1 r).

Definition fill_rate (a : radio_attrib) (r : rtap) : option rtap :=
  r ← (if ra_data_rate a <? 12
       then poke 0 [arr_get data_rate (ra_data_rate a)] (present RADIOTAP_RATE r) else Some r);
  Some (adv 1 r).

Definition fill_channel (h : radio_hal) (a : radio_attrib) (r : rtap) : option rtap :=
  r ← poke 0 (u16_le (u16 (CHAN2FREQ (rh_oper_ch h)))) (present RADIOTAP_CHANNEL r);
  let r := adv 2 r in
  let fl := if rh_band h =? 0 then CHAN_2GHZ else CHAN_5GHZ in
  let fl := Z.lor fl (if ra_data_rate a <? 12 then if ra_data_rate a <? 4 then CHAN_CCK else CHAN_OFDM
                      else CHAN_DYN) in
  r ← poke 0 (u16_le fl) r;
  Some (adv 2 r).

Definition fill_signal (a : radio_attrib) (r : rtap) : option rtap :=
  r ← (if negb (ra_physt a =? 0) then
         r ← poke 0 [u8 (ra_recv_signal_power a)] (present RADIOTAP_DBM_ANTSIGNAL r); Some (adv 1 (adv 1 r))
       else Some r);
  r ← poke 0 (u16_le (ra_signal_quality a)) (present RADIOTAP_LOCK_QUALITY r);
  Some (adv 2 r).

Definition fill_mcs (a : radio_attrib) (r : rtap) : option rtap :=
  if (12 <=? ra_data_rate a) && (ra_data_rate a <? 44) then
    r ← or_at 0 2 (present RADIOTAP_MCS r);
    r ← or_at 0 1 r;
    r ← or_at 1 (Z.land (ra_bw a) 0x03) r;
    r ← or_at 0 4 r;
    r ← or_at 1 (Z.shiftl (Z.land (ra_sgi a) 0x01) 2) r;
    r ← or_at 0 32 r;
    r ← or_at 1 (Z.shiftl (Z.land (ra_stbc a) 0x03) 5) r;
    r ← poke 0 [arr_get data_rate (ra_data_rate a)] (adv 2 r);
    Some (adv 1 r)
  else Some r.

Definition fill_vht (a : radio_attrib) (r : rtap) : option rtap :=
  let d := ra_data_rate a in
  if (44 <=? d) && (d <? 84) then
    r ← or_at 2 (Z.land (ra_stbc a) 0x01) (present RADIOTAP_VHT r);
    r ← or_at 2 (Z.shiftl (Z.land (ra_sgi a) 0x01) 2) r;
    r ← or_at 2 (Z.shiftl (Z.land (ra_ldpc a) 0x01) 4) r;
    r ← poke 0 (u16_le (Z.lor (Z.lor (Z.lor 0x40 0x80) (Z.lor 0x100 0x1)) (Z.lor 0x4 0x10))) r;
    let r := adv 3 r in
    r ← (if ra_bw a =? 0 then or_at 0 0 r else if ra_bw a =? 1 then or_at 0 1 r
         else if ra_bw a =? 2 then or_at 0 4 r else if ra_bw a =? 3 then or_at 0 11 r else Some r);
    let r := adv 1 r in
    let mcs_nss k nss := r ← or_at k nss r; or_at k (Z.shiftl (arr_get data_rate d) 4) r in
    r ← (if (44 <=? d) && (d <? 54) then mcs_nss 0 1
         else if (54 <=? d) && (d <? 64) then mcs_nss 1 2
         else if (64 <=? d) && (d <? 74) then mcs_nss 2 3
         else if (74 <=? d) && (d <? 84) then mcs_nss 3 4 else Some r);
    r ← poke 0 [0] (adv 4 r);
    r ← poke 0 [0] (adv 1 r);
    r ← poke 0 (u16_le 0) (adv 1 r);
    Some (adv 2 r)
  else Some r.

(** Signal and number of each antenna; [rx_pwr] has four entries. *)
Fixpoint fill_antennas (n : nat) (i : Z) (a : radio_attrib) (r : rtap) : option rtap :=
  match n with
  | O => Some r
  | S n =>
      p ← ra_rx_pwr a !! Z.to_nat i;
      r ← poke 0 [u8 p] r;
      r ← poke 0 [u8 i] (adv 1 r);
      fill_antennas n (i + 1) a (adv 1 r)
  end.

(** The header: version, padding, length and first present word at the front
    of [hdr_buf]; [rt_len] bytes are prepended to the frame. *)
Definition radiotap_hdr (h : radio_hal) (a : radio_attrib) : option (list Z) :=
  r ← fill_present h a (mk_rtap (repeat 0 64) 8 0);
  r ← fill_tsft a r;
  r ← fill_flags a r;
  r ← fill_rate a r;
  r ← fill_channel h a r;
  r ← fill_signal a r;
  let r := adv 2 (present RADIOTAP_RX_FLAGS r) in
  r ← fill_mcs a r;
  r ← fill_vht a r;
  r ← (if negb (ra_physt a =? 0) then fill_antennas (Z.to_nat (rh_paths h)) 0 a r else Some r);
  b ← wrn (hdr_buf r) 0 ([0; 0] ++ u16_le (rt_len r) ++ u32_le (it_present r));
  rdn b 0 (rt_len r).

(** ** Reading a header *)

(** Alignment and size of the fields of the default namespace. *)
Definition rt_field (bit : Z) : option (Z * Z) :=
  match bit with
  | 0 => Some (8, 8) | 1 => Some (1, 1) | 2 => Some (1, 1) | 3 => Some (2, 4) | 4 => Some (2, 2)
  | 5 => Some (1, 1) | 6 => Some (1, 1) | 7 => Some (2, 2) | 8 => Some (2, 2) | 9 => Some (2, 2)
  | 10 => Some (1, 1) | 11 => Some (1, 1) | 12 => Some (1, 1) | 13 => Some (1, 1) | 14 => Some (2, 2)
  | 15 => Some (2, 2) | 16 => Some (1, 1) | 17 => Some (1, 1) | 19 => Some (1, 3) | 20 => Some (4, 8)
  | 21 => Some (2, 12) | _ => None
  end.

Definition align_up (n a : Z) : Z := (n + (a - 1)) / a * a.

(** The present words from offset [off] on, and where they end. *)
Fixpoint read_words (fuel : nat) (b : list Z) (off : Z) : option (list Z * Z) :=
  match fuel with
  | O => None
  | S fuel =>
      w ← le_dec <$> rdn b off 4;
      if Z.testbit w RADIOTAP_EXT then '(ws, e) ← read_words fuel b (off + 4); Some (w :: ws, e)
      else Some ([w], off + 4)
  end.

(** The fields of one present word: bit and content. *)
Fixpoint read_fields (bits : list Z) (w : Z) (b : list Z) (off : Z) : option (list (Z * list Z) * Z) :=
  match bits with
  | [] => Some ([], off)
  | i :: bits =>
      if Z.testbit w i then
        '(al, sz) ← rt_field i;
        let off := align_up off al in
        x ← rdn b off sz;
        '(fs, e) ← read_fields bits w b (off + sz);
        Some ((i, x) :: fs, e)
      else read_fields bits w b off
  end.

Fixpoint read_all (ws : list Z) (b : list Z) (off : Z) : option (list (Z * list Z) * Z) :=
  match ws with
  | [] => Some ([], off)
  | w :: ws =>
      '(fs, off) ← read_fields (seqZ 0 29) w b off;
      '(gs, off) ← read_all ws b off;
      Some (fs ++ gs, off)
  end.

(** The fields of a frame's header and what follows it. *)
Definition radiotap_read (b : list Z) : option (list (Z * list Z) * list Z) :=
  v ← rd8 b 0;
  n ← le_dec <$> rdn b 2 2;
  '(ws, off) ← read_words 8 b 4;
  '(fs, e) ← read_all ws b off;
  if (v =? 0) && (e <=? n) && (n <=? mem_len b) then Some (fs, drop (Z.to_nat n) b) else None.
