(* ===== verification/RadiotapSpec.v ===== *)
(** * The radiotap header can be read back

    [fill_radiotap_hdr] stays inside its array of 64 bytes for up to four
    antennas, and a reader that follows the radiotap alignment rules finds the
    fields in the header whenever the extended present words leave the
    timestamp aligned. *)

From S2P Require Import Prelude Mem Radiotap.
(** ** The cursor *)

Ltac len_lia :=
  unfold u16_le; rewrite ?length_app, ?length_insert, ?length_le_enc, ?repeat_length, ?length_take, ?length_drop; cbn [length];
  rewrite ?length_le_enc; lia.

(** Content [d] before the cursor, [p] staged at it, zeros behind. *)
Definition staged (d p : list Z) (w : Z) : rtap :=
  mk_rtap (d ++ p ++ repeat 0 (64 - length d - length p)) (Z.of_nat (length d)) w.

Abbreviation cursor d w := (staged d [] w).

Lemma stage n d w : (length d + n <= 64)%nat -> cursor d w = staged d (repeat 0 n) w.
Proof.
  intros H. unfold staged. f_equal. f_equal. cbn [app length]. rewrite repeat_length, <- repeat_app. f_equal. lia.
Qed.

Lemma poke_staged k bs d p w :
  0 <= k -> (Z.to_nat k + length bs <= length p)%nat ->
  poke k bs (staged d p w) =
    Some (staged d (take (Z.to_nat k) p ++ bs ++ drop (Z.to_nat k + length bs) p) w).
Proof.
  intros Hk Hl. unfold poke, staged. cbn [hdr_buf rt_len it_present].
  set (z := repeat 0 (64 - length d - length p)).
  assert (d ++ p ++ z = (d ++ take (Z.to_nat k) p) ++ take (length bs) (drop (Z.to_nat k) p) ++
                        (drop (Z.to_nat k + length bs) p ++ z)) as ->.
  { rewrite <- (take_drop (Z.to_nat k) p) at 1. rewrite <- (take_drop (length bs) (drop (Z.to_nat k) p)) at 1.
    rewrite drop_drop, <- !app_assoc. done. }
  rewrite wrn_app; [|unfold mem_len; rewrite length_app, length_take; lia|rewrite length_take, length_drop; lia].
  cbn [mbind option_bind]. unfold set, eta_rtap. cbn. f_equal. f_equal. subst z.
  rewrite !length_app, length_take, length_drop, <- !app_assoc. do 5 f_equal. lia.
Qed.

Lemma rd_staged k x d p w :
  0 <= k -> p !! Z.to_nat k = Some x -> rd8 (hdr_buf (staged d p w)) (rt_len (staged d p w) + k) = Some x.
Proof.
  intros Hk Hx. unfold rd8, staged. cbn [hdr_buf rt_len]. rewrite (proj2 (Z.leb_le _ _)) by lia.
  rewrite lookup_app_r by lia. replace (Z.to_nat _ - length d)%nat with (Z.to_nat k) by lia.
  rewrite lookup_app_l by (by eapply lookup_lt_Some). done.
Qed.

Lemma or_staged k v x d p w :
  0 <= k -> p !! Z.to_nat k = Some x ->
  or_at k v (staged d p w) = Some (staged d (<[Z.to_nat k := u8 (Z.lor x v)]> p) w).
Proof.
  intros Hk Hx. unfold or_at. rewrite (rd_staged k x) by done. cbn [mbind option_bind].
  pose proof (lookup_lt_Some _ _ _ Hx). rewrite poke_staged by len_lia. cbn [length].
  rewrite insert_take_drop by done. by rewrite Nat.add_1_r.
Qed.

Lemma adv_staged n d p w :
  n = Z.of_nat (length p) -> (length d + length p <= 64)%nat -> adv n (staged d p w) = cursor (d ++ p) w.
Proof.
  intros -> H. unfold adv, staged, set, eta_rtap. cbn. rewrite length_app, <- app_assoc. f_equal.
  - do 3 f_equal. lia.
  - rewrite wrap_small by width_lia. lia.
Qed.

Lemma drop_zeros n m : drop n (repeat 0 m) = repeat 0 (m - n).
Proof. revert n; induction m as [|m IH]; intros [|n]; cbn; done. Qed.

(** Moving the cursor into the staged bytes. *)
Lemma adv_split n d p w :
  0 <= n <= Z.of_nat (length p) -> (length d + length p <= 64)%nat ->
  adv n (staged d p w) = staged (d ++ take (Z.to_nat n) p) (drop (Z.to_nat n) p) w.
Proof.
  intros Hn H. unfold adv, staged, set, eta_rtap. cbn.
  rewrite length_app, length_take, length_drop, <- app_assoc. f_equal.
  - rewrite (app_assoc (take _ _)), take_drop. do 3 f_equal. lia.
  - rewrite wrap_small by width_lia. lia.
Qed.

(** Writing [bs] at the cursor and moving it behind [n] bytes. *)
Lemma put_staged n bs d w :
  Z.of_nat (length bs) <= n -> Z.of_nat (length d) + n <= 64 ->
  (r ← poke 0 bs (cursor d w); Some (adv n r)) =
    Some (cursor (d ++ bs ++ repeat 0 (Z.to_nat n - length bs)) w).
Proof.
  intros Hb Hn. rewrite (stage (Z.to_nat n)) by lia. rewrite poke_staged by (rewrite ?repeat_length; lia).
  cbn [mbind option_bind]. change (take (Z.to_nat 0) (repeat 0 (Z.to_nat n))) with (@nil Z). cbn [app].
  rewrite drop_zeros. rewrite adv_staged; [|rewrite length_app, repeat_length; lia..].
  do 5 f_equal; lia.
Qed.

Lemma present_staged i d p w : present i (staged d p w) = staged d p (Z.lor w (2 ^ i)).
Proof. done. Qed.

Lemma skip_staged n d w :
  0 <= n -> Z.of_nat (length d) + n <= 64 -> adv n (cursor d w) = cursor (d ++ repeat 0 (Z.to_nat n)) w.
Proof.
  intros Hn H. rewrite (stage (Z.to_nat n)) by lia. apply adv_staged; rewrite repeat_length; lia.
Qed.

Lemma u8_lor a b : u8 (Z.lor (u8 a) b) = u8 (Z.lor a b).
Proof.
  unfold wrap. apply Z.bits_inj'; intros i Hi. destruct (Z.lt_ge_cases i 8).
  - rewrite !Z.mod_pow2_bits_low, !Z.lor_spec, Z.mod_pow2_bits_low by lia. done.
  - rewrite !Z.mod_pow2_bits_high by lia. done.
Qed.

Lemma u8_lor3 x y z : u8 (Z.lor (u8 (Z.lor (u8 (Z.lor 0 x)) y)) z) = u8 (Z.lor (Z.lor x y) z).
Proof. by rewrite u8_lor, <- Z.lor_assoc, u8_lor, Z.lor_0_l, Z.lor_assoc. Qed.

(** Decide the comparisons of the goal with the hypotheses. *)
Ltac decide_tests :=
  repeat match goal with
  | |- context [?x <=? ?y] => first [rewrite (proj2 (Z.leb_le x y)) by lia | rewrite (proj2 (Z.leb_gt x y)) by lia]
  | |- context [?x <? ?y] => first [rewrite (proj2 (Z.ltb_lt x y)) by lia | rewrite (proj2 (Z.ltb_ge x y)) by lia]
  end.

(** Runs of [or_at] on the staged bytes. *)
Ltac run_or :=
  repeat (first [erewrite (or_staged 0) by (try reflexivity; lia) | erewrite (or_staged 1) by (try reflexivity; lia)
               | erewrite (or_staged 2) by (try reflexivity; lia) | erewrite (or_staged 3) by (try reflexivity; lia)];
          cbn [mbind option_bind]).

(** ** What each part writes *)

Definition b_words (h : radio_hal) (a : radio_attrib) : list Z :=
  if (0 <? rh_paths h) && negb (ra_physt a =? 0)
  then concat (repeat [0x20; 0x08; 0; 0xa0] (Z.to_nat (rh_paths h - 1))) ++ [0x20; 0x08; 0; 0] else [].

Definition b_tsft (a : radio_attrib) : list Z := if ra_tsfl a =? 0 then [] else le_enc 8 (ra_tsfl a).

(** Protected, fragment, FCS, bad FCS, short guard interval. *)
Definition b_flags (a : radio_attrib) : Z :=
  (if (ra_encrypt a =? 1) || (ra_encrypt a =? 5) then 4 else 0) + (if ra_mfrag a =? 0 then 0 else 8) + 16 +
  (if ra_crc_err a =? 0 then 0 else 64) + (if ra_sgi a =? 0 then 0 else 128).

Definition b_rate (a : radio_attrib) : Z := if ra_data_rate a <? 12 then arr_get data_rate (ra_data_rate a) else 0.

Definition b_channel (h : radio_hal) (a : radio_attrib) : list Z :=
  u16_le (u16 (CHAN2FREQ (rh_oper_ch h))) ++
  u16_le ((if rh_band h =? 0 then 0x80 else 0x100) +
          (if ra_data_rate a <? 12 then if ra_data_rate a <? 4 then 0x20 else 0x40 else 0x400)).

Definition b_signal (a : radio_attrib) : list Z :=
  (if ra_physt a =? 0 then [] else [u8 (ra_recv_signal_power a); 0]) ++ u16_le (ra_signal_quality a).

(** Known: MCS index, bandwidth, guard interval, STBC. *)
Definition b_mcs (a : radio_attrib) : list Z :=
  [0x27; u8 (Z.lor (Z.lor (Z.land (ra_bw a) 3) (Z.shiftl (Z.land (ra_sgi a) 1) 2)) (Z.shiftl (Z.land (ra_stbc a) 3) 5));
   arr_get data_rate (ra_data_rate a)].

(** Spatial streams and MCS, in the entry of user [streams - 1]. *)
Definition b_users (d : Z) : list Z :=
  let nss := (d - 44) / 10 + 1 in
  <[Z.to_nat (nss - 1) := u8 (Z.lor nss (Z.shiftl (arr_get data_rate d) 4))]> [0; 0; 0; 0].

Definition b_vht (a : radio_attrib) : list Z :=
  [0xd5; 0x01;
   u8 (Z.lor (Z.lor (Z.land (ra_stbc a) 1) (Z.shiftl (Z.land (ra_sgi a) 1) 2)) (Z.shiftl (Z.land (ra_ldpc a) 1) 4));
   (if ra_bw a =? 1 then 1 else if ra_bw a =? 2 then 4 else if ra_bw a =? 3 then 11 else 0)] ++
  b_users (ra_data_rate a) ++ [0; 0; 0; 0].

Definition is_mcs (a : radio_attrib) : bool := (12 <=? ra_data_rate a) && (ra_data_rate a <? 44).
Definition is_vht (a : radio_attrib) : bool := (44 <=? ra_data_rate a) && (ra_data_rate a <? 84).

Definition b_antennas (n : nat) (i : Z) (pwr : list Z) : list Z :=
  concat (map (fun k => [u8 (arr_get pwr k); u8 k]) (seqZ i (Z.of_nat n))).

Section fill.
Context (h : radio_hal) (a : radio_attrib).
Hypothesis paths_ok : 0 <= rh_paths h <= 4.
Hypothesis rate_ok : 0 <= ra_data_rate a < 84.

Lemma fill_words d w n :
  (length d + 4 * n <= 64)%nat ->
  ext_words n (cursor d w) = Some (cursor (d ++ concat (repeat [0x20; 0x08; 0; 0xa0] n)) w).
Proof.
  revert d; induction n as [|n IH]; intros d Hd; cbn [ext_words repeat concat]; [by rewrite app_nil_r|].
  change (u32_le _) with [0x20; 0x08; 0; 0xa0].
  transitivity ((r ← poke 0 [0x20; 0x08; 0; 0xa0] (cursor d w); Some (adv 4 r)) ≫= ext_words n).
  { by destruct (poke _ _ _). }
  rewrite put_staged by len_lia. cbn [mbind option_bind].
  change (repeat 0 (Z.to_nat 4 - length [32; 8; 0; 160])) with (@nil Z). rewrite app_nil_r.
  rewrite IH by (rewrite length_app; cbn [length]; lia). by rewrite <- app_assoc.
Qed.

Lemma fill_present_done d w :
  length d = 8%nat ->
  fill_present h a (cursor d w) =
    Some (cursor (d ++ b_words h a)
      (if (0 <? rh_paths h) && negb (ra_physt a =? 0) then Z.lor (Z.lor w (2 ^ 31)) (2 ^ 29) else w)).
Proof.
  intros Hd. unfold fill_present, b_words. destruct (_ && _) eqn:E; [|by rewrite app_nil_r].
  bool_hyps. rewrite !present_staged.
  change RADIOTAP_EXT with 31. change RADIOTAP_NAMESPACE with 29. set (w' := Z.lor _ (2 ^ 29)).
  assert ((if 1 <? rh_paths h then ext_words (Z.to_nat (rh_paths h - 1)) (cursor d w') else Some (cursor d w')) =
          ext_words (Z.to_nat (rh_paths h - 1)) (cursor d w')) as ->.
  { destruct (Z.ltb_spec 1 (rh_paths h)); [done|]. by replace (Z.to_nat (rh_paths h - 1)) with 0%nat by lia. }
  rewrite fill_words by lia. cbn [mbind option_bind]. change (u32_le _) with [0x20; 0x08; 0; 0].
  assert (forall n, length (concat (repeat [0x20; 0x08; 0; 0xa0] n)) = (4 * n)%nat) as Hl
    by (induction n as [|n IH]; cbn [repeat concat]; [done|]; rewrite length_app, IH; cbn [length]; lia).
  rewrite (put_staged 4) by (rewrite ?length_app, ?Hl; cbn [length]; lia).
  change (repeat 0 (Z.to_nat 4 - length [32; 8; 0; 0])) with (@nil Z). by rewrite app_nil_r, <- app_assoc.
Qed.

Lemma fill_tsft_done d w :
  (length d + 8 <= 64)%nat ->
  fill_tsft a (cursor d w) = Some (cursor (d ++ b_tsft a) (if ra_tsfl a =? 0 then w else Z.lor w (2 ^ 0))).
Proof.
  intros Hd. unfold fill_tsft, b_tsft. destruct (ra_tsfl a =? 0); cbn [negb]; [by rewrite app_nil_r|].
  rewrite present_staged, put_staged by (rewrite ?length_le_enc; lia). rewrite length_le_enc.
  change (repeat 0 (Z.to_nat 8 - 8)) with (@nil Z). by rewrite app_nil_r.
Qed.

Lemma fill_flags_done d w :
  (length d + 1 <= 64)%nat ->
  fill_flags a (cursor d w) = Some (cursor (d ++ [b_flags a]) (Z.lor w (2 ^ 1))).
Proof.
  intros Hd. unfold fill_flags, b_flags. rewrite present_staged, (stage 1) by lia.
  destruct ((ra_encrypt a =? 1) || (ra_encrypt a =? 5)), (ra_mfrag a =? 0), (ra_crc_err a =? 0), (ra_sgi a =? 0);
  cbn [negb mbind option_bind repeat];
  run_or; rewrite adv_staged by len_lia; reflexivity.
Qed.

Lemma fill_rate_done d w :
  (length d + 1 <= 64)%nat ->
  fill_rate a (cursor d w) = Some (cursor (d ++ [b_rate a]) (if ra_data_rate a <? 12 then Z.lor w (2 ^ 2) else w)).
Proof.
  intros Hd. unfold fill_rate, b_rate. destruct (ra_data_rate a <? 12).
  - by rewrite present_staged, put_staged by len_lia.
  - cbn [mbind option_bind]. by rewrite skip_staged by lia.
Qed.

Lemma fill_channel_done d w :
  (length d + 4 <= 64)%nat ->
  fill_channel h a (cursor d w) = Some (cursor (d ++ b_channel h a) (Z.lor w (2 ^ 3))).
Proof.
  intros Hd. unfold fill_channel, b_channel, u16_le. rewrite present_staged.
  set (f := le_enc 2 (u16 _)). assert (length f = 2%nat) as Hf by apply length_le_enc.
  set (fl := if rh_band h =? 0 then CHAN_2GHZ else CHAN_5GHZ).
  set (g := if ra_data_rate a <? 12 then _ else CHAN_DYN).
  transitivity ((r ← poke 0 f (cursor d (Z.lor w (2 ^ 3))); Some (adv 2 r)) ≫=
                fun r => r ← poke 0 (le_enc 2 (Z.lor fl g)) r; Some (adv 2 r)).
  { by destruct (poke _ _ _). }
  rewrite put_staged by lia. cbn [mbind option_bind]. rewrite Hf. cbn [repeat]. change (repeat 0 _) with (@nil Z).
  rewrite app_nil_r, put_staged by (rewrite ?length_app, ?length_le_enc; lia). rewrite length_le_enc.
  change (repeat 0 _) with (@nil Z). rewrite app_nil_r, <- app_assoc. do 4 f_equal.
  subst fl g. destruct (rh_band h =? 0), (ra_data_rate a <? 12), (ra_data_rate a <? 4); reflexivity.
Qed.

Lemma fill_signal_done d w :
  (length d + 4 <= 64)%nat ->
  fill_signal a (cursor d w) =
    Some (cursor (d ++ b_signal a) (Z.lor (if ra_physt a =? 0 then w else Z.lor w (2 ^ 5)) (2 ^ 7))).
Proof.
  intros Hd. unfold fill_signal, b_signal. set (sq := u16_le _).
  assert (length sq = 2%nat) as Hl by apply length_le_enc. destruct (ra_physt a =? 0); cbn [negb].
  - cbn [mbind option_bind]. rewrite present_staged, put_staged by lia. rewrite Hl.
    change (repeat 0 _) with (@nil Z). by rewrite app_nil_r.
  - rewrite present_staged, (stage 2) by lia. rewrite poke_staged by len_lia. cbn [mbind option_bind].
    assert (forall r, adv 1 (adv 1 r) = adv 2 r) as Hadv.
    { intros r. unfold adv, set, eta_rtap. cbn. f_equal. unfold wrap. rewrite Zplus_mod_idemp_l. f_equal. lia. }
    change (take _ _ ++ _ ++ drop _ _) with [u8 (ra_recv_signal_power a); 0].
    rewrite Hadv, adv_staged by len_lia.
    rewrite present_staged, put_staged by len_lia. rewrite Hl.
    change (repeat 0 _) with (@nil Z). by rewrite app_nil_r, <- app_assoc.
Qed.

Lemma fill_mcs_done d w :
  (length d + 3 <= 64)%nat ->
  fill_mcs a (cursor d w) = Some (if is_mcs a then cursor (d ++ b_mcs a) (Z.lor w (2 ^ 19)) else cursor d w).
Proof.
  intros Hd. unfold fill_mcs, is_mcs. destruct (_ && _); [|done]. rewrite present_staged, (stage 2) by lia.
  cbn [repeat]. run_or. rewrite adv_staged by len_lia.
  rewrite put_staged by len_lia.
  cbn [insert list_insert Z.to_nat Pos.to_nat Pos.iter_op]. rewrite <- app_assoc. unfold b_mcs. rewrite <- u8_lor3. reflexivity.
Qed.

Lemma users_done d w :
  (length d + 8 <= 64)%nat -> is_vht a = true ->
  let dr := ra_data_rate a in
  let mcs_nss k nss r := r ← or_at k nss r; or_at k (Z.shiftl (arr_get data_rate dr) 4) r in
  let r := staged d (repeat 0 8) w in
  (if (44 <=? dr) && (dr <? 54) then mcs_nss 0 1 r
   else if (54 <=? dr) && (dr <? 64) then mcs_nss 1 2 r
   else if (64 <=? dr) && (dr <? 74) then mcs_nss 2 3 r
   else if (74 <=? dr) && (dr <? 84) then mcs_nss 3 4 r else Some r) =
  Some (staged d (b_users dr ++ [0; 0; 0; 0]) w).
Proof.
  intros Hd Hv dr mcs_nss r. unfold is_vht in Hv. bool_hyps. unfold b_users.
  assert (forall nss : Z, u8 (Z.lor (u8 (Z.lor 0 nss)) (Z.shiftl (arr_get data_rate dr) 4)) =
          u8 (Z.lor nss (Z.shiftl (arr_get data_rate dr) 4))) as Hu by (intros; by rewrite u8_lor, Z.lor_0_l).
  assert (exists k, (dr - 44) / 10 = k /\ 0 <= k < 4 /\ 44 + 10 * k <= dr < 54 + 10 * k) as (k & Hk & Hk4 & Hdr).
  { exists ((dr - 44) / 10). pose proof (Z.div_mod (dr - 44) 10 ltac:(lia)). pose proof (Z.mod_pos_bound (dr - 44) 10 ltac:(lia)).
    subst dr. split_and!; try done; lia. }
  rewrite Hk. assert (k = 0 \/ k = 1 \/ k = 2 \/ k = 3) as Hc by lia.
  destruct Hc as [-> | [-> | [-> | ->]]];
    decide_tests;
    cbn [andb]; subst mcs_nss r; cbv beta; cbn [repeat]; run_or; rewrite Hu; reflexivity.
Qed.

Lemma fill_vht_done d w :
  (length d + 12 <= 64)%nat ->
  fill_vht a (cursor d w) = Some (if is_vht a then cursor (d ++ b_vht a) (Z.lor w (2 ^ 21)) else cursor d w).
Proof.
  intros Hd. unfold fill_vht. fold (is_vht a). destruct (is_vht a) eqn:Hv; [|done].
  rewrite present_staged, (stage 12) by lia. cbn [repeat]. cbv zeta. run_or.
  rewrite poke_staged by len_lia. cbn [mbind option_bind].
  set (p := take (Z.to_nat 0) _ ++ _). set (fl := Z.lor (Z.lor (Z.land (ra_stbc a) 1) (Z.shiftl (Z.land (ra_sgi a) 1) 2)) (Z.shiftl (Z.land (ra_ldpc a) 1) 4)).
  assert (p = [0xd5; 0x01; u8 fl; 0; 0; 0; 0; 0; 0; 0; 0; 0]) as -> by (subst p fl; rewrite <- u8_lor3; reflexivity).
  rewrite adv_split by len_lia. change (take (Z.to_nat 3) _) with [0xd5; 0x01; u8 fl].
  change (drop (Z.to_nat 3) _) with (repeat 0 9). cbn [repeat].
  set (bw := if ra_bw a =? 1 then 1 else if ra_bw a =? 2 then 4 else if ra_bw a =? 3 then 11 else 0).
  match goal with |- (?x ≫= _) = _ =>
    assert (x = Some (staged (d ++ [213; 1; u8 fl]) [bw; 0; 0; 0; 0; 0; 0; 0; 0] (Z.lor w (2 ^ RADIOTAP_VHT)))) as -> end.
  { subst bw. destruct (Z.eqb_spec (ra_bw a) 0) as [->|]; [by run_or|].
    destruct (ra_bw a =? 1), (ra_bw a =? 2), (ra_bw a =? 3); by run_or. }
  cbn [mbind option_bind]. rewrite adv_split by len_lia.
  change (take (Z.to_nat 1) _) with [bw]. change (drop (Z.to_nat 1) _) with (repeat 0 8). rewrite <- app_assoc. cbn [app].
  pose proof (users_done (d ++ [213; 1; u8 fl; bw]) (Z.lor w (2 ^ RADIOTAP_VHT))
    ltac:(rewrite length_app; cbn [length]; lia) Hv) as Hu. cbv zeta beta in Hu. cbv zeta. rewrite Hu. clear Hu.
  assert (length (b_users (ra_data_rate a)) = 4%nat) as Hl by (unfold b_users; by rewrite length_insert).
  cbn [mbind option_bind]. rewrite adv_split by (rewrite ?length_app, ?Hl; cbn [length]; lia).
  rewrite take_app_length' by lia. rewrite drop_app_length' by lia.
  set (d1 := (d ++ _) ++ b_users _). assert (length d1 = length d + 8)%nat as Hd1
    by (subst d1; rewrite !length_app, Hl; cbn [length]; lia).
  rewrite poke_staged by len_lia. cbn [mbind option_bind].
  rewrite adv_split by len_lia. change (drop (Z.to_nat 1) _) with [0; 0; 0]. change (take (Z.to_nat 1) _) with [0].
  rewrite poke_staged by len_lia. cbn [mbind option_bind].
  rewrite adv_split by len_lia. change (drop (Z.to_nat 1) _) with [0; 0].
  change (take (Z.to_nat 1) _) with [0]. rewrite poke_staged by len_lia. cbn [mbind option_bind].
  change (take (Z.to_nat 0) _ ++ _ ++ _) with [0; 0]. rewrite adv_staged by len_lia.
  subst d1. unfold b_vht. by rewrite <- !app_assoc.
Qed.

Lemma antennas_done n : forall i d w,
  length (ra_rx_pwr a) = 4%nat -> 0 <= i -> i + Z.of_nat n <= 4 -> (length d + 2 * n <= 64)%nat ->
  fill_antennas n i a (cursor d w) = Some (cursor (d ++ b_antennas n i (ra_rx_pwr a)) w).
Proof.
  induction n as [|n IH]; intros i d w Hp Hi Hin Hd; cbn [fill_antennas]; [by rewrite app_nil_r|].
  destruct (ra_rx_pwr a !! Z.to_nat i) as [p|] eqn:E; [|apply lookup_ge_None in E; lia]. cbn [mbind option_bind].
  rewrite (stage 2) by lia. rewrite poke_staged by len_lia. cbn [mbind option_bind].
  change (take (Z.to_nat 0) _ ++ _ ++ _) with [u8 p; 0]. rewrite adv_split by len_lia.
  change (drop (Z.to_nat 1) _) with [0]. change (take (Z.to_nat 1) _) with [u8 p].
  rewrite poke_staged by len_lia. cbn [mbind option_bind]. change (take (Z.to_nat 0) _ ++ _ ++ _) with [u8 i].
  rewrite adv_staged by len_lia.
  rewrite IH by len_lia. unfold b_antennas.
  rewrite (seqZ_cons i) by lia. cbn [map concat]. rewrite <- !app_assoc. unfold arr_get at 2. rewrite E. cbn [default app].
  do 4 f_equal. replace (Z.succ i) with (i + 1) by lia. by replace (Z.pred (Z.of_nat (S n))) with (Z.of_nat n) by lia.
Qed.

(** ** The whole header *)

Definition rt_body : list Z :=
  b_words h a ++ b_tsft a ++ [b_flags a] ++ [b_rate a] ++ b_channel h a ++ b_signal a ++ [0; 0] ++
  (if is_mcs a then b_mcs a else if is_vht a then b_vht a else []) ++
  (if ra_physt a =? 0 then [] else b_antennas (Z.to_nat (rh_paths h)) 0 (ra_rx_pwr a)).

Definition rt_word : Z :=
  (if (0 <? rh_paths h) && negb (ra_physt a =? 0) then 2 ^ 31 + 2 ^ 29 else 0) +
  (if ra_tsfl a =? 0 then 0 else 2 ^ 0) + 2 ^ 1 + (if ra_data_rate a <? 12 then 2 ^ 2 else 0) + 2 ^ 3 +
  (if ra_physt a =? 0 then 0 else 2 ^ 5) + 2 ^ 7 + 2 ^ 14 +
  (if is_mcs a then 2 ^ 19 else if is_vht a then 2 ^ 21 else 0).

Lemma body_lengths :
  (length (b_words h a) <= 16 /\ length (b_tsft a) <= 8 /\ length (b_channel h a) = 4 /\
   length (b_signal a) <= 4 /\ length (b_vht a) = 12 /\
   length (b_antennas (Z.to_nat (rh_paths h)) 0 (ra_rx_pwr a)) <= 8)%nat.
Proof.
  unfold b_words, b_tsft, b_channel, b_signal, b_vht, b_antennas.
  split_and!; try (repeat case_match; len_lia).
  - destruct (_ && _); [|cbn; lia].
    assert (forall n, length (concat (repeat [0x20; 0x08; 0; 0xa0] n)) = (4 * n)%nat) as Hl
      by (induction n as [|n IH]; cbn [repeat concat]; [done|]; rewrite length_app, IH; cbn [length]; lia).
    rewrite length_app, Hl. cbn [length]. lia.
  - unfold b_users. len_lia.
  - assert (forall l : list Z, length (concat (map (fun k => [u8 (arr_get (ra_rx_pwr a) k); u8 k]) l)) = (2 * length l)%nat) as Hl
      by (induction l as [|x l IH]; cbn [map concat]; [done|]; rewrite length_app, IH; cbn [length]; lia).
    rewrite Hl, length_seqZ. lia.
Qed.

Lemma mcs_vht_done d w :
  (length d + 12 <= 64)%nat ->
  (r ← fill_mcs a (cursor d w); fill_vht a r) =
    Some (cursor (d ++ (if is_mcs a then b_mcs a else if is_vht a then b_vht a else []))
                 (if is_mcs a then Z.lor w (2 ^ 19) else if is_vht a then Z.lor w (2 ^ 21) else w)).
Proof.
  intros Hd. rewrite fill_mcs_done by lia. cbn [mbind option_bind]. destruct (is_mcs a) eqn:Em.
  - assert (is_vht a = false) as Hv.
    { unfold is_mcs in Em. unfold is_vht. bool_hyps. rewrite (proj2 (Z.leb_gt _ _)) by lia. done. }
    unfold fill_vht. fold (is_vht a). by rewrite Hv.
  - rewrite fill_vht_done by lia. destruct (is_vht a); [done|]. by rewrite app_nil_r.
Qed.

(** The present word as it is accumulated. *)
Definition rt_lor : Z :=
  let w := if (0 <? rh_paths h) && negb (ra_physt a =? 0) then Z.lor (Z.lor 0 (2 ^ 31)) (2 ^ 29) else 0 in
  let w := Z.lor (if ra_tsfl a =? 0 then w else Z.lor w (2 ^ 0)) (2 ^ 1) in
  let w := Z.lor (if ra_data_rate a <? 12 then Z.lor w (2 ^ 2) else w) (2 ^ 3) in
  let w := Z.lor (Z.lor (if ra_physt a =? 0 then w else Z.lor w (2 ^ 5)) (2 ^ 7)) (2 ^ 14) in
  if is_mcs a then Z.lor w (2 ^ 19) else if is_vht a then Z.lor w (2 ^ 21) else w.

Lemma rt_lor_word : rt_lor = rt_word.
Proof.
  unfold rt_lor, rt_word. destruct ((0 <? rh_paths h) && negb (ra_physt a =? 0)), (ra_tsfl a =? 0),
    (ra_data_rate a <? 12), (ra_physt a =? 0), (is_mcs a), (is_vht a); reflexivity.
Qed.

Lemma header_staged :
  length (ra_rx_pwr a) = 4%nat -> (8 + length rt_body <= 64)%nat ->
  radiotap_hdr h a =
    (let r := cursor (repeat 0 8 ++ rt_body) rt_lor in
     b ← wrn (hdr_buf r) 0 ([0; 0] ++ u16_le (rt_len r) ++ u32_le (it_present r)); rdn b 0 (rt_len r)).
Proof.
  intros Hp Hl. destruct body_lengths as (L1 & L2 & L3 & L4 & L5 & L6). unfold radiotap_hdr.
  change (mk_rtap (repeat 0 64) 8 0) with (cursor (repeat 0 8) 0).
  rewrite fill_present_done by done. set (w1 := if _ && _ then _ else 0). cbn [mbind option_bind].
  rewrite fill_tsft_done by len_lia. set (w2 := if ra_tsfl a =? 0 then w1 else _). cbn [mbind option_bind].
  rewrite fill_flags_done by len_lia. set (w3 := Z.lor w2 _). cbn [mbind option_bind].
  rewrite fill_rate_done by len_lia. set (w4 := if ra_data_rate a <? 12 then _ else w3). cbn [mbind option_bind].
  rewrite fill_channel_done by len_lia. set (w5 := Z.lor w4 _). cbn [mbind option_bind].
  rewrite fill_signal_done by len_lia. set (w6 := Z.lor _ (2 ^ 7)). cbn [mbind option_bind].
  rewrite present_staged, skip_staged by len_lia. set (d := (_ ++ repeat 0 (Z.to_nat 2))).
  set (ant := if ra_physt a =? 0 then [] else b_antennas (Z.to_nat (rh_paths h)) 0 (ra_rx_pwr a)).
  set (rates := if is_mcs a then b_mcs a else if is_vht a then b_vht a else []).
  set (w7 := Z.lor w6 _). set (w8 := if is_mcs a then Z.lor w7 (2 ^ 19) else if is_vht a then Z.lor w7 (2 ^ 21) else w7).
  assert (repeat 0 8 ++ rt_body = d ++ rates ++ ant) as Hbody by (subst d; unfold rt_body; rewrite <- !app_assoc; done).
  assert (length d <= 44)%nat as Hd by (subst d; len_lia).
  pose proof (mcs_vht_done d w7 ltac:(lia)) as Hmv. fold rates w8 in Hmv.
  match goal with |- (_ ≫= ?k) = _ =>
    transitivity ((r ← fill_mcs a (cursor d w7); fill_vht a r) ≫= fun r =>
      r ← (if negb (ra_physt a =? 0) then fill_antennas (Z.to_nat (rh_paths h)) 0 a r else Some r);
      b ← wrn (hdr_buf r) 0 ([0; 0] ++ u16_le (rt_len r) ++ u32_le (it_present r)); rdn b 0 (rt_len r)) end.
  { change RADIOTAP_RX_FLAGS with 14 in *. by destruct (fill_mcs a _). }
  rewrite Hmv. cbn [mbind option_bind]. change rt_lor with w8. rewrite Hbody, app_assoc.
  assert (length rates <= 12)%nat as Hr by (subst rates; destruct (is_mcs a); [unfold b_mcs; cbn; lia|destruct (is_vht a); [lia|cbn; lia]]).
  assert ((if negb (ra_physt a =? 0) then fill_antennas (Z.to_nat (rh_paths h)) 0 a (cursor (d ++ rates) w8)
           else Some (cursor (d ++ rates) w8)) = Some (cursor ((d ++ rates) ++ ant) w8)) as ->; [|done].
  subst ant. destruct (ra_physt a =? 0); cbn [negb]; [by rewrite app_nil_r|]. apply antennas_done; [done|lia|lia|].
  rewrite length_app. lia.
Qed.

Lemma body_room : (8 + length rt_body <= 64)%nat.
Proof.
  destruct body_lengths as (L1 & L2 & L3 & L4 & L5 & L6). unfold rt_body. rewrite !length_app, L3. cbn [length].
  assert (length (if is_mcs a then b_mcs a else if is_vht a then b_vht a else []) <= 12)%nat
    by (destruct (is_mcs a); [unfold b_mcs; cbn; lia|destruct (is_vht a); [lia|cbn; lia]]).
  assert (length (if (ra_physt a =? 0)%Z then [] else b_antennas (Z.to_nat (rh_paths h)) 0 (ra_rx_pwr a)) <= 8)%nat
    by (destruct (ra_physt a =? 0); [cbn; lia|lia]). lia.
Qed.

Lemma header_bytes :
  length (ra_rx_pwr a) = 4%nat ->
  radiotap_hdr h a = Some ([0; 0] ++ u16_le (8 + Z.of_nat (length rt_body)) ++ u32_le rt_word ++ rt_body).
Proof.
  intros Hp. pose proof body_room as Hroom. rewrite header_staged by done. cbv zeta. unfold staged. cbn [hdr_buf rt_len it_present].
  rewrite length_app, repeat_length. rewrite rt_lor_word.
  replace (Z.of_nat (8 + length rt_body)) with (8 + Z.of_nat (length rt_body)) by lia.
  set (hd := [0; 0] ++ u16_le _ ++ u32_le rt_word). set (z := _ ++ repeat 0 _).
  assert (length hd = 8%nat) as Hhd by (subst hd; unfold u32_le; len_lia).
  pose proof (wrn_app [] (repeat 0 8) (rt_body ++ z) 0 hd eq_refl Hhd) as Ew. rewrite !app_nil_l in Ew.
  rewrite <- app_assoc, Ew. cbn [mbind option_bind].
  pose proof (rdn_app [] (hd ++ rt_body) z 0 (8 + Z.of_nat (length rt_body)) eq_refl
    ltac:(unfold mem_len; rewrite length_app; lia)) as Er. rewrite app_nil_l, <- app_assoc in Er. rewrite Er.
  subst hd. by rewrite <- !app_assoc.
Qed.
End fill.

(** ** Reading it back *)

Lemma rdn_more b f off n x : rdn b off n = Some x -> rdn (b ++ f) off n = Some x.
Proof.
  intros H. rewrite <- H. unfold rdn in H. destruct (_ && _) eqn:E in H; [|done]. bool_hyps.
  rewrite (rdn_prefix b f []) by lia. by rewrite app_nil_r.
Qed.

Lemma read_words_more fuel b f : forall off r, read_words fuel b off = Some r -> read_words fuel (b ++ f) off = Some r.
Proof.
  induction fuel as [|n IH]; intros off r; cbn [read_words]; [done|].
  destruct (rdn b off 4) as [x|] eqn:E; [|done]. rewrite (rdn_more _ _ _ _ _ E). cbn [fmap option_fmap option_map mbind option_bind].
  destruct (Z.testbit _ _); [|done]. destruct (read_words n b (off + 4)) as [[ws e]|] eqn:E2; [|done].
  by rewrite (IH _ _ E2).
Qed.

Lemma read_fields_more bits w b f : forall off r, read_fields bits w b off = Some r -> read_fields bits w (b ++ f) off = Some r.
Proof.
  induction bits as [|i bits IH]; intros off r; cbn [read_fields]; [done|].
  destruct (Z.testbit w i); [|apply IH]. destruct (rt_field i) as [[al sz]|]; [|done]. cbn [mbind option_bind].
  destruct (rdn b (align_up off al) sz) as [x|] eqn:E; [|done]. rewrite (rdn_more _ _ _ _ _ E). cbn [mbind option_bind].
  destruct (read_fields bits w b _) as [[fs e]|] eqn:E2; [|done]. by rewrite (IH _ _ E2).
Qed.

Lemma read_all_more ws b f : forall off r, read_all ws b off = Some r -> read_all ws (b ++ f) off = Some r.
Proof.
  induction ws as [|w ws IH]; intros off r; cbn [read_all]; [done|].
  destruct (read_fields _ w b off) as [[fs e]|] eqn:E; [|done]. rewrite (read_fields_more _ _ _ _ _ _ E). cbn [mbind option_bind].
  destruct (read_all ws b e) as [[gs e2]|] eqn:E2; [|done]. by rewrite (IH _ _ E2).
Qed.

(** What follows a header that fills its buffer is the frame. *)
Lemma radiotap_read_more b f fs : radiotap_read b = Some (fs, []) -> radiotap_read (b ++ f) = Some (fs, f).
Proof.
  unfold radiotap_read. destruct b as [|v b0] eqn:Eb; [done|]. rewrite <- Eb in *. clear b0 Eb.
  destruct (rd8 b 0) as [v0|] eqn:E0; [|done]. cbn [mbind option_bind].
  assert (rd8 (b ++ f) 0 = Some v0) as ->.
  { unfold rd8 in *. cbn in *. rewrite lookup_app_l; [done|]. by eapply lookup_lt_Some. }
  destruct (rdn b 2 2) as [n|] eqn:E1; [|done]. rewrite (rdn_more _ _ _ _ _ E1). cbn [fmap option_fmap option_map mbind option_bind].
  destruct (read_words 8 b 4) as [[ws off]|] eqn:E2; [|done]. rewrite (read_words_more _ _ _ _ _ E2). cbn [mbind option_bind].
  destruct (read_all ws b off) as [[gs e]|] eqn:E3; [|done]. rewrite (read_all_more _ _ _ _ _ E3). cbn [mbind option_bind].
  destruct (_ && _) eqn:E; [|done]. intros [= -> Hd]. bool_hyps. rewrite mem_len_app. pose proof (mem_len_nonneg f).
  rewrite (proj2 (Z.eqb_eq _ _)), !(proj2 (Z.leb_le _ _)) by lia. cbn [andb]. do 2 f_equal.
  assert (Z.to_nat (le_dec n) = length b) as ->.
  { apply (f_equal length) in Hd. rewrite length_drop in Hd. cbn in Hd. unfold mem_len in *. lia. }
  by rewrite drop_app_length.
Qed.

(** ** The fields a reader finds *)

Definition rt_fields (h : radio_hal) (a : radio_attrib) : list (Z * list Z) :=
  (if ra_tsfl a =? 0 then [] else [(RADIOTAP_TSFT, le_enc 8 (ra_tsfl a))]) ++
  [(RADIOTAP_FLAGS, [b_flags a])] ++
  (if ra_data_rate a <? 12 then [(RADIOTAP_RATE, [arr_get data_rate (ra_data_rate a)])] else []) ++
  [(RADIOTAP_CHANNEL, b_channel h a)] ++
  (if ra_physt a =? 0 then [] else [(RADIOTAP_DBM_ANTSIGNAL, [u8 (ra_recv_signal_power a)])]) ++
  [(RADIOTAP_LOCK_QUALITY, u16_le (ra_signal_quality a)); (RADIOTAP_RX_FLAGS, [0; 0])] ++
  (if is_mcs a then [(RADIOTAP_MCS, b_mcs a)] else if is_vht a then [(RADIOTAP_VHT, b_vht a)] else []) ++
  (if ra_physt a =? 0 then []
   else concat (map (fun k => [(RADIOTAP_DBM_ANTSIGNAL, [u8 (arr_get (ra_rx_pwr a) k)]); (RADIOTAP_ANTENNA, [u8 k])])
                    (seqZ 0 (rh_paths h)))).

(** The present words leave the timestamp at a multiple of eight. *)
Definition tsft_aligned (h : radio_hal) (a : radio_attrib) : Prop :=
  ra_tsfl a = 0 \/ ra_physt a = 0 \/ Z.even (rh_paths h) = true.

(** Name the bytes of a list of known length. *)
Ltac explode l n :=
  let x := fresh "x" in let H := fresh in
  assert (length l = n) as H by (try assumption; try (by apply length_le_enc); cbn; lia);
  revert H; generalize l; intros x H;
  repeat (destruct x as [|? x]; [discriminate H|apply Nat.succ_inj in H]);
  (destruct x; [clear H|discriminate H]).

Lemma read_header h a :
  0 <= rh_paths h <= 4 -> 0 <= ra_data_rate a < 84 -> length (ra_rx_pwr a) = 4%nat -> tsft_aligned h a ->
  radiotap_read ([0; 0] ++ u16_le (8 + Z.of_nat (length (rt_body h a))) ++ u32_le (rt_word h a) ++ rt_body h a) =
    Some (rt_fields h a, []).
Proof.
  intros Hn Hr Hp Ht. destruct (body_lengths h a Hn) as (_ & _ & Hch & _ & Hvl & _).
  assert (length (b_mcs a) = 3%nat) as Hml by done.
  assert (is_mcs a = true -> (ra_data_rate a <? 12) = false) as Hm.
  { unfold is_mcs. intros E. bool_hyps. by apply Z.ltb_ge. }
  assert (is_vht a = true -> (ra_data_rate a <? 12) = false) as Hv.
  { unfold is_vht. intros E. bool_hyps. apply Z.ltb_ge. lia. }
  unfold rt_body, rt_word, rt_fields, tsft_aligned, b_words, b_tsft, b_rate, b_signal, b_antennas in *.
  generalize dependent (ra_rx_pwr a). generalize (u8 (ra_recv_signal_power a)) as p.
  generalize (b_flags a) as fl. generalize (arr_get data_rate (ra_data_rate a)) as dr.
  generalize dependent (b_channel h a). generalize dependent (b_vht a). generalize dependent (b_mcs a).
  intros mc Hml vh Hvl ch Hch dr fl p rx Hp.
  explode (le_enc 8 (ra_tsfl a)) 8%nat. explode (u16_le (ra_signal_quality a)) 2%nat.
  explode mc 3%nat. explode vh 12%nat. explode ch 4%nat. explode rx 4%nat.
  revert Ht Hm Hv. destruct (Z.eqb_spec (ra_tsfl a) 0) as [_|Hts], (Z.eqb_spec (ra_physt a) 0) as [_|Hph],
    (ra_data_rate a <? 12), (is_mcs a), (is_vht a); intros Ht Hm Hv;
    try (discriminate (Hm eq_refl)); try (discriminate (Hv eq_refl)); clear Hm Hv;
    (assert (rh_paths h = 0 \/ rh_paths h = 1 \/ rh_paths h = 2 \/ rh_paths h = 3 \/ rh_paths h = 4) as Hc by lia;
     destruct Hc as [E|[E|[E|[E|E]]]]; rewrite E in *;
     first [vm_compute; reflexivity | exfalso; destruct Ht as [Ht|[Ht|Ht]]; [by apply Hts|by apply Hph|discriminate Ht]]).
Qed.

(** C36. For up to four receive paths and a rate below 84 the radiotap
    header fits its array and, where the present words leave the timestamp
    aligned (no timestamp, no signal report or an even number of paths,
    [tsft_aligned]; [one_path_misread] shows a frame with one path), a
    reader of the radiotap format finds exactly the fields [rt_fields] of
    the attributes and then the frame. The VHT field is the one the code
    fills: its user entries are [b_users], which for two or more streams
    leave the first user's empty ([two_streams_no_user]). *)
Theorem radiotap_roundtrip h a frame :
  0 <= rh_paths h <= 4 -> 0 <= ra_data_rate a < 84 -> length (ra_rx_pwr a) = 4%nat -> tsft_aligned h a ->
  exists b, radiotap_hdr h a = Some b /\ (length b <= 64)%nat /\
    radiotap_read (b ++ frame) = Some (rt_fields h a, frame).
Proof.
  intros Hn Hr Hp Ht. eexists. split; [by apply header_bytes|]. split.
  - pose proof (body_room h a Hn). unfold u32_le. len_lia.
  - apply radiotap_read_more. by apply read_header.
Qed.

(** ** Concrete headers *)

(** A VHT frame of one stream at MCS 6, 80 MHz, short guard interval. *)
Definition demo_attrib (rate : Z) : radio_attrib :=
  mk_radio_attrib 0x11223344 4 0 0 1 rate 1 (-56) 50 2 0 1 [-56; -60; 0; 0].

Lemma radiotap_roundtrip_witness :
  exists b, radiotap_hdr (mk_radio_hal 2 1 36) (demo_attrib 50) = Some b /\ (length b <= 64)%nat /\
    radiotap_read (b ++ [0x08; 0x42]) = Some (rt_fields (mk_radio_hal 2 1 36) (demo_attrib 50), [0x08; 0x42]).
Proof.
  apply radiotap_roundtrip; [cbn; lia|cbn; lia|reflexivity|right; right; reflexivity].
Defined.

(** With one receive path a reader takes the timestamp from the wrong place. *)
Example one_path_misread :
  exists b, radiotap_hdr (mk_radio_hal 1 1 36) (demo_attrib 50) = Some b /\
    radiotap_read (b ++ repeat 0 30) <> Some (rt_fields (mk_radio_hal 1 1 36) (demo_attrib 50), repeat 0 30).
Proof. eexists. split; [vm_compute; reflexivity|]. vm_compute. discriminate. Qed.

(** With two streams the entry of the first user stays empty. *)
Example two_streams_no_user : b_users 60 = [0; 0x62; 0; 0].
Proof. reflexivity. Qed.

(** Channel 14 is reported as 5070 MHz. *)
Example channel_14 : CHAN2FREQ 14 = 5070.
Proof. reflexivity. Qed.

(** A fifth receive path leaves the array. *)
Example five_paths : radiotap_hdr (mk_radio_hal 5 1 36) (demo_attrib 50) = None.
Proof. vm_compute. reflexivity. Qed.
