(* ===== verification/Monitor.v ===== *)
(** * From the driver's receive queue to V-MAC (core/rtw_recv.c)

    In monitor mode [recv_func] hands every received frame to
    [recv_frame_monitor]: a radiotap header is pushed in front of it,
    [vmac_override] recognises the frames of the module by the third address,
    strips both headers again and calls [vmac_rx], and the receive frame goes
    back to the free queue. *)

From S2P Require Import Prelude Skb VmacDefs Kernel Tables Tx Dack Rx Mem SecDefs Radiotap.
(** [rx_data] as an offset from [skb->data], and [len]. *)
Record rx_window := mk_rx_window { rw_skip : nat; rw_len : nat }.

Section monitor.
Context `{Kernel}.
(** [SKB_DATA_ALIGN], by which [skb_realloc_headroom] rounds the room it adds. *)
Context (skb_data_align : Z -> Z).

(** ** Receive frames *)

Definition rf_get (rframe : Z) : K Z := gets (fun s => default 0 (rf_pkt (k_recv s) !! rframe)).

Definition rf_set (rframe pkt : Z) : K unit :=
  modify (fun s => s <| k_recv := (k_recv s) <| rf_pkt := <[rframe := pkt]> (rf_pkt (k_recv s)) |> |>).

Definition rtw_os_free_recvframe (rframe : Z) : K unit :=
  pkt ← rf_get rframe;
  if decide (pkt = 0) then skip else kfree_skb pkt ;; rf_set rframe 0.

(** Unlinked from wherever it is and put at the tail of the free queue. *)
Definition rtw_free_recvframe (rframe : Z) : K unit :=
  rtw_os_free_recvframe rframe ;;
  modify (fun s => let r := k_recv s in
    s <| k_recv := r <| free_recv_queue := List.filter (fun f => negb (f =? rframe)) (free_recv_queue r) ++ [rframe] |>
                     <| free_recvframe_cnt := u32 (free_recvframe_cnt r + 1) |> |>).

(** The head of the free queue; [None] when it is empty. *)
Definition rtw_alloc_recvframe : K (option Z) := fun s =>
  let r := k_recv s in
  match free_recv_queue r with
  | [] => Done None s
  | f :: q => Done (Some f) (s <| k_recv := r <| free_recv_queue := q |>
                                              <| free_recvframe_cnt := u32 (free_recvframe_cnt r - 1) |> |>)
  end.

(** ** The radiotap header in front of the frame *)

(** [data], [len] and [tail] of the buffer set from the receive frame. *)
Definition skb_window (b : skb) (w : rx_window) : skb :=
  let m := drop (rw_skip w) (sk_data b ++ sk_tail b) in
  mk_skb (sk_room b + Z.of_nat (rw_skip w)) (take (rw_len w) m) (drop (rw_len w) m).

(** A copy with room for [headroom] more bytes, or NULL. *)
Definition skb_realloc_headroom (p headroom : Z) : K Z :=
  b ← get_skb p;
  alloc_skb (mk_skb (sk_room b + skb_data_align (headroom - sk_room b)) (sk_data b) (sk_tail b)).

Definition fill_radiotap_hdr (hal : radio_hal) (a : radio_attrib) (rframe : Z) (w : rx_window) : K (Z * rx_window) :=
  match radiotap_hdr hal a with
  | None => crash OutOfBounds
  | Some hdr =>
      pskb ← rf_get rframe;
      b ← get_skb pskb;
      let b := skb_window b w in
      put_skb pskb b ;;
      q ← (if sk_room b <? mem_len hdr then
             q ← skb_realloc_headroom pskb (mem_len hdr);
             (if decide (q = 0) then skip else rf_set rframe q) ;;
             mret q
           else mret pskb);
      if decide (q = 0) then mret (_FAIL, w)
      else
        push_skb q hdr ;;
        b ← get_skb q;
        mret (_SUCCESS, mk_rx_window 0 (length (sk_data b)))
  end.

(** ** The hand-over to the module *)

Definition vmac_override (rframe : Z) (w : rx_window) : K Z :=
  skb ← rf_get rframe;
  if decide (skb = 0) then rtw_free_recvframe rframe ;; mret _FAIL
  else
    b ← get_skb skb;
    put_skb skb (skb_window b w) ;;
    l ← peek_skb skb 2 2;
    let it_len := Z.to_nat (le_dec l) in
    rf_set rframe 0 ;;
    addr3 ← peek_skb skb (it_len + 16) 3;
    (if decide (addr3 = [0xfe; 0xfe; 0xfe]) then
       pull_skb skb it_len ;;
       pull_skb skb sizeof_ieee80211_hdr ;;
       vmac_rx skb
     else kfree_skb skb) ;;
    rtw_free_recvframe rframe ;;
    mret _SUCCESS.

Definition recv_frame_monitor (cannot_run : bool) (hal : radio_hal) (a : radio_attrib) (rframe : Z) (w : rx_window) : K Z :=
  rw ← fill_radiotap_hdr hal a rframe w;
  if fst rw =? _FAIL then rtw_free_recvframe rframe ;; mret _FAIL
  else if cannot_run then rtw_free_recvframe rframe ;; mret _FAIL
  else
    ret ← vmac_override rframe (snd rw);
    if negb (ret =? _SUCCESS) then rtw_free_recvframe rframe ;; mret _FAIL
    else mret ret.
End monitor.
