(* ===== verification/MonitorSpec.v ===== *)
(** * What the monitor path hands to V-MAC

    A frame of the module reaches [vmac_rx] with exactly the bytes behind its
    802.11 header, whatever radiotap header was put in front of it; every
    receive frame goes back to the free queue once. *)

From S2P Require Import Prelude Skb VmacDefs Kernel Tables Tx Dack Rx TxSpec RxSpec RetxSpec Demo Mem SecDefs Radiotap RadiotapSpec Monitor.
(** The radiotap header of this frame fits its array. *)
Record radio_ok (hal : radio_hal) (a : radio_attrib) : Prop := {
  rk_paths : 0 <= rh_paths hal <= 4;
  rk_rate : 0 <= ra_data_rate a < 84;
  rk_pwr : length (ra_rx_pwr a) = 4%nat }.

Definition rt_hdr (hal : radio_hal) (a : radio_attrib) : list Z :=
  [0; 0] ++ u16_le (8 + Z.of_nat (length (rt_body hal a))) ++ u32_le (rt_word hal a) ++ rt_body hal a.

Lemma rt_hdr_done hal a : radio_ok hal a -> radiotap_hdr hal a = Some (rt_hdr hal a).
Proof. intros [? ? ?]. by apply header_bytes. Qed.

Lemma rt_hdr_length hal a :
  radio_ok hal a -> length (rt_hdr hal a) = (8 + length (rt_body hal a))%nat /\ (length (rt_hdr hal a) <= 64)%nat.
Proof.
  intros [Hp ? ?]. pose proof (body_room hal a Hp). unfold rt_hdr, u32_le.
  split; len_lia.
Qed.

(** The length field read back from the header. *)
Lemma rt_hdr_len hal a rest :
  radio_ok hal a -> le_dec (take 2 (drop 2 (rt_hdr hal a ++ rest))) = Z.of_nat (length (rt_hdr hal a)).
Proof.
  intros Hok. destruct (rt_hdr_length hal a Hok) as [E H]. unfold rt_hdr at 1. rewrite <- !app_assoc.
  change (drop 2 ([0; 0] ++ ?x)) with x. rewrite take_app_length' by (unfold u16_le; by rewrite length_le_enc).
  unfold u16_le. rewrite le_dec_enc_small; [lia|]. cbn. width_lia.
Qed.

Section spec.
Context `{Kernel} (skb_data_align : Z -> Z).

(** The receive frame [rframe] carries the buffer [b] at [p], in which the
    window [w] covers an 802.11 header [hdr] and the bytes [body]. *)
Record carries (s : kstate) (rframe p : Z) (b : skb) (w : rx_window) (hdr body : list Z) : Prop := {
  ca_pkt : rf_pkt (k_recv s) !! rframe = Some p;
  ca_ptr : p <> 0;
  ca_skb : k_skbs s !! p = Some b;
  ca_data : sk_data (skb_window b w) = hdr ++ body;
  ca_hdr : length hdr = sizeof_ieee80211_hdr }.

Lemma put_twice s p (x y : skb) :
  s <| k_skbs := <[p := x]> (k_skbs s) |>
    <| k_skbs := <[p := y]> (k_skbs (s <| k_skbs := <[p := x]> (k_skbs s) |>)) |> =
  s <| k_skbs := <[p := y]> (k_skbs s) |>.
Proof. unfold set, kstate_eta. cbn. f_equal. apply insert_insert_eq. Qed.

Lemma fill_done s rframe p b w hdr body hal a :
  radio_ok hal a -> carries s rframe p b w hdr body ->
  Z.of_nat (length (rt_hdr hal a)) <= sk_room (skb_window b w) ->
  let d := rt_hdr hal a ++ hdr ++ body in
  fill_radiotap_hdr skb_data_align hal a rframe w s =
    Done (_SUCCESS, mk_rx_window 0 (length d))
      (s <| k_skbs := <[p := mk_skb (sk_room (skb_window b w) - Z.of_nat (length (rt_hdr hal a))) d
                                    (sk_tail (skb_window b w))]> (k_skbs s) |>).
Proof.
  intros Hok [Hpkt Hp Hb Hd Hh] Hroom. cbv zeta. unfold fill_radiotap_hdr. rewrite rt_hdr_done by done.
  unfold rf_get. kstep. rewrite Hpkt. cbn [default].
  rewrite (bind_done _ _ _ _ _ (get_skb_done _ _ _ Hp Hb)). unfold put_skb. kstep.
  rewrite (proj2 (Z.ltb_ge _ _)) by (unfold mem_len; lia). kstep. rewrite decide_False by done.
  erewrite bind_done; [|apply push_skb_done; [exact Hp|apply lookup_insert_eq|exact Hroom]]. cbv beta.
  erewrite bind_done; [|apply get_skb_done; [exact Hp|apply lookup_insert_eq]]. cbv beta.
  unfold mret, K_ret. cbn [sk_data sk_room sk_tail]. rewrite Hd. f_equal. 
apply put_twice.
Qed.

Lemma skb_window_full b n : n = length (sk_data b) -> skb_window b (mk_rx_window 0 n) = b.
Proof.
  intros ->. unfold skb_window. cbn [rw_skip rw_len]. rewrite drop_0, take_app_length, drop_app_length.
  destruct b. cbn. f_equal. lia.
Qed.

Definition V_MAC_OUI : list Z := [0xfe; 0xfe; 0xfe].

(** [s] with the buffer at [p] replaced and no longer owned by [rframe]. *)
Definition taken (s : kstate) (rframe p : Z) (b : skb) : kstate :=
  s <| k_skbs := <[p := b]> (k_skbs s) |>
    <| k_recv := (k_recv s) <| rf_pkt := <[rframe := 0]> (rf_pkt (k_recv s)) |> |>.

Lemma override_done s rframe p room tail hdr body hal a :
  radio_ok hal a -> rf_pkt (k_recv s) !! rframe = Some p -> p <> 0 -> length hdr = sizeof_ieee80211_hdr ->
  let d := rt_hdr hal a ++ hdr ++ body in
  k_skbs s !! p = Some (mk_skb room d tail) ->
  vmac_override rframe (mk_rx_window 0 (length d)) s =
    if decide (take 3 (drop 16 hdr) = V_MAC_OUI)
    then (vmac_rx p ;; rtw_free_recvframe rframe ;; mret _SUCCESS)
           (taken s rframe p (mk_skb (room + Z.of_nat (length (rt_hdr hal a)) + 30) body tail))
    else (kfree_skb p ;; rtw_free_recvframe rframe ;; mret _SUCCESS) (taken s rframe p (mk_skb room d tail)).
Proof.
  intros Hok Hpkt Hp Hh d Hb. destruct (rt_hdr_length hal a Hok) as [_ Hlen]. set (b1 := mk_skb room d tail) in *.
  unfold vmac_override, rf_get. kstep. rewrite Hpkt. cbn [default]. rewrite decide_False by done.
  rewrite (bind_done _ _ _ _ _ (get_skb_done _ _ _ Hp Hb)), skb_window_full by done.
  unfold put_skb at 1. kstep. set (s2 := s <| k_skbs := _ |>).
  assert (k_skbs s2 !! p = Some b1) as Hb2 by apply lookup_insert_eq.
  erewrite bind_done; [|apply peek_skb_done; [exact Hp|exact Hb2|change (sk_data b1) with d; subst d; rewrite !length_app, Hh; unfold sizeof_ieee80211_hdr; lia]].
  change (sk_data b1) with d. assert (le_dec (take 2 (drop 2 d)) = Z.of_nat (length (rt_hdr hal a))) as -> by (by apply rt_hdr_len).
  rewrite Nat2Z.id. unfold rf_set. kstep. set (s3 := s2 <| k_recv := _ |>).
  assert (k_skbs s3 !! p = Some b1) as Hb3 by exact Hb2.
  erewrite bind_done; [|apply peek_skb_done; [exact Hp|exact Hb3|change (sk_data b1) with d; subst d; rewrite !length_app, Hh; unfold sizeof_ieee80211_hdr; lia]].
  change (sk_data b1) with d.
  assert (drop (length (rt_hdr hal a) + 16) d = drop 16 (hdr ++ body)) as -> by (unfold d; by rewrite <- drop_drop, drop_app_length).
  rewrite drop_app_le by (rewrite Hh; unfold sizeof_ieee80211_hdr; lia).
  rewrite take_app_le by (rewrite length_drop, Hh; unfold sizeof_ieee80211_hdr; lia). fold V_MAC_OUI.
  destruct (decide (take 3 (drop 16 hdr) = V_MAC_OUI)); [|done].
  assert (skb_pull (skb_pull b1 (length (rt_hdr hal a))) sizeof_ieee80211_hdr =
          mk_skb (room + Z.of_nat (length (rt_hdr hal a)) + 30) body tail) as Epull.
  { unfold skb_pull at 2. cbn [sk_data b1 sk_room sk_tail]. rewrite decide_False by (subst d; rewrite length_app; lia).
    unfold skb_pull. cbn [sk_data sk_room sk_tail]. subst d. rewrite drop_app_length.
    rewrite decide_False by (rewrite length_app, Hh; lia). by rewrite <- Hh, drop_app_length, Hh. }
  rewrite !bind_assoc. rewrite (bind_done _ _ _ _ _ (pull_skb_done _ _ _ _ Hp Hb3)), bind_assoc.
  erewrite bind_done; [|apply pull_skb_done; [exact Hp|apply lookup_insert_eq]]. rewrite Epull.
  f_equal. unfold taken, s3, s2, set, kstate_eta. cbn. f_equal. by rewrite !insert_insert_eq.
Qed.

(** What the monitor path does with a frame: hand it to V-MAC or drop it. *)
Lemma monitor_done s rframe p b w hdr body hal a :
  radio_ok hal a -> carries s rframe p b w hdr body ->
  Z.of_nat (length (rt_hdr hal a)) <= sk_room (skb_window b w) ->
  let room := sk_room (skb_window b w) in
  let tail := sk_tail (skb_window b w) in
  recv_frame_monitor skb_data_align false hal a rframe w s =
    if decide (take 3 (drop 16 hdr) = V_MAC_OUI)
    then (vmac_rx p ;; rtw_free_recvframe rframe ;; mret _SUCCESS) (taken s rframe p (mk_skb (room + 30) body tail))
    else (kfree_skb p ;; rtw_free_recvframe rframe ;; mret _SUCCESS)
           (taken s rframe p (mk_skb (room - Z.of_nat (length (rt_hdr hal a))) (rt_hdr hal a ++ hdr ++ body) tail)).
Proof.
  intros Hok Hc Hroom room tail. pose proof Hc as [Hpkt Hp Hb Hd Hh]. unfold recv_frame_monitor.
  rewrite (bind_done _ _ _ _ _ (fill_done s rframe p b w hdr body hal a Hok Hc Hroom)).
  cbn [fst snd]. change (_SUCCESS =? _FAIL) with false. cbv iota. fold room tail.
  set (b1 := mk_skb _ _ tail). set (s1 := s <| k_skbs := _ |>).
  pose proof (override_done s1 rframe p (room - Z.of_nat (length (rt_hdr hal a))) tail hdr body hal a Hok Hpkt Hp Hh
    (lookup_insert_eq _ _ _)) as Hov.
  replace (room - Z.of_nat (length (rt_hdr hal a)) + Z.of_nat (length (rt_hdr hal a)) + 30) with (room + 30) in Hov by lia.
  assert (forall b', taken s1 rframe p b' = taken s rframe p b') as Ht
    by (intros b'; unfold taken, s1, set, kstate_eta; cbn; by rewrite insert_insert_eq).
  rewrite !Ht in Hov. unfold mbind, K_bind in *. rewrite Hov.
  destruct (decide _); [destruct (vmac_rx p _) as [[] s2|]|destruct (kfree_skb p _) as [[] s2|]]; try done;
    destruct (rtw_free_recvframe rframe s2) as [[] s3|]; done.
Qed.
End spec.

(** ** V-MAC does not touch the driver's receive frames *)

Definition with_recv (r : recv_priv) (s : kstate) : kstate := s <| k_recv := r |>.

Definition map_state {A} (g : kstate -> kstate) (o : outcome A) : outcome A :=
  match o with Done a s => Done a (g s) | Crash e s => Crash e (g s) end.

(** Running [m] and replacing the receive frames can be swapped. *)
Definition oblivious {A} (m : K A) : Prop := forall s r, m (with_recv r s) = map_state (with_recv r) (m s).

Definition keeps {A} (m : K A) : Prop :=
  forall s, match m s with Done _ s' | Crash _ s' => k_recv s' = k_recv s end.

Lemma oblivious_keeps {A} (m : K A) : oblivious m -> keeps m.
Proof.
  intros Hm s. specialize (Hm s (k_recv s)). assert (with_recv (k_recv s) s = s) as E by (by destruct s).
  rewrite E in Hm. destruct (m s) as [x s1|e s1]; cbn in Hm.
  - injection Hm as E1. rewrite E1. done.
  - injection Hm as E1. rewrite E1. done.
Qed.

Lemma oblivious_bind {A B} (m : K A) (f : A -> K B) : oblivious m -> (forall a, oblivious (f a)) -> oblivious (m ≫= f).
Proof.
  intros Hm Hf s r. unfold mbind, K_bind. rewrite Hm. destruct (m s) as [a s1|e s1]; [|done]. cbn. apply Hf.
Qed.

Create HintDb oblivious.

(** A command is taken apart at its binds and tests down to the commands of
    the hint database. *)
Ltac oblivious_step :=
  first [ solve [auto with oblivious nocore]
        | apply oblivious_bind; [|intros ?]
        | progress cbv zeta
        | match goal with
          | |- oblivious (match ?x with _ => _ end) => destruct x
          end ].
Ltac oblivious_go := repeat oblivious_step.

Section oblivious.
Context `{Kernel}.

Lemma oblivious_ret {A} (a : A) : oblivious (mret a). Proof. done. Qed.
Lemma oblivious_skip : oblivious skip. Proof. done. Qed.
Lemma oblivious_crash {A} f : oblivious (@crash A f). Proof. done. Qed.
Lemma oblivious_log f : oblivious (log f). Proof. done. Qed.
Lemma oblivious_gets {A} (f : kstate -> A) : (forall s r, f (with_recv r s) = f s) -> oblivious (gets f).
Proof. intros Hf s r. unfold gets. cbn. by rewrite Hf. Qed.
Lemma oblivious_modify f : (forall s r, f (with_recv r s) = with_recv r (f s)) -> oblivious (modify f).
Proof. intros Hf s r. unfold modify. cbn. by rewrite Hf. Qed.
Lemma oblivious_get_skb p : oblivious (get_skb p). Proof. intros s r. unfold get_skb. case_decide; [done|]. cbn. by destruct (k_skbs s !! p). Qed.
Lemma oblivious_get_rx p : oblivious (get_rx p). Proof. intros s r. unfold get_rx. case_decide; [done|]. cbn. by destruct (k_rx_mem s !! p). Qed.
Lemma oblivious_get_tx p : oblivious (get_tx p). Proof. intros s r. unfold get_tx. case_decide; [done|]. cbn. by destruct (k_tx_mem s !! p). Qed.
Lemma oblivious_put_skb p b : oblivious (put_skb p b). Proof. done. Qed.
Lemma oblivious_put_rx p b : oblivious (put_rx p b). Proof. done. Qed.
Lemma oblivious_put_tx p b : oblivious (put_tx p b). Proof. done. Qed.
Lemma oblivious_kfree p : oblivious (kfree_skb p). Proof. intros s r. unfold kfree_skb. case_decide; [done|]. cbn. by destruct (k_skbs s !! p). Qed.
Lemma oblivious_ask_alloc : oblivious ask_alloc. Proof. intros s r. unfold ask_alloc. cbn. by destruct (o_alloc (k_oracle s)). Qed.
Lemma oblivious_ask_trylock : oblivious ask_trylock. Proof. intros s r. unfold ask_trylock. cbn. by destruct (o_trylock (k_oracle s)). Qed.
Lemma oblivious_ask_xmit : oblivious ask_xmit. Proof. intros s r. unfold ask_xmit. cbn. by destruct (o_xmit (k_oracle s)). Qed.
Lemma oblivious_ask_random : oblivious ask_random. Proof. intros s r. unfold ask_random. cbn. by destruct (o_random (k_oracle s)). Qed.
Lemma oblivious_new_skb b : oblivious (new_skb b). Proof. done. Qed.
End oblivious.
#[export] Hint Resolve oblivious_ret oblivious_skip oblivious_crash oblivious_log oblivious_get_skb oblivious_get_rx oblivious_get_tx
  oblivious_put_skb oblivious_put_rx oblivious_put_tx oblivious_kfree oblivious_ask_alloc oblivious_ask_trylock oblivious_ask_xmit oblivious_ask_random
  oblivious_new_skb : oblivious.
#[export] Hint Extern 1 (oblivious (modify _)) => apply oblivious_modify; intros; reflexivity : oblivious.
#[export] Hint Extern 1 (oblivious (gets _)) => apply oblivious_gets; intros; reflexivity : oblivious.

Section oblivious_handlers.
Context `{Kernel}.

Lemma oblivious_alloc_skb b : oblivious (alloc_skb b). Proof. unfold alloc_skb. oblivious_go. Qed.
Hint Resolve oblivious_alloc_skb : oblivious.
Lemma oblivious_push p l : oblivious (push_skb p l). Proof. unfold push_skb. oblivious_go. Qed.
Lemma oblivious_put_data p l : oblivious (put_data_skb p l). Proof. unfold put_data_skb. oblivious_go. Qed.
Lemma oblivious_pull p n : oblivious (pull_skb p n). Proof. unfold pull_skb. oblivious_go. Qed.
Lemma oblivious_copy p : oblivious (skb_copy p). Proof. unfold skb_copy. oblivious_go. Qed.
Lemma oblivious_peek p k n : oblivious (peek_skb p k n). Proof. unfold peek_skb. oblivious_go. Qed.
Hint Resolve oblivious_push oblivious_put_data oblivious_pull oblivious_copy oblivious_peek : oblivious.

Lemma oblivious_alloc_loop n : forall d w, oblivious (monitor_alloc_loop n d w).
Proof. induction n; intros; cbn [monitor_alloc_loop]; oblivious_go. Qed.
Hint Resolve oblivious_alloc_loop : oblivious.
Lemma oblivious_send_hack p : oblivious (vmac_send_hack p).
Proof. unfold vmac_send_hack, vmac_low_tx, xmit_mo, monitor_alloc_mgtxmitframe. oblivious_go. Qed.
Hint Resolve oblivious_send_hack : oblivious.

Lemma oblivious_dack_frames n : forall vmact le re seq round c q, oblivious (dack_frames n vmact le re seq round c q).
Proof. induction n; intros; cbn [dack_frames]; oblivious_go. Qed.
Hint Resolve oblivious_dack_frames : oblivious.
Lemma oblivious_dack_holes n : forall skb vmact seq round c q, oblivious (dack_holes n skb vmact seq round c q).
Proof. induction n; intros; cbn [dack_holes]; oblivious_go. Qed.
Hint Resolve oblivious_dack_holes : oblivious.
Lemma oblivious_find_rx e : oblivious (find_rx e). Proof. done. Qed.
Lemma oblivious_find_tx e : oblivious (find_tx e). Proof. done. Qed.
Hint Resolve oblivious_find_rx oblivious_find_tx : oblivious.
Lemma oblivious_rx_dack p e : oblivious (vmac_rx_dack p e). Proof. unfold vmac_rx_dack. oblivious_go. Qed.

Lemma oblivious_put_holes p hs : oblivious (put_holes p hs). Proof. induction hs; cbn [put_holes]; oblivious_go. Qed.
Hint Resolve oblivious_put_holes : oblivious.
Lemma oblivious_submit v p r d n : oblivious (submit_dack v p r d n). Proof. unfold submit_dack. oblivious_go. Qed.
Hint Resolve oblivious_submit : oblivious.
Lemma oblivious_request e r : oblivious (request_DACK e r). Proof. unfold request_DACK, prepDACK. oblivious_go. Qed.
Lemma oblivious_timeout v : oblivious (mod_enc_timeout_rx v). Proof. unfold mod_enc_timeout_rx. oblivious_go. Qed.
Lemma oblivious_nl_send p e t q : oblivious (nl_send p e t q). Proof. unfold nl_send, nlmsg_unicast. oblivious_go. Qed.
Hint Resolve oblivious_request oblivious_timeout oblivious_nl_send oblivious_rx_dack : oblivious.
Lemma oblivious_rx_data p e : oblivious (vmac_rx_data p e). Proof. unfold vmac_rx_data. oblivious_go. Qed.
Hint Resolve oblivious_rx_data : oblivious.
Lemma oblivious_vmac_rx p : oblivious (vmac_rx p). Proof. unfold vmac_rx. oblivious_go. Qed.
End oblivious_handlers.

(** ** Every receive frame is recycled once *)

Section recycle.
Context `{Kernel} (skb_data_align : Z -> Z).

(** The receive frames once [rframe] has been freed. *)
Definition recycle (rframe : Z) (r : recv_priv) : recv_priv :=
  mk_recv_priv (<[rframe := 0]> (rf_pkt r))
    (List.filter (fun f => negb (f =? rframe)) (free_recv_queue r) ++ [rframe]) (u32 (free_recvframe_cnt r + 1)).

Lemma recycle_freed rf r :
  recycle rf (mk_recv_priv (<[rf := 0]> (rf_pkt r)) (free_recv_queue r) (free_recvframe_cnt r)) = recycle rf r.
Proof. unfold recycle. cbn. by rewrite insert_insert_eq. Qed.

Lemma free_done rframe s :
  rf_pkt (k_recv s) !! rframe = Some 0 ->
  rtw_free_recvframe rframe s = Done tt (with_recv (recycle rframe (k_recv s)) s).
Proof.
  intros Hz. unfold rtw_free_recvframe, rtw_os_free_recvframe, rf_get. rewrite bind_assoc, gets_bind, Hz.
  cbn [default]. rewrite decide_True by done. unfold skip. rewrite ret_bind. unfold modify. f_equal.
  unfold with_recv, recycle. destruct s as [? ? ? ? ? ? ? ? ? ? ? [f q c] ? ? ? ?]. cbn in *. unfold set, kstate_eta, recv_priv_eta. cbn.
  do 2 f_equal. by rewrite insert_id.
Qed.

(** C15. In monitor mode a frame whose third address starts with fe:fe:fe
    reaches [vmac_rx] with exactly the bytes behind its 802.11 header, for any
    attributes of the hardware; every other frame is freed with its buffer.
    In both cases the receive frame is recycled. *)
Theorem monitor_filters s rframe p b w hdr body hal a :
  radio_ok hal a -> carries s rframe p b w hdr body ->
  Z.of_nat (length (rt_hdr hal a)) <= sk_room (skb_window b w) ->
  recv_frame_monitor skb_data_align false hal a rframe w s =
    if decide (take 3 (drop 16 hdr) = [0xfe; 0xfe; 0xfe])
    then (vmac_rx p ;; rtw_free_recvframe rframe ;; mret _SUCCESS)
           (taken s rframe p (mk_skb (sk_room (skb_window b w) + 30) body (sk_tail (skb_window b w))))
    else Done _SUCCESS (with_recv (recycle rframe (k_recv s)) (s <| k_skbs := delete p (k_skbs s) |>)).
Proof.
  intros Hok Hc Hroom. rewrite (monitor_done skb_data_align s rframe p b w hdr body hal a Hok Hc Hroom).
  fold V_MAC_OUI. destruct (decide _); [done|]. destruct Hc as [_ Hp _ _ _]. set (b1 := mk_skb _ _ _).
  rewrite (bind_done _ _ _ _ _ (kfree_skb_done p b1 (taken s rframe p b1) Hp (lookup_insert_eq _ _ _))).
  erewrite bind_done; [|apply free_done; apply lookup_insert_eq]. unfold mret, K_ret. f_equal.
  unfold with_recv, taken, set, kstate_eta. cbn. rewrite delete_insert_eq. rewrite <- (recycle_freed rframe (k_recv s)). reflexivity.
Qed.

(** [rframe] is in use: in state [s] as in [s0] but for the buffer it owns. *)
Definition in_use (rframe : Z) (s0 s : kstate) : Prop :=
  (exists q, rf_pkt (k_recv s) !! rframe = Some q) /\
  free_recv_queue (k_recv s) = free_recv_queue (k_recv s0) /\
  free_recvframe_cnt (k_recv s) = free_recvframe_cnt (k_recv s0).

Definition recycled (rframe : Z) (s0 s : kstate) : Prop :=
  rf_pkt (k_recv s) !! rframe = Some 0 /\
  free_recv_queue (k_recv s) = List.filter (fun f => negb (f =? rframe)) (free_recv_queue (k_recv s0)) ++ [rframe] /\
  free_recvframe_cnt (k_recv s) = u32 (free_recvframe_cnt (k_recv s0) + 1).

Definition maybe {A} (Q : A -> kstate -> Prop) (o : outcome A) : Prop := post o Q (fun _ => True).

Lemma maybe_bind {A B} (m : K A) (f : A -> K B) s Q R :
  maybe Q (m s) -> (forall a s', Q a s' -> maybe R (f a s')) -> maybe R ((m ≫= f) s).
Proof.
  intros Hm Hf. apply post_bind. eapply post_mono; [exact Hm|exact Hf|done].
Qed.

Lemma maybe_keeps {A} (m : K A) rframe s0 s :
  keeps m -> in_use rframe s0 s -> maybe (fun _ s' => in_use rframe s0 s') (m s).
Proof.
  intros Hm Hs. specialize (Hm s). unfold maybe, post. destruct (m s) as [x s1|]; [|done].
  unfold in_use. by rewrite Hm.
Qed.

Lemma maybe_rf_set rframe q s0 s : in_use rframe s0 s -> maybe (fun _ s' => in_use rframe s0 s') (rf_set rframe q s).
Proof. intros (_ & Hq & Hc). cbn. split; [|done]. exists q. cbn. by rewrite lookup_insert_eq. Qed.

Lemma free_recycles rframe s0 s :
  in_use rframe s0 s -> maybe (fun _ s' => recycled rframe s0 s') (rtw_free_recvframe rframe s).
Proof.
  intros ((q & Hq) & Hl & Hc). unfold rtw_free_recvframe.
  apply (maybe_bind _ _ _ (fun _ s' => in_use rframe s0 s' /\ rf_pkt (k_recv s') !! rframe = Some 0)).
  - unfold rtw_os_free_recvframe, rf_get. rewrite gets_bind, Hq. change (default 0 (Some q)) with q.
    destruct (decide (q = 0)) as [->|Hne]; [split; [split; [by eexists|done]|done]|].
    apply (maybe_bind _ _ _ (fun _ s' => in_use rframe s0 s')).
    + apply maybe_keeps; [apply oblivious_keeps, oblivious_kfree|]. split; [by eexists|done].
    + intros _ s1 (_ & Hl1 & Hc1). cbn. unfold in_use. cbn. rewrite lookup_insert_eq. split; [|done]. split; [by eexists|done].
  - intros _ s1 ((_ & Hl1 & Hc1) & Hz). cbn. unfold recycled. cbn. by rewrite Hl1, Hc1.
Qed.

(** [rframe] owns a buffer. *)
Definition owns (rframe : Z) (s : kstate) : Prop := exists q, q <> 0 /\ rf_pkt (k_recv s) !! rframe = Some q.

Lemma maybe_owns {A} (m : K A) rframe s0 s :
  keeps m -> in_use rframe s0 s /\ owns rframe s ->
  maybe (fun _ s' => in_use rframe s0 s' /\ owns rframe s') (m s).
Proof.
  intros Hm Hs. specialize (Hm s). unfold maybe, post. destruct (m s) as [x s1|]; [|done].
  unfold in_use, owns. by rewrite Hm.
Qed.

Lemma fill_in_use hal a rframe w s0 s :
  in_use rframe s0 s ->
  maybe (fun rw s' => in_use rframe s0 s' /\ (fst rw = _FAIL \/ fst rw = _SUCCESS /\ owns rframe s'))
    (fill_radiotap_hdr skb_data_align hal a rframe w s).
Proof.
  intros Hs. pose proof Hs as ((p & Hp) & _). unfold fill_radiotap_hdr. destruct (radiotap_hdr hal a) as [hdr|]; [|done].
  unfold rf_get. rewrite gets_bind, Hp. change (default 0 (Some p)) with p.
  destruct (decide (p = 0)) as [->|Hne]; [done|].
  assert (in_use rframe s0 s /\ owns rframe s) as H0 by (split; [done|by exists p]).
  eapply maybe_bind; [apply maybe_owns; [apply oblivious_keeps, oblivious_get_skb|exact H0]|]. intros b s1 H1. cbv zeta.
  eapply maybe_bind; [apply maybe_owns; [apply oblivious_keeps, oblivious_put_skb|exact H1]|]. intros [] s2 H2.
  apply (maybe_bind _ _ _ (fun _ s' => in_use rframe s0 s' /\ owns rframe s')).
  { destruct (_ <? _); [|exact H2]. eapply maybe_bind.
    - apply maybe_owns; [|exact H2]. apply oblivious_keeps. unfold skb_realloc_headroom. oblivious_go.
    - intros q s3 H3. apply (maybe_bind _ _ _ (fun _ s' => in_use rframe s0 s' /\ owns rframe s')); [|by intros [] s4 H4].
      destruct (decide (q = 0)) as [->|Hq]; [exact H3|]. destruct H3 as ((_ & Hl & Hc) & _). cbn.
      unfold in_use, owns. cbn. rewrite lookup_insert_eq. split; [split; [by eexists|done]|by exists q]. }
  intros q s3 H3. destruct (decide (q = 0)); [split; [apply H3|by left]|].
  eapply maybe_bind; [apply maybe_owns; [apply oblivious_keeps, oblivious_push|exact H3]|]. intros [] s4 H4.
  eapply maybe_bind; [apply maybe_owns; [apply oblivious_keeps, oblivious_get_skb|exact H4]|]. intros b' s5 H5.
  split; [apply H5|right; split; [done|apply H5]].
Qed.

Lemma override_recycles rframe w s0 s :
  in_use rframe s0 s -> maybe (fun ret s' => recycled rframe s0 s' /\ (ret = _SUCCESS \/ rf_pkt (k_recv s) !! rframe = Some 0)) (vmac_override rframe w s).
Proof.
  intros Hs. pose proof Hs as ((q & Hq) & _). unfold vmac_override, rf_get. rewrite gets_bind, Hq. change (default 0 (Some q)) with q.
  destruct (decide (q = 0)) as [->|Hne].
  { eapply maybe_bind; [by apply free_recycles|]. intros [] s1 H1. split; [exact H1|by right]. }
  eapply maybe_bind; [apply maybe_keeps; [apply oblivious_keeps, oblivious_get_skb|exact Hs]|]. intros b s1 H1.
  eapply maybe_bind; [apply maybe_keeps; [apply oblivious_keeps, oblivious_put_skb|exact H1]|]. intros [] s2 H2.
  eapply maybe_bind; [apply maybe_keeps; [apply oblivious_keeps, oblivious_peek|exact H2]|]. intros l s3 H3. cbv zeta.
  eapply maybe_bind; [exact (maybe_rf_set rframe 0 s0 _ H3)|]. intros [] s4 H4.
  eapply maybe_bind; [apply maybe_keeps; [apply oblivious_keeps, oblivious_peek|exact H4]|]. intros addr3 s5 H5.
  eapply maybe_bind.
  { apply maybe_keeps; [|exact H5]. apply oblivious_keeps. destruct (decide _); [|apply oblivious_kfree].
    repeat (apply oblivious_bind; [apply oblivious_pull|intros ?]). apply oblivious_vmac_rx. }
  intros [] s6 H6. eapply maybe_bind; [by apply free_recycles|]. intros [] s7 H7. split; [exact H7|by left].
Qed.

(** Whatever the frame, the state of the adapter and the outcome of the
    allocations: when [recv_frame_monitor] returns, the receive frame owns no
    buffer, is linked into the free queue exactly once, at its end, and the
    count of free frames has been incremented once. *)
Theorem monitor_recycles cannot_run hal a rframe w s p :
  rf_pkt (k_recv s) !! rframe = Some p ->
  post (recv_frame_monitor skb_data_align cannot_run hal a rframe w s)
    (fun _ s' => recycled rframe s s') (fun _ => True).
Proof.
  intros Hp. assert (in_use rframe s s) as Hs by (split; [by eexists|done]). unfold recv_frame_monitor.
  eapply maybe_bind; [by apply fill_in_use|]. intros [r w'] s1 [H1 Ho]. cbn [fst snd] in *.
  destruct (r =? _FAIL) eqn:E.
  { eapply maybe_bind; [by apply free_recycles|]. intros [] s2 H2. exact H2. }
  destruct cannot_run.
  { eapply maybe_bind; [by apply free_recycles|]. intros [] s2 H2. exact H2. }
  destruct Ho as [->|[-> (q & Hq & Hpq)]]; [done|].
  eapply maybe_bind; [by apply override_recycles|]. intros r2 s2 [H2 [->|Hz]]; [exact H2|congruence].
Qed.
End recycle.

(** ** Concrete frames *)

Definition demo_body : list Z := enc_vmac_hdr (mk_vmac_hdr 7 VMAC_HDR_DATA) ++ enc_vmac_data (mk_vmac_data 0) ++ [10; 0; 0; 0; 0].

(** Receive frame 5 owns buffer 9, which holds [addr3] and [demo_body]. *)
Definition demo_foreign : list Z := take 16 vmac_ieee80211_hdr ++ [1; 2; 3] ++ drop 19 vmac_ieee80211_hdr.
Definition demo_mon_state (hdr : list Z) : kstate :=
  demo_rx_state <| k_skbs := {[9 := mk_skb 80 (hdr ++ demo_body) []]} |>
                <| k_recv := mk_recv_priv {[5 := 9]} [2; 3] 2 |> <| k_next := 10 |>.

Lemma demo_radio_ok : radio_ok (mk_radio_hal 2 1 36) (demo_attrib 50).
Proof. split; cbn; [lia|lia|done]. Qed.

Lemma monitor_filters_witness :
  recv_frame_monitor id false (mk_radio_hal 2 1 36) (demo_attrib 50) 5 (mk_rx_window 0 46) (demo_mon_state vmac_ieee80211_hdr) =
    (vmac_rx 9 ;; rtw_free_recvframe 5 ;; mret _SUCCESS)
      (taken (demo_mon_state vmac_ieee80211_hdr) 5 9 (mk_skb 110 demo_body [])) /\
  recv_frame_monitor id false (mk_radio_hal 2 1 36) (demo_attrib 50) 5 (mk_rx_window 0 46) (demo_mon_state demo_foreign) =
    Done _SUCCESS (with_recv (mk_recv_priv {[5 := 0]} [2; 3; 5] 3) ((demo_mon_state demo_foreign) <| k_skbs := ∅ |>)).
Proof.
  split.
  - etransitivity; [apply (monitor_filters id _ 5 9 (mk_skb 80 (vmac_ieee80211_hdr ++ demo_body) []) (mk_rx_window 0 46) vmac_ieee80211_hdr demo_body);
      [exact demo_radio_ok|split; try reflexivity; done|vm_compute; discriminate]|reflexivity].
  - etransitivity; [apply (monitor_filters id _ 5 9 (mk_skb 80 (demo_foreign ++ demo_body) []) (mk_rx_window 0 46) demo_foreign demo_body);
      [exact demo_radio_ok|split; try reflexivity; done|vm_compute; discriminate]|vm_compute; reflexivity].
Defined.

Lemma monitor_recycles_witness :
  post (recv_frame_monitor id true (mk_radio_hal 2 1 36) (demo_attrib 50) 5 (mk_rx_window 0 46) (demo_mon_state demo_foreign))
    (fun _ s' => recycled 5 (demo_mon_state demo_foreign) s') (fun _ => True).
Proof. apply (monitor_recycles id true _ _ 5 _ _ 9). reflexivity. Defined.
