(* ===== verification/MonitorLink.v ===== *)
(** * From process to process through the monitor path

    The frames of a stream, as they are on the air, received through
    [recv_frame_monitor] with any radiotap attributes, have the effect of
    arriving at [vmac_rx]: the end-to-end delivery of data holds for the whole
    receive path of the driver in monitor mode. *)

From S2P Require Import Prelude Skb VmacDefs Kernel Tables Tx Dack Rx Netlink TxSpec NetlinkSpec RxSpec RetxSpec DackFrame DeliverySpec System Demo Reliability Delivery Mem SecDefs Radiotap RadiotapSpec Monitor MonitorSpec.
Section link.
Context `{Kernel} (skb_data_align : Z -> Z).

Lemma Done_inj {A} (a b : A) s t : Done a s = Done b t -> s = t.
Proof. congruence. Qed.

(** A frame the driver received: the receive frame, the attributes of the
    descriptor, and the buffer with its headroom. *)
Record heard_frame := mk_heard_frame {
  hf_rframe : Z; hf_hal : radio_hal; hf_attrib : radio_attrib;
  hf_room : Z; hf_bytes : list Z; hf_tail : list Z }.

Definition hear (h : heard_frame) : K unit :=
  q ← new_skb (mk_skb (hf_room h) (hf_bytes h) (hf_tail h));
  rf_set (hf_rframe h) q ;;
  _ ← recv_frame_monitor skb_data_align false (hf_hal h) (hf_attrib h) (hf_rframe h)
        (mk_rx_window 0 (length (hf_bytes h)));
  skip.

Fixpoint hear_all (hs : list heard_frame) : K unit :=
  match hs with [] => skip | h :: hs => hear h ;; hear_all hs end.

(** The buffer V-MAC gets. *)
Definition stripped (h : heard_frame) : skb := mk_skb (hf_room h + 30) (drop 30 (hf_bytes h)) (hf_tail h).

(** A frame of the module with room for the radiotap header. *)
Record vmac_heard (h : heard_frame) : Prop := {
  vh_radio : radio_ok (hf_hal h) (hf_attrib h);
  vh_room : 64 <= hf_room h;
  vh_len : (30 <= length (hf_bytes h))%nat;
  vh_addr : take 3 (drop 16 (hf_bytes h)) = [0xfe; 0xfe; 0xfe] }.

Lemma with_recv_twice (r1 r2 : recv_priv) s : with_recv r1 (with_recv r2 s) = with_recv r1 s.
Proof. done. Qed.

Lemma hear_arrives h s ρ s' :
  vmac_heard h -> k_next s <> 0 -> arrive (stripped h) s = Done tt s' ->
  hear h (with_recv ρ s) = Done tt (with_recv (recycle (hf_rframe h) ρ) s').
Proof.
  intros [Hok Hroom Hlen Haddr] Hn Ha. unfold hear. destruct h as [rf hal a room fr tail]. unfold stripped in Ha. cbn [hf_rframe hf_hal hf_attrib hf_room hf_bytes hf_tail] in *.
  set (q := k_next s) in *. destruct (rt_hdr_length hal a Hok) as [_ Hl].
  set (b0 := mk_skb room fr tail). set (s1 := s <| k_skbs := <[q := b0]> (k_skbs s) |> <| k_next := q + 1 |>).
  set (ρ1 := mk_recv_priv (<[rf := q]> (rf_pkt ρ)) (free_recv_queue ρ) (free_recvframe_cnt ρ)).
  set (s2 := with_recv ρ1 s1).
  rewrite (bind_done _ _ _ q (with_recv ρ s1)) by done. rewrite (bind_done (rf_set rf q) _ _ tt s2) by done.
  assert (carries s2 rf q b0 (mk_rx_window 0 (length fr)) (take 30 fr) (drop 30 fr)) as Hc.
  { split; [by apply lookup_insert_eq|done|by apply lookup_insert_eq| |].
    - rewrite skb_window_full by done. cbn. by rewrite take_drop.
    - rewrite length_take. unfold sizeof_ieee80211_hdr. lia. }
  assert (recv_frame_monitor skb_data_align false hal a rf (mk_rx_window 0 (length fr)) s2 =
          (vmac_rx q ;; rtw_free_recvframe rf ;; mret _SUCCESS) (taken s2 rf q (mk_skb (room + 30) (drop 30 fr) tail))) as E.
  { rewrite (monitor_done skb_data_align s2 rf q b0 (mk_rx_window 0 (length fr)) (take 30 fr) (drop 30 fr) hal a); [|done|exact Hc|rewrite skb_window_full by done; change (sk_room b0) with room; lia].
    rewrite skb_window_full by done. rewrite decide_True; [done|].
    transitivity (take 3 (drop 16 fr)); [|exact Haddr]. rewrite <- (take_drop 30 fr) at 2.
    rewrite drop_app_le by (rewrite length_take; lia). rewrite take_app_le; [done|]. rewrite length_drop, length_take. lia. }
  set (s3 := s <| k_skbs := <[q := mk_skb (room + 30) (drop 30 fr) tail]> (k_skbs s) |> <| k_next := q + 1 |>).
  assert (taken s2 rf q (mk_skb (room + 30) (drop 30 fr) tail) =
          with_recv (mk_recv_priv (<[rf := 0]> (rf_pkt ρ)) (free_recv_queue ρ) (free_recvframe_cnt ρ)) s3) as Eh.
  { unfold taken. rewrite <- (insert_insert_eq (rf_pkt ρ) rf 0 q).
    unfold s3. rewrite <- (insert_insert_eq (k_skbs s) q _ b0). reflexivity. }
  assert (vmac_rx q s3 = Done tt s') as Hv by exact Ha.
  rewrite Eh in E. unfold mbind, K_bind in E |- *. rewrite E, (oblivious_vmac_rx q s3), Hv. cbn [map_state].
  rewrite free_done by apply lookup_insert_eq. rewrite with_recv_twice.
  change (k_recv (with_recv ?r _)) with r. by rewrite recycle_freed.
Qed.

Lemma rx_ok_with_recv s ρ p r enc got : rx_ok s p r enc got -> rx_ok (with_recv ρ s) p r enc got.
Proof. intros Hok. eapply rx_ok_skbs; [exact Hok| |done..]. destruct (ro_mem _ _ _ _ _ Hok). by split. Qed.

(** A run of heard frames arrives as the stripped buffers do. *)
Lemma hear_all_arrives enc fs : forall hs s ρ p r got,
  rx_ok s p r enc got -> Forall vmac_heard hs -> Forall2 (arrival_ok enc) (map stripped hs) fs -> is_u64 enc ->
  bounded_reorder (rx_latest r) (map fst fs) = true ->
  exists s' ρ', arrive_all (map stripped hs) s = Done tt s' /\
    hear_all hs (with_recv ρ s) = Done tt (with_recv ρ' s').
Proof.
  induction fs as [|[seq data] fs IH]; intros hs s ρ p r got Hok Hh Hbs Henc Hb.
  - destruct hs; [|inversion Hbs]. exists s, ρ. done.
  - destruct hs as [|h hs]; [inversion Hbs|]. cbn [map] in Hbs. inversion Hbs as [|? ? ? ? Ha Hbs']; subst.
    inversion_clear Hh as [|?? Hh1 Hh']. cbn [map fst bounded_reorder] in Hb. bool_hyps.
    destruct (arrive_one s p r enc got (stripped h) seq data) as (s1 & E & _ & _ & Hcase); try done.
    assert (hear h (with_recv ρ s) = Done tt (with_recv (recycle (hf_rframe h) ρ) s1)) as Eh.
    { apply hear_arrives; [done| |done]. destruct (ro_mem _ _ _ _ _ Hok). lia. }
    cbn [map arrive_all hear_all]. rewrite (bind_done _ _ _ _ _ E), (bind_done _ _ _ _ _ Eh).
    case_decide as Hin; destruct Hcase as (_ & r1 & Hok1 & Hl1).
    + apply (IH hs s1 _ p r1 got); try done.
      replace (Z.max (rx_latest r) seq) with (rx_latest r) in * by
        (pose proof (wo_got _ _ (ro_window _ _ _ _ _ Hok) _ Hin); lia). by rewrite Hl1.
    + apply (IH hs s1 _ p r1 (seq :: got)); try done. by rewrite Hl1.
Qed.

(** What the receiver heard of the [i]-th frame of the stream, with any
    attributes whose radiotap header fits. *)
Definition heard_of (ms : list (nlmsg * list Z)) (enc : Z) (h : heard_frame) (i : nat) : Prop :=
  radio_ok (hf_hal h) (hf_attrib h) /\ 64 <= hf_room h /\
  exists f fcs, stream_air enc 0 ms !! i = Some f /\ length fcs = 4%nat /\ hf_bytes h = tf_bytes f ++ fcs.

Lemma stripped_ok ms enc h i :
  heard_of ms enc h i ->
  vmac_heard h /\ exists f fcs, stream_air enc 0 ms !! i = Some f /\ length fcs = 4%nat /\
    sk_data (stripped h) = heard_bytes f fcs.
Proof.
  intros (Hok & Hroom & f & fcs & Hf & Hfcs & Hb). destruct (stream_air_lookup _ _ _ _ _ Hf) as (pl & _ & Ef).
  assert (length (tf_bytes f) = 30 + length (data_frame enc (Z.of_nat (0 + i)) pl))%nat as Hl
    by (rewrite Ef, length_app, length_vmac_ieee80211_hdr; done).
  split.
  - split; [done|done|rewrite Hb, length_app; lia|]. rewrite Hb, Ef. reflexivity.
  - exists f, fcs. split; [done|]. split; [done|]. unfold stripped, heard_bytes. cbn [sk_data]. rewrite Hb.
    rewrite drop_app_le by lia. done.
Qed.

(** From a process to another process through the whole receive path: the
    data messages of a stream are transmitted; a receiver in monitor mode that
    hears frames of the stream - in any order, with losses and repetitions,
    each less than a window behind the latest, and with any attributes from
    the hardware - delivers each frame heard, once, with the payload of the
    original message and its number. *)
Theorem monitor_end_to_end (st sr : kstate) (p enc : Z) (r : encoding_rx)
  (ms : list (nlmsg * list Z)) (heard : list nat) (hs : list heard_frame) :
  Forall (fun mp => data_msg mp.1 enc mp.2) ms ->
  stream_ok st enc [] -> mem_ok st -> calm st -> is_Some (k_mon st) ->
  Z.of_nat (length ms) <= 65535 -> is_u64 enc ->
  rx_ok sr p r enc [] -> rx_latest r = 0 ->
  Forall2 (heard_of ms enc) hs heard ->
  bounded_reorder 0 (map Z.of_nat heard) = true ->
  exists st' sr', nl_recv_all ms.*1 st = Done tt st' /\
    k_air st' = k_air st ++ stream_air enc 0 ms /\
    hear_all hs sr = Done tt sr' /\
    k_user sr' = k_user sr ++ map (fun i =>
      let payload := default [] (ms.*2 !! i) in
      mk_nl_msg (k_pidt sr) (Z.of_nat (length payload) + 100)
        (enc_control (nl_control enc VMAC_HDR_DATA (Z.of_nat i)) ++ payload)) (firsts [] heard).
Proof.
  intros Hms Hst Hmem Hcalm Hmon Hlen Henc Hrx Hlat Hheard Hb.
  destruct (nl_recv_stream ms st enc [] Hms Hst Hmem Hcalm Hmon Hlen) as (st' & E & A & _).
  assert (Forall vmac_heard hs /\ Forall2 (fun b i => exists f fcs, stream_air enc 0 ms !! i = Some f /\
      length fcs = 4%nat /\ sk_data b = heard_bytes f fcs) (map stripped hs) heard) as [Hh Hbs].
  { clear -Hheard. induction Hheard as [|h i hs heard Hi _ [IH1 IH2]]; [split; constructor|].
    destruct (stripped_ok _ _ _ _ Hi). split; constructor; done. }
  destruct (heard_arrivals (k_pidt sr) enc ms heard _ Hms Hbs) as (fs & Hfs & Hfst & Hsnd).
  assert (bounded_reorder (rx_latest r) (map fst fs) = true) as Hbr by (by rewrite Hlat, Hfst).
  destruct (arrive_all_done enc fs (map stripped hs) sr p r []) as (sr1 & r' & got' & E1 & U & _); try done.
  destruct (hear_all_arrives enc fs hs sr (k_recv sr) p r []) as (sr2 & ρ & E2 & E3); try done.
  rewrite E1 in E2. apply Done_inj in E2 as <-.
  assert (with_recv (k_recv sr) sr = sr) as Er by (by destruct sr). rewrite Er in E3.
  exists st', (with_recv ρ sr1). split; [done|]. split; [done|]. split; [done|].
  change (k_user (with_recv ρ sr1)) with (k_user sr1). rewrite U. f_equal.
  apply first_received_firsts with (seen := []) (got := []); [exact Hsnd|].
  intros i. split; intros Hi; by apply not_elem_of_nil in Hi.
Qed.
End link.

(** ** Concrete receptions *)

(** Frame [n] of the demonstration stream, as heard. *)
Definition demo_heard (rf n : Z) (payload : list Z) : heard_frame :=
  mk_heard_frame rf (mk_radio_hal 2 1 36) (demo_attrib 50) 80
    (vmac_ieee80211_hdr ++ data_frame 7 n payload ++ [0; 0; 0; 0]) [].

Lemma monitor_end_to_end_witness : exists st' sr',
  nl_recv_all demo_stream_msgs.*1 demo_state = Done tt st' /\
  k_air st' = stream_air 7 0 demo_stream_msgs /\
  hear_all id [demo_heard 1 2 [13]; demo_heard 2 0 [10]; demo_heard 3 2 [13]] demo_rx_state = Done tt sr' /\
  k_user sr' = [mk_nl_msg 42 101 (enc_control (nl_control 7 1 2) ++ [13]);
                mk_nl_msg 42 101 (enc_control (nl_control 7 1 0) ++ [10])].
Proof.
  destruct (monitor_end_to_end id demo_state demo_rx_state 1 7 demo_rx demo_stream_msgs
    [2; 0; 2]%nat [demo_heard 1 2 [13]; demo_heard 2 0 [10]; demo_heard 3 2 [13]]
    demo_msgs_ok demo_stream demo_mem_ok demo_calm) as (st' & sr' & E1 & A & E2 & U).
  - by eexists.
  - vm_compute. done.
  - width_lia.
  - apply demo_rx_ok.
  - done.
  - repeat constructor; try lia; try done; (eexists; exists [0; 0; 0; 0]; split; [reflexivity|]; split; [done|by vm_compute]).
  - by vm_compute.
  - exists st', sr'. split_and!; [exact E1|exact A|exact E2|]. rewrite U. by vm_compute.
Defined.
