(* ===== verification/RecvFrame.v ===== *)
(** * Receive frames and their reassembly (core/rtw_recv.c, rtw_recv.h)

    The cursor operations on [union recv_frame], the reassembly of fragments
    [recvframe_defrag], the per-station defragmentation queues of
    [recvframe_chk_defrag] and the TKIP check of [recvframe_chkmic].  A read
    or write that leaves a frame's buffer is [None]. *)

From S2P Require Import Prelude Mem Arc4 SecDefs Michael Ccmp.
(** The attributes the data path sets beside those below; [x_psta] and
    [x_preorder] (station and TID) are the pointers of the frame's header. *)
Record rx_ext := mk_rx_ext {
  x_to_fr_ds : Z; x_order : Z; x_pw_save : Z; x_mdata : Z; x_ack_policy : Z; x_data_rate : Z;
  x_bssid : list Z; x_psta : option Z; x_preorder : option (Z * Z) }.

#[export] Instance eta_rx_ext : Eta rx_ext := fun x =>
  mk_rx_ext (x_to_fr_ds x) (x_order x) (x_pw_save x) (x_mdata x) (x_ack_policy x) (x_data_rate x) (x_bssid x) (x_psta x)
    (x_preorder x).

Definition no_ext : rx_ext := mk_rx_ext 0 0 0 0 0 0 [] None None.

(** [rm_buf] is the memory from [rx_head] to [rx_end]; [rm_data] and [rm_tail]
    are offsets from [rx_head]; [rm_id] names the receive frame. *)
Record rx_frame := mk_rx_frame {
  rm_buf : list Z; rm_data : Z; rm_tail : Z; rm_len : Z;
  rm_mfrag : Z; rm_frag_num : Z; rm_hdrlen : Z; rm_iv_len : Z; rm_icv_len : Z;
  rm_privacy : Z; rm_encrypt : Z; rm_key_index : Z; rm_priority : Z; rm_bdecrypted : Z;
  rm_ta : list Z; rm_ra : list Z; rm_dst : list Z; rm_src : list Z;
  rm_amsdu : Z; rm_qos : Z; rm_seq_num : Z; rm_eth_type : Z; rm_ext : rx_ext; rm_id : Z }.

#[export] Instance eta_rx_frame : Eta rx_frame := fun f =>
  mk_rx_frame (rm_buf f) (rm_data f) (rm_tail f) (rm_len f) (rm_mfrag f) (rm_frag_num f) (rm_hdrlen f)
    (rm_iv_len f) (rm_icv_len f) (rm_privacy f) (rm_encrypt f) (rm_key_index f) (rm_priority f) (rm_bdecrypted f)
    (rm_ta f) (rm_ra f) (rm_dst f) (rm_src f) (rm_amsdu f) (rm_qos f) (rm_seq_num f) (rm_eth_type f) (rm_ext f) (rm_id f).

(** [rx_end - rx_head] *)
Definition rm_end (f : rx_frame) : Z := mem_len (rm_buf f).

(** ** The cursor operations; the size is a [sint], [len] a [uint] *)

Definition recvframe_push (f : rx_frame) (sz : Z) : rx_frame :=
  if rm_data f - sz <? 0 then f
  else f <| rm_data := rm_data f - sz |> <| rm_len := u32 (rm_len f + sz) |>.

Definition recvframe_pull (f : rx_frame) (sz : Z) : rx_frame :=
  if rm_tail f <? rm_data f + sz then f
  else f <| rm_data := rm_data f + sz |> <| rm_len := u32 (rm_len f - sz) |>.

Definition recvframe_put (f : rx_frame) (sz : Z) : rx_frame :=
  if rm_end f <? rm_tail f + sz then f
  else f <| rm_tail := rm_tail f + sz |> <| rm_len := u32 (rm_len f + sz) |>.

Definition recvframe_pull_tail (f : rx_frame) (sz : Z) : rx_frame :=
  if rm_tail f - sz <? rm_data f then f
  else f <| rm_tail := rm_tail f - sz |> <| rm_len := u32 (rm_len f - sz) |>.

(** ** Reassembly *)

(** The payload of fragment [n] copied behind [pr], whose ICV is dropped; the
    copy is made before [recvframe_put] checks for room. *)
Definition defrag_append (pr n : rx_frame) : option rx_frame :=
  let n := recvframe_pull n (u8 (rm_hdrlen n + rm_iv_len n)) in
  let pr := recvframe_pull_tail pr (rm_icv_len pr) in
  payload ← rdn (rm_buf n) (rm_data n) (rm_len n);
  buf ← wrn (rm_buf pr) (rm_tail pr) payload;
  let pr := recvframe_put (pr <| rm_buf := buf |>) (s32 (rm_len n)) in
  Some (pr <| rm_icv_len := rm_icv_len n |>).

(** The loop over the fragments after the first; [Some None]: a number is
    missing. *)
Fixpoint defrag_loop (q : list rx_frame) (curfragnum : Z) (pr : rx_frame) : option (option rx_frame) :=
  match q with
  | [] => Some (Some pr)
  | n :: q =>
      if negb (curfragnum =? rm_frag_num n) then Some None
      else pr ← defrag_append pr n; defrag_loop q (u8 (curfragnum + 1)) pr
  end.

(** The reassembled frame, or NULL, and the frames freed, in order. *)
Definition recvframe_defrag (defrag_q : list rx_frame) : option (option rx_frame * list rx_frame) :=
  match defrag_q with
  | [] => None
  | f :: q =>
      if negb (0 =? rm_frag_num f) then Some (None, f :: q)
      else r ← defrag_loop q 1 f;
           match r with
           | None => Some (None, f :: q)
           | Some pr => Some (Some pr, q)
           end
  end.

(** ** The TKIP message integrity code *)

(** The key material [recvframe_chkmic] reads, the flag it sets, and the calls
    of [rtw_handle_tkip_mic_err] (station, group key). *)
Record mic_keys := mk_mic_keys {
  dot118021XGrprxmickey : list (list Z); mk_binstallGrpkey : Z; mlme_key_index : Z;
  bcheck_grpkey : Z; mic_errors : list (Z * bool) }.

#[export] Instance eta_mic_keys : Eta mic_keys := fun k =>
  mk_mic_keys (dot118021XGrprxmickey k) (mk_binstallGrpkey k) (mlme_key_index k) (bcheck_grpkey k) (mic_errors k).

Section recv.
(** [rtw_get_stainfo]: the station of an address; [dot11tkiprxmickey]: the
    receive MIC key of a station. *)
Context (rtw_get_stainfo : list Z -> option Z) (dot11tkiprxmickey : Z -> list Z).

Definition recvframe_chkmic (k : mic_keys) (f : rx_frame) : option (Z * mic_keys * rx_frame) :=
  if rm_encrypt f =? _TKIP_ then
    match rtw_get_stainfo (rm_ta f) with
    | None => Some (_SUCCESS, k, recvframe_pull_tail f 8)
    | Some sta =>
        let mcast := IS_MCAST (rm_ra f) in
        if mcast && (mk_binstallGrpkey k =? 0) then Some (_FAIL, k, f)
        else
          mickey ← (if mcast then key_at (dot118021XGrprxmickey k) (rm_key_index f) else Some (dot11tkiprxmickey sta));
          let datalen := u32 (rm_len f - rm_hdrlen f - rm_iv_len f - rm_icv_len f - 8) in
          let payload := rm_data f + rm_hdrlen f + rm_iv_len f in
          miccode ← rtw_seccalctkipmic mickey (drop (Z.to_nat (rm_data f)) (rm_buf f))
                      (drop (Z.to_nat payload) (rm_buf f)) datalen (rm_priority f);
          pframemic ← rdn (rm_buf f) (payload + datalen) 8;
          let ok := bool_decide (miccode = pframemic) in
          let k := if ok then if (bcheck_grpkey k =? 0) && mcast then k <| bcheck_grpkey := 1 |> else k
                   else let brpt_micerror := negb (mcast && negb (rm_key_index f =? mlme_key_index k)) in
                        if (rm_bdecrypted f =? 1) && brpt_micerror
                        then k <| mic_errors := mic_errors k ++ [(sta, mcast)] |> else k in
          Some (if ok then _SUCCESS else _FAIL, k, recvframe_pull_tail f 8)
    end
  else Some (_SUCCESS, k, f).

(** ** The defragmentation queues *)

(** The queue of each station, the key state, the frames freed so far. *)
Record defrag_state := mk_defrag_state {
  ds_queues : gmap Z (list rx_frame); ds_keys : mic_keys; ds_freed : list rx_frame }.

Definition defrag_q (s : defrag_state) (sta : Z) : list rx_frame := default [] (ds_queues s !! sta).

(** The station whose queue a frame goes to; the broadcast station for
    anything but data. *)
Definition defrag_sta (rtw_get_bcmc_stainfo : Z) (f : rx_frame) : option Z :=
  match rtw_get_stainfo (rm_ta f) with
  | Some sta => Some sta
  | None => if GetFrameType (drop (Z.to_nat (rm_data f)) (rm_buf f)) =? WIFI_DATA then None else Some rtw_get_bcmc_stainfo
  end.

Definition freed_frames (s : defrag_state) (l : list rx_frame) : defrag_state :=
  mk_defrag_state (ds_queues s) (ds_keys s) (ds_freed s ++ l).

(** The queueing part: the frame to go on with, if any. *)
Definition chk_defrag_queue (bcmc : Z) (s : defrag_state) (f : rx_frame) : option (option rx_frame * defrag_state) :=
  let ismfrag := rm_mfrag f in
  let fragnum := rm_frag_num f in
  if ismfrag =? 1 then
    match defrag_sta bcmc f with
    | None => Some (None, freed_frames s [f])
    | Some sta =>
        let q := defrag_q s sta in
        let '(q, old) := if fragnum =? 0 then ([], q) else (q, []) in
        Some (None, mk_defrag_state (<[sta := q ++ [f]]> (ds_queues s)) (ds_keys s) (ds_freed s ++ old))
    end
  else if negb (ismfrag =? 0) then Some (None, s)
  else if fragnum =? 0 then Some (Some f, s)
  else
    match defrag_sta bcmc f with
    | None => Some (None, freed_frames s [f])
    | Some sta =>
        '(r, freed) ← recvframe_defrag (defrag_q s sta ++ [f]);
        Some (r, mk_defrag_state (<[sta := []]> (ds_queues s)) (ds_keys s) (ds_freed s ++ freed))
    end.

Definition recvframe_chk_defrag (bcmc : Z) (s : defrag_state) (f : rx_frame) : option (option rx_frame * defrag_state) :=
  '(r, s) ← chk_defrag_queue bcmc s f;
  match r with
  | None => Some (None, s)
  | Some f =>
      if rm_privacy f =? 0 then Some (Some f, s)
      else
        '(res, k, f) ← recvframe_chkmic (ds_keys s) f;
        let s := mk_defrag_state (ds_queues s) k (ds_freed s) in
        if res =? _FAIL then Some (None, freed_frames s [f]) else Some (Some f, s)
  end.
End recv.
