(* ===== verification/RecvThms.v ===== *)
(** * Reassembly

    Conservation of the frames, the payload of a train of fragments, and its
    Michael check. *)

From S2P Require Import Prelude Mem Arc4 SecDefs Michael MichaelSpec Ccmp RecvFrame.
(** ** Frames laid out in their buffers *)

(** The frame holds [bytes] between [rx_data] and [rx_tail], with [pre] before
    and [room] behind them. *)
Record holds (f : rx_frame) (pre content room : list Z) : Prop := {
  ho_buf : rm_buf f = pre ++ content ++ room;
  ho_data : rm_data f = mem_len pre;
  ho_tail : rm_tail f = mem_len pre + mem_len content;
  ho_len : rm_len f = mem_len content;
  ho_size : mem_len (rm_buf f) < 2 ^ 31 }.

Lemma pull_holds f pre a b room n :
  holds f pre (a ++ b) room -> n = mem_len a ->
  holds (recvframe_pull f n) (pre ++ a) b room /\ rm_icv_len (recvframe_pull f n) = rm_icv_len f.
Proof.
  intros [Hb Hd Ht Hl Hs] ->. unfold recvframe_pull. rewrite mem_len_app in *.
  pose proof (mem_len_nonneg pre); pose proof (mem_len_nonneg a); pose proof (mem_len_nonneg b); pose proof (mem_len_nonneg room).
  rewrite (proj2 (Z.ltb_ge _ _)) by lia. split; [|done].
  split; cbn.
  - by rewrite Hb, <- !app_assoc.
  - by rewrite Hd, mem_len_app.
  - rewrite Ht, mem_len_app. lia.
  - rewrite Hl, wrap_small; [lia|]. rewrite Hb, !mem_len_app in Hs. width_lia.
  - done.
Qed.

Lemma pull_tail_holds f pre a b room n :
  holds f pre (a ++ b) room -> n = mem_len b -> holds (recvframe_pull_tail f n) pre a (b ++ room).
Proof.
  intros [Hb Hd Ht Hl Hs] ->. unfold recvframe_pull_tail. rewrite mem_len_app in *.
  pose proof (mem_len_nonneg pre); pose proof (mem_len_nonneg a); pose proof (mem_len_nonneg b); pose proof (mem_len_nonneg room).
  rewrite (proj2 (Z.ltb_ge _ _)) by lia. split; cbn.
  - by rewrite Hb, <- !app_assoc.
  - done.
  - rewrite Ht. lia.
  - rewrite Hl, wrap_small; [lia|]. rewrite Hb, !mem_len_app in Hs. width_lia.
  - done.
Qed.

(** A fragment: header and IV to be skipped, payload, ICV. *)
Record fragment (f : rx_frame) (pre hdr payload icv room : list Z) : Prop := {
  fg_holds : holds f pre (hdr ++ payload ++ icv) room;
  fg_hdr : rm_hdrlen f + rm_iv_len f = mem_len hdr;
  fg_u8 : mem_len hdr < 256;
  fg_icv : rm_icv_len f = mem_len icv }.

(** [pr] in the middle of the reassembly. *)
Record joining (pr : rx_frame) (pre got icv room : list Z) : Prop := {
  jo_holds : holds pr pre (got ++ icv) room;
  jo_icv : rm_icv_len pr = mem_len icv }.

(** The attributes reassembly does not change. *)
Definition attrs (f : rx_frame) :=
  (rm_mfrag f, rm_frag_num f, rm_hdrlen f, rm_iv_len f, rm_privacy f, rm_encrypt f, rm_key_index f,
   rm_priority f, rm_bdecrypted f, (rm_ta f, rm_ra f, rm_id f),
   (rm_dst f, rm_src f, rm_amsdu f, rm_qos f, rm_seq_num f, rm_eth_type f, rm_ext f)).

Lemma append_attrs pr n pr' : defrag_append pr n = Some pr' -> attrs pr' = attrs pr.
Proof.
  unfold defrag_append. destruct (rdn _ _ _); [|done]. cbn [mbind option_bind].
  destruct (wrn _ _ _); [|done]. cbn [mbind option_bind]. intros E. apply (inj Some) in E. subst pr'.
  unfold recvframe_put, recvframe_pull_tail. by repeat case_match.
Qed.

Lemma append_done pr n pre got icv room pre2 hdr payload icv2 room2 :
  joining pr pre got icv room -> fragment n pre2 hdr payload icv2 room2 ->
  mem_len payload + mem_len icv2 <= mem_len icv + mem_len room ->
  exists pr' room', defrag_append pr n = Some pr' /\ joining pr' pre (got ++ payload) icv2 room' /\
    mem_len icv2 + mem_len room' = mem_len icv + mem_len room - mem_len payload.
Proof.
  intros [Hh Hi] [Hf Hhd Hu Hicv] Hroom. unfold defrag_append.
  rewrite wrap_small by (pose proof (mem_len_nonneg hdr); width_lia). rewrite Hhd, Hi.
  destruct (pull_holds n pre2 hdr (payload ++ icv2) room2 _ Hf eq_refl) as [Hn Hni]. rewrite Hicv in Hni.
  pose proof (pull_tail_holds pr pre got icv room _ Hh eq_refl) as Hp.
  set (n' := recvframe_pull n (mem_len hdr)) in *. set (pr1 := recvframe_pull_tail pr (mem_len icv)) in *.
  destruct Hn as [Nb Nd Nt Nl Ns]. destruct Hp as [Pb Pd Pt Pl Ps].
  rewrite Nb, Nd, Nl, (rdn_app (pre2 ++ hdr) (payload ++ icv2)) by done. cbn [mbind option_bind].
  set (k := length (payload ++ icv2)).
  assert (k <= length (icv ++ room))%nat as Hk by (subst k; unfold mem_len in Hroom; rewrite !length_app; lia).
  assert (rm_buf pr1 = (pre ++ got) ++ take k (icv ++ room) ++ drop k (icv ++ room)) as Pb'
    by (by rewrite Pb, take_drop, <- app_assoc).
  rewrite Pb', Pt, (wrn_app (pre ++ got)) by (rewrite ?mem_len_app, ?length_take; lia). cbn [mbind option_bind].
  set (buf := (pre ++ got) ++ (payload ++ icv2) ++ drop k (icv ++ room)).
  assert (mem_len buf = mem_len (rm_buf pr1)) as Hbuf.
  { subst buf. rewrite Pb', !mem_len_app. rewrite <- (mem_len_app payload). unfold mem_len. rewrite length_take. fold k. lia. }
  assert (mem_len (payload ++ icv2) < 2 ^ 31) as Hsz.
  { rewrite Nb in Ns. rewrite mem_len_app, (mem_len_app (payload ++ icv2)) in Ns.
    pose proof (mem_len_nonneg (pre2 ++ hdr)); pose proof (mem_len_nonneg room2). lia. }
  rewrite s32_small by (pose proof (mem_len_nonneg (payload ++ icv2)); lia).
  pose proof (mem_len_nonneg (drop k (icv ++ room))). pose proof (mem_len_nonneg pre).
  assert (mem_len buf = mem_len pre + mem_len got + mem_len (payload ++ icv2) + mem_len (drop k (icv ++ room))) as Hbl
    by (subst buf; rewrite !mem_len_app; lia).
  pose proof (mem_len_nonneg got). pose proof (mem_len_nonneg (payload ++ icv2)).
  set (pr2 := pr1 <| rm_buf := buf |>). unfold recvframe_put.
  change (rm_end pr2) with (mem_len buf). change (rm_tail pr2) with (rm_tail pr1). change (rm_len pr2) with (rm_len pr1).
  rewrite (proj2 (Z.ltb_ge _ _)) by lia.
  exists (pr2 <| rm_tail := rm_tail pr1 + mem_len (payload ++ icv2) |>
              <| rm_len := u32 (rm_len pr1 + mem_len (payload ++ icv2)) |> <| rm_icv_len := rm_icv_len n' |>),
    (drop k (icv ++ room)).
  split; [done|]. split; [|unfold mem_len in *; rewrite length_drop; subst k; rewrite !length_app in *; lia].
  split; [|exact Hni]. split; cbn.
  - subst buf. by rewrite <- !app_assoc.
  - exact Pd.
  - rewrite Pt, <- (app_assoc got), !mem_len_app. lia.
  - rewrite Pl, wrap_small, <- app_assoc, !mem_len_app; [lia|]. rewrite mem_len_app in *. width_lia.
  - rewrite Hbuf. exact Ps.
Qed.

(** ** A train of fragments *)

(** The fragments from number [k] on with their payloads; every ICV has [n]
    bytes. *)
Inductive fragments (n : Z) : Z -> list rx_frame -> list (list Z) -> Prop :=
  | fragments_nil k : fragments n k [] []
  | fragments_cons k f fs p ps pre hdr icv room :
      rm_frag_num f = k -> fragment f pre hdr p icv room -> mem_len icv = n ->
      fragments n (k + 1) fs ps -> fragments n k (f :: fs) (p :: ps).

Lemma loop_done n fs : forall ps k pr pre got icv room,
  joining pr pre got icv room -> mem_len icv = n -> fragments n k fs ps ->
  mem_len (concat ps) <= mem_len room -> 0 <= k -> k + Z.of_nat (length fs) < 256 ->
  exists pr' icv' room', defrag_loop fs k pr = Some (Some pr') /\ joining pr' pre (got ++ concat ps) icv' room' /\
    mem_len icv' = n /\ attrs pr' = attrs pr.
Proof.
  induction fs as [|f fs IH]; intros ps k pr pre got icv room Hj Hn Hf Hroom Hk Hlen; inversion Hf; subst.
  - exists pr, icv, room. cbn. by rewrite app_nil_r.
  - cbn [concat] in Hroom. rewrite mem_len_app in Hroom. pose proof (mem_len_nonneg (concat ps0)).
    cbn [defrag_loop]. rewrite Z.eqb_refl. cbn [negb].
    match goal with H : fragment f _ _ _ _ _ |- _ => destruct (append_done pr f _ _ _ _ _ _ _ _ _ Hj H) as (pr1 & room1 & E & Hj1 & Hr1) end;
      [lia|].
    rewrite E. cbn [mbind option_bind length] in *. rewrite wrap_small by width_lia.
    match goal with H : mem_len _ = mem_len icv |- _ => rename H into Hi end.
    match goal with H : fragments _ _ fs ps0 |- _ => rename H into Hfs end.
    destruct (IH ps0 _ pr1 pre _ _ room1 Hj1 Hi Hfs) as (pr' & icv' & room' & E' & Hj' & Hi' & Ha'); [lia|lia|lia|].
    exists pr', icv', room'. cbn [concat]. rewrite app_assoc. split_and!; try done.
    rewrite Ha'. by apply (append_attrs pr f).
Qed.

(** ** Conservation *)

Lemma loop_attrs fs : forall k pr pr', defrag_loop fs k pr = Some (Some pr') -> attrs pr' = attrs pr.
Proof.
  induction fs as [|f fs IH]; intros k pr pr'; cbn [defrag_loop]; [congruence|].
  destruct (negb _); [done|]. destruct (defrag_append pr f) as [pr1|] eqn:E; [|done]. cbn.
  intros H. rewrite (IH _ _ _ H). by apply (append_attrs pr f).
Qed.

Definition ids (l : list rx_frame) : list Z := rm_id <$> l.

Lemma attrs_id f g : attrs f = attrs g -> rm_id f = rm_id g.
Proof. unfold attrs. congruence. Qed.

(** Every frame of the queue is returned or freed, once. *)
Lemma defrag_conserves q r freed :
  recvframe_defrag q = Some (r, freed) -> ids (option_list r) ++ ids freed = ids q.
Proof.
  unfold recvframe_defrag. destruct q as [|f q]; [done|]. destruct (negb _).
  - intros [= <- <-]. done.
  - destruct (defrag_loop q 1 f) as [[pr|]|] eqn:E; [|intros [= <- <-]; done|done]. cbn.
    intros [= <- <-]. cbn. f_equal. by apply attrs_id, (loop_attrs q 1).
Qed.

Section chk.
Context (rtw_get_stainfo : list Z -> option Z) (dot11tkiprxmickey : Z -> list Z) (bcmc : Z).

(** The frames waiting for further fragments of one station. *)
Lemma queue_conserves s f r s' :
  rm_mfrag f = 0 \/ rm_mfrag f = 1 ->
  chk_defrag_queue rtw_get_stainfo bcmc s f = Some (r, s') ->
  exists sta, (forall t, t <> sta -> defrag_q s' t = defrag_q s t) /\
    ids (option_list r) ++ ids (defrag_q s' sta) ++ ids (ds_freed s') ≡ₚ
    rm_id f :: ids (defrag_q s sta) ++ ids (ds_freed s).
Proof.
  intros Hm. unfold chk_defrag_queue. set (sta0 := defrag_sta rtw_get_stainfo bcmc f).
  destruct (rm_mfrag f =? 1) eqn:E1.
  - destruct sta0 as [sta|].
    2: { intros [= <- <-]. exists 0. split; [done|]. cbn. unfold ids. rewrite fmap_app. cbn.
         rewrite app_assoc. apply Permutation_app_comm. }
    destruct (rm_frag_num f =? 0) eqn:E2; intros [= <- <-]; exists sta.
    + split; [intros t Ht; unfold defrag_q; cbn; by rewrite lookup_insert_ne|].
      unfold defrag_q. cbn. rewrite lookup_insert_eq. cbn. unfold ids. rewrite fmap_app.
      constructor. apply Permutation_app_comm.
    + split; [intros t Ht; unfold defrag_q; cbn; by rewrite lookup_insert_ne|].
      unfold defrag_q at 1. cbn. rewrite lookup_insert_eq. cbn. unfold ids. rewrite !fmap_app, app_nil_r. cbn.
      rewrite <- app_assoc. symmetry; apply Permutation_middle.
  - assert (rm_mfrag f = 0) as -> by (apply Z.eqb_neq in E1; lia). cbn [negb Z.eqb].
    destruct (rm_frag_num f =? 0) eqn:E2.
    { intros [= <- <-]. exists 0. split; [done|]. done. }
    destruct sta0 as [sta|].
    2: { intros [= <- <-]. exists 0. split; [done|]. cbn. unfold ids. rewrite fmap_app. cbn.
         rewrite app_assoc. apply Permutation_app_comm. }
    destruct (recvframe_defrag _) as [[r1 fr]|] eqn:Ed; [|done]. cbn. intros [= <- <-]. exists sta.
    split; [intros t Ht; unfold defrag_q; cbn; by rewrite lookup_insert_ne|].
    unfold defrag_q at 1. cbn. rewrite lookup_insert_eq. cbn. pose proof (defrag_conserves _ _ _ Ed) as Hc.
    unfold ids in *. rewrite fmap_app in *. cbn in Hc.
    rewrite (Permutation_app_comm (rm_id <$> ds_freed s)), app_assoc, Hc, <- app_assoc. symmetry; apply Permutation_middle.
Qed.

Lemma pull_tail_id f n : rm_id (recvframe_pull_tail f n) = rm_id f.
Proof. unfold recvframe_pull_tail. by case_match. Qed.

Lemma chkmic_id k f res k' g :
  recvframe_chkmic rtw_get_stainfo dot11tkiprxmickey k f = Some (res, k', g) -> rm_id g = rm_id f.
Proof.
  unfold recvframe_chkmic.
  destruct (rm_encrypt f =? _TKIP_); [|by intros [= _ _ <-]].
  destruct (rtw_get_stainfo (rm_ta f)) as [sta|].
  2: { intros [= _ _ <-]. apply pull_tail_id. }
  destruct (_ && _); [by intros [= _ _ <-]|].
  destruct (if IS_MCAST (rm_ra f) then _ else _) as [key|]; [|done]. cbn [mbind option_bind].
  destruct (rtw_seccalctkipmic _ _ _ _ _) as [mic|]; [|done]. cbn [mbind option_bind].
  destruct (rdn _ _ 8) as [pm|]; [|done]. cbn [mbind option_bind].
  intros [= _ _ <-]. apply pull_tail_id.
Qed.

(** Reassembly neither loses nor duplicates a receive frame: in every
    state, for every frame, the frames handed on, waiting in the queue of one
    station and freed afterwards are those waiting and freed before and the
    new one; no other station's queue changes. *)
Theorem defrag_conserves_frames s f r s' :
  rm_mfrag f = 0 \/ rm_mfrag f = 1 ->
  recvframe_chk_defrag rtw_get_stainfo dot11tkiprxmickey bcmc s f = Some (r, s') ->
  exists sta, (forall t, t <> sta -> defrag_q s' t = defrag_q s t) /\
    ids (option_list r) ++ ids (defrag_q s' sta) ++ ids (ds_freed s') ≡ₚ
    rm_id f :: ids (defrag_q s sta) ++ ids (ds_freed s).
Proof.
  intros Hm. unfold recvframe_chk_defrag. destruct (chk_defrag_queue _ _ s f) as [[r1 s1]|] eqn:E; [|done].
  destruct (queue_conserves s f r1 s1 Hm E) as (sta & Ho & Hp). cbn [mbind option_bind].
  destruct r1 as [g|]; [|intros [= <- <-]; by exists sta].
  destruct (rm_privacy g =? 0); [intros [= <- <-]; by exists sta|].
  destruct (recvframe_chkmic _ _ (ds_keys s1) g) as [[[res k] g1]|] eqn:Em; [|done]. cbn [mbind option_bind].
  pose proof (chkmic_id _ _ _ _ _ Em) as Hid. cbn in Hp.
  destruct (res =? _FAIL); intros [= <- <-]; exists sta; (split; [exact Ho|]); cbn.
  - unfold ids in *. rewrite fmap_app. cbn. rewrite Hid, app_assoc, <- Permutation_cons_append. exact Hp.
  - rewrite Hid. exact Hp.
Qed.
End chk.

Lemma defrag_conserves_frames_witness :
  let f := mk_rx_frame [8; 1; 0; 0] 0 4 4 1 0 2 0 0 0 0 0 0 0 [] [] [] [] 0 0 0 0 no_ext 4 in
  let s := mk_defrag_state {[ 7 := [f <| rm_id := 1 |>] ]} (mk_mic_keys [] 0 0 0 []) [] in
  exists sta s', recvframe_chk_defrag (fun _ => Some 7) (fun _ => []) 0 s f = Some (None, s') /\
    ids (defrag_q s' sta) ++ ids (ds_freed s') ≡ₚ 4 :: ids (defrag_q s sta) ++ [].
Proof.
  intros f s.
  destruct (defrag_conserves_frames (fun _ => Some 7) (fun _ => []) 0 s f None
    (mk_defrag_state (<[7 := [f]]> (ds_queues s)) (ds_keys s) [f <| rm_id := 1 |>])) as (sta & _ & H).
  - by right.
  - reflexivity.
  - exists sta. eexists. split; [reflexivity|exact H].
Defined.

(** ** Reassembly over a train of fragments, and its Michael check

    [chk_run] feeds frames to [recvframe_chk_defrag] one after the other; a
    complete train of fragments gives one frame with the payloads joined, and
    under TKIP that frame passes exactly when the joined payloads end in the
    Michael code of the rest. *)

(** ** The buffers keep holding bytes *)

Lemma rdn_bytes buf off n bs : rdn buf off n = Some bs -> bytes buf -> bytes bs.
Proof. unfold rdn. destruct (_ && _); [|done]. intros [= <-] Hb. by apply Forall_take, Forall_drop. Qed.

Lemma wrn_bytes buf off bs buf' : wrn buf off bs = Some buf' -> bytes buf -> bytes bs -> bytes buf'.
Proof.
  unfold wrn. destruct (_ && _); [|done]. intros [= <-] Hb Hs.
  repeat apply Forall_app_2; [by apply Forall_take|done|by apply Forall_drop].
Qed.

Lemma append_bytes pr n pr' :
  defrag_append pr n = Some pr' -> bytes (rm_buf pr) -> bytes (rm_buf n) -> bytes (rm_buf pr').
Proof.
  unfold defrag_append. intros H Hp Hn.
  assert (rm_buf (recvframe_pull n (u8 (rm_hdrlen n + rm_iv_len n))) = rm_buf n) as En
    by (unfold recvframe_pull; by case_match).
  assert (rm_buf (recvframe_pull_tail pr (rm_icv_len pr)) = rm_buf pr) as Ep by (unfold recvframe_pull_tail; by case_match).
  rewrite En, Ep in H. destruct (rdn _ _ _) as [bs|] eqn:E1; [|done]. cbn [mbind option_bind] in H.
  destruct (wrn _ _ _) as [buf|] eqn:E2; [|done]. cbn [mbind option_bind] in H. apply (inj Some) in H. subst pr'.
  assert (bytes buf) by (eapply wrn_bytes; [exact E2|done|by eapply rdn_bytes]).
  unfold recvframe_put. by case_match.
Qed.

Lemma loop_bytes fs : forall k pr pr',
  defrag_loop fs k pr = Some (Some pr') -> bytes (rm_buf pr) -> Forall (fun f => bytes (rm_buf f)) fs -> bytes (rm_buf pr').
Proof.
  induction fs as [|f fs IH]; intros k pr pr'; cbn [defrag_loop]; [by intros [= <-]|].
  destruct (negb _); [done|]. destruct (defrag_append pr f) as [pr1|] eqn:E; [|done]. cbn [mbind option_bind].
  intros H Hb Hf. inversion Hf; subst. apply (IH _ _ _ H); [by eapply append_bytes|done].
Qed.

Section train.
Context (rtw_get_stainfo : list Z -> option Z) (dot11tkiprxmickey : Z -> list Z) (bcmc : Z).
Local Abbreviation chk := (recvframe_chk_defrag rtw_get_stainfo dot11tkiprxmickey bcmc).
Local Abbreviation chkmic := (recvframe_chkmic rtw_get_stainfo dot11tkiprxmickey).

Fixpoint chk_run (s : defrag_state) (fs : list rx_frame) : option (list (option rx_frame) * defrag_state) :=
  match fs with
  | [] => Some ([], s)
  | f :: fs => '(r, s) ← chk s f; '(rs, s) ← chk_run s fs; Some (r :: rs, s)
  end.

Lemma chk_run_app s fs gs :
  chk_run s (fs ++ gs) = ('(rs, s) ← chk_run s fs; '(rs', s) ← chk_run s gs; Some (rs ++ rs', s)).
Proof.
  revert s. induction fs as [|f fs IH]; intros s; cbn [chk_run app].
  - cbn. by destruct (chk_run s gs) as [[]|].
  - destruct (chk s f) as [[r s1]|]; [|done]. cbn [mbind option_bind]. rewrite IH.
    destruct (chk_run s1 fs) as [[rs s2]|]; [|done]. cbn [mbind option_bind].
    by destruct (chk_run s2 gs) as [[]|].
Qed.

Context (sta : Z).

(** A fragment of the station that is not the last one. *)
Definition more (f : rx_frame) : Prop := rm_mfrag f = 1 /\ rtw_get_stainfo (rm_ta f) = Some sta.

Lemma chk_first s f :
  more f -> rm_frag_num f = 0 ->
  chk s f = Some (None, mk_defrag_state (<[sta := [f]]> (ds_queues s)) (ds_keys s) (ds_freed s ++ defrag_q s sta)).
Proof. intros [Hm Hs] Hn. unfold recvframe_chk_defrag, chk_defrag_queue, defrag_sta. by rewrite Hm, Hs, Hn. Qed.

Lemma chk_more qs k fr q f :
  more f -> rm_frag_num f <> 0 ->
  chk (mk_defrag_state (<[sta := q]> qs) k fr) f = Some (None, mk_defrag_state (<[sta := q ++ [f]]> qs) k fr).
Proof.
  intros [Hm Hs] Hn. unfold recvframe_chk_defrag, chk_defrag_queue, defrag_sta, defrag_q. rewrite Hm, Hs.
  apply Z.eqb_neq in Hn. rewrite Hn. cbn. by rewrite lookup_insert_eq, insert_insert_eq, app_nil_r.
Qed.

Lemma run_more fs : forall qs k fr q,
  Forall more fs -> Forall (fun f => rm_frag_num f <> 0) fs ->
  chk_run (mk_defrag_state (<[sta := q]> qs) k fr) fs =
  Some (replicate (length fs) None, mk_defrag_state (<[sta := q ++ fs]> qs) k fr).
Proof.
  induction fs as [|f fs IH]; intros qs k fr q Hm Hn; cbn [chk_run].
  - by rewrite app_nil_r.
  - inversion Hm; inversion Hn; subst. rewrite chk_more by done. cbn [mbind option_bind].
    rewrite IH by done. cbn. by rewrite <- app_assoc.
Qed.

Lemma fragments_num n k fs ps : fragments n k fs ps -> 0 < k -> Forall (fun f => rm_frag_num f <> 0) fs.
Proof. induction 1; intros; constructor; [lia|]. apply IHfragments. lia. Qed.

(** A complete train: the first fragment, those between, the last one, with
    the payloads after the first. *)
Record train (f0 : rx_frame) (mid : list rx_frame) (fl : rx_frame) (pre hdr p0 icv room : list Z)
    (ps : list (list Z)) : Prop := {
  tr_more : Forall more (f0 :: mid);
  tr_last : rm_mfrag fl = 0 /\ rtw_get_stainfo (rm_ta fl) = Some sta;
  tr_zero : rm_frag_num f0 = 0;
  tr_first : fragment f0 pre hdr p0 icv room;
  tr_rest : fragments (mem_len icv) 1 (mid ++ [fl]) ps;
  tr_count : (length mid < 254)%nat;
  tr_room : mem_len (concat ps) <= mem_len room }.

(** What is left of the check once the fragments are joined. *)
Definition verdict (s : defrag_state) (pr : rx_frame) : option (option rx_frame * defrag_state) :=
  if rm_privacy pr =? 0 then Some (Some pr, s)
  else
    '(res, k, f) ← chkmic (ds_keys s) pr;
    let s := mk_defrag_state (ds_queues s) k (ds_freed s) in
    if res =? _FAIL then Some (None, freed_frames s [f]) else Some (Some f, s).

Lemma train_joined s f0 mid fl pre hdr p0 icv room ps :
  train f0 mid fl pre hdr p0 icv room ps ->
  exists pr icv' room', joining pr pre (hdr ++ concat (p0 :: ps)) icv' room' /\ mem_len icv' = mem_len icv /\
    attrs pr = attrs f0 /\
    (Forall (fun f => bytes (rm_buf f)) (f0 :: mid ++ [fl]) -> bytes (rm_buf pr)) /\
    chk_run s (f0 :: mid ++ [fl]) =
    ('(r, s') ← verdict (mk_defrag_state (<[sta := []]> (ds_queues s)) (ds_keys s)
                           ((ds_freed s ++ defrag_q s sta) ++ mid ++ [fl])) pr;
     Some (replicate (S (length mid)) None ++ [r], s')).
Proof.
  intros [Hm [Hlm Hls] Hz Hf0 Hr Hc Hroom]. inversion Hm as [|? ? Hm0 Hmid]; subst.
  destruct Hf0 as [Hh Hhd Hu Hicv].
  assert (joining f0 pre (hdr ++ p0) icv room) as Hj by (split; [by rewrite <- app_assoc|done]).
  destruct (loop_done _ (mid ++ [fl]) ps 1 f0 pre _ icv room Hj eq_refl Hr) as (pr & icv' & room' & E & Hj' & Hi & Ha);
    [done|lia|rewrite length_app; cbn [length]; lia|].
  exists pr, icv', room'. split_and!; [by rewrite <- app_assoc in Hj'|done|done| |].
  { intros Hb. inversion Hb; subst. by apply (loop_bytes _ _ _ _ E). }
  pose proof (fragments_num _ _ _ _ Hr ltac:(lia)) as Hnum. apply Forall_app in Hnum as [Hnmid Hnl].
  cbn [chk_run]. rewrite chk_first by done. cbn [mbind option_bind]. rewrite chk_run_app, run_more by done.
  cbn [mbind option_bind chk_run app]. inversion Hnl; subst.
  unfold recvframe_chk_defrag, chk_defrag_queue, defrag_sta, defrag_q. rewrite Hlm, Hls.
  match goal with H : rm_frag_num fl <> 0 |- _ => apply Z.eqb_neq in H; rewrite H end. cbn [Z.eqb negb ds_queues].
  rewrite lookup_insert_eq. cbn [default from_option id app]. unfold recvframe_defrag.
  rewrite Hz, E. cbn [Z.eqb negb mbind option_bind]. rewrite insert_insert_eq.
  unfold verdict. cbn [ds_keys ds_queues ds_freed].
  destruct (rm_privacy pr =? 0); [done|].
  destruct (chkmic (ds_keys s) pr) as [[[res k] g]|]; [|done]. cbn [mbind option_bind]. by destruct (res =? _FAIL).
Qed.


(** ** The Michael check *)

Lemma field_app off a b : (off + 6 <= length a)%nat -> field off (a ++ b) = field off a.
Proof. intros. unfold field. rewrite drop_app_le, take_app_le by (rewrite ?length_drop; lia). done. Qed.

(** The header [recvframe_chkmic] passes to the Michael function is long
    enough for the addresses it reads. *)
Definition mic_header (hdr : list Z) : Prop :=
  ((if to_ds hdr && from_ds hdr then 30 else 24) <= length hdr)%nat.

Lemma mic_fields a b :
  mic_header a -> mic_DA (a ++ b) = mic_DA a /\ mic_SA (a ++ b) = mic_SA a /\ mic_header (a ++ b).
Proof.
  unfold mic_header, mic_DA, mic_SA. intros Ha.
  assert (to_ds (a ++ b) = to_ds a /\ from_ds (a ++ b) = from_ds a) as [-> ->].
  { unfold to_ds, from_ds, arr_get. assert (2 <= length a)%nat by (destruct (_ && _); lia).
    destruct a as [|? [|? ?]]; cbn in *; (lia || done). }
  rewrite length_app. destruct (to_ds a), (from_ds a); cbn [andb] in *; rewrite !field_app by lia; split_and!; (lia || done).
Qed.

(** The Michael code of a frame with header [hdr] and data [msg]. *)
Definition frame_mic (key hdr : list Z) (pri : Z) (msg : list Z) : list Z :=
  michael key (mic_DA hdr ++ mic_SA hdr ++ [pri; 0; 0; 0] ++ msg).

(** The fields [attrs] collects that the check reads. *)
Lemma attrs_parts f g :
  attrs f = attrs g ->
  rm_hdrlen f = rm_hdrlen g /\ rm_iv_len f = rm_iv_len g /\ rm_privacy f = rm_privacy g /\ rm_encrypt f = rm_encrypt g /\
  rm_ta f = rm_ta g /\ rm_key_index f = rm_key_index g /\ rm_priority f = rm_priority g /\ rm_ra f = rm_ra g /\
  rm_id f = rm_id g /\ rm_bdecrypted f = rm_bdecrypted g.
Proof. unfold attrs. intros [=]. by split_and!. Qed.

(** The calls of the MIC error handler a mismatch gives. *)
Definition mic_report (k : mic_keys) (g : rx_frame) : list (Z * bool) :=
  if (rm_bdecrypted g =? 1) && negb (IS_MCAST (rm_ra g) && negb (rm_key_index g =? mlme_key_index k))
  then [(sta, IS_MCAST (rm_ra g))] else [].

(** The key the frame is checked with. *)
Definition mic_key (k : mic_keys) (g : rx_frame) (key : list Z) : Prop :=
  if IS_MCAST (rm_ra g) then mk_binstallGrpkey k <> 0 /\ key_at (dot118021XGrprxmickey k) (rm_key_index g) = Some key
  else dot11tkiprxmickey sta = key.

Lemma chkmic_exact k g pre hdr msg mic icv room key :
  joining g pre (hdr ++ msg ++ mic) icv room -> rm_hdrlen g + rm_iv_len g = mem_len hdr ->
  length mic = 8%nat -> rm_encrypt g = _TKIP_ -> rtw_get_stainfo (rm_ta g) = Some sta -> mic_key k g key ->
  bytes (rm_buf g) -> bytes key -> length key = 8%nat -> is_u8 (rm_priority g) -> mic_header hdr ->
  exists k', chkmic k g = Some (if bool_decide (frame_mic key hdr (rm_priority g) msg = mic) then _SUCCESS else _FAIL,
                            k', recvframe_pull_tail g 8) /\
    mic_errors k' = mic_errors k ++
      (if bool_decide (frame_mic key hdr (rm_priority g) msg = mic) then [] else mic_report k g).
Proof.
  intros [[Hb Hd Ht Hl Hs] Hicv] Hhd Hm He Hsta Hkey Hbytes Hkb Hkl Hpri Hh.
  unfold recvframe_chkmic. rewrite He, Hsta. cbn [Z.eqb].
  assert (mem_len mic = 8) as Hm8 by (unfold mem_len; lia).
  rewrite Z.eqb_refl.
  assert (IS_MCAST (rm_ra g) && (mk_binstallGrpkey k =? 0) = false) as ->.
  { unfold mic_key in Hkey. destruct (IS_MCAST _); [|done]. destruct Hkey as [Hg _]. by apply Z.eqb_neq in Hg. }
  assert ((if IS_MCAST (rm_ra g) then key_at (dot118021XGrprxmickey k) (rm_key_index g) else Some (dot11tkiprxmickey sta))
          = Some key) as ->.
  { unfold mic_key in Hkey. destruct (IS_MCAST _); [apply Hkey|by rewrite Hkey]. }
  cbn [mbind option_bind].
  assert (u32 (rm_len g - rm_hdrlen g - rm_iv_len g - rm_icv_len g - 8) = mem_len msg) as Hdl.
  { assert (rm_len g - rm_hdrlen g - rm_iv_len g - rm_icv_len g - 8 = mem_len msg) as ->
      by (rewrite Hl, Hicv, !mem_len_app; lia).
    apply wrap_small. rewrite Hb, !mem_len_app in Hs. pose proof (mem_len_nonneg msg).
    pose proof (mem_len_nonneg pre); pose proof (mem_len_nonneg hdr); pose proof (mem_len_nonneg icv);
      pose proof (mem_len_nonneg room). width_lia. }
  rewrite Hdl.
  assert (drop (Z.to_nat (rm_data g)) (rm_buf g) = hdr ++ msg ++ mic ++ icv ++ room) as Ehdr.
  { rewrite Hd, Hb. unfold mem_len. rewrite Nat2Z.id, drop_app_length, <- !app_assoc. done. }
  assert (rm_data g + rm_hdrlen g + rm_iv_len g = mem_len (pre ++ hdr)) as Epay by (rewrite mem_len_app; lia).
  assert (rm_buf g = (pre ++ hdr) ++ msg ++ mic ++ icv ++ room) as Hb' by (by rewrite Hb, <- !app_assoc).
  assert (drop (Z.to_nat (rm_data g + rm_hdrlen g + rm_iv_len g)) (rm_buf g) = msg ++ mic ++ icv ++ room) as Edat.
  { rewrite Epay, Hb'. unfold mem_len. by rewrite Nat2Z.id, drop_app_length. }
  rewrite Ehdr, Edat. destruct (mic_fields hdr (msg ++ mic ++ icv ++ room) Hh) as (Eda & Esa & Hh').
  assert (bytes (hdr ++ msg ++ mic ++ icv ++ room)) as Hb2 by (rewrite <- Ehdr; by apply Forall_drop).
  rewrite calctkipmic_done; try done.
  2: { rewrite Forall_app in Hb2. by destruct Hb2. }
  2: { rewrite mem_len_app. pose proof (mem_len_nonneg msg); pose proof (mem_len_nonneg (mic ++ icv ++ room)). lia. }
  cbn [mbind option_bind]. rewrite Eda, Esa.
  assert (take (Z.to_nat (mem_len msg)) (msg ++ mic ++ icv ++ room) = msg) as ->
    by (unfold mem_len; rewrite Nat2Z.id; apply take_app_length).
  rewrite Epay, Hb', (app_assoc (pre ++ hdr) msg), <- mem_len_app, (rdn_app _ mic) by done. cbn [mbind option_bind].
  fold (frame_mic key hdr (rm_priority g) msg). eexists. split; [reflexivity|].
  unfold mic_report. destruct (bool_decide _).
  - rewrite app_nil_r. by case_match.
  - cbn zeta. destruct (_ && negb _); [done|by rewrite app_nil_r].
Qed.

(** Under TKIP a complete train of fragments is handed on exactly when its
    payloads, joined, end in the Michael code of the message before it: the
    code may be spread over fragments.  A frame with another code is freed,
    and reported when it had been decrypted with the current key. *)
Theorem defrag_checks_mic s f0 mid fl pre hdr p0 icv room ps msg mic key :
  train f0 mid fl pre hdr p0 icv room ps -> rm_privacy f0 <> 0 -> rm_encrypt f0 = _TKIP_ ->
  concat (p0 :: ps) = msg ++ mic -> length mic = 8%nat ->
  mic_key (ds_keys s) f0 key -> bytes key -> length key = 8%nat ->
  Forall (fun f => bytes (rm_buf f)) (f0 :: mid ++ [fl]) -> is_u8 (rm_priority f0) -> mic_header hdr ->
  let ok := bool_decide (frame_mic key hdr (rm_priority f0) msg = mic) in
  exists g s', chk_run s (f0 :: mid ++ [fl]) =
      Some (replicate (S (length mid)) None ++ [if ok then Some g else None], s') /\
    rm_id g = rm_id f0 /\
    (exists icv' tl, mem_len icv' = mem_len icv /\ length tl = 8%nat /\
      exists got room', holds g pre got room' /\ got ++ tl = hdr ++ msg ++ mic ++ icv') /\
    ids (ds_freed s') = ids (ds_freed s ++ defrag_q s sta ++ mid ++ [fl]) ++ (if ok then [] else [rm_id f0]) /\
    mic_errors (ds_keys s') = mic_errors (ds_keys s) ++ (if ok then [] else mic_report (ds_keys s) f0).
Proof.
  intros Ht Hp He Hmsg Hm Hk Hkb Hkl Hb Hpri Hh ok.
  destruct (train_joined s _ _ _ _ _ _ _ _ _ Ht) as (pr & icv' & room' & Hj & Hi & Ha & Hbp & E).
  specialize (Hbp Hb). rewrite Hmsg in Hj. destruct (attrs_parts _ _ Ha) as (A1 & A2 & A3 & A4 & A5 & A6 & A7 & A8 & A9 & A10).
  inversion Ht as [Hmore _ _ [_ Hhd _ _] _ _ _]. apply Forall_cons_1 in Hmore as [[_ Hsta] _].
  destruct (chkmic_exact (ds_keys s) pr pre hdr msg mic icv' room' key) as (k' & Ek & Er); try congruence.
  { unfold mic_key. by rewrite A8, A6. }
  rewrite A7 in Ek, Er. fold ok in Ek, Er.
  assert (mic_report (ds_keys s) pr = mic_report (ds_keys s) f0) as Erep by (unfold mic_report; by rewrite A8, A6, A10).
  unfold verdict in E. cbn [ds_keys ds_queues ds_freed] in E. rewrite Ek in E.
  assert ((rm_privacy pr =? 0) = false) as Ez by (apply Z.eqb_neq; congruence). rewrite Ez in E. cbn [mbind option_bind] in E.
  assert (rm_id (recvframe_pull_tail pr 8) = rm_id f0) as Hid by (rewrite <- A9; apply pull_tail_id).
  exists (recvframe_pull_tail pr 8). destruct Hj as [Hh1 _].
  assert (exists icv'0 tl, mem_len icv'0 = mem_len icv /\ length tl = 8%nat /\
      exists got room'0, holds (recvframe_pull_tail pr 8) pre got room'0 /\ got ++ tl = hdr ++ msg ++ mic ++ icv'0) as Hholds.
  { set (c := hdr ++ msg ++ mic ++ icv'). exists icv', (drop (length c - 8) c).
    assert (8 <= length c)%nat as Hc by (subst c; rewrite !length_app; lia).
    split_and!; [done|rewrite length_drop; lia|]. exists (take (length c - 8) c), (drop (length c - 8) c ++ room').
    split; [|apply take_drop]. apply pull_tail_holds; [|unfold mem_len; rewrite length_drop; lia].
    rewrite take_drop. subst c. by rewrite <- !app_assoc in Hh1. }
  destruct ok; cbn [Z.eqb] in E; eexists; (split; [exact E|]); (split; [done|]); (split; [exact Hholds|]);
    unfold ids; cbn; rewrite ?Er, ?Erep, ?app_nil_r, ?fmap_app, <- ?app_assoc; cbn; by rewrite ?Hid.
Qed.
End train.

(** ** Three fragments of a TKIP frame

    The message is [1; 2; ...; 10]; the Michael code is spread over the second
    and the third fragment. *)

Definition demo_hdr : list Z :=
  [0x08; 0x01; 0; 0] ++ repeat 10 6 ++ repeat 12 6 ++ repeat 14 6 ++ [0; 0] ++ repeat 1 8.

Definition demo_frag (enc num mfrag : Z) (payload room : list Z) : rx_frame :=
  let content := demo_hdr ++ payload ++ [9; 9; 9; 9] in
  mk_rx_frame ([5; 5] ++ content ++ room) 2 (2 + mem_len content) (mem_len content) mfrag num 24 8 4 1 enc 0 0 1
    [12; 12; 12; 12; 12; 12] [10; 10; 10; 10; 10; 10] [10; 10; 10; 10; 10; 10] [14; 14; 14; 14; 14; 14] 0 0 0 0 no_ext num.

Definition demo_key : list Z := [1; 2; 3; 4; 5; 6; 7; 8].
Definition demo_msg : list Z := [1; 2; 3; 4; 5; 6; 7; 8; 9; 10].
Definition demo_mic : list Z := Eval vm_compute in frame_mic demo_key demo_hdr 0 demo_msg.

Definition demo_f0 (enc : Z) := demo_frag enc 0 1 (take 6 demo_msg) (repeat 0 30).
Definition demo_f1 (enc : Z) := demo_frag enc 1 1 (drop 6 demo_msg ++ take 3 demo_mic) [].
Definition demo_f2 (enc : Z) := demo_frag enc 2 0 (drop 3 demo_mic) [].

Definition demo_state (old : list rx_frame) : defrag_state :=
  mk_defrag_state {[ 7 := old ]} (mk_mic_keys [] 0 0 0 []) [].

Lemma demo_fragment enc num mfrag payload room :
  mem_len payload + mem_len room < 2 ^ 30 ->
  fragment (demo_frag enc num mfrag payload room) [5; 5] demo_hdr payload [9; 9; 9; 9] room.
Proof.
  intros Hs. split; [split|..]; try done. cbn [rm_buf demo_frag]. rewrite !mem_len_app.
  change (mem_len [5; 5]) with 2. change (mem_len demo_hdr) with 32. change (mem_len [9; 9; 9; 9]) with 4.
  lia.
Qed.

Lemma demo_train enc :
  train (fun _ => Some 7) 7 (demo_f0 enc) [demo_f1 enc] (demo_f2 enc) [5; 5] demo_hdr (take 6 demo_msg) [9; 9; 9; 9]
    (repeat 0 30) [drop 6 demo_msg ++ take 3 demo_mic; drop 3 demo_mic].
Proof.
  split; try done; [by repeat constructor| |cbn [length]; lia].
  econstructor; [done|by apply demo_fragment|done|]. econstructor; [done|by apply demo_fragment|done|constructor].
Qed.

Lemma demo_bytes enc : Forall (fun f => bytes (rm_buf f)) (demo_f0 enc :: [demo_f1 enc] ++ [demo_f2 enc]).
Proof. cbn [app]. repeat (apply Forall_cons_2; [by apply bytesb_bytes|]). constructor. Qed.


Lemma defrag_checks_mic_witness :
  demo_mic = frame_mic demo_key demo_hdr 0 demo_msg /\
  exists g s', chk_run (fun _ => Some 7) (fun _ => demo_key) 0 (demo_state [])
      [demo_f0 _TKIP_; demo_f1 _TKIP_; demo_f2 _TKIP_] = Some ([None; None; Some g], s') /\ rm_id g = 0.
Proof.
  split; [by vm_compute|].
  destruct (defrag_checks_mic (fun _ => Some 7) (fun _ => demo_key) 0 7 (demo_state []) _ _ _ _ _ _ _ _ _
    demo_msg demo_mic demo_key (demo_train _TKIP_)) as (g & s' & E & Hid & _).
  - by vm_compute.
  - by vm_compute.
  - by vm_compute.
  - by vm_compute.
  - by vm_compute.
  - by apply bytesb_bytes.
  - by vm_compute.
  - apply demo_bytes.
  - by vm_compute.
  - vm_compute. lia.
  - assert (demo_mic = frame_mic demo_key demo_hdr (rm_priority (demo_f0 _TKIP_)) demo_msg) as Hmic by (by vm_compute).
    rewrite <- Hmic, bool_decide_true in E by reflexivity.
    exists g, s'. split; [exact E|exact Hid].
Defined.

(** A fragment with another code is refused, freed and reported. *)
Example damaged_fragment_refused :
  match chk_run (fun _ => Some 7) (fun _ => demo_key) 0 (demo_state [])
          [demo_f0 _TKIP_; demo_f1 _TKIP_; demo_frag _TKIP_ 2 0 (1 :: drop 4 demo_mic) []] with
  | Some (rs, s) => rs = [None; None; None] /\ ids (ds_freed s) = [1; 2; 0] /\ mic_errors (ds_keys s) = [(7, false)]
  | None => False
  end.
Proof. by vm_compute. Qed.

(** The payload of a fragment is copied behind the first frame before
    [recvframe_put] checks the room: without room the copy leaves the buffer. *)
Example reassembly_overrun :
  chk_run (fun _ => Some 7) (fun _ => demo_key) 0 (demo_state [])
    [demo_frag 0 0 1 [1] []; demo_frag 0 1 0 [2] []] = None.
Proof. by vm_compute. Qed.
