(* ===== verification/Msdu.v ===== *)
(** * From MPDU to Ethernet packets (core/rtw_recv.c, os_dep/linux/recv_linux.c)

    [wlanhdr_to_ethhdr], the splitting of an A-MSDU into packets
    ([amsdu_to_msdu], [rtw_os_alloc_msdu_pkt]) and [recv_process_mpdu], which
    chooses between them; built with CONFIG_SKB_COPY, without CONFIG_WAPI_SUPPORT,
    outside MP mode.  [rtw_recv_indicatepkt_check] then accepts every packet. *)

From S2P Require Import Prelude Mem Arc4 SecDefs Michael Ccmp RecvFrame.
Definition ETH_HLEN : Z := 14.
Definition ETHERNET_HEADER_SIZE : Z := 14.
Definition SNAP_SIZE : Z := 6.
Definition MAX_SUBFRAME_COUNT : Z := 64.
Definition rtw_rfc1042_header : list Z := [0xaa; 0xaa; 0x03; 0x00; 0x00; 0x00].
Definition rtw_bridge_tunnel_header : list Z := [0xaa; 0xaa; 0x03; 0x00; 0x00; 0xf8].
Definition SNAP_ETH_TYPE_IPX : list Z := [0x81; 0x37].
Definition SNAP_ETH_TYPE_APPLETALK_AARP : list Z := [0x80; 0xf3].
(** <linux/if_ether.h> *)
Definition ETH_P_AARP : Z := 0x80F3.
Definition ETH_P_IPX : Z := 0x8137.

Definition RTW_GET_BE16 (l : list Z) : Z := u16 (Z.lor (Z.shiftl (arr_get l 0) 8) (arr_get l 1)).
(** The bytes of [htons(len)]. *)
Definition be16 (len : Z) : list Z := [u8 (len / 256); u8 len].

Definition _rtw_memcmp (a b : list Z) : bool := bool_decide (a = b).

(** ** One subframe of an A-MSDU *)

(** What the allocation of [sub_skb] gives: nothing, a new buffer into which
    the data is copied, or a clone whose data is in the buffer of the frame.
    [behind] is the memory behind the data copied, or behind the buffer cloned:
    at least the [skb_shared_info] that ends the buffer of every [sk_buff]. *)
Inductive msdu_skb := NoSkb | NewSkb (behind : nat -> Z) | CloneSkb (behind : nat -> Z).

(** [&sub_skb->data[6]], two bytes, whatever the length of the data. *)
Definition type_bytes (skb : msdu_skb) (buf data : list Z) (pdata : Z) : option (list Z) :=
  match skb with
  | NoSkb => None
  | NewSkb behind => rdn (data ++ map behind (seq 0 8)) 6 2
  | CloneSkb behind => rdn (buf ++ map behind (seq 0 8)) (pdata + ETH_HLEN + 6) 2
  end.

(** The packet made of the subframe at [pdata] with [nSubframe_Length] bytes
    of data; the inner [None] is NULL.  The type is read before the length is
    looked at. *)
Definition rtw_os_alloc_msdu_pkt (skb : msdu_skb) (buf : list Z) (nSubframe_Length pdata : Z) : option (option (list Z)) :=
  match skb with
  | NoSkb => Some None
  | _ =>
      data ← rdn buf (pdata + ETH_HLEN) nSubframe_Length;
      eth_type ← RTW_GET_BE16 <$> type_bytes skb buf data pdata;
      dst ← rdn buf pdata 6;
      src ← rdn buf (pdata + 6) 6;
      let snap := take 6 data in
      Some (Some
        (if (8 <=? nSubframe_Length) &&
            ((_rtw_memcmp snap rtw_rfc1042_header && negb (eth_type =? ETH_P_AARP) && negb (eth_type =? ETH_P_IPX))
             || _rtw_memcmp snap rtw_bridge_tunnel_header)
         then dst ++ src ++ drop 6 data
         else dst ++ src ++ be16 nSubframe_Length ++ data))
  end.

(** [while (a_len > ETH_HLEN)]: the packets, in order.  [oks] gives the
    outcome of each allocation. *)
Fixpoint amsdu_loop (fuel : nat) (oks : nat -> msdu_skb) (buf : list Z) (a_len pdata : Z) (subframes : list (list Z))
    : option (list (list Z)) :=
  match fuel with
  | O => None
  | S fuel =>
      if ETH_HLEN <? a_len then
        nSubframe_Length ← RTW_GET_BE16 <$> rdn buf (pdata + 12) 2;
        if a_len <? ETHERNET_HEADER_SIZE + nSubframe_Length then Some subframes
        else
          sub_pkt ← rtw_os_alloc_msdu_pkt (oks (length subframes)) buf nSubframe_Length pdata;
          match sub_pkt with
          | None => Some subframes
          | Some sub_pkt =>
              let subframes := subframes ++ [sub_pkt] in
              if MAX_SUBFRAME_COUNT <=? Z.of_nat (length subframes) then Some subframes
              else
                let pdata := pdata + ETH_HLEN + nSubframe_Length in
                let a_len := a_len - ETH_HLEN - nSubframe_Length in
                if negb (a_len =? 0) then
                  let padding_len := 4 - Z.land (nSubframe_Length + ETH_HLEN) 3 in
                  let padding_len := if padding_len =? 4 then 0 else padding_len in
                  if a_len <? padding_len then Some subframes
                  else amsdu_loop fuel oks buf (a_len - padding_len) (pdata + padding_len) subframes
                else amsdu_loop fuel oks buf a_len pdata subframes
          end
      else Some subframes
  end.

(** The packets handed up; the frame is freed. *)
Definition amsdu_to_msdu (oks : nat -> msdu_skb) (f : rx_frame) : option (list (list Z)) :=
  let f := recvframe_pull f (rm_hdrlen f) in
  let f := if 0 <? rm_iv_len f then recvframe_pull f (rm_iv_len f) else f in
  let a_len := s32 (rm_len f) in
  amsdu_loop (S (Z.to_nat (a_len / ETH_HLEN))) oks (rm_buf f) a_len (rm_data f) [].

(** ** A plain MSDU *)

(** The conversion in place. *)
Definition wlanhdr_to_ethhdr (f : rx_frame) : option (Z * rx_frame) :=
  let ptr := rm_data f in
  let f := if negb (rm_encrypt f =? 0) then recvframe_pull_tail f (rm_icv_len f) else f in
  let at_snap := ptr + rm_hdrlen f + rm_iv_len f in
  psnap ← rdn (rm_buf f) at_snap SNAP_SIZE;
  rfc1042 ← (if _rtw_memcmp psnap rtw_rfc1042_header
             then psnap_type ← rdn (rm_buf f) (at_snap + SNAP_SIZE) 2;
                  Some (negb (_rtw_memcmp psnap_type SNAP_ETH_TYPE_IPX)
                        && negb (_rtw_memcmp psnap_type SNAP_ETH_TYPE_APPLETALK_AARP))
             else Some false);
  let bsnaphdr := rfc1042 || _rtw_memcmp psnap rtw_bridge_tunnel_header in
  let rmv_len := rm_hdrlen f + rm_iv_len f + (if bsnaphdr then SNAP_SIZE else 0) in
  let len := u16 (rm_len f - rmv_len) in
  eth_type ← RTW_GET_BE16 <$> rdn (rm_buf f) (ptr + rmv_len) 2;
  let f := f <| rm_eth_type := eth_type |> in
  let sz := rmv_len - ETH_HLEN + (if bsnaphdr then 2 else 0) in
  if rm_tail f <? rm_data f + sz then Some (_FAIL, f)
  else
    let f := recvframe_pull f sz in
    buf ← wrn (rm_buf f) (rm_data f) (rm_dst f);
    buf ← wrn buf (rm_data f + 6) (rm_src f);
    buf ← (if bsnaphdr then Some buf else wrn buf (rm_data f + 12) (be16 len));
    Some (_SUCCESS, f <| rm_buf := buf |>).

(** ** [recv_process_mpdu] *)

(** The verdict and the packets handed up; in every case the receive frame
    ends in the free queue. *)
Definition recv_process_mpdu (cannot_run : bool) (oks : nat -> msdu_skb) (f : rx_frame) : option (Z * list (list Z)) :=
  if negb (rm_amsdu f =? 0) then pkts ← amsdu_to_msdu oks f; Some (_SUCCESS, pkts)
  else
    '(ret, f) ← wlanhdr_to_ethhdr f;
    if negb (ret =? _SUCCESS) then Some (ret, [])
    else if cannot_run then Some (_SUCCESS, [])
    else pkt ← rdn (rm_buf f) (rm_data f) (rm_len f); Some (_SUCCESS, [pkt]).
