(* ===== verification/MsduSpec.v ===== *)
(** * Packets of an A-MSDU and of a plain MSDU

    The splitting of an A-MSDU ends and yields at most 64 packets whatever the
    frame holds and whatever lies behind it, where the type of a short last
    subframe is read; the subframes of a well-formed A-MSDU
    come out as the Ethernet packets they carry; the in-place conversion of a
    plain MSDU gives its Ethernet packet. *)

From S2P Require Import Prelude Mem Arc4 SecDefs Michael Ccmp RecvFrame RecvThms Msdu.
Lemma rdn_ok buf off n :
  0 <= off -> 0 <= n -> off + n <= mem_len buf -> exists bs, rdn buf off n = Some bs /\ mem_len bs = n.
Proof.
  intros. unfold rdn. rewrite !(proj2 (Z.leb_le _ _)) by lia. cbn [andb]. eexists. split; [done|].
  unfold mem_len in *. rewrite length_take, length_drop. lia.
Qed.

Lemma be16_range l : is_u16 (RTW_GET_BE16 l).
Proof. apply wrap_range. lia. Qed.

Lemma be16_read n : is_u16 n -> RTW_GET_BE16 (be16 n) = n.
Proof.
  intros Hn. unfold RTW_GET_BE16, be16, in_width in *. cbn.
  rewrite Z.lor_comm, lor_shiftl_add by (try lia; apply wrap_range; lia).
  pose proof (Z.div_mod n 256 ltac:(lia)).
  assert (0 <= n / 256 < 256) by (split; [apply Z.div_pos; lia|apply Z.div_lt_upper_bound; lia]).
  unfold wrap. change (2 ^ 8) with 256. change (2 ^ 16) with 65536 in *.
  pose proof (Z.mod_pos_bound n 256 ltac:(lia)). rewrite (Z.mod_small (n / 256)) by lia.
  change ((n mod 256 + 256 * (n / 256)) mod 65536 = n). rewrite Z.mod_small; lia.
Qed.

Lemma split_first l k : 0 <= k <= mem_len l -> exists a b, l = a ++ b /\ mem_len a = k.
Proof.
  intros. exists (take (Z.to_nat k) l), (drop (Z.to_nat k) l). split; [by rewrite take_drop|].
  unfold mem_len in *. rewrite length_take. lia.
Qed.

Lemma split_last l k : 0 <= k <= mem_len l -> exists a b, l = a ++ b /\ mem_len b = k.
Proof.
  intros Hk. destruct (split_first l (mem_len l - k)) as (a & b & -> & Ha); [lia|]. exists a, b.
  split; [done|]. rewrite mem_len_app in Ha. lia.
Qed.

(** ** Any frame *)

Definition total_length (ps : list (list Z)) : Z := foldr (fun p n => mem_len p + n) 0 ps.

Lemma total_length_app a b : total_length (a ++ b) = total_length a + total_length b.
Proof. induction a as [|p a IH]; cbn; [done|]. unfold total_length in *. rewrite IH. lia. Qed.

(** The packet of a subframe, whose type is looked at only where it has one. *)
Definition msdu_pkt (buf : list Z) (n pdata : Z) : option (list Z) :=
  data ← rdn buf (pdata + 14) n;
  dst ← rdn buf pdata 6;
  src ← rdn buf (pdata + 6) 6;
  let eth_type := RTW_GET_BE16 (drop 6 data) in
  let snap := take 6 data in
  Some (if (8 <=? n) &&
      ((_rtw_memcmp snap rtw_rfc1042_header && negb (eth_type =? ETH_P_AARP) && negb (eth_type =? ETH_P_IPX))
       || _rtw_memcmp snap rtw_bridge_tunnel_header)
    then dst ++ src ++ drop 6 data else dst ++ src ++ be16 n ++ data).

Lemma be16_take l : RTW_GET_BE16 (take 2 l) = RTW_GET_BE16 l.
Proof. by destruct l as [|? [|? ?]]. Qed.

Lemma rdn_within a b off n : off + n <= mem_len a -> rdn (a ++ b) off n = rdn a off n.
Proof.
  intros H. unfold rdn. rewrite mem_len_app. pose proof (mem_len_nonneg b). destruct (Z.leb_spec 0 off), (Z.leb_spec 0 n); cbn [andb]; try done.
  rewrite !(proj2 (Z.leb_le _ _)) by lia. f_equal. unfold mem_len in *.
  rewrite drop_app_le, take_app_le by (rewrite ?length_drop; lia). done.
Qed.

(** The type is read in front of, in or behind the data, and counts only for
    data of eight bytes and more. *)
Lemma type_bytes_read skb buf data n pdata :
  skb <> NoSkb -> 0 <= pdata -> rdn buf (pdata + 14) n = Some data -> 0 <= n -> pdata + 14 + n <= mem_len buf ->
  exists bs, type_bytes skb buf data pdata = Some bs /\ (8 <= n -> RTW_GET_BE16 bs = RTW_GET_BE16 (drop 6 data)).
Proof.
  intros Hs Hp E Hn Hl. assert (mem_len data = n) as Hd by (destruct (rdn_ok buf (pdata + 14) n) as (d & E' & ?); [lia..|]; congruence).
  assert (forall g : nat -> Z, mem_len (map g (seq 0 8)) = 8) as H8 by done. destruct skb as [|g|g]; cbn [type_bytes]; [done|..].
  - destruct (rdn_ok (data ++ map g (seq 0 8)) 6 2) as (bs & E1 & _); [lia|lia|rewrite mem_len_app, H8; lia|]. exists bs. split; [done|].
    intros H. rewrite rdn_within in E1 by lia. unfold rdn in E1. destruct (_ && _); [|done]. injection E1 as <-. apply be16_take.
  - unfold ETH_HLEN. destruct (rdn_ok (buf ++ map g (seq 0 8)) (pdata + 14 + 6) 2) as (bs & E1 & _); [lia|lia|rewrite mem_len_app, H8; lia|].
    exists bs. split; [done|]. intros H. rewrite rdn_within in E1 by lia. unfold rdn in E, E1. destruct (_ && _) in E1; [|done]. injection E1 as <-.
    destruct (_ && _) in E; [|done]. injection E as <-. replace (Z.to_nat (pdata + 14 + 6)) with (Z.to_nat (pdata + 14) + 6)%nat by lia.
    rewrite <- drop_drop. set (l := drop (Z.to_nat (pdata + 14)) buf). change (Z.to_nat 2) with 2%nat.
    rewrite <- (be16_take (drop 6 (take (Z.to_nat n) l))). f_equal. rewrite skipn_firstn_comm, take_take. f_equal. lia.
Qed.

Lemma alloc_pkt skb buf n pdata : 0 <= pdata -> is_u16 n -> pdata + 14 + n <= mem_len buf ->
  rtw_os_alloc_msdu_pkt skb buf n pdata = match skb with NoSkb => Some None | _ => Some <$> msdu_pkt buf n pdata end.
Proof.
  intros Hp Hn Hl. unfold in_width in Hn. assert (skb = NoSkb \/ skb <> NoSkb) as [->|Hs] by (destruct skb; auto); [done|].
  transitivity (Some <$> msdu_pkt buf n pdata); [|by destruct skb]. unfold msdu_pkt.
  transitivity (data ← rdn buf (pdata + ETH_HLEN) n; eth_type ← RTW_GET_BE16 <$> type_bytes skb buf data pdata;
    dst ← rdn buf pdata 6; src ← rdn buf (pdata + 6) 6; let snap := take 6 data in
    Some (Some (if (8 <=? n) && ((_rtw_memcmp snap rtw_rfc1042_header && negb (eth_type =? ETH_P_AARP) && negb (eth_type =? ETH_P_IPX))
           || _rtw_memcmp snap rtw_bridge_tunnel_header) then dst ++ src ++ drop 6 data else dst ++ src ++ be16 n ++ data))); [by destruct skb|].
  unfold ETH_HLEN. destruct (rdn buf (pdata + 14) n) as [data|] eqn:E; [|done]. cbn [mbind option_bind].
  destruct (type_bytes_read skb buf data n pdata) as (bs & -> & Ht); [done..|lia|lia|]. cbn [fmap option_fmap option_map mbind option_bind].
  destruct (rdn buf pdata 6); [|done]. cbn [mbind option_bind]. destruct (rdn buf (pdata + 6) 6); [|done]. cbn.
  destruct (Z.leb_spec 8 n); cbn [andb]; [|done]. by rewrite Ht.
Qed.

(** A subframe inside the buffer gives NULL or a packet no longer than it. *)
Lemma msdu_pkt_ok buf n pdata : 0 <= pdata -> is_u16 n -> pdata + 14 + n <= mem_len buf ->
  exists p, msdu_pkt buf n pdata = Some p /\ mem_len p <= 14 + n.
Proof.
  intros Hp Hn Hl. unfold in_width in Hn. unfold msdu_pkt.
  destruct (rdn_ok buf (pdata + 14) n) as (data & -> & Hd); [lia..|]. cbn [mbind option_bind].
  destruct (rdn_ok buf pdata 6) as (dst & -> & Hds); [lia..|]. cbn [mbind option_bind].
  destruct (rdn_ok buf (pdata + 6) 6) as (src & -> & Hsr); [lia..|]. cbn [mbind option_bind].
  eexists. split; [reflexivity|]. cbn beta iota.
  destruct (_ && _); rewrite !mem_len_app; [|unfold be16 at 1, mem_len at 3; cbn [length]; lia].
  assert (mem_len (drop 6 data) <= mem_len data) by (unfold mem_len; rewrite length_drop; lia). lia.
Qed.

Lemma alloc_msdu skb buf n pdata :
  0 <= pdata -> is_u16 n -> pdata + 14 + n <= mem_len buf ->
  exists r, rtw_os_alloc_msdu_pkt skb buf n pdata = Some r /\
    match r with Some p => mem_len p <= 14 + n | None => True end.
Proof.
  intros Hp Hn Hl. rewrite alloc_pkt by done. destruct (msdu_pkt_ok buf n pdata Hp Hn Hl) as (p & -> & Hp').
  destruct skb; [by exists None|by exists (Some p)..].
Qed.

(** What lies behind the frame, and how the packets get their buffers, does
    not matter. *)
Lemma alloc_prefix skb skb' a b b' n pdata :
  (skb = NoSkb <-> skb' = NoSkb) -> 0 <= pdata -> is_u16 n -> pdata + 14 + n <= mem_len a ->
  rtw_os_alloc_msdu_pkt skb (a ++ b) n pdata = rtw_os_alloc_msdu_pkt skb' (a ++ b') n pdata.
Proof.
  intros Hs Hp Hn Hl. pose proof (mem_len_nonneg b); pose proof (mem_len_nonneg b').
  rewrite !alloc_pkt by (done || rewrite mem_len_app; lia). unfold in_width in Hn.
  assert (msdu_pkt (a ++ b) n pdata = msdu_pkt (a ++ b') n pdata) as -> by (unfold msdu_pkt; by rewrite !rdn_within by lia).
  destruct skb, skb'; try done; destruct Hs as [H1 H2]; (by discriminate H1) || (by discriminate H2).
Qed.

Lemma amsdu_loop_prefix fuel : forall oks oks' a b b' a_len pdata subframes,
  (forall i, oks i = NoSkb <-> oks' i = NoSkb) -> 0 <= pdata -> pdata + a_len <= mem_len a ->
  amsdu_loop fuel oks (a ++ b) a_len pdata subframes = amsdu_loop fuel oks' (a ++ b') a_len pdata subframes.
Proof.
  induction fuel as [|fuel IH]; intros oks oks' a b b' a_len pdata subframes Hs Hp Hl; [done|].
  cbn [amsdu_loop]. unfold ETH_HLEN, ETHERNET_HEADER_SIZE, MAX_SUBFRAME_COUNT. destruct (Z.ltb_spec 14 a_len); [|done].
  rewrite !rdn_within by lia. destruct (rdn a (pdata + 12) 2) as [lb|]; [|done]. cbn [fmap option_fmap option_map mbind option_bind].
  set (n := RTW_GET_BE16 lb). assert (is_u16 n) as Hu by apply be16_range. clearbody n. pose proof Hu as Hu'. unfold in_width in Hu.
  destruct (Z.ltb_spec a_len (14 + n)); [done|]. rewrite (alloc_prefix _ (oks' (length subframes)) a b b') by (done || lia).
  destruct (rtw_os_alloc_msdu_pkt _ _ _ _) as [[pkt|]|]; [|done..]. cbn [mbind option_bind]. destruct (64 <=? _); [done|].
  destruct (negb _); [|apply IH; [done|lia..]].
  set (pad := if 4 - Z.land (n + 14) 3 =? 4 then 0 else 4 - Z.land (n + 14) 3).
  assert (0 <= pad) by (subst pad; change 3 with (Z.ones 2); rewrite Z.land_ones by lia;
    pose proof (Z.mod_pos_bound (n + 14) (2 ^ 2) ltac:(lia)); case_test; lia).
  destruct (_ <? pad); [done|]. apply IH; [done|lia..].
Qed.

Lemma amsdu_loop_total fuel : forall oks buf a_len pdata subframes,
  0 <= pdata -> pdata + a_len <= mem_len buf -> a_len < 14 * Z.of_nat fuel -> (0 < fuel)%nat ->
  (length subframes < 64)%nat ->
  exists pkts, amsdu_loop fuel oks buf a_len pdata subframes = Some (subframes ++ pkts) /\
    (length (subframes ++ pkts) <= 64)%nat /\ total_length pkts <= Z.max 0 a_len.
Proof.
  induction fuel as [|fuel IH]; intros oks buf a_len pdata subframes Hp Hl Hf H0 Hn; [lia|].
  cbn [amsdu_loop]. unfold ETH_HLEN, ETHERNET_HEADER_SIZE, MAX_SUBFRAME_COUNT.
  assert (forall r : option (list (list Z)), r = Some subframes -> exists pkts, r = Some (subframes ++ pkts) /\
    (length (subframes ++ pkts) <= 64)%nat /\ total_length pkts <= Z.max 0 a_len) as Hstop.
  { intros r ->. exists []. rewrite app_nil_r. split_and!; [done|lia|cbn; lia]. }
  destruct (Z.ltb_spec 14 a_len); [|by apply Hstop].
  destruct (rdn_ok buf (pdata + 12) 2) as (lb & -> & _); [lia..|]. cbn [fmap option_fmap option_map mbind option_bind].
  set (n := RTW_GET_BE16 lb). assert (is_u16 n) as Hu by apply be16_range. clearbody n. unfold in_width in Hu.
  destruct (Z.ltb_spec a_len (14 + n)); [by apply Hstop|].
  destruct (alloc_msdu (oks (length subframes)) buf n pdata) as (r & -> & Hr); [lia|done|lia|]. cbn [mbind option_bind].
  destruct r as [pkt|]; [|by apply Hstop].
  assert (length (subframes ++ [pkt]) = S (length subframes)) as Hlen by (rewrite length_app; cbn [length]; lia).
  assert (forall pkts, total_length pkts <= Z.max 0 (a_len - 14 - n) -> total_length (pkt :: pkts) <= Z.max 0 a_len) as Htot
    by (intros pkts Hpk; cbn [total_length foldr] in *; unfold total_length in Hpk; lia).
  assert (forall r : option (list (list Z)), r = Some (subframes ++ [pkt]) -> exists pkts, r = Some (subframes ++ pkts) /\
    (length (subframes ++ pkts) <= 64)%nat /\ total_length pkts <= Z.max 0 a_len) as Hone.
  { intros r ->. exists [pkt]. split_and!; [done|lia|apply Htot; cbn; lia]. }
  assert (forall a' p', p' + a' <= mem_len buf -> 0 <= p' -> a' <= a_len - 14 - n -> (length (subframes ++ [pkt]) < 64)%nat ->
    exists pkts, amsdu_loop fuel oks buf a' p' (subframes ++ [pkt]) = Some (subframes ++ pkts) /\
    (length (subframes ++ pkts) <= 64)%nat /\ total_length pkts <= Z.max 0 a_len) as Hrec.
  { intros a' p' Ha1 Ha2 Ha3 Ha4. destruct (IH oks buf a' p' (subframes ++ [pkt])) as (pkts & E & Hle & Ht); [lia..|].
    exists (pkt :: pkts). rewrite <- app_assoc in E, Hle. split_and!; [done|done|apply Htot; lia]. }
  destruct (Z.leb_spec 64 (Z.of_nat (length (subframes ++ [pkt])))); [by apply Hone|].
  destruct (Z.eqb_spec (a_len - 14 - n) 0) as [E0|E0]; cbn [negb].
  - apply Hrec; lia.
  - set (pad := if 4 - Z.land (n + 14) 3 =? 4 then 0 else 4 - Z.land (n + 14) 3).
    assert (0 <= pad) by (subst pad; change 3 with (Z.ones 2); rewrite Z.land_ones by lia;
      pose proof (Z.mod_pos_bound (n + 14) (2 ^ 2) ltac:(lia)); case_test; lia).
    destruct (Z.ltb_spec (a_len - 14 - n) pad); [by apply Hone|]. apply Hrec; lia.
Qed.

(** Where a frame's bytes lie. *)
Record inside (f : rx_frame) : Prop := {
  in_data : 0 <= rm_data f;
  in_len : 0 <= rm_len f;
  in_tail : rm_data f + rm_len f = rm_tail f;
  in_end : rm_tail f <= mem_len (rm_buf f);
  in_size : mem_len (rm_buf f) < 2 ^ 31 }.

Lemma holds_inside f pre content room : holds f pre content room -> inside f.
Proof.
  intros [Hb Hd Ht Hl Hs]. pose proof (mem_len_nonneg pre); pose proof (mem_len_nonneg content); pose proof (mem_len_nonneg room).
  rewrite Hb, !mem_len_app in Hs. split; rewrite ?Hb, ?mem_len_app; lia.
Qed.

Lemma pull_inside f n :
  inside f -> 0 <= n ->
  inside (recvframe_pull f n) /\ rm_len (recvframe_pull f n) <= rm_len f /\ rm_iv_len (recvframe_pull f n) = rm_iv_len f /\
  rm_buf (recvframe_pull f n) = rm_buf f.
Proof.
  intros [Hd Hl Ht He Hs] Hn. unfold recvframe_pull. destruct (Z.ltb_spec (rm_tail f) (rm_data f + n)); [by split_and!; [split| | |]|].
  assert (u32 (rm_len f - n) = rm_len f - n) as E by (apply wrap_small; unfold in_width; lia).
  split_and!; [split|..]; cbn; rewrite ?E; (done || lia).
Qed.

(** The frame with other bytes behind its content. *)
Definition behind_frame (f : rx_frame) (pre content room : list Z) : rx_frame := f <| rm_buf := pre ++ content ++ room |>.

Lemma pull_behind f buf n : recvframe_pull (f <| rm_buf := buf |>) n = (recvframe_pull f n) <| rm_buf := buf |>.
Proof. unfold recvframe_pull. cbn. by destruct (_ <? _). Qed.

(** C18. Splitting an A-MSDU always ends and yields at most 64 packets whose
    bytes do not exceed the frame's, whatever the frame holds and whichever
    allocations fail; and the packets depend on the frame only.  The type of a
    subframe shorter than eight bytes is read behind it, up to eight bytes
    behind the frame, but whatever is found there, in the buffer of the frame or in
    that of the packet, the packets are the same. *)
Theorem amsdu_terminates oks f pre content room :
  holds f pre content room -> 0 <= rm_hdrlen f -> 0 <= rm_iv_len f ->
  exists pkts, amsdu_to_msdu oks f = Some pkts /\ (length pkts <= 64)%nat /\ total_length pkts <= mem_len content /\
    forall oks' room', (forall i, oks i = NoSkb <-> oks' i = NoSkb) -> amsdu_to_msdu oks' (behind_frame f pre content room') = Some pkts.
Proof.
  intros Hf Hh Hi. pose proof (ho_len _ _ _ _ Hf) as Hlen. pose proof (ho_buf _ _ _ _ Hf) as Hbuf. pose proof (ho_tail _ _ _ _ Hf) as Htail. unfold amsdu_to_msdu.
  destruct (pull_inside f (rm_hdrlen f) (holds_inside _ _ _ _ Hf) Hh) as (H1 & L1 & E1 & B1).
  set (f1 := recvframe_pull f (rm_hdrlen f)) in *.
  set (f2 := if 0 <? rm_iv_len f1 then recvframe_pull f1 (rm_iv_len f1) else f1).
  assert (inside f2 /\ rm_len f2 <= rm_len f1 /\ rm_buf f2 = rm_buf f1) as (H2 & L2 & B2).
  { subst f2. case_test; [|split; [done|split; [lia|done]]]. destruct (pull_inside f1 (rm_iv_len f1) H1) as (? & ? & _ & ?); [lia|done]. }
  destruct H2 as [Hd Hl Ht He Hs]. cbn zeta. rewrite (s32_small (rm_len f2)) by lia.
  pose proof (Z.div_mod (rm_len f2) 14 ltac:(lia)). pose proof (Z.mod_pos_bound (rm_len f2) 14 ltac:(lia)).
  pose proof (Z.div_pos (rm_len f2) 14 ltac:(lia) ltac:(lia)). unfold ETH_HLEN.
  destruct (amsdu_loop_total (S (Z.to_nat (rm_len f2 / 14))) oks (rm_buf f2) (rm_len f2) (rm_data f2) []) as (pkts & E & Hn & Htot);
    [lia|lia|lia|lia|cbn [length]; lia|].
  exists pkts. cbn [app] in E, Hn. split_and!; [done|done|lia|]. intros oks' room' Hs'. rewrite <- E. unfold behind_frame.
  change (rm_hdrlen (f <| rm_buf := pre ++ content ++ room' |>)) with (rm_hdrlen f). rewrite pull_behind. fold f1.
  change (rm_iv_len (f1 <| rm_buf := pre ++ content ++ room' |>)) with (rm_iv_len f1). rewrite pull_behind.
  assert ((if 0 <? rm_iv_len f1 then (recvframe_pull f1 (rm_iv_len f1)) <| rm_buf := pre ++ content ++ room' |> else f1 <| rm_buf := pre ++ content ++ room' |>)
    = f2 <| rm_buf := pre ++ content ++ room' |>) as -> by (unfold f2; by case_test).
  cbn zeta. set (f3 := f2 <| rm_buf := pre ++ content ++ room' |>). change (rm_len f3) with (rm_len f2). change (rm_data f3) with (rm_data f2).
  change (rm_buf f3) with (pre ++ content ++ room'). rewrite (s32_small (rm_len f2)) by lia. rewrite B2, B1, Hbuf, !(app_assoc pre content). symmetry.
  apply amsdu_loop_prefix; [done|done|]. assert (rm_tail f2 = rm_tail f) as Et by (unfold f2, f1, recvframe_pull; by repeat case_match).
  rewrite mem_len_app. lia.
Qed.

(** ** Well-formed A-MSDUs *)

Record msdu := mk_msdu { ms_dst : list Z; ms_src : list Z; ms_body : list Z }.

Record msdu_ok (m : msdu) : Prop := {
  mo_dst : length (ms_dst m) = 6%nat;
  mo_src : length (ms_src m) = 6%nat;
  mo_body : is_u16 (mem_len (ms_body m)) }.

(** The subframe on the air, and its padding. *)
Definition subframe (m : msdu) : list Z := ms_dst m ++ ms_src m ++ be16 (mem_len (ms_body m)) ++ ms_body m.
Definition padding (m : msdu) : Z := (- (14 + mem_len (ms_body m))) mod 4.

(** The body starts with an encapsulation that is removed. *)
Definition encapsulated (body : list Z) : bool :=
  (8 <=? mem_len body) &&
  ((bool_decide (take 6 body = rtw_rfc1042_header) && negb (RTW_GET_BE16 (drop 6 body) =? ETH_P_AARP)
    && negb (RTW_GET_BE16 (drop 6 body) =? ETH_P_IPX))
   || bool_decide (take 6 body = rtw_bridge_tunnel_header)).

Definition eth_packet (m : msdu) : list Z :=
  ms_dst m ++ ms_src m ++
  (if encapsulated (ms_body m) then drop 6 (ms_body m) else be16 (mem_len (ms_body m)) ++ ms_body m).

(** The frame body of an A-MSDU: padded subframes; up to 14 bytes, such as a
    MIC, may follow the last one. *)
Inductive amsdu : list msdu -> list Z -> Prop :=
  | amsdu_last m tail : 0 < mem_len (ms_body m) + mem_len tail -> mem_len tail <= 14 -> amsdu [m] (subframe m ++ tail)
  | amsdu_more m pad ms rest : mem_len pad = padding m -> amsdu ms rest -> amsdu (m :: ms) (subframe m ++ pad ++ rest).

Lemma length_subframe m : msdu_ok m -> mem_len (subframe m) = 14 + mem_len (ms_body m).
Proof. intros [Hd Hs _]. unfold subframe. rewrite !mem_len_app. unfold mem_len. rewrite Hd, Hs. cbn [length be16]. lia. Qed.

Lemma amsdu_nonempty ms l : amsdu ms l -> Forall msdu_ok ms -> 14 <= mem_len l.
Proof.
  destruct 1 as [m tail|m pad ms rest]; intros Hok; apply Forall_cons_1 in Hok as [Hm _];
    rewrite !mem_len_app, (length_subframe m Hm); pose proof (mem_len_nonneg (ms_body m)).
  - pose proof (mem_len_nonneg tail). lia.
  - pose proof (mem_len_nonneg pad). pose proof (mem_len_nonneg rest). lia.
Qed.

Lemma subframe_length_read pre m rest :
  msdu_ok m -> RTW_GET_BE16 <$> rdn (pre ++ subframe m ++ rest) (mem_len pre + 12) 2 = Some (mem_len (ms_body m)).
Proof.
  intros [Hd Hs Hb]. unfold subframe.
  replace (pre ++ (ms_dst m ++ ms_src m ++ be16 (mem_len (ms_body m)) ++ ms_body m) ++ rest)
    with ((pre ++ ms_dst m ++ ms_src m) ++ be16 (mem_len (ms_body m)) ++ (ms_body m ++ rest)) by (by rewrite <- !app_assoc).
  rewrite (rdn_app (pre ++ ms_dst m ++ ms_src m)); [|rewrite !mem_len_app; unfold mem_len; rewrite Hd, Hs; lia|done].
  cbn [fmap option_fmap option_map]. by rewrite be16_read.
Qed.

Lemma alloc_subframe skb pre m rest :
  skb <> NoSkb -> msdu_ok m ->
  rtw_os_alloc_msdu_pkt skb (pre ++ subframe m ++ rest) (mem_len (ms_body m)) (mem_len pre) = Some (Some (eth_packet m)).
Proof.
  intros Hskb Hm. pose proof (length_subframe m Hm) as Hl. destruct Hm as [Hd Hs Hb].
  rewrite alloc_pkt; [|apply mem_len_nonneg|done|rewrite !mem_len_app; pose proof (mem_len_nonneg rest); lia].
  enough (msdu_pkt (pre ++ subframe m ++ rest) (mem_len (ms_body m)) (mem_len pre) = Some (eth_packet m)) as -> by (by destruct skb).
  unfold msdu_pkt, subframe.
  set (n := be16 (mem_len (ms_body m))). assert (mem_len n = 2) as Hn by done.
  assert (mem_len (ms_dst m) = 6) as Hd' by (unfold mem_len; lia). assert (mem_len (ms_src m) = 6) as Hs' by (unfold mem_len; lia).
  replace (pre ++ (ms_dst m ++ ms_src m ++ n ++ ms_body m) ++ rest)
    with ((pre ++ ms_dst m ++ ms_src m ++ n) ++ ms_body m ++ rest) by (by rewrite <- !app_assoc).
  assert (mem_len pre + 14 = mem_len (pre ++ ms_dst m ++ ms_src m ++ n)) as El by (rewrite !mem_len_app, Hn, Hd', Hs'; lia).
  rewrite (rdn_app (pre ++ ms_dst m ++ ms_src m ++ n) (ms_body m) rest (mem_len pre + 14)); [|exact El|reflexivity]. cbn [mbind option_bind].
  replace ((pre ++ ms_dst m ++ ms_src m ++ n) ++ ms_body m ++ rest)
    with (pre ++ ms_dst m ++ (ms_src m ++ n ++ ms_body m ++ rest)) by (by rewrite <- !app_assoc).
  rewrite (rdn_app pre (ms_dst m) _ (mem_len pre)); [|reflexivity|by rewrite Hd']. cbn [mbind option_bind].
  rewrite (app_assoc pre (ms_dst m)), (rdn_app (pre ++ ms_dst m) (ms_src m)); [|by rewrite mem_len_app, Hd'|by rewrite Hs']. cbn [mbind option_bind].
  unfold eth_packet, encapsulated, _rtw_memcmp. fold n. by destruct (_ && _).
Qed.

Lemma padding_code m :
  let p := 4 - Z.land (mem_len (ms_body m) + 14) 3 in (if p =? 4 then 0 else p) = padding m.
Proof.
  cbv zeta. unfold padding. change 3 with (Z.ones 2). rewrite Z.land_ones by lia. change (2 ^ 2) with 4.
  rewrite (Z.add_comm 14). set (x := mem_len (ms_body m) + 14).
  pose proof (Z.mod_pos_bound x 4 ltac:(lia)). destruct (Z.eqb_spec (4 - x mod 4) 4).
  - rewrite Z.mod_opp_l_z; lia.
  - rewrite Z.mod_opp_l_nz; lia.
Qed.

(** One turn of the loop on a well-formed subframe. *)
Lemma amsdu_step fuel oks pre m tail room subframes :
  (forall i, oks i <> NoSkb) -> msdu_ok m -> 0 < mem_len (ms_body m) + mem_len tail ->
  amsdu_loop (S fuel) oks (pre ++ subframe m ++ tail ++ room) (mem_len (subframe m ++ tail)) (mem_len pre) subframes =
  let subframes := subframes ++ [eth_packet m] in
  if 64 <=? Z.of_nat (length subframes) then Some subframes
  else
    let buf := pre ++ subframe m ++ tail ++ room in
    if mem_len tail =? 0 then amsdu_loop fuel oks buf 0 (mem_len (pre ++ subframe m)) subframes
    else if mem_len tail <? padding m then Some subframes
    else amsdu_loop fuel oks buf (mem_len tail - padding m) (mem_len (pre ++ subframe m) + padding m) subframes.
Proof.
  intros Hoks Hm H0. pose proof (mem_len_nonneg tail). pose proof (length_subframe m Hm) as Hl. pose proof (padding_code m) as Hp. cbv zeta in Hp.
  cbn [amsdu_loop]. unfold ETH_HLEN, ETHERNET_HEADER_SIZE, MAX_SUBFRAME_COUNT.
  rewrite !mem_len_app, Hl. rewrite (proj2 (Z.ltb_lt _ _)) by lia. rewrite subframe_length_read by done. cbn [mbind option_bind].
  rewrite (proj2 (Z.ltb_ge _ _)) by lia. rewrite alloc_subframe by done. cbn [mbind option_bind]. cbv zeta. destruct (64 <=? _); [done|].
  replace (14 + mem_len (ms_body m) + mem_len tail - 14 - mem_len (ms_body m)) with (mem_len tail) by lia.
  rewrite Hp. destruct (Z.eqb_spec (mem_len tail) 0) as [->|]; cbn [negb]; [f_equal; lia|].
  destruct (_ <? _); [done|]. f_equal; lia.
Qed.

Lemma amsdu_loop_end fuel oks buf a_len pdata subframes :
  a_len <= 14 -> (0 < fuel)%nat -> amsdu_loop fuel oks buf a_len pdata subframes = Some subframes.
Proof. intros Ha Hf. destruct fuel; [lia|]. cbn [amsdu_loop]. unfold ETH_HLEN. by rewrite (proj2 (Z.ltb_ge _ _)) by lia. Qed.

Lemma amsdu_loop_spec oks ms l :
  (forall i, oks i <> NoSkb) -> amsdu ms l -> Forall msdu_ok ms -> forall pre room subframes fuel,
  mem_len l < 14 * Z.of_nat fuel -> (length subframes < 64)%nat ->
  amsdu_loop fuel oks (pre ++ l ++ room) (mem_len l) (mem_len pre) subframes
  = Some (take 64 (subframes ++ map eth_packet ms)).
Proof.
  intros Hoks. induction 1 as [m tail H0 Ht|m pad ms rest Hpad Hrest IH]; intros Hok pre room subframes fuel Hf Hn;
    apply Forall_cons_1 in Hok as [Hm Hok]; pose proof (mo_body m Hm) as Hb; unfold in_width in Hb;
    pose proof (length_subframe m Hm) as Hl; rewrite mem_len_app, Hl in Hf;
    (destruct fuel as [|fuel]; [match type of Hf with _ + mem_len ?t < _ => pose proof (mem_len_nonneg t) end; lia|]).
  - rewrite <- app_assoc, amsdu_step by done. cbv zeta. pose proof (mem_len_nonneg tail).
    assert (take 64 (subframes ++ map eth_packet [m]) = subframes ++ [eth_packet m]) as ->
      by (apply take_ge; rewrite length_app; cbn; lia).
    destruct (64 <=? _); [done|]. pose proof (Z.mod_pos_bound (- (14 + mem_len (ms_body m))) 4 ltac:(lia)).
    destruct (_ =? _); [|destruct (_ <? _); [done|]]; apply amsdu_loop_end; unfold padding; lia.
  - pose proof (amsdu_nonempty ms rest Hrest Hok) as Hr. pose proof (Z.mod_pos_bound (- (14 + mem_len (ms_body m))) 4 ltac:(lia)) as Hpd.
    fold (padding m) in Hpd. rewrite <- app_assoc, amsdu_step by (done || rewrite mem_len_app; lia). cbv zeta.
    assert (mem_len (pad ++ rest) = padding m + mem_len rest) as Hpl by (rewrite mem_len_app; lia).
    rewrite Hpl in *. rewrite (proj2 (Z.eqb_neq _ _)), (proj2 (Z.ltb_ge _ _)) by lia. cbn [map].
    destruct (Z.leb_spec 64 (Z.of_nat (length (subframes ++ [eth_packet m])))) as [Hc|Hc];
      rewrite length_app in Hc; cbn [length] in Hc;
      replace (subframes ++ eth_packet m :: map eth_packet ms) with ((subframes ++ [eth_packet m]) ++ map eth_packet ms) by by rewrite <- app_assoc.
    + rewrite take_app_le, take_ge by (rewrite length_app; cbn [length]; lia). done.
    + rewrite <- (IH Hok (pre ++ subframe m ++ pad) room (subframes ++ [eth_packet m]) fuel) by (rewrite ?length_app; cbn [length]; lia).
      f_equal; [by rewrite <- !app_assoc|lia|rewrite !mem_len_app; lia].
Qed.

(** C17. The packets handed up for a well-formed A-MSDU are the Ethernet
    packets of its subframes, in order, up to 64, however each of them gets its
    buffer. *)
Theorem amsdu_split_into_packets cannot_run oks f pre hdr l room ms :
  (forall i, oks i <> NoSkb) -> holds f pre (hdr ++ l) room -> mem_len hdr = rm_hdrlen f + rm_iv_len f -> 0 <= rm_hdrlen f -> 0 <= rm_iv_len f ->
  rm_amsdu f <> 0 -> amsdu ms l -> Forall msdu_ok ms ->
  recv_process_mpdu cannot_run oks f = Some (_SUCCESS, take 64 (map eth_packet ms)).
Proof.
  intros Hoks Hf Hh H1 H2 Ha Hl Hms. unfold recv_process_mpdu. rewrite (proj2 (Z.eqb_neq _ _)) by done. cbn [negb].
  enough (amsdu_to_msdu oks f = Some (take 64 (map eth_packet ms))) as -> by done.
  destruct (split_first hdr (rm_hdrlen f)) as (mac & iv & -> & Hmac); [lia|].
  rewrite mem_len_app in Hh. rewrite <- app_assoc in Hf. unfold amsdu_to_msdu.
  destruct (pull_holds f pre mac (iv ++ l) room (rm_hdrlen f)) as [Hf1 _]; [done|done|].
  assert (rm_iv_len (recvframe_pull f (rm_hdrlen f)) = rm_iv_len f) as E1 by (unfold recvframe_pull; by case_test).
  cbn zeta. rewrite E1. set (f2 := if 0 <? rm_iv_len f then _ else _).
  assert (holds f2 ((pre ++ mac) ++ iv) l room) as [Hb Hd Ht Hln Hs].
  { subst f2. case_test; [destruct (pull_holds _ _ iv l room (rm_iv_len f) Hf1); [lia|done]|].
    assert (iv = []) as -> by (destruct iv; [done|unfold mem_len in *; cbn [length] in *; lia]). by rewrite app_nil_r. }
  rewrite Hb, !mem_len_app in Hs. pose proof (mem_len_nonneg pre); pose proof (mem_len_nonneg mac); pose proof (mem_len_nonneg iv);
    pose proof (mem_len_nonneg l); pose proof (mem_len_nonneg room). rewrite Hb, Hd, Hln, s32_small by lia.
  apply (amsdu_loop_spec oks ms l Hoks Hl Hms); [|cbn [length]; lia]. unfold ETH_HLEN.
  pose proof (Z.div_mod (mem_len l) 14 ltac:(lia)). pose proof (Z.mod_pos_bound (mem_len l) 14 ltac:(lia)).
  pose proof (Z.div_pos (mem_len l) 14 ltac:(lia) ltac:(lia)). lia.
Qed.

(** ** A plain MSDU *)

Lemma pull_tail_attrs f n : attrs (recvframe_pull_tail f n) = attrs f.
Proof. unfold recvframe_pull_tail. by case_test. Qed.

(** The two ways the code looks at the type behind a SNAP header agree. *)
Lemma be16_is ty n : bytes ty -> mem_len ty = 2 -> is_u16 n -> (RTW_GET_BE16 ty =? n) = bool_decide (ty = be16 n).
Proof.
  intros Hty Hl Hn. destruct ty as [|a [|b [|? ?]]]; try (cbn in Hl; unfold mem_len in Hl; cbn in Hl; lia).
  apply Forall_cons_1 in Hty as [Ha Hty]. apply Forall_cons_1 in Hty as [Hb _].
  destruct (bool_decide_reflect ([a; b] = be16 n)) as [->|Hne]; [by rewrite be16_read, Z.eqb_refl|].
  apply Z.eqb_neq. intros E. apply Hne. change (RTW_GET_BE16 [a; b]) with (u16 (Z.lor (Z.shiftl a 8) b)) in E.
  rewrite Z.lor_comm, lor_shiftl_add in E by (done || lia). unfold in_width in Ha, Hb, Hn.
  change (2 ^ 8) with 256 in *. change (2 ^ 16) with 65536 in *.
  assert (n = b + 256 * a) as -> by (rewrite <- E; apply wrap_small; unfold in_width; change (2 ^ 16) with 65536; lia).
  unfold be16. rewrite (Z.mul_comm 256), Z.div_add, Z.div_small, Z.add_0_l by lia. f_equal; [|f_equal].
  - symmetry. apply wrap_small. unfold in_width. lia.
  - symmetry. unfold wrap. change (2 ^ 8) with 256. rewrite Z_mod_plus_full. apply Z.mod_small. lia.
Qed.

Lemma snap_type snap ty rest :
  bytes (snap ++ ty ++ rest) -> mem_len snap = 6 -> mem_len ty = 2 ->
  encapsulated (snap ++ ty ++ rest) =
  (if _rtw_memcmp snap rtw_rfc1042_header
   then negb (_rtw_memcmp ty SNAP_ETH_TYPE_IPX) && negb (_rtw_memcmp ty SNAP_ETH_TYPE_APPLETALK_AARP) else false)
  || _rtw_memcmp snap rtw_bridge_tunnel_header.
Proof.
  intros Hb Hs Ht. apply Forall_app in Hb as [_ Hb]. apply Forall_app in Hb as [Hb _]. unfold encapsulated, _rtw_memcmp.
  rewrite !mem_len_app, Hs, Ht, (proj2 (Z.leb_le _ _)) by (pose proof (mem_len_nonneg rest); lia). cbn [andb].
  assert (length snap = 6%nat) as Hl by (unfold mem_len in Hs; lia). rewrite take_app_length', drop_app_length' by done.
  assert (RTW_GET_BE16 (ty ++ rest) = RTW_GET_BE16 ty) as -> by
    (destruct ty as [|? [|? [|? ?]]]; try done; unfold mem_len in Ht; cbn [length] in Ht; lia).
  rewrite !be16_is by (done || unfold in_width, ETH_P_AARP, ETH_P_IPX; lia).
  change (be16 ETH_P_AARP) with SNAP_ETH_TYPE_APPLETALK_AARP. change (be16 ETH_P_IPX) with SNAP_ETH_TYPE_IPX.
  destruct (bool_decide (snap = rtw_rfc1042_header)); [|done]. cbn [andb]. f_equal. apply andb_comm.
Qed.

(** The frame without its ICV. *)
Definition no_icv (f : rx_frame) : rx_frame :=
  if negb (rm_encrypt f =? 0) then recvframe_pull_tail f (rm_icv_len f) else f.

Lemma ethhdr_located f0 hdr snap ty rest pre room :
  let f := no_icv f0 in
  holds f pre (hdr ++ snap ++ ty ++ rest) room -> bytes (snap ++ ty ++ rest) ->
  mem_len hdr = rm_hdrlen f + rm_iv_len f -> mem_len snap = 6 -> mem_len ty = 2 ->
  wlanhdr_to_ethhdr f0 =
    let e := encapsulated (snap ++ ty ++ rest) in
    let rmv_len := mem_len hdr + (if e then 6 else 0) in
    let f := f <| rm_eth_type := RTW_GET_BE16 (if e then ty else take 2 snap) |> in
    let sz := rmv_len - 14 + (if e then 2 else 0) in
    if rm_tail f <? rm_data f + sz then Some (_FAIL, f)
    else
      let len := u16 (rm_len f - rmv_len) in
      let f := recvframe_pull f sz in
      buf ← wrn (rm_buf f) (rm_data f) (rm_dst f);
      buf ← wrn buf (rm_data f + 6) (rm_src f);
      buf ← (if e then Some buf else wrn buf (rm_data f + 12) (be16 len));
      Some (_SUCCESS, f <| rm_buf := buf |>).
Proof.
  intros f [Hb Hd Ht Hln Hs] Hbb Hh Hsn Hty. unfold wlanhdr_to_ethhdr. rewrite snap_type by done. fold (no_icv f0). fold f. cbv zeta.
  assert (rm_data f0 = rm_data f) as -> by (subst f; unfold no_icv, recvframe_pull_tail; by repeat case_match).
  clearbody f. clear f0.
  assert (rm_buf f = (pre ++ hdr) ++ snap ++ ty ++ rest ++ room) as Hb1 by (by rewrite Hb, <- !app_assoc).
  assert (rm_data f + rm_hdrlen f + rm_iv_len f = mem_len (pre ++ hdr)) as Hd1 by (rewrite mem_len_app; lia).
  assert (rdn (rm_buf f) (mem_len (pre ++ hdr)) SNAP_SIZE = Some snap) as E1 by (rewrite Hb1; by apply rdn_app).
  assert (rdn (rm_buf f) (mem_len (pre ++ hdr) + SNAP_SIZE) 2 = Some ty) as E2.
  { rewrite Hb1, (app_assoc _ snap). apply rdn_app; [by rewrite (mem_len_app _ snap), Hsn|done]. }
  assert (rdn (rm_buf f) (mem_len (pre ++ hdr)) 2 = Some (take 2 snap)) as E3.
  { rewrite Hb1. rewrite <- (take_drop 2 snap) at 1. rewrite <- (app_assoc (take 2 snap)). apply rdn_app; [done|].
    unfold mem_len in *. rewrite length_take. lia. }
  rewrite Hd1, E1. cbn [mbind option_bind]. rewrite E2. cbn [mbind option_bind].
  rewrite Hd, <- Hh. unfold SNAP_SIZE, ETH_HLEN in *.
  rewrite mem_len_app, <- Z.add_assoc in E2. rewrite mem_len_app, <- (Z.add_0_r (mem_len hdr)) in E3.
  destruct (_rtw_memcmp snap rtw_rfc1042_header), (_rtw_memcmp ty SNAP_ETH_TYPE_IPX),
    (_rtw_memcmp ty SNAP_ETH_TYPE_APPLETALK_AARP), (_rtw_memcmp snap rtw_bridge_tunnel_header);
    cbn [negb andb orb mbind option_bind];
    rewrite ?E2, ?E3; reflexivity.
Qed.

(** [y] written over [x] inside the frame. *)
Lemma write_part f pre a x b room y :
  holds f pre (a ++ x ++ b) room -> mem_len y = mem_len x ->
  exists buf, wrn (rm_buf f) (mem_len pre + mem_len a) y = Some buf /\ holds (f <| rm_buf := buf |>) pre (a ++ y ++ b) room.
Proof.
  intros [Hb Hd Ht Hl Hs] Hy. rewrite Hb in Hs. exists (pre ++ a ++ y ++ b ++ room). split.
  - rewrite Hb, <- !app_assoc, !(app_assoc pre a). apply wrn_app; [by rewrite mem_len_app|unfold mem_len in Hy; lia].
  - split; cbn; rewrite ?mem_len_app in *; rewrite <- ?app_assoc; (done || lia).
Qed.

(** The addresses written over the first twelve bytes. *)
Lemma write_addrs f pre x y keep room d s :
  holds f pre (x ++ y ++ keep) room -> mem_len x = 6 -> mem_len y = 6 -> length d = 6%nat -> length s = 6%nat ->
  exists b1 b2, wrn (rm_buf f) (rm_data f) d = Some b1 /\ wrn b1 (rm_data f + 6) s = Some b2 /\
    holds (f <| rm_buf := b2 |>) pre (d ++ s ++ keep) room.
Proof.
  intros Hf Hx Hy Hdl Hsl. assert (mem_len d = 6 /\ mem_len s = 6) as [Hd6 Hs6] by (unfold mem_len; lia).
  destruct (write_part f pre [] x (y ++ keep) room d Hf) as (b1 & E1 & H1); [lia|].
  destruct (write_part _ pre d y keep room s H1) as (b2 & E2 & H2); [lia|]. rewrite Hd6 in E2.
  rewrite (ho_data _ _ _ _ Hf). exists b1, b2. rewrite <- (Z.add_0_r (mem_len pre)) at 1. done.
Qed.

Lemma pull_addrs f n : rm_dst f = rm_dst (recvframe_pull f n) /\ rm_src f = rm_src (recvframe_pull f n).
Proof. unfold recvframe_pull. by case_test. Qed.

Lemma ethhdr_done fi pre hdr body room :
  let f := no_icv fi in
  holds f pre (hdr ++ body) room -> bytes body ->
  mem_len hdr = rm_hdrlen f + rm_iv_len f -> 14 <= mem_len hdr -> 8 <= mem_len body < 65536 ->
  length (rm_dst f) = 6%nat -> length (rm_src f) = 6%nat ->
  exists f' pre', wlanhdr_to_ethhdr fi = Some (_SUCCESS, f') /\
    holds f' pre' (eth_packet (mk_msdu (rm_dst f) (rm_src f) body)) room.
Proof.
  intros f Hf Hbb Hh Hh14 Hbl Hdst Hsrc. pose proof Hf as [Hb Hd Ht Hln Hs].
  destruct (split_first body 6) as (snap & b1 & -> & Hsn); [lia|]. rewrite mem_len_app in Hbl.
  destruct (split_first b1 2) as (ty & rest & -> & Hty); [lia|]. rewrite mem_len_app in Hbl.
  rewrite (ethhdr_located fi hdr snap ty rest pre room) by done. fold f. cbv zeta. clearbody f. unfold eth_packet. cbn [ms_dst ms_src ms_body].
  set (body := snap ++ ty ++ rest) in *. set (f0 := f <| rm_eth_type := _ |>).
  assert (holds f0 pre (hdr ++ body) room) as Hf0 by (subst f0; by split).
  assert (mem_len body = 8 + mem_len rest) as Hbody by (subst body; rewrite !mem_len_app; lia).
  change (rm_tail f) with (rm_tail f0) in Ht. change (rm_data f) with (rm_data f0) in Hd. change (rm_len f) with (rm_len f0) in Hln.
  change (rm_dst f) with (rm_dst f0) in *. change (rm_src f) with (rm_src f0) in *. clearbody f0. clear Hf Hb Hs Hh f.
  rewrite mem_len_app in Ht, Hln. pose proof (mem_len_nonneg rest).
  set (e := encapsulated body). 
  destruct (split_last hdr (if e then 6 else 14)) as (a & h & -> & Hhl); [destruct e; lia|]. rewrite mem_len_app in *.
  rewrite <- app_assoc in Hf0. 
  match goal with |- context [recvframe_pull f0 ?n] => set (sz := n) end.
  assert (sz = mem_len a) as Hsz by (subst sz; rewrite ?mem_len_app; destruct e; lia).
  destruct (pull_holds f0 pre a (h ++ body) room sz Hf0 Hsz) as [Hf1 _].
  rewrite (proj2 (Z.ltb_ge _ _)) by (rewrite Ht, Hd; pose proof (mem_len_nonneg h); lia).
  assert (e = false -> u16 (rm_len f0 - (mem_len a + mem_len h + 0)) = mem_len body) as Hlen.
  { intros ->. rewrite Hln. replace (_ - _) with (mem_len body) by lia. apply wrap_small. unfold in_width. lia. }
  destruct (pull_addrs f0 sz) as [Ed Es]. rewrite Ed, Es in *. set (f1 := recvframe_pull f0 sz) in *. clearbody f1.
  destruct e.
  - assert (body = snap ++ drop 6 body) as Hsplit by (subst body; rewrite drop_app_length' by (unfold mem_len in Hsn; lia); done).
    rewrite Hsplit in Hf1. destruct (write_addrs _ _ _ _ _ _ _ _ Hf1 Hhl Hsn Hdst Hsrc) as (b1 & b2 & -> & E & Hh).
    cbn [mbind option_bind]. rewrite E. cbn [mbind option_bind]. eexists _, _. split; [reflexivity|exact Hh].
  - rewrite Hlen by done. destruct (split_first h 6) as (x & h1 & -> & Hx); [lia|]. rewrite mem_len_app in Hhl.
    destruct (split_first h1 6) as (y & z & -> & Hy); [lia|]. rewrite mem_len_app in Hhl.
    rewrite <- !app_assoc in Hf1. destruct (write_addrs _ _ _ _ _ _ _ _ Hf1 Hx Hy Hdst Hsrc) as (b1 & b2 & -> & E & Hh).
    cbn [mbind option_bind]. rewrite E. cbn [mbind option_bind]. rewrite (ho_data _ _ _ _ Hf1). rewrite app_assoc in Hh.
    destruct (write_part _ _ _ z body room (be16 (mem_len body)) Hh) as (b3 & E3 & H3); [unfold mem_len in *; cbn [length be16]; lia|].
    replace (mem_len (rm_dst f1 ++ rm_src f1)) with 12 in E3 by (rewrite mem_len_app; unfold mem_len; lia).
    change (rm_buf (f1 <| rm_buf := b2 |>)) with b2 in E3. rewrite E3. cbn [mbind option_bind]. eexists _, _. split; [reflexivity|]. rewrite app_assoc. exact H3.
Qed.

Lemma mpdu_done oks f pre hdr body icv room :
  holds f pre (hdr ++ body ++ icv) room -> bytes body ->
  mem_len hdr = rm_hdrlen f + rm_iv_len f -> 14 <= mem_len hdr -> 8 <= mem_len body < 65536 ->
  mem_len icv = (if rm_encrypt f =? 0 then 0 else rm_icv_len f) ->
  length (rm_dst f) = 6%nat -> length (rm_src f) = 6%nat -> rm_amsdu f = 0 ->
  recv_process_mpdu false oks f = Some (_SUCCESS, [eth_packet (mk_msdu (rm_dst f) (rm_src f) body)]).
Proof.
  intros Hf Hbb Hh Hh14 Hbl Hi Hdst Hsrc Ha. unfold recv_process_mpdu. rewrite Ha. cbn [Z.eqb negb].
  assert (holds (no_icv f) pre (hdr ++ body) (icv ++ room) /\ attrs (no_icv f) = attrs f) as [Hf1 Hat].
  { unfold no_icv. rewrite app_assoc in Hf. destruct (Z.eqb_spec (rm_encrypt f) 0); cbn [negb].
    - assert (icv = []) as -> by (destruct icv; [done|unfold mem_len in *; cbn [length] in *; lia]). by rewrite app_nil_r in Hf.
    - split; [by apply pull_tail_holds|apply pull_tail_attrs]. }
  injection Hat as _ _ E1 E2 _ _ _ _ _ _ _ _ E3 E4 _ _ _ _ _. rewrite <- E1, <- E2 in Hh. rewrite <- E3 in *. rewrite <- E4 in *.
  destruct (ethhdr_done f pre hdr body (icv ++ room)) as (f' & pre' & -> & Hf'); [done..|].
  cbn [mbind option_bind]. destruct Hf' as [Hb Hd _ Hl _]. cbn [negb Z.eqb _SUCCESS].
  rewrite Hb, Hd, Hl, rdn_app by done. done.
Qed.

(** A plain MSDU, encrypted or not, is handed up as the Ethernet packet of
    its addresses and body: the packet an A-MSDU subframe with the same
    addresses and body would give. *)
Theorem mpdu_to_packet oks f pre hdr body icv room :
  holds f pre (hdr ++ body ++ icv) room -> bytes body ->
  mem_len hdr = rm_hdrlen f + rm_iv_len f -> 14 <= mem_len hdr -> 8 <= mem_len body < 65536 ->
  mem_len icv = (if rm_encrypt f =? 0 then 0 else rm_icv_len f) ->
  length (rm_dst f) = 6%nat -> length (rm_src f) = 6%nat -> rm_amsdu f = 0 ->
  recv_process_mpdu false oks f = Some (_SUCCESS, [eth_packet (mk_msdu (rm_dst f) (rm_src f) body)]).
Proof. apply mpdu_done. Qed.

(** ** Concrete frames *)

Definition demo_frame (amsdu encrypt : Z) (content : list Z) : rx_frame :=
  mk_rx_frame ([7; 7] ++ content ++ [0; 0; 0]) 2 (2 + mem_len content) (mem_len content) 0 0 24 8 4 1 encrypt 0 0 1
    [12; 12; 12; 12; 12; 12] [10; 10; 10; 10; 10; 10] [1; 1; 1; 1; 1; 1] [2; 2; 2; 2; 2; 2] amsdu 1 5 0 no_ext 9.

Definition demo_head : list Z := repeat 0 32.
Definition demo_ip : list Z := rtw_rfc1042_header ++ [0x08; 0x00; 69; 1; 2].
Definition demo_msdu1 : msdu := mk_msdu [1; 1; 1; 1; 1; 1] [2; 2; 2; 2; 2; 2] demo_ip.
Definition demo_msdu2 : msdu := mk_msdu [3; 3; 3; 3; 3; 3] [4; 4; 4; 4; 4; 4] [5; 6; 7].
Definition demo_body : list Z := subframe demo_msdu1 ++ repeat 0 3 ++ subframe demo_msdu2 ++ [9; 9; 9; 9].

Lemma demo_holds amsdu encrypt content :
  mem_len content < 2 ^ 30 -> holds (demo_frame amsdu encrypt content) [7; 7] content [0; 0; 0].
Proof. intros H. split; try done. cbn [rm_buf demo_frame]. rewrite !mem_len_app. change (mem_len [7; 7]) with 2. change (mem_len [0; 0; 0]) with 3. lia. Qed.

Lemma demo_amsdu : amsdu [demo_msdu1; demo_msdu2] demo_body.
Proof. unfold demo_body. constructor; [done|]. constructor; vm_compute; congruence. Qed.

Lemma demo_msdus_ok : Forall msdu_ok [demo_msdu1; demo_msdu2].
Proof. repeat constructor; vm_compute; congruence. Qed.

(** An even packet gets a buffer of its own, an odd one is a clone. *)
Definition demo_alloc (i : nat) : msdu_skb := if Nat.even i then NewSkb (fun _ => 0) else CloneSkb (fun _ => 9).

Lemma demo_alloc_ok i : demo_alloc i <> NoSkb.
Proof. unfold demo_alloc. by destruct (Nat.even i). Qed.

(** With nothing behind the frame but the end of the buffer. *)
Lemma amsdu_terminates_witness :
  exists pkts, amsdu_to_msdu demo_alloc (demo_frame 1 1 (demo_head ++ demo_body)) = Some pkts /\ (length pkts <= 64)%nat /\
    total_length pkts <= mem_len (demo_head ++ demo_body) /\
    amsdu_to_msdu (fun _ => CloneSkb (fun _ => 1)) (behind_frame (demo_frame 1 1 (demo_head ++ demo_body)) [7; 7] (demo_head ++ demo_body) []) = Some pkts.
Proof.
  destruct (amsdu_terminates demo_alloc (demo_frame 1 1 (demo_head ++ demo_body)) [7; 7] (demo_head ++ demo_body) [0; 0; 0])
    as (pkts & E & Hn & Ht & Hp); [by apply demo_holds|done|done|].
  exists pkts. split; [exact E|]. split; [exact Hn|]. split; [exact Ht|]. apply Hp. intros i. split; [|done]. intros Hi. by destruct (demo_alloc_ok i).
Defined.

Lemma amsdu_split_into_packets_witness :
  recv_process_mpdu false demo_alloc (demo_frame 1 1 (demo_head ++ demo_body)) =
    Some (_SUCCESS, [[1; 1; 1; 1; 1; 1; 2; 2; 2; 2; 2; 2; 0x08; 0x00; 69; 1; 2];
                     [3; 3; 3; 3; 3; 3; 4; 4; 4; 4; 4; 4; 0; 3; 5; 6; 7]]).
Proof.
  rewrite (amsdu_split_into_packets false demo_alloc (demo_frame 1 1 (demo_head ++ demo_body)) [7; 7] demo_head demo_body [0; 0; 0]
             [demo_msdu1; demo_msdu2]); [reflexivity|apply demo_alloc_ok|by apply demo_holds|done|done|done|done|apply demo_amsdu|apply demo_msdus_ok].
Defined.

Lemma mpdu_to_packet_witness :
  recv_process_mpdu false demo_alloc (demo_frame 0 1 (demo_head ++ demo_ip ++ [8; 8; 8; 8])) =
    Some (_SUCCESS, [[1; 1; 1; 1; 1; 1; 2; 2; 2; 2; 2; 2; 0x08; 0x00; 69; 1; 2]]).
Proof.
  rewrite (mpdu_to_packet demo_alloc (demo_frame 0 1 (demo_head ++ demo_ip ++ [8; 8; 8; 8])) [7; 7] demo_head demo_ip [8; 8; 8; 8] [0; 0; 0]);
    [reflexivity|by apply demo_holds| |done|done|done|done|done|done|done].
  repeat constructor; vm_compute; congruence.
Defined.
