(* ===== verification/RecvData.v ===== *)
(** * Validation of received data frames (core/rtw_recv.c)

    [validate_recv_frame] with its data branch: the addresses by the DS bits,
    the checks of [sta2sta_data_frame], [ap2sta_data_frame] and
    [sta2ap_data_frame], duplicate detection and packet number caches, and the
    security attributes.  Outside MP mode and without CONFIG_TDLS,
    CONFIG_IEEE80211W, CONFIG_WAPI_SUPPORT and CONFIG_DFS_MASTER.  The statistics are kept; calls
    that act on the transmit side (deauthentication, power saving of the
    stations of an access point) are recorded in [rx_calls].  Management and
    control frames are never delivered; what else they do is not modelled. *)

From S2P Require Import Prelude Mem Arc4 SecDefs Wep Michael Ccmp RecvFrame Msdu.
Definition WIFI_MGT_TYPE : Z := 0x00.
Definition WIFI_CTRL_TYPE : Z := 0x04.
Definition WIFI_DATA_TYPE : Z := 0x08.
Definition WIFI_QOS_DATA_TYPE : Z := 0x88.
Definition WIFI_ASOC_STATE : Z := 0x01.
Definition WIFI_STATION_STATE : Z := 0x08.
Definition WIFI_AP_STATE : Z := 0x10.
Definition WIFI_ADHOC_STATE : Z := 0x20.
Definition WIFI_ADHOC_MASTER_STATE : Z := 0x40.
Definition WIFI_UNDER_LINKING : Z := 0x80.
Definition WIFI_MONITOR_STATE : Z := 0x80000000.
Definition dot11AuthAlgrthm_Open : Z := 0.
Definition dot11AuthAlgrthm_Shared : Z := 1.
Definition dot11AuthAlgrthm_8021X : Z := 2.
Definition dot11AuthAlgrthm_Auto : Z := 3.
Definition dot11AuthAlgrthm_WAPI : Z := 4.
Definition _SMS4_ : Z := 6.
Definition TID_NUM : Z := 16.

(** ** Fields of the header *)

Definition rd16 (f : rx_frame) (off : Z) : option Z := le_dec <$> rdn (rm_buf f) (rm_data f + off) 2.
Definition addr_at (f : rx_frame) (off : Z) : option (list Z) := rdn (rm_buf f) (rm_data f + off) 6.

(** Of the frame control field. *)
Definition GetToDs (fc : Z) : Z := Z.b2z (Z.testbit fc 8).
Definition GetFrDs (fc : Z) : Z := Z.b2z (Z.testbit fc 9).
Definition get_tofr_ds (fc : Z) : Z := Z.lor (Z.shiftl (GetToDs fc) 1) (GetFrDs fc).
Definition GetMFrag (fc : Z) : Z := Z.b2z (Z.testbit fc 10).
Definition GetPwrMgt (fc : Z) : Z := Z.b2z (Z.testbit fc 12).
Definition GetMData (fc : Z) : Z := Z.b2z (Z.testbit fc 13).
Definition GetPrivacy (fc : Z) : Z := Z.b2z (Z.testbit fc 14).
Definition GetOrder (fc : Z) : Z := Z.b2z (Z.testbit fc 15).
(** Of the sequence control field. *)
Definition GetSequence (sc : Z) : Z := Z.shiftr sc 4.
Definition GetFragNum (sc : Z) : Z := Z.land sc 0x0f.
(** Of the QoS control field. *)
Definition GetPriority (qc : Z) : Z := Z.land qc 0xf.
Definition GetAckpolicy (qc : Z) : Z := Z.land (Z.shiftr qc 5) 0x3.
Definition GetAMsdu (qc : Z) : Z := Z.land (Z.shiftr qc 7) 0x1.

Definition MacAddr_isBcst (addr : list Z) : bool := bool_decide (addr = repeat 0xff 6).

(** ** State *)

(** The counters of [struct stainfo_stats] that data frames move. *)
Record stainfo_stats := mk_stats {
  ss_rx_data_pkts : Z; ss_rx_bytes : Z; ss_rx_data_bc_pkts : Z; ss_rx_bc_bytes : Z;
  ss_rx_data_mc_pkts : Z; ss_rx_mc_bytes : Z; ss_rxratecnt : list Z; ss_rx_data_qos_pkts : list Z }.

#[export] Instance eta_stats : Eta stainfo_stats := fun s =>
  mk_stats (ss_rx_data_pkts s) (ss_rx_bytes s) (ss_rx_data_bc_pkts s) (ss_rx_bc_bytes s) (ss_rx_data_mc_pkts s)
    (ss_rx_mc_bytes s) (ss_rxratecnt s) (ss_rx_data_qos_pkts s).

(** A station: its [stainfo_rxcache], its cipher and port, its counters. *)
Record rx_sta := mk_rx_sta {
  tid_rxseq : list Z; rxc_iv : list (list Z); last_tid : Z; duplicate_cnt : Z;
  dot118021XPrivacy : Z; ieee8021x_blocked : bool; sta_stats : stainfo_stats }.

#[export] Instance eta_rx_sta : Eta rx_sta := fun s =>
  mk_rx_sta (tid_rxseq s) (rxc_iv s) (last_tid s) (duplicate_cnt s) (dot118021XPrivacy s) (ieee8021x_blocked s) (sta_stats s).

(** What the receive path asks of other parts of the driver. *)
Inductive rx_call :=
  | IssueDeauth (addr : list Z)
  | ProcessPwrbit (src : list Z) (pwrbit : Z)
  | ProcessWmmps (src : list Z) (priority : Z).

Record rx_state := mk_rx_state {
  fw_state : Z; myhwaddr : list Z; mybssid : list Z;
  dot11AuthAlgrthm : Z; dot11PrivacyAlgrthm : Z; dot118021XGrpPrivacy : Z; iv_seq : list (list Z);
  rx_stas : gmap Z rx_sta; is_any_non_be_pkts : Z; send_issue_deauth_time : Z; rx_calls : list rx_call;
  rx_bytes : Z; NumRxOkInPeriod : Z; NumRxUnicastOkInPeriod : Z; dbg_rx_drop_count : Z }.

#[export] Instance eta_rx_state : Eta rx_state := fun s =>
  mk_rx_state (fw_state s) (myhwaddr s) (mybssid s) (dot11AuthAlgrthm s) (dot11PrivacyAlgrthm s) (dot118021XGrpPrivacy s)
    (iv_seq s) (rx_stas s) (is_any_non_be_pkts s) (send_issue_deauth_time s) (rx_calls s) (rx_bytes s)
    (NumRxOkInPeriod s) (NumRxUnicastOkInPeriod s) (dbg_rx_drop_count s).

Definition check_fwstate (s : rx_state) (state : Z) : bool :=
  ((state =? 0) && (fw_state s =? 0)) || negb (Z.land (fw_state s) state =? 0).

Definition set_sta (s : rx_state) (psta : Z) (st : rx_sta) : rx_state := s <| rx_stas := <[psta := st]> (rx_stas s) |>.
Definition log_call (s : rx_state) (c : rx_call) : rx_state := s <| rx_calls := rx_calls s ++ [c] |>.

(** One more in a counter array; [None] outside the array. *)
Definition count_at (w : Z) (l : list Z) (i : Z) : option (list Z) :=
  n ← key_at l i; Some (arr_set l i (wrap w (n + 1))).

Definition count_rx_stats (s : rx_state) (f : rx_frame) (psta : option Z) : option rx_state :=
  let sz := rm_len f in
  let s := s <| rx_bytes := u64 (rx_bytes s + sz) |> <| NumRxOkInPeriod := u32 (NumRxOkInPeriod s + 1) |> in
  let s := if negb (MacAddr_isBcst (rm_dst f)) && negb (IS_MCAST (rm_dst f))
           then s <| NumRxUnicastOkInPeriod := u32 (NumRxUnicastOkInPeriod s + 1) |> else s in
  match psta with
  | None => Some s
  | Some psta =>
      st ← rx_stas s !! psta;
      let p := sta_stats st in
      let p := p <| ss_rx_data_pkts := u64 (ss_rx_data_pkts p + 1) |> <| ss_rx_bytes := u64 (ss_rx_bytes p + sz) |> in
      let p := if MacAddr_isBcst (rm_ra f)
               then p <| ss_rx_data_bc_pkts := u64 (ss_rx_data_bc_pkts p + 1) |> <| ss_rx_bc_bytes := u64 (ss_rx_bc_bytes p + sz) |>
               else if IS_MCAST (rm_ra f)
               then p <| ss_rx_data_mc_pkts := u64 (ss_rx_data_mc_pkts p + 1) |> <| ss_rx_mc_bytes := u64 (ss_rx_mc_bytes p + sz) |>
               else p in
      p ← (if negb (IS_MCAST (rm_ra f)) then
             rates ← count_at 32 (ss_rxratecnt p) (x_data_rate (rm_ext f));
             qos ← count_at 64 (ss_rx_data_qos_pkts p) (rm_priority f);
             Some (p <| ss_rxratecnt := rates |> <| ss_rx_data_qos_pkts := qos |>)
           else Some p);
      Some (set_sta s psta (st <| sta_stats := p |>))
  end.

(** ** Duplicates and packet numbers *)

Definition recv_decache (s : rx_state) (psta : Z) (f : rx_frame) : option (Z * rx_state) :=
  st ← rx_stas s !! psta;
  let tid := rm_priority f in
  let seq_ctrl := u16 (Z.lor (Z.shiftl (Z.land (rm_seq_num f) 0xffff) 4) (Z.land (rm_frag_num f) 0xf)) in
  if 15 <? tid then Some (_FAIL, s)
  else
    cached ← key_at (tid_rxseq st) tid;
    if seq_ctrl =? cached then Some (_FAIL, set_sta s psta (st <| duplicate_cnt := u32 (duplicate_cnt st + 1) |>))
    else Some (_SUCCESS, set_sta s psta (st <| tid_rxseq := arr_set (tid_rxseq st) tid seq_ctrl |>)).

Definition CCMPH_2_PN (ch : Z) : Z := Z.lor (Z.land ch 0xffff) (Z.shiftr (Z.land ch 0xffffffff00000000) 16).
Definition CCMPH_2_KEYID (ch : Z) : Z := Z.shiftr (Z.land ch 0xc0000000) 30.
Definition PN_LESS_CHK (a b : Z) : bool := negb (Z.land (u64 (a - b)) 0x800000000000 =? 0).
Definition VALID_PN_CHK (new old : Z) : bool := (old =? 0) || PN_LESS_CHK old new.

(** An old packet number is noticed but not refused. *)
Definition recv_ucast_pn_decache (s : rx_state) (psta : Z) (f : rx_frame) : option (Z * rx_state) :=
  st ← rx_stas s !! psta;
  let tid := rm_priority f in
  if 15 <? tid then Some (_FAIL, s)
  else if rm_encrypt f =? _AES_ then
    hdr ← rdn (rm_buf f) (rm_data f + rm_hdrlen f) 8;
    cached ← key_at (rxc_iv st) tid;
    if VALID_PN_CHK (CCMPH_2_PN (le_dec hdr)) (CCMPH_2_PN (le_dec cached))
    then Some (_SUCCESS, set_sta s psta (st <| last_tid := tid |> <| rxc_iv := arr_set (rxc_iv st) tid hdr |>))
    else Some (_SUCCESS, s)
  else Some (_SUCCESS, s).

Definition recv_bcast_pn_decache (s : rx_state) (f : rx_frame) : option (Z * rx_state) :=
  if (rm_encrypt f =? _AES_) && check_fwstate s WIFI_STATION_STATE then
    hdr ← rdn (rm_buf f) (rm_data f + rm_hdrlen f) 8;
    let key_id := CCMPH_2_KEYID (le_dec hdr) in
    let pkt_pn := CCMPH_2_PN (le_dec hdr) in
    cached ← key_at (iv_seq s) key_id;
    let curr_pn := Z.land (le_dec cached) 0x0000ffffffffffff in
    if negb (VALID_PN_CHK pkt_pn curr_pn) then Some (_FAIL, s)
    else Some (_SUCCESS, s <| iv_seq := arr_set (iv_seq s) key_id (le_enc 8 pkt_pn) |>)
  else Some (_SUCCESS, s).

(** ** Which frames are for this station *)

Section stations.
(** [rtw_get_stainfo]: the station of an address. *)
Context (rtw_get_stainfo : list Z -> option Z).

Definition zero_addr : list Z := repeat 0 6.

(** [bssid] is not the one of the network joined, or there is none. *)
Definition foreign_bssid (s : rx_state) (f : rx_frame) : bool :=
  let bssid := x_bssid (rm_ext f) in
  _rtw_memcmp bssid zero_addr || _rtw_memcmp (mybssid s) zero_addr || negb (_rtw_memcmp bssid (mybssid s)).

(** The verdict and the station the frame comes from. *)
Definition sta2sta_data_frame (s : rx_state) (f : rx_frame) : Z * option Z :=
  let bssid := x_bssid (rm_ext f) in
  let bmcast := IS_MCAST (rm_dst f) in
  let from (sta_addr : option (list Z)) (ret : Z) :=
    match sta_addr ≫= rtw_get_stainfo with Some psta => (ret, Some psta) | None => (_FAIL, None) end in
  if check_fwstate s WIFI_ADHOC_STATE || check_fwstate s WIFI_ADHOC_MASTER_STATE then
    if _rtw_memcmp (myhwaddr s) (rm_src f) then (_FAIL, None)
    else if negb (_rtw_memcmp (myhwaddr s) (rm_dst f)) && negb bmcast then (_FAIL, None)
    else if foreign_bssid s f then (_FAIL, None)
    else from (Some (rm_src f)) _SUCCESS
  else if check_fwstate s WIFI_STATION_STATE then
    if negb (_rtw_memcmp bssid (rm_src f)) then (_FAIL, None) else from (Some bssid) _SUCCESS
  else if check_fwstate s WIFI_AP_STATE then
    if bmcast then if negb (IS_MCAST bssid) then (_FAIL, None) else from None _SUCCESS
    else if negb (_rtw_memcmp bssid (rm_dst f)) then (_FAIL, None) else from (Some (rm_src f)) _SUCCESS
  else from None _FAIL.

(** [now]: the time in milliseconds. *)
Definition ap2sta_data_frame (now : Z) (s : rx_state) (f : rx_frame) (subtype : Z) : option (Z * option Z * rx_state) :=
  let bssid := x_bssid (rm_ext f) in
  let bmcast := IS_MCAST (rm_dst f) in
  if check_fwstate s WIFI_STATION_STATE && (check_fwstate s WIFI_ASOC_STATE || check_fwstate s WIFI_UNDER_LINKING) then
    if _rtw_memcmp (myhwaddr s) (rm_src f) then Some (_FAIL, None, s)
    else if negb (_rtw_memcmp (myhwaddr s) (rm_dst f)) && negb bmcast then Some (_FAIL, None, s)
    else if foreign_bssid s f then
      Some (_FAIL, None, if negb bmcast then log_call s (IssueDeauth bssid) else s)
    else
      match rtw_get_stainfo bssid with
      | None => Some (_FAIL, None, s)
      | Some psta =>
          if Z.testbit subtype 6 then
            s ← count_rx_stats s f (Some psta); Some (RTW_RX_HANDLED, Some psta, s)
          else Some (_SUCCESS, Some psta, s)
      end
  else if check_fwstate s WIFI_AP_STATE then Some (RTW_RX_HANDLED, None, s)
  else if _rtw_memcmp (myhwaddr s) (rm_dst f) && negb bmcast then
    match rtw_get_stainfo bssid with
    | Some psta => Some (_FAIL, Some psta, s)
    | None =>
        if (10000 <? now - send_issue_deauth_time s) || (send_issue_deauth_time s =? 0)
        then Some (_FAIL, None, log_call (s <| send_issue_deauth_time := now |>) (IssueDeauth bssid))
        else Some (_FAIL, None, s)
    end
  else Some (_FAIL, None, s).

Definition sta2ap_data_frame (s : rx_state) (f : rx_frame) (subtype : Z) : option (Z * option Z * rx_state) :=
  if check_fwstate s WIFI_AP_STATE then
    if negb (_rtw_memcmp (x_bssid (rm_ext f)) (mybssid s)) then Some (_FAIL, None, s)
    else
      match rtw_get_stainfo (rm_src f) with
      | None => Some (RTW_RX_HANDLED, None, log_call s (IssueDeauth (rm_src f)))
      | Some psta =>
          let s := log_call s (ProcessPwrbit (rm_src f) (x_pw_save (rm_ext f))) in
          let s := if Z.land subtype WIFI_QOS_DATA_TYPE =? WIFI_QOS_DATA_TYPE
                   then log_call s (ProcessWmmps (rm_src f) (rm_priority f)) else s in
          if Z.testbit subtype 6 then
            s ← count_rx_stats s f (Some psta); Some (RTW_RX_HANDLED, Some psta, s)
          else Some (_SUCCESS, Some psta, s)
      end
  else if negb (_rtw_memcmp (rm_ra f) (myhwaddr s)) then Some (RTW_RX_HANDLED, None, s)
  else Some (RTW_RX_HANDLED, None, log_call s (IssueDeauth (rm_src f))).

(** ** [validate_recv_data_frame] *)

Definition set_addrs (f : rx_frame) (ra ta dst src bssid : list Z) : rx_frame :=
  f <| rm_ra := ra |> <| rm_ta := ta |> <| rm_dst := dst |> <| rm_src := src |> <| rm_ext := (rm_ext f) <| x_bssid := bssid |> |>.

(** The addresses, then the check for the direction. *)
Definition data_frame_station (now : Z) (s : rx_state) (f : rx_frame) (subtype : Z) : option (Z * option Z * rx_frame * rx_state) :=
  let ds := x_to_fr_ds (rm_ext f) in
  if (ds =? 0) || (ds =? 1) || (ds =? 2) then
    a1 ← addr_at f 4; a2 ← addr_at f 10; a3 ← addr_at f 16;
    if ds =? 0 then
      let f := set_addrs f a1 a2 a1 a2 a3 in
      let '(ret, psta) := sta2sta_data_frame s f in Some (ret, psta, f, s)
    else if ds =? 1 then
      let f := set_addrs f a1 a2 a1 a3 a2 in
      '(ret, psta, s) ← ap2sta_data_frame now s f subtype; Some (ret, psta, f, s)
    else
      let f := set_addrs f a1 a2 a3 a2 a1 in
      '(ret, psta, s) ← sta2ap_data_frame s f subtype; Some (ret, psta, f, s)
  else Some (_FAIL, None, f, s).

(** The QoS control field and the header length. *)
Definition parse_qc (s : rx_state) (f : rx_frame) : option (rx_frame * rx_state) :=
  let f := f <| rm_amsdu := 0 |> <| rm_ext := (rm_ext f) <| x_ack_policy := 0 |> |> in
  let ds := x_to_fr_ds (rm_ext f) in
  '(f, s) ←
    (if rm_qos f =? 1 then
       qc ← rd16 f 24;
       let f := f <| rm_priority := GetPriority qc |> <| rm_ext := (rm_ext f) <| x_ack_policy := GetAckpolicy qc |> |>
                  <| rm_amsdu := GetAMsdu qc |> <| rm_hdrlen := if ds =? 3 then 32 else 26 |> in
       Some (f, s <| is_any_non_be_pkts := if negb (rm_priority f =? 0) && negb (rm_priority f =? 3) then 1 else 0 |>)
     else Some (f <| rm_priority := 0 |> <| rm_hdrlen := if ds =? 3 then 30 else 24 |>, s));
  Some (if negb (x_order (rm_ext f) =? 0) then f <| rm_hdrlen := u8 (rm_hdrlen f + 4) |> else f, s).

(** [GET_ENCRY_ALGO]; an unknown algorithm leaves the old value. *)
Definition GET_ENCRY_ALGO (s : rx_state) (st : rx_sta) (encry_algo : Z) (bmcst : bool) : Z :=
  let a := dot11AuthAlgrthm s in
  if (a =? dot11AuthAlgrthm_Open) || (a =? dot11AuthAlgrthm_Shared) || (a =? dot11AuthAlgrthm_Auto) then u8 (dot11PrivacyAlgrthm s)
  else if a =? dot11AuthAlgrthm_8021X then if bmcst then u8 (dot118021XGrpPrivacy s) else u8 (dot118021XPrivacy st)
  else if a =? dot11AuthAlgrthm_WAPI then u8 (dot11PrivacyAlgrthm s)
  else encry_algo.

(** [SET_ICE_IV_LEN]: the lengths of IV and ICV. *)
Definition SET_ICE_IV_LEN (encrypt : Z) : Z * Z :=
  if is_wep encrypt then (4, 4)
  else if encrypt =? _TKIP_ then (8, 4)
  else if encrypt =? _AES_ then (8, 8)
  else if encrypt =? _SMS4_ then (18, 16)
  else (0, 0).

(** Duplicates and old packet numbers; the reorder block of the frame. *)
Definition data_frame_decache (s : rx_state) (psta : Z) (f : rx_frame) : option (Z * rx_frame * rx_state) :=
  if negb (IS_MCAST (rm_ra f)) then
    let f := f <| rm_ext := (rm_ext f) <| x_preorder := Some (psta, rm_priority f) |> |> in
    '(ret, s) ← recv_decache s psta f;
    if ret =? _FAIL then Some (_FAIL, f, s)
    else '(ret, s) ← recv_ucast_pn_decache s psta f; Some (ret, f, s)
  else
    '(ret, s) ← recv_bcast_pn_decache s f;
    if ret =? _FAIL then Some (_FAIL, f, s)
    else Some (_SUCCESS, f <| rm_ext := (rm_ext f) <| x_preorder := None |> |>, s).

(** The cipher of a protected frame, and the lengths that go with it. *)
Definition data_frame_security (s : rx_state) (psta : Z) (f : rx_frame) : option rx_frame :=
  if negb (rm_privacy f =? 0) then
    st ← rx_stas s !! psta;
    let encrypt := GET_ENCRY_ALGO s st (rm_encrypt f) (IS_MCAST (rm_ra f)) in
    let '(iv_len, icv_len) := SET_ICE_IV_LEN encrypt in
    Some (f <| rm_encrypt := encrypt |> <| rm_iv_len := iv_len |> <| rm_icv_len := icv_len |>)
  else Some (f <| rm_encrypt := 0 |> <| rm_iv_len := 0 |> <| rm_icv_len := 0 |>).

Definition validate_recv_data_frame (now : Z) (s : rx_state) (f : rx_frame) (subtype : Z) : option (Z * rx_frame * rx_state) :=
  '(ret, psta, f, s) ← data_frame_station now s f subtype;
  if (ret =? _FAIL) || (ret =? RTW_RX_HANDLED) then Some (ret, f, s)
  else
    match psta with
    | None => Some (_FAIL, f, s)
    | Some psta =>
        let f := f <| rm_ext := (rm_ext f) <| x_psta := Some psta |> |> in
        '(f, s) ← parse_qc s f;
        '(ret, f, s) ← data_frame_decache s psta f;
        if ret =? _FAIL then Some (_FAIL, f, s)
        else f ← data_frame_security s psta f; Some (_SUCCESS, f, s)
    end.

(** ** [validate_recv_frame] *)

Definition validate_recv_frame (now : Z) (s : rx_state) (f : rx_frame) : option (Z * rx_frame * rx_state) :=
  b ← rd8 (rm_buf f) (rm_data f);
  if negb (Z.land b 0x3 =? 0) then Some (_FAIL, f, s)
  else
    fc ← rd16 f 0;
    sc ← rd16 f 22;
    let type := Z.land fc 0x0c in
    let subtype := Z.land fc 0xfc in
    let f := f <| rm_frag_num := GetFragNum sc |> <| rm_seq_num := GetSequence sc |> <| rm_mfrag := GetMFrag fc |>
               <| rm_privacy := GetPrivacy fc |>
               <| rm_ext := (rm_ext f) <| x_to_fr_ds := get_tofr_ds fc |> <| x_pw_save := GetPwrMgt fc |>
                                     <| x_mdata := GetMData fc |> <| x_order := GetOrder fc |> |> in
    if type =? WIFI_DATA_TYPE then
      let f := f <| rm_qos := Z.b2z (Z.testbit subtype 7) |> in
      '(ret, f, s) ← validate_recv_data_frame now s f subtype;
      Some (ret, f, if ret =? _FAIL then s <| dbg_rx_drop_count := u64 (dbg_rx_drop_count s + 1) |> else s)
    else Some (_FAIL, f, s).
End stations.
