(* ===== verification/RecvMain.v ===== *)
(** * The receive path of the driver (core/rtw_recv.c)

    [recv_func] outside monitor mode: validation, the queue of frames that wait
    for a key, then [recv_func_posthandle]: decryption, reassembly, port
    control, the reorder window, which a frame outside a session moves
    ([recv_set_iseq_before_mpdu_process]), and the conversion to Ethernet; the
    timeout of a reorder window; [rtw_recv_entry].  Every receive frame is in one place:
    the free queue, the queue of pending frames, a defragmentation queue, or a
    reorder window, whose frames are kept in [rp_heap] by their identity.
    Without CONFIG_TDLS, CONFIG_WAPI_SUPPORT and CONFIG_CONCURRENT_MODE. *)

From S2P Require Import Prelude Mem Arc4 SecDefs Wep Michael Tkip Ccmp Reorder RecvFrame Msdu RecvData.
Definition WEP_KEYS : Z := 4.
Definition LLC_HEADER_SIZE : Z := 6.
Definition eapol_type : Z := 0x888e.
Definition NR_RECVFRAME : Z := 256.
Definition Ndis802_11AuthModeWPAPSK : Z := 4.

Record recv_main := mk_recv_main {
  rp_rx : rx_state; rp_sec : security_priv; rp_crc : crc_state; rp_message : list Z;
  rp_queues : gmap Z (list rx_frame); rp_keys : mic_keys;
  rp_reorder : gmap (Z * Z) recv_reorder_ctrl; rp_cnt : rx_counters; rp_heap : gmap Z rx_frame;
  rp_pending : list rx_frame; rp_free : list Z; rp_free_cnt : Z;
  rp_monitored : list rx_frame; rp_up : list (list Z); rp_pkts : Z;
  busetkipkey : Z; sw_decrypt : Z; hw_decrypted : Z; ndisauthtype : Z }.

#[export] Instance eta_recv_main : Eta recv_main := fun s =>
  mk_recv_main (rp_rx s) (rp_sec s) (rp_crc s) (rp_message s) (rp_queues s) (rp_keys s) (rp_reorder s) (rp_cnt s)
    (rp_heap s) (rp_pending s) (rp_free s) (rp_free_cnt s) (rp_monitored s) (rp_up s) (rp_pkts s) (busetkipkey s)
    (sw_decrypt s) (hw_decrypted s) (ndisauthtype s).

(** [rtw_free_recvframe]: unlinked from wherever it is, to the tail of the free
    queue. *)
Definition free_recvframe (s : recv_main) (id : Z) : recv_main :=
  s <| rp_free := List.filter (fun i => negb (i =? id)) (rp_free s) ++ [id] |> <| rp_free_cnt := u32 (rp_free_cnt s + 1) |>.

Definition rx_dropped (s : recv_main) : recv_main :=
  s <| rp_rx := (rp_rx s) <| dbg_rx_drop_count := u64 (dbg_rx_drop_count (rp_rx s) + 1) |> |>.

Section recv.
(** [rtw_get_stainfo] and what it finds of a station: pairwise key and receive
    MIC key; the broadcast station; which frames find memory for their
    packets; whether the driver is stopped. *)
Context (rtw_get_stainfo : list Z -> option Z) (x_UncstKey dot11tkiprxmickey : Z -> list Z) (bcmc : Z).
Context (oks : Z -> nat -> msdu_skb) (cannot_run : bool).

Definition station_key (addr : list Z) : option (list Z) := x_UncstKey <$> rtw_get_stainfo addr.

(** ** Decryption *)

Definition to_sec (f : rx_frame) : recv_frame :=
  mk_recv_frame (mk_rx_pkt_attrib (rm_encrypt f) (rm_hdrlen f) (rm_iv_len f) (rm_key_index f) (rm_ra f) (rm_ta f))
    (rm_len f) (drop (Z.to_nat (rm_data f)) (rm_buf f)).

(** The frame with the memory from [rx_data] on replaced. *)
Definition of_sec (f : rx_frame) (r : recv_frame) : rx_frame :=
  f <| rm_buf := take (Z.to_nat (rm_data f)) (rm_buf f) ++ rv_data r |>.

(** The key index of an encrypted frame, from the fourth byte of its IV. *)
Definition set_key_index (sec : security_priv) (f : rx_frame) : option rx_frame :=
  if 0 <? rm_encrypt f then
    iv3 ← rd8 (rm_buf f) (rm_data f + rm_hdrlen f + 3);
    let key_index := Z.land (Z.shiftr iv3 6) 0x3 in
    Some (f <| rm_key_index :=
      if WEP_KEYS <? key_index then if is_wep (rm_encrypt f) then u8 (dot11PrivacyKeyIndex sec) else u8 (dot118021XGrpKeyid sec)
      else key_index |>)
  else Some f.

Definition sw_decryptor (s : recv_main) (f : rx_frame) : option (Z * rx_frame * recv_main) :=
  if is_wep (rm_encrypt f) then
    '(c, r) ← rtw_wep_decrypt (rp_sec s) (rp_crc s) (to_sec f);
    Some (_SUCCESS, of_sec f r, s <| rp_crc := c |>)
  else if rm_encrypt f =? _TKIP_ then
    '(res, c, r) ← rtw_tkip_decrypt station_key (rp_sec s) (rp_crc s) (to_sec f);
    Some (res, of_sec f r, s <| rp_crc := c |>)
  else if rm_encrypt f =? _AES_ then
    '(res, m, r) ← rtw_aes_decrypt station_key (rp_sec s) (rp_message s) (to_sec f);
    Some (res, of_sec f r, s <| rp_message := m |>)
  else Some (_SUCCESS, f, s).

Definition decryptor (s : recv_main) (f : rx_frame) : option (option rx_frame * recv_main) :=
  f ← set_key_index (rp_sec s) f;
  '(res, f, s) ←
    (if negb (rm_encrypt f =? 0) && (rm_bdecrypted f =? 0) then sw_decryptor (s <| hw_decrypted := 0 |>) f
     else if (rm_bdecrypted f =? 1) && (0 <? rm_encrypt f) && ((busetkipkey s =? 1) || negb (rm_encrypt f =? _TKIP_))
     then Some (_SUCCESS, f, s <| hw_decrypted := 1 |>)
     else Some (_SUCCESS, f, s));
  if res =? _FAIL then Some (None, free_recvframe s (rm_id f))
  else Some (Some (f <| rm_bdecrypted := 1 |>), s).

(** ** Reassembly and port control *)

Definition chk_defrag (s : recv_main) (f : rx_frame) : option (option rx_frame * recv_main) :=
  '(r, d) ← recvframe_chk_defrag rtw_get_stainfo dot11tkiprxmickey bcmc (mk_defrag_state (rp_queues s) (rp_keys s) []) f;
  Some (r, foldl free_recvframe (s <| rp_queues := ds_queues d |> <| rp_keys := ds_keys d |>) (rm_id <$> ds_freed d)).

Definition portctrl (s : recv_main) (f : rx_frame) : option (option rx_frame * recv_main) :=
  if dot11AuthAlgrthm (rp_rx s) =? dot11AuthAlgrthm_8021X then
    match rtw_get_stainfo (rm_ta f) with
    | None => Some (Some f, s)
    | Some psta =>
        st ← rx_stas (rp_rx s) !! psta;
        if ieee8021x_blocked st then
          ether_type ← RTW_GET_BE16 <$> rdn (rm_buf f) (rm_data f + rm_hdrlen f + rm_iv_len f + LLC_HEADER_SIZE) 2;
          if ether_type =? eapol_type then Some (Some f, s) else Some (None, free_recvframe s (rm_id f))
        else Some (Some f, s)
    end
  else Some (Some f, s).

(** ** Up to the network stack *)

(** [recv_process_mpdu], which also frees the frame. *)
Definition process_mpdu (s : recv_main) (f : rx_frame) : option (Z * recv_main) :=
  '(ret, pkts) ← recv_process_mpdu cannot_run (oks (rm_id f)) f;
  Some (ret, free_recvframe (s <| rp_up := rp_up s ++ pkts |>) (rm_id f)).

Definition mpdu_of (f : rx_frame) : rx_mpdu :=
  mk_rx_mpdu (rm_seq_num f) (negb (rm_qos f =? 0)) (bool_decide (is_Some (x_preorder (rm_ext f)))) (rm_id f).

(** Whether [recv_process_mpdu] succeeds on a frame of the window. *)
Definition mpdu_succeeds (heap : gmap Z rx_frame) (m : rx_mpdu) : bool :=
  match heap !! mp_id m with
  | Some f => match recv_process_mpdu cannot_run (oks (rm_id f)) f with Some (ret, _) => ret =? _SUCCESS | None => false end
  | None => false
  end.

(** The frames a window hands up, in order. *)
Fixpoint indicate_all (s : recv_main) (ms : list rx_mpdu) : option recv_main :=
  match ms with
  | [] => Some s
  | m :: ms =>
      f ← rp_heap s !! mp_id m;
      '(_, s) ← process_mpdu s f;
      indicate_all (s <| rp_heap := delete (mp_id m) (rp_heap s) |>) ms
  end.

(** What a window operation on block [k] leaves behind. *)
Definition after_window (s : recv_main) (k : Z * Z) (r : reorder_state) : option recv_main :=
  indicate_all (s <| rp_reorder := <[k := rs_ctrl r]> (rp_reorder s) |> <| rp_cnt := rs_cnt r |>
                  <| rp_rx := (rp_rx s) <| dbg_rx_drop_count := rx_drop_count (rs_cnt r) |> |>) (rs_indicated r).

Definition window_state (s : recv_main) (c : recv_reorder_ctrl) : reorder_state :=
  mk_reorder_state c ((rp_cnt s) <| rx_drop_count := dbg_rx_drop_count (rp_rx s) |>) [].

(** [recv_indicatepkt_reorder]; a frame that the window takes is its own. *)
Definition indicatepkt_reorder (s : recv_main) (f : rx_frame) : option (Z * recv_main) :=
  match x_preorder (rm_ext f) with
  | None => Some (_SUCCESS, s)
  | Some k =>
      c ← rp_reorder s !! k;
      let heap := <[rm_id f := f]> (rp_heap s) in
      let '(ret, r) := recv_indicatepkt_reorder (mpdu_succeeds heap) (window_state s c) (mpdu_of f) in
      s ← after_window (if ret =? RTW_RX_HANDLED then s <| rp_heap := heap |> else s) k r;
      Some (ret, s)
  end.

(** The timeout of the window [k]. *)
Definition reorder_timeout_handler (s : recv_main) (k : Z * Z) : option recv_main :=
  c ← rp_reorder s !! k;
  let r := rtw_reordering_ctrl_timeout_handler (mpdu_succeeds (rp_heap s)) cannot_run
             (cancel_reorder_timer (window_state s c)) in
  after_window s k r.

(** A frame that bypasses the window of its block: the window starts at the
    frame before the conversion and behind it afterwards. *)
Definition recv_set_iseq_before_mpdu_process (s : recv_main) (rframe : rx_frame) (seq_num : Z) : option recv_main :=
  match x_preorder (rm_ext rframe) with
  | None => Some s
  | Some k => c ← rp_reorder s !! k; Some (s <| rp_reorder := <[k := c <| indicate_seq := seq_num |>]> (rp_reorder s) |>)
  end.

Definition recv_set_iseq_after_mpdu_process (s : recv_main) (rframe : rx_frame) : option recv_main :=
  match x_preorder (rm_ext rframe) with
  | None => Some s
  | Some k =>
      c ← rp_reorder s !! k;
      Some (s <| rp_reorder := <[k := c <| indicate_seq := Z.rem (indicate_seq c + 1) 4096 |>]> (rp_reorder s) |>)
  end.

(** ** The handlers *)

Definition recv_func_posthandle (s : recv_main) (orig_prframe : rx_frame) : option (Z * recv_main) :=
  '(r, s) ← decryptor s orig_prframe;
  match r with
  | None => Some (_FAIL, rx_dropped s)
  | Some f =>
      '(r, s) ← chk_defrag s f;
      match r with
      | None => Some (_SUCCESS, rx_dropped s)
      | Some f =>
          '(r, s) ← portctrl s f;
          match r with
          | None => Some (_FAIL, rx_dropped s)
          | Some f =>
              rx ← count_rx_stats (rp_rx s) f (x_psta (rm_ext f));
              let s := s <| rp_rx := rx |> in
              '(ret, s) ← indicatepkt_reorder s f;
              if ret =? _FAIL then Some (ret, rx_dropped (free_recvframe s (rm_id orig_prframe)))
              else if ret =? RTW_RX_HANDLED then Some (ret, s)
              else
                s ← recv_set_iseq_before_mpdu_process s f (rm_seq_num orig_prframe);
                '(ret, s) ← process_mpdu s f;
                s ← recv_set_iseq_after_mpdu_process s f;
                Some (ret, if ret =? _FAIL then rx_dropped s else s)
          end
      end
  end.

Definition recv_func_prehandle (now : Z) (s : recv_main) (f : rx_frame) : option (Z * rx_frame * recv_main) :=
  '(ret, f, rx) ← validate_recv_frame rtw_get_stainfo now (rp_rx s) f;
  let s := s <| rp_rx := rx |> in
  Some (ret, f, if negb (ret =? _SUCCESS) then free_recvframe s (rm_id f) else s).

(** [while ((pending_frame = rtw_alloc_recvframe(uc_swdec_pending_queue)))] *)
Fixpoint drain_pending (n : nat) (s : recv_main) : option recv_main :=
  match n with
  | O => Some s
  | S n =>
      match rp_pending s with
      | [] => Some s
      | p :: q => '(_, s) ← recv_func_posthandle (s <| rp_pending := q |>) p; drain_pending n s
      end
  end.

(** No key yet for a frame that software must decrypt. *)
Definition must_wait (s : recv_main) (f : rx_frame) : bool :=
  check_fwstate (rp_rx s) WIFI_STATION_STATE && negb (IS_MCAST (rm_ra f)) && (0 <? rm_encrypt f)
  && ((rm_bdecrypted f =? 0) || (sw_decrypt s =? 1)) && (ndisauthtype s =? Ndis802_11AuthModeWPAPSK) && (busetkipkey s =? 0).

(** In monitor mode the frame goes to [recv_frame_monitor] of [Monitor]. *)
Definition recv_func (now : Z) (s : recv_main) (f : rx_frame) : option (Z * recv_main) :=
  if check_fwstate (rp_rx s) WIFI_MONITOR_STATE then Some (_SUCCESS, s <| rp_monitored := rp_monitored s ++ [f] |>)
  else
    s ← (if check_fwstate (rp_rx s) WIFI_STATION_STATE && negb (busetkipkey s =? 0)
         then drain_pending (length (rp_pending s)) s else Some s);
    '(ret, f, s) ← recv_func_prehandle now s f;
    if negb (ret =? _SUCCESS) then Some (ret, s)
    else if must_wait s f then
      let s := s <| rp_pending := rp_pending s ++ [f] |> in
      if rp_free_cnt s <? NR_RECVFRAME / 4 then
        match rp_pending s with
        | [] => Some (ret, s)
        | p :: q => recv_func_posthandle (s <| rp_pending := q |>) p
        end
      else Some (ret, s)
    else recv_func_posthandle s f.

Definition rtw_recv_entry (now : Z) (s : recv_main) (f : rx_frame) : option (Z * recv_main) :=
  '(ret, s) ← recv_func now s f;
  Some (ret, if ret =? _FAIL then s else s <| rp_pkts := u64 (rp_pkts s + 1) |>).
End recv.
