(* ===== verification/RecvDemo.v ===== *)
(** * A joined station, and frames for it

    The concrete state and frames at which the theorems on the receive path of
    the driver are tried. *)

From S2P Require Import Prelude Mem Arc4 SecDefs Wep FragSpec Michael Tkip Ccmp CcmpSpec Reorder RecvFrame Msdu RecvData RecvMain.
Definition demo_mac : list Z := [0x02; 0; 0; 0; 0; 1].
Definition demo_ap : list Z := [0x02; 0; 0; 0; 0; 2].
Definition demo_peer : list Z := [0x02; 0; 0; 0; 0; 3].
Definition demo_bcast : list Z := repeat 0xff 6.

(** [rtw_get_stainfo] of a station: the access point and the broadcast address. *)
Definition demo_find (addr : list Z) : option Z :=
  if _rtw_memcmp addr demo_ap then Some 1 else if _rtw_memcmp addr demo_bcast then Some 0 else None.

Definition demo_stats : stainfo_stats := mk_stats 0 0 0 0 0 0 (repeat 0 128) (repeat 0 16).

Definition demo_sta (privacy : Z) : rx_sta :=
  mk_rx_sta (repeat 0xffff 16) (repeat (repeat 0 8) 16) 0 0 privacy false demo_stats.

(** With AES for both keys, or with no security. *)
Definition demo_rx_state (aes : bool) : rx_state :=
  mk_rx_state (Z.lor WIFI_STATION_STATE WIFI_ASOC_STATE) demo_mac demo_ap
    (if aes then dot11AuthAlgrthm_8021X else dot11AuthAlgrthm_Open) 0 (if aes then _AES_ else 0)
    (repeat (repeat 0 8) 4) {[ 1 := demo_sta (if aes then _AES_ else 0); 0 := demo_sta 0 ]} 0 0 [] 0 0 0 0.

(** Priority 5 without, priority 6 with a block-ack session whose window starts
    at 100. *)
Definition demo_blocks : gmap (Z * Z) recv_reorder_ctrl :=
  {[ (1, 5) := mk_reorder_ctrl false 0xffff 64 [] false false; (1, 6) := mk_reorder_ctrl true 100 64 [] false false ]}.

Definition demo_main (aes : bool) : recv_main :=
  mk_recv_main (demo_rx_state aes) sec_priv (crc32_init (mk_crc_state 0 [])) (repeat 0 2048) ∅
    (mk_mic_keys [] 0 0 0 []) demo_blocks (mk_rx_counters 0 0 0 0 0 0) ∅ [] [] 0 [] [] 0 1 0 0 Ndis802_11AuthModeWPAPSK.

(** A frame as the hardware delivers it. *)
Definition air_frame (id encrypt : Z) (content : list Z) : rx_frame :=
  mk_rx_frame ([0; 0] ++ content ++ repeat 0 32) 2 (2 + mem_len content) (mem_len content) 0 0 0 0 0 0 encrypt 0 0 0 [] [] [] [] 0 0 0 0
    no_ext id.

(** Every packet gets a buffer of its own. *)
Definition demo_skbs : Z -> nat -> msdu_skb := fun _ _ => NewSkb (fun _ => 0).

(** The receive path at this station. *)
Definition demo_recv (s : recv_main) (f : rx_frame) : option (Z * recv_main) :=
  recv_func demo_find (fun _ => sec_key) (fun _ => []) 0 demo_skbs false 0 s f.
