(* ===== verification/RecvDataSpec.v ===== *)
(** * Validation of received data frames

    The packet number window of broadcast frames, retransmissions, and what a
    frame from the access point becomes. *)

From S2P Require Import Prelude Mem Arc4 SecDefs Wep Michael Ccmp RecvFrame RecvThms Msdu RecvData RecvMain RecvDemo.
(** ** Packet numbers of broadcast frames *)

(** The next packet number lies at most half the number space ahead. *)
Lemma PN_LESS_spec old new :
  in_width 48 old -> in_width 48 new -> PN_LESS_CHK old new = (1 <=? (new - old) mod 2 ^ 48) && ((new - old) mod 2 ^ 48 <=? 2 ^ 47).
Proof.
  unfold in_width. change (2 ^ 48) with 281474976710656. change (2 ^ 47) with 140737488355328. intros Ho Hn.
  unfold PN_LESS_CHK. change 0x800000000000 with (2 ^ 47). rewrite land_bit by lia.
  unfold wrap. rewrite Z.mod_pow2_bits_low, Z.testbit_odd, Z.shiftr_div_pow2 by lia. change (2 ^ 47) with 140737488355328.
  assert ((old - new) / 140737488355328 = -2 \/ (old - new) / 140737488355328 = -1 \/
          (old - new) / 140737488355328 = 0 \/ (old - new) / 140737488355328 = 1) as Hq.
  { pose proof (Z.div_le_lower_bound (old - new) 140737488355328 (-2) ltac:(lia) ltac:(lia)).
    pose proof (Z.div_lt_upper_bound (old - new) 140737488355328 2 ltac:(lia) ltac:(lia)). lia. }
  pose proof (Z.div_mod (old - new) 140737488355328 ltac:(lia)) as Hd.
  pose proof (Z.mod_pos_bound (old - new) 140737488355328 ltac:(lia)) as Hm.
  pose proof (Z.div_mod (new - old) 281474976710656 ltac:(lia)) as Hd2.
  pose proof (Z.mod_pos_bound (new - old) 281474976710656 ltac:(lia)) as Hm2.
  set (m := (new - old) mod 281474976710656) in *. set (q := (new - old) / 281474976710656) in *.
  assert (q = 0 \/ q = -1) as Hq2 by lia. clearbody m q.
  destruct Hq as [E|[E|[E|E]]]; rewrite E in *; cbn [Z.odd]; symmetry;
    [apply andb_false_iff; right; apply Z.leb_gt|apply andb_true_iff; split; apply Z.leb_le
    |destruct (Z.eqb_spec m 0); [apply andb_false_iff; left; apply Z.leb_gt|apply andb_false_iff; right; apply Z.leb_gt]
    |apply andb_true_iff; split; apply Z.leb_le]; destruct Hq2; subst q; lia.
Qed.

(** Key identifier and packet number of the eight bytes of a CCMP header. *)
Definition ccmp_keyid (hdr : list Z) : Z := CCMPH_2_KEYID (le_dec hdr).
Definition ccmp_pn (hdr : list Z) : Z := CCMPH_2_PN (le_dec hdr).


Lemma land_shiftl y m n : 0 <= n -> Z.land y (Z.shiftl m n) = Z.shiftl (Z.land (Z.shiftr y n) m) n.
Proof.
  intros Hn. apply Z.bits_inj'. intros k Hk. rewrite Z.land_spec. destruct (Z.ltb_spec k n).
  - rewrite !Z.shiftl_spec_low by done. apply andb_false_r.
  - rewrite !Z.shiftl_spec, Z.land_spec, Z.shiftr_spec by lia. by replace (k - n + n) with k by lia.
Qed.

(** The packet number leaves out the third and fourth byte; the key
    identifier is in the fourth. *)
Lemma ccmp_fields b0 b1 b2 b3 b4 b5 b6 b7 : let hdr := [b0; b1; b2; b3; b4; b5; b6; b7] in
  bytes hdr -> ccmp_pn hdr = le_dec [b0; b1; b4; b5; b6; b7] /\ ccmp_keyid hdr = b3 / 64.
Proof.
  cbv zeta. intros Hb. repeat (apply Forall_cons_1 in Hb as [? Hb]).
  assert (in_width 32 (le_dec [b4; b5; b6; b7])) as Hhi by (apply (le_dec_range [b4; b5; b6; b7]); by repeat apply Forall_cons_2).
  unfold ccmp_pn, ccmp_keyid, CCMPH_2_PN, CCMPH_2_KEYID.
  set (lo := b0 + 256 * b1). set (hi := le_dec [b4; b5; b6; b7]) in *.
  assert (le_dec [b0; b1; b2; b3; b4; b5; b6; b7] = lo + 2 ^ 16 * (b2 + 256 * b3) + 2 ^ 32 * hi) as -> by (subst lo hi; cbn [le_dec]; lia).
  assert (le_dec [b0; b1; b4; b5; b6; b7] = lo + 2 ^ 16 * hi) as -> by (subst lo hi; cbn [le_dec]; lia).
  clearbody hi. unfold in_width in *. change (2 ^ 8) with 256 in *. change (2 ^ 16) with 65536. change (2 ^ 32) with 4294967296 in *.
  change 0xffff with (Z.ones 16). change 0xffffffff00000000 with (Z.shiftl (Z.ones 32) 32). change 0xc0000000 with (Z.shiftl (Z.ones 2) 30).
  rewrite !land_shiftl, !Z.land_ones, !Z.shiftr_div_pow2, !Z.shiftl_mul_pow2 by lia.
  change (2 ^ 16) with 65536. change (2 ^ 32) with 4294967296. change (2 ^ 30) with 1073741824. change (2 ^ 2) with 4.
  set (x := lo + 65536 * (b2 + 256 * b3) + 4294967296 * hi).
  assert (x mod 65536 = lo) as -> by (symmetry; apply Z.mod_unique with (b2 + 256 * b3 + 65536 * hi); lia).
  assert (x / 4294967296 = hi) as -> by (symmetry; apply Z.div_unique with (lo + 65536 * (b2 + 256 * b3)); lia).
  rewrite (Z.mod_small hi) by lia. split.
  - rewrite Z.lor_comm. replace (hi * 4294967296 / 65536) with (Z.shiftl hi 16).
    + rewrite Z.lor_comm, lor_shiftl_add; [lia|lia|unfold in_width; change (2 ^ 16) with 65536; lia].
    + rewrite Z.shiftl_mul_pow2 by lia. change (2 ^ 16) with 65536. replace (hi * 4294967296) with (hi * 65536 * 65536) by lia.
      by rewrite Z.div_mul.
  - rewrite Z.div_mul by lia. pose proof (Z.div_mod b3 64 ltac:(lia)). pose proof (Z.mod_pos_bound b3 64 ltac:(lia)).
    assert (x / 1073741824 = b3 / 64 + 4 * hi) as ->.
    { symmetry. apply Z.div_unique with (lo + 65536 * (b2 + 256 * (b3 mod 64))); lia. }
    symmetry. apply Z.mod_unique with hi; [|lia]. assert (b3 / 64 < 4) by (apply Z.div_lt_upper_bound; lia).
    assert (0 <= b3 / 64) by (apply Z.div_pos; lia). lia.
Qed.

Lemma le_dec_6_width b0 b1 b2 b3 b4 b5 : bytes [b0; b1; b2; b3; b4; b5] -> in_width 48 (le_dec [b0; b1; b2; b3; b4; b5]).
Proof. apply le_dec_range. Qed.

Lemma ccmp_pn_width hdr : bytes hdr -> length hdr = 8%nat -> in_width 48 (ccmp_pn hdr).
Proof.
  intros Hb Hl. destruct hdr as [|b0 [|b1 [|b2 [|b3 [|b4 [|b5 [|b6 [|b7 [|? ?]]]]]]]]]; try done.
  rewrite (proj1 (ccmp_fields _ _ _ _ _ _ _ _ Hb)). apply le_dec_6_width.
  repeat (apply Forall_cons_1 in Hb as [? Hb]). by repeat apply Forall_cons_2.
Qed.

Lemma key_at_set {A} (l : list A) i x y : key_at l i = Some x -> key_at (arr_set l i y) i = Some y.
Proof.
  unfold key_at, arr_set. case_test; [|done]. intros Hl. apply list_lookup_insert_eq. by eapply lookup_lt_Some.
Qed.

Lemma bcast_pn_done s f hdr cached :
  rm_encrypt f = _AES_ -> check_fwstate s WIFI_STATION_STATE = true ->
  rdn (rm_buf f) (rm_data f + rm_hdrlen f) 8 = Some hdr -> bytes hdr -> key_at (iv_seq s) (ccmp_keyid hdr) = Some cached ->
  let c := le_dec cached mod 2 ^ 48 in
  recv_bcast_pn_decache s f =
    Some (if (c =? 0) || ((1 <=? (ccmp_pn hdr - c) mod 2 ^ 48) && ((ccmp_pn hdr - c) mod 2 ^ 48 <=? 2 ^ 47))
          then (_SUCCESS, s <| iv_seq := arr_set (iv_seq s) (ccmp_keyid hdr) (le_enc 8 (ccmp_pn hdr)) |>)
          else (_FAIL, s)).
Proof.
  intros He Hs Hr Hb Hk c. unfold recv_bcast_pn_decache. rewrite He, Hs, Hr. cbn [andb mbind option_bind Z.eqb].
  unfold _AES_. cbn [Z.eqb Pos.eqb andb mbind option_bind].
  fold (ccmp_keyid hdr). fold (ccmp_pn hdr). rewrite Hk. cbn [mbind option_bind].
  change 0x0000ffffffffffff with (Z.ones 48). rewrite Z.land_ones by lia. fold c.
  unfold VALID_PN_CHK. rewrite PN_LESS_spec.
  - destruct (_ || _); done.
  - subst c. apply Z.mod_pos_bound. lia.
  - apply ccmp_pn_width; [done|]. apply rdn_length in Hr. unfold mem_len in Hr. lia.
Qed.

(** In station mode an AES frame to a group is accepted exactly when its
    packet number is at most half the number space ahead of the last one of its
    key, or none was seen; then it becomes the last one, else nothing
    changes. *)
Theorem bcast_pn_exact s f hdr cached :
  rm_encrypt f = _AES_ -> check_fwstate s WIFI_STATION_STATE = true ->
  rdn (rm_buf f) (rm_data f + rm_hdrlen f) 8 = Some hdr -> bytes hdr -> key_at (iv_seq s) (ccmp_keyid hdr) = Some cached ->
  let c := le_dec cached mod 2 ^ 48 in
  exists ret s', recv_bcast_pn_decache s f = Some (ret, s') /\
    (ret = _SUCCESS <-> c = 0 \/ 1 <= (ccmp_pn hdr - c) mod 2 ^ 48 <= 2 ^ 47) /\
    (ret = _SUCCESS -> key_at (iv_seq s') (ccmp_keyid hdr) = Some (le_enc 8 (ccmp_pn hdr))) /\
    (ret <> _SUCCESS -> s' = s).
Proof.
  intros He Hs Hr Hb Hk c. rewrite (bcast_pn_done s f hdr cached) by done. fold c.
  set (ok := _ || _). assert (ok = true <-> c = 0 \/ 1 <= (ccmp_pn hdr - c) mod 2 ^ 48 <= 2 ^ 47) as Hok.
  { subst ok. rewrite orb_true_iff, andb_true_iff, Z.eqb_eq, !Z.leb_le. tauto. }
  destruct ok; eexists _, _; (split; [reflexivity|]); (split; [rewrite <- Hok; split; done|]); split; try done.
  intros _. by eapply key_at_set.
Qed.

(** ** Retransmissions *)

(** The parts of the state that say which network this is. *)
Definition same_net (s t : rx_state) : Prop :=
  fw_state s = fw_state t /\ myhwaddr s = myhwaddr t /\ mybssid s = mybssid t.

Section stations.
Context (rtw_get_stainfo : list Z -> option Z).

Lemma station_stable now now' s t f sub psta f' s' :
  data_frame_station rtw_get_stainfo now s f sub = Some (_SUCCESS, psta, f', s') -> same_net s t ->
  rx_stas s' = rx_stas s /\ same_net s' s /\ exists t', data_frame_station rtw_get_stainfo now' t f sub = Some (_SUCCESS, psta, f', t') /\
    rx_stas t' = rx_stas t /\ same_net t t'.
Proof.
  intros H (E1 & E2 & E3). unfold data_frame_station in *. destruct (_ || _); [|done].
  destruct (addr_at f 4) as [a1|]; [|done]. cbn [mbind option_bind] in *.
  destruct (addr_at f 10) as [a2|]; [|done]. cbn [mbind option_bind] in *.
  destruct (addr_at f 16) as [a3|]; [|done]. cbn [mbind option_bind] in *.
  destruct (x_to_fr_ds (rm_ext f) =? 0); [|destruct (x_to_fr_ds (rm_ext f) =? 1)].
  - unfold sta2sta_data_frame, foreign_bssid, check_fwstate in *. rewrite <- E1, <- E2, <- E3.
    destruct (if _ || _ then _ else _) as [ret p]. injection H as -> -> <- <-. split_and!; [done|done|].
    exists t. by split_and!.
  - unfold ap2sta_data_frame, foreign_bssid, check_fwstate in *. rewrite <- E1, <- E2, <- E3.
    repeat match type of H with
           | context [match (if ?b then _ else _) with _ => _ end] => destruct b; try done
           | context [mbind _ (if ?b then _ else _)] => destruct b; try done
           end.
    + destruct (rtw_get_stainfo _); [|done]. destruct (Z.testbit sub 6); [by destruct (count_rx_stats s _ _)|].
      injection H as <- <- <-. split_and!; [done|done|]. by eexists.
    + destruct (rtw_get_stainfo _); [done|]. by destruct (_ || _).
  - unfold sta2ap_data_frame, check_fwstate in *. rewrite <- E1, <- E2, <- E3. destruct (_ || _); [|by destruct (negb _)].
    destruct (negb _); [done|]. destruct (rtw_get_stainfo _); [|done].
    destruct (Z.testbit sub 6); [by destruct (count_rx_stats _ _ _)|].
    injection H as <- <- <-. destruct (_ =? WIFI_QOS_DATA_TYPE); (split_and!; [done|done|]); by eexists.
Qed.

(** What acceptance of a unicast frame leaves in the duplicate cache. *)
Definition seq_ctrl (f : rx_frame) : Z := u16 (Z.lor (Z.shiftl (Z.land (rm_seq_num f) 0xffff) 4) (Z.land (rm_frag_num f) 0xf)).

Lemma decache_done s psta f s' :
  recv_decache s psta f = Some (_SUCCESS, s') -> same_net s' s /\
  exists st, rx_stas s' !! psta = Some st /\ key_at (tid_rxseq st) (rm_priority f) = Some (seq_ctrl f) /\ (15 <? rm_priority f) = false.
Proof.
  unfold recv_decache. destruct (rx_stas s !! psta) as [st|] eqn:E; [|done]. cbn [mbind option_bind].
  destruct (15 <? rm_priority f) eqn:Ht; [done|]. destruct (key_at (tid_rxseq st) _) as [c|] eqn:Ek; [|done]. cbn [mbind option_bind].
  fold (seq_ctrl f). destruct (seq_ctrl f =? c); [done|]. intros [= <-]. split; [done|]. eexists. split_and!.
  - apply lookup_insert_eq.
  - by eapply key_at_set.
  - done.
Qed.

Lemma decache_dup s psta f st :
  rx_stas s !! psta = Some st -> key_at (tid_rxseq st) (rm_priority f) = Some (seq_ctrl f) -> (15 <? rm_priority f) = false ->
  recv_decache s psta f = Some (_FAIL, set_sta s psta (st <| duplicate_cnt := u32 (duplicate_cnt st + 1) |>)).
Proof.
  intros E Ek Ht. unfold recv_decache. rewrite E. cbn [mbind option_bind]. rewrite Ht, Ek. cbn [mbind option_bind].
  fold (seq_ctrl f). by rewrite Z.eqb_refl.
Qed.

Lemma ucast_pn_keeps s psta f ret s' st :
  recv_ucast_pn_decache s psta f = Some (ret, s') -> rx_stas s !! psta = Some st ->
  same_net s' s /\ exists st', rx_stas s' !! psta = Some st' /\ tid_rxseq st' = tid_rxseq st.
Proof.
  unfold recv_ucast_pn_decache. intros H E. rewrite E in H. cbn [mbind option_bind] in H.
  destruct (15 <? _); [injection H as <- <-; split; [done|by exists st]|].
  destruct (_ =? _AES_); [|injection H as <- <-; split; [done|by exists st]].
  destruct (rdn _ _ 8); [|done]. cbn [mbind option_bind] in H. destruct (key_at _ _); [|done]. cbn [mbind option_bind] in H.
  destruct (VALID_PN_CHK _ _); injection H as <- <-; (split; [done|]); [|by exists st].
  eexists. split; [apply lookup_insert_eq|done].
Qed.

Lemma parse_qc_stable s t f f' s' :
  parse_qc s f = Some (f', s') -> rx_stas s' = rx_stas s /\ same_net s' s /\
  exists t', parse_qc t f = Some (f', t') /\ rx_stas t' = rx_stas t.
Proof.
  unfold parse_qc. destruct (_ =? 1).
  - destruct (rd16 _ _); [|done]. cbn [mbind option_bind]. intros [= <- <-]. split_and!; [done|done|]. by eexists.
  - intros [= <- <-]. split_and!; [done|done|]. by eexists.
Qed.
End stations.

Section validate.
Context (rtw_get_stainfo : list Z -> option Z).

Lemma station_ret now s f sub ret psta g s' :
  data_frame_station rtw_get_stainfo now s f sub = Some (ret, psta, g, s') ->
  (ret =? _FAIL) || (ret =? RTW_RX_HANDLED) = false -> ret = _SUCCESS.
Proof.
  unfold data_frame_station, sta2sta_data_frame, ap2sta_data_frame, sta2ap_data_frame. intros H.
  repeat match type of H with
         | context [if ?b then _ else _] => destruct b
         | context [match rtw_get_stainfo ?a with _ => _ end] => destruct (rtw_get_stainfo a)
         | context [match mbind rtw_get_stainfo ?a with _ => _ end] => destruct (mbind rtw_get_stainfo a)
         | context [addr_at ?g ?o] => destruct (addr_at g o); cbn [mbind option_bind] in H
         | context [count_rx_stats ?a ?b ?c] => destruct (count_rx_stats a b c); cbn [mbind option_bind] in H
         end; try done; injection H as <- <- <- <-; done.
Qed.

Lemma security_ra s psta f g : data_frame_security s psta f = Some g -> rm_ra g = rm_ra f.
Proof.
  unfold data_frame_security. destruct (negb _); [|by intros [= <-]]. destruct (rx_stas s !! psta); [|done].
  cbn [mbind option_bind]. destruct (SET_ICE_IV_LEN _). by intros [= <-].
Qed.

Lemma decache_ret s psta f r s' : recv_decache s psta f = Some (r, s') -> r = _FAIL \/ r = _SUCCESS.
Proof.
  unfold recv_decache. destruct (rx_stas s !! psta); [|done]. cbn [mbind option_bind].
  destruct (15 <? _); [intros [= <- _]; by left|]. destruct (key_at _ _); [|done]. cbn [mbind option_bind].
  destruct (_ =? _); intros [= <- _]; [by left|by right].
Qed.

(** After the acceptance of a unicast frame its number is the cached one. *)
Lemma frame_decache_done s psta f ret g s' :
  data_frame_decache s psta f = Some (ret, g, s') -> (ret =? _FAIL) = false -> IS_MCAST (rm_ra f) = false ->
  exists st, rx_stas s' !! psta = Some st /\ key_at (tid_rxseq st) (rm_priority f) = Some (seq_ctrl f) /\
    (15 <? rm_priority f) = false.
Proof.
  unfold data_frame_decache. intros H Hr Hm. rewrite Hm in H. cbn [negb] in H. set (f1 := f <| rm_ext := _ |>) in *.
  destruct (recv_decache s psta f1) as [[r1 s1]|] eqn:E1; [|done]. cbn [mbind option_bind] in H.
  destruct (Z.eqb_spec r1 _FAIL) as [|Hr1]; [by injection H as <- <- <-|].
  destruct (recv_ucast_pn_decache s1 psta f1) as [[r2 s2]|] eqn:E2; [|done]. injection H as -> <- ->.
  destruct (decache_ret _ _ _ _ _ E1) as [->| ->]; [done|].
  destruct (decache_done _ _ _ _ E1) as (_ & st & Hst & Hk & Ht).
  destruct (ucast_pn_keeps _ _ _ _ _ _ E2 Hst) as (_ & st' & Hst' & Eq). exists st'. rewrite Eq. done.
Qed.

Lemma frame_decache_dup s psta f st :
  rx_stas s !! psta = Some st -> key_at (tid_rxseq st) (rm_priority f) = Some (seq_ctrl f) -> (15 <? rm_priority f) = false ->
  IS_MCAST (rm_ra f) = false -> exists g s', data_frame_decache s psta f = Some (_FAIL, g, s').
Proof.
  intros Hst Hk Ht Hm. unfold data_frame_decache. rewrite Hm. cbn [negb].
  rewrite (decache_dup s psta _ st) by done. cbn [mbind option_bind]. by eexists _, _.
Qed.

Lemma decache_ra s psta f ret g s' : data_frame_decache s psta f = Some (ret, g, s') -> rm_ra g = rm_ra f.
Proof.
  unfold data_frame_decache. intros H. destruct (negb _).
  - destruct (recv_decache _ _ _) as [[r1 s1]|]; [|done]. cbn [mbind option_bind] in H.
    destruct (r1 =? _FAIL); [by injection H as <- <- <-|].
    destruct (recv_ucast_pn_decache _ _ _) as [[r2 s2]|]; [|done]. by injection H as <- <- <-.
  - destruct (recv_bcast_pn_decache _ _) as [[r1 s1]|]; [|done]. cbn [mbind option_bind] in H.
    destruct (r1 =? _FAIL); by injection H as <- <- <-.
Qed.

(** A frame whose sequence number is the cached one is refused. *)
Lemma data_frame_dup now now' s f sub f1 s1 t :
  validate_recv_data_frame rtw_get_stainfo now s f sub = Some (_SUCCESS, f1, s1) -> IS_MCAST (rm_ra f1) = false ->
  rx_stas t = rx_stas s1 -> same_net s t -> exists f2 s2,
    validate_recv_data_frame rtw_get_stainfo now' t f sub = Some (_FAIL, f2, s2).
Proof.
  unfold validate_recv_data_frame. intros H Hm Ht Hn.
  destruct (data_frame_station _ now s f sub) as [[[[ret psta] g] sa]|] eqn:Es; [|done]. cbn [mbind option_bind] in H.
  destruct (_ || _) eqn:Er; [by injection H as -> <- <-|].
  rewrite (station_ret _ _ _ _ _ _ _ _ Es Er) in Es. destruct psta as [psta|]; [|done].
  destruct (station_stable _ now now' s t f sub (Some psta) g sa Es Hn) as (E1 & N1 & t1 & -> & E2 & N2).
  cbn [mbind option_bind]. change ((_SUCCESS =? _FAIL) || (_SUCCESS =? RTW_RX_HANDLED)) with false. cbn beta iota.
  set (g1 := g <| rm_ext := _ |>) in *. destruct (parse_qc sa g1) as [[g2 sb]|] eqn:Ep; [|done]. cbn [mbind option_bind] in H.
  destruct (parse_qc_stable sa t1 g1 g2 sb Ep) as (E3 & N3 & t2 & -> & E4). cbn [mbind option_bind].
  destruct (data_frame_decache sb psta g2) as [[[ret2 g3] sc]|] eqn:Ed; [|done]. cbn [mbind option_bind] in H.
  destruct (ret2 =? _FAIL) eqn:Ef; [done|].
  destruct (data_frame_security sc psta g3) as [g4|] eqn:E4s; [|done]. injection H as <- <-.
  assert (IS_MCAST (rm_ra g2) = false) as Hm2 by (by rewrite <- (decache_ra _ _ _ _ _ _ Ed), <- (security_ra _ _ _ _ E4s)).
  destruct (frame_decache_done _ _ _ _ _ _ Ed Ef Hm2) as (st & Hst & Hk & Hp).
  destruct (frame_decache_dup t2 psta g2 st) as (g5 & s5 & ->); [by rewrite E4, E2, Ht|done..|].
  cbn [mbind option_bind]. by eexists _, _.
Qed.

(** C32. A retransmission is dropped: once a unicast frame was accepted, the
    same frame is refused as long as its station's duplicate cache and the
    network stay as they are, whatever else happens and whenever it comes. *)
Theorem retransmission_dropped now now' s f f1 s1 t :
  validate_recv_frame rtw_get_stainfo now s f = Some (_SUCCESS, f1, s1) -> IS_MCAST (rm_ra f1) = false ->
  rx_stas t = rx_stas s1 -> same_net s t -> exists f2 s2,
    validate_recv_frame rtw_get_stainfo now' t f = Some (_FAIL, f2, s2).
Proof.
  unfold validate_recv_frame. intros H Hm Ht Hn. destruct (rd8 _ _) as [b|]; [|done]. cbn [mbind option_bind] in *.
  destruct (negb _); [done|]. destruct (rd16 f 0) as [fc|]; [|done]. cbn [mbind option_bind] in *.
  destruct (rd16 f 22) as [sc|]; [|done]. cbn [mbind option_bind] in *. cbv zeta in *. set (g := f <| rm_frag_num := _ |> <| rm_seq_num := _ |> <| rm_mfrag := _ |> <| rm_privacy := _ |> <| rm_ext := _ |>) in *.
  destruct (_ =? WIFI_DATA_TYPE); [|done]. set (g1 := g <| rm_qos := _ |>) in *.
  destruct (validate_recv_data_frame _ now s _ _) as [[[ret g2] s2]|] eqn:E; [|done]. cbn [mbind option_bind] in H.
  injection H as -> <- Hs. change (_SUCCESS =? _FAIL) with false in Hs. cbn beta iota in Hs. subst s2.
  destruct (data_frame_dup now now' s _ _ _ _ t E Hm Ht Hn) as (f2 & s2 & ->). cbn [mbind option_bind]. by eexists _, _.
Qed.
End validate.

(** ** At concrete frames *)

Definition demo_group : rx_frame := air_frame 3 _AES_ [7; 0; 0; 0x60; 1; 0; 0; 0; 9; 9].

Lemma bcast_pn_exact_witness :
  exists ret s', recv_bcast_pn_decache (demo_rx_state true) demo_group = Some (ret, s') /\
    (ret = _SUCCESS <-> 0 = 0 \/ 1 <= (65543 - 0) mod 2 ^ 48 <= 2 ^ 47) /\
    (ret = _SUCCESS -> key_at (iv_seq s') 1 = Some (le_enc 8 65543)) /\ (ret <> _SUCCESS -> s' = demo_rx_state true).
Proof.
  apply (bcast_pn_exact (demo_rx_state true) demo_group [7; 0; 0; 0x60; 1; 0; 0; 0] (repeat 0 8)); [done..| |done].
  repeat constructor; vm_compute; congruence.
Defined.

(** An unprotected data frame from the access point. *)
Definition demo_open : rx_frame :=
  air_frame 4 0 ([0x88; 2; 0; 0] ++ demo_mac ++ demo_ap ++ demo_peer ++ le_enc 2 80 ++ le_enc 2 5 ++ [1; 2; 3]).

Definition demo_validated : Z * rx_frame * rx_state :=
  default (_FAIL, demo_open, demo_rx_state false) (validate_recv_frame demo_find 0 (demo_rx_state false) demo_open).

Lemma retransmission_dropped_witness :
  exists f2 s2, validate_recv_frame demo_find 99 demo_validated.2 demo_open = Some (_FAIL, f2, s2).
Proof.
  apply (retransmission_dropped demo_find 0 99 (demo_rx_state false) demo_open demo_validated.1.2 demo_validated.2);
    [by vm_compute|by vm_compute|done|].
  by vm_compute.
Defined.
