(* ===== verification/RecvMainSpec.v ===== *)
(** * Every receive frame is in one place

    Frames are neither lost nor duplicated on the receive path, except for one
    error: when the reorder window refuses a reassembled frame, the last
    fragment is freed a second time instead of it.  [recv_lost] computes exactly
    the frames lost that way. *)

From S2P Require Import Prelude Mem Arc4 SecDefs Wep Michael Tkip Ccmp Reorder RecvFrame RecvThms Msdu RecvData RecvMain RecvDemo.
(** ** How often a frame occurs *)

Definition occ (x : Z) (l : list Z) : nat := count_occ Z.eq_dec l x.

#[local] Arguments occ : simpl never.

Lemma occ_app x a b : occ x (a ++ b) = (occ x a + occ x b)%nat.
Proof. apply count_occ_app. Qed.

Lemma occ_nil x : occ x [] = 0%nat.
Proof. done. Qed.

Lemma occ_cons x y l : occ x (y :: l) = ((if Z.eq_dec y x then 1 else 0) + occ x l)%nat.
Proof. unfold occ. cbn. by destruct (Z.eq_dec y x). Qed.

Lemma occ_perm a b : a ≡ₚ b <-> forall x, occ x a = occ x b.
Proof. apply Permutation_count_occ. Qed.

Lemma occ_filter x y l : occ x (List.filter (fun i => negb (i =? y)) l) = if Z.eq_dec y x then 0%nat else occ x l.
Proof.
  induction l as [|i l IH]; cbn [List.filter]; [by destruct (Z.eq_dec y x)|].
  destruct (Z.eqb_spec i y) as [->|Hne]; cbn [negb]; rewrite ?occ_cons, ?IH; repeat destruct (Z.eq_dec _ _); lia.
Qed.

Lemma occ_in x l : (0 < occ x l)%nat <-> In x l.
Proof. unfold occ. rewrite (count_occ_In Z.eq_dec). lia. Qed.

Lemma filter_length_occ (y : Z) (l : list Z) : (length (List.filter (fun i => negb (i =? y)%Z) l) + occ y l = length l)%nat.
Proof.
  induction l as [|i l IH]; cbn [List.filter length]; [done|]. rewrite occ_cons. destruct (Z.eqb_spec i y) as [->|Hne]; cbn [negb length];
    repeat destruct (Z.eq_dec _ _); try lia; done.
Qed.

(** ** Where the frames are *)

Definition queued (m : gmap Z (list rx_frame)) : list Z := flat_map (fun p => ids p.2) (map_to_list m).
Definition kept (heap : gmap Z rx_frame) : list Z := (map_to_list heap).*1.

Definition elsewhere (s : recv_main) : list Z :=
  ids (rp_pending s) ++ queued (rp_queues s) ++ kept (rp_heap s) ++ ids (rp_monitored s).

Definition held (s : recv_main) : list Z := rp_free s ++ elsewhere s.

(** How far [free_recvframe_cnt] is ahead of the free queue. *)
Definition slack (s : recv_main) : Z := u32 (rp_free_cnt s - Z.of_nat (length (rp_free s))).

(** No frame is in two places or also among [hand]. *)
Record pool_ok (s : recv_main) (hand : list Z) : Prop := {
  po_once : forall x, (occ x (held s) + occ x hand <= 1)%nat;
  po_heap : forall i f, rp_heap s !! i = Some f -> rm_id f = i }.

(** From [s] with the frames of [l] at hand to [s'] with those of [l']. *)
Definition moves (s : recv_main) (l : list Z) (s' : recv_main) (l' : list Z) : Prop :=
  pool_ok s l -> (forall x, (occ x (held s') + occ x l' = occ x (held s) + occ x l)%nat) /\
    slack s' = slack s /\ rp_pending s' = rp_pending s /\ pool_ok s' l'.

Lemma moves_trans s l t k u m : moves s l t k -> moves t k u m -> moves s l u m.
Proof.
  intros H1 H2 Hs. destruct (H1 Hs) as (E1 & S1 & Q1 & P1). destruct (H2 P1) as (E2 & S2 & Q2 & P2).
  split_and!; [|congruence|congruence|done]. intros x. rewrite E2. apply E1.
Qed.

(** Steps that leave the places alone. *)
Lemma moves_same s l s' :
  held s' = held s -> rp_free_cnt s' = rp_free_cnt s -> rp_free s' = rp_free s -> rp_heap s' = rp_heap s ->
  rp_pending s' = rp_pending s -> moves s l s' l.
Proof.
  intros E1 E2 E3 E4 E5 [Ho Hh]. unfold slack. rewrite E1, E2, E3. split_and!; [done|done|done|]. split; [by rewrite E1|by rewrite E4].
Qed.

Lemma occ_free x s id : In x (rp_free (free_recvframe s id)) <-> x = id \/ In x (rp_free s).
Proof.
  rewrite <- !occ_in. change (rp_free (free_recvframe s id)) with (List.filter (fun i => negb (i =? id)) (rp_free s) ++ [id]).
  rewrite occ_app, occ_filter, occ_cons, occ_nil. destruct (Z.eq_dec id x) as [->|]; [split; [by left|lia]|].
  split; [right; lia|intros [->|]; [done|lia]].
Qed.

Lemma held_free x s id : occ x (held (free_recvframe s id)) =
  if Z.eq_dec id x then S (occ x (elsewhere s)) else occ x (held s).
Proof.
  unfold held. change (elsewhere (free_recvframe s id)) with (elsewhere s).
  change (rp_free (free_recvframe s id)) with (List.filter (fun i => negb (i =? id)) (rp_free s) ++ [id]).
  rewrite !occ_app, occ_filter, occ_cons, occ_nil. destruct (Z.eq_dec id x); lia.
Qed.

Lemma slack_free s id : slack (free_recvframe s id) = u32 (slack s + Z.of_nat (occ id (rp_free s))).
Proof.
  unfold slack. change (rp_free (free_recvframe s id)) with (List.filter (fun i => negb (i =? id)) (rp_free s) ++ [id]).
  change (rp_free_cnt (free_recvframe s id)) with (u32 (rp_free_cnt s + 1)). rewrite length_app. cbn [length].
  pose proof (filter_length_occ id (rp_free s)). unfold wrap. rewrite Zminus_mod_idemp_l, Zplus_mod_idemp_l. f_equal. lia.
Qed.

Lemma moves_free s id l : moves s (id :: l) (free_recvframe s id) l.
Proof.
  intros [Ho Hh]. pose proof (Ho id) as H1. rewrite occ_cons in H1. destruct (Z.eq_dec id id); [|done].
  unfold held in H1. rewrite occ_app in H1.
  assert (forall x, (occ x (held (free_recvframe s id)) + occ x l = occ x (held s) + occ x (id :: l))%nat) as E.
  { intros x. rewrite held_free, occ_cons. destruct (Z.eq_dec id x) as [<-|]; [|lia]. unfold held. rewrite occ_app. lia. }
  split_and!; [done| |done|split; [intros x; rewrite E; apply Ho|done]].
  rewrite slack_free. replace (occ id (rp_free s)) with 0%nat by lia. rewrite Z.add_0_r. apply wrap_wrap. lia.
Qed.

Lemma moves_free_all l : forall s k, moves s (l ++ k) (foldl free_recvframe s l) k.
Proof.
  induction l as [|i l IH]; intros s k; cbn; [by apply moves_same|].
  eapply moves_trans; [apply moves_free|apply IH].
Qed.

(** Freeing a frame that is free already: nothing moves, but it is counted. *)
Lemma free_again s id :
  In id (rp_free s) -> pool_ok s [] ->
  (forall x, occ x (held (free_recvframe s id)) = occ x (held s)) /\ slack (free_recvframe s id) = u32 (slack s + 1) /\
  rp_pending (free_recvframe s id) = rp_pending s /\ pool_ok (free_recvframe s id) [].
Proof.
  intros Hin [Ho Hh]. apply occ_in in Hin. pose proof (Ho id) as H1. rewrite occ_nil in H1. unfold held in H1. rewrite occ_app in H1.
  assert (forall x, occ x (held (free_recvframe s id)) = occ x (held s)) as E.
  { intros x. rewrite held_free. destruct (Z.eq_dec id x) as [<-|]; [|done]. unfold held. rewrite occ_app. lia. }
  split_and!; [done| |done|split; [intros x; rewrite E; apply Ho|done]].
  rewrite slack_free. by replace (occ id (rp_free s)) with 1%nat by lia.
Qed.

(** ** The fragments waiting *)

Lemma queued_insert m i q : m !! i = None -> queued (<[i := q]> m) ≡ₚ ids q ++ queued m.
Proof. intros Hi. unfold queued. rewrite map_to_list_insert by done. done. Qed.

Lemma queued_delete m i : queued m ≡ₚ ids (default [] (m !! i)) ++ queued (delete i m).
Proof.
  destruct (m !! i) as [q|] eqn:E; cbn.
  - rewrite <- queued_insert by apply lookup_delete_eq. by rewrite insert_delete_id.
  - by rewrite delete_id.
Qed.

Lemma queued_ext m1 : forall m2, (forall t, default [] (m1 !! t) = default [] (m2 !! t)) -> queued m1 ≡ₚ queued m2.
Proof.
  induction m1 as [|i q m1 Hi IH] using map_ind; intros m2 H.
  - symmetry. revert H. induction m2 as [|j p m2 Hj IH2] using map_ind; intros H; [done|].
    rewrite queued_insert by done. pose proof (H j) as Hp. rewrite lookup_insert_eq, lookup_empty in Hp. cbn in Hp. subst p.
    apply IH2. intros t. rewrite H. destruct (decide (t = j)) as [->|]; [by rewrite lookup_insert_eq, Hj|by rewrite lookup_insert_ne].
  - rewrite queued_insert by done. rewrite (queued_delete m2 i). rewrite (IH (delete i m2)).
    + by rewrite <- H, lookup_insert_eq.
    + intros t. destruct (decide (t = i)) as [->|]; [by rewrite Hi, lookup_delete_eq|].
      rewrite lookup_delete_ne by done. by rewrite <- H, lookup_insert_ne.
Qed.

Lemma queued_change m1 m2 i :
  (forall t, t <> i -> default [] (m1 !! t) = default [] (m2 !! t)) ->
  forall x, (occ x (queued m1) + occ x (ids (default [] (m2 !! i))) = occ x (queued m2) + occ x (ids (default [] (m1 !! i))))%nat.
Proof.
  intros H x. assert (queued (delete i m1) ≡ₚ queued (delete i m2)) as E.
  { apply queued_ext. intros t. destruct (decide (t = i)) as [->|]; [by rewrite !lookup_delete_eq|].
    rewrite !lookup_delete_ne by done. by apply H. }
  pose proof (proj1 (occ_perm _ _) (queued_delete m1 i) x) as E1. pose proof (proj1 (occ_perm _ _) (queued_delete m2 i) x) as E2.
  pose proof (proj1 (occ_perm _ _) E x) as E3. rewrite occ_app in E1, E2. lia.
Qed.

Lemma kept_insert heap i f : heap !! i = None -> forall x, occ x (kept (<[i := f]> heap)) = (occ x [i] + occ x (kept heap))%nat.
Proof.
  intros Hi x. unfold kept. rewrite <- occ_app. apply occ_perm. rewrite map_to_list_insert by done. done.
Qed.

Lemma kept_delete heap i f : heap !! i = Some f -> forall x, (occ x (kept (delete i heap)) + occ x [i] = occ x (kept heap))%nat.
Proof.
  intros Hi x. rewrite <- (insert_delete_id heap i f) at 2 by done. rewrite kept_insert by apply lookup_delete_eq. lia.
Qed.

Lemma kept_in heap i : In i (kept heap) <-> is_Some (heap !! i).
Proof.
  unfold kept. rewrite <- list_elem_of_In, list_elem_of_fmap. split.
  - intros ([j f] & -> & H%elem_of_map_to_list). by exists f.
  - intros [f H%elem_of_map_to_list]. by exists (i, f).
Qed.

(** ** The stages *)

Section stages.
Context (rtw_get_stainfo : list Z -> option Z) (x_UncstKey dot11tkiprxmickey : Z -> list Z) (bcmc : Z).
Context (oks : Z -> nat -> msdu_skb) (cannot_run : bool).

Abbreviation decryptor := (decryptor rtw_get_stainfo x_UncstKey).
Abbreviation chk_defrag := (chk_defrag rtw_get_stainfo dot11tkiprxmickey bcmc).

(** What identifies a frame to the later stages. *)
Definition same_frame (f g : rx_frame) : Prop :=
  rm_id g = rm_id f /\ rm_mfrag g = rm_mfrag f /\ rm_frag_num g = rm_frag_num f /\ rm_ext g = rm_ext f /\ rm_qos g = rm_qos f /\
  rm_seq_num g = rm_seq_num f.

(** The places and the free queue are the same. *)
Definition same_pool (s t : recv_main) : Prop :=
  rp_free t = rp_free s /\ rp_free_cnt t = rp_free_cnt s /\ rp_pending t = rp_pending s /\ rp_queues t = rp_queues s /\
  rp_heap t = rp_heap s /\ rp_monitored t = rp_monitored s.

Lemma same_pool_moves s t l : same_pool s t -> moves s l t l.
Proof. intros (E1 & E2 & E3 & E4 & E5 & E6). apply moves_same; [unfold held, elsewhere; congruence|done..]. Qed.

Lemma sw_decryptor_same s f res g s' :
  sw_decryptor rtw_get_stainfo x_UncstKey s f = Some (res, g, s') -> same_frame f g /\ same_pool s s'.
Proof.
  unfold sw_decryptor. destruct (is_wep _); [|destruct (_ =? _TKIP_); [|destruct (_ =? _AES_)]].
  - destruct (rtw_wep_decrypt _ _ _) as [[c r]|]; [|done]. by intros [= <- <- <-].
  - destruct (rtw_tkip_decrypt _ _ _ _) as [[[? c] r]|]; [|done]. by intros [= <- <- <-].
  - destruct (rtw_aes_decrypt _ _ _ _) as [[[? c] r]|]; [|done]. by intros [= <- <- <-].
  - by intros [= <- <- <-].
Qed.

Lemma decryptor_moves s f r s' :
  decryptor s f = Some (r, s') -> moves s [rm_id f] s' (ids (option_list r)) /\ (forall g, r = Some g -> same_frame f g).
Proof.
  unfold RecvMain.decryptor. destruct (set_key_index _ f) as [f1|] eqn:Ek; [|done]. cbn [mbind option_bind].
  assert (same_frame f f1) as (E1 & E2 & E3 & E4 & E5 & E6).
  { unfold set_key_index in Ek. destruct (0 <? _); [|by injection Ek as <-]. destruct (rd8 _ _); [|done]. by injection Ek as <-. }
  set (d := if _ && _ then _ else _). assert (forall res g t, d = Some (res, g, t) -> same_frame f1 g /\ same_pool s t) as Hd.
  { intros res g t. subst d. destruct (_ && _).
    - intros H. destruct (sw_decryptor_same _ _ _ _ _ H) as [? ?]. done.
    - destruct (_ && _); by intros [= <- <- <-]. }
  destruct d as [[[res g] t]|]; [|done]. cbn [mbind option_bind].
  destruct (Hd _ _ _ eq_refl) as ((F1 & F2 & F3 & F4 & F5 & F6) & Hp).
  destruct (res =? _FAIL); intros [= <- <-].
  - split; [|done]. eapply moves_trans; [by apply same_pool_moves|]. cbn. rewrite F1, E1. apply moves_free.
  - split; [cbn; rewrite F1, E1; by apply same_pool_moves|]. intros ? [= <-]. unfold same_frame. cbn. by rewrite F1, F2, F3, F4, F5, F6.
Qed.

Lemma free_all_same l : forall s, rp_pending (foldl free_recvframe s l) = rp_pending s /\ rp_queues (foldl free_recvframe s l) = rp_queues s /\
  rp_heap (foldl free_recvframe s l) = rp_heap s.
Proof. induction l as [|i l IH]; intros s; [done|]. cbn. destruct (IH (free_recvframe s i)) as (-> & -> & ->). done. Qed.

Lemma free_all_in l : forall s i, In i l \/ In i (rp_free s) -> In i (rp_free (foldl free_recvframe s l)).
Proof.
  induction l as [|j l IH]; intros s i Hi; cbn; [by destruct Hi|].
  apply IH. rewrite occ_free. destruct Hi as [[->|]|]; tauto.
Qed.

(** Reassembly hands on the frame itself, or its first fragment; then the
    frame was the last fragment and is freed. *)
Lemma defrag_last q f r freed :
  recvframe_defrag (q ++ [f]) = Some (r, freed) -> rm_frag_num f <> 0 -> forall g, r = Some g -> In (rm_id f) (ids freed).
Proof.
  unfold recvframe_defrag. destruct q as [|h q]; cbn [app]; intros H Hf g ->.
  - destruct (Z.eqb_spec 0 (rm_frag_num f)); [lia|]. by injection H.
  - destruct (negb _); [done|]. destruct (defrag_loop _ _ _) as [[pr|]|]; [|done|done]. cbn [mbind option_bind] in H.
    injection H as <- <-. unfold ids. rewrite fmap_app. apply in_app_iff. right. by left.
Qed.

Lemma chk_defrag_hand s f r s' :
  chk_defrag s f = Some (r, s') -> forall g, r = Some g ->
  same_frame f g /\ rm_frag_num f = 0 \/ rm_mfrag f = 0 /\ rm_frag_num f <> 0 /\ In (rm_id f) (rp_free s').
Proof.
  unfold RecvMain.chk_defrag, recvframe_chk_defrag, chk_defrag_queue. intros H g ->.
  set (d := mk_defrag_state _ _ _) in *.
  assert (forall k h res k' h1, recvframe_chkmic rtw_get_stainfo dot11tkiprxmickey k h = Some (res, k', h1) -> same_frame h h1) as Hmic.
  { intros k h res k' h1. unfold recvframe_chkmic. assert (forall n, same_frame h (recvframe_pull_tail h n)) as Hp
      by (intros n; unfold recvframe_pull_tail, same_frame; by destruct (_ <? _)).
    destruct (_ =? _TKIP_); [|by intros [= _ _ <-]]. destruct (rtw_get_stainfo _); [|intros [= _ _ <-]; apply Hp].
    destruct (_ && _); [by intros [= _ _ <-]|]. destruct (if IS_MCAST _ then _ else _); [|done]. cbn [mbind option_bind].
    destruct (rtw_seccalctkipmic _ _ _ _ _); [|done]. cbn [mbind option_bind]. destruct (rdn _ _ 8); [|done].
    cbn [mbind option_bind]. intros [= _ _ <-]. apply Hp. }
  destruct (rm_mfrag f =? 1); [by destruct (defrag_sta _ _ _); repeat case_match|].
  destruct (Z.eqb_spec (rm_mfrag f) 0) as [Hm|]; cbn [negb] in H; [|done].
  destruct (Z.eqb_spec (rm_frag_num f) 0) as [Hn|Hn].
  - left. split; [|done]. cbn [mbind option_bind] in H. destruct (rm_privacy f =? 0); [by injection H as <- <-|].
    destruct (recvframe_chkmic _ _ _ f) as [[[res k] h]|] eqn:Em; [|done]. cbn [mbind option_bind] in H.
    destruct (res =? _FAIL); [done|]. injection H as <- <-. by eapply Hmic.
  - right. split_and!; [done|done|]. destruct (defrag_sta _ _ f) as [sta|]; [|done].
    destruct (recvframe_defrag _) as [[r freed]|] eqn:Ed; [|done]. cbn [mbind option_bind] in H.
    destruct r as [h|]; [|done]. pose proof (defrag_last _ _ _ _ Ed Hn h eq_refl) as Hin.
    destruct (rm_privacy h =? 0).
    + cbn [mbind option_bind] in H. injection H as _ <-. apply free_all_in. by left.
    + destruct (recvframe_chkmic _ _ _ h) as [[[res k] h1]|]; [|done]. cbn [mbind option_bind] in H.
      destruct (res =? _FAIL); [done|]. cbn [mbind option_bind] in H. injection H as _ <-. apply free_all_in. by left.
Qed.

Lemma chk_defrag_moves s f r s' :
  rm_mfrag f = 0 \/ rm_mfrag f = 1 -> chk_defrag s f = Some (r, s') -> moves s [rm_id f] s' (ids (option_list r)).
Proof.
  intros Hm. unfold RecvMain.chk_defrag. set (d0 := mk_defrag_state _ _ _).
  destruct (recvframe_chk_defrag _ _ _ d0 f) as [[r1 d]|] eqn:E; [|done]. cbn [mbind option_bind]. intros [= <- <-].
  assert (exists sta, (forall t, t <> sta -> default [] (ds_queues d !! t) = default [] (rp_queues s !! t)) /\
    ids (option_list r1) ++ ids (default [] (ds_queues d !! sta)) ++ ids (ds_freed d) ≡ₚ
    rm_id f :: ids (default [] (rp_queues s !! sta)) ++ []) as (sta & Ho & Hp).
  { unfold recvframe_chk_defrag in E. destruct (chk_defrag_queue _ _ d0 f) as [[r2 d1]|] eqn:Eq; [|done].
    destruct (queue_conserves _ _ _ _ _ _ Hm Eq) as (sta & Ho & Hp). cbn [mbind option_bind] in E. exists sta.
    destruct r2 as [h|]; [|injection E as <- <-; by split].
    destruct (rm_privacy h =? 0); [injection E as <- <-; by split|].
    destruct (recvframe_chkmic _ _ _ h) as [[[res k] h1]|] eqn:Em; [|done]. cbn [mbind option_bind] in E.
    pose proof (chkmic_id _ _ _ _ _ _ _ Em) as Hid. destruct (res =? _FAIL); injection E as <- <-; (split; [exact Ho|]); cbn in *.
    - unfold ids in *. rewrite fmap_app. cbn. rewrite Hid, app_assoc, <- Permutation_cons_append. exact Hp.
    - rewrite Hid. exact Hp. }
  pose proof (queued_change _ _ sta Ho) as Hq. rewrite app_nil_r, occ_perm in Hp.
  set (s1 := s <| rp_queues := _ |> <| rp_keys := _ |>).
  apply (moves_trans _ _ s1 (ids (ds_freed d) ++ ids (option_list r1))); [|apply moves_free_all].
  intros [Hon Hh].
  assert (forall x, (occ x (held s1) + occ x (ids (ds_freed d) ++ ids (option_list r1)) = occ x (held s) + occ x [rm_id f])%nat) as Hx.
  { intros x. specialize (Hp x). specialize (Hq x). rewrite !occ_app, occ_cons in Hp. unfold held.
    change (elsewhere s1) with (ids (rp_pending s) ++ queued (ds_queues d) ++ kept (rp_heap s) ++ ids (rp_monitored s)).
    change (rp_free s1) with (rp_free s). unfold elsewhere. rewrite !occ_app, occ_cons, occ_nil. lia. }
  split_and!; [done|done|done|]. split; [|done]. intros x. rewrite Hx. apply Hon.
Qed.

Lemma portctrl_moves s f r s' :
  portctrl rtw_get_stainfo s f = Some (r, s') ->
  moves s [rm_id f] s' (ids (option_list r)) /\ (forall g, r = Some g -> g = f /\ s' = s).
Proof.
  unfold portctrl. destruct (_ =? dot11AuthAlgrthm_8021X); [|intros [= <- <-]; split; [by apply moves_same|by intros ? [= <-]]].
  destruct (rtw_get_stainfo _); [|intros [= <- <-]; split; [by apply moves_same|by intros ? [= <-]]].
  destruct (_ !! _) as [st|]; [|done]. cbn [mbind option_bind].
  destruct (ieee8021x_blocked st); [|intros [= <- <-]; split; [by apply moves_same|by intros ? [= <-]]].
  destruct (RTW_GET_BE16 <$> _) as [t|]; [|done]. cbn [mbind option_bind].
  destruct (t =? eapol_type); intros [= <- <-]; (split; [|done || by intros ? [= <-]]); [by apply moves_same|apply moves_free].
Qed.

Lemma process_mpdu_moves s f ret s' : process_mpdu oks cannot_run s f = Some (ret, s') -> moves s [rm_id f] s' [] /\ rp_heap s' = rp_heap s.
Proof.
  unfold process_mpdu. destruct (recv_process_mpdu _ _ f) as [[? pkts]|]; [|done]. cbn [mbind option_bind]. intros [= <- <-].
  split; [|done]. eapply moves_trans; [|apply moves_free]. by apply moves_same.
Qed.

Lemma process_heap s f h :
  process_mpdu oks cannot_run (s <| rp_heap := h |>) f =
  (fun p => (p.1, p.2 <| rp_heap := h |>)) <$> process_mpdu oks cannot_run s f.
Proof. unfold process_mpdu. by destruct (recv_process_mpdu _ _ f) as [[? ?]|]. Qed.

(** A frame leaves a window, or enters it. *)
Lemma moves_out s i f l : rp_heap s !! i = Some f -> moves s l (s <| rp_heap := delete i (rp_heap s) |>) (rm_id f :: l).
Proof.
  intros Hi [Ho Hh]. rewrite (Hh i f Hi). set (t := s <| rp_heap := _ |>).
  assert (forall x, (occ x (held t) + occ x (i :: l) = occ x (held s) + occ x l)%nat) as E.
  { intros x. pose proof (kept_delete _ _ _ Hi x) as Hk. unfold held.
    change (elsewhere t) with (ids (rp_pending s) ++ queued (rp_queues s) ++ kept (delete i (rp_heap s)) ++ ids (rp_monitored s)).
    change (rp_free t) with (rp_free s). unfold elsewhere. rewrite !occ_app, occ_cons. rewrite occ_cons, occ_nil in Hk. lia. }
  split_and!; [done|done|done|]. split; [intros x; rewrite E; apply Ho|]. intros j g Hj. apply (Hh j g).
  apply (lookup_delete_Some (rp_heap s) i j g) in Hj. tauto.
Qed.

Lemma moves_in s f l : moves s (rm_id f :: l) (s <| rp_heap := <[rm_id f := f]> (rp_heap s) |>) l.
Proof.
  intros [Ho Hh]. set (t := s <| rp_heap := _ |>).
  assert (rp_heap s !! rm_id f = None) as Hn.
  { apply eq_None_not_Some. intros Hi%kept_in%occ_in. specialize (Ho (rm_id f)). unfold held, elsewhere in Ho.
    rewrite !occ_app, occ_cons in Ho. destruct (Z.eq_dec (rm_id f) (rm_id f)); [lia|done]. }
  assert (forall x, (occ x (held t) + occ x l = occ x (held s) + occ x (rm_id f :: l))%nat) as E.
  { intros x. pose proof (kept_insert (rp_heap s) (rm_id f) f Hn x) as Hk. unfold held.
    change (elsewhere t) with (ids (rp_pending s) ++ queued (rp_queues s) ++ kept (<[rm_id f := f]> (rp_heap s)) ++ ids (rp_monitored s)).
    change (rp_free t) with (rp_free s). unfold elsewhere. rewrite !occ_app, occ_cons. rewrite occ_cons, occ_nil in Hk. lia. }
  split_and!; [done|done|done|]. split; [intros x; rewrite E; apply Ho|]. intros j g Hj.
  destruct (decide (j = rm_id f)) as [->|Hne].
  - change (rp_heap t) with (<[rm_id f := f]> (rp_heap s)) in Hj. rewrite lookup_insert_eq in Hj. by injection Hj as <-.
  - change (rp_heap t) with (<[rm_id f := f]> (rp_heap s)) in Hj. rewrite lookup_insert_ne in Hj by done. by apply Hh.
Qed.

Lemma indicate_all_moves ms : forall s s', indicate_all oks cannot_run s ms = Some s' -> moves s [] s' [].
Proof.
  induction ms as [|m ms IH]; intros s s'; cbn [indicate_all]; [intros [= <-]; by apply moves_same|].
  destruct (rp_heap s !! mp_id m) as [f|] eqn:E; [|done]. cbn [mbind option_bind].
  destruct (process_mpdu oks cannot_run s f) as [[ret s1]|] eqn:Ep; [|done]. cbn [mbind option_bind]. intros H.
  eapply moves_trans; [by apply (moves_out _ _ _ _ E)|].
  pose proof (process_heap s f (delete (mp_id m) (rp_heap s))) as Hp. rewrite Ep in Hp. cbn [fmap option_fmap option_map fst snd] in Hp.
  destruct (process_mpdu_moves _ _ _ _ Hp) as [Hm _]. eapply moves_trans; [exact Hm|].
  destruct (process_mpdu_moves _ _ _ _ Ep) as [_ Hh]. rewrite <- Hh. by apply IH.
Qed.

Lemma after_window_moves s k r s' : after_window oks cannot_run s k r = Some s' -> moves s [] s' [].
Proof. unfold after_window. intros H. eapply moves_trans; [|by eapply indicate_all_moves]. by apply moves_same. Qed.

(** The window of a block is moved, no frame is. *)
Lemma iseq_before_pool s f n s' : recv_set_iseq_before_mpdu_process s f n = Some s' -> same_pool s s'.
Proof.
  unfold recv_set_iseq_before_mpdu_process. destruct (x_preorder _) as [k|]; [|by intros [= <-]].
  destruct (rp_reorder s !! k); [|done]. by intros [= <-].
Qed.

Lemma iseq_after_pool s f s' : recv_set_iseq_after_mpdu_process s f = Some s' -> same_pool s s'.
Proof.
  unfold recv_set_iseq_after_mpdu_process. destruct (x_preorder _) as [k|]; [|by intros [= <-]].
  destruct (rp_reorder s !! k); [|done]. by intros [= <-].
Qed.

(** Only a frame the window takes causes frames to be handed up. *)
Lemma reorder_verdict mpdu_ok s m ret r :
  recv_indicatepkt_reorder mpdu_ok s m = (ret, r) ->
  ret = RTW_RX_HANDLED \/ (ret = RX_SUCCESS \/ ret = RX_FAIL) /\ rs_indicated r = rs_indicated s.
Proof.
  unfold recv_indicatepkt_reorder, reorder_locked.
  destruct (_ || _); [intros [= <- <-]; auto|]. destruct (check_indicate_seq _ _) as [[ok c] jumped].
  destruct (negb ok); [intros [= <- <-]; auto|]. destruct (enqueue_reorder_recvframe _ _); [|intros [= <- <-]; auto].
  destruct (recv_indicatepkts_in_order _ _ _) as [inbuf s1]. intros [= <- <-]. by left.
Qed.

Lemma indicatepkt_reorder_moves s f ret s' :
  indicatepkt_reorder oks cannot_run s f = Some (ret, s') ->
  moves s [rm_id f] s' (if ret =? RTW_RX_HANDLED then [] else [rm_id f]) /\
  (ret <> RTW_RX_HANDLED -> same_pool s s').
Proof.
  unfold indicatepkt_reorder. destruct (x_preorder _) as [k|]; [|intros [= <- <-]; by split; [apply moves_same|]].
  destruct (rp_reorder s !! k) as [c|]; [|done]. cbn [mbind option_bind].
  destruct (recv_indicatepkt_reorder _ _ _) as [v r] eqn:Er. destruct (reorder_verdict _ _ _ _ _ Er) as [-> | [Hv Hi]].
  - cbn [Z.eqb Pos.eqb RTW_RX_HANDLED]. destruct (after_window _ _ _ _ _) as [t|] eqn:Ea; [|done]. cbn [mbind option_bind].
    intros [= <- <-]. split; [|done]. eapply moves_trans; [apply moves_in|]. by eapply after_window_moves.
  - assert (v <> RTW_RX_HANDLED) as Hne by (by destruct Hv as [->| ->]).
    rewrite (proj2 (Z.eqb_neq _ _)) by done. unfold after_window. rewrite Hi. cbn [indicate_all rs_indicated window_state mbind option_bind].
    intros [= <- <-]. rewrite (proj2 (Z.eqb_neq _ _)) by done. split; [by apply moves_same|done].
Qed.

(** From [s] with [l] at hand to [s'] with nothing, [lost] nowhere. *)
Definition ends (s : recv_main) (l : list Z) (s' : recv_main) (lost : list Z) : Prop :=
  pool_ok s l -> (forall x, (occ x (held s') + occ x lost = occ x (held s) + occ x l)%nat) /\
    slack s' = u32 (slack s + Z.of_nat (length lost)) /\ rp_pending s' = rp_pending s /\ pool_ok s' [].

Lemma u32_slack s : u32 (slack s + 0) = slack s.
Proof. rewrite Z.add_0_r. apply wrap_wrap. lia. Qed.

Lemma moves_ends s l s' : moves s l s' [] -> ends s l s' [].
Proof.
  intros H Hs. destruct (H Hs) as (E & S & P & Q). cbn [length]. change (Z.of_nat 0) with 0. rewrite u32_slack. done.
Qed.

Lemma moves_then_ends s l t k u lost : moves s l t k -> ends t k u lost -> ends s l u lost.
Proof.
  intros H1 H2 Hs. destruct (H1 Hs) as (E1 & S1 & Q1 & P1). destruct (H2 P1) as (E2 & S2 & Q2 & P2).
  split_and!; [intros x; rewrite E2; apply E1|congruence|congruence|done].
Qed.

Lemma ends_ends s l t lost u lost2 : ends s l t lost -> ends t [] u lost2 -> ends s l u (lost ++ lost2).
Proof.
  intros H1 H2 Hs. destruct (H1 Hs) as (E1 & S1 & Q1 & P1). destruct (H2 P1) as (E2 & S2 & Q2 & P2).
  split_and!; [| |congruence|done].
  - intros x. specialize (E1 x). specialize (E2 x). rewrite occ_nil in E2. rewrite occ_app. lia.
  - rewrite S2, S1, length_app. unfold wrap. rewrite Zplus_mod_idemp_l. f_equal. lia.
Qed.

Lemma ends_dropped s l t lost : ends s l t lost -> ends s l (rx_dropped t) lost.
Proof. intros H Hs. destruct (H Hs) as (E & S & Q & [P1 P2]). split_and!; [done|done|done|by split]. Qed.

(** The frame that the reorder window refuses when it is not [orig]. *)
Lemma refused_ends s id orig :
  (id = orig \/ In orig (rp_free s)) -> ends s [id] (free_recvframe s orig) (if negb (id =? orig) then [id] else []).
Proof.
  intros Ho. destruct (Z.eqb_spec id orig) as [->|Hne]; cbn [negb].
  - apply moves_ends, moves_free.
  - destruct Ho as [|Hin]; [done|]. intros Hs.
    assert (pool_ok s []) as Hs0 by (destruct Hs as [H1 H2]; split; [|done]; intros x; specialize (H1 x); rewrite occ_nil; lia).
    destruct (free_again s orig Hin Hs0) as (E & S & Q & P). split_and!; [intros x; by rewrite E|done|done|done].
Qed.

(** The reassembled frame of which [f] is the last fragment, when the reorder
    window refuses it. *)
Definition refused_reassembled (s : recv_main) (f : rx_frame) : list Z :=
  match decryptor s f with
  | Some (Some f1, s) =>
      match chk_defrag s f1 with
      | Some (Some f2, s) =>
          match portctrl rtw_get_stainfo s f2, count_rx_stats (rp_rx s) f2 (x_psta (rm_ext f2)) with
          | Some (Some _, _), Some rx =>
              match indicatepkt_reorder oks cannot_run (s <| rp_rx := rx |>) f2 with
              | Some (ret, _) => if (ret =? _FAIL) && negb (rm_id f2 =? rm_id f) then [rm_id f2] else []
              | None => []
              end
          | _, _ => []
          end
      | _ => []
      end
  | _ => []
  end.

Abbreviation posthandle := (recv_func_posthandle rtw_get_stainfo x_UncstKey dot11tkiprxmickey bcmc oks cannot_run).

Lemma posthandle_ends s f ret s' :
  rm_mfrag f = 0 \/ rm_mfrag f = 1 -> posthandle s f = Some (ret, s') ->
  ends s [rm_id f] s' (refused_reassembled s f) /\ (rm_frag_num f = 0 -> refused_reassembled s f = []).
Proof.
  intros Hm. unfold recv_func_posthandle, refused_reassembled. destruct (RecvMain.decryptor _ _ s f) as [[r1 s1]|] eqn:E1; [|done]. cbn [mbind option_bind].
  destruct (decryptor_moves _ _ _ _ E1) as [M1 F1]. destruct r1 as [f1|].
  2: { intros [= <- <-]. split; [|done]. by apply ends_dropped, moves_ends. }
  destruct (F1 f1 eq_refl) as (I1 & Mf1 & Fn1 & _). cbn [option_list ids fmap list_fmap] in M1.
  destruct (RecvMain.chk_defrag _ _ _ s1 f1) as [[r2 s2]|] eqn:E2; [|done]. cbn [mbind option_bind].
  assert (rm_mfrag f1 = 0 \/ rm_mfrag f1 = 1) as Hm1 by (by rewrite Mf1).
  pose proof (moves_trans _ _ _ _ _ _ M1 (chk_defrag_moves _ _ _ _ Hm1 E2)) as M2. destruct r2 as [f2|].
  2: { intros [= <- <-]. split; [|done]. by apply ends_dropped, moves_ends. }
  pose proof (chk_defrag_hand _ _ _ _ E2 f2 eq_refl) as Hand. cbn [option_list ids fmap list_fmap] in M2.
  destruct (portctrl _ s2 f2) as [[r3 s3]|] eqn:E3; [|done]. cbn [mbind option_bind].
  destruct (portctrl_moves _ _ _ _ E3) as [M3 F3]. destruct r3 as [f3|].
  2: { intros [= <- <-]. split; [|done]. apply ends_dropped, moves_ends. by eapply moves_trans. }
  destruct (F3 f3 eq_refl) as [-> ->]. clear M3 F3.
  destruct (count_rx_stats _ f2 _) as [rx|]; [|done]. cbn [mbind option_bind]. set (s4 := s2 <| rp_rx := rx |>).
  assert (moves s [rm_id f] s4 [rm_id f2]) as M4 by (eapply moves_trans; [exact M2|by apply moves_same]).
  destruct (indicatepkt_reorder _ _ s4 f2) as [[v s5]|] eqn:E5; [|done]. cbn [mbind option_bind].
  destruct (indicatepkt_reorder_moves _ _ _ _ E5) as [M5 P5].
  destruct (Z.eqb_spec v _FAIL) as [->|Hv]; cbn [andb].
  - cbn [Z.eqb _FAIL RTW_RX_HANDLED] in M5. intros [= <- <-].
    destruct (P5 ltac:(done)) as (Ef & _). split.
    + apply ends_dropped. eapply moves_then_ends; [eapply moves_trans; [exact M4|exact M5]|]. apply refused_ends.
      destruct Hand as [[[-> _] _]|(_ & _ & Hin)]; [left; congruence|right; rewrite <- I1]. rewrite Ef. exact Hin.
    + intros H0. destruct Hand as [[[-> _] _]|(_ & Hn & _)]; [|congruence]. rewrite I1. by rewrite Z.eqb_refl.
  - intros Hrun. split; [revert Hrun|done]. destruct (Z.eqb_spec v RTW_RX_HANDLED) as [->|Hh].
    + intros [= <- <-]. apply moves_ends. eapply moves_trans; [exact M4|exact M5].
    + destruct (recv_set_iseq_before_mpdu_process _ _ _) as [s6|] eqn:E6; [|done]. cbn [mbind option_bind].
      destruct (process_mpdu _ _ s6 f2) as [[w s7]|] eqn:E7; [|done]. cbn [mbind option_bind].
      destruct (recv_set_iseq_after_mpdu_process _ _) as [s8|] eqn:E8; [|done]. cbn [mbind option_bind]. intros [= <- <-].
      destruct (process_mpdu_moves _ _ _ _ E7) as [M7 _].
      assert (moves s [rm_id f] s8 []) as H8.
      { eapply moves_trans; [exact M4|]. eapply moves_trans; [exact M5|]. eapply moves_trans; [apply same_pool_moves; by eapply iseq_before_pool|].
        eapply moves_trans; [exact M7|]. apply same_pool_moves. by eapply iseq_after_pool. }
      apply moves_ends in H8. destruct (w =? _FAIL); [by apply ends_dropped|done].
Qed.

(** As [ends], with frames of the pending queue handled on the way. *)
Definition lands (s : recv_main) (l : list Z) (s' : recv_main) (lost : list Z) : Prop :=
  pool_ok s l -> (forall x, (occ x (held s') + occ x lost = occ x (held s) + occ x l)%nat) /\
    slack s' = u32 (slack s + Z.of_nat (length lost)) /\ pool_ok s' [].

(** A frame put behind the pending ones, or the first of them taken. *)
Lemma set_pending s l q m :
  (forall x, (occ x (ids q) + occ x m = occ x (ids (rp_pending s)) + occ x l)%nat) -> pool_ok s l ->
  (forall x, (occ x (held (s <| rp_pending := q |>)) + occ x m = occ x (held s) + occ x l)%nat) /\
  slack (s <| rp_pending := q |>) = slack s /\ pool_ok (s <| rp_pending := q |>) m.
Proof.
  intros Hq [Ho Hh]. set (t := s <| rp_pending := q |>).
  assert (forall x, (occ x (held t) + occ x m = occ x (held s) + occ x l)%nat) as E.
  { intros x. specialize (Hq x). unfold held.
    change (elsewhere t) with (ids q ++ queued (rp_queues s) ++ kept (rp_heap s) ++ ids (rp_monitored s)).
    change (rp_free t) with (rp_free s). unfold elsewhere. rewrite !occ_app. lia. }
  split_and!; [done|done|]. split; [intros x; rewrite E; apply Ho|done].
Qed.

Lemma lands_after s l q m u lost :
  (forall x, (occ x (ids q) + occ x m = occ x (ids (rp_pending s)) + occ x l)%nat) ->
  lands (s <| rp_pending := q |>) m u lost -> lands s l u lost.
Proof.
  intros Hq H Hs. destruct (set_pending s l q m Hq Hs) as (E1 & S1 & P1). destruct (H P1) as (E2 & S2 & P2).
  split_and!; [intros x; by rewrite E2, E1|congruence|done].
Qed.

Lemma lands_lands s l t lost u lost2 : lands s l t lost -> lands t [] u lost2 -> lands s l u (lost ++ lost2).
Proof.
  intros H1 H2 Hs. destruct (H1 Hs) as (E1 & S1 & P1). destruct (H2 P1) as (E2 & S2 & P2). split_and!; [| |done].
  - intros x. specialize (E1 x). specialize (E2 x). rewrite occ_nil in E2. rewrite occ_app. lia.
  - rewrite S2, S1, length_app. unfold wrap. rewrite Zplus_mod_idemp_l. f_equal. lia.
Qed.

Lemma ends_lands s l t lost : ends s l t lost -> lands s l t lost.
Proof. intros H Hs. by destruct (H Hs) as (E & S & _ & P). Qed.

Definition frag_bit (p : rx_frame) : Prop := rm_mfrag p = 0 \/ rm_mfrag p = 1.
Definition whole (p : rx_frame) : Prop := rm_frag_num p = 0.

(** The frames refused while the pending ones are handled. *)
Fixpoint drain_lost (n : nat) (s : recv_main) : list Z :=
  match n, rp_pending s with
  | S n, p :: q =>
      let s := s <| rp_pending := q |> in
      refused_reassembled s p ++ match posthandle s p with Some (_, s) => drain_lost n s | None => [] end
  | _, _ => []
  end.

Lemma drain_lands n : forall s s',
  pool_ok s [] -> Forall frag_bit (rp_pending s) ->
  drain_pending rtw_get_stainfo x_UncstKey dot11tkiprxmickey bcmc oks cannot_run n s = Some s' ->
  lands s [] s' (drain_lost n s) /\ (Forall whole (rp_pending s) -> drain_lost n s = []) /\ (exists done, rp_pending s = done ++ rp_pending s').
Proof.
  induction n as [|n IH]; intros s s' Hs Hp; cbn [drain_pending drain_lost].
  { intros [= <-]. split_and!; [|done|by exists []]. by apply ends_lands, moves_ends, moves_same. }
  destruct (rp_pending s) as [|p q] eqn:Eq.
  { intros [= <-]. split_and!; [|done|exists []; by rewrite Eq]. by apply ends_lands, moves_ends, moves_same. }
  apply Forall_cons_1 in Hp as [Hp1 Hq]. set (s0 := s <| rp_pending := q |>).
  destruct (recv_func_posthandle _ _ _ _ _ _ s0 p) as [[ret s1]|] eqn:E; [|done]. cbn [mbind option_bind]. intros H.
  destruct (posthandle_ends s0 p ret s1 Hp1 E) as [L1 W1].
  assert (forall x, (occ x (ids q) + occ x [rm_id p] = occ x (ids (rp_pending s)) + occ x [])%nat) as Ho.
  { intros x. rewrite Eq. unfold ids. cbn [fmap list_fmap]. rewrite !occ_cons, occ_nil. lia. }
  destruct (set_pending s [] q [rm_id p] Ho Hs) as (_ & _ & P0). destruct (L1 P0) as (_ & _ & Hpend & P1).
  change (rp_pending s0) with q in Hpend.
  destruct (IH s1 s' P1) as (L2 & W2 & (d & Hd)); [by rewrite Hpend|done|]. split_and!.
  - eapply lands_after; [exact Ho|]. eapply lands_lands; [by apply ends_lands|done].
  - intros [Hw1 Hw2]%Forall_cons_1. rewrite W1, W2 by (done || by rewrite Hpend). done.
  - exists (p :: d). cbn. by rewrite <- Hd, Hpend.
Qed.

(** ** The whole path *)

(** Validation sets the fragment fields once, before the data path. *)
Definition keeps (f g : rx_frame) : Prop := rm_id g = rm_id f /\ rm_mfrag g = rm_mfrag f /\ rm_frag_num g = rm_frag_num f.

Lemma keeps_trans f g h : keeps f g -> keeps g h -> keeps f h.
Proof. unfold keeps. intuition congruence. Qed.

Lemma station_keeps now s f sub ret psta g s' :
  data_frame_station rtw_get_stainfo now s f sub = Some (ret, psta, g, s') -> keeps f g.
Proof.
  unfold data_frame_station. intros H. destruct (_ || _); [|by injection H as _ _ <- _].
  destruct (addr_at f 4); [|done]. cbn [mbind option_bind] in H. destruct (addr_at f 10); [|done]. cbn [mbind option_bind] in H.
  destruct (addr_at f 16); [|done]. cbn [mbind option_bind] in H.
  destruct (_ =? 0); [|destruct (_ =? 1)].
  - destruct (sta2sta_data_frame _ _ _). by injection H as _ _ <- _.
  - destruct (ap2sta_data_frame _ _ _ _) as [[[? ?] ?]|]; [|done]. by injection H as _ _ <- _.
  - destruct (sta2ap_data_frame _ _ _) as [[[? ?] ?]|]; [|done]. by injection H as _ _ <- _.
Qed.

Lemma parse_qc_keeps s f g s' : parse_qc s f = Some (g, s') -> keeps f g.
Proof.
  unfold parse_qc. intros H. destruct (_ =? 1).
  - destruct (rd16 _ _); [|done]. cbn [mbind option_bind] in H. injection H as <- _. by destruct (negb (x_order _ =? 0)).
  - cbn [mbind option_bind] in H. injection H as <- _. by destruct (negb (x_order _ =? 0)).
Qed.

Lemma decache_keeps s psta f ret g s' : data_frame_decache s psta f = Some (ret, g, s') -> keeps f g.
Proof.
  unfold data_frame_decache. intros H. destruct (negb _).
  - destruct (recv_decache _ _ _) as [[r1 s1]|]; [|done]. cbn [mbind option_bind] in H.
    destruct (r1 =? _FAIL); [by injection H as _ <- _|].
    destruct (recv_ucast_pn_decache _ _ _) as [[r2 s2]|]; [|done]. by injection H as _ <- _.
  - destruct (recv_bcast_pn_decache _ _) as [[r1 s1]|]; [|done]. cbn [mbind option_bind] in H.
    destruct (r1 =? _FAIL); by injection H as _ <- _.
Qed.

Lemma security_keeps s psta f g : data_frame_security s psta f = Some g -> keeps f g.
Proof.
  unfold data_frame_security. destruct (negb _); [|by intros [= <-]]. destruct (rx_stas s !! psta); [|done].
  cbn [mbind option_bind]. destruct (SET_ICE_IV_LEN _). by intros [= <-].
Qed.

Lemma data_frame_keeps now s f sub ret g s' :
  validate_recv_data_frame rtw_get_stainfo now s f sub = Some (ret, g, s') -> keeps f g.
Proof.
  unfold validate_recv_data_frame. intros H.
  destruct (data_frame_station _ now s f sub) as [[[[r psta] g1] s1]|] eqn:E1; [|done]. cbn [mbind option_bind] in H.
  apply station_keeps in E1. destruct (_ || _); [by injection H as _ <- _|]. destruct psta as [psta|]; [|by injection H as _ <- _].
  set (g2 := g1 <| rm_ext := _ |>) in *. assert (keeps f g2) as E2 by exact E1. clearbody g2.
  destruct (parse_qc s1 g2) as [[g3 s3]|] eqn:E3; [|done]. cbn [mbind option_bind] in H. apply parse_qc_keeps in E3.
  destruct (data_frame_decache s3 psta g3) as [[[r4 g4] s4]|] eqn:E4; [|done]. cbn [mbind option_bind] in H. apply decache_keeps in E4.
  pose proof (keeps_trans _ _ _ E2 (keeps_trans _ _ _ E3 E4)) as E5. destruct (r4 =? _FAIL); [by injection H as _ <- _|].
  destruct (data_frame_security s4 psta g4) as [g5|] eqn:E6; [|done]. cbn [mbind option_bind] in H. apply security_keeps in E6.
  injection H as _ <- _. by eapply keeps_trans.
Qed.

Lemma validate_keeps now s f ret g s' :
  validate_recv_frame rtw_get_stainfo now s f = Some (ret, g, s') -> rm_id g = rm_id f /\
  (ret = _SUCCESS -> frag_bit g /\ exists sc, rd16 f 22 = Some sc /\ rm_frag_num g = GetFragNum sc).
Proof.
  unfold validate_recv_frame. intros H. destruct (rd8 _ _) as [b|]; [|done]. cbn [mbind option_bind] in H.
  destruct (negb _); [injection H as <- <- _; by split|]. destruct (rd16 f 0) as [fc|]; [|done]. cbn [mbind option_bind] in H.
  destruct (rd16 f 22) as [sc|]; [|done]. cbn [mbind option_bind] in H. cbv zeta in H.
  set (f1 := f <| rm_frag_num := _ |> <| rm_seq_num := _ |> <| rm_mfrag := _ |> <| rm_privacy := _ |> <| rm_ext := _ |>) in *.
  destruct (_ =? WIFI_DATA_TYPE); [|injection H as <- <- _; by split].
  destruct (validate_recv_data_frame _ _ _ _ _) as [[[r g1] s1]|] eqn:E; [|done]. cbn [mbind option_bind] in H.
  apply data_frame_keeps in E as (E1 & E2 & E3). injection H as <- <- _. split; [exact E1|]. intros _. split; [|by exists sc].
  unfold frag_bit. rewrite E2. change (GetMFrag fc = 0 \/ GetMFrag fc = 1). unfold GetMFrag. destruct (Z.testbit fc 10); [by right|by left].
Qed.

(** [recv_func] once the pending frames are drained, and the frames it
    loses. *)
Definition recv_func_rest (now : Z) (s : recv_main) (f : rx_frame) : option (Z * recv_main) :=
  '(ret, f, s) ← recv_func_prehandle rtw_get_stainfo now s f;
  if negb (ret =? _SUCCESS) then Some (ret, s)
  else if must_wait s f then
    let s := s <| rp_pending := rp_pending s ++ [f] |> in
    if rp_free_cnt s <? NR_RECVFRAME / 4 then
      match rp_pending s with
      | [] => Some (ret, s)
      | p :: q => recv_func_posthandle rtw_get_stainfo x_UncstKey dot11tkiprxmickey bcmc oks cannot_run (s <| rp_pending := q |>) p
      end
    else Some (ret, s)
  else recv_func_posthandle rtw_get_stainfo x_UncstKey dot11tkiprxmickey bcmc oks cannot_run s f.

Definition rest_lost (now : Z) (s : recv_main) (f : rx_frame) : list Z :=
  match recv_func_prehandle rtw_get_stainfo now s f with
  | Some (ret, f, s) =>
      if negb (ret =? _SUCCESS) then []
      else if must_wait s f then
        let s := s <| rp_pending := rp_pending s ++ [f] |> in
        if rp_free_cnt s <? NR_RECVFRAME / 4 then
          match rp_pending s with [] => [] | p :: q => refused_reassembled (s <| rp_pending := q |>) p end
        else []
      else refused_reassembled s f
  | None => []
  end.

Lemma rest_lands now s f ret s' :
  Forall frag_bit (rp_pending s) -> recv_func_rest now s f = Some (ret, s') ->
  lands s [rm_id f] s' (rest_lost now s f) /\ (Forall whole (rp_pending s) -> GetFragNum <$> rd16 f 22 = Some 0 -> rest_lost now s f = []).
Proof.
  intros Hp. unfold recv_func_rest, rest_lost, recv_func_prehandle.
  destruct (validate_recv_frame _ _ _ f) as [[[r g] rx]|] eqn:Ev; [|done]. cbn [mbind option_bind].
  destruct (validate_keeps _ _ _ _ _ _ Ev) as [Hid Hg]. set (s1 := s <| rp_rx := rx |>).
  destruct (Z.eqb_spec r _SUCCESS) as [->|]; cbn [negb].
  2: { intros [= <- <-]. split; [|done]. apply ends_lands, moves_ends. rewrite Hid.
       eapply moves_trans; [|apply moves_free]. by apply moves_same. }
  destruct (Hg eq_refl) as (Hb & sc & Hsc & Hn).
  assert (GetFragNum <$> rd16 f 22 = Some 0 -> whole g) as Hw by (rewrite Hsc; intros [= E]; unfold whole; congruence).
  assert (forall u lost, lands s1 [rm_id g] u lost -> lands s [rm_id f] u lost) as Hback.
  { intros u lost H Hs. rewrite Hid in H. destruct (moves_same s [rm_id f] s1 eq_refl eq_refl eq_refl eq_refl eq_refl Hs) as (E1 & S1 & _ & P1).
    destruct (H P1) as (E2 & S2 & P2). split_and!; [intros x; by rewrite E2, E1|congruence|done]. }
  destruct (must_wait s1 g).
  2: { intros H. destruct (posthandle_ends _ _ _ _ Hb H) as [L W]. split; [by apply Hback, ends_lands|].
       intros _ H0. by apply W, Hw. }
  change (rp_pending s1) with (rp_pending s). set (s2 := s1 <| rp_pending := rp_pending s ++ [g] |>).
  assert (forall x, (occ x (ids (rp_pending s ++ [g])) + occ x [] = occ x (ids (rp_pending s1)) + occ x [rm_id g])%nat) as Ho.
  { intros x. change (rp_pending s1) with (rp_pending s). unfold ids. rewrite fmap_app, occ_app, occ_nil. cbn. lia. }
  assert (Forall frag_bit (rp_pending s2)) as Hp2 by (apply Forall_app; split; [done|by apply Forall_cons_2]).
  destruct (_ <? _).
  2: { intros [= <- <-]. split; [|done]. apply Hback. eapply lands_after; [exact Ho|]. by apply ends_lands, moves_ends, moves_same. }
  destruct (rp_pending s2) as [|p q] eqn:Eq; [by destruct (rp_pending s)|]. intros H. apply Forall_cons_1 in Hp2 as [Hp2 _].
  destruct (posthandle_ends _ _ _ _ Hp2 H) as [L W]. split.
  - apply Hback. eapply lands_after; [exact Ho|]. fold s2. eapply (lands_after s2 [] q [rm_id p]); [|by apply ends_lands].
    intros x. rewrite Eq. unfold ids. cbn [fmap list_fmap]. rewrite !occ_cons, occ_nil. lia.
  - intros Hwh H0. apply W. assert (Forall whole (rp_pending s2)) as Hw2 by (apply Forall_app; split; [done|apply Forall_cons_2; [by apply Hw|done]]).
    rewrite Eq in Hw2. by apply Forall_cons_1 in Hw2 as [? _].
Qed.

(** The frames [recv_func] loses: those refused while it drains the pending
    ones, then the one refused while it handles [f]. *)
Definition recv_lost (now : Z) (s : recv_main) (f : rx_frame) : list Z :=
  if check_fwstate (rp_rx s) WIFI_MONITOR_STATE then []
  else if check_fwstate (rp_rx s) WIFI_STATION_STATE && negb (busetkipkey s =? 0) then
    drain_lost (length (rp_pending s)) s ++
    match drain_pending rtw_get_stainfo x_UncstKey dot11tkiprxmickey bcmc oks cannot_run (length (rp_pending s)) s with
    | Some s => rest_lost now s f | None => [] end
  else rest_lost now s f.

(** C31. The receive path neither loses nor duplicates a frame, whatever it
    holds, with one exception: a frame reassembled from several fragments that the
    reorder window refuses is lost, since the last fragment is freed a second time instead
    of it.  Whenever [recv_func] returns, every frame is in one place
    except exactly those ([recv_lost], computed along the same path);
    [free_recvframe_cnt] is ahead of the free queue by one more for each; and
    there are none when no fragments arrive or wait for a key. *)
Theorem receive_conserves now s f ret s' :
  pool_ok s [rm_id f] -> Forall frag_bit (rp_pending s) ->
  recv_func rtw_get_stainfo x_UncstKey dot11tkiprxmickey bcmc oks cannot_run now s f = Some (ret, s') ->
  held s' ++ recv_lost now s f ≡ₚ rm_id f :: held s /\ slack s' = u32 (slack s + Z.of_nat (length (recv_lost now s f))) /\ pool_ok s' [] /\
    (Forall whole (rp_pending s) -> GetFragNum <$> rd16 f 22 = Some 0 -> recv_lost now s f = []).
Proof.
  intros Hs Hp H. cut (lands s [rm_id f] s' (recv_lost now s f) /\ (Forall whole (rp_pending s) -> GetFragNum <$> rd16 f 22 = Some 0 -> recv_lost now s f = [])).
  { intros (Hl & Hw). destruct (Hl Hs) as (E & S & P). split_and!; [|done..].
    apply occ_perm. intros x. specialize (E x). rewrite occ_app. rewrite (occ_cons x (rm_id f) []), occ_nil in E. rewrite occ_cons. lia. }
  unfold recv_func in H. unfold recv_lost. destruct (check_fwstate _ WIFI_MONITOR_STATE).
  { injection H as <- <-. split; [|done]. intros Hs1. destruct Hs1 as [Ho Hh].
    assert (forall x, occ x (held (s <| rp_monitored := rp_monitored s ++ [f] |>)) = (occ x (held s) + occ x [rm_id f])%nat) as E.
    { intros x. unfold held. change (elsewhere (s <| rp_monitored := rp_monitored s ++ [f] |>)) with
        (ids (rp_pending s) ++ queued (rp_queues s) ++ kept (rp_heap s) ++ ids (rp_monitored s ++ [f])).
      unfold elsewhere, ids. cbn [rp_free eta_recv_main]. rewrite fmap_app, !occ_app. cbn. lia. }
    split_and!; [intros x; by rewrite E, occ_nil, Nat.add_0_r|by rewrite u32_slack|].
    split; [|done]. intros x. rewrite E, occ_nil, Nat.add_0_r. apply Ho. }
  set (d := if _ && _ then _ else _) in H. destruct d as [s0|] eqn:Ed; [|done]. cbn [mbind option_bind] in H.
  fold (recv_func_rest now s0 f) in H.
  assert (pool_ok s []) as Hs0 by (destruct Hs as [H1 H2]; split; [|done]; intros x; specialize (H1 x); rewrite occ_nil; lia).
  set (l := if _ && _ then _ else _).
  assert (exists l0, l = l0 ++ rest_lost now s0 f /\ lands s [] s0 l0 /\ (Forall whole (rp_pending s) -> l0 = []) /\ exists done, rp_pending s = done ++ rp_pending s0)
    as (l0 & -> & L0 & W0 & dn & Hdn).
  { subst d l. destruct (_ && _).
    - exists (drain_lost (length (rp_pending s)) s). rewrite Ed. split; [done|]. by apply (drain_lands (length (rp_pending s)) s s0).
    - injection Ed as <-. exists []. split_and!; [done|by apply ends_lands, moves_ends, moves_same|done|by exists []]. }
  rewrite Hdn, Forall_app in Hp. destruct Hp as [_ Hp].
  destruct (rest_lands now s0 f ret s' Hp H) as [L1 W1]. split.
  - intros Hs1. destruct (L0 Hs0) as (E0 & S0 & P0).
    assert (pool_ok s0 [rm_id f]) as P1.
    { destruct P0 as [_ Hh]. destruct Hs1 as [Hon _]. split; [|done]. intros x. specialize (E0 x). specialize (Hon x). rewrite occ_nil in E0. lia. }
    destruct (L1 P1) as (E1 & S1 & P2). split_and!; [| |done].
    + intros x. specialize (E0 x). specialize (E1 x). rewrite occ_nil in E0. rewrite occ_app. lia.
    + rewrite S1, S0, length_app. unfold wrap. rewrite Zplus_mod_idemp_l. f_equal. lia.
  - intros Hw Hn. rewrite W0 by done. rewrite Hdn, Forall_app in Hw. destruct Hw as [_ Hw]. by rewrite W1.
Qed.
End stages.

(** ** At a concrete state *)

(** Two fragments without a session, and one refused by a session's window. *)
Definition open_fragment (id n more : Z) (body : list Z) : rx_frame :=
  air_frame id 0 ([0x88; 2 + 4 * more; 0; 0] ++ demo_mac ++ demo_ap ++ demo_peer ++ le_enc 2 (80 + n) ++ le_enc 2 6 ++ body).

Definition first_kept : recv_main := default (demo_main false) (snd <$> demo_recv (demo_main false) (open_fragment 11 0 1 (repeat 1 20))).
Definition second_refused : recv_main := default (demo_main false) (snd <$> demo_recv first_kept (open_fragment 12 1 0 (repeat 2 20))).

Abbreviation demo_lost := (recv_lost demo_find (fun _ => FragSpec.sec_key) (fun _ => []) 0 demo_skbs false 0).

Lemma receive_conserves_witness :
  demo_lost (demo_main false) (open_fragment 11 0 1 (repeat 1 20)) = [] /\ demo_lost first_kept (open_fragment 12 1 0 (repeat 2 20)) = [11] /\
  held second_refused ++ [11] ≡ₚ [12; 11] /\ slack second_refused = 1 /\ pool_ok second_refused [].
Proof.
  assert (pool_ok first_kept [12]) as H1.
  { assert (held first_kept = [11]) as E by (by vm_compute). assert (rp_heap first_kept = ∅) as Eh by (by vm_compute).
    split; [|intros i f; by rewrite Eh, lookup_empty]. intros x. rewrite E, !occ_cons, !occ_nil. repeat destruct (Z.eq_dec _ _); lia. }
  assert (demo_lost first_kept (open_fragment 12 1 0 (repeat 2 20)) = [11]) as E by (by vm_compute).
  destruct (receive_conserves demo_find (fun _ => FragSpec.sec_key) (fun _ => []) 0 demo_skbs false 0 first_kept (open_fragment 12 1 0 (repeat 2 20))
    _FAIL second_refused) as (P & S & O & _); [exact H1|vm_compute; exact (List.Forall_nil _)|by vm_compute|].
  split; [by vm_compute|]. split; [exact E|]. rewrite E in P, S. split; [|split; [etransitivity; [exact S|]; by vm_compute|exact O]].
  etransitivity; [exact P|]. by vm_compute.
Defined.
