(* ===== verification/RecvMainThms.v ===== *)
(** * From the air to the network stack

    A protected frame of the access point is validated, decrypted and handed up
    as an Ethernet packet, and the reorder window it bypasses moves behind it;
    a forged group frame moves the packet number window although its code is wrong,
    and any genuine frames whose numbers do not follow are refused; the frame the
    reorder window refuses after reassembly is lost. *)

From S2P Require Import Prelude Mem Arc4 SecDefs Wep FragSpec Michael Tkip Ccmp CcmpSpec CcmpLink Reorder RecvFrame RecvThms Msdu MsduSpec RecvData RecvMain RecvDemo RecvDataSpec RecvMainSpec.
Lemma holds_read f pre a b c room off n :
  holds f pre (a ++ b ++ c) room -> off = mem_len a -> n = mem_len b -> rdn (rm_buf f) (rm_data f + off) n = Some b.
Proof.
  intros [Hb Hd _ _ _] -> ->. rewrite Hb, Hd.
  replace (pre ++ (a ++ b ++ c) ++ room) with ((pre ++ a) ++ b ++ (c ++ room)) by (by rewrite <- !app_assoc).
  by apply rdn_app; [rewrite mem_len_app|].
Qed.

(** ** Protected QoS data frames from the access point *)

Definition ap_hdr (dur : Z) (a1 ap src : list Z) (sc qc : Z) : list Z :=
  [0x88; 0x42] ++ le_enc 2 dur ++ a1 ++ ap ++ src ++ le_enc 2 sc ++ le_enc 2 qc.

Lemma length_ap_hdr dur a1 ap src sc qc :
  length a1 = 6%nat -> length ap = 6%nat -> length src = 6%nat -> mem_len (ap_hdr dur a1 ap src sc qc) = 26.
Proof. intros H1 H2 H3. unfold ap_hdr, mem_len. rewrite !length_app, H1, H2, H3, !length_le_enc. done. Qed.

(** What its validation reads. *)
Lemma read_ap_hdr f pre dur a1 ap src sc qc rest room :
  holds f pre (ap_hdr dur a1 ap src sc qc ++ rest) room ->
  length a1 = 6%nat -> length ap = 6%nat -> length src = 6%nat -> is_u16 sc -> is_u16 qc ->
  rd8 (rm_buf f) (rm_data f) = Some 0x88 /\ rd16 f 0 = Some 0x4288 /\ rd16 f 22 = Some sc /\ rd16 f 24 = Some qc /\
  addr_at f 4 = Some a1 /\ addr_at f 10 = Some ap /\ addr_at f 16 = Some src.
Proof.
  intros Hf H1 H2 H3 Hs Hq. unfold ap_hdr in Hf. rewrite <- !app_assoc in Hf.
  assert (forall l n, mem_len (le_enc n l) = Z.of_nat n) as Hle by (intros; unfold mem_len; by rewrite length_le_enc).
  assert (mem_len a1 = 6 /\ mem_len ap = 6 /\ mem_len src = 6) as (M1 & M2 & M3) by (unfold mem_len; lia).
  split_and!.
  - destruct Hf as [Hb Hd _ _ _]. unfold rd8. rewrite Hb, Hd. unfold mem_len. rewrite (proj2 (Z.leb_le _ _)), Nat2Z.id by lia.
    by rewrite lookup_app_r, Nat.sub_diag by lia.
  - unfold rd16. by rewrite (holds_read f pre [] [0x88; 0x42] _ room 0 2 Hf).
  - unfold rd16. set (x := [0x88; 0x42]) in *.
    rewrite (holds_read f pre (x ++ le_enc 2 dur ++ a1 ++ ap ++ src) (le_enc 2 sc) (le_enc 2 qc ++ rest) room 22 2).
    + cbn [fmap option_fmap option_map]. by rewrite le_dec_enc_small.
    + by rewrite <- !app_assoc.
    + rewrite !mem_len_app, Hle, M1, M2, M3. done.
    + by rewrite Hle.
  - unfold rd16. set (x := [0x88; 0x42]) in *.
    rewrite (holds_read f pre (x ++ le_enc 2 dur ++ a1 ++ ap ++ src ++ le_enc 2 sc) (le_enc 2 qc) rest room 24 2).
    + cbn [fmap option_fmap option_map]. by rewrite le_dec_enc_small.
    + by rewrite <- !app_assoc.
    + rewrite !mem_len_app, !Hle, M1, M2, M3. done.
    + by rewrite Hle.
  - unfold addr_at. apply (holds_read f pre ([0x88; 0x42] ++ le_enc 2 dur) a1 (ap ++ src ++ le_enc 2 sc ++ le_enc 2 qc ++ rest) room);
      [by rewrite <- !app_assoc|by rewrite mem_len_app, Hle|done].
  - unfold addr_at. apply (holds_read f pre ([0x88; 0x42] ++ le_enc 2 dur ++ a1) ap (src ++ le_enc 2 sc ++ le_enc 2 qc ++ rest) room);
      [by rewrite <- !app_assoc|by rewrite !mem_len_app, Hle, M1|done].
  - unfold addr_at. apply (holds_read f pre ([0x88; 0x42] ++ le_enc 2 dur ++ a1 ++ ap) src (le_enc 2 sc ++ le_enc 2 qc ++ rest) room);
      [by rewrite <- !app_assoc|by rewrite !mem_len_app, Hle, M1, M2|done].
Qed.

Section ap.
Context (rtw_get_stainfo : list Z -> option Z).

(** A station joined to the network of [ap]. *)
Record joined (s : rx_state) (mac ap : list Z) (psta : Z) : Prop := {
  jn_station : check_fwstate s WIFI_STATION_STATE = true;
  jn_linked : check_fwstate s WIFI_ASOC_STATE = true;
  jn_mac : myhwaddr s = mac;
  jn_bssid : mybssid s = ap;
  jn_zero : ap <> zero_addr;
  jn_sta : rtw_get_stainfo ap = Some psta }.

(** The frame after its header was parsed. *)
Definition ap_parsed (f : rx_frame) (psta : Z) (a1 ap src : list Z) (sc qc : Z) : rx_frame :=
  mk_rx_frame (rm_buf f) (rm_data f) (rm_tail f) (rm_len f) 0 (GetFragNum sc) 26 (rm_iv_len f) (rm_icv_len f)
    1 (rm_encrypt f) (rm_key_index f) (GetPriority qc) (rm_bdecrypted f) ap a1 a1 src (GetAMsdu qc) 1 (GetSequence sc)
    (rm_eth_type f)
    (mk_rx_ext 1 0 0 0 (GetAckpolicy qc) (x_data_rate (rm_ext f)) ap (Some psta) (x_preorder (rm_ext f))) (rm_id f).

Definition parsed_state (s : rx_state) (qc : Z) : rx_state :=
  s <| is_any_non_be_pkts := if negb (GetPriority qc =? 0) && negb (GetPriority qc =? 3) then 1 else 0 |>.

Lemma memcmp_eq a : _rtw_memcmp a a = true.
Proof. unfold _rtw_memcmp. by rewrite bool_decide_true. Qed.

Lemma memcmp_ne a b : a <> b -> _rtw_memcmp a b = false.
Proof. intros. unfold _rtw_memcmp. by rewrite bool_decide_false. Qed.

Definition with_qc (g : rx_frame) (qc : Z) : rx_frame :=
  mk_rx_frame (rm_buf g) (rm_data g) (rm_tail g) (rm_len g) (rm_mfrag g) (rm_frag_num g) 26 (rm_iv_len g) (rm_icv_len g)
    (rm_privacy g) (rm_encrypt g) (rm_key_index g) (GetPriority qc) (rm_bdecrypted g) (rm_ta g) (rm_ra g) (rm_dst g)
    (rm_src g) (GetAMsdu qc) (rm_qos g) (rm_seq_num g) (rm_eth_type g) ((rm_ext g) <| x_ack_policy := GetAckpolicy qc |>) (rm_id g).

Lemma parse_qc_done s g qc :
  rm_qos g = 1 -> x_to_fr_ds (rm_ext g) <> 3 -> x_order (rm_ext g) = 0 -> rd16 g 24 = Some qc ->
  parse_qc s g = Some (with_qc g qc, parsed_state s qc).
Proof.
  destruct g as [? ? ? ? ? ? ? ? ? ? ? ? ? ? ? ? ? ? ? qos ? ? x ?]. destruct x as [ds order ? ? ? ? ? ? ?]. cbn. intros -> Hd -> Hr.
  unfold parse_qc. cbn [rm_qos Z.eqb Pos.eqb]. unfold rd16 in *. cbn in *. rewrite Hr. cbn.
  by rewrite (proj2 (Z.eqb_neq ds 3)) by done.
Qed.

Lemma station_ap now s g mac a1 ap src psta sub :
  joined s mac ap psta -> x_to_fr_ds (rm_ext g) = 1 ->
  addr_at g 4 = Some a1 -> addr_at g 10 = Some ap -> addr_at g 16 = Some src ->
  a1 = mac \/ IS_MCAST a1 = true -> src <> mac -> Z.testbit sub 6 = false ->
  data_frame_station rtw_get_stainfo now s g sub = Some (_SUCCESS, Some psta, set_addrs g a1 ap a1 src ap, s).
Proof.
  intros [J1 J2 J3 J4 J5 J6] Hds E5 E6 E7 Ha Hsrc Hsub. unfold data_frame_station. rewrite Hds. cbn [Z.eqb Pos.eqb orb].
  rewrite E5, E6, E7. cbn [mbind option_bind]. unfold ap2sta_data_frame. rewrite J1, J2. cbn [andb orb].
  set (h := set_addrs _ _ _ _ _ _). unfold foreign_bssid.
  assert (rm_src h = src /\ rm_dst h = a1 /\ x_bssid (rm_ext h) = ap) as (-> & -> & ->) by done. clearbody h.
  rewrite J3, J4, (memcmp_ne mac src), (memcmp_ne ap zero_addr), (memcmp_eq ap) by done. cbn [orb negb].
  assert (negb (_rtw_memcmp mac a1) && negb (IS_MCAST a1) = false) as ->
    by (destruct Ha as [->| ->]; [by rewrite memcmp_eq|apply andb_false_r]).
  rewrite J6, Hsub. done.
Qed.

Lemma validate_data_ap now s g mac a1 ap src qc psta sub :
  joined s mac ap psta -> x_to_fr_ds (rm_ext g) = 1 -> x_order (rm_ext g) = 0 -> rm_qos g = 1 ->
  addr_at g 4 = Some a1 -> addr_at g 10 = Some ap -> addr_at g 16 = Some src -> rd16 g 24 = Some qc ->
  a1 = mac \/ IS_MCAST a1 = true -> src <> mac -> Z.testbit sub 6 = false ->
  validate_recv_data_frame rtw_get_stainfo now s g sub =
    ('(ret, g, s) ← data_frame_decache (parsed_state s qc) psta
       (with_qc ((set_addrs g a1 ap a1 src ap) <| rm_ext := (rm_ext (set_addrs g a1 ap a1 src ap)) <| x_psta := Some psta |> |>) qc);
     if ret =? _FAIL then Some (_FAIL, g, s) else g ← data_frame_security s psta g; Some (_SUCCESS, g, s)).
Proof.
  intros HJ Hds Hord Hqos E5 E6 E7 E4 Ha Hsrc Hsub. unfold validate_recv_data_frame.
  rewrite (station_ap now s g mac a1 ap src psta sub) by done. cbn [mbind option_bind].
  assert ((_SUCCESS =? _FAIL) || (_SUCCESS =? RTW_RX_HANDLED) = false) as -> by done.
  set (h := (set_addrs _ _ _ _ _ _) <| rm_ext := _ |>).
  assert (rm_qos h = 1 /\ x_to_fr_ds (rm_ext h) <> 3 /\ x_order (rm_ext h) = 0 /\ rd16 h 24 = Some qc) as (F1 & F2 & F3 & F4).
  { split_and!; [exact Hqos| |exact Hord|exact E4]. change (x_to_fr_ds (rm_ext g) <> 3). by rewrite Hds. }
  clearbody h. by rewrite (parse_qc_done s h qc F1 F2 F3 F4).
Qed.

Lemma validate_ap now s f pre dur mac a1 ap src sc qc psta rest room :
  joined s mac ap psta -> holds f pre (ap_hdr dur a1 ap src sc qc ++ rest) room ->
  length a1 = 6%nat -> length ap = 6%nat -> length src = 6%nat -> is_u16 sc -> is_u16 qc ->
  a1 = mac \/ IS_MCAST a1 = true -> src <> mac ->
  validate_recv_frame rtw_get_stainfo now s f =
    ('(ret, g, s) ← data_frame_decache (parsed_state s qc) psta (ap_parsed f psta a1 ap src sc qc);
     if ret =? _FAIL then Some (_FAIL, g, s <| dbg_rx_drop_count := u64 (dbg_rx_drop_count s + 1) |>)
     else g ← data_frame_security s psta g; Some (_SUCCESS, g, s)).
Proof.
  intros HJ Hf H1 H2 H3 Hs Hq Ha Hsrc.
  destruct (read_ap_hdr f pre dur a1 ap src sc qc rest room Hf H1 H2 H3 Hs Hq) as (E1 & E2 & E3 & E4 & E5 & E6 & E7).
  unfold validate_recv_frame. rewrite E1, E2, E3. cbn [mbind option_bind].
  assert ((Z.land 0x88 0x3 =? 0) = true) as -> by done. assert ((Z.land 0x4288 0x0c =? WIFI_DATA_TYPE) = true) as -> by done. cbn [negb].
  rewrite (validate_data_ap now s _ mac a1 ap src qc psta) by done.
  set (g := with_qc _ qc). assert (g = ap_parsed f psta a1 ap src sc qc) as -> by reflexivity.
  set (d := data_frame_decache _ _ _). clearbody d. destruct d as [[[ret f1] s2]|]; [|done]. cbn [mbind option_bind].
  destruct (ret =? _FAIL); [done|]. destruct (data_frame_security s2 psta f1); done.
Qed.

(** What the station of [ap] must be like for a frame of TID [tid] and sequence
    control [sc] to pass. *)
Record sta_ready (s : rx_state) (psta : Z) (st : rx_sta) (tid sc rate : Z) : Prop := {
  sr_sta : rx_stas s !! psta = Some st;
  sr_fresh : exists cached, key_at (tid_rxseq st) tid = Some cached /\ cached <> sc;
  sr_iv : is_Some (key_at (rxc_iv st) tid);
  sr_auth : dot11AuthAlgrthm s = dot11AuthAlgrthm_8021X;
  sr_cipher : dot118021XPrivacy st = _AES_;
  sr_open : ieee8021x_blocked st = false;
  sr_rate : is_Some (key_at (ss_rxratecnt (sta_stats st)) rate);
  sr_qos : is_Some (key_at (ss_rx_data_qos_pkts (sta_stats st)) tid) }.

(** The accepted frame. *)
Definition ap_frame (f : rx_frame) (psta : Z) (mac ap src : list Z) (sc qc : Z) : rx_frame :=
  mk_rx_frame (rm_buf f) (rm_data f) (rm_tail f) (rm_len f) 0 (GetFragNum sc) 26 8 8
    1 _AES_ (rm_key_index f) (GetPriority qc) (rm_bdecrypted f) ap mac mac src (GetAMsdu qc) 1 (GetSequence sc)
    (rm_eth_type f)
    (mk_rx_ext 1 0 0 0 (GetAckpolicy qc) (x_data_rate (rm_ext f)) ap (Some psta) (Some (psta, GetPriority qc))) (rm_id f).

Lemma seq_ctrl_join sc : is_u16 sc ->
  u16 (Z.lor (Z.shiftl (Z.land (GetSequence sc) 0xffff) 4) (Z.land (GetFragNum sc) 0xf)) = sc.
Proof.
  unfold in_width. change (2 ^ 16) with 65536. intros Hs. unfold GetSequence, GetFragNum.
  change 0xffff with (Z.ones 16). change 0x0f with (Z.ones 4). change 0xf with (Z.ones 4).
  rewrite !Z.land_ones, Z.shiftr_div_pow2 by lia. change (2 ^ 4) with 16. change (2 ^ 16) with 65536.
  pose proof (Z.mod_pos_bound sc 16 ltac:(lia)) as Hm. pose proof (Z.div_mod sc 16 ltac:(lia)) as Hd.
  rewrite (Z.mod_small (sc mod 16)), (Z.mod_small (sc / 16)) by lia. rewrite Z.lor_comm, lor_shiftl_add by (unfold in_width; lia).
  change (2 ^ 4) with 16. rewrite Z.add_comm, <- Hd. apply wrap_small. unfold in_width. lia.
Qed.

(** What the later stages see of the station is not changed. *)
Definition sta_same (s s1 : rx_state) (psta : Z) (st : rx_sta) : Prop :=
  dot11AuthAlgrthm s1 = dot11AuthAlgrthm s /\ fw_state s1 = fw_state s /\
  exists st1, rx_stas s1 !! psta = Some st1 /\ dot118021XPrivacy st1 = dot118021XPrivacy st /\
    ieee8021x_blocked st1 = ieee8021x_blocked st /\ sta_stats st1 = sta_stats st.

Lemma unicast_decache s psta st g cached hdr :
  rx_stas s !! psta = Some st -> key_at (tid_rxseq st) (rm_priority g) = Some cached -> cached <> seq_ctrl g ->
  is_Some (key_at (rxc_iv st) (rm_priority g)) -> (15 <? rm_priority g) = false -> rm_encrypt g = _AES_ ->
  rdn (rm_buf g) (rm_data g + rm_hdrlen g) 8 = Some hdr -> IS_MCAST (rm_ra g) = false ->
  exists s1, data_frame_decache s psta g =
    Some (_SUCCESS, g <| rm_ext := (rm_ext g) <| x_preorder := Some (psta, rm_priority g) |> |>, s1) /\ sta_same s s1 psta st.
Proof.
  intros R1 Rc Rne [civ R3] Ht He Hr Hm. unfold data_frame_decache. rewrite Hm. cbn [negb]. set (g1 := g <| rm_ext := _ |>).
  unfold recv_decache. rewrite R1. cbn [mbind option_bind].
  change (rm_priority g1) with (rm_priority g). rewrite Ht, Rc. cbn [mbind option_bind]. fold (seq_ctrl g1).
  change (seq_ctrl g1) with (seq_ctrl g). rewrite (proj2 (Z.eqb_neq _ _)) by congruence. cbn [mbind option_bind].
  assert ((_SUCCESS =? _FAIL) = false) as -> by done. set (s0 := set_sta s psta _).
  unfold recv_ucast_pn_decache. change (rx_stas s0) with (<[psta := st <| tid_rxseq := arr_set (tid_rxseq st) (rm_priority g) (seq_ctrl g) |>]> (rx_stas s)).
  rewrite lookup_insert_eq. cbn [mbind option_bind]. change (rm_priority g1) with (rm_priority g). rewrite Ht.
  change (rm_encrypt g1) with (rm_encrypt g). rewrite He. assert ((_AES_ =? _AES_) = true) as -> by done.
  change (rdn (rm_buf g1) (rm_data g1 + rm_hdrlen g1) 8) with (rdn (rm_buf g) (rm_data g + rm_hdrlen g) 8). rewrite Hr. cbn [mbind option_bind].
  change (rxc_iv (st <| tid_rxseq := _ |>)) with (rxc_iv st). rewrite R3. cbn [mbind option_bind].
  destruct (VALID_PN_CHK _ _); cbn [mbind option_bind]; eexists; (split; [reflexivity|]); (split; [done|split; [done|]]);
    (eexists; split; [apply lookup_insert_eq|done]).
Qed.

Lemma security_aes s psta st g :
  rx_stas s !! psta = Some st -> dot11AuthAlgrthm s = dot11AuthAlgrthm_8021X -> dot118021XPrivacy st = _AES_ ->
  rm_privacy g = 1 -> IS_MCAST (rm_ra g) = false ->
  data_frame_security s psta g = Some (g <| rm_encrypt := _AES_ |> <| rm_iv_len := 8 |> <| rm_icv_len := 8 |>).
Proof.
  intros R1 R2 R3 Hp Hm. unfold data_frame_security, GET_ENCRY_ALGO. rewrite Hp, R1. cbn [Z.eqb negb mbind option_bind].
  rewrite R2, R3, Hm. done.
Qed.

Lemma priority_range qc : 0 <= GetPriority qc < 16.
Proof. unfold GetPriority. change 0xf with (Z.ones 4). rewrite Z.land_ones by lia. apply Z.mod_pos_bound. lia. Qed.

(** Frame, verdict and state after the validation of a unicast frame. *)
Lemma validate_ap_unicast now s f pre dur mac ap src sc qc psta st iv rest room :
  joined s mac ap psta -> sta_ready s psta st (GetPriority qc) sc (x_data_rate (rm_ext f)) ->
  holds f pre (ap_hdr dur mac ap src sc qc ++ iv ++ rest) room -> length iv = 8%nat -> rm_encrypt f = _AES_ ->
  length mac = 6%nat -> length ap = 6%nat -> length src = 6%nat -> is_u16 sc -> is_u16 qc ->
  IS_MCAST mac = false -> src <> mac ->
  exists s1, validate_recv_frame rtw_get_stainfo now s f = Some (_SUCCESS, ap_frame f psta mac ap src sc qc, s1) /\ sta_same s s1 psta st.
Proof.
  intros HJ [R1 (cached & Rc & Rne) R3 R4 R5 R6 R7 R8] Hf Hiv He H1 H2 H3 Hs Hq Hm Hsrc.
  rewrite (validate_ap now s f pre dur mac mac ap src sc qc psta (iv ++ rest) room) by (done || by left).
  destruct (unicast_decache (parsed_state s qc) psta st (ap_parsed f psta mac ap src sc qc) cached iv) as (s1 & E & Hst); try done.
  - unfold seq_ctrl. change (rm_seq_num (ap_parsed f psta mac ap src sc qc)) with (GetSequence sc).
    change (rm_frag_num (ap_parsed f psta mac ap src sc qc)) with (GetFragNum sc). by rewrite seq_ctrl_join.
  - apply Z.ltb_ge. pose proof (priority_range qc). change (rm_priority (ap_parsed f psta mac ap src sc qc)) with (GetPriority qc). lia.
  - apply (holds_read f pre (ap_hdr dur mac ap src sc qc) iv rest room 26 8); [done|by rewrite length_ap_hdr|unfold mem_len; lia].
  - rewrite E. cbn [mbind option_bind]. assert ((_SUCCESS =? _FAIL) = false) as -> by done.
    destruct Hst as (A1 & A2 & st1 & L1 & L2 & L3 & L4).
    rewrite (security_aes s1 psta st1); [|exact L1| |by rewrite L2|reflexivity|exact Hm].
    + exists s1. split; [reflexivity|]. split; [done|]. split; [done|]. by exists st1.
    + rewrite A1. exact R4.
Qed.

(** ** From validation to the network stack *)

Section deliver.
Context (x_UncstKey dot11tkiprxmickey : Z -> list Z) (bcmc : Z) (oks : Z -> nat -> msdu_skb).

Lemma qc_of_ap_hdr dur a1 ap src sc qc :
  length a1 = 6%nat -> length ap = 6%nat -> length src = 6%nat ->
  qc_of (ap_hdr dur a1 ap src sc qc) = true /\ header_ok (ap_hdr dur a1 ap src sc qc) true.
Proof.
  intros H1 H2 H3. pose proof (length_ap_hdr dur a1 ap src sc qc H1 H2 H3) as Hl.
  assert (qc_hdrlen (ap_hdr dur a1 ap src sc qc) 26 = (true, 26)) as E by (by unfold qc_hdrlen).
  unfold qc_of, header_ok. rewrite Hl, E. done.
Qed.

Lemma set_key_index_done sec f pre hdr iv rest room :
  holds f pre (hdr ++ iv ++ rest) room -> mem_len hdr = rm_hdrlen f -> length iv = 8%nat ->
  exists k, set_key_index sec f = Some (f <| rm_key_index := k |>).
Proof.
  intros [Hb Hd _ _ _] Hh Hi. unfold set_key_index.
  assert (exists x, rd8 (rm_buf f) (rm_data f + rm_hdrlen f + 3) = Some x) as [x ->].
  { unfold rd8. rewrite (proj2 (Z.leb_le _ _)) by (pose proof (mem_len_nonneg pre); pose proof (mem_len_nonneg hdr); lia).
    apply lookup_lt_is_Some. rewrite Hb, !length_app. unfold mem_len in *. lia. }
  destruct (0 <? rm_encrypt f); [|exists (rm_key_index f); by destruct f].
  cbn [mbind option_bind]. by eexists.
Qed.

(** The decrypted frame. *)
Definition opened (f : rx_frame) (k : Z) (content : list Z) (pre room : list Z) : rx_frame :=
  f <| rm_key_index := k |> <| rm_buf := pre ++ content ++ room |> <| rm_bdecrypted := 1 |>.

Lemma decrypt_done s f pre hdr iv body room psta :
  let key := x_UncstKey psta in
  let c := ccmp_ctr key hdr iv (qc_of hdr) body in
  let t := ccmp_tag key hdr iv (qc_of hdr) body in
  holds f pre (hdr ++ iv ++ c ++ t) room -> length iv = 8%nat ->
  header_ok hdr (qc_of hdr) -> mem_len hdr = rm_hdrlen f -> rm_iv_len f = 8 ->
  rm_encrypt f = _AES_ -> rm_bdecrypted f = 0 -> rtw_get_stainfo (rm_ta f) = Some psta -> IS_MCAST (rm_ra f) = false ->
  mem_len (rp_message s) = MAX_MSG_SIZE -> mem_len (hdr ++ iv ++ c ++ t) <= MAX_MSG_SIZE ->
  exists k m, decryptor rtw_get_stainfo x_UncstKey s f =
    Some (Some (opened f k (hdr ++ iv ++ body ++ t) pre room), s <| hw_decrypted := 0 |> <| rp_message := m |>).
Proof.
  intros key c t Hf Hi Hq Hh Hil He Hb Hta Hra Hm Hsz.
  assert (length t = 8%nat) as Ht by apply length_ccmp_tag.
  destruct (set_key_index_done (rp_sec s) f pre hdr iv (c ++ t) room) as [k Ek]; [done..|].
  destruct (aes_decrypt_done (station_key rtw_get_stainfo x_UncstKey) (rp_sec s)
    (mk_rx_pkt_attrib (rm_encrypt f) (rm_hdrlen f) (rm_iv_len f) k (rm_ra f) (rm_ta f)) key hdr iv c t room (rp_message s))
    as (m & Em & _); try done.
  { unfold aes_rx_key, station_key. cbn [rxa_ta rxa_ra]. by rewrite Hta, Hra. }
  exists k, m. unfold decryptor. rewrite Ek. cbn [mbind option_bind].
  assert (rm_encrypt (f <| rm_key_index := k |>) = _AES_ /\ rm_bdecrypted (f <| rm_key_index := k |>) = 0) as [-> ->] by (split; [exact He|exact Hb]).
  cbn [Z.eqb negb andb _AES_]. unfold sw_decryptor.
  assert (rm_encrypt (f <| rm_key_index := k |>) = _AES_) as -> by exact He.
  assert (is_wep _AES_ = false) as -> by done. assert ((_AES_ =? _TKIP_) = false) as -> by done. assert ((_AES_ =? _AES_) = true) as -> by done.
  destruct Hf as [Hbuf Hd _ Hl _].
  assert (to_sec (f <| rm_key_index := k |>) =
    ccmp_frame (mk_rx_pkt_attrib (rm_encrypt f) (rm_hdrlen f) (rm_iv_len f) k (rm_ra f) (rm_ta f)) hdr iv c t room) as ->.
  { transitivity (mk_recv_frame (mk_rx_pkt_attrib (rm_encrypt f) (rm_hdrlen f) (rm_iv_len f) k (rm_ra f) (rm_ta f)) (rm_len f)
      (drop (Z.to_nat (rm_data f)) (rm_buf f))); [reflexivity|]. unfold ccmp_frame.
    rewrite Hbuf, Hd, Hl. unfold mem_len. rewrite Nat2Z.id, drop_app_length, <- !app_assoc. done. }
  change (rp_sec (s <| hw_decrypted := 0 |>)) with (rp_sec s). change (rp_message (s <| hw_decrypted := 0 |>)) with (rp_message s).
  rewrite Em. cbn [mbind option_bind]. 
  assert (ccmp_ctr key hdr iv (qc_of hdr) c = body) as -> by apply ccmp_ctr_involutive. rewrite decide_True by done. cbn [mbind option_bind].
  assert (forall r, of_sec (f <| rm_key_index := k |>) r = f <| rm_key_index := k |> <| rm_buf := pre ++ rv_data r |>) as Hof.
  { intros r. unfold of_sec.
    change (rm_buf (f <| rm_key_index := k |>)) with (rm_buf f). change (rm_data (f <| rm_key_index := k |>)) with (rm_data f).
    rewrite Hbuf, Hd. unfold mem_len. by rewrite Nat2Z.id, take_app_length. }
  rewrite Hof. cbn [rv_data]. assert ((_SUCCESS =? _FAIL) = false) as -> by done. unfold opened. by rewrite <- !app_assoc.
Qed.

(** Port control and counting let the frame of a ready station pass. *)
Lemma portctrl_open s f psta st :
  rtw_get_stainfo (rm_ta f) = Some psta -> rx_stas (rp_rx s) !! psta = Some st -> ieee8021x_blocked st = false ->
  portctrl rtw_get_stainfo s f = Some (Some f, s).
Proof. intros H1 H2 H3. unfold portctrl. rewrite H1, H2. cbn [mbind option_bind]. rewrite H3. by destruct (_ =? _). Qed.

Lemma count_done s f psta st :
  rx_stas s !! psta = Some st -> is_Some (key_at (ss_rxratecnt (sta_stats st)) (x_data_rate (rm_ext f))) ->
  is_Some (key_at (ss_rx_data_qos_pkts (sta_stats st)) (rm_priority f)) ->
  exists s', count_rx_stats s f (Some psta) = Some s' /\ dbg_rx_drop_count s' = dbg_rx_drop_count s.
Proof.
  intros H1 [r H2] [q H3]. unfold count_rx_stats. set (s0 := if _ && _ then _ else _).
  assert (rx_stas s0 = rx_stas s /\ dbg_rx_drop_count s0 = dbg_rx_drop_count s) as [E0 D0] by (unfold s0; by destruct (_ && _)).
  clearbody s0. rewrite E0, H1. cbn [mbind option_bind]. set (p := if MacAddr_isBcst _ then _ else _).
  assert (ss_rxratecnt p = ss_rxratecnt (sta_stats st) /\ ss_rx_data_qos_pkts p = ss_rx_data_qos_pkts (sta_stats st)) as [-> ->]
    by (unfold p; destruct (MacAddr_isBcst _); [done|]; by destruct (IS_MCAST _)).
  unfold count_at. rewrite H2, H3. cbn [mbind option_bind]. destruct (negb _); cbn [mbind option_bind]; by eexists.
Qed.

(** A block without a block-ack session holds nothing back. *)
Lemma reorder_off s f k c :
  x_preorder (rm_ext f) = Some k -> rp_reorder s !! k = Some c -> ro_enable c = false ->
  exists s', indicatepkt_reorder oks false s f = Some (_SUCCESS, s') /\ rp_up s' = rp_up s /\ rp_free s' = rp_free s /\
    rp_reorder s' = <[k := c]> (rp_reorder s).
Proof.
  intros H1 H2 H3. unfold indicatepkt_reorder. rewrite H1, H2. cbn [mbind option_bind].
  unfold recv_indicatepkt_reorder, reorder_locked. assert (ro_enable (rs_ctrl (window_state s c)) = false) as -> by exact H3.
  rewrite orb_true_r. cbn. by eexists.
Qed.

(** The window of a frame that bypasses it: at the frame, then behind it. *)
Definition window_behind (c : recv_reorder_ctrl) (seq : Z) : recv_reorder_ctrl := c <| indicate_seq := (seq + 1) mod 4096 |>.

Lemma iseq_before s f k c seq :
  x_preorder (rm_ext f) = Some k -> rp_reorder s !! k = Some c ->
  recv_set_iseq_before_mpdu_process s f seq = Some (s <| rp_reorder := <[k := c <| indicate_seq := seq |>]> (rp_reorder s) |>).
Proof. intros H1 H2. unfold recv_set_iseq_before_mpdu_process. by rewrite H1, H2. Qed.

Lemma iseq_after s f k c m seq :
  x_preorder (rm_ext f) = Some k -> rp_reorder s = <[k := c <| indicate_seq := seq |>]> m -> 0 <= seq ->
  exists s', recv_set_iseq_after_mpdu_process s f = Some s' /\ rp_up s' = rp_up s /\ rp_free s' = rp_free s /\
    rp_reorder s' = <[k := window_behind c seq]> m.
Proof.
  intros H1 H2 H3. unfold recv_set_iseq_after_mpdu_process. rewrite H1, H2, lookup_insert_eq. cbn [mbind option_bind].
  eexists. split; [reflexivity|]. cbn. split_and!; [done..|]. rewrite insert_insert_eq, Z.rem_mod_nonneg by lia. done.
Qed.

(** An unfragmented AES frame passes the reassembly. *)
Lemma defrag_pass s f :
  rm_mfrag f = 0 -> rm_frag_num f = 0 -> rm_encrypt f = _AES_ ->
  chk_defrag rtw_get_stainfo dot11tkiprxmickey bcmc s f = Some (Some f, s).
Proof.
  intros H1 H2 H3. unfold chk_defrag, recvframe_chk_defrag, chk_defrag_queue. rewrite H1, H2. cbn [Z.eqb negb mbind option_bind].
  unfold recvframe_chkmic. rewrite H3. destruct (rm_privacy f =? 0); cbn; by destruct s.
Qed.

(** The path is idle and its keys are set. *)
Record main_ready (s : recv_main) (k : Z * Z) : Prop := {
  mr_managed : check_fwstate (rp_rx s) WIFI_MONITOR_STATE = false;
  mr_pending : rp_pending s = [];
  mr_keys : busetkipkey s <> 0;
  mr_reorder : exists c, rp_reorder s !! k = Some c /\ ro_enable c = false;
  mr_message : mem_len (rp_message s) = MAX_MSG_SIZE }.

(** A frame as the hardware hands it over, still encrypted. *)
Record sealed (f : rx_frame) (pre room : list Z) (key : list Z) (hdr iv body : list Z) : Prop := {
  se_holds : holds f pre (hdr ++ iv ++ ccmp_ctr key hdr iv true body ++ ccmp_tag key hdr iv true body) room;
  se_iv : length iv = 8%nat; se_body : bytes body; se_size : 8 <= mem_len body <= 2006;
  se_encrypt : rm_encrypt f = _AES_; se_plain : rm_bdecrypted f = 0 }.

(** Behind validation: the accepted frame is opened and handed up. *)
Lemma posthandle_done s f pre hdr iv body room psta st mac src k :
  let key := x_UncstKey psta in
  sealed f pre room key hdr iv body -> qc_of hdr = true -> header_ok hdr true -> mem_len hdr = 26 ->
  rm_hdrlen f = 26 -> rm_iv_len f = 8 -> rm_icv_len f = 8 -> rm_mfrag f = 0 -> rm_frag_num f = 0 -> rm_privacy f = 1 ->
  rm_amsdu f = 0 -> rm_dst f = mac -> rm_src f = src -> length mac = 6%nat -> length src = 6%nat -> rm_ra f = mac -> IS_MCAST mac = false ->
  x_psta (rm_ext f) = Some psta -> x_preorder (rm_ext f) = Some k -> rtw_get_stainfo (rm_ta f) = Some psta ->
  rx_stas (rp_rx s) !! psta = Some st -> ieee8021x_blocked st = false ->
  is_Some (key_at (ss_rxratecnt (sta_stats st)) (x_data_rate (rm_ext f))) ->
  is_Some (key_at (ss_rx_data_qos_pkts (sta_stats st)) (rm_priority f)) ->
  forall c, rp_reorder s !! k = Some c -> ro_enable c = false -> 0 <= rm_seq_num f -> mem_len (rp_message s) = MAX_MSG_SIZE ->
  exists s', recv_func_posthandle rtw_get_stainfo x_UncstKey dot11tkiprxmickey bcmc oks false s f = Some (_SUCCESS, s') /\
    rp_up s' = rp_up s ++ [eth_packet (mk_msdu mac src body)] /\
    rp_free s' = List.filter (fun i => negb (i =? rm_id f)) (rp_free s) ++ [rm_id f] /\
    rp_reorder s' = <[k := window_behind c (rm_seq_num f)]> (rp_reorder s).
Proof.
  intros key [Hf Hi Hbb Hbs He Hb] Hqc Hok Hh26 Hh Hil Hic Hmf Hfn Hp Ha Hd Hs Lm Ls Hra Hm Hps Hpo Hta R1 R2 R3 R4 c Hc Hen Hseq Hmsg.
  set (t := ccmp_tag key hdr iv true body) in *. assert (mem_len t = 8) as Ht by (unfold t, mem_len; by rewrite length_ccmp_tag).
  assert (mem_len iv = 8) as Hiv by (unfold mem_len; lia).
  assert (mem_len (ccmp_ctr key hdr iv true body) = mem_len body) as Hcl by (unfold mem_len; by rewrite length_ccmp_ctr).
  destruct (decrypt_done s f pre hdr iv body room psta) as (i & m & E); rewrite ?Hqc; fold key t; try done; [by rewrite Hh|by rewrite Hra| |].
  { rewrite !mem_len_app. unfold MAX_MSG_SIZE. lia. }
  unfold recv_func_posthandle. rewrite E. cbn [mbind option_bind]. clear E. rewrite Hqc. fold key t.
  set (s1 := s <| hw_decrypted := 0 |> <| rp_message := m |>). set (g := opened _ _ _ _ _).
  assert (holds g pre ((hdr ++ iv) ++ body ++ t) room) as Hg.
  { destruct Hf as [B1 B2 B3 B4 B5]. split; [unfold g; cbn; by rewrite <- !app_assoc|exact B2|..].
    - change (rm_tail g) with (rm_tail f). rewrite B3, !mem_len_app. lia.
    - change (rm_len g) with (rm_len f). rewrite B4, !mem_len_app. lia.
    - rewrite B1 in B5. change (rm_buf g) with (pre ++ (hdr ++ iv ++ body ++ t) ++ room). rewrite !mem_len_app in *. lia. }
  rewrite defrag_pass by assumption. cbn [mbind option_bind].
  rewrite (portctrl_open s1 g psta st) by assumption. cbn [mbind option_bind]. change (x_psta (rm_ext g)) with (x_psta (rm_ext f)). rewrite Hps.
  destruct (count_done (rp_rx s1) g psta st) as (rx & -> & _); [assumption..|]. cbn [mbind option_bind].
  set (s2 := s1 <| rp_rx := rx |>).
  destruct (reorder_off s2 g k c) as (s3 & E3 & U3 & F3 & O3); [exact Hpo|exact Hc|exact Hen|]. rewrite E3. cbn [mbind option_bind].
  assert ((_SUCCESS =? _FAIL) = false) as Ef by done. assert ((_SUCCESS =? RTW_RX_HANDLED) = false) as -> by done. rewrite Ef.
  assert (rm_dst g = mac /\ rm_src g = src /\ rm_id g = rm_id f) as (D & S & I) by (split_and!; [exact Hd|exact Hs|done]).
  assert (recv_process_mpdu false (oks (rm_id g)) g = Some (_SUCCESS, [eth_packet (mk_msdu mac src body)])) as Em.
  { rewrite <- D, <- S. apply (mpdu_done _ g pre (hdr ++ iv) body t room); [exact Hg|exact Hbb| | |lia| |congruence|congruence|exact Ha];
      rewrite ?mem_len_app; change (rm_hdrlen g) with (rm_hdrlen f); change (rm_iv_len g) with (rm_iv_len f);
      change (rm_encrypt g) with (rm_encrypt f); change (rm_icv_len g) with (rm_icv_len f); rewrite ?He; cbn; lia. }
  rewrite (iseq_before s3 g k c) by (exact Hpo || by rewrite O3, lookup_insert_eq). cbn [mbind option_bind].
  unfold process_mpdu. rewrite Em. cbn [mbind option_bind]. set (s4 := free_recvframe _ _).
  destruct (iseq_after s4 g k c (rp_reorder s) (rm_seq_num f)) as (s5 & -> & U5 & F5 & O5); [exact Hpo| |exact Hseq|].
  { change (<[k := c <| indicate_seq := rm_seq_num f |>]> (rp_reorder s3) = <[k := c <| indicate_seq := rm_seq_num f |>]> (rp_reorder s)).
    rewrite O3. apply insert_insert_eq. }
  cbn [mbind option_bind]. rewrite Ef. exists s5. split; [reflexivity|]. rewrite U5, F5, O5, <- I.
  change (rp_up s) with (rp_up s2). change (rp_free s) with (rp_free s2). rewrite <- U3, <- F3. split; [done|]. by split.
Qed.

Lemma sequence_nonneg sc : is_u16 sc -> 0 <= GetSequence sc.
Proof. intros [H _]. unfold GetSequence. by apply Z.shiftr_nonneg. Qed.

(** The whole receive path on a sealed frame. *)
Lemma sealed_frame_done now s f pre dur mac ap src sc qc psta st iv body room :
  let hdr := ap_hdr dur mac ap src sc qc in
  joined (rp_rx s) mac ap psta -> sta_ready (rp_rx s) psta st (GetPriority qc) sc (x_data_rate (rm_ext f)) ->
  main_ready s (psta, GetPriority qc) -> sealed f pre room (x_UncstKey psta) hdr iv body ->
  length mac = 6%nat -> length ap = 6%nat -> length src = 6%nat -> is_u16 sc -> is_u16 qc ->
  IS_MCAST mac = false -> src <> mac -> GetFragNum sc = 0 -> GetAMsdu qc = 0 ->
  exists s', recv_func rtw_get_stainfo x_UncstKey dot11tkiprxmickey bcmc oks false now s f = Some (_SUCCESS, s') /\
    rp_up s' = rp_up s ++ [eth_packet (mk_msdu mac src body)] /\
    rp_free s' = List.filter (fun i => negb (i =? rm_id f)) (rp_free s) ++ [rm_id f] /\
    exists c, rp_reorder s !! (psta, GetPriority qc) = Some c /\
      rp_reorder s' = <[(psta, GetPriority qc) := window_behind c (GetSequence sc)]> (rp_reorder s).
Proof.
  intros hdr HJ HS [M1 M2 M3 (c & Hc & Hen) M5] HF L1 L2 L3 Hsc Hqc Hm Hsrc Hfrag Ha.
  destruct (qc_of_ap_hdr dur mac ap src sc qc L1 L2 L3) as [Q1 Q2]. destruct HF as [F1 F2 F3 F4 F5 F6].
  destruct (validate_ap_unicast now (rp_rx s) f pre dur mac ap src sc qc psta st iv
    (ccmp_ctr (x_UncstKey psta) hdr iv true body ++ ccmp_tag (x_UncstKey psta) hdr iv true body) room)
    as (rx & Ev & V1 & V2 & st1 & V3 & V4 & V5 & V6); try assumption.
  unfold recv_func. rewrite M1, M2. cbn [length drain_pending].
  set (d := if _ && _ then _ else _). assert (d = Some s) as -> by (unfold d; by destruct (_ && _)). cbn [mbind option_bind].
  unfold recv_func_prehandle. rewrite Ev. cbn [mbind option_bind]. assert (negb (_SUCCESS =? _SUCCESS) = false) as -> by done.
  set (s1 := s <| rp_rx := rx |>). set (g := ap_frame f psta mac ap src sc qc).
  assert (must_wait s1 g = false) as -> by (unfold must_wait; change (busetkipkey s1) with (busetkipkey s);
    rewrite (proj2 (Z.eqb_neq _ _) M3); apply andb_false_r).
  destruct (posthandle_done s1 g pre hdr iv body room psta st1 mac src (psta, GetPriority qc)) with (c := c)
    as (s' & Ep & U & Fr & O); try done.
  - split; [|done..|reflexivity|exact F6]. destruct F1 as [B1 B2 B3 B4 B5]. by split.
  - by apply length_ap_hdr.
  - exact (jn_sta _ _ _ _ HJ).
  - rewrite V5. exact (sr_open _ _ _ _ _ _ HS).
  - rewrite V6. exact (sr_rate _ _ _ _ _ _ HS).
  - rewrite V6. exact (sr_qos _ _ _ _ _ _ HS).
  - by apply sequence_nonneg.
  - exists s'. split; [exact Ep|]. split; [exact U|]. split; [exact Fr|]. exists c. by split.
Qed.

(** C19. From the air to the network stack: a station joined to an access point
    takes a QoS data frame that the access point sealed with the pairwise key
    (AES, whole, not an A-MSDU, no block-ack session) through validation,
    decryption, reassembly, port control and conversion, and hands up exactly
    one Ethernet packet with the frame's addresses and body; the receive frame
    goes back to the free queue, and the reorder window of the frame's station
    and priority, which it bypasses, starts behind it (modulo 4096). *)
Theorem sealed_frame_delivered now s f pre dur mac ap src sc qc psta st iv body room :
  let hdr := ap_hdr dur mac ap src sc qc in
  joined (rp_rx s) mac ap psta -> sta_ready (rp_rx s) psta st (GetPriority qc) sc (x_data_rate (rm_ext f)) ->
  main_ready s (psta, GetPriority qc) -> sealed f pre room (x_UncstKey psta) hdr iv body ->
  length mac = 6%nat -> length ap = 6%nat -> length src = 6%nat -> is_u16 sc -> is_u16 qc ->
  IS_MCAST mac = false -> src <> mac -> GetFragNum sc = 0 -> GetAMsdu qc = 0 ->
  exists s', recv_func rtw_get_stainfo x_UncstKey dot11tkiprxmickey bcmc oks false now s f = Some (_SUCCESS, s') /\
    rp_up s' = rp_up s ++ [eth_packet (mk_msdu mac src body)] /\
    rp_free s' = List.filter (fun i => negb (i =? rm_id f)) (rp_free s) ++ [rm_id f] /\
    exists c, rp_reorder s !! (psta, GetPriority qc) = Some c /\
      rp_reorder s' = <[(psta, GetPriority qc) := window_behind c (GetSequence sc)]> (rp_reorder s).
Proof. apply sealed_frame_done. Qed.
End deliver.
End ap.

(** ** Group frames *)

(** A protected frame of the access point to a group, as the hardware hands it
    over. *)
Record group_frame (mac ap : list Z) (f : rx_frame) (pre hdr iv rest room : list Z) : Prop := {
  gf_holds : holds f pre (hdr ++ iv ++ rest) room;
  gf_hdr : exists dur g src sc qc, hdr = ap_hdr dur g ap src sc qc /\ length g = 6%nat /\ length src = 6%nat /\
    is_u16 sc /\ is_u16 qc /\ IS_MCAST g = true /\ src <> mac;
  gf_iv : length iv = 8%nat; gf_bytes : bytes iv; gf_aes : rm_encrypt f = _AES_ }.

Section group.
Context (rtw_get_stainfo : list Z -> option Z) (x_UncstKey dot11tkiprxmickey : Z -> list Z) (bcmc : Z) (oks : Z -> nat -> msdu_skb).

(** A station that waits for frames of the network of [ap]. *)
Record listens (s : recv_main) (mac ap : list Z) (psta : Z) : Prop := {
  ls_joined : joined rtw_get_stainfo (rp_rx s) mac ap psta; ls_ap : length ap = 6%nat;
  ls_managed : check_fwstate (rp_rx s) WIFI_MONITOR_STATE = false; ls_pending : rp_pending s = [] }.

(** The packet number that follows on [c], or any when none was seen. *)
Definition pn_next (c pn : Z) : bool := (c =? 0) || ((1 <=? (pn - c) mod 2 ^ 48) && ((pn - c) mod 2 ^ 48 <=? 2 ^ 47)).

Definition pn_moved (s : rx_state) (iv : list Z) : rx_state :=
  s <| iv_seq := arr_set (iv_seq s) (ccmp_keyid iv) (le_enc 8 (ccmp_pn iv)) |>.

Lemma group_decache s psta f pre dur g ap src sc qc iv rest room cached :
  holds f pre (ap_hdr dur g ap src sc qc ++ iv ++ rest) room -> length g = 6%nat -> length ap = 6%nat -> length src = 6%nat ->
  IS_MCAST g = true -> length iv = 8%nat -> bytes iv -> rm_encrypt f = _AES_ -> check_fwstate s WIFI_STATION_STATE = true ->
  key_at (iv_seq s) (ccmp_keyid iv) = Some cached ->
  data_frame_decache (parsed_state s qc) psta (ap_parsed f psta g ap src sc qc) =
    Some (if pn_next (le_dec cached mod 2 ^ 48) (ccmp_pn iv)
          then (_SUCCESS, (ap_parsed f psta g ap src sc qc) <| rm_ext := (rm_ext (ap_parsed f psta g ap src sc qc)) <| x_preorder := None |> |>,
                pn_moved (parsed_state s qc) iv)
          else (_FAIL, ap_parsed f psta g ap src sc qc, parsed_state s qc)).
Proof.
  intros Hf Hg Ha Hs Hm Hi Hb He Hst Hk. unfold data_frame_decache.
  change (rm_ra (ap_parsed f psta g ap src sc qc)) with g. rewrite Hm. cbn [negb].
  rewrite (bcast_pn_done (parsed_state s qc) (ap_parsed f psta g ap src sc qc) iv cached); [|exact He|exact Hst| |exact Hb|exact Hk].
  - fold (pn_next (le_dec cached mod 2 ^ 48) (ccmp_pn iv)). by destruct (pn_next _ _).
  - apply (holds_read f pre (ap_hdr dur g ap src sc qc) iv rest room 26 8); [done|by rewrite length_ap_hdr|unfold mem_len; lia].
Qed.

(** The key index of the receive path is one of four. *)
Lemma key_index_done sec f pre hdr iv rest room :
  holds f pre (hdr ++ iv ++ rest) room -> mem_len hdr = rm_hdrlen f -> length iv = 8%nat -> rm_encrypt f = _AES_ ->
  exists k, set_key_index sec f = Some (f <| rm_key_index := k |>) /\ 0 <= k < 4.
Proof.
  intros [Hb Hd _ _ _] Hh Hi He. unfold set_key_index. rewrite He. change (0 <? _AES_) with true. cbn beta iota.
  assert (exists x, rd8 (rm_buf f) (rm_data f + rm_hdrlen f + 3) = Some x) as [x ->].
  { unfold rd8. rewrite (proj2 (Z.leb_le _ _)) by (pose proof (mem_len_nonneg pre); pose proof (mem_len_nonneg hdr); lia).
    apply lookup_lt_is_Some. rewrite Hb, !length_app. unfold mem_len in *. lia. }
  cbn [mbind option_bind]. change 0x3 with (Z.ones 2). rewrite Z.land_ones by lia.
  pose proof (Z.mod_pos_bound (Z.shiftr x 6) (2 ^ 2) ltac:(lia)) as Hm. change (2 ^ 2) with 4 in *.
  rewrite (proj2 (Z.ltb_ge _ _)) by (unfold WEP_KEYS; lia). eexists. split; [reflexivity|done].
Qed.

(** [t] is the code of the content under none of the group keys. *)
Record forged (s : recv_main) (hdr iv c t : list Z) : Prop := {
  fg_keys : (4 <= length (dot118021XGrpKey (rp_sec s)))%nat;
  fg_code : Forall (fun key => t <> ccmp_tag key hdr iv true (ccmp_ctr key hdr iv true c)) (dot118021XGrpKey (rp_sec s));
  fg_tag : length t = 8%nat; fg_size : mem_len (hdr ++ iv ++ c ++ t) <= MAX_MSG_SIZE; fg_message : mem_len (rp_message s) = MAX_MSG_SIZE }.

Lemma group_key_at sec i : (4 <= length (dot118021XGrpKey sec))%nat -> 0 <= i < 4 ->
  exists key, key_at (dot118021XGrpKey sec) i = Some key /\ In key (dot118021XGrpKey sec).
Proof.
  intros Hl Hi. unfold key_at. rewrite (proj2 (Z.leb_le _ _)) by lia.
  destruct (lookup_lt_is_Some_2 (dot118021XGrpKey sec) (Z.to_nat i)) as [key E]; [lia|].
  exists key. split; [exact E|]. by eapply list_elem_of_In, list_elem_of_lookup_2.
Qed.

(** Decryption refuses it. *)
Lemma forged_refused s f pre hdr iv c t room psta :
  holds f pre (hdr ++ iv ++ c ++ t) room -> forged s hdr iv c t -> header_ok hdr true -> qc_of hdr = true -> mem_len hdr = rm_hdrlen f ->
  length iv = 8%nat -> rm_iv_len f = 8 -> rm_encrypt f = _AES_ -> rm_bdecrypted f = 0 ->
  rtw_get_stainfo (rm_ta f) = Some psta -> IS_MCAST (rm_ra f) = true ->
  exists s', decryptor rtw_get_stainfo x_UncstKey s f = Some (None, s') /\
    rp_up s' = rp_up s /\ rp_rx s' = rp_rx s /\ rp_pending s' = rp_pending s.
Proof.
  intros Hf [K1 K2 K3 K4 K5] Hok Hqc Hh Hi Hil He Hb Hta Hra.
  destruct (key_index_done (rp_sec s) f pre hdr iv (c ++ t) room) as (k & Ek & Hk); [done..|].
  unfold decryptor. rewrite Ek. cbn [mbind option_bind].
  set (f1 := f <| rm_key_index := k |>). assert (rm_encrypt f1 = _AES_ /\ rm_bdecrypted f1 = 0) as [E1 E2] by (split; [exact He|exact Hb]).
  rewrite E1, E2. cbn [Z.eqb negb andb _AES_]. unfold sw_decryptor. rewrite E1. set (s1 := s <| hw_decrypted := 0 |>).
  assert (is_wep _AES_ = false) as -> by done. assert ((_AES_ =? _TKIP_) = false) as -> by done. assert ((_AES_ =? _AES_) = true) as -> by done.
  set (ra := mk_rx_pkt_attrib (rm_encrypt f) (rm_hdrlen f) (rm_iv_len f) k (rm_ra f) (rm_ta f)).
  assert (to_sec f1 = ccmp_frame ra hdr iv c t room) as ->.
  { destruct Hf as [Hbuf Hd _ Hl _]. transitivity (mk_recv_frame ra (rm_len f) (drop (Z.to_nat (rm_data f)) (rm_buf f))); [reflexivity|].
    unfold ccmp_frame. rewrite Hbuf, Hd, Hl. unfold mem_len. rewrite Nat2Z.id, drop_app_length, <- !app_assoc. done. }
  destruct (group_key_at (rp_sec s) k K1 Hk) as (key & Ekey & Hin).
  assert (exists m r, rtw_aes_decrypt (station_key rtw_get_stainfo x_UncstKey) (rp_sec s1) (rp_message s1) (ccmp_frame ra hdr iv c t room)
    = Some (_FAIL, m, r)) as (m & r & ->).
  { assert (aes_rx_key (station_key rtw_get_stainfo x_UncstKey) (rp_sec s1) ra = Some None \/
            aes_rx_key (station_key rtw_get_stainfo x_UncstKey) (rp_sec s1) ra = Some (Some key)) as [Hn|Hs].
    { unfold aes_rx_key, station_key. cbn [ra rxa_ta rxa_ra rxa_key_index]. rewrite Hta, Hra. cbn [fmap option_fmap option_map].
      change (rp_sec s1) with (rp_sec s). rewrite Ekey. destruct (_ =? 0); [by left|]. cbn [mbind option_bind]. destruct (_ =? k); [by right|by left]. }
    - unfold rtw_aes_decrypt. cbn [ccmp_frame rv_attrib]. rewrite Hn. cbn [ra rxa_encrypt]. rewrite He. cbn. by eexists _, _.
    - destruct (aes_decrypt_done (station_key rtw_get_stainfo x_UncstKey) (rp_sec s1) ra key hdr iv c t room (rp_message s1))
        as (m & Em & _); try done; [unfold ccmp_hdr; cbn [fr_hdr]; by rewrite Hqc|].
      rewrite Hqc in Em. rewrite decide_False in Em by exact (proj1 (Forall_forall _ _) K2 key Hin). rewrite Em. by eexists _, _. }
  cbn [mbind option_bind]. assert ((_FAIL =? _FAIL) = true) as -> by done. eexists. split; [reflexivity|]. done.
Qed.

(** A group frame whose packet number does not follow on the last one. *)
Lemma stale_refused now s mac ap psta f pre hdr iv rest room cached :
  listens s mac ap psta -> group_frame mac ap f pre hdr iv rest room ->
  key_at (iv_seq (rp_rx s)) (ccmp_keyid iv) = Some cached -> pn_next (le_dec cached mod 2 ^ 48) (ccmp_pn iv) = false ->
  exists s', recv_func rtw_get_stainfo x_UncstKey dot11tkiprxmickey bcmc oks false now s f = Some (_FAIL, s') /\
    rp_up s' = rp_up s /\ iv_seq (rp_rx s') = iv_seq (rp_rx s) /\ listens s' mac ap psta.
Proof.
  intros [HJ La Hman Hp] [Hf (dur & g & src & sc & qc & -> & Lg & Ls & Us & Uq & Hm & Hne) Hi Hb He] Hk Hn.
  unfold recv_func. rewrite Hman, Hp. cbn [length drain_pending].
  set (d := if _ && _ then _ else _). assert (d = Some s) as -> by (unfold d; by destruct (_ && _)). cbn [mbind option_bind].
  unfold recv_func_prehandle.
  rewrite (validate_ap rtw_get_stainfo now (rp_rx s) f pre dur mac g ap src sc qc psta (iv ++ rest) room) by (done || by right).
  rewrite (group_decache (rp_rx s) psta f pre dur g ap src sc qc iv rest room cached); try done; [|exact (jn_station _ _ _ _ _ HJ)].
  rewrite Hn. cbn [mbind option_bind]. assert ((_FAIL =? _FAIL) = true) as -> by done. cbn [mbind option_bind].
  assert (negb (_FAIL =? _SUCCESS) = true) as -> by done. eexists. split; [reflexivity|]. split; [done|]. split; [done|].
  destruct HJ as [J1 J2 J3 J4 J5 J6]. split; [by split|exact La|exact Hman|exact Hp].
Qed.

(** A forged one whose packet number follows. *)
Lemma forged_moves_window now s mac ap psta st f pre hdr iv c t room cached :
  listens s mac ap psta -> group_frame mac ap f pre hdr iv (c ++ t) room -> forged s hdr iv c t -> rm_bdecrypted f = 0 ->
  rx_stas (rp_rx s) !! psta = Some st ->
  dot11AuthAlgrthm (rp_rx s) = dot11AuthAlgrthm_8021X -> dot118021XGrpPrivacy (rp_rx s) = _AES_ ->
  key_at (iv_seq (rp_rx s)) (ccmp_keyid iv) = Some cached -> pn_next (le_dec cached mod 2 ^ 48) (ccmp_pn iv) = true ->
  exists s', recv_func rtw_get_stainfo x_UncstKey dot11tkiprxmickey bcmc oks false now s f = Some (_FAIL, s') /\
    rp_up s' = rp_up s /\ iv_seq (rp_rx s') = iv_seq (pn_moved (rp_rx s) iv) /\ listens s' mac ap psta.
Proof.
  intros [HJ La Hman Hp] [Hf (dur & g & src & sc & qc & -> & Lg & Ls & Us & Uq & Hm & Hne) Hi Hb He] Hfg Hdec Hst Ha Hgp Hk Hn.
  unfold recv_func. rewrite Hman, Hp. cbn [length drain_pending].
  set (d := if _ && _ then _ else _). assert (d = Some s) as -> by (unfold d; by destruct (_ && _)). cbn [mbind option_bind].
  unfold recv_func_prehandle.
  rewrite (validate_ap rtw_get_stainfo now (rp_rx s) f pre dur mac g ap src sc qc psta (iv ++ c ++ t) room) by (done || by right).
  rewrite (group_decache (rp_rx s) psta f pre dur g ap src sc qc iv (c ++ t) room cached); try done; [|exact (jn_station _ _ _ _ _ HJ)].
  rewrite Hn. cbn [mbind option_bind]. assert ((_SUCCESS =? _FAIL) = false) as -> by done.
  set (rx := pn_moved (parsed_state (rp_rx s) qc) iv). set (f0 := _ <| rm_ext := _ |>).
  assert (data_frame_security rx psta f0 = Some (f0 <| rm_encrypt := _AES_ |> <| rm_iv_len := 8 |> <| rm_icv_len := 8 |>)) as ->.
  { unfold data_frame_security. change (rm_privacy f0) with 1. cbn [Z.eqb negb]. change (rx_stas rx) with (rx_stas (rp_rx s)). rewrite Hst.
    cbn [mbind option_bind]. unfold GET_ENCRY_ALGO. change (dot11AuthAlgrthm rx) with (dot11AuthAlgrthm (rp_rx s)).
    change (dot118021XGrpPrivacy rx) with (dot118021XGrpPrivacy (rp_rx s)). change (rm_ra f0) with g. rewrite Ha, Hgp, Hm. done. }
  cbn [mbind option_bind]. assert (negb (_SUCCESS =? _SUCCESS) = false) as -> by done.
  set (f1 := f0 <| rm_encrypt := _ |> <| rm_iv_len := _ |> <| rm_icv_len := _ |>). set (s1 := s <| rp_rx := rx |>).
  assert (must_wait s1 f1 = false) as -> by (unfold must_wait; change (rm_ra f1) with g; rewrite Hm; by rewrite andb_false_r).
  destruct (qc_of_ap_hdr dur g ap src sc qc Lg La Ls) as [Q1 Q2].
  destruct (forged_refused s1 f1 pre (ap_hdr dur g ap src sc qc) iv c t room psta) as (s2 & E2 & U & R & P); try done.
  - destruct Hf as [B1 B2 B3 B4 B5]. by split.
  - destruct Hfg as [? ? ? ? ?]. by split.
  - by apply length_ap_hdr.
  - exact (jn_sta _ _ _ _ _ HJ).
  - unfold recv_func_posthandle. rewrite E2. cbn [mbind option_bind]. eexists. split; [reflexivity|].
    unfold rx_dropped. cbn. rewrite U, R. split; [done|]. split; [done|].
    destruct HJ as [J1 J2 J3 J4 J5 J6]. split; [by split|exact La|exact Hman|by etransitivity; [exact P|]].
Qed.
End group.

(** The frames of a list, one after the other. *)
Definition recv_all (find : list Z -> option Z) (key_of tkip : Z -> list Z) (bcmc : Z) (oks : Z -> nat -> msdu_skb) :=
  fix go (s : recv_main) (fs : list (Z * rx_frame)) : option (list Z * recv_main) :=
    match fs with
    | [] => Some ([], s)
    | (now, f) :: fs => '(r, s) ← recv_func find key_of tkip bcmc oks false now s f; '(rs, s) ← go s fs; Some (r :: rs, s)
    end.

(** A group frame of key [k] whose packet number does not follow on [pn]. *)
Definition not_next (mac ap : list Z) (k pn : Z) (f : rx_frame) : Prop :=
  exists pre hdr iv rest room, group_frame mac ap f pre hdr iv rest room /\ ccmp_keyid iv = k /\ pn_next pn (ccmp_pn iv) = false.

Lemma stale_all_refused find key_of tkip bcmc oks mac ap psta k pn cached fs :
  le_dec cached mod 2 ^ 48 = pn -> Forall (fun x => not_next mac ap k pn x.2) fs ->
  forall s, listens find s mac ap psta -> key_at (iv_seq (rp_rx s)) k = Some cached ->
  exists s', recv_all find key_of tkip bcmc oks s fs = Some (repeat _FAIL (length fs), s') /\ rp_up s' = rp_up s.
Proof.
  intros Hpn. induction 1 as [|[now f] fs (pre & hdr & iv & rest & room & Hf & Hk & Hn) _ IH]; intros s Hs Hc; [by exists s|].
  destruct (stale_refused find key_of tkip bcmc oks now s mac ap psta f pre hdr iv rest room cached) as (s1 & E1 & U1 & I1 & L1);
    [exact Hs|exact Hf|by rewrite Hk|by rewrite Hpn|].
  destruct (IH s1 L1) as (s2 & E2 & U2); [by rewrite I1|].
  exists s2. cbn [recv_all]. rewrite E1. cbn [mbind option_bind]. rewrite E2. split; [done|]. by rewrite U2.
Qed.

(** Half the number space ahead of [c] no number that follows on [c] is left. *)
Lemma half_ahead_blocks c x :
  (c + 2 ^ 47) mod 2 ^ 48 <> 0 -> c <> 0 -> pn_next c x = true -> pn_next ((c + 2 ^ 47) mod 2 ^ 48) x = false.
Proof.
  unfold pn_next. intros Hp Hc. rewrite (proj2 (Z.eqb_neq _ _) Hp), (proj2 (Z.eqb_neq _ _) Hc). cbn [orb].
  rewrite andb_true_iff, !Z.leb_le, andb_false_iff, !Z.leb_gt. rewrite Zminus_mod_idemp_r.
  replace (x - (c + 2 ^ 47)) with (x - c - 2 ^ 47) by lia. intros [H1 H2]. rewrite Zminus_mod.
  set (d := (x - c) mod 2 ^ 48) in *. change ((2 ^ 47) mod 2 ^ 48) with (2 ^ 47).
  destruct (Z.eq_dec d (2 ^ 47)) as [->|Hne]; [left; by rewrite Z.sub_diag, Z.mod_0_l|].
  right. replace (d - 2 ^ 47) with (d + 2 ^ 47 + -1 * 2 ^ 48) by (change (2 ^ 48) with (2 * 2 ^ 47); lia).
  rewrite Z.mod_add, Z.mod_small by lia. lia.
Qed.

(** C40. Anybody can stop group traffic. A group frame whose integrity code is
    right under none of the station's group keys is dropped, but when its
    packet number follows on the last one of its key identifier it becomes the
    last one; from then on any run of group frames of that identifier whose
    numbers do not follow on it is dropped, whether they are genuine or not;
    and a number half the space ahead of the last one leaves none of the numbers
    that followed on it. *)
Theorem forged_group_frame_blocks find key_of tkip bcmc oks now s mac ap psta st f pre hdr iv c t room cached :
  let last := le_dec cached mod 2 ^ 48 in
  listens find s mac ap psta -> group_frame mac ap f pre hdr iv (c ++ t) room -> forged s hdr iv c t -> rm_bdecrypted f = 0 ->
  rx_stas (rp_rx s) !! psta = Some st ->
  dot11AuthAlgrthm (rp_rx s) = dot11AuthAlgrthm_8021X -> dot118021XGrpPrivacy (rp_rx s) = _AES_ ->
  key_at (iv_seq (rp_rx s)) (ccmp_keyid iv) = Some cached -> pn_next last (ccmp_pn iv) = true ->
  exists s1, recv_func find key_of tkip bcmc oks false now s f = Some (_FAIL, s1) /\ rp_up s1 = rp_up s /\
    (forall fs, Forall (fun x => not_next mac ap (ccmp_keyid iv) (ccmp_pn iv) x.2) fs ->
      exists s2, recv_all find key_of tkip bcmc oks s1 fs = Some (repeat _FAIL (length fs), s2) /\ rp_up s2 = rp_up s) /\
    (last <> 0 -> ccmp_pn iv = (last + 2 ^ 47) mod 2 ^ 48 -> ccmp_pn iv <> 0 ->
      forall x, pn_next last x = true -> pn_next (ccmp_pn iv) x = false).
Proof.
  intros last Hs Hf Hfg Hd Hst Ha Hg Hk Hn.
  destruct (forged_moves_window find key_of tkip bcmc oks now s mac ap psta st f pre hdr iv c t room cached)
    as (s1 & E & U & I & L); try done.
  exists s1. split; [exact E|]. split; [exact U|]. split.
  - intros fs Hfs. destruct (stale_all_refused find key_of tkip bcmc oks mac ap psta (ccmp_keyid iv) (ccmp_pn iv) (le_enc 8 (ccmp_pn iv)) fs)
      with (s := s1) as (s2 & E2 & U2); [|exact Hfs|exact L| |exists s2; by rewrite U2].
    + destruct Hf as [_ _ Hi Hb _]. pose proof (ccmp_pn_width iv Hb Hi) as Hw. unfold in_width in Hw.
      rewrite le_dec_enc_small by (unfold in_width; change (8 * Z.of_nat 8) with 64; lia). apply Z.mod_small. exact Hw.
    + rewrite I. by eapply key_at_set.
  - intros Hl -> Hz x Hx. by apply half_ahead_blocks.
Qed.

(** ** Concrete runs *)

Definition demo_iv : list Z := [1; 0; 0; 0x20; 0; 0; 0; 0].

Definition sealed_content (hdr iv body : list Z) : list Z :=
  hdr ++ iv ++ ccmp_ctr sec_key hdr iv true body ++ ccmp_tag sec_key hdr iv true body.

Definition demo_hdr (a1 : list Z) (sc qc : Z) : list Z := ap_hdr 0 a1 demo_ap demo_peer sc qc.

(** Packet number [lo] of key identifier 1, and one half the space ahead. *)
Definition group_iv (lo hi : Z) : list Z := [lo; 0; 0; 0x60; 0; 0; 0; hi].

Definition genuine_group : rx_frame := air_frame 7 _AES_ (sealed_content (demo_hdr demo_bcast 32 0) (group_iv 7 0) demo_ip).
Definition forged_group : rx_frame := air_frame 8 _AES_ (demo_hdr demo_bcast 16 0 ++ group_iv 5 0x80 ++ repeat 0x5a 16 ++ repeat 0x5a 8).

(** The station has seen packet number 5 of this key. *)
Definition demo_group_main : recv_main :=
  (demo_main true) <| rp_rx := (demo_rx_state true) <| iv_seq := arr_set (repeat (repeat 0 8) 4) 1 (le_enc 8 5) |> |>.

(** What is seen of a run: the verdict and an observation of the state. *)
Lemma run_seen {A} (o : option (Z * recv_main)) (see : recv_main -> A) r x :
  (prod_map id see <$> o) = Some (r, x) -> exists s', o = Some (r, s') /\ see s' = x.
Proof. destruct o as [[r' s']|]; [|done]. cbn. intros [= -> <-]. by exists s'. Qed.

Lemma forged_group_frame_blocks_witness :
  (exists s3, demo_recv demo_group_main genuine_group = Some (_SUCCESS, s3) /\ rp_up s3 = [eth_packet (mk_msdu demo_bcast demo_peer demo_ip)]) /\
  exists s1, demo_recv demo_group_main forged_group = Some (_FAIL, s1) /\ rp_up s1 = [] /\
    (exists s2, recv_all demo_find (fun _ => sec_key) (fun _ => []) 0 demo_skbs s1 [(1, genuine_group)] = Some ([_FAIL], s2) /\ rp_up s2 = []) /\
    forall x, pn_next 5 x = true -> pn_next (5 + 2 ^ 47) x = false.
Proof.
  split.
  { apply (run_seen (demo_recv demo_group_main genuine_group) rp_up _SUCCESS [eth_packet (mk_msdu demo_bcast demo_peer demo_ip)]). by vm_compute. }
  assert (forall iv, iv = group_iv 5 0x80 \/ iv = group_iv 7 0 -> bytes iv) as Hiv
    by (intros iv [-> | ->]; repeat constructor; vm_compute; congruence).
  assert (forall sc, sc = 16 \/ sc = 32 -> exists dur g src sc' qc, demo_hdr demo_bcast sc 0 = ap_hdr dur g demo_ap src sc' qc /\ length g = 6%nat /\
    length src = 6%nat /\ is_u16 sc' /\ is_u16 qc /\ IS_MCAST g = true /\ src <> demo_mac) as Hhdr
    by (intros sc Hsc; exists 0, demo_bcast, demo_peer, sc, 0; split_and!; try done; unfold in_width; lia).
  destruct (forged_group_frame_blocks demo_find (fun _ => sec_key) (fun _ => []) 0 demo_skbs 0 demo_group_main demo_mac demo_ap 1 (demo_sta _AES_)
    forged_group [0; 0] (demo_hdr demo_bcast 16 0) (group_iv 5 0x80) (repeat 0x5a 16) (repeat 0x5a 8) (repeat 0 32) (le_enc 8 5))
    as (s1 & E & U & F & H).
  - split; [by split|done|done|done].
  - split; [split; by vm_compute|apply Hhdr; by left|done|apply Hiv; by left|done].
  - split; [vm_compute; lia| |done|by vm_compute|done].
    assert (forallb (fun key => negb (bool_decide (repeat 0x5a 8 = ccmp_tag key (demo_hdr demo_bcast 16 0) (group_iv 5 0x80) true
      (ccmp_ctr key (demo_hdr demo_bcast 16 0) (group_iv 5 0x80) true (repeat 0x5a 16))))) (dot118021XGrpKey (rp_sec demo_group_main)) = true) as Hb
      by (by vm_compute).
    rewrite forallb_forall in Hb. apply List.Forall_forall. intros key Hin. specialize (Hb key Hin). apply negb_true_iff, bool_decide_eq_false in Hb. exact Hb.
  - done.
  - reflexivity.
  - done.
  - done.
  - by vm_compute.
  - by vm_compute.
  - exists s1. split; [exact E|]. split; [exact U|]. split.
    + apply (F [(1, genuine_group)]). constructor; [|done].
      exists [0; 0], (demo_hdr demo_bcast 32 0), (group_iv 7 0), (skipn 34 (sealed_content (demo_hdr demo_bcast 32 0) (group_iv 7 0) demo_ip)), (repeat 0 32).
      split; [|split; by vm_compute]. split; [split; by vm_compute|apply Hhdr; by right|done|apply Hiv; by right|done].
    + apply H; by vm_compute.
Defined.

(** A reassembled frame that the reorder window refuses is lost and its last
    fragment is freed twice: of the frames 11 and 12, 12 is free, 11 is in no
    place any more, and [free_recvframe_cnt] counts two frames in a queue of
    one. *)
Theorem refused_reassembly_leaks :
  exists s1 s2, demo_recv (demo_main false) (open_fragment 11 0 1 (repeat 1 20)) = Some (_SUCCESS, s1) /\
    demo_recv s1 (open_fragment 12 1 0 (repeat 2 20)) = Some (_FAIL, s2) /\
    held s1 = [11] /\ held s2 = [12] /\ rp_free s2 = [12] /\ rp_free_cnt s2 = 2.
Proof.
  destruct (run_seen (demo_recv (demo_main false) (open_fragment 11 0 1 (repeat 1 20)))
    (fun s => (held s, prod_map id (fun t => (held t, rp_free t, rp_free_cnt t)) <$> demo_recv s (open_fragment 12 1 0 (repeat 2 20))))
    _SUCCESS ([11], Some (_FAIL, ([12], [12], 2)))) as (s1 & E1 & [= H1 E2]); [by vm_compute|].
  destruct (run_seen _ _ _ _ E2) as (s2 & E3 & [= H2 F2 C2]). exists s1, s2. exact (conj E1 (conj E3 (conj H1 (conj H2 (conj F2 C2))))).
Qed.

Lemma sealed_frame_delivered_witness :
  exists s', recv_func demo_find (fun _ => sec_key) (fun _ => []) 0 demo_skbs false 0 (demo_main true)
      (air_frame 7 _AES_ (sealed_content (demo_hdr demo_mac 80 5) demo_iv demo_ip)) = Some (_SUCCESS, s') /\
    rp_up s' = [] ++ [eth_packet (mk_msdu demo_mac demo_peer demo_ip)] /\
    rp_free s' = [] ++ [7] /\
    exists c, demo_blocks !! (1, 5) = Some c /\ rp_reorder s' = <[(1, 5) := window_behind c 5]> demo_blocks.
Proof.
  apply (sealed_frame_delivered demo_find (fun _ => sec_key) (fun _ => []) 0 demo_skbs 0 (demo_main true)
    (air_frame 7 _AES_ (sealed_content (demo_hdr demo_mac 80 5) demo_iv demo_ip)) [0; 0] 0 demo_mac demo_ap demo_peer 80 5 1
    (demo_sta _AES_) demo_iv demo_ip (repeat 0 32)).
  - by split.
  - split; [reflexivity|by exists 0xffff|by eexists|done..|by eexists|by eexists].
  - split; try done. eexists. split; [reflexivity|done].
  - split; try done. repeat constructor; vm_compute; congruence.
  - done.
  - done.
  - done.
  - by vm_compute.
  - by vm_compute.
  - done.
  - done.
  - done.
  - done.
Defined.
