(* ===== verification/XmitData.v ===== *)
(** * Attributes of a packet to send (core/rtw_xmit.c, [update_attrib])

    [struct pkt_attrib] is filled from the Ethernet packet, the station it
    goes to and the state of the adapter: addresses, cipher and IV, rate
    control data, QoS.  A packet is the data of its sk_buff, [pkt_file] the
    rest of it.  Built with CONFIG_LPS and without CONFIG_TDLS,
    CONFIG_WAPI_SUPPORT, CONFIG_CONCURRENT_MODE, CONFIG_WMMPS_STA,
    CONFIG_BEAMFORMING and checksum offload; no rule of the session tracker is
    registered.  Calls into power saving and scanning are recorded in
    [tx_calls]. *)

From S2P Require Import Prelude Mem Arc4 SecDefs Wep Ccmp RecvFrame Msdu RecvData.
Definition ETH_P_IP : Z := 0x0800.
Definition _FW_LINKED : Z := WIFI_ASOC_STATE.
Definition WIRELESS_11_24N : Z := 8.
Definition HT_IOT_PEER_ATHEROS : Z := 5.
Definition NONE_VCS : Z := 0.
Definition RTS_CTS : Z := 1.
Definition CTS_TO_SELF : Z := 2.

(** ** State *)

(** The fields for rate control and protection. *)
Record phy_attrib := mk_phy_attrib {
  ph_rtsen : Z; ph_cts2self : Z; ph_raid : Z; ph_bwmode : Z; ph_sgi : Z; ph_ldpc : Z; ph_stbc : Z;
  ph_ht_en : Z; ph_ch_offset : Z; ph_ampdu_en : Z; ph_ampdu_spacing : Z; ph_amsdu_ampdu_en : Z;
  ph_triggered : Z; ph_retry_ctrl : Z; ph_rate : Z; ph_vcs_mode : Z; ph_hw_ssn_sel : Z }.

#[export] Instance eta_phy_attrib : Eta phy_attrib := fun p =>
  mk_phy_attrib (ph_rtsen p) (ph_cts2self p) (ph_raid p) (ph_bwmode p) (ph_sgi p) (ph_ldpc p) (ph_stbc p)
    (ph_ht_en p) (ph_ch_offset p) (ph_ampdu_en p) (ph_ampdu_spacing p) (ph_amsdu_ampdu_en p)
    (ph_triggered p) (ph_retry_ctrl p) (ph_rate p) (ph_vcs_mode p) (ph_hw_ssn_sel p).

(** [struct pkt_attrib]; [at_psta] is the pointer to the station. *)
Record tx_attrib := mk_tx_attrib {
  at_subtype : Z; at_bswenc : bool; at_dhcp_pkt : Z; at_icmp_pkt : Z; at_ether_type : Z; at_seqnum : Z;
  at_pkt_hdrlen : Z; at_hdrlen : Z; at_pktlen : Z; at_last_txcmdsz : Z; at_nr_frags : Z;
  at_encrypt : Z; at_iv_len : Z; at_icv_len : Z; at_iv : list Z; at_icv : list Z;
  at_priority : Z; at_ack_policy : Z; at_mac_id : Z;
  at_dst : list Z; at_src : list Z; at_ta : list Z; at_ra : list Z;
  at_key_idx : Z; at_qos_en : Z; at_amsdu : Z; at_mdata : Z; at_pctrl : Z; at_eosp : Z; at_psta : option Z;
  at_tkiptxmickey : list Z; at_UncstKey : list Z; at_phy : phy_attrib }.

#[export] Instance eta_tx_attrib : Eta tx_attrib := fun a =>
  mk_tx_attrib (at_subtype a) (at_bswenc a) (at_dhcp_pkt a) (at_icmp_pkt a) (at_ether_type a) (at_seqnum a)
    (at_pkt_hdrlen a) (at_hdrlen a) (at_pktlen a) (at_last_txcmdsz a) (at_nr_frags a)
    (at_encrypt a) (at_iv_len a) (at_icv_len a) (at_iv a) (at_icv a) (at_priority a) (at_ack_policy a) (at_mac_id a)
    (at_dst a) (at_src a) (at_ta a) (at_ra a) (at_key_idx a) (at_qos_en a) (at_amsdu a) (at_mdata a) (at_pctrl a)
    (at_eosp a) (at_psta a) (at_tkiptxmickey a) (at_UncstKey a) (at_phy a).

(** [rtw_init_xmitframe]: all zero. *)
Definition zero_attrib : tx_attrib :=
  mk_tx_attrib 0 false 0 0 0 0 0 0 0 0 0 0 0 0 (repeat 0 18) (repeat 0 16) 0 0 0 (repeat 0 6) (repeat 0 6) (repeat 0 6) (repeat 0 6)
    0 0 0 0 0 0 None (repeat 0 16) (repeat 0 16) (mk_phy_attrib 0 0 0 0 0 0 0 0 0 0 0 0 0 0 0 0 0).

(** What rate control knows of a station. *)
Record sta_phy := mk_sta_phy {
  sp_rtsen : Z; sp_cts2self : Z; rate_id : Z; bw_mode : Z; ldpc_en : Z; stbc_en : Z;
  ht_option : Z; ht_ch_offset : Z; sgi_20m : Z; sgi_40m : Z; vht_option : Z; sgi_80m : Z;
  rx_ampdu_min_spacing : Z; ampdu_enable : Z; agg_enable_bitmap : Z; tx_amsdu_enable : Z }.

#[export] Instance eta_sta_phy : Eta sta_phy := fun p =>
  mk_sta_phy (sp_rtsen p) (sp_cts2self p) (rate_id p) (bw_mode p) (ldpc_en p) (stbc_en p) (ht_option p) (ht_ch_offset p) (sgi_20m p)
    (sgi_40m p) (vht_option p) (sgi_80m p) (rx_ampdu_min_spacing p) (ampdu_enable p) (agg_enable_bitmap p) (tx_amsdu_enable p).

(** The transmit side of [struct sta_info]; its cipher and port are in the
    [rx_sta] of the same index. *)
Record tx_sta := mk_tx_sta {
  ts_state : Z; ts_mac_id : Z; ts_qos_option : Z; ts_init_rate : Z; dot11txpn : Z;
  dot118021x_UncstKey : list Z; dot11tkiptxmickey : list Z; txseq_tid : list Z; BA_starting_seqctrl : list Z; ts_phy : sta_phy }.

#[export] Instance eta_tx_sta : Eta tx_sta := fun s =>
  mk_tx_sta (ts_state s) (ts_mac_id s) (ts_qos_option s) (ts_init_rate s) (dot11txpn s) (dot118021x_UncstKey s)
    (dot11tkiptxmickey s) (txseq_tid s) (BA_starting_seqctrl s) (ts_phy s).

(** What protection and bandwidth depend on beside the station. *)
Record tx_config := mk_tx_config {
  cur_bwmode : Z; cur_channel : Z; tx_bw_2g : Z; tx_bw_5g : Z; driver_ampdu_spacing : Z; cur_wireless_mode : Z;
  wifi_spec : Z; rts_thresh : Z; assoc_AP_vendor : Z; HT_protection : Z; driver_vcs_en : Z; driver_vcs_type : Z;
  hardware_8812 : bool; hw_ssn_seq_no : Z }.

Inductive tx_call := ScanDeny | LpsLeave | LpsSpecialPacket.

(** The adapter: [tx_rx] holds the parts it shares with the receive path. *)
Record tx_state := mk_tx_state {
  tx_rx : rx_state; tx_sec : security_priv; tx_stas : gmap Z tx_sta; dot118021XGrptxmickey : list (list Z);
  tx_sw_encrypt : bool; tx_hw_decrypted : bool; tx_busetkipkey : bool; pk_gk_conflict : bool;
  qos_option : Z; acm_mask : Z; tx_frag_len : Z; tx_crc : crc_state; tx_cfg : tx_config; tx_calls : list tx_call }.

#[export] Instance eta_tx_state : Eta tx_state := fun s =>
  mk_tx_state (tx_rx s) (tx_sec s) (tx_stas s) (dot118021XGrptxmickey s) (tx_sw_encrypt s) (tx_hw_decrypted s)
    (tx_busetkipkey s) (pk_gk_conflict s) (qos_option s) (acm_mask s) (tx_frag_len s) (tx_crc s) (tx_cfg s) (tx_calls s).

Definition call (s : tx_state) (c : tx_call) : tx_state := s <| tx_calls := tx_calls s ++ [c] |>.

(** ** Reading the packet (os_dep/linux/xmit_linux.c) *)

(** What is left of the packet. *)
Definition pkt_file := list Z.

(** [_rtw_pktfile_read]: the bytes read; [rlen] is a [uint]. *)
Definition pktfile_read (pf : pkt_file) (rlen : Z) : list Z * pkt_file :=
  let n := Z.to_nat (Z.min (u32 rlen) (mem_len pf)) in (take n pf, drop n pf).

Definition endofpktfile (pf : pkt_file) : bool := mem_len pf =? 0.

(** A read into a local array of [n] bytes, whose content was [junk]. *)
Definition read_local (junk : list Z) (pf : pkt_file) (n : Z) : list Z * pkt_file :=
  let '(bs, pf) := pktfile_read pf n in
  (bs ++ drop (length bs) (take (Z.to_nat n) (junk ++ repeat 0 (Z.to_nat n))), pf).

(** ** Cipher *)

(** The byte [TSCi] of a packet number. *)
Definition TSC (pn i : Z) : Z := u8 (Z.shiftr pn (8 * i)).

Definition WEP_IV (pn keyidx : Z) : list Z * Z :=
  ([TSC pn 0; TSC pn 1; TSC pn 2; u8 (Z.shiftl (Z.land keyidx 0x3) 6)], if pn =? 0xffffff then 0 else u64 (pn + 1)).

Definition TKIP_IV (pn keyidx : Z) : list Z * Z :=
  ([TSC pn 1; Z.land (Z.lor (TSC pn 1) 0x20) 0x7f; TSC pn 0; u8 (Z.lor 0x20 (Z.shiftl (Z.land keyidx 0x3) 6));
    TSC pn 2; TSC pn 3; TSC pn 4; TSC pn 5], if pn =? 0xffffffffffff then 0 else u64 (pn + 1)).

Definition AES_IV (pn keyidx : Z) : list Z * Z :=
  ([TSC pn 0; TSC pn 1; 0; u8 (Z.lor 0x20 (Z.shiftl (Z.land keyidx 0x3) 6));
    TSC pn 2; TSC pn 3; TSC pn 4; TSC pn 5], if pn =? 0xffffffffffff then 0 else u64 (pn + 1)).

(** The IV at the front of the attribute's array. *)
Definition put_iv (a : tx_attrib) (iv : list Z) : list Z := iv ++ drop (length iv) (at_iv a).

Definition set_txpn (s : tx_state) (psta : Z) (xs : tx_sta) (pn : Z) : tx_state :=
  s <| tx_stas := <[psta := xs <| dot11txpn := pn |>]> (tx_stas s) |>.

(** The lengths and the IV of the cipher. *)
Definition cipher_iv (s : tx_state) (a : tx_attrib) (psta : Z) (xs : tx_sta) (bmcast : bool) : Z * tx_attrib * tx_state :=
  let keyidx := if bmcast then at_key_idx a else 0 in
  if is_wep (at_encrypt a) then
    let '(iv, pn) := WEP_IV (dot11txpn xs) (at_key_idx a) in
    (_SUCCESS, a <| at_iv_len := 4 |> <| at_icv_len := 4 |> <| at_iv := put_iv a iv |>, set_txpn s psta xs pn)
  else if at_encrypt a =? _TKIP_ then
    let a := a <| at_iv_len := 8 |> <| at_icv_len := 4 |> in
    if negb (tx_busetkipkey s) then (_FAIL, a, s)
    else
      let '(iv, pn) := TKIP_IV (dot11txpn xs) keyidx in
      (_SUCCESS, a <| at_iv := put_iv a iv |> <| at_tkiptxmickey := dot11tkiptxmickey xs |>, set_txpn s psta xs pn)
  else if at_encrypt a =? _AES_ then
    let '(iv, pn) := AES_IV (dot11txpn xs) keyidx in
    (_SUCCESS, a <| at_iv_len := 8 |> <| at_icv_len := 8 |> <| at_iv := put_iv a iv |>, set_txpn s psta xs pn)
  else (_SUCCESS, a <| at_iv_len := 0 |> <| at_icv_len := 0 |>, s).

(** Outside MP mode. *)
Definition update_attrib_sec_info (s : tx_state) (a : tx_attrib) (psta : Z) : option (Z * tx_attrib * tx_state) :=
  let bmcast := IS_MCAST (at_ra a) in
  let auth := dot11AuthAlgrthm (tx_rx s) in
  xs ← tx_stas s !! psta;
  st ← rx_stas (tx_rx s) !! psta;
  let a := a <| at_UncstKey := repeat 0 16 |> <| at_tkiptxmickey := repeat 0 16 |> <| at_mac_id := ts_mac_id xs |> in
  let a := if ieee8021x_blocked st then a <| at_encrypt := 0 |>
           else
             let encrypt := GET_ENCRY_ALGO (tx_rx s) st (at_encrypt a) bmcast in
             let key_idx :=
               if (auth =? dot11AuthAlgrthm_Open) || (auth =? dot11AuthAlgrthm_Shared) || (auth =? dot11AuthAlgrthm_Auto)
               then u8 (dot11PrivacyKeyIndex (tx_sec s))
               else if auth =? dot11AuthAlgrthm_8021X then if bmcast then u8 (dot118021XGrpKeyid (tx_sec s)) else 0
               else 0 in
             a <| at_key_idx := key_idx |>
               <| at_encrypt := if is_wep encrypt && (at_ether_type a =? 0x888e) then _NO_PRIVACY_ else encrypt |> in
  if ieee8021x_blocked st && negb (at_ether_type a =? 0x888e) then Some (_FAIL, a, s)
  else
    let '(ret, a, s) := cipher_iv s a psta xs bmcast in
    if ret =? _FAIL then Some (_FAIL, a, s)
    else
      let encrypted := 0 <? at_encrypt a in
      let a := if encrypted then a <| at_UncstKey := dot118021x_UncstKey xs |> else a in
      let bswenc := encrypted && (tx_sw_encrypt s || negb (tx_hw_decrypted s)) in
      Some (_SUCCESS, a <| at_bswenc := bswenc || (encrypted && bmcast && pk_gk_conflict s) |>, s).

(** ** Rate control and protection *)

Definition rtw_get_tx_bw_mode (s : tx_state) (p : sta_phy) : Z :=
  let c := tx_cfg s in
  if negb (Z.land (fw_state (tx_rx s)) WIFI_ASOC_STATE =? 0)
  then Z.min (bw_mode p) (if cur_channel c <=? 14 then tx_bw_2g c else tx_bw_5g c)
  else bw_mode p.

Definition query_ra_short_GI (p : sta_phy) (bw : Z) : Z :=
  if bw =? 2 then if negb (vht_option p =? 0) then sgi_80m p else 0 else if bw =? 1 then sgi_40m p else sgi_20m p.

Definition update_attrib_phy_info (s : tx_state) (a : tx_attrib) (xs : tx_sta) : tx_attrib :=
  let p := ts_phy xs in
  let c := tx_cfg s in
  let bwmode := Z.min (rtw_get_tx_bw_mode s p) (cur_bwmode c) in
  let old := at_phy a in
  let ampdu := negb (ht_option p =? 0) && negb (ampdu_enable p =? 0) && Z.testbit (agg_enable_bitmap p) (at_priority a) in
  let phy := mk_phy_attrib (sp_rtsen p) (sp_cts2self p) (rate_id p) bwmode (query_ra_short_GI p bwmode) (ldpc_en p) (stbc_en p)
    (ht_option p) (ht_ch_offset p) (Z.b2z ampdu)
    (if negb (driver_ampdu_spacing c =? 0xff) then driver_ampdu_spacing c else rx_ampdu_min_spacing p)
    (if ampdu then Z.b2z (tx_amsdu_enable p =? 1) else ph_amsdu_ampdu_en old)
    0 0 (ph_rate old) (ph_vcs_mode old) (ph_hw_ssn_sel old) in
  a <| at_mdata := 0 |> <| at_eosp := 0 |> <| at_qos_en := u8 (ts_qos_option xs) |> <| at_phy := phy |>.

(** [update_attrib_vcs_info], when the frame has been built. *)
Definition update_attrib_vcs_info (s : tx_state) (a : tx_attrib) : tx_attrib :=
  let c := tx_cfg s in
  let p := at_phy a in
  let sz := if negb (at_nr_frags a =? 1) then tx_frag_len s else at_last_txcmdsz a in
  let erp (otherwise : Z) :=
    if negb (ph_rtsen p =? 0) then RTS_CTS else if negb (ph_cts2self p =? 0) then CTS_TO_SELF else otherwise in
  let op := HT_protection c in
  let vcs :=
    if (cur_wireless_mode c <? WIRELESS_11_24N) || negb (wifi_spec c =? 0) then
      if rts_thresh c <? sz then RTS_CTS else erp NONE_VCS
    else if (assoc_AP_vendor c =? HT_IOT_PEER_ATHEROS) && (ph_ampdu_en p =? 1) && (dot11PrivacyAlgrthm (tx_rx s) =? _AES_) then CTS_TO_SELF
    else erp
      (if negb (ph_ht_en p =? 0) && (if negb (cur_bwmode c =? 0) then (op =? 2) || (op =? 3) else op =? 3) then RTS_CTS
       else if rts_thresh c <? sz then RTS_CTS
       else if (ph_ampdu_en p =? 1) && negb (hardware_8812 c) then RTS_CTS
       else NONE_VCS) in
  let vcs := if driver_vcs_en c =? 1 then driver_vcs_type c else vcs in
  a <| at_phy := p <| ph_vcs_mode := vcs |> |>.

(** ** QoS *)

Definition qos_acm (mask priority : Z) : Z :=
  if (priority =? 0) || (priority =? 3) then if Z.testbit mask 1 then 1 else priority
  else if (priority =? 4) || (priority =? 5) then if Z.testbit mask 2 then 0 else priority
  else if (priority =? 6) || (priority =? 7) then if Z.testbit mask 3 then 5 else priority
  else priority.

(** [junk]: the content of the local [ip_hdr]. *)
Definition set_qos (junk : list Z) (pkt : list Z) (a : tx_attrib) : tx_attrib :=
  let '(_, pf) := pktfile_read pkt ETH_HLEN in
  let prio := if at_ether_type a =? 0x0800
              then let '(ip_hdr, _) := read_local junk pf 20 in Z.shiftr (arr_get ip_hdr 1) 5
              else 0 in
  a <| at_priority := prio |> <| at_hdrlen := WLAN_HDR_A3_QOS_LEN |> <| at_subtype := WIFI_QOS_DATA_TYPE |>.

(** ** [update_attrib] *)

Section attrib.
(** [rtw_get_stainfo], and the content of the local arrays before they are
    read into. *)
Context (rtw_get_stainfo : list Z -> option Z) (junk : list Z).

Definition bc_addr : list Z := repeat 0xff 6.
Definition rtw_get_bcmc_stainfo : option Z := rtw_get_stainfo bc_addr.

(** Receiver and transmitter by the state of the adapter. *)
Definition tx_addresses (s : rx_state) (a : tx_attrib) : tx_attrib :=
  if check_fwstate s WIFI_ADHOC_STATE || check_fwstate s WIFI_ADHOC_MASTER_STATE then a <| at_ra := at_dst a |> <| at_ta := myhwaddr s |>
  else if check_fwstate s WIFI_STATION_STATE then a <| at_ra := mybssid s |> <| at_ta := myhwaddr s |>
  else if check_fwstate s WIFI_AP_STATE then a <| at_ra := at_dst a |> <| at_ta := mybssid s |>
  else a.

(** What an IPv4 packet carries.  With options, [GET_IPV4_IHL(ip) - 20]
    bytes are skipped. *)
Definition parse_ip (pf : pkt_file) (a : tx_attrib) : tx_attrib :=
  let '(ip, pf) := read_local junk pf 20 in
  let ihl := Z.land (arr_get ip 0) 0xf in
  let pf := if 20 <? ihl * 4 then (pktfile_read pf (ihl - 20)).2 else pf in
  let a := a <| at_icmp_pkt := 0 |> <| at_dhcp_pkt := 0 |> in
  if arr_get ip 9 =? 0x01 then a <| at_icmp_pkt := 1 |>
  else if arr_get ip 9 =? 0x11 then
    let '(udp, _) := read_local junk pf 8 in
    let src := RTW_GET_BE16 udp in
    let dst := RTW_GET_BE16 (drop 2 udp) in
    if (((src =? 68) && (dst =? 67)) || ((src =? 67) && (dst =? 68))) && (282 <? at_pktlen a) then a <| at_dhcp_pkt := 1 |> else a
  else a.

Definition update_attrib (s : tx_state) (pkt : list Z) (a : tx_attrib) : option (Z * tx_attrib * tx_state) :=
  let rx := tx_rx s in
  let '(etherhdr, pf) := read_local junk pkt ETH_HLEN in
  let a := a <| at_ether_type := RTW_GET_BE16 (drop 12 etherhdr) |> <| at_dst := take 6 etherhdr |>
             <| at_src := take 6 (drop 6 etherhdr) |> in
  let a := tx_addresses rx a in
  let bmcast := IS_MCAST (at_ra a) in
  match (if bmcast then rtw_get_bcmc_stainfo else rtw_get_stainfo (at_ra a)) with
  | None => Some (_FAIL, a, s)
  | Some psta =>
      xs ← tx_stas s !! psta;
      if Z.land (ts_state xs) _FW_LINKED =? 0 then Some (_FAIL, a, s)
      else
        let a := a <| at_pktlen := mem_len pf |> in
        let a := if at_ether_type a =? ETH_P_IP then parse_ip pf a else a in
        let s := if (at_ether_type a =? 0x888e) || (at_dhcp_pkt a =? 1) then call s ScanDeny else s in
        let s := if at_icmp_pkt a =? 1 then call s LpsLeave else if at_dhcp_pkt a =? 1 then call s LpsSpecialPacket else s in
        '(ret, a, s) ← update_attrib_sec_info s a psta;
        if ret =? _FAIL then Some (_FAIL, a, s)
        else
          let a := update_attrib_phy_info s a xs in
          let a := a <| at_psta := Some psta |> <| at_pctrl := 0 |> <| at_ack_policy := 0 |> <| at_pkt_hdrlen := ETH_HLEN |>
                     <| at_hdrlen := WLAN_HDR_A3_LEN |> <| at_subtype := WIFI_DATA_TYPE |> <| at_priority := 0 |> in
          let a := if bmcast then a <| at_phy := (at_phy a) <| ph_rate := ts_init_rate xs |> |> else a in
          let a :=
            if check_fwstate rx (Z.lor WIFI_AP_STATE (Z.lor WIFI_ADHOC_STATE WIFI_ADHOC_MASTER_STATE)) then
              if negb (at_qos_en a =? 0) then set_qos junk pkt a else a
            else if negb (qos_option s =? 0) then
              let a := set_qos junk pkt a in
              if negb (acm_mask s =? 0) then a <| at_priority := qos_acm (acm_mask s) (at_priority a) |> else a
            else a in
          Some (_SUCCESS, a <| at_phy := (at_phy a) <| ph_hw_ssn_sel := hw_ssn_seq_no (tx_cfg s) |> |>, s)
  end.
End attrib.
