(* ===== verification/XmitFrame.v ===== *)
(** * Building the frame of a packet (core/rtw_xmit.c)

    [rtw_make_wlanhdr], [rtw_put_snap], [rtw_xmitframe_coalesce], which lays
    the fragments of a packet out in the transmit buffer, [xmitframe_addmic]
    and [xmitframe_swencrypt], with CONFIG_USB_TX_AGGREGATION.  A write that
    leaves the buffer is [None]. *)

From S2P Require Import Prelude Mem Arc4 SecDefs Wep Michael Tkip Ccmp Reorder RecvFrame Msdu RecvData XmitData.
Definition WLANHDR_OFFSET : Z := 64.
Definition P802_1H_OUI : list Z := [0x00; 0x00; 0xf8].
Definition RFC1042_OUI : list Z := [0x00; 0x00; 0x00].
Definition _TO_DS_ : Z := 0x0100.
Definition _FROM_DS_ : Z := 0x0200.
Definition _MORE_FRAG_ : Z := 0x0400.
Definition _MORE_DATA_ : Z := 0x2000.
Definition _PRIVACY_ : Z := 0x4000.

(** [struct xmit_frame]; [tf_buf] is the memory at [buf_addr], 0 is [NULL]. *)
Record tx_frame := mk_tx_frame { tf_attrib : tx_attrib; tf_pkt_offset : Z; tf_buf_addr : Z; tf_buf : list Z }.

#[export] Instance eta_tx_frame : Eta tx_frame := fun f =>
  mk_tx_frame (tf_attrib f) (tf_pkt_offset f) (tf_buf_addr f) (tf_buf f).

(** The fields the cipher routines read. *)
Definition to_pa (a : tx_attrib) : pkt_attrib :=
  mk_pkt_attrib (at_encrypt a) (at_hdrlen a) (at_iv_len a) (at_icv_len a) (at_nr_frags a) (at_last_txcmdsz a)
    (at_ra a) (at_ta a) (at_UncstKey a).

Definition to_xf (f : tx_frame) : xmit_frame := mk_xmit_frame (to_pa (tf_attrib f)) (tf_pkt_offset f) (tf_buf_addr f) (tf_buf f).

(** ** Header *)

(** The 16-bit field at [off] with the bits of [v] set. *)
Definition or16 (h : list Z) (off v : Z) : option (list Z) :=
  x ← rdn h off 2; wrn h off (le_enc 2 (Z.lor (le_dec x) v)).

(** The field with only the bits of [m] kept. *)
Definition and16 (h : list Z) (off m : Z) : option (list Z) :=
  x ← rdn h off 2; wrn h off (le_enc 2 (Z.land (le_dec x) m)).

Definition set_frame_sub_type (h : list Z) (type : Z) : option (list Z) := h ← and16 h 0 0xff03; or16 h 0 (u16 type).

(** [SetSeqNum]. *)
Definition SetSeqNum (h : list Z) (num : Z) : option (list Z) :=
  h ← and16 h 22 0x000f; or16 h 22 (Z.land 0xfff0 (Z.shiftl num 4)).

(** The three addresses behind frame control and duration. *)
Definition put_addrs (h a1 a2 a3 : list Z) : option (list Z) := h ← wrn h 4 a1; h ← wrn h 10 a2; wrn h 16 a3.

(** Direction and addresses; whether the frame has a QoS field; [None] inside
    is [_FAIL]. *)
Definition wlanhdr_addrs (s : tx_state) (h : list Z) (a : tx_attrib) : option (option (list Z * bool)) :=
  let rx := tx_rx s in
  if check_fwstate rx WIFI_STATION_STATE then
    h ← or16 h 0 _TO_DS_; h ← put_addrs h (mybssid rx) (at_ta a) (at_dst a); Some (Some (h, negb (qos_option s =? 0)))
  else if check_fwstate rx WIFI_AP_STATE then
    h ← or16 h 0 _FROM_DS_; h ← put_addrs h (at_dst a) (mybssid rx) (at_src a); Some (Some (h, negb (at_qos_en a =? 0)))
  else if check_fwstate rx WIFI_ADHOC_STATE || check_fwstate rx WIFI_ADHOC_MASTER_STATE then
    h ← put_addrs h (at_dst a) (at_ta a) (mybssid rx); Some (Some (h, negb (at_qos_en a =? 0)))
  else Some None.

(** The QoS control field, in the last two bytes of the header. *)
Definition wlanhdr_qc (h : list Z) (a : tx_attrib) : option (list Z) :=
  let qc := at_hdrlen a - 2 in
  h ← (if negb (at_priority a =? 0) then or16 h qc (Z.land (at_priority a) 0xf) else Some h);
  h ← or16 h qc (Z.shiftl (Z.land (at_eosp a) 1) 4);
  h ← or16 h qc (Z.shiftl (Z.land (at_ack_policy a) 3) 5);
  if negb (at_amsdu a =? 0) then or16 h qc (Z.shiftl (Z.land (at_amsdu a) 1) 7) else Some h.

(** The next sequence number of the TID, and the check of the block-ack
    agreement. *)
Definition wlanhdr_seq (s : tx_state) (h : list Z) (a : tx_attrib) (psta : Z) (xs : tx_sta)
    : option (list Z * tx_attrib * tx_state) :=
  seq ← key_at (txseq_tid xs) (at_priority a);
  let seqnum := Z.land (u16 (seq + 1)) 0xfff in
  let xs := xs <| txseq_tid := arr_set (txseq_tid xs) (at_priority a) seqnum |> in
  let a := a <| at_seqnum := seqnum |> in
  h ← SetSeqNum h seqnum;
  let starting := BA_starting_seqctrl xs in
  '(a, xs) ←
    (if ph_ampdu_en (at_phy a) =? 1 then
       let tid := Z.land (at_priority a) 0x0f in
       tx_seq ← key_at starting tid;
       let ampdu_en := Z.b2z (negb (SN_LESS seqnum tx_seq)) in
       let next := if SN_LESS seqnum tx_seq then tx_seq else if SN_EQUAL seqnum tx_seq then Z.land (tx_seq + 1) 0xfff
                   else Z.land (seqnum + 1) 0xfff in
       Some (a <| at_phy := (at_phy a) <| ph_ampdu_en := ampdu_en |> |>,
             xs <| BA_starting_seqctrl := arr_set starting tid next |>)
     else Some (a, xs));
  Some (h, a, s <| tx_stas := <[psta := xs]> (tx_stas s) |>).

Section frame.
Context (rtw_get_stainfo : list Z -> option Z).

(** [rtw_make_wlanhdr]: the verdict and the first [WLANHDR_OFFSET] bytes. *)
Definition rtw_make_wlanhdr (s : tx_state) (a : tx_attrib) : option (Z * list Z * tx_attrib * tx_state) :=
  let h := repeat 0 (Z.to_nat WLANHDR_OFFSET) in
  h ← set_frame_sub_type h (at_subtype a);
  if Z.land (at_subtype a) WIFI_DATA_TYPE =? 0 then Some (_SUCCESS, h, a, s)
  else
    r ← wlanhdr_addrs s h a;
    match r : option (list Z * bool) with
    | None => Some (_FAIL, h, a, s)
    | Some (h, qos) =>
        h ← (if negb (at_mdata a =? 0) then or16 h 0 _MORE_DATA_ else Some h);
        h ← (if negb (at_encrypt a =? 0) then or16 h 0 _PRIVACY_ else Some h);
        h ← (if qos then wlanhdr_qc h a else Some h);
        match rtw_get_stainfo (at_ra a) with
        | None => Some (_FAIL, h, a, s)
        | Some psta =>
            if negb (bool_decide (at_psta a = Some psta)) then Some (_FAIL, h, a, s)
            else
              xs ← tx_stas s !! psta;
              if Z.land (ts_state xs) _FW_LINKED =? 0 then Some (_FAIL, h, a, s)
              else '(h, a, s) ← wlanhdr_seq s h a psta xs; Some (_SUCCESS, h, a, s)
        end
    end.

(** [rtw_put_snap]: the LLC and SNAP header, and its size. *)
Definition rtw_put_snap (buf : list Z) (data h_proto : Z) : option (Z * list Z) :=
  let oui := if (h_proto =? 0x8137) || (h_proto =? 0x80f3) then P802_1H_OUI else RFC1042_OUI in
  buf ← wrn buf data ([0xaa; 0xaa; 0x03] ++ oui);
  buf ← wrn buf (data + SNAP_SIZE) (be16 h_proto);
  Some (SNAP_SIZE + 2, buf).

(** ** Fragments *)

(** One turn of the loop: the buffer, what is left of the packet, the end of
    the fragment, the bytes of the packet in it and [llc_sz]. *)
Definition put_fragment (a : tx_attrib) (bmcst : bool) (frg_len : Z) (frg_inx : Z) (buf : list Z) (mem_start : Z) (pf : pkt_file)
    : option (list Z * pkt_file * Z * Z * Z) :=
  buf ← or16 buf mem_start _MORE_FRAG_;
  let pframe := mem_start + at_hdrlen a in
  let mpdu_len := frg_len - at_hdrlen a in
  buf ← (if negb (at_iv_len a =? 0) then wrn buf pframe (take (Z.to_nat (at_iv_len a)) (at_iv a)) else Some buf);
  let pframe := pframe + at_iv_len a in
  let mpdu_len := mpdu_len - at_iv_len a in
  '(llc_sz, buf) ← (if frg_inx =? 0 then rtw_put_snap buf pframe (at_ether_type a) else Some (0, buf));
  let pframe := pframe + llc_sz in
  let icv := (0 <? at_icv_len a) && at_bswenc a in
  let mpdu_len := mpdu_len - llc_sz - (if icv then at_icv_len a else 0) in
  let '(bs, pf) := pktfile_read pf (if bmcst then at_pktlen a else mpdu_len) in
  buf ← wrn buf pframe bs;
  let pframe := pframe + mem_len bs in
  buf ← (if icv then wrn buf pframe (take (Z.to_nat (at_icv_len a)) (at_icv a)) else Some buf);
  Some (buf, pf, pframe + (if icv then at_icv_len a else 0), mem_len bs, llc_sz).

(** [while (1)]; the header of the first fragment is at [hw]. *)
Fixpoint fragment_loop (fuel : nat) (a : tx_attrib) (bmcst : bool) (frg_len addr hw : Z) (frg_inx : Z)
    (buf : list Z) (mem_start : Z) (pf : pkt_file) : option (list Z * tx_attrib) :=
  match fuel with
  | O => None
  | S fuel =>
      '(buf, pf, pframe, mem_sz, llc_sz) ← put_fragment a bmcst frg_len frg_inx buf mem_start pf;
      let frg_inx := frg_inx + 1 in
      if bmcst || endofpktfile pf then
        let nr_frags := u8 frg_inx in
        let a := a <| at_nr_frags := nr_frags |>
                   <| at_last_txcmdsz := u32 (at_hdrlen a + at_iv_len a + (if nr_frags =? 1 then llc_sz else 0)
                                              + (if at_bswenc a then at_icv_len a else 0) + mem_sz) |> in
        buf ← and16 buf mem_start (Z.land (Z.lnot _MORE_FRAG_) 0xffff);
        Some (buf, a)
      else
        let mem_start := RND4 (addr + pframe) - addr + hw in
        h ← rdn buf hw (at_hdrlen a);
        buf ← wrn buf mem_start h;
        fragment_loop fuel a bmcst frg_len addr hw frg_inx buf mem_start pf
  end.

(** ** The Michael code of a TKIP frame *)

(** The payloads of the fragments; returns the state and the end of the last. *)
Fixpoint mic_fragments (n : nat) (a : tx_attrib) (frag_len addr : Z) (curfragnum : Z) (buf : list Z) (payload : Z) (d : mic_data)
    : option (mic_data * Z) :=
  match n with
  | O => Some (d, payload)
  | S n =>
      let payload := RND4 (addr + payload) - addr + at_hdrlen a + at_iv_len a in
      let over := at_hdrlen a + at_iv_len a + (if at_bswenc a then at_icv_len a else 0) in
      if curfragnum + 1 =? at_nr_frags a then
        let length := s32 (at_last_txcmdsz a - over) in
        bs ← rdn buf payload (u32 length);
        mic_fragments n a frag_len addr (curfragnum + 1) buf (payload + length) (rtw_secmicappend d bs)
      else
        let length := s32 (frag_len - over) in
        bs ← rdn buf payload (u32 length);
        mic_fragments n a frag_len addr (curfragnum + 1) buf (payload + length + at_icv_len a) (rtw_secmicappend d bs)
  end.

Definition xmitframe_addmic (s : tx_state) (f : tx_frame) : option (Z * tx_frame) :=
  let a := tf_attrib f in
  if at_encrypt a =? _TKIP_ then
    let pframe := hw_hdr_offset (to_xf f) in
    let buf := tf_buf f in
    key ← (if IS_MCAST (at_ra a) then key_at (dot118021XGrptxmickey s) (dot118021XGrpKeyid (tx_sec s)) else Some (at_tkiptxmickey a));
    if _rtw_memcmp (take 16 key) (repeat 0 16) then Some (_FAIL, f)
    else
      let d := rtw_secmicsetkey key in
      ds ← rd8 buf (pframe + 1);
      let toDS := negb (Z.land ds 1 =? 0) in
      let fromDS := negb (Z.land ds 2 =? 0) in
      DA ← rdn buf (pframe + (if toDS then 16 else 4)) 6;
      SA ← rdn buf (pframe + (if toDS then (if fromDS then 24 else 10) else (if fromDS then 16 else 10))) 6;
      let d := rtw_secmicappend (rtw_secmicappend d DA) SA in
      let d := rtw_secmicappend d [if negb (at_qos_en a =? 0) then u8 (at_priority a) else 0; 0; 0; 0] in
      '(d, payload) ← mic_fragments (Z.to_nat (at_nr_frags a)) a (tx_frag_len s) (tf_buf_addr f) 0 buf pframe d;
      buf ← wrn buf payload (rtw_secgetmic d).1;
      Some (_SUCCESS, f <| tf_buf := buf |> <| tf_attrib := a <| at_last_txcmdsz := u32 (at_last_txcmdsz a + 8) |> |>)
  else Some (_SUCCESS, f).

(** ** Software encryption, which is not checked *)

Definition xmitframe_swencrypt (s : tx_state) (f : tx_frame) : option (tx_frame * tx_state) :=
  let a := tf_attrib f in
  if at_bswenc a then
    if is_wep (at_encrypt a) then
      '(c, x) ← rtw_wep_encrypt (tx_sec s) (tx_frag_len s) (tx_crc s) (to_xf f);
      Some (f <| tf_buf := xf_buf x |>, s <| tx_crc := c |>)
    else if at_encrypt a =? _TKIP_ then
      '(_, c, x) ← rtw_tkip_encrypt (tx_sec s) (tx_frag_len s) (tx_crc s) (to_xf f);
      Some (f <| tf_buf := xf_buf x |>, s <| tx_crc := c |>)
    else if at_encrypt a =? _AES_ then
      '(_, x) ← rtw_aes_encrypt (tx_sec s) (tx_frag_len s) (to_xf f);
      Some (f <| tf_buf := xf_buf x |>, s)
    else Some (f, s)
  else Some (f, s).

(** ** [rtw_xmitframe_coalesce] *)

Definition rtw_xmitframe_coalesce (s : tx_state) (pkt : list Z) (f : tx_frame) : option (Z * tx_frame * tx_state) :=
  let bmcst := IS_MCAST (at_ra (tf_attrib f)) in
  if tf_buf_addr f =? 0 then Some (_FAIL, f, s)
  else
    let hw := hw_hdr_offset (to_xf f) in
    '(ret, h, a, s) ← rtw_make_wlanhdr s (tf_attrib f);
    buf ← wrn (tf_buf f) hw h;
    if ret =? _FAIL then Some (_FAIL, f <| tf_buf := buf |> <| tf_attrib := a |>, s)
    else
      let '(_, pf) := pktfile_read pkt (at_pkt_hdrlen a) in
      '(buf, a) ← fragment_loop (S (length pkt)) a bmcst (tx_frag_len s - 4) (tf_buf_addr f) hw 0 buf hw pf;
      '(ret, f) ← xmitframe_addmic s (f <| tf_buf := buf |> <| tf_attrib := a |>);
      if ret =? _FAIL then Some (_FAIL, f, s)
      else
        '(f, s) ← xmitframe_swencrypt s f;
        let a := tf_attrib f in
        let a := if bmcst then a <| at_phy := (at_phy a) <| ph_vcs_mode := NONE_VCS |> |> else update_attrib_vcs_info s a in
        Some (_SUCCESS, f <| tf_attrib := a |>, s).
End frame.
