(* ===== verification/XmitDemo.v ===== *)
(** * An access point, and packets it sends

    The concrete state at which the theorems on the transmit path of the driver
    are tried; its station is the one of [RecvDemo]. *)

From S2P Require Import Prelude Mem Arc4 SecDefs Wep FragSpec Michael Tkip Ccmp RecvFrame Msdu RecvData RecvMain RecvDemo XmitData XmitFrame.
(** [rtw_get_stainfo] of the access point: its station and the broadcast
    address. *)
Definition ap_find (addr : list Z) : option Z :=
  if _rtw_memcmp addr demo_mac then Some 1 else if IS_MCAST addr then Some 0 else None.

Definition demo_phy : sta_phy := mk_sta_phy 0 0 7 2 0 0 1 0 1 1 1 1 0 1 255 0.

Definition demo_tx_sta : tx_sta :=
  mk_tx_sta WIFI_ASOC_STATE 1 1 12 41 sec_key (repeat 9 16) (repeat 4 16) (repeat 0 16) demo_phy.

Definition demo_config : tx_config := mk_tx_config 1 36 1 2 0xff 16 0 2347 0 0 0 0 true 0.

Definition demo_ap_rx (privacy : Z) : rx_state :=
  mk_rx_state WIFI_AP_STATE demo_ap demo_ap dot11AuthAlgrthm_8021X 0 privacy
    (repeat (repeat 0 8) 4) {[ 1 := demo_sta privacy; 0 := demo_sta privacy ]} 0 0 [] 0 0 0 0.

(** [frag_len]: the fragmentation threshold. *)
Definition demo_tx (privacy frag_len : Z) : tx_state :=
  mk_tx_state (demo_ap_rx privacy) sec_priv {[ 1 := demo_tx_sta; 0 := demo_tx_sta ]} (repeat (repeat 8 16) 4)
    true false true false 0 0 frag_len (crc32_init (mk_crc_state 0 [])) demo_config [].

Definition demo_payload : list Z := [0x45; 0xa0; 0; 30; 1; 2; 3; 4; 5; 1; 6; 7; 8; 9; 10; 11; 12; 13; 14; 15].

(** An Ethernet packet. *)
Definition demo_packet (dst : list Z) : list Z := dst ++ demo_peer ++ [0x08; 0x00] ++ demo_payload.

Definition demo_xframe (a : tx_attrib) : tx_frame := mk_tx_frame a 1 0x10000 (repeat 0xcc 600).

(** [update_attrib], then [rtw_xmitframe_coalesce]: the frame behind the
    descriptor, as the hardware sends it. *)
Definition demo_send (s : tx_state) (pkt : list Z) : option (Z * tx_frame * tx_state) :=
  '(ret, a, s) ← update_attrib ap_find (repeat 0x77 20) s pkt zero_attrib;
  if ret =? _FAIL then Some (_FAIL, demo_xframe a, s) else rtw_xmitframe_coalesce ap_find s pkt (demo_xframe a).

Definition sent_bytes (f : tx_frame) : list Z :=
  take (Z.to_nat (at_last_txcmdsz (tf_attrib f))) (drop (Z.to_nat (hw_hdr_offset (to_xf f))) (tf_buf f)).
