(* ===== verification/XmitSpec.v ===== *)
(** * What is put in the transmit buffer

    The header [rtw_make_wlanhdr] builds is read back by the functions of the
    receive path; an unfragmented packet is laid out as header, IV, LLC, body
    and room for the ICV. *)

From S2P Require Import Prelude Mem Arc4 SecDefs Wep FragSpec Michael Tkip Ccmp CcmpSpec CcmpLink Reorder RecvFrame Msdu RecvData XmitData XmitFrame.
(** ** The header as a whole *)

(** A three-address header with a QoS field in 64 bytes. *)
Definition hdr64 (fc : Z) (a1 a2 a3 : list Z) (sc qc : Z) : list Z :=
  le_enc 2 fc ++ [0; 0] ++ a1 ++ a2 ++ a3 ++ le_enc 2 sc ++ le_enc 2 qc ++ repeat 0 38.

Lemma or16_app pre x post off v :
  off = mem_len pre -> is_u16 x -> or16 (pre ++ le_enc 2 x ++ post) off v = Some (pre ++ le_enc 2 (Z.lor x v) ++ post).
Proof.
  intros -> Hx. unfold or16. rewrite (rdn_app pre (le_enc 2 x) post) by (done || (unfold mem_len; by rewrite length_le_enc)).
  cbn [mbind option_bind]. rewrite le_dec_enc_small by done. by apply wrn_app; rewrite ?length_le_enc.
Qed.

Lemma and16_app pre x post off v :
  off = mem_len pre -> is_u16 x -> and16 (pre ++ le_enc 2 x ++ post) off v = Some (pre ++ le_enc 2 (Z.land x v) ++ post).
Proof.
  intros -> Hx. unfold and16. rewrite (rdn_app pre (le_enc 2 x) post) by (done || (unfold mem_len; by rewrite length_le_enc)).
  cbn [mbind option_bind]. rewrite le_dec_enc_small by done. by apply wrn_app; rewrite ?length_le_enc.
Qed.

Section hdr.
Context (a1 a2 a3 : list Z) (H1 : length a1 = 6%nat) (H2 : length a2 = 6%nat) (H3 : length a3 = 6%nat).

Lemma hdr_to_sc fc : mem_len (le_enc 2 fc ++ [0; 0] ++ a1 ++ a2 ++ a3) = 22.
Proof. unfold mem_len. rewrite !length_app, H1, H2, H3, length_le_enc. done. Qed.

Lemma hdr_or_fc fc sc qc v : is_u16 fc -> or16 (hdr64 fc a1 a2 a3 sc qc) 0 v = Some (hdr64 (Z.lor fc v) a1 a2 a3 sc qc).
Proof. intros. by apply (or16_app []). Qed.

Lemma hdr_and_fc fc sc qc v : is_u16 fc -> and16 (hdr64 fc a1 a2 a3 sc qc) 0 v = Some (hdr64 (Z.land fc v) a1 a2 a3 sc qc).
Proof. intros. by apply (and16_app []). Qed.

Lemma hdr_split_sc fc sc qc :
  hdr64 fc a1 a2 a3 sc qc = (le_enc 2 fc ++ [0; 0] ++ a1 ++ a2 ++ a3) ++ le_enc 2 sc ++ le_enc 2 qc ++ repeat 0 38.
Proof. unfold hdr64. by rewrite <- !app_assoc. Qed.

Lemma hdr_split_qc fc sc qc :
  hdr64 fc a1 a2 a3 sc qc = (le_enc 2 fc ++ [0; 0] ++ a1 ++ a2 ++ a3 ++ le_enc 2 sc) ++ le_enc 2 qc ++ repeat 0 38.
Proof. unfold hdr64. by rewrite <- !app_assoc. Qed.

Lemma hdr_to_qc fc sc : mem_len (le_enc 2 fc ++ [0; 0] ++ a1 ++ a2 ++ a3 ++ le_enc 2 sc) = 24.
Proof. unfold mem_len. rewrite !length_app, H1, H2, H3, !length_le_enc. done. Qed.

Lemma hdr_or_qc fc sc qc v : is_u16 qc -> or16 (hdr64 fc a1 a2 a3 sc qc) 24 v = Some (hdr64 fc a1 a2 a3 sc (Z.lor qc v)).
Proof. intros. rewrite hdr_split_qc, or16_app by (done || by rewrite hdr_to_qc). by rewrite <- hdr_split_qc. Qed.

Lemma hdr_or_sc fc sc qc v : is_u16 sc -> or16 (hdr64 fc a1 a2 a3 sc qc) 22 v = Some (hdr64 fc a1 a2 a3 (Z.lor sc v) qc).
Proof. intros. rewrite hdr_split_sc, or16_app by (done || by rewrite hdr_to_sc). by rewrite <- hdr_split_sc. Qed.

Lemma hdr_and_sc fc sc qc v : is_u16 sc -> and16 (hdr64 fc a1 a2 a3 sc qc) 22 v = Some (hdr64 fc a1 a2 a3 (Z.land sc v) qc).
Proof. intros. rewrite hdr_split_sc, and16_app by (done || by rewrite hdr_to_sc). by rewrite <- hdr_split_sc. Qed.

Lemma hdr_put_addrs fc b1 b2 b3 sc qc :
  length b1 = 6%nat -> length b2 = 6%nat -> length b3 = 6%nat ->
  put_addrs (hdr64 fc a1 a2 a3 sc qc) b1 b2 b3 = Some (hdr64 fc b1 b2 b3 sc qc).
Proof.
  intros E1 E2 E3. unfold put_addrs, hdr64.
  rewrite (app_assoc (le_enc 2 fc)), (wrn_app _ a1), <- (app_assoc (le_enc 2 fc)) by (congruence || (unfold mem_len; by rewrite length_app, length_le_enc)).
  cbn [mbind option_bind]. rewrite !(app_assoc (le_enc 2 fc)), !(app_assoc _ b1).
  rewrite (wrn_app _ a2) by (congruence || (unfold mem_len; by rewrite !length_app, length_le_enc, E1)).
  cbn [mbind option_bind]. rewrite (app_assoc _ b2).
  rewrite (wrn_app _ a3) by (congruence || (unfold mem_len; by rewrite !length_app, length_le_enc, E1, E2)).
  by rewrite <- !app_assoc.
Qed.

Lemma length_hdr64 fc sc qc : length (hdr64 fc a1 a2 a3 sc qc) = 64%nat.
Proof. unfold hdr64. rewrite !length_app, H1, H2, H3, !length_le_enc, repeat_length. done. Qed.
End hdr.

(** The bits of the QoS control field. *)
Definition qc_value (a : tx_attrib) : Z :=
  Z.lor (Z.lor (Z.lor (Z.land (at_priority a) 0xf) (Z.shiftl (Z.land (at_eosp a) 1) 4)) (Z.shiftl (Z.land (at_ack_policy a) 3) 5))
    (Z.shiftl (Z.land (at_amsdu a) 1) 7).

Lemma small_field x n k w : 0 <= n -> 0 <= k -> n + k <= w -> in_width w (Z.shiftl (Z.land x (Z.ones n)) k).
Proof.
  intros Hn Hk Hw. rewrite Z.land_ones, Z.shiftl_mul_pow2 by lia.
  pose proof (Z.mod_pos_bound x (2 ^ n) ltac:(apply Z.pow_pos_nonneg; lia)) as Hm.
  assert (2 ^ n * 2 ^ k <= 2 ^ w) by (rewrite <- Z.pow_add_r by lia; apply Z.pow_le_mono_r; lia).
  pose proof (pow2_pos k Hk). unfold in_width. nia.
Qed.

Lemma qc_parts a :
  is_u16 (Z.land (at_priority a) 0xf) /\ is_u16 (Z.shiftl (Z.land (at_eosp a) 1) 4) /\
  is_u16 (Z.shiftl (Z.land (at_ack_policy a) 3) 5) /\ is_u16 (Z.shiftl (Z.land (at_amsdu a) 1) 7).
Proof.
  split_and!.
  - rewrite <- (Z.shiftl_0_r (Z.land _ _)). apply (small_field _ 4); lia.
  - apply (small_field _ 1); lia.
  - apply (small_field _ 2); lia.
  - apply (small_field _ 1); lia.
Qed.

Lemma wlanhdr_qc_done fc a1 a2 a3 sc a :
  length a1 = 6%nat -> length a2 = 6%nat -> length a3 = 6%nat -> at_hdrlen a = 26 ->
  wlanhdr_qc (hdr64 fc a1 a2 a3 sc 0) a = Some (hdr64 fc a1 a2 a3 sc (qc_value a)) /\ is_u16 (qc_value a).
Proof.
  intros H1 H2 H3 Hh. unfold wlanhdr_qc. rewrite Hh. change (26 - 2) with 24.
  destruct (qc_parts a) as (Q1 & Q2 & Q3 & Q4). unfold qc_value. set (p := Z.land (at_priority a) 0xf) in *.
  assert ((if negb (at_priority a =? 0) then or16 (hdr64 fc a1 a2 a3 sc 0) 24 p else Some (hdr64 fc a1 a2 a3 sc 0))
    = Some (hdr64 fc a1 a2 a3 sc p)) as ->.
  { destruct (Z.eqb_spec (at_priority a) 0) as [E|E]; cbn [negb]; [unfold p; by rewrite E|].
    rewrite hdr_or_qc by done. by rewrite Z.lor_0_l. }
  cbn [mbind option_bind]. rewrite hdr_or_qc by done. cbn [mbind option_bind].
  assert (is_u16 (Z.lor p (Z.shiftl (Z.land (at_eosp a) 1) 4))) as W1 by (by apply lor_in_width).
  rewrite hdr_or_qc by done. cbn [mbind option_bind].
  assert (is_u16 (Z.lor (Z.lor p (Z.shiftl (Z.land (at_eosp a) 1) 4)) (Z.shiftl (Z.land (at_ack_policy a) 3) 5))) as W2 by (by apply lor_in_width).
  split; [|by apply lor_in_width].
  destruct (Z.eqb_spec (at_amsdu a) 0) as [E|E]; cbn [negb]; [by rewrite E, Z.lor_0_r|by rewrite hdr_or_qc].
Qed.

(** ** Directions *)

(** DS bits, the three addresses and whether there is a QoS field. *)
Definition hdr_plan (s : tx_state) (a : tx_attrib) : option (Z * list Z * list Z * list Z * bool) :=
  let rx := tx_rx s in
  if check_fwstate rx WIFI_STATION_STATE then Some (_TO_DS_, mybssid rx, at_ta a, at_dst a, negb (qos_option s =? 0))
  else if check_fwstate rx WIFI_AP_STATE then Some (_FROM_DS_, at_dst a, mybssid rx, at_src a, negb (at_qos_en a =? 0))
  else if check_fwstate rx WIFI_ADHOC_STATE || check_fwstate rx WIFI_ADHOC_MASTER_STATE
       then Some (0, at_dst a, at_ta a, mybssid rx, negb (at_qos_en a =? 0))
  else None.

Lemma wlanhdr_addrs_done s a fc z ds a1 a2 a3 qos :
  hdr_plan s a = Some (ds, a1, a2, a3, qos) -> length a1 = 6%nat -> length a2 = 6%nat -> length a3 = 6%nat ->
  length z = 6%nat -> is_u16 fc ->
  wlanhdr_addrs s (hdr64 fc z z z 0 0) a = Some (Some (hdr64 (Z.lor fc ds) a1 a2 a3 0 0, qos)).
Proof.
  unfold hdr_plan, wlanhdr_addrs. intros H H1 H2 H3 Hz Hf.
  destruct (check_fwstate _ WIFI_STATION_STATE).
  { injection H as <- <- <- <- <-. rewrite hdr_or_fc by done. cbn [mbind option_bind]. by rewrite hdr_put_addrs. }
  destruct (check_fwstate _ WIFI_AP_STATE).
  { injection H as <- <- <- <- <-. rewrite hdr_or_fc by done. cbn [mbind option_bind]. by rewrite hdr_put_addrs. }
  destruct (_ || _); [|done]. injection H as <- <- <- <- <-. rewrite Z.lor_0_r. by rewrite hdr_put_addrs.
Qed.

(** ** Sequence numbers *)

(** The next sequence number of a TID. *)
Definition next_txseq (seq : Z) : Z := Z.land (u16 (seq + 1)) 0xfff.

Lemma next_txseq_width seq : in_width 12 (next_txseq seq).
Proof. unfold next_txseq. change 0xfff with (Z.ones 12). rewrite Z.land_ones by lia. apply Z.mod_pos_bound. done. Qed.

Lemma SetSeqNum_done fc a1 a2 a3 sc qc n :
  length a1 = 6%nat -> length a2 = 6%nat -> length a3 = 6%nat -> in_width 4 sc -> in_width 12 n ->
  SetSeqNum (hdr64 fc a1 a2 a3 sc qc) n = Some (hdr64 fc a1 a2 a3 (sc + 16 * n) qc).
Proof.
  intros H1 H2 H3 Hs Hn. unfold SetSeqNum. unfold in_width in *. change (2 ^ 4) with 16 in Hs. change (2 ^ 12) with 4096 in Hn.
  rewrite hdr_and_sc by (done || (unfold in_width; change (2 ^ 16) with 65536; lia)). cbn [mbind option_bind].
  assert (Z.land sc 0x000f = sc) as -> by (change 0x000f with (Z.ones 4); rewrite Z.land_ones by lia; apply Z.mod_small; change (2 ^ 4) with 16; lia).
  assert (Z.land 0xfff0 (Z.shiftl n 4) = Z.shiftl n 4) as ->.
  { change 0xfff0 with (Z.shiftl (Z.ones 12) 4). rewrite <- Z.shiftl_land. f_equal. rewrite Z.land_comm, Z.land_ones by lia.
    apply Z.mod_small. change (2 ^ 12) with 4096. lia. }
  rewrite hdr_or_sc by (done || (unfold in_width; change (2 ^ 16) with 65536; lia)).
  rewrite lor_shiftl_add by (lia || (unfold in_width; change (2 ^ 4) with 16; lia)). by change (2 ^ 4) with 16.
Qed.

(** ** The whole header *)

(** The frame control field. *)
Definition fc_value (a : tx_attrib) (ds : Z) : Z :=
  Z.lor (Z.lor (Z.lor (at_subtype a) ds) (if at_mdata a =? 0 then 0 else _MORE_DATA_)) (if at_encrypt a =? 0 then 0 else _PRIVACY_).

Definition data_subtype (a : tx_attrib) : Prop := at_subtype a = WIFI_DATA_TYPE \/ at_subtype a = WIFI_QOS_DATA_TYPE.
Definition ds_bits (ds : Z) : Prop := ds = 0 \/ ds = _TO_DS_ \/ ds = _FROM_DS_.

Lemma hdr_plan_ds s a ds a1 a2 a3 qos : hdr_plan s a = Some (ds, a1, a2, a3, qos) -> ds_bits ds.
Proof.
  unfold hdr_plan, ds_bits. destruct (check_fwstate _ _); [intros [= <- _ _ _ _]; tauto|].
  destruct (check_fwstate _ _); [intros [= <- _ _ _ _]; tauto|]. destruct (_ || _); [|done]. intros [= <- _ _ _ _]. tauto.
Qed.

Lemma fc_width a ds : data_subtype a -> ds_bits ds ->
  is_u16 (at_subtype a) /\ is_u16 (Z.lor (at_subtype a) ds) /\
  is_u16 (Z.lor (Z.lor (at_subtype a) ds) (if at_mdata a =? 0 then 0 else _MORE_DATA_)) /\ is_u16 (fc_value a ds).
Proof.
  unfold fc_value. intros [-> | ->] [-> | [-> | ->]]; destruct (at_mdata a =? 0), (at_encrypt a =? 0); split_and!; done.
Qed.

(** The station a frame is built for, and its next sequence number. *)
Record tx_ready (get : list Z -> option Z) (s : tx_state) (a : tx_attrib) (psta : Z) (xs : tx_sta) (seq : Z) : Prop := {
  tr_found : get (at_ra a) = Some psta; tr_psta : at_psta a = Some psta; tr_sta : tx_stas s !! psta = Some xs;
  tr_linked : Z.land (ts_state xs) _FW_LINKED <> 0; tr_seq : key_at (txseq_tid xs) (at_priority a) = Some seq;
  tr_ba : is_Some (key_at (BA_starting_seqctrl xs) (Z.land (at_priority a) 0x0f)) }.

(** What building the header changes of the attributes and of the state. *)
Definition hdr_effect (a a' : tx_attrib) (s s' : tx_state) (n : Z) : Prop :=
  (exists p, a' = a <| at_seqnum := n |> <| at_phy := p |>) /\ (exists m, s' = s <| tx_stas := m |>).

Lemma wlanhdr_seq_done s fc a1 a2 a3 qc a psta xs seq :
  length a1 = 6%nat -> length a2 = 6%nat -> length a3 = 6%nat ->
  key_at (txseq_tid xs) (at_priority a) = Some seq -> is_Some (key_at (BA_starting_seqctrl xs) (Z.land (at_priority a) 0x0f)) ->
  exists a' s', wlanhdr_seq s (hdr64 fc a1 a2 a3 0 qc) a psta xs = Some (hdr64 fc a1 a2 a3 (16 * next_txseq seq) qc, a', s') /\
    hdr_effect a a' s s' (next_txseq seq).
Proof.
  intros H1 H2 H3 Hs [b Hb]. unfold wlanhdr_seq. rewrite Hs. cbn [mbind option_bind]. fold (next_txseq seq).
  set (n := next_txseq seq). rewrite (SetSeqNum_done _ _ _ _ 0) by (done || apply next_txseq_width). cbn [mbind option_bind].
  rewrite Z.add_0_l. set (a0 := a <| at_seqnum := n |>). set (xs0 := xs <| txseq_tid := _ |>).
  change (at_priority a0) with (at_priority a). change (BA_starting_seqctrl xs0) with (BA_starting_seqctrl xs). rewrite Hb. cbn [mbind option_bind].
  destruct (ph_ampdu_en (at_phy a0) =? 1); cbn [mbind option_bind].
  - eexists _, _. split; [reflexivity|]. split; by eexists.
  - eexists _, _. split; [reflexivity|]. split; [exists (at_phy a)|by eexists]. subst a0. by destruct a.
Qed.

Section wlanhdr.
Context (rtw_get_stainfo : list Z -> option Z).

Lemma make_wlanhdr_done s a ds a1 a2 a3 qos psta xs seq :
  hdr_plan s a = Some (ds, a1, a2, a3, qos) -> length a1 = 6%nat -> length a2 = 6%nat -> length a3 = 6%nat ->
  data_subtype a -> (qos = true -> at_hdrlen a = 26) -> tx_ready rtw_get_stainfo s a psta xs seq ->
  exists a' s', rtw_make_wlanhdr rtw_get_stainfo s a =
      Some (_SUCCESS, hdr64 (fc_value a ds) a1 a2 a3 (16 * next_txseq seq) (if qos then qc_value a else 0), a', s') /\
    hdr_effect a a' s s' (next_txseq seq).
Proof.
  intros Hp H1 H2 H3 Hd Hq [R1 R2 R3 R4 R5 R6]. pose proof (hdr_plan_ds _ _ _ _ _ _ _ Hp) as Hds.
  destruct (fc_width a ds Hd Hds) as (W1 & W2 & W3 & W4). unfold rtw_make_wlanhdr.
  change (repeat 0 (Z.to_nat WLANHDR_OFFSET)) with (hdr64 0 (repeat 0 6) (repeat 0 6) (repeat 0 6) 0 0).
  unfold set_frame_sub_type. rewrite hdr_and_fc by done. cbn [mbind option_bind]. rewrite hdr_or_fc, Z.lor_0_l, wrap_small by done.
  cbn [mbind option_bind].
  assert ((Z.land (at_subtype a) WIFI_DATA_TYPE =? 0) = false) as -> by (destruct Hd as [-> | ->]; done).
  rewrite (wlanhdr_addrs_done s a _ _ ds a1 a2 a3 qos) by done. cbn [mbind option_bind].
  assert ((if negb (at_mdata a =? 0) then or16 (hdr64 (Z.lor (at_subtype a) ds) a1 a2 a3 0 0) 0 _MORE_DATA_
           else Some (hdr64 (Z.lor (at_subtype a) ds) a1 a2 a3 0 0)) =
          Some (hdr64 (Z.lor (Z.lor (at_subtype a) ds) (if at_mdata a =? 0 then 0 else _MORE_DATA_)) a1 a2 a3 0 0)) as ->.
  { destruct (at_mdata a =? 0); cbn [negb]; [by rewrite Z.lor_0_r|by rewrite hdr_or_fc]. }
  cbn [mbind option_bind]. set (fc := Z.lor (Z.lor _ _) _) in *.
  assert ((if negb (at_encrypt a =? 0) then or16 (hdr64 fc a1 a2 a3 0 0) 0 _PRIVACY_ else Some (hdr64 fc a1 a2 a3 0 0)) =
          Some (hdr64 (fc_value a ds) a1 a2 a3 0 0)) as ->.
  { unfold fc_value. fold fc. destruct (at_encrypt a =? 0); cbn [negb]; [by rewrite Z.lor_0_r|by rewrite hdr_or_fc]. }
  cbn [mbind option_bind].
  assert ((if qos then wlanhdr_qc (hdr64 (fc_value a ds) a1 a2 a3 0 0) a else Some (hdr64 (fc_value a ds) a1 a2 a3 0 0)) =
          Some (hdr64 (fc_value a ds) a1 a2 a3 0 (if qos then qc_value a else 0))) as ->.
  { destruct qos; [|done]. by apply wlanhdr_qc_done; [..|apply Hq]. }
  cbn [mbind option_bind]. rewrite R1, R2, R3, bool_decide_true by done. cbn [negb mbind option_bind].
  rewrite (proj2 (Z.eqb_neq _ _)) by done.
  destruct (wlanhdr_seq_done s (fc_value a ds) a1 a2 a3 (if qos then qc_value a else 0) a psta xs seq) as (a' & s' & -> & He); [done..|].
  cbn [mbind option_bind]. by exists a', s'.
Qed.
End wlanhdr.

(** ** Read back by the receive path *)

Lemma qc_fields a :
  0 <= at_priority a < 16 -> 0 <= at_ack_policy a < 4 -> 0 <= at_amsdu a < 2 ->
  GetPriority (qc_value a) = at_priority a /\ GetAckpolicy (qc_value a) = at_ack_policy a /\ GetAMsdu (qc_value a) = at_amsdu a.
Proof.
  intros Hp Ha Hm. unfold GetPriority, GetAckpolicy, GetAMsdu, qc_value.
  set (e := Z.land (at_eosp a) 1). assert (e = 0 \/ e = 1) as He.
  { assert (e = at_eosp a mod 2) as -> by exact (Z.land_ones (at_eosp a) 1 ltac:(lia)). pose proof (Z.mod_pos_bound (at_eosp a) 2 ltac:(lia)). lia. }
  clearbody e. generalize dependent (at_priority a). generalize dependent (at_ack_policy a). generalize dependent (at_amsdu a).
  intros m Hm p Hp q Hq.
  assert (m = 0 \/ m = 1) as [-> | ->] by lia; assert (p = 0 \/ p = 1 \/ p = 2 \/ p = 3) as [-> | [-> | [-> | ->]]] by lia;
    destruct He as [-> | ->];
    assert (q = 0 \/ q = 1 \/ q = 2 \/ q = 3 \/ q = 4 \/ q = 5 \/ q = 6 \/ q = 7 \/ q = 8 \/ q = 9 \/ q = 10 \/ q = 11 \/ q = 12 \/ q = 13 \/ q = 14 \/ q = 15)
      as Hc by lia; repeat (destruct Hc as [-> | Hc]; [by split_and!|]); subst; by split_and!.
Qed.

(** ** An unfragmented packet in the transmit buffer

    The layout [rtw_xmitframe_coalesce] gives a packet that fits one fragment,
    and the sealed frame it becomes under AES. *)

(** Writing where the part that is already written ends. *)
Lemma wrn_next pre r bs off :
  off = mem_len pre -> mem_len bs <= mem_len r -> wrn (pre ++ r) off bs = Some ((pre ++ bs) ++ drop (length bs) r).
Proof.
  intros -> Hl. rewrite <- (take_drop (length bs) r) at 1.
  rewrite wrn_app; [by rewrite <- app_assoc|done|]. unfold mem_len in Hl. rewrite length_take. lia.
Qed.

(** LLC and SNAP header of an Ethernet type. *)
Definition snap_hdr (ty : Z) : list Z :=
  [0xaa; 0xaa; 0x03] ++ (if (ty =? 0x8137) || (ty =? 0x80f3) then P802_1H_OUI else RFC1042_OUI) ++ be16 ty.

Lemma length_snap ty : mem_len (snap_hdr ty) = 8.
Proof. unfold snap_hdr, mem_len. by destruct (_ || _). Qed.

Lemma put_snap_done pre r off ty :
  off = mem_len pre -> 8 <= mem_len r -> rtw_put_snap (pre ++ r) off ty = Some (8, (pre ++ snap_hdr ty) ++ drop 8 r).
Proof.
  intros Ho Hr. unfold rtw_put_snap, snap_hdr. set (oui := if _ || _ then _ else _).
  assert (length oui = 3%nat) as Hl by (unfold oui; by destruct (_ || _)). clearbody oui.
  rewrite (wrn_next pre r) by (unfold mem_len in *; rewrite ?length_app; cbn [length]; lia). cbn [mbind option_bind].
  assert (length ([0xaa; 0xaa; 0x03] ++ oui) = 6%nat) as E6 by (rewrite length_app; cbn [length]; lia). rewrite E6.
  rewrite wrn_next.
  - cbn [mbind option_bind]. rewrite drop_drop. by rewrite <- !app_assoc.
  - rewrite mem_len_app, Ho. unfold SNAP_SIZE, mem_len. lia.
  - unfold mem_len in *. rewrite length_drop. cbn [length be16]. lia.
Qed.

(** The room an unfragmented packet takes behind its header. *)
Definition frag_room (a : tx_attrib) (body : list Z) : Z :=
  at_iv_len a + 8 + mem_len body + (if at_bswenc a then at_icv_len a else 0).

(** What the attributes must be like. *)
Record lens_ok (a : tx_attrib) : Prop := {
  lk_iv : 0 <= at_iv_len a <= mem_len (at_iv a); lk_icv : 0 <= at_icv_len a <= mem_len (at_icv a);
  lk_hdr : 0 <= at_hdrlen a < 256 }.

Definition iv_of (a : tx_attrib) : list Z := take (Z.to_nat (at_iv_len a)) (at_iv a).
Definition icv_room (a : tx_attrib) : list Z := if at_bswenc a then take (Z.to_nat (at_icv_len a)) (at_icv a) else [].

Lemma length_iv_of a : lens_ok a -> mem_len (iv_of a) = at_iv_len a.
Proof. intros [H _ _]. unfold iv_of, mem_len in *. rewrite length_take. lia. Qed.

Lemma length_icv_room a : lens_ok a -> mem_len (icv_room a) = if at_bswenc a then at_icv_len a else 0.
Proof. intros [_ H _]. unfold icv_room, mem_len in *. destruct (at_bswenc a); [rewrite length_take; lia|done]. Qed.

(** The bytes of the only fragment behind its header. *)
Definition frag_body (a : tx_attrib) (body : list Z) : list Z := iv_of a ++ snap_hdr (at_ether_type a) ++ body ++ icv_room a.

Lemma length_frag_body a body : lens_ok a -> mem_len (frag_body a body) = frag_room a body.
Proof. intros H. unfold frag_body, frag_room. rewrite !mem_len_app, length_iv_of, length_icv_room, length_snap by done. lia. Qed.

Lemma put_fragment_done a bmcst frg_len desc fc h r body :
  lens_ok a -> is_u16 fc -> mem_len (le_enc 2 fc ++ h) = at_hdrlen a -> frag_room a body <= mem_len r ->
  at_pktlen a = mem_len body -> at_hdrlen a + frag_room a body <= frg_len -> frg_len < 2 ^ 31 ->
  put_fragment a bmcst frg_len 0 (desc ++ le_enc 2 fc ++ h ++ r) (mem_len desc) body =
    Some (desc ++ le_enc 2 (Z.lor fc _MORE_FRAG_) ++ h ++ frag_body a body ++ drop (length (frag_body a body)) r,
          [], mem_len desc + at_hdrlen a + frag_room a body, mem_len body, 8).
Proof.
  intros Hk Hfc Hh Hr Hpk Hfit Hsz. pose proof (length_iv_of a Hk) as Li. pose proof (length_icv_room a Hk) as Lc.
  pose proof (mem_len_nonneg body) as Hb0. unfold put_fragment. rewrite or16_app by done. cbn [mbind option_bind].
  set (fc' := Z.lor fc _MORE_FRAG_). set (P := desc ++ le_enc 2 fc' ++ h).
  assert (mem_len P = mem_len desc + at_hdrlen a) as LP.
  { unfold P. rewrite <- Hh, !mem_len_app. unfold mem_len at 2. unfold mem_len at 4. by rewrite !length_le_enc. }
  replace (desc ++ le_enc 2 fc' ++ h ++ r) with (P ++ r) by (unfold P; by rewrite <- !app_assoc).
  assert ((if negb (at_iv_len a =? 0) then wrn (P ++ r) (mem_len desc + at_hdrlen a) (take (Z.to_nat (at_iv_len a)) (at_iv a)) else Some (P ++ r))
    = Some ((P ++ iv_of a) ++ drop (length (iv_of a)) r)) as ->.
  { fold (iv_of a). unfold frag_room in Hr. destruct (Z.eqb_spec (at_iv_len a) 0) as [E|E]; cbn [negb].
    - assert (iv_of a = []) as -> by (destruct (iv_of a); [done|unfold mem_len in Li; cbn [length] in Li; lia]). by rewrite app_nil_r.
    - apply wrn_next; [done|]. destruct Hk as [? ? ?]. destruct (at_bswenc a); lia. }
  cbn [mbind option_bind Z.eqb].
  assert (forall n, (n <= length r)%nat -> mem_len (drop n r) = mem_len r - Z.of_nat n) as Ld by (intros; unfold mem_len; rewrite length_drop; lia).
  assert (length (iv_of a) = Z.to_nat (at_iv_len a)) as Li' by (unfold mem_len in Li; lia).
  assert (0 <= at_iv_len a /\ 0 <= at_icv_len a) as [Hi0 Hc0] by (destruct Hk as [? ? ?]; lia).
  assert (at_iv_len a + 8 + mem_len body + mem_len (icv_room a) <= mem_len r) as Hr' by (rewrite Lc; exact Hr).
  pose proof (mem_len_nonneg (icv_room a)) as Hc1.
  rewrite put_snap_done by (rewrite ?mem_len_app, ?Ld by (unfold mem_len in *; lia); lia).
  cbn [mbind option_bind]. rewrite drop_drop.
  set (icv := (0 <? at_icv_len a) && at_bswenc a).
  assert ((if icv then at_icv_len a else 0) = mem_len (icv_room a)) as Eicv.
  { rewrite Lc. unfold icv. destruct (Z.ltb_spec 0 (at_icv_len a)), (at_bswenc a); cbn [andb]; lia. }
  rewrite !Eicv. unfold pktfile_read.
  assert (Z.min (u32 (if bmcst then at_pktlen a else frg_len - at_hdrlen a - at_iv_len a - 8 - mem_len (icv_room a))) (mem_len body) = mem_len body) as ->.
  { unfold frag_room in Hfit. rewrite <- Lc in Hfit. destruct Hk as [? ? ?].
    rewrite wrap_small by (unfold in_width; destruct bmcst; lia). destruct bmcst; lia. }
  assert (Z.to_nat (mem_len body) = length body) as -> by (unfold mem_len; lia). rewrite firstn_all, skipn_all. cbn [mbind option_bind].
  rewrite wrn_next by (rewrite ?mem_len_app, ?length_snap, ?Ld by (unfold mem_len in *; lia); lia).
  cbn [mbind option_bind]. rewrite drop_drop. set (Q := ((P ++ iv_of a) ++ snap_hdr (at_ether_type a)) ++ body).
  set (k := (length (iv_of a) + 8 + length body)%nat).
  assert (mem_len Q = mem_len desc + at_hdrlen a + at_iv_len a + 8 + mem_len body) as LQ by (unfold Q; rewrite !mem_len_app, LP, Li, length_snap; lia).
  assert (length (frag_body a body) = (k + length (icv_room a))%nat) as Lf.
  { unfold frag_body, k. rewrite !length_app. pose proof (length_snap (at_ether_type a)). unfold mem_len in *. lia. }
  assert (at_iv_len a + 8 + mem_len body + mem_len (icv_room a) = frag_room a body) as Ef by (unfold frag_room; by rewrite Lc).
  assert ((if icv then wrn (Q ++ drop k r) (mem_len desc + at_hdrlen a + at_iv_len a + 8 + mem_len body) (take (Z.to_nat (at_icv_len a)) (at_icv a))
           else Some (Q ++ drop k r)) = Some ((Q ++ icv_room a) ++ drop (length (icv_room a)) (drop k r))) as ->.
  { destruct icv eqn:Ei; subst icv; bool_hyps.
    - assert (at_bswenc a = true) as Eb by (by destruct (at_bswenc a)). unfold icv_room in *. rewrite Eb in *.
      rewrite <- LQ. apply wrn_next; [done|]. rewrite Ld by (unfold mem_len, k in *; lia). unfold mem_len, k in *. lia.
    - assert (icv_room a = []) as -> by (apply length_zero_iff_nil; unfold mem_len in Eicv; lia). by rewrite app_nil_r. }
  cbn [mbind option_bind]. rewrite drop_drop, <- Lf.
  assert (mem_len desc + at_hdrlen a + at_iv_len a + 8 + mem_len body + mem_len (icv_room a) = mem_len desc + at_hdrlen a + frag_room a body) as -> by lia.
  unfold Q, P, frag_body. by rewrite <- !app_assoc.
Qed.

Lemma more_frag_cleared fc : is_u16 fc -> Z.testbit fc 10 = false ->
  is_u16 (Z.lor fc _MORE_FRAG_) /\ Z.land (Z.lor fc _MORE_FRAG_) (Z.land (Z.lnot _MORE_FRAG_) 0xffff) = fc.
Proof.
  intros Hw Hb. split; [by apply lor_in_width|]. change (Z.land (Z.lnot _MORE_FRAG_) 0xffff) with 0xfbff.
  pose proof (proj1 (in_width_bits 16 fc ltac:(lia)) Hw) as Hbits.
  apply Z.bits_inj'. intros i Hi. rewrite Z.land_spec, Z.lor_spec. change _MORE_FRAG_ with (2 ^ 10). rewrite Z.pow2_bits_eqb by lia.
  change 0xfbff with (Z.land (Z.ones 16) (Z.lnot (2 ^ 10))). rewrite Z.land_spec, Z.lnot_spec, Z.pow2_bits_eqb by lia.
  destruct (Z.lt_ge_cases i 16); [rewrite Z.ones_spec_low by lia|rewrite Z.ones_spec_high, Hbits by lia; by rewrite !andb_false_r].
  destruct (Z.eqb_spec 10 i) as [<-|]; cbn [negb andb]; [by rewrite Hb, andb_false_r|by rewrite orb_false_r, andb_true_r].
Qed.

(** The attributes of a packet in one fragment. *)
Definition one_fragment (a : tx_attrib) (body : list Z) : tx_attrib :=
  a <| at_nr_frags := 1 |> <| at_last_txcmdsz := at_hdrlen a + frag_room a body |>.

Lemma fragment_loop_one n a bmcst frg_len addr desc fc h r body :
  lens_ok a -> is_u16 fc -> Z.testbit fc 10 = false -> mem_len (le_enc 2 fc ++ h) = at_hdrlen a -> frag_room a body <= mem_len r ->
  at_pktlen a = mem_len body -> at_hdrlen a + frag_room a body <= frg_len -> frg_len < 2 ^ 31 ->
  fragment_loop (S n) a bmcst frg_len addr (mem_len desc) 0 (desc ++ le_enc 2 fc ++ h ++ r) (mem_len desc) body =
    Some (desc ++ le_enc 2 fc ++ h ++ frag_body a body ++ drop (length (frag_body a body)) r, one_fragment a body).
Proof.
  intros Hk Hfc Hb Hh Hr Hpk Hfit Hsz. cbn [fragment_loop].
  rewrite put_fragment_done by done. cbn [mbind option_bind].
  assert (bmcst || endofpktfile [] = true) as -> by apply orb_true_r.
  destruct (more_frag_cleared fc Hfc Hb) as [W E]. rewrite and16_app, E by done. cbn [mbind option_bind].
  change (u8 (0 + 1)) with 1. cbn [Z.eqb Pos.eqb].
  assert (u32 (at_hdrlen a + at_iv_len a + 8 + (if at_bswenc a then at_icv_len a else 0) + mem_len body) = at_hdrlen a + frag_room a body) as E2.
  { pose proof (mem_len_nonneg body). unfold frag_room in *. destruct Hk as [? ? ?].
    rewrite wrap_small by (unfold in_width; destruct (at_bswenc a); lia). lia. }
  unfold one_fragment. by rewrite <- E2.
Qed.

(** ** Up to the encryption *)

Lemma read_eth hdr body : mem_len hdr = ETH_HLEN -> pktfile_read (hdr ++ body) ETH_HLEN = (hdr, body).
Proof.
  intros H. unfold pktfile_read. rewrite mem_len_app, H. pose proof (mem_len_nonneg body).
  rewrite wrap_small by done. rewrite Z.min_l by lia. rewrite <- H. unfold mem_len. rewrite Nat2Z.id.
  by rewrite take_app_length, drop_app_length.
Qed.

Section coalesce.
Context (rtw_get_stainfo : list Z -> option Z).

(** A packet that [update_attrib] has accepted, and room for its frame. *)
Record coalesce_ok (s : tx_state) (f : tx_frame) (a1 a2 a3 : list Z) (ds : Z) (psta : Z) (xs : tx_sta) (seq : Z)
    (eth body desc room : list Z) : Prop := {
  ck_plan : hdr_plan s (tf_attrib f) = Some (ds, a1, a2, a3, at_hdrlen (tf_attrib f) =? 26);
  ck_a1 : length a1 = 6%nat; ck_a2 : length a2 = 6%nat; ck_a3 : length a3 = 6%nat;
  ck_subtype : data_subtype (tf_attrib f); ck_hdrlen : at_hdrlen (tf_attrib f) = 24 \/ at_hdrlen (tf_attrib f) = 26;
  ck_ready : tx_ready rtw_get_stainfo s (tf_attrib f) psta xs seq;
  ck_lens : lens_ok (tf_attrib f);
  ck_addr : tf_buf_addr f <> 0; ck_buf : tf_buf f = desc ++ room; ck_desc : mem_len desc = hw_hdr_offset (to_xf f);
  ck_room : 64 <= mem_len room /\ at_hdrlen (tf_attrib f) + frag_room (tf_attrib f) body <= mem_len room;
  ck_eth : mem_len eth = ETH_HLEN /\ at_pkt_hdrlen (tf_attrib f) = ETH_HLEN; ck_body : at_pktlen (tf_attrib f) = mem_len body;
  ck_fits : at_hdrlen (tf_attrib f) + frag_room (tf_attrib f) body <= tx_frag_len s - 4; ck_frag : tx_frag_len s < 2 ^ 31 }.

(** The first bytes of the header. *)
Definition frame_hdr (a : tx_attrib) (ds : Z) (a1 a2 a3 : list Z) (seq : Z) : list Z :=
  take (Z.to_nat (at_hdrlen a)) (hdr64 (fc_value a ds) a1 a2 a3 (16 * next_txseq seq) (if at_hdrlen a =? 26 then qc_value a else 0)).

Lemma frame_hdr_split a ds a1 a2 a3 seq :
  length a1 = 6%nat -> length a2 = 6%nat -> length a3 = 6%nat -> at_hdrlen a = 24 \/ at_hdrlen a = 26 ->
  exists h tail, frame_hdr a ds a1 a2 a3 seq = le_enc 2 (fc_value a ds) ++ h /\ mem_len (le_enc 2 (fc_value a ds) ++ h) = at_hdrlen a /\
    hdr64 (fc_value a ds) a1 a2 a3 (16 * next_txseq seq) (if at_hdrlen a =? 26 then qc_value a else 0) = le_enc 2 (fc_value a ds) ++ h ++ tail /\
    mem_len tail = 64 - at_hdrlen a.
Proof.
  intros H1 H2 H3 Hh. unfold frame_hdr. set (qc := if _ =? _ then _ else _). set (H := hdr64 _ _ _ _ _ _).
  assert (length H = 64%nat) as Hl by (by apply length_hdr64). set (n := Z.to_nat (at_hdrlen a)).
  assert (2 <= n <= 64)%nat as Hn by (unfold n; lia).
  exists (drop 2 (take n H)), (drop n H).
  assert (take 2 H = le_enc 2 (fc_value a ds)) as E2 by apply take_le_enc_app.
  assert (take n H = le_enc 2 (fc_value a ds) ++ drop 2 (take n H)) as E.
  { rewrite <- (take_drop 2 (take n H)) at 1. rewrite take_take, Nat.min_l, E2 by lia. done. }
  split_and!.
  - exact E.
  - rewrite <- E. unfold mem_len. rewrite length_take, Hl. unfold n. lia.
  - rewrite app_assoc, <- E. by rewrite take_drop.
  - unfold mem_len. rewrite length_drop, Hl. unfold n. lia.
Qed.

(** What the ciphers and the protection are given. *)
Lemma coalesce_to_cipher s f a1 a2 a3 ds psta xs seq eth body desc room :
  coalesce_ok s f a1 a2 a3 ds psta xs seq eth body desc room -> at_encrypt (tf_attrib f) <> _TKIP_ ->
  Z.testbit (fc_value (tf_attrib f) ds) 10 = false ->
  exists a' s' rest, hdr_effect (tf_attrib f) a' s s' (next_txseq seq) /\
    rtw_xmitframe_coalesce rtw_get_stainfo s (eth ++ body) f =
      ('(f1, s1) ← xmitframe_swencrypt s' (f <| tf_buf := desc ++ frame_hdr (tf_attrib f) ds a1 a2 a3 seq ++ frag_body (tf_attrib f) body ++ rest |>
                                             <| tf_attrib := one_fragment a' body |>);
       Some (_SUCCESS, f1 <| tf_attrib := if IS_MCAST (at_ra (tf_attrib f))
                                         then (tf_attrib f1) <| at_phy := (at_phy (tf_attrib f1)) <| ph_vcs_mode := NONE_VCS |> |>
                                         else update_attrib_vcs_info s1 (tf_attrib f1) |>, s1)).
Proof.
  intros [C1 C2 C3 C4 C5 C6 C7 C8 C9 C10 C11 [C12 C13] [C14 C15] C16 C17 C18] He Hmf.
  unfold rtw_xmitframe_coalesce. rewrite (proj2 (Z.eqb_neq _ _) C9).
  destruct (make_wlanhdr_done rtw_get_stainfo s (tf_attrib f) ds a1 a2 a3 (at_hdrlen (tf_attrib f) =? 26) psta xs seq)
    as (a' & s' & E & He'); try done; [by intros H%Z.eqb_eq|].
  rewrite E. cbn [mbind option_bind]. rewrite C10, <- C11.
  destruct (frame_hdr_split (tf_attrib f) ds a1 a2 a3 seq C2 C3 C4 C6) as (h & tail & F1 & F2 & F3 & F4).
  rewrite wrn_next; [|done|]. 2: { unfold mem_len at 1. rewrite length_hdr64 by done. lia. }
  cbn [mbind option_bind]. assert ((_SUCCESS =? _FAIL) = false) as -> by done. rewrite F3.
  assert (length (le_enc 2 (fc_value (tf_attrib f) ds) ++ h ++ tail) = 64%nat) as Lh by (rewrite <- F3; by apply length_hdr64).
  rewrite Lh. exists a', s', (drop (length (frag_body (tf_attrib f) body)) (tail ++ drop 64 room)). split; [done|].
  destruct He' as [[p ->] [m ->]]. set (a' := (tf_attrib f) <| at_seqnum := _ |> <| at_phy := _ |>).
  change (at_pkt_hdrlen a') with (at_pkt_hdrlen (tf_attrib f)). rewrite C15, read_eth by done.
  change (tx_frag_len (s <| tx_stas := m |>)) with (tx_frag_len s).
  replace ((desc ++ le_enc 2 (fc_value (tf_attrib f) ds) ++ h ++ tail) ++ drop 64 room)
    with (desc ++ le_enc 2 (fc_value (tf_attrib f) ds) ++ h ++ tail ++ drop 64 room) by (by rewrite <- !app_assoc).
  destruct (fc_width (tf_attrib f) ds C5 (hdr_plan_ds _ _ _ _ _ _ _ C1)) as (_ & _ & _ & W).
  assert (lens_ok a') as Ck by (destruct C8 as [? ? ?]; by split).
  rewrite fragment_loop_one; [|exact Ck|exact W|exact Hmf|exact F2| |exact C16|exact C17|lia].
  2: { rewrite mem_len_app, F4. assert (mem_len (drop 64 room) = mem_len room - 64) as -> by (unfold mem_len in *; rewrite length_drop; lia).
       change (frag_room a' body) with (frag_room (tf_attrib f) body). lia. }
  cbn [mbind option_bind]. unfold xmitframe_addmic.
  assert ((at_encrypt (tf_attrib (f <| tf_buf := desc ++ le_enc 2 (fc_value (tf_attrib f) ds) ++ h ++ frag_body a' body ++
    drop (length (frag_body a' body)) (tail ++ drop 64 room) |> <| tf_attrib := one_fragment a' body |>)) =? _TKIP_) = false) as ->
    by (by apply Z.eqb_neq).
  cbn [mbind option_bind]. assert ((_SUCCESS =? _FAIL) = false) as -> by done. rewrite F1, <- app_assoc. reflexivity.
Qed.
End coalesce.
