(* ===== verification/AirLink.v ===== *)
(** * From one network stack to the other

    An access point takes an Ethernet packet through [update_attrib] and
    [rtw_xmitframe_coalesce] with AES in software; the frame it sends, handed to
    [recv_func] of a station that is joined to it and has the same key, comes
    out as the packet that went in. *)

From S2P Require Import Prelude Mem Arc4 SecDefs Wep FragSpec Michael Tkip Ccmp CcmpSpec CcmpLink Reorder RecvFrame RecvThms Msdu MsduSpec RecvData RecvMain RecvDemo RecvDataSpec RecvMainSpec RecvMainThms XmitData XmitFrame XmitDemo XmitSpec.
#[local] Opaque ccmp_ctr ccmp_tag.

Section seal.
Context (rtw_get_stainfo : list Z -> option Z).

(** The key a frame to one station is sealed with. *)
Record aes_attrib (a : tx_attrib) : Prop := {
  aa_encrypt : at_encrypt a = _AES_; aa_sw : at_bswenc a = true; aa_ivl : at_iv_len a = 8; aa_icvl : at_icv_len a = 8;
  aa_unicast : IS_MCAST (at_ra a) = false; aa_icv : bytes (at_icv a) }.

Lemma bytes_be16 v : bytes (be16 v).
Proof. unfold be16. repeat constructor; apply wrap_range; lia. Qed.

Lemma bytes_snap ty : bytes (snap_hdr ty).
Proof. unfold snap_hdr. apply Forall_app. split; [by repeat constructor|]. apply Forall_app. split; [|apply bytes_be16]. destruct (_ || _); by repeat constructor. Qed.

(** The sealed frame in the buffer. *)
Definition sealed_bytes (a : tx_attrib) (hdr body : list Z) : list Z :=
  let data := snap_hdr (at_ether_type a) ++ body in
  hdr ++ iv_of a ++ ccmp_ctr (at_UncstKey a) hdr (iv_of a) (qc_of hdr) data ++ ccmp_tag (at_UncstKey a) hdr (iv_of a) (qc_of hdr) data.

Lemma swencrypt_sealed s f a hdr body desc rest :
  let g := f <| tf_buf := desc ++ hdr ++ frag_body a body ++ rest |> <| tf_attrib := one_fragment a body |> in
  aes_attrib a -> lens_ok a -> tf_buf_addr f <> 0 -> mem_len desc = hw_hdr_offset (to_xf f) -> mem_len hdr = at_hdrlen a ->
  bytes body -> header_ok hdr (qc_of hdr) -> at_hdrlen a + frag_room a body < 2 ^ 31 ->
  xmitframe_swencrypt s g = Some (f <| tf_buf := desc ++ sealed_bytes a hdr body ++ rest |> <| tf_attrib := one_fragment a body |>, s).
Proof.
  intros g [A1 A2 A3 A4 A5 A6] Hk Haddr Hd Hh Hb Hq Hsz. unfold xmitframe_swencrypt.
  assert (at_bswenc (tf_attrib g) = true /\ at_encrypt (tf_attrib g) = _AES_) as [-> ->] by (split; assumption).
  assert (is_wep _AES_ = false) as -> by done. assert ((_AES_ =? _TKIP_) = false) as -> by done. assert ((_AES_ =? _AES_) = true) as -> by done.
  set (fr := mk_frag hdr (iv_of a) (snap_hdr (at_ether_type a) ++ body ++ icv_room a) []).
  pose proof (length_iv_of a Hk) as Li. pose proof (length_icv_room a Hk) as Lc. rewrite A2, A4 in Lc. rewrite A3 in Li.
  assert (frag_bytes fr = hdr ++ frag_body a body) as Efb by (by unfold frag_bytes, frag_body).
  assert (mem_len (frag_bytes fr) = at_hdrlen a + frag_room a body) as Lfb by (by rewrite Efb, mem_len_app, length_frag_body, Hh).
  assert (fr_data 8 fr = snap_hdr (at_ether_type a) ++ body) as Efd.
  { unfold fr_data. cbn [fr fr_body]. rewrite app_assoc. rewrite length_app. replace (length (icv_room a)) with 8%nat by (unfold mem_len in Lc; lia).
    change (Z.to_nat 8) with 8%nat. rewrite Nat.add_sub. by rewrite take_app_length. }
  rewrite (aes_encrypt_done (tx_sec s) (tx_frag_len s) (to_xf g) [fr] desc rest (at_UncstKey a)).
  - cbn [mbind option_bind xf_buf map]. unfold frags_bytes. cbn [map concat]. rewrite app_nil_r. unfold ccmp_sealed at 1 2.
    unfold frag_bytes at 1. cbn [fr_hdr fr_iv fr_body fr_pad fr]. fold fr. rewrite Efd, app_nil_r. unfold sealed_bytes.
    rewrite <- !app_assoc. reflexivity.
  - exact Haddr.
  - exact A1.
  - unfold tx_key. change (pa_ra (xf_attrib (to_xf g))) with (at_ra a). by rewrite A5.
  - exact A3.
  - exact A4.
  - change (xf_buf (to_xf g)) with (desc ++ hdr ++ frag_body a body ++ rest). unfold frags_bytes. cbn [map concat].
    rewrite Efb. cbn [fr_pad fr]. by rewrite !app_nil_r, <- !app_assoc.
  - exact Hd.
  - constructor; [|done]. split.
    + exact Hh.
    + etrans; [exact Li|by symmetry].
    + change (pa_icv_len (xf_attrib (to_xf g))) with (at_icv_len a). rewrite A4. cbn [fr fr_body]. rewrite !mem_len_app, Lc, length_snap.
      pose proof (mem_len_nonneg body). lia.
    + cbn [fr fr_body]. apply Forall_app. split; [apply bytes_snap|]. apply Forall_app. split; [done|]. unfold icv_room. rewrite A2. by apply Forall_take.
    + lia.
  - constructor; [exact Hq|done].
  - split; [reflexivity|]. rewrite Lfb. reflexivity.
Qed.

(** [rtw_xmitframe_coalesce] of a packet that fits one fragment, with AES. *)
Lemma coalesce_sealed s f a1 a2 a3 ds psta xs seq eth body desc room :
  let a := tf_attrib f in
  let hdr := frame_hdr a ds a1 a2 a3 seq in
  coalesce_ok rtw_get_stainfo s f a1 a2 a3 ds psta xs seq eth body desc room -> aes_attrib a -> bytes body ->
  header_ok hdr (qc_of hdr) -> Z.testbit (fc_value a ds) 10 = false ->
  exists f' s', rtw_xmitframe_coalesce rtw_get_stainfo s (eth ++ body) f = Some (_SUCCESS, f', s') /\
    sent_bytes f' = sealed_bytes a hdr body.
Proof.
  intros a hdr Hc Ha Hb Hq Hmf. pose proof (aa_encrypt _ Ha) as He.
  destruct (coalesce_to_cipher rtw_get_stainfo s f a1 a2 a3 ds psta xs seq eth body desc room Hc) as (a' & s' & rest & Hf & E);
    [by fold a; rewrite He|done|].
  fold a in E, Hf. destruct Hc as [C1 C2 C3 C4 C5 C6 C7 C8 C9 C10 C11 C12 C13 C14 C15 C16].
  destruct (frame_hdr_split a ds a1 a2 a3 seq C2 C3 C4 C6) as (h & tail & F1 & F2 & _). rewrite <- F1 in F2. fold hdr in F2.
  destruct Hf as [[p Hp] _].
  assert (aes_attrib a') as Ha' by (subst a'; destruct Ha; by split). assert (lens_ok a') as Hk' by (subst a'; destruct C8; by split).
  assert (frag_body a body = frag_body a' body /\ sealed_bytes a hdr body = sealed_bytes a' hdr body /\ at_hdrlen a = at_hdrlen a') as (E1 & E2 & E3)
    by (by subst a').
  rewrite E. fold hdr. rewrite E1.
  rewrite (swencrypt_sealed s' f a' hdr body desc rest); try done; [|congruence|].
  2: { assert (frag_room a body = frag_room a' body) as <- by (by subst a'). rewrite <- E3. fold a in C15. lia. }
  cbn [mbind option_bind]. clear E. eexists _, s'. split; [reflexivity|].
  rewrite E2. unfold sent_bytes. set (q := if IS_MCAST _ then _ else _).
  assert (at_last_txcmdsz q = at_hdrlen a' + frag_room a' body) as Hlast by (unfold q; by destruct (IS_MCAST _)).
  clearbody q. change (take (Z.to_nat (at_last_txcmdsz q)) (drop (Z.to_nat (hw_hdr_offset (to_xf f))) (desc ++ sealed_bytes a' hdr body ++ rest)) =
    sealed_bytes a' hdr body). rewrite Hlast, <- C11.
  unfold mem_len at 1. rewrite Nat2Z.id, drop_app_length. rewrite take_app_length'; [done|].
  assert (mem_len (sealed_bytes a' hdr body) = at_hdrlen a' + frag_room a' body) as L.
  { unfold sealed_bytes, frag_room. destruct Ha' as [_ -> Hi -> _ _]. rewrite !mem_len_app, length_iv_of by done.
    unfold mem_len at 2 3. rewrite length_ccmp_ctr, length_ccmp_tag, length_app. pose proof (length_snap (at_ether_type a')).
    unfold mem_len in *. lia. }
  unfold mem_len in L. lia.
Qed.
End seal.

(** ** The attributes of a packet for a station of the access point *)

(** An Ethernet packet. *)
Definition ether (dst src ty payload : list Z) : list Z := dst ++ src ++ ty ++ payload.

Record ap_side (get : list Z -> option Z) (s : tx_state) (dst : list Z) (psta : Z) (xs : tx_sta) : Prop := {
  ap_mode : check_fwstate (tx_rx s) WIFI_AP_STATE = true /\ check_fwstate (tx_rx s) WIFI_STATION_STATE = false /\
            check_fwstate (tx_rx s) WIFI_ADHOC_STATE = false /\ check_fwstate (tx_rx s) WIFI_ADHOC_MASTER_STATE = false;
  ap_found : get dst = Some psta; ap_unicast : IS_MCAST dst = false;
  ap_sta : tx_stas s !! psta = Some xs; ap_linked : Z.land (ts_state xs) _FW_LINKED <> 0;
  ap_port : exists st, rx_stas (tx_rx s) !! psta = Some st /\ ieee8021x_blocked st = false /\ dot118021XPrivacy st = _AES_;
  ap_auth : dot11AuthAlgrthm (tx_rx s) = dot11AuthAlgrthm_8021X;
  ap_software : tx_sw_encrypt s || negb (tx_hw_decrypted s) = true;
  ap_qos : u8 (ts_qos_option xs) <> 0 }.

Section attrib.
Context (rtw_get_stainfo : list Z -> option Z) (junk : list Z).

Lemma read_local_app bs rest n : mem_len bs = n -> n < 2 ^ 32 -> read_local junk (bs ++ rest) n = (bs, rest).
Proof.
  intros <- H. unfold read_local, pktfile_read. rewrite mem_len_app. pose proof (mem_len_nonneg bs). pose proof (mem_len_nonneg rest).
  rewrite wrap_small by (unfold in_width; lia). rewrite Z.min_l by lia. unfold mem_len. rewrite Nat2Z.id, take_app_length, drop_app_length.
  rewrite (drop_ge (take _ _)) by (rewrite length_take; lia). by rewrite app_nil_r.
Qed.

Lemma parse_ip_done pf a : exists i d, parse_ip junk pf a = a <| at_icmp_pkt := i |> <| at_dhcp_pkt := d |>.
Proof.
  unfold parse_ip. destruct (read_local junk pf 20) as [ip pf1]. set (pf2 := if 20 <? _ then _ else _). clearbody pf2.
  destruct (_ =? _); [by eexists _, _|]. destruct (_ =? _); [|by eexists _, _]. destruct (read_local junk pf2 8) as [udp pf3].
  destruct (_ && _); by eexists _, _.
Qed.

(** The TID of a packet: the precedence of its IP header. *)
Definition packet_tid (ty payload : list Z) : Z :=
  if RTW_GET_BE16 ty =? 0x0800 then Z.shiftr (arr_get (read_local junk payload 20).1 1) 5 else 0.

Lemma set_qos_done hdr payload a :
  mem_len hdr = ETH_HLEN -> at_ether_type a = RTW_GET_BE16 (drop 12 hdr) ->
  set_qos junk (hdr ++ payload) a =
    a <| at_priority := packet_tid (drop 12 hdr) payload |> <| at_hdrlen := WLAN_HDR_A3_QOS_LEN |> <| at_subtype := WIFI_QOS_DATA_TYPE |>.
Proof. intros Hh Ht. unfold set_qos, packet_tid. rewrite read_eth, Ht by done. by destruct (_ =? _), (read_local junk payload 20). Qed.

(** What the accepted packet is described by. *)
Record ap_packet (a : tx_attrib) (s : tx_state) (dst src ty payload : list Z) (psta : Z) (xs : tx_sta) : Prop := {
  pk_dst : at_dst a = dst; pk_src : at_src a = src; pk_ra : at_ra a = dst; pk_type : at_ether_type a = RTW_GET_BE16 ty;
  pk_seal : aes_attrib a; pk_lens : lens_ok a; pk_iv : iv_of a = (AES_IV (dot11txpn xs) 0).1;
  pk_key : at_UncstKey a = dot118021x_UncstKey xs; pk_hdrlen : at_hdrlen a = 26; pk_subtype : at_subtype a = WIFI_QOS_DATA_TYPE;
  pk_tid : at_priority a = packet_tid ty payload;
  pk_zero : at_mdata a = 0 /\ at_eosp a = 0 /\ at_ack_policy a = 0 /\ at_amsdu a = 0;
  pk_psta : at_psta a = Some psta; pk_eth : at_pkt_hdrlen a = ETH_HLEN; pk_len : at_pktlen a = mem_len payload; pk_qos : at_qos_en a <> 0 }.

Lemma sec_info_aes s a dst psta xs :
  ap_side rtw_get_stainfo s dst psta xs -> at_ra a = dst ->
  update_attrib_sec_info s a psta = Some (_SUCCESS,
    a <| at_UncstKey := dot118021x_UncstKey xs |> <| at_tkiptxmickey := repeat 0 16 |> <| at_mac_id := ts_mac_id xs |>
      <| at_key_idx := 0 |> <| at_encrypt := _AES_ |> <| at_iv_len := 8 |> <| at_icv_len := 8 |>
      <| at_iv := put_iv a (AES_IV (dot11txpn xs) 0).1 |> <| at_bswenc := true |>,
    set_txpn s psta xs (AES_IV (dot11txpn xs) 0).2).
Proof.
  intros [A1 A2 A3 A4 A5 (st & S1 & S2 & S3) A7 A8 A9] Hra. unfold update_attrib_sec_info. rewrite A4. cbn [mbind option_bind]. rewrite S1. cbn [mbind option_bind].
  rewrite A7, S2, Hra, A3. cbn [andb]. assert ((dot11AuthAlgrthm_8021X =? dot11AuthAlgrthm_Open) || (dot11AuthAlgrthm_8021X =? dot11AuthAlgrthm_Shared) ||
    (dot11AuthAlgrthm_8021X =? dot11AuthAlgrthm_Auto) = false) as -> by done. rewrite Z.eqb_refl.
  assert (forall x, GET_ENCRY_ALGO (tx_rx s) st x false = _AES_) as ->.
  { intros x. unfold GET_ENCRY_ALGO. rewrite A7, S3. reflexivity. }
  assert (is_wep _AES_ = false) as -> by done. cbn [andb]. set (b := _ <| at_encrypt := _ |>).
  assert (cipher_iv s b psta xs false = (_SUCCESS, b <| at_iv_len := 8 |> <| at_icv_len := 8 |> <| at_iv := put_iv a (AES_IV (dot11txpn xs) 0).1 |>,
    set_txpn s psta xs (AES_IV (dot11txpn xs) 0).2)) as ->.
  { unfold cipher_iv. assert (at_encrypt b = _AES_) as -> by done. reflexivity. }
  assert ((_SUCCESS =? _FAIL) = false) as -> by done. rewrite andb_false_r, orb_false_r.
  change (tx_sw_encrypt (set_txpn s psta xs (AES_IV (dot11txpn xs) 0).2)) with (tx_sw_encrypt s).
  change (tx_hw_decrypted (set_txpn s psta xs (AES_IV (dot11txpn xs) 0).2)) with (tx_hw_decrypted s). rewrite A8. reflexivity.
Qed.

Lemma fwstate_ap s : check_fwstate s WIFI_AP_STATE = true ->
  check_fwstate s (Z.lor WIFI_AP_STATE (Z.lor WIFI_ADHOC_STATE WIFI_ADHOC_MASTER_STATE)) = true.
Proof.
  unfold check_fwstate. change (WIFI_AP_STATE =? 0) with false. cbn [andb orb]. intros H. apply orb_true_intro. right.
  apply negb_true_iff in H. apply negb_true_iff, Z.eqb_neq. intros E. apply Z.eqb_neq in H. apply H.
  change WIFI_AP_STATE with (Z.land (Z.lor WIFI_AP_STATE (Z.lor WIFI_ADHOC_STATE WIFI_ADHOC_MASTER_STATE)) WIFI_AP_STATE).
  by rewrite Z.land_assoc, E.
Qed.

(** Scanning and power saving are told; nothing else changes. *)
Lemma calls_noted (s : tx_state) (b c d : bool) :
  let s1 := if b then call s ScanDeny else s in
  exists cs, (if c then call s1 LpsLeave else if d then call s1 LpsSpecialPacket else s1) = s <| tx_calls := cs |>.
Proof. destruct s, b, c, d; by eexists. Qed.

Lemma update_attrib_ap s dst src ty payload psta xs :
  ap_side rtw_get_stainfo s dst psta xs -> length dst = 6%nat -> length src = 6%nat -> length ty = 2%nat ->
  exists a cs, update_attrib rtw_get_stainfo junk s (ether dst src ty payload) zero_attrib =
      Some (_SUCCESS, a, (set_txpn s psta xs (AES_IV (dot11txpn xs) 0).2) <| tx_calls := cs |>) /\
    ap_packet a s dst src ty payload psta xs /\ at_ta a = mybssid (tx_rx s).
Proof.
  intros HA Hd Hs Ht. pose proof HA as [(M1 & M2 & M3 & M4) A2 A3 A4 A5 _ _ _ A9].
  assert (ether dst src ty payload = (dst ++ src ++ ty) ++ payload) as Ee by (unfold ether; by rewrite <- !app_assoc).
  assert (mem_len (dst ++ src ++ ty) = ETH_HLEN) as Lh by (unfold mem_len; rewrite !length_app, Hd, Hs, Ht; done).
  assert (take 6 (dst ++ src ++ ty) = dst /\ drop 6 (dst ++ src ++ ty) = src ++ ty) as [T1 T2] by (split; [by apply take_app_length'|by apply drop_app_length']).
  assert (drop 12 (dst ++ src ++ ty) = ty) as T3 by (change 12%nat with (6 + 6)%nat; rewrite <- drop_drop, T2; by apply drop_app_length').
  assert (take 6 (src ++ ty) = src) as T4 by (by apply take_app_length').
  unfold update_attrib. rewrite Ee, read_local_app by done. rewrite T1, T2, T3, T4.
  set (a0 := zero_attrib <| at_ether_type := RTW_GET_BE16 ty |> <| at_dst := dst |> <| at_src := src |>).
  set (a1 := a0 <| at_ra := dst |> <| at_ta := mybssid (tx_rx s) |>).
  assert (tx_addresses (tx_rx s) a0 = a1) as -> by (unfold tx_addresses; by rewrite M3, M4, M2, M1).
  change (at_ra a1) with dst. rewrite A3, A2, A4. cbn [mbind option_bind].
  rewrite (proj2 (Z.eqb_neq _ _) A5). set (a2 := a1 <| at_pktlen := mem_len payload |>).
  assert (exists i d, (if at_ether_type a2 =? ETH_P_IP then parse_ip junk payload a2 else a2) = a2 <| at_icmp_pkt := i |> <| at_dhcp_pkt := d |>)
    as (i & d & ->) by (destruct (at_ether_type a2 =? _); [apply parse_ip_done|by exists 0, 0]).
  set (a3 := a2 <| at_icmp_pkt := i |> <| at_dhcp_pkt := d |>).
  destruct (calls_noted s ((at_ether_type a3 =? 0x888e) || (at_dhcp_pkt a3 =? 1)) (at_icmp_pkt a3 =? 1) (at_dhcp_pkt a3 =? 1)) as [cs Hcs].
  cbv zeta in Hcs. rewrite Hcs. clear Hcs.
  rewrite (sec_info_aes (s <| tx_calls := cs |>) a3 dst psta xs) by (done || by destruct HA; split).
  cbn [mbind option_bind]. assert ((_SUCCESS =? _FAIL) = false) as -> by done.
  rewrite fwstate_ap by done.
  set (a4 := update_attrib_phy_info _ _ _). set (a5 := a4 <| at_psta := Some psta |> <| at_pctrl := 0 |> <| at_ack_policy := 0 |> <| at_pkt_hdrlen := ETH_HLEN |>
    <| at_hdrlen := WLAN_HDR_A3_LEN |> <| at_subtype := WIFI_DATA_TYPE |> <| at_priority := 0 |>).
  change (at_qos_en a5) with (u8 (ts_qos_option xs)). rewrite (proj2 (Z.eqb_neq _ _) A9). cbn [negb].
  rewrite set_qos_done by (exact Lh || by rewrite T3). rewrite T3.
  eexists _, cs. split; [reflexivity|]. split; [|reflexivity]. split; try reflexivity.
  - split; try done. by repeat constructor.
  - by split.
  - split_and!; reflexivity.
  - exact A9.
Qed.
End attrib.

(** ** What comes out *)

Lemma be16_bytes ty : bytes ty -> length ty = 2%nat -> be16 (RTW_GET_BE16 ty) = ty.
Proof.
  intros Hb Hl. pose proof (be16_is ty (RTW_GET_BE16 ty) Hb ltac:(unfold mem_len; lia) (be16_range ty)) as E.
  rewrite Z.eqb_refl in E. symmetry in E. by apply bool_decide_eq_true in E.
Qed.

(** The conversion removes exactly the header that [rtw_put_snap] put in, also
    for IPX and AppleTalk. *)
Lemma snap_removed dst src ty payload :
  bytes ty -> length ty = 2%nat -> eth_packet (mk_msdu dst src (snap_hdr (RTW_GET_BE16 ty) ++ payload)) = ether dst src ty payload.
Proof.
  intros Hb Hl. unfold eth_packet. cbn [ms_dst ms_src ms_body]. set (t := RTW_GET_BE16 ty).
  assert (be16 t = ty) as E by (by apply be16_bytes).
  assert (exists x y, ty = [x; y]) as (x & y & Ety) by (destruct ty as [|x [|y [|? ?]]]; try done; by exists x, y).
  assert (encapsulated (snap_hdr t ++ payload) = true) as ->.
  { unfold encapsulated. rewrite mem_len_app, length_snap. pose proof (mem_len_nonneg payload).
    rewrite (proj2 (Z.leb_le _ _)) by lia. cbn [andb]. unfold snap_hdr. rewrite E.
    change (0x80f3) with ETH_P_AARP. change (0x8137) with ETH_P_IPX.
    destruct (Z.eqb_spec t ETH_P_IPX) as [|N1]; [by rewrite Ety, orb_true_r|].
    destruct (Z.eqb_spec t ETH_P_AARP) as [|N2]; [by rewrite Ety, orb_true_r|]. cbn [orb].
    assert (RTW_GET_BE16 (drop 6 (([0xaa; 0xaa; 3] ++ RFC1042_OUI ++ ty) ++ payload)) = t) as -> by (unfold t; by rewrite Ety).
    rewrite (proj2 (Z.eqb_neq _ _) N1), (proj2 (Z.eqb_neq _ _) N2). by rewrite Ety. }
  unfold ether. do 2 f_equal. unfold snap_hdr. rewrite E. by destruct (_ || _).
Qed.

Lemma tid_range junk ty payload : bytes junk -> bytes payload -> 0 <= packet_tid junk ty payload < 8.
Proof.
  intros Hj Hp. unfold packet_tid. destruct (_ =? _); [|lia]. unfold read_local, pktfile_read. cbn [fst].
  set (l := _ ++ _). assert (bytes l) as Hl.
  { apply Forall_app. split; [by apply Forall_take|]. apply Forall_drop, Forall_take, Forall_app. split; [done|by repeat constructor]. }
  assert (in_width 8 (arr_get l 1)) as H.
  { unfold arr_get. destruct (l !! _) as [x|] eqn:E; [|done]. by eapply (proj1 (Forall_lookup _ _) Hl). }
  rewrite Z.shiftr_div_pow2 by lia. unfold in_width in H. change (2 ^ 8) with 256 in H. change (2 ^ 5) with 32.
  pose proof (Z.div_pos (arr_get l 1) 32 ltac:(lia) ltac:(lia)). pose proof (Z.div_lt_upper_bound (arr_get l 1) 32 8 ltac:(lia) ltac:(lia)). lia.
Qed.

(** ** The access point sends, the station receives *)

(** [update_attrib] and, when it accepts the packet, [rtw_xmitframe_coalesce]
    into the buffer of [f]. *)
Definition send_packet (get : list Z -> option Z) (junk : list Z) (s : tx_state) (pkt : list Z) (f : tx_frame)
    : option (Z * tx_frame * tx_state) :=
  '(ret, a, s) ← update_attrib get junk s pkt (tf_attrib f);
  if ret =? _FAIL then Some (_FAIL, f <| tf_attrib := a |>, s) else rtw_xmitframe_coalesce get s pkt (f <| tf_attrib := a |>).

(** A fresh frame with room for a packet. *)
Record fresh_frame (s : tx_state) (f : tx_frame) (payload desc room : list Z) : Prop := {
  ff_zero : tf_attrib f = zero_attrib; ff_addr : tf_buf_addr f <> 0;
  ff_buf : tf_buf f = desc ++ room; ff_desc : mem_len desc = hw_hdr_offset (to_xf f);
  ff_room : 64 <= mem_len room /\ 50 + mem_len payload <= mem_len room;
  ff_fits : 50 + mem_len payload <= tx_frag_len s - 4; ff_frag : tx_frag_len s < 2 ^ 31 }.

Record seq_ready (xs : tx_sta) (tid seq : Z) : Prop := {
  sq_seq : key_at (txseq_tid xs) tid = Some seq; sq_ba : is_Some (key_at (BA_starting_seqctrl xs) tid) }.

Section send.
Context (get : list Z -> option Z) (junk : list Z).

Lemma ap_frame_hdr a dst ap src seq :
  at_subtype a = WIFI_QOS_DATA_TYPE -> at_hdrlen a = 26 -> at_mdata a = 0 -> at_encrypt a = _AES_ ->
  length dst = 6%nat -> length ap = 6%nat -> length src = 6%nat ->
  frame_hdr a _FROM_DS_ dst ap src seq = ap_hdr 0 dst ap src (16 * next_txseq seq) (qc_value a).
Proof.
  intros E1 E2 E3 E4 L1 L2 L3. unfold frame_hdr, fc_value, hdr64, ap_hdr. rewrite E1, E2, E3, E4.
  set (q := qc_value a). set (sc := 16 * next_txseq seq).
  change (if 26 =? 26 then q else 0) with q. change (if 0 =? 0 then 0 else _MORE_DATA_) with 0. change (if _AES_ =? 0 then 0 else _PRIVACY_) with _PRIVACY_.
  change (le_enc 2 (Z.lor (Z.lor (Z.lor WIFI_QOS_DATA_TYPE _FROM_DS_) 0) _PRIVACY_)) with [0x88; 0x42]. change (le_enc 2 0) with [0; 0].
  replace ([0x88; 0x42] ++ [0; 0] ++ dst ++ ap ++ src ++ le_enc 2 sc ++ le_enc 2 q ++ repeat 0 38)
    with (([0x88; 0x42] ++ [0; 0] ++ dst ++ ap ++ src ++ le_enc 2 sc ++ le_enc 2 q) ++ repeat 0 38) by (by rewrite <- !app_assoc).
  apply take_app_length'. rewrite !length_app, L1, L2, L3, !length_le_enc. done.
Qed.

(** What an accepted packet looks like on the air. *)
Lemma send_packet_done s f dst src ty payload psta xs seq desc room :
  ap_side get s dst psta xs -> fresh_frame s f payload desc room -> seq_ready xs (packet_tid junk ty payload) seq ->
  length dst = 6%nat -> length src = 6%nat -> length ty = 2%nat -> length (mybssid (tx_rx s)) = 6%nat ->
  bytes payload -> bytes junk ->
  exists f' s' qc, send_packet get junk s (ether dst src ty payload) f = Some (_SUCCESS, f', s') /\
    GetPriority qc = packet_tid junk ty payload /\ GetAMsdu qc = 0 /\ is_u16 qc /\
    let hdr := ap_hdr 0 dst (mybssid (tx_rx s)) src (16 * next_txseq seq) qc in
    let iv := (AES_IV (dot11txpn xs) 0).1 in
    let data := snap_hdr (RTW_GET_BE16 ty) ++ payload in
    let key := dot118021x_UncstKey xs in
    sent_bytes f' = hdr ++ iv ++ ccmp_ctr key hdr iv true data ++ ccmp_tag key hdr iv true data.
Proof.
  intros HA [F1 F2 F3 F4 F5 F6 F7] [Q1 Q2] Ld Ls Lt Lb Hb Hj.
  destruct (update_attrib_ap get junk s dst src ty payload psta xs HA Ld Ls Lt) as (a & cs & E & P & _).
  unfold send_packet. rewrite F1, E. cbn [mbind option_bind]. assert ((_SUCCESS =? _FAIL) = false) as -> by done. clear E.
  set (s1 := (set_txpn _ _ _ _) <| tx_calls := cs |>). set (g := f <| tf_attrib := a |>).
  destruct P as [P1 P2 P3 P4 P5 P6 P7 P8 P9 P10 P11 (P12 & P13 & P14 & P15) P16 P17 P18 P19].
  pose proof (tid_range junk ty payload Hj Hb) as Ht. pose proof HA as [(M1 & M2 & M3 & M4) A2 A3 A4 A5 _ _ _ _].
  destruct (qc_fields a) as (G1 & G2 & G3); [lia..|].
  assert (frag_room a payload = 24 + mem_len payload) as Er by (unfold frag_room; destruct P5 as [_ -> -> -> _ _]; lia).
  assert (is_u16 (qc_value a)) as W by (unfold qc_value; destruct (qc_parts a) as (? & ? & ? & ?); by repeat apply lor_in_width).
  pose proof (ap_frame_hdr a dst (mybssid (tx_rx s)) src seq P10 P9 P12 (aa_encrypt _ P5) Ld Lb Ls) as Eh.
  destruct (qc_of_ap_hdr 0 dst (mybssid (tx_rx s)) src (16 * next_txseq seq) (qc_value a) Ld Lb Ls) as [Qc Qh].
  assert (ether dst src ty payload = (dst ++ src ++ ty) ++ payload) as -> by (unfold ether; by rewrite <- !app_assoc).
  destruct (coalesce_sealed get s1 g dst (mybssid (tx_rx s)) src _FROM_DS_ psta
    (xs <| dot11txpn := (AES_IV (dot11txpn xs) 0).2 |>) seq (dst ++ src ++ ty) payload desc room) as (f' & s' & E & Es).
  - split; try done; change (tf_attrib g) with a.
    + unfold hdr_plan. change (tx_rx s1) with (tx_rx s). by rewrite M2, M1, P1, P2, (proj2 (Z.eqb_neq _ _) P19), P9.
    + right. exact P10.
    + by right.
    + split; try done; [by rewrite P3|by apply lookup_insert_eq|by rewrite P11|].
      rewrite P11. change 0x0f with (Z.ones 4). rewrite Z.land_ones, Z.mod_small by lia. exact Q2.
    + rewrite P9, Er. lia.
    + split; [|exact P17]. unfold mem_len. rewrite !length_app, Ld, Ls, Lt. done.
    + rewrite P9, Er. change (tx_frag_len s1) with (tx_frag_len s). lia.
  - exact P5.
  - exact Hb.
  - change (tf_attrib g) with a. by rewrite Eh, Qc.
  - change (tf_attrib g) with a. unfold fc_value. by rewrite P10, P12, (aa_encrypt _ P5).
  - exists f', s', (qc_value a). change (tf_attrib g) with a in Es. rewrite Eh in Es. unfold sealed_bytes in Es. rewrite P4, P7, P8, Qc in Es.
    split_and!; [exact E|by rewrite G1|by rewrite G3|exact W|exact Es].
Qed.

(** A station with the same key to which the frame is delivered. *)
Record receives (find : list Z -> option Z) (key_of : Z -> list Z) (r : recv_main) (fr : rx_frame) (dst ap src content : list Z)
    (rsta tid sc : Z) (key : list Z) : Prop := {
  rv_joined : joined find (rp_rx r) dst ap rsta;
  rv_sta : exists st, sta_ready (rp_rx r) rsta st tid sc (x_data_rate (rm_ext fr));
  rv_main : main_ready r (rsta, tid);
  rv_key : key_of rsta = key; rv_src : src <> dst;
  rv_frame : exists pre room, holds fr pre content room;
  rv_hw : rm_encrypt fr = _AES_ /\ rm_bdecrypted fr = 0 }.

Lemma iv_length pn k : length (AES_IV pn k).1 = 8%nat.
Proof. done. Qed.

Lemma sequence_of_ctrl n : GetSequence (16 * n) = n.
Proof. unfold GetSequence. rewrite Z.shiftr_div_pow2, Z.mul_comm by lia. by apply Z.div_mul. Qed.

(** C3. Ethernet in, Ethernet out. An access point with AES in software takes a
    packet for a linked station through update_attrib and
    rtw_xmitframe_coalesce; when the frame it sends reaches a station that is
    joined to it and has the same pairwise key, recv_func hands up exactly the
    packet that went in: same addresses, same type (IPX and AppleTalk
    included), same payload, gives the receive frame back and moves the reorder
    window of the packet's priority, which is not in use, behind the frame. *)
Theorem ethernet_over_air s f dst src ty payload psta xs seq desc room :
  let tid := packet_tid junk ty payload in
  ap_side get s dst psta xs -> fresh_frame s f payload desc room -> seq_ready xs tid seq ->
  length dst = 6%nat -> length src = 6%nat -> length ty = 2%nat -> length (mybssid (tx_rx s)) = 6%nat ->
  bytes ty -> bytes payload -> bytes junk -> mem_len payload <= 1998 ->
  exists f' s', send_packet get junk s (ether dst src ty payload) f = Some (_SUCCESS, f', s') /\
    forall find key_of tkip bcmc oks now r fr rsta,
      receives find key_of r fr dst (mybssid (tx_rx s)) src (sent_bytes f') rsta tid (16 * next_txseq seq) (dot118021x_UncstKey xs) ->
      exists r', recv_func find key_of tkip bcmc oks false now r fr = Some (_SUCCESS, r') /\
        rp_up r' = rp_up r ++ [ether dst src ty payload] /\
        rp_free r' = List.filter (fun i => negb (i =? rm_id fr)) (rp_free r) ++ [rm_id fr] /\
        exists c, rp_reorder r !! (rsta, tid) = Some c /\
          rp_reorder r' = <[(rsta, tid) := window_behind c (next_txseq seq)]> (rp_reorder r).
Proof.
  intros tid HA HF HQ Ld Ls Lt Lb Hty Hb Hj Hsz.
  destruct (send_packet_done s f dst src ty payload psta xs seq desc room) as (f' & s' & qc & E & G1 & G2 & W & Es); try done.
  exists f', s'. split; [exact E|]. intros find key_of tkip bcmc oks now r fr rsta [R1 [st R2] R3 R4 R5 (pre & rm & R6) [R7 R8]].
  rewrite Es in R6. rewrite <- (snap_removed dst src ty payload) by done.
  rewrite <- (sequence_of_ctrl (next_txseq seq)). fold tid in G1. 
  enough (exists r', recv_func find key_of tkip bcmc oks false now r fr = Some (_SUCCESS, r') /\
    rp_up r' = rp_up r ++ [eth_packet (mk_msdu dst src (snap_hdr (RTW_GET_BE16 ty) ++ payload))] /\
    rp_free r' = List.filter (fun i => negb (i =? rm_id fr)) (rp_free r) ++ [rm_id fr] /\
    exists c, rp_reorder r !! (rsta, GetPriority qc) = Some c /\
      rp_reorder r' = <[(rsta, GetPriority qc) := window_behind c (GetSequence (16 * next_txseq seq))]> (rp_reorder r)) as Hall
    by (by rewrite G1 in Hall).
  apply (sealed_frame_done find key_of tkip bcmc oks now r fr pre 0 dst (mybssid (tx_rx s)) src (16 * next_txseq seq) qc rsta st
    (AES_IV (dot11txpn xs) 0).1 (snap_hdr (RTW_GET_BE16 ty) ++ payload) rm); rewrite ?G1, ?R4; try done.
  - split; try done; [apply Forall_app; split; [apply bytes_snap|done]|].
    rewrite mem_len_app, length_snap. pose proof (mem_len_nonneg payload). lia.
  - pose proof (next_txseq_width seq) as Hw. unfold in_width in *. change (2 ^ 12) with 4096 in Hw. change (2 ^ 16) with 65536. lia.
  - exact (ap_unicast _ _ _ _ _ HA).
  - unfold GetFragNum. change 0x0f with (Z.ones 4). rewrite Z.land_ones, Z.mul_comm by lia. by apply Z.mod_mul.
Qed.
End send.

Lemma demo_sent_size f' s' :
  send_packet ap_find (repeat 0x77 20) (demo_tx _AES_ 2346) (demo_packet demo_mac) (demo_xframe zero_attrib) = Some (_SUCCESS, f', s') ->
  mem_len (sent_bytes f') = 70.
Proof.
  intros E.
  assert ((fun '(_, f, _) => mem_len (sent_bytes f)) <$>
    send_packet ap_find (repeat 0x77 20) (demo_tx _AES_ 2346) (demo_packet demo_mac) (demo_xframe zero_attrib) = Some 70) as H by (by vm_compute).
  rewrite E in H. by injection H.
Qed.

Lemma ethernet_over_air_witness :
  exists f' s', send_packet ap_find (repeat 0x77 20) (demo_tx _AES_ 2346) (demo_packet demo_mac) (demo_xframe zero_attrib) =
      Some (_SUCCESS, f', s') /\
    exists r', demo_recv (demo_main true) (air_frame 7 _AES_ (sent_bytes f')) = Some (_SUCCESS, r') /\
      rp_up r' = [] ++ [demo_packet demo_mac] /\ rp_free r' = [] ++ [7] /\
      exists c, demo_blocks !! (1, 5) = Some c /\ rp_reorder r' = <[(1, 5) := window_behind c 5]> demo_blocks.
Proof.
  destruct (ethernet_over_air ap_find (repeat 0x77 20) (demo_tx _AES_ 2346) (demo_xframe zero_attrib) demo_mac demo_peer [8; 0] demo_payload 1
    demo_tx_sta 4 (repeat 0xcc 48) (repeat 0xcc 552)) as (f' & s' & E & H).
  - split; try done. eexists. split; [reflexivity|done].
  - by split.
  - split; [done|by eexists].
  - done.
  - done.
  - done.
  - done.
  - by repeat constructor.
  - by repeat constructor.
  - by repeat constructor.
  - done.
  - exists f', s'. split; [exact E|]. pose proof (demo_sent_size f' s' E) as Hs.
    assert (packet_tid (repeat 0x77 20) [8; 0] demo_payload = 5) as Et by done. cbv zeta in H. rewrite Et in H. clear Et.
    change (16 * next_txseq 4) with 80 in H.
    apply (H demo_find (fun _ => sec_key) (fun _ => []) 0 demo_skbs 0 (demo_main true) (air_frame 7 _AES_ (sent_bytes f')) 1). clear E H.
    split.
    + by split.
    + exists (demo_sta _AES_). split; [reflexivity|by exists 0xffff|by eexists|done..|by eexists|by eexists].
    + split; try done. eexists. split; [reflexivity|done].
    + done.
    + done.
    + exists [0; 0], (repeat 0 32). split; try done. unfold air_frame. cbn [rm_buf]. rewrite !mem_len_app, Hs. done.
    + done.
Defined.
