(* ===== verification/XmitThms.v ===== *)
(** * Which packets leave, and how their headers are read

    The header [rtw_make_wlanhdr] builds is the one the receive path parses; a
    packet that needs two fragments is not received; a blocked port; fresh
    packet numbers. *)

From S2P Require Import Prelude Mem Arc4 SecDefs Wep FragSpec Michael Tkip Ccmp CcmpSpec CcmpLink Reorder RecvFrame RecvThms Msdu MsduSpec RecvData RecvMain RecvDemo RecvDataSpec RecvMainSpec RecvMainThms XmitData XmitFrame XmitDemo XmitSpec AirLink.
(** The fragments of a packet in the buffer, as [rtw_dump_xframe] cuts them
    when no descriptor is pulled. *)
Fixpoint cut_fragments (n : nat) (frag_len last addr hw : Z) (buf : list Z) (mem : Z) : list (list Z) :=
  match n with
  | O => []
  | S n =>
      let sz := if (Z.of_nat n =? 0) then last else frag_len - 4 in
      take (Z.to_nat sz) (drop (Z.to_nat (mem + hw)) buf) ::
      cut_fragments n frag_len last addr hw buf (RND4 (addr + mem + hw + sz) - addr)
  end.

Definition sent_fragments (s : tx_state) (f : tx_frame) : list (list Z) :=
  cut_fragments (Z.to_nat (at_nr_frags (tf_attrib f))) (tx_frag_len s) (at_last_txcmdsz (tf_attrib f)) (tf_buf_addr f) (hw_hdr_offset (to_xf f)) (tf_buf f) 0.

(** ** Read back by the receive path *)

Section read_back.
Context (get : list Z -> option Z).

(** The fields of a received three-address QoS header. *)
Lemma read_hdr f pre fc a1 a2 a3 sc qc rest room :
  holds f pre (take 26 (hdr64 fc a1 a2 a3 sc qc) ++ rest) room ->
  length a1 = 6%nat -> length a2 = 6%nat -> length a3 = 6%nat -> is_u16 fc -> is_u16 sc -> is_u16 qc ->
  rd16 f 0 = Some fc /\ rd16 f 22 = Some sc /\ rd16 f 24 = Some qc /\
  addr_at f 4 = Some a1 /\ addr_at f 10 = Some a2 /\ addr_at f 16 = Some a3.
Proof.
  intros Hf H1 H2 H3 Wf Ws Wq.
  assert (take 26 (hdr64 fc a1 a2 a3 sc qc) = le_enc 2 fc ++ [0; 0] ++ a1 ++ a2 ++ a3 ++ le_enc 2 sc ++ le_enc 2 qc) as E.
  { unfold hdr64. replace (le_enc 2 fc ++ [0; 0] ++ a1 ++ a2 ++ a3 ++ le_enc 2 sc ++ le_enc 2 qc ++ repeat 0 38)
      with ((le_enc 2 fc ++ [0; 0] ++ a1 ++ a2 ++ a3 ++ le_enc 2 sc ++ le_enc 2 qc) ++ repeat 0 38) by (by rewrite <- !app_assoc).
    apply take_app_length'. rewrite !length_app, H1, H2, H3, !length_le_enc. done. }
  rewrite E in Hf. clear E.
  assert (forall n x, mem_len (le_enc n x) = Z.of_nat n) as Hle by (intros; unfold mem_len; by rewrite length_le_enc).
  assert (mem_len a1 = 6 /\ mem_len a2 = 6 /\ mem_len a3 = 6) as (M1 & M2 & M3) by (unfold mem_len; lia).
  assert (mem_len [0; 0] = 2) as M0 by done. set (z := [0; 0]) in *.
  assert (forall a b c off n, (le_enc 2 fc ++ z ++ a1 ++ a2 ++ a3 ++ le_enc 2 sc ++ le_enc 2 qc) ++ rest = a ++ b ++ c ->
    off = mem_len a -> n = mem_len b -> rdn (rm_buf f) (rm_data f + off) n = Some b) as R.
  { intros a b c off n Eq. rewrite Eq in Hf. by apply holds_read with (c := c) (room := room) (pre := pre). }
  unfold rd16, addr_at. split_and!.
  - rewrite (R [] (le_enc 2 fc) (z ++ a1 ++ a2 ++ a3 ++ le_enc 2 sc ++ le_enc 2 qc ++ rest)) by (rewrite ?Hle, <- ?app_assoc; done).
    cbn [fmap option_fmap option_map]. by rewrite le_dec_enc_small.
  - rewrite (R (le_enc 2 fc ++ z ++ a1 ++ a2 ++ a3) (le_enc 2 sc) (le_enc 2 qc ++ rest))
      by (rewrite ?mem_len_app, ?Hle, ?M0, ?M1, ?M2, ?M3, <- ?app_assoc; done). cbn [fmap option_fmap option_map]. by rewrite le_dec_enc_small.
  - rewrite (R (le_enc 2 fc ++ z ++ a1 ++ a2 ++ a3 ++ le_enc 2 sc) (le_enc 2 qc) rest)
      by (rewrite ?mem_len_app, ?Hle, ?M0, ?M1, ?M2, ?M3, <- ?app_assoc; done). cbn [fmap option_fmap option_map]. by rewrite le_dec_enc_small.
  - apply (R (le_enc 2 fc ++ z) a1 (a2 ++ a3 ++ le_enc 2 sc ++ le_enc 2 qc ++ rest)); rewrite ?mem_len_app, ?Hle, ?M0, <- ?app_assoc; done.
  - apply (R (le_enc 2 fc ++ z ++ a1) a2 (a3 ++ le_enc 2 sc ++ le_enc 2 qc ++ rest)); rewrite ?mem_len_app, ?Hle, ?M0, ?M1, <- ?app_assoc; done.
  - apply (R (le_enc 2 fc ++ z ++ a1 ++ a2) a3 (le_enc 2 sc ++ le_enc 2 qc ++ rest)); rewrite ?mem_len_app, ?Hle, ?M0, ?M1, ?M2, <- ?app_assoc; done.
Qed.

(** How the receive path names the direction. *)
Definition ds_code (ds : Z) : Z := if ds =? _TO_DS_ then 2 else if ds =? _FROM_DS_ then 1 else 0.

(** What it finds in the frame control field of a QoS data frame. *)
Lemma fc_fields a ds : at_subtype a = WIFI_QOS_DATA_TYPE -> ds_bits ds ->
  let fc := fc_value a ds in
  Z.land fc 0x0c = WIFI_DATA_TYPE /\ Z.testbit fc 7 = true /\ get_tofr_ds fc = ds_code ds /\
  GetPrivacy fc = Z.b2z (negb (at_encrypt a =? 0)) /\ GetMData fc = Z.b2z (negb (at_mdata a =? 0)) /\
  GetMFrag fc = 0 /\ GetPwrMgt fc = 0 /\ GetOrder fc = 0.
Proof. unfold fc_value. intros -> [-> | [-> | ->]]; destruct (at_mdata a =? 0), (at_encrypt a =? 0); split_and!; done. Qed.

Lemma seq_fields n : in_width 12 n -> GetSequence (16 * n) = n /\ GetFragNum (16 * n) = 0 /\ is_u16 (16 * n).
Proof.
  unfold in_width, GetSequence, GetFragNum. change (2 ^ 12) with 4096. change (2 ^ 16) with 65536. intros H.
  change 0x0f with (Z.ones 4). rewrite Z.shiftr_div_pow2, Z.land_ones by lia. change (2 ^ 4) with 16.
  split_and!; [rewrite Z.mul_comm; by apply Z.div_mul|rewrite Z.mul_comm; by apply Z.mod_mul|lia|lia].
Qed.

(** C20. What rtw_make_wlanhdr writes is what the receive path reads: a QoS data
    header for a linked station, in any direction without four addresses,
    parses to the planned addresses and direction, the privacy and more-data
    bits of the attributes, the TID, ack policy and A-MSDU bit of the
    attributes, the next sequence number of the TID, and fragment number 0. *)
Theorem wlanhdr_read_back s a ds a1 a2 a3 psta xs seq :
  hdr_plan s a = Some (ds, a1, a2, a3, true) -> length a1 = 6%nat -> length a2 = 6%nat -> length a3 = 6%nat ->
  at_subtype a = WIFI_QOS_DATA_TYPE -> at_hdrlen a = 26 -> tx_ready get s a psta xs seq ->
  0 <= at_priority a < 16 -> 0 <= at_ack_policy a < 4 -> 0 <= at_amsdu a < 2 ->
  exists h a' s', rtw_make_wlanhdr get s a = Some (_SUCCESS, h, a', s') /\ at_seqnum a' = next_txseq seq /\
    forall f pre rest room, holds f pre (take 26 h ++ rest) room ->
    exists fc sc qc, rd16 f 0 = Some fc /\ rd16 f 22 = Some sc /\ rd16 f 24 = Some qc /\
      addr_at f 4 = Some a1 /\ addr_at f 10 = Some a2 /\ addr_at f 16 = Some a3 /\
      Z.land fc 0x0c = WIFI_DATA_TYPE /\ Z.testbit fc 7 = true /\ get_tofr_ds fc = ds_code ds /\
      GetPrivacy fc = Z.b2z (negb (at_encrypt a =? 0)) /\ GetMData fc = Z.b2z (negb (at_mdata a =? 0)) /\
      GetMFrag fc = 0 /\ GetSequence sc = at_seqnum a' /\ GetFragNum sc = 0 /\
      GetPriority qc = at_priority a /\ GetAckpolicy qc = at_ack_policy a /\ GetAMsdu qc = at_amsdu a.
Proof.
  intros Hp H1 H2 H3 Hsub Hh HR Hpr Hak Ham. pose proof (hdr_plan_ds _ _ _ _ _ _ _ Hp) as Hds.
  assert (data_subtype a) as Hd by (by right).
  destruct (make_wlanhdr_done get s a ds a1 a2 a3 true psta xs seq) as (a' & s' & E & [[p Ep] _]); try done.
  destruct (seq_fields _ (next_txseq_width seq)) as (S1 & S2 & S3). destruct (qc_fields a Hpr Hak Ham) as (Q1 & Q2 & Q3).
  destruct (fc_fields a ds Hsub Hds) as (C1 & C2 & C3 & C4 & C5 & C6 & _). destruct (fc_width a ds Hd Hds) as (_ & _ & _ & W).
  assert (at_seqnum a' = next_txseq seq) as Es by (by subst a').
  assert (is_u16 (qc_value a)) as Wq by (unfold qc_value; destruct (qc_parts a) as (? & ? & ? & ?); by repeat apply lor_in_width).
  eexists _, a', s'. split; [exact E|]. split; [exact Es|]. intros f pre rest room Hf.
  destruct (read_hdr f pre _ a1 a2 a3 _ _ rest room Hf H1 H2 H3 W S3 Wq) as (R1 & R2 & R3 & R4 & R5 & R6).
  exists (fc_value a ds), (16 * next_txseq seq), (qc_value a). rewrite Es. split_and!; assumption.
Qed.
End read_back.

(** ** Two fragments *)

Lemma send_seen {A} (o : option (Z * tx_frame * tx_state)) (see : tx_state -> tx_frame -> A) v x :
  ((fun '(v, f, s) => (v, see s f)) <$> o) = Some (v, x) -> exists f s, o = Some (v, f, s) /\ see s f = x.
Proof. destruct o as [[[w f] s]|]; [|done]. cbn. intros [= -> <-]. by exists f, s. Qed.

(** The fragments of the demonstration packet. *)
Definition demo_fragments (privacy thr : Z) : list (list Z) :=
  match demo_send (demo_tx privacy thr) (demo_packet demo_mac) with Some (_, f, s) => sent_fragments s f | None => [] end.

Lemma recv_both m x y v1 v2 up :
  ('(v1, m1) ← demo_recv m x; '(v2, m2) ← demo_recv m1 y; Some (v1, v2, rp_up m2)) = Some (v1, v2, up) ->
  exists m1 m2, demo_recv m x = Some (v1, m1) /\ demo_recv m1 y = Some (v2, m2) /\ rp_up m2 = up.
Proof.
  destruct (demo_recv m x) as [[w1 m1]|]; [|done]. cbn [mbind option_bind].
  destruct (demo_recv m1 y) as [[w2 m2]|] eqn:E; [|done]. cbn [mbind option_bind]. intros [= -> -> <-]. by exists m1, m2.
Qed.

(** A packet that is fragmented does not arrive. Both fragments carry
    fragment number 0: without encryption a station keeps the first and drops
    the second as a repetition. With AES in software the fragments are sealed
    where they do not lie: a station refuses both, and the end of the payload
    leaves in the clear. *)
Theorem fragmented_packet_lost :
  (exists f s a b r1 r2, demo_send (demo_tx 0 50) (demo_packet demo_mac) = Some (_SUCCESS, f, s) /\ sent_fragments s f = [a; b] /\
    demo_recv (demo_main false) (air_frame 11 0 a) = Some (_SUCCESS, r1) /\
    demo_recv r1 (air_frame 12 0 b) = Some (_FAIL, r2) /\ rp_up r2 = []) /\
  (exists f s a b r1 r2, demo_send (demo_tx _AES_ 70) (demo_packet demo_mac) = Some (_SUCCESS, f, s) /\ sent_fragments s f = [a; b] /\
    demo_recv (demo_main true) (air_frame 11 _AES_ a) = Some (_FAIL, r1) /\
    demo_recv r1 (air_frame 12 _AES_ b) = Some (_FAIL, r2) /\ rp_up r2 = [] /\
    b = take 34 b ++ drop 16 demo_payload ++ repeat 0 8).
Proof.
  split.
  - let x := eval vm_compute in (demo_fragments 0 50) in
    destruct (send_seen (demo_send (demo_tx 0 50) (demo_packet demo_mac)) sent_fragments _SUCCESS x) as (f & s & E & Es); [by vm_compute|].
    let a := eval vm_compute in (nth 0 (demo_fragments 0 50) []) in let b := eval vm_compute in (nth 1 (demo_fragments 0 50) []) in
    destruct (recv_both (demo_main false) (air_frame 11 0 a) (air_frame 12 0 b) _SUCCESS _FAIL []) as (m1 & m2 & E1 & E2 & E3); [by vm_compute|].
    do 2 eexists. eexists _, _, m1, m2. exact (conj E (conj Es (conj E1 (conj E2 E3)))).
  - let x := eval vm_compute in (demo_fragments _AES_ 70) in
    destruct (send_seen (demo_send (demo_tx _AES_ 70) (demo_packet demo_mac)) sent_fragments _SUCCESS x) as (f & s & E & Es); [by vm_compute|].
    let a := eval vm_compute in (nth 0 (demo_fragments _AES_ 70) []) in let b := eval vm_compute in (nth 1 (demo_fragments _AES_ 70) []) in
    destruct (recv_both (demo_main true) (air_frame 11 _AES_ a) (air_frame 12 _AES_ b) _FAIL _FAIL []) as (m1 & m2 & E1 & E2 & E3); [by vm_compute|].
    do 2 eexists. eexists _, _, m1, m2. exact (conj E (conj Es (conj E1 (conj E2 (conj E3 eq_refl))))).
Qed.

Definition demo_attrib : tx_attrib :=
  zero_attrib <| at_subtype := WIFI_QOS_DATA_TYPE |> <| at_hdrlen := 26 |> <| at_qos_en := 1 |> <| at_priority := 5 |>
    <| at_encrypt := _AES_ |> <| at_dst := demo_mac |> <| at_ra := demo_mac |> <| at_src := demo_peer |> <| at_psta := Some 1 |>.

Lemma wlanhdr_read_back_witness :
  exists h a' s', rtw_make_wlanhdr ap_find (demo_tx _AES_ 2346) demo_attrib = Some (_SUCCESS, h, a', s') /\ at_seqnum a' = next_txseq 4 /\
    forall f pre rest room, holds f pre (take 26 h ++ rest) room ->
    exists fc sc qc, rd16 f 0 = Some fc /\ rd16 f 22 = Some sc /\ rd16 f 24 = Some qc /\
      addr_at f 4 = Some demo_mac /\ addr_at f 10 = Some demo_ap /\ addr_at f 16 = Some demo_peer /\
      Z.land fc 0x0c = WIFI_DATA_TYPE /\ Z.testbit fc 7 = true /\ get_tofr_ds fc = ds_code _FROM_DS_ /\
      GetPrivacy fc = Z.b2z (negb (at_encrypt demo_attrib =? 0)) /\ GetMData fc = Z.b2z (negb (at_mdata demo_attrib =? 0)) /\
      GetMFrag fc = 0 /\ GetSequence sc = at_seqnum a' /\ GetFragNum sc = 0 /\
      GetPriority qc = at_priority demo_attrib /\ GetAckpolicy qc = at_ack_policy demo_attrib /\ GetAMsdu qc = at_amsdu demo_attrib.
Proof.
  apply (wlanhdr_read_back ap_find (demo_tx _AES_ 2346) demo_attrib _FROM_DS_ demo_mac demo_ap demo_peer 1 demo_tx_sta 4).
  - done.
  - done.
  - done.
  - done.
  - done.
  - done.
  - by split.
  - done.
  - done.
  - done.
Defined.

(** ** Which packets leave, and with which packet number

    A blocked port lets nothing but EAPOL through; the packet numbers of the
    AES packets for a station are consecutive, as the receive path reads
    them. *)

(** ** Port control *)

Section port.
Context (get : list Z -> option Z) (junk : list Z).

(** A blocked port refuses the packet or sends it as EAPOL in the clear. *)
Lemma sec_info_blocked s a psta st ret a' s' :
  rx_stas (tx_rx s) !! psta = Some st -> ieee8021x_blocked st = true ->
  update_attrib_sec_info s a psta = Some (ret, a', s') -> ret <> _FAIL ->
  at_ether_type a = 0x888e /\ at_ether_type a' = at_ether_type a /\ at_encrypt a' = 0 /\ at_bswenc a' = false /\ at_iv_len a' = 0 /\ s' = s.
Proof.
  intros H1 H2. unfold update_attrib_sec_info. destruct (tx_stas s !! psta) as [xs|]; [|done]. cbn [mbind option_bind].
  rewrite H1. cbn [mbind option_bind]. rewrite H2. cbn [andb].
  set (b := _ <| at_encrypt := 0 |>). assert (at_ether_type b = at_ether_type a) as Eb by done. rewrite Eb.
  destruct (Z.eqb_spec (at_ether_type a) 0x888e) as [Ht|Ht]; cbn [negb]; [|by intros [= <- _ _]].
  assert (cipher_iv s b psta xs (IS_MCAST (at_ra a)) = (_SUCCESS, b <| at_iv_len := 0 |> <| at_icv_len := 0 |>, s)) as -> by reflexivity.
  assert ((_SUCCESS =? _FAIL) = false) as -> by done. intros [= <- <- <-] _. split_and!; done.
Qed.

(** What the rest of [update_attrib] leaves alone. *)
Definition same_cipher (a b : tx_attrib) : Prop :=
  at_ether_type b = at_ether_type a /\ at_encrypt b = at_encrypt a /\ at_bswenc b = at_bswenc a /\ at_iv_len b = at_iv_len a /\
  at_ra b = at_ra a /\ at_psta b = at_psta a.

Lemma same_cipher_trans a b c : same_cipher a b -> same_cipher b c -> same_cipher a c.
Proof. unfold same_cipher. intros (-> & -> & -> & -> & -> & ->) (-> & -> & -> & -> & -> & ->). done. Qed.

Lemma same_cipher_refl a : same_cipher a a.
Proof. by split_and!. Qed.

Lemma same_cipher_phy a p : same_cipher a (a <| at_phy := p |>).
Proof. by split_and!. Qed.

Lemma same_cipher_priority a b p : same_cipher a b -> same_cipher a (b <| at_priority := p |>).
Proof. done. Qed.

Lemma set_qos_keeps pkt a : same_cipher a (set_qos junk pkt a).
Proof.
  unfold set_qos. destruct (pktfile_read pkt ETH_HLEN) as [? pf]. by split_and!.
Qed.

Lemma parse_ip_keeps pf a : same_cipher a (parse_ip junk pf a).
Proof. destruct (parse_ip_done junk pf a) as (i & d & ->). by split_and!. Qed.

(** The station of an accepted packet, and how its attributes came about. *)
Lemma update_attrib_sec s pkt a0 ret a' s' :
  update_attrib get junk s pkt a0 = Some (ret, a', s') -> ret <> _FAIL ->
  exists psta a1 a2 s1, at_psta a' = Some psta /\ tx_rx s1 = tx_rx s /\ tx_stas s1 = tx_stas s /\
    (exists r, update_attrib_sec_info s1 a1 psta = Some (r, a2, s') /\ r <> _FAIL) /\
    at_ether_type a' = at_ether_type a2 /\ at_encrypt a' = at_encrypt a2 /\ at_bswenc a' = at_bswenc a2 /\ at_iv_len a' = at_iv_len a2.
Proof.
  unfold update_attrib. destruct (read_local junk pkt ETH_HLEN) as [eth pf]. set (a1 := tx_addresses _ _).
  destruct (if IS_MCAST (at_ra a1) then _ else _) as [psta|]; [|by intros [= <- _ _]].
  destruct (tx_stas s !! psta) as [xs|] eqn:Ex; [|done]. cbn [mbind option_bind]. destruct (_ =? 0); [by intros [= <- _ _]|].
  set (a2 := a1 <| at_pktlen := mem_len pf |>). set (a3 := if at_ether_type a2 =? ETH_P_IP then _ else _).
  destruct (calls_noted s ((at_ether_type a3 =? 0x888e) || (at_dhcp_pkt a3 =? 1)) (at_icmp_pkt a3 =? 1) (at_dhcp_pkt a3 =? 1)) as [cs Hcs].
  cbv zeta in Hcs. rewrite Hcs. clear Hcs. clearbody a3. set (s1 := s <| tx_calls := cs |>).
  destruct (update_attrib_sec_info s1 a3 psta) as [[[r a4] s2]|] eqn:E; [|done]. cbn [mbind option_bind].
  destruct (Z.eqb_spec r _FAIL) as [->|Hr]; [by intros [= <- _ _]|].
  set (a5 := _ <| at_priority := 0 |>).
  assert (at_psta a5 = Some psta) as L6 by reflexivity. assert (at_ether_type a5 = at_ether_type a4) as L1 by reflexivity.
  assert (at_encrypt a5 = at_encrypt a4) as L2 by reflexivity. assert (at_bswenc a5 = at_bswenc a4) as L3 by reflexivity.
  assert (at_iv_len a5 = at_iv_len a4) as L4 by reflexivity. clearbody a5.
  set (a6 := if IS_MCAST (at_ra a1) then _ else a5). set (a7 := if check_fwstate (tx_rx s) _ then _ else _).
  assert (same_cipher a5 a6) as H6 by (unfold a6; destruct (IS_MCAST _); [apply same_cipher_phy|apply same_cipher_refl]). clearbody a6.
  assert (same_cipher a6 a7) as H7.
  { unfold a7. pose proof (set_qos_keeps pkt a6) as Hq. pose proof (same_cipher_refl a6) as H0.
    destruct (check_fwstate _ _), (negb (at_qos_en a6 =? 0)), (negb (qos_option s2 =? 0)), (negb (acm_mask s2 =? 0));
      try exact H0; try exact Hq; by apply same_cipher_priority. }
  clearbody a7. pose proof (same_cipher_trans _ _ _ H6 H7) as (K1 & K2 & K3 & K4 & _ & K6).
  intros [= <- <- <-] _. exists psta, a3, a4, s1. rewrite L6 in K6. rewrite L1 in K1. rewrite L2 in K2. rewrite L3 in K3. rewrite L4 in K4.
  exact (conj K6 (conj eq_refl (conj eq_refl (conj (ex_intro _ r (conj E Hr)) (conj K1 (conj K2 (conj K3 K4))))))).
Qed.

(** While the port of a station is blocked, update_attrib accepts no packet
    for it but EAPOL, and that one leaves in the clear without using up a
    packet number; every other packet is refused. *)
Theorem blocked_port_only_eapol s pkt a0 ret a' s' psta st :
  update_attrib get junk s pkt a0 = Some (ret, a', s') -> ret <> _FAIL ->
  at_psta a' = Some psta -> rx_stas (tx_rx s) !! psta = Some st -> ieee8021x_blocked st = true ->
  at_ether_type a' = 0x888e /\ at_encrypt a' = 0 /\ at_bswenc a' = false /\ at_iv_len a' = 0 /\ tx_stas s' = tx_stas s.
Proof.
  intros H Hr Hp Hs Hb. destruct (update_attrib_sec s pkt a0 ret a' s' H Hr) as (q & a1 & a2 & s1 & E1 & E2 & E3 & (r & E4 & Er) & E5 & E6 & E7 & E8).
  assert (q = psta) as -> by congruence. rewrite <- E2 in Hs.
  destruct (sec_info_blocked s1 a1 psta st r a2 s' Hs Hb E4 Er) as (F1 & F2 & F3 & F4 & F5 & F6).
  split_and!; congruence.
Qed.
End port.

(** ** Packet numbers *)

Lemma ccmp_pn_iv pn k : in_width 48 pn -> ccmp_pn (AES_IV pn k).1 = pn /\ ccmp_keyid (AES_IV pn k).1 = k mod 4.
Proof.
  intros Hp. unfold AES_IV. cbn [fst].
  assert (forall x, in_width 8 (u8 x)) as W by (intros; apply wrap_range; lia).
  destruct (ccmp_fields (TSC pn 0) (TSC pn 1) 0 (u8 (Z.lor 0x20 (Z.shiftl (Z.land k 0x3) 6))) (TSC pn 2) (TSC pn 3) (TSC pn 4) (TSC pn 5)) as [-> ->].
  { repeat constructor; try apply W; done. }
  split.
  - assert ([TSC pn 0; TSC pn 1; TSC pn 2; TSC pn 3; TSC pn 4; TSC pn 5] = le_enc 6 pn) as ->; [|by apply le_dec_enc_small].
    cbn [le_enc]. unfold TSC, wrap. change (2 ^ 8) with 256.
    rewrite !Z.shiftr_div_pow2, !Z.div_div by lia. cbn [Z.mul Pos.mul Z.pow Z.pow_pos Pos.iter]. by rewrite Z.div_1_r.
  - change 0x3 with (Z.ones 2). rewrite Z.land_ones by lia. change (2 ^ 2) with 4. pose proof (Z.mod_pos_bound k 4 ltac:(lia)) as Hk.
    assert (k mod 4 = 0 \/ k mod 4 = 1 \/ k mod 4 = 2 \/ k mod 4 = 3) as [-> | [-> | [-> | ->]]] by lia; done.
Qed.

Section numbers.
Context (get : list Z -> option Z).

(** The IVs of packets that are accepted one after the other. *)
Fixpoint iv_run (s : tx_state) (psta : Z) (pkts : list tx_attrib) : option (list (list Z)) :=
  match pkts with
  | [] => Some []
  | a :: pkts =>
      '(ret, a, s) ← update_attrib_sec_info s a psta;
      ivs ← iv_run s psta pkts;
      Some (if ret =? _FAIL then ivs else iv_of a :: ivs)
  end.

Lemma ap_side_txpn s dst psta xs pn : ap_side get s dst psta xs -> ap_side get (set_txpn s psta xs pn) dst psta (xs <| dot11txpn := pn |>).
Proof. intros []. split; try done. apply lookup_insert_eq. Qed.

Lemma iv_run_done pkts : forall s dst psta xs,
  ap_side get s dst psta xs -> Forall (fun a => at_ra a = dst) pkts ->
  0 <= dot11txpn xs -> dot11txpn xs + Z.of_nat (length pkts) <= 2 ^ 48 ->
  exists ivs, iv_run s psta pkts = Some ivs /\ map ccmp_pn ivs = seqZ (dot11txpn xs) (Z.of_nat (length pkts)).
Proof.
  induction pkts as [|a pkts IH]; intros s dst psta xs HA Hf H0 Hn; [by exists []|].
  apply Forall_cons_1 in Hf as [Ha Hf]. cbn [length] in Hn. cbn [iv_run].
  rewrite (sec_info_aes get s a dst psta xs HA Ha). cbn [mbind option_bind].
  assert (dot11txpn xs < 2 ^ 48) as Hlt by lia.
  assert ((AES_IV (dot11txpn xs) 0).2 = if dot11txpn xs =? 0xffffffffffff then 0 else dot11txpn xs + 1) as Epn.
  { unfold AES_IV. cbn [snd]. destruct (_ =? _); [done|]. apply wrap_small. unfold in_width. lia. }
  set (a' := _ <| at_bswenc := true |>).
  assert (iv_of a' = (AES_IV (dot11txpn xs) 0).1) as Ei by reflexivity. clearbody a'.
  assert (in_width 48 (dot11txpn xs)) as Hw by (unfold in_width; lia).
  destruct pkts as [|b pkts].
  - cbn [iv_run mbind option_bind]. exists [iv_of a']. split; [done|]. cbn [map length]. rewrite Ei.
    rewrite (proj1 (ccmp_pn_iv _ 0 Hw)). done.
  - cbn [length] in *. destruct (Z.eqb_spec (dot11txpn xs) 0xffffffffffff) as [E|E]; [lia|].
    destruct (IH _ dst psta _ (ap_side_txpn s dst psta xs (AES_IV (dot11txpn xs) 0).2 HA) Hf) as (ivs & R & Em).
    + change (0 <= (AES_IV (dot11txpn xs) 0).2). rewrite Epn. lia.
    + change ((AES_IV (dot11txpn xs) 0).2 + Z.of_nat (S (length pkts)) <= 2 ^ 48). rewrite Epn. lia.
    + rewrite R. cbn [mbind option_bind]. assert ((_SUCCESS =? _FAIL) = false) as -> by done.
      exists (iv_of a' :: ivs). split; [done|]. cbn [map]. rewrite Em, Ei, (proj1 (ccmp_pn_iv _ 0 Hw)).
      change (dot11txpn (xs <| dot11txpn := (AES_IV (dot11txpn xs) 0).2 |>)) with ((AES_IV (dot11txpn xs) 0).2). rewrite Epn.
      rewrite (seqZ_cons (dot11txpn xs)) by lia. do 2 f_equal; lia.
Qed.

(** C21. No packet number is used twice: the IVs of the packets that an access
    point accepts for a station with AES carry, as recv_ucast_pn_decache reads
    them, consecutive packet numbers, for as long as the 48 bits last; no two
    of them are equal. *)
Theorem packet_numbers_fresh s dst psta xs pkts :
  ap_side get s dst psta xs -> Forall (fun a => at_ra a = dst) pkts ->
  0 <= dot11txpn xs -> dot11txpn xs + Z.of_nat (length pkts) <= 2 ^ 48 ->
  exists ivs, iv_run s psta pkts = Some ivs /\ map ccmp_pn ivs = seqZ (dot11txpn xs) (Z.of_nat (length pkts)) /\ NoDup ivs.
Proof.
  intros HA Hf H0 Hn. destruct (iv_run_done pkts s dst psta xs HA Hf H0 Hn) as (ivs & E & Em). exists ivs. split_and!; [done|done|].
  apply (NoDup_fmap_1 ccmp_pn). change (ccmp_pn <$> ivs) with (map ccmp_pn ivs). rewrite Em. apply NoDup_seqZ.
Qed.
End numbers.

(** ** Concrete runs *)

(** The access point before the handshake with its station is over. *)
Definition demo_blocked : tx_state :=
  let s := demo_tx _AES_ 2346 in
  s <| tx_rx := (tx_rx s) <| rx_stas := {[ 1 := (demo_sta _AES_) <| ieee8021x_blocked := true |> ]} |> |>.

Definition demo_eapol : list Z := demo_mac ++ demo_peer ++ [0x88; 0x8e] ++ [1; 3; 0; 95].

Lemma blocked_port_only_eapol_witness :
  exists a s, update_attrib ap_find [] demo_blocked demo_eapol zero_attrib = Some (_SUCCESS, a, s) /\
    at_ether_type a = 0x888e /\ at_encrypt a = 0 /\ at_bswenc a = false /\ at_iv_len a = 0 /\ tx_stas s = tx_stas demo_blocked.
Proof.
  destruct (update_attrib ap_find [] demo_blocked demo_eapol zero_attrib) as [[[r a] s]|] eqn:E; [|by vm_compute in E].
  assert (Some (r, at_psta a) = Some (_SUCCESS, Some 1)) as [= -> Hp].
  { transitivity ((fun '(r, a, _) => (r, at_psta a)) <$> update_attrib ap_find [] demo_blocked demo_eapol zero_attrib); [by rewrite E|by vm_compute]. }
  exists a, s. split; [done|].
  apply (blocked_port_only_eapol ap_find [] demo_blocked demo_eapol zero_attrib _SUCCESS a s 1
    ((demo_sta _AES_) <| ieee8021x_blocked := true |>) E ltac:(done) Hp eq_refl eq_refl).
Defined.

Lemma packet_numbers_fresh_witness :
  exists ivs, iv_run (demo_tx _AES_ 2346) 1 (repeat (zero_attrib <| at_ra := demo_mac |>) 3) = Some ivs /\
    map ccmp_pn ivs = [41; 42; 43] /\ NoDup ivs.
Proof.
  apply (packet_numbers_fresh ap_find (demo_tx _AES_ 2346) demo_mac 1 demo_tx_sta).
  - split; try done. eexists. split; [reflexivity|done].
  - by repeat constructor.
  - done.
  - done.
Defined.
