(* ===== verification/XmitQueue.v ===== *)
(** * Transmit frames and their queues (core/rtw_xmit.c)

    The pool of transmit frames, the queues of the stations by access
    category, the sleep queues of an access point and [rtw_xmit], built with
    CONFIG_AP_MODE and without CONFIG_TDLS, CONFIG_MCC_MODE and CONFIG_BR_EXT.
    A frame is a number; its list node is in at most one list, so deleting it
    takes the number out of every list.  The hardware part is
    [pre_xmitframe] of hal/rtl8812a/usb/rtl8812au_xmit.c: a frame that is sent
    at once gets a buffer and ends in [xq_air].  [None] is an access through
    [NULL] or outside an array. *)

From S2P Require Import Prelude Mem Arc4 SecDefs Wep Michael Tkip Ccmp Reorder RecvFrame Msdu RecvData XmitData XmitFrame.
Definition WIFI_SLEEP_STATE : Z := 4.
Definition WIFI_STA_ALIVE_CHK_STATE : Z := 0x400.
Definition WIFI_MESH_STATE : Z := 0x200.
Definition QSLT_HIGH : Z := 0x11.
Definition BIT (n : Z) : Z := Z.shiftl 1 n.

(** ** State *)

(** The frames of a station in one access category. *)
Record tx_servq := mk_servq { sta_pending : list Z; qcnt : Z }.

#[export] Instance eta_tx_servq : Eta tx_servq := fun q => mk_servq (sta_pending q) (qcnt q).

(** The queues of a station; [qs_servqs] holds [vo_q], [vi_q], [be_q], [bk_q].
    Its state word is in the [tx_sta] of the same index. *)
Record q_sta := mk_q_sta {
  qs_aid : Z; qs_servqs : list tx_servq; sleep_q : list Z; sleepq_len : Z; sleepq_ac_len : Z;
  uapsd_bk : Z; uapsd_be : Z; uapsd_vi : Z; uapsd_vo : Z; has_legacy_ac : Z; qs_expire_to : Z }.

#[export] Instance eta_q_sta : Eta q_sta := fun s =>
  mk_q_sta (qs_aid s) (qs_servqs s) (sleep_q s) (sleepq_len s) (sleepq_ac_len s) (uapsd_bk s) (uapsd_be s) (uapsd_vi s)
    (uapsd_vo s) (has_legacy_ac s) (qs_expire_to s).

(** The stations with frames in an access category, by their [tx_pending]. *)
Record hw_xmit := mk_hw_xmit { sta_queue : list Z; accnt : Z }.

#[export] Instance eta_hw_xmit : Eta hw_xmit := fun h => mk_hw_xmit (sta_queue h) (accnt h).

(** [qf_alloc]: the frame has an [alloc_addr] of its own. *)
Record q_frame := mk_q_frame { qf_attrib : tx_attrib; qf_qsel : Z; qf_pkt : option (list Z); qf_ext_tag : Z; qf_alloc : bool }.

#[export] Instance eta_q_frame : Eta q_frame := fun f =>
  mk_q_frame (qf_attrib f) (qf_qsel f) (qf_pkt f) (qf_ext_tag f) (qf_alloc f).

Inductive q_call := PktComplete (pkt : list Z) | UpdateBeacon | ChkBmcSleepq | XmitTasklet | LedTx.

Record xmit_q := mk_xmit_q {
  xq_tx : tx_state; xq_stas : gmap Z q_sta; xq_frames : gmap Z q_frame; xq_hw : list hw_xmit;
  xq_free : list Z; free_xmitframe_cnt : Z; xq_free_ext : list Z; free_xframe_ext_cnt : Z;
  sta_dz_bitmap : Z; tim_bitmap : Z; sta_expire_to : Z; q_wifi_spec : Z; wmm_para_seq : list Z; hiq_filter : Z;
  tx_drop : Z; xq_air : list tx_frame; q_calls : list q_call }.

#[export] Instance eta_xmit_q : Eta xmit_q := fun s =>
  mk_xmit_q (xq_tx s) (xq_stas s) (xq_frames s) (xq_hw s) (xq_free s) (free_xmitframe_cnt s) (xq_free_ext s) (free_xframe_ext_cnt s)
    (sta_dz_bitmap s) (tim_bitmap s) (sta_expire_to s) (q_wifi_spec s) (wmm_para_seq s) (hiq_filter s) (tx_drop s) (xq_air s) (q_calls s).

Definition q_note (s : xmit_q) (c : q_call) : xmit_q := s <| q_calls := q_calls s ++ [c] |>.

(** [psta->state]. *)
Definition sta_state (s : xmit_q) (psta : Z) : option Z := ts_state <$> tx_stas (xq_tx s) !! psta.

Definition set_state (s : xmit_q) (psta v : Z) : xmit_q :=
  s <| xq_tx := (xq_tx s) <| tx_stas := alter (fun xs => xs <| ts_state := v |>) psta (tx_stas (xq_tx s)) |> |>.

Definition put_qsta (s : xmit_q) (psta : Z) (st : q_sta) : xmit_q := s <| xq_stas := <[psta := st]> (xq_stas s) |>.
Definition put_frame (s : xmit_q) (id : Z) (f : q_frame) : xmit_q := s <| xq_frames := <[id := f]> (xq_frames s) |>.

(** ** Lists *)

Definition drop_id (id : Z) (l : list Z) : list Z := filter (fun x => x <> id) l.

Definition unlink_sta (id : Z) (st : q_sta) : q_sta :=
  st <| qs_servqs := map (fun q => q <| sta_pending := drop_id id (sta_pending q) |>) (qs_servqs st) |>
     <| sleep_q := drop_id id (sleep_q st) |>.

(** [rtw_list_delete(&pxmitframe->list)]. *)
Definition frame_delete (s : xmit_q) (id : Z) : xmit_q :=
  s <| xq_stas := unlink_sta id <$> xq_stas s |> <| xq_free := drop_id id (xq_free s) |> <| xq_free_ext := drop_id id (xq_free_ext s) |>.

(** The service queue of an access category. *)
Definition put_servq (st : q_sta) (ac : Z) (q : tx_servq) : q_sta := st <| qs_servqs := arr_set (qs_servqs st) ac q |>.

(** [rtw_list_delete(&ptxservq->tx_pending)]. *)
Definition pending_delete (s : xmit_q) (psta ac : Z) : xmit_q :=
  match key_at (xq_hw s) ac with
  | Some h => s <| xq_hw := arr_set (xq_hw s) ac (h <| sta_queue := drop_id psta (sta_queue h) |>) |>
  | None => s
  end.

(** A loop over the frames of a list, which the body may take off it. *)
Fixpoint each (body : xmit_q -> Z -> option xmit_q) (s : xmit_q) (ids : list Z) : option xmit_q :=
  match ids with
  | [] => Some s
  | id :: ids => s ← body s id; each body s ids
  end.

(** ** The pool *)

Definition NR_XMITFRAME : Z := 256.
Definition NR_XMIT_EXTBUFF : Z := 64.
Definition HWXMIT_ENTRY : nat := 4.

Definition new_frame (ext_tag : Z) : q_frame := mk_q_frame zero_attrib 0 None ext_tag false.

(** The frames and their pools; the rest of [s] is set elsewhere. *)
Definition _rtw_init_xmit_priv (s : xmit_q) : xmit_q :=
  let main := seqZ 0 NR_XMITFRAME in
  let ext := seqZ NR_XMITFRAME NR_XMIT_EXTBUFF in
  s <| xq_frames := list_to_map (map (fun id => (id, new_frame 0)) main ++ map (fun id => (id, new_frame 1)) ext) |>
    <| xq_free := main |> <| free_xmitframe_cnt := NR_XMITFRAME |> <| xq_free_ext := ext |> <| free_xframe_ext_cnt := NR_XMIT_EXTBUFF |>
    <| xq_hw := repeat (mk_hw_xmit [] 0) HWXMIT_ENTRY |>.

Definition _rtw_init_stainfo : q_sta := mk_q_sta 0 (repeat (mk_servq [] 0) 4) [] 0 0 0 0 0 0 0 0.

Definition init_q_frame (f : q_frame) : q_frame := f <| qf_attrib := zero_attrib |> <| qf_qsel := 0 |> <| qf_pkt := None |>.

Definition rtw_alloc_xmitframe (s : xmit_q) : option (option Z * xmit_q) :=
  match xq_free s with
  | [] => Some (None, s)
  | id :: rest =>
      f ← xq_frames s !! id;
      Some (Some id, put_frame (s <| xq_free := rest |> <| free_xmitframe_cnt := u32 (free_xmitframe_cnt s - 1) |>) id (init_q_frame f))
  end.

Definition rtw_alloc_xmitframe_ext (s : xmit_q) : option (option Z * xmit_q) :=
  match xq_free_ext s with
  | [] => Some (None, s)
  | id :: rest =>
      f ← xq_frames s !! id;
      Some (Some id, put_frame (s <| xq_free_ext := rest |> <| free_xframe_ext_cnt := u32 (free_xframe_ext_cnt s - 1) |>) id (init_q_frame f))
  end.

Definition rtw_free_xmitframe (s : xmit_q) (id : Z) : option xmit_q :=
  f ← xq_frames s !! id;
  let s := put_frame s id (f <| qf_pkt := None |>) in
  s ← (if qf_alloc f then Some (s <| xq_frames := delete id (xq_frames s) |>)
       else if qf_ext_tag f =? 0 then
         let s := frame_delete s id in
         Some (s <| xq_free := xq_free s ++ [id] |> <| free_xmitframe_cnt := u32 (free_xmitframe_cnt s + 1) |>)
       else if qf_ext_tag f =? 1 then
         let s := frame_delete s id in
         Some (s <| xq_free_ext := xq_free_ext s ++ [id] |> <| free_xframe_ext_cnt := u32 (free_xframe_ext_cnt s + 1) |>)
       else None);
  Some (match qf_pkt f with Some pkt => q_note s (PktComplete pkt) | None => s end).

(** The frames of a queue, in order. *)
Definition rtw_free_xmitframe_queue (s : xmit_q) (ids : list Z) : option xmit_q := each rtw_free_xmitframe s ids.

(** ** Access categories *)

(** [rtw_get_sta_pending]: the index of the service queue of a priority. *)
Definition ac_of (up : Z) : Z :=
  if (up =? 1) || (up =? 2) then 3 else if (up =? 4) || (up =? 5) then 1 else if (up =? 6) || (up =? 7) then 0 else 2.

Definition uapsd (st : q_sta) (up bit : Z) : bool :=
  let ac := ac_of up in
  Z.testbit (if ac =? 3 then uapsd_bk st else if ac =? 1 then uapsd_vi st else if ac =? 0 then uapsd_vo st else uapsd_be st) bit.

Section queue.
Context (rtw_get_stainfo : list Z -> option Z).

(** The station a frame goes to, when it is still the one [update_attrib]
    found and is linked. *)
Definition frame_sta (s : xmit_q) (f : q_frame) : option (option Z) :=
  let psta := rtw_get_stainfo (at_ra (qf_attrib f)) in
  if negb (bool_decide (at_psta (qf_attrib f) = psta)) then Some None
  else
    match psta with
    | None => Some None
    | Some psta => w ← sta_state s psta; Some (if Z.land w _FW_LINKED =? 0 then None else Some psta)
    end.

Definition rtw_xmit_classifier (s : xmit_q) (id : Z) : option (Z * xmit_q) :=
  f ← xq_frames s !! id;
  psta ← frame_sta s f;
  match psta : option Z with
  | None => Some (_FAIL, s)
  | Some psta =>
      let ac := ac_of (at_priority (qf_attrib f)) in
      st ← xq_stas s !! psta;
      q ← key_at (qs_servqs st) ac;
      h ← key_at (xq_hw s) ac;
      let h := h <| sta_queue := if bool_decide (psta ∈ sta_queue h) then sta_queue h else sta_queue h ++ [psta] |>
                 <| accnt := s32 (accnt h + 1) |> in
      let st := put_servq st ac (mk_servq (sta_pending q ++ [id]) (s32 (qcnt q + 1))) in
      Some (_SUCCESS, put_qsta (s <| xq_hw := arr_set (xq_hw s) ac h |>) psta st)
  end.

Definition rtw_xmitframe_enqueue (s : xmit_q) (id : Z) : option (Z * xmit_q) :=
  '(r, s) ← rtw_xmit_classifier s id; Some (if r =? _FAIL then _FAIL else _SUCCESS, s).

Definition rtw_txframes_pending (s : xmit_q) : bool := existsb (fun h => bool_decide (sta_queue h <> [])) (xq_hw s).

Definition rtw_txframes_sta_ac_pending (s : xmit_q) (f : q_frame) : option Z :=
  psta ← frame_sta s f;
  match psta : option Z with
  | None => Some 0
  | Some psta => st ← xq_stas s !! psta; q ← key_at (qs_servqs st) (ac_of (at_priority (qf_attrib f))); Some (qcnt q)
  end.

(** ** Serving the queues *)

(** The first station on the list with a frame, and the frame. *)
Fixpoint first_frame (s : xmit_q) (ac : Z) (stas : list Z) : option (option (Z * Z)) :=
  match stas with
  | [] => Some None
  | psta :: stas =>
      st ← xq_stas s !! psta;
      q ← key_at (qs_servqs st) ac;
      match sta_pending q with id :: _ => Some (Some (psta, id)) | [] => first_frame s ac stas end
  end.

(** One access category: the frame that leaves it. *)
Definition dequeue_ac (s : xmit_q) (ac : Z) : option (option Z * xmit_q) :=
  h ← key_at (xq_hw s) ac;
  r ← first_frame s ac (sta_queue h);
  match r : option (Z * Z) with
  | None => Some (None, s)
  | Some (psta, id) =>
      st ← xq_stas s !! psta;
      q ← key_at (qs_servqs st) ac;
      let rest := tail (sta_pending q) in
      let h := h <| accnt := s32 (accnt h - 1) |>
                 <| sta_queue := if bool_decide (rest = []) then drop_id psta (sta_queue h) else sta_queue h |> in
      Some (Some id, put_qsta (s <| xq_hw := arr_set (xq_hw s) ac h |>) psta (put_servq st ac (mk_servq rest (s32 (qcnt q - 1)))))
  end.

Fixpoint dequeue_acs (s : xmit_q) (acs : list Z) : option (option Z * xmit_q) :=
  match acs with
  | [] => Some (None, s)
  | ac :: acs =>
      '(r, s') ← dequeue_ac s ac;
      match r : option Z with Some id => Some (Some id, s') | None => dequeue_acs s acs end
  end.

Definition rtw_dequeue_xframe (s : xmit_q) : option (option Z * xmit_q) :=
  dequeue_acs s (if q_wifi_spec s =? 1 then wmm_para_seq s else [0; 1; 2; 3]).

(** ** Sleeping stations *)

Definition xmitframe_hiq_filter (s : xmit_q) (f : q_frame) : bool :=
  let a := qf_attrib f in
  if q_wifi_spec s =? 1 then true
  else if hiq_filter s =? 1 then (at_ether_type a =? 0x0806) || (at_ether_type a =? 0x888e) || negb (at_dhcp_pkt a =? 0)
  else hiq_filter s =? 0.

Definition is_ap (s : xmit_q) : bool :=
  negb (Z.land (fw_state (tx_rx (xq_tx s))) WIFI_AP_STATE =? 0) || negb (Z.land (fw_state (tx_rx (xq_tx s))) WIFI_MESH_STATE =? 0).

(** The frame at the end of the sleep queue of its station. *)
Definition to_sleep_q (s : xmit_q) (psta id : Z) : option xmit_q :=
  let s := frame_delete s id in
  st ← xq_stas s !! psta;
  Some (put_qsta s psta (st <| sleep_q := sleep_q st ++ [id] |> <| sleepq_len := u32 (sleepq_len st + 1) |>)).

Definition xmitframe_enqueue_for_sleeping_sta (s : xmit_q) (id : Z) : option (bool * xmit_q) :=
  f ← xq_frames s !! id;
  let a := qf_attrib f in
  let bmcst := IS_MCAST (at_ra a) in
  if negb (is_ap s) then Some (false, s)
  else
    psta ← frame_sta s f;
    match psta : option Z with
    | None => Some (false, s)
    | Some psta =>
        if ph_triggered (at_phy a) =? 1 then
          Some (false, if bmcst && xmitframe_hiq_filter s f then put_frame s id (f <| qf_qsel := QSLT_HIGH |>) else s)
        else if bmcst then
          if sta_dz_bitmap s =? 0 then Some (false, s)
          else
            s ← to_sleep_q s psta id;
            let update_tim := negb (Z.testbit (tim_bitmap s) 0) in
            let s := s <| tim_bitmap := u16 (Z.lor (tim_bitmap s) (BIT 0)) |> <| sta_dz_bitmap := u16 (Z.lor (sta_dz_bitmap s) (BIT 0)) |> in
            Some (true, q_note s (if update_tim then UpdateBeacon else ChkBmcSleepq))
        else
          w ← sta_state s psta;
          st ← xq_stas s !! psta;
          if negb (Z.land w WIFI_SLEEP_STATE =? 0) && Z.testbit (sta_dz_bitmap s) (qs_aid st) then
            s ← to_sleep_q s psta id;
            st ← xq_stas s !! psta;
            let wmmps_ac := uapsd st (at_priority a) 0 in
            let s := if wmmps_ac then put_qsta s psta (st <| sleepq_ac_len := u32 (sleepq_ac_len st + 1) |>) else s in
            if xorb wmmps_ac (negb (has_legacy_ac st =? 0)) then
              let update_tim := negb (Z.testbit (tim_bitmap s) (qs_aid st)) in
              let s := s <| tim_bitmap := u16 (Z.lor (tim_bitmap s) (BIT (qs_aid st))) |> in
              Some (true, if update_tim then q_note s UpdateBeacon else s)
            else Some (true, s)
          else Some (false, s)
    end.

(** One frame of [dequeue_xmitframes_to_sleeping_queue]. *)
Definition put_to_sleep (s : xmit_q) (psta id : Z) : option xmit_q :=
  f ← xq_frames s !! id;
  let a := qf_attrib f in
  let s := put_frame s id (f <| qf_attrib := a <| at_phy := (at_phy a) <| ph_triggered := 0 |> |> |>) in
  '(r, s) ← xmitframe_enqueue_for_sleeping_sta s id;
  if r : bool then
    let ac := ac_of (at_priority a) in
    st ← xq_stas s !! psta;
    q ← key_at (qs_servqs st) ac;
    h ← key_at (xq_hw s) ac;
    Some (put_qsta (s <| xq_hw := arr_set (xq_hw s) ac (h <| accnt := s32 (accnt h - 1) |>) |>) psta
            (put_servq st ac (q <| qcnt := s32 (qcnt q - 1) |>)))
  else Some s.

Definition dequeue_xmitframes_to_sleeping_queue (s : xmit_q) (psta : Z) (ids : list Z) : option xmit_q :=
  each (fun s id => put_to_sleep s psta id) s ids.

(** The frames of one access category, which leaves the list of its class. *)
Definition sleep_ac (s : xmit_q) (psta ac : Z) : option xmit_q :=
  st ← xq_stas s !! psta;
  q ← key_at (qs_servqs st) ac;
  s ← dequeue_xmitframes_to_sleeping_queue s psta (sta_pending q);
  Some (pending_delete s psta ac).

Definition stop_sta_xmit (s : xmit_q) (psta : Z) : option xmit_q :=
  let psta_bmc := rtw_get_stainfo bc_addr in
  w ← sta_state s psta;
  st ← xq_stas s !! psta;
  let s := set_state s psta (Z.lor w WIFI_SLEEP_STATE) in
  let s := s <| sta_dz_bitmap := u16 (Z.lor (sta_dz_bitmap s) (BIT (qs_aid st))) |> in
  s ← sleep_ac s psta 0; s ← sleep_ac s psta 1; s ← sleep_ac s psta 2; s ← sleep_ac s psta 3;
  b ← psta_bmc;
  sleep_ac s b 2.

(** ** Waking up *)

Definition rtw_hal_xmitframe_enqueue (s : xmit_q) (id : Z) : option xmit_q :=
  '(err, s) ← rtw_xmitframe_enqueue s id;
  if err =? _SUCCESS then Some (q_note s XmitTasklet)
  else s ← rtw_free_xmitframe s id; Some (s <| tx_drop := u64 (tx_drop s + 1) |>).

(** The frame leaves the sleep queue with its more-data and end-of-service
    bits and is queued. *)
Definition release (s : xmit_q) (id : Z) (mdata : Z) (eosp : option Z) : option xmit_q :=
  f ← xq_frames s !! id;
  let a := qf_attrib f in
  let a := a <| at_mdata := mdata |> <| at_eosp := default (at_eosp a) eosp |> <| at_phy := (at_phy a) <| ph_triggered := 1 |> |> in
  rtw_hal_xmitframe_enqueue (put_frame s id (f <| qf_attrib := a |>)) id.

Definition wake_one (s : xmit_q) (psta id : Z) : option xmit_q :=
  f ← xq_frames s !! id;
  let s := frame_delete s id in
  st ← xq_stas s !! psta;
  let wmmps_ac := uapsd st (at_priority (qf_attrib f)) 1 in
  let len := u32 (sleepq_len st - 1) in
  let ac_len := u32 (sleepq_ac_len st - 1) in
  let st := st <| sleepq_len := len |> in
  if wmmps_ac then
    let s := put_qsta s psta (st <| sleepq_ac_len := ac_len |>) in
    if 0 <? ac_len then release s id 1 (Some 0) else release s id 0 (Some 1)
  else release (put_qsta s psta st) id (if 0 <? len then 1 else 0) None.

Definition wake_all (s : xmit_q) (psta : Z) (ids : list Z) : option xmit_q := each (fun s id => wake_one s psta id) s ids.

(** The loop over the sleep queue of the broadcast station. *)
Definition wake_bmc_one (s : xmit_q) (psta id : Z) : option xmit_q :=
  let s := frame_delete s id in
  st ← xq_stas s !! psta;
  let len := u32 (sleepq_len st - 1) in
  release (put_qsta s psta (st <| sleepq_len := len |>)) id (if 0 <? len then 1 else 0) None.

Definition wake_bmc_all (s : xmit_q) (psta : Z) (ids : list Z) : option xmit_q := each (fun s id => wake_bmc_one s psta id) s ids.

(** The station has no frame left: it is awake. *)
Definition wake_done (s : xmit_q) (psta : Z) : option (bool * xmit_q) :=
  st ← xq_stas s !! psta;
  if sleepq_len st =? 0 then
    let beacon := Z.testbit (tim_bitmap s) (qs_aid st) in
    let s := s <| tim_bitmap := Z.land (tim_bitmap s) (Z.lnot (BIT (qs_aid st))) |> in
    w ← sta_state s psta;
    let w := if Z.land w WIFI_SLEEP_STATE =? 0 then w else Z.lxor w WIFI_SLEEP_STATE in
    let s := if Z.land w WIFI_STA_ALIVE_CHK_STATE =? 0 then set_state s psta w
             else set_state (put_qsta s psta (st <| qs_expire_to := sta_expire_to s |>)) psta (Z.lxor w WIFI_STA_ALIVE_CHK_STATE) in
    Some (beacon, s <| sta_dz_bitmap := Z.land (sta_dz_bitmap s) (Z.lnot (BIT (qs_aid st))) |>)
  else Some (false, s).

Definition wake_bmc (s : xmit_q) (b : Z) : option (bool * xmit_q) :=
  if Z.land (sta_dz_bitmap s) 0xfffe =? 0 then
    st ← xq_stas s !! b;
    s ← wake_bmc_all s b (sleep_q st);
    st ← xq_stas s !! b;
    if sleepq_len st =? 0 then
      Some (Z.testbit (tim_bitmap s) 0,
            s <| tim_bitmap := Z.land (tim_bitmap s) (Z.lnot (BIT 0)) |> <| sta_dz_bitmap := Z.land (sta_dz_bitmap s) (Z.lnot (BIT 0)) |>)
    else Some (false, s)
  else Some (false, s).

Definition wakeup_sta_to_xmit (s : xmit_q) (psta : Z) : option xmit_q :=
  let psta_bmc := rtw_get_stainfo bc_addr in
  st ← xq_stas s !! psta;
  s ← wake_all s psta (sleep_q st);
  '(b1, s) ← wake_done s psta;
  '(b2, s) ← (match psta_bmc with None => Some (false, s) | Some b => wake_bmc s b end);
  Some (if b1 || b2 then q_note s UpdateBeacon else s).

(** The frames of the delivery-enabled categories. *)
Definition deliver_one (s : xmit_q) (psta id : Z) : option xmit_q :=
  f ← xq_frames s !! id;
  st ← xq_stas s !! psta;
  if negb (uapsd st (at_priority (qf_attrib f)) 1) then Some s
  else
    let s := frame_delete s id in
    st ← xq_stas s !! psta;
    let ac_len := u32 (sleepq_ac_len st - 1) in
    let s := put_qsta s psta (st <| sleepq_len := u32 (sleepq_len st - 1) |> <| sleepq_ac_len := ac_len |>) in
    s ← (if 0 <? ac_len then release s id 1 (Some 0) else release s id 0 (Some 1));
    if (ac_len =? 0) && (has_legacy_ac st =? 0) then
      Some (q_note (s <| tim_bitmap := Z.land (tim_bitmap s) (Z.lnot (BIT (qs_aid st))) |>) UpdateBeacon)
    else Some s.

Definition deliver_all (s : xmit_q) (psta : Z) (ids : list Z) : option xmit_q := each (fun s id => deliver_one s psta id) s ids.

Definition xmit_delivery_enabled_frames (s : xmit_q) (psta : Z) : option xmit_q :=
  st ← xq_stas s !! psta; deliver_all s psta (sleep_q st).

(** ** A station that is removed (core/rtw_sta_mgt.c, [rtw_free_stainfo]) *)

Definition flush_ac (s : xmit_q) (psta ac : Z) : option xmit_q :=
  st ← xq_stas s !! psta;
  q ← key_at (qs_servqs st) ac;
  s ← rtw_free_xmitframe_queue s (sta_pending q);
  let s := pending_delete s psta ac in
  h ← key_at (xq_hw s) ac;
  st ← xq_stas s !! psta;
  q ← key_at (qs_servqs st) ac;
  Some (put_qsta (s <| xq_hw := arr_set (xq_hw s) ac (h <| accnt := s32 (accnt h - qcnt q) |>) |>) psta
          (put_servq st ac (q <| qcnt := 0 |>))).

Definition free_sta_queues (s : xmit_q) (psta : Z) : option xmit_q :=
  st ← xq_stas s !! psta;
  s ← rtw_free_xmitframe_queue s (sleep_q st);
  st ← xq_stas s !! psta;
  let s := put_qsta s psta (st <| sleepq_len := 0 |>) in
  s ← flush_ac s psta 0; s ← flush_ac s psta 1; s ← flush_ac s psta 2; flush_ac s psta 3.

(** ** The main transmit entry *)

Context (junk : list Z).

(** [rtw_dump_xframe] hands the frame to the hardware and frees it. *)
Definition rtw_dump_xframe (s : xmit_q) (id : Z) (f : tx_frame) : option xmit_q :=
  rtw_free_xmitframe (s <| xq_air := xq_air s ++ [f] |>) id.

(** [direct]: address and memory of the transmit buffer, when transmission is
    not blocked and there is one. *)
Definition pre_xmitframe (s : xmit_q) (id : Z) (direct : option (Z * list Z)) : option (bool * xmit_q) :=
  f ← xq_frames s !! id;
  n ← rtw_txframes_sta_ac_pending s f;
  match (if 0 <? n then None else direct) with
  | Some (addr, mem) =>
      pkt ← qf_pkt f;
      '(res, tf, tx) ← rtw_xmitframe_coalesce rtw_get_stainfo (xq_tx s) pkt (mk_tx_frame (qf_attrib f) 1 addr mem);
      let s := put_frame (s <| xq_tx := tx |>) id (f <| qf_attrib := tf_attrib tf |>) in
      s ← (if res =? _SUCCESS then rtw_dump_xframe s id tf else rtw_free_xmitframe s id);
      Some (true, s)
  | None =>
      '(res, s) ← rtw_xmitframe_enqueue s id;
      if res =? _SUCCESS then Some (false, s)
      else s ← rtw_free_xmitframe s id; Some (true, s <| tx_drop := u64 (tx_drop s + 1) |>)
  end.

Definition rtw_xmit (s : xmit_q) (pkt : list Z) (direct : option (Z * list Z)) : option (Z * xmit_q) :=
  '(r, s) ← rtw_alloc_xmitframe s;
  match r : option Z with
  | None => Some (-1, s)
  | Some id =>
      f ← xq_frames s !! id;
      '(res, a, tx) ← update_attrib rtw_get_stainfo junk (xq_tx s) pkt (qf_attrib f);
      let f := f <| qf_attrib := a |> in
      let s := put_frame (s <| xq_tx := tx |>) id f in
      if res =? _FAIL then s ← rtw_free_xmitframe s id; Some (-1, s)
      else
        let s := put_frame (q_note s LedTx) id (f <| qf_pkt := Some pkt |> <| qf_qsel := at_priority a |>) in
        '(asleep, s) ← xmitframe_enqueue_for_sleeping_sta s id;
        if asleep : bool then Some (1, s)
        else '(sent, s) ← pre_xmitframe s id direct; Some (if sent : bool then 0 else 1, s)
  end.
End queue.
