(* ===== verification/XmitQueueDemo.v ===== *)
(** * Packets in the queues of an access point

    The access point of [XmitDemo] with the queues of [XmitQueue]: station 0
    is the broadcast station, station 1 has the association identifier
    [aid]; packets for it are queued, then it sleeps. *)

From S2P Require Import Prelude Mem Arc4 SecDefs Wep FragSpec Michael Tkip Ccmp RecvFrame Msdu RecvData RecvMain RecvDemo XmitData XmitFrame XmitDemo XmitQueue.
Definition demo_queues (aid : Z) : xmit_q :=
  _rtw_init_xmit_priv (mk_xmit_q (demo_tx _NO_PRIVACY_ 2346) {[ 1 := _rtw_init_stainfo <| qs_aid := aid |>; 0 := _rtw_init_stainfo ]}
    ∅ [] [] 0 [] 0 0 0 30 0 [0; 1; 2; 3] 0 0 [] []).

(** The state an operation leaves. *)
Definition after {A} (s : xmit_q) (o : option (A * xmit_q)) : xmit_q := match o with Some (_, s') => s' | None => s end.
Definition after' (s : xmit_q) (o : option xmit_q) : xmit_q := default s o.

Definition demo_junk : list Z := repeat 0x77 20.
Abbreviation demo_xmit s pkt := (rtw_xmit ap_find demo_junk s pkt None).

(** Two packets are queued. *)
Definition demo_q1 (aid : Z) : xmit_q := after (demo_queues aid) (demo_xmit (demo_queues aid) (demo_packet demo_mac)).
Definition demo_q2 (aid : Z) : xmit_q := after (demo_q1 aid) (demo_xmit (demo_q1 aid) (demo_packet demo_mac)).

(** The station sleeps, then wakes up. *)
Definition demo_asleep (aid : Z) : xmit_q := after' (demo_q2 aid) (stop_sta_xmit ap_find (demo_q2 aid) 1).
Definition demo_awake (aid : Z) : xmit_q := after' (demo_asleep aid) (wakeup_sta_to_xmit ap_find (demo_asleep aid) 1).

Definition demo_view (s : xmit_q) : option (list (list Z) * list Z * Z) :=
  st ← xq_stas s !! 1; Some (map sta_pending (qs_servqs st), sleep_q st, qs_aid st).

Example demo_queued : demo_view (demo_q2 1) = Some ([[]; [0; 1]; []; []], [], 1).
Proof. vm_compute. reflexivity. Qed.

Example demo_sleeps : demo_view (demo_asleep 1) = Some ([[]; []; []; []], [0; 1], 1).
Proof. vm_compute. reflexivity. Qed.

Example demo_wakes : demo_view (demo_awake 1) = Some ([[]; [0; 1]; []; []], [], 1).
Proof. vm_compute. reflexivity. Qed.

Example demo_strands : demo_view (demo_asleep 16) = Some ([[]; [0; 1]; []; []], [], 16) /\ xq_hw (demo_asleep 16) !! 1%nat = Some (mk_hw_xmit [] 2).
Proof. vm_compute. done. Qed.

Lemma after_some {A} s (o : option (A * xmit_q)) r : fst <$> o = Some r -> o = Some (r, after s o).
Proof. destruct o as [[]|]; cbn; congruence. Qed.

Lemma after_some' s (o : option xmit_q) : is_Some o -> o = Some (after' s o).
Proof. intros [x ->]. done. Qed.

(** What each operation returns, for two association identifiers. *)
Lemma demo_ops aid : aid = 1 \/ aid = 16 ->
  demo_xmit (demo_queues aid) (demo_packet demo_mac) = Some (1, demo_q1 aid) /\ demo_xmit (demo_q1 aid) (demo_packet demo_mac) = Some (1, demo_q2 aid) /\
  stop_sta_xmit ap_find (demo_q2 aid) 1 = Some (demo_asleep aid).
Proof.
  assert (forall aid, fst <$> demo_xmit (demo_queues aid) (demo_packet demo_mac) = Some 1 -> fst <$> demo_xmit (demo_q1 aid) (demo_packet demo_mac) = Some 1 ->
    bool_decide (is_Some (stop_sta_xmit ap_find (demo_q2 aid) 1)) = true ->
    demo_xmit (demo_queues aid) (demo_packet demo_mac) = Some (1, demo_q1 aid) /\ demo_xmit (demo_q1 aid) (demo_packet demo_mac) = Some (1, demo_q2 aid) /\
    stop_sta_xmit ap_find (demo_q2 aid) 1 = Some (demo_asleep aid)) as H.
  { intros a H1 H2 H3. apply bool_decide_eq_true in H3. apply (after_some (demo_queues a)) in H1. apply (after_some (demo_q1 a)) in H2.
    apply (after_some' (demo_q2 a)) in H3. split; [exact H1|]. split; [exact H2|exact H3]. }
  intros [-> | ->]; apply H; vm_compute; reflexivity.
Qed.
