(* ===== verification/XmitQueueSpec.v ===== *)
(** * No transmit frame is lost

    Every operation on the queues keeps each frame in exactly one place, the
    counters at the lengths of the lists, and the frames of a queue at the
    station and the access category the queue is for. *)

From S2P Require Import Prelude Mem Arc4 SecDefs Wep Michael Tkip Ccmp Reorder RecvFrame Msdu RecvData RecvDataSpec XmitData XmitFrame XmitQueue.
From stdpp Require Import list.

#[local] Open Scope Z_scope.

Lemma s32_add a b : s32 (s32 a + b) = s32 (a + b).
Proof.
  unfold s32. change (2 ^ 31) with 2147483648. change (2 ^ 32) with 4294967296.
  replace ((a + 2147483648) mod 4294967296 - 2147483648 + b + 2147483648) with ((a + 2147483648) mod 4294967296 + b) by lia.
  rewrite Z.add_mod_idemp_l by lia. do 2 f_equal. lia.
Qed.

Lemma u32_add a b : u32 (u32 a + b) = u32 (a + b).
Proof. unfold wrap. by rewrite Z.add_mod_idemp_l. Qed.

(** ** Where the frames are *)

Definition pending_of (st : q_sta) : list Z := concat (map sta_pending (qs_servqs st)).
Definition frames_of (st : q_sta) : list Z := pending_of st ++ sleep_q st.
Definition sta_frames (m : gmap Z q_sta) : list Z := concat (map (fun p => frames_of p.2) (map_to_list m)).
Definition held (s : xmit_q) : list Z := xq_free s ++ xq_free_ext s ++ sta_frames (xq_stas s).

Lemma sta_frames_delete m psta st : m !! psta = Some st -> sta_frames m ≡ₚ frames_of st ++ sta_frames (delete psta m).
Proof.
  intros H. unfold sta_frames. rewrite <- (map_to_list_delete m psta st H). done.
Qed.

Lemma sta_frames_insert m psta st0 st :
  m !! psta = Some st0 -> sta_frames (<[psta := st]> m) ++ frames_of st0 ≡ₚ sta_frames m ++ frames_of st.
Proof.
  intros H. rewrite (sta_frames_delete m psta st0 H), (sta_frames_delete (<[psta := st]> m) psta st) by apply lookup_insert_eq.
  rewrite delete_insert_eq. solve_Permutation.
Qed.

Lemma drop_id_id id l : id ∉ l -> drop_id id l = l.
Proof.
  intros H. unfold drop_id. induction l as [|x l IH]; [done|]. apply not_elem_of_cons in H as [H1 H2].
  rewrite filter_cons_True by done. by rewrite IH.
Qed.

Lemma drop_id_head id l : id ∉ l -> drop_id id (id :: l) = l.
Proof. intros H. unfold drop_id. rewrite filter_cons_False by (intros Hn; by apply Hn). by apply drop_id_id. Qed.

Lemma drop_id_app id l1 l2 : drop_id id (l1 ++ l2) = drop_id id l1 ++ drop_id id l2.
Proof. apply list.filter_app. Qed.

Lemma drop_id_concat id ls : drop_id id (concat ls) = concat (map (drop_id id) ls).
Proof. induction ls as [|l ls IH]; [done|]. cbn [concat map]. by rewrite drop_id_app, IH. Qed.

Lemma frames_of_unlink id st : frames_of (unlink_sta id st) = drop_id id (frames_of st).
Proof.
  unfold frames_of, pending_of. cbn. rewrite drop_id_app, drop_id_concat, !map_map. done.
Qed.

Lemma sta_frames_unlink id m : sta_frames (unlink_sta id <$> m) = drop_id id (sta_frames m).
Proof.
  unfold sta_frames. rewrite map_to_list_fmap, drop_id_concat. f_equal.
  change (prod_map Datatypes.id (unlink_sta id) <$> map_to_list m) with (map (prod_map Datatypes.id (unlink_sta id)) (map_to_list m)).
  rewrite !map_map. apply map_ext. intros [psta st]. apply frames_of_unlink.
Qed.

Lemma in_sta_frames m psta st id : m !! psta = Some st -> id ∈ frames_of st -> id ∈ sta_frames m.
Proof. intros H Hi. rewrite (sta_frames_delete m psta st H). apply elem_of_app. by left. Qed.

Lemma sta_frames_in m id : id ∈ sta_frames m -> exists psta st, m !! psta = Some st /\ id ∈ frames_of st.
Proof.
  unfold sta_frames. intros H. apply list_elem_of_In, in_concat in H as (l & Hl & Hi). apply in_map_iff in Hl as ([psta st] & <- & Hm).
  exists psta, st. split; [by apply elem_of_map_to_list, list_elem_of_In|by apply list_elem_of_In].
Qed.

Lemma unlink_sta_id id st : id ∉ frames_of st -> unlink_sta id st = st.
Proof.
  unfold frames_of, pending_of. intros H. apply not_elem_of_app in H as [H1 H2]. destruct st as [aid qs sq z z0 z1 z2 z3 z4 z5 z6]. cbn in *.
  enough (map (fun q : tx_servq => q <| sta_pending := drop_id id (sta_pending q) |>) qs = qs) as E.
  { transitivity (mk_q_sta aid (map (fun q : tx_servq => q <| sta_pending := drop_id id (sta_pending q) |>) qs) (drop_id id sq) z z0 z1 z2 z3 z4 z5 z6); [done|]. by rewrite E, (drop_id_id id sq). }
  clear H2. induction qs as [|[l n] qs IH]; [done|]. cbn in *. apply not_elem_of_app in H1 as [H1 H3]. f_equal; [|by apply IH].
  transitivity (mk_servq (drop_id id l) n); [done|]. by rewrite drop_id_id.
Qed.

(** Frames in different stations differ. *)
Lemma sta_frames_disjoint m p1 p2 st1 st2 id :
  NoDup (sta_frames m) -> m !! p1 = Some st1 -> m !! p2 = Some st2 -> id ∈ frames_of st1 -> id ∈ frames_of st2 -> p1 = p2.
Proof.
  intros Hn H1 H2 I1 I2. destruct (decide (p1 = p2)) as [|Hne]; [done|]. exfalso.
  rewrite (sta_frames_delete m p1 st1 H1) in Hn. apply NoDup_app in Hn as (_ & Hn & _). apply (Hn id I1).
  apply (in_sta_frames (delete p1 m) p2 st2); [by rewrite lookup_delete_ne|done].
Qed.

Lemma held_stas s : NoDup (held s) -> NoDup (sta_frames (xq_stas s)).
Proof. unfold held. intros H. apply NoDup_app in H as (_ & _ & H). by apply NoDup_app in H as (_ & _ & H). Qed.

Lemma frame_delete_eq s id m : unlink_sta id <$> xq_stas s = m -> id ∉ xq_free s -> id ∉ xq_free_ext s ->
  frame_delete s id = s <| xq_stas := m |>.
Proof. intros <- H1 H2. unfold frame_delete. rewrite !drop_id_id by done. by destruct s. Qed.

Lemma frame_delete_none s id : id ∉ held s -> frame_delete s id = s.
Proof.
  unfold held. intros H. apply not_elem_of_app in H as [H1 H]. apply not_elem_of_app in H as [H2 H3].
  rewrite (frame_delete_eq s id (xq_stas s)); [by destruct s| |done|done]. apply map_eq. intros psta. rewrite lookup_fmap. destruct (_ !! psta) as [st|] eqn:E; [|done]. cbn. f_equal. apply unlink_sta_id.
  intros Hi. apply H3. by eapply in_sta_frames.
Qed.

Lemma frame_delete_sta s psta st id :
  NoDup (held s) -> xq_stas s !! psta = Some st -> id ∈ frames_of st -> frame_delete s id = put_qsta s psta (unlink_sta id st).
Proof.
  intros Hn H Hi. pose proof (held_stas s Hn) as Hs. pose proof (in_sta_frames _ _ _ _ H Hi) as Hin.
  unfold held in Hn. apply NoDup_app in Hn as (_ & N1 & Hn). apply NoDup_app in Hn as (_ & N2 & _).
  apply frame_delete_eq.
  - apply map_eq. intros p. rewrite lookup_fmap. destruct (decide (p = psta)) as [->|Hne]; [by rewrite H, lookup_insert_eq|].
    rewrite lookup_insert_ne by done. destruct (_ !! p) as [st'|] eqn:E; [|done]. cbn. f_equal. apply unlink_sta_id.
    intros Hi'. apply Hne. by eapply sta_frames_disjoint.
  - intros Hf. apply (N1 id Hf). apply elem_of_app. by right.
  - intros Hf. by apply (N2 id Hf).
Qed.

(** What happens to the frames when a station's queues change. *)
Lemma held_put s psta st0 st : xq_stas s !! psta = Some st0 -> held (put_qsta s psta st) ++ frames_of st0 ≡ₚ held s ++ frames_of st.
Proof.
  intros H. unfold held, put_qsta. cbn. rewrite <- !app_assoc. by rewrite (sta_frames_insert _ psta st0 st H).
Qed.

Lemma held_put_same s psta st0 st : xq_stas s !! psta = Some st0 -> frames_of st ≡ₚ frames_of st0 -> held (put_qsta s psta st) ≡ₚ held s.
Proof. intros H E. pose proof (held_put s psta st0 st H) as Hp. rewrite E in Hp. by apply Permutation_app_inv_r in Hp. Qed.

Lemma held_put_add s psta st0 st id :
  xq_stas s !! psta = Some st0 -> frames_of st ≡ₚ id :: frames_of st0 -> held (put_qsta s psta st) ≡ₚ id :: held s.
Proof.
  intros H E. pose proof (held_put s psta st0 st H) as Hp. rewrite E in Hp. apply (Permutation_app_inv_r (frames_of st0)). rewrite Hp.
  by rewrite <- Permutation_middle.
Qed.

Lemma held_put_del s psta st0 st id :
  xq_stas s !! psta = Some st0 -> frames_of st0 ≡ₚ id :: frames_of st -> held s ≡ₚ id :: held (put_qsta s psta st).
Proof.
  intros H E. pose proof (held_put s psta st0 st H) as Hp. rewrite E in Hp. apply (Permutation_app_inv_r (frames_of st)). rewrite <- Hp.
  by rewrite <- Permutation_middle.
Qed.

(** ** Slots: the four service queues of a station and its sleep queue *)

Definition slot_q (st : q_sta) (sl : option Z) : option (list Z * Z) :=
  match sl with
  | None => Some (sleep_q st, sleepq_len st)
  | Some ac => q ← key_at (qs_servqs st) ac; Some (sta_pending q, qcnt q)
  end.

(** The width of its counter. *)
Definition slot_wrap (sl : option Z) (n : Z) : Z := match sl with Some _ => s32 n | None => u32 n end.

Definition slot_frames (st : q_sta) (sl : option Z) : list Z := default [] (fst <$> slot_q st sl).

(** [st'] is [st] with another content of one slot. *)
Record slot_upd (st st' : q_sta) (sl : option Z) (l : list Z) (n : Z) : Prop := {
  su_len : length (qs_servqs st') = length (qs_servqs st);
  su_at : slot_q st' sl = Some (l, n);
  su_ne sl' : sl' <> sl -> slot_q st' sl' = slot_q st sl' }.

Lemma frames_slots st : length (qs_servqs st) = 4%nat ->
  frames_of st = slot_frames st (Some 0) ++ slot_frames st (Some 1) ++ slot_frames st (Some 2) ++ slot_frames st (Some 3) ++ slot_frames st None.
Proof.
  destruct st as [aid qs sq ? ? ? ? ? ? ? ?]. cbn. destruct qs as [|a [|b [|c [|d [|]]]]]; try done. intros _.
  unfold frames_of, pending_of, slot_frames, key_at. cbn. by rewrite app_nil_r, <- !app_assoc.
Qed.

Lemma slot_cases st sl q : length (qs_servqs st) = 4%nat -> slot_q st sl = Some q ->
  sl = Some 0 \/ sl = Some 1 \/ sl = Some 2 \/ sl = Some 3 \/ sl = None.
Proof.
  intros L H. destruct sl as [ac|]; [|tauto]. cbn in H. destruct (key_at _ ac) as [q'|] eqn:E; [|done]. unfold key_at in E.
  destruct (Z.leb_spec 0 ac); [|done]. apply lookup_lt_Some in E. rewrite L in E.
  assert (ac = 0 \/ ac = 1 \/ ac = 2 \/ ac = 3) as [->|[->|[->| ->]]] by lia; tauto.
Qed.

Lemma frames_upd st st' sl l n l' n' : length (qs_servqs st) = 4%nat -> slot_q st sl = Some (l, n) -> slot_upd st st' sl l' n' ->
  frames_of st' ++ l ≡ₚ frames_of st ++ l'.
Proof.
  intros L H [U1 U2 U3]. rewrite !frames_slots by congruence. unfold slot_frames.
  destruct (slot_cases st sl _ L H) as [-> |[-> |[-> |[-> | ->]]]]; rewrite U2, H; cbn [fmap option_fmap option_map fst default];
    rewrite ?(U3 None), ?(U3 (Some 0)), ?(U3 (Some 1)), ?(U3 (Some 2)), ?(U3 (Some 3)) by done; solve_Permutation.
Qed.

Lemma in_slot st sl l n id : length (qs_servqs st) = 4%nat -> slot_q st sl = Some (l, n) -> id ∈ l -> id ∈ frames_of st.
Proof.
  intros L H Hi. rewrite (frames_slots st L). unfold slot_frames.
  destruct (slot_cases st sl _ L H) as [-> |[-> |[-> |[-> | ->]]]]; rewrite H; cbn [fmap option_fmap option_map fst default]; set_solver.
Qed.

(** A frame is in one slot only. *)
Lemma slots_disjoint st sl1 sl2 l1 n1 l2 n2 id : length (qs_servqs st) = 4%nat -> NoDup (frames_of st) ->
  slot_q st sl1 = Some (l1, n1) -> slot_q st sl2 = Some (l2, n2) -> id ∈ l1 -> id ∈ l2 -> sl1 = sl2.
Proof.
  intros L N H1 H2 I1 I2. rewrite (frames_slots st L) in N. unfold slot_frames in N.
  repeat match type of N with NoDup (_ ++ _) => let A := fresh "A" in apply NoDup_app in N as (_ & A & N) end.
  destruct (slot_cases st sl1 _ L H1) as [-> |[-> |[-> |[-> | ->]]]];
    destruct (slot_cases st sl2 _ L H2) as [-> |[-> |[-> |[-> | ->]]]]; try done; exfalso;
    rewrite ?H1, ?H2 in *; cbn [fmap option_fmap option_map fst default] in *; set_solver.
Qed.

(** ** The invariant *)

(** The frame [id] is for the slot it is in. *)
Definition routed (frames : gmap Z q_frame) (psta : Z) (sl : option Z) (id : Z) : Prop :=
  exists f, frames !! id = Some f /\ at_psta (qf_attrib f) = Some psta /\
    match sl with Some ac => ac_of (at_priority (qf_attrib f)) = ac | None => True end.

(** A frame of one of the two pools. *)
Definition pooled (s : xmit_q) (id : Z) : Prop :=
  exists f, xq_frames s !! id = Some f /\ qf_alloc f = false /\ (qf_ext_tag f = 0 \/ qf_ext_tag f = 1).

(** [off psta sl] is what the counter of a slot is ahead of its list while
    an operation is under way. *)
Record sta_ok (off : Z -> option Z -> Z) (s : xmit_q) (psta : Z) (st : q_sta) : Prop := {
  so_len : length (qs_servqs st) = 4%nat;
  so_tx : is_Some (tx_stas (xq_tx s) !! psta);
  so_slot sl l n : slot_q st sl = Some (l, n) -> n = slot_wrap sl (mem_len l + off psta sl) /\ Forall (routed (xq_frames s) psta sl) l }.

Definition hw_ok (m : gmap Z q_sta) (hw : list hw_xmit) : Prop :=
  length hw = 4%nat /\ Forall (fun h => Forall (fun p => is_Some (m !! p)) (sta_queue h)) hw.

(** [hand]: the frames the operation or the hardware has taken. *)
Record q_inv_off (get : list Z -> option Z) (off : Z -> option Z -> Z) (hand : list Z) (s : xmit_q) : Prop := {
  qi_nodup : NoDup (hand ++ held s);
  qi_pooled : Forall (pooled s) (hand ++ held s);
  qi_cnt : free_xmitframe_cnt s = u32 (mem_len (xq_free s)) /\ free_xframe_ext_cnt s = u32 (mem_len (xq_free_ext s));
  qi_hw : hw_ok (xq_stas s) (xq_hw s);
  qi_get a p : get a = Some p -> is_Some (xq_stas s !! p);
  qi_sta psta st : xq_stas s !! psta = Some st -> sta_ok off s psta st }.

Definition no_off : Z -> option Z -> Z := fun _ _ => 0.
Definition bump (off : Z -> option Z -> Z) (psta : Z) (sl : option Z) (d : Z) : Z -> option Z -> Z :=
  fun p sl' => off p sl' + if decide (p = psta /\ sl' = sl) then d else 0.

(** Between operations every counter is the length of its list. *)
Definition q_inv (get : list Z -> option Z) (hand : list Z) (s : xmit_q) : Prop := q_inv_off get no_off hand s.

Section inv.
Context (get : list Z -> option Z).

Lemma bump_eq off psta sl d : bump off psta sl d psta sl = off psta sl + d.
Proof. unfold bump. by rewrite decide_True. Qed.

Lemma bump_ne off psta sl d p sl' : ~ (p = psta /\ sl' = sl) -> bump off psta sl d p sl' = off p sl'.
Proof. intros H. unfold bump. rewrite decide_False by done. lia. Qed.

Lemma sta_ok_off off off' s psta st : (forall sl, off' psta sl = off psta sl) -> sta_ok off s psta st -> sta_ok off' s psta st.
Proof. intros H [S1 S2 S3]. split; [done|done|]. intros sl l n E. destruct (S3 sl l n E) as [-> ?]. by rewrite H. Qed.

Lemma inv_off off off' hand s : (forall p sl, off' p sl = off p sl) -> q_inv_off get off hand s -> q_inv_off get off' hand s.
Proof. intros H [I1 I2 I3 I4 I5 I6]. split; try done. intros p st E. eapply sta_ok_off; [|by apply I6]. intros sl. apply H. Qed.

(** Changes that leave the queues alone. *)
Record q_same (hand : list Z) (s s' : xmit_q) : Prop := {
  sm_stas : xq_stas s' = xq_stas s;
  sm_free : xq_free s' = xq_free s /\ xq_free_ext s' = xq_free_ext s;
  sm_cnt : free_xmitframe_cnt s' = free_xmitframe_cnt s /\ free_xframe_ext_cnt s' = free_xframe_ext_cnt s;
  sm_hw : hw_ok (xq_stas s) (xq_hw s) -> hw_ok (xq_stas s) (xq_hw s');
  sm_tx p : is_Some (tx_stas (xq_tx s) !! p) -> is_Some (tx_stas (xq_tx s') !! p);
  sm_frames id f : xq_frames s !! id = Some f -> exists f', xq_frames s' !! id = Some f' /\ qf_alloc f' = qf_alloc f /\
    qf_ext_tag f' = qf_ext_tag f /\
    (id ∉ hand -> at_psta (qf_attrib f') = at_psta (qf_attrib f) /\ at_priority (qf_attrib f') = at_priority (qf_attrib f)) }.

Lemma same_held hand s s' : q_same hand s s' -> held s' = held s.
Proof. intros [M1 [M2 M3] _ _ _ _]. unfold held. by rewrite M1, M2, M3. Qed.

Lemma inv_same off hand s s' : q_same hand s s' -> q_inv_off get off hand s -> q_inv_off get off hand s'.
Proof.
  intros M [I1 I2 I3 I4 I5 I6]. pose proof (same_held _ _ _ M) as Hh. destruct M as [M1 [M2 M3] [M4 M5] M6 M7 M8].
  split; rewrite ?Hh, ?M1, ?M2, ?M3, ?M4, ?M5; try done; [|by apply M6|].
  - eapply Forall_impl; [exact I2|]. intros id (f & F1 & F2 & F3). destruct (M8 _ _ F1) as (f' & E & E1 & E2 & _).
    exists f'. by rewrite E1, E2.
  - intros psta st E. destruct (I6 psta st E) as [S1 S2 S3]. split; [done|by apply M7|]. intros sl l n El.
    destruct (S3 sl l n El) as [Hn Hr]. split; [done|]. rewrite Forall_forall in Hr. apply Forall_forall. intros id Hi.
    destruct (Hr id Hi) as (f & F1 & F2 & F3). destruct (M8 _ _ F1) as (f' & E' & _ & _ & E2). exists f'. split; [done|].
    destruct E2 as [-> ->]; [|done]. intros Hn'. apply NoDup_app in I1 as (_ & I1 & _). apply (I1 id Hn').
    unfold held. apply elem_of_app. right. apply elem_of_app. right. exact (in_sta_frames _ _ _ _ E (in_slot st sl l n id S1 El Hi)).
Qed.

(** A change of one slot, against the frames in hand. *)
Lemma inv_put off off' hand hand' s psta st st' sl l n l' n' :
  q_inv_off get off hand s -> xq_stas s !! psta = Some st -> slot_q st sl = Some (l, n) -> slot_upd st st' sl l' n' ->
  hand' ++ l' ≡ₚ hand ++ l -> Forall (routed (xq_frames s) psta sl) l' -> n' = slot_wrap sl (mem_len l' + off' psta sl) ->
  (forall p sl', ~ (p = psta /\ sl' = sl) -> off' p sl' = off p sl') ->
  q_inv_off get off' hand' (put_qsta s psta st') /\ hand' ++ held (put_qsta s psta st') ≡ₚ hand ++ held s.
Proof.
  intros [I1 I2 I3 I4 I5 I6] Hst Hsl U Hp Hr Hn Ho. pose proof (I6 _ _ Hst) as [S1 S2 S3].
  assert (Hh : hand' ++ held (put_qsta s psta st') ≡ₚ hand ++ held s).
  { pose proof (held_put s psta st st' Hst) as H1. pose proof (frames_upd st st' sl l n l' n' S1 Hsl U) as H2.
    apply (Permutation_app_inv_r (frames_of st ++ l' ++ frames_of st' ++ l)).
    transitivity ((hand' ++ l') ++ (held (put_qsta s psta st') ++ frames_of st) ++ (frames_of st' ++ l)); [solve_Permutation|].
    transitivity ((hand ++ l) ++ (held s ++ frames_of st') ++ (frames_of st ++ l')); [by rewrite Hp, H1, H2|solve_Permutation]. }
  split; [|done]. split; rewrite ?Hh; try done.
  - destruct I4 as [H1 H2]. split; [done|]. eapply Forall_impl; [exact H2|]. intros h H3. eapply Forall_impl; [exact H3|]. intros p [x Hx].
    cbn. destruct (decide (p = psta)) as [->|]; [by rewrite lookup_insert_eq|by rewrite lookup_insert_ne].
  - intros a p Ha. cbn. destruct (decide (p = psta)) as [->|]; [by rewrite lookup_insert_eq|]. rewrite lookup_insert_ne by done. by eapply I5.
  - intros p st1. cbn. destruct (decide (p = psta)) as [->|Hne].
    + rewrite lookup_insert_eq. intros [= <-]. destruct U as [U1 U2 U3]. split; [by rewrite U1|done|]. intros sl1 l1 n1 E.
      destruct (decide (sl1 = sl)) as [->|Hsl1].
      * rewrite U2 in E. injection E as <- <-. done.
      * rewrite U3 in E by done. destruct (S3 _ _ _ E) as [-> ?]. rewrite Ho; [done|]. by intros [_ ?].
    + rewrite lookup_insert_ne by done. intros E. apply (sta_ok_off off); [intros sl1; apply Ho; by intros [? _]|].
      destruct (I6 _ _ E). by split.
Qed.

(** The slots after the assignments of the code. *)
Lemma upd_sleep st l n ac_len : slot_upd st (st <| sleep_q := l |> <| sleepq_len := n |> <| sleepq_ac_len := ac_len |>) None l n.
Proof. split; [done|done|]. by intros [ac|] H. Qed.

Lemma key_at_arr_ne {A} (l : list A) i j (v : A) : 0 <= i -> i <> j -> key_at (arr_set l i v) j = key_at l j.
Proof. intros Hi H. unfold key_at, arr_set. destruct (Z.leb_spec 0 j); [|done]. apply list_lookup_insert_ne. lia. Qed.

Lemma key_at_some {A} (l : list A) i x : key_at l i = Some x -> 0 <= i < Z.of_nat (length l).
Proof. unfold key_at. destruct (Z.leb_spec 0 i); [|done]. intros H1. apply lookup_lt_Some in H1. lia. Qed.

Lemma upd_servq st ac q q' : key_at (qs_servqs st) ac = Some q ->
  slot_upd st (put_servq st ac q') (Some ac) (sta_pending q') (qcnt q').
Proof.
  intros H. pose proof (key_at_some _ _ _ H) as Hr. split.
  - apply length_arr_set.
  - cbn. by rewrite (key_at_set _ _ q q' H).
  - intros [ac'|] Hne; [|done]. cbn. rewrite key_at_arr_ne; [done|lia|congruence].
Qed.

Lemma upd_unlink st sl l n id : length (qs_servqs st) = 4%nat -> NoDup (frames_of st) -> slot_q st sl = Some (l, n) -> id ∈ l ->
  slot_upd st (unlink_sta id st) sl (drop_id id l) n.
Proof.
  intros L Nd H Hi.
  assert (forall sl', slot_q (unlink_sta id st) sl' = (fun x => (drop_id id x.1, x.2)) <$> slot_q st sl') as E.
  { intros [ac|]; [|done]. cbn. unfold key_at. destruct (0 <=? ac); [|done]. 
    match goal with |- context [map ?f ?l] => change (map f l) with (f <$> l) end. rewrite list_lookup_fmap. by destruct (_ !! _). }
  split; [apply length_map|by rewrite E, H|]. intros sl' Hne. rewrite E. destruct (slot_q st sl') as [[l1 n1]|] eqn:E1; [|done].
  transitivity (Some (drop_id id l1, n1)); [done|]. rewrite drop_id_id; [done|]. intros Hi'. apply Hne. eapply slots_disjoint; [exact L|exact Nd|exact E1|exact H|exact Hi'|exact Hi].
Qed.

Lemma drop_id_perm id l : NoDup l -> id ∈ l -> id :: drop_id id l ≡ₚ l.
Proof.
  intros Nd Hi. apply list_elem_of_split in Hi as (l1 & l2 & ->). apply NoDup_app in Nd as (N1 & N2 & N3).
  apply NoDup_cons in N3 as [N3 N4]. rewrite drop_id_app, drop_id_head by done.
  rewrite drop_id_id; [solve_Permutation|]. intros H. apply (N2 _ H). by left.
Qed.

Lemma sta_nodup off hand s psta st : q_inv_off get off hand s -> xq_stas s !! psta = Some st -> NoDup (frames_of st).
Proof.
  intros I H. pose proof (qi_nodup _ _ _ _ I) as Hn. apply NoDup_app in Hn as (_ & _ & Hn). apply held_stas in Hn.
  rewrite (sta_frames_delete _ _ _ H) in Hn. by apply NoDup_app in Hn as (Hn & _).
Qed.

Lemma slot_nodup off hand s psta st sl l n : q_inv_off get off hand s -> xq_stas s !! psta = Some st -> slot_q st sl = Some (l, n) -> NoDup l.
Proof.
  intros I H E. pose proof (sta_nodup _ _ _ _ _ I H) as Hn. destruct (qi_sta _ _ _ _ I _ _ H) as [L _ _].
  rewrite (frames_slots st L) in Hn. unfold slot_frames in Hn.
  repeat match type of Hn with NoDup (_ ++ _) => let A := fresh "A" in apply NoDup_app in Hn as (A & _ & Hn) end.
  destruct (slot_cases st sl _ L E) as [-> |[-> |[-> |[-> | ->]]]]; by rewrite E in *.
Qed.

Lemma slot_routed off hand s psta st sl l n :
  q_inv_off get off hand s -> xq_stas s !! psta = Some st -> slot_q st sl = Some (l, n) -> Forall (routed (xq_frames s) psta sl) l.
Proof. intros I H E. destruct (qi_sta _ _ _ _ I _ _ H) as [_ _ S3]. by destruct (S3 _ _ _ E). Qed.

(** A frame taken from the slot it is in: the counter is one ahead. *)
Lemma inv_delete off hand s psta st sl l n id :
  q_inv_off get off hand s -> xq_stas s !! psta = Some st -> slot_q st sl = Some (l, n) -> id ∈ l ->
  frame_delete s id = put_qsta s psta (unlink_sta id st) /\ slot_upd st (unlink_sta id st) sl (drop_id id l) n /\
  q_inv_off get (bump off psta sl 1) (id :: hand) (frame_delete s id) /\ id :: hand ++ held (frame_delete s id) ≡ₚ hand ++ held s.
Proof.
  intros I H E Hi. destruct (qi_sta _ _ _ _ I _ _ H) as [L _ S3]. pose proof (slot_nodup _ _ _ _ _ _ _ _ I H E) as Nl.
  assert (frame_delete s id = put_qsta s psta (unlink_sta id st)) as ->.
  { apply frame_delete_sta; [|done|by eapply in_slot]. by pose proof (qi_nodup _ _ _ _ I) as (_ & _ & ?)%NoDup_app. }
  pose proof (upd_unlink st sl l n id L (sta_nodup _ _ _ _ _ I H) E Hi) as U. split; [done|]. split; [done|].
  pose proof (drop_id_perm id l Nl Hi) as Hp. destruct (S3 _ _ _ E) as [Hn Hr].
  apply (inv_put off _ hand (id :: hand) s psta st _ sl l n _ n I H E U).
  - rewrite <- Hp at 2. solve_Permutation.
  - revert Hr. rewrite <- Hp at 1. by intros [_ ?]%Forall_cons.
  - rewrite bump_eq, Hn. f_equal. apply Permutation_length in Hp. cbn [length] in Hp. unfold mem_len. lia.
  - apply bump_ne.
Qed.

(** ** The pool *)

Lemma drop_unlinked s id : id ∉ held s -> frame_delete s id = s.
Proof. apply frame_delete_none. Qed.

Lemma inv_frame off hand s id : q_inv_off get off hand s -> id ∈ hand \/ id ∈ held s -> pooled s id.
Proof. intros I H. pose proof (qi_pooled _ _ _ _ I) as P. rewrite Forall_forall in P. apply P. set_solver. Qed.

(** The fields of a frame that the invariant reads. *)
Definition frame_like (f f' : q_frame) : Prop := qf_alloc f' = qf_alloc f /\ qf_ext_tag f' = qf_ext_tag f.

Lemma same_put_frame hand s id f f' : xq_frames s !! id = Some f -> frame_like f f' ->
  (id ∉ hand -> at_psta (qf_attrib f') = at_psta (qf_attrib f) /\ at_priority (qf_attrib f') = at_priority (qf_attrib f)) ->
  q_same hand s (put_frame s id f').
Proof.
  intros H [F1 F2] Hq. split; try done. intros id1 f1 E. cbn. destruct (decide (id1 = id)) as [->|].
  - rewrite lookup_insert_eq. exists f'. assert (f1 = f) as -> by congruence. done.
  - rewrite lookup_insert_ne by done. by exists f1.
Qed.

Lemma same_trans hand s1 s2 s3 : q_same hand s1 s2 -> q_same hand s2 s3 -> q_same hand s1 s3.
Proof.
  intros [A1 [A2 A3] [A4 A5] A6 A7 A8] [B1 [B2 B3] [B4 B5] B6 B7 B8]. split; try (split; congruence); try congruence.
  - intros H. rewrite A1 in B6. auto.
  - intros p H. auto.
  - intros id f E. destruct (A8 _ _ E) as (f1 & E1 & X1 & X2 & X3). destruct (B8 _ _ E1) as (f2 & E2 & Y1 & Y2 & Y3).
    exists f2. split; [done|]. split; [congruence|]. split; [congruence|]. intros Hn. destruct (X3 Hn), (Y3 Hn). split; congruence.
Qed.

Lemma same_note hand s c : q_same hand s (q_note s c).
Proof. split; try done. intros id f E. by exists f. Qed.

(** A new frame: the oldest free one. *)
Lemma alloc_inv hand s : q_inv get hand s ->
  exists r s', rtw_alloc_xmitframe s = Some (r, s') /\
    match r with
    | None => xq_free s = [] /\ s' = s
    | Some id => q_inv get (id :: hand) s' /\ id :: hand ++ held s' ≡ₚ hand ++ held s /\
        xq_free s = id :: xq_free s' /\ xq_stas s' = xq_stas s /\ xq_tx s' = xq_tx s /\ exists f, xq_frames s' !! id = Some (init_q_frame f)
    end.
Proof.
  intros I. unfold rtw_alloc_xmitframe. destruct (xq_free s) as [|id rest] eqn:E; [by exists None, s|].
  destruct (inv_frame _ _ _ id I) as (f & F1 & F2 & F3); [right; unfold held; rewrite E; set_solver|]. rewrite F1. cbn [mbind option_bind].
  eexists (Some id), _. split; [done|]. cbn.
  set (s1 := s <| xq_free := rest |> <| free_xmitframe_cnt := u32 (free_xmitframe_cnt s - 1) |>).
  assert (id :: hand ++ held s1 ≡ₚ hand ++ held s) as Hp.
  { unfold held, s1. cbn. rewrite E. solve_Permutation. }
  split; [|split; [exact Hp|]]; [|split; [done|]; split; [done|]; split; [done|]; exists f; apply lookup_insert_eq].
  apply (inv_same no_off _ s1).
  - apply (same_put_frame _ s1 id f); [done|done|]. intros Hn. exfalso. apply Hn. by left.
  - destruct I as [I1 I2 [I3 I3'] I4 I5 I6].
    split; try done; try (change ((id :: hand) ++ held s1) with (id :: hand ++ held s1); rewrite Hp; done).
    + split; [|done]. cbn. rewrite I3, E. unfold Z.sub. rewrite u32_add. f_equal. unfold mem_len. cbn [length]. lia.
    + intros p st Hst. destruct (I6 p st Hst). by split.
Qed.

(** The frame in hand goes back to the end of its pool. *)
Lemma free_inv off hand s id : q_inv_off get off (id :: hand) s ->
  exists s', rtw_free_xmitframe s id = Some s' /\ q_inv_off get off hand s' /\ hand ++ held s' ≡ₚ id :: hand ++ held s /\
    xq_stas s' = xq_stas s /\ xq_hw s' = xq_hw s /\ xq_tx s' = xq_tx s /\ (forall i, i <> id -> xq_frames s' !! i = xq_frames s !! i) /\
    sta_dz_bitmap s' = sta_dz_bitmap s /\ tim_bitmap s' = tim_bitmap s.
Proof.
  intros I. destruct (inv_frame _ _ _ id I) as (f & F1 & F2 & F3); [left; by left|].
  assert (id ∉ held s) as Hid. { pose proof (qi_nodup _ _ _ _ I) as (_ & H & _)%NoDup_app. apply H. by left. }
  unfold rtw_free_xmitframe. rewrite F1. cbn [mbind option_bind]. rewrite F2.
  set (s0 := put_frame s id (f <| qf_pkt := None |>)).
  assert (forall i, i <> id -> xq_frames s0 !! i = xq_frames s !! i) as Hfr by (intros i Hne; by apply lookup_insert_ne).
  assert (q_inv_off get off (id :: hand) s0) as I0.
  { eapply inv_same; [|exact I]. apply (same_put_frame _ _ _ f); [done|done|]. done. }
  rewrite (drop_unlinked s0 id) by done. clear I. rename I0 into I.
  destruct I as [I1 I2 [I3 I3'] I4 I5 I6]. 
  destruct F3 as [-> | ->].
  - set (s1 := s0 <| xq_free := xq_free s0 ++ [id] |> <| free_xmitframe_cnt := u32 (free_xmitframe_cnt s0 + 1) |>).
    assert (hand ++ held s1 ≡ₚ (id :: hand) ++ held s0) as Hp. { unfold held, s1. cbn. solve_Permutation. }
    assert (q_inv_off get off hand s1) as J.
    { split; try done; try (rewrite Hp; done); [split; [|done]|].
      - cbn in I3 |- *. rewrite I3, u32_add. f_equal. unfold mem_len. rewrite length_app. cbn. lia.
      - intros p st Hst. destruct (I6 p st Hst). by split. }
    cbn [mbind option_bind Z.eqb]. eexists. split; [reflexivity|].
    destruct (qf_pkt f); [|done]. split; [by apply (inv_same off _ s1 _ (same_note _ _ _))|done].
  - set (s1 := s0 <| xq_free_ext := xq_free_ext s0 ++ [id] |> <| free_xframe_ext_cnt := u32 (free_xframe_ext_cnt s0 + 1) |>).
    assert (hand ++ held s1 ≡ₚ (id :: hand) ++ held s0) as Hp. { unfold held, s1. cbn. solve_Permutation. }
    assert (q_inv_off get off hand s1) as J.
    { split; try done; try (rewrite Hp; done); [split; [done|]|].
      - cbn in I3' |- *. rewrite I3', u32_add. f_equal. unfold mem_len. rewrite length_app. cbn. lia.
      - intros p st Hst. destruct (I6 p st Hst). by split. }
    change (1 =? 0) with false. cbn [mbind option_bind Z.eqb]. eexists. split; [reflexivity|].
    destruct (qf_pkt f); [|done]. split; [by apply (inv_same off _ s1 _ (same_note _ _ _))|done].
Qed.

(** ** Access categories *)

Lemma ac_range up : 0 <= ac_of up < 4.
Proof. unfold ac_of. repeat destruct (_ || _); lia. Qed.

Lemma key_at_in {A} (l : list A) i : 0 <= i < Z.of_nat (length l) -> exists x, key_at l i = Some x.
Proof. intros H. unfold key_at. destruct (Z.leb_spec 0 i); [|lia]. apply lookup_lt_is_Some_2. lia. Qed.

Lemma servq_at off hand s psta st ac : q_inv_off get off hand s -> xq_stas s !! psta = Some st -> 0 <= ac < 4 ->
  exists q, key_at (qs_servqs st) ac = Some q.
Proof. intros I H Ha. destruct (qi_sta _ _ _ _ I _ _ H) as [L _ _]. apply key_at_in. rewrite L. lia. Qed.

Lemma hw_at off hand s ac : q_inv_off get off hand s -> 0 <= ac < 4 -> exists h, key_at (xq_hw s) ac = Some h.
Proof. intros I Ha. destruct (qi_hw _ _ _ _ I) as [L _]. apply key_at_in. rewrite L. lia. Qed.

Lemma sta_at off hand s a p : q_inv_off get off hand s -> get a = Some p ->
  exists st w, xq_stas s !! p = Some st /\ sta_state s p = Some w.
Proof.
  intros I H. destruct (qi_get _ _ _ _ I _ _ H) as [st Hst]. destruct (qi_sta _ _ _ _ I _ _ Hst) as [_ [xs Hx] _].
  exists st, (ts_state xs). by unfold sta_state; rewrite Hx.
Qed.

Lemma frame_sta_ok off hand s f : q_inv_off get off hand s ->
  frame_sta get s f = Some None \/
  exists p st w, frame_sta get s f = Some (Some p) /\ at_psta (qf_attrib f) = Some p /\ get (at_ra (qf_attrib f)) = Some p /\
    xq_stas s !! p = Some st /\ sta_state s p = Some w /\ Z.land w _FW_LINKED <> 0.
Proof.
  intros I. unfold frame_sta. case_bool_decide as E; [|by left]. cbn [negb]. destruct (get _) as [p|] eqn:G; [|by left].
  destruct (sta_at _ _ _ _ _ I G) as (st & w & H1 & H2). rewrite H2. cbn [mbind option_bind].
  destruct (Z.eqb_spec (Z.land w _FW_LINKED) 0); [by left|right]. by exists p, st, w.
Qed.

(** The stations of a class, when one is added or taken off. *)
Lemma hw_ok_set m hw ac h h' : hw_ok m hw -> key_at hw ac = Some h ->
  (forall p, p ∈ sta_queue h' -> p ∈ sta_queue h \/ is_Some (m !! p)) -> hw_ok m (arr_set hw ac h').
Proof.
  intros [L F] H Hq. split; [by rewrite length_arr_set|]. apply Forall_insert; [done|]. apply Forall_forall. intros p Hp.
  destruct (Hq p Hp) as [Hin|]; [|done]. unfold key_at in H. destruct (0 <=? ac); [|done].
  apply (Forall_lookup_1 _ _ _ _ F) in H. rewrite Forall_forall in H. by apply H.
Qed.

Lemma same_hw hand s hw : (hw_ok (xq_stas s) (xq_hw s) -> hw_ok (xq_stas s) hw) -> q_same hand s (s <| xq_hw := hw |>).
Proof. intros H. split; try done. intros id f E. by exists f. Qed.

Lemma slot_of_servq st ac q : key_at (qs_servqs st) ac = Some q -> slot_q st (Some ac) = Some (sta_pending q, qcnt q).
Proof. intros H. cbn. by rewrite H. Qed.

(** [rtw_xmit_classifier]: the frame in hand is queued, or kept. *)
Definition queue_tail (s : xmit_q) (psta : Z) (st : q_sta) (q : tx_servq) (ac id : Z) (hw : list hw_xmit) : xmit_q :=
  put_qsta (s <| xq_hw := hw |>) psta (put_servq st ac (mk_servq (sta_pending q ++ [id]) (s32 (qcnt q + 1)))).

Lemma classify_inv off hand s id f : q_inv_off get off (id :: hand) s -> xq_frames s !! id = Some f ->
  (frame_sta get s f = Some None /\ rtw_xmit_classifier get s id = Some (_FAIL, s)) \/
  exists p st q hw h, let ac := ac_of (at_priority (qf_attrib f)) in
    frame_sta get s f = Some (Some p) /\ at_psta (qf_attrib f) = Some p /\ xq_stas s !! p = Some st /\ key_at (qs_servqs st) ac = Some q /\
    key_at hw ac = Some h /\ p ∈ sta_queue h /\ (forall a, a <> ac -> key_at hw a = key_at (xq_hw s) a) /\
    rtw_xmit_classifier get s id = Some (_SUCCESS, queue_tail s p st q ac id hw) /\
    q_inv_off get off hand (queue_tail s p st q ac id hw) /\ hand ++ held (queue_tail s p st q ac id hw) ≡ₚ id :: hand ++ held s.
Proof.
  intros I F. unfold rtw_xmit_classifier. rewrite F. cbn [mbind option_bind].
  destruct (frame_sta_ok _ _ _ f I) as [E | (p & st & w & E & Ep & Eg & Hst & Hw & Hl)]; [left; by rewrite E|right].
  rewrite E. cbn [mbind option_bind]. set (ac := ac_of _). pose proof (ac_range (at_priority (qf_attrib f))) as Ha. fold ac in Ha.
  rewrite Hst. cbn [mbind option_bind]. destruct (servq_at _ _ _ _ _ ac I Hst Ha) as [q Hq]. rewrite Hq. cbn [mbind option_bind].
  destruct (hw_at _ _ _ ac I Ha) as [h Hh]. rewrite Hh. cbn [mbind option_bind].
  set (h' := h <| sta_queue := _ |> <| accnt := _ |>). set (hw := arr_set (xq_hw s) ac h').
  exists p, st, q, hw, h'. cbn zeta. split; [done|]. split; [done|]. split; [done|]. split; [done|].
  split; [by apply (key_at_set _ _ h)|]. split; [unfold h'; cbn; clear Ha; case_bool_decide; set_solver|].
  split; [intros a Hne; apply key_at_arr_ne; [lia|congruence]|]. split; [done|].
  assert (q_inv_off get off (id :: hand) (s <| xq_hw := hw |>)) as I1.
  { eapply inv_same; [|exact I]. apply same_hw. intros H. apply (hw_ok_set _ _ _ h); [done|done|]. intros p'. unfold h'. cbn.
    case_bool_decide; [by left|]. intros [?|Hx]%elem_of_app; [by left|]. apply list_elem_of_singleton in Hx as ->. right. by exists st. }
  destruct (qi_sta _ _ _ _ I _ _ Hst) as [_ _ S3]. destruct (S3 _ _ _ (slot_of_servq _ _ _ Hq)) as [Hn Hr].
  apply (inv_put off off (id :: hand) hand _ p st _ (Some ac) (sta_pending q) (qcnt q) _ _ I1 Hst (slot_of_servq _ _ _ Hq) (upd_servq _ _ q _ Hq)).
  - cbn [sta_pending]. solve_Permutation.
  - cbn [sta_pending]. apply Forall_app. split; [done|]. apply Forall_singleton. by exists f.
  - cbn [qcnt sta_pending]. rewrite Hn. unfold slot_wrap. rewrite s32_add. f_equal. unfold mem_len. rewrite length_app. cbn. lia.
  - done.
Qed.
End inv.
