(* ===== verification/XmitQueueOps.v ===== *)
(** * The queue operations keep the invariant

    Each operation of [XmitQueue] succeeds on a state of the invariant and
    keeps every frame: a queued frame stays queued, goes back to its pool, or
    is the one handed over. *)

From S2P Require Import Prelude Mem Arc4 SecDefs Wep Michael Tkip Ccmp Reorder RecvFrame Msdu RecvData RecvDataSpec XmitData XmitFrame AirLink XmitQueue XmitQueueSpec.
From stdpp Require Import list.

#[local] Open Scope Z_scope.

Section ops.
Context (get : list Z -> option Z).

(** A loop is done when its body is, with an invariant over what is left. *)
Lemma each_ok (P : list Z -> xmit_q -> Prop) body :
  (forall id ids s, P (id :: ids) s -> exists s', body s id = Some s' /\ P ids s') ->
  forall ids s, P ids s -> exists s', each body s ids = Some s' /\ P [] s'.
Proof.
  intros Hb. induction ids as [|id ids IH]; intros s H; [by exists s|]. cbn. destruct (Hb _ _ _ H) as (s1 & -> & H1). by apply IH.
Qed.

(** ** Sending again *)

(** What of a station the service queues do not touch. *)
Definition sleep_view (s : xmit_q) (p : Z) : option (list Z * Z * Z * Z) :=
  (fun st => (sleep_q st, sleepq_len st, sleepq_ac_len st, qs_aid st)) <$> xq_stas s !! p.

Lemma view_put s p st st' : xq_stas s !! p = Some st -> sleep_q st' = sleep_q st -> sleepq_len st' = sleepq_len st ->
  sleepq_ac_len st' = sleepq_ac_len st -> qs_aid st' = qs_aid st -> forall x, sleep_view (put_qsta s p st') x = sleep_view s x.
Proof.
  intros H E1 E2 E3 E4 x. unfold sleep_view. cbn. destruct (decide (x = p)) as [->|]; [|by rewrite lookup_insert_ne].
  rewrite lookup_insert_eq, H. cbn. by rewrite E1, E2, E3, E4.
Qed.

Lemma view_put_at s p st : sleep_view (put_qsta s p st) p = Some (sleep_q st, sleepq_len st, sleepq_ac_len st, qs_aid st).
Proof. unfold sleep_view, put_qsta. cbn. by rewrite lookup_insert_eq. Qed.

Lemma view_some s p q n a i : sleep_view s p = Some (q, n, a, i) ->
  exists st, xq_stas s !! p = Some st /\ sleep_q st = q /\ sleepq_len st = n /\ sleepq_ac_len st = a /\ qs_aid st = i.
Proof. unfold sleep_view. destruct (xq_stas s !! p) as [st|]; [|done]. intros [= <- <- <- <-]. by exists st. Qed.

Lemma view_stas s s' : xq_stas s' = xq_stas s -> forall x, sleep_view s' x = sleep_view s x.
Proof. intros E x. unfold sleep_view. by rewrite E. Qed.

(** The frame in hand is queued or goes back to its pool. *)
Definition others_kept (s s' : xmit_q) (id : Z) (f : q_frame) : Prop :=
  (forall x, sleep_view s' x = sleep_view s x) /\ (forall x, at_psta (qf_attrib f) <> Some x -> xq_stas s' !! x = xq_stas s !! x) /\
  (forall i, i <> id -> xq_frames s' !! i = xq_frames s !! i) /\ xq_tx s' = xq_tx s /\
  sta_dz_bitmap s' = sta_dz_bitmap s /\ tim_bitmap s' = tim_bitmap s.

Lemma hal_enqueue_inv off hand s id f : q_inv_off get off (id :: hand) s -> xq_frames s !! id = Some f ->
  exists s', rtw_hal_xmitframe_enqueue get s id = Some s' /\ q_inv_off get off hand s' /\ hand ++ held s' ≡ₚ id :: hand ++ held s /\
    others_kept s s' id f.
Proof.
  intros I F1. unfold rtw_hal_xmitframe_enqueue, rtw_xmitframe_enqueue.
  destruct (classify_inv _ _ _ _ _ _ I F1) as [[_ E] | (p & st & q & hw & h & _ & Hp & Hst & _ & _ & _ & _ & E & J & P)]; rewrite E; cbn [mbind option_bind].
  - change (_FAIL =? _FAIL) with true. change (_FAIL =? _SUCCESS) with false. cbv iota.
    destruct (free_inv _ _ _ _ _ I) as (s' & -> & J & P & Es & _ & Et & Ef). cbn [mbind option_bind]. eexists. split; [done|].
    split; [|split; [done|]]; [|split; [by apply (view_stas s s')|split; [intros x _; change (xq_stas s' !! x = xq_stas s !! x); by rewrite Es|destruct Ef as (Ef & ? & ?); by split_and!]]]. eapply inv_same; [|exact J]. split; try done. intros id1 f1 H. by exists f1.
  - change (_SUCCESS =? _FAIL) with false. cbv iota. change (_SUCCESS =? _SUCCESS) with true. cbv iota. eexists. split; [done|].
    split; [|split; [done|]]; [by apply (inv_same _ _ _ _ _ (same_note _ _ _))|].
    split; [intros x; by apply (view_put (s <| xq_hw := hw |>) p st _ Hst)|]. split; [|done]. intros x Hx. apply lookup_insert_ne.
    congruence.
Qed.

Lemma release_inv off hand s id f mdata eosp : q_inv_off get off (id :: hand) s -> xq_frames s !! id = Some f ->
  exists s', release get s id mdata eosp = Some s' /\ q_inv_off get off hand s' /\ hand ++ held s' ≡ₚ id :: hand ++ held s /\
    others_kept s s' id f.
Proof.
  intros I F1. unfold release. rewrite F1. cbn [mbind option_bind].
  match goal with |- context [put_frame s id ?g] => set (f' := g) end.
  destruct (hal_enqueue_inv off hand (put_frame s id f') id f') as (s' & E & J & P & V1 & V2 & V3 & V4).
  - eapply inv_same; [|exact I]. by apply (same_put_frame _ _ _ f).
  - apply lookup_insert_eq.
  - exists s'. split; [exact E|]. split; [exact J|]. split; [exact P|]. split; [exact V1|]. split; [exact V2|]. split; [|exact V4].
    intros i Hi. rewrite V3 by done. by apply lookup_insert_ne.
Qed.

(** ** Serving the queues *)

Lemma first_frame_ok off hand s ac stas : q_inv_off get off hand s -> 0 <= ac < 4 -> Forall (fun p => is_Some (xq_stas s !! p)) stas ->
  (first_frame s ac stas = Some None /\
     Forall (fun p => exists st n, xq_stas s !! p = Some st /\ slot_q st (Some ac) = Some ([], n)) stas) \/
  exists pre p post st l n id, stas = pre ++ p :: post /\ first_frame s ac stas = Some (Some (p, id)) /\
    Forall (fun p => exists st n, xq_stas s !! p = Some st /\ slot_q st (Some ac) = Some ([], n)) pre /\
    xq_stas s !! p = Some st /\ slot_q st (Some ac) = Some (id :: l, n).
Proof.
  intros I Ha. induction 1 as [|p stas [st Hst] Hs IH]; [by left|]. cbn [first_frame]. rewrite Hst. cbn [mbind option_bind].
  destruct (servq_at _ _ _ _ _ _ ac I Hst Ha) as [q Hq]. rewrite Hq. cbn [mbind option_bind]. pose proof (slot_of_servq _ _ _ Hq) as Sq.
  destruct (sta_pending q) as [|id l] eqn:El.
  - destruct IH as [[-> IH] | (pre & p' & post & st' & l & n & id & -> & -> & IH & H1 & H2)]; [left|right].
    + split; [done|]. constructor; [|done]. by exists st, (qcnt q).
    + exists (p :: pre), p', post, st', l, n, id. split; [done|]. split; [done|]. split; [|done]. constructor; [|done]. by exists st, (qcnt q).
  - right. exists [], p, stas, st, l, (qcnt q), id. by split_and!.
Qed.

(** What [dequeue_ac] takes: the oldest frame of the first station of the
    class that has one. *)
Lemma dequeue_ac_inv hand s ac : q_inv get hand s -> 0 <= ac < 4 ->
  exists r s' h, dequeue_ac s ac = Some (r, s') /\ key_at (xq_hw s) ac = Some h /\
    match r with
    | None => s' = s /\ Forall (fun p => exists st n, xq_stas s !! p = Some st /\ slot_q st (Some ac) = Some ([], n)) (sta_queue h)
    | Some id => q_inv get (id :: hand) s' /\ (id :: hand) ++ held s' ≡ₚ hand ++ held s /\ xq_frames s' = xq_frames s /\
        exists pre p post st l n, sta_queue h = pre ++ p :: post /\
          Forall (fun p => exists st n, xq_stas s !! p = Some st /\ slot_q st (Some ac) = Some ([], n)) pre /\
          xq_stas s !! p = Some st /\ slot_q st (Some ac) = Some (id :: l, n) /\
          xq_stas s' = <[p := put_servq st ac (mk_servq l (s32 (n - 1)))]> (xq_stas s)
    end.
Proof.
  intros I Ha. destruct (hw_at _ _ _ _ ac I Ha) as [h Hh]. unfold dequeue_ac. rewrite Hh. cbn [mbind option_bind].
  assert (Forall (fun p => is_Some (xq_stas s !! p)) (sta_queue h)) as Hs.
  { destruct (qi_hw _ _ _ _ I) as [_ F]. unfold key_at in Hh. destruct (0 <=? ac); [|done]. by apply (Forall_lookup_1 _ _ _ _ F Hh). }
  destruct (first_frame_ok _ _ _ ac _ I Ha Hs) as [[-> Hn] | (pre & p & post & st & l & n & id & E1 & -> & E2 & Hst & Hsl)];
    cbn [mbind option_bind]; [by exists None, s, h|].
  rewrite Hst. cbn [mbind option_bind]. destruct (servq_at _ _ _ _ _ _ ac I Hst Ha) as [q Hq]. rewrite Hq. cbn [mbind option_bind].
  rewrite (slot_of_servq _ _ _ Hq) in Hsl. injection Hsl as El En. rewrite El. cbn [tail].
  set (h' := h <| accnt := _ |> <| sta_queue := _ |>).
  eexists (Some id), _, h. split; [done|]. split; [done|].
  assert (q_inv get hand (s <| xq_hw := arr_set (xq_hw s) ac h' |>)) as I1.
  { eapply inv_same; [|exact I]. apply same_hw. intros H. apply (hw_ok_set _ _ _ h); [done|done|]. intros p'. unfold h'. cbn.
    case_bool_decide; [|by left]. intros [_ ?]%list_elem_of_filter. by left. }
  destruct (qi_sta _ _ _ _ I _ _ Hst) as [_ _ S3]. pose proof (slot_of_servq _ _ _ Hq) as Sq. destruct (S3 _ _ _ Sq) as [Hn Hr].
  destruct (inv_put get no_off no_off hand (id :: hand) _ p st _ (Some ac) (sta_pending q) (qcnt q) _ _ I1 Hst Sq
              (upd_servq st ac q (mk_servq l (s32 (qcnt q - 1))) Hq)) as [J P].
  - rewrite El. cbn [sta_pending]. solve_Permutation.
  - rewrite El in Hr. cbn [sta_pending]. by apply Forall_cons in Hr as [_ ?].
  - cbn [qcnt sta_pending]. rewrite Hn, El. unfold slot_wrap, no_off, Z.sub. rewrite s32_add. f_equal. unfold mem_len. cbn. lia.
  - done.
  - split; [exact J|]. split; [exact P|]. split; [done|]. exists pre, p, post, st, l, n. rewrite <- En. split_and!; try done.
    by rewrite (slot_of_servq _ _ _ Hq), El.
Qed.

(** The classes in the order they are served: the first with a frame wins. *)
Definition class_empty (s : xmit_q) (ac : Z) : Prop :=
  exists h, key_at (xq_hw s) ac = Some h /\
    Forall (fun p => exists st n, xq_stas s !! p = Some st /\ slot_q st (Some ac) = Some ([], n)) (sta_queue h).

(** The frame [id] is the oldest of the first station with frames in [ac],
    and [s'] is [s] without it. *)
Definition takes_from (s s' : xmit_q) (ac id : Z) : Prop :=
  exists h pre p post st l n, key_at (xq_hw s) ac = Some h /\ sta_queue h = pre ++ p :: post /\
    Forall (fun p => exists st n, xq_stas s !! p = Some st /\ slot_q st (Some ac) = Some ([], n)) pre /\
    xq_stas s !! p = Some st /\ slot_q st (Some ac) = Some (id :: l, n) /\
    xq_stas s' = <[p := put_servq st ac (mk_servq l (s32 (n - 1)))]> (xq_stas s).

Lemma dequeue_acs_inv hand s acs : q_inv get hand s -> Forall (fun ac => 0 <= ac < 4) acs ->
  exists r s', dequeue_acs s acs = Some (r, s') /\
    match r with
    | None => s' = s /\ Forall (class_empty s) acs
    | Some id => q_inv get (id :: hand) s' /\ (id :: hand) ++ held s' ≡ₚ hand ++ held s /\
        exists acs1 ac acs2, acs = acs1 ++ ac :: acs2 /\ Forall (class_empty s) acs1 /\ takes_from s s' ac id
    end.
Proof.
  intros I. induction 1 as [|ac acs Ha _ IH]; [by exists None, s|]. cbn [dequeue_acs].
  destruct (dequeue_ac_inv hand s ac I Ha) as ([id|] & s1 & h & -> & Hh & H); cbn [mbind option_bind].
  - destruct H as (J & P & _ & pre & p & post & st & l & n & H). exists (Some id), s1. split; [done|]. split; [done|]. split; [done|].
    exists [], ac, acs. split; [done|]. split; [done|]. exists h, pre, p, post, st, l, n. by split.
  - destruct H as [-> He]. destruct IH as ([id|] & s2 & -> & IH).
    + destruct IH as (J & P & acs1 & ac1 & acs2 & -> & F & T). exists (Some id), s2. split; [done|]. split; [done|]. split; [done|].
      exists (ac :: acs1), ac1, acs2. split; [done|]. split; [|done]. constructor; [by exists h|done].
    + destruct IH as [-> F]. exists None, s. split; [done|]. split; [done|]. constructor; [by exists h|done].
Qed.

(** ** Falling asleep *)

(** Changes of a station that leave its slots alone. *)
Lemma inv_put_same off hand s psta st st' : q_inv_off get off hand s -> xq_stas s !! psta = Some st ->
  length (qs_servqs st') = length (qs_servqs st) -> (forall sl, slot_q st' sl = slot_q st sl) ->
  q_inv_off get off hand (put_qsta s psta st') /\ hand ++ held (put_qsta s psta st') ≡ₚ hand ++ held s.
Proof.
  intros I H L E. destruct (qi_sta _ _ _ _ I _ _ H) as [_ _ S3]. destruct (S3 None _ _ eq_refl) as [Hn Hr].
  apply (inv_put get off off hand hand s psta st st' None (sleep_q st) (sleepq_len st) (sleep_q st) (sleepq_len st) I H eq_refl); [|done|exact Hr|exact Hn|done].
  split; [exact L|by rewrite E|]. intros sl _. apply E.
Qed.

(** [s2] keeps what [s1] has in its queues. *)
Definition slots_kept (s1 s2 : xmit_q) : Prop := forall p st, xq_stas s1 !! p = Some st ->
  exists st', xq_stas s2 !! p = Some st' /\ forall sl, slot_q st' sl = slot_q st sl.

Definition keeps (s1 s2 : xmit_q) : Prop := slots_kept s1 s2 /\ forall off hand, q_inv_off get off hand s1 ->
  q_inv_off get off hand s2 /\ hand ++ held s2 ≡ₚ hand ++ held s1.

Lemma keeps_of_same s1 s2 : (forall hand, q_same hand s1 s2) -> keeps s1 s2.
Proof.
  intros M. split; [intros p st H; exists st; by rewrite (sm_stas _ _ _ (M []))|].
  intros off hand I. split; [by eapply inv_same|]. by rewrite (same_held _ _ _ (M hand)).
Qed.

Lemma kept_trans s1 s2 s3 : keeps s1 s2 -> keeps s2 s3 -> keeps s1 s3.
Proof.
  intros [K1 A] [K2 B]. split.
  - intros p st H. destruct (K1 p st H) as (st2 & H2 & E2). destruct (K2 p st2 H2) as (st3 & H3 & E3). exists st3. split; [done|].
    intros sl. by rewrite E3.
  - intros off hand I. destruct (A _ _ I) as [I2 P2]. destruct (B _ _ I2) as [I3 P3]. split; [done|]. by rewrite P3.
Qed.

Lemma keeps_refl s : keeps s s.
Proof. split; [intros p st H; by exists st|done]. Qed.

Lemma same_bits hand s d : q_same hand s (s <| sta_dz_bitmap := d |>).
Proof. split; try done. intros id f E. by exists f. Qed.

Lemma keeps_bits s t d : keeps s (s <| tim_bitmap := t |> <| sta_dz_bitmap := d |>).
Proof. apply keeps_of_same. intros hand. split; try done. intros id f E. by exists f. Qed.

Lemma keeps_tim s t : keeps s (s <| tim_bitmap := t |>).
Proof. apply keeps_of_same. intros hand. split; try done. intros id f E. by exists f. Qed.

Lemma keeps_note s c : keeps s (q_note s c).
Proof. apply keeps_of_same. intros hand. apply same_note. Qed.

(** The end of the sleep queue. *)
Lemma push_sleep off hand s psta st id f : q_inv_off get off (id :: hand) s -> xq_stas s !! psta = Some st ->
  xq_frames s !! id = Some f -> at_psta (qf_attrib f) = Some psta ->
  let s' := put_qsta s psta (st <| sleep_q := sleep_q st ++ [id] |> <| sleepq_len := u32 (sleepq_len st + 1) |>) in
  q_inv_off get off hand s' /\ hand ++ held s' ≡ₚ (id :: hand) ++ held s.
Proof.
  intros I H F Hp. destruct (qi_sta _ _ _ _ I _ _ H) as [_ _ S3]. destruct (S3 None _ _ eq_refl) as [Hn Hr].
  apply (inv_put get off off (id :: hand) hand s psta st _ None (sleep_q st) (sleepq_len st) (sleep_q st ++ [id]) (u32 (sleepq_len st + 1))
           I H eq_refl (upd_sleep st _ _ (sleepq_ac_len st))).
  - solve_Permutation.
  - apply Forall_app. split; [done|]. apply Forall_singleton. by exists f.
  - rewrite Hn. unfold slot_wrap. rewrite u32_add. f_equal. unfold mem_len. rewrite length_app. cbn. lia.
  - done.
Qed.

Lemma to_sleep_some s p st id : xq_stas s !! p = Some st ->
  exists s1 st1, to_sleep_q s p id = Some s1 /\ xq_stas s1 !! p = Some st1 /\ xq_frames s1 = xq_frames s /\ xq_hw s1 = xq_hw s.
Proof.
  intros H. unfold to_sleep_q. cbn. rewrite lookup_fmap, H. cbn. do 2 eexists. split; [done|]. split; [apply lookup_insert_eq|done].
Qed.

Lemma keeps_ac_len s psta st n : xq_stas s !! psta = Some st -> keeps s (put_qsta s psta (st <| sleepq_ac_len := n |>)).
Proof.
  intros H. split.
  - intros p st' H'. cbn. destruct (decide (p = psta)) as [->|]; [|exists st'; by rewrite lookup_insert_ne].
    rewrite lookup_insert_eq. eexists. split; [done|]. assert (st' = st) as -> by congruence. by intros [ac|].
  - intros off hand I. apply (inv_put_same off hand s psta st); [done|done|done|]. by intros [ac|].
Qed.

(** The frame stays, but for its queue selection, or goes through
    [to_sleep_q]. *)
Lemma enqueue_sleep_cases off hand s id f : q_inv_off get off hand s -> xq_frames s !! id = Some f ->
  (exists f', xmitframe_enqueue_for_sleeping_sta get s id = Some (false, put_frame s id f') /\ qf_attrib f' = qf_attrib f /\ frame_like f f') \/
  (exists p s1 s2, at_psta (qf_attrib f) = Some p /\ is_Some (xq_stas s !! p) /\ to_sleep_q s p id = Some s1 /\
     xmitframe_enqueue_for_sleeping_sta get s id = Some (true, s2) /\ keeps s1 s2 /\ xq_frames s2 = xq_frames s /\ xq_hw s2 = xq_hw s).
Proof.
  intros I F. assert (put_frame s id f = s) as Eid. { unfold put_frame. rewrite insert_id by done. by destruct s. }
  unfold xmitframe_enqueue_for_sleeping_sta. rewrite F. cbn [mbind option_bind].
  destruct (is_ap s); cbn [negb]; [|left; exists f; by rewrite Eid].
  destruct (frame_sta_ok _ _ _ _ f I) as [-> | (p & st & w & -> & Hp & _ & Hst & Hw & _)]; cbn [mbind option_bind]; [left; exists f; by rewrite Eid|].
  destruct (_ =? 1); [left|].
  { destruct (IS_MCAST _ && _); [eexists; split; [done|]; by split|exists f; by rewrite Eid]. }
  destruct (to_sleep_some s p st id Hst) as (s1 & st1 & E1 & Hst1 & Hf1 & Hh1). destruct (IS_MCAST _).
  - destruct (_ =? 0); [left; exists f; by rewrite Eid|right]. rewrite E1. cbn [mbind option_bind].
    do 3 eexists. split; [done|]. split; [by exists st|]. split; [done|]. split; [done|]. split; [|by rewrite <- Hf1, <- Hh1].
    eapply kept_trans; [apply keeps_bits|apply keeps_note].
  - rewrite Hw, Hst. cbn [mbind option_bind]. destruct (negb _ && _); [right|left; exists f; by rewrite Eid].
    rewrite E1. cbn [mbind option_bind]. rewrite Hst1. cbn [mbind option_bind]. set (wm := uapsd _ _ _).
    match goal with |- context [if wm then ?a else s1] => set (s2 := if wm then a else s1) end.
    assert (keeps s1 s2) as K by (unfold s2; destruct wm; [by apply keeps_ac_len|apply keeps_refl]).
    assert (xq_frames s2 = xq_frames s /\ xq_hw s2 = xq_hw s) as [Hf2 Hh2] by (rewrite <- Hf1, <- Hh1; unfold s2; by destruct wm).
    destruct (xorb _ _); do 3 eexists; (split; [done|]; split; [by exists st|]; split; [done|]; split; [done|]); [|done].
    destruct (negb _); (split; [|done]); (eapply kept_trans; [exact K|]).
    + eapply kept_trans; [apply keeps_tim|apply keeps_note].
    + apply keeps_tim.
Qed.

(** A new frame of a station that sleeps. *)
Lemma enqueue_sleep_hand off hand s id : q_inv_off get off (id :: hand) s -> exists r s',
  xmitframe_enqueue_for_sleeping_sta get s id = Some (r, s') /\
  (if r : bool then q_inv_off get off hand s' /\ hand ++ held s' ≡ₚ (id :: hand) ++ held s
   else q_inv_off get off (id :: hand) s' /\ held s' = held s).
Proof.
  intros I. destruct (inv_frame _ _ _ _ id I) as (f & F1 & _); [left; by left|].
  destruct (enqueue_sleep_cases _ _ _ _ _ I F1) as [(f' & E & Ea & L) | (p & s1 & s2 & Hp & [st Hst] & E1 & E & K & _)].
  - exists false, (put_frame s id f'). split; [exact E|]. assert (q_same (id :: hand) s (put_frame s id f')) as M by (apply (same_put_frame _ _ _ f); [done|done|by rewrite Ea]).
    split; [by eapply inv_same|by apply (same_held _ _ _ M)].
  - exists true, s2. split; [exact E|]. unfold to_sleep_q in E1. rewrite drop_unlinked in E1.
    2: { pose proof (qi_nodup _ _ _ _ I) as (_ & H & _)%NoDup_app. apply H. by left. }
    rewrite Hst in E1. cbn in E1. injection E1 as <-.
    destruct (push_sleep off hand s p st id f I Hst F1 Hp) as [J P]. destruct K as [_ K]. destruct (K off hand J) as [J2 P2].
    split; [exact J2|]. by rewrite P2, P.
Qed.

(** Only the queues of [psta] change, and no station is added to a class. *)
Definition only_of (psta : Z) (s s' : xmit_q) : Prop :=
  (forall p st, p <> psta -> xq_stas s !! p = Some st -> exists st', xq_stas s' !! p = Some st' /\ forall sl, slot_q st' sl = slot_q st sl) /\
  (forall ac h', key_at (xq_hw s') ac = Some h' -> exists h, key_at (xq_hw s) ac = Some h /\ sta_queue h' ⊆ sta_queue h).

Lemma only_of_refl psta s : only_of psta s s.
Proof. split; [intros p st _ H; by exists st|intros ac h H; by exists h]. Qed.

Lemma only_of_trans psta s1 s2 s3 : only_of psta s1 s2 -> only_of psta s2 s3 -> only_of psta s1 s3.
Proof.
  intros [A1 A2] [B1 B2]. split.
  - intros p st Hne H. destruct (A1 p st Hne H) as (st2 & H2 & E2). destruct (B1 p st2 Hne H2) as (st3 & H3 & E3). exists st3.
    split; [done|]. intros sl. by rewrite E3.
  - intros ac h3 H. destruct (B2 ac h3 H) as (h2 & H2 & S2). destruct (A2 ac h2 H2) as (h1 & H1 & S1). exists h1. split; [done|]. set_solver.
Qed.

(** One entry of the classes. *)
Lemma hw_entry hw ac h hx ac' h' : key_at hw ac = Some h -> sta_queue hx ⊆ sta_queue h -> key_at (arr_set hw ac hx) ac' = Some h' ->
  exists h0, key_at hw ac' = Some h0 /\ sta_queue h' ⊆ sta_queue h0.
Proof.
  intros H Hs H'. destruct (decide (ac = ac')) as [<-|Hne].
  - rewrite (key_at_set _ _ h hx H) in H'. injection H' as <-. by exists h.
  - rewrite key_at_arr_ne in H'; [by exists h'| |done]. apply key_at_some in H. lia.
Qed.

(** A frame of a service queue goes to sleep. *)
Lemma put_to_sleep_inv off hand s psta st ac l n id :
  q_inv_off get off hand s -> xq_stas s !! psta = Some st -> slot_q st (Some ac) = Some (l, n) -> id ∈ l ->
  exists s' st' l' n', put_to_sleep get s psta id = Some s' /\ q_inv_off get off hand s' /\ hand ++ held s' ≡ₚ hand ++ held s /\
    only_of psta s s' /\ xq_stas s' !! psta = Some st' /\ slot_q st' (Some ac) = Some (l', n') /\ forall x, x ∈ l -> x <> id -> x ∈ l'.
Proof.
  intros I Hst Hsl Hi. pose proof (slot_routed _ _ _ _ _ _ _ _ _ I Hst Hsl) as R. rewrite Forall_forall in R.
  destruct (R id Hi) as (f & F1 & Hp & Hac). unfold put_to_sleep. rewrite F1. cbn [mbind option_bind].
  match goal with |- context [put_frame s id ?g] => set (f0 := g) end. set (s0 := put_frame s id f0).
  assert (q_same hand s s0) as M0 by (by apply (same_put_frame _ _ _ f)).
  pose proof (inv_same _ _ _ _ _ M0 I) as I0. assert (xq_frames s0 !! id = Some f0) as F0 by apply lookup_insert_eq.
  destruct (enqueue_sleep_cases _ _ _ _ _ I0 F0) as [(f' & -> & Ea & L) | (p & s1 & s2 & Hp1 & _ & E1 & -> & K & _ & Hh2)]; cbn [mbind option_bind].
  - exists (put_frame s0 id f'), st, l, n. split; [done|].
    assert (q_same hand s0 (put_frame s0 id f')) as M by (apply (same_put_frame _ _ _ f0); [done|done|by rewrite Ea]).
    split; [by eapply inv_same|]. split; [by rewrite (same_held _ _ _ M), (same_held _ _ _ M0)|].
    split; [split; [intros p1 st1 _ H; by exists st1|intros ac1 h1 H; by exists h1]|]. by split_and!.
  - assert (p = psta) as -> by (cbn in Hp1; congruence). clear Hp1.
    destruct (inv_delete get off hand s0 psta st (Some ac) l n id I0 Hst Hsl Hi) as (Ed & U & I1 & P1).
    unfold to_sleep_q in E1. rewrite Ed in E1, I1, P1. cbn in E1. rewrite lookup_insert_eq in E1. cbn in E1. injection E1 as <-.
    destruct (push_sleep _ hand _ psta (unlink_sta id st) id f0 I1 (lookup_insert_eq _ _ _) F0) as [J P]; [done|].
    destruct K as [K1 K2]. destruct (K2 _ _ J) as [J2 P2]. destruct (K1 psta _ (lookup_insert_eq _ _ _)) as (st2 & Hst2 & E2).
    rewrite Hac. pose proof (ac_range (at_priority (qf_attrib f))) as Ha. rewrite Hac in Ha.
    rewrite Hst2. cbn [mbind option_bind]. destruct (servq_at _ _ _ _ _ _ ac J2 Hst2 Ha) as [q Hq]. rewrite Hq. cbn [mbind option_bind].
    destruct (hw_at _ _ _ _ ac J2 Ha) as [h Hh]. rewrite Hh. cbn [mbind option_bind].
    pose proof (slot_of_servq _ _ _ Hq) as Sq. pose proof Sq as Sq'. rewrite E2 in Sq'.
    assert (sta_pending q = drop_id id l) as El. { destruct U as [_ U _]. unfold slot_q in U, Sq'. cbn in U, Sq'. rewrite U in Sq'. by injection Sq' as <- _. }
    set (hw := arr_set _ _ _). set (s3 := s2 <| xq_hw := hw |>).
    assert (q_inv_off get (bump off psta (Some ac) 1) hand s3) as J3.
    { eapply inv_same; [|exact J2]. apply same_hw. intros H. apply (hw_ok_set _ _ _ h); [done|done|]. intros p Hx. by left. }
    destruct (qi_sta _ _ _ _ J2 _ _ Hst2) as [_ _ S3]. destruct (S3 _ _ _ Sq) as [Hn Hr].
    destruct (inv_put get _ off hand hand s3 psta st2 _ (Some ac) (sta_pending q) (qcnt q) _ _ J3 Hst2 Sq (upd_servq st2 ac q (q <| qcnt := s32 (qcnt q - 1) |>) Hq)) as [J4 P4].
    + done.
    + exact Hr.
    + cbn. rewrite Hn, bump_eq. unfold slot_wrap, Z.sub. rewrite s32_add. f_equal. lia.
    + intros p sl Hne. symmetry. by apply bump_ne.
    + do 4 eexists. split; [done|]. split; [exact J4|]. split; [rewrite P4; change (held s3) with (held s2); by rewrite P2, P, P1, (same_held _ _ _ M0)|].
      split; [|split; [apply lookup_insert_eq|]]; [split|].
      { intros p1 st1 Hne H. destruct (K1 p1 st1) as (st1' & H1 & Es1); [cbn; by rewrite !lookup_insert_ne|]. exists st1'. cbn. by rewrite lookup_insert_ne. }
      { intros ac1 h1 H1. change (xq_hw s) with (xq_hw s0). rewrite <- Hh2. eapply hw_entry; [exact Hh| |exact H1]. done. }
      split; [apply (su_at _ _ _ _ _ (upd_servq st2 ac q _ Hq))|]. cbn. intros x Hx Hne. rewrite El.
      apply list_elem_of_filter. done.
Qed.

Lemma all_to_sleep_inv off hand s psta st ac l n :
  q_inv_off get off hand s -> xq_stas s !! psta = Some st -> slot_q st (Some ac) = Some (l, n) ->
  exists s', dequeue_xmitframes_to_sleeping_queue get s psta l = Some s' /\ q_inv_off get off hand s' /\ hand ++ held s' ≡ₚ hand ++ held s /\
    only_of psta s s'.
Proof.
  intros I Hst Hsl. pose proof (slot_nodup _ _ _ _ _ _ _ _ _ I Hst Hsl) as Nd.
  destruct (each_ok (fun ids s' => q_inv_off get off hand s' /\ hand ++ held s' ≡ₚ hand ++ held s /\ only_of psta s s' /\ NoDup ids /\
    exists st' l' n', xq_stas s' !! psta = Some st' /\ slot_q st' (Some ac) = Some (l', n') /\ ids ⊆ l')
    (fun s id => put_to_sleep get s psta id)) with (ids := l) (s := s) as (s' & E & J & P & O & _); [|split_and!; try done; [apply only_of_refl|by exists st, l, n]|by exists s'].
  intros id ids s1 (I1 & P1 & O1 & [Hn N1]%NoDup_cons & st1 & l1 & n1 & H1 & Q1 & Hin).
  destruct (put_to_sleep_inv _ _ _ _ _ _ _ _ id I1 H1 Q1) as (s2 & st2 & l2 & n2 & -> & J & P & O2 & H2 & Q2 & Hx); [set_solver|].
  exists s2. split; [done|]. split; [done|]. split; [by rewrite P|]. split; [by eapply only_of_trans|]. split; [done|]. exists st2, l2, n2. split_and!; try done.
  intros x Hi. apply Hx; [set_solver|]. by intros ->.
Qed.

Lemma pending_delete_same hand s psta ac : q_same hand s (pending_delete s psta ac).
Proof.
  unfold pending_delete. destruct (key_at _ _) as [h|] eqn:E.
  - apply same_hw. intros H. apply (hw_ok_set _ _ _ h); [done|done|]. cbn. intros p [_ ?]%list_elem_of_filter. by left.
  - split; try done. intros id f H. by exists f.
Qed.

Lemma sleep_ac_inv off hand s a psta ac : q_inv_off get off hand s -> get a = Some psta -> 0 <= ac < 4 ->
  exists s', sleep_ac get s psta ac = Some s' /\ q_inv_off get off hand s' /\ hand ++ held s' ≡ₚ hand ++ held s /\ only_of psta s s'.
Proof.
  intros I Ha Hac. destruct (sta_at _ _ _ _ _ _ I Ha) as (st & w & Hst & _). unfold sleep_ac. rewrite Hst. cbn [mbind option_bind].
  destruct (servq_at _ _ _ _ _ _ ac I Hst Hac) as [q Hq]. rewrite Hq. cbn [mbind option_bind]. pose proof (slot_of_servq _ _ _ Hq) as Sq.
  destruct (all_to_sleep_inv off hand s psta st ac _ _ I Hst Sq) as (s1 & -> & J & P & O).
  cbn [mbind option_bind]. eexists. split; [done|]. split; [by eapply inv_same; [apply pending_delete_same|]|].
  split; [by rewrite (same_held _ _ _ (pending_delete_same [] s1 psta ac))|]. apply (only_of_trans _ _ _ _ O).
  unfold pending_delete. destruct (key_at (xq_hw s1) ac) as [h|] eqn:Eh; [|apply only_of_refl]. split; [intros p1 st1 _ H; by exists st1|].
  intros ac1 h1 H1. eapply hw_entry; [exact Eh| |exact H1]. cbn. intros x Hx. by apply list_elem_of_filter in Hx as [_ ?].
Qed.

Lemma set_state_same hand s psta v : q_same hand s (set_state s psta v).
Proof.
  split; try done; [|intros id f E; by exists f]. intros p [x Hx]. unfold set_state. cbn. destruct (decide (p = psta)) as [->|].
  - rewrite lookup_alter_eq, Hx. by eexists.
  - rewrite lookup_alter_ne by done. by exists x.
Qed.

(** The station sleeps. *)
Lemma stop_inv hand s a psta b : q_inv get hand s -> get a = Some psta -> get bc_addr = Some b ->
  exists s', stop_sta_xmit get s psta = Some s' /\ q_inv get hand s' /\ hand ++ held s' ≡ₚ hand ++ held s.
Proof.
  intros I Ha Hb. destruct (sta_at _ _ _ _ _ _ I Ha) as (st & w & Hst & Hw). unfold stop_sta_xmit. rewrite Hw, Hst. cbn [mbind option_bind].
  set (s0 := (set_state s psta _) <| sta_dz_bitmap := _ |>).
  assert (q_same hand s s0) as M.
  { eapply same_trans; [apply set_state_same|apply same_bits]. }
  pose proof (inv_same _ _ _ _ _ M I) as I0.
  destruct (sleep_ac_inv _ _ _ _ _ 0 I0 Ha) as (s1 & -> & I1 & P1 & _); [lia|]. cbn [mbind option_bind].
  destruct (sleep_ac_inv _ _ _ _ _ 1 I1 Ha) as (s2 & -> & I2 & P2 & _); [lia|]. cbn [mbind option_bind].
  destruct (sleep_ac_inv _ _ _ _ _ 2 I2 Ha) as (s3 & -> & I3 & P3 & _); [lia|]. cbn [mbind option_bind].
  destruct (sleep_ac_inv _ _ _ _ _ 3 I3 Ha) as (s4 & -> & I4 & P4 & _); [lia|]. cbn [mbind option_bind].
  rewrite Hb. cbn [mbind option_bind]. destruct (sleep_ac_inv _ _ _ _ _ 2 I4 Hb) as (s5 & -> & I5 & P5 & _); [lia|].
  exists s5. split; [done|]. split; [exact I5|]. by rewrite P5, P4, P3, P2, P1, (same_held _ _ _ M).
Qed.

(** ** Waking up *)

(** A frame leaves the sleep queue of its station: with its counter
    adjusted, and whatever the other fields become. *)
Lemma unsleep_inv off hand s psta st id ac_len :
  q_inv_off get off hand s -> xq_stas s !! psta = Some st -> id ∈ sleep_q st ->
  let s' := put_qsta (frame_delete s id) psta ((unlink_sta id st) <| sleepq_len := u32 (sleepq_len st - 1) |> <| sleepq_ac_len := ac_len |>) in
  xq_stas (frame_delete s id) !! psta = Some (unlink_sta id st) /\
  q_inv_off get off (id :: hand) s' /\ id :: hand ++ held s' ≡ₚ hand ++ held s.
Proof.
  intros I Hst Hi. destruct (inv_delete get off hand s psta st None _ _ id I Hst eq_refl Hi) as (Ed & U & I1 & P1).
  assert (xq_stas (frame_delete s id) !! psta = Some (unlink_sta id st)) as H1 by (rewrite Ed; apply lookup_insert_eq).
  cbn zeta. split; [exact H1|]. destruct (qi_sta _ _ _ _ I1 _ _ H1) as [_ _ S3]. destruct (S3 None _ _ eq_refl) as [Hn Hr].
  destruct (inv_put get _ off (id :: hand) (id :: hand) (frame_delete s id) psta (unlink_sta id st) _ None _ _ (drop_id id (sleep_q st)) (u32 (sleepq_len st - 1))
              I1 H1 eq_refl (upd_sleep (unlink_sta id st) _ _ ac_len)) as [J P]; [done|exact Hr| | |].
  - change (sleepq_len (unlink_sta id st)) with (sleepq_len st) in Hn. rewrite Hn, bump_eq. unfold slot_wrap, Z.sub. rewrite u32_add. f_equal. 
    change (sleep_q (unlink_sta id st)) with (drop_id id (sleep_q st)). lia.
  - intros p sl Hne. symmetry. by apply bump_ne.
  - split; [exact J|]. change (id :: hand ++ held ?x) with ((id :: hand) ++ held x). rewrite P. exact P1.
Qed.


Lemma sleeping_frame off hand s psta st id : q_inv_off get off hand s -> xq_stas s !! psta = Some st -> id ∈ sleep_q st ->
  exists f, xq_frames s !! id = Some f.
Proof.
  intros I Hst Hi. destruct (inv_frame _ _ _ _ id I) as (f & F1 & _); [|by exists f].
  right. unfold held. apply elem_of_app. right. apply elem_of_app. right. apply (in_sta_frames _ _ _ _ Hst). unfold frames_of. set_solver.
Qed.

(** A frame leaves the sleep queue and is sent again. *)
Lemma unsleep_release_at off hand s psta st id ac_len m e : q_inv_off get off hand s -> xq_stas s !! psta = Some st -> id ∈ sleep_q st ->
  let s1 := put_qsta (frame_delete s id) psta ((unlink_sta id st) <| sleepq_len := u32 (sleepq_len st - 1) |> <| sleepq_ac_len := ac_len |>) in
  exists s', release get s1 id m e = Some s' /\ q_inv_off get off hand s' /\ hand ++ held s' ≡ₚ hand ++ held s /\
    (forall x, x <> psta -> xq_stas s' !! x = xq_stas s !! x) /\ (forall i, i <> id -> xq_frames s' !! i = xq_frames s !! i) /\ xq_tx s' = xq_tx s /\
    sta_dz_bitmap s' = sta_dz_bitmap s /\ tim_bitmap s' = tim_bitmap s /\
    exists st', xq_stas s' !! psta = Some st' /\ sleep_q st' = drop_id id (sleep_q st) /\ sleepq_len st' = u32 (sleepq_len st - 1).
Proof.
  intros I Hst Hi. destruct (unsleep_inv off hand s psta st id ac_len I Hst Hi) as (_ & J & P). cbn zeta.
  pose proof (slot_routed _ _ _ _ _ _ None _ _ I Hst eq_refl) as R. rewrite Forall_forall in R. destruct (R id Hi) as (f & F1 & Hp & _).
  destruct (inv_delete _ _ _ _ _ _ None _ _ id I Hst eq_refl Hi) as (Ed & _).
  destruct (release_inv off hand _ id f m e J F1) as (s' & E & J' & P' & V & V2 & V3 & V4 & V5 & V6). specialize (V psta).
  rewrite view_put_at in V. apply view_some in V as (st' & Hst' & W1 & W2 & _). exists s'.
  split; [exact E|]. split; [exact J'|]. split; [by rewrite P'|].
  split; [intros x Hx; rewrite V2 by congruence; rewrite Ed; cbn; by rewrite !lookup_insert_ne|].
  split; [exact V3|]. split; [exact V4|]. split; [exact V5|]. split; [exact V6|]. by exists st'.
Qed.

Lemma unsleep_release off hand s psta st id ac_len m e : q_inv_off get off hand s -> xq_stas s !! psta = Some st -> id ∈ sleep_q st ->
  let s1 := put_qsta (frame_delete s id) psta ((unlink_sta id st) <| sleepq_len := u32 (sleepq_len st - 1) |> <| sleepq_ac_len := ac_len |>) in
  exists s', release get s1 id m e = Some s' /\ q_inv_off get off hand s' /\ hand ++ held s' ≡ₚ hand ++ held s /\
    exists st', xq_stas s' !! psta = Some st' /\ sleep_q st' = drop_id id (sleep_q st) /\ sleepq_len st' = u32 (sleepq_len st - 1).
Proof.
  intros I Hst Hi. destruct (unsleep_release_at off hand s psta st id ac_len m e I Hst Hi) as (s' & E & J & P & _ & _ & _ & _ & _ & H).
  exists s'. split; [exact E|]. split; [exact J|]. by split.
Qed.

Lemma wake_one_inv off hand s psta st id : q_inv_off get off hand s -> xq_stas s !! psta = Some st -> id ∈ sleep_q st ->
  exists s', wake_one get s psta id = Some s' /\ q_inv_off get off hand s' /\ hand ++ held s' ≡ₚ hand ++ held s /\
    exists st', xq_stas s' !! psta = Some st' /\ sleep_q st' = drop_id id (sleep_q st) /\ sleepq_len st' = u32 (sleepq_len st - 1).
Proof.
  intros I Hst Hi. destruct (sleeping_frame _ _ _ _ _ _ I Hst Hi) as [f F1]. unfold wake_one. rewrite F1. cbn [mbind option_bind].
  destruct (unsleep_inv off hand s psta st id 0 I Hst Hi) as (H1 & _). rewrite H1. cbn [mbind option_bind].
  pose proof (unsleep_release off hand s psta st id (sleepq_ac_len st)) as R0.
  pose proof (unsleep_release off hand s psta st id (u32 (sleepq_ac_len st - 1))) as R1.
  destruct (uapsd _ _ 1); [|by apply R0]. by destruct (0 <? _); apply R1.
Qed.

Lemma wake_bmc_one_inv off hand s psta st id : q_inv_off get off hand s -> xq_stas s !! psta = Some st -> id ∈ sleep_q st ->
  exists s', wake_bmc_one get s psta id = Some s' /\ q_inv_off get off hand s' /\ hand ++ held s' ≡ₚ hand ++ held s /\
    exists st', xq_stas s' !! psta = Some st' /\ sleep_q st' = drop_id id (sleep_q st) /\ sleepq_len st' = u32 (sleepq_len st - 1).
Proof.
  intros I Hst Hi. unfold wake_bmc_one. destruct (unsleep_inv off hand s psta st id 0 I Hst Hi) as (H1 & _). rewrite H1. cbn [mbind option_bind].
  by apply (unsleep_release off hand s psta st id (sleepq_ac_len st)).
Qed.

Lemma deliver_one_inv off hand s psta st id : q_inv_off get off hand s -> xq_stas s !! psta = Some st -> id ∈ sleep_q st ->
  exists s', deliver_one get s psta id = Some s' /\ q_inv_off get off hand s' /\ hand ++ held s' ≡ₚ hand ++ held s /\
    exists st', xq_stas s' !! psta = Some st' /\ forall x, x ∈ sleep_q st -> x <> id -> x ∈ sleep_q st'.
Proof.
  intros I Hst Hi. destruct (sleeping_frame _ _ _ _ _ _ I Hst Hi) as [f F1]. unfold deliver_one. rewrite F1, Hst. cbn [mbind option_bind].
  destruct (uapsd _ _ 1); cbn [negb]; [|exists s; split; [done|]; split; [exact I|]; split; [done|]; by exists st].
  destruct (unsleep_inv off hand s psta st id 0 I Hst Hi) as (H1 & _). rewrite H1. cbn [mbind option_bind].
  set (al := u32 (sleepq_ac_len (unlink_sta id st) - 1)).
  assert (forall m e (c : bool) t, exists s', (s1 ← release get (put_qsta (frame_delete s id) psta ((unlink_sta id st) <| sleepq_len := u32 (sleepq_len st - 1) |> <| sleepq_ac_len := al |>)) id m e;
    (if c then Some (q_note (s1 <| tim_bitmap := t s1 |>) UpdateBeacon) else Some s1)) = Some s' /\
    q_inv_off get off hand s' /\ hand ++ held s' ≡ₚ hand ++ held s /\
    exists st', xq_stas s' !! psta = Some st' /\ forall x, x ∈ sleep_q st -> x <> id -> x ∈ sleep_q st') as R.
  { intros m e c t. destruct (unsleep_release off hand s psta st id al m e I Hst Hi) as (s1 & -> & J & P & st' & Hst' & Hq & _). cbn [mbind option_bind].
    assert (forall x, x ∈ sleep_q st -> x <> id -> x ∈ sleep_q st') as Hx by (intros x ? ?; rewrite Hq; by apply list_elem_of_filter).
    destruct c; (eexists; split; [reflexivity|]); [|split; [exact J|]; split; [exact P|]; by exists st'].
    destruct (kept_trans _ _ _ (keeps_tim s1 (t s1)) (keeps_note _ UpdateBeacon)) as [_ K]. destruct (K _ _ J) as [J' P'].
    split; [exact J'|]. split; [by rewrite P'|]. by exists st'. }
  destruct (0 <? al).
  - by apply (R 1 (Some 0) _ (fun s1 => Z.land (tim_bitmap s1) (Z.lnot (BIT (qs_aid (unlink_sta id st)))))).
  - by apply (R 0 (Some 1) _ (fun s1 => Z.land (tim_bitmap s1) (Z.lnot (BIT (qs_aid (unlink_sta id st)))))).
Qed.

(** The loops. *)
Lemma sleep_drop off hand s psta st st' id ids : q_inv_off get off hand s -> xq_stas s !! psta = Some st -> sleep_q st = id :: ids ->
  sleep_q st' = drop_id id (sleep_q st) -> sleep_q st' = ids.
Proof.
  intros I H E ->. pose proof (slot_nodup _ _ _ _ _ _ None _ _ I H eq_refl) as Nd. rewrite E in Nd |- *. apply NoDup_cons in Nd as [Hn _].
  by apply drop_id_head.
Qed.

Lemma empties_sleep (body : xmit_q -> Z -> option xmit_q) off hand psta :
  (forall s st id, q_inv_off get off hand s -> xq_stas s !! psta = Some st -> id ∈ sleep_q st ->
     exists s', body s id = Some s' /\ q_inv_off get off hand s' /\ hand ++ held s' ≡ₚ hand ++ held s /\
       exists st', xq_stas s' !! psta = Some st' /\ sleep_q st' = drop_id id (sleep_q st) /\ sleepq_len st' = u32 (sleepq_len st - 1)) ->
  forall s st, q_inv_off get off hand s -> xq_stas s !! psta = Some st ->
    exists s', each body s (sleep_q st) = Some s' /\ q_inv_off get off hand s' /\ hand ++ held s' ≡ₚ hand ++ held s /\
      exists st', xq_stas s' !! psta = Some st' /\ sleep_q st' = [].
Proof.
  intros Hb s st I Hst.
  apply (each_ok (fun ids s' => q_inv_off get off hand s' /\ hand ++ held s' ≡ₚ hand ++ held s /\
    exists st', xq_stas s' !! psta = Some st' /\ sleep_q st' = ids)); [|by split_and!; [..|exists st]].
  intros id ids s1 (I1 & P1 & st1 & H1 & Q1). destruct (Hb s1 st1 id I1 H1) as (s2 & -> & I2 & P2 & st2 & H2 & Q2 & _); [rewrite Q1; by left|].
  exists s2. split; [done|]. split; [done|]. split; [by rewrite P2|]. exists st2. split; [done|]. exact (sleep_drop _ _ _ _ _ _ _ _ I1 H1 Q1 Q2).
Qed.

Lemma deliver_all_inv off hand s psta st : q_inv_off get off hand s -> xq_stas s !! psta = Some st ->
  exists s', deliver_all get s psta (sleep_q st) = Some s' /\ q_inv_off get off hand s' /\ hand ++ held s' ≡ₚ hand ++ held s.
Proof.
  intros I Hst. pose proof (slot_nodup _ _ _ _ _ _ None _ _ I Hst eq_refl) as Nd.
  destruct (each_ok (fun ids s' => q_inv_off get off hand s' /\ hand ++ held s' ≡ₚ hand ++ held s /\ NoDup ids /\
    exists st', xq_stas s' !! psta = Some st' /\ ids ⊆ sleep_q st') (fun s id => deliver_one get s psta id)) with (ids := sleep_q st) (s := s)
    as (s' & E & J & P & _); [|by split_and!; [..|exists st]|by exists s'].
  intros id ids s1 (I1 & P1 & [Hn N1]%NoDup_cons & st1 & H1 & Q1).
  destruct (deliver_one_inv off hand s1 psta st1 id I1 H1) as (s2 & -> & I2 & P2 & st2 & H2 & Q2); [set_solver|].
  exists s2. split; [done|]. split; [done|]. split; [by rewrite P2|]. split; [done|]. exists st2. split; [done|].
  intros x Hx. apply Q2; [set_solver|]. by intros ->.
Qed.

Lemma keeps_state s psta v : keeps s (set_state s psta v).
Proof. apply keeps_of_same. intros hand. apply set_state_same. Qed.

Lemma keeps_dz s d : keeps s (s <| sta_dz_bitmap := d |>).
Proof. apply keeps_of_same. intros hand. apply same_bits. Qed.

Lemma keeps_expire s psta st n : xq_stas s !! psta = Some st -> keeps s (put_qsta s psta (st <| qs_expire_to := n |>)).
Proof.
  intros H. split.
  - intros p st' H'. cbn. destruct (decide (p = psta)) as [->|]; [|exists st'; by rewrite lookup_insert_ne].
    rewrite lookup_insert_eq. eexists. split; [done|]. assert (st' = st) as -> by congruence. by intros [ac|].
  - intros off hand I. apply (inv_put_same off hand s psta st); [done|done|done|]. by intros [ac|].
Qed.

Lemma keeps_inv off hand s1 s2 : keeps s1 s2 -> q_inv_off get off hand s1 -> q_inv_off get off hand s2 /\ hand ++ held s2 ≡ₚ hand ++ held s1.
Proof. intros [_ K]. apply K. Qed.

Lemma wake_done_inv off hand s a psta : q_inv_off get off hand s -> get a = Some psta ->
  exists r s', wake_done s psta = Some (r, s') /\ keeps s s'.
Proof.
  intros I Ha. destruct (sta_at _ _ _ _ _ _ I Ha) as (st & w & Hst & Hw). unfold wake_done. rewrite Hst. cbn [mbind option_bind].
  destruct (_ =? 0); [|exists false, s; split; [done|apply keeps_refl]].
  match goal with |- context [s <| tim_bitmap := ?t |>] => set (s1 := s <| tim_bitmap := t |>) end.
  assert (sta_state s1 psta = Some w) as -> by done. cbn [mbind option_bind].
  do 2 eexists. split; [reflexivity|]. eapply kept_trans; [apply keeps_tim|]. fold s1. eapply kept_trans; [|apply keeps_dz].
  match goal with |- keeps _ (if ?c then _ else _) => destruct c end; [apply keeps_state|]. eapply kept_trans; [|apply keeps_state]. by apply keeps_expire.
Qed.

Lemma wake_bmc_inv off hand s a b : q_inv_off get off hand s -> get a = Some b ->
  exists r s', wake_bmc get s b = Some (r, s') /\ q_inv_off get off hand s' /\ hand ++ held s' ≡ₚ hand ++ held s.
Proof.
  intros I Ha. unfold wake_bmc. destruct (_ =? 0); [|by exists false, s]. destruct (sta_at _ _ _ _ _ _ I Ha) as (st & _ & Hst & _).
  rewrite Hst. cbn [mbind option_bind]. unfold wake_bmc_all.
  destruct (empties_sleep (fun s id => wake_bmc_one get s b id) off hand b (fun s st id => wake_bmc_one_inv off hand s b st id) s st I Hst)
    as (s1 & -> & J & P & st1 & H1 & _). cbn [mbind option_bind]. rewrite H1. cbn [mbind option_bind].
  destruct (_ =? 0); [|by exists false, s1]. do 2 eexists. split; [reflexivity|].
  destruct (keeps_inv off hand _ _ (keeps_bits s1 (Z.land (tim_bitmap s1) (Z.lnot (BIT 0))) (Z.land (sta_dz_bitmap s1) (Z.lnot (BIT 0)))) J) as [J' P'].
  split; [exact J'|]. by rewrite P'.
Qed.

(** The station is awake. *)
Lemma wakeup_inv hand s a psta : q_inv get hand s -> get a = Some psta ->
  exists s', wakeup_sta_to_xmit get s psta = Some s' /\ q_inv get hand s' /\ hand ++ held s' ≡ₚ hand ++ held s.
Proof.
  intros I Ha. destruct (sta_at _ _ _ _ _ _ I Ha) as (st & w & Hst & Hw). unfold wakeup_sta_to_xmit. rewrite Hst. cbn [mbind option_bind].
  unfold wake_all.
  destruct (empties_sleep (fun s id => wake_one get s psta id) no_off hand psta (fun s st id => wake_one_inv no_off hand s psta st id) s st I Hst)
    as (s1 & -> & J1 & P1 & _). cbn [mbind option_bind].
  destruct (wake_done_inv _ _ s1 a psta J1 Ha) as (b1 & s2 & -> & K). cbn [mbind option_bind].
  destruct (keeps_inv _ _ _ _ K J1) as [J2 P2].
  assert (exists b2 s3, (match get bc_addr with None => Some (false, s2) | Some b => wake_bmc get s2 b end) = Some (b2, s3) /\
            q_inv get hand s3 /\ hand ++ held s3 ≡ₚ hand ++ held s2) as (b2 & s3 & -> & J3 & P3).
  { destruct (get bc_addr) as [b|] eqn:Eb; [|by exists false, s2]. by apply (wake_bmc_inv no_off hand s2 bc_addr b). }
  cbn [mbind option_bind]. eexists. split; [reflexivity|]. destruct (b1 || b2); [|split; [done|by rewrite P3, P2, P1]].
  split; [by apply (inv_same _ _ _ _ _ (same_note _ _ _))|]. change (held (q_note s3 UpdateBeacon)) with (held s3). by rewrite P3, P2, P1.
Qed.

Lemma delivery_inv hand s a psta : q_inv get hand s -> get a = Some psta ->
  exists s', xmit_delivery_enabled_frames get s psta = Some s' /\ q_inv get hand s' /\ hand ++ held s' ≡ₚ hand ++ held s.
Proof.
  intros I Ha. destruct (sta_at _ _ _ _ _ _ I Ha) as (st & w & Hst & Hw). unfold xmit_delivery_enabled_frames. rewrite Hst. cbn [mbind option_bind].
  by apply (deliver_all_inv no_off hand s psta st).
Qed.

(** ** Removing a station *)

Lemma delete_again s id : id ∉ held (frame_delete s id) -> frame_delete (frame_delete s id) id = frame_delete s id.
Proof. apply frame_delete_none. Qed.

(** A queued frame goes back to its pool. *)
Lemma free_queued off hand s psta st sl l n id :
  q_inv_off get off hand s -> xq_stas s !! psta = Some st -> slot_q st sl = Some (l, n) -> id ∈ l ->
  exists s' st', rtw_free_xmitframe s id = Some s' /\ q_inv_off get (bump off psta sl 1) hand s' /\ hand ++ held s' ≡ₚ hand ++ held s /\
    xq_stas s' !! psta = Some st' /\ slot_upd st st' sl (drop_id id l) n /\ qs_aid st' = qs_aid st.
Proof.
  intros I Hst Hsl Hi. destruct (inv_delete get off hand s psta st sl l n id I Hst Hsl Hi) as (Ed & U & I1 & P1).
  destruct (free_inv _ _ _ _ _ I1) as (s' & E & J & P & Es & _).
  assert (rtw_free_xmitframe s id = rtw_free_xmitframe (frame_delete s id) id) as ->.
  { destruct (inv_frame _ _ _ _ id I1) as (f & F1 & F2 & _); [left; by left|]. unfold rtw_free_xmitframe. rewrite F1.
    change (xq_frames s !! id) with (xq_frames (frame_delete s id) !! id). rewrite F1. cbn [mbind option_bind]. rewrite F2.
    set (g := f <| qf_pkt := None |>). change (frame_delete (put_frame s id g) id) with (put_frame (frame_delete s id) id g).
    rewrite (frame_delete_none (put_frame (frame_delete s id) id g) id); [done|].
    pose proof (qi_nodup _ _ _ _ I1) as (_ & H & _)%NoDup_app. apply H. by left. }
  exists s', (unlink_sta id st). split; [exact E|]. split; [exact J|]. split; [by rewrite P, <- P1|]. rewrite Es, Ed.
  split; [apply lookup_insert_eq|]. by split.
Qed.

Lemma free_slot off hand s psta st sl l n :
  q_inv_off get off hand s -> xq_stas s !! psta = Some st -> slot_q st sl = Some (l, n) ->
  exists s' off' st', rtw_free_xmitframe_queue s l = Some s' /\ q_inv_off get off' hand s' /\ hand ++ held s' ≡ₚ hand ++ held s /\
    (forall p sl', ~ (p = psta /\ sl' = sl) -> off' p sl' = off p sl') /\ xq_stas s' !! psta = Some st' /\ slot_q st' sl = Some ([], n).
Proof.
  intros I Hst Hsl.
  destruct (each_ok (fun ids s' => exists off' st', q_inv_off get off' hand s' /\ hand ++ held s' ≡ₚ hand ++ held s /\
    (forall p sl', ~ (p = psta /\ sl' = sl) -> off' p sl' = off p sl') /\ xq_stas s' !! psta = Some st' /\ slot_q st' sl = Some (ids, n))
    rtw_free_xmitframe) with (ids := l) (s := s) as (s' & E & off' & st' & R); [|by exists off, st|by exists s', off', st'].
  intros id ids s1 (off1 & st1 & I1 & P1 & O1 & H1 & Q1).
  destruct (free_queued _ _ _ _ _ _ _ _ id I1 H1 Q1) as (s2 & st2 & -> & I2 & P2 & H2 & U & _); [by left|].
  exists s2. split; [done|]. exists (bump off1 psta sl 1), st2. split; [exact I2|]. split; [by rewrite P2|].
  split; [intros p sl' Hne; rewrite bump_ne by done; by apply O1|]. split; [exact H2|]. rewrite (su_at _ _ _ _ _ U).
  pose proof (slot_nodup _ _ _ _ _ _ _ _ _ I1 H1 Q1) as [Hn _]%NoDup_cons.
  by rewrite drop_id_head.
Qed.

Lemma flush_inv hand s a psta ac : q_inv get hand s -> get a = Some psta -> 0 <= ac < 4 ->
  exists s', flush_ac s psta ac = Some s' /\ q_inv get hand s' /\ hand ++ held s' ≡ₚ hand ++ held s.
Proof.
  intros I Ha Hac. destruct (sta_at _ _ _ _ _ _ I Ha) as (st & w & Hst & _). unfold flush_ac. rewrite Hst. cbn [mbind option_bind].
  destruct (servq_at _ _ _ _ _ _ ac I Hst Hac) as [q Hq]. rewrite Hq. cbn [mbind option_bind]. pose proof (slot_of_servq _ _ _ Hq) as Sq.
  destruct (free_slot _ _ _ _ _ _ _ _ I Hst Sq) as (s1 & off & st1 & -> & J1 & P1 & O & H1 & Q1). cbn [mbind option_bind].
  set (s2 := pending_delete s1 psta ac). pose proof (pending_delete_same hand s1 psta ac) as M2. fold s2 in M2.
  pose proof (inv_same _ _ _ _ _ M2 J1) as J2. destruct (hw_at _ _ _ _ ac J2 Hac) as [h Hh]. rewrite Hh. cbn [mbind option_bind].
  rewrite (sm_stas _ _ _ M2), H1. cbn [mbind option_bind]. destruct (servq_at _ _ _ _ _ _ ac J1 H1 Hac) as [q1 Hq1]. rewrite Hq1. cbn [mbind option_bind].
  pose proof (slot_of_servq _ _ _ Hq1) as Sq1. rewrite Q1 in Sq1. injection Sq1 as Ep En.
  set (hw := arr_set _ _ _). set (s3 := s2 <| xq_hw := hw |>).
  assert (q_same hand s2 s3) as M3 by (apply same_hw; intros H; apply (hw_ok_set _ _ _ h); [done|done|]; intros p Hx; by left).
  pose proof (inv_same _ _ _ _ _ M3 J2) as J3. eexists. split; [reflexivity|].
  assert (xq_stas s3 !! psta = Some st1) as H3 by (rewrite (sm_stas _ _ _ M3), (sm_stas _ _ _ M2); exact H1).
  assert (sta_pending (q1 <| qcnt := 0 |>) = []) as Eq by (symmetry; exact Ep).
  destruct (inv_put get off no_off hand hand s3 psta st1 _ (Some ac) [] (qcnt q) _ _ J3 H3 Q1 (upd_servq st1 ac q1 (q1 <| qcnt := 0 |>) Hq1)) as [J4 P4].
  - by rewrite Eq.
  - by rewrite Eq.
  - by rewrite Eq.
  - intros p sl Hne. symmetry. rewrite O by done. done.
  - split; [exact J4|]. rewrite P4, (same_held _ _ _ M3), (same_held _ _ _ M2). exact P1.
Qed.

Lemma free_sta_inv hand s a psta : q_inv get hand s -> get a = Some psta ->
  exists s', free_sta_queues s psta = Some s' /\ q_inv get hand s' /\ hand ++ held s' ≡ₚ hand ++ held s.
Proof.
  intros I Ha. destruct (sta_at _ _ _ _ _ _ I Ha) as (st & w & Hst & _). unfold free_sta_queues. rewrite Hst. cbn [mbind option_bind].
  destruct (free_slot _ _ _ _ _ None _ _ I Hst eq_refl) as (s1 & off & st1 & -> & J1 & P1 & O & H1 & Q1). cbn [mbind option_bind].
  rewrite H1. cbn [mbind option_bind]. injection Q1 as Q1 Q2.
  destruct (inv_put get off no_off hand hand s1 psta st1 (st1 <| sleepq_len := 0 |>) None (sleep_q st1) (sleepq_len st1) (sleep_q st1) 0 J1 H1 eq_refl) as [J2 P2].
  - split; [done|done|]. by intros [ac|].
  - done.
  - by rewrite Q1.
  - by rewrite Q1.
  - intros p sl Hne. symmetry. by rewrite O.
  - destruct (flush_inv _ _ _ _ 0 J2 Ha) as (s3 & -> & J3 & P3); [lia|]. cbn [mbind option_bind].
    destruct (flush_inv _ _ _ _ 1 J3 Ha) as (s4 & -> & J4 & P4); [lia|]. cbn [mbind option_bind].
    destruct (flush_inv _ _ _ _ 2 J4 Ha) as (s5 & -> & J5 & P5); [lia|]. cbn [mbind option_bind].
    destruct (flush_inv _ _ _ _ 3 J5 Ha) as (s6 & -> & J6 & P6); [lia|].
    exists s6. split; [done|]. split; [exact J6|]. by rewrite P6, P5, P4, P3, P2.
Qed.

(** ** [rtw_xmit] *)

(** The stations stay in the table. *)
Definition keys_kept (s s' : tx_state) : Prop := forall p, is_Some (tx_stas s !! p) -> is_Some (tx_stas s' !! p).

Lemma keys_refl s : keys_kept s s.
Proof. by intros p. Qed.
#[local] Hint Resolve keys_refl : core.

Lemma keys_insert (s : tx_state) psta xs p : is_Some (tx_stas s !! p) -> is_Some (<[psta := xs]> (tx_stas s) !! p).
Proof. intros [x Hx]. destruct (decide (p = psta)) as [->|]; [by rewrite lookup_insert_eq|by rewrite lookup_insert_ne, Hx]. Qed.

Lemma sec_info_keys s a psta r a' s' : update_attrib_sec_info s a psta = Some (r, a', s') -> keys_kept s s'.
Proof.
  unfold update_attrib_sec_info. destruct (tx_stas s !! psta) as [xs|]; [|done]. cbn [mbind option_bind].
  destruct (rx_stas _ !! psta) as [st|]; [|done]. cbn [mbind option_bind]. set (a1 := if ieee8021x_blocked st then _ else _). clearbody a1.
  destruct (_ && _); [by intros [= _ _ <-]|].
  assert (forall r1 a2 s1 bm, cipher_iv s a1 psta xs bm = (r1, a2, s1) -> keys_kept s s1) as Hc.
  { unfold cipher_iv, set_txpn. intros r1 a2 s1 bm. repeat case_match; intros [= _ _ <-] p Hp; try exact Hp; by apply keys_insert. }
  destruct (cipher_iv _ _ _ _ _) as [[r1 a2] s1] eqn:E. specialize (Hc _ _ _ _ E). destruct (_ =? _); by intros [= _ _ <-].
Qed.

Context (junk : list Z).

Lemma update_attrib_keys s pkt a0 r a' s' : update_attrib get junk s pkt a0 = Some (r, a', s') -> keys_kept s s'.
Proof.
  unfold update_attrib. destruct (read_local junk pkt ETH_HLEN) as [eth pf]. set (a1 := tx_addresses _ _). clearbody a1.
  destruct (if IS_MCAST (at_ra a1) then _ else _) as [psta|]; [|by intros [= _ _ <-]].
  destruct (tx_stas s !! psta) as [xs|] eqn:Ex; [|done]. cbn [mbind option_bind]. destruct (_ =? 0); [by intros [= _ _ <-]|].
  set (a2 := a1 <| at_pktlen := mem_len pf |>). set (a3 := if at_ether_type a2 =? ETH_P_IP then _ else _).
  destruct (calls_noted s ((at_ether_type a3 =? 0x888e) || (at_dhcp_pkt a3 =? 1)) (at_icmp_pkt a3 =? 1) (at_dhcp_pkt a3 =? 1)) as [cs Hcs].
  cbv zeta in Hcs. rewrite Hcs. clear Hcs. clearbody a3. set (s1 := s <| tx_calls := cs |>).
  destruct (update_attrib_sec_info s1 a3 psta) as [[[r1 a4] s2]|] eqn:E; [|done]. cbn [mbind option_bind]. apply sec_info_keys in E.
  assert (keys_kept s s2) as K by exact E. destruct (_ =? _); by intros [= _ _ <-].
Qed.

Lemma wlanhdr_keys s a r h a' s' : rtw_make_wlanhdr get s a = Some (r, h, a', s') -> keys_kept s s'.
Proof.
  unfold rtw_make_wlanhdr. destruct (set_frame_sub_type _ _) as [h0|]; [|done]. cbn [mbind option_bind].
  destruct (_ =? 0); [by intros [= _ _ _ <-]|]. destruct (wlanhdr_addrs s h0 a) as [[[h1 qos]|]|]; [| |done]; cbn [mbind option_bind]; [|by intros [= _ _ _ <-]].
  destruct (if negb (at_mdata a =? 0) then _ else _) as [h2|]; [|done]. cbn [mbind option_bind].
  destruct (if negb (at_encrypt a =? 0) then _ else _) as [h3|]; [|done]. cbn [mbind option_bind].
  destruct (if qos then _ else _) as [h4|]; [|done]. cbn [mbind option_bind]. destruct (get (at_ra a)) as [psta|]; [|by intros [= _ _ _ <-]].
  destruct (negb _); [by intros [= _ _ _ <-]|]. destruct (tx_stas s !! psta) as [xs|]; [|done]. cbn [mbind option_bind].
  destruct (_ =? 0); [by intros [= _ _ _ <-]|]. destruct (wlanhdr_seq s h4 a psta xs) as [[[h5 a5] s5]|] eqn:E; [|done]. cbn [mbind option_bind].
  intros [= _ _ _ <-]. unfold wlanhdr_seq in E. destruct (key_at (txseq_tid xs) _); [|done]. cbn [mbind option_bind] in E.
  destruct (SetSeqNum _ _); [|done]. cbn [mbind option_bind] in E.
  match type of E with context [?o ≫= _] => destruct o as [[a6 xs6]|] end; [|done]. cbn [mbind option_bind] in E.
  injection E as _ _ <-. intros p. apply keys_insert.
Qed.

Lemma coalesce_keys s pkt f r f' s' : rtw_xmitframe_coalesce get s pkt f = Some (r, f', s') -> keys_kept s s'.
Proof.
  unfold rtw_xmitframe_coalesce. destruct (_ =? 0); [by intros [= _ _ <-]|].
  destruct (rtw_make_wlanhdr get s (tf_attrib f)) as [[[[r1 h] a1] s1]|] eqn:E; [|done]. cbn [mbind option_bind]. apply wlanhdr_keys in E.
  destruct (wrn _ _ _) as [buf|]; [|done]. cbn [mbind option_bind]. destruct (_ =? _); [by intros [= _ _ <-]|].
  destruct (pktfile_read _ _) as [bs pf]. destruct (fragment_loop _ _ _ _ _ _ _ _ _ _) as [[buf1 a2]|]; [|done]. cbn [mbind option_bind].
  destruct (xmitframe_addmic _ _) as [[r2 f2]|]; [|done]. cbn [mbind option_bind]. destruct (_ =? _); [by intros [= _ _ <-]|].
  destruct (xmitframe_swencrypt s1 f2) as [[f3 s3]|] eqn:E3; [|done]. cbn [mbind option_bind]. intros [= _ _ <-].
  assert (tx_stas s3 = tx_stas s1) as Es.
  { unfold xmitframe_swencrypt in E3. destruct (at_bswenc _); [|by injection E3 as _ <-].
    destruct (is_wep _). { destruct (rtw_wep_encrypt _ _ _ _) as [[? ?]|]; [|done]. by injection E3 as _ <-. }
    destruct (_ =? _). { destruct (rtw_tkip_encrypt _ _ _ _) as [[[? ?] ?]|]; [|done]. by injection E3 as _ <-. }
    destruct (_ =? _); [|by injection E3 as _ <-]. destruct (rtw_aes_encrypt _ _ _) as [[? ?]|]; [|done]. by injection E3 as _ <-. }
  intros p H. rewrite Es. by apply E.
Qed.

Lemma same_tx hand s tx : keys_kept (xq_tx s) tx -> q_same hand s (s <| xq_tx := tx |>).
Proof. intros K. split; try done. intros id f E. by exists f. Qed.

(** A frame in hand, rewritten. *)
Lemma inv_hand off hand s id f f' : q_inv_off get off (id :: hand) s -> xq_frames s !! id = Some f -> frame_like f f' ->
  q_inv_off get off (id :: hand) (put_frame s id f').
Proof.
  intros I F L. eapply inv_same; [|exact I]. apply (same_put_frame _ _ _ f); [done|done|]. intros Hn. exfalso. apply Hn. by left.
Qed.

Lemma pending_known off hand s f : q_inv_off get off hand s -> exists n, rtw_txframes_sta_ac_pending get s f = Some n.
Proof.
  intros I. unfold rtw_txframes_sta_ac_pending. destruct (frame_sta_ok _ _ _ _ f I) as [-> | (p & st & w & -> & _ & _ & Hst & _)]; [by exists 0|].
  cbn [mbind option_bind]. rewrite Hst. cbn [mbind option_bind].
  destruct (servq_at _ _ _ _ _ _ _ I Hst (ac_range (at_priority (qf_attrib f)))) as [q ->]. by eexists.
Qed.

(** Sent at once, queued or dropped. *)
Lemma pre_xmit_inv hand s id direct r s' : q_inv get (id :: hand) s -> pre_xmitframe get s id direct = Some (r, s') ->
  q_inv get hand s' /\ hand ++ held s' ≡ₚ (id :: hand) ++ held s.
Proof.
  intros I. destruct (inv_frame _ _ _ _ id I) as (f & F1 & _); [left; by left|]. unfold pre_xmitframe. rewrite F1. cbn [mbind option_bind].
  destruct (pending_known _ _ _ f I) as [n ->]. cbn [mbind option_bind]. destruct (if 0 <? n then None else direct) as [[addr mem]|].
  - destruct (qf_pkt f) as [pkt|]; [|done]. cbn [mbind option_bind].
    destruct (rtw_xmitframe_coalesce _ _ _ _) as [[[res tf] tx]|] eqn:E; [|done]. cbn [mbind option_bind]. apply coalesce_keys in E.
    pose proof (inv_same _ _ _ _ _ (same_tx _ s tx E) I) as I1.
    match goal with |- context [rtw_dump_xframe ?x id tf] => set (s1 := x) end.
    assert (q_inv get (id :: hand) s1) as I2 by (by eapply (inv_hand _ _ _ _ f); [exact I1|exact F1|]). destruct (res =? _SUCCESS).
    + set (s2 := s1 <| xq_air := xq_air s1 ++ [tf] |>). assert (rtw_dump_xframe s1 id tf = rtw_free_xmitframe s2 id) as -> by reflexivity.
      assert (q_inv get (id :: hand) s2) as I3. { eapply inv_same; [|exact I2]. split; try done. intros i g G. by exists g. }
      destruct (free_inv _ _ _ _ _ I3) as (s3 & -> & J & P & _). cbn [mbind option_bind]. intros [= _ <-]. by split.
    + destruct (free_inv _ _ _ _ _ I2) as (s3 & -> & J & P & _). cbn [mbind option_bind]. intros [= _ <-]. by split.
  - unfold rtw_xmitframe_enqueue. destruct (classify_inv _ _ _ _ _ _ I F1) as [[_ ->] | (p & st & q & hw & h & _ & _ & _ & _ & _ & _ & _ & -> & J & P)];
      cbn [mbind option_bind].
    + change (_FAIL =? _FAIL) with true. change (_FAIL =? _SUCCESS) with false. cbv iota.
      destruct (free_inv _ _ _ _ _ I) as (s3 & -> & J & P & _). cbn [mbind option_bind]. intros [= _ <-]. split; [|exact P].
      eapply inv_same; [|exact J]. split; try done. intros i g G. by exists g.
    + change (_SUCCESS =? _FAIL) with false. cbv iota. change (_SUCCESS =? _SUCCESS) with true. cbv iota. intros [= _ <-]. by split.
Qed.

Lemma xmit_inv hand s pkt direct r s' : q_inv get hand s -> rtw_xmit get junk s pkt direct = Some (r, s') ->
  q_inv get hand s' /\ hand ++ held s' ≡ₚ hand ++ held s.
Proof.
  intros I. unfold rtw_xmit. destruct (alloc_inv get hand s I) as ([id|] & s1 & -> & H); cbn [mbind option_bind]; [|destruct H as [_ ->]; by intros [= _ <-]].
  destruct H as (I1 & P1 & _ & _ & _ & f & F1). rewrite F1. cbn [mbind option_bind].
  destruct (update_attrib _ _ _ _ _) as [[[res a] tx]|] eqn:E; [|done]. cbn [mbind option_bind]. apply update_attrib_keys in E.
  pose proof (inv_same _ _ _ _ _ (same_tx _ s1 tx E) I1) as I2.
  assert (forall x, (id :: hand) ++ held (put_frame (s1 <| xq_tx := tx |>) id x) ≡ₚ hand ++ held s) as P3 by (intros x; exact P1).
  match goal with |- context [q_note ?x LedTx] => set (s2 := x) end.
  assert (q_inv get (id :: hand) s2) as I3 by (by eapply (inv_hand _ _ _ _ (init_q_frame f)); [exact I2|exact F1|]). destruct (_ =? _).
  - destruct (free_inv _ _ _ _ _ I3) as (s3 & -> & J & P & _). cbn [mbind option_bind]. intros [= _ <-]. split; [exact J|]. by rewrite P, <- P1.
  - set (f2 := _ <| qf_qsel := at_priority a |>). set (s3 := put_frame (q_note s2 LedTx) id f2).
    assert (q_inv get (id :: hand) s3) as I4.
    { apply (inv_hand _ _ _ _ ((init_q_frame f) <| qf_attrib := a |>)); [by apply (inv_same _ _ _ _ _ (same_note _ _ _))|apply lookup_insert_eq|done]. }
    destruct (enqueue_sleep_hand _ _ _ _ I4) as ([] & s4 & -> & J); cbn [mbind option_bind]; destruct J as [J P].
    + intros [= _ <-]. split; [exact J|]. by rewrite P.
    + destruct (pre_xmitframe get s4 id direct) as [[b s5]|] eqn:E5; [|done]. cbn [mbind option_bind]. intros [= _ <-].
      destruct (pre_xmit_inv hand s4 id direct b s5 J E5) as [J5 P5]. split; [exact J5|]. rewrite P5, P. exact P1.
Qed.
End ops.
