(* ===== verification/XmitQueueThms.v ===== *)
(** * What the transmit queues guarantee

    No frame is lost or queued twice whatever the order of the operations; a
    station that wakes up gets its frames in the order they were buffered, with
    the bits of power saving the code computes;
    and the frames a sleeping station with a large association identifier
    loses. *)

From S2P Require Import Prelude Mem Arc4 SecDefs Wep Michael Tkip Ccmp Reorder RecvFrame Msdu RecvData RecvMain RecvDemo RecvDataSpec XmitData XmitFrame XmitDemo XmitQueue XmitQueueDemo XmitQueueSpec XmitQueueOps.
From stdpp Require Import list.
#[local] Open Scope Z_scope.

(** ** Waking in order *)

Section wake.
Context (get : list Z -> option Z).

(** A frame in hand whose station is linked is queued for it. *)
Lemma hal_enqueue_done off hand s id f p w :
  q_inv_off get off (id :: hand) s -> xq_frames s !! id = Some f -> at_psta (qf_attrib f) = Some p -> get (at_ra (qf_attrib f)) = Some p ->
  sta_state s p = Some w -> Z.land w _FW_LINKED <> 0 ->
  exists st q hw, let ac := ac_of (at_priority (qf_attrib f)) in
    xq_stas s !! p = Some st /\ key_at (qs_servqs st) ac = Some q /\
    rtw_hal_xmitframe_enqueue get s id = Some (q_note (queue_tail s p st q ac id hw) XmitTasklet) /\
    q_inv_off get off hand (q_note (queue_tail s p st q ac id hw) XmitTasklet).
Proof.
  intros I F Hp Hg Hw Hl. assert (frame_sta get s f = Some (Some p)) as Ef.
  { unfold frame_sta. rewrite Hp, Hg, bool_decide_true by done. cbn [negb]. rewrite Hw. cbn [mbind option_bind]. by destruct (Z.eqb_spec (Z.land w _FW_LINKED) 0). }
  unfold rtw_hal_xmitframe_enqueue, rtw_xmitframe_enqueue.
  destruct (classify_inv _ _ _ _ _ _ I F) as [[E _] | (p' & st & q & hw & h & E & _ & Hst & Hq & _ & _ & _ & -> & J & _)]; rewrite Ef in E; [done|].
  injection E as <-. exists st, q, hw. split; [done|]. split; [done|]. split; [done|]. by apply (inv_same _ _ _ _ _ (same_note _ _ _)).
Qed.

(** Whether the station fetches a frame with a trigger (U-APSD), how many such
    frames there are, and the bits of a frame it is given: the more-data bit,
    and the end of the service period for frames fetched with a trigger. *)
Definition triggered (st : q_sta) (f : q_frame) : bool := uapsd st (at_priority (qf_attrib f)) 1.

Definition frame_triggered (s : xmit_q) (st : q_sta) (id : Z) : bool :=
  match xq_frames s !! id with Some f => triggered st f | None => false end.

Definition triggered_count (s : xmit_q) (st : q_sta) (ids : list Z) : Z := mem_len (List.filter (frame_triggered s st) ids).

Definition bits_of (trig more : bool) (f f' : q_frame) : Prop :=
  at_mdata (qf_attrib f') = Z.b2z more /\ at_eosp (qf_attrib f') = if trig then Z.b2z (negb more) else at_eosp (qf_attrib f).

(** What waking the oldest frame of a station does. *)
Record woken_one (s s' : xmit_q) (psta : Z) (st st' : q_sta) (id : Z) (f : q_frame) (rest : list Z) : Prop := {
  wo_sta : xq_stas s' !! psta = Some st';
  wo_left : sleep_q st' = rest;
  wo_queued ac : slot_frames st' (Some ac) = slot_frames st (Some ac) ++ (if decide (ac_of (at_priority (qf_attrib f)) = ac) then [id] else []);
  wo_uapsd up b : uapsd st' up b = uapsd st up b;
  wo_aid : qs_aid st' = qs_aid st;
  wo_tx : xq_tx s' = xq_tx s;
  wo_bits : sta_dz_bitmap s' = sta_dz_bitmap s /\ tim_bitmap s' = tim_bitmap s;
  wo_ac : sleepq_ac_len st' = if triggered st f then u32 (sleepq_ac_len st - 1) else sleepq_ac_len st;
  wo_frame : exists f', xq_frames s' !! id = Some f' /\
    bits_of (triggered st f) (if triggered st f then 0 <? u32 (sleepq_ac_len st - 1) else 0 <? u32 (mem_len rest)) f f';
  wo_others i : i <> id -> xq_frames s' !! i = xq_frames s !! i }.

Lemma wake_one_done off hand s psta st id rest f w :
  q_inv_off get off hand s -> off psta None = 0 -> xq_stas s !! psta = Some st -> sleep_q st = id :: rest ->
  xq_frames s !! id = Some f -> get (at_ra (qf_attrib f)) = Some psta -> sta_state s psta = Some w -> Z.land w _FW_LINKED <> 0 ->
  exists s' st', wake_one get s psta id = Some s' /\ q_inv_off get off hand s' /\ woken_one s s' psta st st' id f rest.
Proof.
  intros I Ho Hst Hq F Hg Hw Hl. assert (id ∈ sleep_q st) as Hi by (rewrite Hq; by left).
  pose proof (slot_routed _ _ _ _ _ _ None _ _ I Hst eq_refl) as R. rewrite Forall_forall in R. destruct (R id Hi) as (f1 & F1 & Hp & _).
  assert (f1 = f) as -> by congruence. clear R F1.
  destruct (inv_delete _ _ _ _ _ _ None _ _ id I Hst eq_refl Hi) as (Ed & U & _).
  set (acl := if triggered st f then u32 (sleepq_ac_len st - 1) else sleepq_ac_len st).
  destruct (unsleep_inv get off hand s psta st id acl I Hst Hi) as (H1 & J & _).
  destruct (qi_sta _ _ _ _ I _ _ Hst) as [_ _ S3]. destruct (S3 None _ _ eq_refl) as [Hn _].
  assert (u32 (sleepq_len st - 1) = u32 (mem_len rest)) as En.
  { rewrite Hn, Ho, Hq. unfold slot_wrap, Z.sub. rewrite u32_add. f_equal. unfold mem_len. cbn [length]. lia. }
  set (st1 := unlink_sta id st <| sleepq_len := u32 (sleepq_len st - 1) |> <| sleepq_ac_len := acl |>) in *.
  set (s1 := put_qsta (frame_delete s id) psta st1) in *.
  set (more := if triggered st f then 0 <? u32 (sleepq_ac_len st - 1) else 0 <? u32 (sleepq_len st - 1)).
  assert (wake_one get s psta id = release get s1 id (Z.b2z more) (if triggered st f then Some (Z.b2z (negb more)) else None)) as ->.
  { unfold wake_one. rewrite F. cbn [mbind option_bind]. rewrite H1. cbn [mbind option_bind].
    change (uapsd (unlink_sta id st) (at_priority (qf_attrib f)) 1) with (triggered st f). subst s1 st1 acl more.
    destruct (triggered st f).
    - change (sleepq_ac_len (unlink_sta id st)) with (sleepq_ac_len st). destruct (0 <? _); reflexivity.
    - destruct (0 <? u32 (sleepq_len st - 1)) eqn:Em; change (sleepq_len (unlink_sta id st)) with (sleepq_len st); rewrite Em; reflexivity. }
  unfold release. assert (xq_frames s1 !! id = Some f) as F1 by exact F. rewrite F1. cbn [mbind option_bind].
  match goal with |- context [put_frame s1 id ?g] => set (f' := g) end.
  assert (q_inv_off get off (id :: hand) (put_frame s1 id f')) as J1 by (eapply inv_same; [|exact J]; by apply (same_put_frame _ _ _ f)).
  destruct (hal_enqueue_done off hand (put_frame s1 id f') id f' psta w J1) as (st2 & q & hw & Hst2 & Hq2 & -> & J2); try done; [apply lookup_insert_eq|].
  assert (st2 = st1) as -> by (cbn in Hst2; rewrite lookup_insert_eq in Hst2; congruence). clear Hst2.
  set (ac := ac_of _) in *. change (ac_of (at_priority (qf_attrib f'))) with (ac_of (at_priority (qf_attrib f))) in ac.
  eexists _, _. split; [reflexivity|]. split; [exact J2|]. split.
  - apply lookup_insert_eq.
  - change (drop_id id (sleep_q st) = rest). pose proof (slot_nodup _ _ _ _ _ _ None _ _ I Hst eq_refl) as Nd. rewrite Hq in Nd |- *.
    apply NoDup_cons in Nd as [? _]. by apply drop_id_head.
  - intros ac'. unfold slot_frames. pose proof (upd_servq st1 ac q (mk_servq (sta_pending q ++ [id]) (s32 (qcnt q + 1))) Hq2) as [_ U2 U3].
    assert (slot_q st (Some ac') = slot_q st1 (Some ac')) as E1. { transitivity (slot_q (unlink_sta id st) (Some ac')); [symmetry; by apply (su_ne _ _ _ _ _ U)|done]. }
    rewrite E1. destruct (decide (ac = ac')) as [<-|Hne].
    + rewrite U2, (slot_of_servq _ _ _ Hq2). cbn [fmap option_fmap option_map fst default]. by rewrite decide_True.
    + rewrite U3 by congruence. rewrite decide_False by done. by rewrite app_nil_r.
  - done.
  - done.
  - done.
  - done.
  - done.
  - exists f'. split; [apply lookup_insert_eq|]. rewrite <- En. fold more. split; [done|].
    change (at_eosp (qf_attrib f')) with (default (at_eosp (qf_attrib f)) (if triggered st f then Some (Z.b2z (negb more)) else None)).
    by destruct (triggered st f).
  - intros i Hne. by apply lookup_insert_ne.
Qed.

(** The access category of a frame. *)
Definition frame_ac (s : xmit_q) (id : Z) : option Z := (fun f => ac_of (at_priority (qf_attrib f))) <$> xq_frames s !! id.

(** Whether more frames follow the [k]-th one: more that are fetched with a
    trigger, counted by the station, or any more. *)
Definition more_after (s : xmit_q) (st : q_sta) (k : nat) (f : q_frame) : bool :=
  if triggered st f then 0 <? u32 (sleepq_ac_len st - triggered_count s st (take (S k) (sleep_q st)))
  else Z.of_nat k + 1 <? mem_len (sleep_q st).

Lemma triggered_count_app s st l id f : xq_frames s !! id = Some f ->
  triggered_count s st (l ++ [id]) = triggered_count s st l + Z.b2z (triggered st f).
Proof.
  intros F. unfold triggered_count, mem_len. rewrite List.filter_app, length_app. cbn [List.filter]. unfold frame_triggered at 2. rewrite F.
  destruct (triggered st f); cbn [length Z.b2z]; lia.
Qed.

(** The state after the frames [done] of the sleep queue. *)
Record woken (s s' : xmit_q) (psta : Z) (st st' : q_sta) (sent left : list Z) : Prop := {
  wk_split : sleep_q st = sent ++ left;
  wk_sta : xq_stas s' !! psta = Some st';
  wk_left : sleep_q st' = left;
  wk_queued ac : slot_frames st' (Some ac) = slot_frames st (Some ac) ++ filter (fun id => frame_ac s id = Some ac) sent;
  wk_uapsd up b : uapsd st' up b = uapsd st up b;
  wk_aid : qs_aid st' = qs_aid st;
  wk_tx : xq_tx s' = xq_tx s;
  wk_frames i : i ∈ left -> xq_frames s' !! i = xq_frames s !! i;
  wk_ac : u32 (sleepq_ac_len st') = u32 (sleepq_ac_len st - triggered_count s st sent);
  wk_sent k id f : sent !! k = Some id -> xq_frames s !! id = Some f ->
    exists f', xq_frames s' !! id = Some f' /\ bits_of (triggered st f) (more_after s st k f) f f' }.

Lemma woken_step s s1 s2 psta st st1 st2 id f sent left : woken s s1 psta st st1 sent (id :: left) -> woken_one s1 s2 psta st1 st2 id f left ->
  xq_frames s !! id = Some f -> NoDup (sleep_q st) -> mem_len (sleep_q st) < 2 ^ 32 -> woken s s2 psta st st2 (sent ++ [id]) left.
Proof.
  intros [W1 W2 W3 W4 W5 W6 W7 W8 Wa W9] [O1 O2 O3 O4 O5 O6 _ Oa O8 O9] F Nd Hlen.
  assert (triggered st1 f = triggered st f) as Et by apply W5. rewrite Et in *.
  assert (u32 (sleepq_ac_len st1 - 1) = u32 (sleepq_ac_len st - (triggered_count s st sent + 1))) as Ec.
  { unfold Z.sub at 1. rewrite <- u32_add, Wa, u32_add. f_equal. lia. }
  rewrite W1 in Nd. apply NoDup_app in Nd as (_ & N1 & N2).
  apply NoDup_cons in N2 as [N2 _]. split; try done; try congruence.
  - by rewrite W1, <- app_assoc.
  - intros ac. rewrite O3, W4, filter_app, <- app_assoc. f_equal. f_equal. unfold frame_ac. destruct (decide _) as [E|E].
    + rewrite filter_cons_True; [done|]. rewrite F. cbn. by rewrite E.
    + rewrite filter_cons_False; [done|]. rewrite F. cbn. congruence.
  - intros i Hi. rewrite O9 by (intros ->; done). apply W8. by right.
  - rewrite Oa, (triggered_count_app _ _ _ _ f F). destruct (triggered st f); cbn [Z.b2z]; [by rewrite Ec, wrap_wrap|by rewrite Z.add_0_r].
  - intros k i fi [Hk|[Hk Hi]]%lookup_app_Some Fi.
    + destruct (W9 _ _ _ Hk Fi) as (f' & E & M). exists f'. split; [|done]. rewrite O9; [done|]. intros ->. apply list_elem_of_lookup_2 in Hk.
      apply (N1 id Hk). by left.
    + apply list_lookup_singleton_Some in Hi as [Hk0 <-]. destruct O8 as (f' & E & M). exists f'. split; [done|].
      assert (fi = f) as -> by congruence. replace (more_after s st k f) with
        (if triggered st f then 0 <? u32 (sleepq_ac_len st1 - 1) else 0 <? u32 (mem_len left)); [exact M|].
      unfold more_after. assert (take (S k) (sleep_q st) = sent ++ [id]) as ->.
      { rewrite W1. replace (S k) with (length (sent ++ [id])) by (rewrite length_app; cbn [length]; lia).
        replace (sent ++ id :: left) with ((sent ++ [id]) ++ left) by (by rewrite <- app_assoc). apply take_app_length. }
      rewrite (triggered_count_app _ _ _ _ f F). destruct (triggered st f); cbn [Z.b2z]; [by rewrite Ec|].
      unfold mem_len in *. rewrite W1 in Hlen |- *. rewrite length_app in Hlen |- *. cbn [length] in Hlen |- *. rewrite wrap_small by (unfold in_width; lia).
      destruct (Z.ltb_spec 0 (Z.of_nat (length left))), (Z.ltb_spec (Z.of_nat k + 1) (Z.of_nat (length sent + S (length left)))); lia.
Qed.

Context (hand : list Z) (s : xmit_q) (a : list Z) (psta : Z) (st : q_sta) (w : Z).
Context (I : q_inv get hand s) (Ha : get a = Some psta) (Hst : xq_stas s !! psta = Some st).
Context (Hw : sta_state s psta = Some w) (Hl : Z.land w _FW_LINKED <> 0).
Context (Hra : forall id, id ∈ sleep_q st -> exists f, xq_frames s !! id = Some f /\ get (at_ra (qf_attrib f)) = Some psta).
Context (Hlen : mem_len (sleep_q st) < 2 ^ 32).

Lemma wake_all_done : exists s' st', wake_all get s psta (sleep_q st) = Some s' /\ q_inv get hand s' /\ woken s s' psta st st' (sleep_q st) [].
Proof.
  pose proof (slot_nodup _ _ _ _ _ _ None _ _ I Hst eq_refl) as Nd.
  destruct (each_ok (fun ids s' => exists sent st', q_inv get hand s' /\ woken s s' psta st st' sent ids) (fun s id => wake_one get s psta id))
    with (ids := sleep_q st) (s := s) as (s' & E & sent & st' & J & W).
  - intros id ids s1 (sent & st1 & J & W). destruct (Hra id) as (f & F & Hg); [rewrite (wk_split _ _ _ _ _ _ _ W); set_solver|].
    destruct (wake_one_done no_off hand s1 psta st1 id ids f w) as (s2 & st2 & -> & J2 & W2).
    + exact J.
    + done.
    + apply (wk_sta _ _ _ _ _ _ _ W).
    + apply (wk_left _ _ _ _ _ _ _ W).
    + rewrite (wk_frames _ _ _ _ _ _ _ W); [done|by left].
    + done.
    + unfold sta_state. rewrite (wk_tx _ _ _ _ _ _ _ W). exact Hw.
    + done.
    + exists s2. split; [done|]. exists (sent ++ [id]), st2. split; [done|]. by eapply woken_step.
  - exists [], st. split; [done|]. split; try done.
    + intros ac. cbn. by rewrite app_nil_r.
    + unfold triggered_count. cbn. by rewrite Z.sub_0_r.
  - exists s', st'. split; [exact E|]. split; [exact J|]. pose proof (wk_split _ _ _ _ _ _ _ W) as Es. rewrite app_nil_r in Es. by rewrite Es at 1.
Qed.

Lemma bit_cleared x n : 0 <= n -> Z.testbit (Z.land x (Z.lnot (BIT n))) n = false.
Proof.
  intros Hn. rewrite Z.land_spec, Z.lnot_spec by done. unfold BIT. rewrite Z.shiftl_spec, Z.sub_diag by done. by rewrite andb_false_r.
Qed.

Lemma land4 x : Z.land x 4 = 0 <-> Z.testbit x 2 = false.
Proof.
  split.
  - intros H. assert (Z.testbit (Z.land x 4) 2 = false) as E by (rewrite H; apply Z.bits_0). rewrite Z.land_spec in E. by rewrite andb_true_r in E.
  - intros H. apply Z.bits_inj'. intros n Hn. rewrite Z.land_spec, Z.bits_0. destruct (decide (n = 2)) as [->|]; [by rewrite H|].
    change 4 with (2 ^ 2). rewrite Z.pow2_bits_false by lia. apply andb_false_r.
Qed.

(** The state word of a station that is awake again. *)
Lemma awake_word x : let x1 := if Z.land x WIFI_SLEEP_STATE =? 0 then x else Z.lxor x WIFI_SLEEP_STATE in
  Z.land x1 WIFI_SLEEP_STATE = 0 /\ Z.land (Z.lxor x1 WIFI_STA_ALIVE_CHK_STATE) WIFI_SLEEP_STATE = 0.
Proof.
  cbn zeta. unfold WIFI_SLEEP_STATE, WIFI_STA_ALIVE_CHK_STATE. rewrite !land4, Z.lxor_spec. change (Z.testbit 0x400 2) with false. rewrite xorb_false_r.
  assert (Z.testbit (if Z.land x 4 =? 0 then x else Z.lxor x 4) 2 = false) as E; [|done].
  destruct (Z.eqb_spec (Z.land x 4) 0) as [E|E]; [by apply land4|]. rewrite Z.lxor_spec. rewrite land4 in E. change (Z.testbit 4 2) with true.
  by destruct (Z.testbit x 2).
Qed.

Lemma wake_done_at s1 st1 : q_inv get hand s1 -> xq_stas s1 !! psta = Some st1 -> sleep_q st1 = [] -> 0 <= qs_aid st1 -> sta_state s1 psta = Some w ->
  exists b s2 st2 w2, wake_done s1 psta = Some (b, s2) /\ q_inv get hand s2 /\ xq_stas s2 !! psta = Some st2 /\
    (forall sl, slot_q st2 sl = slot_q st1 sl) /\ xq_frames s2 = xq_frames s1 /\ sta_state s2 psta = Some w2 /\ Z.land w2 WIFI_SLEEP_STATE = 0 /\
    Z.testbit (sta_dz_bitmap s2) (qs_aid st1) = false /\ Z.testbit (tim_bitmap s2) (qs_aid st1) = false.
Proof.
  intros J H Hq Haid Hw1. destruct (wake_done_inv get no_off hand s1 a psta J Ha) as (b & s2 & E & K).
  destruct (keeps_inv _ _ _ _ _ K J) as [J2 _]. destruct K as [K _]. destruct (K psta st1 H) as (st2 & H2 & Es).
  destruct (qi_sta _ _ _ _ J _ _ H) as [_ _ S3]. destruct (S3 None _ _ eq_refl) as [Hn _]. rewrite Hq in Hn.
  assert (sleepq_len st1 = 0) as Hz by (rewrite Hn; reflexivity). pose proof E as E0.
  unfold wake_done in E. rewrite H in E. cbn [mbind option_bind] in E. rewrite Hz in E. change (0 =? 0) with true in E. cbv iota in E.
  pose proof Hw1 as Hw2. unfold sta_state in Hw1. destruct (tx_stas (xq_tx s1) !! psta) as [xs|] eqn:Ex; [|done].
  assert (sta_state (s1 <| tim_bitmap := Z.land (tim_bitmap s1) (Z.lnot (BIT (qs_aid st1))) |>) psta = Some w) as Ew by exact Hw2.
  rewrite Ew in E. cbn [mbind option_bind] in E. clear Ew Hn Hz. pose proof (awake_word w) as [A1 A2].
  set (w1 := if Z.land w WIFI_SLEEP_STATE =? 0 then w else Z.lxor w WIFI_SLEEP_STATE) in *.
  exists b, s2, st2, (if Z.land w1 WIFI_STA_ALIVE_CHK_STATE =? 0 then w1 else Z.lxor w1 WIFI_STA_ALIVE_CHK_STATE).
  split; [exact E0|]. clear E0. split; [done|]. split; [done|]. split; [done|].
  destruct (Z.land w1 WIFI_STA_ALIVE_CHK_STATE =? 0); injection E as _ <-.
  - split; [done|]. split; [unfold sta_state, set_state; cbn; by rewrite lookup_alter_eq, Ex|]. split; [exact A1|].
    split; by apply bit_cleared.
  - split; [done|]. split; [unfold sta_state, set_state; cbn; by rewrite lookup_alter_eq, Ex|]. split; [exact A2|].
    split; by apply bit_cleared.
Qed.

(** The broadcast frames that follow touch nobody else's. *)
Record apart (s1 s2 : xmit_q) (st1 : q_sta) : Prop := {
  ap_sta : xq_stas s2 !! psta = Some st1;
  ap_tx : xq_tx s2 = xq_tx s1;
  ap_frames i : i ∈ frames_of st1 -> xq_frames s2 !! i = xq_frames s1 !! i;
  ap_dz n : Z.testbit (sta_dz_bitmap s1) n = false -> Z.testbit (sta_dz_bitmap s2) n = false;
  ap_tim n : Z.testbit (tim_bitmap s1) n = false -> Z.testbit (tim_bitmap s2) n = false }.

Lemma apart_trans s1 s2 s3 st1 : apart s1 s2 st1 -> apart s2 s3 st1 -> apart s1 s3 st1.
Proof. intros [A1 A2 A3 A4 A5] [B1 B2 B3 B4 B5]. split; [done|congruence| |auto|auto]. intros i Hi. by rewrite B3, A3. Qed.

Lemma wake_bmc_apart s1 st1 b : q_inv get hand s1 -> xq_stas s1 !! psta = Some st1 -> get bc_addr = Some b -> b <> psta ->
  exists r s2, wake_bmc get s1 b = Some (r, s2) /\ q_inv get hand s2 /\ apart s1 s2 st1.
Proof.
  intros J H Hb Hne. assert (apart s1 s1 st1) as Hrefl by done. unfold wake_bmc. destruct (_ =? 0); [|by exists false, s1].
  destruct (sta_at _ _ _ _ _ _ J Hb) as (stb & _ & Hstb & _). rewrite Hstb. cbn [mbind option_bind]. unfold wake_bmc_all.
  destruct (each_ok (fun ids s' => q_inv get hand s' /\ apart s1 s' st1 /\ exists stb', xq_stas s' !! b = Some stb' /\ sleep_q stb' = ids)
    (fun s id => wake_bmc_one get s b id)) with (ids := sleep_q stb) (s := s1) as (s2 & -> & J2 & A2 & stb2 & H2 & _).
  - intros id ids s' (J' & A' & stb' & H' & Q'). assert (id ∈ sleep_q stb') as Hi by (rewrite Q'; by left). unfold wake_bmc_one.
    destruct (unsleep_inv get no_off hand s' b stb' id 0 J' H' Hi) as (Hd & _). rewrite Hd. cbn [mbind option_bind].
    destruct (unsleep_release_at get no_off hand s' b stb' id (sleepq_ac_len stb') (if 0 <? u32 (sleepq_len stb' - 1) then 1 else 0) None J' H' Hi)
      as (s'' & E & J'' & _ & V1 & V2 & V3 & V4 & V5 & stb'' & H'' & Q'' & _).
    exists s''. split; [exact E|]. split; [exact J''|]. split; [|exists stb''; split; [done|]; by eapply (sleep_drop get no_off hand s' b stb')].
    apply (apart_trans _ _ _ _ A'). split; [by rewrite V1, (ap_sta _ _ _ A')|exact V3| |by rewrite V4|by rewrite V5].
    intros i Hin. apply V2. intros ->. apply Hne.
    eapply sta_frames_disjoint; [|exact H'|exact (ap_sta _ _ _ A')| |exact Hin].
    + apply held_stas. by pose proof (qi_nodup _ _ _ _ J') as (_ & _ & ?)%NoDup_app.
    + unfold frames_of. apply elem_of_app. by right.
  - split; [done|]. split; [done|]. by exists stb.
  - cbn [mbind option_bind]. rewrite H2. cbn [mbind option_bind]. destruct (_ =? 0); [|by exists false, s2].
    do 2 eexists. split; [reflexivity|]. split; [|].
    + by apply (keeps_inv get no_off hand _ _ (keeps_bits get s2 (Z.land (tim_bitmap s2) (Z.lnot (BIT 0))) (Z.land (sta_dz_bitmap s2) (Z.lnot (BIT 0))))).
    + apply (apart_trans _ _ _ _ A2). split; try done; [apply (ap_sta _ _ _ A2)| |]; intros n Hn; cbn; by rewrite Z.land_spec, Hn.
Qed.

(** C25. Waking a station up (wakeup_sta_to_xmit) queues every frame that was
    buffered for it, in the order they were buffered and at the end of the
    service queue of its access category. A frame that the station does not
    fetch with a trigger has the more-data bit unless it is the last; a frame
    of a trigger-enabled category has it while the station's count of such
    frames, less those up to and including this one, is positive modulo 2^32,
    and the end-of-service bit exactly when it is not. The station is awake and
    off the bitmaps. *)
Theorem woken_in_order (Haid : 0 <= qs_aid st) (Hbc : get bc_addr <> Some psta) :
  exists s' st' w', wakeup_sta_to_xmit get s psta = Some s' /\ xq_stas s' !! psta = Some st' /\ sleep_q st' = [] /\
    (forall ac, slot_frames st' (Some ac) = slot_frames st (Some ac) ++ filter (fun id => frame_ac s id = Some ac) (sleep_q st)) /\
    (forall k id f, sleep_q st !! k = Some id -> xq_frames s !! id = Some f ->
       exists f', xq_frames s' !! id = Some f' /\ bits_of (triggered st f) (more_after s st k f) f f') /\
    sta_state s' psta = Some w' /\ Z.land w' WIFI_SLEEP_STATE = 0 /\
    Z.testbit (sta_dz_bitmap s') (qs_aid st) = false /\ Z.testbit (tim_bitmap s') (qs_aid st) = false.
Proof.
  destruct wake_all_done as (s1 & st1 & E1 & J1 & W).
  destruct (wake_done_at s1 st1 J1 (wk_sta _ _ _ _ _ _ _ W) (wk_left _ _ _ _ _ _ _ W)) as (b1 & s2 & st2 & w2 & E2 & J2 & H2 & Es2 & F2 & Hw2 & Hz & D2 & T2).
  { by rewrite (wk_aid _ _ _ _ _ _ _ W). } { unfold sta_state. rewrite (wk_tx _ _ _ _ _ _ _ W). exact Hw. }
  rewrite (wk_aid _ _ _ _ _ _ _ W) in D2, T2.
  assert (exists b2 s3, (match get bc_addr with None => Some (false, s2) | Some b => wake_bmc get s2 b end) = Some (b2, s3) /\ apart s2 s3 st2) as (b2 & s3 & E3 & A).
  { destruct (get bc_addr) as [b|] eqn:Eb; [|by exists false, s2]. destruct (wake_bmc_apart s2 st2 b J2 H2 Eb) as (r & s3 & E & _ & A); [congruence|]. by exists r, s3. }
  unfold wakeup_sta_to_xmit. rewrite Hst. cbn [mbind option_bind]. rewrite E1. cbn [mbind option_bind]. rewrite E2. cbn [mbind option_bind].
  rewrite E3. cbn [mbind option_bind].
  assert (forall s', xq_stas s' = xq_stas s3 -> xq_frames s' = xq_frames s3 -> xq_tx s' = xq_tx s3 -> sta_dz_bitmap s' = sta_dz_bitmap s3 -> tim_bitmap s' = tim_bitmap s3 ->
    xq_stas s' !! psta = Some st2 /\ sleep_q st2 = [] /\
    (forall ac, slot_frames st2 (Some ac) = slot_frames st (Some ac) ++ filter (fun id => frame_ac s id = Some ac) (sleep_q st)) /\
    (forall k id f, sleep_q st !! k = Some id -> xq_frames s !! id = Some f ->
       exists f', xq_frames s' !! id = Some f' /\ bits_of (triggered st f) (more_after s st k f) f f') /\
    sta_state s' psta = Some w2 /\ Z.land w2 WIFI_SLEEP_STATE = 0 /\
    Z.testbit (sta_dz_bitmap s') (qs_aid st) = false /\ Z.testbit (tim_bitmap s') (qs_aid st) = false) as Hfin.
  { intros s' -> G1 G2 G3 G4. assert (forall ac, slot_frames st2 (Some ac) = slot_frames st (Some ac) ++ filter (fun id => frame_ac s id = Some ac) (sleep_q st)) as Hac.
    { intros ac. unfold slot_frames at 1. rewrite Es2. apply (wk_queued _ _ _ _ _ _ _ W). }
    split; [apply (ap_sta _ _ _ A)|]. split; [pose proof (Es2 None) as E; injection E as -> _; apply (wk_left _ _ _ _ _ _ _ W)|]. split; [exact Hac|].
    split; [|split; [unfold sta_state; rewrite G2, (ap_tx _ _ _ A); exact Hw2|]; split; [done|]; rewrite G3, G4; split; [by apply (ap_dz _ _ _ A)|by apply (ap_tim _ _ _ A)]].
    intros k id f Hk Ff. destruct (wk_sent _ _ _ _ _ _ _ W k id f Hk Ff) as (f' & F & M). exists f'. split; [|done]. rewrite G1, (ap_frames _ _ _ A), F2; [done|].
    set (ac := ac_of (at_priority (qf_attrib f))).
    pose proof (Hac ac) as Hin. destruct (qi_sta _ _ _ _ J2 _ _ H2) as [L2 _ _].
    destruct (slot_q st2 (Some ac)) as [[l n]|] eqn:El.
    - eapply in_slot; [exact L2|exact El|]. unfold slot_frames at 1 in Hin. rewrite El in Hin. cbn in Hin. rewrite Hin. apply elem_of_app. right.
      apply list_elem_of_filter. split; [unfold frame_ac; by rewrite Ff|by eapply list_elem_of_lookup_2].
    - destruct (servq_at _ _ _ _ _ _ ac J2 H2 (ac_range _)) as [q Hq]. by rewrite (slot_of_servq _ _ _ Hq) in El. }
  destruct (b1 || b2); do 3 eexists; (split; [reflexivity|]); by apply Hfin.
Qed.
End wake.

(** ** Every order of operations *)

Section run.
Context (get : list Z -> option Z) (junk : list Z).

(** An operation on the queues; the list holds the frames that are neither
    queued nor free, which the hardware or a caller has. *)
Inductive q_step : list Z * xmit_q -> list Z * xmit_q -> Prop :=
| step_xmit hand s pkt direct r s' : rtw_xmit get junk s pkt direct = Some (r, s') -> q_step (hand, s) (hand, s')
| step_dequeue hand s id s' : rtw_dequeue_xframe s = Some (Some id, s') -> q_step (hand, s) (id :: hand, s')
| step_alloc hand s id s' : rtw_alloc_xmitframe s = Some (Some id, s') -> q_step (hand, s) (id :: hand, s')
| step_alloc_ext hand s id s' : rtw_alloc_xmitframe_ext s = Some (Some id, s') -> q_step (hand, s) (id :: hand, s')
| step_free hand hand' s id s' : hand ≡ₚ id :: hand' -> rtw_free_xmitframe s id = Some s' -> q_step (hand, s) (hand', s')
| step_enqueue hand hand' s id s' : hand ≡ₚ id :: hand' -> rtw_hal_xmitframe_enqueue get s id = Some s' -> q_step (hand, s) (hand', s')
| step_stop hand s a psta s' : get a = Some psta -> stop_sta_xmit get s psta = Some s' -> q_step (hand, s) (hand, s')
| step_wake hand s a psta s' : get a = Some psta -> wakeup_sta_to_xmit get s psta = Some s' -> q_step (hand, s) (hand, s')
| step_deliver hand s a psta s' : get a = Some psta -> xmit_delivery_enabled_frames get s psta = Some s' -> q_step (hand, s) (hand, s')
| step_remove hand s a psta s' : get a = Some psta -> free_sta_queues s psta = Some s' -> q_step (hand, s) (hand, s')
| step_env hand s s' : q_same hand s s' -> q_step (hand, s) (hand, s').

Inductive q_run : list Z * xmit_q -> list Z * xmit_q -> Prop :=
| run_done x : q_run x x
| run_step x y z : q_step x y -> q_run y z -> q_run x z.

Definition all_frames (x : list Z * xmit_q) : list Z := x.1 ++ held x.2.

Lemma inv_perm off hand hand' s : hand ≡ₚ hand' -> q_inv_off get off hand s -> q_inv_off get off hand' s.
Proof. intros E [I1 I2 I3 I4 I5 I6]. split; try done; by rewrite <- E. Qed.

Lemma alloc_ext_inv hand s id s' : q_inv get hand s -> rtw_alloc_xmitframe_ext s = Some (Some id, s') ->
  q_inv get (id :: hand) s' /\ id :: hand ++ held s' ≡ₚ hand ++ held s.
Proof.
  intros I. unfold rtw_alloc_xmitframe_ext. destruct (xq_free_ext s) as [|i rest] eqn:E; [done|].
  destruct (inv_frame get _ _ _ i I) as (f & F1 & _); [right; unfold held; rewrite E; set_solver|]. rewrite F1. cbn [mbind option_bind].
  intros [= -> <-]. set (s1 := s <| xq_free_ext := rest |> <| free_xframe_ext_cnt := u32 (free_xframe_ext_cnt s - 1) |>).
  assert (id :: hand ++ held s1 ≡ₚ hand ++ held s) as Hp by (unfold held, s1; cbn; rewrite E; solve_Permutation).
  split; [|exact Hp]. apply (inv_same get no_off _ s1).
  - apply (same_put_frame _ s1 id f); [done|done|]. intros Hn. exfalso. apply Hn. by left.
  - destruct I as [I1 I2 [I3 I3'] I4 I5 I6].
    split; try done; try (change ((id :: hand) ++ held s1) with (id :: hand ++ held s1); rewrite Hp; done).
    + split; [done|]. cbn. rewrite I3', E. unfold Z.sub. rewrite u32_add. f_equal. unfold mem_len. cbn [length]. lia.
    + intros p st Hst. destruct (I6 p st Hst). by split.
Qed.

Lemma dequeue_sound hand s acs r s' : q_inv get hand s -> dequeue_acs s acs = Some (r, s') ->
  match r with None => s' = s | Some id => q_inv get (id :: hand) s' /\ (id :: hand) ++ held s' ≡ₚ hand ++ held s end.
Proof.
  intros I. induction acs as [|ac acs IH]; [by intros [= <- <-]|]. cbn [dequeue_acs].
  destruct (key_at (xq_hw s) ac) as [h|] eqn:Eh; [|unfold dequeue_ac; rewrite Eh; done].
  assert (0 <= ac < 4) as Ha. { apply key_at_some in Eh. destruct (qi_hw _ _ _ _ I) as [L _]. rewrite L in Eh. lia. }
  destruct (dequeue_ac_inv get hand s ac I Ha) as ([id|] & s1 & h' & -> & _ & H); cbn [mbind option_bind].
  - destruct H as (J & P & _). by intros [= <- <-].
  - destruct H as [-> _]. exact IH.
Qed.

Lemma step_inv x y : q_step x y -> q_inv get x.1 x.2 -> q_inv get y.1 y.2 /\ all_frames y ≡ₚ all_frames x.
Proof.
  unfold all_frames. intros S I. destruct S as [hand s pkt direct r s' E|hand s id s' E|hand s id s' E|hand s id s' E|hand hand' s id s' Hp E|
    hand hand' s id s' Hp E|hand s a psta s' Ha E|hand s a psta s' Ha E|hand s a psta s' Ha E|hand s a psta s' Ha E|hand s s' M]; cbn in *.
  - by apply (xmit_inv get junk hand s pkt direct r s').
  - by apply (dequeue_sound hand s _ _ _ I) in E.
  - destruct (alloc_inv get hand s I) as (r & s1 & E1 & H). rewrite E1 in E. injection E as -> ->. destruct H as (J & P & _). by split.
  - by apply alloc_ext_inv.
  - apply (inv_perm _ _ _ _ Hp) in I. destruct (free_inv _ _ _ _ _ I) as (s1 & E1 & J & P & _). rewrite E1 in E. injection E as ->.
    split; [done|]. by rewrite P, Hp.
  - apply (inv_perm _ _ _ _ Hp) in I. destruct (inv_frame get _ _ _ id I) as (f & F & _); [left; by left|].
    destruct (hal_enqueue_inv _ _ _ _ _ _ I F) as (s1 & E1 & J & P & _). rewrite E1 in E. injection E as ->. split; [done|]. by rewrite P, Hp.
  - assert (exists b, get bc_addr = Some b) as [b Hb].
    { unfold stop_sta_xmit in E. destruct (get bc_addr) as [b|]; [by exists b|]. exfalso. revert E.
      repeat match goal with |- context [?o ≫= _] => destruct o as [?|]; cbn [mbind option_bind]; [|done] end. done. }
    destruct (stop_inv get hand s a psta b I Ha Hb) as (s1 & E1 & J & P). rewrite E1 in E. injection E as ->. by split.
  - destruct (wakeup_inv get hand s a psta I Ha) as (s1 & E1 & J & P). rewrite E1 in E. injection E as ->. by split.
  - destruct (delivery_inv get hand s a psta I Ha) as (s1 & E1 & J & P). rewrite E1 in E. injection E as ->. by split.
  - destruct (free_sta_inv get hand s a psta I Ha) as (s1 & E1 & J & P). rewrite E1 in E. injection E as ->. by split.
  - split; [by eapply inv_same|]. by rewrite (same_held _ _ _ M).
Qed.

Lemma run_inv x y : q_run x y -> q_inv get x.1 x.2 -> q_inv get y.1 y.2 /\ all_frames y ≡ₚ all_frames x.
Proof.
  induction 1 as [x|x y z S R IH]; [done|]. intros I. destruct (step_inv x y S I) as [J P]. destruct (IH J) as [K Q]. split; [done|]. by rewrite Q.
Qed.

Lemma run_keeps hand s hand' s' : q_run (hand, s) (hand', s') -> q_inv get hand s -> q_inv get hand' s' /\ hand' ++ held s' ≡ₚ hand ++ held s.
Proof. intros R I. exact (run_inv _ _ R I). Qed.

(** ** From the start *)

(** Stations without frames. *)
Definition idle (s : xmit_q) : Prop := forall p st, xq_stas s !! p = Some st ->
  qs_servqs st = repeat (mk_servq [] 0) 4 /\ sleep_q st = [] /\ sleepq_len st = 0 /\ is_Some (tx_stas (xq_tx s) !! p).

Lemma idle_slots st sl l n : qs_servqs st = repeat (mk_servq [] 0) 4 -> sleep_q st = [] -> sleepq_len st = 0 ->
  slot_q st sl = Some (l, n) -> l = [] /\ n = 0.
Proof.
  intros E1 E2 E3 H. destruct sl as [ac|]; cbn in H; [|split; congruence]. rewrite E1 in H.
  destruct (key_at _ ac) as [q|] eqn:Eq; [|done]. cbn in H. injection H as <- <-. unfold key_at in Eq. destruct (0 <=? ac); [|done].
  change (repeat (mk_servq [] 0) 4) with (replicate 4 (mk_servq [] 0)) in Eq. apply list_elem_of_lookup_2 in Eq. apply elem_of_replicate in Eq as [-> _]. done.
Qed.

Lemma no_frames m : (forall p st, m !! p = Some st -> frames_of st = []) -> sta_frames m = [].
Proof.
  intros H. destruct (sta_frames m) as [|id l] eqn:E; [done|]. exfalso. destruct (sta_frames_in m id) as (p & st & Hm & Hi); [rewrite E; by left|].
  rewrite (H p st Hm) in Hi. by apply not_elem_of_nil in Hi.
Qed.

Definition pooled_b (frames : gmap Z q_frame) (id : Z) : bool :=
  match frames !! id with Some f => negb (qf_alloc f) && ((qf_ext_tag f =? 0) || (qf_ext_tag f =? 1)) | None => false end.

Lemma pooled_by_b s ids : forallb (pooled_b (xq_frames s)) ids = true -> Forall (pooled s) ids.
Proof.
  intros H. apply Forall_forall. intros id Hi. rewrite forallb_forall in H. apply list_elem_of_In in Hi. specialize (H id Hi). unfold pooled_b in H. unfold pooled.
  destruct (xq_frames s !! id) as [f|]; [|done]. exists f. split; [done|]. apply andb_prop in H as [H1 H2]. apply negb_true_iff in H1.
  apply orb_prop in H2 as [H2|H2]; apply Z.eqb_eq in H2; auto.
Qed.

Lemma init_held s : sta_frames (xq_stas s) = [] -> held (_rtw_init_xmit_priv s) = seqZ 0 (NR_XMITFRAME + NR_XMIT_EXTBUFF).
Proof.
  intros Es. transitivity (seqZ 0 NR_XMITFRAME ++ seqZ NR_XMITFRAME NR_XMIT_EXTBUFF ++ sta_frames (xq_stas s)); [reflexivity|].
  rewrite Es. vm_compute. reflexivity.
Qed.

Lemma init_pooled s : Forall (pooled (_rtw_init_xmit_priv s)) (seqZ 0 (NR_XMITFRAME + NR_XMIT_EXTBUFF)).
Proof. apply pooled_by_b. vm_compute. reflexivity. Qed.

Lemma queues_init_inv s : idle s -> (forall a p, get a = Some p -> is_Some (xq_stas s !! p)) ->
  q_inv get [] (_rtw_init_xmit_priv s) /\ held (_rtw_init_xmit_priv s) = seqZ 0 (NR_XMITFRAME + NR_XMIT_EXTBUFF).
Proof.
  intros Hi Hg. assert (held (_rtw_init_xmit_priv s) = seqZ 0 (NR_XMITFRAME + NR_XMIT_EXTBUFF)) as Eh.
  { apply init_held, no_frames. intros p st H. destruct (Hi p st H) as (E1 & E2 & _). unfold frames_of, pending_of. by rewrite E1, E2. }
  split; [|exact Eh]. split.
  - cbn [app]. rewrite Eh. apply NoDup_seqZ.
  - cbn [app]. rewrite Eh. apply init_pooled.
  - vm_compute. done.
  - split; [done|]. cbn. repeat constructor.
  - exact Hg.
  - intros p st H. destruct (Hi p st H) as (E1 & E2 & E3 & E4). split; [by rewrite E1|exact E4|]. intros sl l n E.
    destruct (idle_slots _ _ _ _ E1 E2 E3 E) as [-> ->]. split; [by destruct sl|constructor].
Qed.

Lemma run_conserved s0 n hand s' : q_inv get [] s0 -> held s0 = seqZ 0 n -> 0 <= n < 2 ^ 31 -> q_run ([], s0) (hand, s') ->
  q_inv get hand s' /\ hand ++ held s' ≡ₚ seqZ 0 n /\
  free_xmitframe_cnt s' = mem_len (xq_free s') /\ free_xframe_ext_cnt s' = mem_len (xq_free_ext s') /\
  (forall psta st sl l n, xq_stas s' !! psta = Some st -> slot_q st sl = Some (l, n) -> n = mem_len l /\ Forall (routed (xq_frames s') psta sl) l).
Proof.
  intros I Eh Hn R. destruct (run_keeps _ _ _ _ R I) as [J P]. cbn [app] in P. rewrite Eh in P.
  split; [exact J|]. split; [exact P|]. pose proof (Permutation_length P) as L. rewrite length_app, length_seqZ in L. change (2 ^ 31) with 2147483648 in Hn.
  assert (forall l : list Z, l `sublist_of` held s' -> u32 (mem_len l) = mem_len l /\ s32 (mem_len l) = mem_len l) as Hs.
  { intros l Hl. apply sublist_length in Hl. unfold mem_len. split; [apply wrap_small; unfold in_width; lia|]. unfold s32.
    change (2 ^ 31) with 2147483648. change (2 ^ 32) with 4294967296. rewrite Z.mod_small; lia. }
  destruct (qi_cnt _ _ _ _ J) as [C1 C2]. cbn in C1, C2. rewrite C1, C2. unfold held in Hs.
  split; [apply Hs; by apply sublist_inserts_r|]. split; [apply Hs; by apply sublist_inserts_l, sublist_inserts_r|].
  intros psta st sl l m Hst E. destruct (qi_sta _ _ _ _ J psta st Hst) as [L4 _ S3]. destruct (S3 sl l m E) as [-> Hr]. split; [|exact Hr].
  unfold no_off. rewrite Z.add_0_r. assert (mem_len l <= n) as Hle.
  { pose proof (in_slot st sl l) as Hin. assert (l ⊆ held s') as Hsub.
    { intros x Hx. unfold held. apply elem_of_app. right. apply elem_of_app. right. eapply in_sta_frames; [exact Hst|]. by eapply Hin. }
    pose proof (slot_nodup _ _ _ _ _ _ _ _ _ J Hst E) as Nd. pose proof (submseteq_length _ _ (NoDup_submseteq _ _ Nd Hsub)) as Hlen.
    unfold mem_len. lia. }
  unfold slot_wrap. destruct sl.
  - unfold s32. change (2 ^ 31) with 2147483648. change (2 ^ 32) with 4294967296. rewrite Z.mod_small; unfold mem_len in *; lia.
  - apply wrap_small. unfold in_width, mem_len in *. lia.
Qed.

(** C22. From the start, whatever packets are sent, frames taken, queued and freed,
    and stations put to sleep, woken, served and removed, in any order: every
    frame of the two pools is in exactly one place (with the hardware or a
    caller, free, in a service queue or in a sleep queue) and the counters of
    the pools are the lengths of their lists. *)
Theorem frames_conserved s hand s' : idle s -> (forall a p, get a = Some p -> is_Some (xq_stas s !! p)) ->
  q_run ([], _rtw_init_xmit_priv s) (hand, s') ->
  hand ++ held s' ≡ₚ seqZ 0 (NR_XMITFRAME + NR_XMIT_EXTBUFF) /\
  free_xmitframe_cnt s' = mem_len (xq_free s') /\ free_xframe_ext_cnt s' = mem_len (xq_free_ext s').
Proof.
  intros Hi Hg R. destruct (queues_init_inv s Hi Hg) as [I Eh]. by destruct (run_conserved _ _ _ _ I Eh ltac:(done) R) as (_ & H1 & H2 & H3 & _).
Qed.

(** C23. In every state that is reached so, each service queue and each sleep
    queue holds frames for its own station, each service queue only frames of
    its own access category, and the counter of the queue, a machine integer,
    is the length of the list. *)
Theorem queues_well_formed s hand s' psta st sl l n : idle s -> (forall a p, get a = Some p -> is_Some (xq_stas s !! p)) ->
  q_run ([], _rtw_init_xmit_priv s) (hand, s') -> xq_stas s' !! psta = Some st -> slot_q st sl = Some (l, n) ->
  n = mem_len l /\ Forall (routed (xq_frames s') psta sl) l.
Proof.
  intros Hi Hg R. destruct (queues_init_inv s Hi Hg) as [I Eh]. destruct (run_conserved _ _ _ _ I Eh ltac:(done) R) as (_ & _ & _ & _ & H). apply H.
Qed.

Lemma ops_defined hand s' a psta b id : q_inv get hand s' -> get a = Some psta -> get bc_addr = Some b -> Forall (fun ac => 0 <= ac < 4) (wmm_para_seq s') ->
  is_Some (stop_sta_xmit get s' psta) /\ is_Some (wakeup_sta_to_xmit get s' psta) /\ is_Some (xmit_delivery_enabled_frames get s' psta) /\
  is_Some (free_sta_queues s' psta) /\ is_Some (rtw_dequeue_xframe s') /\ is_Some (rtw_alloc_xmitframe s') /\
  (id ∈ hand -> is_Some (rtw_free_xmitframe s' id) /\ is_Some (rtw_hal_xmitframe_enqueue get s' id)).
Proof.
  intros J Ha Hb Hwmm.
  destruct (stop_inv get hand s' a psta b J Ha Hb) as (? & -> & _). destruct (wakeup_inv get hand s' a psta J Ha) as (? & -> & _).
  destruct (delivery_inv get hand s' a psta J Ha) as (? & -> & _). destruct (free_sta_inv get hand s' a psta J Ha) as (? & -> & _).
  destruct (alloc_inv get hand s' J) as (? & ? & -> & _).
  split; [done|]. split; [done|]. split; [done|]. split; [done|]. split; [|split; [done|]].
  - unfold rtw_dequeue_xframe. destruct (dequeue_acs_inv get hand s' (if q_wifi_spec s' =? 1 then wmm_para_seq s' else [0; 1; 2; 3]) J) as (? & ? & -> & _); [|done].
    destruct (_ =? 1); [exact Hwmm|]. repeat constructor; lia.
  - intros Hid. apply elem_of_Permutation in Hid as (hand' & Hp). apply (inv_perm _ _ _ _ Hp) in J.
    destruct (free_inv get no_off hand' s' id J) as (? & -> & _). destruct (inv_frame get _ _ _ id J) as (f & F & _); [left; by left|].
    destruct (hal_enqueue_inv get no_off hand' s' id f J F) as (? & -> & _). done.
Qed.
(** C24. In every such state each operation on the queues returns: none meets a
    missing station, a frame that is not there, an access category out of
    range or a pool that is neither of the two. *)
Theorem operations_defined s hand s' a psta b id : idle s -> (forall a p, get a = Some p -> is_Some (xq_stas s !! p)) ->
  q_run ([], _rtw_init_xmit_priv s) (hand, s') -> get a = Some psta -> get bc_addr = Some b -> Forall (fun ac => 0 <= ac < 4) (wmm_para_seq s') ->
  is_Some (stop_sta_xmit get s' psta) /\ is_Some (wakeup_sta_to_xmit get s' psta) /\ is_Some (xmit_delivery_enabled_frames get s' psta) /\
  is_Some (free_sta_queues s' psta) /\ is_Some (rtw_dequeue_xframe s') /\ is_Some (rtw_alloc_xmitframe s') /\
  (id ∈ hand -> is_Some (rtw_free_xmitframe s' id) /\ is_Some (rtw_hal_xmitframe_enqueue get s' id)).
Proof.
  intros Hi Hg R Ha Hb Hwmm. destruct (queues_init_inv s Hi Hg) as [I Eh]. destruct (run_conserved _ _ _ _ I Eh ltac:(done) R) as [J _].
  by apply (ops_defined hand s' a psta b id J Ha Hb).
Qed.
End run.

(** ** The access point of the examples *)

Lemma demo_idle aid : idle (demo_queues aid).
Proof.
  intros p st H. change (({[ 1 := _rtw_init_stainfo <| qs_aid := aid |>; 0 := _rtw_init_stainfo ]} : gmap Z q_sta) !! p = Some st) in H.
  apply lookup_insert_Some in H as [[<- <-]|[_ H]]; [repeat split; by eexists|].
  apply lookup_singleton_Some in H as [<- <-]. repeat split. by eexists.
Qed.

Lemma demo_found aid a p : ap_find a = Some p -> is_Some (xq_stas (demo_queues aid) !! p).
Proof.
  unfold ap_find. destruct (_rtw_memcmp _ _); [intros [= <-]; by eexists|]. destruct (IS_MCAST a); [|done]. intros [= <-]. by eexists.
Qed.

Lemma demo_inits aid : _rtw_init_xmit_priv (demo_queues aid) = demo_queues aid.
Proof. reflexivity. Qed.

Lemma demo_run aid : aid = 1 \/ aid = 16 -> q_run ap_find demo_junk ([], _rtw_init_xmit_priv (demo_queues aid)) ([], demo_asleep aid).
Proof.
  intros Ha. destruct (demo_ops aid Ha) as (E1 & E2 & E3). rewrite demo_inits.
  eapply run_step; [eapply step_xmit; exact E1|]. eapply run_step; [eapply step_xmit; exact E2|].
  eapply run_step; [apply (step_stop _ _ [] (demo_q2 aid) demo_mac 1); [reflexivity|exact E3]|]. apply run_done.
Qed.

Lemma frames_conserved_witness : idle (demo_queues 1) /\ held (demo_asleep 1) ≡ₚ seqZ 0 320 /\ free_xmitframe_cnt (demo_asleep 1) = 254.
Proof.
  destruct (frames_conserved ap_find demo_junk (demo_queues 1) [] (demo_asleep 1) (demo_idle 1) (demo_found 1) (demo_run 1 (or_introl eq_refl)))
    as (H & _). split; [exact (demo_idle 1)|]. split; [exact H|]. vm_compute. reflexivity.
Defined.

Lemma operations_defined_witness : is_Some (wakeup_sta_to_xmit ap_find (demo_asleep 16) 1) /\ is_Some (free_sta_queues (demo_asleep 16) 1).
Proof.
  assert (Forall (fun ac => 0 <= ac < 4) (wmm_para_seq (demo_asleep 16))) as Hw.
  { assert (wmm_para_seq (demo_asleep 16) = [0; 1; 2; 3]) as -> by (vm_compute; reflexivity). repeat constructor; lia. }
  destruct (operations_defined ap_find demo_junk (demo_queues 16) [] (demo_asleep 16) demo_mac 1 0 0 (demo_idle 16) (demo_found 16)
    (demo_run 16 (or_intror eq_refl)) eq_refl eq_refl Hw) as (_ & H1 & _ & H2 & _). split; [exact H1|exact H2].
Defined.

(** The station of the examples, asleep. *)
Definition demo_sta : q_sta := default _rtw_init_stainfo (xq_stas (demo_asleep 1) !! 1).

Lemma demo_asleep_inv : q_inv ap_find [] (demo_asleep 1).
Proof.
  destruct (queues_init_inv ap_find (demo_queues 1) (demo_idle 1) (demo_found 1)) as [I _].
  by destruct (run_keeps _ _ _ _ _ _ (demo_run 1 (or_introl eq_refl)) I) as [J _].
Qed.

Lemma demo_sta_at : xq_stas (demo_asleep 1) !! 1 = Some demo_sta /\ sleep_q demo_sta = [0; 1] /\ qs_aid demo_sta = 1 /\
  uapsd_bk demo_sta = 0 /\ uapsd_be demo_sta = 0 /\ uapsd_vi demo_sta = 0 /\ uapsd_vo demo_sta = 0.
Proof.
  split; [|split_and!; vm_compute; reflexivity]. unfold demo_sta.
  assert (bool_decide (is_Some (xq_stas (demo_asleep 1) !! 1)) = true) as H by (vm_compute; reflexivity).
  by apply bool_decide_eq_true in H as [st ->].
Qed.

Lemma demo_frame id : id ∈ [0; 1] -> exists f, xq_frames (demo_asleep 1) !! id = Some f /\ ap_find (at_ra (qf_attrib f)) = Some 1.
Proof.
  intros Hi. assert ((f ← xq_frames (demo_asleep 1) !! id; ap_find (at_ra (qf_attrib f))) = Some 1) as H.
  { apply elem_of_cons in Hi as [->|Hi]; [vm_compute; reflexivity|]. apply list_elem_of_singleton in Hi as ->. vm_compute. reflexivity. }
  destruct (xq_frames (demo_asleep 1) !! id) as [f|]; [|done]. by exists f.
Qed.

Lemma queues_well_formed_witness : sleepq_len demo_sta = 2 /\ Forall (routed (xq_frames (demo_asleep 1)) 1 None) (sleep_q demo_sta).
Proof.
  destruct demo_sta_at as (H1 & H2 & _).
  destruct (queues_well_formed ap_find demo_junk (demo_queues 1) [] (demo_asleep 1) 1 demo_sta None _ _ (demo_idle 1) (demo_found 1)
    (demo_run 1 (or_introl eq_refl)) H1 eq_refl) as [E F]. split; [|exact F]. rewrite E, H2. reflexivity.
Defined.

Lemma woken_in_order_witness : sleep_q demo_sta = [0; 1] /\ exists s' st', wakeup_sta_to_xmit ap_find (demo_asleep 1) 1 = Some s' /\
  xq_stas s' !! 1 = Some st' /\ sleep_q st' = [].
Proof.
  destruct demo_sta_at as (H1 & H2 & H3 & U1 & U2 & U3 & U4). split; [exact H2|].
  assert (sta_state (demo_asleep 1) 1 = Some 5) as Hw by (vm_compute; reflexivity).
  destruct (woken_in_order ap_find [] (demo_asleep 1) demo_mac 1 demo_sta 5 demo_asleep_inv eq_refl H1 Hw) as (s' & st' & w' & E1 & E2 & E3 & _).
  - done.
  - rewrite H2. exact demo_frame.
  - rewrite H2. done.
  - by rewrite H3.
  - done.
  - exists s', st'. split; [exact E1|]. split; [exact E2|exact E3].
Defined.

(** ** Serving by priority, and frames nobody serves

    The order in which the hardware is given frames, and the stations whose
    association identifier does not fit the bitmap of the sleeping ones. *)

Section lost.
Context (get : list Z -> option Z).

(** rtw_dequeue_xframe (without the test mode of wifi_spec) hands out the
    oldest frame of the first station listed for the first access category,
    in the order voice, video, best effort and background, in which a station
    has one; it finds none only when every listed queue is empty. *)
Theorem dequeue_by_priority hand s : q_inv get hand s -> q_wifi_spec s <> 1 ->
  exists r s', rtw_dequeue_xframe s = Some (r, s') /\
    match r with
    | None => s' = s /\ forall ac, 0 <= ac < 4 -> class_empty s ac
    | Some id => exists ac, 0 <= ac < 4 /\ (forall ac', 0 <= ac' < ac -> class_empty s ac') /\ takes_from s s' ac id
    end.
Proof.
  intros I Hw. unfold rtw_dequeue_xframe. destruct (Z.eqb_spec (q_wifi_spec s) 1) as [|_]; [done|].
  destruct (dequeue_acs_inv get hand s [0; 1; 2; 3] I) as ([id|] & s' & E & H); [by repeat constructor| |].
  - destruct H as (_ & _ & acs1 & ac & acs2 & Hs & F & T). exists (Some id), s'. split; [exact E|].
    rewrite Forall_forall in F. exists ac.
    assert (ac = Z.of_nat (length acs1) /\ (length acs1 < 4)%nat /\ forall i, (i < length acs1)%nat -> Z.of_nat i ∈ acs1) as (Hac & Hl & Hin).
    { destruct acs1 as [|a0 [|a1 [|a2 [|a3 [|]]]]]; cbn in Hs; injection Hs; intros; subst; try done; (split; [done|]; split; [cbn; lia|]);
        intros i Hi; cbn in Hi; do 4 (destruct i as [|i]; [first [lia | cbn; set_solver]|]); lia. }
    split; [lia|]. split; [|exact T]. intros ac' Ha. apply F. replace ac' with (Z.of_nat (Z.to_nat ac')) by lia. apply Hin. lia.
  - destruct H as [-> F]. exists None, s. split; [exact E|]. split; [done|]. intros ac Ha. rewrite Forall_forall in F. apply F.
    assert (ac = 0 \/ ac = 1 \/ ac = 2 \/ ac = 3) as [->|[->|[->| ->]]] by lia; clear; set_solver.
Qed.

(** ** A station off the bitmap *)

(** The frame of a station whose bit is not set is not put to sleep. *)
Lemma enqueue_awake off hand s id f p st : q_inv_off get off hand s -> xq_frames s !! id = Some f -> at_psta (qf_attrib f) = Some p ->
  IS_MCAST (at_ra (qf_attrib f)) = false -> xq_stas s !! p = Some st -> Z.testbit (sta_dz_bitmap s) (qs_aid st) = false ->
  xmitframe_enqueue_for_sleeping_sta get s id = Some (false, s).
Proof.
  intros I F Hp Hm Hst Hb. unfold xmitframe_enqueue_for_sleeping_sta. rewrite F. cbn [mbind option_bind]. destruct (is_ap s); [|done]. cbn [negb].
  destruct (frame_sta_ok _ _ _ _ f I) as [-> | (p' & st' & w & -> & Hp' & _ & Hst' & Hw & _)]; [done|]. cbn [mbind option_bind].
  assert (p' = p) as -> by congruence. rewrite Hm. cbn [andb]. destruct (_ =? 1); [done|]. rewrite Hw, Hst. cbn [mbind option_bind].
  by rewrite Hb, andb_false_r.
Qed.

(** What the frames of [psta] see of the loop. *)
Record calm (s s' : xmit_q) : Prop := {
  cm_stas : xq_stas s' = xq_stas s;
  cm_dz : sta_dz_bitmap s' = sta_dz_bitmap s;
  cm_ra id f : xq_frames s !! id = Some f -> exists f', xq_frames s' !! id = Some f' /\ at_ra (qf_attrib f') = at_ra (qf_attrib f) }.

Lemma calm_trans s1 s2 s3 : calm s1 s2 -> calm s2 s3 -> calm s1 s3.
Proof.
  intros [A1 A2 A3] [B1 B2 B3]. split; [congruence|congruence|]. intros id f H. destruct (A3 id f H) as (f2 & H2 & E2).
  destruct (B3 id f2 H2) as (f3 & H3 & E3). exists f3. split; [done|congruence].
Qed.

Lemma calm_refl s : calm s s.
Proof. split; try done. intros id f H. by exists f. Qed.

Context (hand : list Z) (psta : Z) (a : list Z) (Ha : get a = Some psta) (st : q_sta).

(** The state while the queues of the station are gone through. *)
Record unheard (s : xmit_q) : Prop := {
  uh_inv : q_inv get hand s;
  uh_sta : xq_stas s !! psta = Some st;
  uh_bit : Z.testbit (sta_dz_bitmap s) (qs_aid st) = false;
  uh_frames ac id : id ∈ slot_frames st (Some ac) -> exists f, xq_frames s !! id = Some f /\ IS_MCAST (at_ra (qf_attrib f)) = false }.

Lemma unheard_calm s s' : q_inv get hand s' -> calm s s' -> unheard s -> unheard s'.
Proof.
  intros J [C1 C2 C3] [U1 U2 U3 U4]. split; [done|by rewrite C1|by rewrite C2|]. intros ac id Hi. destruct (U4 ac id Hi) as (f & F & M).
  destruct (C3 id f F) as (f' & F' & E). exists f'. split; [done|]. by rewrite E.
Qed.

Lemma put_unheard s ac l n id : unheard s -> slot_q st (Some ac) = Some (l, n) -> id ∈ l ->
  exists s', put_to_sleep get s psta id = Some s' /\ unheard s' /\ calm s s' /\ xq_hw s' = xq_hw s.
Proof.
  intros U Hsl Hi. pose proof U as [I Hst Hb Hf]. destruct (Hf ac id) as (f & F & M); [unfold slot_frames; by rewrite Hsl|].
  pose proof (slot_routed _ _ _ _ _ _ _ _ _ I Hst Hsl) as R. rewrite Forall_forall in R. destruct (R id Hi) as (f1 & F1 & Hp & _).
  assert (f1 = f) as -> by congruence. unfold put_to_sleep. rewrite F. cbn [mbind option_bind].
  match goal with |- context [put_frame s id ?g] => set (f0 := g) end. set (s0 := put_frame s id f0).
  assert (q_inv get hand s0) as I0 by (eapply inv_same; [|exact I]; by apply (same_put_frame _ _ _ f)).
  rewrite (enqueue_awake no_off hand s0 id f0 psta st I0); [|apply lookup_insert_eq|done|done|done|done]. cbn [mbind option_bind].
  assert (calm s s0) as C.
  { split; try done. intros i g G. cbn. destruct (decide (i = id)) as [->|]; [|exists g; by rewrite lookup_insert_ne].
    rewrite lookup_insert_eq. exists f0. split; [done|]. by assert (g = f) as -> by congruence. }
  exists s0. split; [done|]. split; [by eapply unheard_calm|]. done.
Qed.

Lemma sleep_unheard s ac : unheard s -> 0 <= ac < 4 ->
  exists s', sleep_ac get s psta ac = Some s' /\ unheard s' /\ calm s s' /\
    forall ac' h, key_at (xq_hw s') ac' = Some h -> (ac' = ac -> psta ∉ sta_queue h) /\ exists h0, key_at (xq_hw s) ac' = Some h0 /\ sta_queue h ⊆ sta_queue h0.
Proof.
  intros U Hac. pose proof U as [I Hst Hb Hf]. destruct (servq_at _ _ _ _ _ _ ac I Hst Hac) as [q Hq]. pose proof (slot_of_servq _ _ _ Hq) as Sq.
  unfold sleep_ac. rewrite Hst. cbn [mbind option_bind]. rewrite Hq. cbn [mbind option_bind]. unfold dequeue_xmitframes_to_sleeping_queue.
  destruct (each_ok (fun ids s' => unheard s' /\ calm s s' /\ xq_hw s' = xq_hw s /\ ids ⊆ sta_pending q) (fun s id => put_to_sleep get s psta id))
    with (ids := sta_pending q) (s := s) as (s1 & -> & U1 & C1 & H1 & _).
  - intros id ids s' (U' & C' & H' & Hs). destruct (put_unheard s' ac _ _ id U' Sq) as (s'' & -> & U'' & C'' & H''); [clear Hac; set_solver|].
    exists s''. split; [done|]. split; [done|]. split; [by eapply calm_trans|]. split; [congruence|]. clear Hac. set_solver.
  - split; [done|]. split; [apply calm_refl|done].
  - cbn [mbind option_bind]. eexists. split; [done|]. destruct (hw_at _ _ _ _ ac I Hac) as [h Hh]. unfold pending_delete. rewrite H1, Hh.
    assert (q_same hand s1 (s1 <| xq_hw := arr_set (xq_hw s) ac (h <| sta_queue := drop_id psta (sta_queue h) |>) |>)) as M.
    { apply same_hw. intros Hok. rewrite <- H1. apply (hw_ok_set _ _ _ h); [done|by rewrite H1|]. cbn. intros p [_ ?]%list_elem_of_filter. by left. }
    split; [apply (unheard_calm s1); [exact (inv_same _ _ _ _ _ M (uh_inv _ U1))|by split; try done; intros i g G; exists g|exact U1]|].
    split; [apply (calm_trans _ _ _ C1); split; try done; intros i g G; by exists g|]. cbn. intros ac' h' Hk. split.
    + intros ->. rewrite (key_at_set _ _ h _ Hh) in Hk. injection Hk as <-. cbn. by intros [? _]%list_elem_of_filter.
    + eapply hw_entry; [exact Hh| |exact Hk]. cbn. intros x Hx. by apply list_elem_of_filter in Hx as [_ ?].
Qed.

(** The classes that no longer list the station. *)
Definition unlisted (s : xmit_q) (acs : list Z) : Prop := forall ac h, ac ∈ acs -> key_at (xq_hw s) ac = Some h -> psta ∉ sta_queue h.

Lemma sleep_unlisted s ac acs : unheard s -> unlisted s acs -> 0 <= ac < 4 ->
  exists s', sleep_ac get s psta ac = Some s' /\ unheard s' /\ unlisted s' (ac :: acs).
Proof.
  intros U L Hac. destruct (sleep_unheard s ac U Hac) as (s' & E & U' & _ & H). exists s'. split; [done|]. split; [done|].
  intros ac' h Hin Hk. destruct (H ac' h Hk) as [H1 (h0 & H2 & H3)]. apply elem_of_cons in Hin as [->|Hin]; [by apply H1|].
  intros Hp. apply (L ac' h0 Hin H2). by apply H3.
Qed.

(** The bitmap of sleeping stations has 16 bits, but association identifiers
    go up to 32: when a station beyond 15 with queued packets goes to sleep,
    stop_sta_xmit leaves its frames in the service queues and takes the
    station off every access category, so that rtw_dequeue_xframe finds none
    of them until another packet for the station is queued. *)
Theorem late_station_stranded s b : q_inv get hand s -> get bc_addr = Some b -> b <> psta -> xq_stas s !! psta = Some st -> 16 <= qs_aid st ->
  (forall ac id, id ∈ slot_frames st (Some ac) -> exists f, xq_frames s !! id = Some f /\ IS_MCAST (at_ra (qf_attrib f)) = false) ->
  exists s' st', stop_sta_xmit get s psta = Some s' /\ xq_stas s' !! psta = Some st' /\
    (forall sl, slot_q st' sl = slot_q st sl) /\ (forall ac h, key_at (xq_hw s') ac = Some h -> psta ∉ sta_queue h).
Proof.
  intros I Hb Hne Hst Haid Hf. destruct (sta_at _ _ _ _ _ _ I Ha) as (st0 & w & Hst0 & Hw). assert (st0 = st) as -> by congruence.
  unfold stop_sta_xmit. rewrite Hw, Hst. cbn [mbind option_bind].
  set (s0 := (set_state s psta _) <| sta_dz_bitmap := _ |>).
  assert (unheard s0) as U0.
  { split; [|exact Hst| |exact Hf].
    - eapply inv_same; [|exact I]. eapply same_trans; [apply set_state_same|apply same_bits].
    - cbn [s0 sta_dz_bitmap set]. change (Z.testbit (u16 (Z.lor (sta_dz_bitmap s) (BIT (qs_aid st)))) (qs_aid st) = false). unfold wrap.
      apply Z.mod_pow2_bits_high. lia. }
  assert (unlisted s0 []) as L0 by (intros ac h Hin; by apply not_elem_of_nil in Hin).
  destruct (sleep_unlisted s0 0 _ U0 L0) as (s1 & -> & U1 & L1); [lia|]. cbn [mbind option_bind].
  destruct (sleep_unlisted s1 1 _ U1 L1) as (s2 & -> & U2 & L2); [lia|]. cbn [mbind option_bind].
  destruct (sleep_unlisted s2 2 _ U2 L2) as (s3 & -> & U3 & L3); [lia|]. cbn [mbind option_bind].
  destruct (sleep_unlisted s3 3 _ U3 L3) as (s4 & -> & U4 & L4); [lia|]. cbn [mbind option_bind].
  rewrite Hb. cbn [mbind option_bind]. destruct (sleep_ac_inv _ _ _ _ _ _ 2 (uh_inv _ U4) Hb) as (s5 & -> & _ & _ & O1 & O2); [lia|].
  destruct (O1 psta st) as (st' & H5 & Es); [done|apply (uh_sta _ U4)|]. exists s5, st'. split; [done|]. split; [done|]. split; [exact Es|].
  intros ac h Hk. destruct (O2 ac h Hk) as (h0 & H0 & Hs). intros Hp. apply (L4 ac h0); [|exact H0|by apply Hs].
  apply key_at_some in H0. destruct (qi_hw _ _ _ _ (uh_inv _ U4)) as [Lh _]. rewrite Lh in H0.
  assert (ac = 0 \/ ac = 1 \/ ac = 2 \/ ac = 3) as [->|[->|[->| ->]]] by lia; clear; set_solver.
Qed.
End lost.

(** ** The examples *)

Lemma demo_q2_inv aid : aid = 1 \/ aid = 16 -> q_inv ap_find [] (demo_q2 aid).
Proof.
  intros Ha. destruct (demo_ops aid Ha) as (E1 & E2 & _). destruct (queues_init_inv ap_find (demo_queues aid) (demo_idle aid) (demo_found aid)) as [I _].
  rewrite demo_inits in I. destruct (xmit_inv _ _ _ _ _ _ _ _ I E1) as [I1 _]. by destruct (xmit_inv _ _ _ _ _ _ _ _ I1 E2) as [I2 _].
Qed.

Lemma dequeue_by_priority_witness : exists s', rtw_dequeue_xframe (demo_q2 1) = Some (Some 0, s').
Proof.
  assert (q_wifi_spec (demo_q2 1) = 0) as Hs by (vm_compute; reflexivity).
  destruct (dequeue_by_priority ap_find [] (demo_q2 1) (demo_q2_inv 1 (or_introl eq_refl))) as (r & s' & E & _); [by rewrite Hs|].
  assert (fst <$> rtw_dequeue_xframe (demo_q2 1) = Some (Some 0)) as H by (vm_compute; reflexivity).
  exists s'. rewrite E in H. cbn in H. rewrite E. congruence.
Defined.

Definition demo_late : q_sta := default _rtw_init_stainfo (xq_stas (demo_q2 16) !! 1).

Lemma demo_late_at : xq_stas (demo_q2 16) !! 1 = Some demo_late /\ qs_aid demo_late = 16 /\ map sta_pending (qs_servqs demo_late) = [[]; [0; 1]; []; []].
Proof.
  split; [|split_and!; vm_compute; reflexivity]. unfold demo_late.
  assert (bool_decide (is_Some (xq_stas (demo_q2 16) !! 1)) = true) as H by (vm_compute; reflexivity).
  by apply bool_decide_eq_true in H as [st ->].
Qed.

Lemma demo_unicast id : id ∈ [0; 1] -> exists f, xq_frames (demo_q2 16) !! id = Some f /\ IS_MCAST (at_ra (qf_attrib f)) = false.
Proof.
  intros Hi. assert ((f ← xq_frames (demo_q2 16) !! id; Some (IS_MCAST (at_ra (qf_attrib f)))) = Some false) as H.
  { apply elem_of_cons in Hi as [->|Hi]; [vm_compute; reflexivity|]. apply list_elem_of_singleton in Hi as ->. vm_compute. reflexivity. }
  destruct (xq_frames (demo_q2 16) !! id) as [f|]; [|done]. exists f. split; [done|]. by injection H.
Qed.

Lemma slot_frames_eq st st' sl : slot_q st' sl = slot_q st sl -> slot_frames st' sl = slot_frames st sl.
Proof. unfold slot_frames. by intros ->. Qed.

Lemma two_pending st ac id : map sta_pending (qs_servqs st) = [[]; [0; 1]; []; []] -> id ∈ slot_frames st (Some ac) -> id ∈ [0; 1].
Proof.
  destruct st as [aid qs ? ? ? ? ? ? ? ? ?]. cbn [qs_servqs]. intros H Hi. destruct qs as [|q0 [|q1 [|q2 [|q3 [|]]]]]; try done. injection H as H0 H1 H2 H3.
  unfold slot_frames, slot_q, key_at in Hi. cbn [qs_servqs] in Hi. destruct (0 <=? ac); [|by apply not_elem_of_nil in Hi].
  destruct (Z.to_nat ac) as [|[|[|[|]]]]; cbn in Hi; rewrite ?H0, ?H1, ?H2, ?H3 in Hi; try (by apply not_elem_of_nil in Hi). exact Hi.
Qed.

Lemma late_station_stranded_witness : slot_frames demo_late (Some 1) = [0; 1] /\ exists s' st', stop_sta_xmit ap_find (demo_q2 16) 1 = Some s' /\
  xq_stas s' !! 1 = Some st' /\ slot_frames st' (Some 1) = [0; 1] /\ forall ac h, key_at (xq_hw s') ac = Some h -> 1 ∉ sta_queue h.
Proof.
  destruct demo_late_at as (H1 & H2 & H3). assert (slot_frames demo_late (Some 1) = [0; 1]) as Hs by (vm_compute; reflexivity). split; [exact Hs|].
  destruct (late_station_stranded ap_find [] 1 demo_mac eq_refl demo_late (demo_q2 16) 0 (demo_q2_inv 16 (or_intror eq_refl)) eq_refl) as (s' & st' & E1 & E2 & E3 & E4).
  - done.
  - exact H1.
  - rewrite H2. lia.
  - intros ac id Hi. apply demo_unicast. exact (two_pending _ ac id H3 Hi).
  - exists s', st'. split; [exact E1|]. split; [exact E2|]. split; [|exact E4].
    rewrite (slot_frames_eq _ _ _ (E3 (Some 1))). exact Hs.
Defined.
