(* ===== verification/Acl.v ===== *)
(** * The list of allowed or denied stations (core/rtw_ap.c, core/rtw_sta_mgt.c)

    A pool of [NUM_ACL] nodes and the queue of the nodes in use, built with
    CONFIG_RTW_MACADDR_ACL.  A node is its index in the pool; the list node of
    a pool node is in the queue or nowhere.  Addresses are compared byte for
    byte ([_rtw_memcmp] with [ETH_ALEN]).  The second part shows that the pool
    is a finite set. *)

From S2P Require Import Prelude.
From stdpp Require Import list sets fin_sets.
#[local] Open Scope Z_scope.

Definition NUM_ACL : nat := 16.
Definition RTW_ACL_MODE_DISABLED : Z := 0.
Definition RTW_ACL_MODE_ACCEPT_UNLESS_LISTED : Z := 1.
Definition RTW_ACL_MODE_DENY_UNLESS_LISTED : Z := 2.

Record rtw_wlan_acl_node := mk_acl_node { acl_addr : list Z; acl_valid : bool }.

#[export] Instance eta_acl_node : Eta rtw_wlan_acl_node := fun n => mk_acl_node (acl_addr n) (acl_valid n).

Record wlan_acl_pool := mk_acl_pool { acl_mode : Z; acl_num : Z; aclnode : list rtw_wlan_acl_node; acl_node_q : list nat }.

#[export] Instance eta_acl_pool : Eta wlan_acl_pool := fun p => mk_acl_pool (acl_mode p) (acl_num p) (aclnode p) (acl_node_q p).

Definition is_broadcast_mac_addr (addr : list Z) : bool :=
  (arr_get addr 0 =? 0xff) && (arr_get addr 1 =? 0xff) && (arr_get addr 2 =? 0xff) &&
  (arr_get addr 3 =? 0xff) && (arr_get addr 4 =? 0xff) && (arr_get addr 5 =? 0xff).

(** [rtw_macaddr_acl_init] of a pool with any contents. *)
Definition rtw_macaddr_acl_init (p : wlan_acl_pool) : wlan_acl_pool :=
  mk_acl_pool RTW_ACL_MODE_DISABLED 0 (map (fun n => n <| acl_valid := false |>) (aclnode p)) [].

(** A node of the queue that is valid and satisfies a test. *)
Definition acl_live (p : wlan_acl_pool) (test : list Z -> bool) (i : nat) : bool :=
  match aclnode p !! i with Some n => test (acl_addr n) && acl_valid n | None => false end.

Definition same_addr (a b : list Z) : bool := bool_decide (b = a).

(** The search for an address that [rtw_acl_add_sta] and [rtw_access_ctrl] share. *)
Definition acl_listed (p : wlan_acl_pool) (addr : list Z) : bool := existsb (acl_live p (same_addr addr)) (acl_node_q p).

(** [valid = _FALSE], [rtw_list_delete], [num--]. *)
Definition acl_drop (p : wlan_acl_pool) (i : nat) : wlan_acl_pool :=
  p <| aclnode := alter (fun n => n <| acl_valid := false |>) i (aclnode p) |>
    <| acl_node_q := filter (fun j => j <> i) (acl_node_q p) |> <| acl_num := acl_num p - 1 |>.

(** The walks that drop nodes; the next node is read before one is unlinked. *)
Definition acl_purge (p : wlan_acl_pool) (test : list Z -> bool) : wlan_acl_pool :=
  foldl (fun p i => if acl_live p test i then acl_drop p i else p) p (acl_node_q p).

Definition rtw_macaddr_acl_deinit (p : wlan_acl_pool) : wlan_acl_pool :=
  (acl_purge p (fun _ => true)) <| acl_mode := RTW_ACL_MODE_DISABLED |>.

Definition rtw_set_macaddr_acl (p : wlan_acl_pool) (mode : Z) : wlan_acl_pool :=
  let p := p <| acl_mode := mode |> in
  if mode =? RTW_ACL_MODE_DISABLED then rtw_macaddr_acl_deinit p else p.

Definition rtw_acl_add_sta (p : wlan_acl_pool) (addr : list Z) : Z * wlan_acl_pool :=
  if acl_listed p addr then (0, p)
  else if Z.of_nat NUM_ACL <=? acl_num p then (-1, p)
  else match list_find (fun n => acl_valid n = false) (aclnode p) with
       | Some (i, n) =>
           (0, p <| aclnode := <[i := mk_acl_node addr true]> (aclnode p) |>
                 <| acl_node_q := acl_node_q p ++ [i] |> <| acl_num := acl_num p + 1 |>)
       | None => (-1, p)
       end.

Definition rtw_acl_remove_sta (p : wlan_acl_pool) (addr : list Z) : Z * wlan_acl_pool :=
  let is_baddr := is_broadcast_mac_addr addr in
  (0, acl_purge p (fun a => is_baddr || same_addr addr a)).

Definition rtw_access_ctrl (p : wlan_acl_pool) (mac_addr : list Z) : bool :=
  let match_ := acl_listed p mac_addr in
  if acl_mode p =? RTW_ACL_MODE_ACCEPT_UNLESS_LISTED then negb match_
  else if acl_mode p =? RTW_ACL_MODE_DENY_UNLESS_LISTED then match_
  else true.

(** What the ioctl and cfg80211 handlers call. *)
Inductive acl_op := AclMode (mode : Z) | AclAdd (addr : list Z) | AclRemove (addr : list Z) | AclAsk (addr : list Z).

(** The result of a call: the returned integer, or the decision on a station. *)
Definition acl_call (p : wlan_acl_pool) (op : acl_op) : Z * wlan_acl_pool :=
  match op with
  | AclMode mode => (0, rtw_set_macaddr_acl p mode)
  | AclAdd addr => rtw_acl_add_sta p addr
  | AclRemove addr => rtw_acl_remove_sta p addr
  | AclAsk addr => (if rtw_access_ctrl p addr then 1 else 0, p)
  end.

Fixpoint acl_run (p : wlan_acl_pool) (ops : list acl_op) : list Z * wlan_acl_pool :=
  match ops with
  | [] => ([], p)
  | op :: ops => let '(r, p) := acl_call p op in let '(rs, p) := acl_run p ops in (r :: rs, p)
  end.

(** ** The list of stations is a finite set

    [acl_spec] is what the pool promises: a mode and a set of at most
    [NUM_ACL] addresses.  Every sequence of calls on the pool returns what the
    set returns. *)

(** ** The abstract list *)

Definition acl_spec : Type := Z * gset (list Z).

Definition acl_spec_call (s : acl_spec) (op : acl_op) : Z * acl_spec :=
  let '(mode, M) := s in
  match op with
  | AclMode m => (0, if m =? RTW_ACL_MODE_DISABLED then (m, ∅) else (m, M))
  | AclAdd a => if decide (a ∈ M) then (0, s) else if decide (size M < NUM_ACL)%nat then (0, (mode, {[a]} ∪ M)) else (-1, s)
  | AclRemove a => (0, (mode, if is_broadcast_mac_addr a then ∅ else M ∖ {[a]}))
  | AclAsk a =>
      (if mode =? RTW_ACL_MODE_ACCEPT_UNLESS_LISTED then if decide (a ∈ M) then 0 else 1
       else if mode =? RTW_ACL_MODE_DENY_UNLESS_LISTED then if decide (a ∈ M) then 1 else 0 else 1, s)
  end.

Fixpoint acl_spec_run (s : acl_spec) (ops : list acl_op) : list Z * acl_spec :=
  match ops with
  | [] => ([], s)
  | op :: ops => let '(r, s) := acl_spec_call s op in let '(rs, s) := acl_spec_run s ops in (r :: rs, s)
  end.

(** ** The relation *)

Definition acl_addr_at (p : wlan_acl_pool) (i : nat) : list Z := default [] (acl_addr <$> aclnode p !! i).

(** Valid nodes are those in the queue, once each, with distinct addresses. *)
Record acl_inv (p : wlan_acl_pool) : Prop := {
  ai_len : length (aclnode p) = NUM_ACL;
  ai_nodup : NoDup (acl_node_q p);
  ai_addrs : NoDup (acl_addr_at p <$> acl_node_q p);
  ai_num : acl_num p = Z.of_nat (length (acl_node_q p));
  ai_range : forall i, i ∈ acl_node_q p -> (i < NUM_ACL)%nat;
  ai_valid : forall i n, aclnode p !! i = Some n -> acl_valid n = true <-> i ∈ acl_node_q p }.

Definition acl_set (p : wlan_acl_pool) : gset (list Z) := list_to_set (acl_addr_at p <$> acl_node_q p).
Definition acl_abs (p : wlan_acl_pool) : acl_spec := (acl_mode p, acl_set p).

Lemma elem_acl_set p a : a ∈ acl_set p <-> exists i, i ∈ acl_node_q p /\ acl_addr_at p i = a.
Proof.
  unfold acl_set. rewrite elem_of_list_to_set, list_elem_of_fmap. split; intros (i & ? & ?); eauto.
Qed.

Lemma size_acl_set p : acl_inv p -> size (acl_set p) = length (acl_node_q p).
Proof. intros I. unfold acl_set. rewrite size_list_to_set by apply I. apply length_fmap. Qed.

Lemma acl_live_spec p test i : acl_inv p -> i ∈ acl_node_q p -> acl_live p test i = test (acl_addr_at p i).
Proof.
  intros I Hi. unfold acl_live, acl_addr_at. destruct (aclnode p !! i) as [n|] eqn:E.
  - cbn. rewrite (proj2 (ai_valid p I i n E) Hi). apply andb_true_r.
  - apply lookup_ge_None in E. rewrite (ai_len p I) in E. pose proof (ai_range p I i Hi). lia.
Qed.

Lemma acl_listed_spec p a : acl_inv p -> acl_listed p a = bool_decide (a ∈ acl_set p).
Proof.
  intros I. unfold acl_listed.
  apply eq_true_iff_eq. rewrite existsb_exists, bool_decide_eq_true, elem_acl_set. split.
  - intros (i & Hi & H). apply list_elem_of_In in Hi. rewrite acl_live_spec in H by done.
    unfold same_addr in H. apply bool_decide_eq_true in H. eauto.
  - intros (i & Hi & H). exists i. split; [by apply list_elem_of_In|]. rewrite acl_live_spec by done.
    unfold same_addr. by apply bool_decide_eq_true.
Qed.

(** ** Dropping nodes *)

Lemma addr_at_drop p i j : acl_addr_at (acl_drop p i) j = acl_addr_at p j.
Proof.
  unfold acl_addr_at, acl_drop. cbn. destruct (decide (i = j)) as [->|].
  - rewrite list_lookup_alter_eq. by destruct (aclnode p !! j).
  - by rewrite list_lookup_alter_ne.
Qed.

Lemma addrs_drop p i (l : list nat) : acl_addr_at (acl_drop p i) <$> l = acl_addr_at p <$> l.
Proof. apply list_fmap_ext. intros k x _. apply addr_at_drop. Qed.

Lemma filter_neq_length (l : list nat) i : NoDup l -> i ∈ l -> (length (filter (fun j => j <> i) l) + 1 = length l)%nat.
Proof.
  induction 1 as [|x l Hx Hl IH]; intros Hi; [by apply not_elem_of_nil in Hi|]. rewrite filter_cons.
  destruct (decide (x <> i)) as [Hn|He].
  - cbn. apply elem_of_cons in Hi as [->|Hi]; [done|]. rewrite <- IH by done. lia.
  - apply dec_stable in He as ->. cbn. assert (H : filter (fun j => j <> i) l = l); [|rewrite H; lia].
    clear IH Hl Hi. induction l as [|y l IH]; [done|]. apply not_elem_of_cons in Hx as [? ?].
    rewrite filter_cons, decide_True by congruence. f_equal. by apply IH.
Qed.

Lemma acl_drop_inv p i : acl_inv p -> i ∈ acl_node_q p -> acl_inv (acl_drop p i).
Proof.
  intros I Hi. split.
  - cbn. rewrite length_alter. apply I.
  - apply NoDup_filter, I.
  - cbn [acl_drop acl_node_q]. rewrite addrs_drop.
    eapply sublist_NoDup; [apply (ai_addrs p I)|]. apply fmap_sublist, sublist_filter.
  - cbn. rewrite (ai_num p I). pose proof (filter_neq_length _ _ (ai_nodup p I) Hi). lia.
  - cbn. intros j [_ Hj]%list_elem_of_filter. by apply (ai_range p I).
  - cbn. intros j n Hn. rewrite list_elem_of_filter. destruct (decide (i = j)) as [->|Hne].
    + rewrite list_lookup_alter_eq in Hn. destruct (aclnode p !! j); [|done]. injection Hn as <-. cbn. split; [done|tauto].
    + rewrite list_lookup_alter_ne in Hn by done. rewrite (ai_valid p I j n Hn). split; [|tauto]. split; [congruence|done].
Qed.

Lemma acl_drop_set p i a : acl_inv p -> i ∈ acl_node_q p -> a ∈ acl_set (acl_drop p i) <-> a ∈ acl_set p /\ a <> acl_addr_at p i.
Proof.
  intros I Hi. rewrite !elem_acl_set. cbn [acl_drop acl_node_q]. setoid_rewrite list_elem_of_filter. setoid_rewrite addr_at_drop. split.
  - intros (j & [Hne Hj] & <-). split; [by exists j|]. intros E. apply Hne.
    apply list_elem_of_lookup in Hi as [x Hx], Hj as [y Hy].
    assert (Hxy : y = x).
    { eapply NoDup_lookup; [apply (ai_addrs p I)|by rewrite list_lookup_fmap, Hy|]. by rewrite list_lookup_fmap, Hx, E. }
    subst. congruence.
  - intros [(j & Hj & <-) Hne]. exists j. split; [|done]. split; [congruence|done].
Qed.

Lemma acl_purge_loop test l : forall p,
  acl_inv p -> NoDup l -> (forall i, i ∈ l -> i ∈ acl_node_q p) ->
  let p' := foldl (fun p i => if acl_live p test i then acl_drop p i else p) p l in
  acl_inv p' /\ acl_mode p' = acl_mode p /\
  (forall a, a ∈ acl_set p' <-> a ∈ acl_set p /\ ~ exists i, i ∈ l /\ acl_addr_at p i = a /\ test a = true).
Proof.
  induction l as [|i l IH]; intros p I Hl Hq; cbn [foldl].
  { split; [done|]. split; [done|]. intros a. split; [|tauto]. intros H. split; [done|]. intros (i & Hi & _). by apply not_elem_of_nil in Hi. }
  apply NoDup_cons in Hl as [Hi Hl].
  assert (Hin : i ∈ acl_node_q p) by (apply Hq, list_elem_of_here). rewrite acl_live_spec by done.
  destruct (test (acl_addr_at p i)) eqn:T.
  - destruct (IH (acl_drop p i)) as (I' & M' & S'); [by apply acl_drop_inv|done| |].
    { intros j Hj. cbn. apply list_elem_of_filter. split; [by intros ->|]. apply Hq. by right. }
    split; [done|]. split; [done|]. intros a. rewrite S', acl_drop_set by done. setoid_rewrite addr_at_drop.
    setoid_rewrite elem_of_cons. split.
    + intros [[Ha Hne] Hno]. split; [done|]. intros (j & [->|Hj] & E & T'); [congruence|eauto].
    + intros [Ha Hno]. split; [|by intros (j & Hj & ?); eauto]. split; [done|]. intros ->. apply Hno. eauto.
  - destruct (IH p) as (I' & M' & S'); [done|done| |].
    { intros j Hj. apply Hq. by right. }
    split; [done|]. split; [done|]. intros a. rewrite S'. setoid_rewrite elem_of_cons. split.
    + intros [Ha Hno]. split; [done|]. intros (j & [->|Hj] & E & T'); [congruence|eauto].
    + intros [Ha Hno]. split; [done|]. intros (j & Hj & ?). eauto.
Qed.

Lemma acl_purge_spec p test :
  acl_inv p -> acl_inv (acl_purge p test) /\ acl_mode (acl_purge p test) = acl_mode p /\
  (forall a, a ∈ acl_set (acl_purge p test) <-> a ∈ acl_set p /\ test a = false).
Proof.
  intros I. destruct (acl_purge_loop test (acl_node_q p) p) as (I' & M & H); [done|apply I|done|].
  split; [done|]. split; [done|]. intros a. unfold acl_purge. rewrite H. split.
  - intros [Ha Hno]. split; [done|]. apply not_true_is_false. intros T. apply Hno.
    apply elem_acl_set in Ha as (i & Hi & E). eauto.
  - intros [Ha T]. split; [done|]. intros (i & _ & _ & T'). congruence.
Qed.

(** ** The calls *)

Lemma acl_init_inv p : length (aclnode p) = NUM_ACL -> acl_inv (rtw_macaddr_acl_init p).
Proof.
  intros Hl. split; cbn; try done; [by rewrite length_map|apply NoDup_nil_2|apply NoDup_nil_2|intros i Hi; by apply not_elem_of_nil in Hi|].
  intros i n Hn. rewrite list_lookup_fmap in Hn. destruct (aclnode p !! i); [|done]. injection Hn as <-. cbn.
  split; [done|]. intros Hi. by apply not_elem_of_nil in Hi.
Qed.

Lemma acl_abs_purge p test M :
  acl_inv p -> (forall a, a ∈ M <-> a ∈ acl_set p /\ test a = false) -> acl_abs (acl_purge p test) = (acl_mode p, M).
Proof.
  intros I HM. destruct (acl_purge_spec p test I) as (_ & E & H). unfold acl_abs. rewrite E. f_equal.
  apply leibniz_equiv. intros a. by rewrite H, HM.
Qed.

Lemma add_node p a i :
  acl_inv p -> aclnode p !! i <> None -> i ∉ acl_node_q p -> a ∉ acl_set p ->
  let p' := p <| aclnode := <[i := mk_acl_node a true]> (aclnode p) |>
              <| acl_node_q := acl_node_q p ++ [i] |> <| acl_num := acl_num p + 1 |> in
  acl_inv p' /\ acl_abs p' = (acl_mode p, {[a]} ∪ acl_set p).
Proof.
  intros I Hi Hq Ha p'.
  assert (Hlt : (i < length (aclnode p))%nat) by (apply lookup_lt_is_Some; by apply not_eq_None_Some).
  assert (Hnew : acl_addr_at p' i = a). { unfold acl_addr_at, p'. cbn. by rewrite list_lookup_insert_eq. }
  assert (Hold : forall j, j ∈ acl_node_q p -> acl_addr_at p' j = acl_addr_at p j).
  { intros j Hj. unfold acl_addr_at, p'. cbn. rewrite list_lookup_insert_ne; [done|]. by intros ->. }
  assert (Hmap : acl_addr_at p' <$> acl_node_q p' = (acl_addr_at p <$> acl_node_q p) ++ [a]).
  { cbn [acl_node_q p']. change (acl_node_q p') with (acl_node_q p ++ [i]). rewrite fmap_app. cbn. rewrite Hnew. f_equal.
    apply list_fmap_ext. intros k x Hx. apply Hold. by eapply list_elem_of_lookup_2. }
  split; [split|].
  - cbn. rewrite length_insert. apply I.
  - cbn. apply NoDup_app. split; [apply I|]. split; [|apply NoDup_singleton]. intros j Hj ->%list_elem_of_singleton. done.
  - rewrite Hmap. apply NoDup_app. split; [apply I|]. split; [|apply NoDup_singleton].
    intros b Hb ->%list_elem_of_singleton. apply Ha. unfold acl_set. by apply elem_of_list_to_set.
  - cbn. rewrite length_app, (ai_num p I). cbn. lia.
  - cbn. intros j. rewrite elem_of_app, list_elem_of_singleton. intros [Hj| ->]; [by apply (ai_range p I)|]. by rewrite <- (ai_len p I).
  - cbn. intros j n Hn. rewrite elem_of_app, list_elem_of_singleton. destruct (decide (i = j)) as [->|Hne].
    + rewrite list_lookup_insert_eq in Hn by done. injection Hn as <-. cbn. tauto.
    + rewrite list_lookup_insert_ne in Hn by done. rewrite (ai_valid p I j n Hn). split; [tauto|]. intros [?|?]; [done|congruence].
  - unfold acl_abs. f_equal. unfold acl_set. rewrite Hmap. rewrite list_to_set_app_L. cbn. set_solver.
Qed.

Lemma free_node p :
  acl_inv p -> (length (acl_node_q p) < NUM_ACL)%nat -> exists i n, list_find (fun n => acl_valid n = false) (aclnode p) = Some (i, n).
Proof.
  intros I Hlt. destruct (list_find _ (aclnode p)) as [[i n]|] eqn:E; [eauto|exfalso]. apply list_find_None in E.
  assert (Hsub : seq 0 NUM_ACL ⊆ acl_node_q p).
  { intros i [_ Hi]%elem_of_seq. destruct (aclnode p !! i) as [n|] eqn:En.
    - apply (ai_valid p I i n En). rewrite Forall_lookup in E. specialize (E i n En). by destruct (acl_valid n).
    - apply lookup_ge_None in En. rewrite (ai_len p I) in En. lia. }
  pose proof (submseteq_length _ _ (NoDup_submseteq _ _ (NoDup_seq 0 NUM_ACL) Hsub)) as Hle. rewrite length_seq in Hle. lia.
Qed.

Lemma acl_call_refines p op :
  acl_inv p -> let '(r, p') := acl_call p op in acl_inv p' /\ acl_spec_call (acl_abs p) op = (r, acl_abs p').
Proof.
  intros I. destruct op as [m|a|a|a]; cbn [acl_call acl_spec_call acl_abs].
  - unfold rtw_set_macaddr_acl. assert (I' : acl_inv (p <| acl_mode := m |>)) by (by destruct I; split).
    destruct (m =? RTW_ACL_MODE_DISABLED) eqn:E; [|done]. apply Z.eqb_eq in E as ->.
    unfold rtw_macaddr_acl_deinit. destruct (acl_purge_spec _ (fun _ => true) I') as (I2 & _ & _). split; [by destruct I2; split|].
    pose proof (acl_abs_purge _ (fun _ => true) ∅ I') as E. unfold acl_abs in *. f_equal. cbn.
    assert (H : acl_set (acl_purge (p <| acl_mode := RTW_ACL_MODE_DISABLED |>) (fun _ => true)) = ∅).
    { specialize (E ltac:(set_solver)). congruence. }
    rewrite <- H. reflexivity.
  - unfold rtw_acl_add_sta. rewrite acl_listed_spec by done. unfold acl_abs. rewrite size_acl_set by done.
    case_bool_decide; rewrite ?decide_True, ?decide_False by done; [done|].
    destruct (Z.leb_spec (Z.of_nat NUM_ACL) (acl_num p)) as [H1|H1]; rewrite (ai_num p I) in H1.
    + rewrite decide_False by lia. done.
    + rewrite decide_True by lia. destruct (free_node p I) as (i & n & F); [lia|]. rewrite F. apply list_find_Some in F as (Hn & Hv & _).
      destruct (add_node p a i I) as [I' E]; [congruence| |done|].
      { intros Hi. apply (ai_valid p I i n Hn) in Hi. congruence. }
      split; [exact I'|]. f_equal. symmetry. exact E.
  - unfold rtw_acl_remove_sta. destruct (acl_purge_spec p (fun b => is_broadcast_mac_addr a || same_addr a b) I) as (I' & _ & _).
    split; [exact I'|]. erewrite acl_abs_purge; [reflexivity|done|].
    intros b. unfold same_addr. destruct (is_broadcast_mac_addr a); cbn; [set_solver|]. rewrite bool_decide_eq_false. set_solver.
  - split; [done|]. unfold rtw_access_ctrl, acl_abs. rewrite acl_listed_spec by done. f_equal.
    repeat (case_bool_decide || case_decide || destruct (_ =? _)); done.
Qed.

Lemma acl_run_refines ops : forall p, acl_inv p ->
  let '(rs, p') := acl_run p ops in acl_inv p' /\ acl_spec_run (acl_abs p) ops = (rs, acl_abs p').
Proof.
  induction ops as [|op ops IH]; intros p I; cbn [acl_run acl_spec_run]; [done|].
  pose proof (acl_call_refines p op I) as H. destruct (acl_call p op) as [r p1], H as [I1 ->].
  specialize (IH p1 I1). destruct (acl_run p1 ops) as [rs p2], IH as [I2 ->]. done.
Qed.

(** C30. From [rtw_macaddr_acl_init], any sequence of mode changes, additions,
    removals and questions returns what a set of at most 16 addresses
    returns: a station is listed at most once, an addition fails exactly
    when 16 others are listed, removing the broadcast address or disabling
    the list empties it, and [rtw_access_ctrl] decides by membership; the
    pool keeps its invariant (each used node is valid and in the queue once). *)
Theorem acl_refines (p : wlan_acl_pool) (ops : list acl_op) :
  length (aclnode p) = NUM_ACL ->
  let '(rs, p') := acl_run (rtw_macaddr_acl_init p) ops in
  acl_spec_run (RTW_ACL_MODE_DISABLED, ∅) ops = (rs, acl_abs p') /\ acl_inv p'.
Proof.
  intros Hl. pose proof (acl_run_refines ops _ (acl_init_inv p Hl)) as H. destruct (acl_run _ ops) as [rs p'].
  destruct H as [I H]. split; [exact H|exact I].
Qed.

Definition acl_fresh : wlan_acl_pool := mk_acl_pool 7 3 (repeat (mk_acl_node [0; 0; 0; 0; 0; 0] true) NUM_ACL) [].
Definition acl_peer (k : Z) : list Z := [2; 0; 0; 0; 0; k].

(** Seventeen stations, one of them twice, of which the last finds no room. *)
Definition acl_story : list acl_op :=
  [AclMode 2; AclAdd (acl_peer 1); AclAdd (acl_peer 1)] ++ map (fun k => AclAdd (acl_peer k)) (seqZ 2 16) ++
  [AclAsk (acl_peer 17); AclAsk (acl_peer 16); AclRemove (acl_peer 16); AclAdd (acl_peer 17); AclAsk (acl_peer 17); AclMode 0; AclMode 1; AclAsk (acl_peer 1)].

Lemma acl_refines_witness :
  fst (acl_run (rtw_macaddr_acl_init acl_fresh) acl_story) = repeat 0 18 ++ [-1] ++ [0; 1; 0; 0; 1; 0; 0; 1] /\
  fst (acl_spec_run (RTW_ACL_MODE_DISABLED, ∅) acl_story) = fst (acl_run (rtw_macaddr_acl_init acl_fresh) acl_story).
Proof.
  split; [vm_compute; reflexivity|].
  pose proof (acl_refines acl_fresh acl_story eq_refl) as H. revert H. destruct (acl_run _ _) as [rs p']. intros [H _]. rewrite H. reflexivity.
Defined.
