(* ===== verification/Bitmap.v ===== *)
(** * 32-bit maps of identifiers

    [struct sec_cam_bmp] and [struct macid_bmp] hold one word [m0], since
    SEC_CAM_ENT_NUM_SW_LIMIT and MACID_NUM_SW_LIMIT are 32; identifiers beyond
    it only raise a warning. *)

From S2P Require Import Prelude.
Definition bit (id : Z) : Z := Z.shiftl 1 id.

(** [rtw_sec_camid_is_set]. *)
Definition rtw_sec_camid_is_set (m0 id : Z) : bool := (id <? 32) && negb (Z.land m0 (bit id) =? 0).

(** [rtw_sec_cam_map_set]. *)
Definition rtw_sec_cam_map_set (m0 id : Z) : Z := if id <? 32 then Z.lor m0 (bit id) else m0.

(** [rtw_sec_cam_map_clr]. *)
Definition rtw_sec_cam_map_clr (m0 id : Z) : Z := if id <? 32 then Z.land m0 (Z.lnot (bit id)) else m0.

(** The macid maps have the same code. *)
Definition rtw_macid_is_set (m0 id : Z) : bool := (id <? 32) && negb (Z.land m0 (bit id) =? 0).
Definition rtw_macid_map_set (m0 id : Z) : Z := if id <? 32 then Z.lor m0 (bit id) else m0.
Definition rtw_macid_map_clr (m0 id : Z) : Z := if id <? 32 then Z.land m0 (Z.lnot (bit id)) else m0.

Lemma land_one_bit m id : 0 <= id -> (Z.land m (bit id) =? 0) = negb (Z.testbit m id).
Proof.
  intros Hid. unfold bit. rewrite Z.shiftl_1_l. destruct (Z.testbit m id) eqn:E.
  - apply Z.eqb_neq. intros H. apply (f_equal (fun z => Z.testbit z id)) in H.
    rewrite Z.land_spec, E, Z.pow2_bits_true, Z.bits_0 in H by done. done.
  - apply Z.eqb_eq, Z.bits_inj'. intros i Hi. rewrite Z.land_spec, Z.bits_0.
    destruct (Z.eq_dec i id) as [->|]; [by rewrite E|]. rewrite Z.pow2_bits_false by done. apply andb_false_r.
Qed.

Lemma is_set_bit m id : 0 <= id < 32 -> rtw_sec_camid_is_set m id = Z.testbit m id.
Proof. intros H. unfold rtw_sec_camid_is_set. rewrite land_one_bit, negb_involutive by lia. by destruct (Z.ltb_spec id 32); [|lia]. Qed.

Lemma set_bit m id i : 0 <= id < 32 -> 0 <= i -> Z.testbit (rtw_sec_cam_map_set m id) i = (i =? id) || Z.testbit m i.
Proof.
  intros H Hi. unfold rtw_sec_cam_map_set, bit. destruct (Z.ltb_spec id 32); [|lia].
  rewrite Z.lor_spec, Z.shiftl_1_l, Z.pow2_bits_eqb by lia. rewrite orb_comm, Z.eqb_sym. done.
Qed.

Lemma clr_bit m id i : 0 <= id < 32 -> 0 <= i -> Z.testbit (rtw_sec_cam_map_clr m id) i = negb (i =? id) && Z.testbit m i.
Proof.
  intros H Hi. unfold rtw_sec_cam_map_clr, bit. destruct (Z.ltb_spec id 32); [|lia].
  rewrite Z.land_spec, Z.lnot_spec, Z.shiftl_1_l, Z.pow2_bits_eqb by lia. rewrite andb_comm, Z.eqb_sym. done.
Qed.
