(* ===== verification/Cam.v ===== *)
(** * The key memory of the hardware (core/rtw_wlan_util.c, core/rtw_mlme_ext.c)

    The hardware looks keys up in a memory of entries of eight 32-bit words.
    The driver keeps a copy of it, [cam_cache], and a bitmap of the entries in
    use.  Built without CONFIG_CONCURRENT_MODE.  An access to a register of
    the memory is assumed to complete; the other registers are a log of calls. *)

From S2P Require Import Prelude SecDefs Wep Bitmap.
Definition SEC_CAM_ENT_NUM_SW_LIMIT : Z := 32.
Definition SEC_CAP_CHK_BMC : Z := 1.
Definition SEC_STATUS_STA_PK_GK_CONFLICT_DIS_BMC_SEARCH : Z := 1.
Definition WIFI_FW_ADHOC_STATE : Z := 1.
Definition WIFI_FW_STATION_STATE : Z := 2.
Definition WIFI_FW_AP_STATE : Z := 3.
Definition H2C_SUCCESS : Z := 0.
Definition H2C_SUCCESS_RSP : Z := 1.
Definition H2C_REJECTED : Z := 5.
Definition null_addr : list Z := [0; 0; 0; 0; 0; 0].
Definition null_key : list Z := repeat 0 16.

Record sec_cam_ent := mk_cam_ent { ce_ctrl : Z; ce_mac : list Z; ce_key : list Z }.

Definition zero_ent : sec_cam_ent := mk_cam_ent 0 null_addr null_key.

Inductive cam_call := SecCfg | SecDkCfg (on : bool) | RcrAm.

(** [cam_ctl_t], the cache, the words of the hardware, and what the handlers
    read or set of [mlme_ext_info] and [mlme_priv]. *)
Record cam_state := mk_cam_state {
  sec_cap : Z; cam_flags : Z; cam_num : Z; cam_used : Z; cam_cache : list sec_cam_ent; cam_hw : list Z;
  fw_state : Z; cam_bssid : list Z; key_index : Z; enc_algo : Z; cam_calls : list cam_call }.

#[export] Instance eta_cam_state : Eta cam_state := fun s =>
  mk_cam_state (sec_cap s) (cam_flags s) (cam_num s) (cam_used s) (cam_cache s) (cam_hw s) (fw_state s) (cam_bssid s)
    (key_index s) (enc_algo s) (cam_calls s).

Definition cam_note (s : cam_state) (c : cam_call) : cam_state := s <| cam_calls := cam_calls s ++ [c] |>.

(** The cache entry of an identifier below the size of the array. *)
Definition cam_at (s : cam_state) (id : Z) : sec_cam_ent := default zero_ent (cam_cache s !! Z.to_nat id).

(** ** The words of an entry (hal/hal_com.c) *)

Definition rtw_sec_write_cam (s : cam_state) (addr wdata : Z) : cam_state := s <| cam_hw := arr_set (cam_hw s) addr wdata |>.
Definition rtw_sec_read_cam (s : cam_state) (addr : Z) : Z := arr_get (cam_hw s) addr.

Definition or4 (a b c d : Z) : Z := u32 (Z.lor (Z.lor (Z.lor a (Z.shiftl b 8)) (Z.shiftl c 16)) (Z.shiftl d 24)).

(** The word [j] of an entry. *)
Definition cam_word (ctrl : Z) (mac key : list Z) (j : Z) : Z :=
  if j =? 0 then u32 (Z.lor (Z.lor ctrl (Z.shiftl (arr_get mac 0) 16)) (Z.shiftl (arr_get mac 1) 24))
  else if j =? 1 then or4 (arr_get mac 2) (arr_get mac 3) (arr_get mac 4) (arr_get mac 5)
  else if (j =? 6) || (j =? 7) then 0
  else let i := Z.shiftl (j - 2) 2 in or4 (arr_get key i) (arr_get key (i + 1)) (arr_get key (i + 2)) (arr_get key (i + 3)).

Definition rtw_sec_write_cam_ent (s : cam_state) (id ctrl : Z) (mac key : list Z) : cam_state :=
  foldl (fun s j => rtw_sec_write_cam s (u8 (Z.shiftl id 3 + j)) (cam_word ctrl mac key j)) s [7; 6; 5; 4; 3; 2; 1; 0].

(** [rtw_sec_read_cam_ent] with the three results asked for; a word is copied
    in the order of its bytes. *)
Definition rtw_sec_read_cam_ent (s : cam_state) (id : Z) : sec_cam_ent :=
  let w i := le_enc 4 (rtw_sec_read_cam s (u8 (Z.lor (Z.shiftl id 3) i))) in
  mk_cam_ent (le_dec (take 2 (w 0))) (drop 2 (w 0) ++ w 1) (w 2 ++ w 3 ++ w 4 ++ w 5).

Definition rtw_sec_clr_cam_ent (s : cam_state) (id : Z) : cam_state := rtw_sec_write_cam s (u8 (Z.shiftl id 3)) 0.

(** ** The cache *)

Definition write_cam_cache (s : cam_state) (id ctrl : Z) (mac key : list Z) : cam_state :=
  s <| cam_cache := arr_set (cam_cache s) id (mk_cam_ent ctrl (take 6 mac) (take 16 key)) |>.

Definition clear_cam_cache (s : cam_state) (id : Z) : cam_state := s <| cam_cache := arr_set (cam_cache s) id zero_ent |>.

Definition write_cam (s : cam_state) (id ctrl : Z) (mac key : list Z) : cam_state :=
  write_cam_cache (rtw_sec_write_cam_ent s id ctrl mac key) id ctrl mac key.

Definition _clear_cam_entry (s : cam_state) (entry : Z) : cam_state := rtw_sec_write_cam_ent s entry 0 null_addr null_key.

Definition clear_cam_entry (s : cam_state) (id : Z) : cam_state := clear_cam_cache (_clear_cam_entry s id) id.

Definition write_cam_from_cache (s : cam_state) (id : Z) : cam_state :=
  let cache := cam_at s id in rtw_sec_write_cam_ent s id (ce_ctrl cache) (ce_mac cache) (ce_key cache).

Definition _rtw_camctl_chk_cap (s : cam_state) (cap : Z) : bool := negb (Z.land (sec_cap s) cap =? 0).
Definition rtw_camctl_set_flags (s : cam_state) (flags : Z) : cam_state := s <| cam_flags := Z.lor (cam_flags s) flags |>.
Definition rtw_camctl_clr_flags (s : cam_state) (flags : Z) : cam_state := s <| cam_flags := Z.land (cam_flags s) (Z.lnot flags) |>.
Definition _rtw_camctl_chk_flags (s : cam_state) (flags : Z) : bool := negb (Z.land (cam_flags s) flags =? 0).

(** ** Identifiers *)

Definition _rtw_sec_camid_is_used (s : cam_state) (id : Z) : bool :=
  if cam_num s <=? id then false else rtw_sec_camid_is_set (cam_used s) id.

(** The identifiers in use, until [max_bk_key_num] were found. *)
Definition rtw_get_sec_camid (s : cam_state) (max_bk_key_num : Z) : list Z :=
  let l := filter (fun i => _rtw_sec_camid_is_used s i = true) (seqZ 0 (cam_num s)) in
  if max_bk_key_num =? 0 then l else take (Z.to_nat max_bk_key_num) l.

Definition _rtw_camid_is_gk (s : cam_state) (cam_id : Z) : bool :=
  if cam_num s <=? cam_id then false
  else if negb (_rtw_sec_camid_is_used s cam_id) then false
  else negb (Z.land (ce_ctrl (cam_at s cam_id)) (bit 6) =? 0).

(** [None] for [addr] is [NULL]. *)
Definition cam_cache_chk (s : cam_state) (id : Z) (addr : option (list Z)) (kid gk : Z) : bool :=
  if match addr with Some a => negb (bool_decide (ce_mac (cam_at s id) = a)) | None => false end then false
  else if (0 <=? kid) && negb (kid =? Z.land (ce_ctrl (cam_at s id)) 3) then false
  else if negb (gk =? -1) && negb (eqb (negb (gk =? 0)) (_rtw_camid_is_gk s id)) then false
  else true.

(** The first index of [0, num) that passes a test, or [-1]. *)
Definition first_id (num : Z) (test : Z -> bool) : Z :=
  match list_find (fun i => test i = true) (seqZ 0 num) with Some (_, i) => i | None => -1 end.

Definition _rtw_camid_search (s : cam_state) (addr : option (list Z)) (kid gk : Z) : Z :=
  first_id (cam_num s) (fun i => cam_cache_chk s i addr kid gk).

(** [sta]: the key is for a station, not for a group.  The start is 0, and the
    entries below 4 are the default keys. *)
Definition rtw_get_camid (s : cam_state) (sta : bool) (addr : option (list Z)) (kid : Z) : Z :=
  match addr with
  | None => -1
  | Some a =>
      let i := _rtw_camid_search s addr kid (if _rtw_camctl_chk_cap s SEC_CAP_CHK_BMC then if sta then 0 else 1 else -1) in
      if 0 <=? i then i else first_id (cam_num s) (fun i => (4 <=? i) && negb (_rtw_sec_camid_is_used s i))
  end.

(** [addr]: [sta->cmn.mac_addr] when there is a station.  The identifier and
    whether its entry was in use. *)
Definition rtw_camid_alloc (s : cam_state) (sta : option (list Z)) (kid : Z) : Z * bool * cam_state :=
  let state := Z.land (fw_state s) 3 in
  let cam_id :=
    match sta with
    | None =>
        if (state =? WIFI_FW_AP_STATE) || (state =? WIFI_FW_ADHOC_STATE) then if 3 <? kid then -1 else kid
        else if Z.land (fw_state s) WIFI_FW_ASSOC_SUCCESS =? 0 then -1
        else rtw_get_camid s false (Some (cam_bssid s)) kid
    | Some a => rtw_get_camid s true (Some a) kid
    end in
  if 0 <=? cam_id
  then (cam_id, _rtw_sec_camid_is_used s cam_id, s <| cam_used := rtw_sec_cam_map_set (cam_used s) cam_id |>)
  else (cam_id, false, s).

Definition rtw_camid_set (s : cam_state) (cam_id : Z) : cam_state :=
  if cam_id <? cam_num s then s <| cam_used := rtw_sec_cam_map_set (cam_used s) cam_id |> else s.

Definition rtw_camid_free (s : cam_state) (cam_id : Z) : cam_state :=
  if cam_id <? cam_num s then s <| cam_used := rtw_sec_cam_map_clr (cam_used s) cam_id |> else s.

(** ** Moving keys *)

Definition rtw_sec_cam_swap (s : cam_state) (cam_id_a cam_id_b : Z) : cam_state :=
  if cam_id_a =? cam_id_b then s
  else
    let cam_a_used := _rtw_sec_camid_is_used s cam_id_a in
    let cam_b_used := _rtw_sec_camid_is_used s cam_id_b in
    let a := cam_at s cam_id_a in
    let b := cam_at s cam_id_b in
    let s := if cam_a_used then clear_cam_entry (rtw_camid_free s cam_id_a) cam_id_a else s in
    let s := if cam_b_used then clear_cam_entry (rtw_camid_free s cam_id_b) cam_id_b else s in
    let s := if cam_a_used then rtw_camid_set (write_cam s cam_id_b (ce_ctrl a) (ce_mac a) (ce_key a)) cam_id_b else s in
    if cam_b_used then rtw_camid_set (write_cam s cam_id_a (ce_ctrl b) (ce_mac b) (ce_key b)) cam_id_a else s.

Definition rtw_get_empty_cam_entry (s : cam_state) (start_camid : Z) : Z :=
  first_id (cam_num s) (fun i => (start_camid <=? i) && negb (_rtw_sec_camid_is_used s i)).

Definition rtw_clean_dk_section (s : cam_state) : cam_state :=
  foldl (fun s i =>
    if _rtw_sec_camid_is_used s i then
      let ept_cam_id := rtw_get_empty_cam_entry s 4 in
      if 0 <? ept_cam_id then rtw_sec_cam_swap s i ept_cam_id else s
    else s) s [0; 1; 2; 3].

Definition rtw_clean_hw_dk_cam (s : cam_state) : cam_state := foldl rtw_sec_clr_cam_ent s [0; 1; 2; 3].

(** ** The handlers *)

(** [while ((id = rtw_camid_search(addr, -1, gk)) >= 0)] clear and free;
    [None] when the fuel is not enough. *)
Fixpoint clear_keys (fuel : nat) (s : cam_state) (addr : list Z) (gk : Z) : option cam_state :=
  match fuel with
  | O => None
  | S fuel =>
      let cam_id := _rtw_camid_search s (Some addr) (-1) gk in
      if 0 <=? cam_id then clear_keys fuel (rtw_camid_free (clear_cam_entry s cam_id) cam_id) addr gk else Some s
  end.

(** One more round than there are entries. *)
Definition CAM_FUEL : nat := 33.

Record set_stakey_parm := mk_stakey { sk_addr : list Z; sk_algorithm : Z; sk_keyid : Z; sk_key : list Z }.
Record setkey_parm := mk_setkey { gk_algorithm : Z; gk_keyid : Z; gk_set_tx : bool; gk_key : list Z }.

(** The warning of a group key and a pairwise key with one identifier. *)
Definition pk_gk_clash (s : cam_state) (addr : list Z) : option cam_state :=
  let s := rtw_camctl_set_flags s SEC_STATUS_STA_PK_GK_CONFLICT_DIS_BMC_SEARCH in
  clear_keys CAM_FUEL (cam_note s SecCfg) addr 1.

Section Hdl.

(** [rtw_get_stainfo]: the address of the station found for an address;
    [adapter_mac_addr]: the interface's own; [invalidate]: what
    HW_VAR_CAM_INVALID_ALL does to the words of the hardware. *)
Context (rtw_get_stainfo : list Z -> option (list Z)) (adapter_mac_addr : list Z) (invalidate : list Z -> list Z).

Definition set_stakey_hdl (s : cam_state) (p : set_stakey_parm) : option (Z * cam_state) :=
  if sk_algorithm p =? _NO_PRIVACY_ then
    s ← clear_keys CAM_FUEL s (sk_addr p) (-1); Some (H2C_SUCCESS_RSP, s)
  else
    match rtw_get_stainfo (sk_addr p) with
    | None => Some (H2C_REJECTED, s)
    | Some mac =>
        let s := s <| enc_algo := sk_algorithm p |> in
        let kid := if is_wep (sk_algorithm p) then sk_keyid p else 0 in
        let '(cam_id, used, s) := rtw_camid_alloc s (Some mac) kid in
        if cam_id <? 0 then Some (H2C_SUCCESS, s)
        else
          s ← (if used && _rtw_camid_is_gk s cam_id then pk_gk_clash s (sk_addr p) else Some s);
          let ctrl := u16 (Z.lor (Z.lor (bit 15) (Z.shiftl (sk_algorithm p) 2)) (sk_keyid p)) in
          Some (H2C_SUCCESS_RSP, write_cam s cam_id ctrl (sk_addr p) (sk_key p))
    end.

(** [enable_mc]. *)
Definition enable_mc (s : cam_state) : cam_state := cam_note s RcrAm.

Definition setkey_hdl (s : cam_state) (p : setkey_parm) : option (Z * cam_state) :=
  let s := if gk_set_tx p then s <| key_index := gk_keyid p |> else s in
  let '(cam_id, used, s) := rtw_camid_alloc s None (gk_keyid p) in
  if cam_id <? 0 then Some (H2C_SUCCESS, enable_mc s)
  else
    let state := Z.land (fw_state s) 3 in
    let addr :=
      if cam_id <=? 3 then null_addr
      else if (state =? WIFI_FW_AP_STATE) || (state =? WIFI_FW_ADHOC_STATE) then adapter_mac_addr else cam_bssid s in
    if used && negb (_rtw_camid_is_gk s cam_id) then s ← pk_gk_clash s addr; Some (H2C_SUCCESS, enable_mc s)
    else
      let ctrl := u16 (Z.lor (Z.lor (Z.lor (bit 15) (bit 6)) (Z.shiftl (gk_algorithm p) 2)) (gk_keyid p)) in
      let s := write_cam s cam_id ctrl addr (gk_key p) in
      let s := if cam_id <=? 3 then cam_note s (SecDkCfg true) else s in
      s ← (if is_wep (gk_algorithm p) && (state =? WIFI_FW_STATION_STATE) && _rtw_camctl_chk_cap s SEC_CAP_CHK_BMC
           then snd <$> set_stakey_hdl s (mk_stakey (cam_bssid s) (gk_algorithm p) (gk_keyid p) (gk_key p)) else Some s);
      Some (H2C_SUCCESS, enable_mc s).

(** [privacy], [key_mask], [index] and [keys]: [dot11PrivacyAlgrthm], [key_mask],
    [dot11PrivacyKeyIndex] and [dot11DefKey] of [securitypriv]; [psta]: the
    address of the station. *)
Definition rtw_ap_wep_pk_setting (s : cam_state) (privacy key_mask index : Z) (keys : list (list Z)) (psta : list Z) : option cam_state :=
  if negb (is_wep privacy) then Some s
  else foldl (fun s keyid =>
    s ← s;
    if negb (Z.land key_mask (bit keyid) =? 0) && (keyid =? index)
    then snd <$> set_stakey_hdl s (mk_stakey psta privacy keyid (take 16 (default [] (keys !! Z.to_nat keyid)))) else Some s)
    (Some s) [0; 1; 2; 3].

(** [rtw_clearstakey_cmd] called without [enqueue]. *)
Definition rtw_clearstakey_cmd (s : cam_state) (sta : list Z) : option cam_state := clear_keys CAM_FUEL s sta (-1).

Definition invalidate_cam_all (s : cam_state) : cam_state :=
  s <| cam_hw := invalidate (cam_hw s) |> <| cam_used := 0 |> <| cam_cache := repeat zero_ent 32 |>.

Definition flush_all_cam_entry (s : cam_state) : cam_state := cam_note (invalidate_cam_all s) (SecDkCfg false).

End Hdl.
