(* ===== verification/CamSpec.v ===== *)
(** * The key memory: what its operations do

    Entries as the hardware reads them, searches, the invariant that ties
    the bitmap, the cache and the hardware together, and the handlers. *)

From S2P Require Import Prelude Mem SecDefs Wep Bitmap Cam.
From stdpp Require Import list.
#[local] Open Scope Z_scope.

(** ** Words *)

Lemma or4_bytes a b c d : is_u8 a -> is_u8 b -> is_u8 c -> is_u8 d -> le_enc 4 (or4 a b c d) = [a; b; c; d].
Proof.
  intros Ha Hb Hc Hd. assert (B : bytes [a; b; c; d]) by (by rewrite !Forall_cons).
  rewrite <- (le_enc_dec _ B). cbn [length]. f_equal. unfold or4, in_width in *. change (2 ^ 8) with 256 in *.
  rewrite (lor_shiftl_add a b 8), (lor_shiftl_add _ c 16), (lor_shiftl_add _ d 24) by (unfold in_width; lia).
  rewrite wrap_small by (unfold in_width; lia). cbn [Prelude.le_dec]. lia.
Qed.

Lemma ctrl_word c a b : is_u16 c -> is_u8 a -> is_u8 b ->
  le_enc 4 (u32 (Z.lor (Z.lor c (Z.shiftl a 16)) (Z.shiftl b 24))) = le_enc 2 c ++ [a; b].
Proof.
  intros Hc Ha Hb. assert (B : bytes (le_enc 2 c ++ [a; b])) by (apply Forall_app; split; [apply le_enc_bytes|by rewrite !Forall_cons]).
  rewrite <- (le_enc_dec _ B). rewrite length_app, length_le_enc. cbn [length Nat.add]. f_equal.
  pose proof (le_dec_enc_small 2 c Hc) as E. unfold in_width in *. change (2 ^ 8) with 256 in *. change (2 ^ 16) with 65536 in *.
  rewrite (lor_shiftl_add c a 16), (lor_shiftl_add _ b 24) by (unfold in_width; lia).
  rewrite wrap_small by (unfold in_width; lia). cbn [le_enc Prelude.le_dec app] in *. lia.
Qed.

Lemma read_write_cam s a w x :
  length (cam_hw s) = 256%nat -> 0 <= a < 256 -> 0 <= x ->
  rtw_sec_read_cam (rtw_sec_write_cam s a w) x = if x =? a then w else rtw_sec_read_cam s x.
Proof.
  intros Hl Ha Hx. unfold rtw_sec_read_cam, rtw_sec_write_cam. cbn. destruct (Z.eqb_spec x a) as [->|Hne].
  - apply arr_get_set_eq. unfold in_range. lia.
  - by apply arr_get_set_ne; [lia|lia|congruence].
Qed.

Lemma length_write_cam s a w : length (cam_hw (rtw_sec_write_cam s a w)) = length (cam_hw s).
Proof. apply length_arr_set. Qed.

Lemma addr_add id j : 0 <= id < 32 -> 0 <= j < 8 -> u8 (Z.shiftl id 3 + j) = 8 * id + j.
Proof. intros. rewrite Z.shiftl_mul_pow2, wrap_small by lia || width_lia. lia. Qed.

Lemma addr_lor id j : 0 <= id < 32 -> 0 <= j < 8 -> u8 (Z.lor (Z.shiftl id 3) j) = 8 * id + j.
Proof.
  intros. rewrite Z.lor_comm, lor_shiftl_add; [|lia|unfold in_width; change (2 ^ 3) with 8; lia].
  change (2 ^ 3) with 8. rewrite wrap_small by width_lia. lia.
Qed.

Lemma read_write_loop ctrl mac key id js : forall s x,
  length (cam_hw s) = 256%nat -> 0 <= id < 32 -> Forall (fun j => 0 <= j < 8) js -> 0 <= x ->
  let s' := foldl (fun s j => rtw_sec_write_cam s (u8 (Z.shiftl id 3 + j)) (cam_word ctrl mac key j)) s js in
  rtw_sec_read_cam s' x = if bool_decide (x - 8 * id ∈ js) then cam_word ctrl mac key (x - 8 * id) else rtw_sec_read_cam s x.
Proof.
  induction js as [|j js IH]; intros s x Hl Hid Hjs Hx; cbn [foldl]; [done|].
  apply Forall_cons in Hjs as [Hj Hjs]. rewrite IH by (done || by rewrite length_write_cam). rewrite addr_add by done.
  rewrite read_write_cam by (done || lia). rewrite (bool_decide_ext _ _ (elem_of_cons js (x - 8 * id) j)).
  destruct (bool_decide (x - 8 * id ∈ js)) eqn:E.
  - apply bool_decide_eq_true in E. by rewrite bool_decide_true by tauto.
  - apply bool_decide_eq_false in E. destruct (Z.eqb_spec x (8 * id + j)) as [->|Hne].
    + rewrite bool_decide_true by (left; lia). by replace (8 * id + j - 8 * id) with j by lia.
    + rewrite bool_decide_false; [done|]. intros [?|?]; [lia|done].
Qed.

Lemma elem_of_8 k : k ∈ [7; 6; 5; 4; 3; 2; 1; 0] <-> 0 <= k < 8.
Proof. rewrite !elem_of_cons, elem_of_nil. lia. Qed.

Lemma read_write_ent s id ctrl mac key x :
  length (cam_hw s) = 256%nat -> 0 <= id < 32 -> 0 <= x ->
  rtw_sec_read_cam (rtw_sec_write_cam_ent s id ctrl mac key) x =
  if (8 * id <=? x) && (x <? 8 * id + 8) then cam_word ctrl mac key (x - 8 * id) else rtw_sec_read_cam s x.
Proof.
  intros Hl Hid Hx. unfold rtw_sec_write_cam_ent. rewrite read_write_loop; [|done|done|by repeat (constructor; [lia|])|done].
  rewrite (bool_decide_ext _ _ (elem_of_8 _)).
  case_bool_decide; destruct (Z.leb_spec (8 * id) x), (Z.ltb_spec x (8 * id + 8)); cbn [andb]; (done || lia).
Qed.

Lemma length_write_ent s id ctrl mac key : length (cam_hw (rtw_sec_write_cam_ent s id ctrl mac key)) = length (cam_hw s).
Proof. unfold rtw_sec_write_cam_ent. cbn [foldl]. by rewrite !length_write_cam. Qed.

(** What the hardware holds after an entry was written. *)
Lemma read_cam_ent_write s id ctrl mac key id' :
  length (cam_hw s) = 256%nat -> 0 <= id < 32 -> 0 <= id' < 32 -> is_u16 ctrl ->
  bytes mac -> length mac = 6%nat -> bytes key -> length key = 16%nat ->
  rtw_sec_read_cam_ent (rtw_sec_write_cam_ent s id ctrl mac key) id' =
  if id' =? id then mk_cam_ent ctrl mac key else rtw_sec_read_cam_ent s id'.
Proof.
  intros Hl Hid Hid' Hc Bm Lm Bk Lk.
  assert (W : forall j, 0 <= j < 8 ->
    rtw_sec_read_cam (rtw_sec_write_cam_ent s id ctrl mac key) (u8 (Z.lor (Z.shiftl id' 3) j)) =
    if id' =? id then cam_word ctrl mac key j else rtw_sec_read_cam s (u8 (Z.lor (Z.shiftl id' 3) j))).
  { intros j Hj. rewrite addr_lor, read_write_ent by (done || lia).
    destruct (Z.leb_spec (8 * id) (8 * id' + j)), (Z.ltb_spec (8 * id' + j) (8 * id + 8)), (Z.eqb_spec id' id);
      cbn [andb]; (done || lia || f_equal; lia). }
  unfold rtw_sec_read_cam_ent. rewrite !W by lia. destruct (id' =? id); [|done].
  destruct mac as [|m0 [|m1 [|m2 [|m3 [|m4 [|m5 [|]]]]]]]; try done.
  destruct key as [|k0 [|k1 [|k2 [|k3 [|k4 [|k5 [|k6 [|k7 [|k8 [|k9 [|k10 [|k11 [|k12 [|k13 [|k14 [|k15 [|]]]]]]]]]]]]]]]]]; try done.
  rewrite !Forall_cons in Bm. repeat rewrite Forall_cons in Bk. destruct_and!.
  set (mac := [m0; m1; m2; m3; m4; m5]). set (key := [k0; k1; k2; k3; k4; k5; k6; k7; k8; k9; k10; k11; k12; k13; k14; k15]).
  assert (W0 : le_enc 4 (cam_word ctrl mac key 0) = le_enc 2 ctrl ++ [m0; m1]) by (apply ctrl_word; done).
  assert (W1 : le_enc 4 (cam_word ctrl mac key 1) = [m2; m3; m4; m5]) by (apply or4_bytes; done).
  assert (W2 : le_enc 4 (cam_word ctrl mac key 2) = [k0; k1; k2; k3]) by (apply or4_bytes; done).
  assert (W3 : le_enc 4 (cam_word ctrl mac key 3) = [k4; k5; k6; k7]) by (apply or4_bytes; done).
  assert (W4 : le_enc 4 (cam_word ctrl mac key 4) = [k8; k9; k10; k11]) by (apply or4_bytes; done).
  assert (W5 : le_enc 4 (cam_word ctrl mac key 5) = [k12; k13; k14; k15]) by (apply or4_bytes; done).
  rewrite W0, W1, W2, W3, W4, W5, take_le_enc_app, drop_le_enc_app, le_dec_enc_small by done. reflexivity.
Qed.

(** ** The cache and the searches *)

Lemma cam_at_cache s e id id' :
  length (cam_cache s) = 32%nat -> 0 <= id < 32 -> 0 <= id' ->
  cam_at (s <| cam_cache := arr_set (cam_cache s) id e |>) id' = if id' =? id then e else cam_at s id'.
Proof.
  intros Hl Hid Hid'. unfold cam_at, arr_set. cbn. destruct (Z.eqb_spec id' id) as [->|Hne].
  - rewrite list_lookup_insert_eq by lia. done.
  - rewrite list_lookup_insert_ne by lia. done.
Qed.

Lemma first_id_spec num test :
  (0 <= first_id num test < num /\ test (first_id num test) = true) \/
  (first_id num test = -1 /\ forall i, 0 <= i < num -> test i = false).
Proof.
  unfold first_id. destruct (list_find _ (seqZ 0 num)) as [[k i]|] eqn:E.
  - left. apply list_find_Some in E as (Hi & Ht & _). apply lookup_seqZ in Hi as [-> Hk]. split; [lia|done].
  - right. split; [done|]. intros i Hi. apply list_find_None in E. rewrite Forall_forall in E.
    apply not_true_is_false, E, elem_of_seqZ. lia.
Qed.

(** The two outcomes of a search. *)
Ltac search_case id H :=
  match goal with
  | |- context [first_id ?n ?t] => pose proof (first_id_spec n t) as H; remember (first_id n t) as id eqn:Hfid; clear Hfid
  end.

Definition ent_valid (e : sec_cam_ent) : Prop := Z.testbit (ce_ctrl e) 15 = true.
Definition ent_kid (e : sec_cam_ent) : Z := Z.land (ce_ctrl e) 3.
Definition ent_gk (e : sec_cam_ent) : bool := Z.testbit (ce_ctrl e) 6.
Definition cam_is_used (s : cam_state) (id : Z) : bool := Z.testbit (cam_used s) id.
Definition chk_bmc (s : cam_state) : bool := _rtw_camctl_chk_cap s SEC_CAP_CHK_BMC.

Record ent_ok (e : sec_cam_ent) : Prop := {
  eo_valid : ent_valid e; eo_ctrl : is_u16 (ce_ctrl e);
  eo_mac : bytes (ce_mac e); eo_mac6 : length (ce_mac e) = 6%nat; eo_key : bytes (ce_key e); eo_key16 : length (ce_key e) = 16%nat }.

(** The entry a key of a station, or of a group, must not share with another. *)
Definition same_slot (s : cam_state) (e f : sec_cam_ent) : Prop :=
  ce_mac e = ce_mac f /\ ent_kid e = ent_kid f /\ (chk_bmc s = true -> ent_gk e = ent_gk f).

(** Entries below 4 are default keys, the others keys of addresses; the
    hardware holds the valid entries of the cache and no others. *)
Record cam_inv (s : cam_state) : Prop := {
  ci_num : 4 <= cam_num s <= 32;
  ci_cache : length (cam_cache s) = 32%nat;
  ci_words : length (cam_hw s) = 256%nat;
  ci_used : forall i, 0 <= i -> cam_is_used s i = true -> i < cam_num s /\ ent_valid (cam_at s i);
  ci_ent : forall i, 0 <= i < 32 -> cam_at s i = zero_ent \/ (ent_ok (cam_at s i) /\ i < cam_num s);
  ci_default : forall i, 0 <= i < 4 -> ent_valid (cam_at s i) -> ce_mac (cam_at s i) = null_addr /\ ent_kid (cam_at s i) = i /\ ent_gk (cam_at s i) = true;
  ci_addr : forall i, 4 <= i < 32 -> ent_valid (cam_at s i) -> ce_mac (cam_at s i) <> null_addr;
  ci_unique : forall i j, 4 <= i < 32 -> 4 <= j < 32 -> ent_valid (cam_at s i) -> ent_valid (cam_at s j) ->
    same_slot s (cam_at s i) (cam_at s j) -> i = j;
  ci_bmc : chk_bmc s = true -> forall i, 0 <= i < 32 -> ent_valid (cam_at s i) -> cam_is_used s i = true;
  ci_hw : forall i, 0 <= i < 32 ->
    rtw_sec_read_cam_ent s i = cam_at s i \/ (~ ent_valid (rtw_sec_read_cam_ent s i) /\ ~ ent_valid (cam_at s i)) }.

Lemma zero_not_valid : ~ ent_valid zero_ent.
Proof. done. Qed.

#[export] Hint Resolve zero_not_valid : vmac.

Lemma used_spec s id : cam_inv s -> 0 <= id < 32 -> _rtw_sec_camid_is_used s id = cam_is_used s id.
Proof.
  intros I Hid. unfold _rtw_sec_camid_is_used. rewrite is_set_bit by done.
  destruct (Z.leb_spec (cam_num s) id) as [Hge|]; [|done]. unfold cam_is_used.
  destruct (Z.testbit (cam_used s) id) eqn:E; [|done]. apply (ci_used s I) in E; lia.
Qed.

Lemma gk_spec s id : cam_inv s -> 0 <= id < cam_num s -> _rtw_camid_is_gk s id = cam_is_used s id && ent_gk (cam_at s id).
Proof.
  intros I Hid. pose proof (ci_num s I). unfold _rtw_camid_is_gk. rewrite used_spec by (done || lia).
  destruct (Z.leb_spec (cam_num s) id); [lia|]. destruct (cam_is_used s id); [|done]. cbn [negb andb].
  by rewrite land_one_bit, negb_involutive.
Qed.

(** A search with an address, from the test it runs. *)
Lemma chk_addr s id a kid gk : cam_cache_chk s id (Some a) kid gk = true <->
  ce_mac (cam_at s id) = a /\ (0 <= kid -> ent_kid (cam_at s id) = kid) /\ (gk <> -1 -> _rtw_camid_is_gk s id = negb (gk =? 0)).
Proof.
  unfold cam_cache_chk, ent_kid. destruct (bool_decide_reflect (ce_mac (cam_at s id) = a)) as [Hm|Hm]; cbn [negb].
  2: { split; [done|tauto]. }
  destruct (Z.leb_spec 0 kid), (Z.eqb_spec kid (Z.land (ce_ctrl (cam_at s id)) 3)), (Z.eqb_spec gk (-1)),
    (eqb (negb (gk =? 0)) (_rtw_camid_is_gk s id)) eqn:E; cbn [negb andb];
    rewrite ?eqb_true_iff, ?eqb_false_iff in E; (split; [try done; intros _; repeat split; intros; (done || lia || congruence)|intros (? & H1 & H2)]);
    try done; exfalso; try (specialize (H1 ltac:(lia)); lia); apply E; rewrite H2; done.
Qed.

(** An entry that is found by an address other than zero is valid. *)
Lemma found_valid s id a : cam_inv s -> 0 <= id < 32 -> a <> null_addr -> ce_mac (cam_at s id) = a -> ent_ok (cam_at s id) /\ 4 <= id < cam_num s.
Proof.
  intros I Hid Ha Hm. destruct (ci_ent s I id Hid) as [E|[V Hn]]; [rewrite E in Hm; cbn in Hm; congruence|].
  split; [done|]. destruct (Z.lt_ge_cases id 4); [|lia].
  destruct (ci_default s I id) as (E & _ & _); [lia|apply V|congruence].
Qed.

(** ** Effects of the basic writes *)

Definition cam_sized (s : cam_state) : Prop := length (cam_cache s) = 32%nat /\ length (cam_hw s) = 256%nat.

Lemma foldl_write_frame {A} (f : cam_state -> A) ws : (forall s l, f (s <| cam_hw := l |>) = f s) -> forall s (g : Z -> Z) (w : Z -> Z),
  f (foldl (fun s j => rtw_sec_write_cam s (g j) (w j)) s ws) = f s.
Proof. intros H. induction ws as [|j ws IH]; intros s g w; cbn [foldl]; [done|]. rewrite IH. apply H. Qed.

Lemma write_ent_frame {A} (f : cam_state -> A) s id c m k : (forall s l, f (s <| cam_hw := l |>) = f s) -> f (rtw_sec_write_cam_ent s id c m k) = f s.
Proof. intros H. by apply foldl_write_frame. Qed.

Lemma write_cam_sized s id c m k : cam_sized s -> cam_sized (write_cam s id c m k).
Proof.
  intros [Hc Hw]. split.
  - change (length (arr_set (cam_cache (rtw_sec_write_cam_ent s id c m k)) id (mk_cam_ent c (take 6 m) (take 16 k))) = 32%nat).
    rewrite length_arr_set, (write_ent_frame cam_cache) by done. done.
  - change (length (cam_hw (rtw_sec_write_cam_ent s id c m k)) = 256%nat). by rewrite length_write_ent.
Qed.

#[local] Opaque rtw_sec_write_cam_ent rtw_sec_read_cam_ent.

(** What a write does not touch. *)
Definition cam_rest (s : cam_state) := (sec_cap s, cam_num s, fw_state s, cam_bssid s, key_index s, enc_algo s, cam_calls s, cam_flags s).

Lemma write_cam_rest s id c m k : cam_rest (write_cam s id c m k) = cam_rest s /\ cam_used (write_cam s id c m k) = cam_used s.
Proof.
  unfold write_cam. generalize (write_ent_frame cam_rest s id c m k (fun _ _ => eq_refl)), (write_ent_frame cam_used s id c m k (fun _ _ => eq_refl)).
  generalize (rtw_sec_write_cam_ent s id c m k). intros t <- <-. done.
Qed.

Lemma at_write s id c m k i : cam_sized s -> 0 <= id < 32 -> 0 <= i -> length m = 6%nat -> length k = 16%nat ->
  cam_at (write_cam s id c m k) i = if i =? id then mk_cam_ent c m k else cam_at s i.
Proof.
  intros [Hc Hw] Hid Hi Hm Hk. unfold write_cam, write_cam_cache. rewrite cam_at_cache; [|by rewrite (write_ent_frame cam_cache)|done|done].
  rewrite !take_ge by lia. destruct (i =? id); [done|]. by apply (write_ent_frame (fun s => cam_at s i)).
Qed.

Lemma hw_write s id c m k i : cam_sized s -> 0 <= id < 32 -> 0 <= i < 32 -> is_u16 c ->
  bytes m -> length m = 6%nat -> bytes k -> length k = 16%nat ->
  rtw_sec_read_cam_ent (write_cam s id c m k) i = if i =? id then mk_cam_ent c m k else rtw_sec_read_cam_ent s i.
Proof. intros [Hc Hw] **. unfold write_cam, write_cam_cache. rewrite <- read_cam_ent_write by done. reflexivity. Qed.

Lemma clear_is_write s id : clear_cam_entry s id = write_cam s id 0 null_addr null_key.
Proof. reflexivity. Qed.

Lemma used_free s id i : 0 <= id < 32 -> 0 <= i -> id < cam_num s -> cam_is_used (rtw_camid_free s id) i = negb (i =? id) && cam_is_used s i.
Proof. intros Hid Hi Hn. unfold rtw_camid_free, cam_is_used. destruct (Z.ltb_spec id (cam_num s)); [|lia]. cbn. by apply clr_bit. Qed.

Lemma free_rest s id : cam_rest (rtw_camid_free s id) = cam_rest s /\ cam_cache (rtw_camid_free s id) = cam_cache s /\ cam_hw (rtw_camid_free s id) = cam_hw s.
Proof. unfold rtw_camid_free. by destruct (_ <? _). Qed.

Lemma used_set s id i : 0 <= id < 32 -> 0 <= i -> id < cam_num s -> cam_is_used (rtw_camid_set s id) i = (i =? id) || cam_is_used s i.
Proof. intros Hid Hi Hn. unfold rtw_camid_set, cam_is_used. destruct (Z.ltb_spec id (cam_num s)); [|lia]. cbn. by apply set_bit. Qed.

Lemma set_rest s id : cam_rest (rtw_camid_set s id) = cam_rest s /\ cam_cache (rtw_camid_set s id) = cam_cache s /\ cam_hw (rtw_camid_set s id) = cam_hw s.
Proof. unfold rtw_camid_set. by destruct (_ <? _). Qed.

(** Two states with the same entries, words, bits and capabilities. *)
Record cam_like (s t : cam_state) : Prop := {
  cl_sized : cam_sized t; cl_num : cam_num t = cam_num s; cl_cap : sec_cap t = sec_cap s;
  cl_used : forall i, 0 <= i -> cam_is_used t i = cam_is_used s i;
  cl_at : forall i, 0 <= i < 32 -> cam_at t i = cam_at s i;
  cl_hw : forall i, 0 <= i < 32 -> rtw_sec_read_cam_ent t i = rtw_sec_read_cam_ent s i }.

(** [t] is [s] with the entry [id] replaced, whatever its bit. *)
Record cam_put (s t : cam_state) (id : Z) (e : sec_cam_ent) : Prop := {
  cp_sized : cam_sized t; cp_num : cam_num t = cam_num s; cp_cap : sec_cap t = sec_cap s;
  cp_used : forall i, 0 <= i -> i <> id -> cam_is_used t i = cam_is_used s i;
  cp_at : forall i, 0 <= i < 32 -> cam_at t i = if i =? id then e else cam_at s i;
  cp_hw : forall i, 0 <= i < 32 -> rtw_sec_read_cam_ent t i = if i =? id then e else rtw_sec_read_cam_ent s i }.

Lemma inv_sized s : cam_inv s -> cam_sized s.
Proof. intros I. split; apply I. Qed.

Lemma rest_num s t : cam_rest t = cam_rest s -> cam_num t = cam_num s /\ sec_cap t = sec_cap s.
Proof. unfold cam_rest. intros H. injection H. done. Qed.

(** Writing an entry, with any change of its own bit. *)
Lemma write_put s u id c m k :
  cam_sized s -> 0 <= id < 32 -> is_u16 c -> bytes m -> length m = 6%nat -> bytes k -> length k = 16%nat ->
  (forall i, 0 <= i -> i <> id -> Z.testbit u i = cam_is_used s i) ->
  cam_put s ((write_cam s id c m k) <| cam_used := u |>) id (mk_cam_ent c m k).
Proof.
  intros Hs Hid Hc Bm Lm Bk Lk Hu. destruct (write_cam_rest s id c m k) as [R _]. apply rest_num in R as [Rn Rc].
  pose proof (write_cam_sized s id c m k Hs) as Hsz. pose proof (fun i => at_write s id c m k i) as E. pose proof (fun i => hw_write s id c m k i) as Ew.
  cbn zeta in E. revert Rn Rc Hsz E Ew. generalize (write_cam s id c m k). intros t Rn Rc Hsz E Ew. split; try done.
  - intros i Hi. etransitivity; [|apply E; (done || lia)]. reflexivity.
  - intros i Hi. etransitivity; [|by apply Ew]. reflexivity.
Qed.

Lemma put_bmc s t id e : cam_put s t id e -> chk_bmc t = chk_bmc s.
Proof. intros P. unfold chk_bmc, _rtw_camctl_chk_cap. by rewrite (cp_cap _ _ _ _ P). Qed.

Lemma zero_not_ok : ~ ent_ok zero_ent.
Proof. intros [V _ _ _ _ _]. done. Qed.

Lemma same_slot_sym s e f : same_slot s e f -> same_slot s f e.
Proof. intros (H1 & H2 & H3). split; [done|]. split; [done|]. intros H. symmetry. auto. Qed.

(** A new entry that respects its place and shares it with no other. *)
Record ent_fits (s : cam_state) (id : Z) (e : sec_cam_ent) : Prop := {
  ef_ok : ent_ok e;
  ef_default : id < 4 -> ce_mac e = null_addr /\ ent_kid e = id /\ ent_gk e = true;
  ef_addr : 4 <= id -> ce_mac e <> null_addr;
  ef_unique : 4 <= id -> forall j, 4 <= j < 32 -> j <> id -> ent_valid (cam_at s j) -> ~ same_slot s e (cam_at s j) }.

Lemma put_inv s t id e :
  cam_inv s -> 0 <= id < cam_num s -> cam_put s t id e ->
  (e = zero_ent /\ cam_is_used t id = false) \/ (ent_fits s id e /\ (chk_bmc s = true -> cam_is_used t id = true)) -> cam_inv t.
Proof.
  intros I Hid P He. pose proof (ci_num s I) as Hn. pose proof (put_bmc _ _ _ _ P) as Hb.
  assert (Hat : forall i, 0 <= i < 32 -> cam_at t i = if i =? id then e else cam_at s i) by apply P.
  split; try apply P.
  - by rewrite (cp_num _ _ _ _ P).
  - intros i Hi Hu. rewrite (cp_num _ _ _ _ P). destruct (Z.eq_dec i id) as [->|Hne].
    + split; [lia|]. rewrite Hat, Z.eqb_refl by lia. destruct He as [[_ E]|[F _]]; [congruence|apply F].
    + rewrite (cp_used _ _ _ _ P) in Hu by done. destruct (ci_used s I i Hi Hu) as [Hl V]. split; [done|].
      rewrite Hat by lia. by destruct (Z.eqb_spec i id).
  - intros i Hi. rewrite Hat, (cp_num _ _ _ _ P) by done. destruct (Z.eqb_spec i id) as [->|Hne]; [|by apply ci_ent].
    destruct He as [[-> _]|[F _]]; [by left|]. right. split; [apply F|lia].
  - intros i Hi. rewrite Hat by lia. destruct (Z.eqb_spec i id) as [->|Hne]; [|by apply ci_default].
    intros V. destruct He as [[-> _]|[F _]]; [done|]. apply F. lia.
  - intros i Hi. rewrite Hat by lia. destruct (Z.eqb_spec i id) as [->|Hne]; [|by apply ci_addr].
    intros V. destruct He as [[-> _]|[F _]]; [done|]. apply F. lia.
  - intros i j Hi Hj. rewrite !Hat by lia. unfold same_slot. rewrite Hb.
    destruct (Z.eqb_spec i id) as [->|Hni], (Z.eqb_spec j id) as [->|Hnj]; [done| | |by apply ci_unique]; intros V W S;
      destruct He as [[-> _]|[F _]]; try done; exfalso.
    + by apply (ef_unique s id e F (proj1 Hi) j Hj Hnj W).
    + by apply (ef_unique s id e F (proj1 Hj) i Hi Hni V), same_slot_sym.
  - intros B i Hi. rewrite Hb in B. rewrite Hat by done. destruct (Z.eqb_spec i id) as [->|Hne].
    + intros V. destruct He as [[-> _]|[_ U]]; [done|auto].
    + intros V. rewrite (cp_used _ _ _ _ P) by lia. by apply ci_bmc.
  - intros i Hi. rewrite Hat, (cp_hw _ _ _ _ P) by done. destruct (i =? id); [by left|by apply ci_hw].
Qed.

(** Clearing and freeing an entry. *)
Lemma clear_put s id : cam_sized s -> 0 <= id < 32 -> id < cam_num s ->
  let t := rtw_camid_free (clear_cam_entry s id) id in cam_put s t id zero_ent /\ cam_is_used t id = false /\ cam_rest t = cam_rest s.
Proof.
  intros Hs Hid Hn t. destruct (write_cam_rest s id 0 null_addr null_key) as [R U].
  assert (Et : t = (write_cam s id 0 null_addr null_key) <| cam_used := rtw_sec_cam_map_clr (cam_used s) id |>).
  { unfold t, rtw_camid_free. rewrite clear_is_write, (proj1 (rest_num _ _ R)). destruct (Z.ltb_spec id (cam_num s)); [|lia]. by rewrite U. }
  assert (Hu : forall i, 0 <= i -> cam_is_used t i = negb (i =? id) && cam_is_used s i).
  { intros i Hi. rewrite Et. by apply clr_bit. }
  split; [|split].
  - rewrite Et. apply write_put; try done; [by repeat constructor|by repeat constructor|].
    intros i Hi Hne. rewrite clr_bit by lia. by destruct (Z.eqb_spec i id).
  - rewrite Hu by lia. by rewrite Z.eqb_refl.
  - rewrite Et. rewrite <- R. reflexivity.
Qed.

Lemma clear_inv s id : cam_inv s -> 0 <= id < cam_num s -> cam_inv (rtw_camid_free (clear_cam_entry s id) id).
Proof.
  intros I Hid. pose proof (ci_num s I). destruct (clear_put s id) as (P & U & _); [by apply inv_sized|lia|lia|].
  eapply put_inv; [done|done|exact P|by left].
Qed.

(** ** Clearing the keys of an address *)

Definition key_of (s : cam_state) (a : list Z) (gk i : Z) : bool := (0 <=? i) && (i <? cam_num s) && cam_cache_chk s i (Some a) (-1) gk.

Definition keys_left (s : cam_state) (a : list Z) (gk : Z) : nat := length (filter (fun i => key_of s a gk i = true) (seqZ 0 (cam_num s))).

(** [t] is [s] without the entries of [a] that a search with [gk] finds. *)
Record cam_cleared (s t : cam_state) (a : list Z) (gk : Z) : Prop := {
  cc_rest : cam_rest t = cam_rest s;
  cc_used : forall i, 0 <= i < 32 -> cam_is_used t i = negb (key_of s a gk i) && cam_is_used s i;
  cc_at : forall i, 0 <= i < 32 -> cam_at t i = if key_of s a gk i then zero_ent else cam_at s i;
  cc_hw : forall i, 0 <= i < 32 -> rtw_sec_read_cam_ent t i = if key_of s a gk i then zero_ent else rtw_sec_read_cam_ent s i }.

Lemma key_of_cleared s a gk id i :
  cam_inv s -> a <> null_addr -> gk = -1 \/ gk = 1 -> 0 <= id < cam_num s ->
  key_of (rtw_camid_free (clear_cam_entry s id) id) a gk i = negb (i =? id) && key_of s a gk i.
Proof.
  intros I Ha Hgk Hid. pose proof (ci_num s I). destruct (clear_put s id) as (P & U & _); [by apply inv_sized|lia|lia|].
  set (t := rtw_camid_free _ _) in *. unfold key_of. rewrite (cp_num _ _ _ _ P).
  destruct (Z.leb_spec 0 i), (Z.ltb_spec i (cam_num s)); cbn [andb]; rewrite ?andb_false_r; try done.
  assert (It : cam_inv t) by (by apply clear_inv).
  destruct (Z.eqb_spec i id) as [->|Hne]; cbn [negb andb].
  - apply not_true_is_false. rewrite chk_addr, (cp_at _ _ _ _ P), Z.eqb_refl by lia. cbn. intros [E _]. congruence.
  - apply eq_true_iff_eq. rewrite !chk_addr. rewrite !gk_spec by (done || rewrite ?(cp_num _ _ _ _ P); lia).
    rewrite (cp_at _ _ _ _ P), (cp_used _ _ _ _ P) by (done || lia). by destruct (Z.eqb_spec i id).
Qed.

Lemma clear_keys_spec fuel a gk : a <> null_addr -> gk = -1 \/ gk = 1 -> forall s,
  cam_inv s -> (keys_left s a gk < fuel)%nat ->
  exists t, clear_keys fuel s a gk = Some t /\ cam_inv t /\ cam_cleared s t a gk.
Proof.
  intros Ha Hgk. induction fuel as [|fuel IH]; intros s I Hf; [lia|]. cbn [clear_keys]. unfold _rtw_camid_search.
  pose proof (first_id_spec (cam_num s) (fun i => cam_cache_chk s i (Some a) (-1) gk)) as H. set (id := first_id _ _) in *. clearbody id.
  destruct H as [[Hid Hc]|[-> Hno]].
  - destruct (Z.leb_spec 0 id); [|lia]. pose proof (ci_num s I).
    set (t := rtw_camid_free (clear_cam_entry s id) id).
    destruct (clear_put s id) as (P & U & R); [by apply inv_sized|lia|lia|]. fold t in P, U, R.
    assert (It : cam_inv t) by (by apply clear_inv).
    assert (Hk : forall i, key_of t a gk i = negb (i =? id) && key_of s a gk i) by (intros; by apply key_of_cleared).
    assert (Kid : key_of s a gk id = true) by (unfold key_of; rewrite Hc, andb_true_r; apply andb_true_iff; split; [apply Z.leb_le|apply Z.ltb_lt]; lia).
    destruct (IH t It) as (t' & E & It' & C).
    { unfold keys_left in *. rewrite (cp_num _ _ _ _ P).
      assert (Hfilter : filter (fun i => key_of t a gk i = true) (seqZ 0 (cam_num s)) =
                filter (fun i => i <> id) (filter (fun i => key_of s a gk i = true) (seqZ 0 (cam_num s)))).
      { rewrite list_filter_filter. apply list_filter_iff. intros i. rewrite Hk, andb_true_iff, negb_true_iff, Z.eqb_neq. done. }
      rewrite Hfilter. eapply Nat.lt_le_trans; [|apply Nat.lt_succ_r; exact Hf].
      apply (length_filter_lt _ _ id); [|tauto]. apply list_elem_of_filter. split; [done|]. apply elem_of_seqZ. lia. }
    exists t'. split; [done|]. split; [done|]. destruct C as [Cr Cu Ca Ch]. split; [by rewrite Cr| | |]; intros i Hi.
    + rewrite Cu, Hk by done. destruct (Z.eqb_spec i id) as [->|Hne]; cbn [negb andb]; [by rewrite U, Kid|].
      by rewrite (cp_used _ _ _ _ P) by (done || lia).
    + rewrite Ca, Hk, (cp_at _ _ _ _ P) by done. destruct (Z.eqb_spec i id) as [->|Hne]; cbn [negb andb]; [by rewrite Kid|done].
    + rewrite Ch, Hk, (cp_hw _ _ _ _ P) by done. destruct (Z.eqb_spec i id) as [->|Hne]; cbn [negb andb]; [by rewrite Kid|done].
  - exists s. split; [done|]. split; [done|].
    assert (Hk : forall i, key_of s a gk i = false).
    { intros i. unfold key_of. destruct (Z.leb_spec 0 i), (Z.ltb_spec i (cam_num s)); cbn [andb]; try done. apply Hno. lia. }
    split; [done| | |]; intros i Hi; by rewrite Hk.
Qed.

(** The fuel of the handlers is enough. *)
Lemma clear_keys_ends s a gk : a <> null_addr -> gk = -1 \/ gk = 1 -> cam_inv s ->
  exists t, clear_keys CAM_FUEL s a gk = Some t /\ cam_inv t /\ cam_cleared s t a gk.
Proof.
  intros Ha Hgk I. apply clear_keys_spec; [done|done|done|]. unfold keys_left, CAM_FUEL.
  pose proof (length_filter (fun i => key_of s a gk i = true) (seqZ 0 (cam_num s))) as H. rewrite length_seqZ in H. pose proof (ci_num s I). lia.
Qed.

(** ** The key memory: the handlers keep its invariant *)

#[local] Opaque rtw_sec_write_cam_ent rtw_sec_read_cam_ent.

(** ** The entry of a key *)

Lemma get_camid_spec s sta a kid : cam_inv s -> a <> null_addr -> 0 <= kid < 4 ->
  let id := rtw_get_camid s sta (Some a) kid in
  let gk := if _rtw_camctl_chk_cap s SEC_CAP_CHK_BMC then if sta then 0 else 1 else -1 in
  (id = -1 /\ forall i, 4 <= i < cam_num s -> cam_is_used s i = true) \/
  (4 <= id < cam_num s /\ cam_cache_chk s id (Some a) kid gk = true) \/
  (4 <= id < cam_num s /\ cam_is_used s id = false /\ forall i, 0 <= i < cam_num s -> cam_cache_chk s i (Some a) kid gk = false).
Proof.
  intros I Ha Hk. cbn zeta. pose proof (ci_num s I) as Hn. unfold rtw_get_camid, _rtw_camid_search.
  set (gk := if _rtw_camctl_chk_cap s SEC_CAP_CHK_BMC then if sta then 0 else 1 else -1).
  pose proof (first_id_spec (cam_num s) (fun i => cam_cache_chk s i (Some a) kid gk)) as H1.
  set (f := first_id _ _) in *. clearbody f. destruct H1 as [[Hf Hc]|[-> Hno]].
  - destruct (Z.leb_spec 0 f); [|lia]. right; left. split; [|done].
    apply chk_addr in Hc as (Hm & _). eapply found_valid; [done|lia|exact Ha|done].
  - cbn [Z.leb Z.compare].
    pose proof (first_id_spec (cam_num s) (fun i => (4 <=? i) && negb (_rtw_sec_camid_is_used s i))) as H2.
    set (g := first_id _ _) in *. clearbody g. destruct H2 as [[Hg Hc]|[-> Hall]].
    + bool_hyps. rewrite used_spec in * by (done || lia). right; right. split; [lia|done].
    + left. split; [done|]. intros i Hi. specialize (Hall i ltac:(lia)). rewrite used_spec in Hall by (done || lia).
      destruct (Z.leb_spec 4 i); [|lia]. by destruct (cam_is_used s i).
Qed.

Lemma camid_fits s sta a kid e : cam_inv s -> a <> null_addr -> 0 <= kid < 4 -> 0 <= rtw_get_camid s sta (Some a) kid ->
  ent_ok e -> ce_mac e = a -> ent_kid e = kid -> ent_gk e = negb sta ->
  4 <= rtw_get_camid s sta (Some a) kid < cam_num s /\ ent_fits s (rtw_get_camid s sta (Some a) kid) e.
Proof.
  intros I Ha Hk Hid Ho Hm Hkid Hgk. pose proof (ci_num s I) as Hn. pose proof (get_camid_spec s sta a kid I Ha Hk) as H. cbn zeta in H.
  set (id := rtw_get_camid _ _ _ _) in *. clearbody id.
  set (gk := if _rtw_camctl_chk_cap s SEC_CAP_CHK_BMC then if sta then 0 else 1 else -1) in *.
  assert (Hg : chk_bmc s = true -> negb (gk =? 0) = negb sta) by (unfold chk_bmc, gk; intros ->; by destruct sta).
  assert (Hg1 : gk <> -1 <-> chk_bmc s = true).
  { unfold chk_bmc, gk. destruct (_rtw_camctl_chk_cap s _); [destruct sta; split; (done || lia)|split; [lia|done]]. }
  assert (Hr : 4 <= id < cam_num s) by (destruct H as [[-> _]|[[? _]|[? _]]]; [lia|done|done]).
  split; [done|]. split; [done|lia|intros _; congruence|]. intros _ j Hj Hne V S. destruct S as (Sm & Sk & Sg).
  destruct (ci_ent s I j ltac:(lia)) as [E|[Oj Hjn]]; [rewrite E in V; done|].
  destruct H as [[-> _]|[[_ C]|(_ & _ & Hno)]]; [lia| |].
  - apply chk_addr in C as (Cm & Ck & Cg). apply Hne. symmetry.
    destruct (found_valid s id a I ltac:(lia) Ha Cm) as [Oi _].
    apply (ci_unique s I id j ltac:(lia) ltac:(lia)); [apply Oi|done|]. split; [congruence|]. split; [rewrite Ck by lia; congruence|].
    intros B. rewrite <- Sg, Hgk by done. specialize (Cg (proj2 Hg1 B)). rewrite Hg in Cg by done.
    rewrite gk_spec, (ci_bmc s I B id) in Cg by (done || lia || apply Oi). done.
  - specialize (Hno j ltac:(lia)). apply not_true_iff_false in Hno. apply Hno, chk_addr. split; [congruence|]. split; [intros _; congruence|].
    intros B%Hg1. rewrite gk_spec, (ci_bmc s I B j), Hg by (done || lia). rewrite <- Sg by done. done.
Qed.

(** ** Control words *)

Definition stakey_ctrl (alg kid : Z) : Z := u16 (Z.lor (Z.lor (bit 15) (Z.shiftl alg 2)) kid).
Definition grpkey_ctrl (alg kid : Z) : Z := u16 (Z.lor (Z.lor (Z.lor (bit 15) (bit 6)) (Z.shiftl alg 2)) kid).

Definition ctrl_good (c kid : Z) (gk : bool) : bool :=
  Z.testbit c 15 && eqb (Z.testbit c 6) gk && (Z.land c 3 =? kid).

Lemma ctrl_table : forallb (fun alg => forallb (fun kid => ctrl_good (stakey_ctrl alg kid) kid false && ctrl_good (grpkey_ctrl alg kid) kid true)
  (seqZ 0 4)) (seqZ 0 16) = true.
Proof. vm_compute. reflexivity. Qed.

Lemma ctrl_facts alg kid : 0 <= alg < 16 -> 0 <= kid < 4 ->
  ctrl_good (stakey_ctrl alg kid) kid false = true /\ ctrl_good (grpkey_ctrl alg kid) kid true = true.
Proof.
  intros Ha Hk. pose proof ctrl_table as T. rewrite forallb_forall in T.
  specialize (T alg ltac:(apply list_elem_of_In, elem_of_seqZ; lia)). rewrite forallb_forall in T.
  specialize (T kid ltac:(apply list_elem_of_In, elem_of_seqZ; lia)). by apply andb_true_iff in T.
Qed.

Lemma ent_of_ctrl c kid gk m k : ctrl_good c kid gk = true -> is_u16 c -> bytes m -> length m = 6%nat -> bytes k -> length k = 16%nat ->
  ent_ok (mk_cam_ent c m k) /\ ent_kid (mk_cam_ent c m k) = kid /\ ent_gk (mk_cam_ent c m k) = gk.
Proof.
  unfold ctrl_good. intros H **. apply andb_true_iff in H as [H Hk]. apply andb_true_iff in H as [Hv Hg].
  apply Z.eqb_eq in Hk. apply eqb_prop in Hg. done.
Qed.

(** ** Irrelevant changes *)

Lemma like_inv s t : cam_inv s -> cam_like s t -> cam_inv t.
Proof.
  intros I L. pose proof (ci_num s I) as Hn. assert (Hb : chk_bmc t = chk_bmc s) by (unfold chk_bmc, _rtw_camctl_chk_cap; by rewrite (cl_cap _ _ L)).
  pose proof (cl_at _ _ L) as Ha. pose proof (cl_num _ _ L) as Hnum.
  split; try apply L; rewrite ?Hnum; [done| | | | | | |].
  - intros i Hi. rewrite (cl_used _ _ L) by done. intros Hu. destruct (ci_used s I i Hi Hu). rewrite Ha by lia. done.
  - intros i Hi. rewrite Ha by done. by apply ci_ent.
  - intros i Hi. rewrite Ha by lia. by apply ci_default.
  - intros i Hi. rewrite Ha by lia. by apply ci_addr.
  - intros i j Hi Hj. rewrite !Ha by lia. unfold same_slot. rewrite Hb. by apply ci_unique.
  - intros B i Hi. rewrite Ha, (cl_used _ _ L) by lia. rewrite Hb in B. by apply ci_bmc.
  - intros i Hi. rewrite Ha, (cl_hw _ _ L) by lia. by apply ci_hw.
Qed.

Lemma like_of_parts s t : cam_sized s -> cam_num t = cam_num s -> sec_cap t = sec_cap s -> cam_used t = cam_used s ->
  cam_cache t = cam_cache s -> cam_hw t = cam_hw s -> cam_like s t.
Proof.
  intros [Hc Hh] En Es Eu Ec Eh. split; [split; congruence|done|done|by unfold cam_is_used; rewrite Eu| |].
  - intros i _. unfold cam_at. by rewrite Ec.
  - intros i _. Transparent rtw_sec_read_cam_ent. unfold rtw_sec_read_cam_ent, rtw_sec_read_cam. by rewrite Eh.
Qed.
#[local] Opaque rtw_sec_read_cam_ent.

(** Writing an entry of a state that differs from [s] in the bit of the entry. *)
Lemma write_near s s1 id c m k :
  cam_sized s1 -> cam_num s1 = cam_num s -> sec_cap s1 = sec_cap s ->
  (forall i, 0 <= i -> i <> id -> cam_is_used s1 i = cam_is_used s i) ->
  (forall i, 0 <= i < 32 -> i <> id -> cam_at s1 i = cam_at s i) ->
  (forall i, 0 <= i < 32 -> i <> id -> rtw_sec_read_cam_ent s1 i = rtw_sec_read_cam_ent s i) ->
  0 <= id < 32 -> is_u16 c -> bytes m -> length m = 6%nat -> bytes k -> length k = 16%nat ->
  let t := write_cam s1 id c m k in
  cam_put s t id (mk_cam_ent c m k) /\ cam_is_used t id = cam_is_used s1 id.
Proof.
  intros Hs Hn Hc Hu Ha Hh Hid Hc16 Bm Lm Bk Lk t. destruct (write_cam_rest s1 id c m k) as [R U]. apply rest_num in R as [Rn Rc].
  assert (Ut : forall i, cam_is_used t i = cam_is_used s1 i) by (intros i; unfold t, cam_is_used; by rewrite U).
  split; [|apply Ut]. split; [by apply write_cam_sized|by rewrite <- Hn|by rewrite <- Hc| | |].
  - intros i Hi Hne. by rewrite Ut, Hu.
  - intros i Hi. unfold t. rewrite at_write by (done || lia). destruct (Z.eqb_spec i id); [done|by apply Ha].
  - intros i Hi. unfold t. rewrite hw_write by done. destruct (Z.eqb_spec i id); [done|by apply Hh].
Qed.

Lemma set_used_state s id : cam_sized s -> 0 <= id < 32 ->
  let s1 := s <| cam_used := rtw_sec_cam_map_set (cam_used s) id |> in
  cam_sized s1 /\ cam_num s1 = cam_num s /\ sec_cap s1 = sec_cap s /\
  (forall i, 0 <= i -> cam_is_used s1 i = (i =? id) || cam_is_used s i) /\
  (forall i, cam_at s1 i = cam_at s i) /\ (forall i, rtw_sec_read_cam_ent s1 i = rtw_sec_read_cam_ent s i).
Proof.
  intros Hs Hid s1. split; [done|]. split; [done|]. split; [done|]. split; [intros i Hi; by apply set_bit|]. split; [done|].
  intros i. Transparent rtw_sec_read_cam_ent. done.
Qed.
#[local] Opaque rtw_sec_read_cam_ent.

(** A bit set on an entry in use changes nothing. *)
Lemma set_used_like s id : cam_inv s -> 0 <= id < 32 -> cam_is_used s id = true -> cam_like s (s <| cam_used := rtw_sec_cam_map_set (cam_used s) id |>).
Proof.
  intros I Hid U. destruct (set_used_state s id (inv_sized s I) Hid) as (Z1 & Z2 & Z3 & Z4 & Z5 & Z6).
  split; [done|done|done| |intros; apply Z5|intros; apply Z6]. intros i Hi. rewrite Z4 by done. destruct (Z.eqb_spec i id) as [->|]; [by rewrite U|done].
Qed.

(** Taking an entry and writing it. *)
Lemma alloc_put s id c m k : cam_inv s -> 0 <= id < 32 -> ent_ok (mk_cam_ent c m k) ->
  let t := write_cam (s <| cam_used := rtw_sec_cam_map_set (cam_used s) id |>) id c m k in
  cam_put s t id (mk_cam_ent c m k) /\ cam_is_used t id = true.
Proof.
  intros I Hid [V C M M6 K K16] t. destruct (set_used_state s id (inv_sized s I) Hid) as (Z1 & Z2 & Z3 & Z4 & Z5 & Z6).
  destruct (write_near s _ id c m k Z1 Z2 Z3) as [P U]; [|by intros; apply Z5|by intros; apply Z6|done|done|done|done|done|done|].
  { intros i Hi Hne. rewrite Z4 by done. by destruct (Z.eqb_spec i id). }
  split; [exact P|]. rewrite Z4, Z.eqb_refl in U by lia. exact U.
Qed.

Lemma cam_alloc_inv s id c m k : cam_inv s -> 0 <= id < cam_num s -> ent_fits s id (mk_cam_ent c m k) ->
  cam_inv (write_cam (s <| cam_used := rtw_sec_cam_map_set (cam_used s) id |>) id c m k).
Proof.
  intros I Hid F. pose proof (ci_num s I). destruct (alloc_put s id c m k I ltac:(lia) (ef_ok _ _ _ F)) as [P U].
  eapply put_inv; [exact I|exact Hid|exact P|]. right. split; [exact F|]. intros _. exact U.
Qed.

Section Hdl.

Context (rtw_get_stainfo : list Z -> option (list Z)).

Record stakey_ok (p : set_stakey_parm) : Prop := {
  ko_addr : bytes (sk_addr p); ko_addr6 : length (sk_addr p) = 6%nat; ko_nonzero : sk_addr p <> null_addr;
  ko_key : bytes (sk_key p); ko_key16 : length (sk_key p) = 16%nat; ko_alg : 0 <= sk_algorithm p < 16; ko_keyid : 0 <= sk_keyid p < 4;
  ko_wep : is_wep (sk_algorithm p) = false -> sk_keyid p = 0;
  ko_sta : forall m, rtw_get_stainfo (sk_addr p) = Some m -> m = sk_addr p }.

Definition stakey_ent (p : set_stakey_parm) : sec_cam_ent := mk_cam_ent (stakey_ctrl (sk_algorithm p) (sk_keyid p)) (sk_addr p) (sk_key p).

Lemma stakey_ent_ok p : stakey_ok p -> ent_ok (stakey_ent p) /\ ent_kid (stakey_ent p) = sk_keyid p /\ ent_gk (stakey_ent p) = false.
Proof.
  intros []. apply ent_of_ctrl; try done; [by apply ctrl_facts|]. apply wrap_range. lia.
Qed.

(** The entry a key was written to, and what else may have changed. *)
Record key_written (s t : cam_state) (id : Z) (e : sec_cam_ent) : Prop := {
  kw_slot : 4 <= id < cam_num s;
  kw_was : ce_mac (cam_at s id) = ce_mac e \/ cam_is_used s id = false;
  kw_num : cam_num t = cam_num s;
  kw_cap : sec_cap t = sec_cap s;
  kw_at : cam_at t id = e;
  kw_hw : rtw_sec_read_cam_ent t id = e;
  kw_rest : forall i, 0 <= i < 32 -> i <> id -> ce_mac (cam_at s i) <> ce_mac e ->
    cam_at t i = cam_at s i /\ rtw_sec_read_cam_ent t i = rtw_sec_read_cam_ent s i /\ cam_is_used t i = cam_is_used s i }.

Lemma fits_sub s s2 id e : ent_fits s id e -> chk_bmc s2 = chk_bmc s ->
  (forall j, 0 <= j < 32 -> ent_valid (cam_at s2 j) -> cam_at s2 j = cam_at s j) -> ent_fits s2 id e.
Proof.
  intros F B H. split; try apply F. intros Hid j Hj Hne V S. pose proof (H j ltac:(lia) V) as E. rewrite E in V, S.
  apply (ef_unique s id e F Hid j Hj Hne V). unfold same_slot in *. by rewrite <- B.
Qed.

(** The pairwise key of an address that has a group key with its identifier. *)
Lemma clash_spec s p id : cam_inv s -> stakey_ok p -> 0 <= id < cam_num s -> cam_is_used s id = true ->
  let s1 := s <| cam_used := rtw_sec_cam_map_set (cam_used s) id |> in
  exists s2, pk_gk_clash s1 (sk_addr p) = Some s2 /\ cam_inv s2 /\ cam_num s2 = cam_num s /\ sec_cap s2 = sec_cap s /\
    (forall i, 0 <= i < 32 -> ent_valid (cam_at s2 i) -> cam_at s2 i = cam_at s i) /\
    (forall i, 0 <= i < 32 -> ce_mac (cam_at s i) <> sk_addr p ->
      cam_at s2 i = cam_at s i /\ rtw_sec_read_cam_ent s2 i = rtw_sec_read_cam_ent s i /\ cam_is_used s2 i = cam_is_used s i).
Proof.
  intros I K Hid U s1. pose proof (ci_num s I) as Hn. pose proof K as [].
  assert (L : cam_like s s1) by (apply set_used_like; [done|lia|done]).
  set (s1' := cam_note (rtw_camctl_set_flags s1 SEC_STATUS_STA_PK_GK_CONFLICT_DIS_BMC_SEARCH) SecCfg).
  assert (L' : cam_like s s1').
  { destruct L. by split. }
  pose proof (like_inv s s1' I L') as I1.
  destruct (clear_keys_ends s1' (sk_addr p) 1) as (s2 & E & I2 & C); [done|by right|done|].
  pose proof (rest_num _ _ (cc_rest _ _ _ _ C)) as [Rn Rc].
  exists s2. split; [exact E|]. split; [done|]. split; [by rewrite Rn; apply L'|]. split; [by rewrite Rc; apply L'|]. split.
  - intros i Hi. rewrite (cc_at _ _ _ _ C), (cl_at _ _ L') by done. by destruct (key_of _ _ _ _).
  - intros i Hi Hm. assert (Hk : key_of s1' (sk_addr p) 1 i = false).
    { apply not_true_is_false. unfold key_of. rewrite !andb_true_iff. intros [_ [H _]%chk_addr]. by rewrite (cl_at _ _ L') in H. }
    rewrite (cc_at _ _ _ _ C), (cc_hw _ _ _ _ C), (cc_used _ _ _ _ C), Hk by done.
    by rewrite (cl_at _ _ L'), (cl_hw _ _ L'), (cl_used _ _ L') by (done || lia).
Qed.

(** Writing a pairwise key into the entry [rtw_get_camid] gave. *)
Lemma stakey_write s p : cam_inv s -> stakey_ok p ->
  let id := rtw_get_camid s true (Some (sk_addr p)) (sk_keyid p) in 0 <= id ->
  let s1 := s <| cam_used := rtw_sec_cam_map_set (cam_used s) id |> in
  exists s2, (if cam_is_used s id && _rtw_camid_is_gk s1 id then pk_gk_clash s1 (sk_addr p) else Some s1) = Some s2 /\
    let t := write_cam s2 id (stakey_ctrl (sk_algorithm p) (sk_keyid p)) (sk_addr p) (sk_key p) in
    cam_inv t /\ key_written s t id (stakey_ent p).
Proof.
  intros I K id Hid s1. pose proof (ci_num s I) as Hn. destruct (stakey_ent_ok p K) as (Eo & Ek & Eg). pose proof K as [].
  destruct (camid_fits s true (sk_addr p) (sk_keyid p) (stakey_ent p) I) as [Hr F]; try done. fold id in Hr, F.
  pose proof (get_camid_spec s true (sk_addr p) (sk_keyid p) I ko_nonzero0 ko_keyid0) as G. cbn zeta in G. fold id in G.
  assert (Hwas : ce_mac (cam_at s id) = sk_addr p \/ cam_is_used s id = false).
  { destruct G as [[E _]|[[_ C]|(_ & U & _)]]; [lia| |by right]. left. by apply chk_addr in C as [? _]. }
  destruct (set_used_state s id (inv_sized s I) ltac:(lia)) as (Z1 & Z2 & Z3 & Z4 & Z5 & Z6). fold s1 in Z1, Z2, Z3, Z4, Z5, Z6.
  assert (Hc16 : is_u16 (stakey_ctrl (sk_algorithm p) (sk_keyid p))) by apply Eo.
  destruct (cam_is_used s id && _rtw_camid_is_gk s1 id) eqn:Eclash.
  - apply andb_true_iff in Eclash as [U Gk].
    destruct (clash_spec s p id I K ltac:(lia) U) as (s2 & E & I2 & N2 & C2 & A2 & O2). exists s2. split; [exact E|]. intros t.
    assert (Hb : chk_bmc s2 = chk_bmc s) by (unfold chk_bmc, _rtw_camctl_chk_cap; by rewrite C2).
    assert (B : chk_bmc s = false).
    { apply not_true_is_false. intros B. destruct G as [[E0 _]|[[_ C0]|(_ & U0 & _)]]; [lia| |congruence].
      apply chk_addr in C0 as (_ & _ & C0). unfold chk_bmc in B. rewrite B in C0. specialize (C0 ltac:(lia)).
      pose proof (like_inv s s1 I (set_used_like s id I ltac:(lia) U)) as I1.
      rewrite gk_spec in C0, Gk by (done || lia). rewrite Z5, Z4, Z.eqb_refl in Gk by lia. rewrite U in C0. cbn in C0, Gk. congruence. }
    destruct (write_near s2 s2 id (stakey_ctrl (sk_algorithm p) (sk_keyid p)) (sk_addr p) (sk_key p)) as [P _];
      [by apply inv_sized|done|done|done|done|done|lia|exact Hc16|done|done|done|done|].
    fold t in P. split.
    + eapply put_inv; [exact I2|rewrite N2; split; [exact Hid|apply Hr]|exact P|]. right. split; [by eapply fits_sub|]. rewrite Hb, B. done.
    + split; [done|done|by rewrite (cp_num _ _ _ _ P)|by rewrite (cp_cap _ _ _ _ P)| | |].
      * rewrite (cp_at _ _ _ _ P), Z.eqb_refl by lia. done.
      * rewrite (cp_hw _ _ _ _ P), Z.eqb_refl by lia. done.
      * intros i Hi Hne Hm. rewrite (cp_at _ _ _ _ P), (cp_hw _ _ _ _ P), (cp_used _ _ _ _ P) by (done || lia).
        destruct (Z.eqb_spec i id); [done|]. by apply O2.
  - exists s1. split; [done|]. intros t.
    destruct (alloc_put s id (stakey_ctrl (sk_algorithm p) (sk_keyid p)) (sk_addr p) (sk_key p) I ltac:(lia) Eo) as [P U].
    change (cam_put s t id (stakey_ent p)) in P. change (cam_is_used t id = true) in U. split.
    + eapply put_inv; [exact I|split; [exact Hid|apply Hr]|exact P|]. right. split; [done|]. intros _. exact U.
    + split; [done|done|by rewrite (cp_num _ _ _ _ P)|by rewrite (cp_cap _ _ _ _ P)| | |].
      * rewrite (cp_at _ _ _ _ P), Z.eqb_refl by lia. done.
      * rewrite (cp_hw _ _ _ _ P), Z.eqb_refl by lia. done.
      * intros i Hi Hne Hm. rewrite (cp_at _ _ _ _ P), (cp_hw _ _ _ _ P), (cp_used _ _ _ _ P) by (done || lia).
        destruct (Z.eqb_spec i id); done.
Qed.

(** ** The handlers *)

Lemma like_enc_algo s v : cam_inv s -> cam_like s (s <| enc_algo := v |>).
Proof. intros I. by apply like_of_parts; [apply inv_sized|..]. Qed.

(** [set_stakey_hdl] on every branch. *)
Lemma set_stakey_spec s p : cam_inv s -> stakey_ok p ->
  exists r t, set_stakey_hdl rtw_get_stainfo s p = Some (r, t) /\ cam_inv t /\
    if sk_algorithm p =? _NO_PRIVACY_ then r = H2C_SUCCESS_RSP /\ cam_cleared s t (sk_addr p) (-1)
    else match rtw_get_stainfo (sk_addr p) with
         | None => r = H2C_REJECTED /\ t = s
         | Some _ =>
             let id := rtw_get_camid s true (Some (sk_addr p)) (sk_keyid p) in
             (r = H2C_SUCCESS /\ id = -1 /\ cam_like s t /\ forall i, 4 <= i < cam_num s -> cam_is_used s i = true) \/
             (r = H2C_SUCCESS_RSP /\ key_written s t id (stakey_ent p))
         end.
Proof.
  intros I K. pose proof K as []. unfold set_stakey_hdl. destruct (sk_algorithm p =? _NO_PRIVACY_).
  { destruct (clear_keys_ends s (sk_addr p) (-1)) as (t & E & It & C); [done|by left|done|]. rewrite E.
    exists H2C_SUCCESS_RSP, t. done. }
  destruct (rtw_get_stainfo (sk_addr p)) as [m|] eqn:Em; [|by exists H2C_REJECTED, s].
  rewrite (ko_sta0 m eq_refl). cbv zeta. set (s0 := s <| enc_algo := sk_algorithm p |>).
  assert (L0 : cam_like s s0) by (by apply like_enc_algo). pose proof (like_inv s s0 I L0) as I0.
  assert (Hkid : (if is_wep (sk_algorithm p) then sk_keyid p else 0) = sk_keyid p).
  { destruct (is_wep (sk_algorithm p)) eqn:W; [done|]. symmetry. by apply ko_wep0. }
  rewrite Hkid. unfold rtw_camid_alloc. cbv zeta. change (rtw_get_camid s true (Some (sk_addr p)) (sk_keyid p)) with (rtw_get_camid s0 true (Some (sk_addr p)) (sk_keyid p)).
  pose proof (get_camid_spec s0 true (sk_addr p) (sk_keyid p) I0 ko_nonzero0 ko_keyid0) as G. cbn zeta in G.
  set (id := rtw_get_camid s0 true (Some (sk_addr p)) (sk_keyid p)) in *.
  destruct (Z.leb_spec 0 id) as [Hge|Hlt].
  - destruct (stakey_write s0 p I0 K Hge) as (s2 & E & It & W). fold id in E, It, W. rewrite used_spec by (done || pose proof (ci_num s0 I0); pose proof (kw_slot _ _ _ _ W); lia).
    destruct (Z.ltb_spec id 0); [lia|]. rewrite E. eexists _, _. split; [reflexivity|]. split; [exact It|]. right. split; [done|]. destruct W. by split.
  - destruct (Z.ltb_spec id 0); [|lia]. exists H2C_SUCCESS, s0. split; [done|]. split; [done|]. left.
    destruct G as [[E U]|[[? _]|[? _]]]; [|lia|lia]. done.
Qed.

Record setkey_ok (s : cam_state) (p : setkey_parm) : Prop := {
  go_bssid : bytes (cam_bssid s); go_bssid6 : length (cam_bssid s) = 6%nat; go_nonzero : cam_bssid s <> null_addr;
  go_sta : forall m, rtw_get_stainfo (cam_bssid s) = Some m -> m = cam_bssid s;
  go_key : bytes (gk_key p); go_key16 : length (gk_key p) = 16%nat; go_alg : 0 <= gk_algorithm p < 16; go_keyid : 0 <= gk_keyid p < 4 }.

Lemma rest_fw s t : cam_rest t = cam_rest s -> fw_state t = fw_state s /\ cam_bssid t = cam_bssid s.
Proof. unfold cam_rest. intros H. injection H. done. Qed.

Lemma note_like s c : cam_sized s -> cam_like s (cam_note s c).
Proof. intros Hs. by apply like_of_parts. Qed.

Lemma grpkey_ent_ok p a : 0 <= gk_algorithm p < 16 -> 0 <= gk_keyid p < 4 -> bytes a -> length a = 6%nat -> bytes (gk_key p) -> length (gk_key p) = 16%nat ->
  let e := mk_cam_ent (grpkey_ctrl (gk_algorithm p) (gk_keyid p)) a (gk_key p) in
  ent_ok e /\ ent_kid e = gk_keyid p /\ ent_gk e = true.
Proof. intros. apply ent_of_ctrl; try done; [by apply ctrl_facts|]. apply wrap_range. lia. Qed.

Lemma note_inv s c : cam_inv s -> cam_inv (cam_note s c).
Proof. intros I. eapply like_inv; [exact I|]. by apply note_like, inv_sized. Qed.

(** The entry [setkey_hdl] takes, with the address it writes there. *)
Definition grp_addr (own : list Z) (s : cam_state) (id : Z) : list Z :=
  let state := Z.land (fw_state s) 3 in
  if id <=? 3 then null_addr else if (state =? WIFI_FW_AP_STATE) || (state =? WIFI_FW_ADHOC_STATE) then own else cam_bssid s.

Lemma grp_alloc own s p : cam_inv s -> setkey_ok s p ->
  let '(id, used, s1) := rtw_camid_alloc s None (gk_keyid p) in
  (id < 0 /\ s1 = s) \/
  (0 <= id < cam_num s /\ used = cam_is_used s id /\ s1 = s <| cam_used := rtw_sec_cam_map_set (cam_used s) id |> /\
   ent_fits s id (mk_cam_ent (grpkey_ctrl (gk_algorithm p) (gk_keyid p)) (grp_addr own s id) (gk_key p)) /\
   (used = true -> ent_gk (cam_at s id) = false -> 4 <= id /\ grp_addr own s id = cam_bssid s)).
Proof.
  intros I K. pose proof (ci_num s I) as Hn. pose proof K as []. unfold rtw_camid_alloc, grp_addr. cbv zeta.
  destruct ((_ =? WIFI_FW_AP_STATE) || _) eqn:Est.
  - destruct (Z.ltb_spec 3 (gk_keyid p)); [lia|]. destruct (Z.leb_spec 0 (gk_keyid p)); [|lia]. right.
    rewrite used_spec by (done || lia). destruct (Z.leb_spec (gk_keyid p) 3); [|lia].
    destruct (grpkey_ent_ok p null_addr) as (Eo & Ek & Eg); [done|done|by repeat constructor|done|done|done|].
    split; [lia|]. split; [done|]. split; [done|]. split; [by split; [|done|lia|lia]|].
    intros U G. destruct (ci_used s I _ (proj1 go_keyid0) U) as [_ V].
    destruct (ci_default s I (gk_keyid p) ltac:(lia) V) as (_ & _ & G'). congruence.
  - destruct (Z.land (fw_state s) WIFI_FW_ASSOC_SUCCESS =? 0) eqn:Eas; [left; cbn; split; [lia|done]|].
    destruct (Z.leb_spec 0 (rtw_get_camid s false (Some (cam_bssid s)) (gk_keyid p))) as [Hge|]; [|by left].
    destruct (grpkey_ent_ok p (cam_bssid s)) as (Eo & Ek & Eg); try done.
    destruct (camid_fits s false (cam_bssid s) (gk_keyid p) _ I go_nonzero0 go_keyid0 Hge Eo eq_refl Ek Eg) as [Hr F].
    set (id := rtw_get_camid _ _ _ _) in *. right. rewrite used_spec by (done || lia).
    destruct (Z.leb_spec id 3); [lia|]. split; [lia|]. split; [done|]. split; [done|]. split; [exact F|]. intros _ _. split; [lia|done].
Qed.

(** What [setkey_hdl] does after the group key is written. *)
Lemma grp_rest s p : cam_inv s -> setkey_ok s p ->
  exists t, (if is_wep (gk_algorithm p) && (Z.land (fw_state s) 3 =? WIFI_FW_STATION_STATE) && _rtw_camctl_chk_cap s SEC_CAP_CHK_BMC
    then snd <$> set_stakey_hdl rtw_get_stainfo s (mk_stakey (cam_bssid s) (gk_algorithm p) (gk_keyid p) (gk_key p)) else Some s) = Some t /\ cam_inv t.
Proof.
  intros I K. pose proof K as []. destruct (is_wep (gk_algorithm p)) eqn:W; cbn [andb]; [|by exists s].
  destruct (_ && _); [|by exists s].
  destruct (set_stakey_spec s (mk_stakey (cam_bssid s) (gk_algorithm p) (gk_keyid p) (gk_key p)) I) as (r & t & E & It & _).
  { split; cbn; try done. congruence. }
  exists t. by rewrite E.
Qed.

Lemma setkey_spec own s p : cam_inv s -> setkey_ok s p ->
  exists t, setkey_hdl rtw_get_stainfo own s p = Some (H2C_SUCCESS, t) /\ cam_inv t.
Proof.
  intros I K. unfold setkey_hdl. set (s0 := if gk_set_tx p then _ else s).
  assert (L0 : cam_like s s0) by (unfold s0; destruct (gk_set_tx p); by apply like_of_parts; [apply inv_sized|..]).
  pose proof (like_inv s s0 I L0) as I0.
  assert (K0 : setkey_ok s0 p) by (unfold s0; destruct (gk_set_tx p), K; by split).
  clearbody s0. clear s I K L0. pose proof (ci_num s0 I0) as Hn.
  pose proof (grp_alloc own s0 p I0 K0) as A. destruct (rtw_camid_alloc s0 None (gk_keyid p)) as [[id used] s1].
  destruct A as [[Hid ->]|(Hid & -> & -> & F & Hclash)].
  { destruct (Z.ltb_spec id 0); [|lia]. exists (enable_mc s0). split; [done|by apply note_inv]. }
  destruct (Z.ltb_spec id 0); [lia|]. cbv zeta. set (s1 := s0 <| cam_used := _ |>).
  change (if id <=? 3 then null_addr else _) with (grp_addr own s0 id).
  destruct (cam_is_used s0 id && negb (_rtw_camid_is_gk s1 id)) eqn:Ec.
  - apply andb_true_iff in Ec as [U G%negb_true_iff].
    assert (L1 : cam_like s0 s1) by (apply set_used_like; [done|lia|done]). pose proof (like_inv s0 s1 I0 L1) as I1.
    rewrite gk_spec, (cl_used _ _ L1), U, (cl_at _ _ L1) in G by (done || lia || exact Hid). cbn [andb] in G.
    destruct (Hclash U G) as [_ ->]. unfold pk_gk_clash.
    set (s2 := cam_note _ SecCfg). assert (I2 : cam_inv s2) by (eapply like_inv; [exact I1|by apply like_of_parts; [apply inv_sized|..]]).
    destruct (clear_keys_ends s2 (cam_bssid s0) 1) as (t & E & It & _); [apply K0|by right|done|].
    cbn [mbind option_bind]. rewrite E. exists (enable_mc t). split; [done|by apply note_inv].
  - set (s2 := write_cam s1 id _ _ _). assert (I2 : cam_inv s2) by (by apply cam_alloc_inv).
    assert (R2 : cam_rest s2 = cam_rest s0) by (unfold s2; by rewrite (proj1 (write_cam_rest s1 id _ _ _))).
    set (s3 := if id <=? 3 then cam_note s2 (SecDkCfg true) else s2).
    assert (I3 : cam_inv s3) by (unfold s3; destruct (id <=? 3); [by apply note_inv|done]).
    assert (E3 : fw_state s3 = fw_state s0 /\ cam_bssid s3 = cam_bssid s0).
    { apply rest_fw in R2. unfold s3. by destruct (id <=? 3). }
    destruct E3 as [Ef Eb]. assert (K3 : setkey_ok s3 p) by (destruct K0; split; rewrite ?Eb; done).
    destruct (grp_rest s3 p I3 K3) as (t & E & It). rewrite Ef in E. change (fw_state s1) with (fw_state s0). cbv zeta in E |- *.
    change (cam_bssid s1) with (cam_bssid s0). rewrite E. exists (enable_mc t). split; [done|by apply note_inv].
Qed.

End Hdl.
