(* ===== verification/CamThms.v ===== *)
(** * The key memory: what holds in every state

    The runs of the handlers, the installation of a pairwise key, the exchange
    of two entries, and the entry that a conflict of keys leaves unprotected, in
    any state. *)

From S2P Require Import Prelude Mem SecDefs Wep Bitmap Cam CamSpec.
From stdpp Require Import list.
#[local] Open Scope Z_scope.
#[local] Opaque rtw_sec_write_cam_ent rtw_sec_read_cam_ent.

(** ** Runs *)

Inductive cam_event :=
| SetKey (p : setkey_parm) | SetStaKey (p : set_stakey_parm) | ClearKeys (sta : list Z)
| WepKeys (privacy key_mask index : Z) (keys : list (list Z)) (psta : list Z) | FlushKeys | NewState (state : Z) (bssid : list Z).

Section Runs.

Context (rtw_get_stainfo : list Z -> option (list Z)) (own : list Z) (invalidate : list Z -> list Z).

(** After HW_VAR_CAM_INVALID_ALL no entry is valid. *)
Record invalidate_ok : Prop := {
  io_len : forall l, length l = 256%nat -> length (invalidate l) = 256%nat;
  io_invalid : forall s i, length (cam_hw s) = 256%nat -> 0 <= i < 32 -> ~ ent_valid (rtw_sec_read_cam_ent (s <| cam_hw := invalidate (cam_hw s) |>) i) }.

Definition cam_exec (s : cam_state) (e : cam_event) : option cam_state :=
  match e with
  | SetKey p => snd <$> setkey_hdl rtw_get_stainfo own s p
  | SetStaKey p => snd <$> set_stakey_hdl rtw_get_stainfo s p
  | ClearKeys sta => rtw_clearstakey_cmd s sta
  | WepKeys privacy key_mask index keys psta => rtw_ap_wep_pk_setting rtw_get_stainfo s privacy key_mask index keys psta
  | FlushKeys => Some (flush_all_cam_entry invalidate s)
  | NewState state bssid => Some (s <| fw_state := state |> <| cam_bssid := bssid |>)
  end.

Record sta_addr_ok (a : list Z) : Prop := {
  sa_bytes : bytes a; sa_6 : length a = 6%nat; sa_nonzero : a <> null_addr; sa_sta : forall m, rtw_get_stainfo a = Some m -> m = a }.

(** The parameters the callers give: bytes, key identifiers below 4, the
    identifier 0 for keys other than WEP, addresses of stations. *)
Definition cam_event_ok (s : cam_state) (e : cam_event) : Prop :=
  match e with
  | SetKey p => setkey_ok rtw_get_stainfo s p
  | SetStaKey p => stakey_ok rtw_get_stainfo p
  | ClearKeys sta => sta <> null_addr
  | WepKeys privacy _ _ keys psta =>
      0 <= privacy < 16 /\ sta_addr_ok psta /\ length keys = 4%nat /\ Forall (fun k => bytes k /\ (16 <= length k)%nat) keys
  | FlushKeys => True
  | NewState _ _ => True
  end.

Fixpoint cam_run (s : cam_state) (es : list cam_event) : option cam_state :=
  match es with [] => Some s | e :: es => s ← cam_exec s e; cam_run s es end.

Fixpoint cam_run_ok (s : cam_state) (es : list cam_event) : Prop :=
  match es with [] => True | e :: es => cam_event_ok s e /\ forall s', cam_exec s e = Some s' -> cam_run_ok s' es end.

Lemma zeros_at {A} (z : A) n i : default z (repeat z n !! i) = z.
Proof.
  destruct (repeat z n !! i) as [e|] eqn:E; [|done]. apply list_elem_of_lookup_2, list_elem_of_In, repeat_spec in E as ->. done.
Qed.

Lemma cam_flush_inv s : invalidate_ok -> cam_inv s -> cam_inv (flush_all_cam_entry invalidate s).
Proof.
  intros O I. assert (Ha : forall i, cam_at (flush_all_cam_entry invalidate s) i = zero_ent).
  { intros i. apply zeros_at. }
  assert (Hu : forall i, 0 <= i -> cam_is_used (flush_all_cam_entry invalidate s) i = false) by (intros; apply Z.bits_0).
  split; try (intros; rewrite ?Ha in *; (done || by left)).
  - apply (ci_num s I).
  - apply (io_len O), (ci_words s I).
  - intros i Hi. by rewrite Hu.
  - intros i Hi. rewrite Ha. right. split; [|done]. apply (io_invalid O s i); [apply I|done].
Qed.

Lemma wep_keys_inv s privacy key_mask index keys psta :
  cam_inv s -> cam_event_ok s (WepKeys privacy key_mask index keys psta) ->
  exists t, rtw_ap_wep_pk_setting rtw_get_stainfo s privacy key_mask index keys psta = Some t /\ cam_inv t.
Proof.
  intros I (Hp & [] & Hl & Hk). unfold rtw_ap_wep_pk_setting. destruct (is_wep privacy) eqn:W; cbn [negb]; [|by exists s].
  assert (Hloop : forall ks s, Forall (fun kid => 0 <= kid < 4) ks -> cam_inv s -> exists t,
    foldl (fun s keyid => s ← s;
      if negb (Z.land key_mask (bit keyid) =? 0) && (keyid =? index)
      then snd <$> set_stakey_hdl rtw_get_stainfo s (mk_stakey psta privacy keyid (take 16 (default [] (keys !! Z.to_nat keyid)))) else Some s) (Some s) ks = Some t /\ cam_inv t).
  { clear s I. induction ks as [|kid ks IH]; intros s Hks I; [by exists s|]. apply Forall_cons in Hks as [Hkid Hks]. cbn [foldl].
    change (s' ← Some s; ?f s') with (f s). cbn [mbind option_bind]. destruct (_ && _); [|by apply IH].
    destruct (lookup_lt_is_Some_2 keys (Z.to_nat kid)) as [k Ek]; [lia|]. rewrite Ek.
    assert (Hkk : bytes k /\ (16 <= length k)%nat) by (rewrite Forall_lookup in Hk; by eapply Hk). destruct Hkk as [Bk Lk].
    destruct (set_stakey_spec rtw_get_stainfo s (mk_stakey psta privacy kid (take 16 k)) I) as (r & t & E & It & _).
    { split; cbn; try done; [by apply Forall_take|rewrite length_take; lia|congruence]. }
    change (default [] (Some k)) with k. rewrite E. by apply IH. }
  apply Hloop; [|done]. by repeat (constructor; [lia|]).
Qed.

Lemma cam_exec_inv s e : invalidate_ok -> cam_inv s -> cam_event_ok s e -> exists t, cam_exec s e = Some t /\ cam_inv t.
Proof.
  intros O I K. destruct e as [p|p|sta|privacy key_mask index keys psta| |st bssid]; cbn [cam_exec].
  - destruct (setkey_spec rtw_get_stainfo own s p I K) as (t & E & It). rewrite E. by exists t.
  - destruct (set_stakey_spec rtw_get_stainfo s p I K) as (r & t & E & It & _). rewrite E. by exists t.
  - destruct (clear_keys_ends s sta (-1) K ltac:(by left) I) as (t & E & It & _). by exists t.
  - by apply wep_keys_inv.
  - exists (flush_all_cam_entry invalidate s). split; [done|by apply cam_flush_inv].
  - eexists. split; [done|]. eapply like_inv; [exact I|]. by apply like_of_parts; [apply inv_sized|..].
Qed.

Lemma cam_run_inv es : invalidate_ok -> forall s, cam_inv s -> cam_run_ok s es -> exists t, cam_run s es = Some t /\ cam_inv t.
Proof.
  intros O. induction es as [|e es IH]; intros s I K; cbn [cam_run]; [by exists s|]. destruct K as [Ke K].
  destruct (cam_exec_inv s e O I Ke) as (t & E & It). rewrite E. cbn [mbind option_bind]. by apply IH; [|apply K].
Qed.

End Runs.

(** The state of a new device, with the capabilities of the HAL. *)
Definition cam_fresh (cap num : Z) : cam_state := mk_cam_state cap 0 num 0 (repeat zero_ent 32) (repeat 0 256) 0 null_addr 0 0 [].

Lemma cam_fresh_inv cap num : 4 <= num <= 32 -> cam_inv (cam_fresh cap num).
Proof.
  intros Hn. assert (Ha : forall i, cam_at (cam_fresh cap num) i = zero_ent).
  { intros i. apply zeros_at. }
  assert (Hu : forall i, 0 <= i -> cam_is_used (cam_fresh cap num) i = false) by (intros; apply Z.bits_0).
  split; try (intros; rewrite ?Ha in *; (done || by left)).
  - intros i Hi. by rewrite Hu.
  - intros i Hi. left. rewrite Ha. Transparent rtw_sec_read_cam_ent. unfold rtw_sec_read_cam_ent, rtw_sec_read_cam, cam_fresh. cbn [cam_hw].
    assert (Hz : forall x, arr_get (repeat 0 256) x = 0).
    { intros x. apply zeros_at. }
    rewrite !Hz. reflexivity.
Qed.
#[local] Opaque rtw_sec_read_cam_ent.


(** ** A pairwise key *)

(** C29. Installing the pairwise key of a known station, when every valid
    entry is in use: either all entries from 4 on are in use and the hardware
    is left as it was, or the key is in the hardware in one entry from 4 on, with its
    algorithm and identifier, that entry is the only one with the address
    and identifier (and, where the hardware tells group keys apart, kind), and
    the entries of all other addresses and the default keys are unchanged. *)
Theorem stakey_installed rtw_get_stainfo s p :
  cam_inv s -> stakey_ok rtw_get_stainfo p -> sk_algorithm p <> _NO_PRIVACY_ -> rtw_get_stainfo (sk_addr p) = Some (sk_addr p) ->
  (forall i, 0 <= i < 32 -> ent_valid (cam_at s i) -> cam_is_used s i = true) ->
  exists r t, set_stakey_hdl rtw_get_stainfo s p = Some (r, t) /\
    ((r = H2C_SUCCESS /\ (forall i, 4 <= i < cam_num s -> cam_is_used s i = true) /\
      forall i, 0 <= i < 32 -> rtw_sec_read_cam_ent t i = rtw_sec_read_cam_ent s i) \/
     (r = H2C_SUCCESS_RSP /\ exists id, 4 <= id < cam_num s /\ rtw_sec_read_cam_ent t id = stakey_ent p /\
      (forall j, 4 <= j < 32 -> ent_valid (cam_at t j) -> ce_mac (cam_at t j) = sk_addr p -> ent_kid (cam_at t j) = sk_keyid p ->
        (chk_bmc s = true -> ent_gk (cam_at t j) = false) -> j = id) /\
      forall j, 0 <= j < 32 -> ent_valid (cam_at s j) -> ce_mac (cam_at s j) <> sk_addr p ->
        rtw_sec_read_cam_ent t j = rtw_sec_read_cam_ent s j)).
Proof.
  intros I K Ha Hg Hu. destruct (set_stakey_spec rtw_get_stainfo s p I K) as (r & t & E & It & H).
  exists r, t. split; [done|]. apply Z.eqb_neq in Ha. rewrite Ha, Hg in H. destruct H as [(-> & _ & L & Full)|[-> W]]; [left|right].
  { split; [done|]. split; [done|]. apply L. }
  split; [done|]. destruct W as [Hs Hw Wn Wc Wa Wh Wr]. pose proof (ci_num s I). destruct (stakey_ent_ok rtw_get_stainfo p K) as (Eo & Ek & Eg).
  set (id := rtw_get_camid _ _ _ _) in *. clearbody id. exists id. split; [done|]. split; [done|]. split.
  - intros j Hj V Hm Hk Hgk. symmetry. apply (ci_unique t It); [lia|lia|rewrite Wa; apply Eo|done|]. rewrite Wa.
    split; [done|]. split; [congruence|]. intros B. rewrite Eg, Hgk; [done|]. unfold chk_bmc, _rtw_camctl_chk_cap in *. by rewrite <- Wc.
  - intros j Hj V Hm. destruct (Z.eq_dec j id) as [->|Hne]; [|by apply Wr]. exfalso. destruct Hw as [Hw|Hw]; [done|].
    rewrite Hu in Hw by done. done.
Qed.

(** ** Exchanging entries *)

Definition swap_id (a b i : Z) : Z := if i =? a then b else if i =? b then a else i.

Lemma free_clear_put s id : cam_sized s -> 0 <= id < 32 -> id < cam_num s ->
  let t := clear_cam_entry (rtw_camid_free s id) id in cam_put s t id zero_ent /\ cam_is_used t id = false.
Proof.
  intros Hs Hid Hn t. destruct (free_rest s id) as (R & Rc & Rh). apply rest_num in R as [Rn Rs].
  assert (Hs' : cam_sized (rtw_camid_free s id)) by (unfold cam_sized; by rewrite Rc, Rh).
  destruct (write_near s (rtw_camid_free s id) id 0 null_addr null_key) as [P U]; try done.
  - intros i Hi Hne. rewrite used_free by done. by destruct (Z.eqb_spec i id).
  - intros i Hi _. unfold cam_at. by rewrite Rc.
  - intros i Hi _. Transparent rtw_sec_read_cam_ent. unfold rtw_sec_read_cam_ent, rtw_sec_read_cam. by rewrite Rh.
  - by repeat constructor.
  - by repeat constructor.
  - split; [exact P|]. unfold t. rewrite clear_is_write, U, used_free by (done || lia). by rewrite Z.eqb_refl.
Qed.
#[local] Opaque rtw_sec_read_cam_ent.

Lemma write_set_put s id c m k : cam_sized s -> 0 <= id < 32 -> id < cam_num s -> ent_ok (mk_cam_ent c m k) ->
  let t := rtw_camid_set (write_cam s id c m k) id in cam_put s t id (mk_cam_ent c m k) /\ cam_is_used t id = true.
Proof.
  intros Hs Hid Hn [V C M M6 K K16] t. destruct (write_near s s id c m k) as [P U]; try done.
  destruct (write_cam_rest s id c m k) as [R Uu]. pose proof (rest_num _ _ R) as [Rn Rs].
  destruct (set_rest (write_cam s id c m k) id) as (R' & Rc' & Rh'). apply rest_num in R' as [Rn' Rs'].
  assert (Hu : forall i, 0 <= i -> cam_is_used t i = (i =? id) || cam_is_used (write_cam s id c m k) i).
  { intros i Hi. unfold t. apply used_set; [done|done|by rewrite Rn]. }
  split; [|rewrite Hu by lia; by rewrite Z.eqb_refl].
  split; [unfold cam_sized, t; rewrite Rc', Rh'; apply P|unfold t; congruence|unfold t; congruence| | |].
  - intros i Hi Hne. rewrite Hu by done. destruct (Z.eqb_spec i id); [done|]. by apply P.
  - intros i Hi. rewrite <- (cp_at _ _ _ _ P) by done. unfold cam_at, t. by rewrite Rc'.
  - intros i Hi. rewrite <- (cp_hw _ _ _ _ P) by done. unfold t. Transparent rtw_sec_read_cam_ent.
    unfold rtw_sec_read_cam_ent, rtw_sec_read_cam. by rewrite Rh'.
Qed.
#[local] Opaque rtw_sec_read_cam_ent.

Lemma ent_eta e : e = mk_cam_ent (ce_ctrl e) (ce_mac e) (ce_key e).
Proof. by destruct e. Qed.

(** The state of one entry: bit, cache and hardware. *)
Definition cam_slot (s : cam_state) (i : Z) : bool * sec_cam_ent * sec_cam_ent := (cam_is_used s i, cam_at s i, rtw_sec_read_cam_ent s i).

Lemma put_slot s t id e b i : cam_put s t id e -> cam_is_used t id = b -> 0 <= i < 32 ->
  cam_slot t i = if i =? id then (b, e, e) else cam_slot s i.
Proof.
  intros P U Hi. unfold cam_slot. rewrite (cp_at _ _ _ _ P), (cp_hw _ _ _ _ P) by done.
  destruct (Z.eqb_spec i id) as [->|Hne]; [by rewrite U|]. by rewrite (cp_used _ _ _ _ P) by (done || lia).
Qed.

Lemma slot_used s i : cam_inv s -> 0 <= i < 32 -> cam_is_used s i = true -> ent_ok (cam_at s i) /\ rtw_sec_read_cam_ent s i = cam_at s i.
Proof.
  intros I Hi U. destruct (ci_used s I i ltac:(lia) U) as [_ V].
  destruct (ci_ent s I i Hi) as [E|[O _]]; [rewrite E in V; done|]. split; [done|]. by destruct (ci_hw s I i Hi) as [|[_ N]].
Qed.

Lemma slot_free s i : cam_inv s -> 0 <= i < 32 -> (ent_valid (cam_at s i) -> cam_is_used s i = true) -> cam_is_used s i = false -> cam_at s i = zero_ent.
Proof. intros I Hi H U. destruct (ci_ent s I i Hi) as [E|[O _]]; [done|]. rewrite H in U by apply O. done. Qed.

(** The exchange, slot by slot. *)
Lemma swap_slots s a b i : cam_inv s -> 0 <= a < cam_num s -> 0 <= b < cam_num s -> a <> b -> 0 <= i < 32 ->
  let t := rtw_sec_cam_swap s a b in
  cam_slot t i =
    if i =? a then if cam_is_used s b then (true, cam_at s b, cam_at s b) else if cam_is_used s a then (false, zero_ent, zero_ent) else cam_slot s i
    else if i =? b then if cam_is_used s a then (true, cam_at s a, cam_at s a) else if cam_is_used s b then (false, zero_ent, zero_ent) else cam_slot s i
    else cam_slot s i.
Proof.
  intros I Ha Hb Hne Hi t. pose proof (ci_num s I) as Hn. unfold t, rtw_sec_cam_swap. destruct (Z.eqb_spec a b); [done|].
  rewrite !used_spec by (done || lia). cbv zeta. pose proof (slot_used s a I ltac:(lia)) as Ea. pose proof (slot_used s b I ltac:(lia)) as Eb.
  destruct (cam_is_used s a) eqn:Ua, (cam_is_used s b) eqn:Ub.
  - destruct (Ea eq_refl) as [Oa _], (Eb eq_refl) as [Ob _]. rewrite (ent_eta (cam_at s a)) in Oa. rewrite (ent_eta (cam_at s b)) in Ob.
    destruct (free_clear_put s a (inv_sized s I) ltac:(lia) ltac:(lia)) as [P1 U1]. set (s1 := clear_cam_entry _ a) in *.
    destruct (free_clear_put s1 b (cp_sized _ _ _ _ P1) ltac:(lia) ltac:(rewrite (cp_num _ _ _ _ P1); lia)) as [P2 U2]. set (s2 := clear_cam_entry _ b) in *.
    destruct (write_set_put s2 b _ _ _ (cp_sized _ _ _ _ P2) ltac:(lia) ltac:(rewrite (cp_num _ _ _ _ P2), (cp_num _ _ _ _ P1); lia) Oa) as [P3 U3].
    set (s3 := rtw_camid_set _ b) in *.
    destruct (write_set_put s3 a _ _ _ (cp_sized _ _ _ _ P3) ltac:(lia) ltac:(rewrite (cp_num _ _ _ _ P3), (cp_num _ _ _ _ P2), (cp_num _ _ _ _ P1); lia) Ob) as [P4 U4].
    rewrite (put_slot _ _ _ _ _ i P4 U4 Hi), (put_slot _ _ _ _ _ i P3 U3 Hi), (put_slot _ _ _ _ _ i P2 U2 Hi), (put_slot _ _ _ _ _ i P1 U1 Hi).
    rewrite <- !ent_eta. by destruct (i =? a), (i =? b).
  - destruct (Ea eq_refl) as [Oa _]. rewrite (ent_eta (cam_at s a)) in Oa.
    destruct (free_clear_put s a (inv_sized s I) ltac:(lia) ltac:(lia)) as [P1 U1]. set (s1 := clear_cam_entry _ a) in *.
    destruct (write_set_put s1 b _ _ _ (cp_sized _ _ _ _ P1) ltac:(lia) ltac:(rewrite (cp_num _ _ _ _ P1); lia) Oa) as [P3 U3].
    rewrite (put_slot _ _ _ _ _ i P3 U3 Hi), (put_slot _ _ _ _ _ i P1 U1 Hi). rewrite <- !ent_eta.
    destruct (Z.eqb_spec i a), (Z.eqb_spec i b); done || congruence.
  - destruct (Eb eq_refl) as [Ob _]. rewrite (ent_eta (cam_at s b)) in Ob.
    destruct (free_clear_put s b (inv_sized s I) ltac:(lia) ltac:(lia)) as [P1 U1]. set (s1 := clear_cam_entry _ b) in *.
    destruct (write_set_put s1 a _ _ _ (cp_sized _ _ _ _ P1) ltac:(lia) ltac:(rewrite (cp_num _ _ _ _ P1); lia) Ob) as [P3 U3].
    rewrite (put_slot _ _ _ _ _ i P3 U3 Hi), (put_slot _ _ _ _ _ i P1 U1 Hi). rewrite <- !ent_eta.
    destruct (Z.eqb_spec i a), (Z.eqb_spec i b); done || congruence.
  - by destruct (i =? a), (i =? b).
Qed.

(** [rtw_sec_cam_swap] of two entries whose valid keys are in use
    exchanges their bits and cached keys and changes no other entry; every
    entry in use after it is in the hardware as the cache has it. *)
Theorem swap_exchanges s a b : cam_inv s -> 0 <= a < cam_num s -> 0 <= b < cam_num s -> a <> b ->
  (forall i, i = a \/ i = b -> ent_valid (cam_at s i) -> cam_is_used s i = true) ->
  let t := rtw_sec_cam_swap s a b in
  forall i, 0 <= i < 32 ->
    cam_is_used t i = cam_is_used s (swap_id a b i) /\ cam_at t i = cam_at s (swap_id a b i) /\
    (cam_is_used t i = true -> rtw_sec_read_cam_ent t i = cam_at t i) /\
    (i <> a -> i <> b -> rtw_sec_read_cam_ent t i = rtw_sec_read_cam_ent s i).
Proof.
  intros I Ha Hb Hne Hu t i Hi. pose proof (ci_num s I) as Hn. pose proof (swap_slots s a b i I Ha Hb Hne Hi) as H. cbv zeta in H. fold t in H.
  pose proof (slot_free s a I ltac:(lia) (Hu a ltac:(by left))) as Fa. pose proof (slot_free s b I ltac:(lia) (Hu b ltac:(by right))) as Fb.
  pose proof (fun U => proj2 (slot_used s i I Hi U)) as Hs. unfold cam_slot, swap_id in *.
  destruct (Z.eqb_spec i a) as [Eia|Hia]; [|destruct (Z.eqb_spec i b) as [Eib|Hib]].
  - subst i. destruct (cam_is_used s a) eqn:Ua, (cam_is_used s b) eqn:Ub; apply pair_equal_spec in H as [[E1 E2]%pair_equal_spec E3]; rewrite E1, E2, E3; intuition congruence.
  - subst i. destruct (cam_is_used s a) eqn:Ua, (cam_is_used s b) eqn:Ub; apply pair_equal_spec in H as [[E1 E2]%pair_equal_spec E3]; rewrite E1, E2, E3; intuition congruence.
  - apply pair_equal_spec in H as [[E1 E2]%pair_equal_spec E3]. rewrite E1, E2, E3. intuition congruence.
Qed.

(** ** A concrete device *)

Definition all_stations (a : list Z) : option (list Z) := Some a.
Definition forget_all (l : list Z) : list Z := map (fun _ => 0) l.
Definition demo_ap : list Z := [2; 0; 0; 0; 0; 1].
Definition demo_peer : list Z := [2; 0; 0; 0; 0; 9].
Definition demo_pairwise : list Z := seqZ 100 16.
Definition demo_group (k : Z) : list Z := repeat k 16.
Definition pairwise_parm (a : list Z) : set_stakey_parm := mk_stakey a _AES_ 0 demo_pairwise.
Definition group_parm (kid : Z) : setkey_parm := mk_setkey _AES_ kid false (demo_group kid).

Lemma forget_ok : invalidate_ok forget_all.
Proof.
  split; [intros l Hl; unfold forget_all; by rewrite length_map|]. intros s i Hs Hi. Transparent rtw_sec_read_cam_ent.
  unfold rtw_sec_read_cam_ent, rtw_sec_read_cam, ent_valid. cbn [cam_hw ce_ctrl].
  assert (Hz : forall x, arr_get (forget_all (cam_hw s)) x = 0).
  { intros x. unfold arr_get, forget_all. rewrite list_lookup_fmap. by destruct (cam_hw s !! Z.to_nat x). }
  change (cam_hw (s <| cam_hw := forget_all (cam_hw s) |>)) with (forget_all (cam_hw s)). rewrite !Hz. done.
Qed.

Lemma pairwise_ok a : bytes a -> length a = 6%nat -> a <> null_addr -> stakey_ok all_stations (pairwise_parm a).
Proof. intros Ba La Na. split; cbn; try done; [by repeat (constructor; [done|])|intros m [= <-]; done]. Qed.

Lemma group_ok s kid : 0 <= kid < 4 -> bytes (cam_bssid s) -> length (cam_bssid s) = 6%nat -> cam_bssid s <> null_addr ->
  setkey_ok all_stations s (group_parm kid).
Proof.
  intros Hk Bb Lb Nb. split; cbn; try done; [intros m [= <-]; done|].
  by repeat (constructor; [width_lia|]).
Qed.

Lemma demo_ap_ok : bytes demo_ap /\ length demo_ap = 6%nat /\ demo_ap <> null_addr /\ bytes demo_peer /\ length demo_peer = 6%nat /\ demo_peer <> null_addr.
Proof. repeat split; (done || by repeat (constructor; [done|])). Qed.




Lemma stakey_installed_witness :
  exists r t, set_stakey_hdl all_stations (cam_fresh 0 32) (pairwise_parm demo_peer) = Some (r, t) /\ r = H2C_SUCCESS_RSP /\
    rtw_sec_read_cam_ent t 4 = stakey_ent (pairwise_parm demo_peer).
Proof.
  destruct demo_ap_ok as (_ & _ & _ & B2 & L2 & N2).
  destruct (stakey_installed all_stations (cam_fresh 0 32) (pairwise_parm demo_peer) (cam_fresh_inv 0 32 ltac:(lia)) (pairwise_ok _ B2 L2 N2))
    as (r & t & E & _); [done|done| |].
  { intros i Hi V. exfalso. revert V. unfold cam_at, cam_fresh. cbn [cam_cache]. rewrite zeros_at. done. }
  exists r, t. split; [exact E|]. vm_compute in E. injection E as <- <-. split; vm_compute; reflexivity.
Defined.

(** The device with a station's key in entry 4. *)
Definition one_key : cam_state := default (cam_fresh 0 32) (snd <$> set_stakey_hdl all_stations (cam_fresh 0 32) (pairwise_parm demo_peer)).

Lemma one_key_inv : cam_inv one_key /\ forall i, 0 <= i < 32 -> ent_valid (cam_at one_key i) -> cam_is_used one_key i = true.
Proof.
  destruct demo_ap_ok as (_ & _ & _ & B2 & L2 & N2).
  destruct (set_stakey_spec all_stations (cam_fresh 0 32) _ (cam_fresh_inv 0 32 ltac:(lia)) (pairwise_ok demo_peer B2 L2 N2)) as (r & t & E & It & _).
  assert (Et : one_key = t) by (unfold one_key; rewrite E; done). rewrite Et. split; [exact It|]. intros i Hi V.
  assert (T : forallb (fun i => implb (Z.testbit (ce_ctrl (cam_at one_key i)) 15) (cam_is_used one_key i)) (seqZ 0 32) = true) by (vm_compute; reflexivity).
  rewrite forallb_forall in T. specialize (T i ltac:(apply list_elem_of_In, elem_of_seqZ; lia)). rewrite Et in T. unfold ent_valid in V. rewrite V in T. exact T.
Qed.

Lemma swap_exchanges_witness :
  cam_at (rtw_sec_cam_swap one_key 4 0) 0 = stakey_ent (pairwise_parm demo_peer) /\ cam_is_used (rtw_sec_cam_swap one_key 4 0) 4 = false.
Proof.
  destruct one_key_inv as [I U].
  destruct (swap_exchanges one_key 4 0 I ltac:(vm_compute; done) ltac:(vm_compute; done) ltac:(done) ltac:(intros i [-> | ->]; apply U; lia) 0 ltac:(lia)) as (_ & E & _).
  destruct (swap_exchanges one_key 4 0 I ltac:(vm_compute; done) ltac:(vm_compute; done) ltac:(done) ltac:(intros i [-> | ->]; apply U; lia) 4 ltac:(lia)) as (F & _).
  rewrite E, F. split; vm_compute; reflexivity.
Defined.

(** ** Keys with one identifier

    Without SEC_CAP_CHK_BMC a search does not tell the group key of an address
    from its pairwise key. *)

Lemma first_id_min num test g : 0 <= g < num -> test g = true -> (forall i, 0 <= i < g -> test i = false) -> first_id num test = g.
Proof.
  intros Hg Ht Hmin. unfold first_id. destruct (list_find _ (seqZ 0 num)) as [[k i]|] eqn:E.
  - apply list_find_Some in E as (Hi & Hti & Hb). apply lookup_seqZ in Hi as [-> Hk].
    destruct (Z.lt_trichotomy (0 + Z.of_nat k) g) as [Hl|[?|Hl]]; [rewrite Hmin in Hti by lia; done|done|]. exfalso.
    apply (Hb (Z.to_nat g) g); [apply lookup_seqZ; lia|lia|done].
  - exfalso. apply list_find_None in E. rewrite Forall_forall in E. apply (E g); [apply elem_of_seqZ; lia|done].
Qed.

Section Clash.
Context (rtw_get_stainfo : list Z -> option (list Z)) (own : list Z).

(** The entry a search finds, and the one it takes when it finds none. *)
Lemma camid_taken s sta a kid g : cam_inv s -> a <> null_addr -> chk_bmc s = false -> 4 <= g < cam_num s -> ent_valid (cam_at s g) ->
  ce_mac (cam_at s g) = a -> ent_kid (cam_at s g) = kid -> rtw_get_camid s sta (Some a) kid = g.
Proof.
  intros I Ha B Hg V Hm Hk. pose proof (ci_num s I) as Hn. unfold rtw_get_camid, _rtw_camid_search. unfold chk_bmc in B. rewrite B.
  assert (Hc : cam_cache_chk s g (Some a) kid (-1) = true) by (apply chk_addr; split; [done|]; split; [by intros _|done]).
  pose proof (first_id_spec (cam_num s) (fun i => cam_cache_chk s i (Some a) kid (-1))) as H. set (f := first_id _ _) in *. clearbody f.
  destruct H as [[Hf Hcf]|[_ Hno]]; [|rewrite Hno in Hc by lia; done]. destruct (Z.leb_spec 0 f); [|lia].
  apply chk_addr in Hcf as (Fm & Fk & _). destruct (found_valid s f a I ltac:(lia) Ha Fm) as [Of Hf4].
  assert (Hkid : 0 <= kid). { rewrite <- Hk. unfold ent_kid. change 3 with (Z.ones 2). rewrite Z.land_ones by lia. apply Z.mod_pos_bound. lia. }
  apply (ci_unique s I); [lia|lia|apply Of|done|]. split; [congruence|]. split; [rewrite Fk; congruence|]. unfold chk_bmc. by rewrite B.
Qed.

Lemma camid_free s sta a kid g : cam_inv s -> a <> null_addr -> chk_bmc s = false -> 0 <= kid -> 4 <= g < cam_num s -> cam_is_used s g = false ->
  (forall i, 4 <= i < 32 -> ent_valid (cam_at s i) -> ce_mac (cam_at s i) = a -> ent_kid (cam_at s i) <> kid) ->
  (forall i, 4 <= i < g -> cam_is_used s i = true) -> rtw_get_camid s sta (Some a) kid = g.
Proof.
  intros I Ha B Hkid Hg U Hno Hall. pose proof (ci_num s I) as Hn. unfold rtw_get_camid, _rtw_camid_search. unfold chk_bmc in B. rewrite B.
  pose proof (first_id_spec (cam_num s) (fun i => cam_cache_chk s i (Some a) kid (-1))) as H. set (f := first_id _ _) in *. clearbody f.
  destruct H as [[Hf Hcf]|[-> _]].
  { exfalso. apply chk_addr in Hcf as (Fm & Fk & _). destruct (found_valid s f a I ltac:(lia) Ha Fm) as [Of Hf4].
    apply (Hno f); [lia|apply Of|done|by apply Fk]. }
  change (0 <=? -1) with false. cbv iota. apply first_id_min; [lia| |].
  - rewrite used_spec, U by (done || lia). by destruct (Z.leb_spec 4 g); [|lia].
  - intros i Hi. destruct (Z.leb_spec 4 i); [|done]. rewrite used_spec, Hall by (done || lia). done.
Qed.

(** Installing a pairwise key over the group key in entry [g]. *)
Record clashed (s t : cam_state) (p : set_stakey_parm) (g : Z) : Prop := {
  cs_inv : cam_inv t;
  cs_num : cam_num t = cam_num s;
  cs_cap : sec_cap t = sec_cap s;
  cs_net : fw_state t = fw_state s /\ cam_bssid t = cam_bssid s;
  cs_at : cam_at t g = stakey_ent p;
  cs_hw : rtw_sec_read_cam_ent t g = stakey_ent p;
  cs_free : cam_is_used t g = false;
  cs_other i : 0 <= i < 32 -> i <> g -> ent_valid (cam_at t i) -> cam_at t i = cam_at s i;
  cs_used i : 0 <= i < 32 -> i <> g -> ce_mac (cam_at s i) <> sk_addr p -> cam_is_used t i = cam_is_used s i }.

(** The search for the group keys of the address, with the entry taken. *)
Lemma clash_cleared s p g : cam_inv s -> stakey_ok rtw_get_stainfo p -> 4 <= g < cam_num s -> cam_is_used s g = true ->
  ce_mac (cam_at s g) = sk_addr p -> ent_gk (cam_at s g) = true ->
  exists s2, pk_gk_clash (s <| cam_used := rtw_sec_cam_map_set (cam_used s) g |>) (sk_addr p) = Some s2 /\ cam_inv s2 /\ cam_num s2 = cam_num s /\
    sec_cap s2 = sec_cap s /\ (fw_state s2 = fw_state s /\ cam_bssid s2 = cam_bssid s) /\ cam_is_used s2 g = false /\
    (forall i, 0 <= i < 32 -> ent_valid (cam_at s2 i) -> cam_at s2 i = cam_at s i) /\
    (forall i, 0 <= i < 32 -> ce_mac (cam_at s i) <> sk_addr p -> cam_is_used s2 i = cam_is_used s i).
Proof.
  intros I K Hg U Hm Hgk. pose proof (ci_num s I) as Hn. destruct (clash_spec rtw_get_stainfo s p g I K ltac:(lia) U) as (s2 & E & I2 & N2 & C2 & A2 & O2).
  exists s2. split; [done|]. split; [done|]. split; [done|]. split; [done|].
  set (s1 := s <| cam_used := _ |>) in *. assert (L : cam_like s s1) by (apply set_used_like; [done|lia|done]).
  set (s1' := cam_note (rtw_camctl_set_flags s1 SEC_STATUS_STA_PK_GK_CONFLICT_DIS_BMC_SEARCH) SecCfg).
  assert (L' : cam_like s s1') by (destruct L; by split). pose proof (like_inv s s1' I L') as I1.
  destruct (clear_keys_ends s1' (sk_addr p) 1) as (s2' & E' & _ & C); [apply K|by right|done|].
  assert (Es : Some s2 = Some s2') by (rewrite <- E; exact E'). injection Es as <-. clear E E'.
  destruct (rest_fw _ _ (cc_rest _ _ _ _ C)) as [Rf Rb]. split; [split; [by rewrite Rf|by rewrite Rb]|]. split; [|split; [done|]].
  - rewrite (cc_used _ _ _ _ C) by lia. assert (Hkey : key_of s1' (sk_addr p) 1 g = true); [|by rewrite Hkey].
    unfold key_of. rewrite (cl_num _ _ L'). destruct (Z.leb_spec 0 g); [|lia]. destruct (Z.ltb_spec g (cam_num s)); [|lia]. cbn [andb].
    apply chk_addr. rewrite (cl_at _ _ L') by lia. split; [done|]. split; [lia|]. intros _. rewrite gk_spec by (done || rewrite (cl_num _ _ L'); lia).
    by rewrite (cl_used _ _ L'), (cl_at _ _ L'), U, Hgk by lia.
  - intros i Hi Hmi. by apply O2.
Qed.

Lemma stakey_clash s p g : cam_inv s -> chk_bmc s = false -> stakey_ok rtw_get_stainfo p -> sk_algorithm p <> _NO_PRIVACY_ ->
  rtw_get_stainfo (sk_addr p) = Some (sk_addr p) -> 4 <= g < cam_num s -> cam_is_used s g = true ->
  ce_mac (cam_at s g) = sk_addr p -> ent_kid (cam_at s g) = sk_keyid p -> ent_gk (cam_at s g) = true ->
  exists t, set_stakey_hdl rtw_get_stainfo s p = Some (H2C_SUCCESS_RSP, t) /\ clashed s t p g.
Proof.
  intros I B K Ha Hs Hg U Hm Hk Hgk. pose proof (ci_num s I) as Hn. pose proof K as []. destruct (stakey_ent_ok rtw_get_stainfo p K) as (Eo & _ & _).
  assert (V : ent_valid (cam_at s g)) by (by apply (ci_used s I g ltac:(lia))).
  set (s0 := s <| enc_algo := sk_algorithm p |>). assert (L0 : cam_like s s0) by (by apply like_enc_algo). pose proof (like_inv s s0 I L0) as I0.
  assert (Eg : rtw_get_camid s0 true (Some (sk_addr p)) (sk_keyid p) = g) by (by apply camid_taken).
  assert (Hkid : (if is_wep (sk_algorithm p) then sk_keyid p else 0) = sk_keyid p).
  { destruct (is_wep (sk_algorithm p)) eqn:W; [done|]. symmetry. by apply ko_wep. }
  set (s1 := s0 <| cam_used := rtw_sec_cam_map_set (cam_used s0) g |>). assert (L1 : cam_like s0 s1) by (apply set_used_like; [done|lia|done]). pose proof (like_inv s0 s1 I0 L1) as I1.
  assert (Gk : _rtw_camid_is_gk s1 g = true).
  { rewrite gk_spec by (done || (rewrite (cl_num _ _ L1); exact (conj (Z.le_trans 0 4 g ltac:(lia) (proj1 Hg)) (proj2 Hg)))).
    rewrite (cl_used _ _ L1), (cl_at _ _ L1) by lia. change (cam_is_used s0 g) with (cam_is_used s g). by rewrite U. }
  destruct (clash_cleared s0 p g I0 K Hg U Hm Hgk) as (s2 & E & I2 & N2 & C2 & R2 & U2 & A2 & O2). fold s1 in E.
  destruct (write_near s2 s2 g (stakey_ctrl (sk_algorithm p) (sk_keyid p)) (sk_addr p) (sk_key p)) as [P Uw];
    [by apply inv_sized|done|done|done|done|done|lia|apply Eo|done|done|done|done|].
  set (t := write_cam s2 g _ _ _) in *.
  assert (Eset : set_stakey_hdl rtw_get_stainfo s p = Some (H2C_SUCCESS_RSP, t)).
  { unfold set_stakey_hdl. rewrite (proj2 (Z.eqb_neq _ _) Ha), Hs. cbv zeta. fold s0. rewrite Hkid. unfold rtw_camid_alloc. cbv zeta. rewrite Eg.
    destruct (Z.leb_spec 0 g); [|lia]. rewrite used_spec by (done || lia). destruct (Z.ltb_spec g 0); [lia|].
    change (cam_is_used s0 g) with (cam_is_used s g). rewrite U. cbn [andb]. fold s1. rewrite Gk, E. reflexivity. }
  exists t. split; [exact Eset|].
  destruct (set_stakey_spec rtw_get_stainfo s p I K) as (r & t' & Et & It & _). rewrite Eset in Et. injection Et as <- <-.
  destruct (write_cam_rest s2 g (stakey_ctrl (sk_algorithm p) (sk_keyid p)) (sk_addr p) (sk_key p)) as [R _]. apply rest_fw in R as [Rf Rb]. fold t in Rf, Rb.
  split.
  - done.
  - by rewrite (cp_num _ _ _ _ P).
  - by rewrite (cp_cap _ _ _ _ P).
  - rewrite Rf, Rb. exact R2.
  - rewrite (cp_at _ _ _ _ P), Z.eqb_refl by lia. done.
  - rewrite (cp_hw _ _ _ _ P), Z.eqb_refl by lia. done.
  - by rewrite Uw.
  - intros i Hi Hne. rewrite (cp_at _ _ _ _ P) by done. destruct (Z.eqb_spec i g); [done|]. apply (A2 i Hi).
  - intros i Hi Hne Hmi. rewrite (cp_used _ _ _ _ P) by (done || lia). by apply O2.
Qed.

(** The group key that takes the free entry [g]. *)
Lemma grpkey_taken s q g : cam_inv s -> chk_bmc s = false -> setkey_ok rtw_get_stainfo s q ->
  Z.land (fw_state s) 3 = WIFI_FW_STATION_STATE -> Z.land (fw_state s) WIFI_FW_ASSOC_SUCCESS <> 0 ->
  rtw_get_camid s false (Some (cam_bssid s)) (gk_keyid q) = g -> 4 <= g < cam_num s -> cam_is_used s g = false ->
  exists u, setkey_hdl rtw_get_stainfo own s q = Some (H2C_SUCCESS, u) /\
    forall i, 0 <= i < 32 -> rtw_sec_read_cam_ent u i =
      if i =? g then mk_cam_ent (grpkey_ctrl (gk_algorithm q) (gk_keyid q)) (cam_bssid s) (gk_key q) else rtw_sec_read_cam_ent s i.
Proof.
  intros I B K Hst Has Eg Hg U. pose proof (ci_num s I) as Hn. pose proof K as [].
  destruct (grpkey_ent_ok q (cam_bssid s)) as (Eo & _ & _); try done.
  unfold setkey_hdl. set (s0 := if gk_set_tx q then _ else s).
  assert (L0 : cam_like s s0) by (unfold s0; destruct (gk_set_tx q); by apply like_of_parts; [apply inv_sized|..]). pose proof (like_inv s s0 I L0) as I0.
  assert (F0 : fw_state s0 = fw_state s /\ cam_bssid s0 = cam_bssid s /\ rtw_get_camid s0 false (Some (cam_bssid s)) (gk_keyid q) = g)
    by (unfold s0; by destruct (gk_set_tx q)). destruct F0 as (F1 & F2 & F3). clearbody s0.
  unfold rtw_camid_alloc. cbv zeta. rewrite F1, F2, F3, Hst. change ((WIFI_FW_STATION_STATE =? WIFI_FW_AP_STATE) || (WIFI_FW_STATION_STATE =? WIFI_FW_ADHOC_STATE)) with false.
  rewrite (proj2 (Z.eqb_neq _ _) Has). destruct (Z.leb_spec 0 g); [|lia]. rewrite used_spec by (done || rewrite ?(cl_num _ _ L0); lia).
  rewrite (cl_used _ _ L0), U by lia. destruct (Z.ltb_spec g 0); [lia|]. destruct (Z.leb_spec g 3); [lia|]. cbn [andb]. cbv iota.
  change (fw_state (s0 <| cam_used := _ |>)) with (fw_state s0). rewrite F1, Hst.
  change ((WIFI_FW_STATION_STATE =? WIFI_FW_AP_STATE) || (WIFI_FW_STATION_STATE =? WIFI_FW_ADHOC_STATE)) with false. cbv iota.
  change (cam_bssid (s0 <| cam_used := _ |>)) with (cam_bssid s0). rewrite F2. fold (grpkey_ctrl (gk_algorithm q) (gk_keyid q)).
  destruct (alloc_put s0 g (grpkey_ctrl (gk_algorithm q) (gk_keyid q)) (cam_bssid s) (gk_key q) I0 ltac:(lia) Eo) as [P _].
  set (u := write_cam _ g _ _ _) in *. assert (Bu : _rtw_camctl_chk_cap u SEC_CAP_CHK_BMC = false).
  { fold (chk_bmc u). rewrite (put_bmc _ _ _ _ P). unfold chk_bmc, _rtw_camctl_chk_cap. by rewrite (cl_cap _ _ L0). }
  rewrite Bu, andb_false_r. cbn [mbind option_bind]. exists (enable_mc u). split; [done|]. intros i Hi.
  Transparent rtw_sec_read_cam_ent. change (rtw_sec_read_cam_ent (enable_mc u) i) with (rtw_sec_read_cam_ent u i).
  rewrite (cp_hw _ _ _ _ P) by done. destruct (i =? g); [done|]. by apply (cl_hw _ _ L0).
Qed.
#[local] Opaque rtw_sec_read_cam_ent.

(** C39. On hardware without SEC_CAP_CHK_BMC, in any state of the key memory, a
    pairwise key whose address and identifier have a group key is written over
    it into an entry whose bit was just cleared with the group key: the
    hardware holds the key but the driver thinks the entry free. On a
    station that is associated with that address, when the entries from 4 up to
    there are in use for others, the next group key, with an identifier the
    address has no key for, is written over it, and no entry of the hardware
    holds the pairwise key any more. *)
Theorem pairwise_key_overwritten s p q g :
  cam_inv s -> chk_bmc s = false -> stakey_ok rtw_get_stainfo p -> sk_algorithm p <> _NO_PRIVACY_ ->
  rtw_get_stainfo (sk_addr p) = Some (sk_addr p) -> 4 <= g < cam_num s -> cam_is_used s g = true ->
  ce_mac (cam_at s g) = sk_addr p -> ent_kid (cam_at s g) = sk_keyid p -> ent_gk (cam_at s g) = true ->
  exists t, set_stakey_hdl rtw_get_stainfo s p = Some (H2C_SUCCESS_RSP, t) /\
    rtw_sec_read_cam_ent t g = stakey_ent p /\ cam_is_used t g = false /\
    (sk_addr p = cam_bssid s -> Z.land (fw_state s) 3 = WIFI_FW_STATION_STATE -> Z.land (fw_state s) WIFI_FW_ASSOC_SUCCESS <> 0 ->
     setkey_ok rtw_get_stainfo s q ->
     (forall i, 4 <= i < 32 -> ent_valid (cam_at s i) -> ce_mac (cam_at s i) = cam_bssid s -> ent_kid (cam_at s i) <> gk_keyid q) ->
     (forall i, 4 <= i < g -> cam_is_used s i = true /\ ce_mac (cam_at s i) <> cam_bssid s) ->
     exists u, setkey_hdl rtw_get_stainfo own t q = Some (H2C_SUCCESS, u) /\
       rtw_sec_read_cam_ent u g = mk_cam_ent (grpkey_ctrl (gk_algorithm q) (gk_keyid q)) (cam_bssid s) (gk_key q) /\
       forall i, 0 <= i < 32 -> rtw_sec_read_cam_ent u i <> stakey_ent p).
Proof.
  intros I B K Ha Hs Hg U Hm Hk Hgk. destruct (stakey_clash s p g I B K Ha Hs Hg U Hm Hk Hgk) as (t & E & C). exists t. split; [done|].
  pose proof C as [It Nt Ct [Ft Bt] At Ht Ut Ot Rt]. split; [done|]. split; [done|]. intros Eb Hst Has Kq Hno Hall. pose proof (ci_num s I) as Hn.
  assert (Btc : chk_bmc t = false) by (unfold chk_bmc, _rtw_camctl_chk_cap; by rewrite Ct).
  destruct (stakey_ent_ok rtw_get_stainfo p K) as (Eo & Ek & Eg). destruct Kq as [G1 G2 G3 G4 G5 G6 G7 G8].
  destruct (grpkey_taken t q g It Btc) as (u & Eu & Hu); [by split; rewrite ?Bt|by rewrite Ft|by rewrite Ft| |by rewrite Nt|done|].
  - rewrite Bt. apply camid_free; [done|done|done|lia|by rewrite Nt|done| |].
    + intros i Hi V Hmi. destruct (Z.eq_dec i g) as [->|Hne].
      * rewrite At, Ek, <- Hk. apply Hno; [lia|by apply (ci_used s I g ltac:(lia))|congruence].
      * pose proof (Ot i ltac:(lia) Hne V) as Ei. rewrite Ei in V, Hmi |- *. by apply Hno.
    + intros i Hi. destruct (Hall i Hi) as [H1 H2]. rewrite Rt by (lia || congruence). done.
  - rewrite Bt in Hu. exists u. split; [done|]. split; [by rewrite Hu, Z.eqb_refl by lia|]. intros i Hi. rewrite Hu by done.
    destruct (Z.eqb_spec i g) as [->|Hne].
    + destruct (grpkey_ent_ok q (cam_bssid s)) as (_ & _ & Gg); try done. intros Ee. rewrite Ee, Eg in Gg. done.
    + intros Ee. pose proof (eo_valid _ Eo) as Ve. destruct (ci_hw t It i Hi) as [Eh|[Nv _]]; [|by rewrite Ee in Nv]. rewrite Ee in Eh.
      destruct (Z.lt_ge_cases i 4).
      * destruct (ci_default t It i) as (Hd & _); [lia|by rewrite <- Eh|]. rewrite <- Eh in Hd. by apply (ko_nonzero _ _ K).
      * apply Hne. apply (ci_unique t It); [lia|lia|by rewrite <- Eh|by rewrite At|]. by rewrite <- Eh, At.
Qed.
End Clash.

(** A station whose access point gave it a group key with identifier 0. *)
Definition clash_start : cam_state :=
  default (cam_fresh 0 32) (cam_run all_stations demo_peer forget_all (cam_fresh 0 32)
    [NewState (WIFI_FW_ASSOC_SUCCESS + WIFI_FW_STATION_STATE) demo_ap; SetKey (group_parm 0)]).

Lemma clash_start_inv : cam_inv clash_start.
Proof.
  destruct demo_ap_ok as (B1 & L1 & N1 & _).
  destruct (cam_run_inv all_stations demo_peer forget_all [NewState (WIFI_FW_ASSOC_SUCCESS + WIFI_FW_STATION_STATE) demo_ap; SetKey (group_parm 0)] forget_ok
    (cam_fresh 0 32)) as (t & E & It); [by apply cam_fresh_inv| |].
  - split; [exact I|]. intros s1 [= <-]. split; [by apply group_ok|]. intros s2 _. exact I.
  - unfold clash_start. rewrite E. exact It.
Qed.

Lemma pairwise_key_overwritten_witness : exists t u, set_stakey_hdl all_stations clash_start (pairwise_parm demo_ap) = Some (H2C_SUCCESS_RSP, t) /\
  rtw_sec_read_cam_ent t 4 = stakey_ent (pairwise_parm demo_ap) /\ setkey_hdl all_stations demo_peer t (group_parm 1) = Some (H2C_SUCCESS, u) /\
  forall i, 0 <= i < 32 -> rtw_sec_read_cam_ent u i <> stakey_ent (pairwise_parm demo_ap).
Proof.
  destruct demo_ap_ok as (B1 & L1 & N1 & _).
  destruct (pairwise_key_overwritten all_stations demo_peer clash_start (pairwise_parm demo_ap) (group_parm 1) 4 clash_start_inv) as (t & E & Ht & _ & H);
    [by vm_compute|by apply pairwise_ok|done|done|vm_compute; split; congruence|by vm_compute|by vm_compute|by vm_compute|by vm_compute|].
  assert (Eb : cam_bssid clash_start = demo_ap) by (vm_compute; reflexivity).
  destruct H as (u & Eu & _ & Hu); [by rewrite Eb|vm_compute; reflexivity|vm_compute; congruence|apply group_ok; rewrite ?Eb; [lia|done|done|done]| | |].
  - intros i Hi V Hm. assert (T : forallb (fun i => negb (bool_decide (ent_kid (cam_at clash_start i) = 1))) (seqZ 0 32) = true) by (vm_compute; reflexivity).
    rewrite forallb_forall in T. specialize (T i ltac:(apply list_elem_of_In, elem_of_seqZ; lia)). by apply negb_true_iff, bool_decide_eq_false in T.
  - intros i Hi. lia.
  - exists t, u. split; [exact E|]. split; [exact Ht|]. split; [exact Eu|exact Hu].
Defined.
