(* ===== verification/StaTable.v ===== *)
(** * Stations: macids and the table (core/rtw_wlan_util.c, core/rtw_sta_mgt.c)

    First the identifiers of stations for the hardware, then the table of
    stations with their association identifiers and the lists of the stations
    that authenticate and of the associated ones.  The rate control of the hardware knows a station by its macid.  Built
    without CONFIG_CONCURRENT_MODE and CONFIG_MCC_MODE: one interface, number
    0, and the broadcast station shares the macid of management frames, so
    the search for a free macid runs for other stations only. *)

From S2P Require Import Prelude Mem SecDefs Reorder RecvFrame Msdu RecvData XmitData XmitQueue Bitmap.
Definition MACID_NUM_SW_LIMIT : nat := 32.
Definition RTW_DEFAULT_MGMT_MACID : Z := 1.
Definition INVALID_SEC_MAC_CAM_ID : Z := 0xff.
Definition iface_id : Z := 0.

(** [mc_cam_num] and [mc_cam_used] are [num] and [used] of [cam_ctl_t]. *)
Record macid_ctl := mk_macid_ctl {
  mc_num : Z; mc_used : Z; mc_bmc : Z; mc_if_g : list Z; mc_ch_g : list Z; mc_iface_bmc : list Z;
  mc_sta : list (option Z); mc_cam_num : Z; mc_cam_used : Z }.

#[export] Instance eta_macid_ctl : Eta macid_ctl := fun c =>
  mk_macid_ctl (mc_num c) (mc_used c) (mc_bmc c) (mc_if_g c) (mc_ch_g c) (mc_iface_bmc c) (mc_sta c) (mc_cam_num c) (mc_cam_used c).

Definition rtw_macid_is_used (c : macid_ctl) (id : Z) : bool := rtw_macid_is_set (mc_used c) id.
Definition rtw_macid_is_bmc (c : macid_ctl) (id : Z) : bool := rtw_macid_is_set (mc_bmc c) id.

Definition rtw_iface_bcmc_id_set (c : macid_ctl) (mac_id : Z) : macid_ctl :=
  c <| mc_iface_bmc := arr_set (mc_iface_bmc c) iface_id mac_id |>.
Definition rtw_iface_bcmc_id_get (c : macid_ctl) : Z := arr_get (mc_iface_bmc c) iface_id.

(** The interfaces of a macid, one bit each. *)
Definition rtw_macid_get_iface_bmp (c : macid_ctl) (id : Z) : Z :=
  foldl (fun bmp i => if rtw_macid_is_set (arr_get (mc_if_g c) i) id then u8 (Z.lor bmp (bit i)) else bmp) 0 (seqZ 0 (Z.of_nat (length (mc_if_g c)))).

Definition rtw_macid_get_ch_g (c : macid_ctl) (id : Z) : Z :=
  if rtw_macid_is_set (arr_get (mc_ch_g c) 0) id then 0 else if rtw_macid_is_set (arr_get (mc_ch_g c) 1) id then 1 else -1.

(** [rtw_macid_ctl_init] of zeroed memory. *)
Definition rtw_macid_ctl_init (c : macid_ctl) : macid_ctl :=
  let id := RTW_DEFAULT_MGMT_MACID in
  c <| mc_used := rtw_macid_map_set (mc_used c) id |> <| mc_bmc := rtw_macid_map_set (mc_bmc c) id |>
    <| mc_if_g := map (fun m => rtw_macid_map_set m id) (mc_if_g c) |> <| mc_sta := arr_set (mc_sta c) id None |>.

(** The highest macid in use above 0, or 0. *)
Definition rtw_search_max_mac_id (c : macid_ctl) : Z :=
  foldl (fun m i => if rtw_macid_is_used c i then i else m) 0 (seqZ 1 (mc_num c - 1)).

(** The first free macid. *)
Definition free_macid (c : macid_ctl) : option Z := snd <$> list_find (fun i => rtw_macid_is_used c i = false) (seqZ 0 (mc_num c)).

Definition rtw_alloc_macid (c : macid_ctl) (own addr : list Z) (psta : Z) : Z * macid_ctl :=
  if bool_decide (addr = own) then (mc_num c, c)
  else if bool_decide (addr = bc_addr) then (RTW_DEFAULT_MGMT_MACID, rtw_iface_bcmc_id_set c INVALID_SEC_MAC_CAM_ID)
  else match free_macid c with
       | Some i =>
           (i, c <| mc_used := rtw_macid_map_set (mc_used c) i |>
                 <| mc_if_g := arr_set (mc_if_g c) iface_id (rtw_macid_map_set (arr_get (mc_if_g c) iface_id) i) |>
                 <| mc_sta := arr_set (mc_sta c) i (Some psta) |>)
       | None => (mc_num c, c)
       end.

(** The macid of the station becomes [mc_num] in every case. *)
Definition rtw_release_macid (c : macid_ctl) (own addr : list Z) (mac_id : Z) : macid_ctl :=
  if bool_decide (addr = own) then c
  else if mc_num c <=? mac_id then c
  else if mac_id =? RTW_DEFAULT_MGMT_MACID then c
  else if negb (rtw_macid_is_used c mac_id) then c
  else
    let ifbmp := rtw_macid_get_iface_bmp c mac_id in
    if Z.land ifbmp (bit iface_id) =? 0 then c
    else
      let c :=
        if bool_decide (addr = bc_addr) then
          let id := rtw_iface_bcmc_id_get c in
          let c := if negb (id =? INVALID_SEC_MAC_CAM_ID) && (id <? mc_cam_num c)
                   then c <| mc_cam_used := rtw_sec_cam_map_clr (mc_cam_used c) id |> else c in
          rtw_iface_bcmc_id_set c INVALID_SEC_MAC_CAM_ID
        else c in
      let c := c <| mc_if_g := arr_set (mc_if_g c) iface_id (rtw_macid_map_clr (arr_get (mc_if_g c) iface_id) mac_id) |> in
      if Z.land ifbmp (Z.lnot (bit iface_id)) =? 0
      then c <| mc_used := rtw_macid_map_clr (mc_used c) mac_id |> <| mc_bmc := rtw_macid_map_clr (mc_bmc c) mac_id |>
             <| mc_ch_g := map (fun m => rtw_macid_map_clr m mac_id) (mc_ch_g c) |> <| mc_sta := arr_set (mc_sta c) mac_id None |>
      else c.

(** ** The table of stations (core/rtw_sta_mgt.c)

    The pool of [NUM_STA] entries, the hash table by address, what
    [rtw_alloc_stainfo] and [rtw_free_stainfo] set up and tear down, and the
    association identifiers of core/rtw_mlme_ext.c and core/rtw_mlme.c.  A
    station is the index of its entry; its queues, its state and its
    identifier are those of [XmitQueue], so that freeing a station returns
    its frames to the pools.  Built with CONFIG_AP_MODE, CONFIG_NATIVEAP_MLME
    and CONFIG_ACTIVE_KEEP_ALIVE_CHECK, without CONFIG_RTW_PRE_LINK_STA.
    [None] is an access outside an array. *)

Definition NUM_STA : nat := 32.
Definition _HW_STATE_AP_ : Z := 3.
Definition WIFI_FW_AUTH_NULL : Z := 0x100.
Definition SEQ_INIT : Z := 0xffff.

(** [mac_addr], [mac_id], [RxMgmtFrameSeqNum], the reorder windows and the
    frames in them. *)
Record sta_entry := mk_entry { se_addr : list Z; se_macid : Z; se_mgnt_seq : Z; se_reorder : list recv_reorder_ctrl }.

#[export] Instance eta_sta_entry : Eta sta_entry := fun e => mk_entry (se_addr e) (se_macid e) (se_mgnt_seq e) (se_reorder e).

Inductive sta_call := UpdateIfaceStatus | SetOdmVar (psta : Z).

(** [sp_up]: there is a network device.  [sp_reorder_freed]: the receive frames
    given back to the free queue. *)
Record sta_priv := mk_sta_priv {
  sp_up : bool; free_sta_queue : list Z; sta_hash : list (list Z); asoc_sta_count : Z; sp_stas : gmap Z sta_entry;
  auth_list : list Z; auth_list_cnt : Z; sta_aid : list (option Z); max_num_sta : Z; sp_state : Z;
  sp_own : list Z; sp_macid : macid_ctl; sp_q : xmit_q; sp_reorder_freed : list rx_mpdu; sp_calls : list sta_call;
  asoc_list : list Z; asoc_list_cnt : Z }.

#[export] Instance eta_sta_priv : Eta sta_priv := fun s =>
  mk_sta_priv (sp_up s) (free_sta_queue s) (sta_hash s) (asoc_sta_count s) (sp_stas s) (auth_list s) (auth_list_cnt s) (sta_aid s)
    (max_num_sta s) (sp_state s) (sp_own s) (sp_macid s) (sp_q s) (sp_reorder_freed s) (sp_calls s) (asoc_list s) (asoc_list_cnt s).

Definition sta_note (s : sta_priv) (c : sta_call) : sta_priv := s <| sp_calls := sp_calls s ++ [c] |>.

Definition put_entry (s : sta_priv) (psta : Z) (e : sta_entry) : sta_priv := s <| sp_stas := <[psta := e]> (sp_stas s) |>.

(** ** The hash (include/sta_info.h) *)

Definition wifi_mac_hash (mac : list Z) : Z :=
  let x := arr_get mac 0 in
  let x := Z.lxor (u32 (Z.shiftl x 2)) (arr_get mac 1) in
  let x := Z.lxor (u32 (Z.shiftl x 2)) (arr_get mac 2) in
  let x := Z.lxor (u32 (Z.shiftl x 2)) (arr_get mac 3) in
  let x := Z.lxor (u32 (Z.shiftl x 2)) (arr_get mac 4) in
  let x := Z.lxor (u32 (Z.shiftl x 2)) (arr_get mac 5) in
  let x := Z.lxor x (Z.shiftr x 8) in
  Z.land x (Z.of_nat NUM_STA - 1).

(** ** The pool *)

Definition zero_phy : sta_phy := mk_sta_phy 0 0 0 0 0 0 0 0 0 0 0 0 0 0 0 0.
Definition zero_tx_sta : tx_sta := mk_tx_sta 0 0 0 0 0 (repeat 0 16) (repeat 0 16) (repeat 0 16) (repeat 0 16) zero_phy.
Definition zero_stats : stainfo_stats := mk_stats 0 0 0 0 0 0 (repeat 0 128) (repeat 0 16).
Definition zero_rx_sta : rx_sta := mk_rx_sta (repeat 0 16) (repeat (repeat 0 8) 16) 0 0 0 false zero_stats.
Definition zero_entry : sta_entry := mk_entry (repeat 0 6) 0 0 (repeat (mk_reorder_ctrl false 0 0 [] false false) 16).

(** [_rtw_init_stainfo]: the memory of the entry is zeroed. *)
Definition init_stainfo (s : sta_priv) (psta : Z) : sta_priv :=
  let q := put_qsta (sp_q s) psta _rtw_init_stainfo in
  let t := (xq_tx q) <| tx_stas := <[psta := zero_tx_sta]> (tx_stas (xq_tx q)) |> in
  let t := t <| tx_rx := set_sta (tx_rx t) psta zero_rx_sta |> in
  put_entry (s <| sp_q := q <| xq_tx := t |> |>) psta zero_entry.

(** [_rtw_init_sta_priv] of a zeroed structure. *)
Definition _rtw_init_sta_priv (s : sta_priv) : sta_priv :=
  let s := s <| asoc_sta_count := 0 |> <| free_sta_queue := [] |> in
  let s := foldl (fun s i => (init_stainfo s i) <| free_sta_queue := free_sta_queue s ++ [i] |>) s (seqZ 0 (Z.of_nat NUM_STA)) in
  s <| sta_hash := repeat [] NUM_STA |> <| sp_q := (sp_q s) <| sta_dz_bitmap := 0 |> <| tim_bitmap := 0 |> <| sta_expire_to := 3 |> |>
    <| asoc_list := [] |> <| auth_list := [] |> <| asoc_list_cnt := 0 |> <| auth_list_cnt := 0 |> <| max_num_sta := Z.of_nat NUM_STA |>.

(** A reorder window as [rtw_alloc_stainfo] sets it up. *)
Definition fresh_reorder : recv_reorder_ctrl := mk_reorder_ctrl false SEQ_INIT 64 [] false false.

(** [rtw_list_insert_tail(&psta->hash_list, &sta_hash[index])]. *)
Definition hash_insert (s : sta_priv) (index psta : Z) : option sta_priv :=
  l ← key_at (sta_hash s) index; Some (s <| sta_hash := arr_set (sta_hash s) index (l ++ [psta]) |>).

(** [rtw_list_delete(&psta->hash_list)]. *)
Definition hash_delete (s : sta_priv) (psta : Z) : sta_priv := s <| sta_hash := map (drop_id psta) (sta_hash s) |>.

(** The sequence numbers of the receive cache. *)
Definition init_rxcache (s : sta_priv) (psta : Z) : sta_priv :=
  let q := sp_q s in
  let t := (xq_tx q) <| tx_rx := set_sta (tx_rx (xq_tx q)) psta (zero_rx_sta <| tid_rxseq := repeat SEQ_INIT 16 |>) |> in
  s <| sp_q := q <| xq_tx := t |> |>.

(** [rtw_alloc_macid]: the macid is a field the transmit path reads. *)
Definition set_macid (s : sta_priv) (psta mac_id : Z) : sta_priv :=
  let q := sp_q s in
  let t := (xq_tx q) <| tx_stas := alter (fun x => x <| ts_mac_id := mac_id |>) psta (tx_stas (xq_tx q)) |> in
  s <| sp_q := q <| xq_tx := t |> |> <| sp_stas := alter (fun e => e <| se_macid := mac_id |>) psta (sp_stas s) |>.

Definition rtw_alloc_stainfo (s : sta_priv) (hwaddr : list Z) : option (option Z * sta_priv) :=
  match free_sta_queue s with
  | psta :: rest =>
      if negb (sp_up s) then Some (None, s)
      else
        let s := init_stainfo (s <| free_sta_queue := rest |>) psta in
        let s := put_entry s psta (zero_entry <| se_addr := hwaddr |>) in
        let index := wifi_mac_hash hwaddr in
        if Z.of_nat NUM_STA <=? index then Some (None, s)
        else
          s ← hash_insert s index psta;
          let s := s <| asoc_sta_count := asoc_sta_count s + 1 |> in
          let s := init_rxcache s psta in
          let s := put_entry s psta (mk_entry hwaddr 0 SEQ_INIT (repeat fresh_reorder 16)) in
          let '(mac_id, c) := rtw_alloc_macid (sp_macid s) (sp_own s) hwaddr psta in
          Some (Some psta, sta_note (set_macid (s <| sp_macid := c |>) psta mac_id) UpdateIfaceStatus)
  | [] => Some (None, s)
  end.

(** The frames waiting in the windows go back to the free queue and the
    timers are cancelled. *)
Definition free_reorder (s : sta_priv) (psta : Z) : option sta_priv :=
  e ← sp_stas s !! psta;
  let s := s <| sp_reorder_freed := sp_reorder_freed s ++ concat (map pending (se_reorder e)) |> in
  Some (put_entry s psta (e <| se_reorder := map (fun c => c <| pending := [] |> <| ro_timer := false |>) (se_reorder e) |>)).

Definition auth_delete (s : sta_priv) (psta : Z) : sta_priv :=
  if bool_decide (psta ∈ auth_list s)
  then s <| auth_list := drop_id psta (auth_list s) |> <| auth_list_cnt := u8 (auth_list_cnt s - 1) |> else s.

Definition asoc_delete (s : sta_priv) (psta : Z) : sta_priv :=
  if bool_decide (psta ∈ asoc_list s)
  then s <| asoc_list := drop_id psta (asoc_list s) |> <| asoc_list_cnt := u8 (asoc_list_cnt s - 1) |> else s.

Definition clear_power_save (st : q_sta) : q_sta :=
  st <| qs_expire_to := 0 |> <| sleepq_ac_len := 0 |> <| uapsd_bk := 0 |> <| uapsd_be := 0 |> <| uapsd_vi := 0 |> <| uapsd_vo := 0 |>
     <| has_legacy_ac := 0 |>.

(** [if (pmlmeinfo->state == _HW_STATE_AP_)]: the bits and the slot of the
    association identifier. *)
Definition release_aid (s : sta_priv) (psta : Z) (st : q_sta) : option sta_priv :=
  if sp_state s =? _HW_STATE_AP_ then
    let aid := qs_aid st in
    let q := sp_q s in
    let q := q <| sta_dz_bitmap := Z.land (sta_dz_bitmap q) (Z.lnot (BIT aid)) |> <| tim_bitmap := Z.land (tim_bitmap q) (Z.lnot (BIT aid)) |> in
    let s := s <| sp_q := q |> in
    if 0 <? aid then
      slot ← key_at (sta_aid s) (aid - 1);
      Some (if bool_decide (slot = Some psta)
            then s <| sta_aid := arr_set (sta_aid s) (aid - 1) None |> <| sp_q := put_qsta q psta (st <| qs_aid := 0 |>) |> else s)
    else Some s
  else Some s.

(** Out of the hash table, and no longer linked. *)
Definition leave_table (s : sta_priv) (psta : Z) : option sta_priv :=
  let s := hash_delete s psta in
  let s := sta_note (s <| asoc_sta_count := asoc_sta_count s - 1 |>) UpdateIfaceStatus in
  w ← sta_state (sp_q s) psta;
  Some (s <| sp_q := set_state (sp_q s) psta (Z.land w (Z.lnot _FW_LINKED)) |>).

Definition drop_odm (s : sta_priv) (psta : Z) : option sta_priv :=
  e ← sp_stas s !! psta;
  w ← sta_state (sp_q s) psta;
  Some (if negb (negb (Z.land w WIFI_AP_STATE =? 0) || MacAddr_isBcst (se_addr e)) then sta_note s (SetOdmVar psta) else s).

Definition release_macid (s : sta_priv) (psta : Z) : option sta_priv :=
  e ← sp_stas s !! psta;
  let c := rtw_release_macid (sp_macid s) (sp_own s) (se_addr e) (se_macid e) in
  Some (set_macid (s <| sp_macid := c |>) psta (mc_num c)).

(** Back to the pool, unless the association identifier is too large. *)
Definition back_to_pool (s : sta_priv) (psta : Z) : option (Z * sta_priv) :=
  st ← xq_stas (sp_q s) !! psta;
  let st := clear_power_save st in
  let s := s <| sp_q := put_qsta (sp_q s) psta st |> in
  if 31 <? qs_aid st then Some (_FAIL, s)
  else
    s ← release_aid s psta st;
    Some (_SUCCESS, s <| free_sta_queue := free_sta_queue s ++ [psta] |>).

Definition rtw_free_stainfo (s : sta_priv) (psta : option Z) : option (Z * sta_priv) :=
  match psta with
  | None => Some (_SUCCESS, s)
  | Some psta =>
      s ← leave_table s psta;
      q ← free_sta_queues (sp_q s) psta;
      s ← free_reorder (s <| sp_q := q |>) psta;
      s ← drop_odm s psta;
      s ← release_macid s psta;
      back_to_pool (auth_delete s psta) psta
  end.

(** ** Looking a station up *)

(** The entries whose address is [addr], in the order of the list. *)
Definition find_in (s : sta_priv) (addr : list Z) (l : list Z) : option Z :=
  snd <$> list_find (fun p => se_addr <$> sp_stas s !! p = Some addr) l.

Definition lookup_addr (hwaddr : list Z) : list Z := if IS_MCAST hwaddr then bc_addr else hwaddr.

Definition rtw_get_stainfo (s : sta_priv) (hwaddr : list Z) : option Z :=
  let addr := lookup_addr hwaddr in
  key_at (sta_hash s) (wifi_mac_hash addr) ≫= find_in s addr.

Definition rtw_get_bcmc_stainfo (s : sta_priv) : option Z := rtw_get_stainfo s bc_addr.

(** The result of the allocation is ignored. *)
Definition rtw_init_bcmc_stainfo (s : sta_priv) : option (Z * sta_priv) :=
  '(_, s) ← rtw_alloc_stainfo s bc_addr; Some (_SUCCESS, s).

(** First the stations are collected and taken out of the hash table. *)
Definition collect_all (s : sta_priv) : list Z * sta_priv :=
  let bcmc := rtw_get_bcmc_stainfo s in
  let l := filter (fun p => bcmc <> Some p) (concat (sta_hash s)) in
  (l, foldl hash_delete s l).

Fixpoint free_each (s : sta_priv) (l : list Z) : option sta_priv :=
  match l with [] => Some s | p :: l => '(_, s) ← rtw_free_stainfo s (Some p); free_each s l end.

Definition rtw_free_all_stainfo (s : sta_priv) : option sta_priv :=
  if asoc_sta_count s =? 1 then Some s else let '(l, s) := collect_all s in free_each s l.

(** ** Association identifiers *)

(** The search of OnAssocReq: the first free slot, when its number is not
    beyond [max_num_sta]; [false] when the request is refused.  Without a free
    slot the loop leaves [NUM_STA + 1] and the request is accepted. *)
Definition assoc_aid (s : sta_priv) (psta : Z) : option (bool * sta_priv) :=
  st ← xq_stas (sp_q s) !! psta;
  if 0 <? qs_aid st then Some (true, s)
  else
    let set_aid aid s := s <| sp_q := put_qsta (sp_q s) psta (st <| qs_aid := aid |>) |> in
    match list_find (fun x => x = None) (sta_aid s) with
    | Some (k, _) =>
        let aid := Z.of_nat k + 1 in
        if max_num_sta s <? aid then Some (false, set_aid 0 s)
        else Some (true, (set_aid aid s) <| sta_aid := arr_set (sta_aid s) (aid - 1) (Some psta) |>)
    | None => Some (true, set_aid (Z.of_nat NUM_STA + 1) s)
    end.

(** At the end of the list of associated stations, with new time. *)
Definition asoc_insert (s : sta_priv) (psta : Z) : option sta_priv :=
  if bool_decide (psta ∈ asoc_list s) then Some s
  else
    st ← xq_stas (sp_q s) !! psta;
    let s := s <| sp_q := put_qsta (sp_q s) psta (st <| qs_expire_to := sta_expire_to (sp_q s) |>) |> in
    Some (s <| asoc_list := asoc_list s ++ [psta] |> <| asoc_list_cnt := u8 (asoc_list_cnt s + 1) |>).

(** The identifier, the state of an accepted station, and its move from the
    stations that authenticate to the associated ones. *)
Definition assoc_sta (s : sta_priv) (psta : Z) : option (bool * sta_priv) :=
  '(ok, s) ← assoc_aid s psta;
  if ok : bool then
    w ← sta_state (sp_q s) psta;
    let w := Z.lor (Z.land w (Z.lnot WIFI_FW_ASSOC_STATE)) WIFI_FW_ASSOC_SUCCESS in
    let s := s <| sp_q := set_state (sp_q s) psta w |> in
    s ← asoc_insert (auth_delete s psta) psta;
    Some (true, s)
  else Some (false, s).

(** [auth_to], in units of two seconds. *)
Definition auth_to : Z := 3.

(** The part of OnAuth that finds or allocates the station, takes it off the
    associated ones, lists it and gives it time; [auth_seq] stays 0 for open
    system authentication. *)
Definition auth_sta (s : sta_priv) (sa : list Z) : option (option Z * sta_priv) :=
  '(r, s) ← (match rtw_get_stainfo s sa with
             | Some p => Some (Some p, asoc_delete s p)
             | None =>
                 '(r, s) ← rtw_alloc_stainfo s sa;
                 Some (r, match r with Some p => s <| sp_q := set_state (sp_q s) p WIFI_FW_AUTH_NULL |> | None => s end)
             end);
  match r with
  | None => Some (None, s)
  | Some p =>
      st ← xq_stas (sp_q s) !! p;
      let s := if bool_decide (p ∈ auth_list s) then s else s <| auth_list := auth_list s ++ [p] |> <| auth_list_cnt := u8 (auth_list_cnt s + 1) |> in
      Some (Some p, s <| sp_q := put_qsta (sp_q s) p (st <| qs_expire_to := auth_to |>) |>)
  end.

(** [auth_fail]: the station that was just listed is freed. *)
Definition auth_fail (s : sta_priv) (sa : list Z) : option sta_priv :=
  '(r, s) ← auth_sta s sa; '(_, s) ← rtw_free_stainfo s r; Some s.

(** What [ap_free_sta] does to the station: its aggregation sessions end, it is
    no longer linked, and its entry is freed. *)
Definition end_sessions (q : xmit_q) (psta : Z) : xmit_q :=
  q <| xq_tx := (xq_tx q) <| tx_stas :=
    alter (fun xs => xs <| ts_phy := (ts_phy xs) <| agg_enable_bitmap := 0 |> |>) psta (tx_stas (xq_tx q)) |> |>.

Definition ap_free_sta (s : sta_priv) (psta : Z) : option sta_priv :=
  let s := s <| sp_q := end_sessions (sp_q s) psta |> in
  w ← sta_state (sp_q s) psta;
  let s := s <| sp_q := set_state (sp_q s) psta (Z.land w (Z.lnot _FW_LINKED)) |> in
  '(_, s) ← rtw_free_stainfo s (Some psta); Some s.

(** The station that a deauthentication or disassociation frame comes from: only
    an associated one is freed. The result is the station that left. *)
Definition OnDeAuth (s : sta_priv) (sa : list Z) : option (option Z * sta_priv) :=
  match rtw_get_stainfo s sa with
  | Some p => if bool_decide (p ∈ asoc_list s) then s ← ap_free_sta (asoc_delete s p) p; Some (Some p, s) else Some (None, s)
  | None => Some (None, s)
  end.

(** The table in [rtw_sta_flush]: the associated stations leave the list, then
    they are freed. *)
Fixpoint ap_free_each (s : sta_priv) (l : list Z) : option sta_priv :=
  match l with [] => Some s | p :: l => s ← ap_free_sta s p; ap_free_each s l end.

Definition rtw_sta_flush (s : sta_priv) : option sta_priv :=
  ap_free_each (foldl asoc_delete s (asoc_list s)) (asoc_list s).

(** [expire_timeout_chk], the stations that authenticate: one whose time is
    over is freed. *)
Definition expire_one (s : sta_priv) (psta : Z) : option sta_priv :=
  st ← xq_stas (sp_q s) !! psta;
  if 0 <? qs_expire_to st then
    let s := s <| sp_q := put_qsta (sp_q s) psta (st <| qs_expire_to := qs_expire_to st - 1 |>) |> in
    if qs_expire_to st - 1 =? 0 then
      let s := s <| auth_list := drop_id psta (auth_list s) |> <| auth_list_cnt := u8 (auth_list_cnt s - 1) |> in
      '(_, s) ← rtw_free_stainfo s (Some psta); Some s
    else Some s
  else Some s.

Fixpoint expire_each (s : sta_priv) (l : list Z) : option sta_priv :=
  match l with [] => Some s | p :: l => s ← expire_one s p; expire_each s l end.

Definition expire_auth (s : sta_priv) : option sta_priv := expire_each s (auth_list s).

(** The station of the access point in [rtw_joinbss_update_stainfo], with
    the association identifier it was given. *)
Definition join_sta (s : sta_priv) (bssid : list Z) (join_res : Z) : option (option Z * sta_priv) :=
  '(r, s) ← (match rtw_get_stainfo s bssid with Some p => Some (Some p, s) | None => rtw_alloc_stainfo s bssid end);
  match r with
  | None => Some (None, s)
  | Some p =>
      st ← xq_stas (sp_q s) !! p;
      e ← sp_stas s !! p;
      let s := s <| sp_q := put_qsta (sp_q s) p (st <| qs_aid := join_res |>) |> in
      Some (Some p, put_entry s p (e <| se_reorder := map (fun c => c <| ro_enable := false |> <| indicate_seq := SEQ_INIT |> <| wsize_b := 64 |>) (se_reorder e) |>))
  end.
