(* ===== verification/StaSpec.v ===== *)
(** * Stations: freed queues, and the table as a finite map

    What [free_sta_queues] leaves of the transmit queues (no frame of the
    station is queued any more, and of the other stations only frames can have
    gone), the invariant of the hash table and the pool, the map from addresses
    to entries it stands for, and allocation and release as insertion and
    deletion. *)

From S2P Require Import Prelude Mem Arc4 SecDefs Wep Michael Tkip Ccmp Reorder RecvFrame Msdu RecvData RecvDataSpec XmitData XmitFrame XmitQueue XmitQueueSpec XmitQueueOps XmitQueueThms Bitmap StaTable.
From stdpp Require Import list.
#[local] Open Scope Z_scope.

(** [st'] is [st] with frames removed. *)
Record sta_shrunk (st st' : q_sta) : Prop := {
  sh_aid : qs_aid st' = qs_aid st;
  sh_expire : qs_expire_to st' = qs_expire_to st;
  sh_len : length (qs_servqs st') = length (qs_servqs st);
  sh_slot sl : slot_frames st' sl ⊆ slot_frames st sl }.

Record q_shrunk (s s' : xmit_q) : Prop := {
  qk_tx : xq_tx s' = xq_tx s;
  qk_dz : sta_dz_bitmap s' = sta_dz_bitmap s;
  qk_tim : tim_bitmap s' = tim_bitmap s;
  qk_dom x : is_Some (xq_stas s' !! x) -> is_Some (xq_stas s !! x);
  qk_sta x st : xq_stas s !! x = Some st -> exists st', xq_stas s' !! x = Some st' /\ sta_shrunk st st' }.

Lemma sta_shrunk_refl st : sta_shrunk st st.
Proof. by split. Qed.

Lemma sta_shrunk_trans a b c : sta_shrunk a b -> sta_shrunk b c -> sta_shrunk a c.
Proof. intros [A1 Ae A2 A3] [B1 Be B2 B3]. split; [congruence|congruence|congruence|]. intros sl. etransitivity; [apply B3|apply A3]. Qed.

Lemma shrunk_refl s : q_shrunk s s.
Proof. split; try done. intros x st H. exists st. split; [done|apply sta_shrunk_refl]. Qed.

Lemma shrunk_trans a b c : q_shrunk a b -> q_shrunk b c -> q_shrunk a c.
Proof.
  intros [A1 A2 A3 A4 A5] [B1 B2 B3 B4 B5]. split; [congruence|congruence|congruence|auto|]. intros x st H.
  destruct (A5 x st H) as (st1 & H1 & S1). destruct (B5 x st1 H1) as (st2 & H2 & S2). exists st2. split; [done|]. by eapply sta_shrunk_trans.
Qed.

Lemma drop_id_sub id l : drop_id id l ⊆ l.
Proof. intros x. unfold drop_id. rewrite list_elem_of_filter. tauto. Qed.

Lemma slot_unlink id st sl : slot_frames (unlink_sta id st) sl = drop_id id (slot_frames st sl).
Proof.
  destruct sl as [ac|]; [|done]. unfold slot_frames, slot_q, unlink_sta, key_at. cbn.
  destruct (0 <=? ac); [|done]. rewrite list_lookup_fmap. by destruct (qs_servqs st !! Z.to_nat ac).
Qed.

Lemma unlink_shrunk id st : sta_shrunk st (unlink_sta id st).
Proof. split; [done|done|cbn; by rewrite length_map|]. intros sl. rewrite slot_unlink. apply drop_id_sub. Qed.

Lemma frame_delete_shrunk s id : q_shrunk s (frame_delete s id).
Proof.
  split; try done; cbn.
  - intros x. rewrite lookup_fmap. intros [st H]. destruct (xq_stas s !! x); done.
  - intros x st H. rewrite lookup_fmap, H. exists (unlink_sta id st). split; [done|apply unlink_shrunk].
Qed.

(** Changes of fields the relation does not mention. *)
Lemma shrunk_fields s s' : xq_tx s' = xq_tx s -> xq_stas s' = xq_stas s -> sta_dz_bitmap s' = sta_dz_bitmap s -> tim_bitmap s' = tim_bitmap s -> q_shrunk s s'.
Proof.
  intros E1 E2 E3 E4. split; rewrite ?E2; try done. intros x st H. exists st. split; [done|apply sta_shrunk_refl].
Qed.

(** Nowhere in the queues. *)
Definition nowhere (s : xmit_q) (id : Z) : Prop := forall x st sl, xq_stas s !! x = Some st -> id ∉ slot_frames st sl.

Lemma nowhere_shrunk s s' id : q_shrunk s s' -> nowhere s id -> nowhere s' id.
Proof.
  intros K N x st sl H Hin. destruct (qk_dom _ _ K x) as [st0 H0]; [by rewrite H|]. destruct (qk_sta _ _ K x st0 H0) as (st' & H' & S).
  rewrite H in H'. injection H' as <-. by apply (N x st0 sl H0), (sh_slot _ _ S).
Qed.

Lemma frame_delete_nowhere s id : nowhere (frame_delete s id) id.
Proof.
  intros x st sl H. cbn in H. rewrite lookup_fmap in H. destruct (xq_stas s !! x) as [st0|]; [|done]. injection H as <-.
  rewrite slot_unlink. unfold drop_id. rewrite list_elem_of_filter. tauto.
Qed.

Lemma free_frame_shrunk s id s' : rtw_free_xmitframe s id = Some s' ->
  q_shrunk s s' /\ (pooled s id -> nowhere s' id).
Proof.
  unfold rtw_free_xmitframe. destruct (xq_frames s !! id) as [f|] eqn:Ef; [|done]. cbn [mbind option_bind].
  set (s1 := put_frame s id _). assert (K1 : q_shrunk s s1) by (by apply shrunk_fields).
  intros H. assert (forall t, q_shrunk t (match qf_pkt f with Some pkt => q_note t (PktComplete pkt) | None => t end)) as Kn.
  { intros t. destruct (qf_pkt f); [by apply shrunk_fields|apply shrunk_refl]. }
  destruct (qf_alloc f) eqn:Ea.
  { cbn [mbind option_bind] in H. injection H as <-. split.
    - eapply shrunk_trans; [exact K1|]. eapply shrunk_trans; [|apply Kn]. by apply shrunk_fields.
    - intros (f' & E & A & _). congruence. }
  set (s2 := frame_delete s1 id) in *. pose proof (frame_delete_shrunk s1 id) as K2. fold s2 in K2.
  pose proof (frame_delete_nowhere s1 id) as N2. fold s2 in N2.
  assert (exists s3, s' = match qf_pkt f with Some pkt => q_note s3 (PktComplete pkt) | None => s3 end /\
    xq_tx s3 = xq_tx s2 /\ xq_stas s3 = xq_stas s2 /\ sta_dz_bitmap s3 = sta_dz_bitmap s2 /\ tim_bitmap s3 = tim_bitmap s2) as (s3 & -> & E1 & E2 & E3 & E4).
  { destruct (qf_ext_tag f =? 0); [|destruct (qf_ext_tag f =? 1)]; cbn [mbind option_bind] in H; [| |done]; injection H as <-; eexists; (split; [reflexivity|done]). }
  pose proof (shrunk_fields _ _ E1 E2 E3 E4) as K3. split.
  - eapply shrunk_trans; [exact K1|]. eapply shrunk_trans; [exact K2|]. eapply shrunk_trans; [exact K3|apply Kn].
  - intros _. eapply nowhere_shrunk; [apply Kn|]. by eapply nowhere_shrunk.
Qed.

(** Freeing does not take frames out of the pools. *)
Lemma free_frame_pooled s id s' x : rtw_free_xmitframe s id = Some s' -> pooled s id -> pooled s x -> pooled s' x.
Proof.
  unfold rtw_free_xmitframe. intros H (f & Ef & Ea & _) (g & Eg & Ga & Gt). rewrite Ef in H. cbn [mbind option_bind] in H. rewrite Ea in H.
  assert (exists h, xq_frames s' !! x = Some h /\ qf_alloc h = qf_alloc g /\ qf_ext_tag h = qf_ext_tag g) as (h & Eh & Ha & Ht).
  { assert (xq_frames s' = <[id := f <| qf_pkt := None |>]> (xq_frames s)) as E.
    { destruct (qf_ext_tag f =? 0); [|destruct (qf_ext_tag f =? 1)]; cbn [mbind option_bind] in H; [| |done]; injection H as <-; by destruct (qf_pkt f). }
    rewrite E. destruct (decide (x = id)) as [->|]; [|exists g; by rewrite lookup_insert_ne].
    rewrite lookup_insert_eq. eexists. split; [done|]. rewrite Ef in Eg. by injection Eg as <-. }
  exists h. rewrite Ha, Ht. done.
Qed.

Lemma free_list_shrunk ids : forall s s', rtw_free_xmitframe_queue s ids = Some s' -> Forall (pooled s) ids ->
  q_shrunk s s' /\ Forall (nowhere s') ids.
Proof.
  unfold rtw_free_xmitframe_queue. induction ids as [|id ids IH]; intros s s' H P; cbn [each] in H.
  { injection H as <-. split; [apply shrunk_refl|done]. }
  apply Forall_cons in P as [Pid P]. destruct (rtw_free_xmitframe s id) as [s1|] eqn:E; [|done]. cbn [mbind option_bind] in H.
  destruct (free_frame_shrunk _ _ _ E) as [K1 N1]. destruct (IH s1 s' H) as [K2 N2].
  { eapply Forall_impl; [exact P|]. intros x Px. by eapply free_frame_pooled. }
  split; [by eapply shrunk_trans|]. apply Forall_cons. split; [|done]. eapply nowhere_shrunk; [exact K2|by apply N1].
Qed.

Lemma put_shrunk s psta st st' : xq_stas s !! psta = Some st -> sta_shrunk st st' -> q_shrunk s (put_qsta s psta st').
Proof.
  intros H S. split; try done; cbn.
  - intros x [y Hy]. destruct (decide (x = psta)) as [->|]; [done|]. by rewrite lookup_insert_ne in Hy.
  - intros x st1 H1. destruct (decide (x = psta)) as [->|].
    + rewrite lookup_insert_eq. rewrite H in H1. injection H1 as <-. by exists st'.
    + rewrite lookup_insert_ne by done. exists st1. split; [done|apply sta_shrunk_refl].
Qed.

Lemma pending_delete_shrunk s psta ac : q_shrunk s (pending_delete s psta ac).
Proof. unfold pending_delete. destruct (key_at _ _); [by apply shrunk_fields|apply shrunk_refl]. Qed.

(** The frames of a slot that were all freed. *)
Lemma slot_emptied s s' x st st' sl : q_shrunk s s' -> xq_stas s !! x = Some st -> xq_stas s' !! x = Some st' ->
  Forall (nowhere s') (slot_frames st sl) -> slot_frames st' sl = [].
Proof.
  intros K H H' N. destruct (qk_sta _ _ K x st H) as (st1 & H1 & S). rewrite H' in H1. injection H1 as <-.
  apply elem_of_nil_inv. intros id Hin. pose proof (sh_slot _ _ S sl id Hin) as Hs. rewrite Forall_forall in N. by apply (N id Hs x st' sl H').
Qed.

Lemma slot_pooled get off hand s psta st sl : q_inv_off get off hand s -> xq_stas s !! psta = Some st -> Forall (pooled s) (slot_frames st sl).
Proof.
  intros I H. apply Forall_forall. intros id Hin. pose proof (qi_pooled _ _ _ _ I) as P. rewrite Forall_forall in P. apply P.
  unfold slot_frames in Hin. destruct (slot_q st sl) as [[l n]|] eqn:E; [|cbn in Hin; by apply not_elem_of_nil in Hin].
  unfold held. rewrite !elem_of_app. right; right; right. eapply in_sta_frames; [exact H|].
  eapply in_slot; [apply (qi_sta _ _ _ _ I _ _ H)|exact E|exact Hin].
Qed.

Lemma servq_slot st ac q : key_at (qs_servqs st) ac = Some q -> slot_frames st (Some ac) = sta_pending q.
Proof. intros H. unfold slot_frames, slot_q. by rewrite H. Qed.

Lemma put_servq_shrunk st ac q q' : key_at (qs_servqs st) ac = Some q -> sta_pending q' = sta_pending q -> sta_shrunk st (put_servq st ac q').
Proof.
  intros H E. destruct (upd_servq st ac q q' H) as [U1 U2 U3]. split; [done|done|done|]. intros sl. unfold slot_frames.
  destruct (decide (sl = Some ac)) as [->|Hne]; [|by rewrite U3]. rewrite U2. cbn. rewrite H. cbn. by rewrite E.
Qed.

Lemma flush_shrunk get hand s psta ac s' : q_inv get hand s -> flush_ac s psta ac = Some s' ->
  q_shrunk s s' /\ forall st', xq_stas s' !! psta = Some st' -> slot_frames st' (Some ac) = [].
Proof.
  intros I. unfold flush_ac. destruct (xq_stas s !! psta) as [st|] eqn:Est; [|done]. cbn [mbind option_bind].
  destruct (key_at (qs_servqs st) ac) as [q|] eqn:Eq; [|done]. cbn [mbind option_bind]. pose proof (servq_slot _ _ _ Eq) as Sq.
  destruct (rtw_free_xmitframe_queue s (sta_pending q)) as [s1|] eqn:E1; [|done]. cbn [mbind option_bind].
  destruct (free_list_shrunk _ _ _ E1) as [K1 N1]. { rewrite <- Sq. by eapply slot_pooled. }
  set (s2 := pending_delete s1 psta ac). pose proof (shrunk_trans _ _ _ K1 (pending_delete_shrunk s1 psta ac)) as K2. fold s2 in K2.
  destruct (key_at (xq_hw s2) ac) as [h|]; [|done]. cbn [mbind option_bind].
  destruct (xq_stas s2 !! psta) as [st2|] eqn:E2; [|done]. cbn [mbind option_bind].
  destruct (key_at (qs_servqs st2) ac) as [q2|] eqn:Eq2; [|done]. cbn [mbind option_bind]. intros [= <-].
  assert (Hempty : slot_frames st2 (Some ac) = []).
  { eapply slot_emptied; [exact K2|exact Est|exact E2|]. rewrite Sq. eapply Forall_impl; [exact N1|]. intros id. apply nowhere_shrunk, pending_delete_shrunk. }
  set (s3 := s2 <| xq_hw := _ |>). 
  assert (S3 : sta_shrunk st2 (put_servq st2 ac (q2 <| qcnt := 0 |>))) by (by eapply put_servq_shrunk).
  assert (K3 : q_shrunk s2 (put_qsta s3 psta (put_servq st2 ac (q2 <| qcnt := 0 |>)))).
  { eapply shrunk_trans; [by apply (shrunk_fields s2 s3)|]. eapply put_shrunk; [exact E2|exact S3]. }
  split; [by eapply shrunk_trans|]. intros st' H'.
  assert (st' = put_servq st2 ac (q2 <| qcnt := 0 |>)) as -> by (cbn in H'; rewrite lookup_insert_eq in H'; congruence).
  apply elem_of_nil_inv. intros id Hin. apply (sh_slot _ _ S3) in Hin. rewrite Hempty in Hin. by apply not_elem_of_nil in Hin.
Qed.

(** A slot that is empty stays empty. *)
Lemma empty_shrunk s s' x st' sl : q_shrunk s s' -> (forall st, xq_stas s !! x = Some st -> slot_frames st sl = []) ->
  xq_stas s' !! x = Some st' -> slot_frames st' sl = [].
Proof.
  intros K H H'. destruct (qk_dom _ _ K x) as [st Hst]; [by rewrite H'|]. destruct (qk_sta _ _ K x st Hst) as (st1 & E & S).
  rewrite H' in E. injection E as <-. apply elem_of_nil_inv. intros id Hin. apply (sh_slot _ _ S) in Hin. rewrite (H st Hst) in Hin. by apply not_elem_of_nil in Hin.
Qed.

(** Four empty service queues and an empty sleep queue are no frames. *)
Lemma slots_empty st : length (qs_servqs st) = 4%nat -> (forall sl, sl = None \/ (exists ac, sl = Some ac /\ 0 <= ac < 4) -> slot_frames st sl = []) -> frames_of st = [].
Proof.
  intros L H. rewrite frames_slots by done. rewrite (H None), (H (Some 0)), (H (Some 1)), (H (Some 2)), (H (Some 3)) by first [by left | right; eexists; split; [reflexivity|lia]]. done.
Qed.

(** [free_sta_queues] returns, keeps the invariant and every frame, and leaves
    the station without frames. *)
Lemma free_sta_emptied get hand s a psta : q_inv get hand s -> get a = Some psta ->
  exists s', free_sta_queues s psta = Some s' /\ q_inv get hand s' /\ hand ++ held s' ≡ₚ hand ++ held s /\ q_shrunk s s' /\
    forall st', xq_stas s' !! psta = Some st' -> frames_of st' = [].
Proof.
  intros I Ha. destruct (free_sta_inv get hand s a psta I Ha) as (s' & E & I' & P). exists s'. split; [done|]. split; [done|]. split; [done|].
  revert E. unfold free_sta_queues. destruct (xq_stas s !! psta) as [st|] eqn:Est; [|done]. cbn [mbind option_bind].
  destruct (rtw_free_xmitframe_queue s (sleep_q st)) as [s1|] eqn:E1; [|done]. cbn [mbind option_bind].
  destruct (free_list_shrunk _ _ _ E1) as [K1 N1]. { apply (slot_pooled _ _ _ _ _ _ None I Est). }
  destruct (xq_stas s1 !! psta) as [st1|] eqn:Est1; [|done]. cbn [mbind option_bind].
  pose proof (slot_emptied _ _ _ _ _ None K1 Est Est1 N1) as Z1.
  set (s2 := put_qsta s1 psta _).
  assert (K2 : q_shrunk s1 s2) by (eapply put_shrunk; [exact Est1|split; [done|done|done|by intros [ac|]]]).
  assert (Z2 : forall st', xq_stas s2 !! psta = Some st' -> slot_frames st' None = []) by (intros st' H; eapply empty_shrunk; [exact K2| |exact H]; congruence).
  assert (I2 : q_inv get hand s2).
  { destruct (free_slot get no_off hand s psta st None _ _ I Est eq_refl) as (t1 & off & u1 & F1 & J1 & _ & O & H1 & Q1).
    rewrite F1 in E1. injection E1 as ->. rewrite Est1 in H1. injection H1 as <-. injection Q1 as Q1 Q2.
    destruct (inv_put get off no_off hand hand s1 psta st1 (st1 <| sleepq_len := 0 |>) None (sleep_q st1) (sleepq_len st1) (sleep_q st1) 0 J1 Est1 eq_refl) as [J2 _];
      [split; [done|done|by intros [ac|]]|done|by rewrite Q1|by rewrite Q1|intros p sl Hne; symmetry; by rewrite O|exact J2]. }
  assert (step : forall u, q_inv get hand u -> forall ac, 0 <= ac < 4 -> forall v, flush_ac u psta ac = Some v -> q_inv get hand v).
  { intros u Iu ac Hac v Ev. destruct (flush_inv get hand u a psta ac Iu Ha Hac) as (v' & Ev' & Iv & _). rewrite Ev in Ev'. by injection Ev' as <-. }
  destruct (flush_ac s2 psta 0) as [s3|] eqn:E3; [|done]. cbn [mbind option_bind]. destruct (flush_shrunk _ _ _ _ _ _ I2 E3) as [K3 Z3].
  pose proof (step _ I2 0 ltac:(lia) _ E3) as I3.
  destruct (flush_ac s3 psta 1) as [s4|] eqn:E4; [|done]. cbn [mbind option_bind]. destruct (flush_shrunk _ _ _ _ _ _ I3 E4) as [K4 Z4].
  pose proof (step _ I3 1 ltac:(lia) _ E4) as I4.
  destruct (flush_ac s4 psta 2) as [s5|] eqn:E5; [|done]. cbn [mbind option_bind]. destruct (flush_shrunk _ _ _ _ _ _ I4 E5) as [K5 Z5].
  pose proof (step _ I4 2 ltac:(lia) _ E5) as I5.
  intros E6. destruct (flush_shrunk _ _ _ _ _ _ I5 E6) as [K6 Z6].
  assert (K : q_shrunk s s').
  { eapply shrunk_trans; [exact K1|]. eapply shrunk_trans; [exact K2|]. eapply shrunk_trans; [exact K3|]. eapply shrunk_trans; [exact K4|].
    eapply shrunk_trans; [exact K5|exact K6]. }
  split; [exact K|]. intros st' Hst'. apply slots_empty; [apply (qi_sta _ _ _ _ I' _ _ Hst')|].
  assert (K56 := shrunk_trans _ _ _ K5 K6). assert (K456 := shrunk_trans _ _ _ K4 K56). assert (K3456 := shrunk_trans _ _ _ K3 K456).
  intros sl [->|(ac & -> & Hac)]; [by eapply empty_shrunk|].
  assert (ac = 0 \/ ac = 1 \/ ac = 2 \/ ac = 3) as [->|[->|[->| ->]]] by lia;
    [by eapply (empty_shrunk _ _ _ _ _ K456)|by eapply (empty_shrunk _ _ _ _ _ K56)|by eapply (empty_shrunk _ _ _ _ _ K6)|by apply Z6].
Qed.

(** ** The table of stations as a finite map

    The invariant of the hash table and the pool, the map from addresses to
    entries it stands for, and what allocating and freeing an entry do to the
    fields of the state. *)

Definition hashed (s : sta_priv) : list Z := concat (sta_hash s).
Definition addr_of (s : sta_priv) (p : Z) : list Z := default [] (se_addr <$> sp_stas s !! p).

Record tbl_inv (s : sta_priv) : Prop := {
  ti_len : length (sta_hash s) = NUM_STA;
  ti_pool : NoDup (free_sta_queue s ++ hashed s);
  ti_range p : p ∈ free_sta_queue s ++ hashed s -> 0 <= p < 32;
  ti_count : asoc_sta_count s = Z.of_nat (length (hashed s));
  ti_ent p : 0 <= p < 32 -> is_Some (sp_stas s !! p);
  ti_bucket k l p : sta_hash s !! k = Some l -> p ∈ l -> k = Z.to_nat (wifi_mac_hash (addr_of s p));
  ti_addr p q : p ∈ hashed s -> q ∈ hashed s -> addr_of s p = addr_of s q -> p = q }.

(** The map the table stands for. *)
Definition sta_map (s : sta_priv) : gmap (list Z) Z := list_to_map (map (fun p => (addr_of s p, p)) (hashed s)).

Lemma wifi_mac_hash_range a : 0 <= wifi_mac_hash a < 32.
Proof. unfold wifi_mac_hash. cbv zeta. change (Z.of_nat NUM_STA - 1) with (Z.ones 5). rewrite Z.land_ones by lia. apply Z.mod_pos_bound. lia. Qed.

Lemma in_hashed s p : p ∈ hashed s <-> exists k l, sta_hash s !! k = Some l /\ p ∈ l.
Proof.
  unfold hashed. rewrite list_elem_of_In, in_concat. split.
  - intros (l & Hl & Hp). apply list_elem_of_In, list_elem_of_lookup in Hl as [k Hk]. exists k, l. by rewrite list_elem_of_In.
  - intros (k & l & Hk & Hp). exists l. rewrite <- !list_elem_of_In. split; [by eapply list_elem_of_lookup_2|done].
Qed.

Section table.
Context (s : sta_priv) (I : tbl_inv s).

Lemma hashed_nodup : NoDup (hashed s).
Proof. pose proof (ti_pool s I) as H. by apply NoDup_app in H as (_ & _ & H). Qed.

Lemma hashed_range p : p ∈ hashed s -> 0 <= p < 32.
Proof. intros H. apply (ti_range s I), elem_of_app. by right. Qed.

Lemma hashed_ent p : p ∈ hashed s -> sp_stas s !! p = Some (default zero_entry (sp_stas s !! p)).
Proof. intros H. destruct (ti_ent s I p (hashed_range p H)) as [e ->]. done. Qed.

Lemma free_not_hashed p : p ∈ free_sta_queue s -> p ∉ hashed s.
Proof. pose proof (ti_pool s I) as H. apply NoDup_app in H as (_ & H & _). apply H. Qed.

Lemma sta_map_some a p : sta_map s !! a = Some p <-> p ∈ hashed s /\ addr_of s p = a.
Proof.
  unfold sta_map. rewrite <- elem_of_list_to_map.
  - change (map (fun p => (addr_of s p, p)) (hashed s)) with ((fun p => (addr_of s p, p)) <$> hashed s). rewrite list_elem_of_fmap. split.
    + intros (q & [= -> ->] & Hq). done.
    + intros [Hp <-]. by exists p.
  - change (map (fun p => (addr_of s p, p)) (hashed s)) with ((fun p => (addr_of s p, p)) <$> hashed s). rewrite <- list_fmap_compose.
    apply NoDup_fmap_2_strong; [|apply hashed_nodup]. intros x y Hx Hy H. by apply (ti_addr s I).
Qed.

(** [rtw_get_stainfo] is the lookup in the map. *)
Lemma get_stainfo_map a : rtw_get_stainfo s a = sta_map s !! lookup_addr a.
Proof.
  unfold rtw_get_stainfo. set (b := lookup_addr a). pose proof (wifi_mac_hash_range b) as Hr. unfold key_at.
  destruct (Z.leb_spec 0 (wifi_mac_hash b)); [|lia].
  destruct (lookup_lt_is_Some_2 (sta_hash s) (Z.to_nat (wifi_mac_hash b))) as [l Hl].
  { rewrite (ti_len s I). unfold NUM_STA. lia. }
  rewrite Hl. cbn [mbind option_bind]. unfold find_in. apply option_eq. intros p. rewrite sta_map_some.
  destruct (list_find (fun p => se_addr <$> sp_stas s !! p = Some b) l) as [[i q]|] eqn:E; cbn.
  - apply list_find_Some in E as (Hq & Ha & _).
    assert (Hin : q ∈ hashed s) by (apply in_hashed; exists (Z.to_nat (wifi_mac_hash b)), l; split; [done|by eapply list_elem_of_lookup_2]).
    assert (Haq : addr_of s q = b) by (unfold addr_of; by rewrite Ha).
    split; [intros [= <-]; done|]. intros [Hp Hap]. f_equal. apply (ti_addr s I); [done|done|congruence].
  - apply list_find_None in E. split; [done|]. intros [Hp Ha]. exfalso. pose proof Hp as Hp'.
    apply in_hashed in Hp as (k & l' & Hk & Hp). pose proof (ti_bucket s I k l' p Hk Hp) as Hkk. rewrite Ha in Hkk. subst k.
    rewrite Hl in Hk. injection Hk as <-. rewrite Forall_forall in E. apply (E p Hp). rewrite (hashed_ent p Hp').
    unfold addr_of in Ha. rewrite (hashed_ent p Hp') in Ha. cbn in Ha. cbn. by rewrite Ha.
Qed.

Lemma sta_map_size : size (sta_map s) = length (hashed s).
Proof.
  unfold sta_map. change (map (fun p => (addr_of s p, p)) (hashed s)) with ((fun p => (addr_of s p, p)) <$> hashed s).
  rewrite <- (length_fmap (fun p => (addr_of s p, p)) (hashed s)). rewrite <- (map_to_list_to_map ((fun p => (addr_of s p, p)) <$> hashed s)) at 2.
  - by rewrite length_map_to_list.
  - rewrite <- list_fmap_compose. apply NoDup_fmap_2_strong; [|apply hashed_nodup]. intros x y Hx Hy H. by apply (ti_addr s I).
Qed.
End table.

(** ** The transmit queues of the stations *)

Definition no_get : list Z -> option Z := fun _ => None.

(** The queues keep their invariant, every entry of the pool has queues, and
    those of free entries are empty. *)
Definition q_part (free : list Z) (q : xmit_q) : Prop :=
  (exists hand, q_inv no_get hand q) /\ (forall p, 0 <= p < 32 -> is_Some (xq_stas q !! p)) /\
  (forall p st, p ∈ free -> xq_stas q !! p = Some st -> frames_of st = []).

(** The time left of an entry, in units of two seconds. *)
Definition expire_of (q : xmit_q) (p : Z) : Z := default 0 (qs_expire_to <$> xq_stas q !! p).

Definition aid_of (q : xmit_q) (p : Z) : Z := default 0 (qs_aid <$> xq_stas q !! p).

Lemma inv_get get get' hand q : q_inv get hand q -> (forall a p, get' a = Some p -> is_Some (xq_stas q !! p)) -> q_inv get' hand q.
Proof. intros [I1 I2 I3 I4 I5 I6] H. by split. Qed.

Lemma q_part_fields free q q' :
  q_part free q -> xq_stas q' = xq_stas q -> xq_free q' = xq_free q -> xq_free_ext q' = xq_free_ext q ->
  free_xmitframe_cnt q' = free_xmitframe_cnt q -> free_xframe_ext_cnt q' = free_xframe_ext_cnt q -> xq_hw q' = xq_hw q ->
  xq_frames q' = xq_frames q -> (forall p, is_Some (tx_stas (xq_tx q) !! p) -> is_Some (tx_stas (xq_tx q') !! p)) -> q_part free q'.
Proof.
  intros ([hand I] & H1 & H2) E1 E2 E3 E4 E5 E6 E7 E8. split; [|by rewrite E1]. exists hand. eapply inv_same; [|exact I].
  split; rewrite ?E6; try done. intros id f Hf. exists f. by rewrite E7.
Qed.

Lemma alter_some {A} (m : gmap Z A) f k p : is_Some (m !! p) -> is_Some (alter f k m !! p).
Proof. intros [x H]. destruct (decide (k = p)) as [->|]; [rewrite lookup_alter_eq, H|rewrite lookup_alter_ne, H by done]; done. Qed.

Lemma insert_some {A} (m : gmap Z A) k x p : is_Some (m !! p) -> is_Some (<[k := x]> m !! p).
Proof. intros [y H]. destruct (decide (k = p)) as [->|]; [by rewrite lookup_insert_eq|by rewrite lookup_insert_ne, H by done]. Qed.

Lemma q_part_state free q p v : q_part free q -> q_part free (set_state q p v).
Proof. intros H. eapply q_part_fields; [exact H|done..|]. intros x. cbn. apply alter_some. Qed.

(** Fields that are not queues. *)
Lemma q_part_put free q p st st' :
  q_part free q -> xq_stas q !! p = Some st -> qs_servqs st' = qs_servqs st -> sleep_q st' = sleep_q st -> sleepq_len st' = sleepq_len st ->
  q_part free (put_qsta q p st').
Proof.
  intros ([hand I] & H1 & H2) Hst E1 E2 E3. split; [|split].
  - exists hand. destruct (inv_put no_get no_off no_off hand hand q p st st' None (sleep_q st) (sleepq_len st) (sleep_q st) (sleepq_len st) I Hst eq_refl) as [J _];
      [|done|by eapply (so_slot _ _ _ _ (qi_sta _ _ _ _ I p st Hst) None)|by apply (so_slot _ _ _ _ (qi_sta _ _ _ _ I p st Hst) None)|done|done].
    split; [by rewrite E1|cbn; congruence|]. intros [ac|] Hne; [|done]. cbn. by rewrite E1.
  - intros x Hx. cbn. by apply insert_some, H1.
  - intros x st1 Hx. cbn. destruct (decide (p = x)) as [->|]; [|rewrite lookup_insert_ne by done; by apply H2].
    rewrite lookup_insert_eq. intros [= <-]. rewrite <- (H2 x st Hx Hst). unfold frames_of, pending_of. by rewrite E1, E2.
Qed.

(** The queues of an entry without frames are set up anew. *)
Lemma held_idle q p : (forall st, xq_stas q !! p = Some st -> frames_of st = []) -> held (put_qsta q p _rtw_init_stainfo) ≡ₚ held q.
Proof.
  intros He. destruct (xq_stas q !! p) as [st|] eqn:Hst; [apply (held_put_same q p st); [done|by rewrite (He st eq_refl)]|].
  unfold held, put_qsta. cbn [xq_free xq_free_ext xq_stas].
  assert (E : sta_frames (<[p := _rtw_init_stainfo]> (xq_stas q)) ≡ₚ sta_frames (xq_stas q)); [|cbn; by rewrite E].
  rewrite (sta_frames_delete (<[p := _rtw_init_stainfo]> (xq_stas q)) p _rtw_init_stainfo) by apply lookup_insert_eq.
  by rewrite delete_insert_id.
Qed.

Lemma init_sta_inv hand q p t :
  q_inv no_get hand q -> (forall st, xq_stas q !! p = Some st -> frames_of st = []) ->
  (forall x, is_Some (tx_stas (xq_tx q) !! x) -> is_Some (tx_stas t !! x)) -> is_Some (tx_stas t !! p) ->
  q_inv no_get hand ((put_qsta q p _rtw_init_stainfo) <| xq_tx := t |>).
Proof.
  intros [I1 I2 I3 I4 I5 I6] He Ht Hp. pose proof (held_idle q p He) as Hheld. split.
  - change (NoDup (hand ++ held (put_qsta q p _rtw_init_stainfo))). by rewrite Hheld.
  - change (Forall (pooled q) (hand ++ held (put_qsta q p _rtw_init_stainfo))). by rewrite Hheld.
  - exact I3.
  - destruct I4 as [L F]. split; [exact L|]. eapply Forall_impl; [exact F|]. intros h Hh. eapply Forall_impl; [exact Hh|]. intros x. apply insert_some.
  - done.
  - intros x st1. cbn. destruct (decide (p = x)) as [->|].
    + rewrite lookup_insert_eq. intros [= <-]. split; [done|exact Hp|]. intros sl l n E.
      destruct (idle_slots _ _ _ _ (eq_refl : qs_servqs _rtw_init_stainfo = _) eq_refl eq_refl E) as [-> ->]. split; [by destruct sl|constructor].
    + rewrite lookup_insert_ne by done. intros E. destruct (I6 x st1 E) as [S1 S2 S3]. split; [done|by apply Ht|done].
Qed.

Lemma q_part_init free q p t :
  q_part free q -> (forall st, xq_stas q !! p = Some st -> frames_of st = []) ->
  (forall x, is_Some (tx_stas (xq_tx q) !! x) -> is_Some (tx_stas t !! x)) -> is_Some (tx_stas t !! p) ->
  q_part free ((put_qsta q p _rtw_init_stainfo) <| xq_tx := t |>).
Proof.
  intros ([hand I] & H1 & H2) He Ht Hp. split; [exists hand; by apply init_sta_inv|]. split.
  - intros x Hx. cbn. by apply insert_some, H1.
  - intros x st1 Hx. cbn. destruct (decide (p = x)) as [->|]; [|rewrite lookup_insert_ne by done; by apply H2].
    rewrite lookup_insert_eq. by intros [= <-].
Qed.

(** Freeing a station returns, and its queues are empty then. *)
Lemma q_part_free free q p : q_part free q -> 0 <= p < 32 ->
  exists q', free_sta_queues q p = Some q' /\ q_part (p :: free) q' /\ q_shrunk q q'.
Proof.
  intros ([hand I] & H1 & H2) Hp.
  assert (I' : q_inv (fun _ => Some p) hand q) by (eapply inv_get; [exact I|]; intros a x [= <-]; by apply H1).
  destruct (free_sta_emptied _ _ _ [] p I' eq_refl) as (q' & E & J & _ & K & Z0). exists q'. split; [done|]. split; [|done]. split; [|split].
  - exists hand. by eapply inv_get.
  - intros x Hx. destruct (H1 x Hx) as [st Hst]. destruct (qk_sta _ _ K x st Hst) as (st' & -> & _). done.
  - intros x st' Hx Hst'. apply elem_of_cons in Hx as [->|Hx]; [by apply Z0|]. destruct (qk_dom _ _ K x) as [st Hst]; [by rewrite Hst'|].
    destruct (qk_sta _ _ K x st Hst) as (st1 & E1 & S). rewrite Hst' in E1. injection E1 as <-.
    apply slots_empty; [by apply (so_len _ _ _ _ (qi_sta _ _ _ _ J x st' Hst'))|]. intros sl Hsl. apply elem_of_nil_inv. intros id Hid.
    apply (sh_slot _ _ S) in Hid. pose proof (H2 x st Hx Hst) as He.
    rewrite frames_slots in He by (apply (qi_sta _ _ _ _ I x st Hst)).
    repeat (apply app_eq_nil in He as [? He]). destruct Hsl as [->|(ac & -> & Hac)].
    + rewrite He in Hid. by apply not_elem_of_nil in Hid.
    + assert (ac = 0 \/ ac = 1 \/ ac = 2 \/ ac = 3) as [->|[->|[->| ->]]] by lia;
        match goal with H : slot_frames st (Some ?k) = [], G : id ∈ slot_frames st (Some ?k) |- _ => rewrite H in G; by apply not_elem_of_nil in G end.
Qed.

(** ** What the operations do to the fields *)

Record allocated (s : sta_priv) (a : list Z) (p : Z) (rest : list Z) (s' : sta_priv) : Prop := {
  al_free : free_sta_queue s' = rest;
  al_hash : exists l, key_at (sta_hash s) (wifi_mac_hash a) = Some l /\ sta_hash s' = arr_set (sta_hash s) (wifi_mac_hash a) (l ++ [p]);
  al_count : asoc_sta_count s' = asoc_sta_count s + 1;
  al_stas : sp_stas s' = <[p := mk_entry a (fst (rtw_alloc_macid (sp_macid s) (sp_own s) a p)) SEQ_INIT (repeat fresh_reorder 16)]> (sp_stas s);
  al_macid : sp_macid s' = snd (rtw_alloc_macid (sp_macid s) (sp_own s) a p);
  al_q : q_part rest (sp_q s');
  al_aid x : aid_of (sp_q s') x = if decide (x = p) then 0 else aid_of (sp_q s) x;
  al_rest : sp_up s' = sp_up s /\ sp_own s' = sp_own s /\ sta_aid s' = sta_aid s /\ max_num_sta s' = max_num_sta s /\
            sp_state s' = sp_state s /\ auth_list s' = auth_list s;
  al_asoc : asoc_list s' = asoc_list s }.

Lemma alloc_view s a p rest : tbl_inv s -> q_part (free_sta_queue s) (sp_q s) -> free_sta_queue s = p :: rest -> sp_up s = true ->
  exists s', rtw_alloc_stainfo s a = Some (Some p, s') /\ allocated s a p rest s'.
Proof.
  intros I Q E Up. pose proof (wifi_mac_hash_range a) as Hh. pose proof Q as (_ & Q1 & Q2). rewrite E in Q2.
  assert (Hp : 0 <= p < 32) by (apply (ti_range s I); rewrite E; by left).
  destruct (Q1 p Hp) as [st Hst]. pose proof (Q2 p st ltac:(by left) Hst) as He.
  destruct (lookup_lt_is_Some_2 (sta_hash s) (Z.to_nat (wifi_mac_hash a))) as [l Hl]; [rewrite (ti_len s I); unfold NUM_STA; lia|].
  assert (Hk : key_at (sta_hash s) (wifi_mac_hash a) = Some l) by (unfold key_at; destruct (Z.leb_spec 0 (wifi_mac_hash a)); [done|lia]).
  unfold rtw_alloc_stainfo. rewrite E, Up. cbn [negb]. destruct (Z.leb_spec (Z.of_nat NUM_STA) (wifi_mac_hash a)) as [H|_]; [unfold NUM_STA in H; lia|].
  unfold hash_insert. cbn -[wifi_mac_hash rtw_alloc_macid arr_set NUM_STA]. rewrite Hk. cbn -[wifi_mac_hash rtw_alloc_macid arr_set NUM_STA].
  destruct (rtw_alloc_macid (sp_macid s) (sp_own s) a p) as [mac c] eqn:Em. cbn -[wifi_mac_hash arr_set NUM_STA].
  eexists. split; [reflexivity|]. split; cbn -[wifi_mac_hash arr_set NUM_STA].
  - done.
  - by exists l.
  - done.
  - rewrite Em. apply map_eq. intros x. destruct (decide (p = x)) as [->|]; [by rewrite lookup_alter_eq, !lookup_insert_eq|].
    rewrite lookup_alter_ne by done. by rewrite !lookup_insert_ne by done.
  - by rewrite Em.
  - assert (Q' : q_part rest (sp_q s)) by (destruct Q as (Qa & Qb & _); split; [done|]; split; [done|]; intros x st1 Hx; apply Q2; by right).
    apply (q_part_init rest (sp_q s) p _ Q'); [intros st1 E1; congruence|cbn..].
    + intros x Hx. by apply alter_some, insert_some.
    + rewrite lookup_alter_eq, lookup_insert_eq. done.
  - intros x. unfold aid_of. cbn. destruct (decide (x = p)) as [->|]; [by rewrite lookup_insert_eq|by rewrite lookup_insert_ne].
  - done.
  - done.
Qed.

Lemma alloc_full s a : free_sta_queue s = [] -> rtw_alloc_stainfo s a = Some (None, s).
Proof. intros E. unfold rtw_alloc_stainfo. by rewrite E. Qed.

(** The slots of the association identifiers after [p] is freed. *)
Definition slots_after (s : sta_priv) (p : Z) : list (option Z) :=
  let aid := aid_of (sp_q s) p in
  if (sp_state s =? _HW_STATE_AP_) && (0 <? aid) && bool_decide (key_at (sta_aid s) (aid - 1) = Some (Some p))
  then arr_set (sta_aid s) (aid - 1) None else sta_aid s.

Record freed (s : sta_priv) (p : Z) (s' : sta_priv) : Prop := {
  fr_free : free_sta_queue s' = free_sta_queue s ++ [p];
  fr_hash : sta_hash s' = map (drop_id p) (sta_hash s);
  fr_count : asoc_sta_count s' = asoc_sta_count s - 1;
  fr_stas x : x <> p -> sp_stas s' !! x = sp_stas s !! x;
  fr_ent : is_Some (sp_stas s' !! p);
  fr_macid e : sp_stas s !! p = Some e -> sp_macid s' = rtw_release_macid (sp_macid s) (sp_own s) (se_addr e) (se_macid e);
  fr_q : q_part (free_sta_queue s ++ [p]) (sp_q s');
  fr_aid x : x <> p -> aid_of (sp_q s') x = aid_of (sp_q s) x;
  fr_slots : sta_aid s' = slots_after s p;
  fr_rest : sp_up s' = sp_up s /\ sp_own s' = sp_own s /\ max_num_sta s' = max_num_sta s /\ sp_state s' = sp_state s;
  fr_auth : auth_list s' = drop_id p (auth_list s);
  fr_asoc : asoc_list s' = asoc_list s;
  fr_expire x : x <> p -> expire_of (sp_q s') x = expire_of (sp_q s) x }.

Lemma expire_shrunk q q' x : q_shrunk q q' -> expire_of q' x = expire_of q x.
Proof.
  intros K. unfold expire_of. destruct (xq_stas q !! x) as [st|] eqn:E.
  - destruct (qk_sta _ _ K x st E) as (st' & -> & S). cbn. apply (sh_expire _ _ S).
  - destruct (xq_stas q' !! x) as [st'|] eqn:E'; [|done]. destruct (qk_dom _ _ K x) as [st Hst]; [by rewrite E'|]. congruence.
Qed.

Lemma aid_shrunk q q' x : q_shrunk q q' -> aid_of q' x = aid_of q x.
Proof.
  intros K. unfold aid_of. destruct (xq_stas q !! x) as [st|] eqn:E.
  - destruct (qk_sta _ _ K x st E) as (st' & -> & S). cbn. apply (sh_aid _ _ S).
  - destruct (xq_stas q' !! x) as [st'|] eqn:E'; [|done]. destruct (qk_dom _ _ K x) as [st Hst]; [by rewrite E'|]. congruence.
Qed.

Lemma q_part_weaken free free' q : (forall x, x ∈ free' -> x ∈ free) -> q_part free q -> q_part free' q.
Proof. intros H (Q1 & Q2 & Q3). split; [done|]. split; [done|]. intros p st Hp. apply Q3. by apply H. Qed.

Lemma q_part_state_at free q p : q_part free q -> 0 <= p < 32 -> exists w, sta_state q p = Some w.
Proof.
  intros ([hand I] & Q2 & _) Hp. destruct (Q2 p Hp) as [st Hst]. destruct (so_tx _ _ _ _ (qi_sta _ _ _ _ I p st Hst)) as [x Hx].
  unfold sta_state. rewrite Hx. by eexists.
Qed.

(** The association identifier of a station that leaves. *)
Lemma release_aid_view s p st :
  xq_stas (sp_q s) !! p = Some st -> q_part (p :: free_sta_queue s) (sp_q s) ->
  (sp_state s = _HW_STATE_AP_ -> 0 < qs_aid st -> qs_aid st <= Z.of_nat (length (sta_aid s))) ->
  exists s', release_aid s p st = Some s' /\ sta_aid s' = slots_after s p /\ q_part (p :: free_sta_queue s) (sp_q s') /\
    (forall x, x <> p -> aid_of (sp_q s') x = aid_of (sp_q s) x /\ expire_of (sp_q s') x = expire_of (sp_q s) x) /\
    exists sl q, s' = s <| sta_aid := sl |> <| sp_q := q |>.
Proof.
  intros Hst Q Hlen. unfold release_aid, slots_after. assert (Ha : aid_of (sp_q s) p = qs_aid st) by (unfold aid_of; by rewrite Hst). rewrite Ha.
  destruct (Z.eqb_spec (sp_state s) _HW_STATE_AP_) as [E|]; cbn [andb].
  2: { exists s. split; [done|]. split; [done|]. split; [done|]. split; [done|]. exists (sta_aid s), (sp_q s). by destruct s. }
  cbv zeta. cbn -[BIT]. set (q1 := (sp_q s) <| sta_dz_bitmap := _ |> <| tim_bitmap := _ |>).
  assert (Q1 : q_part (p :: free_sta_queue s) q1) by (by eapply q_part_fields).
  destruct (Z.ltb_spec 0 (qs_aid st)); cbn [andb].
  2: { exists (s <| sp_q := q1 |>). split; [done|]. split; [done|]. split; [done|]. split; [done|]. exists (sta_aid s), q1. by destruct s. }
  destruct (lookup_lt_is_Some_2 (sta_aid s) (Z.to_nat (qs_aid st - 1))) as [sl Hsl]; [specialize (Hlen E ltac:(done)); lia|].
  assert (Hk : key_at (sta_aid s) (qs_aid st - 1) = Some sl) by (unfold key_at; destruct (Z.leb_spec 0 (qs_aid st - 1)); [done|lia]).
  rewrite Hk. cbn [mbind option_bind]. destruct (decide (sl = Some p)) as [->|Hne].
  - rewrite !bool_decide_true by done. eexists. split; [reflexivity|]. split; [done|]. split; [|split].
    + cbn. by eapply (q_part_put _ q1 p st).
    + intros x Hx. unfold aid_of, expire_of. cbn. by rewrite lookup_insert_ne.
    + exists (arr_set (sta_aid s) (qs_aid st - 1) None). eexists. destruct s; reflexivity.
  - rewrite !bool_decide_false by congruence. eexists. split; [reflexivity|]. split; [done|]. split; [done|]. split; [done|].
    exists (sta_aid s), q1. by destruct s.
Qed.

Lemma auth_delete_view s p : exists n, auth_delete s p = s <| auth_list := drop_id p (auth_list s) |> <| auth_list_cnt := n |>.
Proof.
  unfold auth_delete. case_bool_decide as H; [by eexists|]. exists (auth_list_cnt s). rewrite drop_id_id by done. by destruct s.
Qed.

(** What holds while a station is freed; [rel]: its macid is released. *)
Record leaving (fr : list Z) (rel : bool) (s : sta_priv) (p : Z) (e : sta_entry) (t : sta_priv) : Prop := {
  lv_free : free_sta_queue t = free_sta_queue s;
  lv_hash : sta_hash t = map (drop_id p) (sta_hash s);
  lv_count : asoc_sta_count t = asoc_sta_count s - 1;
  lv_stas : exists e', sp_stas t = <[p := e']> (sp_stas s) /\ se_addr e' = se_addr e /\ (rel = false -> se_macid e' = se_macid e);
  lv_macid : sp_macid t = if rel then rtw_release_macid (sp_macid s) (sp_own s) (se_addr e) (se_macid e) else sp_macid s;
  lv_q : q_part fr (sp_q t);
  lv_aid x : aid_of (sp_q t) x = aid_of (sp_q s) x;
  lv_rest : sp_up t = sp_up s /\ sp_own t = sp_own s /\ max_num_sta t = max_num_sta s /\ sp_state t = sp_state s /\ sta_aid t = sta_aid s;
  lv_auth : auth_list t = auth_list s;
  lv_asoc : asoc_list t = asoc_list s;
  lv_expire x : expire_of (sp_q t) x = expire_of (sp_q s) x }.

Lemma leave_view s p e : q_part (free_sta_queue s) (sp_q s) -> 0 <= p < 32 -> sp_stas s !! p = Some e ->
  exists t, leave_table s p = Some t /\ leaving (free_sta_queue s) false s p e t.
Proof.
  intros Q Hp He. unfold leave_table, hash_delete. cbn. destruct (q_part_state_at _ _ _ Q Hp) as [w ->]. cbn. eexists. split; [reflexivity|].
  split; cbn; try done; [|by apply (q_part_state _ _ p)]. exists e. by rewrite insert_id.
Qed.

Lemma queues_view s p e t : leaving (free_sta_queue s) false s p e t -> 0 <= p < 32 ->
  exists q, free_sta_queues (sp_q t) p = Some q /\ leaving (p :: free_sta_queue s) false s p e (t <| sp_q := q |>).
Proof.
  intros [F1 F2 F3 F4 F5 F6 F7 F8 F9 Fa Fe] Hp. destruct (q_part_free _ _ _ F6 Hp) as (q & E & Q & K). exists q. split; [exact E|]. split; cbn; try done.
  - intros x. by rewrite (aid_shrunk _ _ x K).
  - intros x. by rewrite (expire_shrunk _ _ x K).
Qed.

Lemma reorder_view s p e t : leaving (p :: free_sta_queue s) false s p e t ->
  exists t', free_reorder t p = Some t' /\ leaving (p :: free_sta_queue s) false s p e t'.
Proof.
  intros [F1 F2 F3 (e' & F4 & A & M) F5 F6 F7 F8 F9 Fa Fe]. unfold free_reorder. rewrite F4, lookup_insert_eq. cbn [mbind option_bind]. cbv zeta.
  eexists. split; [reflexivity|]. split; cbn; try done. rewrite F4. eexists. split; [apply insert_insert_eq|done].
Qed.

Lemma odm_view s p e t : leaving (p :: free_sta_queue s) false s p e t -> 0 <= p < 32 ->
  exists t', drop_odm t p = Some t' /\ leaving (p :: free_sta_queue s) false s p e t'.
Proof.
  intros [F1 F2 F3 (e' & F4 & A & M) F5 F6 F7 F8 F9 Fa Fe] Hp. unfold drop_odm. rewrite F4, lookup_insert_eq. cbn [mbind option_bind].
  destruct (q_part_state_at _ _ _ F6 Hp) as [w ->]. cbn [mbind option_bind]. eexists. split; [reflexivity|].
  destruct (negb _); split; try done; by exists e'.
Qed.

Lemma macid_view s p e t : leaving (p :: free_sta_queue s) false s p e t -> sp_stas s !! p = Some e ->
  exists t', release_macid t p = Some t' /\ leaving (p :: free_sta_queue s) true s p e t'.
Proof.
  intros [F1 F2 F3 (e' & F4 & A & M) F5 F6 F7 F8 F9 Fa Fe] He. unfold release_macid. rewrite F4, lookup_insert_eq. cbn [mbind option_bind].
  destruct F8 as (R1 & R2 & R3). eexists. split; [reflexivity|]. split; cbn -[rtw_release_macid]; try done.
  - rewrite F4. exists (e' <| se_macid := mc_num (rtw_release_macid (sp_macid t) (sp_own t) (se_addr e') (se_macid e')) |>). split; [|done].
    apply map_eq. intros x. destruct (decide (p = x)) as [->|]; [by rewrite lookup_alter_eq, !lookup_insert_eq|].
    rewrite lookup_alter_ne by done. by rewrite !lookup_insert_ne by done.
  - by rewrite F5, R2, A, M.
  - eapply q_part_fields; [exact F6|done..|]. intros x. cbn. apply alter_some.
Qed.

Lemma free_ends s p e s3 : leaving (p :: free_sta_queue s) true s p e s3 -> sp_stas s !! p = Some e -> 0 <= p < 32 -> aid_of (sp_q s) p <= 31 ->
  (sp_state s = _HW_STATE_AP_ -> 0 < aid_of (sp_q s) p -> aid_of (sp_q s) p <= Z.of_nat (length (sta_aid s))) ->
  exists s', back_to_pool (auth_delete s3 p) p = Some (_SUCCESS, s') /\ freed s p s'.
Proof.
  intros [F1 F2 F3 (e' & F4 & _) F5 F6 F7 (R1 & R2 & R3 & R4 & R5) F9 Fa Fe] He Hp Ha Hlen. destruct (auth_delete_view s3 p) as [n ->]. pose proof F6 as (_ & Q1 & _).
  unfold back_to_pool. cbn -[release_aid]. destruct (Q1 p Hp) as [st Hst]. rewrite Hst. cbn -[release_aid]. assert (Hq : qs_aid st = aid_of (sp_q s) p) by (rewrite <- F7; unfold aid_of; by rewrite Hst).
  destruct (Z.ltb_spec 31 (qs_aid st)); [lia|].
  set (s4 := s3 <| auth_list := drop_id p (auth_list s3) |> <| auth_list_cnt := n |> <| sp_q := put_qsta (sp_q s3) p (clear_power_save st) |>).
  assert (H4 : xq_stas (sp_q s4) !! p = Some (clear_power_save st)) by apply lookup_insert_eq.
  assert (Q4 : q_part (p :: free_sta_queue s4) (sp_q s4)) by (cbn; rewrite F1; by eapply (q_part_put _ _ p st)).
  assert (A4 : forall x, aid_of (sp_q s4) x = aid_of (sp_q s) x).
  { intros x. rewrite <- F7. unfold aid_of. cbn. destruct (decide (p = x)) as [->|]; [by rewrite lookup_insert_eq, Hst|by rewrite lookup_insert_ne]. }
  assert (X4 : forall x, x <> p -> expire_of (sp_q s4) x = expire_of (sp_q s) x) by (intros x Nx; rewrite <- Fe; unfold expire_of; cbn; by rewrite lookup_insert_ne).
  destruct (release_aid_view s4 p (clear_power_save st) H4 Q4) as (s5 & E5 & S5 & Q5 & A5 & sl & q & ->).
  { cbn. rewrite R4, R5, Hq. done. }
  fold s4. rewrite E5. cbn [mbind option_bind]. eexists. split; [reflexivity|]. cbn in S5, Q5, A5 |- *. split; cbn; try done.
  - by rewrite F1.
  - intros x Hx. rewrite F4. by rewrite lookup_insert_ne.
  - rewrite F4, lookup_insert_eq. by eexists.
  - intros e1 E1. rewrite He in E1. injection E1 as <-. done.
  - rewrite F1 in Q5. eapply q_part_weaken; [|exact Q5]. intros x. rewrite elem_of_app, list_elem_of_singleton, elem_of_cons. tauto.
  - intros x Hx. destruct (A5 x Hx) as [-> _]. apply A4.
  - rewrite S5. unfold slots_after. rewrite A4. cbn. by rewrite R4, R5.
  - by rewrite F9.
  - intros x Hx. destruct (A5 x Hx) as [_ ->]. by apply X4.
Qed.

(** Freeing a station up to the pool. *)
Lemma freeing_view s p e : q_part (free_sta_queue s) (sp_q s) -> 0 <= p < 32 -> sp_stas s !! p = Some e ->
  exists s5, rtw_free_stainfo s (Some p) = back_to_pool (auth_delete s5 p) p /\ leaving (p :: free_sta_queue s) true s p e s5.
Proof.
  intros Q Hp He. destruct (leave_view s p e Q Hp He) as (s1 & E1 & F1). unfold rtw_free_stainfo. rewrite E1. cbn [mbind option_bind].
  destruct (queues_view s p e s1 F1 Hp) as (q & E2 & F2). rewrite E2. cbn [mbind option_bind].
  destruct (reorder_view s p e _ F2) as (s3 & E3 & F3). rewrite E3. cbn [mbind option_bind].
  destruct (odm_view s p e s3 F3 Hp) as (s4 & E4 & F4). rewrite E4. cbn [mbind option_bind].
  destruct (macid_view s p e s4 F4 He) as (s5 & E5 & F5). rewrite E5. cbn [mbind option_bind]. by exists s5.
Qed.

Lemma free_view s p e : q_part (free_sta_queue s) (sp_q s) -> 0 <= p < 32 -> sp_stas s !! p = Some e -> aid_of (sp_q s) p <= 31 ->
  (sp_state s = _HW_STATE_AP_ -> 0 < aid_of (sp_q s) p -> aid_of (sp_q s) p <= Z.of_nat (length (sta_aid s))) ->
  exists s', rtw_free_stainfo s (Some p) = Some (_SUCCESS, s') /\ freed s p s'.
Proof.
  intros Q Hp He Ha Hlen. destruct (freeing_view s p e Q Hp He) as (s5 & E5 & F5). rewrite E5. by apply (free_ends s p e).
Qed.

(** With a large association identifier the entry does not come back; otherwise
    the station is freed. *)
Lemma lose_ends s p e s3 : leaving (p :: free_sta_queue s) true s p e s3 -> sp_stas s !! p = Some e -> 0 <= p < 32 -> 31 < aid_of (sp_q s) p ->
  sp_state s <> _HW_STATE_AP_ ->
  exists s', back_to_pool (auth_delete s3 p) p = Some (_FAIL, s') /\ free_sta_queue s' = free_sta_queue s /\
    freed s p (s' <| free_sta_queue := free_sta_queue s' ++ [p] |>).
Proof.
  intros [F1 F2 F3 (e' & F4 & _) F5 F6 F7 (R1 & R2 & R3 & R4 & R5) F9 Fa Fe] He Hp Ha Hs. destruct (auth_delete_view s3 p) as [n ->]. pose proof F6 as (_ & Q1 & _).
  unfold back_to_pool. cbn -[release_aid]. destruct (Q1 p Hp) as [st Hst]. rewrite Hst. cbn -[release_aid]. assert (Hq : qs_aid st = aid_of (sp_q s) p) by (rewrite <- F7; unfold aid_of; by rewrite Hst).
  destruct (Z.ltb_spec 31 (qs_aid st)); [|lia]. eexists. split; [reflexivity|]. split; [exact F1|]. split; cbn; try done.
  - by rewrite F1.
  - intros x Hx. rewrite F4. by rewrite lookup_insert_ne.
  - rewrite F4, lookup_insert_eq. by eexists.
  - intros e1 E1. rewrite He in E1. injection E1 as <-. done.
  - apply (q_part_weaken (p :: free_sta_queue s)); [intros x; rewrite elem_of_app, list_elem_of_singleton, elem_of_cons; tauto|].
    by eapply (q_part_put _ _ p st).
  - intros x Hx. rewrite <- F7. unfold aid_of. cbn. by rewrite lookup_insert_ne.
  - unfold slots_after. destruct (Z.eqb_spec (sp_state s) _HW_STATE_AP_); [done|]. exact R5.
  - by rewrite F9.
  - intros x Hx. rewrite <- Fe. unfold expire_of. cbn. by rewrite lookup_insert_ne.
Qed.

Lemma lose_view s p e : q_part (free_sta_queue s) (sp_q s) -> 0 <= p < 32 -> sp_stas s !! p = Some e -> 31 < aid_of (sp_q s) p ->
  sp_state s <> _HW_STATE_AP_ ->
  exists s', rtw_free_stainfo s (Some p) = Some (_FAIL, s') /\ free_sta_queue s' = free_sta_queue s /\
    freed s p (s' <| free_sta_queue := free_sta_queue s' ++ [p] |>).
Proof.
  intros Q Hp He Ha Hs. destruct (freeing_view s p e Q Hp He) as (s5 & E5 & F5). rewrite E5. by apply (lose_ends s p e).
Qed.

(** ** Allocating and freeing in the table of stations

    A new entry is a new binding of the map, a freed one a deleted binding;
    the invariant of the table is kept. *)

Lemma concat_add {A} (ll : list (list A)) k l x : ll !! k = Some l -> concat (<[k := l ++ [x]]> ll) ≡ₚ x :: concat ll.
Proof.
  revert k. induction ll as [|h ll IH]; intros [|k] H; try done; cbn in *.
  - injection H as ->. solve_Permutation.
  - rewrite IH by done. solve_Permutation.
Qed.

Lemma addr_of_insert s s' p e x : sp_stas s' = <[p := e]> (sp_stas s) -> addr_of s' x = if decide (x = p) then se_addr e else addr_of s x.
Proof.
  intros H. unfold addr_of. rewrite H. destruct (decide (x = p)) as [->|]; [by rewrite lookup_insert_eq|by rewrite lookup_insert_ne].
Qed.

Lemma key_at_nat {A} (l : list A) i x : key_at l i = Some x -> l !! Z.to_nat i = Some x.
Proof. unfold key_at. by destruct (0 <=? i). Qed.

Section alloc.
Context (s s' : sta_priv) (a : list Z) (p : Z) (rest : list Z).
Context (I : tbl_inv s) (E : free_sta_queue s = p :: rest) (A : allocated s a p rest s') (New : sta_map s !! a = None).

Lemma alloc_hashed : hashed s' ≡ₚ p :: hashed s.
Proof. destruct (al_hash _ _ _ _ _ A) as (l & H1 & H2). unfold hashed. rewrite H2. apply concat_add. by apply key_at_nat. Qed.

Lemma alloc_addr x : addr_of s' x = if decide (x = p) then a else addr_of s x.
Proof. by rewrite (addr_of_insert s s' p _ x (al_stas _ _ _ _ _ A)). Qed.

Lemma alloc_fresh : p ∉ hashed s.
Proof. apply (free_not_hashed s I). rewrite E. by left. Qed.

Lemma alloc_addr_new x : x ∈ hashed s -> addr_of s x <> a.
Proof. intros Hx Ha. assert (sta_map s !! a = Some x) by (by apply (sta_map_some s I)). congruence. Qed.

Lemma alloc_pool : free_sta_queue s' ++ hashed s' ≡ₚ free_sta_queue s ++ hashed s.
Proof. rewrite alloc_hashed, (al_free _ _ _ _ _ A), E. cbn. by rewrite <- Permutation_middle. Qed.

Lemma alloc_tbl : tbl_inv s'.
Proof.
  pose proof alloc_fresh as Hp. pose proof alloc_hashed as Hh. destruct (al_hash _ _ _ _ _ A) as (l & H1 & H2).
  split.
  - rewrite H2, length_arr_set. apply (ti_len s I).
  - rewrite alloc_pool. apply (ti_pool s I).
  - intros x. rewrite alloc_pool. apply (ti_range s I).
  - rewrite Hh, (al_count _ _ _ _ _ A), (ti_count s I). cbn [length]. lia.
  - intros x Hx. rewrite (al_stas _ _ _ _ _ A). by apply insert_some, (ti_ent s I).
  - intros k l' x Hk Hx. rewrite alloc_addr. apply key_at_nat in H1. rewrite H2 in Hk. unfold arr_set in Hk.
    destruct (decide (k = Z.to_nat (wifi_mac_hash a))) as [->|Hne].
    + rewrite list_lookup_insert_eq in Hk by (by eapply lookup_lt_Some). injection Hk as <-.
      apply elem_of_app in Hx as [Hx| ->%list_elem_of_singleton]; [|by rewrite decide_True].
      rewrite decide_False; [by eapply (ti_bucket s I)|]. intros ->. apply Hp, in_hashed. eauto.
    + rewrite list_lookup_insert_ne in Hk by done. rewrite decide_False; [by eapply (ti_bucket s I)|].
      intros ->. apply Hp, in_hashed. eauto.
  - intros x y. rewrite !Hh, !elem_of_cons, !alloc_addr. intros Hx Hy.
    destruct (decide (x = p)) as [->|Nx]; destruct (decide (y = p)) as [->|Ny]; try done.
    + intros Ea. exfalso. apply (alloc_addr_new y); [tauto|done].
    + intros Ea. exfalso. apply (alloc_addr_new x); [tauto|done].
    + apply (ti_addr s I); tauto.
Qed.

Lemma alloc_map : sta_map s' = <[a := p]> (sta_map s).
Proof.
  apply map_eq. intros b. apply option_eq. intros x. rewrite (sta_map_some s' alloc_tbl), alloc_hashed, elem_of_cons, alloc_addr.
  rewrite lookup_insert_Some, (sta_map_some s I). pose proof alloc_fresh. destruct (decide (x = p)) as [->|Nx].
  - split; [intros [_ <-]; by left|]. intros [[<- _]|(_ & Hp & _)]; [by split; [left|]|done].
  - split; [intros [[?|Hx] <-]; [done|]|intros [[_ ?]|(_ & Hx & <-)]; [done|by split; [right|]]].
    right. split; [|done]. intros Ha. by apply (alloc_addr_new x Hx).
Qed.
End alloc.

Section free.
Context (s s' : sta_priv) (p : Z).
Context (I : tbl_inv s) (Hp : p ∈ hashed s) (F : freed s p s').

Lemma free_hashed : hashed s' = drop_id p (hashed s).
Proof. unfold hashed. by rewrite (fr_hash _ _ _ F), <- drop_id_concat. Qed.

Lemma free_addr x : x <> p -> addr_of s' x = addr_of s x.
Proof. intros H. unfold addr_of. by rewrite (fr_stas _ _ _ F). Qed.

Lemma free_in x : x ∈ hashed s' <-> x ∈ hashed s /\ x <> p.
Proof. rewrite free_hashed. unfold drop_id. rewrite list_elem_of_filter. tauto. Qed.

Lemma free_perm : hashed s ≡ₚ p :: hashed s'.
Proof. rewrite free_hashed. symmetry. apply drop_id_perm; [apply (hashed_nodup s I)|done]. Qed.

Lemma free_pool : free_sta_queue s' ++ hashed s' ≡ₚ free_sta_queue s ++ hashed s.
Proof. rewrite (fr_free _ _ _ F), <- app_assoc, free_perm. done. Qed.

Lemma free_tbl : tbl_inv s'.
Proof.
  split.
  - rewrite (fr_hash _ _ _ F), length_map. apply (ti_len s I).
  - rewrite free_pool. apply (ti_pool s I).
  - intros x. rewrite free_pool. apply (ti_range s I).
  - pose proof (Permutation_length free_perm) as H. cbn [length] in H. rewrite (fr_count _ _ _ F), (ti_count s I), H. lia.
  - intros x Hx. destruct (decide (x = p)) as [->|Ne]; [apply (fr_ent _ _ _ F)|]. rewrite (fr_stas _ _ _ F) by done. by apply (ti_ent s I).
  - intros k l x Hk Hx. rewrite (fr_hash _ _ _ F) in Hk. change (map (drop_id p) (sta_hash s)) with (drop_id p <$> sta_hash s) in Hk.
    rewrite list_lookup_fmap in Hk. destruct (sta_hash s !! k) as [l0|] eqn:El; [|done]. injection Hk as <-.
    unfold drop_id in Hx. apply list_elem_of_filter in Hx as [Nx Hx]. rewrite free_addr by done. by eapply (ti_bucket s I).
  - intros x y [Hx Nx]%free_in [Hy Ny]%free_in. rewrite !free_addr by done. by apply (ti_addr s I).
Qed.

Lemma free_map : sta_map s' = delete (addr_of s p) (sta_map s).
Proof.
  apply map_eq. intros b. apply option_eq. intros x. rewrite (sta_map_some s' free_tbl), free_in.
  rewrite lookup_delete_Some, (sta_map_some s I). split.
  - intros [[Hx Nx] <-]. rewrite free_addr by done. split; [|done]. intros H. apply Nx. symmetry. by apply (ti_addr s I).
  - intros (Hb & Hx & <-). assert (x <> p) by (by intros ->). by rewrite free_addr.
Qed.
End free.
