(* ===== verification/StaIds.v ===== *)
(** * Identifiers of stations

    Every ordinary station has a macid of its own, every associated station of
    an access point an association identifier of its own; both fit because
    the broadcast station takes one of the 32 entries. *)

From S2P Require Import Prelude Mem SecDefs Reorder RecvFrame RecvData XmitData XmitQueue XmitQueueSpec Bitmap StaTable StaSpec.
From stdpp Require Import list.
#[local] Open Scope Z_scope.

(** ** Counting *)

(** Different numbers have different owners, so there are as many. *)
Lemma owners {A} (R : A -> Z -> Prop) ids : NoDup ids -> (forall i, i ∈ ids -> exists p, R i p) -> (forall i j p, R i p -> R j p -> i = j) ->
  exists ps, length ps = length ids /\ NoDup ps /\ forall p, p ∈ ps -> exists i, i ∈ ids /\ R i p.
Proof.
  intros N H J. induction ids as [|i ids IH].
  - exists []. split; [done|]. split; [constructor|]. intros p Hp. by apply not_elem_of_nil in Hp.
  - apply NoDup_cons in N as [Ni N]. destruct IH as (ps & L & Np & Hps); [done|intros j Hj; apply H; by right|].
    destruct (H i) as [p Hp]; [by left|]. exists (p :: ps). split; [cbn; by rewrite L|]. split.
    + apply NoDup_cons. split; [|done]. intros Hin. destruct (Hps p Hin) as (j & Hj & Rj). apply Ni. by rewrite (J i j p).
    + intros q [->|Hq]%elem_of_cons; [exists i; split; [by left|done]|]. destruct (Hps q Hq) as (j & Hj & Rj). exists j. split; [by right|done].
Qed.

Lemma pool_bound l : NoDup l -> (forall x, x ∈ l -> 0 <= x < 32) -> (length l <= 32)%nat.
Proof.
  intros N H. assert (Hs : l ⊆+ seqZ 0 32) by (apply NoDup_submseteq; [done|]; intros x Hx; apply elem_of_seqZ; specialize (H x Hx); lia).
  apply submseteq_length in Hs. by rewrite length_seqZ in Hs.
Qed.

(** ** macids *)

Definition macid_of (s : sta_priv) (p : Z) : Z := default 0 (se_macid <$> sp_stas s !! p).

(** A station of the network that is neither the broadcast station nor the
    driver itself. *)
Definition ordinary (s : sta_priv) (p : Z) : Prop := p ∈ hashed s /\ addr_of s p <> bc_addr /\ addr_of s p <> sp_own s.

Record mac_inv (s : sta_priv) : Prop := {
  mi_num : mc_num (sp_macid s) = 32;
  mi_ifg : exists g, mc_if_g (sp_macid s) = [g] /\ forall i, 0 <= i < 32 -> Z.testbit g i = Z.testbit (mc_used (sp_macid s)) i;
  mi_used i : 0 <= i < 32 -> Z.testbit (mc_used (sp_macid s)) i = true <-> i = 1 \/ exists p, ordinary s p /\ macid_of s p = i;
  mi_id p : ordinary s p -> 0 <= macid_of s p < 32 /\ macid_of s p <> 1;
  mi_inj p q : ordinary s p -> ordinary s q -> macid_of s p = macid_of s q -> p = q }.

(** The same stations and macids. *)
Lemma mac_inv_same s s' : mac_inv s -> (forall p, ordinary s' p <-> ordinary s p) -> (forall p, ordinary s p -> macid_of s' p = macid_of s p) ->
  mc_num (sp_macid s') = mc_num (sp_macid s) -> mc_if_g (sp_macid s') = mc_if_g (sp_macid s) -> mc_used (sp_macid s') = mc_used (sp_macid s) -> mac_inv s'.
Proof.
  intros [M1 M2 M3 M4 M5] O M E1 E2 E3. split; rewrite ?E1, ?E2, ?E3; try done.
  - intros i Hi. rewrite M3 by done. split; (intros [?|(p & Hp & <-)]; [by left|right]); exists p.
    + split; [by apply O|by apply M].
    + apply O in Hp. split; [done|]. symmetry. by apply M.
  - intros p Hp. apply O in Hp. rewrite M by done. by apply M4.
  - intros p q Hp Hq. apply O in Hp, Hq. rewrite !M by done. by apply M5.
Qed.

(** A macid is free as long as a broadcast station and another entry are not
    ordinary. *)
Lemma macid_free s p b : tbl_inv s -> mac_inv s -> 0 <= p < 32 -> p ∉ hashed s -> b ∈ hashed s -> addr_of s b = bc_addr ->
  exists i, free_macid (sp_macid s) = Some i /\ 0 <= i < 32 /\ Z.testbit (mc_used (sp_macid s)) i = false.
Proof.
  intros I M Hp Np Hb Ab. unfold free_macid. rewrite (mi_num s M).
  destruct (list_find _ (seqZ 0 32)) as [[k i]|] eqn:E.
  - apply list_find_Some in E as (Hk & Hu & _). apply lookup_seqZ in Hk. exists i. split; [done|]. split; [lia|].
    unfold rtw_macid_is_used in Hu. change rtw_macid_is_set with rtw_sec_camid_is_set in Hu. by rewrite is_set_bit in Hu by lia.
  - exfalso. apply list_find_None in E. rewrite Forall_forall in E.
    destruct (owners (fun i q => ordinary s q /\ macid_of s q = i) (0 :: seqZ 2 30)) as (ps & L & N & H).
    + apply NoDup_cons. split; [rewrite elem_of_seqZ; lia|apply NoDup_seqZ].
    + intros i Hi. assert (0 <= i < 32 /\ i <> 1) as [Hr Hi1] by (apply elem_of_cons in Hi as [->|Hi%elem_of_seqZ]; lia).
      assert (Hu : Z.testbit (mc_used (sp_macid s)) i = true).
      { specialize (E i ltac:(apply elem_of_seqZ; lia)). cbv beta in E. apply not_false_is_true in E. unfold rtw_macid_is_used in E.
        change rtw_macid_is_set with rtw_sec_camid_is_set in E. by rewrite is_set_bit in E by lia. }
      apply (mi_used s M) in Hu as [?|(q & Hq & Eq)]; [done|by exists q|done].
    + intros i j q [_ <-] [_ <-]. done.
    + assert (Hb' : (length (p :: b :: ps) <= 32)%nat).
      { apply pool_bound.
        - apply NoDup_cons. split; [|apply NoDup_cons; split; [|done]].
          + intros [->|Hin]%elem_of_cons; [done|]. destruct (H p Hin) as (i & _ & [(? & _) _]). done.
          + intros Hin. destruct (H b Hin) as (i & _ & [(_ & ? & _) _]). done.
        - intros x [->|[->|Hx]%elem_of_cons]%elem_of_cons; [done|by apply (hashed_range s I)|].
          destruct (H x Hx) as (i & _ & [(Hx' & _) _]). by apply (hashed_range s I). }
      cbn [length] in Hb'. rewrite L in Hb'. cbn [length] in Hb'. rewrite length_seqZ in Hb'. lia.
Qed.

Section mac_alloc.
Context (s s' : sta_priv) (a : list Z) (p b : Z) (rest : list Z).
Context (I : tbl_inv s) (M : mac_inv s) (E : free_sta_queue s = p :: rest) (A : allocated s a p rest s') (New : sta_map s !! a = None).
Context (Hbc : a = bc_addr \/ (b ∈ hashed s /\ addr_of s b = bc_addr)).

Lemma alloc_macid_of x : x <> p -> macid_of s' x = macid_of s x.
Proof. intros H. unfold macid_of. by rewrite (al_stas _ _ _ _ _ A), lookup_insert_ne. Qed.

Lemma alloc_own : sp_own s' = sp_own s.
Proof. apply (al_rest _ _ _ _ _ A). Qed.

Lemma alloc_ordinary x : ordinary s' x <-> (x <> p /\ ordinary s x) \/ (x = p /\ a <> bc_addr /\ a <> sp_own s).
Proof.
  unfold ordinary. rewrite alloc_own, (alloc_hashed s s' a p rest A), elem_of_cons, (alloc_addr s s' a p rest A).
  pose proof (alloc_fresh s p rest I E). destruct (decide (x = p)) as [->|]; tauto.
Qed.

Lemma mac_alloc : mac_inv s'.
Proof.
  pose proof (al_macid _ _ _ _ _ A) as Ec. unfold rtw_alloc_macid in Ec. pose proof (alloc_fresh s p rest I E) as Hp.
  case_bool_decide as E1; [|case_bool_decide as E2].
  1,2: cbn in Ec; apply (mac_inv_same s s' M); rewrite ?Ec; try done;
    [intros x; rewrite alloc_ordinary; split; [intros [[_ ?]|(_ & ? & ?)]; congruence|]; intros Hx; left; split; [intros ->; by destruct Hx as [Hx _]|done]
    |intros x Hx; apply alloc_macid_of; intros ->; by destruct Hx as [Hx _]].
  destruct Hbc as [?|[Hb Ab]]; [done|]. destruct (macid_free s p b I M) as (i & Ef & Hi & Hu); [apply (ti_range s I); rewrite E; by left|done|done|done|].
  pose proof (al_stas _ _ _ _ _ A) as Es. unfold rtw_alloc_macid in Es. rewrite (bool_decide_false (a = sp_own s)), (bool_decide_false (a = bc_addr)), Ef in Es by done.
  rewrite Ef in Ec. cbn in Ec, Es. destruct M as [M1 (g & G1 & G2) M3 M4 M5].
  assert (Ep : macid_of s' p = i) by (unfold macid_of; by rewrite Es, lookup_insert_eq).
  assert (Ub : forall k, 0 <= k < 32 -> Z.testbit (mc_used (sp_macid s')) k = (k =? i) || Z.testbit (mc_used (sp_macid s)) k) by (intros k Hk; rewrite Ec; cbn; apply set_bit; lia).
  assert (Hno : forall x, ordinary s x -> macid_of s x <> i).
  { intros x Hx Ex. assert (Z.testbit (mc_used (sp_macid s)) i = true) by (apply M3; [done|]; right; by exists x). congruence. }
  assert (Old : forall x, ordinary s x -> x <> p) by (intros x [Hx _] ->; done).
  split.
  - by rewrite Ec.
  - exists (rtw_macid_map_set g i). split; [rewrite Ec; cbn; by rewrite G1|]. intros k Hk. rewrite Ub by done.
    change rtw_macid_map_set with rtw_sec_cam_map_set. rewrite set_bit by lia. by rewrite G2.
  - intros k Hk. rewrite Ub by done. rewrite orb_true_iff, Z.eqb_eq, M3 by done. split.
    + intros [->|[->|(x & Hx & Ex)]]; [right; exists p; split; [apply alloc_ordinary; by right|done]|by left|].
      right. exists x. split; [apply alloc_ordinary; left; split; [by apply Old|done]|]. rewrite alloc_macid_of by (by apply Old). done.
    + intros [->|(x & [[Nx Hx]|(-> & _)]%alloc_ordinary & Ex)]; [by right; left| |left; congruence].
      right; right. exists x. by rewrite alloc_macid_of in Ex.
  - intros x [[Nx Hx]|(-> & _)]%alloc_ordinary; [rewrite alloc_macid_of by done; by apply M4|]. rewrite Ep. split; [done|].
    intros ->. assert (Z.testbit (mc_used (sp_macid s)) 1 = true) by (apply M3; [done|by left]). congruence.
  - intros x y [[Nx Hx]|(-> & _)]%alloc_ordinary [[Ny Hy]|(-> & _)]%alloc_ordinary; rewrite ?Ep, ?alloc_macid_of by done.
    + by apply M5.
    + intros H. by destruct (Hno x Hx).
    + intros H. by destruct (Hno y Hy).
    + done.
Qed.
End mac_alloc.

Lemma iface_bmp_one c g i : mc_if_g c = [g] -> 0 <= i < 32 -> rtw_macid_get_iface_bmp c i = if Z.testbit g i then 1 else 0.
Proof.
  intros E Hi. unfold rtw_macid_get_iface_bmp. rewrite E. change (seqZ 0 (Z.of_nat (length [g]))) with [0]. cbn [foldl].
  change (arr_get [g] 0) with g. change rtw_macid_is_set with rtw_sec_camid_is_set. rewrite is_set_bit by done. by destruct (Z.testbit g i).
Qed.

Section mac_free.
Context (s s' : sta_priv) (p : Z).
Context (I : tbl_inv s) (M : mac_inv s) (Hp : p ∈ hashed s) (F : freed s p s') (Nb : addr_of s p <> bc_addr).

Lemma free_macid_of x : x <> p -> macid_of s' x = macid_of s x.
Proof. intros H. unfold macid_of. by rewrite (fr_stas _ _ _ F). Qed.

Lemma free_ordinary x : ordinary s' x <-> x <> p /\ ordinary s x.
Proof.
  unfold ordinary. rewrite (free_in s s' p F). assert (sp_own s' = sp_own s) as -> by apply (fr_rest _ _ _ F).
  destruct (decide (x = p)) as [->|Nx]; [tauto|]. rewrite (free_addr s s' p F) by done. tauto.
Qed.

Lemma mac_free : mac_inv s'.
Proof.
  pose proof (hashed_ent s I p Hp) as He. set (e := default zero_entry (sp_stas s !! p)) in *.
  pose proof (fr_macid _ _ _ F e He) as Ec. assert (Ha : se_addr e = addr_of s p) by (unfold addr_of; by rewrite He).
  assert (Hm : se_macid e = macid_of s p) by (unfold macid_of; by rewrite He). rewrite Ha, Hm in Ec. clearbody e.
  unfold rtw_release_macid in Ec. case_bool_decide as E1.
  { apply (mac_inv_same s s' M); rewrite ?Ec; try done.
    - intros x. rewrite free_ordinary. split; [tauto|]. intros Hx. split; [|done]. intros ->. by destruct Hx as (_ & _ & ?).
    - intros x Hx. apply free_macid_of. intros ->. by destruct Hx as (_ & _ & ?). }
  assert (Op : ordinary s p) by done. destruct M as [M1 (g & G1 & G2) M3 M4 M5]. destruct (M4 p Op) as [Hr H1].
  set (i := macid_of s p) in *. assert (Hu : Z.testbit (mc_used (sp_macid s)) i = true) by (apply M3; [done|]; right; by exists p).
  destruct (Z.leb_spec (mc_num (sp_macid s)) i) as [?|_]; [lia|]. destruct (Z.eqb_spec i RTW_DEFAULT_MGMT_MACID) as [?|_]; [done|].
  unfold rtw_macid_is_used in Ec. change rtw_macid_is_set with rtw_sec_camid_is_set in Ec. rewrite is_set_bit, Hu in Ec by done.
  rewrite (iface_bmp_one _ g i G1 Hr), (G2 i Hr), Hu, (bool_decide_false (addr_of s p = bc_addr)) in Ec by done.
  change (Z.land 1 (bit iface_id) =? 0) with false in Ec. change (Z.land 1 (Z.lnot (bit iface_id)) =? 0) with true in Ec. cbn [negb] in Ec.
  assert (Ub : forall k, 0 <= k < 32 -> Z.testbit (mc_used (sp_macid s')) k = negb (k =? i) && Z.testbit (mc_used (sp_macid s)) k) by (intros k Hk; rewrite Ec; cbn; apply clr_bit; lia).
  split.
  - by rewrite Ec.
  - exists (rtw_macid_map_clr g i). split; [rewrite Ec; cbn; by rewrite G1|]. intros k Hk. rewrite Ub by done.
    change rtw_macid_map_clr with rtw_sec_cam_map_clr. rewrite clr_bit by lia. by rewrite G2.
  - intros k Hk. rewrite Ub by done. rewrite andb_true_iff, negb_true_iff, Z.eqb_neq, M3 by done. split.
    + intros [Nk [->|(x & Hx & Ex)]]; [by left|right]. exists x. assert (x <> p) by (intros ->; done).
      split; [by apply free_ordinary|by rewrite free_macid_of].
    + intros [->|(x & [Nx Hx]%free_ordinary & Ex)]; [split; [done|by left]|]. rewrite free_macid_of in Ex by done. split; [|right; by exists x].
      intros ->. apply Nx. by apply M5.
  - intros x [Nx Hx]%free_ordinary. rewrite free_macid_of by done. by apply M4.
  - intros x y [Nx Hx]%free_ordinary [Ny Hy]%free_ordinary. rewrite !free_macid_of by done. by apply M5.
Qed.
End mac_free.

(** ** Association identifiers *)

Record aid_inv (s : sta_priv) : Prop := {
  ad_len : length (sta_aid s) = NUM_STA;
  ad_max : max_num_sta s = Z.of_nat NUM_STA;
  ad_ap : sp_state s = _HW_STATE_AP_;
  ad_slot k p : sta_aid s !! k = Some (Some p) -> p ∈ hashed s /\ aid_of (sp_q s) p = Z.of_nat k + 1;
  ad_aid p : p ∈ hashed s -> 0 <= aid_of (sp_q s) p <= 31 /\ (0 < aid_of (sp_q s) p -> key_at (sta_aid s) (aid_of (sp_q s) p - 1) = Some (Some p));
  ad_bc p : p ∈ hashed s -> addr_of s p = bc_addr -> aid_of (sp_q s) p = 0 }.

Lemma aid_alloc s s' a p rest : tbl_inv s -> aid_inv s -> free_sta_queue s = p :: rest -> allocated s a p rest s' -> aid_inv s'.
Proof.
  intros I [D1 D2 D3 D4 D5 D6] E A. destruct (al_rest _ _ _ _ _ A) as (R1 & R2 & R3 & R4 & R5 & R6).
  pose proof (alloc_fresh s p rest I E) as Hp. pose proof (al_aid _ _ _ _ _ A) as Aa. pose proof (alloc_hashed s s' a p rest A) as Hh.
  split; rewrite ?R3, ?R4, ?R5; try done.
  - intros k x Hk. destruct (D4 k x Hk) as [Hx Hk']. rewrite Hh, elem_of_cons, Aa, decide_False by (by intros ->). tauto.
  - intros x. rewrite Hh, elem_of_cons, Aa. destruct (decide (x = p)); [lia|]. intros [?|Hx]; [done|by apply D5].
  - intros x. rewrite Hh, elem_of_cons, Aa, (alloc_addr s s' a p rest A). destruct (decide (x = p)); [done|]. intros [?|Hx]; [done|by apply D6].
Qed.




Lemma aid_free s s' p : tbl_inv s -> aid_inv s -> p ∈ hashed s -> freed s p s' -> aid_inv s'.
Proof.
  intros I [D1 D2 D3 D4 D5 D6] Hp F. destruct (fr_rest _ _ _ F) as (R1 & R2 & R3 & R4). pose proof (fr_slots _ _ _ F) as Es.
  pose proof (fr_aid _ _ _ F) as Aa. pose proof (free_in s s' p F) as Hin. unfold slots_after in Es. rewrite D3 in Es.
  change (_HW_STATE_AP_ =? _HW_STATE_AP_) with true in Es. cbn [andb] in Es. destruct (D5 p Hp) as [Hr Hk]. set (aid := aid_of (sp_q s) p) in *.
  assert (Sp : forall k x, sta_aid s' !! k = Some (Some x) -> sta_aid s !! k = Some (Some x) /\ x <> p).
  { intros k x Hx. destruct (Z.ltb_spec 0 aid) as [Ha|Ha]; cbn [andb] in Es.
    - rewrite (Hk Ha), bool_decide_true in Es by done. rewrite Es in Hx. unfold arr_set in Hx.
      destruct (decide (Z.to_nat (aid - 1) = k)) as [<-|Nk]; [rewrite list_lookup_insert_eq in Hx by (unfold NUM_STA in D1; lia); done|].
      rewrite list_lookup_insert_ne in Hx by done. split; [done|]. intros ->. destruct (D4 k p Hx) as [_ E]. fold aid in E. lia.
    - rewrite Es in Hx. split; [done|]. intros ->. destruct (D4 k p Hx) as [_ E]. fold aid in E. lia. }
  split; rewrite ?R3, ?R4; try done.
  - rewrite Es. destruct (_ && _); [rewrite length_arr_set|]; done.
  - intros k x Hx. apply Sp in Hx as [Hx Nx]. rewrite Hin, Aa by done. destruct (D4 k x Hx) as [H1 H2]. done.
  - intros x [Hx Nx]%Hin. rewrite Aa by done. destruct (D5 x Hx) as [H1 H2]. split; [done|]. intros Ha. rewrite Es.
    destruct (Z.ltb_spec 0 aid) as [Hap|]; cbn [andb]; [|by apply H2]. rewrite (Hk Hap), bool_decide_true by done.
    rewrite key_at_arr_ne; [by apply H2|lia|]. intros E. apply Nx. specialize (H2 Ha). rewrite <- E, (Hk Hap) in H2. by injection H2.
  - intros x [Hx Nx]%Hin. rewrite Aa, (free_addr s s' p F) by done. by apply D6.
Qed.

(** The first free slot is among the first 31: the station asking and the
    broadcast station hold none. *)
Lemma free_aid s p b : tbl_inv s -> aid_inv s -> p ∈ hashed s -> aid_of (sp_q s) p = 0 -> b ∈ hashed s -> addr_of s b = bc_addr -> addr_of s p <> bc_addr ->
  exists k, list_find (fun x => x = None) (sta_aid s) = Some (k, None) /\ (k <= 30)%nat.
Proof.
  intros I [D1 D2 D3 D4 D5 D6] Hp Ap Hb Ab Nb.
  assert (Bound : forall n, (n <= 32)%nat -> (forall k, (k < n)%nat -> exists q, sta_aid s !! k = Some (Some q)) -> (n <= 30)%nat).
  { intros n Hn Hall. destruct (owners (fun k q => sta_aid s !! k = Some (Some q)) (seq 0 n)) as (ps & L & N & H).
    - apply NoDup_seq.
    - intros k [_ Hk]%elem_of_seq. by apply Hall.
    - intros i j q Hi Hj. apply D4 in Hi as [_ Hi], Hj as [_ Hj]. lia.
    - assert (Hl : (length (p :: b :: ps) <= 32)%nat).
      { apply pool_bound.
        - apply NoDup_cons. split; [|apply NoDup_cons; split; [|done]].
          + intros [->|Hin]%elem_of_cons; [done|]. destruct (H p Hin) as (i & _ & Hi). apply D4 in Hi as [_ Hi]. lia.
          + intros Hin. destruct (H b Hin) as (i & _ & Hi). apply D4 in Hi as [_ Hi]. rewrite (D6 b Hb Ab) in Hi. lia.
        - intros x [->|[->|Hx]%elem_of_cons]%elem_of_cons; [by apply (hashed_range s I)..|].
          destruct (H x Hx) as (i & _ & Hi). apply D4 in Hi as [Hx' _]. by apply (hashed_range s I). }
      cbn [length] in Hl. rewrite L, length_seq in Hl. lia. }
  destruct (list_find _ (sta_aid s)) as [[k x]|] eqn:E.
  - apply list_find_Some in E as (Hk & -> & Hb'). exists k. split; [done|]. pose proof (lookup_lt_Some _ _ _ Hk) as Hlen. unfold NUM_STA in D1.
    apply Bound; [lia|]. intros j Hj. destruct (lookup_lt_is_Some_2 (sta_aid s) j) as [[q|] Hq]; [lia|by exists q|]. by destruct (Hb' j None Hq Hj).
  - exfalso. apply list_find_None in E. rewrite Forall_lookup in E. unfold NUM_STA in D1.
    assert (32 <= 30)%nat; [|lia]. apply Bound; [lia|]. intros j Hj. destruct (lookup_lt_is_Some_2 (sta_aid s) j) as [[q|] Hq]; [lia|by exists q|].
    by destruct (E j None Hq).
Qed.

Lemma aid_inv_fields s s' : aid_inv s -> sta_aid s' = sta_aid s -> max_num_sta s' = max_num_sta s -> sp_state s' = sp_state s ->
  sta_hash s' = sta_hash s -> sp_stas s' = sp_stas s -> (forall p, aid_of (sp_q s') p = aid_of (sp_q s) p) -> aid_inv s'.
Proof.
  intros [D1 D2 D3 D4 D5 D6] E1 E2 E3 E4 E5 E6. assert (Eh : hashed s' = hashed s) by (unfold hashed; by rewrite E4).
  split; rewrite ?E1, ?E2, ?E3, ?Eh; try done; setoid_rewrite E6; try done. intros p. unfold addr_of. rewrite E5. apply D6.
Qed.

(** The identifier of an ordinary station, and nothing else. *)
Record identified (s : sta_priv) (p : Z) (s' : sta_priv) : Prop := {
  as_table : free_sta_queue s' = free_sta_queue s /\ sta_hash s' = sta_hash s /\ asoc_sta_count s' = asoc_sta_count s /\ sp_stas s' = sp_stas s /\
             sp_macid s' = sp_macid s /\ sp_own s' = sp_own s /\ sp_up s' = sp_up s;
  as_q : q_part (free_sta_queue s) (sp_q s');
  as_aids : aid_inv s';
  as_aid : 1 <= aid_of (sp_q s') p <= 31 /\ (0 < aid_of (sp_q s) p -> aid_of (sp_q s') p = aid_of (sp_q s) p);
  as_other x : x <> p -> aid_of (sp_q s') x = aid_of (sp_q s) x }.

Lemma aid_view s p b : tbl_inv s -> q_part (free_sta_queue s) (sp_q s) -> aid_inv s -> p ∈ hashed s -> addr_of s p <> bc_addr ->
  b ∈ hashed s -> addr_of s b = bc_addr ->
  exists s', assoc_aid s p = Some (true, s') /\ identified s p s' /\ auth_list s' = auth_list s /\ asoc_list s' = asoc_list s.
Proof.
  intros I Q D Hp Nb Hb Ab. pose proof (hashed_range s I p Hp) as Hr. pose proof Q as (_ & Q1 & _). destruct (Q1 p Hr) as [st Hst].
  assert (Ha : aid_of (sp_q s) p = qs_aid st) by (unfold aid_of; by rewrite Hst). unfold assoc_aid. rewrite Hst. cbn [mbind option_bind].
  destruct (ad_aid s D p Hp) as [Hr1 Hr2]. destruct (Z.ltb_spec 0 (qs_aid st)) as [Hpos|Hz].
  - exists s. split; [done|]. split; [|done]. split; try done. split; [lia|done].
  - destruct (free_aid s p b I D Hp ltac:(lia) Hb Ab Nb) as (k & E & Hk). rewrite E. cbv zeta. destruct D as [D1 D2 D3 D4 D5 D6]. rewrite D2.
    destruct (Z.ltb_spec (Z.of_nat NUM_STA) (Z.of_nat k + 1)) as [Hx|_]; [unfold NUM_STA in Hx; lia|]. 
    match goal with |- context [Some (true, ?t)] => set (s1 := t) end.
    apply list_find_Some in E as (Ek & _ & _). pose proof (lookup_lt_Some _ _ _ Ek) as Hlen.
    assert (Aa : forall x, aid_of (sp_q s1) x = if decide (x = p) then Z.of_nat k + 1 else aid_of (sp_q s) x).
    { intros x. unfold aid_of. cbn. destruct (decide (x = p)) as [->|]; [by rewrite lookup_insert_eq|by rewrite lookup_insert_ne]. }
    assert (Es : sta_aid s1 = <[k := Some p]> (sta_aid s)) by (cbn; unfold arr_set; f_equal; lia).
    exists s1. split; [done|]. split; [|done]. split; try done.
    + cbn. by eapply (q_part_put _ _ p st).
    + split; try done.
      * change (length (sta_aid s1) = NUM_STA). by rewrite Es, length_insert.
      * change (forall j x, sta_aid s1 !! j = Some (Some x) -> x ∈ hashed s /\ aid_of (sp_q s1) x = Z.of_nat j + 1). intros j x Hj. rewrite Es in Hj.
        rewrite Aa. destruct (decide (k = j)) as [->|Nj].
        -- rewrite list_lookup_insert_eq in Hj by done. injection Hj as <-. by rewrite decide_True.
        -- rewrite list_lookup_insert_ne in Hj by done. destruct (D4 j x Hj) as [H1 H2]. rewrite decide_False; [done|]. intros ->. lia.
      * change (forall x, x ∈ hashed s -> 0 <= aid_of (sp_q s1) x <= 31 /\ (0 < aid_of (sp_q s1) x -> key_at (sta_aid s1) (aid_of (sp_q s1) x - 1) = Some (Some x))).
        intros x Hx. rewrite Aa, Es. destruct (decide (x = p)) as [->|Nx].
        -- split; [lia|]. intros _. unfold key_at. destruct (Z.leb_spec 0 (Z.of_nat k + 1 - 1)); [|lia].
           replace (Z.to_nat (Z.of_nat k + 1 - 1)) with k by lia. by rewrite list_lookup_insert_eq.
        -- destruct (D5 x Hx) as [H1 H2]. split; [done|]. intros Hxp. specialize (H2 Hxp). unfold key_at in *.
           destruct (0 <=? aid_of (sp_q s) x - 1); [|done]. rewrite list_lookup_insert_ne; [done|]. intros ->. congruence.
      * change (forall x, x ∈ hashed s -> addr_of s x = bc_addr -> aid_of (sp_q s1) x = 0). intros x Hx Hbc. rewrite Aa, decide_False; [by apply D6|]. by intros ->.
    + change (1 <= aid_of (sp_q s1) p <= 31 /\ (0 < aid_of (sp_q s) p -> aid_of (sp_q s1) p = aid_of (sp_q s) p)). rewrite Aa, decide_True by done. lia.
    + intros x Nx. change (aid_of (sp_q s1) x = aid_of (sp_q s) x). by rewrite Aa, decide_False.
Qed.

(** [assoc_sta] also moves the station to the associated ones. *)
Record associated (s : sta_priv) (p : Z) (s' : sta_priv) : Prop := {
  as_id : identified s p s';
  as_auth : auth_list s' = drop_id p (auth_list s);
  as_asoc : asoc_list s' = if decide (p ∈ asoc_list s) then asoc_list s else asoc_list s ++ [p] }.

(** Changes of the queues that keep the identifiers. *)
Lemma identified_queues s p s1 s' : identified s p s1 ->
  free_sta_queue s' = free_sta_queue s1 /\ sta_hash s' = sta_hash s1 /\ asoc_sta_count s' = asoc_sta_count s1 /\ sp_stas s' = sp_stas s1 /\
  sp_macid s' = sp_macid s1 /\ sp_own s' = sp_own s1 /\ sp_up s' = sp_up s1 ->
  sta_aid s' = sta_aid s1 -> max_num_sta s' = max_num_sta s1 -> sp_state s' = sp_state s1 ->
  q_part (free_sta_queue s) (sp_q s') -> (forall x, aid_of (sp_q s') x = aid_of (sp_q s1) x) -> identified s p s'.
Proof.
  intros [(T1 & T2 & T3 & T4 & T5 & T6 & T7) A2 A3 A4 A5] (E1 & E2 & E3 & E4 & E5 & E6 & E7) S1 S2 S3 Q A. split.
  - rewrite E1, E2, E3, E4, E5, E6, E7. done.
  - done.
  - by apply (aid_inv_fields s1).
  - by rewrite A.
  - intros x Nx. rewrite A. by apply A5.
Qed.

Lemma aid_of_put q p st st' x : xq_stas q !! p = Some st -> qs_aid st' = qs_aid st -> aid_of (put_qsta q p st') x = aid_of q x.
Proof. intros H E. unfold aid_of. cbn. destruct (decide (p = x)) as [->|]; [rewrite lookup_insert_eq, H; cbn; by rewrite E|by rewrite lookup_insert_ne]. Qed.

Lemma assoc_view s p b : tbl_inv s -> q_part (free_sta_queue s) (sp_q s) -> aid_inv s -> p ∈ hashed s -> addr_of s p <> bc_addr ->
  b ∈ hashed s -> addr_of s b = bc_addr -> exists s', assoc_sta s p = Some (true, s') /\ associated s p s'.
Proof.
  intros I Q D Hp Nb Hb Ab. pose proof (hashed_range s I p Hp) as Hr.
  destruct (aid_view s p b I Q D Hp Nb Hb Ab) as (s1 & E1 & A & L1 & L2). unfold assoc_sta. rewrite E1. cbn [mbind option_bind].
  pose proof (as_q _ _ _ A) as Q1. destruct (q_part_state_at _ _ p Q1 Hr) as [w ->]. cbn [mbind option_bind].
  set (q2 := set_state _ p _). assert (Q2 : q_part (free_sta_queue s) q2) by (by apply q_part_state).
  destruct (auth_delete_view (s1 <| sp_q := q2 |>) p) as [n ->]. set (s2 := _ <| auth_list_cnt := n |>).
  assert (A2 : identified s p s2) by (by apply (identified_queues s p s1)). unfold asoc_insert.
  change (asoc_list s2) with (asoc_list s1). rewrite L2. case_bool_decide as Hin.
  { cbn [mbind option_bind]. exists s2. split; [done|]. split; [done|cbn; by rewrite L1|rewrite decide_True by done; exact L2]. }
  destruct Q2 as (Q2a & Q2b & Q2c). destruct (Q2b p Hr) as [st Hst]. change (sp_q s2) with q2. rewrite Hst. cbn [mbind option_bind].
  eexists. split; [reflexivity|]. split; [|cbn; by rewrite L1|rewrite decide_False by done; cbn; by rewrite ?L2].
  apply (identified_queues s p s2); try done.
  - by apply (q_part_put _ q2 p st).
  - intros x. by apply (aid_of_put q2 p st).
Qed.
