(* ===== verification/StaThms.v ===== *)
(** * The stations of an access point

    The invariant of a running access point and what every operation does to
    the map of stations and the set of associated ones; the claims about any run
    from a fresh start whose senders are no group addresses; two ways to lose
    stations, each for any such device: a large association identifier and an
    authentication from a group address. *)

From S2P Require Import Prelude Mem SecDefs Reorder RecvFrame RecvData XmitData XmitQueue XmitQueueDemo XmitQueueSpec XmitQueueThms Bitmap StaTable StaSpec StaIds.
From stdpp Require Import list.
#[local] Open Scope Z_scope.

(** A station other than the broadcast station. *)
Definition unicast (s : sta_priv) (p : Z) : Prop := p ∈ hashed s /\ addr_of s p <> bc_addr.

Record sta_inv (s : sta_priv) : Prop := {
  si_up : sp_up s = true;
  si_tbl : tbl_inv s;
  si_all : free_sta_queue s ++ hashed s ≡ₚ seqZ 0 32;
  si_q : q_part (free_sta_queue s) (sp_q s);
  si_mac : mac_inv s;
  si_aid : aid_inv s;
  si_bc : exists b, sta_map s !! bc_addr = Some b;
  si_auth : NoDup (auth_list s) /\ forall p, p ∈ auth_list s -> unicast s p;
  si_asoc : NoDup (asoc_list s) /\ forall p, p ∈ asoc_list s -> unicast s p /\ p ∉ auth_list s }.

Lemma size_hashed s : sta_inv s -> (size (sta_map s) + length (free_sta_queue s) = 32)%nat.
Proof.
  intros I. rewrite (sta_map_size s (si_tbl s I)). pose proof (Permutation_length (si_all s I)) as H. rewrite length_app, length_seqZ in H. lia.
Qed.

Lemma bc_in s : sta_inv s -> exists b, b ∈ hashed s /\ addr_of s b = bc_addr.
Proof. intros I. destruct (si_bc s I) as [b Hb]. exists b. by apply (sta_map_some s (si_tbl s I)). Qed.

Lemma alloc_sta_inv s a p rest : sta_inv s -> a <> bc_addr -> sta_map s !! a = None -> free_sta_queue s = p :: rest ->
  exists s', rtw_alloc_stainfo s a = Some (Some p, s') /\ allocated s a p rest s' /\ sta_inv s' /\ sta_map s' = <[a := p]> (sta_map s).
Proof.
  intros I Ha Hn E. destruct (bc_in s I) as (b & Hb & Ab). pose proof (si_tbl s I) as T.
  destruct (alloc_view s a p rest T (si_q s I) E (si_up s I)) as (s' & Es & A). exists s'. split; [done|]. split; [done|].
  pose proof (alloc_map s s' a p rest T E A Hn) as Em. split; [|done]. destruct (al_rest _ _ _ _ _ A) as (R1 & R2 & R3 & R4 & R5 & R6). split.
  - rewrite R1. apply (si_up s I).
  - by apply (alloc_tbl s s' a p rest).
  - rewrite (alloc_pool s s' a p rest E A). apply (si_all s I).
  - rewrite (al_free _ _ _ _ _ A). apply (al_q _ _ _ _ _ A).
  - apply (mac_alloc s s' a p b rest T (si_mac s I) E A). by right.
  - by apply (aid_alloc s s' a p rest T (si_aid s I)).
  - destruct (si_bc s I) as [x Hx]. exists x. rewrite Em, lookup_insert_ne; done.
  - rewrite R6. destruct (si_auth s I) as [N H]. split; [done|]. intros x Hx. destruct (H x Hx) as [H1 H2]. unfold unicast. pose proof (alloc_fresh s p rest T E).
    rewrite (alloc_hashed s s' a p rest A), elem_of_cons, (alloc_addr s s' a p rest A), decide_False by (by intros ->). tauto.
  - rewrite R6, (al_asoc _ _ _ _ _ A). destruct (si_asoc s I) as [N H]. split; [done|]. intros x Hx. destruct (H x Hx) as [[H1 H2] H3]. unfold unicast.
    pose proof (alloc_fresh s p rest T E).
    rewrite (alloc_hashed s s' a p rest A), elem_of_cons, (alloc_addr s s' a p rest A), decide_False by (by intros ->). tauto.
Qed.

Lemma free_sta_keeps s p : sta_inv s -> p ∈ hashed s -> addr_of s p <> bc_addr -> p ∉ asoc_list s ->
  exists s', rtw_free_stainfo s (Some p) = Some (_SUCCESS, s') /\ freed s p s' /\ sta_inv s' /\ sta_map s' = delete (addr_of s p) (sta_map s).
Proof.
  intros I Hp Nb Na. pose proof (si_tbl s I) as T. pose proof (si_aid s I) as D. destruct (ad_aid s D p Hp) as [Hr Hk].
  destruct (free_view s p _ (si_q s I) (hashed_range s T p Hp) (hashed_ent s T p Hp) ltac:(lia)) as (s' & Es & F).
  { intros _ Hpos. rewrite (ad_len s D). unfold NUM_STA. lia. }
  exists s'. split; [done|]. split; [done|]. pose proof (free_map s s' p T Hp F) as Em. split; [|done]. destruct (fr_rest _ _ _ F) as (R1 & R2 & R3 & R4). split.
  - rewrite R1. apply (si_up s I).
  - by apply (free_tbl s s' p).
  - rewrite (free_pool s s' p T Hp F). apply (si_all s I).
  - rewrite (fr_free _ _ _ F). apply (fr_q _ _ _ F).
  - by apply (mac_free s s' p T (si_mac s I)).
  - by apply (aid_free s s' p T D).
  - destruct (si_bc s I) as [x Hx]. exists x. rewrite Em, lookup_delete_ne; done.
  - rewrite (fr_auth _ _ _ F). destruct (si_auth s I) as [N H]. split; [by apply NoDup_filter|]. intros x [Nx Hx]%list_elem_of_filter.
    destruct (H x Hx) as [H1 H2]. unfold unicast. rewrite (free_in s s' p F), (free_addr s s' p F) by done. done.
  - rewrite (fr_auth _ _ _ F), (fr_asoc _ _ _ F). destruct (si_asoc s I) as [N H]. split; [done|]. intros x Hx. assert (x <> p) by (by intros ->).
    destruct (H x Hx) as [[H1 H2] H3]. unfold unicast. rewrite (free_in s s' p F), (free_addr s s' p F) by done. split; [done|].
    intros [_ ?]%list_elem_of_filter. done.
Qed.

(** ** Removing all stations

    [rtw_free_all_stainfo] empties the hash table of the stations before it
    frees them one by one, which changes nothing. *)

Lemma drop_id_twice p l : drop_id p (drop_id p l) = drop_id p l.
Proof. apply drop_id_id. unfold drop_id. rewrite list_elem_of_filter. tauto. Qed.

Lemma drop_id_comm p q l : drop_id p (drop_id q l) = drop_id q (drop_id p l).
Proof. unfold drop_id. induction l as [|x l IH]; [done|]. rewrite !filter_cons. repeat (case_decide; rewrite ?filter_cons; simplify_eq); congruence. Qed.

Lemma hash_delete_comm s p q : hash_delete (hash_delete s p) q = hash_delete (hash_delete s q) p.
Proof. unfold hash_delete. cbn. rewrite !map_map. by rewrite (map_ext _ _ (drop_id_comm q p)). Qed.

Lemma hash_delete_twice s p : hash_delete (hash_delete s p) p = hash_delete s p.
Proof. unfold hash_delete. cbn. rewrite map_map. by rewrite (map_ext _ _ (drop_id_twice p)). Qed.

(** [g] commutes with taking [q] out of the table. *)
Definition hash_free (g : sta_priv -> option sta_priv) : Prop := forall s q, g (hash_delete s q) = (fun t => hash_delete t q) <$> g s.

Lemma leave_hash p : hash_free (fun s => leave_table s p).
Proof. intros s q. unfold leave_table. rewrite hash_delete_comm. cbn. by destruct (sta_state (sp_q s) p). Qed.

Lemma reorder_hash p : hash_free (fun s => free_reorder s p).
Proof. intros s q. unfold free_reorder. cbn. by destruct (sp_stas s !! p). Qed.

Lemma odm_hash p : hash_free (fun s => drop_odm s p).
Proof. intros s q. unfold drop_odm. cbn. destruct (sp_stas s !! p); [|done]. cbn. destruct (sta_state (sp_q s) p); [|done]. cbn. by destruct (negb _). Qed.

Lemma macid_hash p : hash_free (fun s => release_macid s p).
Proof. intros s q. unfold release_macid. cbn -[rtw_release_macid]. by destruct (sp_stas s !! p). Qed.

Lemma auth_hash s p q : auth_delete (hash_delete s q) p = hash_delete (auth_delete s p) q.
Proof. unfold auth_delete. cbn. by case_bool_decide. Qed.

Lemma pool_hash s p q : back_to_pool (hash_delete s q) p = (fun r => (r.1, hash_delete r.2 q)) <$> back_to_pool s p.
Proof.
  unfold back_to_pool. cbn -[release_aid]. destruct (xq_stas (sp_q s) !! p) as [st|]; [|done]. cbn -[release_aid]. destruct (31 <? _); [done|].
  unfold release_aid. cbn -[BIT]. destruct (_ =? _); [|done]. destruct (0 <? _); [|done]. destruct (key_at (sta_aid s) _); [|done]. cbn -[BIT]. by case_bool_decide.
Qed.

Lemma free_hash s p q : rtw_free_stainfo (hash_delete s q) (Some p) = (fun r => (r.1, hash_delete r.2 q)) <$> rtw_free_stainfo s (Some p).
Proof.
  unfold rtw_free_stainfo. rewrite (leave_hash p s q). destruct (leave_table s p) as [s1|]; [|done]. cbn [fmap option_fmap option_map mbind option_bind].
  change (sp_q (hash_delete s1 q)) with (sp_q s1). destruct (free_sta_queues (sp_q s1) p) as [q1|]; [|done]. cbn [mbind option_bind].
  change ((hash_delete s1 q) <| sp_q := q1 |>) with (hash_delete (s1 <| sp_q := q1 |>) q). rewrite (reorder_hash p).
  destruct (free_reorder _ p) as [s2|]; [|done]. cbn [fmap option_fmap option_map mbind option_bind]. rewrite (odm_hash p).
  destruct (drop_odm s2 p) as [s3|]; [|done]. cbn [fmap option_fmap option_map mbind option_bind]. rewrite (macid_hash p).
  destruct (release_macid s3 p) as [s4|]; [|done]. cbn [fmap option_fmap option_map mbind option_bind]. by rewrite auth_hash, pool_hash.
Qed.

Lemma free_hash_self s p : rtw_free_stainfo (hash_delete s p) (Some p) = rtw_free_stainfo s (Some p).
Proof. unfold rtw_free_stainfo, leave_table. rewrite hash_delete_twice. reflexivity. Qed.

Lemma free_hash_all l : forall s p, rtw_free_stainfo (foldl hash_delete s l) (Some p) = (fun r => (r.1, foldl hash_delete r.2 l)) <$> rtw_free_stainfo s (Some p).
Proof.
  induction l as [|q l IH]; intros s p; cbn [foldl]; [by destruct (rtw_free_stainfo s (Some p)) as [[??]|]|].
  rewrite IH, free_hash. by destruct (rtw_free_stainfo s (Some p)).
Qed.

Lemma free_each_hash l : forall s, free_each (foldl hash_delete s l) l = free_each s l.
Proof.
  induction l as [|p l IH]; intros s; cbn [foldl free_each]; [done|]. rewrite free_hash_all, free_hash_self.
  destruct (rtw_free_stainfo s (Some p)) as [[r t]|]; [|done]. cbn. apply IH.
Qed.

(** What freeing one station keeps, by [rtw_free_stainfo] or [ap_free_sta]. *)
Definition frees (g : sta_priv -> Z -> option sta_priv) : Prop :=
  forall s p, sta_inv s -> p ∈ hashed s -> addr_of s p <> bc_addr -> p ∉ asoc_list s ->
  exists s', g s p = Some s' /\ sta_inv s' /\ sta_map s' = delete (addr_of s p) (sta_map s) /\ asoc_list s' = asoc_list s /\
    forall x, x <> p -> unicast s x -> unicast s' x.

Lemma free_frees : frees (fun s p => snd <$> rtw_free_stainfo s (Some p)).
Proof.
  intros s p I Hp Nb Na. destruct (free_sta_keeps s p I Hp Nb Na) as (s' & -> & F & I' & E'). exists s'. split; [done|]. split; [done|]. split; [done|].
  split; [apply (fr_asoc _ _ _ F)|]. intros x Nx [Hx Hb]. split; [by apply (free_in s s' p F)|by rewrite (free_addr s s' p F)].
Qed.

Fixpoint visit_all (g : sta_priv -> Z -> option sta_priv) (s : sta_priv) (l : list Z) : option sta_priv :=
  match l with [] => Some s | p :: l => s ← g s p; visit_all g s l end.

Lemma free_each_eq l : forall s, free_each s l = visit_all (fun s p => snd <$> rtw_free_stainfo s (Some p)) s l.
Proof. induction l as [|p l IH]; intros s; cbn [free_each visit_all]; [done|]. destruct (rtw_free_stainfo s (Some p)) as [[r t]|]; [apply IH|done]. Qed.

Lemma ap_free_each_eq l : forall s, ap_free_each s l = visit_all ap_free_sta s l.
Proof. induction l as [|p l IH]; intros s; cbn [ap_free_each visit_all]; [done|]. destruct (ap_free_sta s p); [apply IH|done]. Qed.

Lemma visit_inv g l : frees g -> forall s, sta_inv s -> NoDup l -> (forall p, p ∈ l -> unicast s p /\ p ∉ asoc_list s) ->
  exists s', visit_all g s l = Some s' /\ sta_inv s' /\ asoc_list s' = asoc_list s /\ forall a p, sta_map s' !! a = Some p <-> sta_map s !! a = Some p /\ p ∉ l.
Proof.
  intros Hg. induction l as [|p l IH]; intros s I N H; cbn [visit_all].
  { exists s. split; [done|]. split; [done|]. split; [done|]. intros a p. split; [|tauto]. intros Hp. split; [done|apply not_elem_of_nil]. }
  apply NoDup_cons in N as [Np N]. destruct (H p) as [[Hp Nb] Na]; [by left|]. destruct (Hg s p I Hp Nb Na) as (s1 & -> & I1 & E1 & L1 & U1). cbn [mbind option_bind].
  destruct (IH s1 I1 N) as (s' & -> & I' & L' & E').
  { intros x Hx. rewrite L1. destruct (H x) as [H1 H3]; [by right|]. split; [|done]. apply U1; [by intros ->|done]. }
  exists s'. split; [done|]. split; [done|]. split; [by rewrite L'|]. intros a x. rewrite E', E1, lookup_delete_Some, elem_of_cons. pose proof (si_tbl s I) as T. split.
  - intros [[Ha Hx] Nx]. split; [done|]. intros [->|?]; [|done]. apply (sta_map_some s T) in Hx as [_ Hx]. done.
  - intros [Hx Nx]. split; [split; [|done]|tauto]. intros <-. apply Nx. left. apply (sta_map_some s T) in Hx as [Hx Ex]. by apply (ti_addr s T).
Qed.

(** Only the broadcast station is left. *)
Lemma free_all_inv s : sta_inv s -> asoc_list s = [] ->
  exists s', rtw_free_all_stainfo s = Some s' /\ sta_inv s' /\ sta_map s' = filter (fun kv => kv.1 = bc_addr) (sta_map s) /\ asoc_list s' = [].
Proof.
  intros I La. pose proof (si_tbl s I) as T. destruct (si_bc s I) as [b Hb]. unfold rtw_free_all_stainfo.
  assert (Key : forall a p, sta_map s !! a = Some p -> (p = b <-> a = bc_addr)).
  { intros a p Hp. split; [intros ->|intros ->; congruence]. apply (sta_map_some s T) in Hp as [_ <-], Hb as [_ <-]. done. }
  destruct (Z.eqb_spec (asoc_sta_count s) 1) as [E|_].
  - exists s. split; [done|]. split; [done|]. split; [|done]. apply map_eq. intros a. apply option_eq. intros p. rewrite map_lookup_filter_Some. cbn. split; [|tauto].
    intros Hp. split; [done|]. apply (Key a p Hp). rewrite (ti_count s T) in E. apply (sta_map_some s T) in Hp as [Hp _], Hb as [Hb _].
    destruct (hashed s) as [|x [|]]; cbn [length] in E; [lia| |lia]. apply list_elem_of_singleton in Hp, Hb. congruence.
  - unfold collect_all, rtw_get_bcmc_stainfo. rewrite (get_stainfo_map s T). change (lookup_addr bc_addr) with bc_addr. rewrite Hb, free_each_hash, free_each_eq.
    destruct (visit_inv _ (filter (fun p => Some b <> Some p) (concat (sta_hash s))) free_frees s I) as (s' & -> & I' & L' & E').
    + apply NoDup_filter, (hashed_nodup s T).
    + intros p [Np Hp]%list_elem_of_filter. rewrite La. split; [|apply not_elem_of_nil]. split; [done|]. intros Ap. apply Np. f_equal. symmetry. apply (Key (addr_of s p) p); [|done].
      by apply (sta_map_some s T).
    + exists s'. split; [done|]. split; [done|]. split; [|by rewrite L']. apply map_eq. intros a. apply option_eq. intros p. rewrite E', map_lookup_filter_Some. cbn.
      rewrite list_elem_of_filter. split.
      * intros [Hp Np]. split; [done|]. apply (Key a p Hp). destruct (decide (p = b)); [done|]. exfalso. apply Np. split; [congruence|].
        by apply (sta_map_some s T) in Hp as [Hp _].
      * intros [Hp Ha]. split; [done|]. intros [Np _]. apply Np. f_equal. symmetry. by apply (Key a p Hp).
Qed.

(** ** The stations of an access point

    From a fresh start, in any order of operations, the table of stations is
    a finite map, no entry is lost, and identifiers are unique. *)

(** ** Operations *)

(** [ApRefuse]: an authentication that fails after the station was listed;
    [ApLeave]: a deauthentication or disassociation; [ApQueues]: the transmit path
    has changed the queues; [ApFlush]: the access point stops. *)
Inductive ap_op := ApAuth (sa : list Z) | ApRefuse (sa : list Z) | ApAssoc (sa : list Z) | ApLeave (a : list Z) | ApFlush | ApGet (a : list Z) | ApQueues (q : xmit_q) | ApExpire.

Definition ap_call (s : sta_priv) (op : ap_op) : option (option Z * sta_priv) :=
  match op with
  | ApAuth a => auth_sta s a
  | ApRefuse a => t ← auth_fail s a; Some (None, t)
  | ApAssoc a => match rtw_get_stainfo s a with Some p => '(_, t) ← assoc_sta s p; Some (Some p, t) | None => Some (None, s) end
  | ApLeave a => OnDeAuth s a
  | ApFlush => t ← rtw_sta_flush s; t ← rtw_free_all_stainfo t; Some (None, t)
  | ApGet a => Some (rtw_get_stainfo s a, s)
  | ApQueues q => Some (None, s <| sp_q := q |>)
  | ApExpire => t ← expire_auth s; Some (None, t)
  end.

(** Stations send from addresses of their own; the transmit path keeps the
    invariant of its queues and queues nothing for a free entry. *)
Definition ap_op_ok (s : sta_priv) (op : ap_op) : Prop :=
  match op with
  | ApAuth a | ApRefuse a | ApAssoc a | ApLeave a => IS_MCAST a = false
  | ApQueues q => q_part (free_sta_queue s) q /\ forall p, aid_of q p = aid_of (sp_q s) p
  | _ => True
  end.

Fixpoint ap_run (s : sta_priv) (ops : list ap_op) : option (list (option Z) * sta_priv) :=
  match ops with
  | [] => Some ([], s)
  | op :: ops => '(r, s) ← ap_call s op; '(rs, s) ← ap_run s ops; Some (r :: rs, s)
  end.

Fixpoint ap_run_ok (s : sta_priv) (ops : list ap_op) : Prop :=
  match ops with
  | [] => True
  | op :: ops => ap_op_ok s op /\ match ap_call s op with Some (_, s) => ap_run_ok s ops | None => True end
  end.

(** ** The specification: a map from addresses to at most 32 entries

    Beside the map [m] the set [A] of the addresses that are associated. *)

Inductive ap_spec (m : gmap (list Z) Z) (A : gset (list Z)) : ap_op -> option Z -> gmap (list Z) Z -> gset (list Z) -> Prop :=
  | spec_known a p : m !! a = Some p -> ap_spec m A (ApAuth a) (Some p) m (A ∖ {[a]})
  | spec_new a p : m !! a = None -> 0 <= p < 32 -> (forall b, m !! b <> Some p) -> ap_spec m A (ApAuth a) (Some p) (<[a := p]> m) A
  | spec_full a : m !! a = None -> size m = 32%nat -> ap_spec m A (ApAuth a) None m A
  | spec_refuse a : ap_spec m A (ApRefuse a) None (delete a m) (A ∖ {[a]})
  | spec_assoc a p : m !! a = Some p -> ap_spec m A (ApAssoc a) (Some p) m ({[a]} ∪ A)
  | spec_unknown a : m !! a = None -> ap_spec m A (ApAssoc a) None m A
  | spec_leave a p : a ∈ A -> m !! a = Some p -> ap_spec m A (ApLeave a) (Some p) (delete a m) (A ∖ {[a]})
  | spec_stay a : a ∉ A -> ap_spec m A (ApLeave a) None m A
  | spec_flush : ap_spec m A ApFlush None (filter (fun kv => kv.1 = bc_addr) m) ∅
  | spec_get a : ap_spec m A (ApGet a) (m !! lookup_addr a) m A
  | spec_queues q : ap_spec m A (ApQueues q) None m A
  | spec_expire m' : m' ⊆ m -> m' !! bc_addr = m !! bc_addr -> (forall a, a ∈ A -> m' !! a = m !! a) -> ap_spec m A ApExpire None m' A.

Inductive ap_specs (m : gmap (list Z) Z) (A : gset (list Z)) : list ap_op -> list (option Z) -> gmap (list Z) Z -> gset (list Z) -> Prop :=
  | specs_nil : ap_specs m A [] [] m A
  | specs_cons op ops r rs m1 A1 m2 A2 : ap_spec m A op r m1 A1 -> ap_specs m1 A1 ops rs m2 A2 -> ap_specs m A (op :: ops) (r :: rs) m2 A2.

(** The addresses of the associated stations. *)
Definition asoc_of (s : sta_priv) : gset (list Z) := list_to_set (map (addr_of s) (asoc_list s)).

Lemma asoc_of_in s a : sta_inv s -> a ∈ asoc_of s <-> exists p, sta_map s !! a = Some p /\ p ∈ asoc_list s.
Proof.
  intros I. unfold asoc_of. rewrite elem_of_list_to_set. change (map (addr_of s) (asoc_list s)) with (addr_of s <$> asoc_list s). rewrite list_elem_of_fmap. split.
  - intros (p & -> & Hp). exists p. split; [|done]. apply (sta_map_some s (si_tbl s I)). split; [|done]. destruct (si_asoc s I) as [_ G]. apply (G p Hp).
  - intros (p & Hm & Hp). exists p. split; [|done]. apply (sta_map_some s (si_tbl s I)) in Hm as [_ Ha]. done.
Qed.

(** The set after an operation, from the map and the list. *)
Lemma asoc_of_change (s' : sta_priv) (A : gset (list Z)) : sta_inv s' -> (forall a, a ∈ A <-> exists p, sta_map s' !! a = Some p /\ p ∈ asoc_list s') -> asoc_of s' = A.
Proof. intros I H. apply set_eq. intros a. by rewrite (asoc_of_in s' a I), H. Qed.

(** ** Every operation *)

(** Changes of the queues, the identifiers and the list of stations that
    authenticate. *)
Lemma sta_inv_fields s s' : sta_inv s ->
  free_sta_queue s' = free_sta_queue s /\ sta_hash s' = sta_hash s /\ asoc_sta_count s' = asoc_sta_count s /\ sp_stas s' = sp_stas s /\
  sp_macid s' = sp_macid s /\ sp_own s' = sp_own s /\ sp_up s' = sp_up s ->
  q_part (free_sta_queue s) (sp_q s') -> aid_inv s' -> NoDup (auth_list s') /\ (forall p, p ∈ auth_list s' -> unicast s p) ->
  NoDup (asoc_list s') /\ (forall p, p ∈ asoc_list s' -> unicast s p /\ p ∉ auth_list s') ->
  sta_inv s' /\ sta_map s' = sta_map s.
Proof.
  intros I (E1 & E2 & E3 & E4 & E5 & E6 & E7) Q D H G.
  assert (Eh : hashed s' = hashed s) by (unfold hashed; by rewrite E2).
  assert (Ea : forall p, addr_of s' p = addr_of s p) by (intros p; unfold addr_of; by rewrite E4).
  assert (Em : sta_map s' = sta_map s) by (unfold sta_map; rewrite Eh; f_equal; apply map_ext; intros p; by rewrite Ea).
  split; [|done]. destruct (si_tbl s I) as [T1 T2 T3 T4 T5 T6 T7]. split.
  - rewrite E7. apply (si_up s I).
  - split; rewrite ?E1, ?E2, ?E3, ?E4, ?Eh; try done.
    + intros k l p. rewrite Ea. apply T6.
    + intros p q. rewrite !Ea. apply T7.
  - rewrite E1, Eh. apply (si_all s I).
  - by rewrite E1.
  - apply (mac_inv_same s s' (si_mac s I)); rewrite ?E5; try done.
    + intros p. unfold ordinary. by rewrite Eh, Ea, E6.
    + intros p _. unfold macid_of. by rewrite E4.
  - exact D.
  - rewrite Em. apply (si_bc s I).
  - destruct H as [N H]. split; [done|]. intros p Hp. unfold unicast. rewrite Eh, Ea. by apply H.
  - destruct G as [N G]. split; [done|]. intros p Hp. unfold unicast. rewrite Eh, Ea. by apply G.
Qed.

(** The queues change, the identifiers do not. *)
Lemma queues_inv s q : sta_inv s -> q_part (free_sta_queue s) q -> (forall p, aid_of q p = aid_of (sp_q s) p) ->
  sta_inv (s <| sp_q := q |>) /\ sta_map (s <| sp_q := q |>) = sta_map s.
Proof.
  intros I Q Aq. apply (sta_inv_fields s); [done|done|exact Q| |apply (si_auth s I)|apply (si_asoc s I)]. by apply (aid_inv_fields s _ (si_aid s I)).
Qed.

Lemma expire_to_inv s p st v : sta_inv s -> xq_stas (sp_q s) !! p = Some st ->
  let t := s <| sp_q := put_qsta (sp_q s) p (st <| qs_expire_to := v |>) |> in sta_inv t /\ sta_map t = sta_map s.
Proof.
  intros I Hst. apply queues_inv; [done|by apply (q_part_put _ _ p st (st <| qs_expire_to := v |>) (si_q s I))|]. intros x. unfold aid_of. cbn.
  destruct (decide (p = x)) as [->|]; [by rewrite lookup_insert_eq, Hst|by rewrite lookup_insert_ne].
Qed.

Lemma auth_list_inv s l n : sta_inv s -> NoDup l -> (forall p, p ∈ l -> unicast s p /\ p ∉ asoc_list s) ->
  let t := s <| auth_list := l |> <| auth_list_cnt := n |> in sta_inv t /\ sta_map t = sta_map s.
Proof.
  intros I N H. apply (sta_inv_fields s); [done|done|apply (si_q s I)| | |].
  - by apply (aid_inv_fields s _ (si_aid s I)).
  - split; [done|]. intros p Hp. by apply H.
  - destruct (si_asoc s I) as [Na Ha]. split; [done|]. intros p Hp. split; [by apply Ha|]. intros Hl. by apply (H p Hl).
Qed.

Lemma asoc_delete_view s p : exists n, asoc_delete s p = s <| asoc_list := drop_id p (asoc_list s) |> <| asoc_list_cnt := n |>.
Proof.
  unfold asoc_delete. case_bool_decide as H; [by eexists|]. exists (asoc_list_cnt s). rewrite drop_id_id by done. by destruct s.
Qed.

(** Off the associated ones. *)
Lemma asoc_delete_inv s p : sta_inv s -> sta_inv (asoc_delete s p) /\ sta_map (asoc_delete s p) = sta_map s /\ p ∉ asoc_list (asoc_delete s p).
Proof.
  intros I. destruct (asoc_delete_view s p) as [n ->]. set (t := _ <| asoc_list_cnt := n |>).
  assert (sta_inv t /\ sta_map t = sta_map s) as [It Em].
  { apply (sta_inv_fields s); [done|done|apply (si_q s I)| |apply (si_auth s I)|].
    - by apply (aid_inv_fields s _ (si_aid s I)).
    - destruct (si_asoc s I) as [Na Ha]. split; [by apply NoDup_filter|]. intros x [_ Hx]%list_elem_of_filter. by apply Ha. }
  split; [done|]. split; [done|]. intros [? _]%list_elem_of_filter. done.
Qed.

Lemma list_auth s p : sta_inv s -> unicast s p -> p ∉ asoc_list s -> exists st, xq_stas (sp_q s) !! p = Some st /\
  let t := if bool_decide (p ∈ auth_list s) then s else s <| auth_list := auth_list s ++ [p] |> <| auth_list_cnt := u8 (auth_list_cnt s + 1) |> in
  let t := t <| sp_q := put_qsta (sp_q t) p (st <| qs_expire_to := auth_to |>) |> in
  sta_inv t /\ sta_map t = sta_map s /\ asoc_list t = asoc_list s.
Proof.
  intros I Hu Na. cut (exists st, xq_stas (sp_q s) !! p = Some st /\
    let t := if bool_decide (p ∈ auth_list s) then s else s <| auth_list := auth_list s ++ [p] |> <| auth_list_cnt := u8 (auth_list_cnt s + 1) |> in
    let t := t <| sp_q := put_qsta (sp_q t) p (st <| qs_expire_to := auth_to |>) |> in sta_inv t /\ sta_map t = sta_map s).
  { intros (st & E & H1 & H2). exists st. split; [done|]. cbv zeta in *. split; [done|]. split; [done|]. by case_bool_decide. }
  destruct (si_q s I) as (_ & Q1 & _). destruct (Q1 p) as [st Hst]; [apply (hashed_range s (si_tbl s I)), Hu|]. exists st. split; [done|]. cbv zeta.
  destruct (si_auth s I) as [N H]. case_bool_decide as Hin; [by apply expire_to_inv|].
  destruct (auth_list_inv s (auth_list s ++ [p]) (u8 (auth_list_cnt s + 1)) I) as [I1 E1].
  - apply NoDup_app. split; [done|]. split; [|apply NoDup_singleton]. intros x Hx ->%list_elem_of_singleton. done.
  - intros x. rewrite elem_of_app, list_elem_of_singleton. intros [Hx| ->]; [|done]. split; [by apply H|].
    intros Ha. destruct (si_asoc s I) as [_ G]. by apply (G x Ha).
  - rewrite <- E1. by apply expire_to_inv.
Qed.

Lemma state_inv s p v : sta_inv s -> sta_inv (s <| sp_q := set_state (sp_q s) p v |>) /\ sta_map (s <| sp_q := set_state (sp_q s) p v |>) = sta_map s.
Proof. intros I. apply queues_inv; [done|apply q_part_state, (si_q s I)|done]. Qed.

Lemma unicast_lookup a : IS_MCAST a = false -> lookup_addr a = a /\ a <> bc_addr.
Proof. intros H. unfold lookup_addr. rewrite H. split; [done|]. by intros ->. Qed.

(** The associated addresses: nothing changes, one is removed. *)
Lemma asoc_same s s' : sta_inv s -> sta_inv s' -> asoc_list s' = asoc_list s ->
  (forall a p, p ∈ asoc_list s -> sta_map s' !! a = Some p <-> sta_map s !! a = Some p) -> asoc_of s' = asoc_of s.
Proof. intros I I' L H. apply (asoc_of_change s'); [done|]. intros a. rewrite (asoc_of_in s a I), L. split; intros (p & H1 & H2); exists p; split; try done; by apply H. Qed.

Lemma asoc_removed s s' a p : sta_inv s -> sta_inv s' -> sta_map s !! a = Some p -> asoc_list s' = drop_id p (asoc_list s) ->
  (forall b q, q <> p -> sta_map s' !! b = Some q <-> sta_map s !! b = Some q) -> asoc_of s' = asoc_of s ∖ {[a]}.
Proof.
  intros I I' Hp L H. apply (asoc_of_change s'); [done|]. intros b. rewrite elem_of_difference, elem_of_singleton, (asoc_of_in s b I), L. unfold drop_id. split.
  - intros [(q & Hq & Hl) Nb]. assert (q <> p) as Nq.
    { intros ->. apply Nb. apply (sta_map_some s (si_tbl s I)) in Hq as [_ Eq], Hp as [_ Ep]. congruence. }
    exists q. rewrite (H b q Nq), list_elem_of_filter. done.
  - intros (q & Hq & [Nq Hl]%list_elem_of_filter). rewrite (H b q Nq) in Hq. split; [by exists q|]. intros ->. congruence.
Qed.

Lemma asoc_unknown s a : sta_inv s -> sta_map s !! a = None -> asoc_of s ∖ {[a]} = asoc_of s.
Proof. intros I E. apply difference_disjoint_L, disjoint_singleton_r. rewrite (asoc_of_in s a I), E. by intros (p & ? & _). Qed.

Lemma asoc_list_map s a p : sta_inv s -> p ∈ asoc_list s -> sta_map s !! a = Some p <-> a = addr_of s p.
Proof. intros I Hp. rewrite (sta_map_some s (si_tbl s I)). destruct (si_asoc s I) as [_ G]. destruct (G p Hp) as [[H _] _]. split; [by intros [_ ->]|by intros ->]. Qed.

Definition op_keeps (s : sta_priv) (op : ap_op) (r : option Z) (s' : sta_priv) : Prop :=
  sta_inv s' /\ ap_spec (sta_map s) (asoc_of s) op r (sta_map s') (asoc_of s').

Lemma auth_keeps s a : sta_inv s -> IS_MCAST a = false -> exists r s', auth_sta s a = Some (r, s') /\ op_keeps s (ApAuth a) r s' /\
  forall p, r = Some p -> sta_map s' !! a = Some p /\ p ∉ asoc_list s'.
Proof.
  intros I Hm. destruct (unicast_lookup a Hm) as [El Nb]. pose proof (si_tbl s I) as T. unfold auth_sta. rewrite (get_stainfo_map s T), El.
  destruct (sta_map s !! a) as [p|] eqn:E; cbn [mbind option_bind].
  - pose proof E as [Hp Ha]%(sta_map_some s T). destruct (asoc_delete_inv s p I) as (I0 & E0 & N0). destruct (asoc_delete_view s p) as [n Ev].
    destruct (list_auth (asoc_delete s p) p I0) as (st & -> & I' & E' & L'); [rewrite Ev; split; [done|]; change (addr_of s p <> bc_addr); congruence|done|].
    cbn [mbind option_bind]. eexists _, _. split; [reflexivity|]. match type of E' with sta_map ?t = _ => set (s' := t) in * end.
    split; [split; [exact I'|]|].
    + rewrite (asoc_removed s s' a p I I' E); [rewrite E', E0; by constructor|by rewrite L', Ev|]. intros b q _. by rewrite E', E0.
    + intros x [= <-]. rewrite E', E0, L'. done.
  - destruct (free_sta_queue s) as [|p rest] eqn:Ef.
    + rewrite alloc_full by done. cbn [mbind option_bind]. eexists _, _. split; [reflexivity|]. split; [split; [done|]|done]. apply spec_full; [done|].
      pose proof (size_hashed s I) as Hs. rewrite Ef in Hs. cbn in Hs. lia.
    + destruct (alloc_sta_inv s a p rest I Nb E Ef) as (s1 & -> & A & I1 & E1). cbn [mbind option_bind].
      pose proof (alloc_fresh s p rest T Ef) as Np.
      destruct (state_inv s1 p WIFI_FW_AUTH_NULL I1) as [I2 E2]. set (s2 := s1 <| sp_q := _ |>) in *.
      assert (asoc_list s2 = asoc_list s) as L2 by apply (al_asoc _ _ _ _ _ A).
      assert (p ∉ asoc_list s) as Na by (intros Hin; destruct (si_asoc s I) as [_ G]; destruct (G p Hin) as [[Hh _] _]; done).
      destruct (list_auth s2 p I2) as (st & -> & I3 & E3 & L3); [|by rewrite L2|].
      { split; [change (p ∈ hashed s1); rewrite (alloc_hashed s s1 a p rest A); by left|].
        change (addr_of s1 p <> bc_addr). by rewrite (alloc_addr s s1 a p rest A), decide_True. }
      cbn [mbind option_bind]. eexists _, _. split; [reflexivity|]. match type of E3 with sta_map ?t = _ => set (s' := t) in * end.
      assert (sta_map s' = <[a := p]> (sta_map s)) as Em by (by rewrite E3, E2, E1). split; [split; [exact I3|]|].
      * rewrite (asoc_same s s' I I3); [|by rewrite L3|].
        -- rewrite Em. apply spec_new; [done|apply (ti_range s T); rewrite Ef; by left|]. by intros b [Hb _]%(sta_map_some s T).
        -- intros b q Hq. rewrite Em, lookup_insert_Some. split; [|intros Hb; right; split; [|done]; by intros ->; congruence].
           intros [[-> ->]|[_ ?]]; done.
      * intros x [= <-]. rewrite Em, L3, L2, lookup_insert_eq. done.
Qed.

Lemma fail_keeps s a : sta_inv s -> IS_MCAST a = false -> exists s', auth_fail s a = Some s' /\ op_keeps s (ApRefuse a) None s'.
Proof.
  intros I Hm. destruct (unicast_lookup a Hm) as [_ Nb]. destruct (auth_keeps s a I Hm) as (r & s1 & E & [I1 S1] & Hr). unfold auth_fail. rewrite E. cbn [mbind option_bind].
  destruct r as [p|].
  - destruct (Hr p eq_refl) as [Hp Na]. pose proof Hp as [Hh Ha]%(sta_map_some s1 (si_tbl s1 I1)).
    destruct (free_sta_keeps s1 p I1 Hh) as (s' & -> & F & I' & E'); [congruence|done|]. cbn [mbind option_bind]. exists s'. split; [done|]. split; [done|].
    assert (asoc_of s' = asoc_of s1) as ->.
    { apply asoc_same; [done|done|apply (fr_asoc _ _ _ F)|]. intros b q Hq. rewrite E', lookup_delete_Some. split; [tauto|]. intros Hb. split; [|done].
      intros <-. rewrite Ha in Hb. by assert (q = p) as -> by congruence. }
    rewrite E', Ha. clear Ha. inversion S1 as [| x y Hx Hy Hz H1 H2 H3 H4| | | | | | | | | |]; [apply spec_refuse|]. rewrite delete_insert_eq.
    rewrite <- (asoc_unknown s a I Hx) at 2. apply spec_refuse.
  - cbn. exists s1. split; [done|]. split; [done|]. inversion S1; subst. rewrite <- (delete_id (sta_map s) a) at 2 by done.
    rewrite <- (asoc_unknown s a I) at 2 by done. apply spec_refuse.
Qed.

Lemma assoc_keeps s a p : sta_inv s -> IS_MCAST a = false -> sta_map s !! a = Some p ->
  exists s', assoc_sta s p = Some (true, s') /\ associated s p s' /\ sta_inv s' /\ sta_map s' = sta_map s.
Proof.
  intros I Hm E. destruct (unicast_lookup a Hm) as [_ Nb]. pose proof (si_tbl s I) as T. apply (sta_map_some s T) in E as [Hp Ha]. destruct (bc_in s I) as (b & Hb & Ab).
  destruct (assoc_view s p b T (si_q s I) (si_aid s I) Hp ltac:(congruence) Hb Ab) as (s' & Es & A). exists s'. split; [done|]. split; [done|].
  destruct (si_auth s I) as [N H]. destruct (si_asoc s I) as [Na G]. pose proof (as_id _ _ _ A) as B.
  apply sta_inv_fields; [done|apply B|apply B|apply B| |]; rewrite (as_auth _ _ _ A).
  - split; [by apply NoDup_filter|]. intros x [_ Hx]%list_elem_of_filter. by apply H.
  - rewrite (as_asoc _ _ _ A). assert (Gp : forall x, x ∈ asoc_list s -> unicast s x /\ x ∉ drop_id p (auth_list s)).
    { intros x Hx. destruct (G x Hx) as [G1 G2]. split; [done|]. by intros [_ ?]%list_elem_of_filter. }
    destruct (decide (p ∈ asoc_list s)) as [Hin|Hin]; [done|]. split.
    + apply NoDup_app. split; [done|]. split; [|apply NoDup_singleton]. intros x Hx ->%list_elem_of_singleton. done.
    + intros x [Hx| ->%list_elem_of_singleton]%elem_of_app; [by apply Gp|]. split; [split; [done|congruence]|]. intros [? _]%list_elem_of_filter. done.
Qed.

Lemma expire_one_keeps s p : sta_inv s -> unicast s p -> p ∉ asoc_list s -> exists s', expire_one s p = Some s' /\ sta_inv s' /\
  (sta_map s' = sta_map s \/ sta_map s' = delete (addr_of s p) (sta_map s)) /\ asoc_list s' = asoc_list s /\ forall x, x <> p -> unicast s x -> unicast s' x.
Proof.
  intros I Hu Na. pose proof (si_tbl s I) as T. unfold expire_one. destruct (si_q s I) as (_ & Q1 & _). destruct (Q1 p) as [st Hst]; [apply (hashed_range s T), Hu|].
  rewrite Hst. cbn [mbind option_bind]. destruct (0 <? qs_expire_to st); [|exists s; by eauto 6].
  destruct (expire_to_inv s p st (qs_expire_to st - 1) I Hst) as [I1 E1]. cbv zeta. set (s1 := s <| sp_q := _ |>) in *.
  destruct (_ =? 0); [|exists s1; split; [done|]; split; [done|]; split; [by left|done]].
  destruct (si_auth s1 I1) as [N H]. destruct (auth_list_inv s1 (drop_id p (auth_list s1)) (u8 (auth_list_cnt s1 - 1)) I1) as [I2 E2].
  - by apply NoDup_filter.
  - intros x [_ Hx]%list_elem_of_filter. split; [by apply H|]. intros Ha. destruct (si_asoc s1 I1) as [_ G]. by apply (G x Ha).
  - set (s2 := s1 <| auth_list := _ |> <| auth_list_cnt := _ |>) in *. destruct Hu as [Hp Nb].
    destruct (free_sta_keeps s2 p I2 Hp Nb Na) as (s' & -> & F & I' & E'). cbn [mbind option_bind]. exists s'. split; [done|]. split; [done|].
    split; [right; rewrite E', E2, E1; done|]. split; [apply (fr_asoc _ _ _ F)|]. intros x Nx [Hx Hb]. split; [apply (free_in s2 s' p F); done|]. by rewrite (free_addr s2 s' p F).
Qed.

Lemma expire_each_keeps l : forall s, sta_inv s -> NoDup l -> (forall p, p ∈ l -> unicast s p /\ p ∉ asoc_list s) ->
  exists s', expire_each s l = Some s' /\ sta_inv s' /\ sta_map s' ⊆ sta_map s /\ sta_map s' !! bc_addr = sta_map s !! bc_addr /\
    asoc_list s' = asoc_list s /\ forall a p, p ∈ asoc_list s -> sta_map s !! a = Some p -> sta_map s' !! a = Some p.
Proof.
  induction l as [|p l IH]; intros s I N H; cbn [expire_each]; [exists s; split; [done|]; split; [done|]; by split|]. apply NoDup_cons in N as [Np N].
  destruct (expire_one_keeps s p I) as (s1 & -> & I1 & Hm & La & Hu); [apply H; by left..|]. cbn [mbind option_bind].
  destruct (IH s1 I1 N) as (s' & -> & I' & Sub & Eb & L' & K').
  - intros x Hx. rewrite La. destruct (H x) as [H1 H2]; [by right|]. split; [|done]. apply Hu; [by intros ->|done].
  - exists s'. split; [done|]. split; [done|]. destruct (H p) as [[_ Nb] Na]; [by left|]. rewrite La in L', K'. destruct Hm as [Em|Em]; rewrite Em in Sub, Eb, K'; [done|].
    split; [|split; [|split; [done|]]].
    + etransitivity; [exact Sub|apply delete_subseteq].
    + by rewrite Eb, lookup_delete_ne.
    + intros a x Hx Ha. apply K'; [done|]. rewrite lookup_delete_ne; [done|]. intros <-. apply Na.
      apply (asoc_list_map s _ x I Hx) in Ha as Ea. destruct (si_asoc s I) as [_ G]. destruct (G x Hx) as [[Hh _] _].
      destruct (H p) as [[Hhp _] _]; [by left|]. by rewrite (ti_addr s (si_tbl s I) p x Hhp Hh Ea).
Qed.

Lemma expire_keeps s : sta_inv s -> exists s', expire_auth s = Some s' /\ op_keeps s ApExpire None s'.
Proof.
  intros I. destruct (si_auth s I) as [N H]. destruct (si_asoc s I) as [_ G].
  destruct (expire_each_keeps (auth_list s) s I N) as (s' & E & I' & Sub & Eb & L & K); [intros p Hp; split; [by apply H|]; intros Ha; by apply (G p Ha)|].
  exists s'. split; [exact E|]. split; [done|]. rewrite (asoc_same s s' I I' L).
  - apply spec_expire; [done|done|]. intros a (p & Hp & Hl)%(asoc_of_in s a I). rewrite Hp. by apply K.
  - intros a p Hp. split; [|by apply K]. intros Ha. by eapply lookup_weaken.
Qed.

(** One station that the access point gives up. *)
Lemma sessions_inv s p : sta_inv s -> sta_inv (s <| sp_q := end_sessions (sp_q s) p |>) /\ sta_map (s <| sp_q := end_sessions (sp_q s) p |>) = sta_map s.
Proof.
  intros I. apply queues_inv; [done| |done]. eapply q_part_fields; [apply (si_q s I)|done..|]. intros x. cbn. apply alter_some.
Qed.

Lemma ap_free_frees : frees ap_free_sta.
Proof.
  intros s p I Hp Nb Na. unfold ap_free_sta. destruct (sessions_inv s p I) as [I1 E1]. set (s1 := s <| sp_q := _ |>) in *.
  destruct (q_part_state_at _ _ p (si_q s1 I1) (hashed_range s (si_tbl s I) p Hp)) as (w & ->). cbn [mbind option_bind].
  destruct (state_inv s1 p (Z.land w (Z.lnot _FW_LINKED)) I1) as [I2 E2]. set (s2 := s1 <| sp_q := _ |>) in *.
  destruct (free_frees s2 p I2 Hp Nb Na) as (s' & E & I' & E' & L' & U'). destruct (rtw_free_stainfo s2 (Some p)) as [[r t]|]; [|done].
  injection E as <-. exists t. split; [done|]. split; [done|]. split; [by rewrite E', E2, E1|]. split; [exact L'|]. exact U'.
Qed.

Lemma leave_keeps s a : sta_inv s -> IS_MCAST a = false -> exists r s', OnDeAuth s a = Some (r, s') /\ op_keeps s (ApLeave a) r s'.
Proof.
  intros I Hm. destruct (unicast_lookup a Hm) as [El Nb]. pose proof (si_tbl s I) as T. unfold OnDeAuth. rewrite (get_stainfo_map s T), El.
  assert (forall p, sta_map s !! a = Some p -> a ∈ asoc_of s <-> p ∈ asoc_list s) as Hin.
  { intros p Hp. rewrite (asoc_of_in s a I). split; [intros (q & Hq & ?); congruence|by exists p]. }
  destruct (sta_map s !! a) as [p|] eqn:E.
  - case_bool_decide as Hl.
    + pose proof E as [Hp Ha]%(sta_map_some s T). destruct (asoc_delete_inv s p I) as (I0 & E0 & N0). destruct (asoc_delete_view s p) as [n Ev].
      assert (forall x, addr_of (asoc_delete s p) x = addr_of s x) as Ead by (intros x; by rewrite Ev).
      destruct (ap_free_frees (asoc_delete s p) p I0) as (s' & -> & I' & E' & L' & _); [by rewrite Ev|rewrite Ead; congruence|done|].
      cbn [mbind option_bind]. eexists _, _. split; [reflexivity|]. split; [done|]. rewrite E0, Ead, Ha in E'.
      rewrite (asoc_removed s s' a p I I' E); [|by rewrite L', Ev|].
      * rewrite E'. apply spec_leave; [by apply (Hin p)|done].
      * intros b q Nq. rewrite E', lookup_delete_Some. split; [tauto|]. intros Hb. split; [|done]. intros <-. congruence.
    + eexists _, _. split; [reflexivity|]. split; [done|]. apply spec_stay. by rewrite (Hin p).
  - eexists _, _. split; [reflexivity|]. split; [done|]. apply spec_stay. rewrite (asoc_of_in s a I), E. by intros (q & ? & _).
Qed.

Lemma asoc_deletes l : forall s, sta_inv s -> let t := foldl asoc_delete s l in
  sta_inv t /\ sta_map t = sta_map s /\ forall p, p ∈ asoc_list t <-> p ∈ asoc_list s /\ p ∉ l.
Proof.
  induction l as [|p l IH]; intros s I; cbn [foldl].
  - split; [done|]. split; [done|]. intros p. split; [|tauto]. intros H. split; [done|apply not_elem_of_nil].
  - destruct (asoc_delete_inv s p I) as (I1 & E1 & _). destruct (IH _ I1) as (I2 & E2 & L2). split; [done|]. split; [by rewrite E2|].
    intros x. rewrite L2, elem_of_cons. destruct (asoc_delete_view s p) as [n ->]. cbn. unfold drop_id. rewrite list_elem_of_filter. tauto.
Qed.

(** The associated stations are gone. *)
Lemma flush_keeps s : sta_inv s -> exists s', rtw_sta_flush s = Some s' /\ sta_inv s' /\ asoc_list s' = [] /\
  forall a p, sta_map s' !! a = Some p <-> sta_map s !! a = Some p /\ p ∉ asoc_list s.
Proof.
  intros I. unfold rtw_sta_flush. destruct (asoc_deletes (asoc_list s) s I) as (I1 & E1 & L1). set (s1 := foldl _ _ _) in *.
  destruct (si_asoc s I) as [N H]. assert (Hu : forall p, p ∈ asoc_list s -> unicast s1 p).
  { intros p Hp. destruct (H p Hp) as [[Hh Nb] _]. assert (sta_map s1 !! addr_of s p = Some p) as Hm.
    { rewrite E1. by apply (sta_map_some s (si_tbl s I)). }
    apply (sta_map_some s1 (si_tbl s1 I1)) in Hm as [Hm Ha]. split; [done|by rewrite Ha]. }
  rewrite ap_free_each_eq. destruct (visit_inv _ (asoc_list s) ap_free_frees s1 I1 N) as (s' & E & I' & L' & E').
  - intros p Hp. split; [by apply Hu|]. intros [_ ?]%L1. done.
  - exists s'. split; [done|]. split; [done|]. split; [|by rewrite <- E1].
    rewrite L'. apply elem_of_nil_inv. intros p [? ?]%L1. done.
Qed.

Lemma stop_keeps s : sta_inv s -> exists s1 s', rtw_sta_flush s = Some s1 /\ rtw_free_all_stainfo s1 = Some s' /\ op_keeps s ApFlush None s'.
Proof.
  intros I. pose proof (si_tbl s I) as T. destruct (flush_keeps s I) as (s1 & E & I1 & L1 & E1). destruct (free_all_inv s1 I1 L1) as (s' & Ef & I' & E' & L').
  exists s1, s'. split; [done|]. split; [done|]. split; [done|].
  assert (asoc_of s' = ∅) as -> by (unfold asoc_of; by rewrite L').
  rewrite E'. replace (filter (fun kv => kv.1 = bc_addr) (sta_map s1)) with (filter (fun kv : list Z * Z => kv.1 = bc_addr) (sta_map s)); [constructor|].
  apply map_eq. intros a. apply option_eq. intros p. rewrite !map_lookup_filter_Some, E1. cbn. split; [|tauto]. intros [Hp ->]. split; [|done].
  split; [done|]. intros Ha. destruct (si_asoc s I) as [_ G]. destruct (G p Ha) as [[_ Nb] _]. apply (sta_map_some s T) in Hp as [_ Hp]. done.
Qed.

Lemma insert_keeps s a p : sta_inv s -> IS_MCAST a = false -> sta_map s !! a = Some p ->
  exists s', assoc_sta s p = Some (true, s') /\ op_keeps s (ApAssoc a) (Some p) s'.
Proof.
  intros I K E. destruct (assoc_keeps s a p I K E) as (s' & -> & A & I' & E'). exists s'. split; [done|]. split; [done|].
  rewrite (asoc_of_change s' ({[a]} ∪ asoc_of s) I'); [rewrite E'; by constructor|]. intros b.
  rewrite elem_of_union, elem_of_singleton, (asoc_of_in s b I), E'.
  assert (forall q, q ∈ asoc_list s' <-> q ∈ asoc_list s \/ q = p) as Hl.
  { intros q. rewrite (as_asoc _ _ _ A). case_decide as Hd; [|rewrite elem_of_app, list_elem_of_singleton; done].
    split; [tauto|]. intros [?| ->]; done. }
  split.
  - intros [->|(q & Hq & H)]; [exists p|exists q]; rewrite Hl; tauto.
  - intros (q & Hq & [H| ->]%Hl); [right; by exists q|left]. apply (sta_map_some s (si_tbl s I)) in E as [_ E], Hq as [_ Hq]. congruence.
Qed.

Lemma call_keeps s op : sta_inv s -> ap_op_ok s op -> exists r s', ap_call s op = Some (r, s') /\ op_keeps s op r s'.
Proof.
  intros I K. pose proof (si_tbl s I) as T. destruct op as [a|a|a|a| |a|q|]; cbn [ap_call ap_op_ok] in *.
  - destruct (auth_keeps s a I K) as (r & s' & E & H & _). by exists r, s'.
  - destruct (fail_keeps s a I K) as (s' & -> & H). by eexists _, s'.
  - rewrite (get_stainfo_map s T). destruct (unicast_lookup a K) as [-> Nb].
    destruct (sta_map s !! a) as [p|] eqn:E; [|eexists _, _; split; [reflexivity|]; split; [done|]; by constructor].
    destruct (insert_keeps s a p I K E) as (s' & -> & H). by eexists _, s'.
  - by apply leave_keeps.
  - destruct (stop_keeps s I) as (s1 & s' & -> & E' & H). cbn [mbind option_bind]. rewrite E'. by eexists _, s'.
  - eexists _, _. split; [reflexivity|]. split; [done|]. rewrite (get_stainfo_map s T). constructor.
  - destruct K as [Q Aq]. destruct (queues_inv s q I Q Aq) as [I' E']. eexists _, _. split; [reflexivity|]. split; [exact I'|]. rewrite E'. constructor.
  - destruct (expire_keeps s I) as (s' & -> & H). by eexists _, s'.
Qed.

Lemma run_ap_keeps ops : forall s, sta_inv s -> ap_run_ok s ops ->
  exists rs s', ap_run s ops = Some (rs, s') /\ sta_inv s' /\ ap_specs (sta_map s) (asoc_of s) ops rs (sta_map s') (asoc_of s').
Proof.
  induction ops as [|op ops IH]; intros s I K; cbn [ap_run ap_run_ok] in *; [exists [], s; split; [done|split; [done|apply specs_nil]]|].
  destruct K as [Ko Kr]. destruct (call_keeps s op I Ko) as (r & s1 & E & I1 & S1). rewrite E in Kr. rewrite E. cbn [mbind option_bind].
  destruct (IH s1 I1 Kr) as (rs & s' & -> & I' & S'). cbn [mbind option_bind]. eexists _, _. split; [reflexivity|]. split; [done|]. by econstructor.
Qed.

(** ** The start of an access point *)

(** Zeroed memory, the transmit queues set up, no station yet. *)
Record sta_fresh (s : sta_priv) : Prop := {
  af_up : sp_up s = true;
  af_aid : sta_aid s = repeat None NUM_STA;
  af_macid : mc_num (sp_macid s) = 32 /\ mc_if_g (sp_macid s) = [0] /\ mc_used (sp_macid s) = 0;
  af_stas : xq_stas (sp_q s) = ∅;
  af_q : exists hand, q_inv no_get hand (sp_q s) }.

Record ap_fresh (s : sta_priv) : Prop := { af_fresh : sta_fresh s; af_state : sp_state s = _HW_STATE_AP_ }.

Definition ap_start (s : sta_priv) : option sta_priv :=
  '(_, t) ← rtw_init_bcmc_stainfo (_rtw_init_sta_priv (s <| sp_macid := rtw_macid_ctl_init (sp_macid s) |>)); Some t.

Definition init_step (s : sta_priv) (i : Z) : sta_priv := (init_stainfo s i) <| free_sta_queue := free_sta_queue s ++ [i] |>.

(** The pool after entries were set up. *)
Record pool_ready (s t : sta_priv) (l : list Z) : Prop := {
  pr_free : free_sta_queue t = free_sta_queue s ++ l;
  pr_q : exists hand, q_inv no_get hand (sp_q t);
  pr_idle p st : xq_stas (sp_q t) !! p = Some st -> frames_of st = [];
  pr_qs p : p ∈ l \/ is_Some (xq_stas (sp_q s) !! p) -> is_Some (xq_stas (sp_q t) !! p);
  pr_ent p : p ∈ l \/ is_Some (sp_stas s !! p) -> is_Some (sp_stas t !! p);
  pr_rest : sp_up t = sp_up s /\ sp_state t = sp_state s /\ sta_aid t = sta_aid s /\ sp_own t = sp_own s /\ sp_macid t = sp_macid s /\ asoc_sta_count t = asoc_sta_count s }.

Lemma init_pool l : forall s, (exists hand, q_inv no_get hand (sp_q s)) -> (forall p st, xq_stas (sp_q s) !! p = Some st -> frames_of st = []) ->
  pool_ready s (foldl init_step s l) l.
Proof.
  induction l as [|i l IH]; intros s [hand I] H; cbn [foldl].
  { split; try done; [by rewrite app_nil_r|by exists hand|..]; intros p [Hp|Hp]; try done; by apply not_elem_of_nil in Hp. }
  destruct (IH (init_step s i)) as [P1 P2 P3 P4 P5 P6].
  - exists hand. apply init_sta_inv; [done|by apply H|intros x; cbn; apply insert_some|cbn; by rewrite lookup_insert_eq].
  - intros p st. cbn. destruct (decide (i = p)) as [->|]; [rewrite lookup_insert_eq; by intros [= <-]|rewrite lookup_insert_ne by done; apply H].
  - split; try done.
    + rewrite P1. cbn. by rewrite <- app_assoc.
    + intros p Hp. apply P4. cbn. destruct Hp as [[->|Hp]%elem_of_cons|Hp]; [right; by rewrite lookup_insert_eq|by left|right; by apply insert_some].
    + intros p Hp. apply P5. cbn. destruct Hp as [[->|Hp]%elem_of_cons|Hp]; [right; by rewrite lookup_insert_eq|by left|right; by apply insert_some].
Qed.

Lemma concat_empty {A} n : concat (repeat (@nil A) n) = [].
Proof. by induction n. Qed.

Lemma repeat_at {A} (x y : A) n k : repeat x n !! k = Some y -> y = x.
Proof. intros H. apply list_elem_of_lookup_2, list_elem_of_In, repeat_spec in H. done. Qed.

(** The empty table on a pool. *)
Definition empty_table (u : sta_priv) : sta_priv :=
  u <| sta_hash := repeat [] NUM_STA |> <| sp_q := (sp_q u) <| sta_dz_bitmap := 0 |> <| tim_bitmap := 0 |> <| sta_expire_to := 3 |> |>
    <| asoc_list := [] |> <| auth_list := [] |> <| asoc_list_cnt := 0 |> <| auth_list_cnt := 0 |> <| max_num_sta := Z.of_nat NUM_STA |>.

Lemma init_priv_eq s : _rtw_init_sta_priv s = empty_table (foldl init_step (s <| asoc_sta_count := 0 |> <| free_sta_queue := [] |>) (seqZ 0 (Z.of_nat NUM_STA))).
Proof. unfold _rtw_init_sta_priv, empty_table, init_step. reflexivity. Qed.

Record empty_inv (t : sta_priv) : Prop := {
  em_tbl : tbl_inv t;
  em_q : q_part (free_sta_queue t) (sp_q t);
  em_mac : mac_inv t;
  em_aid : sp_state t = _HW_STATE_AP_ -> aid_inv t;
  em_hashed : hashed t = [];
  em_up : sp_up t = true;
  em_free : free_sta_queue t = seqZ 0 32;
  em_auth : auth_list t = [];
  em_asoc : asoc_list t = [] }.

Lemma pool_table s u : sta_fresh s -> pool_ready (s <| sp_macid := rtw_macid_ctl_init (sp_macid s) |> <| asoc_sta_count := 0 |> <| free_sta_queue := [] |>) u (seqZ 0 32) ->
  empty_inv (empty_table u).
Proof.
  intros [A1 A3 (M1 & M2 & M3) A5 A6] [P1 P2 P3 P4 P5 (R1 & R2 & R3 & R4 & R5 & R6)]. cbn -[rtw_macid_ctl_init seqZ repeat] in *. set (t := empty_table u).
  assert (Ef : free_sta_queue u = seqZ 0 32) by (rewrite P1; reflexivity).
  assert (Eh : hashed t = []) by (apply concat_empty). assert (No : forall p, ~ ordinary t p) by (intros p [Hp _]; rewrite Eh in Hp; by apply not_elem_of_nil in Hp).
  split; [..|exact Eh|cbn; by rewrite R1|exact Ef|done|done].
  - split.
    + done.
    + rewrite Eh, app_nil_r. change (NoDup (free_sta_queue u)). rewrite Ef. apply NoDup_seqZ.
    + intros p. rewrite Eh, app_nil_r. change (p ∈ free_sta_queue u -> 0 <= p < 32). rewrite Ef, elem_of_seqZ. lia.
    + rewrite Eh. cbn. by rewrite R6.
    + intros p Hp. apply P5. left. apply elem_of_seqZ. lia.
    + intros k l p Hk Hp. cbn -[repeat] in Hk. apply repeat_at in Hk as ->. by apply not_elem_of_nil in Hp.
    + intros p q Hp. rewrite Eh in Hp. by apply not_elem_of_nil in Hp.
  - eapply (q_part_fields _ (sp_q u)); try done. split; [exact P2|]. split; [|intros p st _; apply P3]. intros p Hp. apply P4. left. apply elem_of_seqZ. lia.
  - split; cbn -[rtw_macid_map_set]; rewrite ?R5; cbn -[rtw_macid_map_set].
    + done.
    + rewrite M2, M3. exists (rtw_macid_map_set 0 1). done.
    + intros i Hi. rewrite M3. change rtw_macid_map_set with rtw_sec_cam_map_set. rewrite set_bit, Z.bits_0, orb_false_r, Z.eqb_eq by (unfold RTW_DEFAULT_MGMT_MACID; lia).
      split; [by left|]. intros [?|(p & Hp & _)]; [done|by destruct (No p)].
    + intros p Hp. by destruct (No p).
    + intros p q Hp. by destruct (No p).
  - intros A2. cbn in A2. split; cbn -[repeat]; rewrite ?R3; try done.
    + rewrite A3. apply repeat_length.
    + intros k p Hk. cbn -[repeat] in Hk. rewrite A3 in Hk. apply repeat_at in Hk. done.
    + intros p Hp. change (p ∈ hashed t) in Hp. rewrite Eh in Hp. by apply not_elem_of_nil in Hp.
    + intros p Hp. change (p ∈ hashed t) in Hp. rewrite Eh in Hp. by apply not_elem_of_nil in Hp.
Qed.

Lemma init_table s : sta_fresh s -> empty_inv (_rtw_init_sta_priv (s <| sp_macid := rtw_macid_ctl_init (sp_macid s) |>)).
Proof.
  intros A. rewrite init_priv_eq. apply (pool_table s); [done|]. apply init_pool; [apply (af_q s A)|]. intros p st Hp. cbn in Hp.
  by rewrite (af_stas s A), lookup_empty in Hp.
Qed.

(** The table of a device that was started: the broadcast station is the first
    entry. *)
Record started (s t : sta_priv) : Prop := {
  sd_empty : exists u, empty_inv u /\ allocated u bc_addr 0 (seqZ 1 31) t;
  sd_tbl : tbl_inv t;
  sd_map : sta_map t = {[bc_addr := 0]};
  sd_state : sp_state t = sp_state s }.

Lemma init_steps_state l : forall s, sp_state (foldl init_step s l) = sp_state s.
Proof. induction l as [|i l IH]; intros s; cbn [foldl]; [done|]. by rewrite IH. Qed.

Lemma empty_table_state u : sp_state (empty_table u) = sp_state u.
Proof. done. Qed.

Lemma init_priv_state s : sp_state (_rtw_init_sta_priv s) = sp_state s.
Proof. rewrite init_priv_eq, empty_table_state. exact (init_steps_state _ (s <| asoc_sta_count := 0 |> <| free_sta_queue := [] |>)). Qed.

Lemma start_view s : sta_fresh s -> exists t, ap_start s = Some t /\ started s t.
Proof.
  intros A. pose proof (init_table s A) as Em. unfold ap_start, rtw_init_bcmc_stainfo. set (u := _rtw_init_sta_priv _) in *.
  assert (Hs : sp_state u = sp_state s) by exact (init_priv_state (s <| sp_macid := rtw_macid_ctl_init (sp_macid s) |>)).
  clearbody u. pose proof Em as [T Q M D Eh Up Ef El Ea]. assert (Ef' : free_sta_queue u = 0 :: seqZ 1 31) by (rewrite Ef; reflexivity).
  destruct (alloc_view u bc_addr 0 (seqZ 1 31) T Q Ef' Up) as (t & -> & L). cbn [mbind option_bind]. exists t. split; [done|].
  assert (Eu : sta_map u = ∅) by (unfold sta_map; by rewrite Eh). assert (Nn : sta_map u !! bc_addr = None) by (by rewrite Eu). split.
  - by exists u.
  - by apply (alloc_tbl u t bc_addr 0 (seqZ 1 31)).
  - rewrite (alloc_map u t bc_addr 0 (seqZ 1 31) T Ef' L Nn), Eu. done.
  - destruct (al_rest _ _ _ _ _ L) as (_ & _ & _ & _ & R5 & _). by rewrite R5.
Qed.

Lemma ap_start_inv s : ap_fresh s -> exists t, ap_start s = Some t /\ sta_inv t /\ sta_map t = {[bc_addr := 0]} /\ asoc_of t = ∅.
Proof.
  intros [A As]. destruct (start_view s A) as (t & E & [(u & [T Q M D Eh Up Ef El Ea] & L) Tt Et St]). exists t. split; [done|].
  split; [|split; [done|unfold asoc_of; by rewrite (al_asoc _ _ _ _ _ L), Ea]].
  assert (Ef' : free_sta_queue u = 0 :: seqZ 1 31) by (rewrite Ef; reflexivity). destruct (al_rest _ _ _ _ _ L) as (R1 & R2 & R3 & R4 & R5 & R6). split.
  - by rewrite R1.
  - done.
  - rewrite (alloc_pool u t bc_addr 0 (seqZ 1 31) Ef' L), Eh, Ef. done.
  - rewrite (al_free _ _ _ _ _ L). apply (al_q _ _ _ _ _ L).
  - apply (mac_alloc u t bc_addr 0 0 (seqZ 1 31) T M Ef' L). by left.
  - apply (aid_alloc u t bc_addr 0 (seqZ 1 31) T); [|done|done]. apply D. congruence.
  - exists 0. rewrite Et. apply lookup_insert_eq.
  - rewrite R6, El. split; [constructor|]. intros p Hp. by apply not_elem_of_nil in Hp.
  - rewrite (al_asoc _ _ _ _ _ L), Ea. split; [constructor|]. intros p Hp. by apply not_elem_of_nil in Hp.
Qed.

(** ** The claims *)



(** ** An access point with five stations *)

Definition sta_memory (state : Z) : sta_priv :=
  mk_sta_priv true [] [] 0 ∅ [] 0 (repeat None NUM_STA) 0 state [2; 0; 0; 0; 0; 9] (mk_macid_ctl 32 0 0 [0] [0; 0] [0] (repeat None 32) 32 0)
    (_rtw_init_xmit_priv ((demo_queues 1) <| xq_stas := ∅ |>)) [] [] [] 0.

Lemma memory_fresh_sta state : sta_fresh (sta_memory state).
Proof.
  split; try done. exists []. destruct (queues_init_inv no_get ((demo_queues 1) <| xq_stas := ∅ |>)) as [I _]; [intros p st H; cbn in H; by rewrite lookup_empty in H|done|exact I].
Qed.

Lemma memory_fresh : ap_fresh (sta_memory _HW_STATE_AP_).
Proof. split; [apply memory_fresh_sta|done]. Qed.

Definition peer (k : Z) : list Z := [2; 0; 0; 0; 0; k].
Definition ap_story : list ap_op :=
  [ApAuth (peer 1); ApAuth (peer 2); ApAssoc (peer 1); ApAssoc (peer 2); ApLeave (peer 1); ApAuth (peer 3); ApAssoc (peer 3); ApExpire; ApGet (peer 1); ApGet (peer 3);
   ApAuth (peer 1); ApExpire; ApExpire; ApExpire; ApGet (peer 1); ApRefuse (peer 4); ApLeave (peer 4); ApFlush; ApGet (peer 2); ApGet bc_addr].

Definition story_start : sta_priv := default (sta_memory 0) (ap_start (sta_memory _HW_STATE_AP_)).

Lemma story_ok : ap_run_ok story_start ap_story.
Proof. vm_compute. repeat split. Qed.

Lemma story_started : ap_start (sta_memory _HW_STATE_AP_) = Some story_start.
Proof. destruct (ap_start_inv _ memory_fresh) as (t & E & _). unfold story_start. by rewrite E. Qed.

Definition story_end : list (option Z) * sta_priv := default ([], story_start) (ap_run story_start ap_story).




(** ** Two ways to lose stations

    What a station loses that an access point gives a large association
    identifier, and what an authentication from a group address does to an
    access point. *)

(** [rtw_joinbss_update_stainfo], later [rtw_free_assoc_resources]. *)
Definition reconnect (s : sta_priv) (bssid : list Z) (aid : Z) : option sta_priv :=
  '(_, s) ← join_sta s bssid aid; '(_, s) ← rtw_free_stainfo s (rtw_get_stainfo s bssid); Some s.

Fixpoint reconnects (n : nat) (s : sta_priv) (bssid : list Z) (aid : Z) : option sta_priv :=
  match n with O => Some s | S n => s ← reconnect s bssid aid; reconnects n s bssid aid end.

(** What every device keeps, in station mode too. *)
Record base_inv (s : sta_priv) : Prop := {
  bi_up : sp_up s = true;
  bi_tbl : tbl_inv s;
  bi_q : q_part (free_sta_queue s) (sp_q s) }.

Lemma start_base s : sta_fresh s -> exists t, ap_start s = Some t /\ base_inv t /\ sta_map t = {[bc_addr := 0]} /\
  sp_state t = sp_state s /\ length (free_sta_queue t) = 31%nat.
Proof.
  intros A. destruct (start_view s A) as (t & E & [(u & [T Q M D Eh Up Ef El Ea] & L) Tt Et St]). exists t. split; [done|].
  destruct (al_rest _ _ _ _ _ L) as (R1 & _). split; [|split; [done|split; [done|]]].
  - split; [by rewrite R1|done|]. rewrite (al_free _ _ _ _ _ L). apply (al_q _ _ _ _ _ L).
  - by rewrite (al_free _ _ _ _ _ L).
Qed.

Lemma tbl_entries s s' : tbl_inv s -> free_sta_queue s' = free_sta_queue s -> sta_hash s' = sta_hash s -> asoc_sta_count s' = asoc_sta_count s ->
  (forall p, is_Some (sp_stas s !! p) -> is_Some (sp_stas s' !! p)) -> (forall p, addr_of s' p = addr_of s p) -> tbl_inv s' /\ sta_map s' = sta_map s.
Proof.
  intros [T1 T2 T3 T4 T5 T6 T7] E1 E2 E3 E4 Ea. assert (Eh : hashed s' = hashed s) by (unfold hashed; by rewrite E2). split.
  - split; rewrite ?E1, ?E2, ?E3, ?Eh; try done.
    + intros p Hp. by apply E4, T5.
    + intros k l p. rewrite Ea. apply T6.
    + intros p q. rewrite !Ea. apply T7.
  - unfold sta_map. rewrite Eh. f_equal. apply map_ext. intros p. by rewrite Ea.
Qed.

Lemma alloc_base s a p rest : base_inv s -> free_sta_queue s = p :: rest -> sta_map s !! a = None ->
  exists s', rtw_alloc_stainfo s a = Some (Some p, s') /\ base_inv s' /\ sta_map s' = <[a := p]> (sta_map s) /\ free_sta_queue s' = rest /\ sp_state s' = sp_state s.
Proof.
  intros [Up T Q] E Nn. destruct (alloc_view s a p rest T Q E Up) as (s' & Es & A). exists s'. split; [done|].
  destruct (al_rest _ _ _ _ _ A) as (R1 & _ & _ & _ & R5 & _). split; [|split; [|split; [apply (al_free _ _ _ _ _ A)|done]]].
  - split; [by rewrite R1|by apply (alloc_tbl s s' a p rest)|]. rewrite (al_free _ _ _ _ _ A). apply (al_q _ _ _ _ _ A).
  - by apply (alloc_map s s' a p rest).
Qed.

(** The fields [join_sta] sets. *)
Lemma join_fields s p st e aid e' : base_inv s -> xq_stas (sp_q s) !! p = Some st -> sp_stas s !! p = Some e -> se_addr e' = se_addr e ->
  let t := put_entry (s <| sp_q := put_qsta (sp_q s) p (st <| qs_aid := aid |>) |>) p e' in
  base_inv t /\ sta_map t = sta_map s /\ aid_of (sp_q t) p = aid.
Proof.
  intros [Up T Q] Hst He Ef t. assert (Ea : forall x, addr_of t x = addr_of s x).
  { intros x. unfold addr_of, t. cbn. destruct (decide (p = x)) as [->|]; [rewrite lookup_insert_eq, He; cbn; by rewrite Ef|by rewrite lookup_insert_ne]. }
  destruct (tbl_entries s t T) as [Tt Em]; try done.
  { intros x Hx. by apply insert_some. }
  split; [split; [done|done|]|split; [done|]].
  - by apply (q_part_put _ _ p st).
  - unfold aid_of, t. cbn. by rewrite lookup_insert_eq.
Qed.

Lemma join_done s a p rest aid : base_inv s -> free_sta_queue s = p :: rest -> IS_MCAST a = false -> sta_map s !! a = None ->
  exists s', join_sta s a aid = Some (Some p, s') /\ base_inv s' /\ sta_map s' = <[a := p]> (sta_map s) /\ free_sta_queue s' = rest /\ sp_state s' = sp_state s /\
    aid_of (sp_q s') p = aid.
Proof.
  intros I E Hm Nn. destruct (unicast_lookup a Hm) as [El _]. unfold join_sta. rewrite (get_stainfo_map s (bi_tbl s I)), El, Nn.
  destruct (alloc_base s a p rest I E Nn) as (s1 & -> & I1 & E1 & F1 & S1). cbn [mbind option_bind].
  assert (Hp : 0 <= p < 32) by (apply (ti_range s (bi_tbl s I)); rewrite E; by left).
  destruct (bi_q s1 I1) as (_ & Q1 & _). destruct (Q1 p Hp) as [st Hst]. destruct (ti_ent s1 (bi_tbl s1 I1) p Hp) as [e He]. rewrite Hst, He. cbn [mbind option_bind].
  match goal with |- context [put_entry _ p ?x] => destruct (join_fields s1 p st e aid x I1 Hst He eq_refl) as (I2 & E2 & A2) end. eexists. split; [reflexivity|]. split; [exact I2|]. split; [by rewrite E2|]. split; [exact F1|]. split; [exact S1|exact A2].
Qed.

(** The entry of a freed station is not in the pool: the table is that of a
    freed station otherwise. *)
Definition in_pool (s : sta_priv) (p : Z) : sta_priv := s <| free_sta_queue := free_sta_queue s ++ [p] |>.

Lemma free_base s p : base_inv s -> p ∈ hashed s -> aid_of (sp_q s) p <= 31 -> sp_state s <> _HW_STATE_AP_ ->
  exists s', rtw_free_stainfo s (Some p) = Some (_SUCCESS, s') /\ base_inv s' /\ sta_map s' = delete (addr_of s p) (sta_map s) /\
    free_sta_queue s' = free_sta_queue s ++ [p] /\ sp_state s' = sp_state s.
Proof.
  intros [Up T Q] Hp Ha Hs. destruct (free_view s p _ Q (hashed_range s T p Hp) (hashed_ent s T p Hp) Ha) as (s' & E & F); [done|]. exists s'. split; [done|].
  destruct (fr_rest _ _ _ F) as (R1 & R2 & R3 & R4). split; [split; [by rewrite R1|by apply (free_tbl s s' p)|]|split; [|split; [apply (fr_free _ _ _ F)|done]]].
  - rewrite (fr_free _ _ _ F). apply (fr_q _ _ _ F).
  - by apply (free_map s s' p).
Qed.

Lemma lose_base s p : base_inv s -> p ∈ hashed s -> 31 < aid_of (sp_q s) p -> sp_state s <> _HW_STATE_AP_ ->
  exists s', rtw_free_stainfo s (Some p) = Some (_FAIL, s') /\ base_inv s' /\ sta_map s' = delete (addr_of s p) (sta_map s) /\
    free_sta_queue s' = free_sta_queue s /\ sp_state s' = sp_state s.
Proof.
  intros [Up T Q] Hp Ha Hs. destruct (lose_view s p _ Q (hashed_range s T p Hp) (hashed_ent s T p Hp) Ha Hs) as (s' & E & Ef & F). exists s'. split; [done|].
  destruct (fr_rest _ _ _ F) as (R1 & R2 & R3 & R4). pose proof (free_tbl s (in_pool s' p) p T Hp F) as T1. pose proof (free_map s (in_pool s' p) p T Hp F) as M1.
  assert (T2 : tbl_inv s').
  { destruct T1 as [B1 B2 B3 B4 B5 B6 B7]. cbn in B2, B3. split; try done.
    - rewrite <- app_assoc in B2. cbn in B2. apply NoDup_app in B2 as (N1 & N2 & N3). apply NoDup_cons in N3 as [_ N3]. apply NoDup_app. split; [done|].
      split; [|done]. intros x Hx Hh. apply (N2 x Hx). by right.
    - intros x Hx. apply B3. apply elem_of_app in Hx as [Hx|Hx]; rewrite !elem_of_app; tauto. }
  split; [split; [by rewrite <- Up|done|]|split; [|by split]].
  - rewrite Ef. eapply q_part_weaken; [|exact (fr_q _ _ _ F)]. intros x Hx. apply elem_of_app. by left.
  - exact M1.
Qed.

Lemma join_full s a aid : tbl_inv s -> free_sta_queue s = [] -> IS_MCAST a = false -> sta_map s !! a = None -> join_sta s a aid = Some (None, s).
Proof.
  intros T E Hm Nn. destruct (unicast_lookup a Hm) as [El _]. unfold join_sta. by rewrite (get_stainfo_map s T), El, Nn, (alloc_full s a E).
Qed.

Lemma bind_result {A B} (o : option A) (f : A -> option B) x : o = Some x -> (o ≫= f) = f x.
Proof. by intros ->. Qed.

(** A connection whose station was set up or not, and freed or not. *)
Lemma reconnect_eq s a aid r s1 r2 s2 : join_sta s a aid = Some (r, s1) -> rtw_free_stainfo s1 (rtw_get_stainfo s1 a) = Some (r2, s2) ->
  reconnect s a aid = Some s2.
Proof. intros E1 E2. etransitivity; [exact (bind_result _ _ _ E1)|exact (bind_result _ _ _ E2)]. Qed.

Lemma reconnect_done s a aid : base_inv s -> IS_MCAST a = false -> sta_map s !! a = None -> sp_state s <> _HW_STATE_AP_ ->
  exists s', reconnect s a aid = Some s' /\ base_inv s' /\ sta_map s' = sta_map s /\ sp_state s' = sp_state s /\
    length (free_sta_queue s') = if 31 <? aid then pred (length (free_sta_queue s)) else length (free_sta_queue s).
Proof.
  intros I Hm Nn Hs. destruct (unicast_lookup a Hm) as [El _]. destruct (free_sta_queue s) as [|p rest] eqn:E.
  - exists s. split; [|rewrite E; by destruct (31 <? aid)]. apply (reconnect_eq s a aid None s _SUCCESS); [by apply join_full; [apply (bi_tbl s I)|..]|].
    by rewrite (get_stainfo_map s (bi_tbl s I)), El, Nn.
  - destruct (join_done s a p rest aid I E Hm Nn) as (s1 & Ej & I1 & E1 & F1 & S1 & A1).
    assert (Eg : rtw_get_stainfo s1 a = Some p) by (by rewrite (get_stainfo_map s1 (bi_tbl s1 I1)), El, E1, lookup_insert_eq).
    assert (Hp : p ∈ hashed s1 /\ addr_of s1 p = a) by (apply (sta_map_some s1 (bi_tbl s1 I1)); rewrite E1; apply lookup_insert_eq).
    destruct Hp as [Hp Ha]. assert (Hdel : delete (addr_of s1 p) (sta_map s1) = sta_map s) by (rewrite Ha, E1; by apply delete_insert_id).
    destruct (Z.ltb_spec 31 aid) as [Hl|Hl].
    + destruct (lose_base s1 p I1 Hp) as (s2 & Ef & I2 & E2 & F2 & S2); [by rewrite A1|by rewrite S1|]. exists s2.
      split; [apply (reconnect_eq s a aid (Some p) s1 _FAIL); [done|by rewrite Eg]|].
      split; [done|]. split; [by rewrite E2|]. split; [by rewrite S2|]. by rewrite F2, F1.
    + destruct (free_base s1 p I1 Hp) as (s2 & Ef & I2 & E2 & F2 & S2); [by rewrite A1|by rewrite S1|]. exists s2.
      split; [apply (reconnect_eq s a aid (Some p) s1 _SUCCESS); [done|by rewrite Eg]|].
      split; [done|]. split; [by rewrite E2|]. split; [by rewrite S2|]. rewrite F2, F1, length_app. cbn. lia.
Qed.

Lemma reconnects_done n : forall s a aid, base_inv s -> IS_MCAST a = false -> sta_map s !! a = None -> sp_state s <> _HW_STATE_AP_ ->
  exists s', reconnects n s a aid = Some s' /\ base_inv s' /\ sta_map s' = sta_map s /\
    length (free_sta_queue s') = if 31 <? aid then (length (free_sta_queue s) - n)%nat else length (free_sta_queue s).
Proof.
  induction n as [|n IH]; intros s a aid I Hm Nn Hs; cbn [reconnects].
  { exists s. split; [done|]. split; [done|]. split; [done|]. rewrite Nat.sub_0_r. by destruct (31 <? aid). }
  destruct (reconnect_done s a aid I Hm Nn Hs) as (s1 & -> & I1 & E1 & S1 & L1). cbn [mbind option_bind].
  destruct (IH s1 a aid I1 Hm) as (s' & -> & I' & E' & L'); [by rewrite E1|by rewrite S1|]. exists s'. split; [done|]. split; [done|].
  split; [by rewrite E'|]. rewrite L', L1. destruct (31 <? aid); lia.
Qed.

(** C37. A device that is not an access point, after its start, connects any
    number of times to an access point with a unicast address, which gives it
    an association identifier (they go up to 2007), and disconnects. Beyond
    31 every connection loses an entry of its table, since [rtw_free_stainfo]
    returns before the entry is put back: after 31 connections no entry is
    left and no station can be set up any more. Up to 31 no entry is
    lost. *)
Theorem reconnects_exhaust_table (s : sta_priv) (bssid : list Z) (aid : Z) (n : nat) :
  sta_fresh s -> sp_state s <> _HW_STATE_AP_ -> IS_MCAST bssid = false ->
  exists t t', ap_start s = Some t /\ reconnects n t bssid aid = Some t' /\ rtw_get_stainfo t' bssid = None /\
    length (free_sta_queue t') = (if 31 <? aid then (31 - n)%nat else 31%nat) /\
    (31 < aid -> (31 <= n)%nat -> forall a, rtw_alloc_stainfo t' a = Some (None, t')).
Proof.
  intros A Hs Hm. destruct (start_base s A) as (t & E & I & Em & St & L). destruct (unicast_lookup bssid Hm) as [El Nb].
  destruct (reconnects_done n t bssid aid I Hm) as (t' & Et & I' & Em' & L'); [by rewrite Em, lookup_singleton_ne|by rewrite St|]. rewrite L in L'.
  exists t, t'. split; [done|]. split; [done|]. split; [by rewrite (get_stainfo_map t' (bi_tbl t' I')), El, Em', Em, lookup_singleton_ne|]. split; [done|].
  intros Ha Hn a. apply alloc_full. rewrite (proj2 (Z.ltb_lt _ _) Ha) in L'. apply length_zero_iff_nil. lia.
Qed.

Lemma reconnects_exhaust_table_witness : exists t t', ap_start (sta_memory 2) = Some t /\ reconnects 31 t (peer 1) 32 = Some t' /\ free_sta_queue t' = [] /\
  rtw_alloc_stainfo t' (peer 2) = Some (None, t').
Proof.
  destruct (reconnects_exhaust_table (sta_memory 2) (peer 1) 32 31 (memory_fresh_sta 2)) as (t & t' & E & Et & _ & L & H); [done|done|].
  exists t, t'. split; [exact E|]. split; [exact Et|]. split; [by apply length_zero_iff_nil|]. apply H; lia.
Defined.

(** ** Stations that authenticate from a group address *)

(** What is left of the invariant when the broadcast station authenticates. *)
Record core_inv (s : sta_priv) : Prop := {
  co_tbl : tbl_inv s;
  co_q : q_part (free_sta_queue s) (sp_q s);
  co_aid : aid_inv s;
  co_auth : NoDup (auth_list s) /\ forall p, p ∈ auth_list s -> p ∈ hashed s }.

(** What a round of expiry over the stations [l] does. *)
Record expired (s s' : sta_priv) (l : list Z) : Prop := {
  ex_core : core_inv s';
  ex_other x : x ∉ l -> (x ∈ auth_list s' <-> x ∈ auth_list s) /\ expire_of (sp_q s') x = expire_of (sp_q s) x;
  ex_hashed x : x ∈ hashed s' -> x ∈ hashed s /\ addr_of s' x = addr_of s x;
  ex_free x : x ∈ free_sta_queue s -> x ∈ free_sta_queue s';
  ex_in x : x ∈ l -> 0 < expire_of (sp_q s) x ->
    if expire_of (sp_q s) x =? 1 then ((x ∉ hashed s') /\ x ∈ free_sta_queue s')
    else (expire_of (sp_q s') x = expire_of (sp_q s) x - 1 /\ x ∈ auth_list s') }.

Lemma expire_of_put q p st x : expire_of (put_qsta q p st) x = if decide (x = p) then qs_expire_to st else expire_of q x.
Proof. unfold expire_of. cbn. destruct (decide (x = p)) as [->|]; [by rewrite lookup_insert_eq|by rewrite lookup_insert_ne]. Qed.

(** New time for an entry, and another list. *)
Lemma core_fields s p st v l n : core_inv s -> xq_stas (sp_q s) !! p = Some st -> NoDup l -> (forall x, x ∈ l -> x ∈ hashed s) ->
  core_inv (s <| sp_q := put_qsta (sp_q s) p (st <| qs_expire_to := v |>) |> <| auth_list := l |> <| auth_list_cnt := n |>).
Proof.
  intros [T Q D A] Hst N H. set (t := s <| sp_q := _ |> <| auth_list := _ |> <| auth_list_cnt := _ |>).
  destruct (tbl_entries s t T) as [Tt _]; try done. split; [done|by apply (q_part_put _ (sp_q s) p st)| |done].
  apply (aid_inv_fields s); try done. intros x. by apply (aid_of_put (sp_q s) p st).
Qed.

Lemma core_free s p : core_inv s -> p ∈ hashed s ->
  exists s', rtw_free_stainfo s (Some p) = Some (_SUCCESS, s') /\ freed s p s' /\ core_inv s'.
Proof.
  intros [T Q D [N H]] Hp. destruct (ad_aid s D p Hp) as [Hr _].
  destruct (free_view s p _ Q (hashed_range s T p Hp) (hashed_ent s T p Hp) ltac:(lia)) as (s' & E & F).
  { intros _ _. rewrite (ad_len s D). unfold NUM_STA. lia. }
  exists s'. split; [done|]. split; [done|]. split.
  - by apply (free_tbl s s' p).
  - rewrite (fr_free _ _ _ F). apply (fr_q _ _ _ F).
  - by apply (aid_free s s' p T D).
  - rewrite (fr_auth _ _ _ F). split; [by apply NoDup_filter|]. intros x [Nx Hx]%list_elem_of_filter. apply (free_in s s' p F). split; [by apply H|done].
Qed.

Lemma expire_one_core s p : core_inv s -> p ∈ auth_list s -> exists s', expire_one s p = Some s' /\ expired s s' [p].
Proof.
  intros I Hin. pose proof I as [T Q D [N H]]. destruct Q as (Qa & Q1 & Qc). destruct (Q1 p (hashed_range s T p (H p Hin))) as [st Hst].
  assert (Ex : expire_of (sp_q s) p = qs_expire_to st) by (unfold expire_of; by rewrite Hst). unfold expire_one. rewrite Hst. cbn [mbind option_bind].
  destruct (Z.ltb_spec 0 (qs_expire_to st)) as [Hpos|Hz].
  2: { exists s. split; [done|]. split; try done. intros x ->%list_elem_of_singleton Hx. lia. }
  set (s1 := s <| sp_q := _ |>). assert (E1 : forall x, expire_of (sp_q s1) x = if decide (x = p) then qs_expire_to st - 1 else expire_of (sp_q s) x)
    by (intros x; apply expire_of_put).
  destruct (Z.eqb_spec (qs_expire_to st - 1) 0) as [E0|E0].
  - assert (I1 : core_inv (s1 <| auth_list := drop_id p (auth_list s1) |> <| auth_list_cnt := u8 (auth_list_cnt s1 - 1) |>)).
    { apply core_fields; [done|done|by apply NoDup_filter|]. intros x [_ Hx]%list_elem_of_filter. by apply H. }
    set (s2 := s1 <| auth_list := _ |> <| auth_list_cnt := _ |>) in *.
    destruct (core_free s2 p I1 (H p Hin)) as (s' & -> & F & I'). cbn [mbind option_bind]. exists s'. split; [done|]. split; [done|..].
    + intros x Nx%not_elem_of_cons. destruct Nx as [Nx _]. rewrite (fr_auth _ _ _ F), (fr_expire _ _ _ F) by done. split.
      * unfold s2, drop_id. cbn. rewrite !list_elem_of_filter. tauto.
      * change (sp_q s2) with (sp_q s1). by rewrite E1, decide_False.
    + intros x [Hx Nx]%(free_in s2 s' p F). split; [exact Hx|]. by rewrite (free_addr s2 s' p F).
    + intros x Hx. rewrite (fr_free _ _ _ F). apply elem_of_app. by left.
    + intros x ->%list_elem_of_singleton _. rewrite Ex. destruct (Z.eqb_spec (qs_expire_to st) 1); [|lia]. split.
      * intros [_ ?]%(free_in s2 s' p F). done.
      * rewrite (fr_free _ _ _ F). apply elem_of_app. right. by left.
  - exists s1. split; [done|]. split; try done.
    + assert (s1 = s1 <| auth_list := auth_list s |> <| auth_list_cnt := auth_list_cnt s |>) as -> by (by destruct s). by apply core_fields.
    + intros x Nx%not_elem_of_cons. destruct Nx as [Nx _]. split; [done|]. by rewrite E1, decide_False.
    + intros x ->%list_elem_of_singleton _. rewrite Ex. destruct (Z.eqb_spec (qs_expire_to st) 1); [lia|]. split; [by rewrite E1, decide_True|done].
Qed.

Lemma expire_each_core l : forall s, core_inv s -> NoDup l -> (forall p, p ∈ l -> p ∈ auth_list s) -> exists s', expire_each s l = Some s' /\ expired s s' l.
Proof.
  induction l as [|p l IH]; intros s I N H; cbn [expire_each].
  { exists s. split; [done|]. split; try done. intros x Hx. by apply not_elem_of_nil in Hx. }
  apply NoDup_cons in N as [Np N]. destruct (expire_one_core s p I) as (s1 & -> & X); [apply H; by left|]. cbn [mbind option_bind].
  assert (Ot : forall x, x <> p -> (x ∈ auth_list s1 <-> x ∈ auth_list s) /\ expire_of (sp_q s1) x = expire_of (sp_q s) x)
    by (intros x Nx; apply (ex_other _ _ _ X); by rewrite list_elem_of_singleton).
  destruct (IH s1 (ex_core _ _ _ X) N) as (s' & -> & Y).
  { intros x Hx. apply Ot; [by intros ->|]. apply H. by right. }
  exists s'. split; [done|]. split; [apply (ex_core _ _ _ Y)|..].
  - intros x [Nx Nl]%not_elem_of_cons. destruct (ex_other _ _ _ Y x Nl) as [H1 H2]. destruct (Ot x Nx) as [H3 H4]. split; [by rewrite H1|by rewrite H2].
  - intros x [H1 H2]%(ex_hashed _ _ _ Y). destruct (ex_hashed _ _ _ X x H1) as [H3 H4]. split; [done|by rewrite H2].
  - intros x Hx. by apply (ex_free _ _ _ Y), (ex_free _ _ _ X).
  - intros x [->|Hx]%elem_of_cons Hpos.
    + pose proof (ex_in _ _ _ X p ltac:(by left) Hpos) as Hp. destruct (ex_other _ _ _ Y p Np) as [H1 H2]. revert Hp. destruct (_ =? 1).
      * intros [Hp1 Hp2]. split; [|by apply (ex_free _ _ _ Y)]. intros [? _]%(ex_hashed _ _ _ Y). done.
      * intros [Hp1 Hp2]. rewrite H2. split; [exact Hp1|by apply H1].
    + destruct (Ot x) as [_ E]; [by intros ->|]. rewrite <- E in Hpos |- *. by apply (ex_in _ _ _ Y).
Qed.

(** The authentication and [n] rounds of expiry. *)
Fixpoint expiries (n : nat) (s : sta_priv) : option sta_priv :=
  match n with O => Some s | S n => s ← expire_auth s; expiries n s end.

(** A station with [n] units of time left is freed in the [n]-th round. *)
Lemma expiries_core n : forall s b, core_inv s -> b ∈ auth_list s -> expire_of (sp_q s) b = Z.of_nat (S n) ->
  exists s', expiries (S n) s = Some s' /\ core_inv s' /\ (b ∉ hashed s') /\ b ∈ free_sta_queue s' /\
    forall x, x ∈ hashed s' -> x ∈ hashed s /\ addr_of s' x = addr_of s x.
Proof.
  induction n as [|n IH]; intros s b I Hb Eb; destruct (co_auth s I) as [N _];
    destruct (expire_each_core (auth_list s) s I N ltac:(done)) as (s1 & E1 & X); pose proof (ex_in _ _ _ X b Hb ltac:(lia)) as Hx; rewrite Eb in Hx.
  - exists s1. cbn [expiries]. unfold expire_auth. rewrite E1. split; [done|]. split; [apply (ex_core _ _ _ X)|]. split; [apply Hx|]. split; [apply Hx|].
    apply (ex_hashed _ _ _ X).
  - destruct (Z.eqb_spec (Z.of_nat (S (S n))) 1); [lia|]. destruct Hx as [H1 H2].
    destruct (IH s1 b (ex_core _ _ _ X) H2) as (s' & E' & I' & F1 & F2 & F3); [rewrite H1; lia|]. exists s'.
    change (expiries (S (S n)) s) with (s ← expire_auth s; expiries (S n) s). unfold expire_auth. rewrite E1. cbn [mbind option_bind].
    split; [done|]. split; [done|]. split; [done|]. split; [done|]. intros x Hx. destruct (F3 x Hx) as [H3 H4].
    destruct (ex_hashed _ _ _ X x H3) as [H5 H6]. split; [done|by rewrite H4].
Qed.

(** The broadcast station is listed with three units of time. *)
Lemma group_auth_listed s a : sta_inv s -> IS_MCAST a = true -> exists b u, sta_map s !! bc_addr = Some b /\ auth_sta s a = Some (Some b, u) /\
  core_inv u /\ b ∈ auth_list u /\ expire_of (sp_q u) b = 3 /\ sta_map u = sta_map s.
Proof.
  intros I Hm. destruct (si_bc s I) as [b Hb]. pose proof (si_tbl s I) as T. pose proof Hb as [Hh Ab]%(sta_map_some s T).
  assert (El : lookup_addr a = bc_addr) by (unfold lookup_addr; by rewrite Hm). unfold auth_sta. rewrite (get_stainfo_map s T), El, Hb. cbn [mbind option_bind].
  destruct (asoc_delete_inv s b I) as (I1 & E1 & _). set (s1 := asoc_delete s b) in *.
  assert (Hl : exists n, s1 = s <| asoc_list := drop_id b (asoc_list s) |> <| asoc_list_cnt := n |>) by apply asoc_delete_view.
  assert (Hb1 : b ∈ hashed s1) by (destruct Hl as [n ->]; exact Hh). clearbody s1.
  destruct (si_q s1 I1) as (_ & Q1 & _). destruct (Q1 b (hashed_range s1 (si_tbl s1 I1) b Hb1)) as [st Hst]. rewrite Hst. cbn [mbind option_bind].
  destruct (si_auth s1 I1) as [N H]. assert (Nb : b ∉ auth_list s1).
  { intros [_ Hn]%H. apply Hn. destruct Hl as [n ->]. exact Ab. }
  rewrite bool_decide_false by done. exists b. eexists. split; [done|]. split; [reflexivity|].
  change auth_to with 3. set (u := _ <| sp_q := _ |>).
  assert (Eu : u = s1 <| sp_q := put_qsta (sp_q s1) b (st <| qs_expire_to := 3 |>) |> <| auth_list := auth_list s1 ++ [b] |> <| auth_list_cnt := u8 (auth_list_cnt s1 + 1) |>)
    by (by destruct s1). rewrite Eu. split; [|split; [|split]].
  - apply core_fields; [|done| |].
    + split; [apply (si_tbl s1 I1)|apply (si_q s1 I1)|apply (si_aid s1 I1)|]. split; [done|]. intros p Hp. by apply H.
    + apply NoDup_app. split; [done|]. split; [|apply NoDup_singleton]. intros x Hx ->%list_elem_of_singleton. done.
    + intros x [Hx| ->%list_elem_of_singleton]%elem_of_app; [by apply H|done].
  - cbn. apply elem_of_app. right. by left.
  - cbn -[put_qsta]. by rewrite expire_of_put, decide_True.
  - by rewrite <- E1.
Qed.

(** C38. An access point that receives an authentication frame whose transmitter
    address is a group address, in any state of a run with ordinary senders,
    takes the broadcast station for its sender and lists it with the stations
    that authenticate; three rounds of expiry later the broadcast station is
    freed, so that no group frame finds a station any more. *)
Theorem group_auth_frees_broadcast (s t : sta_priv) (ops : list ap_op) rs t' (a : list Z) :
  ap_fresh s -> ap_start s = Some t -> ap_run_ok t ops -> ap_run t ops = Some (rs, t') -> IS_MCAST a = true ->
  exists b u v, rtw_get_bcmc_stainfo t' = Some b /\ auth_sta t' a = Some (Some b, u) /\ expiries 3 u = Some v /\
    b ∈ free_sta_queue v /\ forall g, IS_MCAST g = true -> rtw_get_stainfo v g = None.
Proof.
  intros A Es K Er Hm. destruct (ap_start_inv s A) as (t0 & E & I & _). rewrite Es in E. injection E as <-.
  destruct (run_ap_keeps ops t I K) as (rs0 & t0 & Er0 & I' & _). rewrite Er in Er0. injection Er0 as <- <-.
  destruct (group_auth_listed t' a I' Hm) as (b & u & Hb & Ea & Iu & Lb & Xb & Em).
  destruct (expiries_core 2 u b Iu Lb Xb) as (v & Ev & Iv & Nb & Fb & Hv). exists b, u, v.
  split; [by unfold rtw_get_bcmc_stainfo; rewrite (get_stainfo_map t' (si_tbl t' I'))|]. split; [done|]. split; [done|]. split; [done|].
  intros g Hg. rewrite (get_stainfo_map v (co_tbl v Iv)). unfold lookup_addr. rewrite Hg.
  destruct (sta_map v !! bc_addr) as [x|] eqn:Ex; [|done]. apply (sta_map_some v (co_tbl v Iv)) in Ex as [Hx Ax]. destruct (Hv x Hx) as [Hu Au].
  assert (sta_map u !! bc_addr = Some x) as Hux by (apply (sta_map_some u (co_tbl u Iu)); split; [done|by rewrite <- Au]).
  rewrite Em, Hb in Hux. injection Hux as ->. done.
Qed.

Definition group_addr : list Z := [1; 0; 0x5e; 0; 0; 1].

Lemma group_auth_frees_broadcast_witness : exists b u v, rtw_get_bcmc_stainfo story_end.2 = Some b /\ auth_sta story_end.2 group_addr = Some (Some b, u) /\
  expiries 3 u = Some v /\ b ∈ free_sta_queue v /\ rtw_get_stainfo v bc_addr = None.
Proof.
  assert (Er : ap_run story_start ap_story = Some (story_end.1, story_end.2)).
  { destruct (ap_start_inv _ memory_fresh) as (t & E & I & _). rewrite story_started in E. injection E as <-.
    destruct (run_ap_keeps ap_story _ I story_ok) as (rs & t' & E & _). unfold story_end. by rewrite E. }
  destruct (group_auth_frees_broadcast _ _ _ _ _ group_addr memory_fresh story_started story_ok Er) as (b & u & v & H1 & H2 & H3 & H4 & H5); [done|].
  exists b, u, v. split; [exact H1|]. split; [exact H2|]. split; [exact H3|]. split; [exact H4|]. by apply H5.
Defined.
