(* ===== verification/SipHash.v ===== *)
(** * The name hash of the userspace library (userspace/csiphash.c)

    [siphash24] as the code computes it, reading the name through a pointer
    into its memory, and the definition of SipHash-2-4 by Aumasson and
    Bernstein it implements. *)

From S2P Require Import Prelude Mem.
(** The four state words. *)
Definition sipstate : Type := Z * Z * Z * Z.

Definition ROTATE (x b : Z) : Z := u64 (Z.lor (Z.shiftl x b) (Z.shiftr x (64 - b))).

Definition HALF_ROUND (a b c d s t : Z) : Z * Z * Z * Z :=
  let a := u64 (a + b) in
  let c := u64 (c + d) in
  let b := Z.lxor (ROTATE b s) a in
  let d := Z.lxor (ROTATE d t) c in
  (ROTATE a 32, b, c, d).

Definition DOUBLE_ROUND (v : sipstate) : sipstate :=
  let '(v0, v1, v2, v3) := v in
  let '(v0, v1, v2, v3) := HALF_ROUND v0 v1 v2 v3 13 16 in
  let '(v2, v1, v0, v3) := HALF_ROUND v2 v1 v0 v3 17 21 in
  let '(v0, v1, v2, v3) := HALF_ROUND v0 v1 v2 v3 13 16 in
  let '(v2, v1, v0, v3) := HALF_ROUND v2 v1 v0 v3 17 21 in
  (v0, v1, v2, v3).

(** [v3 ^= mi; DOUBLE_ROUND; v0 ^= mi] *)
Definition sip_absorb (v : sipstate) (mi : Z) : sipstate :=
  let '(v0, v1, v2, v3) := v in
  let '(v0, v1, v2, v3) := DOUBLE_ROUND (v0, v1, v2, Z.lxor v3 mi) in
  (Z.lxor v0 mi, v1, v2, v3).

(** [while (src_sz >= 8)]: the position of [in], [src_sz] and the state. *)
Fixpoint sip_loop (fuel : nat) (src : list Z) (pos src_sz : Z) (v : sipstate) : option (Z * Z * sipstate) :=
  match fuel with
  | O => None
  | S fuel =>
      if 8 <=? src_sz then
        mi ← le_dec <$> rdn src pos 8;
        sip_loop fuel src (pos + 8) (src_sz - 8) (sip_absorb v mi)
      else Some (pos, src_sz, v)
  end.

(** The switch on the bytes left: the cases 7, 6 and 5 fall through to the
    four-byte copy of case 4; the cases 3 and 2 fall through to case 1. *)
Definition sip_tail (src : list Z) (pos src_sz : Z) : option (list Z) :=
  let put i t := b ← rd8 src (pos + i); Some (arr_set t i b) in
  let t := repeat 0 8 in
  if 4 <=? src_sz then
    t ← (if 7 <=? src_sz then put 6 t else Some t);
    t ← (if 6 <=? src_sz then put 5 t else Some t);
    t ← (if 5 <=? src_sz then put 4 t else Some t);
    m ← rdn src pos 4; wrn t 0 m
  else
    t ← (if 3 <=? src_sz then put 2 t else Some t);
    t ← (if 2 <=? src_sz then put 1 t else Some t);
    if 1 <=? src_sz then put 0 t else Some t.

Definition siphash24 (src : list Z) (src_sz : Z) (key : list Z) : option Z :=
  let k0 := le_dec (take 8 key) in
  let k1 := le_dec (take 8 (drop 8 key)) in
  let b := u64 (Z.shiftl src_sz 56) in
  let v := (Z.lxor k0 0x736f6d6570736575, Z.lxor k1 0x646f72616e646f6d,
            Z.lxor k0 0x6c7967656e657261, Z.lxor k1 0x7465646279746573) in
  '(pos, rest, v) ← sip_loop (S (Z.to_nat (src_sz / 8))) src 0 src_sz v;
  t ← sip_tail src pos rest;
  let b := Z.lor b (le_dec t) in
  let '(v0, v1, v2, v3) := v in
  let '(v0, v1, v2, v3) := DOUBLE_ROUND (v0, v1, v2, Z.lxor v3 b) in
  let '(v0, v1, v2, v3) := DOUBLE_ROUND (DOUBLE_ROUND (Z.lxor v0 b, v1, Z.lxor v2 0xff, v3)) in
  Some (Z.lxor (Z.lxor v0 v1) (Z.lxor v2 v3)).

(** ** SipHash-2-4 *)

Definition rotl64 (x n : Z) : Z := u64 (x * 2 ^ n) + x / 2 ^ (64 - n).

Definition SipRound (v : sipstate) : sipstate :=
  let '(v0, v1, v2, v3) := v in
  let v0 := u64 (v0 + v1) in let v2 := u64 (v2 + v3) in
  let v1 := rotl64 v1 13 in  let v3 := rotl64 v3 16 in
  let v1 := Z.lxor v1 v0 in  let v3 := Z.lxor v3 v2 in
  let v0 := rotl64 v0 32 in
  let v2 := u64 (v2 + v1) in let v0 := u64 (v0 + v3) in
  let v1 := rotl64 v1 17 in  let v3 := rotl64 v3 21 in
  let v1 := Z.lxor v1 v2 in  let v3 := Z.lxor v3 v0 in
  let v2 := rotl64 v2 32 in
  (v0, v1, v2, v3).

Definition sip_compress (c : nat) (v : sipstate) (m : Z) : sipstate :=
  let '(v0, v1, v2, v3) := v in
  let '(v0, v1, v2, v3) := Nat.iter c SipRound (v0, v1, v2, Z.lxor v3 m) in
  (Z.lxor v0 m, v1, v2, v3).

Fixpoint sip_words (l : list Z) : list Z :=
  match l with
  | a :: b :: c :: d :: e :: f :: g :: h :: l => le_dec [a; b; c; d; e; f; g; h] :: sip_words l
  | _ => []
  end.

(** The message, zeros, and its length modulo 256 as the last byte of the last
    word. *)
Definition sip_padded (m : list Z) : list Z :=
  m ++ repeat 0 (7 - length m mod 8) ++ [Z.of_nat (length m) mod 256].

Definition SipHash (c d : nat) (key m : list Z) : Z :=
  let k0 := le_dec (take 8 key) in
  let k1 := le_dec (take 8 (drop 8 key)) in
  let v := (Z.lxor k0 0x736f6d6570736575, Z.lxor k1 0x646f72616e646f6d,
            Z.lxor k0 0x6c7967656e657261, Z.lxor k1 0x7465646279746573) in
  let '(v0, v1, v2, v3) := foldl (sip_compress c) v (sip_words (sip_padded m)) in
  let '(v0, v1, v2, v3) := Nat.iter d SipRound (v0, v1, Z.lxor v2 0xff, v3) in
  Z.lxor (Z.lxor v0 v1) (Z.lxor v2 v3).

(** The test vector of the SipHash paper and three of its reference
    implementation. *)
Example siphash_vector_15 : SipHash 2 4 (seqZ 0 16) (seqZ 0 15) = 0xa129ca6149be45e5.
Proof. by vm_compute. Qed.
Example siphash_vector_0 : siphash24 [] 0 (seqZ 0 16) = Some 0x726fdb47dd0e0e31.
Proof. by vm_compute. Qed.
Example siphash_vector_7 : siphash24 (seqZ 0 7) 7 (seqZ 0 16) = Some 0xab0200f58b01d137.
Proof. by vm_compute. Qed.
Example siphash_vector_8 : siphash24 (seqZ 0 8) 8 (seqZ 0 16) = Some 0x93f5f5799a932462.
Proof. by vm_compute. Qed.
