(* ===== verification/SipSpec.v ===== *)
(** * The name hash is SipHash-2-4

    The half rounds are SipRound, the loop over the words and the switch over
    the bytes left read the padded message of the definition. *)

From S2P Require Import Prelude Mem SipHash.
(** ** Rounds *)

Lemma ROTATE_rotl x n : is_u64 x -> 0 < n < 64 -> ROTATE x n = rotl64 x n.
Proof.
  intros Hx Hn. unfold ROTATE, rotl64.
  assert (in_width n (Z.shiftr x (64 - n))) as Hs.
  { unfold in_width in *. rewrite Z.shiftr_div_pow2 by lia. split; [apply Z.div_pos; lia|].
    apply Z.div_lt_upper_bound; [lia|]. rewrite <- Z.pow_add_r by lia. replace (64 - n + n) with 64 by lia. lia. }
  rewrite Z.lor_comm, lor_shiftl_add by (try done; lia). rewrite Z.shiftr_div_pow2 in * by lia.
  assert (2 ^ 64 = 2 ^ n * 2 ^ (64 - n)) as E by (rewrite <- Z.pow_add_r by lia; f_equal; lia).
  unfold wrap. rewrite E.
  set (q := x / 2 ^ (64 - n)) in *. set (P := 2 ^ n) in *. set (Q := 2 ^ (64 - n)) in *.
  assert (0 < P) by (apply pow2_pos; lia). assert (0 < Q) by (apply pow2_pos; lia).
  rewrite (Z.mul_comm x P), Z.mul_mod_distr_l by lia.
  symmetry. apply Z.mod_unique_pos with (q := x / Q).
  - pose proof (Z.mod_pos_bound x Q ltac:(lia)). unfold in_width in Hs. fold P in Hs. nia.
  - pose proof (Z.div_mod x Q ltac:(lia)). nia.
Qed.

Definition sip_ok (v : sipstate) : Prop :=
  let '(v0, v1, v2, v3) := v in is_u64 v0 /\ is_u64 v1 /\ is_u64 v2 /\ is_u64 v3.

Lemma rotate_width x n : is_u64 (ROTATE x n).
Proof. apply wrap_range. lia. Qed.

Lemma sum_width x : is_u64 (u64 x).
Proof. apply wrap_range. lia. Qed.

Lemma lxor_u64 x y : is_u64 x -> is_u64 y -> is_u64 (Z.lxor x y).
Proof. apply lxor_in_width. lia. Qed.

Lemma rotl_width x n : is_u64 x -> 0 < n < 64 -> is_u64 (rotl64 x n).
Proof. intros. rewrite <- ROTATE_rotl by done. apply rotate_width. Qed.

Create HintDb sip.
#[local] Hint Extern 1 (_ < _ < _) => lia : sip.
#[local] Hint Resolve rotl_width rotate_width sum_width lxor_u64 : sip.

(** Two half rounds are one round. *)
Lemma half_rounds v0 v1 v2 v3 :
  sip_ok (v0, v1, v2, v3) ->
  (let '(v0, v1, v2, v3) := HALF_ROUND v0 v1 v2 v3 13 16 in
   let '(v2, v1, v0, v3) := HALF_ROUND v2 v1 v0 v3 17 21 in
   (v0, v1, v2, v3)) = SipRound (v0, v1, v2, v3) /\ sip_ok (SipRound (v0, v1, v2, v3)).
Proof.
  intros (H0 & H1 & H2 & H3). unfold HALF_ROUND, SipRound.
  repeat rewrite <- ROTATE_rotl by auto with sip. split; [done|].
  unfold sip_ok. split_and!; auto with sip.
Qed.

Lemma double_round v : sip_ok v -> DOUBLE_ROUND v = Nat.iter 2 SipRound v /\ sip_ok (DOUBLE_ROUND v).
Proof.
  destruct v as [[[v0 v1] v2] v3]. intros Hv. destruct (half_rounds _ _ _ _ Hv) as [E1 H1].
  change (Nat.iter 2 SipRound ?v) with (SipRound (SipRound v)).
  destruct (SipRound (v0, v1, v2, v3)) as [[[a b] c] d] eqn:Er. destruct (half_rounds _ _ _ _ H1) as [E2 H2].
  rewrite <- E2 in H2 |- *. unfold DOUBLE_ROUND.
  destruct (HALF_ROUND v0 v1 v2 v3 13 16) as [[[x0 x1] x2] x3].
  destruct (HALF_ROUND x2 x1 x0 x3 17 21) as [[[y2 y1] y0] y3]. injection E1 as -> -> -> ->.
  by destruct (HALF_ROUND a b c d 13 16) as [[[? ?] ?] ?].
Qed.

Lemma absorb_compress v m : sip_ok v -> is_u64 m -> sip_absorb v m = sip_compress 2 v m /\ sip_ok (sip_absorb v m).
Proof.
  destruct v as [[[v0 v1] v2] v3]. intros (H0 & H1 & H2 & H3) Hm. unfold sip_absorb, sip_compress.
  destruct (double_round (v0, v1, v2, Z.lxor v3 m)) as [E Hok]; [split_and!; auto with sip|].
  rewrite <- E. destruct (DOUBLE_ROUND _) as [[[a b] c] d]. destruct Hok as (? & ? & ? & ?).
  split; [done|]. split_and!; auto with sip.
Qed.

(** ** The loop over the words *)

Lemma sip_words_app k : forall a b, length a = (8 * k)%nat -> sip_words (a ++ b) = sip_words a ++ sip_words b.
Proof.
  induction k as [|k IH]; intros a b Ha.
  - destruct a; [done|cbn in Ha; lia].
  - do 8 (destruct a as [|? a]; [cbn in Ha; lia|]). cbn [app sip_words]. rewrite IH by (cbn in Ha; lia). done.
Qed.

Lemma sip_words_one l : length l = 8%nat -> sip_words l = [le_dec l].
Proof. intros Hl. do 8 (destruct l as [|? l]; [cbn in Hl; lia|]). destruct l; [done|cbn in Hl; lia]. Qed.

Lemma sip_loop_done k : forall full pre rest r v fuel,
  length full = (8 * k)%nat -> 0 <= r < 8 -> bytes full -> sip_ok v -> (k < fuel)%nat ->
  sip_loop fuel (pre ++ full ++ rest) (mem_len pre) (8 * Z.of_nat k + r) v =
    Some (mem_len (pre ++ full), r, foldl (sip_compress 2) v (sip_words full)) /\
  sip_ok (foldl (sip_compress 2) v (sip_words full)).
Proof.
  induction k as [|k IH]; intros full pre rest r v fuel Hl Hr Hb Hv Hf; (destruct fuel as [|fuel]; [lia|]); cbn [sip_loop].
  - destruct full; [|cbn in Hl; lia]. rewrite (proj2 (Z.leb_gt _ _)) by lia. cbn. by rewrite app_nil_r.
  - rewrite (proj2 (Z.leb_le _ _)) by lia. set (w := take 8 full). set (tl := drop 8 full).
    assert (full = w ++ tl) as E by (symmetry; apply take_drop).
    assert (length w = 8%nat) as Hw by (subst w; rewrite length_take; lia).
    assert (length tl = (8 * k)%nat) as Ht by (subst tl; rewrite length_drop; lia).
    clearbody w tl. subst full. rewrite Forall_app in Hb. destruct Hb as [Hbw Hbt].
    assert (is_u64 (le_dec w)) as Hm by (pose proof (le_dec_range w Hbw) as H; by rewrite Hw in H).
    rewrite <- app_assoc, (rdn_app pre w) by (unfold mem_len; lia). cbn [fmap option_fmap option_map mbind option_bind].
    destruct (absorb_compress v _ Hv Hm) as [Ea Hok].
    replace (8 * Z.of_nat (S k) + r - 8) with (8 * Z.of_nat k + r) by lia.
    replace (mem_len pre + 8) with (mem_len (pre ++ w)) by (rewrite mem_len_app; unfold mem_len; lia).
    rewrite (sip_words_app 1), (sip_words_one w) by lia. cbn [app foldl]. rewrite <- Ea.
    rewrite (app_assoc pre w), (app_assoc pre w tl). apply IH; (done || lia).
Qed.

(** ** The bytes left *)

Lemma rd8_off pre l i : 0 <= i -> rd8 (pre ++ l) (mem_len pre + i) = rd8 l i.
Proof.
  intros. unfold rd8, mem_len. rewrite !(proj2 (Z.leb_le _ _)) by lia.
  rewrite lookup_app_r by lia. f_equal. lia.
Qed.

Lemma sip_tail_done pre rem rest :
  (length rem < 8)%nat ->
  sip_tail (pre ++ rem ++ rest) (mem_len pre) (mem_len rem) = Some (rem ++ repeat 0 (8 - length rem)).
Proof.
  intros Hl. unfold sip_tail.
  do 4 (destruct rem as [|? rem]; [cbn; rewrite ?rd8_off by lia; reflexivity|]).
  assert (rdn (pre ++ (z :: z0 :: z1 :: z2 :: rem) ++ rest) (mem_len pre) 4 = Some [z; z0; z1; z2]) as ->
    by (by apply (rdn_app pre [z; z0; z1; z2] (rem ++ rest))).
  do 4 (destruct rem as [|? rem]; [cbn -[wrn]; rewrite ?rd8_off by lia; reflexivity|]). cbn in Hl. lia.
Qed.

(** ** The hash *)

Lemma sip_last_word rem (n : Z) :
  (length rem < 8)%nat -> bytes rem -> 0 <= n -> n mod 8 = mem_len rem ->
  Z.lor (u64 (Z.shiftl n 56)) (le_dec (rem ++ repeat 0 (8 - length rem))) =
  le_dec (rem ++ repeat 0 (7 - length rem) ++ [n mod 256]) /\
  is_u64 (le_dec (rem ++ repeat 0 (7 - length rem) ++ [n mod 256])).
Proof.
  intros Hl Hb Hn Hm. set (z := rem ++ repeat 0 (7 - length rem)).
  assert (length z = 7%nat) as Hz by (subst z; rewrite length_app, repeat_length; lia).
  assert (bytes z) as Hbz by (apply Forall_app_2; [done|apply bytes_repeat; unfold in_width; lia]).
  assert (forall b, le_dec (rem ++ repeat 0 (7 - length rem) ++ [b]) = le_dec z + 2 ^ 56 * b) as Ed.
  { intros b. rewrite app_assoc. fold z. clearbody z. clear -Hz.
    do 7 (destruct z as [|? z]; [cbn in Hz; lia|]). destruct z; [|cbn in Hz; lia]. cbn [app le_dec]. lia. }
  pose proof (le_dec_range z Hbz) as Hr. rewrite Hz in Hr. change (8 * Z.of_nat 7) with 56 in Hr.
  assert (rem ++ repeat 0 (8 - length rem) = rem ++ repeat 0 (7 - length rem) ++ [0]) as ->.
  { f_equal. replace (8 - length rem)%nat with (7 - length rem + 1)%nat by lia. by rewrite repeat_app. }
  rewrite !Ed, Z.mul_0_r, Z.add_0_r.
  assert (u64 (Z.shiftl n 56) = Z.shiftl (n mod 256) 56) as ->.
  { unfold wrap. rewrite !Z.shiftl_mul_pow2 by lia. change (2 ^ 64) with (256 * 2 ^ 56). by rewrite Z.mul_mod_distr_r by lia. }
  split; [rewrite Z.lor_comm; by apply lor_shiftl_add|].
  pose proof (Z.mod_pos_bound n 256 ltac:(lia)). unfold in_width in *. lia.
Qed.

(** The four rounds at the end. *)
Lemma sip_finish v0 v1 v2 v3 :
  is_u64 v0 -> is_u64 v1 -> is_u64 v2 -> is_u64 v3 ->
  (let '(v0, v1, v2, v3) := DOUBLE_ROUND (DOUBLE_ROUND (v0, v1, Z.lxor v2 0xff, v3)) in
   Some (Z.lxor (Z.lxor v0 v1) (Z.lxor v2 v3))) =
  Some (let '(v0, v1, v2, v3) := Nat.iter 4 SipRound (v0, v1, Z.lxor v2 0xff, v3) in
        Z.lxor (Z.lxor v0 v1) (Z.lxor v2 v3)).
Proof.
  intros H0 H1 H2 H3.
  assert (sip_ok (v0, v1, Z.lxor v2 0xff, v3)) as Hf by (split_and!; auto with sip; apply lxor_u64; [done|unfold in_width; lia]).
  set (w := (v0, v1, Z.lxor v2 0xff, v3)) in *. clearbody w.
  destruct (double_round w Hf) as [E1 Hd]. destruct (double_round (DOUBLE_ROUND w) Hd) as [E2 _].
  rewrite E2, E1, <- (Nat.iter_add 2 2). change (2 + 2)%nat with 4%nat. by destruct (Nat.iter 4 SipRound w) as [[[? ?] ?] ?].
Qed.

Lemma siphash24_done src src_sz key :
  bytes src -> bytes key -> length key = 16%nat -> 0 <= src_sz <= mem_len src ->
  siphash24 src src_sz key = Some (SipHash 2 4 key (take (Z.to_nat src_sz) src)).
Proof.
  intros Hs Hk Hkl Hsz. set (m := take (Z.to_nat src_sz) src). set (n := length m).
  assert (Z.of_nat n = src_sz) as Hn by (subst n m; rewrite length_take; unfold mem_len in *; lia).
  set (k := (n / 8)%nat). set (full := take (8 * k) m). set (rem := drop (8 * k) m).
  assert (m = full ++ rem) as Em by (symmetry; apply take_drop).
  pose proof (Nat.div_mod_eq n 8) as Hdm. fold k in Hdm. pose proof (Nat.mod_upper_bound n 8 ltac:(lia)) as Hmu.
  assert (length full = 8 * k)%nat as Hfl by (subst full; rewrite length_take; fold n; lia).
  assert (length rem = n mod 8)%nat as Hrl by (subst rem; rewrite length_drop; fold n; lia).
  assert (bytes m) as Hbm by (by apply Forall_take). rewrite Em, Forall_app in Hbm. destruct Hbm as [Hbf Hbr].
  assert (src = [] ++ full ++ rem ++ drop (Z.to_nat src_sz) src) as Esrc
    by (cbn [app]; rewrite app_assoc, <- Em; symmetry; apply take_drop).
  assert (bytes (take 8 key) /\ bytes (take 8 (drop 8 key))) as [Hk0 Hk1] by (split; [|apply Forall_take, Forall_drop]; by try apply Forall_take).
  pose proof (le_dec_range _ Hk0) as W0. pose proof (le_dec_range _ Hk1) as W1.
  rewrite length_take, Hkl in W0. rewrite length_take, length_drop, Hkl in W1.
  unfold siphash24, SipHash. set (k0 := le_dec (take 8 key)) in *. set (k1 := le_dec (take 8 (drop 8 key))) in *.
  set (v := (Z.lxor k0 _, Z.lxor k1 _, _, _)).
  assert (sip_ok v) as Hv by (unfold v; split_and!; apply lxor_u64; (exact W0 || exact W1 || (unfold in_width; lia))).
  destruct (sip_loop_done k full [] (rem ++ drop (Z.to_nat src_sz) src) (Z.of_nat (n mod 8)) v
    (S (Z.to_nat (src_sz / 8))) Hfl ltac:(lia) Hbf Hv) as [El Hok].
  { assert (src_sz / 8 = Z.of_nat k) as -> by (symmetry; apply (Z.div_unique_pos _ _ _ (Z.of_nat (n mod 8))); lia). lia. }
  rewrite <- Esrc in El. replace (8 * Z.of_nat k + Z.of_nat (n mod 8)) with src_sz in El by lia.
  change (mem_len []) with 0 in El. rewrite El. cbn [mbind option_bind app].
  assert (Z.of_nat (n mod 8) = mem_len rem) as -> by (unfold mem_len; lia).
  rewrite Esrc at 1. cbn [app]. rewrite sip_tail_done by lia. cbn [mbind option_bind].
  destruct (sip_last_word rem src_sz) as [-> Hw]; [lia|done|lia|rewrite <- Hn; unfold mem_len; rewrite Hrl; symmetry; apply (Nat2Z.inj_mod n 8)|].
  assert (sip_padded m = full ++ (rem ++ repeat 0 (7 - length rem) ++ [src_sz mod 256])) as ->
    by (unfold sip_padded; fold n; rewrite Hrl, Hn, Em at 1; by rewrite <- app_assoc).
  rewrite (sip_words_app k), (sip_words_one (rem ++ _)), foldl_app by (rewrite ?length_app, ?repeat_length; cbn [length]; lia).
  cbn [foldl]. set (u := foldl (sip_compress 2) v (sip_words full)) in *. 
  set (b := le_dec (rem ++ repeat 0 (7 - length rem) ++ [src_sz mod 256])) in *.
  destruct (absorb_compress u b Hok Hw) as [Ea Hoa]. unfold sip_absorb in Ea, Hoa. destruct u as [[[u0 u1] u2] u3].
  destruct (DOUBLE_ROUND (u0, u1, u2, Z.lxor u3 b)) as [[[a0 a1] a2] a3]. rewrite <- Ea.
  destruct Hoa as (A0 & A1 & A2 & A3). by apply sip_finish.
Qed.

(** ** The value is a 64-bit word *)

Lemma sip_words_width : forall l, bytes l -> Forall is_u64 (sip_words l).
Proof.
  fix IH 1. intros l Hl. do 8 (destruct l as [|? l]; [constructor|]). cbn [sip_words].
  constructor; [by apply (le_dec_range [_; _; _; _; _; _; _; _]); repeat (apply Forall_cons_1 in Hl as [? Hl]; constructor; [done|])|].
  apply IH. by do 8 (apply Forall_cons_1 in Hl as [_ Hl]).
Qed.

Lemma sip_fold_ok ws : forall v, sip_ok v -> Forall is_u64 ws -> sip_ok (foldl (sip_compress 2) v ws).
Proof.
  induction ws as [|w ws IH]; intros v Hv Hws; cbn [foldl]; [done|].
  apply Forall_cons_1 in Hws as [Hw Hws]. apply IH; [|done].
  destruct (absorb_compress v w Hv Hw) as [E H]. by rewrite <- E.
Qed.

Lemma rounds_ok v : sip_ok v -> sip_ok (Nat.iter 4 SipRound v).
Proof.
  intros Hv. destruct (double_round v Hv) as [E1 H1]. destruct (double_round (DOUBLE_ROUND v) H1) as [E2 H2].
  change 4%nat with (2 + 2)%nat. rewrite Nat.iter_add, <- E1, <- E2. exact H2.
Qed.

Lemma SipHash_width key m : bytes key -> length key = 16%nat -> bytes m -> is_u64 (SipHash 2 4 key m).
Proof.
  intros Hk Hkl Hm. unfold SipHash.
  assert (is_u64 (le_dec (take 8 key))) as W0.
  { pose proof (le_dec_range (take 8 key)) as H. rewrite length_take, Hkl in H. by apply H, Forall_take. }
  assert (is_u64 (le_dec (take 8 (drop 8 key)))) as W1.
  { pose proof (le_dec_range (take 8 (drop 8 key))) as H. rewrite length_take, length_drop, Hkl in H.
    by apply H, Forall_take, Forall_drop. }
  set (v := (Z.lxor (le_dec (take 8 key)) _, _, _, _)).
  assert (sip_ok v) as Hv by (unfold v; split_and!; apply lxor_u64; (done || (unfold in_width; lia))).
  assert (Forall is_u64 (sip_words (sip_padded m))) as Hw.
  { apply sip_words_width. repeat apply Forall_app_2; [done|apply bytes_repeat; unfold in_width; lia|].
    constructor; [|constructor]. apply (wrap_range 8). lia. }
  pose proof (sip_fold_ok _ v Hv Hw) as Hf. clearbody v.
  destruct (foldl _ _ _) as [[[u0 u1] u2] u3]. destruct Hf as (U0 & U1 & U2 & U3).
  assert (sip_ok (u0, u1, Z.lxor u2 0xff, u3)) as Hu by (split_and!; auto with sip; apply lxor_u64; [done|unfold in_width; lia]).
  pose proof (rounds_ok _ Hu) as Hr. destruct (Nat.iter 4 SipRound _) as [[[a0 a1] a2] a3].
  destruct Hr as (? & ? & ? & ?). auto with sip.
Qed.

(** C13. The name hash is SipHash-2-4: for every 16-byte key, every name in
    memory and every length within it, [siphash24] reads nothing behind the
    name and returns the SipHash-2-4 value of its first [src_sz] bytes. *)
Theorem siphash24_refines src src_sz key :
  bytes src -> bytes key -> length key = 16%nat -> 0 <= src_sz <= mem_len src ->
  siphash24 src src_sz key = Some (SipHash 2 4 key (take (Z.to_nat src_sz) src)).
Proof. apply siphash24_done. Qed.

Lemma siphash24_refines_witness :
  siphash24 [99; 104; 97; 116; 7] 4 (seqZ 0 16) = Some (SipHash 2 4 (seqZ 0 16) [99; 104; 97; 116]).
Proof.
  apply (siphash24_refines [99; 104; 97; 116; 7] 4 (seqZ 0 16)).
  - by apply bytesb_bytes.
  - by apply bytesb_bytes.
  - done.
  - unfold mem_len. cbn [length]. lia.
Defined.
