(* ===== verification/Usrsp.v ===== *)
(** * The userspace library (userspace/vmac-usrsp.c, vmac-usrsp.h)

    [vmac_register], [send_vmac], one round of the receive thread [recvvmac],
    the deprecated table of names and the table of rates.  [None] is a run
    that leaves a buffer or uses a NULL pointer. *)

From S2P Require Import Prelude Skb VmacDefs Netlink Mem SipHash.
Definition VMAC_FC_INT : Z := 0.
Definition VMAC_FC_DATA : Z := 1.
Definition VMAC_FC_ANN : Z := 3.
Definition VMAC_FC_INJ : Z := 5.
Definition MAX_PAYLOAD : Z := 0x7D0.
(** [NLMSG_HDRLEN] *)
Definition NLMSG_HDRLEN : Z := 16.

(** [vf_buf] and [vf_InterestName] are the memory at the pointers; [None] is a
    pointer nobody assigned. *)
Record vmac_frame := mk_vmac_frame {
  vf_buf : list Z; vf_len : Z; vf_InterestName : option (list Z); vf_name_len : Z }.

Record meta_data := mk_meta_data {
  md_type : Z; md_seq : Z; md_rate : Z; md_bw : Z; md_sgi : Z; md_stream : Z; md_enc : Z }.

(** [vmac_priv]: [nlh] and [nlh2] as their header fields and the bytes behind
    the header; [lp_names] is the hash table; [lp_out] the messages sent and
    [lp_calls] the calls of [cb]. *)
Record vmac_lib_priv := mk_vmac_lib_priv {
  lp_names : gmap Z (list Z);
  nlh_len : Z; nlh_type : Z; nlh_pid : Z; nlh_data : list Z; iov_len : Z;
  nlh2_len : Z; nlh2_data : list Z;
  lp_digest64 : Z; lp_key : list Z;
  lp_out : list nlmsg; lp_calls : list (vmac_frame * meta_data) }.

#[export] Instance eta_vmac_lib_priv : Eta vmac_lib_priv := fun p =>
  mk_vmac_lib_priv (lp_names p) (nlh_len p) (nlh_type p) (nlh_pid p) (nlh_data p) (iov_len p)
    (nlh2_len p) (nlh2_data p) (lp_digest64 p) (lp_key p) (lp_out p) (lp_calls p).

(** ** Sending *)

(** [sendmsg(sock_fd, &msg, 0)]: [iov_len] bytes from [nlh] on. *)
Definition sendmsg (p : vmac_lib_priv) : option vmac_lib_priv :=
  data ← rdn (nlh_data p) 0 (iov_len p - NLMSG_HDRLEN);
  Some (p <| lp_out := lp_out p ++ [mk_nlmsg (nlh_len p) (nlh_type p) (nlh_pid p) data] |>).

Definition send_control (digest64 : Z) (meta : meta_data) : control :=
  mk_control (u8 (md_type meta)) (le_enc 8 digest64) (le_enc 2 (md_seq meta))
    (u8 (md_rate meta)) (u8 (md_bw meta)) (u8 (md_sgi meta)) (u8 (md_stream meta)).

Definition send_vmac (frame : vmac_frame) (meta : meta_data) (p : vmac_lib_priv) : option vmac_lib_priv :=
  name ← vf_InterestName frame;
  digest64 ← siphash24 name (vf_name_len frame) (lp_key p);
  let p := p <| lp_digest64 := digest64 |> <| nlh_type := u16 (md_type meta) |> in
  data ← wrn (nlh_data p) 0 (enc_control (send_control digest64 meta));
  data ← (if negb (vf_len frame =? 0)
          then buf ← rdn (vf_buf frame) 0 (vf_len frame); wrn data (Z.of_nat sizeof_control) buf
          else Some data);
  sendmsg (p <| nlh_data := data |> <| nlh_len := vf_len frame + 100 |> <| iov_len := vf_len frame + 100 |>).

(** ** Receiving *)

Section recv.
(** Memory nobody assigned. *)
Context (uninit : Z -> Z).

(** [recvmsg(sock_fd, &msg2, 0)]: a message of length [len] in its header with
    the bytes [bs] behind it, cut to [MAX_PAYLOAD]. *)
Definition recvmsg (len : Z) (bs : list Z) (p : vmac_lib_priv) : vmac_lib_priv :=
  let bs := take (Z.to_nat (MAX_PAYLOAD - NLMSG_HDRLEN)) bs in
  p <| nlh2_len := len |> <| nlh2_data := bs ++ drop (length bs) (nlh2_data p) |>.

(** One round of the loop; [ok]: the allocations succeed. *)
Definition recvvmac (ok : bool) (len : Z) (bs : list Z) (p : vmac_lib_priv) : option vmac_lib_priv :=
  let p := recvmsg len bs p in
  if negb ok then None
  else
    let size := u32 (nlh2_len p - 100) in
    rxc ← dec_control <$> rdn (nlh2_data p) 0 (Z.of_nat sizeof_control);
    buffer ← rdn (nlh2_data p) (Z.of_nat sizeof_control) size;
    let type := u16 (c_type rxc + 256 * arr_get (c_enc rxc) 0) in
    let frame := mk_vmac_frame buffer (u16 size) None (u16 (uninit 0)) in
    let meta := mk_meta_data (u8 type) (le_dec (c_seq rxc)) (uninit 1) (uninit 2) (uninit 3) (uninit 4) (le_dec (c_enc rxc)) in
    Some (p <| lp_calls := lp_calls p ++ [(frame, meta)] |>).

(** ** Registration *)

(** [strlen] of the text in [msgy]: one before the message is cleared. *)
Definition vmac_register (ok : bool) (getpid : Z) (p : vmac_lib_priv) : option vmac_lib_priv :=
  if negb ok then None
  else
    let size := 1 + 100 in
    let area := repeat 0 (Z.to_nat (MAX_PAYLOAD - NLMSG_HDRLEN)) in
    data ← wrn area 0 (le_enc 8 0);
    sendmsg (p <| lp_key := seqZ 0 16 |> <| nlh_data := data |> <| nlh2_data := area |> <| nlh2_len := MAX_PAYLOAD |>
               <| nlh_len := size |> <| iov_len := size |> <| nlh_pid := getpid |> <| nlh_type := 255 |>
               <| lp_digest64 := 0 |>).
End recv.

(** ** The table of names *)

Definition add_name (name : list Z) (name_len : Z) (p : vmac_lib_priv) : option vmac_lib_priv :=
  digest64 ← siphash24 name name_len (lp_key p);
  let p := p <| lp_digest64 := digest64 |> in
  match lp_names p !! digest64 with
  | None => copy ← rdn name 0 name_len; Some (p <| lp_names := <[digest64 := copy]> (lp_names p) |>)
  | Some _ => Some p
  end.

Definition del_name (name : list Z) (name_len : Z) (p : vmac_lib_priv) : option vmac_lib_priv :=
  digest64 ← siphash24 name name_len (lp_key p);
  Some (p <| lp_digest64 := digest64 |> <| lp_names := delete digest64 (lp_names p) |>).

(** ** Rates

    A row of [rates[]]: rate, [rix], [bw], [sgi] and [stream].  Rates are in
    tenths of Mbit/s; two literals of the table are the same [double] exactly
    when they are the same decimal. *)

Definition rates : list (Z * Z * Z * Z * Z) := [
   (65, 0, 0, 0, 0); (72, 0, 0, 1, 0); (130, 1, 0, 0, 0); (144, 1, 0, 1, 0); (195, 2, 0, 0, 0);
   (217, 2, 0, 1, 0); (260, 3, 0, 0, 0); (289, 3, 0, 1, 0); (390, 4, 0, 0, 0); (433, 4, 0, 1, 0);
   (520, 5, 0, 0, 0); (578, 5, 0, 1, 0); (585, 6, 0, 0, 0); (650, 6, 0, 1, 0); (650, 7, 0, 0, 0);
   (722, 7, 0, 1, 0); (780, 8, 0, 0, 0); (867, 8, 0, 1, 0); (10000, 9, 0, 0, 0); (10010, 9, 0, 1, 0);
   (135, 0, 1, 0, 0); (150, 0, 1, 1, 0); (270, 1, 1, 0, 0); (300, 1, 1, 1, 0); (405, 2, 1, 0, 0);
   (450, 2, 1, 1, 0); (540, 3, 1, 0, 0); (600, 3, 1, 1, 0); (810, 4, 1, 0, 0); (900, 4, 1, 1, 0);
   (1080, 5, 1, 0, 0); (1200, 5, 1, 1, 0); (1215, 6, 1, 0, 0); (1350, 6, 1, 1, 0); (1350, 7, 1, 0, 0);
   (1500, 7, 1, 1, 0); (1620, 8, 1, 0, 0); (1800, 8, 1, 1, 0); (1800, 9, 1, 0, 0); (2000, 9, 1, 1, 0);
   (130, 0, 0, 0, 1); (144, 0, 0, 1, 1); (260, 1, 0, 0, 1); (289, 1, 0, 1, 1); (390, 2, 0, 0, 1);
   (433, 2, 0, 1, 1); (520, 3, 0, 0, 1); (578, 3, 0, 1, 1); (780, 4, 0, 0, 1); (867, 4, 0, 1, 1);
   (1040, 5, 0, 0, 1); (1156, 5, 0, 1, 1); (1170, 6, 0, 0, 1); (1303, 6, 0, 1, 1); (1300, 7, 0, 0, 1);
   (1444, 7, 0, 1, 1); (1560, 8, 0, 0, 1); (1733, 8, 0, 1, 1); (20000, 9, 0, 0, 1); (20010, 9, 0, 1, 1);
   (270, 0, 1, 0, 1); (300, 0, 1, 1, 1); (540, 1, 1, 0, 1); (600, 1, 1, 1, 1); (810, 2, 1, 0, 1);
   (900, 2, 1, 1, 1); (1080, 3, 1, 0, 1); (1200, 3, 1, 1, 1); (1620, 4, 1, 0, 1); (1800, 4, 1, 1, 1);
   (2160, 5, 1, 0, 1); (2400, 5, 1, 1, 1); (2430, 6, 1, 0, 1); (2700, 6, 1, 1, 1); (2700, 7, 1, 0, 1);
   (3000, 7, 1, 1, 1); (3240, 8, 1, 0, 1); (3600, 8, 1, 1, 1); (3600, 9, 1, 0, 1); (4000, 9, 1, 1, 1)].

(** The last row of that rate; 0 when there is none. *)
Definition getrix (rate : Z) : Z :=
  foldl (fun ret '(r, rix, _, _, _) => if r =? rate then rix else ret) 0 rates.

(** [getRate] of stress-test.c: the first row; [None] when the function ends
    without a return. *)
Definition getRate (rix bw sgi stream : Z) : option Z :=
  (fun '(r, _, _, _, _) => r) <$>
    List.find (fun '(_, x, b, g, s) => (x =? rix) && (b =? bw) && (g =? sgi) && (s =? stream)) rates.
