(* ===== verification/UsrspSpec.v ===== *)
(** * The userspace library: messages sent and frames handed to the callback

    What [send_vmac] puts into a message and what [recvvmac] takes out of one,
    composed with the kernel module on both sides. *)

From S2P Require Import Prelude Skb VmacDefs Kernel Tables Tx Dack Rx Netlink TxSpec NetlinkSpec RxSpec RetxSpec DackFrame DeliverySpec System Demo Reliability Delivery Mem SecDefs Radiotap RadiotapSpec Monitor MonitorSpec MonitorLink SipHash SipSpec Usrsp.
(** ** Sending *)

(** The library after [vmac_register]. *)
Record lib_ok (p : vmac_lib_priv) : Prop := {
  lo_key : lp_key p = seqZ 0 16;
  lo_data : mem_len (nlh_data p) = MAX_PAYLOAD - NLMSG_HDRLEN }.


(** The encoding of a name. *)
Definition encoding (name : list Z) : Z := SipHash 2 4 (seqZ 0 16) name.

Lemma key_bytes : bytes (seqZ 0 16).
Proof. by apply bytesb_bytes. Qed.

Lemma send_siphash name junk :
  bytes (name ++ junk) -> siphash24 (name ++ junk) (mem_len name) (seqZ 0 16) = Some (encoding name).
Proof.
  intros Hb. rewrite siphash24_done; [|done|apply key_bytes|done|].
  - unfold mem_len. by rewrite Nat2Z.id, take_app_length.
  - rewrite mem_len_app. pose proof (mem_len_nonneg name); pose proof (mem_len_nonneg junk). lia.
Qed.

(** ** The control block *)

Lemma length_enc_control c : length (c_enc c) = 8%nat -> length (c_seq c) = 2%nat -> length (enc_control c) = sizeof_control.
Proof. intros He Hs. unfold enc_control. rewrite !length_app, He, Hs. done. Qed.


Lemma length_send_control d m : length (enc_control (send_control d m)) = sizeof_control.
Proof. apply length_enc_control; apply length_le_enc. Qed.


Lemma wrn_front buf bs : (length bs <= length buf)%nat -> wrn buf 0 bs = Some (bs ++ drop (length bs) buf).
Proof.
  intros Hl. rewrite <- (take_drop (length bs) buf) at 1.
  apply (wrn_app [] (take (length bs) buf)); [done|]. rewrite length_take. lia.
Qed.



(** The frames [send_vmac] can send: with the buffer of [MAX_PAYLOAD] bytes
    of [vmac_register], a frame goes through exactly when its length is at most
    1900; [len + 100] bytes are sent from that buffer without a check, so a
    longer one is read, and from 1970 on also written, behind its end. *)
Theorem send_vmac_bounds p name junk f m :
  lib_ok p -> vf_InterestName f = Some (name ++ junk) -> bytes (name ++ junk) -> vf_name_len f = mem_len name ->
  is_u16 (vf_len f) -> vf_len f <= mem_len (vf_buf f) ->
  is_Some (send_vmac f m p) <-> vf_len f <= 1900.
Proof.
  intros [Hk Hd] Hn Hnb Hnl Hu Hb. unfold send_vmac.
  rewrite Hn. cbn [mbind option_bind]. rewrite Hk, Hnl, send_siphash by done. cbn [mbind option_bind].
  set (c := enc_control _). assert (length c = 15%nat) as Hc by apply length_send_control.
  change (nlh_data (p <| lp_digest64 := ?a |> <| nlh_type := ?b |>)) with (nlh_data p).
  unfold MAX_PAYLOAD, NLMSG_HDRLEN in Hd. rewrite wrn_front by (unfold mem_len in Hd; lia). cbn [mbind option_bind].
  set (d := c ++ drop (length c) (nlh_data p)).
  assert (mem_len d = 1984) as Hdl by (subst d; unfold mem_len in *; rewrite length_app, length_drop; lia).
  assert (forall d', mem_len d' = 1984 ->
    is_Some (sendmsg (p <| lp_digest64 := encoding name |> <| nlh_type := u16 (md_type m) |> <| nlh_data := d' |>
      <| nlh_len := vf_len f + 100 |> <| iov_len := vf_len f + 100 |>)) <-> vf_len f <= 1900) as Hsend.
  { intros d' Hd'. unfold sendmsg. cbn. unfold rdn, NLMSG_HDRLEN. rewrite Hd'. unfold in_width in Hu.
    destruct (Z.leb_spec 0 (vf_len f + 100 - 16)); [|lia]. cbn [andb Z.leb].
    destruct (Z.leb_spec (0 + (vf_len f + 100 - 16)) 1984); cbn; split; intros Hs; (lia || by eexists || by destruct Hs). }
  destruct (Z.eqb_spec (vf_len f) 0) as [E|E]; cbn [negb mbind option_bind]; [by apply Hsend|].
  unfold in_width in Hu. unfold rdn at 1. rewrite !(proj2 (Z.leb_le _ _)) by lia. cbn [andb mbind option_bind].
  set (buf := take _ _). assert (mem_len buf = vf_len f) as Hbl by (subst buf; unfold mem_len in *; rewrite length_take, length_drop; lia).
  destruct (wrn d (Z.of_nat sizeof_control) buf) as [d'|] eqn:Ew; cbn [mbind option_bind].
  - apply Hsend. unfold mem_len in *. by rewrite (wrn_length _ _ _ _ Ew).
  - unfold wrn in Ew. rewrite Hbl, Hdl in Ew. change (Z.of_nat sizeof_control) with 15 in Ew. cbn [Z.leb Z.compare andb] in Ew.
    destruct (Z.leb_spec (15 + vf_len f) 1984); [done|]. split; [by intros [? ?]|lia].
Qed.



(** ** Receiving *)

Section receive.
Context `{Kernel} (uninit : Z -> Z).









End receive.

(** ** Two programs that exchange a name *)

Definition chat : list Z := [99; 104; 97; 116].


Definition chat_lib (pid : Z) : vmac_lib_priv :=
  let p0 := mk_vmac_lib_priv ∅ 0 0 0 [] 0 0 [] 0 [] [] [] in default p0 (vmac_register true pid p0).

Lemma chat_lib_ok pid : lib_ok (chat_lib pid).
Proof. by split; vm_compute. Qed.






Lemma send_vmac_bounds_witness :
  let f n := mk_vmac_frame (repeat 1 1901) n (Some (chat ++ [0])) 4 in
  let m := mk_meta_data VMAC_FC_DATA 0 60 0 0 0 0 in
  is_Some (send_vmac (f 1900) m (chat_lib 42)) /\ ~ is_Some (send_vmac (f 1901) m (chat_lib 42)).
Proof.
  intros f m.
  assert (forall n, 0 <= n <= 1901 -> is_Some (send_vmac (f n) m (chat_lib 42)) <-> n <= 1900) as H.
  { intros n Hn. apply (send_vmac_bounds (chat_lib 42) chat [0] (f n) m (chat_lib_ok 42)).
    - reflexivity.
    - by apply bytesb_bytes.
    - reflexivity.
    - change (is_u16 n). unfold in_width. lia.
    - change (n <= mem_len (repeat 1 1901)). unfold mem_len. rewrite repeat_length. lia. }
  split; [apply H; lia|]. intros Hs. apply H in Hs; lia.
Defined.

(** Registration: the message makes the kernel module send to the process. *)
Lemma register_done `{Kernel} pid p p' s :
  vmac_register true pid p = Some p' ->
  exists msg, lp_out p' = lp_out p ++ [msg] /\ nl_recv msg s = Done tt (s <| k_pidt := pid |>).
Proof.
  unfold vmac_register. cbn [negb]. rewrite wrn_front by (rewrite repeat_length, length_le_enc; unfold MAX_PAYLOAD, NLMSG_HDRLEN; lia). cbn [mbind option_bind].
  unfold sendmsg. cbn [nlh_data iov_len]. destruct (rdn _ 0 _) as [data|] eqn:E; [|done]. cbn [mbind option_bind].
  intros Hp. apply (inj Some) in Hp. subst p'. eexists. split; [reflexivity|]. done.
Qed.





(** Every combination of index, bandwidth, guard interval and stream has a
    rate; a rate alone does not determine its index. *)
Example rates_complete :
  forallb (fun i => forallb (fun b => forallb (fun g => forallb (fun s =>
    bool_decide (is_Some (getRate i b g s))) [0; 1]) [0; 1]) [0; 1]) (seqZ 0 10) = true.
Proof. by vm_compute. Qed.
Example rate_65_ambiguous : getRate 6 0 1 0 = Some 650 /\ getRate 7 0 0 0 = Some 650 /\ getrix 650 = 7.
Proof. by vm_compute. Qed.
